(* ===== verification/_CoqProject ===== *)
-Q . S2P
Prelude.v
Codec.v
ScanList.v
Commands.v
Indications.v
Messages.v
Store.v
StoreAsync.v
IpListText.v
FaultProbe.v
State.v
Indication.v
Validate.v
RadioConf.v
Persist.v
Handlers.v
WriterTurn.v
IpListLoad.v
Daemon.v
SimEnv.v
Logic.v
Frames.v
Invariant.v
Reachable.v
IpChange.v
Session.v
Answers.v
Notify.v
IpCfgTxn.v
PasswordTxn.v
RadioTxn.v
IpListBoot.v
IpListRestart.v
Nl80211.v
CText.v
EssidMarker.v
EssidChain.v
Routes.v
Conf.v
JsonText.v
Topology.v
DevinfoCfg.v
JsonUtil.v
Roam.v
DeviceFiles.v
ProcFiles.v
PlatformRead.v
NlEvents.v
PlatformRun.v
PlatformApply.v
Startup.v
MainProgram.v
Snapshot.v
Vhlctl.v
FieldDump.v
Board.v
LinkFiles.v
BoardInfo.v
Contract.v
Stub.v
Platforms.v
TypedRun.v
PlatformSetup.v
Children.v
Log.v
VhlPrint.v
