(* ===== verification/Prelude.v ===== *)
(** * wlan-opc: a verified model of the wireless board's control daemon

    ** The program

    The board answers a vehicle controller over UDP. [protocol/] is the wire format: an 8-byte
    fixed header inside a 64-byte common header, ten commands with their acknowledgments and
    seven indications. [opcd/] is the daemon: one epoll loop receives requests, keeps the
    session, validates and stores settings, sends notifications, and applies radio and address
    changes through a platform backend (platform.h; platform_nxp.c on the board). Settings are
    written by a worker thread (store_async.c) over an atomic file store (store.c), and the
    acknowledgment of such a request waits for the write. [vhlctl/] is the command-line client.
    Source paths below are relative to src/.

    ** Files of the development

    Shared: this file (machine integers, byte buffers, C strings, the tactics [guards],
    [guard_cases] and [guard_eval], record updates, generic lemmas) and CText.v (the parts of ctype.h, stdlib.h and
    string.h the text parsers use).

    Wire format: Codec.v (protocol/proto.h, codec.c, frame.c), ScanList.v (scan_chlist.c),
    Commands.v (ids.h, commands.c, strutil.h), Indications.v (indications.c), Messages.v (all
    of them as one family [wire_msg], so that the round trip is one theorem).

    Storage: Store.v (opcd/store.c over a file system whose calls may fail, with the history a
    crash could expose), StoreAsync.v (opcd/store_async.c: the queue as functions, the worker
    as the steps between its lock operations, the system as a step relation interleaving
    them), IpListText.v (iplist_text.c), RadioConf.v (the stored radio configuration of
    handler.c).

    Daemon: State.v ([opcd_state_t] of opcd_state.h as a Record, the state monad [M], and the
    class [Env] of everything the daemon calls outside its own logic: the platform vtable, the
    clocks, the socket, the store's system calls, the probe's readings), Indication.v
    (indication.c), FaultProbe.v, ProcFiles.v and Conf.v (fault_probe.c and the opc.conf
    readers freq_source.c, ip_iface.c, roam_notify_conf.c), Validate.v (the checks of
    handler.c, chan_encode.c), Persist.v (deferred acknowledgments and completions of
    handler.c), Handlers.v (one definition per handler, and [opcd_dispatch]), WriterTurn.v
    (one job of the writer thread inside the daemon's state, from its admission over the
    worker's write to the completion), IpListLoad.v (the IP list at start, handler.c), Daemon.v (the branches of the loop of opcd.c, a turn,
    the exit path), Startup.v (options, configuration, descriptors and systemd_notify.c),
    MainProgram.v ([main]), Snapshot.v (snapshot.c). SimEnv.v is a concrete instance of [Env]
    in which the witnesses run the daemon.

    Reasoning about the daemon: Logic.v (the weakest precondition [wps] of the monad and the
    relation [keeps]), Frames.v (what each operation leaves alone), Invariant.v and
    Reachable.v (the invariant [daemon_ok] and its preservation by every event). Contract.v
    states what the daemon needs of a platform (the class [PlatformContract]: an invariant
    every call keeps, under which the answers have the widths of their fields) with the
    program logic over it, Platforms.v discharges it for both builds, and TypedRun.v carries
    the types of the daemon's data through every event.

    Text and JSON readers: Routes.v (route_lookup.c), JsonText.v and Topology.v (topology.c),
    DevinfoCfg.v (devinfo_cfg.c), JsonUtil.v (json_util.c), Roam.v (roam_datagram.c),
    DeviceFiles.v (inventory.c, ntp_parse.c, reset_cause.c), EssidMarker.v (essid_marker.c).

    Platform (platform_nxp.c): Nl80211.v (nl80211_parse.c), NlEvents.v (the drain of the
    netlink socket), PlatformRead.v (the queries), PlatformRun.v (helper processes and the
    reset hook), Children.v (the loops that read a child's answer: opcd_system_stopping of
    reset_cause.c and the firmware query), PlatformSetup.v (nxp_init, nxp_teardown, the event
    socket), PlatformApply.v (radio and address changes as sequences of calls). Board.v
    discharges the interface [Env] with these operations and the readers of the daemon's files
    (the table g_nxp_ops), LinkFiles.v says what the device's files hold independently of
    those readers, and BoardInfo.v follows GetDeviceInfo through the board. Stub.v is the other
    build's platform (platform_stub.c), and [stub_env] of Platforms.v its operations table.

    Client: Vhlctl.v (vhlctl/vhlctl.c), VhlPrint.v (what it prints), FieldDump.v
    (vhlctl/fielddump.c). Log.v is opcd_log.c.

    ** What the theorems show

    - The whole program: [main_ok] (MainProgram.v) for every command line, set-up failure and
      history of events (the invariant after a run that served; a state still booting and
      without a session after a failed set-up); [daemon_reachable_ok] (Reachable.v) for every state the loop reaches;
      [start_stop_balanced] (Startup.v) for the descriptors; [main_configuration];
      [data_answers_well_formed] (TypedRun.v): on both platforms, after any history, the two
      data acknowledgments are well formed and read back.
    - Sessions and answers (Session.v, Answers.v): a request from somebody who does not hold
      the session changes nothing, without a session only a Login with the stored password
      does, and every response is the acknowledgment of its request. [login_end_to_end]
      (Vhlctl.v) composes the client, the codec and the daemon.
    - Settings as transactions: IpCfgTxn.v (the list handler refines a finite map with an open
      block); RadioTxn.v, PasswordTxn.v (from the request to its answer, written on the spot or
      by the writer thread); IpListBoot.v and IpListRestart.v (the IP list across
      restarts and the customer's file, with both ways of writing); IpChange.v (an address change is committed by the
      Logout that confirms it, from the list as it was then, and a deferred decision is taken);
      EssidChain.v (the ESSID of the volatile change is undone at the next start).
    - Storage: a write is atomic under every failure of its system calls; the queue is FIFO,
      never loses or repeats a job, and drains.
    - Notifications: Notify.v (only to the configured recipient), ProcFiles.v (a congestion is
      announced once, ended once, and announced again only after a re-arm), NlEvents.v (a drain delivers the latest event of each kind).
    - Codecs and readers: the round trip of all messages, the exact set of frames accepted,
      the text form of the IP list, the netlink parser without an out-of-bounds read, the
      JSON scanners against the structure of the document, the route lookup as longest-prefix
      match, the snapshot as a document of RFC 8259 from which its strings read back, the disassembly
      tables against the unpackers.
    - Platform: bounded runs end within their bound once the blocking wait for a killed child
      returns (a hypothesis), the firmware query keeps its interval, the reset hook tells its
      outcomes apart, and what the daemon accepts the platform applies, with the two
      exceptions stated in [validated_slot_applied]. The composition of daemon and platform: from the Logout to the
      commands of an address change ([logout_changes_address], Board.v), from the device's
      files to the acknowledgment of GetDeviceInfo ([device_info_on_board], BoardInfo.v), and
      on to the lines the client's user reads ([device_info_shown], VhlPrint.v). The life of
      the platform is the one main relies on ([platform_setup_refines], PlatformSetup.v), and
      the question to systemd ends at its deadline, under the same hypothesis on the blocking
      wait, with the right answer ([system_stopping_spec], Children.v).

    ** Conventions, bounds and fuel

    A w-bit integer is a [Z]; every conversion the C code makes is written out ([u8], [u16],
    [u32], [i8], ...). Bytes are [Z] with [bytes_ok]. A buffer is the list of its bytes, a char
    array of width n has n of them, and a C string ends at its first NUL ([cstr]). A pointer
    into a text is the text from it on. A result -1 of a packer is [None]. Loops over a text
    take the length of the text as fuel, which is enough because every iteration consumes a
    character; where a theorem depends on it, the lemma of the loop proves the result for every
    fuel that is at least the length. The netlink loops carry fuel and return [OutOfFuel] if it
    ran out, and the theorem excludes that. The worker's run needs at most two steps per queued job
    and two more, and the theorem holds for every fuel from there on. The loop of the daemon is a function of the list of turns, the wait for a child
    process a function of the list of polls, and the blocking wait for a killed child a function
    of the list of its returns; the theorems quantify over the lists.

    Results of system calls, files, the environment variables and the calls into the kernel
    are inputs of the definitions (records of results, functions from a path to its contents,
    or the operations of [Env]), so that every combination of successes and failures is
    covered; [Env] states no law about two calls in a row.

    ** Not modelled

    The lines the daemon's call sites pass to the log and to standard error, and the text
    vhlctl prints for a received notification or an error: nothing depends on them. The
    child's side of fork and exec (redirections and the program run): system calls without a
    decision of the daemon. In [Env] the capability check of a radio configuration is a query,
    so the counter the stub keeps of it for the tests is in Stub.v but not carried by
    [stub_env]. Header files contribute their constants and types; their declarations of
    functions have no separate counterpart. errno values and file ownership are left out except
    where a caller looks at them. The scripts and services around the daemon are another
    language and outside the development. *)
From stdpp Require Import base list numbers option tactics sorting strings.
From Stdlib Require Import ZArith Lia Ascii.

#[local] Open Scope Z_scope.

(** ** Machine integers *)
Module Word.

(** The C conversions to a fixed-width unsigned type: reduction modulo 2^w. *)
Definition u8 (z : Z) : Z := z mod 256.
Definition u16 (z : Z) : Z := z mod 65536.
Definition u32 (z : Z) : Z := z mod 4294967296.
Definition u64 (z : Z) : Z := z mod 18446744073709551616.

(** The conversions to [int8_t] and [int32_t] (two's complement wrap). *)
Definition i8 (z : Z) : Z := (z + 128) mod 256 - 128.
Definition i32 (z : Z) : Z := (z + 2147483648) mod 4294967296 - 2147483648.

(** Value ranges of the types. *)
Definition is_u8 (z : Z) : Prop := 0 <= z < 256.
Definition is_u16 (z : Z) : Prop := 0 <= z < 65536.
Definition is_u32 (z : Z) : Prop := 0 <= z < 4294967296.
Definition is_i8 (z : Z) : Prop := -128 <= z < 128.

(** A byte buffer holds bytes. *)
Definition bytes_ok (bs : list Z) : Prop := Forall is_u8 bs.

#[global] Instance is_u8_dec z : Decision (is_u8 z).
Proof. unfold is_u8. apply _. Defined.
#[global] Instance is_u16_dec z : Decision (is_u16 z).
Proof. unfold is_u16. apply _. Defined.
#[global] Instance is_u32_dec z : Decision (is_u32 z).
Proof. unfold is_u32. apply _. Defined.
#[global] Instance is_i8_dec z : Decision (is_i8 z).
Proof. unfold is_i8. apply _. Defined.
#[global] Instance bytes_ok_dec bs : Decision (bytes_ok bs).
Proof. unfold bytes_ok. apply _. Defined.

Lemma u8_range z : is_u8 (u8 z).
Proof. apply Z.mod_pos_bound. lia. Qed.
Lemma u16_range z : is_u16 (u16 z).
Proof. apply Z.mod_pos_bound. lia. Qed.
Lemma u32_range z : is_u32 (u32 z).
Proof. apply Z.mod_pos_bound. lia. Qed.
Lemma u8_id z : is_u8 z → u8 z = z.
Proof. unfold is_u8, u8. intros. apply Z.mod_small. lia. Qed.
Lemma u16_id z : is_u16 z → u16 z = z.
Proof. unfold is_u16, u16. intros. apply Z.mod_small. lia. Qed.
Lemma u32_id z : is_u32 z → u32 z = z.
Proof. unfold is_u32, u32. intros. apply Z.mod_small. lia. Qed.
Lemma i8_u8 z : is_i8 z → i8 (u8 z) = z.
Proof.
  unfold is_i8, i8, u8. intros.
  rewrite Z.add_mod_idemp_l by lia. rewrite Z.mod_small; lia.
Qed.
Lemma i8_u16 z : is_i8 z → i8 (u16 z) = z.
Proof. unfold is_i8, i8, u16. intros. Z.to_euclidean_division_equations. lia. Qed.

(** Words assembled with [|] and [<<] are sums when the pieces do not overlap. *)
Lemma land_shiftl_low a b n : 0 <= n → 0 <= b < 2 ^ n → Z.land (Z.shiftl a n) b = 0.
Proof.
  intros Hn Hb. apply Z.bits_inj'. intros i Hi.
  rewrite Z.land_spec, Z.bits_0, Z.shiftl_spec by lia.
  destruct (Z.lt_ge_cases i n).
  - by rewrite Z.testbit_neg_r by lia.
  - rewrite andb_comm, <- (Z.mod_small b (2 ^ n)) by lia.
    by rewrite Z.mod_pow2_bits_high by lia.
Qed.

Lemma lor_shiftl_add a b n :
  0 <= n → 0 <= b < 2 ^ n → Z.lor (Z.shiftl a n) b = a * 2 ^ n + b.
Proof.
  intros Hn Hb. pose proof (Z.add_lor_land (Z.shiftl a n) b) as H.
  rewrite land_shiftl_low, Z.shiftl_mul_pow2 in H by lia.
  rewrite Z.shiftl_mul_pow2 by lia. lia.
Qed.
End Word.
Export Word.

(** ** Byte buffers
    Offsets and lengths are Z (C's [size_t] values); [rd] is an in-range array
    read, [write_at] the effect of a bounded copy at an offset, [slice] a
    [memcpy] out of the buffer. *)
Module Buf.

Definition len {A} (l : list A) : Z := Z.of_nat (length l).
Definition zeros (n : Z) : list Z := replicate (Z.to_nat n) 0.
Definition rd (buf : list Z) (off : Z) : Z := default 0 (buf !! Z.to_nat off).
Definition slice (off n : Z) (buf : list Z) : list Z :=
  take (Z.to_nat n) (drop (Z.to_nat off) buf).
Definition write_at (off : Z) (bs buf : list Z) : list Z :=
  take (Z.to_nat off) buf ++ bs ++ drop (Z.to_nat off + length bs) buf.

#[global] Arguments len : simpl never.
#[global] Arguments zeros : simpl never.
#[global] Arguments rd : simpl never.
#[global] Arguments slice : simpl never.
#[global] Arguments write_at : simpl never.

Lemma len_nonneg {A} (l : list A) : 0 <= len l.
Proof. unfold len. lia. Qed.
Lemma len_zeros n : 0 <= n → len (zeros n) = n.
Proof. unfold len, zeros. rewrite length_replicate. lia. Qed.
Lemma len_app {A} (l k : list A) : len (l ++ k) = len l + len k.
Proof. unfold len. rewrite length_app. lia. Qed.
Lemma len_nil {A} : len (@nil A) = 0.
Proof. done. Qed.
Lemma len_cons {A} (x : A) l : len (x :: l) = 1 + len l.
Proof. unfold len. simpl. lia. Qed.

Lemma len_write_at off bs buf :
  0 <= off → off + len bs <= len buf → len (write_at off bs buf) = len buf.
Proof.
  unfold len, write_at. intros. rewrite !length_app, length_take, length_drop. lia.
Qed.

Lemma len_slice off n buf :
  0 <= off → 0 <= n → off + n <= len buf → len (slice off n buf) = n.
Proof. unfold len, slice. intros. rewrite length_take, length_drop. lia. Qed.

Lemma rd_range buf off : bytes_ok buf → is_u8 (rd buf off).
Proof.
  intros H. unfold rd. destruct (buf !! Z.to_nat off) eqn:E; simpl.
  - by eapply Forall_lookup_1 in H.
  - unfold is_u8. lia.
Qed.

(** A read of what [write_at] stored, and of what it left alone. *)
Lemma rd_write_in off bs buf i :
  0 <= off → off + len bs <= len buf → off <= i < off + len bs →
  rd (write_at off bs buf) i = rd bs (i - off).
Proof.
  unfold len, rd, write_at. intros Ho Hl Hi.
  rewrite lookup_app_r by (rewrite length_take; lia).
  rewrite lookup_app_l by (rewrite length_take; lia).
  f_equal. f_equal. rewrite length_take. lia.
Qed.

Lemma rd_write_out off bs buf i :
  0 <= off → 0 <= i → off + len bs <= len buf → i < off ∨ off + len bs <= i →
  rd (write_at off bs buf) i = rd buf i.
Proof.
  unfold len, rd, write_at. intros Ho Hi Hl [H|H]; f_equal.
  - rewrite lookup_app_l by (rewrite length_take; lia).
    rewrite lookup_take_lt by lia. done.
  - rewrite lookup_app_r by (rewrite length_take; lia).
    rewrite lookup_app_r by (rewrite length_take; lia).
    rewrite lookup_drop. f_equal. rewrite length_take. lia.
Qed.

(** [slice] as a sequence of reads, so that slice facts follow from [rd] facts. *)
Lemma list_eq_rd (l k : list Z) :
  len l = len k → (∀ i, 0 <= i < len l → rd l i = rd k i) → l = k.
Proof.
  unfold len, rd. intros Hlen H. apply list_eq_same_length with (n := length k); [lia..|].
  intros i x y Hi Hx Hy. specialize (H (Z.of_nat i)).
  rewrite Nat2Z.id, Hx, Hy in H. apply H. lia.
Qed.

Lemma rd_slice off n buf i :
  0 <= off → 0 <= i < n → rd (slice off n buf) i = rd buf (off + i).
Proof.
  unfold rd, slice. intros. rewrite lookup_take_lt, lookup_drop by lia.
  do 2 f_equal. lia.
Qed.

Lemma slice_write_same off bs buf n :
  0 <= off → off + len bs <= len buf → n = len bs →
  slice off n (write_at off bs buf) = bs.
Proof.
  intros Ho Hl ->. pose proof (len_nonneg bs). apply list_eq_rd.
  - rewrite len_slice; rewrite ?len_write_at; lia.
  - intros i Hi. rewrite len_slice in Hi by (rewrite ?len_write_at; lia).
    rewrite rd_slice, rd_write_in by lia. f_equal. lia.
Qed.

Lemma slice_write_other off off' n bs buf :
  0 <= off → 0 <= off' → 0 <= n → off' + len bs <= len buf → off + n <= len buf →
  off + n <= off' ∨ off' + len bs <= off →
  slice off n (write_at off' bs buf) = slice off n buf.
Proof.
  intros. pose proof (len_nonneg bs). apply list_eq_rd.
  - rewrite !len_slice; rewrite ?len_write_at; lia.
  - intros i Hi. rewrite len_slice in Hi by (rewrite ?len_write_at; lia).
    rewrite !rd_slice, rd_write_out by lia. done.
Qed.

Lemma write_at_bytes off bs buf :
  bytes_ok bs → bytes_ok buf → bytes_ok (write_at off bs buf).
Proof.
  intros Hb Hf. unfold write_at.
  apply Forall_app_2, Forall_app_2; [by apply Forall_take|done|by apply Forall_drop].
Qed.
Lemma slice_bytes off n buf : bytes_ok buf → bytes_ok (slice off n buf).
Proof. intros. unfold slice. by apply Forall_take, Forall_drop. Qed.
Lemma zeros_bytes n : bytes_ok (zeros n).
Proof. apply Forall_replicate. unfold is_u8. lia. Qed.

Lemma slice_app_l l k n : n = len l → slice 0 n (l ++ k) = l.
Proof.
  intros ->. unfold slice, len. rewrite drop_0, Nat2Z.id, take_app_length. done.
Qed.
Lemma drop_app_len (l k : list Z) n : n = len l → drop (Z.to_nat n) (l ++ k) = k.
Proof. intros ->. unfold len. rewrite Nat2Z.id. apply drop_app_length. Qed.
Lemma rd_app_l l k i : 0 <= i < len l → rd (l ++ k) i = rd l i.
Proof. unfold rd, len. intros. rewrite lookup_app_l by lia. done. Qed.
Lemma rd_app_r l k i : len l <= i → rd (l ++ k) i = rd k (i - len l).
Proof.
  unfold rd, len. intros. rewrite lookup_app_r by lia. do 2 f_equal. lia.
Qed.

(** Writing inside the first part of a buffer, and replacing its second part. *)
Lemma write_at_app_l off bs a b :
  0 <= off → off + len bs <= len a → write_at off bs (a ++ b) = write_at off bs a ++ b.
Proof.
  unfold len, write_at. intros. rewrite take_app_le by lia.
  rewrite drop_app_le by lia. by rewrite <- !app_assoc.
Qed.
Lemma write_at_app_r off bs a b :
  off = len a → len bs = len b → write_at off bs (a ++ b) = a ++ bs.
Proof.
  unfold len, write_at. intros -> ?. rewrite Nat2Z.id, take_app_length.
  rewrite drop_ge by (rewrite length_app; lia). by rewrite app_nil_r.
Qed.
Lemma write_at_shift off bs a b n :
  off = len a + n → 0 <= n → write_at off bs (a ++ b) = a ++ write_at n bs b.
Proof.
  unfold len, write_at. intros -> ?. rewrite take_app_ge by lia. rewrite <- app_assoc.
  rewrite drop_app_ge by lia. do 2 f_equal; [f_equal; lia|]. f_equal. f_equal. lia.
Qed.
(** A second write at the same offset that does not reach further than the first. *)
Lemma write_at_twice off bs cs p :
  0 <= off <= len p → len cs <= len bs →
  write_at off cs (write_at off bs p) = write_at off (cs ++ drop (length cs) bs) p.
Proof.
  unfold len. intros Ho Hc. unfold write_at.
  rewrite take_app_length' by (rewrite length_take; lia). rewrite <- app_assoc. do 2 f_equal.
  rewrite drop_app_ge by (rewrite length_take; lia). rewrite length_take.
  rewrite drop_app_le by lia. rewrite length_app, length_drop.
  replace (Z.to_nat off + length cs - Z.to_nat off `min` length p)%nat with (length cs) by lia.
  f_equal. f_equal. lia.
Qed.
Lemma write_at_whole bs b : len bs = len b → write_at 0 bs b = bs.
Proof. intros. by apply (write_at_app_r 0 bs []). Qed.
Lemma zeros_app n m : 0 <= n → 0 <= m → zeros (n + m) = zeros n ++ zeros m.
Proof. intros. unfold zeros. rewrite Z2Nat.inj_add by lia. apply replicate_add. Qed.
End Buf.
Export Buf.

(** ** Filtered maps *)

Lemma omap_weaken_sorted {A B} (R : relation B) (f g : A → option B) l :
  (∀ x y, g x = Some y → f x = Some y) →
  StronglySorted R (omap f l) → StronglySorted R (omap g l).
Proof.
  intros Hgf. induction l as [|x l IH]; [done|]. simpl. intros Hs.
  destruct (g x) as [y|] eqn:G.
  - rewrite (Hgf _ _ G) in Hs. apply StronglySorted_inv in Hs as [Hs Hf].
    constructor; [by apply IH|]. rewrite !Forall_forall in *. intros z Hz. apply Hf.
    apply list_elem_of_omap in Hz as (w & Hw & Gw). apply list_elem_of_omap. eauto.
  - apply IH. destruct (f x); [by apply StronglySorted_inv in Hs as [? _]|done].
Qed.

(** ** Hint databases
    [wire]: the sizes and offsets of the wire formats, unfolded before arithmetic.
    [bytes]: the operations that keep a buffer a sequence of bytes. *)
Create HintDb wire.
Create HintDb bytes.
#[export] Hint Resolve write_at_bytes slice_bytes zeros_bytes rd_range : bytes.

(** ** Boolean guards
    The C conditions are boolean tests; [guards] turns the ones in the context into
    arithmetic facts, and [guard_cases] splits the guards of the goal first. *)
Ltac guard_step :=
  match goal with
  | H : (_ <? _) = true |- _ => apply Z.ltb_lt in H
  | H : (_ <? _) = false |- _ => apply Z.ltb_ge in H
  | H : (_ <=? _) = true |- _ => apply Z.leb_le in H
  | H : (_ <=? _) = false |- _ => apply Z.leb_gt in H
  | H : (_ =? _) = true |- _ => apply Z.eqb_eq in H
  | H : (_ =? _) = false |- _ => apply Z.eqb_neq in H
  | H : negb _ = true |- _ => apply negb_true_iff in H
  | H : negb _ = false |- _ => apply negb_false_iff in H
  | H : (_ && _)%bool = true |- _ => apply andb_true_iff in H; destruct H
  | H : (_ || _)%bool = false |- _ => apply orb_false_iff in H; destruct H
  | H : (_ || _)%bool = true |- _ => apply orb_true_iff in H
  | H : (_ && _)%bool = false |- _ => apply andb_false_iff in H
  | H : _ = true ∨ _ |- _ => destruct H
  | H : _ = false ∨ _ |- _ => destruct H
  | H : bool_decide _ = true |- _ => apply bool_decide_eq_true_1 in H
  | H : bool_decide _ = false |- _ => apply bool_decide_eq_false_1 in H
  end.
Ltac guards := repeat guard_step.
Ltac guard_cases := repeat (case_match; simplify_eq); guards.
(** Evaluates the guards of the goal that arithmetic decides. *)
Ltac guard_eval :=
  repeat match goal with
  | |- context [?a <? ?b] =>
      first [rewrite (proj2 (Z.ltb_lt a b)) by lia | rewrite (proj2 (Z.ltb_ge a b)) by lia]
  | |- context [?a <=? ?b] =>
      first [rewrite (proj2 (Z.leb_le a b)) by lia | rewrite (proj2 (Z.leb_gt a b)) by lia]
  | |- context [?a =? ?b] =>
      first [rewrite (proj2 (Z.eqb_eq a b)) by lia | rewrite (proj2 (Z.eqb_neq a b)) by lia]
  end.

(** ** Record update
    [r <| f := v |>] is the C assignment [r.f = v] (or [r->f = v]) on a struct held
    by value. A record opts in with an [Eta] instance listing its fields. *)
Class Eta (R : Type) := eta : R -> R.
Class Setter {R T} (proj : R -> T) := setter : T -> R -> R.
Arguments setter {R T} proj {_} v r : rename.
Ltac mk_setter proj :=
  lazymatch type of proj with
  | ?R -> ?T =>
      let f := constr:(fun (v : T) (r : R) =>
        ltac:(let e := eval cbv beta delta [eta] in (@eta R _ r) in
              let e := eval hnf in e in
              let p := eval pattern (proj r) in e in
              lazymatch p with
              | ?g _ => let t := eval cbv beta in (g v) in exact t
              end)) in
      exact f
  end.
#[export] Hint Extern 1 (Setter ?proj) => mk_setter proj : typeclass_instances.
Declare Scope record_scope.
Notation "r '<|' p ':=' v '|>'" := (setter p v r)
  (at level 1, p at level 9, left associativity,
   format "r  <| p  :=  v |>") : record_scope.
#[global] Open Scope record_scope.

(** ** Text
    The bytes of a string literal, the C string in a char array (up to its first NUL),
    and [printf]'s [%u]. *)
Module Text.

Definition str (s : String.string) : list Z :=
  map (λ a, Z.of_N (N_of_ascii a)) (String.list_ascii_of_string s).

Fixpoint cstr (a : list Z) : list Z :=
  match a with
  | [] => []
  | c :: a' => if c =? 0 then [] else c :: cstr a'
  end.

Fixpoint dec_loop (fuel : nat) (n : Z) (acc : list Z) : list Z :=
  match fuel with
  | O => acc
  | S f => let acc := (48 + n mod 10) :: acc in
           if n / 10 =? 0 then acc else dec_loop f (n / 10) acc
  end.
(** Ten digits are enough for an [unsigned]. *)
Definition dec (n : Z) : list Z := dec_loop 10 n [].

Definition is_digit (c : Z) : bool := (48 <=? c) && (c <=? 57).

Lemma is_digit_add d : 0 <= d < 10 → is_digit (48 + d) = true.
Proof. intros. unfold is_digit. apply andb_true_iff. split; apply Z.leb_le; lia. Qed.

(** The three shapes of a number below 1000. *)
Lemma dec_1 n : 0 <= n < 10 → dec n = [48 + n].
Proof.
  intros. unfold dec. cbn [dec_loop]. rewrite (Z.div_small n 10), (Z.mod_small n 10) by lia. done.
Qed.
Lemma dec_2 n : 10 <= n < 100 → dec n = [48 + n / 10; 48 + n mod 10].
Proof.
  intros. unfold dec. cbn [dec_loop].
  rewrite (proj2 (Z.eqb_neq (n / 10) 0)) by (Z.to_euclidean_division_equations; lia).
  rewrite (Z.div_small (n / 10) 10), (Z.mod_small (n / 10) 10)
    by (Z.to_euclidean_division_equations; lia). done.
Qed.
Lemma dec_3 n : 100 <= n < 1000 → dec n = [48 + n / 100; 48 + n / 10 mod 10; 48 + n mod 10].
Proof.
  intros. unfold dec. cbn [dec_loop].
  rewrite (proj2 (Z.eqb_neq (n / 10) 0)) by (Z.to_euclidean_division_equations; lia).
  rewrite (proj2 (Z.eqb_neq (n / 10 / 10) 0)) by (Z.to_euclidean_division_equations; lia).
  rewrite (Z.div_div n 10 10) by lia. change (10 * 10) with 100.
  rewrite (Z.div_small (n / 100) 10), (Z.mod_small (n / 100) 10)
    by (Z.to_euclidean_division_equations; lia). done.
Qed.

Lemma cstr_bytes a : bytes_ok a → bytes_ok (cstr a).
Proof. induction 1; simpl; [constructor|]. case_match; by constructor. Qed.
Lemma cstr_length a : (length (cstr a) <= length a)%nat.
Proof. induction a; simpl; [lia|]. case_match; simpl; lia. Qed.
End Text.
Export Text.
