(* ===== verification/Codec.v ===== *)
(** * Wire codec: protocol/proto.h, protocol/codec.c, protocol/frame.c

    Big-endian primitives, the 8-byte fixed header, the 64-byte common header and
    the frame builder and parser every command and indication goes through. *)
From S2P Require Import Prelude.
From stdpp Require Import base list numbers option tactics.
From Stdlib Require Import ZArith Lia.
#[local] Open Scope Z_scope.

(** ** proto.h constants *)
Module Proto.
Definition OPC_PROTOCOL_VERSION : Z := 1.
Definition OPC_FIXED_HEADER_SIZE : Z := 8.
Definition OPC_HEADER_SIZE : Z := 64.
Definition OPC_PAYLOAD_MAX : Z := 1360.
Definition OPC_FRAME_MAX : Z := 1424.
Definition OPC_CMD_REQUEST : Z := 1.
Definition OPC_CMD_ACK : Z := 2.
Definition OPC_CMD_INDICATION : Z := 3.
Definition OPC_RESULT_OK : Z := 0.
Definition OPC_RESULT_NG : Z := 1.
Definition OPC_ERR_NONE : Z := 0.
Definition OPC_ERR_LOGIN_VIOLATION : Z := 1.
Definition OPC_ERR_LOGIN_CONDITION : Z := 2.
Definition OPC_ERR_PACKET_SIZE : Z := 3.
Definition OPC_ERR_NVRAM : Z := 4.
End Proto.
Export Proto.
#[export] Hint Unfold OPC_FIXED_HEADER_SIZE OPC_HEADER_SIZE OPC_PAYLOAD_MAX OPC_FRAME_MAX : wire.

(** ** codec.c *)
Module Codec.

Definition opc_be16_read (p : list Z) (off : Z) : Z :=
  u16 (Z.lor (Z.shiftl (rd p off) 8) (rd p (off + 1))).

Definition opc_be32_read (p : list Z) (off : Z) : Z :=
  Z.lor (Z.lor (Z.lor (Z.shiftl (rd p off) 24) (Z.shiftl (rd p (off + 1)) 16))
               (Z.shiftl (rd p (off + 2)) 8))
        (rd p (off + 3)).

Definition opc_be16_write (p : list Z) (off v : Z) : list Z :=
  write_at off [u8 (Z.shiftr v 8); u8 v] p.

Definition opc_be32_write (p : list Z) (off v : Z) : list Z :=
  write_at off [u8 (Z.shiftr v 24); u8 (Z.shiftr v 16); u8 (Z.shiftr v 8); u8 v] p.

(** A store [p[off] = v] of a byte already converted to [uint8_t]. *)
Definition put8 (p : list Z) (off v : Z) : list Z := write_at off [v] p.

Record opc_header_t := mk_header {
  protocol_version : Z;
  command_type : Z;
  req_indication_id : Z;
  sequence_number : Z;
  hdr_length : Z;
}.

Definition header_ok (h : opc_header_t) : Prop :=
  is_u8 (protocol_version h) ∧ is_u8 (command_type h) ∧
  is_u16 (req_indication_id h) ∧ is_u16 (sequence_number h) ∧ is_u16 (hdr_length h).

Definition opc_fixed_header_pack (buf : list Z) (hdr : opc_header_t) : list Z :=
  let buf := put8 buf 0 (protocol_version hdr) in
  let buf := put8 buf 1 (command_type hdr) in
  let buf := opc_be16_write buf 2 (req_indication_id hdr) in
  let buf := opc_be16_write buf 4 (sequence_number hdr) in
  opc_be16_write buf 6 (hdr_length hdr).

Definition opc_header_pack (buf : list Z) (hdr : opc_header_t) : list Z :=
  opc_fixed_header_pack (write_at 0 (zeros OPC_HEADER_SIZE) buf) hdr.

Definition opc_fixed_header_unpack (buf : list Z) : option opc_header_t :=
  if len buf <? OPC_FIXED_HEADER_SIZE then None
  else Some {| protocol_version := rd buf 0;
               command_type := rd buf 1;
               req_indication_id := opc_be16_read buf 2;
               sequence_number := opc_be16_read buf 4;
               hdr_length := opc_be16_read buf 6 |}.

Definition opc_header_unpack (buf : list Z) : option opc_header_t :=
  if len buf <? OPC_HEADER_SIZE then None else opc_fixed_header_unpack buf.

(** *** Facts about the primitives *)

Lemma shiftr8 v : 0 <= v → Z.shiftr v 8 = v / 256.
Proof. intros. rewrite Z.shiftr_div_pow2 by lia. done. Qed.

(** [(v >> 8) << 8 | v] over the two bytes gives the 16-bit value back. *)
Lemma be16_combine v :
  is_u16 v → u16 (Z.lor (Z.shiftl (u8 (Z.shiftr v 8)) 8) (u8 v)) = v.
Proof.
  unfold is_u16. intros Hv. pose proof (u8_range v).
  rewrite lor_shiftl_add by (unfold is_u8 in *; lia).
  rewrite shiftr8 by lia. unfold u16, u8 in *.
  change (2 ^ 8) with 256. Z.to_euclidean_division_equations. lia.
Qed.

Lemma be32_combine v :
  is_u32 v →
  Z.lor (Z.lor (Z.lor (Z.shiftl (u8 (Z.shiftr v 24)) 24) (Z.shiftl (u8 (Z.shiftr v 16)) 16))
               (Z.shiftl (u8 (Z.shiftr v 8)) 8)) (u8 v) = v.
Proof.
  unfold is_u32. intros Hv.
  pose proof (u8_range v). pose proof (u8_range (Z.shiftr v 8)).
  pose proof (u8_range (Z.shiftr v 16)).
  rewrite <- !Z.lor_assoc.
  rewrite (lor_shiftl_add _ (u8 v)) by (unfold is_u8 in *; lia).
  rewrite (lor_shiftl_add (u8 (Z.shiftr v 16))) by (unfold is_u8 in *; lia).
  rewrite lor_shiftl_add by (unfold is_u8 in *; lia).
  rewrite !Z.shiftr_div_pow2 by lia. unfold u8.
  change (2 ^ 24) with 16777216. change (2 ^ 16) with 65536. change (2 ^ 8) with 256.
  Z.to_euclidean_division_equations. lia.
Qed.

Lemma len_be16_write p off v :
  0 <= off → off + 2 <= len p → len (opc_be16_write p off v) = len p.
Proof. intros. unfold opc_be16_write. apply len_write_at; rewrite ?len_cons, ?len_nil; lia. Qed.
Lemma len_be32_write p off v :
  0 <= off → off + 4 <= len p → len (opc_be32_write p off v) = len p.
Proof. intros. unfold opc_be32_write. apply len_write_at; rewrite ?len_cons, ?len_nil; lia. Qed.
Lemma len_put8 p off v : 0 <= off → off + 1 <= len p → len (put8 p off v) = len p.
Proof. intros. unfold put8. apply len_write_at; rewrite ?len_cons, ?len_nil; lia. Qed.

(** A read after a write at the same place returns the value written. *)
Lemma be16_read_write p off v :
  0 <= off → off + 2 <= len p → is_u16 v →
  opc_be16_read (opc_be16_write p off v) off = v.
Proof.
  intros. unfold opc_be16_read, opc_be16_write.
  rewrite !rd_write_in by (rewrite ?len_cons, ?len_nil; lia).
  replace (off - off) with 0 by lia. replace (off + 1 - off) with 1 by lia.
  by apply be16_combine.
Qed.

Lemma be32_read_write p off v :
  0 <= off → off + 4 <= len p → is_u32 v →
  opc_be32_read (opc_be32_write p off v) off = v.
Proof.
  intros. unfold opc_be32_read, opc_be32_write.
  rewrite !rd_write_in by (rewrite ?len_cons, ?len_nil; lia).
  replace (off - off) with 0 by lia. replace (off + 1 - off) with 1 by lia.
  replace (off + 2 - off) with 2 by lia. replace (off + 3 - off) with 3 by lia.
  by apply be32_combine.
Qed.

Lemma rd_put8 p off v : 0 <= off → off + 1 <= len p → rd (put8 p off v) off = v.
Proof.
  intros. unfold put8. rewrite rd_write_in by (rewrite ?len_cons, ?len_nil; lia).
  by replace (off - off) with 0 by lia.
Qed.

(** A read elsewhere does not see the write. *)
Section Disjoint.
Context (p bs : list Z) (off off' : Z).
Hypothesis Hoff' : 0 <= off'.
Hypothesis Hin : off' + len bs <= len p.

Lemma be16_read_other :
  0 <= off → off + 2 <= off' ∨ off' + len bs <= off →
  opc_be16_read (write_at off' bs p) off = opc_be16_read p off.
Proof. intros. unfold opc_be16_read. rewrite !rd_write_out by lia. done. Qed.

Lemma be32_read_other :
  0 <= off → off + 4 <= off' ∨ off' + len bs <= off →
  opc_be32_read (write_at off' bs p) off = opc_be32_read p off.
Proof. intros. unfold opc_be32_read. rewrite !rd_write_out by lia. done. Qed.
End Disjoint.

Lemma opc_be16_read_range p off : is_u16 (opc_be16_read p off).
Proof. apply u16_range. Qed.

Lemma be16_write_bytes p off v : bytes_ok p → bytes_ok (opc_be16_write p off v).
Proof. intros. apply write_at_bytes; [|done]. repeat constructor; apply Z.mod_pos_bound; lia. Qed.
Lemma be32_write_bytes p off v : bytes_ok p → bytes_ok (opc_be32_write p off v).
Proof. intros. apply write_at_bytes; [|done]. repeat constructor; apply Z.mod_pos_bound; lia. Qed.
Lemma put8_bytes p off v : is_u8 v → bytes_ok p → bytes_ok (put8 p off v).
Proof. intros. apply write_at_bytes; [|done]. constructor; [done|constructor]. Qed.

(** *** Automation: reads through a stack of writes
    [buf_side] discharges the bounds of a read or a write whose buffer is itself a
    stack of writes over a buffer of known length; [buf_step] moves one read below
    one write, and [buf_read] repeats it until every read is a value or reads the
    initial buffer. *)
Lemma put8_len p off v n : len p = n → 0 <= off → off + 1 <= n → len (put8 p off v) = n.
Proof. intros <- ??. by apply len_put8. Qed.
Lemma be16_write_len p off v n :
  len p = n → 0 <= off → off + 2 <= n → len (opc_be16_write p off v) = n.
Proof. intros <- ??. by apply len_be16_write. Qed.
Lemma be32_write_len p off v n :
  len p = n → 0 <= off → off + 4 <= n → len (opc_be32_write p off v) = n.
Proof. intros <- ??. by apply len_be32_write. Qed.
Lemma write_at_len p off bs k n :
  len p = n → len bs = k → 0 <= off → off + k <= n → len (write_at off bs p) = n.
Proof. intros <- <- ??. by apply len_write_at. Qed.

(** [len_chain] proves [len t = ?n] for a stack of writes, innermost first, so that
    each length is computed once. *)
Ltac len_chain :=
  lazymatch goal with
  | |- len (put8 _ _ _) = _ => eapply put8_len; [len_chain | lia | lia]
  | |- len (opc_be16_write _ _ _) = _ => eapply be16_write_len; [len_chain | lia | lia]
  | |- len (opc_be32_write _ _ _) = _ => eapply be32_write_len; [len_chain | lia | lia]
  | |- len (write_at _ _ _) = _ => eapply write_at_len; [len_chain | len_chain | lia | lia]
  | |- len (zeros ?n) = _ => apply len_zeros; lia
  | |- len (_ :: _) = _ => rewrite ?len_cons, ?len_nil; reflexivity
  | |- len _ = _ => first [eassumption | reflexivity]
  end.
Ltac buf_len :=
  lazymatch goal with
  | |- context [len (put8 ?p ?o ?v)] => len_rw (put8 p o v)
  | |- context [len (opc_be16_write ?p ?o ?v)] => len_rw (opc_be16_write p o v)
  | |- context [len (opc_be32_write ?p ?o ?v)] => len_rw (opc_be32_write p o v)
  | |- context [len (write_at ?o ?b ?p)] => len_rw (write_at o b p)
  | |- context [len (zeros ?n)] => rewrite (len_zeros n) by lia
  | |- context [len (?l ++ ?k)] => rewrite (len_app l k)
  | |- context [len (?x :: ?l)] => rewrite (len_cons x l)
  | |- context [len (@nil ?A)] => rewrite (@len_nil A)
  end
with len_rw t :=
  let H := fresh in eassert (H : len t = _) by len_chain; rewrite H; clear H.
Ltac buf_side := autounfold with wire; repeat buf_len; lia.

Lemma be16_read_put8 p off o v :
  0 <= off → 0 <= o → o + 1 <= len p → off + 2 <= o ∨ o + 1 <= off →
  opc_be16_read (put8 p o v) off = opc_be16_read p off.
Proof. intros. apply be16_read_other; rewrite ?len_cons, ?len_nil; lia. Qed.
Lemma be16_read_be16 p off o v :
  0 <= off → 0 <= o → o + 2 <= len p → off + 2 <= o ∨ o + 2 <= off →
  opc_be16_read (opc_be16_write p o v) off = opc_be16_read p off.
Proof. intros. apply be16_read_other; rewrite ?len_cons, ?len_nil; lia. Qed.
Lemma be16_read_be32 p off o v :
  0 <= off → 0 <= o → o + 4 <= len p → off + 2 <= o ∨ o + 4 <= off →
  opc_be16_read (opc_be32_write p o v) off = opc_be16_read p off.
Proof. intros. apply be16_read_other; rewrite ?len_cons, ?len_nil; lia. Qed.
Lemma be32_read_put8 p off o v :
  0 <= off → 0 <= o → o + 1 <= len p → off + 4 <= o ∨ o + 1 <= off →
  opc_be32_read (put8 p o v) off = opc_be32_read p off.
Proof. intros. apply be32_read_other; rewrite ?len_cons, ?len_nil; lia. Qed.
Lemma be32_read_be16 p off o v :
  0 <= off → 0 <= o → o + 2 <= len p → off + 4 <= o ∨ o + 2 <= off →
  opc_be32_read (opc_be16_write p o v) off = opc_be32_read p off.
Proof. intros. apply be32_read_other; rewrite ?len_cons, ?len_nil; lia. Qed.
Lemma be32_read_be32 p off o v :
  0 <= off → 0 <= o → o + 4 <= len p → off + 4 <= o ∨ o + 4 <= off →
  opc_be32_read (opc_be32_write p o v) off = opc_be32_read p off.
Proof. intros. apply be32_read_other; rewrite ?len_cons, ?len_nil; lia. Qed.
Lemma rd_put8_out p off o v :
  0 <= off → 0 <= o → o + 1 <= len p → off < o ∨ o + 1 <= off →
  rd (put8 p o v) off = rd p off.
Proof. intros. apply rd_write_out; rewrite ?len_cons, ?len_nil; lia. Qed.
Lemma rd_be16_out p off o v :
  0 <= off → 0 <= o → o + 2 <= len p → off < o ∨ o + 2 <= off →
  rd (opc_be16_write p o v) off = rd p off.
Proof. intros. apply rd_write_out; rewrite ?len_cons, ?len_nil; lia. Qed.
Lemma rd_be32_out p off o v :
  0 <= off → 0 <= o → o + 4 <= len p → off < o ∨ o + 4 <= off →
  rd (opc_be32_write p o v) off = rd p off.
Proof. intros. apply rd_write_out; rewrite ?len_cons, ?len_nil; lia. Qed.
Lemma slice_put8 p off n o v :
  0 <= off → 0 <= o → 0 <= n → o + 1 <= len p → off + n <= len p →
  off + n <= o ∨ o + 1 <= off → slice off n (put8 p o v) = slice off n p.
Proof. intros. apply slice_write_other; rewrite ?len_cons, ?len_nil; lia. Qed.
Lemma slice_be16 p off n o v :
  0 <= off → 0 <= o → 0 <= n → o + 2 <= len p → off + n <= len p →
  off + n <= o ∨ o + 2 <= off → slice off n (opc_be16_write p o v) = slice off n p.
Proof. intros. apply slice_write_other; rewrite ?len_cons, ?len_nil; lia. Qed.
Lemma slice_be32 p off n o v :
  0 <= off → 0 <= o → 0 <= n → o + 4 <= len p → off + n <= len p →
  off + n <= o ∨ o + 4 <= off → slice off n (opc_be32_write p o v) = slice off n p.
Proof. intros. apply slice_write_other; rewrite ?len_cons, ?len_nil; lia. Qed.

Ltac buf_step :=
  lazymatch goal with
  | |- context [rd (put8 ?p ?o ?v) ?i] =>
      first [ rewrite (rd_put8 p o v) by buf_side
            | rewrite (rd_put8_out p i o v) by buf_side ]
  | |- context [rd (opc_be16_write ?p ?o ?v) ?i] => rewrite (rd_be16_out p i o v) by buf_side
  | |- context [rd (opc_be32_write ?p ?o ?v) ?i] => rewrite (rd_be32_out p i o v) by buf_side
  | |- context [rd (write_at ?o ?b ?p) ?i] => rewrite (rd_write_out o b p i) by buf_side
  | |- context [opc_be16_read (put8 ?p ?o ?v) ?i] => rewrite (be16_read_put8 p i o v) by buf_side
  | |- context [opc_be16_read (opc_be16_write ?p ?o ?v) ?i] =>
      first [ rewrite (be16_read_write p o v) by (first [assumption | buf_side])
            | rewrite (be16_read_be16 p i o v) by buf_side ]
  | |- context [opc_be16_read (opc_be32_write ?p ?o ?v) ?i] => rewrite (be16_read_be32 p i o v) by buf_side
  | |- context [opc_be16_read (write_at ?o ?b ?p) ?i] => rewrite (be16_read_other p b i o) by buf_side
  | |- context [opc_be32_read (put8 ?p ?o ?v) ?i] => rewrite (be32_read_put8 p i o v) by buf_side
  | |- context [opc_be32_read (opc_be16_write ?p ?o ?v) ?i] => rewrite (be32_read_be16 p i o v) by buf_side
  | |- context [opc_be32_read (opc_be32_write ?p ?o ?v) ?i] =>
      first [ rewrite (be32_read_write p o v) by (first [assumption | buf_side])
            | rewrite (be32_read_be32 p i o v) by buf_side ]
  | |- context [opc_be32_read (write_at ?o ?b ?p) ?i] => rewrite (be32_read_other p b i o) by buf_side
  | |- context [slice ?i ?n (put8 ?p ?o ?v)] => rewrite (slice_put8 p i n o v) by buf_side
  | |- context [slice ?i ?n (opc_be16_write ?p ?o ?v)] => rewrite (slice_be16 p i n o v) by buf_side
  | |- context [slice ?i ?n (opc_be32_write ?p ?o ?v)] => rewrite (slice_be32 p i n o v) by buf_side
  | |- context [slice ?i ?n (write_at ?o ?b ?p)] =>
      first [ rewrite (slice_write_same o b p n) by buf_side
            | rewrite (slice_write_other i o n b p) by buf_side ]
  end.
Ltac buf_read := repeat buf_step.

(** The header survives a pack into, and an unpack from, any buffer that holds it. *)
Lemma fixed_header_unpack_pack buf hdr :
  header_ok hdr → OPC_FIXED_HEADER_SIZE <= len buf →
  opc_fixed_header_unpack (opc_fixed_header_pack buf hdr) = Some hdr.
Proof.
  unfold OPC_FIXED_HEADER_SIZE. intros (?&?&?&?&?) ?.
  unfold opc_fixed_header_unpack, opc_fixed_header_pack, OPC_FIXED_HEADER_SIZE.
  repeat buf_len. rewrite (proj2 (Z.ltb_ge _ _)) by done.
  buf_read. by destruct hdr.
Qed.

Lemma len_fixed_header_pack buf hdr :
  OPC_FIXED_HEADER_SIZE <= len buf → len (opc_fixed_header_pack buf hdr) = len buf.
Proof.
  unfold OPC_FIXED_HEADER_SIZE. intros. unfold opc_fixed_header_pack. by repeat buf_len.
Qed.

Lemma fixed_header_pack_bytes buf hdr :
  header_ok hdr → bytes_ok buf → bytes_ok (opc_fixed_header_pack buf hdr).
Proof.
  intros (?&?&_) ?. unfold opc_fixed_header_pack.
  by repeat first [apply be16_write_bytes | apply put8_bytes].
Qed.

Lemma fixed_header_unpack_ok buf hdr :
  bytes_ok buf → opc_fixed_header_unpack buf = Some hdr → header_ok hdr.
Proof.
  unfold opc_fixed_header_unpack. intros Hb H. case_match; simplify_eq.
  repeat split; first [apply rd_range; done | apply opc_be16_read_range].
Qed.

End Codec.
Export Codec.
#[export] Hint Resolve be16_write_bytes be32_write_bytes put8_bytes fixed_header_pack_bytes : bytes.

(** ** Layouts
    A message body is a zeroed buffer after a sequence of writes of fields at ascending,
    non-overlapping offsets. Reading a field back at its offset then returns the bytes
    written there, whatever the other fields are. *)
Module Layout.

Definition apply_writes (ws : list (Z * list Z)) (p : list Z) : list Z :=
  foldl (λ p w, write_at w.1 w.2 p) p ws.

Fixpoint layout_ok (pos : Z) (ws : list (Z * list Z)) (n : Z) : Prop :=
  match ws with
  | [] => pos <= n
  | (off, bs) :: ws' => pos <= off ∧ layout_ok (off + len bs) ws' n
  end.

Lemma layout_ok_pos pos ws n : layout_ok pos ws n → pos <= n.
Proof.
  revert pos. induction ws as [|[off bs] ws IH]; intros pos; [done|].
  intros [? ?%IH]. pose proof (len_nonneg bs). lia.
Qed.

Lemma len_apply_writes pos ws p :
  0 <= pos → layout_ok pos ws (len p) → len (apply_writes ws p) = len p.
Proof.
  revert pos p. induction ws as [|[off bs] ws IH]; intros pos p Hp; [done|].
  intros [Ho Hl]. pose proof (layout_ok_pos _ _ _ Hl). pose proof (len_nonneg bs). cbn.
  assert (Hw : len (write_at off bs p) = len p) by (apply len_write_at; lia).
  fold (apply_writes ws (write_at off bs p)).
  rewrite (IH (off + len bs)); [done|lia|by rewrite Hw].
Qed.

Lemma slice_apply_before pos ws p off n :
  0 <= off → 0 <= n → off + n <= pos → layout_ok pos ws (len p) →
  slice off n (apply_writes ws p) = slice off n p.
Proof.
  intros Ho Hn. revert pos p. induction ws as [|[o bs] ws IH]; intros pos p Hp; [done|].
  intros [Hpo Hl]. pose proof (layout_ok_pos _ _ _ Hl). pose proof (len_nonneg bs). cbn.
  assert (Hw : len (write_at o bs p) = len p) by (apply len_write_at; lia).
  fold (apply_writes ws (write_at o bs p)).
  rewrite (IH (o + len bs)); [|lia|by rewrite Hw]. apply slice_write_other; lia.
Qed.

Lemma slice_apply_in pos ws p off bs n :
  0 <= pos → layout_ok pos ws (len p) → (off, bs) ∈ ws → n = len bs →
  slice off n (apply_writes ws p) = bs.
Proof.
  intros Hp Hl Hin ->. revert pos p Hp Hl Hin.
  induction ws as [|[o b] ws IH]; intros pos p Hp Hl Hin; [by apply elem_of_nil in Hin|].
  destruct Hl as [Hpo Hl]. pose proof (layout_ok_pos _ _ _ Hl). pose proof (len_nonneg b). cbn.
  assert (Hw : len (write_at o b p) = len p) by (apply len_write_at; lia).
  fold (apply_writes ws (write_at o b p)).
  apply elem_of_cons in Hin as [[= <- <-]|Hin].
  - rewrite (slice_apply_before (off + len bs)); [|lia..|by rewrite Hw].
    apply slice_write_same; lia.
  - apply (IH (o + len b)); [lia|by rewrite Hw|done].
Qed.

Lemma rd_via_slice p off : 0 <= off → rd p off = rd (slice off 1 p) 0.
Proof. intros. rewrite rd_slice by lia. f_equal. lia. Qed.
Lemma be16_via_slice p off : 0 <= off → opc_be16_read p off = opc_be16_read (slice off 2 p) 0.
Proof.
  intros. unfold opc_be16_read. rewrite !rd_slice by lia. by replace (off + 0) with off by lia.
Qed.
Lemma be32_via_slice p off : 0 <= off → opc_be32_read p off = opc_be32_read (slice off 4 p) 0.
Proof.
  intros. unfold opc_be32_read. rewrite !rd_slice by lia. by replace (off + 0) with off by lia.
Qed.

Section Fields.
Context (ws : list (Z * list Z)) (n : Z).
Hypothesis Hl : layout_ok 0 ws n.

Lemma body_nonneg : 0 <= n.
Proof. by apply (layout_ok_pos 0 ws). Qed.

Lemma len_body : len (apply_writes ws (zeros n)) = n.
Proof. pose proof body_nonneg. rewrite (len_apply_writes 0); rewrite ?len_zeros; done. Qed.

Lemma field_bytes off bs k :
  (off, bs) ∈ ws → k = len bs → slice off k (apply_writes ws (zeros n)) = bs.
Proof. intros. pose proof body_nonneg. apply (slice_apply_in 0); rewrite ?len_zeros; done. Qed.

Lemma field_rd off v : (off, [v]) ∈ ws → 0 <= off → rd (apply_writes ws (zeros n)) off = v.
Proof. intros. rewrite rd_via_slice by done. by rewrite (field_bytes off [v] 1). Qed.

Lemma field_be16 off v :
  (off, [u8 (Z.shiftr v 8); u8 v]) ∈ ws → 0 <= off → is_u16 v →
  opc_be16_read (apply_writes ws (zeros n)) off = v.
Proof.
  intros. rewrite be16_via_slice by done. rewrite (field_bytes off _ 2 H) by done. by apply be16_combine.
Qed.

Lemma field_be32 off v :
  (off, [u8 (Z.shiftr v 24); u8 (Z.shiftr v 16); u8 (Z.shiftr v 8); u8 v]) ∈ ws →
  0 <= off → is_u32 v →
  opc_be32_read (apply_writes ws (zeros n)) off = v.
Proof.
  intros. rewrite be32_via_slice by done. rewrite (field_bytes off _ 4 H) by done. by apply be32_combine.
Qed.
End Fields.

(** [as_layout b]: presents the buffer [b], a stack of writes over [zeros n], as
    [apply_writes ws (zeros n)] and names [ws]. *)
Ltac collect t acc :=
  lazymatch t with
  | write_at ?o ?b ?p => collect p constr:((o, b) :: acc)
  | put8 ?p ?o ?v => collect p constr:((o, [v]) :: acc)
  | opc_be16_write ?p ?o ?v => collect p constr:((o, [u8 (Z.shiftr v 8); u8 v]) :: acc)
  | opc_be32_write ?p ?o ?v =>
      collect p constr:((o, [u8 (Z.shiftr v 24); u8 (Z.shiftr v 16); u8 (Z.shiftr v 8); u8 v]) :: acc)
  | zeros ?n => constr:((acc, n))
  end.
Ltac as_writes :=
  cbv beta iota zeta delta [apply_writes foldl fst snd put8 opc_be16_write opc_be32_write];
  reflexivity.
Ltac in_layout := repeat first [apply list_elem_of_here | apply list_elem_of_further].
Ltac layout_solve :=
  cbn [layout_ok]; repeat (split; [repeat buf_len; lia|]); repeat buf_len; lia.
(** Rewrites every field read of the layout body in the goal to the value written. *)
Ltac layout_read Hl :=
  repeat first
    [ erewrite (field_be16 _ _ Hl) by (first [solve [in_layout] | lia | assumption])
    | erewrite (field_be32 _ _ Hl) by (first [solve [in_layout] | lia | assumption])
    | erewrite (field_rd _ _ Hl) by (first [solve [in_layout] | lia])
    | erewrite (field_bytes _ _ Hl) by (first [solve [in_layout] | repeat buf_len; lia]) ].
End Layout.
Export Layout.

(** ** frame.c
    [frame] is the caller's buffer; every byte below the returned length is
    overwritten, so the builders return those bytes ([None] is the C result -1) and
    start from a zeroed buffer. [cap] is the caller's capacity. *)
Module Frame.

Definition opc_frame_build (cap cmd_type req_id seq_no length_field : Z) (body : list Z)
    : option (list Z) :=
  let body_len := len body in
  if OPC_PAYLOAD_MAX <? body_len then None
  else if cap <? OPC_HEADER_SIZE + body_len then None
  else
    let hdr := {| protocol_version := OPC_PROTOCOL_VERSION; command_type := cmd_type;
                  req_indication_id := req_id; sequence_number := seq_no;
                  hdr_length := length_field |} in
    let frame := opc_header_pack (zeros (OPC_HEADER_SIZE + body_len)) hdr in
    let frame := if 0 <? body_len then write_at OPC_HEADER_SIZE body frame else frame in
    Some frame.

Definition opc_empty_frame_build (cap cmd_type req_id seq_no : Z) : option (list Z) :=
  if cap <? OPC_FIXED_HEADER_SIZE then None
  else
    let hdr := {| protocol_version := OPC_PROTOCOL_VERSION; command_type := cmd_type;
                  req_indication_id := req_id; sequence_number := seq_no;
                  hdr_length := 0 |} in
    Some (opc_fixed_header_pack (zeros OPC_FIXED_HEADER_SIZE) hdr).

(** The header and the body ([body_out], [body_len_out]); a NULL body is empty. *)
Definition opc_frame_parse (frame : list Z) : option (opc_header_t * list Z) :=
  let frame_len := len frame in
  if frame_len <? OPC_FIXED_HEADER_SIZE then None
  else if OPC_FRAME_MAX <? frame_len then None
  else if negb (frame_len =? OPC_FIXED_HEADER_SIZE) && (frame_len <? OPC_HEADER_SIZE) then None
  else match opc_fixed_header_unpack frame with
       | None => None
       | Some hdr_out =>
           if negb (hdr_length hdr_out =? frame_len - OPC_FIXED_HEADER_SIZE) then None
           else if OPC_HEADER_SIZE <=? frame_len
                then Some (hdr_out, drop (Z.to_nat OPC_HEADER_SIZE) frame)
                else Some (hdr_out, [])
       end.

(** What it means for a datagram to be a well-formed frame of the protocol: a
    header-only frame, or one with the common header, in both cases not longer
    than the protocol allows and with the length field telling the truth. *)
Definition wf_frame (frame : list Z) (hdr : opc_header_t) (body : list Z) : Prop :=
  opc_fixed_header_unpack frame = Some hdr ∧ hdr_length hdr = len frame - 8 ∧
  (len frame = 8 ∧ body = [] ∨
   64 <= len frame <= 1424 ∧ ∃ common, len common = 64 ∧ frame = common ++ body).

Lemma wf_frame_parse frame hdr body :
  wf_frame frame hdr body → opc_frame_parse frame = Some (hdr, body).
Proof.
  intros (Hu & Hl & Hb). unfold opc_frame_parse.
  rewrite Hu, Hl. unfold OPC_FIXED_HEADER_SIZE, OPC_HEADER_SIZE, OPC_FRAME_MAX.
  destruct Hb as [[H8 ->]|(H64 & c & Hc & ->)].
  - rewrite H8. done.
  - guard_eval. simpl. by rewrite (drop_app_len c body 64).
Qed.

Lemma parse_wf_frame frame hdr body :
  opc_frame_parse frame = Some (hdr, body) → wf_frame frame hdr body.
Proof.
  unfold opc_frame_parse, OPC_FIXED_HEADER_SIZE, OPC_HEADER_SIZE, OPC_FRAME_MAX.
  intros H. guard_cases; (split; [done|split; [lia|]]); try (left; split; [lia|done]).
  all: right; split; [lia|]; exists (take 64 frame); split; [|symmetry; apply take_drop].
  all: unfold len in *; rewrite length_take; lia.
Qed.

(** C29: [opc_frame_parse] accepts exactly the well-formed frames: 8 bytes, or 64 to
    1424 bytes, with the header's length field equal to the datagram size minus 8;
    what it returns is that header and the bytes after the 64-byte common header. *)
Theorem opc_frame_parse_spec frame hdr body :
  opc_frame_parse frame = Some (hdr, body) ↔ wf_frame frame hdr body.
Proof. split; [apply parse_wf_frame | apply wf_frame_parse]. Qed.

Lemma fixed_header_pack_app a b hdr :
  8 <= len a → opc_fixed_header_pack (a ++ b) hdr = opc_fixed_header_pack a hdr ++ b.
Proof.
  intros. unfold opc_fixed_header_pack, put8, opc_be16_write.
  by rewrite !write_at_app_l by buf_side.
Qed.

(** The bytes of a built frame: a packed common header followed by the body. *)
Lemma frame_build_inv cap ct id seq lf body frame :
  opc_frame_build cap ct id seq lf body = Some frame →
  len body <= 1360 ∧ 64 + len body <= cap ∧
  frame = opc_fixed_header_pack (zeros 64)
            {| protocol_version := 1; command_type := ct; req_indication_id := id;
               sequence_number := seq; hdr_length := lf |} ++ body.
Proof.
  unfold opc_frame_build, OPC_HEADER_SIZE, OPC_PAYLOAD_MAX, opc_header_pack.
  pose proof (len_nonneg body) as Hb. rewrite zeros_app by lia.
  rewrite write_at_app_l, write_at_whole by buf_side.
  rewrite fixed_header_pack_app by buf_side.
  intros H. guard_cases; (split; [lia|split; [lia|]]).
  - rewrite write_at_app_r; [done|rewrite len_fixed_header_pack; [by buf_side|] |]; by buf_side.
  - by destruct body; [|rewrite len_cons in *; pose proof (len_nonneg body); lia].
Qed.

Lemma frame_build_some cap ct id seq lf body :
  len body <= 1360 → 64 + len body <= cap →
  is_Some (opc_frame_build cap ct id seq lf body).
Proof.
  intros. unfold opc_frame_build, OPC_PAYLOAD_MAX, OPC_HEADER_SIZE. guard_eval. eauto.
Qed.

Lemma len_frame_build cap ct id seq lf body frame :
  opc_frame_build cap ct id seq lf body = Some frame → len frame = 64 + len body.
Proof.
  intros (_&_&->)%frame_build_inv. rewrite len_app, len_fixed_header_pack; [|done]. buf_side.
Qed.

Lemma fixed_header_unpack_app a b hdr :
  opc_fixed_header_unpack a = Some hdr → opc_fixed_header_unpack (a ++ b) = Some hdr.
Proof.
  unfold opc_fixed_header_unpack, opc_be16_read, OPC_FIXED_HEADER_SIZE. intros H.
  destruct (len a <? 8) eqn:E; simplify_eq. guards.
  rewrite len_app. pose proof (len_nonneg b). guard_eval.
  by rewrite !rd_app_l by lia.
Qed.

Lemma frame_build_parse cap ct id seq body frame :
  is_u8 ct → is_u16 id → is_u16 seq →
  opc_frame_build cap ct id seq (len body + 56) body = Some frame →
  opc_frame_parse frame =
    Some ({| protocol_version := 1; command_type := ct; req_indication_id := id;
             sequence_number := seq; hdr_length := len body + 56 |}, body).
Proof.
  intros ??? H. pose proof (len_frame_build _ _ _ _ _ _ _ H).
  apply frame_build_inv in H as (Hb & _ & ->). pose proof (len_nonneg body).
  apply wf_frame_parse. split; [|split; [cbn [hdr_length]; lia|right; split; [lia|]]].
  - apply fixed_header_unpack_app, fixed_header_unpack_pack; [|done].
    unfold header_ok, is_u8, is_u16 in *; simpl; lia.
  - eexists; split; [|done]. rewrite len_fixed_header_pack; [|done]. buf_side.
Qed.

(** Every frame [opc_frame_build] produces with the length field of the protocol
    (body plus the 56 reserve bytes) parses back to the same header and body, and the
    builder does produce one whenever the body and the capacity allow it. *)
Theorem opc_frame_build_parse cap ct id seq body :
  is_u8 ct → is_u16 id → is_u16 seq → len body <= OPC_PAYLOAD_MAX →
  OPC_HEADER_SIZE + len body <= cap →
  ∃ frame, opc_frame_build cap ct id seq (len body + 56) body = Some frame ∧
    len frame <= OPC_FRAME_MAX ∧
    opc_frame_parse frame =
      Some ({| protocol_version := OPC_PROTOCOL_VERSION; command_type := ct;
               req_indication_id := id; sequence_number := seq;
               hdr_length := len body + 56 |}, body).
Proof.
  intros ??? Hb Hc. destruct (frame_build_some cap ct id seq (len body + 56) body Hb Hc) as [f Hf].
  exists f. split; [done|]. split; [|by eapply frame_build_parse].
  apply len_frame_build in Hf. unfold OPC_FRAME_MAX, OPC_PAYLOAD_MAX in *. lia.
Qed.

Lemma opc_frame_build_parse_witness :
  ∃ frame, opc_frame_build 1424 2 256 7 (len [0; 0; 0; 0] + 56) [0; 0; 0; 0] = Some frame ∧
    len frame <= OPC_FRAME_MAX ∧
    opc_frame_parse frame =
      Some ({| protocol_version := OPC_PROTOCOL_VERSION; command_type := 2;
               req_indication_id := 256; sequence_number := 7;
               hdr_length := len [0; 0; 0; 0] + 56 |}, [0; 0; 0; 0]).
Proof. apply (opc_frame_build_parse 1424 2 256 7 [0; 0; 0; 0]); vm_compute; intuition discriminate. Defined.

Lemma empty_frame_parse cap ct id seq :
  is_u8 ct → is_u16 id → is_u16 seq → OPC_FIXED_HEADER_SIZE <= cap →
  ∃ frame, opc_empty_frame_build cap ct id seq = Some frame ∧ len frame = 8 ∧
    opc_frame_parse frame =
      Some ({| protocol_version := OPC_PROTOCOL_VERSION; command_type := ct;
               req_indication_id := id; sequence_number := seq; hdr_length := 0 |}, []).
Proof.
  unfold OPC_FIXED_HEADER_SIZE. intros ??? Hc.
  unfold opc_empty_frame_build, OPC_FIXED_HEADER_SIZE. guard_eval.
  eexists; split; [done|].
  match goal with |- len ?f = 8 ∧ _ => assert (Hl : len f = 8) by
    (rewrite len_fixed_header_pack; [by buf_side|unfold OPC_FIXED_HEADER_SIZE; buf_side]) end.
  split; [done|]. apply wf_frame_parse. split; [|split; [by rewrite Hl|by left]].
  apply fixed_header_unpack_pack; [|unfold OPC_FIXED_HEADER_SIZE; buf_side].
  unfold header_ok, is_u8, is_u16, OPC_PROTOCOL_VERSION in *; simpl; lia.
Qed.

(** A header-only request ([opc_empty_frame_build]) is 8 bytes long, carries
    Length 0 and parses back to the same header with no body. *)
Theorem opc_empty_frame_build_parse cap ct id seq :
  is_u8 ct → is_u16 id → is_u16 seq → OPC_FIXED_HEADER_SIZE <= cap →
  ∃ frame, opc_empty_frame_build cap ct id seq = Some frame ∧ len frame = 8 ∧
    opc_frame_parse frame =
      Some ({| protocol_version := OPC_PROTOCOL_VERSION; command_type := ct;
               req_indication_id := id; sequence_number := seq; hdr_length := 0 |}, []).
Proof. apply empty_frame_parse. Qed.

Lemma opc_empty_frame_build_parse_witness :
  ∃ frame, opc_empty_frame_build 8 1 257 9 = Some frame ∧ len frame = 8 ∧
    opc_frame_parse frame =
      Some ({| protocol_version := OPC_PROTOCOL_VERSION; command_type := 1;
               req_indication_id := 257; sequence_number := 9; hdr_length := 0 |}, []).
Proof. apply (opc_empty_frame_build_parse 8 1 257 9); vm_compute; intuition discriminate. Defined.
End Frame.
Export Frame.
