(* ===== verification/ScanList.v ===== *)
(** * SCAN Frequency Band and SCAN Channel List: protocol/scan_chlist.h, scan_chlist.c

    The band tables (channel of a row and bit, and back), and the operations on the
    8-byte channel list in wire order: two big-endian 32-bit rows, row A first. *)
From S2P Require Import Prelude.
From stdpp Require Import base list numbers option tactics sorting.
From Stdlib Require Import ZArith Lia.
#[local] Open Scope Z_scope.

Module ScanList.

Definition OPC_SCAN_BAND_2_4GHZ : Z := 1.
Definition OPC_SCAN_BAND_5GHZ : Z := 2.
Definition OPC_SCAN_BAND_6GHZ : Z := 6.
Definition OPC_SCAN_BAND_UNSET : Z := 65535.
Definition OPC_SCAN_CHLIST_LEN : Z := 8.
Definition OPC_SCAN_ROW_A_FIRST : bool := true.
Definition OPC_SCAN_ROW_A : Z := 0.
Definition OPC_SCAN_ROW_B : Z := 1.

Definition opc_scan_band_or_unset (band : Z) : Z :=
  if band =? 0 then OPC_SCAN_BAND_UNSET else band.

Definition opc_scan_band_known (band : Z) : bool :=
  (band =? OPC_SCAN_BAND_2_4GHZ) || (band =? OPC_SCAN_BAND_5GHZ) || (band =? OPC_SCAN_BAND_6GHZ).

Definition opc_scan_band_supported (band : Z) : bool :=
  (band =? OPC_SCAN_BAND_2_4GHZ) || (band =? OPC_SCAN_BAND_5GHZ).

Definition opc_scan_row_channel (band row bit : Z) : Z :=
  if (bit <? 0) || (31 <? bit) then 0
  else if band =? OPC_SCAN_BAND_2_4GHZ then
    if (row =? OPC_SCAN_ROW_A) && (bit <=? 13) then u8 (bit + 1) else 0
  else if band =? OPC_SCAN_BAND_5GHZ then
    if negb (row =? OPC_SCAN_ROW_A) then 0
    else if bit <=? 7 then u8 (36 + 4 * bit)
    else if bit <=? 19 then u8 (100 + 4 * (bit - 8))
    else if bit <=? 24 then u8 (149 + 4 * (bit - 20))
    else 0
  else if band =? OPC_SCAN_BAND_6GHZ then
    if row =? OPC_SCAN_ROW_A then u8 (1 + 4 * bit)
    else if (row =? OPC_SCAN_ROW_B) && (bit <=? 26) then u8 (129 + 4 * bit)
    else 0
  else 0.

(** The positions the nested [for] loops visit, in their order. *)
Definition scan_rows : list Z := [OPC_SCAN_ROW_A; OPC_SCAN_ROW_B].
Definition scan_bits : list Z := seqZ 0 32.
Definition scan_positions : list (Z * Z) := list_prod scan_rows scan_bits.

(** [Some (row, bit)] when the C function returns true. *)
Definition opc_scan_bit_for_channel (band ch : Z) : option (Z * Z) :=
  if (ch =? 0) || negb (opc_scan_band_known band) then None
  else List.find (fun '(r, b) => opc_scan_row_channel band r b =? ch) scan_positions.

Definition opc_scan_channel_mhz (band ch : Z) : Z :=
  match opc_scan_bit_for_channel band ch with
  | None => 0
  | Some _ =>
      if band =? OPC_SCAN_BAND_2_4GHZ then (if ch =? 14 then 2484 else u16 (2407 + 5 * ch))
      else if band =? OPC_SCAN_BAND_5GHZ then u16 (5000 + 5 * ch)
      else if band =? OPC_SCAN_BAND_6GHZ then u16 (5950 + 5 * ch)
      else 0
  end.

Definition row_offset (row : Z) : Z :=
  let idx := if OPC_SCAN_ROW_A_FIRST then row else 1 - row in idx * 4.

Definition opc_scan_row_word (l : list Z) (row : Z) : Z :=
  let p := row_offset row in
  Z.lor (Z.lor (Z.lor (Z.shiftl (rd l p) 24) (Z.shiftl (rd l (p + 1)) 16))
               (Z.shiftl (rd l (p + 2)) 8))
        (rd l (p + 3)).

Definition row_set_bit (l : list Z) (row bit : Z) : list Z :=
  let off := row_offset row + 3 - bit / 8 in
  write_at off [Z.lor (rd l off) (u8 (Z.shiftl 1 (bit mod 8)))] l.

Definition opc_scan_list_set_channel (l : list Z) (band ch : Z) : list Z :=
  match opc_scan_bit_for_channel band ch with
  | Some (row, bit) => row_set_bit l row bit
  | None => l
  end.

Definition opc_scan_list_empty (l : list Z) : bool :=
  forallb (fun i => rd l i =? 0) (seqZ 0 OPC_SCAN_CHLIST_LEN).

(** The returned flag and the list after the in-place move. *)
Definition opc_scan_list_normalize_rows (band : Z) (l : list Z) : bool * list Z :=
  if negb (band =? OPC_SCAN_BAND_2_4GHZ) && negb (band =? OPC_SCAN_BAND_5GHZ) then (false, l)
  else
    let a := opc_scan_row_word l OPC_SCAN_ROW_A in
    let b := opc_scan_row_word l OPC_SCAN_ROW_B in
    if negb (a =? 0) || (b =? 0) then (false, l)
    else
      let ao := if OPC_SCAN_ROW_A_FIRST then 0 else 4 in
      let bo := if OPC_SCAN_ROW_A_FIRST then 4 else 0 in
      let l := write_at ao (slice bo 4 l) l in
      (true, write_at bo (zeros 4) l).

(** [((w >> b) & 1u)] as a condition. *)
Definition word_bit (w b : Z) : bool := negb (Z.land (Z.shiftr w b) 1 =? 0).

(** The inner validity loop: every set bit of the row's word is an assigned channel. *)
Definition row_bits_assigned (band r w : Z) : bool :=
  forallb (fun b => negb (word_bit w b && (opc_scan_row_channel band r b =? 0))) scan_bits.

Definition opc_scan_list_valid (band : Z) (l : list Z) : bool :=
  if negb (opc_scan_band_known band) then opc_scan_list_empty l
  else if band =? OPC_SCAN_BAND_6GHZ then
    forallb (fun r => row_bits_assigned band r (opc_scan_row_word l r)) scan_rows
  else if negb (opc_scan_row_word l OPC_SCAN_ROW_B =? 0) then false
  else row_bits_assigned band OPC_SCAN_ROW_A (opc_scan_row_word l OPC_SCAN_ROW_A).

(** The channels one pass over a row selects, in bit order. *)
Definition row_channels (band : Z) (all : bool) (r w : Z) : list Z :=
  omap (fun b => let ch := opc_scan_row_channel band r b in
                 if ch =? 0 then None
                 else if all || word_bit w b then Some ch else None) scan_bits.

(** All channels selected; the C function counts them and stores the first [max]. *)
Definition scan_selected (band : Z) (l : list Z) : list Z :=
  if negb (opc_scan_band_known band) then []
  else
    let all := opc_scan_list_empty l in
    if band =? OPC_SCAN_BAND_6GHZ then
      concat (map (fun r => row_channels band all r (opc_scan_row_word l r)) scan_rows)
    else row_channels band all OPC_SCAN_ROW_A (opc_scan_row_word l OPC_SCAN_ROW_A).

Definition opc_scan_list_channels (band : Z) (l : list Z) (max : Z) : Z * list Z :=
  let sel := scan_selected band l in (len sel, take (Z.to_nat max) sel).

(** (freq_mhz, ch_field). *)
Definition opc_scan_derive_freq_ch (band : Z) (l : list Z) : Z * Z :=
  if negb (opc_scan_band_known band) || opc_scan_list_empty l then (0, 0)
  else match opc_scan_list_channels band l 1 with
       | (0, _) => (0, 0)
       | (_, out) =>
           let ch := rd out 0 in
           let mhz := opc_scan_channel_mhz band ch in
           if mhz =? 0 then (0, 0)
           else (mhz, u16 (Z.lor (Z.shiftl (Z.land band 255) 8) ch))
       end.

(** ** The band tables *)

Lemma known_cases band : opc_scan_band_known band = true → band = 1 ∨ band = 2 ∨ band = 6.
Proof.
  unfold opc_scan_band_known, OPC_SCAN_BAND_2_4GHZ, OPC_SCAN_BAND_5GHZ, OPC_SCAN_BAND_6GHZ.
  intros H. guards; auto.
Qed.

Definition in_grid (r b : Z) : Prop := (r = 0 ∨ r = 1) ∧ 0 <= b < 32.

Lemma scan_positions_grid r b : (r, b) ∈ scan_positions ↔ in_grid r b.
Proof.
  unfold scan_positions, in_grid. rewrite list_elem_of_In, in_prod_iff, <- !list_elem_of_In.
  unfold scan_rows, scan_bits, OPC_SCAN_ROW_A, OPC_SCAN_ROW_B.
  rewrite elem_of_seqZ, elem_of_cons, list_elem_of_singleton. lia.
Qed.

(** The table holds every channel at one position: checked by evaluating it. *)
Lemma row_channel_inj_check :
  forallb (fun band => forallb (fun p => forallb (fun q =>
     let c := opc_scan_row_channel band p.1 p.2 in
     implb (negb (c =? 0) && (c =? opc_scan_row_channel band q.1 q.2))
           ((p.1 =? q.1) && (p.2 =? q.2)))
     scan_positions) scan_positions) [1; 2; 6] = true.
Proof. vm_compute. reflexivity. Qed.

Lemma row_channel_inj band r b r' b' :
  opc_scan_band_known band = true → in_grid r b → in_grid r' b' →
  opc_scan_row_channel band r b ≠ 0 →
  opc_scan_row_channel band r b = opc_scan_row_channel band r' b' → r = r' ∧ b = b'.
Proof.
  intros Hk%known_cases H H' Hnz Heq. pose proof row_channel_inj_check as Hc.
  rewrite forallb_forall in Hc. assert (Hb : In band [1; 2; 6]) by (simpl; intuition).
  apply Hc in Hb. rewrite forallb_forall in Hb.
  apply scan_positions_grid, list_elem_of_In in H, H'.
  apply Hb in H. rewrite forallb_forall in H. apply H in H' as Hc'. clear Hc. rename Hc' into Hc.
  cbn [fst snd] in Hc. rewrite <- Heq, Z.eqb_refl, andb_true_r in Hc.
  destruct (_ =? 0) eqn:E; guards; [done|]. simpl in Hc. guards. done.
Qed.

Lemma opc_scan_bit_for_channel_iff band ch r b :
  opc_scan_band_known band = true →
  opc_scan_bit_for_channel band ch = Some (r, b) ↔
  in_grid r b ∧ ch ≠ 0 ∧ opc_scan_row_channel band r b = ch.
Proof.
  intros Hk. unfold opc_scan_bit_for_channel. rewrite Hk, orb_false_r. split.
  - intros H. guard_cases. apply List.find_some in H as [Hin Heq]. guards.
    split; [|done]. by apply scan_positions_grid, list_elem_of_In.
  - intros (Hg & Hnz & Heq). guard_eval.
    destruct (List.find _ _) as [[r' b']|] eqn:F.
    + apply List.find_some in F as [Hin Hf]. guards.
      destruct (row_channel_inj band r b r' b'); try congruence.
      by apply scan_positions_grid, list_elem_of_In.
    + apply (List.find_none _ _) with (x := (r, b)) in F; [guards; congruence|].
      by apply list_elem_of_In, scan_positions_grid.
Qed.

(** For a known band, looking a channel up and reading the table back are
    inverse: [opc_scan_bit_for_channel] finds (row, bit) exactly when that position of
    the table carries the (nonzero) channel. *)
Theorem opc_scan_bit_for_channel_spec band ch r b :
  opc_scan_band_known band = true →
  opc_scan_bit_for_channel band ch = Some (r, b) ↔
  in_grid r b ∧ ch ≠ 0 ∧ opc_scan_row_channel band r b = ch.
Proof. apply opc_scan_bit_for_channel_iff. Qed.

Lemma opc_scan_bit_for_channel_witness :
  opc_scan_bit_for_channel 2 149 = Some (0, 20) ↔
  in_grid 0 20 ∧ 149 ≠ 0 ∧ opc_scan_row_channel 2 0 20 = 149.
Proof. apply (opc_scan_bit_for_channel_spec 2 149 0 20). reflexivity. Defined.

(** ** Bits of a row *)

Lemma word_bit_testbit w b : 0 <= b → word_bit w b = Z.testbit w b.
Proof.
  intros. unfold word_bit. change 1 with (Z.ones 1). rewrite Z.land_ones by lia.
  change (2 ^ 1) with 2. rewrite <- (Z.add_0_l b) at 2. rewrite <- Z.shiftr_spec by lia.
  rewrite Z.bit0_odd, Zmod_odd. by destruct (Z.odd _).
Qed.

Lemma byte_testbit_high v i : is_u8 v → 8 <= i → Z.testbit v i = false.
Proof.
  unfold is_u8. intros. rewrite <- (Z.mod_small v (2 ^ 8)) by (simpl; lia).
  by apply Z.mod_pow2_bits_high.
Qed.

(** Bit [i] of a big-endian word built from four bytes is a bit of one byte. *)
Lemma be_word_testbit a b c d i :
  is_u8 a → is_u8 b → is_u8 c → is_u8 d → 0 <= i < 32 →
  Z.testbit (Z.lor (Z.lor (Z.lor (Z.shiftl a 24) (Z.shiftl b 16)) (Z.shiftl c 8)) d) i =
  Z.testbit (if i <? 8 then d else if i <? 16 then c else if i <? 24 then b else a) (i mod 8).
Proof.
  intros. rewrite !Z.lor_spec, !Z.shiftl_spec by lia.
  assert (Hi : i = 8 * (i / 8) + i mod 8) by (apply Z.div_mod; lia).
  pose proof (Z.mod_pos_bound i 8 ltac:(lia)). set (q := i / 8) in *. set (m := i mod 8) in *.
  assert (q = 0 ∨ q = 1 ∨ q = 2 ∨ q = 3) as [Hq|[Hq|[Hq|Hq]]] by lia; rewrite Hq in Hi;
    guard_eval; rewrite ?(Z.testbit_neg_r a), ?(Z.testbit_neg_r b), ?(Z.testbit_neg_r c) by lia;
    rewrite ?(byte_testbit_high d i), ?(byte_testbit_high c (i - 8)),
      ?(byte_testbit_high b (i - 16)) by (done || lia);
    rewrite ?orb_false_r, ?orb_false_l; f_equal; lia.
Qed.

Definition list_ok (l : list Z) : Prop := bytes_ok l ∧ len l = OPC_SCAN_CHLIST_LEN.
#[global] Instance list_ok_dec l : Decision (list_ok l).
Proof. unfold list_ok. apply _. Defined.

Lemma row_word_testbit l r i :
  list_ok l → 0 <= i < 32 →
  Z.testbit (opc_scan_row_word l r) i = Z.testbit (rd l (row_offset r + 3 - i / 8)) (i mod 8).
Proof.
  intros [Hb _] Hi. unfold opc_scan_row_word. rewrite be_word_testbit by auto using rd_range.
  assert (i / 8 = 0 ∧ i < 8 ∨ i / 8 = 1 ∧ 8 <= i < 16 ∨ i / 8 = 2 ∧ 16 <= i < 24 ∨
          i / 8 = 3 ∧ 24 <= i) as [[-> ?]|[[-> ?]|[[-> ?]|[-> ?]]]]
    by (Z.to_euclidean_division_equations; lia); guard_eval; do 2 f_equal; lia.
Qed.

Lemma row_word_nonneg l r : list_ok l → 0 <= opc_scan_row_word l r.
Proof.
  intros [Hb _]. pose proof (λ i, rd_range l i Hb) as H. unfold is_u8 in H.
  unfold opc_scan_row_word. rewrite !Z.lor_nonneg, !Z.shiftl_nonneg.
  split_and!; apply H.
Qed.

Lemma lor_pow2_byte v m : is_u8 v → 0 <= m < 8 → is_u8 (Z.lor v (2 ^ m)).
Proof.
  unfold is_u8. intros. split; [apply Z.lor_nonneg; lia|]. change 256 with (2 ^ 8).
  apply Z.log2_lt_cancel. rewrite Z.log2_lor, Z.log2_pow2, Z.log2_pow2 by lia.
  pose proof (Z.log2_le_mono v 255 ltac:(lia)). change (Z.log2 255) with 7 in *. lia.
Qed.

(** [row_set_bit] sets that bit of that row's word and no other. *)
Lemma row_set_bit_testbit l r b r' i :
  list_ok l → in_grid r b → in_grid r' i →
  Z.testbit (opc_scan_row_word (row_set_bit l r b) r') i =
  Z.testbit (opc_scan_row_word l r') i || ((r =? r') && (b =? i)).
Proof.
  intros Hl [Hr Hb] [Hr' Hi]. pose proof Hl as [Hbytes Hlen]. unfold OPC_SCAN_CHLIST_LEN in Hlen.
  assert (Hq : 0 <= b / 8 < 4) by (Z.to_euclidean_division_equations; lia).
  assert (Hq' : 0 <= i / 8 < 4) by (Z.to_euclidean_division_equations; lia).
  assert (Hlen1 : ∀ x : Z, len [x] = 1) by done.
  assert (Hm : 0 <= b mod 8 < 8) by (apply Z.mod_pos_bound; lia).
  assert (Hm' : 0 <= i mod 8 < 8) by (apply Z.mod_pos_bound; lia).
  assert (Hu : u8 (Z.shiftl 1 (b mod 8)) = 2 ^ (b mod 8)).
  { rewrite Z.shiftl_1_l. apply u8_id. split; [lia|]. change 256 with (2 ^ 8).
    apply Z.pow_lt_mono_r; lia. }
  pose proof (lor_pow2_byte _ _ (rd_range l (row_offset r + 3 - b / 8) Hbytes) Hm) as Hbyte.
  unfold row_set_bit. rewrite Hu. unfold row_offset, OPC_SCAN_ROW_A_FIRST in *.
  rewrite !row_word_testbit; [|done|lia|split; [|]|lia].
  2:{ apply write_at_bytes; [constructor; [done|constructor]|done]. }
  2:{ unfold OPC_SCAN_CHLIST_LEN. rewrite len_write_at; rewrite ?Hlen1; lia. }
  unfold row_offset, OPC_SCAN_ROW_A_FIRST.
  destruct (decide (r * 4 + 3 - b / 8 = r' * 4 + 3 - i / 8)) as [Heq|Hne].
  - assert (r = r' ∧ b / 8 = i / 8) as [-> Hbi] by lia.
    rewrite rd_write_in by (rewrite ?Hlen1; lia). rewrite Heq, Z.sub_diag.
    change (rd [?x] 0) with x. unfold rd at 1. simpl. rewrite Z.lor_spec, Z.pow2_bits_eqb by lia.
    rewrite Z.eqb_refl. f_equal. destruct (Z.eqb_spec b i) as [->|Hne]; [apply Z.eqb_refl|].
    apply Z.eqb_neq. intros Hmod. apply Hne.
    rewrite (Z.div_mod b 8), (Z.div_mod i 8) by lia. by rewrite Hbi, Hmod.
  - rewrite rd_write_out by (rewrite ?Hlen1; lia).
    destruct (r =? r') eqn:Er, (b =? i) eqn:Eb; guards; subst; try done; by rewrite orb_false_r.
Qed.

Lemma row_set_bit_ok l r b : list_ok l → in_grid r b → list_ok (row_set_bit l r b).
Proof.
  intros [Hb Hl] [Hr Hi]. unfold OPC_SCAN_CHLIST_LEN in *.
  assert (0 <= b / 8 < 4) by (Z.to_euclidean_division_equations; lia).
  unfold row_set_bit, row_offset, OPC_SCAN_ROW_A_FIRST. split.
  - apply write_at_bytes; [|done]. constructor; [|constructor]. rewrite Z.shiftl_1_l.
    assert (Hm : 0 <= b mod 8 < 8) by (apply Z.mod_pos_bound; lia).
    rewrite u8_id by (split; [lia|]; change 256 with (2 ^ 8); apply Z.pow_lt_mono_r; lia).
    apply lor_pow2_byte; [by apply rd_range|done].
  - rewrite len_write_at; unfold OPC_SCAN_CHLIST_LEN; change (len [?x]) with 1; lia.
Qed.

(** A row's word is zero exactly when none of its 32 bits is set. *)
Lemma row_word_zero l r :
  list_ok l → opc_scan_row_word l r = 0 ↔
  ∀ b, 0 <= b < 32 → Z.testbit (opc_scan_row_word l r) b = false.
Proof.
  intros Hl. split; [intros -> b _; apply Z.bits_0|]. intros H. apply Z.bits_inj'.
  intros i Hi. rewrite Z.bits_0. destruct (decide (i < 32)); [by apply H|].
  destruct Hl as [Hb _]. unfold opc_scan_row_word.
  rewrite !Z.lor_spec, !Z.shiftl_spec by lia.
  rewrite !byte_testbit_high; auto using rd_range; lia.
Qed.

Lemma list_empty_bits l :
  list_ok l → opc_scan_list_empty l = true ↔
  ∀ r b, in_grid r b → Z.testbit (opc_scan_row_word l r) b = false.
Proof.
  intros Hl. unfold opc_scan_list_empty. rewrite forallb_forall. split.
  - intros H r b [Hr Hb]. rewrite row_word_testbit by done.
    assert (0 <= b / 8 < 4) by (Z.to_euclidean_division_equations; lia).
    unfold row_offset, OPC_SCAN_ROW_A_FIRST.
    assert (Hz : (rd l (r * 4 + 3 - b / 8) =? 0) = true).
    { apply H, list_elem_of_In, elem_of_seqZ. unfold OPC_SCAN_CHLIST_LEN. lia. }
    guards. rewrite Hz. apply Z.bits_0.
  - intros H i Hi%list_elem_of_In%elem_of_seqZ. apply Z.eqb_eq, Z.bits_inj'. intros j Hj.
    rewrite Z.bits_0. destruct (decide (j < 8)).
    2: { apply byte_testbit_high; [|lia]. apply rd_range, Hl. }
    unfold OPC_SCAN_CHLIST_LEN in Hi.
    specialize (H (i / 4) ((3 - i mod 4) * 8 + j)).
    rewrite row_word_testbit in H by (done || (Z.to_euclidean_division_equations; lia)).
    rewrite <- H by (unfold in_grid; Z.to_euclidean_division_equations; lia).
    unfold row_offset, OPC_SCAN_ROW_A_FIRST.
    f_equal; [f_equal|]; Z.to_euclidean_division_equations; lia.
Qed.

(** Row B carries no channel of the 2.4 and 5 GHz bands. *)
Lemma row_b_unassigned band b :
  band = 1 ∨ band = 2 → opc_scan_row_channel band 1 b = 0.
Proof.
  intros [->| ->]; unfold opc_scan_row_channel, OPC_SCAN_BAND_2_4GHZ, OPC_SCAN_BAND_5GHZ;
    by repeat case_match.
Qed.

(** ** Validity and selection, position by position *)

Lemma list_valid_bits band l :
  opc_scan_band_known band = true → list_ok l →
  opc_scan_list_valid band l = true ↔
  ∀ r b, in_grid r b → Z.testbit (opc_scan_row_word l r) b = true →
         opc_scan_row_channel band r b ≠ 0.
Proof.
  intros Hk Hl. unfold opc_scan_list_valid. rewrite Hk. simpl.
  assert (Hrow : ∀ r, row_bits_assigned band r (opc_scan_row_word l r) = true ↔
            ∀ b, 0 <= b < 32 → Z.testbit (opc_scan_row_word l r) b = true →
                 opc_scan_row_channel band r b ≠ 0).
  { intros r. unfold row_bits_assigned. rewrite forallb_forall.
    setoid_rewrite <- list_elem_of_In. unfold scan_bits. setoid_rewrite elem_of_seqZ.
    split; intros H b Hb; specialize (H b Hb).
    - rewrite word_bit_testbit in H by lia. intros Ht. rewrite Ht in H. by guards.
    - rewrite word_bit_testbit by lia. destruct (Z.testbit _ _); [|done].
      simpl. apply negb_true_iff, Z.eqb_neq. by apply H. }
  apply known_cases in Hk. unfold in_grid, OPC_SCAN_BAND_6GHZ, OPC_SCAN_ROW_A, OPC_SCAN_ROW_B.
  destruct (band =? 6) eqn:E6; guards.
  - unfold scan_rows. simpl. rewrite andb_true_r, andb_true_iff, !Hrow.
    unfold OPC_SCAN_ROW_A, OPC_SCAN_ROW_B. split; [intros [H0 H1] r b [[-> | ->] ?]; auto|].
    intros H. split; intros b Hb; apply H; auto.
  - pose proof (row_b_unassigned band) as Hun.
    destruct (opc_scan_row_word l 1 =? 0) eqn:E; simpl; guards.
    + rewrite Hrow. split; [|intros H b Hb; apply H; auto].
      intros H r b [[-> | ->] ?]; [by apply H|]. by rewrite E, Z.bits_0.
    + split; [done|]. intros H. exfalso. apply E. apply row_word_zero; [done|]. intros b Hb.
      destruct (Z.testbit _ b) eqn:Ht; [|done]. exfalso. apply (H 1 b); [auto|done|apply Hun; lia].
Qed.

(** The whole selection is one pass over all positions. *)
Definition select_at (band : Z) (l : list Z) (p : Z * Z) : option Z :=
  let ch := opc_scan_row_channel band p.1 p.2 in
  if ch =? 0 then None
  else if opc_scan_list_empty l || word_bit (opc_scan_row_word l p.1) p.2 then Some ch else None.

Lemma row_b_channels band all w : band = 1 ∨ band = 2 → row_channels band all 1 w = [].
Proof.
  intros Hb. unfold row_channels. induction scan_bits as [|b bs IH]; [done|]. cbn.
  by rewrite row_b_unassigned.
Qed.

Lemma scan_selected_positions band l :
  opc_scan_band_known band = true → scan_selected band l = omap (select_at band l) scan_positions.
Proof.
  intros Hk. unfold scan_selected. rewrite Hk. cbn [negb].
  assert (Hrow : ∀ r, omap (select_at band l) (map (λ b, (r, b)) scan_bits) =
            row_channels band (opc_scan_list_empty l) r (opc_scan_row_word l r)).
  { intros r. unfold row_channels. induction scan_bits as [|b bs IH]; [done|].
    cbn. unfold select_at at 1. cbn [fst snd].
    repeat case_match; first [apply IH | f_equal; apply IH | congruence]. }
  change scan_positions with (map (λ b, (0, b)) scan_bits ++ map (λ b, (1, b)) scan_bits ++ []).
  change (concat _) with (row_channels band (opc_scan_list_empty l) 0 (opc_scan_row_word l 0) ++
    row_channels band (opc_scan_list_empty l) 1 (opc_scan_row_word l 1) ++ []).
  rewrite !app_nil_r, omap_app, !Hrow.
  destruct (band =? OPC_SCAN_BAND_6GHZ) eqn:E; [done|].
  unfold OPC_SCAN_BAND_6GHZ in E. apply known_cases in Hk. guards.
  rewrite row_b_channels by lia. by rewrite app_nil_r.
Qed.

Lemma scan_selected_elem band l c :
  opc_scan_band_known band = true → 
  c ∈ scan_selected band l ↔
  c ≠ 0 ∧ ∃ r b, in_grid r b ∧ opc_scan_row_channel band r b = c ∧
    (opc_scan_list_empty l = true ∨ Z.testbit (opc_scan_row_word l r) b = true).
Proof.
  intros Hk. rewrite scan_selected_positions, list_elem_of_omap by done. split.
  - intros ([r b] & Hg%scan_positions_grid & Hs). unfold select_at in Hs. simpl in Hs.
    rewrite word_bit_testbit in Hs by apply Hg. guard_cases; eauto 10.
  - intros (Hc & r & b & Hg & <- & Hb). exists (r, b). split; [by apply scan_positions_grid|].
    unfold select_at. simpl. rewrite word_bit_testbit by apply Hg. guard_eval.
    by destruct Hb as [-> | ->]; rewrite ?orb_true_r.
Qed.

(** The tables list their channels in ascending order. *)
Lemma band_table_sorted band :
  opc_scan_band_known band = true →
  StronglySorted Z.lt (omap (λ p : Z * Z, let ch := opc_scan_row_channel band p.1 p.2 in
                               if ch =? 0 then None else Some ch) scan_positions).
Proof.
  intros [->|[->| ->]]%known_cases; apply Sorted_StronglySorted; try apply _;
    (apply (bool_decide_unpack _); vm_compute; exact I).
Qed.

(** For a known band, the channels [opc_scan_list_channels] selects come out in
    strictly ascending order, and a channel is among them exactly when the band's table
    has it and the list is empty ("band only") or has its bit set. *)
Theorem opc_scan_list_channels_spec band l max :
  opc_scan_band_known band = true → list_ok l →
  let '(count, out) := opc_scan_list_channels band l max in
  ∃ sel, StronglySorted Z.lt sel ∧ count = len sel ∧ out = take (Z.to_nat max) sel ∧
    ∀ c, c ∈ sel ↔ ∃ r b, opc_scan_bit_for_channel band c = Some (r, b) ∧
      (opc_scan_list_empty l = true ∨ Z.testbit (opc_scan_row_word l r) b = true).
Proof.
  intros Hk Hl. simpl. exists (scan_selected band l). split_and!; [|done|done|].
  - rewrite scan_selected_positions by done.
    eapply omap_weaken_sorted; [|by apply band_table_sorted].
    intros p y. unfold select_at. simpl. intros. by guard_cases.
  - intros c. rewrite scan_selected_elem by done. split.
    + intros (? & r & b & ? & ? & ?). exists r, b. split; [|done].
      by apply opc_scan_bit_for_channel_iff.
    + intros (r & b & (?&?&?)%opc_scan_bit_for_channel_iff & ?); eauto 10.
Qed.

Lemma opc_scan_list_channels_witness :
  let '(count, out) := opc_scan_list_channels 1 [0;0;4;33;0;0;0;0] 2 in
  ∃ sel, StronglySorted Z.lt sel ∧ count = len sel ∧ out = take (Z.to_nat 2) sel ∧
    ∀ c, c ∈ sel ↔ ∃ r b, opc_scan_bit_for_channel 1 c = Some (r, b) ∧
      (opc_scan_list_empty [0;0;4;33;0;0;0;0] = true ∨
       Z.testbit (opc_scan_row_word [0;0;4;33;0;0;0;0] r) b = true).
Proof.
  apply (opc_scan_list_channels_spec 1 [0;0;4;33;0;0;0;0] 2); [reflexivity|].
  apply (bool_decide_unpack _). vm_compute. exact I.
Defined.

(** Setting a channel of the band in a valid list keeps the list valid and adds
    exactly that channel to the selection. *)
Theorem opc_scan_list_set_channel_spec band l ch r b :
  opc_scan_band_known band = true → list_ok l → opc_scan_list_valid band l = true →
  opc_scan_bit_for_channel band ch = Some (r, b) →
  let l' := opc_scan_list_set_channel l band ch in
  list_ok l' ∧ opc_scan_list_valid band l' = true ∧
  ∀ c, c ∈ scan_selected band l' ↔
       c = ch ∨ (opc_scan_list_empty l = false ∧ c ∈ scan_selected band l).
Proof.
  intros Hk Hl Hv Hch. unfold opc_scan_list_set_channel. rewrite Hch. simpl.
  apply opc_scan_bit_for_channel_iff in Hch as (Hg & Hnz & Hrc); [|done].
  pose proof (row_set_bit_ok l r b Hl Hg) as Hl'.
  assert (He : opc_scan_list_empty (row_set_bit l r b) = false).
  { apply not_true_iff_false. rewrite list_empty_bits by done. intros H.
    specialize (H r b Hg). by rewrite row_set_bit_testbit, !Z.eqb_refl, orb_true_r in H by done. }
  split; [done|]. split.
  - rewrite list_valid_bits in * by done. intros r' b' Hg'.
    rewrite row_set_bit_testbit by done. intros H. guards; [by apply Hv|]. congruence.
  - intros c. rewrite !scan_selected_elem, He by done.
    split.
    + intros (? & r' & b' & Hg' & Hc & [?|Ht]); [done|]. rewrite row_set_bit_testbit in Ht by done.
      guards; [right|left; congruence]. split; [|by eauto 10].
      apply not_true_iff_false. rewrite list_empty_bits by done. intros Hz.
      specialize (Hz r' b' Hg'). congruence.
    + intros [->|(Hne & ? & r' & b' & Hg' & Hc & [?|Ht])]; [|congruence|].
      * split; [done|]. exists r, b. rewrite row_set_bit_testbit, !Z.eqb_refl, orb_true_r by done. auto.
      * split; [done|]. exists r', b'. rewrite row_set_bit_testbit, Ht by done. auto.
Qed.

Lemma opc_scan_list_set_channel_witness :
  let l' := opc_scan_list_set_channel [0;0;0;1;0;0;0;0] 2 149 in
  list_ok l' ∧ opc_scan_list_valid 2 l' = true ∧
  ∀ c, c ∈ scan_selected 2 l' ↔
       c = 149 ∨ (opc_scan_list_empty [0;0;0;1;0;0;0;0] = false ∧
                  c ∈ scan_selected 2 [0;0;0;1;0;0;0;0]).
Proof.
  apply (opc_scan_list_set_channel_spec 2 [0;0;0;1;0;0;0;0] 149 0 20); [reflexivity| |reflexivity|reflexivity].
  apply (bool_decide_unpack _). vm_compute. exact I.
Defined.

Lemma scan_selected_sorted band l :
  opc_scan_band_known band = true → StronglySorted Z.lt (scan_selected band l).
Proof.
  intros Hk. rewrite scan_selected_positions by done.
  eapply omap_weaken_sorted; [|by apply band_table_sorted].
  intros p y. unfold select_at. simpl. intros. by guard_cases.
Qed.

(** Every channel of a band's table has a center frequency, and fits a byte. *)
Lemma channel_mhz_check :
  forallb (fun band => forallb (fun p =>
     let c := opc_scan_row_channel band p.1 p.2 in
     (0 <=? c) && (c <? 256) && implb (negb (c =? 0)) (negb (opc_scan_channel_mhz band c =? 0)))
     scan_positions) [1; 2; 6] = true.
Proof. vm_compute. reflexivity. Qed.

Lemma channel_mhz_nonzero band r b :
  opc_scan_band_known band = true → in_grid r b → opc_scan_row_channel band r b ≠ 0 →
  0 < opc_scan_row_channel band r b < 256 ∧
  opc_scan_channel_mhz band (opc_scan_row_channel band r b) ≠ 0.
Proof.
  intros Hk%known_cases Hg Hnz. pose proof channel_mhz_check as Hc. rewrite forallb_forall in Hc.
  assert (Hb : In band [1; 2; 6]) by (simpl; intuition). apply Hc in Hb.
  rewrite forallb_forall in Hb. apply scan_positions_grid, list_elem_of_In, Hb in Hg.
  cbn [fst snd] in Hg. apply andb_true_iff in Hg as [Hr Hm]. guards.
  rewrite (proj2 (Z.eqb_neq _ _) Hnz) in Hm. simpl in Hm. guards. split; [lia|done].
Qed.

Lemma derive_lowest band l :
  opc_scan_band_known band = true → list_ok l → opc_scan_list_valid band l = true →
  opc_scan_list_empty l = false →
  ∃ ch, ch ∈ scan_selected band l ∧ (∀ c, c ∈ scan_selected band l → ch <= c) ∧
    opc_scan_channel_mhz band ch ≠ 0 ∧
    opc_scan_derive_freq_ch band l = (opc_scan_channel_mhz band ch, band * 256 + ch).
Proof.
  intros Hk Hl Hv He. pose proof (scan_selected_sorted band l Hk) as Hs.
  unfold opc_scan_derive_freq_ch, opc_scan_list_channels. rewrite Hk, He. cbn [negb orb].
  destruct (scan_selected band l) as [|ch cs] eqn:E.
  { exfalso. rewrite <- not_true_iff_false, list_empty_bits in He by done. apply He.
    intros r b Hg. destruct (Z.testbit _ b) eqn:Ht; [|done].
    assert (Hin : opc_scan_row_channel band r b ∈ scan_selected band l)
      by (rewrite scan_selected_elem by done; split; [by eapply list_valid_bits|eauto 10]).
    rewrite E in Hin. by apply elem_of_nil in Hin. }
  exists ch. assert (Hin : ch ∈ scan_selected band l) by (rewrite E; left).
  rewrite scan_selected_elem in Hin by done. destruct Hin as (Hnz & r & b & Hg & Hrc & _).
  destruct (channel_mhz_nonzero band r b) as [Hr Hm]; [done..|congruence|]. rewrite Hrc in *.
  split; [left|]. apply StronglySorted_inv in Hs as [_ Hf]. split.
  { intros c [->|Hc]%elem_of_cons; [lia|]. rewrite Forall_forall in Hf. specialize (Hf c Hc). lia. }
  split; [done|]. rewrite len_cons. pose proof (len_nonneg cs).
  destruct (1 + len cs) eqn:Hz; [lia| |lia]. change (Z.to_nat 1) with 1%nat. cbn [take].
  change (rd (ch :: take 0 cs) 0) with ch. rewrite (proj2 (Z.eqb_neq _ _) Hm). f_equal.
  rewrite lor_shiftl_add by lia. change (2 ^ 8) with 256.
  replace (Z.land band 255) with band by (by apply known_cases in Hk as [->|[->| ->]]).
  apply u16_id. unfold is_u16. apply known_cases in Hk. lia.
Qed.

(** For a valid, non-empty list the "configured frequency" GetDeviceInfo reports
    is that of the lowest selected channel, encoded as band in the high byte and channel
    in the low byte. *)
Theorem opc_scan_derive_freq_ch_spec band l :
  opc_scan_band_known band = true → list_ok l → opc_scan_list_valid band l = true →
  opc_scan_list_empty l = false →
  ∃ ch, ch ∈ scan_selected band l ∧ (∀ c, c ∈ scan_selected band l → ch <= c) ∧
    opc_scan_channel_mhz band ch ≠ 0 ∧
    opc_scan_derive_freq_ch band l = (opc_scan_channel_mhz band ch, band * 256 + ch).
Proof. apply derive_lowest. Qed.

Lemma opc_scan_derive_freq_ch_witness :
  ∃ ch, ch ∈ scan_selected 2 [0;16;1;0;0;0;0;0] ∧
    (∀ c, c ∈ scan_selected 2 [0;16;1;0;0;0;0;0] → ch <= c) ∧
    opc_scan_channel_mhz 2 ch ≠ 0 ∧
    opc_scan_derive_freq_ch 2 [0;16;1;0;0;0;0;0] = (opc_scan_channel_mhz 2 ch, 2 * 256 + ch).
Proof.
  apply (opc_scan_derive_freq_ch_spec 2 [0;16;1;0;0;0;0;0]); [reflexivity| |reflexivity|reflexivity].
  apply (bool_decide_unpack _). vm_compute. exact I.
Defined.

Lemma row_word_rd l l' r r' :
  (∀ i, 0 <= i < 4 → rd l' (r' * 4 + i) = rd l (r * 4 + i)) →
  opc_scan_row_word l' r' = opc_scan_row_word l r.
Proof.
  intros H. unfold opc_scan_row_word, row_offset, OPC_SCAN_ROW_A_FIRST.
  pose proof (H 0 ltac:(lia)) as H0. rewrite !Z.add_0_r in H0.
  by rewrite H0, (H 1), (H 2), (H 3) by lia.
Qed.

Lemma row_word_zeros l r :
  (∀ i, 0 <= i < 4 → rd l (r * 4 + i) = 0) → opc_scan_row_word l r = 0.
Proof.
  intros H. unfold opc_scan_row_word, row_offset, OPC_SCAN_ROW_A_FIRST.
  pose proof (H 0 ltac:(lia)) as H0. rewrite Z.add_0_r in H0.
  by rewrite H0, (H 1), (H 2), (H 3) by lia.
Qed.

(** Normalizing the rows of a persisted list never changes a list it reports as
    unmoved; when it moves, the band is 2.4 or 5 GHz, the old row B becomes row A, row B
    becomes zero, and a second call finds nothing to move. *)
Theorem opc_scan_list_normalize_rows_spec band l :
  list_ok l →
  let '(moved, l') := opc_scan_list_normalize_rows band l in
  list_ok l' ∧ opc_scan_list_normalize_rows band l' = (false, l') ∧
  if moved then
    opc_scan_band_supported band = true ∧
    opc_scan_row_word l OPC_SCAN_ROW_A = 0 ∧ opc_scan_row_word l OPC_SCAN_ROW_B ≠ 0 ∧
    opc_scan_row_word l' OPC_SCAN_ROW_A = opc_scan_row_word l OPC_SCAN_ROW_B ∧
    opc_scan_row_word l' OPC_SCAN_ROW_B = 0
  else l' = l.
Proof.
  intros [Hb Hl]. unfold OPC_SCAN_CHLIST_LEN in Hl.
  destruct (opc_scan_list_normalize_rows band l) as [moved l'] eqn:E.
  pose proof E as E'. unfold opc_scan_list_normalize_rows, OPC_SCAN_ROW_A_FIRST in E'.
  destruct moved; guard_cases; try by (split; [by split|]).
  all: set (l1 := write_at 0 (slice 4 4 l) l); set (l2 := write_at 4 (zeros 4) l1).
  all: assert (Hs : len (slice 4 4 l) = 4) by (apply len_slice; lia);
       assert (Hl1 : len l1 = 8) by (unfold l1; rewrite len_write_at; lia);
       assert (Hz : len (zeros 4) = 4) by done;
       assert (Hl2 : len l2 = 8) by (unfold l2; rewrite len_write_at; lia).
  all: assert (HA : opc_scan_row_word l2 0 = opc_scan_row_word l 1)
    by (apply row_word_rd; intros i Hi; unfold l2; rewrite rd_write_out by lia;
        unfold l1; rewrite rd_write_in by lia; rewrite rd_slice by lia; f_equal; lia).
  all: assert (HB : opc_scan_row_word l2 1 = 0)
    by (apply row_word_zeros; intros i Hi; unfold l2; rewrite rd_write_in by lia;
        assert (i = 0 ∨ i = 1 ∨ i = 2 ∨ i = 3) as [->|[->|[->| ->]]] by lia; done).
  all: unfold OPC_SCAN_ROW_A, OPC_SCAN_ROW_B, opc_scan_band_supported in *;
       (split; [split; [unfold l2, l1; auto 6 with bytes|done]|]); split;
       [unfold opc_scan_list_normalize_rows, OPC_SCAN_ROW_A, OPC_SCAN_ROW_B;
        rewrite HA, HB; case_match; [done|]; by rewrite orb_true_r|].
  all: split_and!; auto; apply orb_true_iff; rewrite !Z.eqb_eq; tauto.
Qed.

Lemma opc_scan_list_normalize_rows_witness :
  let '(moved, l') := opc_scan_list_normalize_rows 1 [0;0;0;0;0;0;0;3] in
  list_ok l' ∧ opc_scan_list_normalize_rows 1 l' = (false, l') ∧
  if moved then
    opc_scan_band_supported 1 = true ∧
    opc_scan_row_word [0;0;0;0;0;0;0;3] OPC_SCAN_ROW_A = 0 ∧
    opc_scan_row_word [0;0;0;0;0;0;0;3] OPC_SCAN_ROW_B ≠ 0 ∧
    opc_scan_row_word l' OPC_SCAN_ROW_A = opc_scan_row_word [0;0;0;0;0;0;0;3] OPC_SCAN_ROW_B ∧
    opc_scan_row_word l' OPC_SCAN_ROW_B = 0
  else l' = [0;0;0;0;0;0;0;3].
Proof.
  apply (opc_scan_list_normalize_rows_spec 1 [0;0;0;0;0;0;0;3]).
  apply (bool_decide_unpack _). vm_compute. exact I.
Defined.
End ScanList.
Export ScanList.
