(* ===== verification/Commands.v ===== *)
(** * Identifiers and command messages: protocol/ids.h, commands.h, commands.c, strutil.h

    Every request and acknowledgment of the protocol: its struct as a Record, its
    [pack] (which returns the frame bytes, or [None] for the C result -1) and its
    [unpack] (an option, or the three-valued result of the list request). A char array
    of width n is a list of n bytes. *)
From S2P Require Import Prelude Codec ScanList.
From stdpp Require Import base list numbers option tactics.
From Stdlib Require Import ZArith Lia.
#[local] Open Scope Z_scope.

(** ** ids.h *)
Module Ids.
Definition OPC_REQ_LOGIN : Z := 61441.
Definition OPC_REQ_LOGOUT : Z := 61442.
Definition OPC_REQ_GET_BASIC_INFO : Z := 1.
Definition OPC_REQ_GET_DEVICE_INFO : Z := 2.
Definition OPC_REQ_SET_PASSWORD : Z := 4097.
Definition OPC_REQ_SET_IP_CONFIG_LIST : Z := 4098.
Definition OPC_REQ_CHANGE_IP_ADDRESS : Z := 4099.
Definition OPC_REQ_SET_RADIO_CONFIG : Z := 4100.
Definition OPC_REQ_SET_INDICATION_CONFIG : Z := 4101.
Definition OPC_REQ_RESET : Z := 8193.
Definition OPC_IND_INIT_COMPLETE : Z := 1.
Definition OPC_IND_WLAN_STATUS_CHANGE : Z := 2.
Definition OPC_IND_ROAMING : Z := 4.
Definition OPC_IND_AP_DISCONNECT : Z := 8.
Definition OPC_IND_FAULT_DETECT : Z := 16.
Definition OPC_IND_RESET_NOTICE : Z := 32.
Definition OPC_IND_KEEP_ALIVE : Z := 128.
Definition OPC_IND_BIT_INIT_COMPLETE : Z := 1.
Definition OPC_IND_BIT_WLAN_STATUS_CHANGE : Z := 2.
Definition OPC_IND_BIT_ROAMING : Z := 4.
Definition OPC_IND_BIT_AP_DISCONNECT : Z := 8.
Definition OPC_IND_BIT_FAULT_DETECT : Z := 16.
Definition OPC_IND_BIT_RESET_NOTICE : Z := 32.
Definition OPC_IND_BIT_KEEP_ALIVE : Z := 128.
Definition OPC_WLAN_MODE_11B : Z := 5.
Definition OPC_WLAN_MODE_11A : Z := 4.
Definition OPC_WLAN_MODE_11G : Z := 6.
Definition OPC_WLAN_MODE_11N : Z := 7.
Definition OPC_WLAN_MODE_11AC : Z := 9.
Definition OPC_WLAN_MODE_11AX : Z := 11.
Definition OPC_BANDWIDTH_20 : Z := 0.
Definition OPC_BANDWIDTH_40 : Z := 1.
Definition OPC_BANDWIDTH_80 : Z := 2.
Definition OPC_BANDWIDTH_160 : Z := 3.
Definition OPC_BANDWIDTH_80_80 : Z := 4.
Definition OPC_BANDWIDTH_320 : Z := 12.
Definition OPC_WLAN_MODE_UNSET : Z := 255.
Definition OPC_BANDWIDTH_UNSET : Z := 255.
Definition OPC_STATION_SINGLE : Z := 1.
Definition OPC_STATION_DUAL : Z := 2.
Definition OPC_BAND_2_4GHZ : Z := 1.
Definition OPC_BAND_5GHZ : Z := 2.
Definition OPC_BAND_6GHZ : Z := 6.
Definition OPC_DEVICE_BOOTING : Z := 0.
Definition OPC_DEVICE_READY : Z := 1.
Definition OPC_DEVICE_LOGGED_IN : Z := 2.
Definition OPC_INIT_STATE_BOOT : Z := 0.
Definition OPC_INIT_STATE_READY : Z := 1.
Definition OPC_INIT_STATE_RADIO_UP : Z := 2.
Definition OPC_INIT_STATE_LOGGED_IN : Z := 3.
Definition OPC_INIT_STATE_LOGGED_OUT : Z := 4.
Definition OPC_ERR_INDICATION_SETTING_VIOLATION : Z := 16.
Definition OPC_ERR_PASSWORD_MISMATCH : Z := 16.
Definition OPC_ERR_SLOT_RANGE : Z := 16.
Definition OPC_ERR_STATION_TYPE : Z := 16.
Definition OPC_ERR_SLOT_EMPTY : Z := 17.
Definition OPC_ERR_IP_CHANGE_CONFLICT : Z := 18.
Definition OPC_ERR_RADIO_MODE : Z := 19.
Definition OPC_ERR_RADIO_BW : Z := 20.
Definition OPC_ERR_RADIO_FREQ : Z := 17.
Definition OPC_ERR_RADIO_SCAN_CH : Z := 18.
Definition OPC_ERR_RADIO_PRIO_BAND : Z := 21.
Definition OPC_ERR_RADIO_PRIO_CH : Z := 22.
Definition OPC_ERR_IND_RECIPIENT_IP : Z := 18.
Definition OPC_ERR_LIST_SEQUENCE : Z := 24.
Definition OPC_ERR_IP_CHANGE_CLASH : Z := 80.
Definition OPC_ERR_RADIO_APPLY : Z := 80.
Definition OPC_ERR_PW_NUL : Z := 18.
Definition OPC_ERR_NEW_PW_NUL : Z := 20.
Definition OPC_ERR_LOGIN_PW_CHAR : Z := 17.
Definition OPC_ERR_OLD_PW_CHAR : Z := 17.
Definition OPC_ERR_NEW_PW_CHAR : Z := 19.
Definition OPC_ERR_IPCFG_IP : Z := 17.
Definition OPC_ERR_IPCFG_NETMASK : Z := 18.
Definition OPC_ERR_IPCFG_GW : Z := 19.
Definition OPC_ERR_IPCFG_NTP : Z := 20.
Definition OPC_ERR_IPCFG_ESSID_CHAR : Z := 21.
Definition OPC_ERR_IPCFG_ESSID_NUL : Z := 22.
Definition OPC_ERR_IPCFG_LIST_SIZE : Z := 23.
Definition OPC_ERR_IND_BITS : Z := 16.
Definition OPC_IND_BITS_RESERVED : Z := 64.
Definition OPC_RESET_CAUSE_USER : Z := 1.
Definition OPC_RESET_CAUSE_SYSTEM : Z := 2.
Definition OPC_RESET_CAUSE_WLAN_LINK_LOST : Z := 16.
Definition OPC_RESET_CAUSE_WLAN_STATION_FAULT : Z := 17.
Definition OPC_RESET_CAUSE_WLAN_DRIVER_WEDGE : Z := 18.
Definition OPC_RESET_CAUSE_OVERTEMP : Z := 32.
Definition OPC_RESET_CAUSE_INIT_FAILURE : Z := 48.
Definition OPC_RESET_CAUSE_FACTORY_RESET : Z := 64.
End Ids.
Export Ids.

(** ** strutil.h *)
Module StrUtil.
(** The scan stops at [cap] or at the first NUL. *)
Fixpoint strnlen_loop (s : list Z) (cap : nat) : nat :=
  match cap, s with
  | S cap', c :: s' => if c =? 0 then 0%nat else S (strnlen_loop s' cap')
  | _, _ => 0%nat
  end.
Definition opc_bounded_strnlen (s : list Z) (cap : Z) : Z :=
  Z.of_nat (strnlen_loop s (Z.to_nat cap)).
End StrUtil.
Export StrUtil.

Module Commands.

Definition OPC_SIMPLE_ACK_BODY_LEN : Z := 4.
Definition OPC_SIMPLE_ACK_LENGTH : Z := 60.
Definition OPC_WLAN_FREQ_UNSET : Z := 65535.
Definition OPC_WLAN_CH_UNSET : Z := 65535.
Definition OPC_WLAN_STATUS_INVALID : Z := 65535.
Definition OPC_WLAN_SIGNAL_INVALID : Z := -128.
Definition OPC_PRIORITY_CH_UNSET : Z := 65535.
Definition OPC_LOGIN_REQ_BODY_LEN : Z := 128.
Definition OPC_LOGIN_REQ_LENGTH : Z := 184.
Definition OPC_PASSWORD_FIELD_LEN : Z := 128.
Definition OPC_GET_BASIC_INFO_ACK_BODY_LEN : Z := 16.
Definition OPC_GET_BASIC_INFO_ACK_LENGTH : Z := 72.
Definition OPC_GET_DEVICE_INFO_ACK_BODY_LEN : Z := 352.
Definition OPC_GET_DEVICE_INFO_ACK_LENGTH : Z := 408.
Definition OPC_VERSION_FIELD_LEN : Z := 32.
Definition OPC_SERIAL_FIELD_LEN : Z := 32.
Definition OPC_ESSID_FIELD_LEN : Z := 32.
Definition OPC_SET_PASSWORD_REQ_BODY_LEN : Z := 256.
Definition OPC_SET_PASSWORD_REQ_LENGTH : Z := 312.
Definition OPC_IPCFG_ENTRY_LEN : Z := 64.
Definition OPC_IPCFG_LIST_MAX_PER_REQ : Z := 20.
Definition OPC_IPCFG_LIST_MAX_SLOTS : Z := 128.
Definition OPC_SET_IP_CONFIG_LIST_REQ_LENGTH (n : Z) : Z := 56 + n * OPC_IPCFG_ENTRY_LEN.
Definition OPC_LIST_BOUNDARY_START : Z := 1.
Definition OPC_LIST_BOUNDARY_CONTINUE : Z := 0.
Definition OPC_LIST_BOUNDARY_END : Z := 2.
Definition OPC_LIST_BOUNDARY_START_END : Z := 3.
Definition OPC_CHANGE_IP_ADDRESS_REQ_BODY_LEN : Z := 4.
Definition OPC_CHANGE_IP_ADDRESS_REQ_LENGTH : Z := 60.
Definition OPC_SET_RADIO_CONFIG_REQ_BODY_LEN : Z := 28.
Definition OPC_SET_RADIO_CONFIG_REQ_LENGTH : Z := 84.
Definition OPC_SET_INDICATION_CONFIG_REQ_BODY_LEN : Z := 8.
Definition OPC_SET_INDICATION_CONFIG_REQ_LENGTH : Z := 64.
Definition OPC_RESET_ACK_LENGTH : Z := 60.

(** ** Messages *)

(** The acknowledgment structs ([opc_login_ack_t], [opc_logout_ack_t],
    [opc_set_password_ack_t], ...) all have these two fields. *)
Record opc_simple_ack_t := mk_simple_ack { result : Z; error_cause : Z }.

Record opc_date_t := mk_date { year : Z; month : Z; day : Z }.

Record opc_wlan_radio_state_t := mk_radio_state {
  rs_mac : list Z; rs_mode : Z; rs_bandwidth : Z; rs_freq_mhz : Z; rs_channel : Z;
  rs_status : Z; rs_snr : Z; rs_rssi : Z; rs_connect_ap_mac : list Z;
  rs_scan_band : Z; rs_scan_chlist : list Z }.

Record opc_wlan_radio_cfg_t := mk_radio_cfg {
  rc_mode : Z; rc_bandwidth : Z; rc_scan_band : Z; rc_scan_chlist : list Z }.

Record opc_login_req_t := mk_login_req {
  lr_password : list Z; lr_password_terminated : bool }.

Record opc_get_basic_info_ack_t := mk_basic_info {
  bi_vendor_code : Z; bi_product_code : Z; bi_product_subcode : Z;
  bi_device_status : Z; bi_station_type : Z }.

Record opc_get_device_info_ack_t := mk_device_info {
  di_result : Z; di_error_cause : Z; di_vendor_code : Z; di_product_code : Z;
  di_product_subcode : Z; di_manufacture : opc_date_t; di_shipment : opc_date_t;
  di_firmware_version : list Z; di_hardware_version : list Z; di_serial_number : list Z;
  di_ethernet_mac : list Z; di_ip_address : Z; di_subnet_mask : Z; di_default_gateway : Z;
  di_ntp_server : Z; di_essid : list Z; di_device_status : Z; di_station_type : Z;
  di_priority_ch : Z; di_ieee_11r : Z; di_ieee_11ai : Z; di_ieee_11k : Z; di_ieee_11v : Z;
  di_wlan1 : opc_wlan_radio_state_t; di_wlan2 : opc_wlan_radio_state_t }.

Record opc_set_password_req_t := mk_set_password {
  sp_old_password : list Z; sp_new_password : list Z;
  sp_old_password_terminated : bool; sp_new_password_terminated : bool }.

Record opc_ipcfg_entry_t := mk_ipcfg_entry {
  boundary_flag : Z; list_number : Z; ip_address : Z; subnet_mask : Z;
  default_gateway : Z; ntp_server : Z; essid : list Z }.

(** [entries] holds the first [entry_count] elements of the C array. *)
Record opc_set_ip_config_list_req_t := mk_ip_config_list {
  entries : list opc_ipcfg_entry_t; essid_terminated_mask : Z }.

Record opc_change_ip_address_req_t := mk_change_ip { ci_list_number : Z }.

Record opc_set_radio_config_req_t := mk_radio_config {
  station_type : Z; priority_ch : Z; wlan1 : opc_wlan_radio_cfg_t; wlan2 : opc_wlan_radio_cfg_t }.

Record opc_set_indication_config_req_t := mk_indication_config {
  recipient_port : Z; info_bits : Z; period_seconds : Z; recipient_ip : Z }.

(** ** Field helpers *)

Definition copy_with_null_pad (dst : list Z) (off dst_len : Z) (src : list Z) : list Z :=
  let dst := write_at off (zeros dst_len) dst in
  if dst_len =? 0 then dst
  else let n := opc_bounded_strnlen src (dst_len - 1) in
       write_at off (take (Z.to_nat n) src) dst.

(** The copied array (its last byte forced to NUL) and whether the wire field had one. *)
Definition copy_string_field (dst_len : Z) (src : list Z) (off : Z) : list Z * bool :=
  let terminated := existsb (fun c => c =? 0) (slice off dst_len src) in
  let dst := slice off dst_len src in
  (write_at (dst_len - 1) [0] dst, terminated).

Definition pack_date (p : list Z) (off : Z) (d : opc_date_t) : list Z :=
  let p := opc_be16_write p (off + 0) (year d) in
  let p := put8 p (off + 2) (month d) in
  put8 p (off + 3) (day d).

Definition unpack_date (p : list Z) (off : Z) : opc_date_t :=
  {| year := opc_be16_read p (off + 0); month := rd p (off + 2); day := rd p (off + 3) |}.

(** ** Simple acknowledgments and empty requests *)

Definition opc_simple_ack_pack (cap req_id seq_no length_field res cause : Z) : option (list Z) :=
  let body := zeros OPC_SIMPLE_ACK_BODY_LEN in
  let body := opc_be16_write body 0 res in
  let body := opc_be16_write body 2 cause in
  opc_frame_build cap OPC_CMD_ACK req_id seq_no length_field body.

(** The checks every [unpack] opens with: the frame parses, its type and id are the
    expected ones, and the body holds at least [body_min] bytes. *)
Definition parse_expect (frame : list Z) (ctype id body_min : Z) : option (list Z) :=
  match opc_frame_parse frame with
  | None => None
  | Some (hdr, body) =>
      if negb (command_type hdr =? ctype) then None
      else if negb (req_indication_id hdr =? id) then None
      else if len body <? body_min then None
      else Some body
  end.

Definition opc_simple_ack_unpack (frame : list Z) (expected_req_id : Z) : option opc_simple_ack_t :=
  match parse_expect frame OPC_CMD_ACK expected_req_id OPC_SIMPLE_ACK_BODY_LEN with
  | None => None
  | Some body => Some {| result := opc_be16_read body 0; error_cause := opc_be16_read body 2 |}
  end.

Definition empty_req_pack (cap req_id seq_no : Z) : option (list Z) :=
  opc_empty_frame_build cap OPC_CMD_REQUEST req_id seq_no.

Definition empty_req_unpack (frame : list Z) (expected_req_id : Z) : option unit :=
  if negb (len frame =? OPC_FIXED_HEADER_SIZE) then None
  else match opc_frame_parse frame with
       | None => None
       | Some (hdr, _) =>
           if negb (command_type hdr =? OPC_CMD_REQUEST) then None
           else if negb (req_indication_id hdr =? expected_req_id) then None
           else Some tt
       end.

(** ** Login, Logout *)

Definition opc_login_req_pack (cap seq_no : Z) (i : opc_login_req_t) : option (list Z) :=
  let body := zeros OPC_LOGIN_REQ_BODY_LEN in
  let body := copy_with_null_pad body 0 OPC_LOGIN_REQ_BODY_LEN (lr_password i) in
  opc_frame_build cap OPC_CMD_REQUEST OPC_REQ_LOGIN seq_no OPC_LOGIN_REQ_LENGTH body.

Definition opc_login_req_unpack (frame : list Z) : option opc_login_req_t :=
  match parse_expect frame OPC_CMD_REQUEST OPC_REQ_LOGIN OPC_LOGIN_REQ_BODY_LEN with
  | None => None
  | Some body =>
      let '(password, terminated) := copy_string_field OPC_LOGIN_REQ_BODY_LEN body 0 in
      Some {| lr_password := password; lr_password_terminated := terminated |}
  end.

Definition opc_login_ack_pack (cap seq_no : Z) (i : opc_simple_ack_t) : option (list Z) :=
  opc_simple_ack_pack cap OPC_REQ_LOGIN seq_no OPC_SIMPLE_ACK_LENGTH (result i) (error_cause i).
Definition opc_login_ack_unpack (frame : list Z) : option opc_simple_ack_t :=
  opc_simple_ack_unpack frame OPC_REQ_LOGIN.

Definition opc_logout_req_pack (cap seq_no : Z) : option (list Z) :=
  empty_req_pack cap OPC_REQ_LOGOUT seq_no.
Definition opc_logout_req_unpack (frame : list Z) : option unit :=
  empty_req_unpack frame OPC_REQ_LOGOUT.
Definition opc_logout_ack_pack (cap seq_no : Z) (i : opc_simple_ack_t) : option (list Z) :=
  opc_simple_ack_pack cap OPC_REQ_LOGOUT seq_no OPC_SIMPLE_ACK_LENGTH (result i) (error_cause i).
Definition opc_logout_ack_unpack (frame : list Z) : option opc_simple_ack_t :=
  opc_simple_ack_unpack frame OPC_REQ_LOGOUT.

(** ** GetBasicInformation *)

Definition opc_get_basic_info_req_pack (cap seq_no : Z) : option (list Z) :=
  empty_req_pack cap OPC_REQ_GET_BASIC_INFO seq_no.
Definition opc_get_basic_info_req_unpack (frame : list Z) : option unit :=
  empty_req_unpack frame OPC_REQ_GET_BASIC_INFO.

Definition opc_get_basic_info_ack_pack (cap seq_no : Z) (i : opc_get_basic_info_ack_t)
    : option (list Z) :=
  let body := zeros OPC_GET_BASIC_INFO_ACK_BODY_LEN in
  let body := opc_be32_write body 0 (bi_vendor_code i) in
  let body := opc_be16_write body 4 (bi_product_code i) in
  let body := opc_be16_write body 6 (bi_product_subcode i) in
  let body := opc_be32_write body 8 (bi_device_status i) in
  let body := opc_be16_write body 14 (bi_station_type i) in
  opc_frame_build cap OPC_CMD_ACK OPC_REQ_GET_BASIC_INFO seq_no OPC_GET_BASIC_INFO_ACK_LENGTH body.

Definition opc_get_basic_info_ack_unpack (frame : list Z) : option opc_get_basic_info_ack_t :=
  match parse_expect frame OPC_CMD_ACK OPC_REQ_GET_BASIC_INFO OPC_GET_BASIC_INFO_ACK_BODY_LEN with
  | None => None
  | Some body =>
      Some {| bi_vendor_code := opc_be32_read body 0;
              bi_product_code := opc_be16_read body 4;
              bi_product_subcode := opc_be16_read body 6;
              bi_device_status := opc_be32_read body 8;
              bi_station_type := opc_be16_read body 14 |}
  end.

(** ** GetDeviceInformation *)

Definition pack_radio_state (p : list Z) (off : Z) (r : opc_wlan_radio_state_t) : list Z :=
  let p := write_at (off + 0) (rs_mac r) p in
  let p := put8 p (off + 6) (rs_mode r) in
  let p := put8 p (off + 7) (rs_bandwidth r) in
  let p := opc_be16_write p (off + 8) (rs_freq_mhz r) in
  let p := opc_be16_write p (off + 10) (rs_channel r) in
  let p := opc_be16_write p (off + 12) (rs_status r) in
  let p := put8 p (off + 14) (u8 (rs_snr r)) in
  let p := put8 p (off + 15) (u8 (rs_rssi r)) in
  let p := write_at (off + 16) (rs_connect_ap_mac r) p in
  let p := opc_be16_write p (off + 22) (rs_scan_band r) in
  write_at (off + 24) (rs_scan_chlist r) p.

Definition unpack_radio_state (p : list Z) (off : Z) : opc_wlan_radio_state_t :=
  {| rs_mac := slice (off + 0) 6 p;
     rs_mode := rd p (off + 6);
     rs_bandwidth := rd p (off + 7);
     rs_freq_mhz := opc_be16_read p (off + 8);
     rs_channel := opc_be16_read p (off + 10);
     rs_status := opc_be16_read p (off + 12);
     rs_snr := i8 (rd p (off + 14));
     rs_rssi := i8 (rd p (off + 15));
     rs_connect_ap_mac := slice (off + 16) 6 p;
     rs_scan_band := opc_be16_read p (off + 22);
     rs_scan_chlist := slice (off + 24) OPC_SCAN_CHLIST_LEN p |}.

Definition opc_get_device_info_req_pack (cap seq_no : Z) : option (list Z) :=
  empty_req_pack cap OPC_REQ_GET_DEVICE_INFO seq_no.
Definition opc_get_device_info_req_unpack (frame : list Z) : option unit :=
  empty_req_unpack frame OPC_REQ_GET_DEVICE_INFO.

Definition opc_get_device_info_ack_body (i : opc_get_device_info_ack_t) : list Z :=
  let body := zeros OPC_GET_DEVICE_INFO_ACK_BODY_LEN in
  let body := opc_be16_write body 0 (di_result i) in
  let body := opc_be16_write body 2 (di_error_cause i) in
  let body := opc_be32_write body 4 (di_vendor_code i) in
  let body := opc_be16_write body 8 (di_product_code i) in
  let body := opc_be16_write body 10 (di_product_subcode i) in
  let body := pack_date body 12 (di_manufacture i) in
  let body := pack_date body 16 (di_shipment i) in
  let body := copy_with_null_pad body 20 OPC_VERSION_FIELD_LEN (di_firmware_version i) in
  let body := copy_with_null_pad body 52 OPC_VERSION_FIELD_LEN (di_hardware_version i) in
  let body := copy_with_null_pad body 84 OPC_SERIAL_FIELD_LEN (di_serial_number i) in
  let body := write_at 116 (di_ethernet_mac i) body in
  let body := opc_be32_write body 124 (di_ip_address i) in
  let body := opc_be32_write body 128 (di_subnet_mask i) in
  let body := opc_be32_write body 132 (di_default_gateway i) in
  let body := opc_be32_write body 136 (di_ntp_server i) in
  let body := copy_with_null_pad body 140 OPC_ESSID_FIELD_LEN (di_essid i) in
  let body := opc_be32_write body 172 (di_device_status i) in
  let body := opc_be16_write body 176 (di_station_type i) in
  let body := opc_be16_write body 178 (di_priority_ch i) in
  let body := put8 body 180 (di_ieee_11r i) in
  let body := put8 body 181 (di_ieee_11ai i) in
  let body := put8 body 182 (di_ieee_11k i) in
  let body := put8 body 183 (di_ieee_11v i) in
  let body := pack_radio_state body 224 (di_wlan1 i) in
  pack_radio_state body 288 (di_wlan2 i).

Definition opc_get_device_info_ack_pack (cap seq_no : Z) (i : opc_get_device_info_ack_t)
    : option (list Z) :=
  opc_frame_build cap OPC_CMD_ACK OPC_REQ_GET_DEVICE_INFO seq_no OPC_GET_DEVICE_INFO_ACK_LENGTH
    (opc_get_device_info_ack_body i).

Definition opc_get_device_info_ack_unpack (frame : list Z) : option opc_get_device_info_ack_t :=
  match parse_expect frame OPC_CMD_ACK OPC_REQ_GET_DEVICE_INFO OPC_GET_DEVICE_INFO_ACK_BODY_LEN with
  | None => None
  | Some body =>
      Some {| di_result := opc_be16_read body 0;
              di_error_cause := opc_be16_read body 2;
              di_vendor_code := opc_be32_read body 4;
              di_product_code := opc_be16_read body 8;
              di_product_subcode := opc_be16_read body 10;
              di_manufacture := unpack_date body 12;
              di_shipment := unpack_date body 16;
              di_firmware_version := (copy_string_field OPC_VERSION_FIELD_LEN body 20).1;
              di_hardware_version := (copy_string_field OPC_VERSION_FIELD_LEN body 52).1;
              di_serial_number := (copy_string_field OPC_SERIAL_FIELD_LEN body 84).1;
              di_ethernet_mac := slice 116 6 body;
              di_ip_address := opc_be32_read body 124;
              di_subnet_mask := opc_be32_read body 128;
              di_default_gateway := opc_be32_read body 132;
              di_ntp_server := opc_be32_read body 136;
              di_essid := (copy_string_field OPC_ESSID_FIELD_LEN body 140).1;
              di_device_status := opc_be32_read body 172;
              di_station_type := opc_be16_read body 176;
              di_priority_ch := opc_be16_read body 178;
              di_ieee_11r := rd body 180;
              di_ieee_11ai := rd body 181;
              di_ieee_11k := rd body 182;
              di_ieee_11v := rd body 183;
              di_wlan1 := unpack_radio_state body 224;
              di_wlan2 := unpack_radio_state body 288 |}
  end.

(** ** SetPassword *)

Definition opc_set_password_req_pack (cap seq_no : Z) (i : opc_set_password_req_t)
    : option (list Z) :=
  let body := zeros OPC_SET_PASSWORD_REQ_BODY_LEN in
  let body := copy_with_null_pad body 0 128 (sp_old_password i) in
  let body := copy_with_null_pad body 128 128 (sp_new_password i) in
  opc_frame_build cap OPC_CMD_REQUEST OPC_REQ_SET_PASSWORD seq_no OPC_SET_PASSWORD_REQ_LENGTH body.

Definition opc_set_password_req_unpack (frame : list Z) : option opc_set_password_req_t :=
  match parse_expect frame OPC_CMD_REQUEST OPC_REQ_SET_PASSWORD OPC_SET_PASSWORD_REQ_BODY_LEN with
  | None => None
  | Some body =>
      let '(old, old_t) := copy_string_field 128 body 0 in
      let '(new, new_t) := copy_string_field 128 body 128 in
      Some {| sp_old_password := old; sp_new_password := new;
              sp_old_password_terminated := old_t; sp_new_password_terminated := new_t |}
  end.

Definition opc_set_password_ack_pack (cap seq_no : Z) (i : opc_simple_ack_t) : option (list Z) :=
  opc_simple_ack_pack cap OPC_REQ_SET_PASSWORD seq_no OPC_SIMPLE_ACK_LENGTH (result i) (error_cause i).
Definition opc_set_password_ack_unpack (frame : list Z) : option opc_simple_ack_t :=
  opc_simple_ack_unpack frame OPC_REQ_SET_PASSWORD.

(** ** SetIpConfigList *)

Definition pack_ipcfg_entry (p : list Z) (off : Z) (e : opc_ipcfg_entry_t) : list Z :=
  let p := opc_be16_write p (off + 0) (boundary_flag e) in
  let p := opc_be16_write p (off + 2) (list_number e) in
  let p := opc_be32_write p (off + 4) (ip_address e) in
  let p := opc_be32_write p (off + 8) (subnet_mask e) in
  let p := opc_be32_write p (off + 12) (default_gateway e) in
  let p := opc_be32_write p (off + 16) (ntp_server e) in
  let p := copy_with_null_pad p (off + 20) 32 (essid e) in
  write_at (off + 52) (zeros 12) p.

Definition unpack_ipcfg_entry (p : list Z) (off : Z) : opc_ipcfg_entry_t * bool :=
  let '(s, terminated) := copy_string_field 32 p (off + 20) in
  ({| boundary_flag := opc_be16_read p (off + 0);
      list_number := opc_be16_read p (off + 2);
      ip_address := opc_be32_read p (off + 4);
      subnet_mask := opc_be32_read p (off + 8);
      default_gateway := opc_be32_read p (off + 12);
      ntp_server := opc_be32_read p (off + 16);
      essid := s |}, terminated).

(** The [for] loop of the packer, from index [i]. *)
Fixpoint pack_entries (body : list Z) (i : Z) (es : list opc_ipcfg_entry_t) : list Z :=
  match es with
  | [] => body
  | e :: es' => pack_entries (pack_ipcfg_entry body (i * OPC_IPCFG_ENTRY_LEN) e) (i + 1) es'
  end.

Definition opc_set_ip_config_list_req_pack (cap seq_no : Z) (i : opc_set_ip_config_list_req_t)
    : option (list Z) :=
  let entry_count := len (entries i) in
  if (entry_count <? 1) || (OPC_IPCFG_LIST_MAX_PER_REQ <? entry_count) then None
  else
    let body := pack_entries (zeros (entry_count * OPC_IPCFG_ENTRY_LEN)) 0 (entries i) in
    opc_frame_build cap OPC_CMD_REQUEST OPC_REQ_SET_IP_CONFIG_LIST seq_no
      (u16 (OPC_SET_IP_CONFIG_LIST_REQ_LENGTH entry_count)) body.

(** The unpack results 0, -1 and [OPC_UNPACK_ERR_LIST_SIZE]. *)
Inductive unpack_result (A : Type) :=
  | UnpackOk (a : A)
  | UnpackErr
  | OPC_UNPACK_ERR_LIST_SIZE.
Arguments UnpackOk {A} a.
Arguments UnpackErr {A}.
Arguments OPC_UNPACK_ERR_LIST_SIZE {A}.

(** The [for] loop of the unpacker: [n] entries from index [i], accumulating the mask. *)
Fixpoint unpack_entries (body : list Z) (i : Z) (n : nat) (mask : Z)
    : list opc_ipcfg_entry_t * Z :=
  match n with
  | O => ([], mask)
  | S n' =>
      let '(e, terminated) := unpack_ipcfg_entry body (i * OPC_IPCFG_ENTRY_LEN) in
      let mask := if terminated then Z.lor mask (Z.shiftl 1 i) else mask in
      let '(es, m) := unpack_entries body (i + 1) n' mask in
      (e :: es, m)
  end.

Definition opc_set_ip_config_list_req_unpack (frame : list Z)
    : unpack_result opc_set_ip_config_list_req_t :=
  match opc_frame_parse frame with
  | None => UnpackErr
  | Some (hdr, body) =>
      if negb (command_type hdr =? OPC_CMD_REQUEST) then UnpackErr
      else if negb (req_indication_id hdr =? OPC_REQ_SET_IP_CONFIG_LIST) then UnpackErr
      else if (len body =? 0) || negb (len body mod OPC_IPCFG_ENTRY_LEN =? 0)
      then OPC_UNPACK_ERR_LIST_SIZE
      else
        let n := len body / OPC_IPCFG_ENTRY_LEN in
        if OPC_IPCFG_LIST_MAX_PER_REQ <? n then OPC_UNPACK_ERR_LIST_SIZE
        else let '(es, mask) := unpack_entries body 0 (Z.to_nat n) 0 in
             UnpackOk {| entries := es; essid_terminated_mask := mask |}
  end.

Definition opc_set_ip_config_list_ack_pack (cap seq_no : Z) (i : opc_simple_ack_t) : option (list Z) :=
  opc_simple_ack_pack cap OPC_REQ_SET_IP_CONFIG_LIST seq_no OPC_SIMPLE_ACK_LENGTH
    (result i) (error_cause i).
Definition opc_set_ip_config_list_ack_unpack (frame : list Z) : option opc_simple_ack_t :=
  opc_simple_ack_unpack frame OPC_REQ_SET_IP_CONFIG_LIST.

(** ** ChangeIpAddress *)

Definition opc_change_ip_address_req_pack (cap seq_no : Z) (i : opc_change_ip_address_req_t)
    : option (list Z) :=
  let body := zeros OPC_CHANGE_IP_ADDRESS_REQ_BODY_LEN in
  let body := opc_be16_write body 2 (ci_list_number i) in
  opc_frame_build cap OPC_CMD_REQUEST OPC_REQ_CHANGE_IP_ADDRESS seq_no
    OPC_CHANGE_IP_ADDRESS_REQ_LENGTH body.

Definition opc_change_ip_address_req_unpack (frame : list Z) : option opc_change_ip_address_req_t :=
  match parse_expect frame OPC_CMD_REQUEST OPC_REQ_CHANGE_IP_ADDRESS
          OPC_CHANGE_IP_ADDRESS_REQ_BODY_LEN with
  | None => None
  | Some body => Some {| ci_list_number := opc_be16_read body 2 |}
  end.

Definition opc_change_ip_address_ack_pack (cap seq_no : Z) (i : opc_simple_ack_t) : option (list Z) :=
  opc_simple_ack_pack cap OPC_REQ_CHANGE_IP_ADDRESS seq_no OPC_SIMPLE_ACK_LENGTH
    (result i) (error_cause i).
Definition opc_change_ip_address_ack_unpack (frame : list Z) : option opc_simple_ack_t :=
  opc_simple_ack_unpack frame OPC_REQ_CHANGE_IP_ADDRESS.

(** ** SetRadioConfig *)

Definition opc_set_radio_config_req_pack (cap seq_no : Z) (i : opc_set_radio_config_req_t)
    : option (list Z) :=
  let body := zeros OPC_SET_RADIO_CONFIG_REQ_BODY_LEN in
  let body := opc_be16_write body 0 (station_type i) in
  let body := opc_be16_write body 2 (priority_ch i) in
  let body := put8 body 4 (rc_mode (wlan1 i)) in
  let body := put8 body 5 (rc_bandwidth (wlan1 i)) in
  let body := opc_be16_write body 6 (rc_scan_band (wlan1 i)) in
  let body := write_at 8 (rc_scan_chlist (wlan1 i)) body in
  let body := put8 body 16 (rc_mode (wlan2 i)) in
  let body := put8 body 17 (rc_bandwidth (wlan2 i)) in
  let body := opc_be16_write body 18 (rc_scan_band (wlan2 i)) in
  let body := write_at 20 (rc_scan_chlist (wlan2 i)) body in
  opc_frame_build cap OPC_CMD_REQUEST OPC_REQ_SET_RADIO_CONFIG seq_no
    OPC_SET_RADIO_CONFIG_REQ_LENGTH body.

Definition opc_set_radio_config_req_unpack (frame : list Z) : option opc_set_radio_config_req_t :=
  match parse_expect frame OPC_CMD_REQUEST OPC_REQ_SET_RADIO_CONFIG
          OPC_SET_RADIO_CONFIG_REQ_BODY_LEN with
  | None => None
  | Some body =>
      Some {| station_type := opc_be16_read body 0;
              priority_ch := opc_be16_read body 2;
              wlan1 := {| rc_mode := rd body 4; rc_bandwidth := rd body 5;
                          rc_scan_band := opc_be16_read body 6;
                          rc_scan_chlist := slice 8 OPC_SCAN_CHLIST_LEN body |};
              wlan2 := {| rc_mode := rd body 16; rc_bandwidth := rd body 17;
                          rc_scan_band := opc_be16_read body 18;
                          rc_scan_chlist := slice 20 OPC_SCAN_CHLIST_LEN body |} |}
  end.

Definition opc_set_radio_config_ack_pack (cap seq_no : Z) (i : opc_simple_ack_t) : option (list Z) :=
  opc_simple_ack_pack cap OPC_REQ_SET_RADIO_CONFIG seq_no OPC_SIMPLE_ACK_LENGTH
    (result i) (error_cause i).
Definition opc_set_radio_config_ack_unpack (frame : list Z) : option opc_simple_ack_t :=
  opc_simple_ack_unpack frame OPC_REQ_SET_RADIO_CONFIG.

(** ** SetIndicationConfig *)

Definition opc_set_indication_config_req_pack (cap seq_no : Z)
    (i : opc_set_indication_config_req_t) : option (list Z) :=
  let body := zeros OPC_SET_INDICATION_CONFIG_REQ_BODY_LEN in
  let body := opc_be16_write body 0 (recipient_port i) in
  let body := put8 body 2 (info_bits i) in
  let body := put8 body 3 (period_seconds i) in
  let body := opc_be32_write body 4 (recipient_ip i) in
  opc_frame_build cap OPC_CMD_REQUEST OPC_REQ_SET_INDICATION_CONFIG seq_no
    OPC_SET_INDICATION_CONFIG_REQ_LENGTH body.

Definition opc_set_indication_config_req_unpack (frame : list Z)
    : option opc_set_indication_config_req_t :=
  match parse_expect frame OPC_CMD_REQUEST OPC_REQ_SET_INDICATION_CONFIG
          OPC_SET_INDICATION_CONFIG_REQ_BODY_LEN with
  | None => None
  | Some body =>
      Some {| recipient_port := opc_be16_read body 0; info_bits := rd body 2;
              period_seconds := rd body 3; recipient_ip := opc_be32_read body 4 |}
  end.

Definition opc_set_indication_config_ack_pack (cap seq_no : Z) (i : opc_simple_ack_t)
    : option (list Z) :=
  opc_simple_ack_pack cap OPC_REQ_SET_INDICATION_CONFIG seq_no OPC_SIMPLE_ACK_LENGTH
    (result i) (error_cause i).
Definition opc_set_indication_config_ack_unpack (frame : list Z) : option opc_simple_ack_t :=
  opc_simple_ack_unpack frame OPC_REQ_SET_INDICATION_CONFIG.

(** ** Reset *)

Definition opc_reset_req_pack (cap seq_no : Z) : option (list Z) :=
  empty_req_pack cap OPC_REQ_RESET seq_no.
Definition opc_reset_req_unpack (frame : list Z) : option unit :=
  empty_req_unpack frame OPC_REQ_RESET.
Definition opc_reset_ack_pack (cap seq_no : Z) (i : opc_simple_ack_t) : option (list Z) :=
  opc_simple_ack_pack cap OPC_REQ_RESET seq_no OPC_RESET_ACK_LENGTH (result i) (error_cause i).
Definition opc_reset_ack_unpack (frame : list Z) : option opc_simple_ack_t :=
  opc_simple_ack_unpack frame OPC_REQ_RESET.

End Commands.
Export Commands.
