(* ===== verification/Indications.v ===== *)
(** * Indication messages: protocol/indications.h, protocol/indications.c

    The seven spontaneous notifications of the protocol, with their pack and unpack
    functions in the conventions of [Commands]. *)
From S2P Require Import Prelude Codec ScanList Commands.
From stdpp Require Import base list numbers option tactics.
From Stdlib Require Import ZArith Lia.
#[local] Open Scope Z_scope.

Module Indications.

Definition OPC_IND_INIT_COMPLETE_BODY_LEN : Z := 4.
Definition OPC_IND_INIT_COMPLETE_LENGTH : Z := 60.
Definition OPC_IND_WLAN_STATUS_CHANGE_BODY_LEN : Z := 4.
Definition OPC_IND_WLAN_STATUS_CHANGE_LENGTH : Z := 60.
Definition OPC_WLAN_STATUS_CONNECTED : Z := 1.
Definition OPC_WLAN_STATUS_DISCONNECTED : Z := 2.
Definition OPC_IND_ROAMING_BODY_LEN : Z := 12.
Definition OPC_IND_ROAMING_LENGTH : Z := 68.
Definition OPC_IND_AP_DISCONNECT_BODY_LEN : Z := 12.
Definition OPC_IND_AP_DISCONNECT_LENGTH : Z := 68.
Definition OPC_AP_MSG_DISASSOCIATION : Z := 10.
Definition OPC_AP_MSG_DEAUTHENTICATION : Z := 12.
Definition OPC_IND_FAULT_DETECT_BODY_LEN : Z := 4.
Definition OPC_IND_FAULT_DETECT_LENGTH : Z := 60.
Definition OPC_CONGESTION_CPU : Z := 1.
Definition OPC_CONGESTION_MEMORY : Z := 2.
Definition OPC_CONGESTION_DISK_IO : Z := 3.
Definition OPC_CONGESTION_NETWORK : Z := 4.
Definition OPC_IND_RESET_NOTICE_BODY_LEN : Z := 4.
Definition OPC_IND_RESET_NOTICE_LENGTH : Z := 60.
Definition OPC_IND_KEEP_ALIVE_BODY_LEN : Z := 32.
Definition OPC_IND_KEEP_ALIVE_LENGTH : Z := 88.

Record opc_ind_init_complete_t := mk_init_complete { ic_status : Z }.
Record opc_ind_wlan_status_change_t := mk_wlan_status_change {
  ws_wlan_status : Z; ws_indication_ch : Z }.
Record opc_ind_roaming_t := mk_roaming {
  ro_current_snr : Z; ro_current_rssi : Z; ro_connect_ap_mac : list Z; ro_ch_number : Z }.
Record opc_ind_ap_disconnect_t := mk_ap_disconnect {
  ad_message_id : Z; ad_result_code : Z; ad_disconnect_ap_mac : list Z }.
Record opc_ind_fault_detect_t := mk_fault_detect { fd_congestion_id : Z; fd_current_val : Z }.
Record opc_ind_reset_notice_t := mk_reset_notice { rn_reset_cause : Z }.
Record opc_ind_keep_alive_t := mk_keep_alive { ka_timestamp : list Z }.

Definition indication_parse (frame : list Z) (expected_ind_id : Z) : option (list Z) :=
  match opc_frame_parse frame with
  | None => None
  | Some (hdr, body) =>
      if negb (command_type hdr =? OPC_CMD_INDICATION) then None
      else if negb (req_indication_id hdr =? expected_ind_id) then None
      else Some body
  end.

(** *** InitComplete *)
Definition opc_ind_init_complete_pack (cap seq_no : Z) (i : opc_ind_init_complete_t)
    : option (list Z) :=
  let body := zeros OPC_IND_INIT_COMPLETE_BODY_LEN in
  let body := opc_be32_write body 0 (ic_status i) in
  opc_frame_build cap OPC_CMD_INDICATION OPC_IND_INIT_COMPLETE seq_no
    OPC_IND_INIT_COMPLETE_LENGTH body.

Definition opc_ind_init_complete_unpack (frame : list Z) : option opc_ind_init_complete_t :=
  match indication_parse frame OPC_IND_INIT_COMPLETE with
  | None => None
  | Some body =>
      if len body <? OPC_IND_INIT_COMPLETE_BODY_LEN then None
      else Some {| ic_status := opc_be32_read body 0 |}
  end.

(** *** WlanStatusChange *)
Definition opc_ind_wlan_status_change_pack (cap seq_no : Z) (i : opc_ind_wlan_status_change_t)
    : option (list Z) :=
  let body := zeros OPC_IND_WLAN_STATUS_CHANGE_BODY_LEN in
  let body := opc_be16_write body 0 (ws_wlan_status i) in
  let body := opc_be16_write body 2 (ws_indication_ch i) in
  opc_frame_build cap OPC_CMD_INDICATION OPC_IND_WLAN_STATUS_CHANGE seq_no
    OPC_IND_WLAN_STATUS_CHANGE_LENGTH body.

Definition opc_ind_wlan_status_change_unpack (frame : list Z)
    : option opc_ind_wlan_status_change_t :=
  match indication_parse frame OPC_IND_WLAN_STATUS_CHANGE with
  | None => None
  | Some body =>
      if len body <? OPC_IND_WLAN_STATUS_CHANGE_BODY_LEN then None
      else Some {| ws_wlan_status := opc_be16_read body 0; ws_indication_ch := opc_be16_read body 2 |}
  end.

(** *** Roaming: SNR and RSSI are sign-extended to 16 bits on the wire. *)
Definition opc_ind_roaming_pack (cap seq_no : Z) (i : opc_ind_roaming_t) : option (list Z) :=
  let body := zeros OPC_IND_ROAMING_BODY_LEN in
  let body := opc_be16_write body 0 (u16 (ro_current_snr i)) in
  let body := opc_be16_write body 2 (u16 (ro_current_rssi i)) in
  let body := write_at 4 (ro_connect_ap_mac i) body in
  let body := opc_be16_write body 10 (ro_ch_number i) in
  opc_frame_build cap OPC_CMD_INDICATION OPC_IND_ROAMING seq_no OPC_IND_ROAMING_LENGTH body.

Definition opc_ind_roaming_unpack (frame : list Z) : option opc_ind_roaming_t :=
  match indication_parse frame OPC_IND_ROAMING with
  | None => None
  | Some body =>
      if len body <? OPC_IND_ROAMING_BODY_LEN then None
      else Some {| ro_current_snr := i8 (opc_be16_read body 0);
                   ro_current_rssi := i8 (opc_be16_read body 2);
                   ro_connect_ap_mac := slice 4 6 body;
                   ro_ch_number := opc_be16_read body 10 |}
  end.

(** *** ApDisconnect *)
Definition opc_ind_ap_disconnect_pack (cap seq_no : Z) (i : opc_ind_ap_disconnect_t)
    : option (list Z) :=
  let body := zeros OPC_IND_AP_DISCONNECT_BODY_LEN in
  let body := opc_be16_write body 0 (ad_message_id i) in
  let body := opc_be16_write body 2 (ad_result_code i) in
  let body := write_at 4 (ad_disconnect_ap_mac i) body in
  opc_frame_build cap OPC_CMD_INDICATION OPC_IND_AP_DISCONNECT seq_no
    OPC_IND_AP_DISCONNECT_LENGTH body.

Definition opc_ind_ap_disconnect_unpack (frame : list Z) : option opc_ind_ap_disconnect_t :=
  match indication_parse frame OPC_IND_AP_DISCONNECT with
  | None => None
  | Some body =>
      if len body <? OPC_IND_AP_DISCONNECT_BODY_LEN then None
      else Some {| ad_message_id := opc_be16_read body 0;
                   ad_result_code := opc_be16_read body 2;
                   ad_disconnect_ap_mac := slice 4 6 body |}
  end.

(** *** FaultDetect *)
Definition opc_ind_fault_detect_pack (cap seq_no : Z) (i : opc_ind_fault_detect_t)
    : option (list Z) :=
  let body := zeros OPC_IND_FAULT_DETECT_BODY_LEN in
  let body := opc_be16_write body 0 (fd_congestion_id i) in
  let body := opc_be16_write body 2 (fd_current_val i) in
  opc_frame_build cap OPC_CMD_INDICATION OPC_IND_FAULT_DETECT seq_no
    OPC_IND_FAULT_DETECT_LENGTH body.

Definition opc_ind_fault_detect_unpack (frame : list Z) : option opc_ind_fault_detect_t :=
  match indication_parse frame OPC_IND_FAULT_DETECT with
  | None => None
  | Some body =>
      if len body <? OPC_IND_FAULT_DETECT_BODY_LEN then None
      else Some {| fd_congestion_id := opc_be16_read body 0; fd_current_val := opc_be16_read body 2 |}
  end.

(** *** ResetNotice *)
Definition opc_ind_reset_notice_pack (cap seq_no : Z) (i : opc_ind_reset_notice_t)
    : option (list Z) :=
  let body := zeros OPC_IND_RESET_NOTICE_BODY_LEN in
  let body := opc_be32_write body 0 (rn_reset_cause i) in
  opc_frame_build cap OPC_CMD_INDICATION OPC_IND_RESET_NOTICE seq_no
    OPC_IND_RESET_NOTICE_LENGTH body.

Definition opc_ind_reset_notice_unpack (frame : list Z) : option opc_ind_reset_notice_t :=
  match indication_parse frame OPC_IND_RESET_NOTICE with
  | None => None
  | Some body =>
      if len body <? OPC_IND_RESET_NOTICE_BODY_LEN then None
      else Some {| rn_reset_cause := opc_be32_read body 0 |}
  end.

(** *** KeepAlive *)
Definition opc_ind_keep_alive_pack (cap seq_no : Z) (i : opc_ind_keep_alive_t)
    : option (list Z) :=
  let body := zeros OPC_IND_KEEP_ALIVE_BODY_LEN in
  let n := opc_bounded_strnlen (ka_timestamp i) (OPC_IND_KEEP_ALIVE_BODY_LEN - 1) in
  let body := write_at 0 (take (Z.to_nat n) (ka_timestamp i)) body in
  opc_frame_build cap OPC_CMD_INDICATION OPC_IND_KEEP_ALIVE seq_no
    OPC_IND_KEEP_ALIVE_LENGTH body.

Definition opc_ind_keep_alive_unpack (frame : list Z) : option opc_ind_keep_alive_t :=
  match indication_parse frame OPC_IND_KEEP_ALIVE with
  | None => None
  | Some body =>
      if len body <? OPC_IND_KEEP_ALIVE_BODY_LEN then None
      else
        let timestamp := slice 0 OPC_IND_KEEP_ALIVE_BODY_LEN body in
        Some {| ka_timestamp := write_at (OPC_IND_KEEP_ALIVE_BODY_LEN - 1) [0] timestamp |}
  end.
End Indications.
Export Indications.
