(* ===== verification/Messages.v ===== *)
(** * All messages of the protocol as one family

    [wire_msg] names every message of commands.h and indications.h; [msg_pack] and
    [msg_unpack] are the functions of [Commands] and [Indications], so that the round
    trip and the separation of messages are stated once for all of them. *)
From S2P Require Import Prelude Codec ScanList Commands Indications.
From stdpp Require Import base list numbers option tactics.
From Stdlib Require Import ZArith Lia.
#[local] Open Scope Z_scope.

Module Messages.

Inductive wire_msg :=
  | LoginReq | LoginAck | LogoutReq | LogoutAck
  | GetBasicInfoReq | GetBasicInfoAck | GetDeviceInfoReq | GetDeviceInfoAck
  | SetPasswordReq | SetPasswordAck | SetIpConfigListReq | SetIpConfigListAck
  | ChangeIpAddressReq | ChangeIpAddressAck | SetRadioConfigReq | SetRadioConfigAck
  | SetIndicationConfigReq | SetIndicationConfigAck | ResetReq | ResetAck
  | InitCompleteInd | WlanStatusChangeInd | RoamingInd | ApDisconnectInd
  | FaultDetectInd | ResetNoticeInd | KeepAliveInd.

Definition msg_type (m : wire_msg) : Type :=
  match m with
  | LoginReq => opc_login_req_t
  | LogoutReq | GetBasicInfoReq | GetDeviceInfoReq | ResetReq => unit
  | GetBasicInfoAck => opc_get_basic_info_ack_t
  | GetDeviceInfoAck => opc_get_device_info_ack_t
  | SetPasswordReq => opc_set_password_req_t
  | SetIpConfigListReq => opc_set_ip_config_list_req_t
  | ChangeIpAddressReq => opc_change_ip_address_req_t
  | SetRadioConfigReq => opc_set_radio_config_req_t
  | SetIndicationConfigReq => opc_set_indication_config_req_t
  | InitCompleteInd => opc_ind_init_complete_t
  | WlanStatusChangeInd => opc_ind_wlan_status_change_t
  | RoamingInd => opc_ind_roaming_t
  | ApDisconnectInd => opc_ind_ap_disconnect_t
  | FaultDetectInd => opc_ind_fault_detect_t
  | ResetNoticeInd => opc_ind_reset_notice_t
  | KeepAliveInd => opc_ind_keep_alive_t
  | _ => opc_simple_ack_t
  end.

(** CommandType and identifier of the message's header. *)
Definition msg_cmd (m : wire_msg) : Z :=
  match m with
  | LoginReq | LogoutReq | GetBasicInfoReq | GetDeviceInfoReq | SetPasswordReq
  | SetIpConfigListReq | ChangeIpAddressReq | SetRadioConfigReq | SetIndicationConfigReq
  | ResetReq => OPC_CMD_REQUEST
  | InitCompleteInd | WlanStatusChangeInd | RoamingInd | ApDisconnectInd | FaultDetectInd
  | ResetNoticeInd | KeepAliveInd => OPC_CMD_INDICATION
  | _ => OPC_CMD_ACK
  end.

Definition msg_id (m : wire_msg) : Z :=
  match m with
  | LoginReq | LoginAck => OPC_REQ_LOGIN
  | LogoutReq | LogoutAck => OPC_REQ_LOGOUT
  | GetBasicInfoReq | GetBasicInfoAck => OPC_REQ_GET_BASIC_INFO
  | GetDeviceInfoReq | GetDeviceInfoAck => OPC_REQ_GET_DEVICE_INFO
  | SetPasswordReq | SetPasswordAck => OPC_REQ_SET_PASSWORD
  | SetIpConfigListReq | SetIpConfigListAck => OPC_REQ_SET_IP_CONFIG_LIST
  | ChangeIpAddressReq | ChangeIpAddressAck => OPC_REQ_CHANGE_IP_ADDRESS
  | SetRadioConfigReq | SetRadioConfigAck => OPC_REQ_SET_RADIO_CONFIG
  | SetIndicationConfigReq | SetIndicationConfigAck => OPC_REQ_SET_INDICATION_CONFIG
  | ResetReq | ResetAck => OPC_REQ_RESET
  | InitCompleteInd => OPC_IND_INIT_COMPLETE
  | WlanStatusChangeInd => OPC_IND_WLAN_STATUS_CHANGE
  | RoamingInd => OPC_IND_ROAMING
  | ApDisconnectInd => OPC_IND_AP_DISCONNECT
  | FaultDetectInd => OPC_IND_FAULT_DETECT
  | ResetNoticeInd => OPC_IND_RESET_NOTICE
  | KeepAliveInd => OPC_IND_KEEP_ALIVE
  end.

Definition msg_pack (m : wire_msg) (cap seq : Z) : msg_type m → option (list Z) :=
  match m with
  | LoginReq => opc_login_req_pack cap seq
  | LoginAck => opc_login_ack_pack cap seq
  | LogoutReq => λ _, opc_logout_req_pack cap seq
  | LogoutAck => opc_logout_ack_pack cap seq
  | GetBasicInfoReq => λ _, opc_get_basic_info_req_pack cap seq
  | GetBasicInfoAck => opc_get_basic_info_ack_pack cap seq
  | GetDeviceInfoReq => λ _, opc_get_device_info_req_pack cap seq
  | GetDeviceInfoAck => opc_get_device_info_ack_pack cap seq
  | SetPasswordReq => opc_set_password_req_pack cap seq
  | SetPasswordAck => opc_set_password_ack_pack cap seq
  | SetIpConfigListReq => opc_set_ip_config_list_req_pack cap seq
  | SetIpConfigListAck => opc_set_ip_config_list_ack_pack cap seq
  | ChangeIpAddressReq => opc_change_ip_address_req_pack cap seq
  | ChangeIpAddressAck => opc_change_ip_address_ack_pack cap seq
  | SetRadioConfigReq => opc_set_radio_config_req_pack cap seq
  | SetRadioConfigAck => opc_set_radio_config_ack_pack cap seq
  | SetIndicationConfigReq => opc_set_indication_config_req_pack cap seq
  | SetIndicationConfigAck => opc_set_indication_config_ack_pack cap seq
  | ResetReq => λ _, opc_reset_req_pack cap seq
  | ResetAck => opc_reset_ack_pack cap seq
  | InitCompleteInd => opc_ind_init_complete_pack cap seq
  | WlanStatusChangeInd => opc_ind_wlan_status_change_pack cap seq
  | RoamingInd => opc_ind_roaming_pack cap seq
  | ApDisconnectInd => opc_ind_ap_disconnect_pack cap seq
  | FaultDetectInd => opc_ind_fault_detect_pack cap seq
  | ResetNoticeInd => opc_ind_reset_notice_pack cap seq
  | KeepAliveInd => opc_ind_keep_alive_pack cap seq
  end.

Definition unpack_ok {A} (r : unpack_result A) : option A :=
  match r with UnpackOk a => Some a | _ => None end.

Definition msg_unpack (m : wire_msg) (frame : list Z) : option (msg_type m) :=
  match m with
  | LoginReq => opc_login_req_unpack frame
  | LoginAck => opc_login_ack_unpack frame
  | LogoutReq => opc_logout_req_unpack frame
  | LogoutAck => opc_logout_ack_unpack frame
  | GetBasicInfoReq => opc_get_basic_info_req_unpack frame
  | GetBasicInfoAck => opc_get_basic_info_ack_unpack frame
  | GetDeviceInfoReq => opc_get_device_info_req_unpack frame
  | GetDeviceInfoAck => opc_get_device_info_ack_unpack frame
  | SetPasswordReq => opc_set_password_req_unpack frame
  | SetPasswordAck => opc_set_password_ack_unpack frame
  | SetIpConfigListReq => unpack_ok (opc_set_ip_config_list_req_unpack frame)
  | SetIpConfigListAck => opc_set_ip_config_list_ack_unpack frame
  | ChangeIpAddressReq => opc_change_ip_address_req_unpack frame
  | ChangeIpAddressAck => opc_change_ip_address_ack_unpack frame
  | SetRadioConfigReq => opc_set_radio_config_req_unpack frame
  | SetRadioConfigAck => opc_set_radio_config_ack_unpack frame
  | SetIndicationConfigReq => opc_set_indication_config_req_unpack frame
  | SetIndicationConfigAck => opc_set_indication_config_ack_unpack frame
  | ResetReq => opc_reset_req_unpack frame
  | ResetAck => opc_reset_ack_unpack frame
  | InitCompleteInd => opc_ind_init_complete_unpack frame
  | WlanStatusChangeInd => opc_ind_wlan_status_change_unpack frame
  | RoamingInd => opc_ind_roaming_unpack frame
  | ApDisconnectInd => opc_ind_ap_disconnect_unpack frame
  | FaultDetectInd => opc_ind_fault_detect_unpack frame
  | ResetNoticeInd => opc_ind_reset_notice_unpack frame
  | KeepAliveInd => opc_ind_keep_alive_unpack frame
  end.

(** ** Well-formed values: every field in the range of its C type *)

Definition date_ok (d : opc_date_t) : Prop := is_u16 (year d).
Definition radio_state_ok (r : opc_wlan_radio_state_t) : Prop :=
  len (rs_mac r) = 6 ∧ is_u16 (rs_freq_mhz r) ∧ is_u16 (rs_channel r) ∧ is_u16 (rs_status r) ∧
  is_i8 (rs_snr r) ∧ is_i8 (rs_rssi r) ∧ len (rs_connect_ap_mac r) = 6 ∧
  is_u16 (rs_scan_band r) ∧ len (rs_scan_chlist r) = 8.
Definition ack_ok (a : opc_simple_ack_t) : Prop := is_u16 (result a) ∧ is_u16 (error_cause a).
Definition device_info_ok (i : opc_get_device_info_ack_t) : Prop :=
  is_u16 (di_result i) ∧ is_u16 (di_error_cause i) ∧ is_u32 (di_vendor_code i) ∧
  is_u16 (di_product_code i) ∧ is_u16 (di_product_subcode i) ∧
  date_ok (di_manufacture i) ∧ date_ok (di_shipment i) ∧
  len (di_firmware_version i) = 32 ∧ len (di_hardware_version i) = 32 ∧
  len (di_serial_number i) = 32 ∧ len (di_ethernet_mac i) = 6 ∧
  is_u32 (di_ip_address i) ∧ is_u32 (di_subnet_mask i) ∧ is_u32 (di_default_gateway i) ∧
  is_u32 (di_ntp_server i) ∧ len (di_essid i) = 32 ∧ is_u32 (di_device_status i) ∧
  is_u16 (di_station_type i) ∧ is_u16 (di_priority_ch i) ∧
  radio_state_ok (di_wlan1 i) ∧ radio_state_ok (di_wlan2 i).
Definition entry_ok (e : opc_ipcfg_entry_t) : Prop :=
  is_u16 (boundary_flag e) ∧ is_u16 (list_number e) ∧ is_u32 (ip_address e) ∧
  is_u32 (subnet_mask e) ∧ is_u32 (default_gateway e) ∧ is_u32 (ntp_server e) ∧
  len (essid e) = 32.
Definition radio_cfg_ok (r : opc_wlan_radio_cfg_t) : Prop :=
  is_u16 (rc_scan_band r) ∧ len (rc_scan_chlist r) = 8.

Definition msg_ok (m : wire_msg) : msg_type m → Prop :=
  match m with
  | LoginReq => λ i, len (lr_password i) = 128
  | LogoutReq | GetBasicInfoReq | GetDeviceInfoReq | ResetReq => λ _, True
  | GetBasicInfoAck => λ i,
      is_u32 (bi_vendor_code i) ∧ is_u16 (bi_product_code i) ∧ is_u16 (bi_product_subcode i) ∧
      is_u32 (bi_device_status i) ∧ is_u16 (bi_station_type i)
  | GetDeviceInfoAck => device_info_ok
  | SetPasswordReq => λ i, len (sp_old_password i) = 128 ∧ len (sp_new_password i) = 128
  | SetIpConfigListReq => λ i, 1 <= len (entries i) <= 20 ∧ Forall entry_ok (entries i)
  | ChangeIpAddressReq => λ i, is_u16 (ci_list_number i)
  | SetRadioConfigReq => λ i,
      is_u16 (station_type i) ∧ is_u16 (priority_ch i) ∧
      radio_cfg_ok (wlan1 i) ∧ radio_cfg_ok (wlan2 i)
  | SetIndicationConfigReq => λ i, is_u16 (recipient_port i) ∧ is_u32 (recipient_ip i)
  | InitCompleteInd => λ i, is_u32 (ic_status i)
  | WlanStatusChangeInd => λ i, is_u16 (ws_wlan_status i) ∧ is_u16 (ws_indication_ch i)
  | RoamingInd => λ i,
      is_i8 (ro_current_snr i) ∧ is_i8 (ro_current_rssi i) ∧
      len (ro_connect_ap_mac i) = 6 ∧ is_u16 (ro_ch_number i)
  | ApDisconnectInd => λ i,
      is_u16 (ad_message_id i) ∧ is_u16 (ad_result_code i) ∧ len (ad_disconnect_ap_mac i) = 6
  | FaultDetectInd => λ i, is_u16 (fd_congestion_id i) ∧ is_u16 (fd_current_val i)
  | ResetNoticeInd => λ i, is_u32 (rn_reset_cause i)
  | KeepAliveInd => λ i, len (ka_timestamp i) = 32
  | _ => ack_ok
  end.

(** ** What the peer sees
    A string field arrives cut at its first NUL (or at the field width minus one) and
    zero-padded: bytes behind the terminator never leave the device. *)
Definition cstr_pad (n : Z) (s : list Z) : list Z :=
  let k := opc_bounded_strnlen s (n - 1) in take (Z.to_nat k) s ++ zeros (n - k).

Definition entry_canon (e : opc_ipcfg_entry_t) : opc_ipcfg_entry_t :=
  {| boundary_flag := boundary_flag e; list_number := list_number e; ip_address := ip_address e;
     subnet_mask := subnet_mask e; default_gateway := default_gateway e;
     ntp_server := ntp_server e; essid := cstr_pad 32 (essid e) |}.

Definition device_info_canon (i : opc_get_device_info_ack_t) : opc_get_device_info_ack_t :=
  {| di_result := di_result i; di_error_cause := di_error_cause i;
     di_vendor_code := di_vendor_code i; di_product_code := di_product_code i;
     di_product_subcode := di_product_subcode i; di_manufacture := di_manufacture i;
     di_shipment := di_shipment i;
     di_firmware_version := cstr_pad 32 (di_firmware_version i);
     di_hardware_version := cstr_pad 32 (di_hardware_version i);
     di_serial_number := cstr_pad 32 (di_serial_number i);
     di_ethernet_mac := di_ethernet_mac i; di_ip_address := di_ip_address i;
     di_subnet_mask := di_subnet_mask i; di_default_gateway := di_default_gateway i;
     di_ntp_server := di_ntp_server i; di_essid := cstr_pad 32 (di_essid i);
     di_device_status := di_device_status i; di_station_type := di_station_type i;
     di_priority_ch := di_priority_ch i; di_ieee_11r := di_ieee_11r i;
     di_ieee_11ai := di_ieee_11ai i; di_ieee_11k := di_ieee_11k i;
     di_ieee_11v := di_ieee_11v i; di_wlan1 := di_wlan1 i; di_wlan2 := di_wlan2 i |}.

Definition msg_canon (m : wire_msg) : msg_type m → msg_type m :=
  match m with
  | LoginReq => λ i, {| lr_password := cstr_pad 128 (lr_password i);
                        lr_password_terminated := true |}
  | GetDeviceInfoAck => device_info_canon
  | SetPasswordReq => λ i,
      {| sp_old_password := cstr_pad 128 (sp_old_password i);
         sp_new_password := cstr_pad 128 (sp_new_password i);
         sp_old_password_terminated := true; sp_new_password_terminated := true |}
  | SetIpConfigListReq => λ i,
      {| entries := map entry_canon (entries i);
         essid_terminated_mask := Z.ones (len (entries i)) |}
  | KeepAliveInd => λ i, {| ka_timestamp := cstr_pad 32 (ka_timestamp i) |}
  | _ => λ i, i
  end.

(** ** String fields *)

Lemma strnlen_loop_le s cap : (strnlen_loop s cap <= cap ∧ strnlen_loop s cap <= length s)%nat.
Proof.
  revert cap. induction s as [|c s IH]; intros [|cap]; simpl; try lia.
  destruct (c =? 0); [lia|]. specialize (IH cap). lia.
Qed.

Lemma strnlen_bounds s cap :
  0 <= cap → 0 <= opc_bounded_strnlen s cap <= cap ∧ opc_bounded_strnlen s cap <= len s.
Proof.
  intros. unfold opc_bounded_strnlen, len. pose proof (strnlen_loop_le s (Z.to_nat cap)). lia.
Qed.

Lemma len_cstr_pad n s : 0 < n → len (cstr_pad n s) = n.
Proof.
  intros. unfold cstr_pad. pose proof (strnlen_bounds s (n - 1) ltac:(lia)).
  rewrite len_app, len_zeros by lia. unfold len in *. rewrite length_take. lia.
Qed.

Lemma cstr_pad_terminated n s : 0 < n → existsb (λ c, c =? 0) (cstr_pad n s) = true.
Proof.
  intros. unfold cstr_pad. pose proof (strnlen_bounds s (n - 1) ltac:(lia)).
  apply existsb_exists. exists 0. split; [|done]. apply in_or_app. right.
  apply list_elem_of_In. unfold zeros. apply elem_of_replicate. lia.
Qed.

Lemma cstr_pad_last n s : 0 < n → write_at (n - 1) [0] (cstr_pad n s) = cstr_pad n s.
Proof.
  intros Hn. pose proof (len_cstr_pad n s Hn) as Hlen.
  pose proof (strnlen_bounds s (n - 1) ltac:(lia)) as Hb.
  assert (H1 : ∀ x : Z, len [x] = 1) by done. apply list_eq_rd.
  - rewrite len_write_at; rewrite ?H1; lia.
  - intros i Hi. rewrite len_write_at in Hi by (rewrite ?H1; lia).
    destruct (decide (i = n - 1)) as [->|]; [|apply rd_write_out; rewrite ?H1; lia].
    rewrite rd_write_in by (rewrite ?H1; lia). rewrite Z.sub_diag. unfold cstr_pad.
    assert (Ht : len (take (Z.to_nat (opc_bounded_strnlen s (n - 1))) s) =
                 opc_bounded_strnlen s (n - 1)) by (unfold len in *; rewrite length_take; lia).
    rewrite rd_app_r by lia. unfold rd, zeros. rewrite lookup_replicate_2 by lia. done.
Qed.

Lemma copy_with_null_pad_write p off n s :
  0 < n → 0 <= off <= len p → copy_with_null_pad p off n s = write_at off (cstr_pad n s) p.
Proof.
  intros. unfold copy_with_null_pad. guard_eval.
  pose proof (strnlen_bounds s (n - 1) ltac:(lia)) as Hb.
  assert (Ht : len (take (Z.to_nat (opc_bounded_strnlen s (n - 1))) s) =
               opc_bounded_strnlen s (n - 1)) by (unfold len in *; rewrite length_take; lia).
  rewrite write_at_twice by (rewrite ?Ht, ?len_zeros; lia). f_equal. unfold cstr_pad. f_equal.
  unfold zeros. rewrite drop_replicate. f_equal. unfold len in Ht. lia.
Qed.

Lemma copy_string_field_pad n src off s :
  0 < n → slice off n src = cstr_pad n s → copy_string_field n src off = (cstr_pad n s, true).
Proof.
  intros Hn Hs. unfold copy_string_field. rewrite Hs.
  by rewrite cstr_pad_last, cstr_pad_terminated.
Qed.

(** ** Round trips *)

(** The message [o] is a frame with header (cmd, id, seq) that [unpack] reads as [a]. *)
Definition roundtrips {A} (o : option (list Z)) (cmd id seq : Z)
    (unpack : list Z → option A) (a : A) : Prop :=
  ∃ frame hdr body, o = Some frame ∧ len frame <= OPC_FRAME_MAX ∧
    opc_frame_parse frame = Some (hdr, body) ∧ command_type hdr = cmd ∧
    req_indication_id hdr = id ∧ sequence_number hdr = seq ∧ unpack frame = Some a.

Section RoundTrip.
Context (cap seq : Z).
Hypothesis Hcap : OPC_FRAME_MAX <= cap.
Hypothesis Hseq : is_u16 seq.

(** A body built as a layout and read back field by field. *)
Lemma build_roundtrips {A} cmd id lf body (unpack : list Z → option A) a :
  is_u8 cmd → is_u16 id → lf = len body + 56 → len body <= OPC_PAYLOAD_MAX →
  (∀ frame hdr, opc_frame_parse frame = Some (hdr, body) → command_type hdr = cmd →
     req_indication_id hdr = id → unpack frame = Some a) →
  roundtrips (opc_frame_build cap cmd id seq lf body) cmd id seq unpack a.
Proof.
  intros Hc Hi -> Hb Hu. unfold OPC_FRAME_MAX, OPC_PAYLOAD_MAX in *.
  destruct (frame_build_some cap cmd id seq (len body + 56) body) as [f Hf]; [lia..|].
  pose proof (frame_build_parse _ _ _ _ _ _ Hc Hi Hseq Hf) as Hp.
  apply len_frame_build in Hf as Hl. eexists f, _, body.
  split; [done|]. split; [unfold OPC_FRAME_MAX; lia|]. split; [done|]. cbn.
  split_and!; [done..|]. by eapply Hu.
Qed.

Lemma parse_expect_ok frame hdr body ct id mn :
  opc_frame_parse frame = Some (hdr, body) → command_type hdr = ct →
  req_indication_id hdr = id → mn <= len body → parse_expect frame ct id mn = Some body.
Proof. intros Hp <- <- Hm. unfold parse_expect. rewrite Hp. guard_eval. done. Qed.

Lemma indication_parse_ok frame hdr body id :
  opc_frame_parse frame = Some (hdr, body) → command_type hdr = OPC_CMD_INDICATION →
  req_indication_id hdr = id → indication_parse frame id = Some body.
Proof. intros Hp Hc <-. unfold indication_parse. rewrite Hp. guard_eval. done. Qed.

(** [layout_body Hl]: names the goal's body as a layout and proves it fits. *)
Ltac layout_body Hl :=
  match goal with
  | |- roundtrips (opc_frame_build _ _ _ _ _ ?b) _ _ _ _ _ =>
      let r := collect b constr:(@nil (Z * list Z)) in
      match r with
      | (?ws, ?n) => replace b with (apply_writes ws (zeros n)) by as_writes;
                     assert (Hl : layout_ok 0 ws n) by layout_solve
      end
  end.
Ltac layout_roundtrip unf :=
  let Hl := fresh "Hl" in let f := fresh "frame" in let h := fresh "hdr" in
  let Hp := fresh "Hp" in let Hc := fresh "Hc" in let Hi := fresh "Hi" in
  layout_body Hl;
  apply build_roundtrips;
  [ done | done | by rewrite (len_body _ _ Hl)
  | rewrite (len_body _ _ Hl); done
  | intros f h Hp Hc Hi; unf ();
    first [ erewrite parse_expect_ok by (first [eassumption | rewrite (len_body _ _ Hl); done])
          | erewrite indication_parse_ok by eassumption; rewrite (len_body _ _ Hl);
            cbn [Z.ltb Z.compare Pos.compare Pos.compare_cont] ];
    layout_read Hl ].

Lemma simple_ack_roundtrip id lf i :
  is_u16 id → lf = 60 → ack_ok i →
  roundtrips (opc_simple_ack_pack cap id seq lf (result i) (error_cause i)) OPC_CMD_ACK id seq
    (λ f, opc_simple_ack_unpack f id) i.
Proof.
  intros Hid -> [H1 H2]. unfold opc_simple_ack_pack, OPC_SIMPLE_ACK_BODY_LEN.
  layout_roundtrip ltac:(fun _ => unfold opc_simple_ack_unpack, OPC_SIMPLE_ACK_BODY_LEN).
  by destruct i.
Qed.

Lemma empty_req_roundtrip id u :
  is_u16 id → roundtrips (empty_req_pack cap id seq) OPC_CMD_REQUEST id seq
    (λ f, empty_req_unpack f id) u.
Proof.
  intros Hid. destruct u. unfold OPC_FRAME_MAX in Hcap.
  destruct (empty_frame_parse cap OPC_CMD_REQUEST id seq) as (f & Hf & Hl & Hp);
    [done..|unfold OPC_FIXED_HEADER_SIZE; lia|].
  eexists f, _, []. unfold empty_req_pack, OPC_FRAME_MAX.
  split; [done|]. split; [lia|]. split; [done|]. cbn. split_and!; [done..|].
  unfold empty_req_unpack. rewrite Hl, Hp. cbn. guard_eval. done.
Qed.

Lemma login_req_roundtrip i :
  roundtrips (opc_login_req_pack cap seq i) OPC_CMD_REQUEST OPC_REQ_LOGIN seq
    opc_login_req_unpack (msg_canon LoginReq i).
Proof.
  unfold opc_login_req_pack, OPC_LOGIN_REQ_BODY_LEN.
  rewrite copy_with_null_pad_write by buf_side. pose proof (len_cstr_pad 128 (lr_password i) eq_refl).
  layout_body Hl. apply build_roundtrips; rewrite ?(len_body _ _ Hl); try done.
  intros f h Hp Hc Hi. unfold opc_login_req_unpack, OPC_LOGIN_REQ_BODY_LEN.
  erewrite parse_expect_ok by (first [eassumption | rewrite (len_body _ _ Hl); done]).
  erewrite copy_string_field_pad; [done|done|]. by layout_read Hl.
Qed.

Lemma set_password_req_roundtrip i :
  roundtrips (opc_set_password_req_pack cap seq i) OPC_CMD_REQUEST OPC_REQ_SET_PASSWORD seq
    opc_set_password_req_unpack (msg_canon SetPasswordReq i).
Proof.
  pose proof (len_cstr_pad 128 (sp_old_password i) eq_refl).
  pose proof (len_cstr_pad 128 (sp_new_password i) eq_refl).
  unfold opc_set_password_req_pack, OPC_SET_PASSWORD_REQ_BODY_LEN.
  rewrite (copy_with_null_pad_write _ 0) by buf_side.
  rewrite (copy_with_null_pad_write _ 128) by buf_side.
  layout_body Hl. apply build_roundtrips; rewrite ?(len_body _ _ Hl); try done.
  intros f h Hp Hc Hi. unfold opc_set_password_req_unpack, OPC_SET_PASSWORD_REQ_BODY_LEN.
  erewrite parse_expect_ok by (first [eassumption | rewrite (len_body _ _ Hl); done]).
  rewrite (copy_string_field_pad 128 _ 0 (sp_old_password i)),
    (copy_string_field_pad 128 _ 128 (sp_new_password i)); [done|done| |done|]; by layout_read Hl.
Qed.

Lemma basic_info_ack_roundtrip i :
  msg_ok GetBasicInfoAck i →
  roundtrips (opc_get_basic_info_ack_pack cap seq i) OPC_CMD_ACK OPC_REQ_GET_BASIC_INFO seq
    opc_get_basic_info_ack_unpack i.
Proof.
  intros (?&?&?&?&?). unfold opc_get_basic_info_ack_pack, OPC_GET_BASIC_INFO_ACK_BODY_LEN.
  layout_roundtrip ltac:(fun _ => unfold opc_get_basic_info_ack_unpack, OPC_GET_BASIC_INFO_ACK_BODY_LEN).
  by destruct i.
Qed.

Lemma change_ip_req_roundtrip i :
  msg_ok ChangeIpAddressReq i →
  roundtrips (opc_change_ip_address_req_pack cap seq i) OPC_CMD_REQUEST OPC_REQ_CHANGE_IP_ADDRESS seq
    opc_change_ip_address_req_unpack i.
Proof.
  intros ?. unfold opc_change_ip_address_req_pack, OPC_CHANGE_IP_ADDRESS_REQ_BODY_LEN.
  cbn in *.
  layout_roundtrip ltac:(fun _ => unfold opc_change_ip_address_req_unpack, OPC_CHANGE_IP_ADDRESS_REQ_BODY_LEN).
  by destruct i.
Qed.

Lemma radio_config_req_roundtrip i :
  msg_ok SetRadioConfigReq i →
  roundtrips (opc_set_radio_config_req_pack cap seq i) OPC_CMD_REQUEST OPC_REQ_SET_RADIO_CONFIG seq
    opc_set_radio_config_req_unpack i.
Proof.
  intros (?&?&[??]&[??]). unfold opc_set_radio_config_req_pack, OPC_SET_RADIO_CONFIG_REQ_BODY_LEN.
  layout_roundtrip ltac:(fun _ => unfold opc_set_radio_config_req_unpack,
    OPC_SET_RADIO_CONFIG_REQ_BODY_LEN, OPC_SCAN_CHLIST_LEN).
  by destruct i as [?? [] []].
Qed.

Lemma indication_config_req_roundtrip i :
  msg_ok SetIndicationConfigReq i →
  roundtrips (opc_set_indication_config_req_pack cap seq i) OPC_CMD_REQUEST
    OPC_REQ_SET_INDICATION_CONFIG seq opc_set_indication_config_req_unpack i.
Proof.
  intros (?&?). unfold opc_set_indication_config_req_pack, OPC_SET_INDICATION_CONFIG_REQ_BODY_LEN.
  layout_roundtrip ltac:(fun _ => unfold opc_set_indication_config_req_unpack,
    OPC_SET_INDICATION_CONFIG_REQ_BODY_LEN).
  by destruct i.
Qed.

Lemma init_complete_roundtrip i :
  msg_ok InitCompleteInd i →
  roundtrips (opc_ind_init_complete_pack cap seq i) OPC_CMD_INDICATION OPC_IND_INIT_COMPLETE seq
    opc_ind_init_complete_unpack i.
Proof.
  cbn. intros ?. unfold opc_ind_init_complete_pack, OPC_IND_INIT_COMPLETE_BODY_LEN.
  layout_roundtrip ltac:(fun _ => unfold opc_ind_init_complete_unpack, OPC_IND_INIT_COMPLETE_BODY_LEN).
  by destruct i.
Qed.

Lemma wlan_status_roundtrip i :
  msg_ok WlanStatusChangeInd i →
  roundtrips (opc_ind_wlan_status_change_pack cap seq i) OPC_CMD_INDICATION
    OPC_IND_WLAN_STATUS_CHANGE seq opc_ind_wlan_status_change_unpack i.
Proof.
  intros [??]. unfold opc_ind_wlan_status_change_pack, OPC_IND_WLAN_STATUS_CHANGE_BODY_LEN.
  layout_roundtrip ltac:(fun _ => unfold opc_ind_wlan_status_change_unpack,
    OPC_IND_WLAN_STATUS_CHANGE_BODY_LEN).
  by destruct i.
Qed.

Lemma roaming_roundtrip i :
  msg_ok RoamingInd i →
  roundtrips (opc_ind_roaming_pack cap seq i) OPC_CMD_INDICATION OPC_IND_ROAMING seq
    opc_ind_roaming_unpack i.
Proof.
  intros (?&?&?&?). unfold opc_ind_roaming_pack, OPC_IND_ROAMING_BODY_LEN.
  pose proof (u16_range (ro_current_snr i)). pose proof (u16_range (ro_current_rssi i)).
  layout_roundtrip ltac:(fun _ => unfold opc_ind_roaming_unpack, OPC_IND_ROAMING_BODY_LEN).
  rewrite !i8_u16 by done. by destruct i.
Qed.

Lemma ap_disconnect_roundtrip i :
  msg_ok ApDisconnectInd i →
  roundtrips (opc_ind_ap_disconnect_pack cap seq i) OPC_CMD_INDICATION OPC_IND_AP_DISCONNECT seq
    opc_ind_ap_disconnect_unpack i.
Proof.
  intros (?&?&?). unfold opc_ind_ap_disconnect_pack, OPC_IND_AP_DISCONNECT_BODY_LEN.
  layout_roundtrip ltac:(fun _ => unfold opc_ind_ap_disconnect_unpack, OPC_IND_AP_DISCONNECT_BODY_LEN).
  by destruct i.
Qed.

Lemma fault_detect_roundtrip i :
  msg_ok FaultDetectInd i →
  roundtrips (opc_ind_fault_detect_pack cap seq i) OPC_CMD_INDICATION OPC_IND_FAULT_DETECT seq
    opc_ind_fault_detect_unpack i.
Proof.
  intros (?&?). unfold opc_ind_fault_detect_pack, OPC_IND_FAULT_DETECT_BODY_LEN.
  layout_roundtrip ltac:(fun _ => unfold opc_ind_fault_detect_unpack, OPC_IND_FAULT_DETECT_BODY_LEN).
  by destruct i.
Qed.

Lemma reset_notice_roundtrip i :
  msg_ok ResetNoticeInd i →
  roundtrips (opc_ind_reset_notice_pack cap seq i) OPC_CMD_INDICATION OPC_IND_RESET_NOTICE seq
    opc_ind_reset_notice_unpack i.
Proof.
  cbn. intros ?. unfold opc_ind_reset_notice_pack, OPC_IND_RESET_NOTICE_BODY_LEN.
  layout_roundtrip ltac:(fun _ => unfold opc_ind_reset_notice_unpack, OPC_IND_RESET_NOTICE_BODY_LEN).
  by destruct i.
Qed.

(** The KeepAlive body is the padded timestamp itself. *)
Lemma keep_alive_body s :
  write_at 0 (take (Z.to_nat (opc_bounded_strnlen s 31)) s) (zeros 32) = cstr_pad 32 s.
Proof.
  rewrite <- (write_at_whole (zeros 32) (zeros 32)) at 1 by done.
  pose proof (copy_with_null_pad_write (zeros 32) 0 32 s ltac:(lia) ltac:(buf_side)) as H.
  unfold copy_with_null_pad in H. cbn [Z.eqb] in H. change (32 - 1) with 31 in H.
  rewrite H. apply write_at_whole. by rewrite len_cstr_pad.
Qed.

Lemma keep_alive_roundtrip i :
  roundtrips (opc_ind_keep_alive_pack cap seq i) OPC_CMD_INDICATION OPC_IND_KEEP_ALIVE seq
    opc_ind_keep_alive_unpack (msg_canon KeepAliveInd i).
Proof.
  unfold opc_ind_keep_alive_pack, OPC_IND_KEEP_ALIVE_BODY_LEN. change (32 - 1) with 31.
  rewrite keep_alive_body. pose proof (len_cstr_pad 32 (ka_timestamp i) eq_refl) as Hl.
  apply build_roundtrips; rewrite ?Hl; try done. intros f h Hp Hc Hi.
  unfold opc_ind_keep_alive_unpack, OPC_IND_KEEP_ALIVE_BODY_LEN.
  erewrite indication_parse_ok by eassumption. rewrite Hl. cbn [Z.ltb Z.compare Pos.compare Pos.compare_cont].
  unfold slice. rewrite drop_0, take_ge by (unfold len in Hl; lia).
  by rewrite cstr_pad_last.
Qed.

Lemma device_info_ack_roundtrip i :
  device_info_ok i →
  roundtrips (opc_get_device_info_ack_pack cap seq i) OPC_CMD_ACK OPC_REQ_GET_DEVICE_INFO seq
    opc_get_device_info_ack_unpack (device_info_canon i).
Proof.
  intros (?&?&?&?&?&Hd1&Hd2&?&?&?&?&?&?&?&?&?&?&?&?&
    (?&?&?&?&?&?&?&?&?) & (?&?&?&?&?&?&?&?&?)). unfold date_ok in Hd1, Hd2.
  pose proof (len_cstr_pad 32 (di_firmware_version i) eq_refl).
  pose proof (len_cstr_pad 32 (di_hardware_version i) eq_refl).
  pose proof (len_cstr_pad 32 (di_serial_number i) eq_refl).
  pose proof (len_cstr_pad 32 (di_essid i) eq_refl).
  unfold opc_get_device_info_ack_pack, opc_get_device_info_ack_body,
    OPC_GET_DEVICE_INFO_ACK_BODY_LEN, OPC_VERSION_FIELD_LEN, OPC_SERIAL_FIELD_LEN,
    OPC_ESSID_FIELD_LEN, pack_date, pack_radio_state.
  rewrite (copy_with_null_pad_write _ 20) by buf_side.
  rewrite (copy_with_null_pad_write _ 52) by buf_side.
  rewrite (copy_with_null_pad_write _ 84) by buf_side.
  rewrite (copy_with_null_pad_write _ 140) by buf_side.
  layout_body Hl. apply build_roundtrips; rewrite ?(len_body _ _ Hl); try done.
  intros f h Hp Hc Hi. unfold opc_get_device_info_ack_unpack, OPC_GET_DEVICE_INFO_ACK_BODY_LEN,
    OPC_VERSION_FIELD_LEN, OPC_SERIAL_FIELD_LEN, OPC_ESSID_FIELD_LEN, unpack_date,
    unpack_radio_state, OPC_SCAN_CHLIST_LEN.
  erewrite parse_expect_ok by (first [eassumption | rewrite (len_body _ _ Hl); done]).
  rewrite (copy_string_field_pad 32 _ 20 (di_firmware_version i)) by (done || by layout_read Hl).
  rewrite (copy_string_field_pad 32 _ 52 (di_hardware_version i)) by (done || by layout_read Hl).
  rewrite (copy_string_field_pad 32 _ 84 (di_serial_number i)) by (done || by layout_read Hl).
  rewrite (copy_string_field_pad 32 _ 140 (di_essid i)) by (done || by layout_read Hl).
  set (body := apply_writes _ _). layout_read Hl. rewrite !i8_u8 by done.
  clear. unfold device_info_canon. by destruct i as [????? [] [] ???????????????? [] []].
Qed.

(** *** The configuration list: one 64-byte block per entry *)

Definition entry_block (e : opc_ipcfg_entry_t) : list Z := pack_ipcfg_entry (zeros 64) 0 e.

(** The block as a layout, and what its fields read back as. *)
Lemma entry_block_layout e :
  ∃ ws, entry_block e = apply_writes ws (zeros 64) ∧ layout_ok 0 ws 64 ∧
    ws = [(0, [u8 (Z.shiftr (boundary_flag e) 8); u8 (boundary_flag e)]);
          (2, [u8 (Z.shiftr (list_number e) 8); u8 (list_number e)]);
          (4, [u8 (Z.shiftr (ip_address e) 24); u8 (Z.shiftr (ip_address e) 16);
               u8 (Z.shiftr (ip_address e) 8); u8 (ip_address e)]);
          (8, [u8 (Z.shiftr (subnet_mask e) 24); u8 (Z.shiftr (subnet_mask e) 16);
               u8 (Z.shiftr (subnet_mask e) 8); u8 (subnet_mask e)]);
          (12, [u8 (Z.shiftr (default_gateway e) 24); u8 (Z.shiftr (default_gateway e) 16);
               u8 (Z.shiftr (default_gateway e) 8); u8 (default_gateway e)]);
          (16, [u8 (Z.shiftr (ntp_server e) 24); u8 (Z.shiftr (ntp_server e) 16);
               u8 (Z.shiftr (ntp_server e) 8); u8 (ntp_server e)]);
          (20, cstr_pad 32 (essid e)); (52, zeros 12)].
Proof.
  eexists. split; [|split; [|reflexivity]].
  - unfold entry_block, pack_ipcfg_entry. rewrite !Z.add_0_l.
    rewrite copy_with_null_pad_write by buf_side. as_writes.
  - pose proof (len_cstr_pad 32 (essid e) eq_refl). layout_solve.
Qed.

Lemma len_entry_block e : len (entry_block e) = 64.
Proof. destruct (entry_block_layout e) as (ws & -> & Hl & _). by apply len_body. Qed.

Lemma slice_block a x b off k n :
  off = len a + k → 0 <= k → 0 <= n → k + n <= len x →
  slice off n (a ++ x ++ b) = slice k n x.
Proof.
  intros -> ???. pose proof (len_nonneg a). pose proof (len_nonneg b). apply list_eq_rd.
  - rewrite !len_slice; rewrite ?len_app; lia.
  - intros i Hi. rewrite len_slice in Hi by (rewrite ?len_app; lia).
    rewrite !rd_slice by lia. rewrite rd_app_r, rd_app_l by lia. f_equal. lia.
Qed.

Lemma unpack_entry_at a b off e :
  entry_ok e → off = len a → unpack_ipcfg_entry (a ++ entry_block e ++ b) off = (entry_canon e, true).
Proof.
  intros (?&?&?&?&?&?&?) ->. pose proof (len_entry_block e) as Hlb. pose proof (len_nonneg a).
  destruct (entry_block_layout e) as (ws & Hw & Hl & Hws).
  unfold unpack_ipcfg_entry. erewrite (copy_string_field_pad 32 _ _ (essid e)); [|done|].
  2:{ rewrite (slice_block _ _ _ _ 20) by lia. rewrite Hw. subst ws.
      pose proof (len_cstr_pad 32 (essid e) eq_refl). by layout_read Hl. }
  rewrite !(be16_via_slice (a ++ _)), !(be32_via_slice (a ++ _)) by lia.
  rewrite (slice_block a _ b (len a + 0) 0), (slice_block a _ b (len a + 2) 2),
    (slice_block a _ b (len a + 4) 4), (slice_block a _ b (len a + 8) 8),
    (slice_block a _ b (len a + 12) 12), (slice_block a _ b (len a + 16) 16) by lia.
  rewrite <- !be16_via_slice, <- !be32_via_slice by lia. rewrite Hw. subst ws. layout_read Hl. done.
Qed.

Lemma pack_entry_at a b off e :
  off = len a → pack_ipcfg_entry (a ++ zeros 64 ++ b) off e = a ++ entry_block e ++ b.
Proof.
  intros ->. unfold entry_block, pack_ipcfg_entry, copy_with_null_pad, put8, opc_be16_write, opc_be32_write.
  change (32 =? 0) with false. change (32 - 1) with 31. cbv zeta iota beta.
  pose proof (strnlen_bounds (essid e) 31 ltac:(lia)) as Hb.
  assert (Ht : len (take (Z.to_nat (opc_bounded_strnlen (essid e) 31)) (essid e)) =
               opc_bounded_strnlen (essid e) 31) by (unfold len in *; rewrite length_take; lia).
  repeat (erewrite (write_at_shift _ _ a) by (reflexivity || lia)).
  rewrite !Z.add_0_l. by rewrite !write_at_app_l by buf_side.
Qed.

Lemma pack_entries_blocks a es i :
  len a = i * 64 → pack_entries (a ++ zeros (len es * 64)) i es = a ++ concat (map entry_block es).
Proof.
  revert a i. induction es as [|e es IH]; intros a i Ha; [done|].
  cbn [pack_entries map concat]. unfold OPC_IPCFG_ENTRY_LEN. pose proof (len_nonneg es).
  rewrite len_cons. replace ((1 + len es) * 64) with (64 + len es * 64) by lia.
  rewrite zeros_app by lia. rewrite pack_entry_at by lia. rewrite app_assoc.
  rewrite IH; [by rewrite <- app_assoc|]. rewrite len_app, Ha.
  assert (len (entry_block e) = 64) as -> by apply len_entry_block. lia.
Qed.

Lemma unpack_entries_blocks a es i mask :
  Forall entry_ok es → 0 <= i → len a = i * 64 →
  unpack_entries (a ++ concat (map entry_block es)) i (length es) mask =
    (map entry_canon es, foldl (λ m j, Z.lor m (Z.shiftl 1 j)) mask (seqZ i (len es))).
Proof.
  revert a i mask. induction es as [|e es IH]; intros a i mask Hok Hi Ha; [done|].
  apply Forall_cons_1 in Hok as [He Hok]. cbn [unpack_entries length map concat].
  unfold OPC_IPCFG_ENTRY_LEN. rewrite unpack_entry_at by (done || lia).
  rewrite app_assoc, IH; [|done|lia|rewrite len_app, len_entry_block; lia].
  f_equal. rewrite (seqZ_cons i (len (e :: es))) by (rewrite len_cons; pose proof (len_nonneg es); lia).
  rewrite <- Z.add_1_r.
  cbn [foldl]. by replace (Z.pred (len (e :: es))) with (len es) by (rewrite len_cons; lia).
Qed.

(** Setting bits 0..n-1 one by one gives the mask of all ones. *)
Lemma mask_ones n :
  foldl (λ m j, Z.lor m (Z.shiftl 1 j)) 0 (seqZ 0 (Z.of_nat n)) = Z.ones (Z.of_nat n).
Proof.
  induction n as [|n IH]; [done|]. replace (Z.of_nat (S n)) with (Z.of_nat n + 1) by lia.
  rewrite seqZ_app, foldl_app, IH by lia. rewrite Z.add_0_l.
  replace (seqZ (Z.of_nat n) 1) with [Z.of_nat n] by (unfold seqZ; simpl; f_equal; lia).
  cbn [foldl]. rewrite Z.lor_comm, lor_shiftl_add by (rewrite ?Z.ones_equiv; lia).
  rewrite !Z.ones_equiv, Z.pow_add_r by lia. lia.
Qed.

Lemma ip_config_list_req_roundtrip i :
  msg_ok SetIpConfigListReq i →
  roundtrips (opc_set_ip_config_list_req_pack cap seq i) OPC_CMD_REQUEST
    OPC_REQ_SET_IP_CONFIG_LIST seq (λ f, unpack_ok (opc_set_ip_config_list_req_unpack f))
    (msg_canon SetIpConfigListReq i).
Proof.
  intros [Hn Hok]. unfold opc_set_ip_config_list_req_pack, OPC_IPCFG_LIST_MAX_PER_REQ,
    OPC_IPCFG_ENTRY_LEN. guard_eval. cbn [orb].
  pose proof (pack_entries_blocks [] (entries i) 0 eq_refl) as Hb. cbn [app] in Hb. rewrite Hb.
  assert (Hlen : len (concat (map entry_block (entries i))) = len (entries i) * 64).
  { clear. induction (entries i) as [|e es IH]; [done|].
    cbn [map concat]. rewrite len_app, len_entry_block, IH, len_cons. lia. }
  apply build_roundtrips; unfold OPC_PAYLOAD_MAX; rewrite ?Hlen; [done|done| |lia|].
  { unfold OPC_SET_IP_CONFIG_LIST_REQ_LENGTH, OPC_IPCFG_ENTRY_LEN. rewrite u16_id; [lia|].
    unfold is_u16. lia. }
  intros f h Hp Hc Hi. unfold opc_set_ip_config_list_req_unpack, OPC_IPCFG_ENTRY_LEN,
    OPC_IPCFG_LIST_MAX_PER_REQ. rewrite Hp, Hlen, Z.mod_mul, Z.div_mul by lia. guard_eval.
  cbn [negb orb]. unfold len at 1. rewrite Nat2Z.id.
  pose proof (unpack_entries_blocks [] (entries i) 0 0 Hok ltac:(lia) eq_refl) as Hu.
  cbn [app] in Hu. rewrite Hu. cbn. do 2 f_equal. apply mask_ones.
Qed.
End RoundTrip.

(** ** The family *)

Lemma msg_roundtrips m cap seq x :
  OPC_FRAME_MAX <= cap → is_u16 seq → msg_ok m x →
  roundtrips (msg_pack m cap seq x) (msg_cmd m) (msg_id m) seq (msg_unpack m) (msg_canon m x).
Proof.
  intros Hcap Hseq. destruct m; intros Hok.
  - by apply login_req_roundtrip.
  - by apply simple_ack_roundtrip.
  - by apply empty_req_roundtrip.
  - by apply simple_ack_roundtrip.
  - by apply empty_req_roundtrip.
  - by apply basic_info_ack_roundtrip.
  - by apply empty_req_roundtrip.
  - by apply device_info_ack_roundtrip.
  - by apply set_password_req_roundtrip.
  - by apply simple_ack_roundtrip.
  - by apply ip_config_list_req_roundtrip.
  - by apply simple_ack_roundtrip.
  - by apply change_ip_req_roundtrip.
  - by apply simple_ack_roundtrip.
  - by apply radio_config_req_roundtrip.
  - by apply simple_ack_roundtrip.
  - by apply indication_config_req_roundtrip.
  - by apply simple_ack_roundtrip.
  - by apply empty_req_roundtrip.
  - by apply simple_ack_roundtrip.
  - by apply init_complete_roundtrip.
  - by apply wlan_status_roundtrip.
  - by apply roaming_roundtrip.
  - by apply ap_disconnect_roundtrip.
  - by apply fault_detect_roundtrip.
  - by apply reset_notice_roundtrip.
  - by apply keep_alive_roundtrip.
Qed.

(** C13: every message of the protocol survives the wire: for values whose fields fit
    their C types, packing yields a frame of at most 1424 bytes that parses, carries the
    message's type, identifier and sequence number, and unpacks to the same value with
    its strings cut at the terminator and zero-padded. *)
Theorem msg_roundtrip m cap seq x :
  OPC_FRAME_MAX <= cap → is_u16 seq → msg_ok m x →
  ∃ frame hdr body, msg_pack m cap seq x = Some frame ∧ len frame <= OPC_FRAME_MAX ∧
    opc_frame_parse frame = Some (hdr, body) ∧ command_type hdr = msg_cmd m ∧
    req_indication_id hdr = msg_id m ∧ sequence_number hdr = seq ∧
    msg_unpack m frame = Some (msg_canon m x).
Proof. apply msg_roundtrips. Qed.

Lemma msg_roundtrip_witness :
  ∃ frame hdr body,
    msg_pack SetRadioConfigReq 1424 7
      (mk_radio_config 2 0 (mk_radio_cfg 9 2 2 [0;0;0;1;0;0;0;0]) (mk_radio_cfg 6 0 1 [0;0;0;1;0;0;0;0]))
      = Some frame ∧ len frame <= OPC_FRAME_MAX ∧
    opc_frame_parse frame = Some (hdr, body) ∧ command_type hdr = msg_cmd SetRadioConfigReq ∧
    req_indication_id hdr = msg_id SetRadioConfigReq ∧ sequence_number hdr = 7 ∧
    msg_unpack SetRadioConfigReq frame = Some (msg_canon SetRadioConfigReq
      (mk_radio_config 2 0 (mk_radio_cfg 9 2 2 [0;0;0;1;0;0;0;0]) (mk_radio_cfg 6 0 1 [0;0;0;1;0;0;0;0]))).
Proof.
  apply (msg_roundtrip SetRadioConfigReq 1424 7); [done|done|].
  cbn. unfold radio_cfg_ok, is_u16. cbn. repeat split; try lia; reflexivity.
Defined.

Lemma parse_expect_inv frame ct id mn body :
  parse_expect frame ct id mn = Some body →
  ∃ hdr, opc_frame_parse frame = Some (hdr, body) ∧ command_type hdr = ct ∧
         req_indication_id hdr = id ∧ mn <= len body.
Proof.
  unfold parse_expect. destruct (opc_frame_parse frame) as [[hdr b]|] eqn:E; [|done].
  intros H. guard_cases. eauto.
Qed.

Lemma indication_parse_inv frame id body :
  indication_parse frame id = Some body →
  ∃ hdr, opc_frame_parse frame = Some (hdr, body) ∧ command_type hdr = OPC_CMD_INDICATION ∧
         req_indication_id hdr = id.
Proof.
  unfold indication_parse. destruct (opc_frame_parse frame) as [[hdr b]|] eqn:E; [|done].
  intros H. guard_cases. eauto.
Qed.

(** What an accepted frame tells about its header. *)
Lemma msg_unpack_header m frame x :
  msg_unpack m frame = Some x →
  ∃ hdr body, opc_frame_parse frame = Some (hdr, body) ∧
    command_type hdr = msg_cmd m ∧ req_indication_id hdr = msg_id m.
Proof.
  intros H. destruct m; cbn in H;
    repeat match type of H with
    | context [opc_simple_ack_unpack _ _] => unfold opc_simple_ack_unpack in H
    | (match parse_expect ?f ?c ?i ?n with _ => _ end) = _ =>
        destruct (parse_expect f c i n) as [body|] eqn:E; [|done];
        apply parse_expect_inv in E as (hdr & ? & ? & ? & ?); by eauto 10
    | (match indication_parse ?f ?i with _ => _ end) = _ =>
        destruct (indication_parse f i) as [body|] eqn:E; [|done];
        apply indication_parse_inv in E as (hdr & ? & ? & ?); by eauto 10
    | _ => progress unfold opc_login_req_unpack, opc_login_ack_unpack, opc_logout_req_unpack,
        opc_logout_ack_unpack, opc_get_basic_info_req_unpack, opc_get_basic_info_ack_unpack,
        opc_get_device_info_req_unpack, opc_get_device_info_ack_unpack, opc_set_password_req_unpack,
        opc_set_password_ack_unpack, opc_set_ip_config_list_req_unpack,
        opc_set_ip_config_list_ack_unpack, opc_change_ip_address_req_unpack,
        opc_change_ip_address_ack_unpack, opc_set_radio_config_req_unpack,
        opc_set_radio_config_ack_unpack, opc_set_indication_config_req_unpack,
        opc_set_indication_config_ack_unpack, opc_reset_req_unpack, opc_reset_ack_unpack,
        opc_ind_init_complete_unpack, opc_ind_wlan_status_change_unpack, opc_ind_roaming_unpack,
        opc_ind_ap_disconnect_unpack, opc_ind_fault_detect_unpack, opc_ind_reset_notice_unpack,
        opc_ind_keep_alive_unpack, empty_req_unpack, unpack_ok in H
    end.
  all: destruct (opc_frame_parse frame) as [[hdr body]|] eqn:E; [|by guard_cases].
  all: guard_cases; by eauto 10.
Qed.

(** The message a header announces. *)
Definition msg_of_header (cmd id : Z) : option wire_msg :=
  List.find (λ m, (msg_cmd m =? cmd) && (msg_id m =? id))
    [LoginReq; LoginAck; LogoutReq; LogoutAck; GetBasicInfoReq; GetBasicInfoAck;
     GetDeviceInfoReq; GetDeviceInfoAck; SetPasswordReq; SetPasswordAck; SetIpConfigListReq;
     SetIpConfigListAck; ChangeIpAddressReq; ChangeIpAddressAck; SetRadioConfigReq;
     SetRadioConfigAck; SetIndicationConfigReq; SetIndicationConfigAck; ResetReq; ResetAck;
     InitCompleteInd; WlanStatusChangeInd; RoamingInd; ApDisconnectInd; FaultDetectInd;
     ResetNoticeInd; KeepAliveInd].

Lemma msg_of_header_ok m : msg_of_header (msg_cmd m) (msg_id m) = Some m.
Proof. by destruct m. Qed.

(** No frame is accepted as two different messages: the type and identifier of the
    header determine which unpack function can succeed. *)
Theorem msg_unpack_unambiguous m m' frame x x' :
  msg_unpack m frame = Some x → msg_unpack m' frame = Some x' → m = m'.
Proof.
  intros (h & b & Hp & Hc & Hi)%msg_unpack_header (h' & b' & Hp' & Hc' & Hi')%msg_unpack_header.
  rewrite Hp in Hp'. simplify_eq.
  apply (inj Some). by rewrite <- (msg_of_header_ok m), <- (msg_of_header_ok m'), <- Hc, <- Hi, Hc', Hi'.
Qed.

Lemma msg_unpack_unambiguous_witness :
  msg_unpack LogoutReq [1;1;240;2;0;5;0;0] = Some tt ∧ LogoutReq = LogoutReq.
Proof.
  split; [reflexivity|].
  apply (msg_unpack_unambiguous LogoutReq LogoutReq [1;1;240;2;0;5;0;0] tt tt); reflexivity.
Defined.
End Messages.
Export Messages.
