(* ===== verification/Store.v ===== *)
(** * Atomic file store: opcd/store.h, opcd/store.c

    [opc_store_write_atomic_ex] against a file system whose every system call may fail.
    The file system is a map from path to file; the results of the calls of one
    operation are given by a [syscalls] record (the writes as a list of results, one per
    [write(2)]), and every change of the map is recorded in [fs_hist], so that what a
    crash would leave behind can be stated. File ownership and errno are not modelled. *)
From S2P Require Import Prelude.
From stdpp Require Import base list numbers option tactics strings gmap.
From Stdlib Require Import ZArith Lia Ascii.
#[local] Open Scope Z_scope.

Module Store.

Inductive opc_store_outcome_t :=
  | OPC_STORE_UNCHANGED
  | OPC_STORE_REPLACED_UNSYNCED
  | OPC_STORE_DURABLE.

#[global] Instance outcome_eq_dec : EqDecision opc_store_outcome_t.
Proof. solve_decision. Defined.

Record file := mk_file { f_mode : Z; f_data : list Z }.

(** The files by path, and the maps that existed so far, newest first. *)
Record fsys := mk_fsys { fs_files : gmap string file; fs_hist : list (gmap string file) }.

Definition fs_set (m : gmap string file) (s : fsys) : fsys :=
  {| fs_files := m; fs_hist := m :: fs_hist s |}.

(** One [write(2)]: bytes accepted, interrupted, or failed. *)
Inductive write_res := W_bytes (n : nat) | W_eintr | W_fail.

#[global] Instance write_res_eq_dec : EqDecision write_res.
Proof. solve_decision. Defined.

(** Results of the calls of one [opc_store_write_atomic_ex] run. *)
Record syscalls := mk_syscalls {
  sc_open_dir : string → bool;     (* open(parent, O_DIRECTORY) *)
  sc_open_tmp : bool;              (* open(tmp_path, O_CREAT|O_EXCL) *)
  sc_chown : bool;                 (* false: fchown was needed and failed *)
  sc_writes : list write_res;
  sc_fsync : bool;
  sc_close : bool;
  sc_rename : bool;
  sc_fsync_dir : bool;
  sc_close_dir : bool;
}.

(** [".tmp.%d"] appended to the path; the process id arrives printed. *)
Definition tmp_path_of (path pid : string) : string := path +:+ ".tmp." +:+ pid.

(** [strrchr(path, '/')]: the part before the last slash, if there is one. *)
Fixpoint last_slash (s : string) : option string :=
  match s with
  | EmptyString => None
  | String c s' =>
      match last_slash s' with
      | Some p => Some (String c p)
      | None => if Ascii.eqb c "/"%char then Some EmptyString else None
      end
  end.
Definition parent_of (path : string) : string :=
  match last_slash path with
  | None => "."
  | Some EmptyString => "/"
  | Some p => p
  end.

(** The write loop: the bytes of [data] written so far, driven by the results of the
    calls. [None]: the results ran out before the loop ended (the call is blocked). *)
Fixpoint write_loop (data : list Z) (written : nat) (rs : list write_res) : option (nat * bool) :=
  if (written <? length data)%nat then
    match rs with
    | [] => None
    | W_eintr :: rs' => write_loop data written rs'
    | W_fail :: _ => Some (written, false)
    | W_bytes n :: rs' => write_loop data (written + Nat.min n (length data - written)) rs'
    end
  else Some (written, true).

Definition opc_store_write_atomic_ex (pid path : string) (data : list Z) (mode : Z)
    (sc : syscalls) (s : fsys) : option (Z * opc_store_outcome_t * fsys) :=
  let mode := if mode =? 0 then 384 else mode in
  let tmp_path := tmp_path_of path pid in
  if (1024 <=? String.length tmp_path)%nat then Some (-1, OPC_STORE_UNCHANGED, s)
  else if negb (sc_open_dir sc (parent_of path)) then Some (-1, OPC_STORE_UNCHANGED, s)
  else
    let s := fs_set (delete tmp_path (fs_files s)) s in
    if negb (sc_open_tmp sc) then Some (-1, OPC_STORE_UNCHANGED, s)
    else
      let s := fs_set (<[tmp_path := mk_file mode []]> (fs_files s)) s in
      let unchanged_failure s := Some (-1, OPC_STORE_UNCHANGED, fs_set (delete tmp_path (fs_files s)) s) in
      if negb (sc_chown sc) then unchanged_failure s
      else match write_loop data 0 (sc_writes sc) with
           | None => None
           | Some (written, ok) =>
               let s := fs_set (<[tmp_path := mk_file mode (take written data)]> (fs_files s)) s in
               if negb ok then unchanged_failure s
               else if negb (sc_fsync sc) then unchanged_failure s
               else if negb (sc_close sc) then unchanged_failure s
               else if negb (sc_rename sc) then unchanged_failure s
               else
                 let s := match fs_files s !! tmp_path with
                          | Some f => fs_set (<[path := f]> (delete tmp_path (fs_files s))) s
                          | None => s
                          end in
                 if negb (sc_fsync_dir sc) then Some (-1, OPC_STORE_REPLACED_UNSYNCED, s)
                 else if negb (sc_close_dir sc) then Some (-1, OPC_STORE_REPLACED_UNSYNCED, s)
                 else Some (0, OPC_STORE_DURABLE, s)
           end.

Definition opc_store_write_atomic (pid path : string) (data : list Z) (mode : Z)
    (sc : syscalls) (s : fsys) : option (Z * fsys) :=
  match opc_store_write_atomic_ex pid path data mode sc s with
  | None => None
  | Some (rc, _, s) => Some (rc, s)
  end.

(** One [read(2)]: at most this many bytes, interrupted, or failed. *)
Inductive read_res := R_bytes (n : nat) | R_eintr | R_fail.

(** The read loop over the file's contents from offset [total]; a read of 0 bytes where
    the file has more is not a result [read(2)] gives, so a result of n bytes stands for
    the smaller of n+1, the space left and the bytes left. *)
Fixpoint read_loop (contents : list Z) (cap total : nat) (rs : list read_res)
    : option (option nat) :=
  if (total <? cap)%nat then
    match rs with
    | [] => None
    | R_eintr :: rs' => read_loop contents cap total rs'
    | R_fail :: _ => Some None
    | R_bytes n :: rs' =>
        let r := Nat.min (S n) (Nat.min (cap - total) (length contents - total)) in
        if (r =? 0)%nat then Some (Some total) else read_loop contents cap (total + r) rs'
    end
  else Some (Some total).

(** [Some (Some bytes)]: the bytes read; [Some None]: -1; [None]: blocked. *)
Definition opc_store_read_all (path : string) (cap : Z) (open_ok : bool) (rs : list read_res)
    (s : fsys) : option (option (list Z)) :=
  match fs_files s !! path with
  | None => Some None
  | Some f =>
      if negb open_ok then Some None
      else match read_loop (f_data f) (Z.to_nat cap) 0 rs with
           | None => None
           | Some None => Some None
           | Some (Some total) => Some (Some (take total (f_data f)))
           end
  end.

(** ** Facts *)
#[local] Arguments Nat.min : simpl never.

Lemma string_app_length s t : String.length (s +:+ t) = (String.length s + String.length t)%nat.
Proof. induction s as [|c s IH]; simpl; [done|]. by rewrite IH. Qed.

Lemma tmp_path_ne path pid : tmp_path_of path pid ≠ path.
Proof.
  intros H. apply (f_equal String.length) in H. unfold tmp_path_of in H.
  rewrite !string_app_length in H. simpl in H. lia.
Qed.

Lemma write_loop_spec data written rs n ok :
  write_loop data written rs = Some (n, ok) → (written <= length data)%nat →
  if ok then n = length data else (n < length data)%nat.
Proof.
  revert written. induction rs as [|r rs IH]; intros written; simpl;
    destruct (written <? length data)%nat eqn:E;
    rewrite ?Nat.ltb_lt, ?Nat.ltb_ge in E; try done.
  - intros [= <- <-]. lia.
  - destruct r as [k| |]; [intros H ?; eapply IH; [done|lia]|by apply IH|by intros [= <- <-]].
  - intros [= <- <-]. lia.
Qed.

(** Enough progress ends the write loop: with as many byte results as bytes, none of
    them empty, it always returns. *)
Lemma write_loop_returns data written rs :
  Forall (λ r, ∀ n, r = W_bytes n → (0 < n)%nat) rs →
  (length data - written <= length (filter (λ r, r ≠ W_eintr) rs))%nat →
  is_Some (write_loop data written rs).
Proof.
  revert written. induction rs as [|r rs IH]; intros written Hf Hl; simpl;
    destruct (written <? length data)%nat eqn:E; rewrite ?Nat.ltb_lt in E; eauto.
  - rewrite filter_nil in Hl. simpl in Hl. lia.
  - apply Forall_cons_1 in Hf as [Hr Hf]. destruct r as [k| |]; [| |by eauto].
    + rewrite filter_cons_True in Hl by done. simpl in Hl. specialize (Hr k eq_refl).
      apply IH; [done|lia].
    + rewrite filter_cons_False in Hl by (intros []; done). by apply IH.
Qed.

(** What one run of the atomic write leaves, relative to the file system before it. *)
Section WriteAtomic.
Context (pid path : string) (data : list Z) (mode : Z) (sc : syscalls) (s : fsys).

Let tmp := tmp_path_of path pid.

(** Every map seen during the run shows the old or the complete new file at [path]. *)
Definition old_or_new (m : gmap string file) : Prop :=
  m !! path = fs_files s !! path ∨ f_data <$> m !! path = Some data.

Local Ltac hist_cases :=
  match goal with
  | |- ∃ hist, _ ∧ Forall old_or_new hist =>
      first [ (eexists [_]; split; [reflexivity|]) | (eexists [_; _]; split; [reflexivity|])
            | (eexists [_; _; _]; split; [reflexivity|])
            | (eexists [_; _; _; _]; split; [reflexivity|]) ];
      repeat (apply Forall_cons_2; [|]); try apply Forall_nil_2;
      unfold old_or_new; simplify_map_eq; auto
  end.

Lemma write_atomic_steps rc outcome s' :
  opc_store_write_atomic_ex pid path data mode sc s = Some (rc, outcome, s') →
  (∃ hist, fs_hist s' = hist ++ fs_hist s ∧ Forall old_or_new hist) ∧
  (∀ q, q ≠ path → q ≠ tmp → fs_files s' !! q = fs_files s !! q) ∧
  match outcome with
  | OPC_STORE_UNCHANGED => rc = -1 ∧ fs_files s' !! path = fs_files s !! path
  | OPC_STORE_REPLACED_UNSYNCED => rc = -1 ∧ f_data <$> fs_files s' !! path = Some data
  | OPC_STORE_DURABLE => rc = 0 ∧ f_data <$> fs_files s' !! path = Some data
  end.
Proof.
  pose proof (tmp_path_ne path pid) as Hne. unfold opc_store_write_atomic_ex.
  fold tmp in Hne |- *. set (md := if mode =? 0 then 384 else mode). intros H.
  destruct (1024 <=? _)%nat; [simplify_eq; split_and!; try done; by exists []|].
  destruct (sc_open_dir _ _); cbn [negb] in H; [|simplify_eq; split_and!; try done; by exists []].
  assert (Hw : ∀ n ok, write_loop data 0 (sc_writes sc) = Some (n, ok) → ok = true →
                       take n data = data).
  { intros n ok Hw ->. apply write_loop_spec in Hw; [|lia]. apply take_ge. lia. }
  destruct (sc_open_tmp sc); cbn [negb] in H; [|simplify_eq].
  1: destruct (sc_chown sc); cbn [negb] in H; [|simplify_eq].
  1: destruct (write_loop data 0 (sc_writes sc)) as [[n ok]|]; [|done].
  1: specialize (Hw n ok eq_refl).
  1: destruct ok; cbn [negb] in H; [specialize (Hw eq_refl); rewrite Hw in H|simplify_eq].
  1: destruct (sc_fsync sc); cbn [negb] in H; [|simplify_eq].
  1: destruct (sc_close sc); cbn [negb] in H; [|simplify_eq].
  1: destruct (sc_rename sc); cbn [negb] in H; [|simplify_eq].
  1: cbn [fs_set fs_files fs_hist] in H; rewrite lookup_insert_eq in H.
  1: destruct (sc_fsync_dir sc); [destruct (sc_close_dir sc)|]; cbn [negb] in H; simplify_eq.
  all: cbn [fs_set fs_files fs_hist].
  all: split_and!; try done.
  all: try (intros q ??; by simplify_map_eq).
  all: try by simplify_map_eq.
  all: hist_cases.
Qed.
End WriteAtomic.

(** C12: the atomic write replaces the file as a whole: at every moment of a run, whatever
    system calls fail, [path] shows its previous contents or all of the new data; paths
    other than it and its temporary are untouched; and the reported outcome tells the
    truth (unchanged, replaced but possibly not durable, or replaced and durable, the
    last exactly when the result is 0). *)
Theorem opc_store_write_atomic_ex_spec pid path data mode sc s rc outcome s' :
  opc_store_write_atomic_ex pid path data mode sc s = Some (rc, outcome, s') →
  (∃ hist, fs_hist s' = hist ++ fs_hist s ∧ Forall (old_or_new path data s) hist) ∧
  (∀ q, q ≠ path → q ≠ tmp_path_of path pid → fs_files s' !! q = fs_files s !! q) ∧
  match outcome with
  | OPC_STORE_UNCHANGED => rc = -1 ∧ fs_files s' !! path = fs_files s !! path
  | OPC_STORE_REPLACED_UNSYNCED => rc = -1 ∧ f_data <$> fs_files s' !! path = Some data
  | OPC_STORE_DURABLE => rc = 0 ∧ f_data <$> fs_files s' !! path = Some data
  end.
Proof. apply write_atomic_steps. Qed.

Definition all_ok_but_dir_sync : syscalls :=
  mk_syscalls (λ _, true) true true [W_eintr; W_bytes 1; W_bytes 5] true true true false true.

Lemma opc_store_write_atomic_ex_witness :
  let s := mk_fsys {[ "/nv/pw" := mk_file 384 [1] ]} [] in
  let '(rc, outcome, s') := default (0, OPC_STORE_DURABLE, s)
    (opc_store_write_atomic_ex "7" "/nv/pw" [4; 5] 0 all_ok_but_dir_sync s) in
  (∃ hist, fs_hist s' = hist ++ fs_hist s ∧ Forall (old_or_new "/nv/pw" [4; 5] s) hist) ∧
  (∀ q, q ≠ "/nv/pw" → q ≠ tmp_path_of "/nv/pw" "7" → fs_files s' !! q = fs_files s !! q) ∧
  rc = -1 ∧ f_data <$> fs_files s' !! "/nv/pw" = Some [4; 5].
Proof.
  apply (opc_store_write_atomic_ex_spec "7" "/nv/pw" [4; 5] 0 all_ok_but_dir_sync
    (mk_fsys {[ "/nv/pw" := mk_file 384 [1] ]} []) (-1) OPC_STORE_REPLACED_UNSYNCED).
  vm_compute. reflexivity.
Defined.

(** A read returns a prefix of the file, all of it up to the buffer's capacity. *)
Lemma read_loop_spec contents cap total rs n :
  read_loop contents cap total rs = Some (Some n) →
  (total <= length contents)%nat → (total <= cap)%nat → n = Nat.min cap (length contents).
Proof.
  revert total. induction rs as [|r rs IH]; intros total; simpl;
    destruct (total <? cap)%nat eqn:E; rewrite ?Nat.ltb_lt, ?Nat.ltb_ge in E; try done.
  - intros [= <-]. lia.
  - destruct r as [k| |]; [|by eauto|done].
    destruct (_ =? 0)%nat eqn:Z0; rewrite ?Nat.eqb_eq, ?Nat.eqb_neq in Z0.
    + intros [= <-]. lia.
    + intros H ??. apply IH in H; lia.
  - intros [= <-]. lia.
Qed.

(** A successful [opc_store_read_all] returns the file's contents, cut at the
    buffer's capacity, however the reads are split or interrupted. *)
Theorem opc_store_read_all_spec path cap open_ok rs s bytes :
  0 <= cap → opc_store_read_all path cap open_ok rs s = Some (Some bytes) →
  ∃ f, fs_files s !! path = Some f ∧ bytes = take (Z.to_nat cap) (f_data f).
Proof.
  intros Hc H. unfold opc_store_read_all in H.
  destruct (fs_files s !! path) as [f|]; [|done]. destruct open_ok; cbn [negb] in H; [|done].
  destruct (read_loop _ _ _ _) as [[n|]|] eqn:E; try done. injection H as <-.
  exists f. split; [done|]. apply read_loop_spec in E; [|lia..]. rewrite E.
  rewrite <- (take_take (f_data f)). by rewrite (take_ge (f_data f) (length (f_data f))) by lia.
Qed.

Lemma opc_store_read_all_witness :
  let s := mk_fsys {[ "/nv/pw" := mk_file 384 [4; 5; 6] ]} [] in
  ∃ f, fs_files s !! "/nv/pw" = Some f ∧ [4; 5] = take (Z.to_nat 2) (f_data f).
Proof.
  apply (opc_store_read_all_spec "/nv/pw" 2 true [R_eintr; R_bytes 0; R_bytes 9]
    (mk_fsys {[ "/nv/pw" := mk_file 384 [4; 5; 6] ]} []) [4; 5]); [lia|].
  vm_compute. reflexivity.
Defined.
End Store.
Export Store.
