(* ===== verification/StoreAsync.v ===== *)
(** * Asynchronous NVRAM writer: opcd/store_async.h, opcd/store_async.c

    The job table, the FIFO ring and the operations of the main thread as functions on
    the shared state, the worker thread as the atomic steps between its lock
    operations, and the system as a step relation that interleaves them. The write
    itself ([opc_store_write_atomic_ex], run by the worker outside the lock) appears as
    its result and outcome, chosen by the environment, and in a log of the writes
    performed. The [sa] and [path] arguments are non-NULL here. *)
From S2P Require Import Prelude Store.
From stdpp Require Import base list numbers option tactics strings relations.
From Stdlib Require Import ZArith Lia.
#[local] Open Scope Z_scope.

Module StoreAsync.

Definition OPC_STORE_ASYNC_QUEUE_DEPTH : Z := 16.
Definition OPC_STORE_ASYNC_DATA_MAX : Z := 24576.
Definition DEPTH : nat := Z.to_nat OPC_STORE_ASYNC_QUEUE_DEPTH.

Inductive job_state_t := JOB_FREE | JOB_RESERVED | JOB_QUEUED | JOB_DONE.
#[global] Instance job_state_eq_dec : EqDecision job_state_t.
Proof. solve_decision. Defined.

(** [data] holds the [len] bytes submitted; [j_len] before submission is the reserved
    maximum. *)
Record job_t := mk_job {
  j_state : job_state_t;
  j_path : string;
  j_echo_path : string;
  j_data : list Z;
  j_len : Z;
  j_mode : Z;
  j_token : Z;
  j_result : Z;
  j_outcome : opc_store_outcome_t;
}.
#[global] Instance eta_job : Eta job_t := λ j,
  mk_job (j_state j) (j_path j) (j_echo_path j) (j_data j) (j_len j) (j_mode j) (j_token j)
    (j_result j) (j_outcome j).

Definition job_zero : job_t := mk_job JOB_FREE "" "" [] 0 0 0 0 OPC_STORE_UNCHANGED.

Record opc_store_async := mk_sa {
  event_fd : Z;              (* eventfd counter *)
  shutdown : bool;
  joined : bool;
  jobs : list job_t;
  q : list nat;              (* ring of indexes into jobs *)
  q_head : nat;
  q_count : nat;
}.
#[global] Instance eta_sa : Eta opc_store_async := λ s,
  mk_sa (event_fd s) (shutdown s) (joined s) (jobs s) (q s) (q_head s) (q_count s).

Inductive sa_errno := EINVAL | ENAMETOOLONG | E2BIG | EAGAIN | ECANCELED.

Record opc_store_async_done_t := mk_done {
  d_token : Z; d_result : Z; d_outcome : opc_store_outcome_t }.

(** The [calloc]ed state of a successful create. *)
Definition opc_store_async_create : opc_store_async :=
  {| event_fd := 0; shutdown := false; joined := false; jobs := replicate DEPTH job_zero;
     q := replicate DEPTH 0%nat; q_head := 0; q_count := 0 |}.

Definition notify_completion (sa : opc_store_async) : opc_store_async :=
  sa <| event_fd := event_fd sa + 1 |>.

(** The index of the first free slot. *)
Definition free_slot (js : list job_t) : option nat :=
  fst <$> list_find (λ j, j_state j = JOB_FREE) js.

Definition upd_job (i : nat) (f : job_t → job_t) (sa : opc_store_async) : opc_store_async :=
  sa <| jobs := alter f i (jobs sa) |>.

Definition opc_store_async_reserve (sa : opc_store_async) (path : string) (ln : Z)
    : (sa_errno + nat) * opc_store_async :=
  if OPC_STORE_ASYNC_DATA_MAX <? ln then (inl E2BIG, sa)
  else if (1024 <=? String.length path)%nat then (inl ENAMETOOLONG, sa)
  else if shutdown sa then (inl ECANCELED, sa)
  else match free_slot (jobs sa) with
       | None => (inl EAGAIN, sa)
       | Some ji =>
           (inr ji, upd_job ji (λ j, j <| j_path := path |> <| j_echo_path := ""%string |>
                                       <| j_len := ln |> <| j_state := JOB_RESERVED |>) sa)
       end.

Definition job_state_of (sa : opc_store_async) (i : nat) : option job_state_t :=
  j_state <$> jobs sa !! i.

Definition opc_store_async_cancel (sa : opc_store_async) (reservation : nat) : opc_store_async :=
  if (DEPTH <=? reservation)%nat then sa
  else if decide (job_state_of sa reservation = Some JOB_RESERVED)
       then upd_job reservation (λ j, j <| j_state := JOB_FREE |>) sa
       else sa.

Definition opc_store_async_submit_reserved (sa : opc_store_async) (reservation : nat)
    (data : list Z) (mode token : Z) : option sa_errno * opc_store_async :=
  if (DEPTH <=? reservation)%nat then (Some EINVAL, sa)
  else match jobs sa !! reservation with
       | None => (Some EINVAL, sa)
       | Some j =>
           if shutdown sa || bool_decide (j_state j ≠ JOB_RESERVED) || (j_len j <? len data)
           then (Some (if shutdown sa then ECANCELED else EINVAL), sa)
           else
             let sa := upd_job reservation (λ j,
               j <| j_data := data |> <| j_len := len data |> <| j_mode := mode |>
                 <| j_token := token |> <| j_result := 0 |> <| j_outcome := OPC_STORE_UNCHANGED |>
                 <| j_state := JOB_QUEUED |>) sa in
             let sa := sa <| q := <[((q_head sa + q_count sa) mod DEPTH)%nat := reservation]> (q sa) |> in
             (None, sa <| q_count := S (q_count sa) |>)
       end.

Definition opc_store_async_submit_echo (sa : opc_store_async) (path echo_path : string)
    (data : list Z) (mode token : Z) : option sa_errno * opc_store_async :=
  if (1024 <=? String.length echo_path)%nat then (Some ENAMETOOLONG, sa)
  else match opc_store_async_reserve sa path (len data) with
       | (inl e, sa) => (Some e, sa)
       | (inr reservation, sa) =>
           let sa := upd_job reservation (λ j, j <| j_echo_path := echo_path |>) sa in
           match opc_store_async_submit_reserved sa reservation data mode token with
           | (Some e, sa) => (Some e, opc_store_async_cancel sa reservation)
           | (None, sa) => (None, sa)
           end
       end.

Definition opc_store_async_submit (sa : opc_store_async) (path : string)
    (data : list Z) (mode token : Z) : option sa_errno * opc_store_async :=
  match opc_store_async_reserve sa path (len data) with
  | (inl e, sa) => (Some e, sa)
  | (inr reservation, sa) =>
      match opc_store_async_submit_reserved sa reservation data mode token with
      | (Some e, sa) => (Some e, opc_store_async_cancel sa reservation)
      | (None, sa) => (None, sa)
      end
  end.

(** The harvest loop of drain over the job table: the completions taken (at most
    [cap]), whether any was left, and the new table. *)
Fixpoint harvest (cap : nat) (js : list job_t) : list opc_store_async_done_t * bool * list job_t :=
  match js with
  | [] => ([], false, [])
  | j :: js' =>
      if decide (j_state j = JOB_DONE) then
        match cap with
        | S cap' =>
            let '(out, rest, js'') := harvest cap' js' in
            (mk_done (j_token j) (j_result j) (j_outcome j) :: out, rest,
             j <| j_state := JOB_FREE |> :: js'')
        | O => let '(out, _, js'') := harvest O js' in (out, true, j :: js'')
        end
      else let '(out, rest, js'') := harvest cap js' in (out, rest, j :: js'')
  end.

(** drain's two parts: the read that clears the eventfd, and the harvest under the lock. *)
Definition drain_clear (sa : opc_store_async) : opc_store_async := sa <| event_fd := 0 |>.
Definition drain_harvest (cap : nat) (sa : opc_store_async)
    : list opc_store_async_done_t * opc_store_async :=
  let '(out, leftover, js) := harvest cap (jobs sa) in
  let sa := sa <| jobs := js |> in
  (out, if leftover then notify_completion sa else sa).
Definition opc_store_async_drain (cap : nat) (sa : opc_store_async)
    : list opc_store_async_done_t * opc_store_async :=
  if (cap =? 0)%nat then ([], sa) else drain_harvest cap (drain_clear sa).

(** ** The worker thread and the whole system *)

(** [running]: the index the worker holds between its two critical sections; [exited]:
    it left the loop. [submitted] and [written] record, in order, the (path, data) of
    the jobs queued and of the writes performed, [echoed] those of the echo copies. *)
Record system := mk_system {
  sa : opc_store_async;
  running : option nat;
  exited : bool;
  submitted : list (string * list Z);
  written : list (string * list Z);
  echoed : list (string * list Z);
}.

Definition system_init : system := mk_system opc_store_async_create None false [] [] [].

Definition payload (j : job_t) : string * list Z := (j_path j, j_data j).
Definition payload_at (s : opc_store_async) (i : nat) : string * list Z :=
  payload (default job_zero (jobs s !! i)).

(** First critical section of the worker's loop: leave on shutdown with an empty queue,
    or pop the oldest index; blocked otherwise. *)
Definition worker_take (s : system) : option system :=
  if exited s then None
  else match running s with
       | Some _ => None
       | None =>
           if (q_count (sa s) =? 0)%nat then
             if shutdown (sa s) then Some (mk_system (sa s) None true (submitted s) (written s) (echoed s))
             else None
           else
             let ji := default 0%nat (q (sa s) !! q_head (sa s)) in
             let a := (sa s) <| q_head := (S (q_head (sa s)) mod DEPTH)%nat |> in
             let a := a <| q_count := (q_count a - 1)%nat |> in
             Some (mk_system a (Some ji) false (submitted s) (written s) (echoed s))
       end.

(** The write, the echo write that follows a visible replacement, and the second critical
    section, with the write's result; the echo's own failure is only logged. *)
Definition worker_finish (rc : Z) (outcome : opc_store_outcome_t) (s : system) : option system :=
  match running s with
  | None => None
  | Some ji =>
      let j := default job_zero (jobs (sa s) !! ji) in
      let a := upd_job ji (λ j, j <| j_result := rc |> <| j_outcome := outcome |>
                                  <| j_state := JOB_DONE |>) (sa s) in
      Some (mk_system (notify_completion a) None false (submitted s)
              (written s ++ [payload_at (sa s) ji])
              (echoed s ++ if bool_decide (j_echo_path j ≠ "" ∧ outcome ≠ OPC_STORE_UNCHANGED)
                           then [(j_echo_path j, j_data j)] else []))
  end.

(** [opc_store_async_finish] up to its join: admission stops; the join waits for [exited]. *)
Definition finish_begin (a : opc_store_async) : opc_store_async := a <| shutdown := true |>.

(** Main-thread operations as steps; a queued job's payload enters [submitted]. *)
Definition with_sa (s : system) (a : opc_store_async) : system :=
  mk_system a (running s) (exited s) (submitted s) (written s) (echoed s).

Inductive step : system → system → Prop :=
  | step_reserve s path ln r a :
      opc_store_async_reserve (sa s) path ln = (r, a) → step s (with_sa s a)
  | step_cancel s i : step s (with_sa s (opc_store_async_cancel (sa s) i))
  | step_submit_fail s i data mode token e a :
      opc_store_async_submit_reserved (sa s) i data mode token = (Some e, a) → step s (with_sa s a)
  | step_submit s i data mode token a :
      opc_store_async_submit_reserved (sa s) i data mode token = (None, a) →
      step s (mk_system a (running s) (exited s) (submitted s ++ [payload_at a i]) (written s) (echoed s))
  | step_echo s i p :
      job_state_of (sa s) i = Some JOB_RESERVED →
      step s (with_sa s (upd_job i (λ j, j <| j_echo_path := p |>) (sa s)))
  | step_drain_clear s : step s (with_sa s (drain_clear (sa s)))
  | step_drain_harvest s cap out a :
      drain_harvest cap (sa s) = (out, a) → step s (with_sa s a)
  | step_finish s : step s (with_sa s (finish_begin (sa s)))
  | step_take s s' : worker_take s = Some s' → step s s'
  | step_worker_finish s rc outcome s' : worker_finish rc outcome s = Some s' → step s s'.

Definition reachable (s : system) : Prop := rtc step system_init s.

(** The indexes waiting in the ring, oldest first. *)
Definition ring (a : opc_store_async) : list nat :=
  map (λ k, default 0%nat (q a !! ((q_head a + k) mod DEPTH)%nat)) (seq 0 (q_count a)).

(** Everything the worker still has to write. *)
Definition pending (s : system) : list nat := option_list (running s) ++ ring (sa s).

(** ** Invariant *)

Record inv (s : system) : Prop := mk_inv {
  inv_jobs : length (jobs (sa s)) = DEPTH;
  inv_q : length (q (sa s)) = DEPTH;
  inv_head : (q_head (sa s) < DEPTH)%nat;
  inv_nodup : NoDup (pending s);
  inv_pending : ∀ i, i ∈ pending s ↔ job_state_of (sa s) i = Some JOB_QUEUED;
  inv_fifo : submitted s = written s ++ map (payload_at (sa s)) (pending s);
  inv_exit : exited s = true → shutdown (sa s) = true ∧ pending s = [];
}.

(** *** The ring as a FIFO queue *)

Lemma mod_ring_ne h c k :
  (k < c)%nat → (c < DEPTH)%nat → ((h + k) mod DEPTH ≠ (h + c) mod DEPTH)%nat.
Proof.
  change DEPTH with 16%nat. intros ?? H.
  pose proof (Nat.div_mod_eq (h + k) 16). pose proof (Nat.div_mod_eq (h + c) 16). lia.
Qed.

Lemma ring_push a r :
  length (q a) = DEPTH → (q_count a < DEPTH)%nat →
  ring (a <| q := <[((q_head a + q_count a) mod DEPTH)%nat := r]> (q a) |>
          <| q_count := S (q_count a) |>) = ring a ++ [r].
Proof.
  intros Hq Hc. unfold ring, setter. cbn [q q_head q_count]. rewrite seq_S, map_app. cbn [map]. f_equal.
  - apply map_ext_in. intros k Hk%in_seq. rewrite list_lookup_insert_ne; [done|].
    apply not_eq_sym, mod_ring_ne; lia.
  - rewrite Nat.add_0_l, list_lookup_insert_eq; [done|].
    rewrite Hq. apply Nat.mod_upper_bound. done.
Qed.

Lemma ring_pop a c :
  (q_head a < DEPTH)%nat → q_count a = S c →
  ring a = default 0%nat (q a !! q_head a) ::
    ring (a <| q_head := (S (q_head a) mod DEPTH)%nat |> <| q_count := c |>).
Proof.
  intros Hh Hc. unfold ring, setter. cbn [q q_head q_count]. rewrite Hc. cbn [seq map]. f_equal.
  - by rewrite Nat.add_0_r, Nat.mod_small.
  - rewrite <- seq_shift, map_map. apply map_ext. intros k.
    rewrite Nat.Div0.add_mod_idemp_l. do 3 f_equal. lia.
Qed.

(** *** Steps that leave the queued jobs alone *)

Lemma ring_frame a a' :
  q a' = q a → q_head a' = q_head a → q_count a' = q_count a → ring a' = ring a.
Proof. intros Hq Hh Hc. unfold ring. by rewrite Hq, Hh, Hc. Qed.

Lemma inv_frame s a :
  inv s → length (jobs a) = DEPTH →
  q a = q (sa s) → q_head a = q_head (sa s) → q_count a = q_count (sa s) →
  (∀ i, job_state_of a i = Some JOB_QUEUED ↔ job_state_of (sa s) i = Some JOB_QUEUED) →
  (∀ i, job_state_of (sa s) i = Some JOB_QUEUED → payload_at a i = payload_at (sa s) i) →
  (shutdown (sa s) = true → shutdown a = true) →
  inv (with_sa s a).
Proof.
  intros [I1 I2 I3 I4 I5 I6 I7] Hj Hq Hh Hc Hst Hpl Hsd.
  pose proof (ring_frame _ _ Hq Hh Hc) as Hr. unfold pending in *.
  split; unfold pending, with_sa in *; cbn [sa running exited submitted written] in *;
    rewrite ?Hr, ?Hq, ?Hh; try done.
  - intros i. by rewrite I5, Hst.
  - rewrite I6. f_equal. apply map_ext_in. intros i Hi%list_elem_of_In.
    symmetry. apply Hpl. by apply I5.
  - intros Hex. destruct (I7 Hex). auto.
Qed.

Lemma upd_job_jobs i f a : jobs (upd_job i f a) = alter f i (jobs a).
Proof. done. Qed.
Lemma upd_job_lookup i f a k :
  jobs (upd_job i f a) !! k = if decide (i = k) then f <$> jobs a !! k else jobs a !! k.
Proof.
  rewrite upd_job_jobs. case_decide; subst.
  - apply list_lookup_alter_eq.
  - by apply list_lookup_alter_ne.
Qed.

(** A change of one job whose state is not, and does not become, queued. *)
Lemma inv_upd_job s i f j :
  inv s → jobs (sa s) !! i = Some j → j_state j ≠ JOB_QUEUED → j_state (f j) ≠ JOB_QUEUED →
  inv (with_sa s (upd_job i f (sa s))).
Proof.
  intros Hi Hj Hq Hq'. apply inv_frame; try done.
  - rewrite upd_job_jobs, length_alter. apply Hi.
  - intros k. unfold job_state_of. rewrite upd_job_lookup. case_decide; [|done]. subst k.
    rewrite Hj. cbn. split; congruence.
  - intros k. unfold job_state_of, payload_at. rewrite upd_job_lookup. case_decide; [|done].
    subst k. rewrite Hj. cbn. congruence.
Qed.

Lemma inv_upd_job_state s i f st :
  inv s → job_state_of (sa s) i = Some st → st ≠ JOB_QUEUED →
  (∀ j, j_state j = st → j_state (f j) ≠ JOB_QUEUED) →
  inv (with_sa s (upd_job i f (sa s))).
Proof.
  unfold job_state_of. intros Hi Hs Hne Hf.
  apply fmap_Some in Hs as (j & Hj & ->). by apply (inv_upd_job s i f j); auto.
Qed.

Lemma with_sa_id s : with_sa s (sa s) = s.
Proof. by destruct s. Qed.

Lemma free_slot_state a ji :
  free_slot (jobs a) = Some ji → job_state_of a ji = Some JOB_FREE.
Proof.
  unfold free_slot, job_state_of. destruct (list_find _ _) as [[k j]|] eqn:E; [|done].
  intros [= <-]. apply list_find_Some in E as (-> & Hs & _). cbn. by rewrite Hs.
Qed.

Lemma inv_reserve s path ln r a :
  inv s → opc_store_async_reserve (sa s) path ln = (r, a) → inv (with_sa s a).
Proof.
  intros Hi H. unfold opc_store_async_reserve in H.
  repeat (case_match; simplify_eq; [by rewrite with_sa_id|]).
  destruct (free_slot (jobs (sa s))) as [ji|] eqn:E; simplify_eq; [|by rewrite with_sa_id].
  by eapply (inv_upd_job_state s ji _ JOB_FREE); [|by apply free_slot_state|..].
Qed.

Lemma inv_cancel s i : inv s → inv (with_sa s (opc_store_async_cancel (sa s) i)).
Proof.
  intros Hi. unfold opc_store_async_cancel. repeat case_match; rewrite ?with_sa_id; try done.
  by apply (inv_upd_job_state s i _ JOB_RESERVED).
Qed.

Lemma harvest_jobs cap js out rest js' :
  harvest cap js = (out, rest, js') →
  Forall2 (λ j j', j' = j ∨ j_state j = JOB_DONE ∧ j' = j <| j_state := JOB_FREE |>) js js'.
Proof.
  revert cap out rest js'. induction js as [|j js IH]; intros cap out rest js'; cbn [harvest].
  - by intros [= <- <- <-].
  - intros H. repeat case_match; simplify_eq; constructor; eauto.
Qed.

Lemma inv_harvest s cap out a :
  inv s → drain_harvest cap (sa s) = (out, a) → inv (with_sa s a).
Proof.
  intros Hi H. unfold drain_harvest in H.
  destruct (harvest cap (jobs (sa s))) as [[o rest] js] eqn:E. apply harvest_jobs in E.
  assert (Hj : jobs a = js ∧ q a = q (sa s) ∧ q_head a = q_head (sa s) ∧
               q_count a = q_count (sa s) ∧ shutdown a = shutdown (sa s))
    by (destruct rest; simplify_eq; done).
  destruct Hj as (Hj & Hq & Hh & Hc & Hsd). apply inv_frame; try done.
  - rewrite Hj, <- (Forall2_length _ _ _ E). apply Hi.
  - intros i. unfold job_state_of. rewrite Hj.
    rewrite Forall2_lookup in E. specialize (E i).
    destruct E as [j j' [-> | [Hd ->]]|]; cbn; [done| |done]. split; congruence.
  - intros i. unfold job_state_of, payload_at. rewrite Hj.
    rewrite Forall2_lookup in E. specialize (E i).
    by destruct E as [j j' [-> | [Hd ->]]|].
  - by rewrite Hsd.
Qed.

(** *** Submission and the worker *)

Lemma pending_bound s : inv s → Forall (λ i, (i < DEPTH)%nat) (pending s).
Proof.
  intros [I1 _ _ _ I5 _ _]. apply Forall_forall. intros i Hi%I5.
  unfold job_state_of in Hi. apply fmap_Some in Hi as (j & Hj & _).
  apply lookup_lt_Some in Hj. by rewrite <- I1.
Qed.

(** Distinct indexes below n are at most n many; with one more outside, fewer. *)
Lemma nodup_below_length (l : list nat) n :
  NoDup l → Forall (λ i, (i < n)%nat) l → (length l <= n)%nat.
Proof.
  intros Hnd Hf. rewrite <- (length_seq n 0). apply NoDup_incl_length; [by apply NoDup_ListNoDup|].
  intros i Hi%list_elem_of_In. rewrite Forall_forall in Hf. specialize (Hf i Hi).
  apply in_seq. lia.
Qed.

Lemma pending_room s i :
  inv s → job_state_of (sa s) i = Some JOB_RESERVED → (i < DEPTH)%nat →
  (i ∉ pending s) ∧ (length (pending s) < DEPTH)%nat.
Proof.
  intros Hi Hs Hlt. assert (Hn : i ∉ pending s).
  { intros Hin%(inv_pending s Hi). congruence. }
  split; [done|]. apply (nodup_below_length (i :: pending s)).
  - apply NoDup_cons. split; [done|apply Hi].
  - apply Forall_cons_2; [done|]. by apply pending_bound.
Qed.

Lemma length_ring a : length (ring a) = q_count a.
Proof. unfold ring. by rewrite length_map, length_seq. Qed.

Lemma submit_inv_shape a i data mode token a' :
  opc_store_async_submit_reserved a i data mode token = (None, a') →
  ∃ j j', jobs a !! i = Some j ∧ j_state j = JOB_RESERVED ∧ (i < DEPTH)%nat ∧ len data <= j_len j ∧
    shutdown a = false ∧ j_state j' = JOB_QUEUED ∧ payload j' = (j_path j, data) ∧
    jobs a' = <[i := j']> (jobs a) ∧ shutdown a' = false ∧
    q a' = <[((q_head a + q_count a) mod DEPTH)%nat := i]> (q a) ∧
    q_head a' = q_head a ∧ q_count a' = S (q_count a).
Proof.
  unfold opc_store_async_submit_reserved. intros H.
  destruct (DEPTH <=? i)%nat eqn:Ei; [done|]. apply Nat.leb_gt in Ei.
  destruct (jobs a !! i) as [j|] eqn:Ej; [|done].
  destruct (shutdown a) eqn:Es; [done|]. cbn [orb] in H.
  destruct (bool_decide (j_state j ≠ JOB_RESERVED)) eqn:Eb; [done|].
  destruct (j_len j <? len data) eqn:El; [done|]. cbn [orb] in H. guards. simplify_eq.
  exists j, (j <| j_data := data |> <| j_len := len data |> <| j_mode := mode |>
               <| j_token := token |> <| j_result := 0 |> <| j_outcome := OPC_STORE_UNCHANGED |>
               <| j_state := JOB_QUEUED |>). split_and!; try done.
  - destruct (decide (j_state j = JOB_RESERVED)); [done|by destruct Eb].
  - cbn. apply list_eq. intros k. destruct (decide (i = k)) as [<-|].
    + rewrite list_lookup_alter_eq, list_lookup_insert_eq, Ej; [reflexivity|by eapply lookup_lt_Some].
    + by rewrite list_lookup_alter_ne, list_lookup_insert_ne.
Qed.

Lemma inv_submit s i data mode token a :
  inv s → opc_store_async_submit_reserved (sa s) i data mode token = (None, a) →
  inv (mk_system a (running s) (exited s) (submitted s ++ [payload_at a i]) (written s) (echoed s)).
Proof.
  intros Hi H. apply submit_inv_shape in H as
    (j & j' & Hj & Hst & Hlt & _ & Hsd & Hst' & Hpl & Hjobs & Hsd' & Hq & Hh & Hc).
  destruct (pending_room s i Hi) as [Hnin Hroom]; [unfold job_state_of; by rewrite Hj, <- Hst|done|].
  assert (Hcnt : (q_count (sa s) < DEPTH)%nat).
  { unfold pending in Hroom. rewrite length_app, length_ring in Hroom. lia. }
  assert (Hring : ring a = ring (sa s) ++ [i]).
  { rewrite <- (ring_push (sa s) i (inv_q s Hi) Hcnt). apply ring_frame; unfold setter; done. }
  assert (Hpend : pending (mk_system a (running s) (exited s) (submitted s ++ [payload_at a i]) (written s) (echoed s))
                  = pending s ++ [i]).
  { unfold pending. cbn. by rewrite Hring, app_assoc. }
  assert (Hlk : ∀ k, jobs a !! k = if decide (k = i) then Some j' else jobs (sa s) !! k).
  { intros k. rewrite Hjobs. case_decide; subst.
    - apply list_lookup_insert_eq. by eapply lookup_lt_Some.
    - by rewrite list_lookup_insert_ne. }
  destruct Hi as [I1 I2 I3 I4 I5 I6 I7]. split; rewrite ?Hpend; cbn [sa running exited submitted written].
  - by rewrite Hjobs, length_insert.
  - by rewrite Hq, length_insert.
  - by rewrite Hh.
  - apply NoDup_app. split_and!; [done| |apply NoDup_singleton].
    intros k Hk ->%list_elem_of_singleton. done.
  - intros k. rewrite elem_of_app, list_elem_of_singleton, I5. unfold job_state_of. rewrite Hlk.
    case_decide; subst; cbn; [split; [by rewrite Hst'|by right]|]. split; [intros [?|?]; done|by left].
  - rewrite map_app, I6, <- app_assoc. cbn [map]. do 2 f_equal. apply map_ext_in.
    intros k Hk%list_elem_of_In. unfold payload_at. rewrite Hlk.
    case_decide; subst; [by apply Hnin in Hk|done].
  - intros Hex. destruct (I7 Hex). congruence.
Qed.

Lemma inv_take s s' : inv s → worker_take s = Some s' → inv s'.
Proof.
  intros Hi H. unfold worker_take in H. pose proof Hi as [I1 I2 I3 I4 I5 I6 I7].
  destruct (exited s) eqn:Ex; [done|]. destruct (running s) eqn:Er; [done|].
  destruct (q_count (sa s)) as [|c] eqn:Ec; cbn [Nat.eqb] in H.
  - destruct (shutdown (sa s)) eqn:Es; simplify_eq.
    assert (Hp : pending s = []).
    { unfold pending. rewrite Er. cbn. apply length_zero_iff_nil. by rewrite length_ring. }
    unfold pending in *. rewrite Er in *. by split.
  - injection H as <-. pose proof (ring_pop (sa s) c I3 Ec) as Hr.
    set (a1 := (sa s) <| q_head := (S (q_head (sa s)) mod DEPTH)%nat |> <| q_count := c |>) in *.
    match goal with |- inv (mk_system ?x _ _ _ _ _) =>
      replace x with a1 by (unfold a1, setter; cbn; rewrite Ec; f_equal; lia) end.
    set (s' := mk_system a1 _ _ _ _ _).
    assert (Hp : pending s = pending s') by (unfold pending; rewrite Er; exact Hr).
    split; rewrite <- ?Hp; try done. apply Nat.mod_upper_bound. done.
Qed.

Lemma inv_worker_finish s rc outcome s' : inv s → worker_finish rc outcome s = Some s' → inv s'.
Proof.
  intros Hi H. unfold worker_finish in H. destruct (running s) as [ji|] eqn:Er; [|done].
  simplify_eq. pose proof Hi as [I1 I2 I3 I4 I5 I6 I7].
  set (a := upd_job ji _ (sa s)).
  assert (Hp : pending s = ji :: ring (sa s)) by (unfold pending; by rewrite Er).
  assert (Hp' : ∀ b w e, pending (mk_system (notify_completion a) None b (submitted s) w e) = ring (sa s))
    by done.
  rewrite Hp in *. apply NoDup_cons in I4 as [Hni Hnd].
  assert (Hlk : ∀ k, k ≠ ji → jobs (notify_completion a) !! k = jobs (sa s) !! k).
  { intros k Hk. unfold a. change (jobs (notify_completion ?x)) with (jobs x).
    rewrite upd_job_lookup. by rewrite decide_False. }
  split; rewrite ?Hp'; cbn [sa running exited submitted written]; try done.
  - change (jobs (notify_completion a)) with (jobs a). unfold a. by rewrite upd_job_jobs, length_alter.
  - intros k. destruct (decide (k = ji)) as [->|Hk].
    + split; [done|]. unfold job_state_of, a. change (jobs (notify_completion ?x)) with (jobs x).
      rewrite upd_job_lookup, decide_True by done. by destruct (jobs (sa s) !! ji).
    + unfold job_state_of. rewrite Hlk by done. rewrite <- (I5 k), elem_of_cons.
      split; [by right|by intros [?|?]].
  - rewrite I6. cbn [map]. rewrite <- app_assoc. cbn [app]. do 2 f_equal. apply map_ext_in.
    intros k Hk%list_elem_of_In. unfold payload_at. rewrite Hlk; [done|congruence].
Qed.

Lemma inv_init : inv system_init.
Proof.
  split; try done.
  - change DEPTH with 16%nat. cbn. lia.
  - apply NoDup_nil_2.
  - intros i. split; [by intros ?%elem_of_nil|]. unfold job_state_of. cbn -[replicate DEPTH].
    intros (j & Hj & Hs)%fmap_Some. apply lookup_replicate in Hj as [-> _]. done.
Qed.

Lemma inv_step s s' : step s s' → inv s → inv s'.
Proof.
  destruct 1; intros Hi.
  - by eapply inv_reserve.
  - by apply inv_cancel.
  - unfold opc_store_async_submit_reserved in *. repeat case_match; simplify_eq; by rewrite with_sa_id.
  - by eapply inv_submit.
  - apply (inv_upd_job_state s i _ JOB_RESERVED); [done..|].
    intros j Hj. unfold setter. cbn. congruence.
  - by apply inv_frame; [|apply Hi|..].
  - by eapply inv_harvest.
  - by apply inv_frame; [|apply Hi|..].
  - by eapply inv_take.
  - by eapply inv_worker_finish.
Qed.

Lemma inv_reachable s : reachable s → inv s.
Proof.
  unfold reachable. intros H. assert (Hg : inv system_init) by apply inv_init. revert Hg.
  induction H as [|x y z Hs _ IH]; [done|]. intros. apply IH. by eapply inv_step.
Qed.

(** ** Properties of the writer *)

(** C11: the job table and the ring stay consistent in every reachable state of the main
    thread and the worker, however their steps interleave: the ring holds distinct
    indexes (so it never overflows), together with the job being written exactly the
    queued jobs, and the writes already performed followed by the ones still pending are
    the submitted jobs in submission order, each with the bytes it was submitted with. *)
Theorem store_async_fifo s :
  reachable s →
  NoDup (pending s) ∧ (length (pending s) <= DEPTH)%nat ∧
  (∀ i, i ∈ pending s ↔ job_state_of (sa s) i = Some JOB_QUEUED) ∧
  submitted s = written s ++ map (payload_at (sa s)) (pending s).
Proof.
  intros Hi%inv_reachable. split_and!; try apply Hi.
  apply nodup_below_length; [apply Hi|by apply pending_bound].
Qed.

(** A run that reserves, submits and takes one job. *)
Definition demo_state : system :=
  let s := system_init in
  let '(r, a) := opc_store_async_reserve (sa s) "/nv/radio" 4 in
  let s := with_sa s a in
  let a := (opc_store_async_submit_reserved (sa s) 0 [1; 2] 384 9).2 in
  let s := mk_system a (running s) (exited s) (submitted s ++ [payload_at a 0]) (written s) (echoed s) in
  default s (worker_take s).

Lemma demo_reachable : reachable demo_state.
Proof.
  eapply rtc_l; [by eapply (step_reserve _ "/nv/radio" 4)|].
  eapply rtc_l; [by eapply (step_submit _ 0 [1; 2] 384 9)|].
  eapply rtc_l; [|apply rtc_refl]. by apply step_take.
Defined.

Lemma store_async_fifo_witness :
  NoDup (pending demo_state) ∧ (length (pending demo_state) <= DEPTH)%nat ∧
  (∀ i, i ∈ pending demo_state ↔ job_state_of (sa demo_state) i = Some JOB_QUEUED) ∧
  submitted demo_state = written demo_state ++ map (payload_at (sa demo_state)) (pending demo_state).
Proof. apply (store_async_fifo demo_state). apply demo_reachable. Defined.

(** The worker alone, the environment answering each write with the next result. *)
Fixpoint worker_run (results : nat → Z * opc_store_outcome_t) (fuel : nat) (s : system) : system :=
  match fuel with
  | O => s
  | S fuel' =>
      match running s with
      | Some _ =>
          let '(rc, oc) := results fuel' in
          worker_run results fuel' (default s (worker_finish rc oc s))
      | None =>
          match worker_take s with
          | Some s' => worker_run results fuel' s'
          | None => s
          end
      end
  end.

(** Steps the worker needs to empty its queue and leave. *)
Definition worker_work (s : system) : nat :=
  (2 * q_count (sa s) + match running s with Some _ => 1 | None => 0 end +
   (if exited s then 0 else 1))%nat.

Lemma worker_run_exits results fuel s :
  inv s → shutdown (sa s) = true → (worker_work s <= fuel)%nat →
  let s' := worker_run results fuel s in
  exited s' = true ∧ inv s' ∧ submitted s' = submitted s.
Proof.
  revert s. induction fuel as [|fuel IH]; intros s Hi Hsd Hf; cbn [worker_run].
  { unfold worker_work in Hf. destruct (exited s) eqn:E; [done|lia]. }
  destruct (running s) as [ji|] eqn:Er.
  - destruct (results fuel) as [rc oc].
    destruct (worker_finish rc oc s) as [s'|] eqn:Ef; [|unfold worker_finish in Ef; by rewrite Er in Ef].
    cbn [default]. assert (Hi' : inv s') by (by eapply inv_worker_finish).
    assert (Hs : submitted s' = submitted s ∧ shutdown (sa s') = true ∧ running s' = None ∧
                 exited s' = false ∧ q_count (sa s') = q_count (sa s)).
    { unfold worker_finish in Ef. rewrite Er in Ef. by simplify_eq. }
    destruct Hs as (Hs1 & Hs2 & Hs3 & Hs4 & Hs5). rewrite <- Hs1. apply IH; try done.
    unfold worker_work in *. rewrite Hs3, Hs4, Hs5. rewrite Er in Hf.
    destruct (exited s) eqn:Ex; [|lia]. exfalso.
    destruct (inv_exit s Hi Ex) as [_ Hp]. unfold pending in Hp. by rewrite Er in Hp.
  - destruct (worker_take s) as [s'|] eqn:Et.
    + assert (Hi' : inv s') by (by eapply inv_take). unfold worker_take in Et.
      rewrite Er in Et. destruct (exited s) eqn:Ex; [done|].
      destruct (q_count (sa s)) as [|c] eqn:Ec; cbn [Nat.eqb] in Et.
      * rewrite Hsd in Et. injection Et as <-. apply (IH _ Hi' Hsd).
        unfold worker_work in *. rewrite Er, Ex, Ec in Hf. cbn. rewrite Ec. lia.
      * injection Et as <-. apply (IH _ Hi'); [done|]. unfold worker_work in *.
        cbn [running exited]. rewrite Er, Ex, Ec in Hf. unfold setter. cbn. rewrite Ec. lia.
    + unfold worker_take in Et. rewrite Er in Et. destruct (exited s) eqn:Ex; [done|].
      rewrite Hsd in Et. by destruct (q_count (sa s) =? 0)%nat.
Qed.

(** C31: shutting down loses nothing: from any reachable state, after
    [opc_store_async_finish] stops admission the worker runs at most
    2·queued + 2 steps, whatever the writes return, and leaves with every submitted
    job written, in order, and none still queued. *)
Theorem store_async_finish_completes results s fuel :
  reachable s → (worker_work s <= fuel)%nat →
  let s' := worker_run results fuel (with_sa s (finish_begin (sa s))) in
  exited s' = true ∧ written s' = submitted s ∧
  ∀ i, job_state_of (sa s') i ≠ Some JOB_QUEUED.
Proof.
  intros Hr Hf. set (s0 := with_sa s (finish_begin (sa s))).
  assert (Hi : inv s0) by (eapply inv_step; [apply step_finish|by apply inv_reachable]).
  destruct (worker_run_exits results fuel s0 Hi eq_refl Hf) as (Hex & Hi' & Hsub).
  cbn zeta. split; [done|]. destruct (inv_exit _ Hi' Hex) as [_ Hp]. split.
  - change (submitted s) with (submitted s0). rewrite <- Hsub, (inv_fifo _ Hi'), Hp. by rewrite app_nil_r.
  - intros i Hq%(inv_pending _ Hi'). rewrite Hp in Hq. by apply elem_of_nil in Hq.
Qed.

Lemma store_async_finish_completes_witness :
  let s' := worker_run (λ _, (-1, OPC_STORE_UNCHANGED)) 10 (with_sa demo_state (finish_begin (sa demo_state))) in
  exited s' = true ∧ written s' = submitted demo_state ∧
  ∀ i, job_state_of (sa s') i ≠ Some JOB_QUEUED.
Proof.
  apply (store_async_finish_completes (λ _, (-1, OPC_STORE_UNCHANGED)) demo_state 10).
  - apply demo_reachable.
  - apply Nat.leb_le. reflexivity.
Defined.

(** *** Draining *)

Definition done_of (j : job_t) : opc_store_async_done_t :=
  mk_done (j_token j) (j_result j) (j_outcome j).
Definition is_done (j : job_t) : bool := bool_decide (j_state j = JOB_DONE).

Lemma harvest_spec cap js :
  let '(out, rest, js') := harvest cap js in
  out = take cap (map done_of (List.filter is_done js)) ∧
  rest = (cap <? length (List.filter is_done js))%nat ∧
  map done_of (List.filter is_done js') = drop cap (map done_of (List.filter is_done js)).
Proof.
  revert cap. induction js as [|j js IH]; intros cap; cbn [harvest].
  { cbn. by destruct cap. }
  destruct (decide (j_state j = JOB_DONE)) as [Hd|Hd].
  - assert (Hb : is_done j = true) by (by apply bool_decide_eq_true).
    cbn [List.filter]. rewrite Hb. cbn [map length]. destruct cap as [|cap].
    + specialize (IH O). destruct (harvest O js) as [[out rest] js'].
      destruct IH as (-> & _ & IH). cbn [List.filter]. rewrite Hb. cbn [map take drop].
      split_and!; try done. rewrite IH. by rewrite drop_0.
    + specialize (IH cap). destruct (harvest cap js) as [[out rest] js'].
      destruct IH as (-> & -> & IH). cbn [List.filter take drop]. split_and!; try done.
  - assert (Hb : is_done j = false) by (by apply bool_decide_eq_false).
    specialize (IH cap). destruct (harvest cap js) as [[out rest] js'].
    destruct IH as (-> & -> & IH). cbn [List.filter]. by rewrite Hb.
Qed.

(** A drain reports the completed jobs in slot order, at most [cap] of them, frees
    exactly the reported slots, and leaves the eventfd readable whenever completions
    remain. *)
Theorem opc_store_async_drain_spec cap a :
  (0 < cap)%nat →
  let '(out, a') := opc_store_async_drain cap a in
  let completed := map done_of (List.filter is_done (jobs a)) in
  out = take cap completed ∧
  map done_of (List.filter is_done (jobs a')) = drop cap completed ∧
  (event_fd a' ≠ 0 ↔ drop cap completed ≠ []) ∧
  length (jobs a') = length (jobs a).
Proof.
  intros Hc. unfold opc_store_async_drain, drain_harvest.
  rewrite (proj2 (Nat.eqb_neq cap 0)) by lia. change (jobs (drain_clear a)) with (jobs a).
  pose proof (harvest_spec cap (jobs a)) as Hs.
  destruct (harvest cap (jobs a)) as [[out rest] js] eqn:E.
  apply harvest_jobs, Forall2_length in E. destruct Hs as (-> & -> & Hs).
  assert (Hd : ∀ l : list opc_store_async_done_t, drop cap l ≠ [] ↔ (cap < length l)%nat).
  { intros l. rewrite <- length_zero_iff_nil, length_drop. lia. }
  rewrite Hd, length_map.
  destruct (cap <? _)%nat eqn:El; rewrite ?Nat.ltb_lt, ?Nat.ltb_ge in El; split_and!; try done;
    unfold setter; cbn; split; intros; try done; lia.
Qed.

Lemma opc_store_async_drain_witness :
  let a := sa (worker_run (λ _, (0, OPC_STORE_DURABLE)) 1 demo_state) in
  let '(out, a') := opc_store_async_drain 4 a in
  let completed := map done_of (List.filter is_done (jobs a)) in
  out = take 4 completed ∧
  map done_of (List.filter is_done (jobs a')) = drop 4 completed ∧
  (event_fd a' ≠ 0 ↔ drop 4 completed ≠ []) ∧
  length (jobs a') = length (jobs a).
Proof.
  apply (opc_store_async_drain_spec 4 (sa (worker_run (λ _, (0, OPC_STORE_DURABLE)) 1 demo_state))).
  lia.
Defined.
End StoreAsync.
Export StoreAsync.
