(* ===== verification/IpListText.v ===== *)
(** * The IP address list and its text form: opcd/iplist_text.h, opcd/iplist_text.c

    The list of 128 numbered IP configurations ([opcd_ip_list_t] of opcd_state.h), its
    serialisation into the customer's text file and the line parser that reads it back.
    A text is a list of bytes; a C range [s, end) is the list of its bytes. The [why]
    buffer of the parser (a log message) is not modelled, its line number is. *)
From S2P Require Import Prelude Codec ScanList Commands.
From stdpp Require Import base list numbers option tactics strings.
From Stdlib Require Import ZArith Lia.
#[local] Open Scope Z_scope.

Module IpListText.

(** ** opcd_state.h: the list *)
Definition SLOTS : nat := Z.to_nat OPC_IPCFG_LIST_MAX_SLOTS.

Record opcd_ip_list_t := mk_ip_list { slots : list opc_ipcfg_entry_t; present : list Z }.
#[global] Instance eta_ip_list : Eta opcd_ip_list_t := λ l, mk_ip_list (slots l) (present l).
#[global] Instance eta_ipcfg_entry : Eta opc_ipcfg_entry_t := λ e,
  mk_ipcfg_entry (boundary_flag e) (list_number e) (ip_address e) (subnet_mask e)
    (default_gateway e) (ntp_server e) (essid e).

Definition ipcfg_entry_zero : opc_ipcfg_entry_t := mk_ipcfg_entry 0 0 0 0 0 0 (zeros 32).
Definition ip_list_zero : opcd_ip_list_t :=
  mk_ip_list (replicate SLOTS ipcfg_entry_zero) (replicate SLOTS 0).

(** ** iplist_text.h *)
Definition OPC_IPLIST_TEXT_MAX : Z := 24576.
Definition OPC_IPLIST_IMPORT_MAX : Z := 65536.
Definition OPC_IPLIST_KEY_IP : Z := 1.
Definition OPC_IPLIST_KEY_MASK : Z := 2.
Definition OPC_IPLIST_KEY_GW : Z := 4.
Definition OPC_IPLIST_KEY_ESSID : Z := 8.
Definition OPC_IPLIST_KEY_NTP : Z := 16.
Definition OPC_IPLIST_KEY_ALL : Z := 31.

Record opc_iplist_text_t := mk_text {
  entry : list opc_ipcfg_entry_t;
  keys_seen : list Z;
  bad : list bool;
  first_error_line : Z;
  final_newline : bool;
}.
#[global] Instance eta_text : Eta opc_iplist_text_t := λ t,
  mk_text (entry t) (keys_seen t) (bad t) (first_error_line t) (final_newline t).

Definition text_zero : opc_iplist_text_t :=
  mk_text (replicate SLOTS ipcfg_entry_zero) (replicate SLOTS 0) (replicate SLOTS false) 0 false.

(** ** iplist_text.c *)
Definition keys : list (string * Z) :=
  [("IPAddress", OPC_IPLIST_KEY_IP); ("IPSubnetMask", OPC_IPLIST_KEY_MASK);
   ("IPDefaultGateway", OPC_IPLIST_KEY_GW); ("WL54EssId", OPC_IPLIST_KEY_ESSID);
   ("NTPServer", OPC_IPLIST_KEY_NTP)].

(** [snprintf] into the room left of a buffer of [cap] bytes, NUL included. *)
Definition append (cap : Z) (acc s : list Z) : option (list Z) :=
  if cap - len acc <=? len s then None else Some (acc ++ s).

(** [value] is the result of formatting with [fmt_value]. *)
Definition put (cap : Z) (acc : list Z) (key : string) (n : Z) (value : list Z) : option (list Z) :=
  acc ← append cap acc (str key ++ dec n ++ str "=");
  append cap acc value.

Definition ipv4_str (ip : Z) : list Z :=
  dec (Z.shiftr ip 24) ++ str "." ++ dec (Z.land (Z.shiftr ip 16) 255) ++ str "." ++
  dec (Z.land (Z.shiftr ip 8) 255) ++ str "." ++ dec (Z.land ip 255).

Definition LF : Z := 10.
Definition CR : Z := 13.
Definition QUOTE : Z := 34.

(** The local copy of the ESSID, its last byte forced to NUL, printed by [%s]. *)
Definition essid_str (e : opc_ipcfg_entry_t) : list Z :=
  cstr (write_at (OPC_ESSID_FIELD_LEN - 1) [0] (essid e)).

Definition format_slot (cap : Z) (acc : list Z) (n : Z) (e : opc_ipcfg_entry_t) : option (list Z) :=
  acc ← put cap acc "IPAddress" n (ipv4_str (ip_address e) ++ [LF]);
  acc ← put cap acc "IPSubnetMask" n (ipv4_str (subnet_mask e) ++ [LF]);
  acc ← put cap acc "IPDefaultGateway" n (ipv4_str (default_gateway e) ++ [LF]);
  acc ← put cap acc "WL54EssId" n ([QUOTE] ++ essid_str e ++ [QUOTE; LF]);
  put cap acc "NTPServer" n (ipv4_str (ntp_server e) ++ [LF]).

Fixpoint format_slots (cap : Z) (acc : list Z) (i : Z) (l : list (opc_ipcfg_entry_t * Z))
    : option (list Z) :=
  match l with
  | [] => Some acc
  | (e, p) :: l' =>
      if p =? 0 then format_slots cap acc (i + 1) l'
      else acc ← format_slot cap acc (i + 1) e; format_slots cap acc (i + 1) l'
  end.

Definition opc_iplist_text_format (l : opcd_ip_list_t) (cap : Z) : option (list Z) :=
  if cap =? 0 then None else format_slots cap [] 0 (zip (slots l) (present l)).

(** Up to [k] decimal digits: the value, how many there were, and what follows. *)
Fixpoint digits (k : nat) (v : Z) (s : list Z) : Z * nat * list Z :=
  match k, s with
  | S k', c :: s' =>
      if is_digit c then let '(v, nd, r) := digits k' (v * 10 + (c - 48)) s' in (v, S nd, r)
      else (v, O, s)
  | _, _ => (v, O, s)
  end.
Definition starts_digit (s : list Z) : bool :=
  match s with c :: _ => is_digit c | [] => false end.
Definition starts_with (c : Z) (s : list Z) : bool :=
  match s with c' :: _ => c' =? c | [] => false end.

Definition octet (s : list Z) : option (Z * list Z) :=
  let '(v, nd, r) := digits 3 0 s in
  if (nd =? 0)%nat || (255 <? v) || ((1 <? nd)%nat && starts_with 48 s) then None
  else if starts_digit r then None
  else Some (v, r).

Fixpoint ipv4_parts (parts : nat) (first : bool) (ip : Z) (s : list Z) : option (Z * list Z) :=
  match parts with
  | O => Some (ip, s)
  | S p =>
      s ← (if first then Some s
           else match s with c :: s' => if c =? 46 then Some s' else None | [] => None end);
      '(v, s) ← octet s;
      ipv4_parts p false (u32 (Z.lor (Z.shiftl ip 8) v)) s
  end.
Definition parse_ipv4 (s : list Z) : option Z :=
  '(ip, s) ← ipv4_parts 4 true 0 s;
  match s with [] => Some ip | _ => None end.

Definition note (out : opc_iplist_text_t) (line : Z) : opc_iplist_text_t :=
  if negb (first_error_line out =? 0) then out else out <| first_error_line := line |>.

(** The bytes after the key when [s] is longer than it, starts with it and has a digit next. *)
Definition match_key (key : string) (s : list Z) : option (list Z) :=
  let k := str key in
  if (length k <? length s)%nat && bool_decide (take (length k) s = k) &&
     starts_digit (drop (length k) s)
  then Some (drop (length k) s) else None.
Fixpoint find_key (ks : list (string * Z)) (s : list Z) : option (Z * list Z) :=
  match ks with
  | [] => None
  | (name, bit) :: ks' =>
      match match_key name s with Some p => Some (bit, p) | None => find_key ks' s end
  end.

(** The value of an ESSID line, without its quotes. *)
Definition essid_value (p : list Z) : option (list Z) :=
  let vlen := length p in
  let inner := take (vlen - 2) (drop 1 p) in
  if (2 <=? vlen)%nat && starts_with QUOTE p && bool_decide (last p = Some QUOTE) &&
     (vlen - 2 <? 32)%nat && negb (existsb (Z.eqb QUOTE) inner)
  then Some inner else None.

Definition set_value (bit : Z) (p : list Z) (e : opc_ipcfg_entry_t) : option opc_ipcfg_entry_t :=
  if bit =? OPC_IPLIST_KEY_ESSID then
    v ← essid_value p; Some (e <| essid := write_at 0 v (zeros 32) |>)
  else
    v ← parse_ipv4 p;
    Some (if bit =? OPC_IPLIST_KEY_IP then e <| ip_address := v |>
          else if bit =? OPC_IPLIST_KEY_MASK then e <| subnet_mask := v |>
          else if bit =? OPC_IPLIST_KEY_GW then e <| default_gateway := v |>
          else e <| ntp_server := v |>).

Definition parse_line (s : list Z) (line : Z) (out : opc_iplist_text_t) : opc_iplist_text_t :=
  if existsb (Z.eqb 0) s then note out line
  else match find_key keys s with
  | None => note out line
  | Some (bit, p) =>
      let '(n, _, r) := digits 4 0 p in
      if negb (starts_with 61 r) || starts_with 48 p || (n <? 1) || (OPC_IPCFG_LIST_MAX_SLOTS <? n)
      then note out line
      else
        let value := tail r in
        let i := Z.to_nat (n - 1) in
        let seen := default 0 (keys_seen out !! i) in
        if negb (Z.land seen bit =? 0)
        then note (out <| bad := <[i := true]> (bad out) |>) line
        else match set_value bit value (default ipcfg_entry_zero (entry out !! i)) with
        | None => note (out <| bad := <[i := true]> (bad out) |>) line
        | Some e =>
            (out <| entry := <[i := e <| list_number := u16 n |>]> (entry out) |>)
                 <| keys_seen := <[i := Z.lor seen bit]> (keys_seen out) |>
        end
  end.

(** The line up to the next LF, and what follows it ([None]: no LF). *)
Fixpoint break_lf (s : list Z) : list Z * option (list Z) :=
  match s with
  | [] => ([], None)
  | c :: s' => if c =? LF then ([], Some s')
               else let '(l, r) := break_lf s' in (c :: l, r)
  end.
Definition strip_cr (l : list Z) : list Z :=
  if bool_decide (last l = Some CR) then take (length l - 1) l else l.

(** The loop over the lines. Each turn consumes at least one byte, so the length of the
    text is enough fuel ([parse_lines_text]). *)
Fixpoint parse_lines (fuel : nat) (p : list Z) (line : Z) (out : opc_iplist_text_t)
    : opc_iplist_text_t :=
  match fuel, p with
  | S f, _ :: _ =>
      let '(l, next) := break_lf p in
      let l := strip_cr l in
      let out := match l with [] => out | _ => parse_line l line out end in
      parse_lines f (default [] next) (line + 1) out
  | _, _ => out
  end.

Definition opc_iplist_text_parse (buf : list Z) : opc_iplist_text_t :=
  let out := text_zero <| final_newline :=
    match last buf with None => true | Some c => c =? LF end |> in
  parse_lines (length buf) buf 1 out.

(** ** Numbers and addresses read back *)

Lemma digits_stop k v r : starts_digit r = false → digits k v r = (v, O, r).
Proof. destruct k, r; simpl; intros; try done. by rewrite H. Qed.
Lemma digits_step k v d r :
  0 <= d < 10 → digits (S k) v ((48 + d) :: r) = let '(w, nd, r') := digits k (v * 10 + d) r in (w, S nd, r').
Proof.
  intros. cbn [digits]. rewrite is_digit_add by done. by replace (48 + d - 48) with d by lia.
Qed.

(** A printed number below 1000 is read back by a scan of three or more digits. *)
Lemma digits_dec k n r :
  0 <= n < 1000 → starts_digit r = false →
  digits (S (S (S k))) 0 (dec n ++ r) = (n, length (dec n), r).
Proof.
  intros Hn Hr. assert (0 <= n < 10 ∨ 10 <= n < 100 ∨ 100 <= n < 1000) as [H|[H|H]] by lia.
  - rewrite dec_1 by done. cbn [app]. rewrite digits_step, digits_stop by done. done.
  - rewrite dec_2 by done. cbn [app].
    rewrite !digits_step by (Z.to_euclidean_division_equations; lia).
    rewrite digits_stop by done. do 2 f_equal. Z.to_euclidean_division_equations; lia.
  - rewrite dec_3 by done. cbn [app].
    rewrite !digits_step by (Z.to_euclidean_division_equations; lia).
    rewrite digits_stop by done. do 2 f_equal. Z.to_euclidean_division_equations; lia.
Qed.

(** A printed number has one to three digits and no leading zero. *)
Lemma dec_length n : 0 <= n < 1000 → (1 <= length (dec n) <= 3)%nat.
Proof.
  intros Hn. assert (0 <= n < 10 ∨ 10 <= n < 100 ∨ 100 <= n < 1000) as [H|[H|H]] by lia;
    rewrite ?dec_1, ?dec_2, ?dec_3 by done; simpl; lia.
Qed.
Lemma dec_head n r :
  0 <= n < 1000 → starts_with 48 (dec n ++ r) = true → n = 0 ∧ length (dec n) = 1%nat.
Proof.
  intros Hn. assert (0 <= n < 10 ∨ 10 <= n < 100 ∨ 100 <= n < 1000) as [H|[H|H]] by lia;
    rewrite ?dec_1, ?dec_2, ?dec_3 by done; cbn [app starts_with]; intros E; guards;
    split; try done; Z.to_euclidean_division_equations; lia.
Qed.
Lemma dec_digits n : 0 <= n < 1000 → Forall (λ c, is_digit c = true) (dec n).
Proof.
  intros Hn. assert (0 <= n < 10 ∨ 10 <= n < 100 ∨ 100 <= n < 1000) as [H|[H|H]] by lia;
    rewrite ?dec_1, ?dec_2, ?dec_3 by done; repeat constructor; apply is_digit_add;
    Z.to_euclidean_division_equations; lia.
Qed.
Lemma dec_starts_digit n r : 0 <= n < 1000 → starts_digit (dec n ++ r) = true.
Proof.
  intros Hn. pose proof (dec_digits n Hn) as Hd. pose proof (dec_length n Hn).
  destruct (dec n) as [|c l]; [simpl in *; lia|]. by inversion Hd.
Qed.

Lemma octet_dec v r : 0 <= v < 256 → starts_digit r = false → octet (dec v ++ r) = Some (v, r).
Proof.
  intros Hv Hr. unfold octet. rewrite digits_dec by (done || lia).
  pose proof (dec_length v ltac:(lia)).
  rewrite (proj2 (Nat.eqb_neq (length (dec v)) 0)), (proj2 (Z.ltb_ge 255 v)), Hr by lia. cbn [orb].
  destruct (starts_with 48 (dec v ++ r)) eqn:E; [|by rewrite andb_false_r].
  apply dec_head in E as [_ ->]; [done|lia].
Qed.

Lemma ipv4_parts_join ip b :
  0 <= ip < 16777216 → 0 <= b < 256 → u32 (Z.lor (Z.shiftl ip 8) b) = ip * 256 + b.
Proof.
  intros. rewrite lor_shiftl_add by lia. change (2 ^ 8) with 256. apply u32_id. unfold is_u32. lia.
Qed.

Lemma ipv4_parts_first p ip v r :
  0 <= v < 256 → starts_digit r = false →
  ipv4_parts (S p) true ip (dec v ++ r) = ipv4_parts p false (u32 (Z.lor (Z.shiftl ip 8) v)) r.
Proof. intros. cbn [ipv4_parts mbind option_bind]. by rewrite octet_dec. Qed.
Lemma ipv4_parts_next p ip v r :
  0 <= v < 256 → starts_digit r = false →
  ipv4_parts (S p) false ip (str "." ++ dec v ++ r)
  = ipv4_parts p false (u32 (Z.lor (Z.shiftl ip 8) v)) r.
Proof.
  intros. change (ipv4_parts (S p) false ip (str "." ++ dec v ++ r))
    with ('(v, s) ← octet (dec v ++ r); ipv4_parts p false (u32 (Z.lor (Z.shiftl ip 8) v)) s).
  by rewrite octet_dec.
Qed.

Lemma octet_of_land x : Z.land x 255 = x mod 256.
Proof. change 255 with (Z.ones 8). by rewrite Z.land_ones by lia. Qed.

Lemma parse_ipv4_str ip : is_u32 ip → parse_ipv4 (ipv4_str ip) = Some ip.
Proof.
  unfold is_u32. intros Hip. unfold parse_ipv4, ipv4_str.
  rewrite !octet_of_land, !Z.shiftr_div_pow2 by lia.
  change (2 ^ 24) with 16777216; change (2 ^ 16) with 65536; change (2 ^ 8) with 256.
  set (a := ip / 16777216). set (b := ip / 65536 mod 256). set (c := ip / 256 mod 256).
  set (d := ip mod 256).
  assert (0 <= a < 256 ∧ 0 <= b < 256 ∧ 0 <= c < 256 ∧ 0 <= d < 256 ∧
          ip = ((a * 256 + b) * 256 + c) * 256 + d) as (Ha & Hb & Hc & Hd & Hs).
  { unfold a, b, c, d. Z.to_euclidean_division_equations; lia. }
  rewrite ipv4_parts_first, !ipv4_parts_next by done.
  rewrite <- (app_nil_r (dec d)), ipv4_parts_next by done.
  cbn [ipv4_parts mbind option_bind]. f_equal.
  rewrite (ipv4_parts_join 0 a) by lia.
  rewrite (ipv4_parts_join (0 * 256 + a) b) by lia.
  rewrite (ipv4_parts_join _ c) by lia.
  rewrite (ipv4_parts_join _ d) by lia. lia.
Qed.

(** ** The lines of a slot *)

Definition put_line (key : string) (n : Z) (value : list Z) : list Z :=
  str key ++ dec n ++ str "=" ++ value.
Definition slot_lines (n : Z) (e : opc_ipcfg_entry_t) : list (list Z) :=
  [put_line "IPAddress" n (ipv4_str (ip_address e));
   put_line "IPSubnetMask" n (ipv4_str (subnet_mask e));
   put_line "IPDefaultGateway" n (ipv4_str (default_gateway e));
   put_line "WL54EssId" n ([QUOTE] ++ essid_str e ++ [QUOTE]);
   put_line "NTPServer" n (ipv4_str (ntp_server e))].
Definition lines_text (ls : list (list Z)) : list Z := flat_map (λ l, l ++ [LF]) ls.
Fixpoint list_lines (i : Z) (l : list (opc_ipcfg_entry_t * Z)) : list (list Z) :=
  match l with
  | [] => []
  | (e, p) :: l' => (if p =? 0 then [] else slot_lines (i + 1) e) ++ list_lines (i + 1) l'
  end.

Lemma lines_text_app a b : lines_text (a ++ b) = lines_text a ++ lines_text b.
Proof. apply flat_map_app. Qed.

(** *** What the formatter writes, and that it fits *)

Lemma append_fits cap acc s : len acc + len s < cap → append cap acc s = Some (acc ++ s).
Proof. intros. unfold append. by rewrite (proj2 (Z.leb_gt _ _)) by lia. Qed.

Lemma put_fits cap acc key n v :
  len acc + len (put_line key n v ++ [LF]) < cap →
  put cap acc key n (v ++ [LF]) = Some (acc ++ put_line key n v ++ [LF]).
Proof.
  unfold put, put_line. intros Hc. rewrite !len_app in Hc.
  pose proof (len_nonneg v). pose proof (len_nonneg [LF]). rewrite append_fits by (rewrite !len_app; lia).
  cbn [mbind option_bind]. rewrite append_fits by (rewrite !len_app; lia). by rewrite <- !app_assoc.
Qed.

Lemma format_slot_fits cap acc n e :
  len acc + len (lines_text (slot_lines n e)) < cap →
  format_slot cap acc n e = Some (acc ++ lines_text (slot_lines n e)).
Proof.
  unfold format_slot, slot_lines, lines_text. cbn [flat_map]. rewrite app_nil_r.
  replace ([QUOTE] ++ essid_str e ++ [QUOTE; LF]) with (([QUOTE] ++ essid_str e ++ [QUOTE]) ++ [LF])
    by (by rewrite <- !app_assoc).
  remember (put_line "IPAddress" _ _ ++ _) as L1 eqn:E1.
  remember (put_line "IPSubnetMask" _ _ ++ _) as L2 eqn:E2.
  remember (put_line "IPDefaultGateway" _ _ ++ _) as L3 eqn:E3.
  remember (put_line "WL54EssId" _ _ ++ _) as L4 eqn:E4.
  remember (put_line "NTPServer" _ _ ++ _) as L5 eqn:E5. rewrite !len_app. intros Hc.
  pose proof (len_nonneg L1). pose proof (len_nonneg L2). pose proof (len_nonneg L3).
  pose proof (len_nonneg L4). pose proof (len_nonneg L5).
  rewrite put_fits, <- E1 by (rewrite <- ?E1; lia). cbn [mbind option_bind].
  rewrite put_fits, <- E2 by (rewrite <- ?E2, len_app; lia). cbn [mbind option_bind].
  rewrite put_fits, <- E3 by (rewrite <- ?E3, !len_app; lia). cbn [mbind option_bind].
  rewrite put_fits, <- E4 by (rewrite <- ?E4, !len_app; lia). cbn [mbind option_bind].
  rewrite put_fits, <- E5 by (rewrite <- ?E5, !len_app; lia). by rewrite <- !app_assoc.
Qed.

Lemma format_slots_fits cap acc i l :
  len acc + len (lines_text (list_lines i l)) < cap →
  format_slots cap acc i l = Some (acc ++ lines_text (list_lines i l)).
Proof.
  revert acc i. induction l as [|[e p] l IH]; intros acc i Hc; cbn [format_slots list_lines] in *.
  { by rewrite app_nil_r. }
  rewrite lines_text_app in *. destruct (p =? 0); [by apply IH|].
  rewrite len_app in Hc. pose proof (len_nonneg (lines_text (list_lines (i + 1) l))).
  rewrite format_slot_fits by lia. cbn [mbind option_bind].
  rewrite IH by (rewrite len_app; lia). by rewrite <- app_assoc.
Qed.

Definition entry_ok (e : opc_ipcfg_entry_t) : Prop :=
  is_u32 (ip_address e) ∧ is_u32 (subnet_mask e) ∧ is_u32 (default_gateway e) ∧
  is_u32 (ntp_server e) ∧ len (essid e) = OPC_ESSID_FIELD_LEN.
#[global] Instance entry_ok_dec e : Decision (entry_ok e).
Proof. unfold entry_ok. apply _. Defined.
Definition ip_list_ok (l : opcd_ip_list_t) : Prop :=
  length (slots l) = SLOTS ∧ length (present l) = SLOTS ∧ Forall entry_ok (slots l).
#[global] Instance ip_list_ok_dec l : Decision (ip_list_ok l).
Proof. unfold ip_list_ok. apply _. Defined.

Lemma ipv4_str_len ip : is_u32 ip → len (ipv4_str ip) <= 15.
Proof.
  unfold is_u32. intros. unfold ipv4_str. rewrite !octet_of_land, !Z.shiftr_div_pow2 by lia.
  change (2 ^ 24) with 16777216; change (2 ^ 16) with 65536; change (2 ^ 8) with 256.
  rewrite !len_app. change (len (str ".")) with 1. unfold len.
  pose proof (dec_length (ip / 16777216) ltac:(Z.to_euclidean_division_equations; lia)).
  pose proof (dec_length (ip / 65536 mod 256) ltac:(Z.to_euclidean_division_equations; lia)).
  pose proof (dec_length (ip / 256 mod 256) ltac:(Z.to_euclidean_division_equations; lia)).
  pose proof (dec_length (ip mod 256) ltac:(Z.to_euclidean_division_equations; lia)). lia.
Qed.

Lemma cstr_stops a i : a !! i = Some 0 → (length (cstr a) <= i)%nat.
Proof.
  revert i. induction a as [|c a IH]; intros [|i] H; simpl in *; simplify_eq; simpl; try lia.
  case_match; simpl; [lia|]. apply IH in H. lia.
Qed.
Lemma essid_str_len e : len (essid e) = OPC_ESSID_FIELD_LEN → len (essid_str e) <= 31.
Proof.
  unfold OPC_ESSID_FIELD_LEN, len. intros H. unfold essid_str.
  assert (write_at (OPC_ESSID_FIELD_LEN - 1) [0] (essid e) !! 31%nat = Some 0) as H0.
  { unfold write_at. change (Z.to_nat _) with 31%nat. rewrite lookup_app_r by (rewrite length_take; lia).
    rewrite length_take. replace (31 - 31 `min` length (essid e))%nat with 0%nat by lia. done. }
  apply cstr_stops in H0. lia.
Qed.

Lemma slot_text_len n e :
  0 <= n < 1000 → entry_ok e → len (lines_text (slot_lines n e)) <= 158 + 5 * len (dec n).
Proof.
  intros Hn (H1 & H2 & H3 & H4 & H5). unfold slot_lines, lines_text, put_line. cbn [flat_map].
  rewrite !len_app, len_nil. change (len [LF]) with 1. change (len [QUOTE]) with 1.
  change (len (str "=")) with 1. change (len (str "IPAddress")) with 9.
  change (len (str "IPSubnetMask")) with 12. change (len (str "IPDefaultGateway")) with 16.
  change (len (str "WL54EssId")) with 9. change (len (str "NTPServer")) with 9.
  apply ipv4_str_len in H1, H2, H3, H4. apply essid_str_len in H5. lia.
Qed.

(** The size of the longest text for the slots from number [i+1] on. *)
Fixpoint text_bound (i : Z) (k : nat) : Z :=
  match k with O => 0 | S k' => 158 + 5 * len (dec (i + 1)) + text_bound (i + 1) k' end.

Lemma list_text_len i l :
  0 <= i → i + len l < 1000 → Forall entry_ok l.*1 →
  len (lines_text (list_lines i l)) <= text_bound i (length l).
Proof.
  revert i. induction l as [|[e p] l IH]; intros i Hi Hl He.
  { change (len _) with 0. simpl. lia. }
  cbn [fmap list_fmap fst] in He. apply Forall_cons_1 in He as [He Hes]. rewrite len_cons in Hl.
  pose proof (len_nonneg l). cbn [list_lines length text_bound].
  rewrite lines_text_app, len_app. specialize (IH (i + 1) ltac:(lia) ltac:(lia) Hes).
  pose proof (slot_text_len (i + 1) e ltac:(lia) He). pose proof (len_nonneg (dec (i + 1))).
  destruct (p =? 0); [change (len (lines_text [])) with 0|]; lia.
Qed.

Lemma ip_list_text l :
  ip_list_ok l →
  let text := lines_text (list_lines 0 (zip (slots l) (present l))) in
  len text <= 21604 ∧ ∀ cap, len text < cap → opc_iplist_text_format l cap = Some text.
Proof.
  intros (Hs & Hp & He) text. split.
  - transitivity (text_bound 0 SLOTS); [|by apply Z.leb_le].
    replace SLOTS with (length (zip (slots l) (present l))) by (rewrite length_zip; lia).
    apply list_text_len; [lia| |].
    + unfold len. rewrite length_zip, Hs, Hp. by apply Z.ltb_lt.
    + by rewrite fst_zip by lia.
  - intros cap Hc. unfold opc_iplist_text_format. pose proof (len_nonneg text).
    rewrite (proj2 (Z.eqb_neq cap 0)) by lia. rewrite format_slots_fits; [done|].
    change (len []) with 0. fold text. lia.
Qed.

(** The text of any list fits: for a list of 128 slots whose addresses are 32-bit and
    whose ESSID fields are 32 bytes, formatting into the 24,576-byte buffer always
    succeeds and the text is at most 21,604 bytes long. *)
Theorem opc_iplist_text_format_fits l :
  ip_list_ok l →
  ∃ text, opc_iplist_text_format l OPC_IPLIST_TEXT_MAX = Some text ∧ len text <= 21604.
Proof.
  intros H. destruct (ip_list_text l H) as [Hl Hf]. eexists. split; [apply Hf|exact Hl].
  unfold OPC_IPLIST_TEXT_MAX. lia.
Qed.

Definition longest_entry : opc_ipcfg_entry_t :=
  mk_ipcfg_entry 0 0 4294967295 4294967295 4294967295 4294967295 (replicate 32 65).
Lemma opc_iplist_text_format_fits_witness :
  ∃ text, opc_iplist_text_format (mk_ip_list (replicate SLOTS longest_entry) (replicate SLOTS 1))
            OPC_IPLIST_TEXT_MAX = Some text ∧ len text <= 21604.
Proof.
  apply opc_iplist_text_format_fits. apply (bool_decide_unpack _). vm_compute. exact I.
Defined.

(** *** The loop over lines *)

Fixpoint run_lines (ls : list (list Z)) (line : Z) (out : opc_iplist_text_t) : opc_iplist_text_t :=
  match ls with [] => out | l :: ls' => run_lines ls' (line + 1) (parse_line l line out) end.

Lemma run_lines_app a b line out :
  run_lines (a ++ b) line out = run_lines b (line + len a) (run_lines a line out).
Proof.
  revert line out. induction a as [|l a IH]; intros; cbn [app run_lines].
  - by rewrite len_nil, Z.add_0_r.
  - rewrite IH, len_cons. f_equal. lia.
Qed.

(** The bytes a line may have: neither NUL nor LF. *)
Definition plain (c : Z) : Prop := c ≠ 0 ∧ c ≠ LF.
Definition plain_line (l : list Z) : Prop := Forall plain l ∧ l ≠ [] ∧ last l ≠ Some CR.

Lemma break_lf_line l r : Forall plain l → break_lf (l ++ LF :: r) = (l, Some r).
Proof.
  induction 1 as [|c l [_ Hc] _ IH]; [done|]. cbn [app break_lf].
  rewrite (proj2 (Z.eqb_neq c LF)) by done. by rewrite IH.
Qed.

Lemma parse_lines_text fuel ls line out :
  Forall plain_line ls → (length (lines_text ls) <= fuel)%nat →
  parse_lines fuel (lines_text ls) line out = run_lines ls line out.
Proof.
  intros H. revert fuel line out. induction H as [|l ls (Hl & Hne & Hcr) _ IH]; intros fuel line out Hf.
  { by destruct fuel. }
  change (lines_text (l :: ls)) with ((l ++ [LF]) ++ lines_text ls) in *.
  rewrite <- app_assoc in *. cbn [app] in *. rewrite length_app in Hf. simpl in Hf.
  destruct fuel as [|fuel]; [lia|].
  assert (parse_lines (S fuel) (l ++ LF :: lines_text ls) line out =
          parse_lines fuel (lines_text ls) (line + 1) (parse_line l line out)) as ->.
  { destruct l as [|c l]; [done|]. cbn [app parse_lines].
    rewrite app_comm_cons, break_lf_line by done.
    unfold strip_cr. rewrite bool_decide_eq_false_2 by done. done. }
  rewrite IH by lia. done.
Qed.

(** *** Reading one line back *)

Lemma match_key_hit key s : starts_digit s = true → match_key key (str key ++ s) = Some s.
Proof.
  intros Hs. unfold match_key. rewrite take_app_length, drop_app_length, Hs.
  rewrite bool_decide_eq_true_2, (proj2 (Nat.ltb_lt _ _)); [done| |done].
  rewrite length_app. destruct s; [done|]. simpl. lia.
Qed.
Lemma match_key_miss key s : take (length (str key)) s ≠ str key → match_key key s = None.
Proof.
  intros. unfold match_key. rewrite bool_decide_eq_false_2 by done. by rewrite andb_false_r.
Qed.

Lemma find_key_line key bit s :
  (key, bit) ∈ keys → starts_digit s = true → find_key keys (str key ++ s) = Some (bit, s).
Proof.
  intros Hk Hs. unfold keys in *. cbn [find_key].
  repeat (apply elem_of_cons in Hk as [Hk|Hk];
          [injection Hk as -> ->; rewrite match_key_hit by done; done|
           rewrite match_key_miss by
             (revert Hk; rewrite !elem_of_cons; intros; destruct_or!; simplify_eq; try done;
              by apply elem_of_nil in Hk)]).
  apply elem_of_cons in Hk as [Hk|Hk]; [|by apply elem_of_nil in Hk].
  injection Hk as -> ->. by rewrite match_key_hit.
Qed.

Lemma not_existsb_nul l : Forall plain l → existsb (Z.eqb 0) l = false.
Proof.
  induction 1 as [|c l [Hc _] _ IH]; [done|]. cbn [existsb]. rewrite IH.
  by rewrite (proj2 (Z.eqb_neq 0 c)) by done.
Qed.
Lemma dec_plain n : 0 <= n < 1000 → Forall plain (dec n).
Proof.
  intros Hn. eapply Forall_impl; [by apply dec_digits|]. intros c Hc. unfold is_digit in Hc.
  guards. unfold plain, LF. lia.
Qed.

Definition note_entry (out : opc_iplist_text_t) (i : nat) (e : opc_ipcfg_entry_t) (ks : Z) :=
  (out <| entry := <[i := e]> (entry out) |>) <| keys_seen := <[i := ks]> (keys_seen out) |>.

Lemma parse_line_put key bit n v line out e e' ks :
  (key, bit) ∈ keys → 1 <= n <= 128 → Forall plain (str key ++ str "=") → Forall plain v →
  entry out !! Z.to_nat (n - 1) = Some e → keys_seen out !! Z.to_nat (n - 1) = Some ks →
  Z.land ks bit = 0 → set_value bit v e = Some e' →
  parse_line (put_line key n v) line out
  = note_entry out (Z.to_nat (n - 1)) (e' <| list_number := n |>) (Z.lor ks bit).
Proof.
  intros Hk Hn Hp Hv He Hks Hbit Hset. apply Forall_app in Hp as [Hp1 Hp2].
  unfold parse_line, put_line. rewrite not_existsb_nul.
  2: { repeat apply Forall_app_2; try done. apply dec_plain. lia. }
  rewrite (find_key_line key bit) by (done || apply dec_starts_digit; lia).
  rewrite digits_dec by (done || lia).
  assert (starts_with 48 (dec n ++ str "=" ++ v) = false) as ->.
  { destruct (starts_with 48 _) eqn:E; [|done]. apply dec_head in E; lia. }
  rewrite (proj2 (Z.ltb_ge n 1)), (proj2 (Z.ltb_ge OPC_IPCFG_LIST_MAX_SLOTS n))
    by (unfold OPC_IPCFG_LIST_MAX_SLOTS; lia).
  change (starts_with 61 (str "=" ++ v)) with true. change (tail (str "=" ++ v)) with v.
  cbn [negb orb]. rewrite He, Hks. cbn [from_option id]. rewrite Hbit, Z.eqb_refl.
  cbn [negb]. rewrite Hset.
  rewrite u16_id by (unfold is_u16; lia). done.
Qed.

(** *** Reading one slot back *)

(** An ESSID the text can carry: no line end and no quote before its terminator. *)
Definition essid_text_ok (e : opc_ipcfg_entry_t) : Prop :=
  Forall (λ c, c ≠ LF ∧ c ≠ QUOTE) (essid_str e).
#[global] Instance essid_text_ok_dec e : Decision (essid_text_ok e).
Proof. unfold essid_text_ok. apply _. Defined.
(** What the text keeps of a slot: the number it is filed under, the addresses and the
    ESSID up to its terminator, padded with NULs. *)
Definition text_entry (n : Z) (e : opc_ipcfg_entry_t) : opc_ipcfg_entry_t :=
  mk_ipcfg_entry 0 n (ip_address e) (subnet_mask e) (default_gateway e) (ntp_server e)
    (write_at 0 (essid_str e) (zeros 32)).

Lemma cstr_no_nul a : Forall (λ c, c ≠ 0) (cstr a).
Proof. induction a; simpl; [constructor|]. case_match; guards; by constructor. Qed.

Lemma essid_line_plain e : essid_text_ok e → Forall plain ([QUOTE] ++ essid_str e ++ [QUOTE]).
Proof.
  intros H. apply Forall_app_2; [by repeat constructor|].
  apply Forall_app_2; [|by repeat constructor]. unfold essid_text_ok in H.
  pose proof (cstr_no_nul (write_at (OPC_ESSID_FIELD_LEN - 1) [0] (essid e))) as H0.
  fold (essid_str e) in H0. rewrite Forall_forall in *. intros c Hc. split; [by apply H0|by apply H].
Qed.

Lemma essid_value_line e :
  essid_text_ok e → len (essid e) = OPC_ESSID_FIELD_LEN →
  essid_value ([QUOTE] ++ essid_str e ++ [QUOTE]) = Some (essid_str e).
Proof.
  intros H Hl. apply essid_str_len in Hl. unfold len in Hl. unfold essid_value.
  rewrite !length_app. cbn [length].
  replace (1 + (length (essid_str e) + 1) - 2)%nat with (length (essid_str e)) by lia.
  change (drop 1 ([QUOTE] ++ essid_str e ++ [QUOTE])) with (essid_str e ++ [QUOTE]).
  rewrite take_app_length, app_assoc, last_snoc.
  rewrite bool_decide_eq_true_2 by done.
  rewrite (proj2 (Nat.leb_le 2 _)), (proj2 (Nat.ltb_lt _ 32)) by lia.
  assert (existsb (Z.eqb QUOTE) (essid_str e) = false) as ->; [|done].
  unfold essid_text_ok in H. clear Hl. induction H as [|c l [_ Hc] _ IH]; [done|]. cbn [existsb].
  by rewrite IH, (proj2 (Z.eqb_neq QUOTE c) (not_eq_sym Hc)).
Qed.

Lemma ipv4_str_plain ip : is_u32 ip → Forall plain (ipv4_str ip).
Proof.
  unfold is_u32. intros. unfold ipv4_str. rewrite !octet_of_land, !Z.shiftr_div_pow2 by lia.
  change (2 ^ 24) with 16777216; change (2 ^ 16) with 65536; change (2 ^ 8) with 256.
  repeat (apply Forall_app_2; [first [apply dec_plain; Z.to_euclidean_division_equations; lia|
                                      repeat constructor; done]|]).
  apply dec_plain; Z.to_euclidean_division_equations; lia.
Qed.

Lemma note_entry_twice out i e ks e' ks' :
  note_entry (note_entry out i e ks) i e' ks' = note_entry out i e' ks'.
Proof. unfold note_entry, setter. cbn. by rewrite !list_insert_insert_eq. Qed.
Lemma note_entry_lookup out i e ks :
  (i < length (entry out))%nat → (i < length (keys_seen out))%nat →
  entry (note_entry out i e ks) !! i = Some e ∧ keys_seen (note_entry out i e ks) !! i = Some ks.
Proof. intros. unfold note_entry, setter. cbn. by rewrite !list_lookup_insert_eq. Qed.

Ltac put_step key bit Hset Hlk :=
  erewrite (parse_line_put key bit);
  [ rewrite ?note_entry_twice
  | apply (bool_decide_unpack _); vm_compute; exact I
  | assumption
  | repeat constructor; discriminate
  | first [apply ipv4_str_plain; assumption | apply essid_line_plain; assumption]
  | apply Hlk | apply Hlk | reflexivity
  | apply Hset; first [assumption | discriminate] ].

Lemma run_slot_lines n e line out :
  1 <= n <= 128 → entry_ok e → essid_text_ok e →
  entry out !! Z.to_nat (n - 1) = Some ipcfg_entry_zero →
  keys_seen out !! Z.to_nat (n - 1) = Some 0 →
  run_lines (slot_lines n e) line out
  = note_entry out (Z.to_nat (n - 1)) (text_entry n e) OPC_IPLIST_KEY_ALL.
Proof.
  intros Hn (H1 & H2 & H3 & H4 & H5) Ht He Hk. unfold slot_lines. cbn [run_lines].
  assert (∀ e ks, entry (note_entry out (Z.to_nat (n - 1)) e ks) !! Z.to_nat (n - 1) = Some e ∧
    keys_seen (note_entry out (Z.to_nat (n - 1)) e ks) !! Z.to_nat (n - 1) = Some ks) as Hlk.
  { intros. apply note_entry_lookup; by eapply lookup_lt_Some. }
  assert (∀ bit ip e, bit ≠ OPC_IPLIST_KEY_ESSID → is_u32 ip → set_value bit (ipv4_str ip) e =
    Some (if bit =? OPC_IPLIST_KEY_IP then e <| ip_address := ip |>
          else if bit =? OPC_IPLIST_KEY_MASK then e <| subnet_mask := ip |>
          else if bit =? OPC_IPLIST_KEY_GW then e <| default_gateway := ip |>
          else e <| ntp_server := ip |>)) as Hset.
  { intros bit ip e0 Hb Hip. unfold set_value. rewrite (proj2 (Z.eqb_neq _ _) Hb).
    by rewrite parse_ipv4_str. }
  assert (∀ e0, set_value OPC_IPLIST_KEY_ESSID ([QUOTE] ++ essid_str e ++ [QUOTE]) e0 =
    Some (e0 <| essid := write_at 0 (essid_str e) (zeros 32) |>)) as Hess.
  { intros e0. unfold set_value. rewrite Z.eqb_refl, essid_value_line by done. done. }
  replace out with (note_entry out (Z.to_nat (n - 1)) ipcfg_entry_zero 0) at 1
    by (destruct out; unfold note_entry, setter; cbn in *; by rewrite !list_insert_id).
  put_step "IPAddress" OPC_IPLIST_KEY_IP Hset Hlk.
  put_step "IPSubnetMask" OPC_IPLIST_KEY_MASK Hset Hlk.
  put_step "IPDefaultGateway" OPC_IPLIST_KEY_GW Hset Hlk.
  put_step "WL54EssId" OPC_IPLIST_KEY_ESSID Hess Hlk.
  put_step "NTPServer" OPC_IPLIST_KEY_NTP Hset Hlk.
  done.
Qed.

(** *** Reading the list back *)

(** What the parser holds after reading the text of the slots from number [i+1] on. *)
Fixpoint text_entries (i : Z) (l : list (opc_ipcfg_entry_t * Z)) : list opc_ipcfg_entry_t :=
  match l with
  | [] => []
  | (e, p) :: l' =>
      (if p =? 0 then ipcfg_entry_zero else text_entry (i + 1) e) :: text_entries (i + 1) l'
  end.
Definition text_keys (ps : list Z) : list Z :=
  map (λ p, if p =? 0 then 0 else OPC_IPLIST_KEY_ALL) ps.
Definition text_of (l : opcd_ip_list_t) : opc_iplist_text_t :=
  mk_text (text_entries 0 (zip (slots l) (present l))) (text_keys (present l))
    (replicate SLOTS false) 0 true.

(** A list whose populated slots have an ESSID the text can carry. *)
Definition slot_text_ok (ep : opc_ipcfg_entry_t * Z) : Prop :=
  entry_ok ep.1 ∧ (ep.2 = 0 ∨ essid_text_ok ep.1).
#[global] Instance slot_text_ok_dec ep : Decision (slot_text_ok ep).
Proof. unfold slot_text_ok. apply _. Defined.
Definition ip_list_text_ok (l : opcd_ip_list_t) : Prop :=
  ip_list_ok l ∧ Forall slot_text_ok (zip (slots l) (present l)).
#[global] Instance ip_list_text_ok_dec l : Decision (ip_list_text_ok l).
Proof. unfold ip_list_text_ok. apply _. Defined.

Lemma note_entry_middle pre x r prek k rk bd fe fn e ks i :
  i = length pre → length prek = length pre →
  note_entry (mk_text (pre ++ x :: r) (prek ++ k :: rk) bd fe fn) i e ks
  = mk_text (pre ++ e :: r) (prek ++ ks :: rk) bd fe fn.
Proof.
  intros -> H. unfold note_entry, setter. cbn [entry keys_seen].
  rewrite !insert_app_r_alt by lia. rewrite H, Nat.sub_diag. done.
Qed.

Lemma run_list_lines l : ∀ i line pre prek bd fe fn,
  i = len pre → length prek = length pre → i + len l <= 128 → Forall slot_text_ok l →
  run_lines (list_lines i l) line
    (mk_text (pre ++ replicate (length l) ipcfg_entry_zero) (prek ++ replicate (length l) 0) bd fe fn)
  = mk_text (pre ++ text_entries i l) (prek ++ text_keys l.*2) bd fe fn.
Proof.
  induction l as [|[e p] l IH]; intros i line pre prek bd fe fn Hi Hk Hl Hok; [done|].
  apply Forall_cons_1 in Hok as [[He Ht] Hok]. cbn [fst snd] in *. rewrite len_cons in Hl.
  pose proof (len_nonneg l). pose proof (len_nonneg pre).
  cbn [list_lines length replicate text_entries text_keys map fmap list_fmap snd].
  rewrite run_lines_app.
  set (x := if p =? 0 then ipcfg_entry_zero else text_entry (i + 1) e).
  set (k := if p =? 0 then 0 else OPC_IPLIST_KEY_ALL).
  set (out := mk_text _ _ bd fe fn).
  assert (∀ line, run_lines (if p =? 0 then [] else slot_lines (i + 1) e) line out =
     mk_text ((pre ++ [x]) ++ replicate (length l) ipcfg_entry_zero)
             ((prek ++ [k]) ++ replicate (length l) 0) bd fe fn) as ->.
  { intros line'. rewrite <- !app_assoc. unfold x, k. destruct (p =? 0) eqn:Ep; [done|].
    guards. destruct Ht as [|Ht]; [done|].
    assert (Hn : Z.to_nat (i + 1 - 1) = length pre) by (subst i; unfold len; lia).
    rewrite run_slot_lines by
      (try done; try lia; rewrite Hn; unfold out; cbn [entry keys_seen];
       rewrite lookup_app_r, ?Hk, Nat.sub_diag by lia; done).
    unfold out. by apply note_entry_middle. }
  rewrite IH; [|rewrite len_app; change (len [x]) with 1; lia|rewrite !length_app; simpl; lia|lia|done].
  by rewrite <- !app_assoc.
Qed.

Lemma plain_line_put key n v c :
  bool_decide (Forall plain (str key ++ str "=")) = true → 0 <= n < 1000 → Forall plain v →
  last v = Some c → c ≠ CR → plain_line (put_line key n v).
Proof.
  intros Hp Hn Hv Hc Hcr. apply bool_decide_eq_true_1, Forall_app in Hp as [Hp1 Hp2].
  unfold plain_line, put_line. split_and!.
  - repeat apply Forall_app_2; try done. by apply dec_plain.
  - intros E. apply app_eq_nil in E as [_ E]. apply app_eq_nil in E as [_ E]. by destruct v.
  - rewrite !app_assoc, last_app, Hc. congruence.
Qed.

Lemma ipv4_str_last ip : is_u32 ip → ∃ c, last (ipv4_str ip) = Some c ∧ c ≠ CR.
Proof.
  intros H. unfold is_u32 in H. unfold ipv4_str. rewrite !app_assoc, last_app, octet_of_land.
  assert (Hd : 0 <= ip mod 256 < 1000) by (Z.to_euclidean_division_equations; lia).
  pose proof (dec_length _ Hd) as Hl. pose proof (dec_digits _ Hd) as Hf.
  destruct (last (dec (ip mod 256))) as [c|] eqn:E.
  2: { apply last_None in E. rewrite E in Hl. cbn [length] in Hl. lia. }
  exists c. split; [done|]. apply last_Some in E as [l' E]. rewrite E in Hf.
  apply Forall_app in Hf as [_ Hf]. apply Forall_cons_1 in Hf as [Hf _].
  unfold is_digit in Hf. guards. unfold CR. lia.
Qed.

Lemma plain_addr_line key n ip :
  bool_decide (Forall plain (str key ++ str "=")) = true → 0 <= n < 1000 → is_u32 ip →
  plain_line (put_line key n (ipv4_str ip)).
Proof.
  intros. destruct (ipv4_str_last ip) as (c & Hc & Hcr); [done|].
  eapply plain_line_put; try done. by apply ipv4_str_plain.
Qed.

Lemma plain_slot_lines n e :
  0 <= n < 1000 → entry_ok e → essid_text_ok e → Forall plain_line (slot_lines n e).
Proof.
  intros Hn (H1 & H2 & H3 & H4 & H5) Ht. unfold slot_lines.
  repeat apply Forall_cons_2; try apply Forall_nil_2.
  4: { apply (plain_line_put _ _ _ QUOTE); [vm_compute; reflexivity|assumption| | |discriminate].
       - by apply essid_line_plain.
       - by rewrite app_assoc, last_snoc. }
  all: apply plain_addr_line; [vm_compute; reflexivity|assumption..].
Qed.

Lemma plain_list_lines l : ∀ i,
  0 <= i → i + len l <= 128 → Forall slot_text_ok l → Forall plain_line (list_lines i l).
Proof.
  induction l as [|[e p] l IH]; intros i Hi Hl Hok; [constructor|].
  apply Forall_cons_1 in Hok as [[He Ht] Hok]. cbn [fst snd] in *. rewrite len_cons in Hl.
  pose proof (len_nonneg l). cbn [list_lines]. apply Forall_app_2; [|apply IH; try lia; done].
  destruct (p =? 0) eqn:Ep; [constructor|]. guards.
  destruct Ht as [|Ht]; [done|]. apply plain_slot_lines; [lia|done..].
Qed.

Lemma lines_text_last ls : last (lines_text ls) = None ∨ last (lines_text ls) = Some LF.
Proof.
  destruct ls as [|l ls _] using rev_ind; [by left|]. right.
  rewrite lines_text_app. unfold lines_text. cbn [flat_map]. by rewrite app_nil_r, app_assoc, last_snoc.
Qed.

(** The text of a list, as the formatter writes it, read back. *)
Lemma parse_list_text l :
  ip_list_text_ok l →
  opc_iplist_text_parse (lines_text (list_lines 0 (zip (slots l) (present l)))) = text_of l.
Proof.
  intros [(Hs & Hp & He) Ht].
  set (ls := zip (slots l) (present l)) in *.
  assert (Hn : length ls = SLOTS) by (unfold ls; rewrite length_zip; lia).
  assert (Hn' : 0 + len ls <= 128) by (unfold len; rewrite Hn; by apply Z.leb_le).
  unfold opc_iplist_text_parse.
  rewrite parse_lines_text by (try done; by apply plain_list_lines).
  pose proof (run_list_lines ls 0 1 [] [] (replicate SLOTS false) 0 true eq_refl eq_refl Hn' Ht) as Hr.
  rewrite Hn in Hr. unfold text_of. fold ls.
  replace (present l) with (ls.*2) by (unfold ls; rewrite snd_zip; [done|lia]).
  cbn [app] in Hr. rewrite <- Hr. f_equal. unfold text_zero, setter. cbn.
  by destruct (lines_text_last (list_lines 0 ls)) as [-> | ->].
Qed.

(** C28: the customer text file is a faithful copy of the list: formatting a list whose
    populated slots have printable-line ESSIDs and parsing the text back yields, with no
    line in error, every populated slot under its number with all five keys, its
    addresses and its ESSID up to the terminator, and nothing for the other numbers. *)
Theorem opc_iplist_text_roundtrip l :
  ip_list_text_ok l →
  ∃ text, opc_iplist_text_format l OPC_IPLIST_TEXT_MAX = Some text ∧
          opc_iplist_text_parse text = text_of l.
Proof.
  intros H. destruct (ip_list_text l (proj1 H)) as [Hl Hf].
  eexists. split; [apply Hf; unfold OPC_IPLIST_TEXT_MAX; lia|]. by apply parse_list_text.
Qed.

Definition demo_list : opcd_ip_list_t :=
  mk_ip_list
    (<[2%nat := mk_ipcfg_entry 0 3 3232235777 4294967040 3232235778 0 (str "AP-1" ++ zeros 28)]>
       (replicate SLOTS ipcfg_entry_zero))
    (<[2%nat := 1]> (replicate SLOTS 0)).
Lemma opc_iplist_text_roundtrip_witness :
  ∃ text, opc_iplist_text_format demo_list OPC_IPLIST_TEXT_MAX = Some text ∧
          opc_iplist_text_parse text = text_of demo_list.
Proof.
  apply opc_iplist_text_roundtrip. apply (bool_decide_unpack _). vm_compute. exact I.
Defined.
End IpListText.
