(* ===== verification/FaultProbe.v ===== *)
(** * Congestion probe: opcd/fault_probe.h, opcd/fault_probe.c

    The FaultDetect probe: the hysteresis band, the evaluation of counter deltas, the
    notify-once latch and the sampling step. What a sample reads (/proc/stat,
    /proc/meminfo, /proc/diskstats, the survey section of link.json, the clock) is a
    [readings] record; a source that could not be read is [None]. The opc.conf reader is in
    Conf.v, the parsers of the counter files and the composed sampling in ProcFiles.v. *)
From S2P Require Import Prelude.
From stdpp Require Import base list numbers option tactics strings.
From Stdlib Require Import ZArith Lia.
#[local] Open Scope Z_scope.

Module FaultProbe.

Definition OPCD_FAULT_THRESHOLD_PCT_DEFAULT : Z := 80.
Definition OPCD_FAULT_CLEAR_BAND_PCT : Z := 10.
Definition OPCD_FAULT_CLEAR_PCT_DEFAULT : Z :=
  OPCD_FAULT_THRESHOLD_PCT_DEFAULT - OPCD_FAULT_CLEAR_BAND_PCT.
Definition OPCD_FAULT_NET_CLOCK_SLACK_MS : Z := 500.
Definition OPCD_FAULT_PROBE_INTERVAL_DEFAULT : Z := 10.

Record opcd_fault_probe_t := mk_probe {
  threshold_pct : Z; clear_pct : Z; disk_dev : string;
  probe_interval_s : Z; probe_countdown_s : Z;
  cpu_congested : bool; mem_congested : bool; disk_congested : bool; net_congested : bool;
  cpu_notified : bool; mem_notified : bool; disk_notified : bool; net_notified : bool;
  path_proc_stat : string; path_meminfo : string; path_diskstats : string; net_link_json : string;
  primed : bool; cpu_primed : bool; disk_primed : bool; net_primed : bool;
  cpu_busy : Z; cpu_total : Z; disk_io_ms : Z;
  net_active_ms : Z; net_busy_ms : Z; net_mono_ms : Z; mono_ms : Z;
}.
#[global] Instance eta_probe : Eta opcd_fault_probe_t := λ p,
  mk_probe (threshold_pct p) (clear_pct p) (disk_dev p) (probe_interval_s p) (probe_countdown_s p)
    (cpu_congested p) (mem_congested p) (disk_congested p) (net_congested p)
    (cpu_notified p) (mem_notified p) (disk_notified p) (net_notified p)
    (path_proc_stat p) (path_meminfo p) (path_diskstats p) (net_link_json p)
    (primed p) (cpu_primed p) (disk_primed p) (net_primed p)
    (cpu_busy p) (cpu_total p) (disk_io_ms p)
    (net_active_ms p) (net_busy_ms p) (net_mono_ms p) (mono_ms p).

Record opcd_fault_report_t := mk_report {
  cpu_over : bool; cpu_pct : Z; mem_over : bool; mem_pct : Z;
  disk_over : bool; disk_pct : Z; net_over : bool; net_pct : Z;
  cpu_entered : bool; mem_entered : bool; disk_entered : bool; net_entered : bool;
  cpu_cleared : bool; mem_cleared : bool; disk_cleared : bool; net_cleared : bool;
}.
#[global] Instance eta_report : Eta opcd_fault_report_t := λ r,
  mk_report (cpu_over r) (cpu_pct r) (mem_over r) (mem_pct r) (disk_over r) (disk_pct r)
    (net_over r) (net_pct r) (cpu_entered r) (mem_entered r) (disk_entered r) (net_entered r)
    (cpu_cleared r) (mem_cleared r) (disk_cleared r) (net_cleared r).
Definition report_zero : opcd_fault_report_t :=
  mk_report false 0 false 0 false 0 false 0 false false false false false false false false.

Inductive opcd_fault_res_t :=
  OPCD_FAULT_RES_CPU | OPCD_FAULT_RES_DISK | OPCD_FAULT_RES_NET | OPCD_FAULT_RES_MEM.

Definition fault_over (p : opcd_fault_probe_t) (in_band : bool) (pct : Z) : bool :=
  let release := clear_pct p in
  let release := if (release =? 0) || (threshold_pct p <? release) then threshold_pct p else release in
  if in_band then release <=? pct else threshold_pct p <=? pct.

(** The percentage of [part] in [whole], capped at 100; 64-bit arithmetic. *)
Definition ratio_pct (part whole : Z) : Z :=
  let pct := u64 (part * 100) / whole in if 100 <? pct then 100 else pct.

Definition opcd_fault_evaluate (p : opcd_fault_probe_t)
    (d_busy d_total d_disk_ms elapsed_ms d_net_busy_ms d_net_active_ms mem_used_kb mem_total_kb : Z)
    : opcd_fault_report_t :=
  let out := report_zero in
  let out := if 0 <? d_total then
      let pct := ratio_pct d_busy d_total in
      (out <| cpu_pct := u16 pct |>) <| cpu_over := fault_over p (cpu_congested p) pct |>
    else out in
  let out := if 0 <? mem_total_kb then
      let pct := ratio_pct mem_used_kb mem_total_kb in
      (out <| mem_pct := u16 pct |>) <| mem_over := fault_over p (mem_congested p) pct |>
    else out in
  let out := if 0 <? elapsed_ms then
      let pct := ratio_pct d_disk_ms elapsed_ms in
      (out <| disk_pct := u16 pct |>) <| disk_over := fault_over p (disk_congested p) pct |>
    else out in
  if 0 <? d_net_active_ms then
    let pct := if d_net_active_ms <=? d_net_busy_ms then 100
               else u64 (d_net_busy_ms * 100) / d_net_active_ms in
    (out <| net_pct := u16 pct |>) <| net_over := fault_over p (net_congested p) pct |>
  else out.

Definition opcd_fault_probe_init : opcd_fault_probe_t :=
  mk_probe OPCD_FAULT_THRESHOLD_PCT_DEFAULT OPCD_FAULT_CLEAR_PCT_DEFAULT "mmcblk0"
    OPCD_FAULT_PROBE_INTERVAL_DEFAULT 0 false false false false false false false false
    "/proc/stat" "/proc/meminfo" "/proc/diskstats" "/var/log/cantops/json/mlan0/link.json"
    false false false false 0 0 0 0 0 0 0.

Definition opcd_fault_probe_due (p : opcd_fault_probe_t) (elapsed_s : Z) : bool * opcd_fault_probe_t :=
  let interval := if probe_interval_s p =? 0 then 1 else probe_interval_s p in
  let elapsed_s := if interval <? elapsed_s then interval else elapsed_s in
  let p := p <| probe_countdown_s := u32 (probe_countdown_s p + elapsed_s) |> in
  if probe_countdown_s p <? interval then (false, p)
  else (true, p <| probe_countdown_s := 0 |>).

Definition opcd_fault_probe_rearm (p : opcd_fault_probe_t) (res : opcd_fault_res_t) : opcd_fault_probe_t :=
  match res with
  | OPCD_FAULT_RES_CPU => p <| cpu_notified := false |>
  | OPCD_FAULT_RES_DISK => p <| disk_notified := false |>
  | OPCD_FAULT_RES_NET => p <| net_notified := false |>
  | OPCD_FAULT_RES_MEM => p <| mem_notified := false |>
  end.

Definition opcd_fault_probe_reset_latch (p : opcd_fault_probe_t) : opcd_fault_probe_t :=
  (((p <| cpu_notified := false |>) <| mem_notified := false |>) <| disk_notified := false |>)
     <| net_notified := false |>.

(** What one sample reads: (busy, total), io_ticks, (used, total), (active, busy, mono). *)
Record readings := mk_readings {
  rd_cpu : option (Z * Z); rd_disk : option Z; rd_mem : option (Z * Z);
  rd_net : option (Z * Z * Z); rd_now : Z }.

(** The Network delta (busy, active) of a sample, when it counts as measured. *)
Definition net_delta (p : opcd_fault_probe_t) (r : readings) : option (Z * Z) :=
  match rd_net r with
  | Some (act, busy, mono) =>
      if net_primed p && (net_active_ms p <=? act) && (net_busy_ms p <=? busy) && (net_mono_ms p <? mono)
      then
        let da := act - net_active_ms p in
        let dm := mono - net_mono_ms p in
        let skew := if dm <? da then da - dm else dm - da in
        if (0 <? da) && (skew <=? OPCD_FAULT_NET_CLOCK_SLACK_MS) then Some (busy - net_busy_ms p, da)
        else None
      else None
  | None => None
  end.

(** The deltas of a primed probe, evaluated. *)
Definition sample_report (p : opcd_fault_probe_t) (r : readings) : opcd_fault_report_t :=
  let elapsed := if mono_ms p <? rd_now r then rd_now r - mono_ms p else 1 in
  let '(d_busy, d_total) :=
    match rd_cpu r with
    | Some (busy, total) =>
        (if cpu_primed p && (cpu_busy p <=? busy) then busy - cpu_busy p else 0,
         if cpu_primed p && (cpu_total p <=? total) then total - cpu_total p else 0)
    | None => (0, 0)
    end in
  let d_disk := match rd_disk r with
    | Some disk => if disk_primed p && (disk_io_ms p <=? disk) then disk - disk_io_ms p else 0
    | None => 0 end in
  let '(d_net_busy, d_net_active) := default (0, 0) (net_delta p r) in
  let '(mem_used, mem_total) := default (0, 0) (rd_mem r) in
  opcd_fault_evaluate p d_busy d_total d_disk elapsed d_net_busy d_net_active mem_used mem_total.

(** The entry latch of each source measured in this sample. *)
Definition latch_cpu (out : opcd_fault_report_t) (p : opcd_fault_probe_t) :=
  ((out <| cpu_entered := cpu_over out && negb (cpu_notified p) |>)
        <| cpu_cleared := negb (cpu_over out) && cpu_notified p |>,
   (p <| cpu_congested := cpu_over out |>) <| cpu_notified := cpu_over out |>).
Definition latch_mem (out : opcd_fault_report_t) (p : opcd_fault_probe_t) :=
  ((out <| mem_entered := mem_over out && negb (mem_notified p) |>)
        <| mem_cleared := negb (mem_over out) && mem_notified p |>,
   (p <| mem_congested := mem_over out |>) <| mem_notified := mem_over out |>).
Definition latch_disk (out : opcd_fault_report_t) (p : opcd_fault_probe_t) :=
  ((out <| disk_entered := disk_over out && negb (disk_notified p) |>)
        <| disk_cleared := negb (disk_over out) && disk_notified p |>,
   (p <| disk_congested := disk_over out |>) <| disk_notified := disk_over out |>).
Definition latch_net (out : opcd_fault_report_t) (p : opcd_fault_probe_t) :=
  ((out <| net_entered := net_over out && negb (net_notified p) |>)
        <| net_cleared := negb (net_over out) && net_notified p |>,
   (p <| net_congested := net_over out |>) <| net_notified := net_over out |>).

Definition opcd_fault_probe_sample (p : opcd_fault_probe_t) (r : readings)
    : opcd_fault_report_t * opcd_fault_probe_t :=
  let cpu_ok := bool_decide (is_Some (rd_cpu r)) in
  let disk_ok := bool_decide (is_Some (rd_disk r)) in
  let mem_ok := bool_decide (is_Some (rd_mem r)) in
  let net_measured := bool_decide (is_Some (net_delta p r)) in
  let '(out, q) :=
    if primed p then
      let out := sample_report p r in
      let '(out, q) := if cpu_ok && cpu_primed p then latch_cpu out p else (out, p) in
      let '(out, q) := if mem_ok then latch_mem out q else (out, q) in
      let '(out, q) := if disk_ok && disk_primed p then latch_disk out q else (out, q) in
      if net_measured then latch_net out q else (out, q)
    else (report_zero, p) in
  let q := match rd_cpu r with
           | Some (b, t) => (q <| cpu_busy := b |>) <| cpu_total := t |> | None => q end in
  let q := match rd_disk r with Some d => q <| disk_io_ms := d |> | None => q end in
  let q := match rd_net r with
           | Some (a, b, m) =>
               ((q <| net_active_ms := a |>) <| net_busy_ms := b |>) <| net_mono_ms := m |>
           | None => q end in
  (out, ((((q <| cpu_primed := cpu_ok |>) <| disk_primed := disk_ok |>)
            <| net_primed := bool_decide (is_Some (rd_net r)) |>) <| mono_ms := rd_now r |>)
           <| primed := true |>).

(** ** One resource of the probe *)

Definition notified (res : opcd_fault_res_t) (p : opcd_fault_probe_t) : bool :=
  match res with
  | OPCD_FAULT_RES_CPU => cpu_notified p | OPCD_FAULT_RES_MEM => mem_notified p
  | OPCD_FAULT_RES_DISK => disk_notified p | OPCD_FAULT_RES_NET => net_notified p end.
Definition congested (res : opcd_fault_res_t) (p : opcd_fault_probe_t) : bool :=
  match res with
  | OPCD_FAULT_RES_CPU => cpu_congested p | OPCD_FAULT_RES_MEM => mem_congested p
  | OPCD_FAULT_RES_DISK => disk_congested p | OPCD_FAULT_RES_NET => net_congested p end.
Definition over (res : opcd_fault_res_t) (o : opcd_fault_report_t) : bool :=
  match res with
  | OPCD_FAULT_RES_CPU => cpu_over o | OPCD_FAULT_RES_MEM => mem_over o
  | OPCD_FAULT_RES_DISK => disk_over o | OPCD_FAULT_RES_NET => net_over o end.
Definition pct (res : opcd_fault_res_t) (o : opcd_fault_report_t) : Z :=
  match res with
  | OPCD_FAULT_RES_CPU => cpu_pct o | OPCD_FAULT_RES_MEM => mem_pct o
  | OPCD_FAULT_RES_DISK => disk_pct o | OPCD_FAULT_RES_NET => net_pct o end.
Definition entered (res : opcd_fault_res_t) (o : opcd_fault_report_t) : bool :=
  match res with
  | OPCD_FAULT_RES_CPU => cpu_entered o | OPCD_FAULT_RES_MEM => mem_entered o
  | OPCD_FAULT_RES_DISK => disk_entered o | OPCD_FAULT_RES_NET => net_entered o end.
Definition cleared (res : opcd_fault_res_t) (o : opcd_fault_report_t) : bool :=
  match res with
  | OPCD_FAULT_RES_CPU => cpu_cleared o | OPCD_FAULT_RES_MEM => mem_cleared o
  | OPCD_FAULT_RES_DISK => disk_cleared o | OPCD_FAULT_RES_NET => net_cleared o end.
(** The source was read and had a baseline in this sample. *)
Definition measured (res : opcd_fault_res_t) (p : opcd_fault_probe_t) (r : readings) : bool :=
  primed p && match res with
  | OPCD_FAULT_RES_CPU => bool_decide (is_Some (rd_cpu r)) && cpu_primed p
  | OPCD_FAULT_RES_MEM => bool_decide (is_Some (rd_mem r))
  | OPCD_FAULT_RES_DISK => bool_decide (is_Some (rd_disk r)) && disk_primed p
  | OPCD_FAULT_RES_NET => bool_decide (is_Some (net_delta p r)) end.
(** The level a resource must reach to count as congested. *)
Definition level (res : opcd_fault_res_t) (p : opcd_fault_probe_t) : Z :=
  let release := if (clear_pct p =? 0) || (threshold_pct p <? clear_pct p)
                 then threshold_pct p else clear_pct p in
  if congested res p then release else threshold_pct p.

Lemma ratio_pct_range a b : 0 < b → 0 <= ratio_pct a b <= 100.
Proof.
  intros. unfold ratio_pct. assert (0 <= u64 (a * 100)) by (apply Z.mod_pos_bound; lia).
  pose proof (Z.div_pos (u64 (a * 100)) b). destruct (100 <? _) eqn:E; guards; lia.
Qed.
Lemma fault_over_level p res x : fault_over p (congested res p) x = (level res p <=? x).
Proof. unfold fault_over, level. by destruct (congested res p). Qed.

(** The evaluation flags a resource exactly when its percentage reaches its level. *)
Lemma evaluate_res res p a b c d e f g h :
  1 <= threshold_pct p → 0 <= clear_pct p → 0 <= e →
  let o := opcd_fault_evaluate p a b c d e f g h in
  over res o = (level res p <=? pct res o) ∧ 0 <= pct res o <= 100 ∧
  entered res o = false ∧ cleared res o = false.
Proof.
  intros Ht Hc He o.
  assert (Hl : 1 <= level res p) by (unfold level; destruct (congested res p); guard_cases; lia).
  assert (Hz : false = (level res p <=? 0)) by (symmetry; apply Z.leb_gt; lia).
  assert (Hnet : 0 < f → 0 <= (if f <=? e then 100 else u64 (e * 100) / f) <= 100).
  { intros. destruct (f <=? e) eqn:E; [lia|]. guards. unfold u64.
    assert (0 <= e * 100 mod 18446744073709551616 <= e * 100).
    { pose proof (Z.mod_pos_bound (e * 100) 18446744073709551616 ltac:(lia)).
      pose proof (Z.mod_le (e * 100) 18446744073709551616 ltac:(lia) ltac:(lia)). lia. }
    split; [apply Z.div_pos; lia|]. apply Z.div_le_upper_bound; lia. }
  unfold o, opcd_fault_evaluate.
  destruct (0 <? b) eqn:Eb, (0 <? h) eqn:Eh, (0 <? d) eqn:Ed, (0 <? f) eqn:Ef; guards;
    destruct res; cbn -[fault_over ratio_pct level u16 Z.leb u64 Z.div Z.mul];
    change (cpu_congested p) with (congested OPCD_FAULT_RES_CPU p);
    change (mem_congested p) with (congested OPCD_FAULT_RES_MEM p);
    change (disk_congested p) with (congested OPCD_FAULT_RES_DISK p);
    change (net_congested p) with (congested OPCD_FAULT_RES_NET p);
    rewrite ?fault_over_level;
    first [ by (split_and!; (done || lia))
          | pose proof (ratio_pct_range a b ltac:(lia)); rewrite !u16_id by (unfold is_u16; lia); by split_and!; (done || lia)
          | pose proof (ratio_pct_range g h ltac:(lia)); rewrite !u16_id by (unfold is_u16; lia); by split_and!; (done || lia)
          | pose proof (ratio_pct_range c d ltac:(lia)); rewrite !u16_id by (unfold is_u16; lia); by split_and!; (done || lia)
          | specialize (Hnet ltac:(lia)); rewrite !u16_id by (unfold is_u16; lia); by split_and!; (done || lia) ].
Qed.

(** What a sample does to the latch of one resource. *)
Lemma sample_latch res p r :
  let '(o, q) := opcd_fault_probe_sample p r in
  let ov := over res (sample_report p r) in
  let m := measured res p r in
  entered res (sample_report p r) = false → cleared res (sample_report p r) = false →
  entered res o = m && ov && negb (notified res p) ∧
  cleared res o = m && negb ov && notified res p ∧
  notified res q = (if m then ov else notified res p) ∧
  congested res q = (if m then ov else congested res p) ∧
  (m = true → pct res o = pct res (sample_report p r)) ∧
  threshold_pct q = threshold_pct p ∧ clear_pct q = clear_pct p.
Proof.
  unfold opcd_fault_probe_sample, measured.
  destruct (rd_cpu r) as [[b t]|], (rd_disk r) as [d|], (rd_mem r) as [[u w]|],
    (rd_net r) as [[[ac bu] mo]|];
    rewrite ?bool_decide_eq_true_2 by done; rewrite ?bool_decide_eq_false_2 by (intros [? ?]; done);
    destruct (primed p), (cpu_primed p), (disk_primed p), (bool_decide (is_Some (net_delta p r)));
    destruct res; intros H1 H2; cbn in H1, H2 |- *; by rewrite ?H1, ?H2, ?andb_true_r.
Qed.

Lemma sample_report_res res p r :
  1 <= threshold_pct p → 0 <= clear_pct p →
  let o := sample_report p r in
  over res o = (level res p <=? pct res o) ∧ 0 <= pct res o <= 100 ∧
  entered res o = false ∧ cleared res o = false.
Proof.
  intros Ht Hc. cbn zeta. unfold sample_report.
  destruct (match rd_cpu r with Some (busy, total) => _ | None => _ end) as [db dt].
  destruct (default (0, 0) (net_delta p r)) as [nb na] eqn:En.
  destruct (default (0, 0) (rd_mem r)) as [mu mt]. apply evaluate_res; [done..|].
  destruct (net_delta p r) as [[x y]|] eqn:Ed; cbn in En; simplify_eq; [|lia].
  unfold net_delta in Ed. repeat case_match; simplify_eq; guards; lia.
Qed.

(** The notify-once rule with hysteresis, for every resource and every sample of a
    probe with a positive entry threshold: an entry is reported only for a resource that
    was measured, had no entry outstanding and reached its level (the entry threshold,
    or the release level while it counts as congested); a clear only when an entry was
    outstanding and the percentage fell below the level; a resource that could not be
    measured keeps both its latch and its band state; percentages stay within 0..100. *)
Theorem opcd_fault_probe_sample_spec res p r :
  1 <= threshold_pct p → 0 <= clear_pct p →
  let '(o, q) := opcd_fault_probe_sample p r in
  (entered res o = true ↔
     measured res p r = true ∧ notified res p = false ∧ level res p <= pct res o) ∧
  (cleared res o = true ↔
     measured res p r = true ∧ notified res p = true ∧ pct res o < level res p) ∧
  (measured res p r = true →
     0 <= pct res o <= 100 ∧ congested res q = notified res q ∧
     (notified res q = true ↔ level res p <= pct res o)) ∧
  (measured res p r = false → notified res q = notified res p ∧ congested res q = congested res p).
Proof.
  intros Ht Hc. pose proof (sample_latch res p r) as Hs.
  destruct (sample_report_res res p r Ht Hc) as (Ho & Hp & He & Hcl).
  destruct (opcd_fault_probe_sample p r) as [o q].
  destruct (Hs He Hcl) as (-> & -> & Hn & Hg & Hpct & _). rewrite Ho in *.
  destruct (measured res p r) eqn:Em.
  - rewrite (Hpct eq_refl), Hn, Hg. destruct (level res p <=? _) eqn:El, (notified res p); guards;
      cbn; split_and!; naive_solver lia.
  - rewrite Hn, Hg. cbn. split_and!; naive_solver.
Qed.

Definition demo_probe : opcd_fault_probe_t :=
  (opcd_fault_probe_init <| primed := true |>) <| cpu_primed := true |>.
Lemma opcd_fault_probe_sample_witness :
  let p := demo_probe in
  let r := mk_readings (Some (90, 100)) None None None 1000 in
  let '(o, q) := opcd_fault_probe_sample p r in
  (entered OPCD_FAULT_RES_CPU o = true ↔
     measured OPCD_FAULT_RES_CPU p r = true ∧ notified OPCD_FAULT_RES_CPU p = false ∧
     level OPCD_FAULT_RES_CPU p <= pct OPCD_FAULT_RES_CPU o) ∧
  (cleared OPCD_FAULT_RES_CPU o = true ↔
     measured OPCD_FAULT_RES_CPU p r = true ∧ notified OPCD_FAULT_RES_CPU p = true ∧
     pct OPCD_FAULT_RES_CPU o < level OPCD_FAULT_RES_CPU p) ∧
  (measured OPCD_FAULT_RES_CPU p r = true →
     0 <= pct OPCD_FAULT_RES_CPU o <= 100 ∧
     congested OPCD_FAULT_RES_CPU q = notified OPCD_FAULT_RES_CPU q ∧
     (notified OPCD_FAULT_RES_CPU q = true ↔ level OPCD_FAULT_RES_CPU p <= pct OPCD_FAULT_RES_CPU o)) ∧
  (measured OPCD_FAULT_RES_CPU p r = false →
     notified OPCD_FAULT_RES_CPU q = notified OPCD_FAULT_RES_CPU p ∧
     congested OPCD_FAULT_RES_CPU q = congested OPCD_FAULT_RES_CPU p).
Proof.
  apply (opcd_fault_probe_sample_spec OPCD_FAULT_RES_CPU demo_probe
           (mk_readings (Some (90, 100)) None None None 1000)); apply Z.leb_le; reflexivity.
Defined.

(** ** Runs of samples *)

(** The transitions of one resource over a run: [true] an entry, [false] a clear. *)
Fixpoint transitions (res : opcd_fault_res_t) (p : opcd_fault_probe_t) (rs : list readings) : list bool :=
  match rs with
  | [] => []
  | r :: rs' =>
      let '(o, q) := opcd_fault_probe_sample p r in
      (if entered res o then [true] else []) ++ (if cleared res o then [false] else []) ++
      transitions res q rs'
  end.
Fixpoint alternating (b : bool) (l : list bool) : Prop :=
  match l with [] => True | x :: l' => x = negb b ∧ alternating x l' end.

(** Over any run of samples, whatever is read, entries and clears of a resource
    strictly alternate, starting with an entry when none is outstanding: a congestion
    that persists is reported once, and is reported again only after it cleared. *)
Theorem fault_probe_alternates res p rs :
  1 <= threshold_pct p → 0 <= clear_pct p →
  alternating (notified res p) (transitions res p rs).
Proof.
  revert p. induction rs as [|r rs IH]; intros p Ht Hc; [done|]. cbn [transitions].
  pose proof (sample_latch res p r) as Hs.
  destruct (sample_report_res res p r Ht Hc) as (_ & _ & He & Hcl).
  destruct (opcd_fault_probe_sample p r) as [o q].
  destruct (Hs He Hcl) as (-> & -> & Hn & _ & _ & Ht' & Hc').
  specialize (IH q ltac:(lia) ltac:(lia)). rewrite Hn in IH.
  destruct (measured res p r), (over res (sample_report p r)), (notified res p); cbn in *; done.
Qed.

Lemma fault_probe_alternates_witness :
  let r b := mk_readings (Some (b, 100 * (b / 90 + 1))) None None None 1000 in
  alternating (notified OPCD_FAULT_RES_CPU demo_probe)
    (transitions OPCD_FAULT_RES_CPU demo_probe [r 90; r 180; r 181]).
Proof. apply (fault_probe_alternates OPCD_FAULT_RES_CPU demo_probe); apply Z.leb_le; reflexivity. Defined.
End FaultProbe.
