(* ===== verification/State.v ===== *)
(** * The daemon's state and its surroundings: opcd/opcd_state.h, opcd/platform.h

    [opcd_state_t] as a Record; the world a handler runs in (the state, the environment,
    the datagrams handed to [sendto]) with a state monad over it; and the class [Env] of
    what the daemon calls outside its own logic: the platform vtable (platform.h), the
    clocks, the socket, the file store's system calls and the probe's /proc readings.
    Every environment operation may change the environment, so nothing is assumed about
    two calls in a row beyond what a law states. *)
From S2P Require Import Prelude Codec ScanList Commands Indications Store StoreAsync IpListText FaultProbe.
From stdpp Require Import base list numbers option tactics strings.
From Stdlib Require Import ZArith Lia.
#[local] Open Scope Z_scope.
Import Store.Store StoreAsync.StoreAsync IpListText.IpListText FaultProbe.FaultProbe.

(** ** opcd_state.h *)
Module State.

Definition OPCD_ASSOC_LATCH_TTL_S : Z := 5.
Definition OPCD_PENDING_ACK_MAX : nat := 16.

Inductive opcd_freq_source_t := OPC_FREQ_SRC_LIVE | OPC_FREQ_SRC_AUTO | OPC_FREQ_SRC_CONFIG.
Inductive opcd_ip_iface_t := OPC_IP_IFACE_ETH0 | OPC_IP_IFACE_MLAN0.
Inductive opcd_topology_t := OPC_TOPOLOGY_ETH0_IP | OPC_TOPOLOGY_PEER_ROUTE.

Record opcd_conf_t := mk_conf {
  udp_port : Z; roam_notify_port : Z; default_station_type : Z; login_idle_s : Z;
  device_info_freq_source : opcd_freq_source_t; device_ip_iface : opcd_ip_iface_t;
  management_topology : opcd_topology_t }.

(** The paths the handlers use; a path is [None] for the C NULL. (The paths of opc.conf,
    device_info.json, wifi_init_conf.json, the temporary directory and the reset-cause
    file are read by parts that are not modelled.) *)
Record opcd_paths_t := mk_paths {
  p_password : string; p_ip_list : string; p_ip_list_user : option string;
  p_ip_list_user_last : option string; p_ip_list_legacy : option string;
  p_radio : string; p_radio_marker : option string }.

Inductive opcd_persist_resource_t :=
  OPCD_PERSIST_NONE | OPCD_PERSIST_PASSWORD | OPCD_PERSIST_IP_LIST | OPCD_PERSIST_RADIO.
#[global] Instance persist_resource_eq_dec : EqDecision opcd_persist_resource_t.
Proof. solve_decision. Defined.

Inductive opcd_radio_recovery_state_t :=
  OPCD_RADIO_RECOVERY_HEALTHY | OPCD_RADIO_RECOVERY_DEGRADED_UNKNOWN_BASELINE
| OPCD_RADIO_RECOVERY_DEGRADED_RESTORE_FAILED.

(** [rx_ts] (read by a log line only) is left out. *)
Record opcd_pending_ack_t := mk_pending_ack {
  pa_in_use : bool; pa_no_ack : bool; pa_resource : opcd_persist_resource_t;
  pa_req_id : Z; pa_seq : Z; pa_radio_gen : Z; pa_client_ip : Z; pa_client_port : Z }.
#[global] Instance eta_pending_ack : Eta opcd_pending_ack_t := λ a,
  mk_pending_ack (pa_in_use a) (pa_no_ack a) (pa_resource a) (pa_req_id a) (pa_seq a)
    (pa_radio_gen a) (pa_client_ip a) (pa_client_port a).
Definition pending_ack_zero : opcd_pending_ack_t :=
  mk_pending_ack false false OPCD_PERSIST_NONE 0 0 0 0 0.

Record opcd_ind_coalesce := mk_coalesce {
  c_wlan_pending : bool; c_wlan_status : Z; c_wlan_ch : Z;
  c_roam_pending : bool; c_roam_snr : Z; c_roam_rssi : Z; c_roam_mac : list Z; c_roam_ch : Z;
  c_apd_pending : bool; c_apd_msg_id : Z; c_apd_reason : Z; c_apd_mac : list Z;
  c_fault_pending : list bool; c_fault_val : list Z }.
#[global] Instance eta_coalesce : Eta opcd_ind_coalesce := λ c,
  mk_coalesce (c_wlan_pending c) (c_wlan_status c) (c_wlan_ch c) (c_roam_pending c)
    (c_roam_snr c) (c_roam_rssi c) (c_roam_mac c) (c_roam_ch c) (c_apd_pending c)
    (c_apd_msg_id c) (c_apd_reason c) (c_apd_mac c) (c_fault_pending c) (c_fault_val c).
Definition coalesce_zero : opcd_ind_coalesce :=
  mk_coalesce false 0 0 false 0 0 (zeros 6) 0 false 0 0 (zeros 6) (replicate 4 false) (zeros 4).

Record opcd_state_t := mk_state {
  conf : opcd_conf_t;
  paths : opcd_paths_t;
  logged_in : bool;
  holder_ip : Z;
  holder_port : Z;
  idle_deadline : Z;
  session_generation : Z;
  password : list Z;
  password_unsynced : bool;
  password_unsynced_prev : list Z;
  radio : opc_set_radio_config_req_t;
  radio_committed : bool;
  radio_applied_known : bool;
  radio_recovery_state : opcd_radio_recovery_state_t;
  radio_gen : Z;
  ip_list : opcd_ip_list_t;
  radio_revert_pending : bool;
  radio_revert_cfg : opc_set_radio_config_req_t;
  radio_revert_committed : bool;
  radio_persist_baseline_valid : bool;
  ip_list_staging : opcd_ip_list_t;
  ip_list_staging_active : bool;
  ip_change_pending : bool;
  ip_change_commit_armed : bool;
  ip_change_logout_deferred : bool;
  ip_change_list_no : Z;
  ip_change_armed_no : Z;
  ip_change_armed_entry : opc_ipcfg_entry_t;
  fault_probe : opcd_fault_probe_t;
  indication_enabled : bool;
  indication_recipient_ip : Z;
  indication_recipient_port : Z;
  indication_info_bits : Z;
  indication_period_s : Z;
  radio_up_reported : bool;
  wlan0_assoc_known : bool;
  wlan0_assoc : bool;
  wlan0_assoc_at : Z;
  indication_seq : Z;
  indication_tick_counter : Z;
  indication_coalesce : list opcd_ind_coalesce;
  boot_status : Z;
  store_async : option opc_store_async;
  pending_acks : list opcd_pending_ack_t;
  pending_password : list Z;
  pending_ip_list : opcd_ip_list_t;
  pending_ip_staging : opcd_ip_list_t;
  pending_ip_staging_active : bool;
  pending_ip_staging_session_generation : Z;
  udp_fd : Z;
  should_exit : bool;
  should_reset : bool;
  reset_notice_sent : bool;
}.
#[global] Instance eta_state : Eta opcd_state_t := λ s,
  mk_state (conf s) (paths s) (logged_in s) (holder_ip s) (holder_port s) (idle_deadline s)
    (session_generation s) (password s) (password_unsynced s) (password_unsynced_prev s) (radio s)
    (radio_committed s) (radio_applied_known s) (radio_recovery_state s) (radio_gen s) (ip_list s)
    (radio_revert_pending s) (radio_revert_cfg s) (radio_revert_committed s)
    (radio_persist_baseline_valid s) (ip_list_staging s) (ip_list_staging_active s)
    (ip_change_pending s) (ip_change_commit_armed s) (ip_change_logout_deferred s)
    (ip_change_list_no s) (ip_change_armed_no s) (ip_change_armed_entry s) (fault_probe s)
    (indication_enabled s) (indication_recipient_ip s) (indication_recipient_port s)
    (indication_info_bits s) (indication_period_s s) (radio_up_reported s) (wlan0_assoc_known s)
    (wlan0_assoc s) (wlan0_assoc_at s) (indication_seq s) (indication_tick_counter s)
    (indication_coalesce s) (boot_status s) (store_async s) (pending_acks s) (pending_password s)
    (pending_ip_list s) (pending_ip_staging s) (pending_ip_staging_active s)
    (pending_ip_staging_session_generation s) (udp_fd s) (should_exit s) (should_reset s)
    (reset_notice_sent s).

(** ** platform.h *)

Record opcd_platform_link_t := mk_link {
  l_freq_mhz : Z; l_channel : Z; l_mode : Z; l_bandwidth : Z; l_bandwidth_valid : bool;
  l_bssid : list Z; l_snr : Z; l_rssi : Z; l_snr_valid : bool; l_rssi_valid : bool;
  l_associated : bool }.

(** inventory.h: the static identity loaded at start. *)
Record opcd_inventory_t := mk_inventory {
  inv_vendor_code : Z; inv_product_code : Z; inv_product_subcode : Z;
  inv_hardware_version : list Z; inv_serial_number : list Z;
  inv_manufacture_date : opc_date_t; inv_shipment_date : opc_date_t;
  inv_ieee_11r : Z; inv_ieee_11ai : Z; inv_ieee_11k : Z; inv_ieee_11v : Z }.

(** The three documented results of [validate_radio_config]: 0, [OPC_ERR_RADIO_MODE],
    [OPC_ERR_RADIO_BW]; the handler aborts on any other. *)
Inductive capability := CapOk | CapMode | CapBw.

(** [stat], and [open] with [O_NOFOLLOW] followed by [fstat]: the reads are what the calls of
    [read] on the descriptor give, one by one, and end of file after the last. *)
Inductive stat_result := StatOk (size : Z) (mtime : Z * Z) | StatNoent | StatFail.
Inductive read_step := RdBytes (b : list Z) | RdEintr | RdFail.
Inductive open_result := OpenNoent | OpenFail | OpenFd (regular : bool) (reads : list read_step).

(** What the daemon calls outside its own logic. Each operation takes the environment and
    returns its result with the environment after the call; [validate_radio_config] is
    documented to have no side effects and the inventory is read at start only. The
    platform is registered before the first frame ([opcd_platform()] is not NULL). A read
    whose return value the caller ignores is given by the contents it leaves in the
    zeroed output. *)
Class Env (E : Type) := {
  (* clocks: CLOCK_MONOTONIC seconds; the wall clock as the tick prints it *)
  env_mono : E → Z * E;
  env_timestamp : E → list Z * E;
  (* sendto: did it take the whole datagram *)
  env_sendto : Z → Z → list Z → E → bool * E;
  (* the probe's sources *)
  env_readings : opcd_fault_probe_t → E → readings * E;
  (* opc_store_write_atomic_ex, opc_store_read_all, unlink (true: removed or absent) *)
  env_write : string → list Z → Z → E → (Z * opc_store_outcome_t) * E;
  env_read : string → Z → E → option (list Z) * E;
  env_unlink : string → E → bool * E;
  (* stat, rename, and opening the customer file *)
  env_stat : string → E → stat_result * E;
  env_rename : string → string → E → bool * E;
  env_open_user : string → E → open_result * E;
  (* platform vtable; get_dev_ipv4 gives its return code and the three addresses *)
  lookup_direct_route : Z → E → option Z * E;
  get_dev_ipv4 : Z → E → (Z * (Z * Z * Z)) * E;
  get_link : Z → E → option opcd_platform_link_t * E;
  get_eth_mac : E → list Z * E;
  get_wlan_mac : Z → E → list Z * E;
  get_essid : Z → E → list Z * E;
  get_firmware_version : E → list Z * E;
  get_ntp_server : E → Z * E;
  validate_radio_config : opc_set_radio_config_req_t → E → capability;
  apply_radio_config : opc_set_radio_config_req_t → E → Z * E;
  apply_ip_change : opc_ipcfg_entry_t → Z → Z → E → Z * E;
  peer_route_refresh : Z → Z → E → Z * E;
  (* inventory.h, devinfo_cfg.h (mode, bandwidth), snapshot.h *)
  opcd_inventory : E → opcd_inventory_t;
  opcd_devinfo_cfg_read : string → E → (Z * Z) * E;
  opcd_snapshot_publish : opc_get_device_info_ack_t → E → unit * E;
  (* the main loop's own: platform refresh and reset hook, systemd_notify.h, reset_cause.h *)
  refresh_firmware_version : Z → E → unit * E;
  prepare_reset : E → Z * E;
  opcd_systemd_watchdog : E → Z * E;
  opcd_system_stopping : E → Z * E;
  opcd_reset_cause_read : E → Z * E;
}.

(** ** The monad of the handlers *)

Record datagram := mk_datagram { dg_ip : Z; dg_port : Z; dg_bytes : list Z }.

Record world (E : Type) := mk_world { w_st : opcd_state_t; w_env : E; w_tx : list datagram }.
Arguments mk_world {E} _ _ _.
Arguments w_st {E} _.
Arguments w_env {E} _.
Arguments w_tx {E} _.

Definition M (E A : Type) : Type := world E → A * world E.

Section Monad.
Context {E : Type}.
#[global] Instance M_ret : MRet (M E) := λ A x w, (x, w).
#[global] Instance M_bind : MBind (M E) := λ A B k m w, let '(x, w) := m w in k x w.

Definition get : M E opcd_state_t := λ w, (w_st w, w).
Definition put_st (s : opcd_state_t) : M E unit := λ w, (tt, mk_world s (w_env w) (w_tx w)).
Definition modify (f : opcd_state_t → opcd_state_t) : M E unit :=
  λ w, (tt, mk_world (f (w_st w)) (w_env w) (w_tx w)).
(** A call of the environment. *)
Definition call {A} (op : E → A * E) : M E A :=
  λ w, let '(x, e) := op (w_env w) in (x, mk_world (w_st w) e (w_tx w)).
Definition query {A} (op : E → A) : M E A := λ w, (op (w_env w), w).
(** [sendto]: the datagram is handed over whether or not the call succeeds. *)
Definition sendto `{Env E} (ip port : Z) (frame : list Z) : M E bool :=
  λ w, let '(ok, e) := env_sendto ip port frame (w_env w) in
       (ok, mk_world (w_st w) e (w_tx w ++ [mk_datagram ip port frame])).
Definition whenM (b : bool) (m : M E unit) : M E unit := if b then m else mret tt.
End Monad.
End State.
Export State.
