(* ===== verification/Indication.v ===== *)
(** * Notifications of the daemon: opcd/indication.c

    The senders, the period coalescing and the tick, in the monad of [State]. Log lines
    are left out. *)
From S2P Require Import Prelude Codec ScanList Commands Indications Store StoreAsync IpListText FaultProbe State.
From stdpp Require Import base list numbers option tactics strings.
From Stdlib Require Import ZArith Lia.
#[local] Open Scope Z_scope.
Import FaultProbe.FaultProbe.

Module Indication.
Section Indication.
Context {E : Type} `{Env E}.

Definition bit_set (bits mask : Z) : bool := negb (Z.land bits mask =? 0).

Definition send_indication_frame (frame : option (list Z)) : M E Z :=
  match frame with
  | None => mret (-1)
  | Some f =>
      st ← get;
      if negb (indication_enabled st) || (udp_fd st <? 0) then mret 0
      else if (indication_recipient_ip st =? 0) || (indication_recipient_port st =? 0) then mret 0
      else ok ← sendto (indication_recipient_ip st) (indication_recipient_port st) f;
           mret (if (ok : bool) then 0 else -1)
  end.

Definition next_seq : M E Z :=
  st ← get;
  modify (λ s, s <| indication_seq := u16 (indication_seq s + 1) |>);;
  mret (indication_seq st).

Definition opcd_ind_init_complete (status : Z) : M E Z :=
  st ← get;
  if negb (bit_set (indication_info_bits st) OPC_IND_BIT_INIT_COMPLETE) then mret 0
  else seq ← next_seq;
       send_indication_frame (opc_ind_init_complete_pack OPC_FRAME_MAX seq (mk_init_complete status)).

Definition emit_wlan_status (status ch : Z) : M E Z :=
  seq ← next_seq;
  send_indication_frame
    (opc_ind_wlan_status_change_pack OPC_FRAME_MAX seq (mk_wlan_status_change status ch)).

Definition emit_roaming (snr rssi : Z) (ap_mac : list Z) (ch : Z) : M E Z :=
  seq ← next_seq;
  send_indication_frame (opc_ind_roaming_pack OPC_FRAME_MAX seq (mk_roaming snr rssi ap_mac ch)).

Definition emit_ap_disconnect (msg_id reason : Z) (ap_mac : list Z) : M E Z :=
  seq ← next_seq;
  send_indication_frame
    (opc_ind_ap_disconnect_pack OPC_FRAME_MAX seq (mk_ap_disconnect msg_id reason ap_mac)).

Definition emit_fault_detect (cong_id val : Z) : M E Z :=
  seq ← next_seq;
  send_indication_frame
    (opc_ind_fault_detect_pack OPC_FRAME_MAX seq (mk_fault_detect cong_id val)).

Definition opcd_mono_now_s : M E Z := call env_mono.

Definition opcd_ind_radio_up : M E unit :=
  st ← get;
  if negb (indication_enabled st) || radio_up_reported st then mret tt
  else modify (λ s, s <| radio_up_reported := true |>);;
       _ ← opcd_ind_init_complete OPC_INIT_STATE_RADIO_UP; mret tt.

(** Assignment to the coalescing slot of link [i]. *)
Definition set_coalesce (i : nat) (f : opcd_ind_coalesce → opcd_ind_coalesce) : M E unit :=
  modify (λ s, s <| indication_coalesce := alter f i (indication_coalesce s) |>).

Definition opcd_ind_wlan_status (status ch : Z) : M E Z :=
  modify (λ s, (s <| wlan0_assoc_known := true |>)
                 <| wlan0_assoc := (status =? OPC_WLAN_STATUS_CONNECTED) |>);;
  now ← opcd_mono_now_s;
  modify (λ s, s <| wlan0_assoc_at := now |>);;
  whenM (status =? OPC_WLAN_STATUS_CONNECTED) opcd_ind_radio_up;;
  st ← get;
  if negb (bit_set (indication_info_bits st) OPC_IND_BIT_WLAN_STATUS_CHANGE) then mret 0
  else if 0 <? indication_period_s st then
    set_coalesce 0 (λ c, ((c <| c_wlan_status := status |>) <| c_wlan_ch := ch |>)
                           <| c_wlan_pending := true |>);;
    mret 0
  else emit_wlan_status status ch.

Definition opcd_ind_roaming (snr rssi : Z) (ap_mac : list Z) (ch : Z) : M E Z :=
  st ← get;
  if negb (bit_set (indication_info_bits st) OPC_IND_BIT_ROAMING) then mret 0
  else if 0 <? indication_period_s st then
    set_coalesce 0 (λ c, ((((c <| c_roam_snr := snr |>) <| c_roam_rssi := rssi |>)
                            <| c_roam_ch := ch |>) <| c_roam_mac := ap_mac |>)
                           <| c_roam_pending := true |>);;
    mret 0
  else emit_roaming snr rssi ap_mac ch.

Definition opcd_ind_ap_disconnect (msg_id reason : Z) (ap_mac : list Z) : M E Z :=
  st ← get;
  if negb (bit_set (indication_info_bits st) OPC_IND_BIT_AP_DISCONNECT) then mret 0
  else if 0 <? indication_period_s st then
    set_coalesce 0 (λ c, (((c <| c_apd_msg_id := msg_id |>) <| c_apd_reason := reason |>)
                            <| c_apd_mac := ap_mac |>) <| c_apd_pending := true |>);;
    mret 0
  else emit_ap_disconnect msg_id reason ap_mac.

Definition opcd_ind_coalesce_reset : M E unit :=
  modify (λ s, s <| indication_coalesce := map (λ _, coalesce_zero) (indication_coalesce s) |>);;
  modify (λ s, s <| fault_probe := opcd_fault_probe_reset_latch (fault_probe s) |>).

Definition fault_slot (cong_id : Z) : option nat :=
  if (OPC_CONGESTION_CPU <=? cong_id) && (cong_id <=? OPC_CONGESTION_NETWORK)
  then Some (Z.to_nat (cong_id - 1)) else None.

Definition opcd_ind_fault_clear (cong_id : Z) : M E unit :=
  st ← get;
  if indication_period_s st =? 0 then mret tt
  else match fault_slot cong_id with
       | None => mret tt
       | Some slot =>
           set_coalesce 0 (λ c, c <| c_fault_pending := <[slot := false]> (c_fault_pending c) |>)
       end.

Definition opcd_ind_fault_detect (cong_id val : Z) : M E Z :=
  st ← get;
  if negb (bit_set (indication_info_bits st) OPC_IND_BIT_FAULT_DETECT) then mret 0
  else if 0 <? indication_period_s st then
    match fault_slot cong_id with
    | None => mret (-1)
    | Some slot =>
        set_coalesce 0 (λ c, (c <| c_fault_val := <[slot := val]> (c_fault_val c) |>)
                               <| c_fault_pending := <[slot := true]> (c_fault_pending c) |>);;
        mret 0
    end
  else emit_fault_detect cong_id val.

(** Notify one entered resource, re-arming its latch when the send failed. *)
Definition fault_notify (is_entered : bool) (cong_id pct : Z) (res : opcd_fault_res_t) : M E unit :=
  if is_entered then
    rc ← opcd_ind_fault_detect cong_id pct;
    whenM (negb (rc =? 0))
      (modify (λ s, s <| fault_probe := opcd_fault_probe_rearm (fault_probe s) res |>))
  else mret tt.

Definition fault_probe_tick (elapsed_s : Z) : M E unit :=
  st ← get;
  if negb (bit_set (indication_info_bits st) OPC_IND_BIT_FAULT_DETECT) then mret tt
  else
    let '(due, p) := opcd_fault_probe_due (fault_probe st) elapsed_s in
    modify (λ s, s <| fault_probe := p |>);;
    if negb due then mret tt
    else
      r ← call (env_readings p);
      let '(rep, p) := opcd_fault_probe_sample p r in
      modify (λ s, s <| fault_probe := p |>);;
      fault_notify (cpu_entered rep) OPC_CONGESTION_CPU (cpu_pct rep) OPCD_FAULT_RES_CPU;;
      fault_notify (mem_entered rep) OPC_CONGESTION_MEMORY (mem_pct rep) OPCD_FAULT_RES_MEM;;
      fault_notify (disk_entered rep) OPC_CONGESTION_DISK_IO (disk_pct rep) OPCD_FAULT_RES_DISK;;
      fault_notify (net_entered rep) OPC_CONGESTION_NETWORK (net_pct rep) OPCD_FAULT_RES_NET;;
      whenM (cpu_cleared rep) (opcd_ind_fault_clear OPC_CONGESTION_CPU);;
      whenM (mem_cleared rep) (opcd_ind_fault_clear OPC_CONGESTION_MEMORY);;
      whenM (disk_cleared rep) (opcd_ind_fault_clear OPC_CONGESTION_DISK_IO);;
      whenM (net_cleared rep) (opcd_ind_fault_clear OPC_CONGESTION_NETWORK).

Definition opcd_ind_reset_notice (cause : Z) : M E Z :=
  st ← get;
  if negb (bit_set (indication_info_bits st) OPC_IND_BIT_RESET_NOTICE) then mret 0
  else seq ← next_seq;
       send_indication_frame (opc_ind_reset_notice_pack OPC_FRAME_MAX seq (mk_reset_notice cause)).

Definition opcd_ind_keep_alive (timestamp : list Z) : M E Z :=
  st ← get;
  if negb (bit_set (indication_info_bits st) OPC_IND_BIT_KEEP_ALIVE) then mret 0
  else seq ← next_seq;
       send_indication_frame (opc_ind_keep_alive_pack OPC_FRAME_MAX seq
         (mk_keep_alive (write_at 0 (take 31 (cstr timestamp)) (zeros OPC_IND_KEEP_ALIVE_BODY_LEN)))).

(** One line of the flush: emit when pending, and drop the pending mark on success. *)
Definition flush_one (is_pending : bool) (emit : M E Z) (done : M E unit) : M E unit :=
  if is_pending then rc ← emit; whenM (rc =? 0) done else mret tt.

(** The coalescing slot [i] as it stands now. *)
Definition get_coalesce (i : nat) : M E opcd_ind_coalesce :=
  st ← get; mret (default coalesce_zero (indication_coalesce st !! i)).

Fixpoint flush_faults (i : nat) (k : nat) (n : nat) : M E unit :=
  match n with
  | O => mret tt
  | S n' =>
      c ← get_coalesce i;
      flush_one (default false (c_fault_pending c !! k))
        (emit_fault_detect (Z.of_nat k + 1) (default 0 (c_fault_val c !! k)))
        (set_coalesce i (λ c, c <| c_fault_pending := <[k := false]> (c_fault_pending c) |>));;
      flush_faults i (S k) n'
  end.

Definition flush_link (i : nat) : M E unit :=
  c ← get_coalesce i;
  flush_one (c_wlan_pending c) (emit_wlan_status (c_wlan_status c) (c_wlan_ch c))
    (set_coalesce i (λ c, c <| c_wlan_pending := false |>));;
  flush_one (c_roam_pending c)
    (emit_roaming (c_roam_snr c) (c_roam_rssi c) (c_roam_mac c) (c_roam_ch c))
    (set_coalesce i (λ c, c <| c_roam_pending := false |>));;
  flush_one (c_apd_pending c)
    (emit_ap_disconnect (c_apd_msg_id c) (c_apd_reason c) (c_apd_mac c))
    (set_coalesce i (λ c, c <| c_apd_pending := false |>));;
  flush_faults i 0 4.

Definition PERIOD_BITS : Z :=
  Z.lor OPC_IND_BIT_KEEP_ALIVE (Z.lor OPC_IND_BIT_FAULT_DETECT
    (Z.lor OPC_IND_BIT_WLAN_STATUS_CHANGE (Z.lor OPC_IND_BIT_ROAMING OPC_IND_BIT_AP_DISCONNECT))).

(** The flush at the end of a period: the staged changes of each link, then KeepAlive. *)
Definition period_flush : M E unit :=
  flush_link 0;;
  flush_link 1;;
  st ← get;
  if bit_set (indication_info_bits st) OPC_IND_BIT_KEEP_ALIVE then
    ts ← call env_timestamp;
    _ ← opcd_ind_keep_alive ts; mret tt
  else mret tt.

Definition opcd_ind_tick_elapsed (elapsed_s : Z) : M E unit :=
  st ← get;
  if negb (indication_enabled st) then mret tt
  else
    fault_probe_tick elapsed_s;;
    st ← get;
    if indication_period_s st =? 0 then mret tt
    else if negb (bit_set (indication_info_bits st) PERIOD_BITS) then mret tt
    else
      let elapsed_s := if indication_period_s st <? elapsed_s then indication_period_s st else elapsed_s in
      modify (λ s, s <| indication_tick_counter := indication_tick_counter s + i32 elapsed_s |>);;
      st ← get;
      if indication_tick_counter st <? indication_period_s st then mret tt
      else modify (λ s, s <| indication_tick_counter := 0 |>);;
           period_flush.
Definition opcd_ind_tick : M E unit := opcd_ind_tick_elapsed 1.
End Indication.
End Indication.
Export Indication.
