(* ===== verification/Validate.v ===== *)
(** * Request validation: the pure checks of opcd/handler.c, and opcd/chan_encode.c

    32-bit values are Z with the wrap of [~] and [+] written out ([not32], [u32]). *)
From S2P Require Import Prelude Codec ScanList Commands IpListText State.
From stdpp Require Import base list numbers option tactics.
From Stdlib Require Import ZArith Lia.
#[local] Open Scope Z_scope.
Import IpListText.IpListText.

Module Validate.

(** C's [~] on a uint32_t. *)
Definition not32 (m : Z) : Z := u32 (Z.lnot m).

Definition valid_unicast_ipv4 (ip_host : Z) : bool :=
  if ip_host =? 0 then false
  else if ip_host =? 4294967295 then false
  else if Z.land ip_host 4026531840 =? 3758096384 then false
  else true.

Definition valid_netmask (m : Z) : bool :=
  negb (m =? 0) && (Z.land (not32 m) (u32 (not32 m + 1)) =? 0).

Definition valid_ipcfg_addr (ip_host : Z) : bool :=
  valid_unicast_ipv4 ip_host && negb (Z.shiftr ip_host 24 =? 127).

(** [A-Z a-z 0-9 . - _ + / : = ~ @] *)
Definition opc_char_ok (c : Z) : bool :=
  ((65 <=? c) && (c <=? 90)) || ((97 <=? c) && (c <=? 122)) || ((48 <=? c) && (c <=? 57)) ||
  (c =? 46) || (c =? 45) || (c =? 95) || (c =? 43) || (c =? 47) || (c =? 58) || (c =? 61) ||
  (c =? 126) || (c =? 64).
Definition valid_opc_charset (s : list Z) : bool := forallb opc_char_ok (cstr s).

Definition ipcfg_entry_error (e : opc_ipcfg_entry_t) (essid_terminated : bool) : Z :=
  if negb (valid_ipcfg_addr (ip_address e)) then OPC_ERR_IPCFG_IP
  else if negb (valid_netmask (subnet_mask e)) then OPC_ERR_IPCFG_NETMASK
  else if negb (subnet_mask e =? 4294967295) &&
          (let net := Z.land (ip_address e) (subnet_mask e) in
           let bcast := Z.lor net (not32 (subnet_mask e)) in
           (ip_address e =? net) || (ip_address e =? bcast))
  then OPC_ERR_IPCFG_IP
  else if negb (default_gateway e =? 0) &&
          (negb (valid_ipcfg_addr (default_gateway e)) || (default_gateway e =? ip_address e) ||
           (negb (subnet_mask e =? 4294967295) &&
            negb (Z.land (default_gateway e) (subnet_mask e) =? Z.land (ip_address e) (subnet_mask e))))
  then OPC_ERR_IPCFG_GW
  else if negb (ntp_server e =? 0) && negb (valid_ipcfg_addr (ntp_server e)) then OPC_ERR_IPCFG_NTP
  else if negb essid_terminated then OPC_ERR_IPCFG_ESSID_NUL
  else if negb (valid_opc_charset (essid e)) then OPC_ERR_IPCFG_ESSID_CHAR
  else 0.

(** The arithmetic of [ipcfg_clashes_other_iface], past its platform read. *)
Definition subnets_clash (e : opc_ipcfg_entry_t) (oip omask : Z) : bool :=
  if (oip =? 0) || (omask =? 0) || (omask =? 4294967295) then false
  else Z.land (Z.land (Z.lxor (ip_address e) oip) (subnet_mask e)) omask =? 0.

(** ** SetRadioConfig *)

Definition valid_wlan_mode (m : Z) : bool :=
  (m =? OPC_WLAN_MODE_11A) || (m =? OPC_WLAN_MODE_11B) || (m =? OPC_WLAN_MODE_11G) ||
  (m =? OPC_WLAN_MODE_11N) || (m =? OPC_WLAN_MODE_11AC) || (m =? OPC_WLAN_MODE_11AX).
Definition valid_wlan_bw (b : Z) : bool :=
  (b =? OPC_BANDWIDTH_20) || (b =? OPC_BANDWIDTH_40) || (b =? OPC_BANDWIDTH_80) ||
  (b =? OPC_BANDWIDTH_160) || (b =? OPC_BANDWIDTH_80_80) || (b =? OPC_BANDWIDTH_320).
Definition valid_scan_band (band : Z) : bool :=
  (band =? OPC_SCAN_BAND_UNSET) || opc_scan_band_supported band.

Inductive prio_ch_verdict_t := PRIO_CH_OK | PRIO_CH_BAD_BAND | PRIO_CH_BAD_CH.
#[global] Instance prio_ch_verdict_eq_dec : EqDecision prio_ch_verdict_t.
Proof. solve_decision. Defined.

Definition check_priority_ch (prio : Z) : prio_ch_verdict_t :=
  let band := Z.shiftr prio 8 in
  let ch := Z.land prio 255 in
  if negb (opc_scan_band_supported band) then PRIO_CH_BAD_BAND
  else if ch =? 255 then PRIO_CH_OK
  else match opc_scan_bit_for_channel band ch with Some _ => PRIO_CH_OK | None => PRIO_CH_BAD_CH end.

Definition wlan_cfg_differs (a b : opc_wlan_radio_cfg_t) : bool :=
  negb (rc_mode a =? rc_mode b) || negb (rc_bandwidth a =? rc_bandwidth b) ||
  negb (rc_scan_band a =? rc_scan_band b) ||
  negb (bool_decide (take 8 (rc_scan_chlist a) = take 8 (rc_scan_chlist b))).

Definition radio_cfg_differs (a b : opc_set_radio_config_req_t) : bool :=
  if negb (station_type a =? station_type b) || wlan_cfg_differs (wlan1 a) (wlan1 b) then true
  else if (station_type a =? OPC_STATION_DUAL) &&
          (negb (priority_ch a =? priority_ch b) || wlan_cfg_differs (wlan2 a) (wlan2 b)) then true
  else false.

(** The value checks of SetRadioConfig up to the platform's capability check: the error
    cause, 0 when the request is acceptable. *)
Definition radio_req_error (req : opc_set_radio_config_req_t) : Z :=
  let dual := station_type req =? OPC_STATION_DUAL in
  let prio_v := if dual then check_priority_ch (priority_ch req) else PRIO_CH_OK in
  if negb (station_type req =? OPC_STATION_SINGLE) then OPC_ERR_STATION_TYPE
  else if negb (valid_wlan_mode (rc_mode (wlan1 req))) then OPC_ERR_RADIO_MODE
  else if negb (valid_wlan_bw (rc_bandwidth (wlan1 req))) then OPC_ERR_RADIO_BW
  else if dual && negb (valid_wlan_mode (rc_mode (wlan2 req))) then OPC_ERR_RADIO_MODE
  else if dual && negb (valid_wlan_bw (rc_bandwidth (wlan2 req))) then OPC_ERR_RADIO_BW
  else if negb (valid_scan_band (rc_scan_band (wlan1 req))) ||
          (dual && negb (valid_scan_band (rc_scan_band (wlan2 req)))) then OPC_ERR_RADIO_FREQ
  else if negb (opc_scan_list_valid (rc_scan_band (wlan1 req)) (rc_scan_chlist (wlan1 req))) ||
          (dual && negb (opc_scan_list_valid (rc_scan_band (wlan2 req)) (rc_scan_chlist (wlan2 req))))
  then OPC_ERR_RADIO_SCAN_CH
  else match prio_v with
       | PRIO_CH_OK => 0
       | PRIO_CH_BAD_BAND => OPC_ERR_RADIO_PRIO_BAND
       | PRIO_CH_BAD_CH => OPC_ERR_RADIO_PRIO_CH
       end.

Definition radio_baseline_covers (st : opcd_state_t) (next : opc_set_radio_config_req_t) : bool :=
  if negb (radio_applied_known st) then false
  else if negb (station_type (radio st) =? OPC_STATION_SINGLE) &&
          negb (station_type (radio st) =? OPC_STATION_DUAL) then false
  else if negb (valid_wlan_mode (rc_mode (wlan1 (radio st)))) ||
          negb (valid_wlan_bw (rc_bandwidth (wlan1 (radio st)))) then false
  else if negb (valid_scan_band (rc_scan_band (wlan1 (radio st)))) ||
          negb (opc_scan_list_valid (rc_scan_band (wlan1 (radio st))) (rc_scan_chlist (wlan1 (radio st))))
  then false
  else if station_type next =? OPC_STATION_DUAL then
    if negb (station_type (radio st) =? OPC_STATION_DUAL) then false
    else if negb (valid_wlan_mode (rc_mode (wlan2 (radio st)))) ||
            negb (valid_wlan_bw (rc_bandwidth (wlan2 (radio st)))) ||
            negb (bool_decide (check_priority_ch (priority_ch (radio st)) = PRIO_CH_OK)) then false
    else if negb (valid_scan_band (rc_scan_band (wlan2 (radio st)))) ||
            negb (opc_scan_list_valid (rc_scan_band (wlan2 (radio st))) (rc_scan_chlist (wlan2 (radio st))))
    then false
    else true
  else true.

(** ** chan_encode.c and the device-info frequency source *)

Definition opc_chan_field (freq_mhz ch : Z) : Z :=
  if (ch =? 0) || (255 <? ch) then 0
  else
    let band := if (2412 <=? freq_mhz) && (freq_mhz <=? 2484) then OPC_BAND_2_4GHZ
                else if (5000 <=? freq_mhz) && (freq_mhz <=? 5895) then OPC_BAND_5GHZ
                else if (5955 <=? freq_mhz) && (freq_mhz <=? 7115) then OPC_BAND_6GHZ
                else 0 in
    u16 (Z.lor (Z.shiftl band 8) ch).

Definition opc_assoc_chan_field (evt_freq evt_ch : Z) (fb_valid : bool) (fb_freq fb_ch : Z) : Z :=
  let ch := opc_chan_field evt_freq evt_ch in
  let ch := if (ch =? 0) && fb_valid then
              let fb_field := opc_chan_field fb_freq fb_ch in
              if negb (Z.shiftr fb_field 8 =? 0) then fb_field else ch
            else ch in
  if negb (ch =? 0) then ch else OPC_WLAN_CH_UNSET.

Definition opc_notify_chan_field (freq_mhz ch : Z) : Z :=
  let field := opc_chan_field freq_mhz ch in
  if negb (Z.shiftr field 8 =? 0) then field else OPC_WLAN_CH_UNSET.

Definition select_devinfo_freq_ch (src : opcd_freq_source_t) (assoc : bool)
    (live_freq live_ch cfg_freq cfg_ch : Z) : Z * Z :=
  let live_ok := assoc && negb (live_freq =? 0) in
  let use_live := match src with
                  | OPC_FREQ_SRC_LIVE => true
                  | OPC_FREQ_SRC_AUTO => live_ok
                  | OPC_FREQ_SRC_CONFIG => false end in
  if use_live && live_ok then
    let ch_field := opc_chan_field live_freq live_ch in
    (live_freq, if negb (Z.shiftr ch_field 8 =? 0) then ch_field else OPC_WLAN_CH_UNSET)
  else if use_live || (cfg_freq =? 0) then (OPC_WLAN_FREQ_UNSET, OPC_WLAN_CH_UNSET)
  else (cfg_freq, cfg_ch).

(** ** Netmasks *)

(** The mask of a prefix length. *)
Definition prefix_mask (k : Z) : Z := 4294967296 - 2 ^ (32 - k).

(** [x & (x + 1)] is zero exactly for the numbers of the form 2^j - 1. *)
Lemma land_succ_pow2 x : 0 <= x → Z.land x (x + 1) = 0 ↔ ∃ j, 0 <= j ∧ x + 1 = 2 ^ j.
Proof.
  intros Hx. split.
  - intros H. exists (Z.log2 (x + 1)). pose proof (Z.log2_nonneg (x + 1)). split; [done|].
    destruct (Z.log2_spec (x + 1)) as [Hlo Hhi]; [lia|].
    destruct (Z.eq_dec (x + 1) (2 ^ Z.log2 (x + 1))) as [|Hne]; [done|]. exfalso.
    assert (Hl : Z.log2 x = Z.log2 (x + 1)) by (apply Z.log2_unique; lia).
    assert (Hp : 0 < 2 ^ Z.log2 (x + 1)) by (apply Z.pow_pos_nonneg; lia).
    assert (Hb : Z.testbit (Z.land x (x + 1)) (Z.log2 (x + 1)) = true).
    { rewrite Z.land_spec, (Z.bit_log2 (x + 1)) by lia. rewrite <- Hl, (Z.bit_log2 x) by lia. done. }
    by rewrite H, Z.bits_0 in Hb.
  - intros (j & Hj & Hp). replace x with (Z.ones j) by (rewrite Z.ones_equiv; lia).
    replace (Z.ones j + 1) with (2 ^ j) by (rewrite Z.ones_equiv; lia).
    rewrite Z.land_comm, Z.land_ones by done. apply Z.mod_same. apply Z.pow_nonzero; lia.
Qed.

Lemma not32_eq m : is_u32 m → not32 m = 4294967295 - m.
Proof.
  unfold is_u32, not32, u32, Z.lnot. intros. rewrite <- (Z.mod_add _ 1) by lia.
  rewrite Z.mod_small; lia.
Qed.

Lemma valid_netmask_prefix m :
  is_u32 m → valid_netmask m = true ↔ ∃ k, 1 <= k <= 32 ∧ m = prefix_mask k.
Proof.
  intros Hm. unfold valid_netmask. rewrite not32_eq by done. unfold is_u32 in Hm.
  unfold prefix_mask. split.
  - intros H. guards.
    rewrite u32_id in H0 by (unfold is_u32; lia).
    apply land_succ_pow2 in H0 as (j & Hj & Hp); [|lia].
    assert (j < 32) by (apply (Z.pow_lt_mono_r_iff 2); lia).
    exists (32 - j). split; [lia|]. replace (32 - (32 - j)) with j by lia. lia.
  - intros (k & Hk & ->).
    assert (0 < 2 ^ (32 - k)) by (apply Z.pow_pos_nonneg; lia).
    assert (2 ^ (32 - k) <= 2 ^ 31) by (apply Z.pow_le_mono_r; lia).
    change (2 ^ 31) with 2147483648 in *.
    rewrite u32_id by (unfold is_u32; lia). apply andb_true_iff. split.
    + apply negb_true_iff, Z.eqb_neq. lia.
    + apply Z.eqb_eq, land_succ_pow2; [lia|]. exists (32 - k). lia.
Qed.

(** ** Subnets *)

Lemma prefix_mask_shift k : 0 <= k <= 32 → prefix_mask k = Z.shiftl (Z.ones k) (32 - k).
Proof.
  intros. unfold prefix_mask. rewrite Z.shiftl_mul_pow2, Z.ones_equiv by lia.
  rewrite <- Z.sub_1_r, Z.mul_sub_distr_r, <- Z.pow_add_r by lia.
  replace (k + (32 - k)) with 32 by lia. change (2 ^ 32) with 4294967296. lia.
Qed.

Lemma prefix_mask_bit k i : 0 <= k <= 32 → 0 <= i →
  Z.testbit (prefix_mask k) i = (32 - k <=? i) && (i <? 32).
Proof.
  intros Hk Hi. rewrite prefix_mask_shift by done. rewrite Z.shiftl_spec by done.
  destruct (32 - k <=? i) eqn:E1; guards; cbn [andb].
  - destruct (i <? 32) eqn:E2; guards; [rewrite Z.ones_spec_low|rewrite Z.ones_spec_high]; lia || done.
  - apply Z.testbit_neg_r. lia.
Qed.

Lemma u32_high_bit a i : is_u32 a → 32 <= i → Z.testbit a i = false.
Proof.
  unfold is_u32. intros Ha Hi. rewrite <- (Z.mod_small a (2 ^ 32)) by (change (2 ^ 32) with 4294967296; lia).
  apply Z.mod_pow2_bits_high. lia.
Qed.

(** Masking an address with a prefix keeps its network part. *)
Lemma land_prefix a k : is_u32 a → 0 <= k <= 32 →
  Z.land a (prefix_mask k) = a / 2 ^ (32 - k) * 2 ^ (32 - k).
Proof.
  intros Ha Hk. rewrite <- Z.shiftl_mul_pow2, <- Z.shiftr_div_pow2 by lia.
  apply Z.bits_inj'. intros i Hi. rewrite Z.land_spec, prefix_mask_bit, Z.shiftl_spec by done.
  destruct (32 - k <=? i) eqn:E1; guards; cbn [andb].
  - rewrite Z.shiftr_spec by lia. replace (i - (32 - k) + (32 - k)) with i by lia.
    destruct (i <? 32) eqn:E2; guards; [by rewrite andb_true_r|].
    by rewrite u32_high_bit.
  - rewrite andb_false_r. symmetry. apply Z.testbit_neg_r. lia.
Qed.

Lemma lor_host_ones a k : is_u32 a → 1 <= k <= 32 →
  Z.lor (Z.land a (prefix_mask k)) (not32 (prefix_mask k))
  = a / 2 ^ (32 - k) * 2 ^ (32 - k) + (2 ^ (32 - k) - 1).
Proof.
  intros Ha Hk. rewrite land_prefix by (done || lia).
  assert (Hp : 0 < 2 ^ (32 - k)) by (apply Z.pow_pos_nonneg; lia).
  assert (2 ^ (32 - k) <= 2 ^ 32) by (apply Z.pow_le_mono_r; lia).
  change (2 ^ 32) with 4294967296 in *.
  rewrite not32_eq by (unfold is_u32, prefix_mask; lia).
  unfold prefix_mask. replace (4294967295 - (4294967296 - 2 ^ (32 - k))) with (2 ^ (32 - k) - 1) by lia.
  rewrite <- Z.shiftl_mul_pow2 by lia. rewrite lor_shiftl_add by lia. rewrite Z.shiftl_mul_pow2 by lia. done.
Qed.

(** An address a device can have: not 0.0.0.0 nor 255.255.255.255, outside the multicast
    block 224.0.0.0/4 and the loopback block 127.0.0.0/8. *)
Definition usable_addr (ip : Z) : Prop :=
  ip ≠ 0 ∧ ip ≠ 4294967295 ∧ ¬ (3758096384 <= ip < 4026531840) ∧ ¬ (2130706432 <= ip < 2147483648).

Lemma valid_ipcfg_addr_iff ip : is_u32 ip → valid_ipcfg_addr ip = true ↔ usable_addr ip.
Proof.
  intros Hip. unfold valid_ipcfg_addr, valid_unicast_ipv4, usable_addr.
  change 4026531840 with (prefix_mask 4) at 1. rewrite land_prefix by (done || lia).
  rewrite Z.shiftr_div_pow2 by lia. change (2 ^ (32 - 4)) with 268435456. change (2 ^ 24) with 16777216.
  unfold is_u32 in Hip.
  assert (ip / 268435456 * 268435456 = 3758096384 ↔ 3758096384 <= ip < 4026531840) as Hm
    by (Z.to_euclidean_division_equations; lia).
  assert (ip / 16777216 = 127 ↔ 2130706432 <= ip < 2147483648) as Hl
    by (Z.to_euclidean_division_equations; lia).
  destruct (ip =? 0) eqn:E1, (ip =? 4294967295) eqn:E2, (ip / 268435456 * 268435456 =? 3758096384) eqn:E3,
    (ip / 16777216 =? 127) eqn:E4;
    cbn [negb andb]; guards; split; intros; try done; try lia.
Qed.

(** A valid list entry, in the terms of the specification: prefix length, host part,
    same network. *)
Definition valid_entry (e : opc_ipcfg_entry_t) (essid_terminated : bool) : Prop :=
  usable_addr (ip_address e) ∧
  ∃ k, 1 <= k <= 32 ∧ subnet_mask e = prefix_mask k ∧
    (k = 32 ∨ 0 < ip_address e mod 2 ^ (32 - k) < 2 ^ (32 - k) - 1) ∧
    (default_gateway e = 0 ∨
     usable_addr (default_gateway e) ∧ default_gateway e ≠ ip_address e ∧
     (k = 32 ∨ default_gateway e / 2 ^ (32 - k) = ip_address e / 2 ^ (32 - k))) ∧
    (ntp_server e = 0 ∨ usable_addr (ntp_server e)) ∧
    essid_terminated = true ∧ Forall (λ c, opc_char_ok c = true) (cstr (essid e)).

Lemma valid_opc_charset_iff s : valid_opc_charset s = true ↔ Forall (λ c, opc_char_ok c = true) (cstr s).
Proof. unfold valid_opc_charset. by rewrite forallb_forall, List.Forall_forall. Qed.

Lemma prefix_mask_32 k : 1 <= k <= 32 → prefix_mask k = 4294967295 ↔ k = 32.
Proof.
  intros. unfold prefix_mask. split; [|intros ->; done]. intros Hp.
  assert (Hp1 : 2 ^ (32 - k) = 2 ^ 0) by (change (2 ^ 0) with 1; lia).
  apply Z.pow_inj_r in Hp1; lia.
Qed.
Lemma prefix_mask_inj j k : 1 <= j <= 32 → 1 <= k <= 32 → prefix_mask j = prefix_mask k → j = k.
Proof.
  intros. unfold prefix_mask in *. assert (Hp : 2 ^ (32 - j) = 2 ^ (32 - k)) by lia.
  apply Z.pow_inj_r in Hp; lia.
Qed.

(** The host part of an address is neither all zeros nor all ones. *)
Lemma host_part_iff ip k : is_u32 ip → 1 <= k <= 32 →
  (ip =? Z.land ip (prefix_mask k)) ||
  (ip =? Z.lor (Z.land ip (prefix_mask k)) (not32 (prefix_mask k))) = false ↔
  0 < ip mod 2 ^ (32 - k) < 2 ^ (32 - k) - 1.
Proof.
  intros Hip Hk. rewrite lor_host_ones, land_prefix by (done || lia).
  assert (Hp : 0 < 2 ^ (32 - k)) by (apply Z.pow_pos_nonneg; lia).
  pose proof (Z.div_mod ip (2 ^ (32 - k)) ltac:(lia)). pose proof (Z.mod_pos_bound ip _ Hp).
  split.
  - intros Hf. guards. lia.
  - intros. apply orb_false_iff. split; apply Z.eqb_neq; lia.
Qed.

Lemma same_network_iff a b k : is_u32 a → is_u32 b → 1 <= k <= 32 →
  (Z.land a (prefix_mask k) =? Z.land b (prefix_mask k)) = true ↔ a / 2 ^ (32 - k) = b / 2 ^ (32 - k).
Proof.
  intros. rewrite !land_prefix by (done || lia).
  assert (Hp : 0 < 2 ^ (32 - k)) by (apply Z.pow_pos_nonneg; lia).
  rewrite Z.eqb_eq. rewrite Z.mul_cancel_r by lia. done.
Qed.

(** A chain of early returns with non-zero causes returns 0 when no guard fires. *)
Lemma guard_zero (b : bool) (c x : Z) : c ≠ 0 → (if b then c else x) = 0 ↔ b = false ∧ x = 0.
Proof. intros. destruct b; naive_solver. Qed.

(** The fields of an entry fit their C types. *)
Definition entry_u32 (e : opc_ipcfg_entry_t) : Prop :=
  is_u32 (ip_address e) ∧ is_u32 (subnet_mask e) ∧ is_u32 (default_gateway e) ∧ is_u32 (ntp_server e).
#[global] Instance entry_u32_dec e : Decision (entry_u32 e).
Proof. unfold entry_u32. apply _. Defined.

(** The entry check of SetIpConfigList accepts exactly the valid entries: a usable
    device address, a contiguous netmask of 1 to 32 bits, a host part that is neither
    the network nor the broadcast address (any for /32), a gateway that is unset or a
    different usable address of the same network (any network for /32), a time server
    that is unset or usable, and a terminated ESSID of allowed characters. *)
Theorem ipcfg_entry_error_spec e essid_terminated :
  entry_u32 e → ipcfg_entry_error e essid_terminated = 0 ↔ valid_entry e essid_terminated.
Proof.
  intros (Hip & Hm & Hg & Hn). unfold ipcfg_entry_error, valid_entry.
  rewrite <- valid_ipcfg_addr_iff by done.
  destruct (valid_ipcfg_addr (ip_address e)) eqn:Ea; cbn [negb]; [|split; [done|by intros [? _]]].
  destruct (valid_netmask (subnet_mask e)) eqn:Em; cbn [negb].
  2: { split; [done|]. intros (_ & k & Hk & Hmask & _). exfalso.
       assert (valid_netmask (subnet_mask e) = true) as Ht by (apply valid_netmask_prefix; eauto). congruence. }
  apply valid_netmask_prefix in Em as (k & Hk & Hmask); [|done]. rewrite Hmask.
  pose proof (prefix_mask_32 k Hk) as H32.
  pose proof (host_part_iff (ip_address e) k Hip Hk) as Hhost.
  pose proof (same_network_iff (default_gateway e) (ip_address e) k Hg Hip Hk) as Hnet.
  pose proof (valid_ipcfg_addr_iff (default_gateway e) Hg) as Hgw.
  pose proof (valid_ipcfg_addr_iff (ntp_server e) Hn) as Hntp.
  setoid_rewrite <- valid_opc_charset_iff.
  assert (Hex : ∀ P : Z → Prop, (∃ k', 1 <= k' <= 32 ∧ prefix_mask k = prefix_mask k' ∧ P k') ↔ P k).
  { intros P. split; [|eauto]. intros (k' & Hk' & Hpm & HP). apply prefix_mask_inj in Hpm; try done.
    by subst. }
  rewrite Hex.
  rewrite !guard_zero by done.
  assert (Hb1 : negb (prefix_mask k =? 4294967295) && ((ip_address e =? Z.land (ip_address e) (prefix_mask k))
      || (ip_address e =? Z.lor (Z.land (ip_address e) (prefix_mask k)) (not32 (prefix_mask k)))) = false ↔
    k = 32 ∨ 0 < ip_address e mod 2 ^ (32 - k) < 2 ^ (32 - k) - 1).
  { rewrite andb_false_iff, negb_false_iff, Z.eqb_eq. by rewrite H32, Hhost. }
  assert (Hb2 : negb (default_gateway e =? 0) &&
      (negb (valid_ipcfg_addr (default_gateway e)) || (default_gateway e =? ip_address e) ||
       negb (prefix_mask k =? 4294967295) &&
       negb (Z.land (default_gateway e) (prefix_mask k) =? Z.land (ip_address e) (prefix_mask k))) = false ↔
    default_gateway e = 0 ∨ usable_addr (default_gateway e) ∧ default_gateway e ≠ ip_address e ∧
      (k = 32 ∨ default_gateway e / 2 ^ (32 - k) = ip_address e / 2 ^ (32 - k))).
  { rewrite andb_false_iff, negb_false_iff, !orb_false_iff, andb_false_iff, !negb_false_iff.
    rewrite Hgw, Hnet, !Z.eqb_eq, H32, Z.eqb_neq. tauto. }
  assert (Hb3 : negb (ntp_server e =? 0) && negb (valid_ipcfg_addr (ntp_server e)) = false ↔
    ntp_server e = 0 ∨ usable_addr (ntp_server e)).
  { by rewrite andb_false_iff, !negb_false_iff, Hntp, Z.eqb_eq. }
  rewrite Hb1, Hb2, Hb3, !negb_false_iff. clear. split; intros; destruct_and!; by split_and!.
Qed.

Definition demo_entry : opc_ipcfg_entry_t :=
  mk_ipcfg_entry 3 1 3232235777 4294967040 3232235778 0 ([65; 80] ++ zeros 30).
Lemma ipcfg_entry_error_witness : ipcfg_entry_error demo_entry true = 0 ↔ valid_entry demo_entry true.
Proof. apply ipcfg_entry_error_spec. apply (bool_decide_unpack _). vm_compute. exact I. Defined.

(** *** Overlapping subnets *)

Lemma land_prefix_min j k : 0 <= j <= 32 → 0 <= k <= 32 →
  Z.land (prefix_mask j) (prefix_mask k) = prefix_mask (Z.min j k).
Proof.
  intros. apply Z.bits_inj'. intros i Hi. rewrite Z.land_spec, !prefix_mask_bit by lia.
  destruct (32 - j <=? i) eqn:E1, (32 - k <=? i) eqn:E2, (32 - Z.min j k <=? i) eqn:E3, (i <? 32);
    guards; try done; lia.
Qed.

Lemma lxor_prefix_zero a b k : is_u32 a → is_u32 b → 0 <= k <= 32 →
  Z.land (Z.lxor a b) (prefix_mask k) = 0 ↔ a / 2 ^ (32 - k) = b / 2 ^ (32 - k).
Proof.
  intros Ha Hb Hk. rewrite <- !Z.shiftr_div_pow2 by lia. split.
  - intros H. apply Z.lxor_eq. rewrite <- Z.shiftr_lxor. apply Z.bits_inj'. intros i Hi.
    rewrite Z.bits_0, Z.shiftr_spec by done.
    destruct (Z.lt_ge_cases (i + (32 - k)) 32).
    + assert (Hz : Z.testbit (Z.land (Z.lxor a b) (prefix_mask k)) (i + (32 - k)) = false)
        by (by rewrite H, Z.bits_0).
      rewrite Z.land_spec, prefix_mask_bit in Hz by lia.
      rewrite (proj2 (Z.leb_le _ _)), (proj2 (Z.ltb_lt _ _)) in Hz by lia. by rewrite andb_true_r in Hz.
    + rewrite Z.lxor_spec, !u32_high_bit by (done || lia). done.
  - intros H. apply Z.bits_inj'. intros i Hi. rewrite Z.land_spec, prefix_mask_bit, Z.bits_0 by lia.
    destruct (32 - k <=? i) eqn:E; guards; [|by rewrite andb_false_r].
    assert (Hz : Z.testbit (Z.shiftr a (32 - k)) (i - (32 - k)) = Z.testbit (Z.shiftr b (32 - k)) (i - (32 - k)))
      by (by rewrite H).
    rewrite !Z.shiftr_spec in Hz by lia. replace (i - (32 - k) + (32 - k)) with i in Hz by lia.
    by rewrite Z.lxor_spec, Hz, xorb_nilpotent.
Qed.

Lemma div_pow_coarser x y n m : 0 <= n <= m → x / 2 ^ n = y / 2 ^ n → x / 2 ^ m = y / 2 ^ m.
Proof.
  intros Hnm H. replace m with (n + (m - n)) by lia. rewrite Z.pow_add_r by lia.
  assert (0 < 2 ^ n ∧ 0 < 2 ^ (m - n)) as [? ?] by (split; apply Z.pow_pos_nonneg; lia).
  rewrite <- !Z.div_div by lia. by rewrite H.
Qed.

(** The clash test of ChangeIpAddress decides whether the entry's subnet and the
    other interface's subnet share an address; an interface without an address, without
    a mask or with a host mask (/32) never clashes. *)
Theorem subnets_clash_spec e k oip omask :
  is_u32 (ip_address e) → is_u32 oip → is_u32 omask → 1 <= k <= 32 → subnet_mask e = prefix_mask k →
  valid_netmask omask = true →
  subnets_clash e oip omask = true ↔
  oip ≠ 0 ∧ ∃ k' c, 1 <= k' < 32 ∧ omask = prefix_mask k' ∧ is_u32 c ∧
    c / 2 ^ (32 - k) = ip_address e / 2 ^ (32 - k) ∧ c / 2 ^ (32 - k') = oip / 2 ^ (32 - k').
Proof.
  intros Hip Ho Hom Hk Hm Hv. apply valid_netmask_prefix in Hv as (k' & Hk' & ->); [|done].
  unfold subnets_clash. pose proof (prefix_mask_32 k' Hk') as H32. rewrite Hm.
  rewrite <- Z.land_assoc, land_prefix_min by lia.
  pose proof (lxor_prefix_zero (ip_address e) oip (Z.min k k') Hip Ho ltac:(lia)) as Hz.
  split.
  - intros H. guard_cases. assert (k' ≠ 32) by (intros ->; by apply H0).
    split; [done|]. apply Hz in H. exists k'.
    destruct (Z.le_ge_cases k k').
    + exists oip. split_and!; try done; try lia. rewrite Z.min_l in H by lia. done.
    + exists (ip_address e). split_and!; try done; try lia. rewrite Z.min_r in H by lia. done.
  - intros (Ho0 & k'' & c & Hk'' & Hpm & Hc & H1 & H2).
    apply prefix_mask_inj in Hpm as <-; try lia.
    rewrite (proj2 (Z.eqb_neq oip 0)) by done.
    assert (prefix_mask k' ≠ 0 ∧ prefix_mask k' ≠ 4294967295) as [Hn0 Hn1].
    { unfold prefix_mask. assert (2 ^ (32 - k') < 2 ^ 32) by (apply Z.pow_lt_mono_r; lia).
      change (2 ^ 32) with 4294967296 in *. split; [lia|]. intros Hx. apply H32 in Hx. lia. }
    rewrite (proj2 (Z.eqb_neq _ 0)), (proj2 (Z.eqb_neq _ 4294967295)) by done. cbn [orb].
    apply Z.eqb_eq, Hz. rewrite <- (div_pow_coarser c (ip_address e) (32 - k)) by (lia || done).
    by rewrite <- (div_pow_coarser c oip (32 - k')) by (lia || done).
Qed.

Lemma subnets_clash_witness :
  subnets_clash demo_entry 3232235778 (prefix_mask 16) = true ↔
  3232235778 ≠ 0 ∧ ∃ k' c, 1 <= k' < 32 ∧ prefix_mask 16 = prefix_mask k' ∧ is_u32 c ∧
    c / 2 ^ (32 - 24) = ip_address demo_entry / 2 ^ (32 - 24) ∧ c / 2 ^ (32 - k') = 3232235778 / 2 ^ (32 - k').
Proof.
  apply (subnets_clash_spec demo_entry 24 3232235778 (prefix_mask 16));
    try (apply (bool_decide_unpack _); vm_compute; exact I); try reflexivity; lia.
Defined.
End Validate.
Export Validate.
