(* ===== verification/RadioConf.v ===== *)
(** * radio.conf: the stored radio configuration of opcd/handler.c

    radio.conf is a raw memory dump of [opc_set_radio_config_req_t]. Its layout on the
    target (little-endian, no padding) is written out: two 16-bit words, then for each
    WLAN mode, bandwidth, the band word and the eight bytes of the channel list. *)
From S2P Require Import Prelude Codec ScanList Commands Store StoreAsync State.
From stdpp Require Import base list numbers option tactics strings.
From Stdlib Require Import ZArith Lia.
#[local] Open Scope Z_scope.

Module RadioConf.
Import Store.Store.

Definition OPCD_RADIO_CONF_LEGACY_LEN : Z := 16.
(** [sizeof(opc_set_radio_config_req_t)] *)
Definition RADIO_SIZE : Z := 28.

Definition le16 (x : Z) : list Z := [x mod 256; x / 256 mod 256].
Definition le16_read (b : list Z) (off : Z) : Z := rd b off + 256 * rd b (off + 1).

Definition wlan_bytes (w : opc_wlan_radio_cfg_t) : list Z :=
  [rc_mode w; rc_bandwidth w] ++ le16 (rc_scan_band w) ++ rc_scan_chlist w.
Definition radio_bytes (c : opc_set_radio_config_req_t) : list Z :=
  le16 (station_type c) ++ le16 (priority_ch c) ++ wlan_bytes (wlan1 c) ++ wlan_bytes (wlan2 c).

Definition wlan_of_bytes (b : list Z) (off : Z) : opc_wlan_radio_cfg_t :=
  mk_radio_cfg (rd b off) (rd b (off + 1)) (le16_read b (off + 2)) (slice (off + 4) 8 b).
Definition radio_of_bytes (b : list Z) : opc_set_radio_config_req_t :=
  mk_radio_config (le16_read b 0) (le16_read b 2) (wlan_of_bytes b 4) (wlan_of_bytes b 16).

(** The Rev1.00 layout: frequency, channel, mode, bandwidth per WLAN. *)
Record legacy_radio_wlan := mk_legacy_wlan {
  lw_freq_mhz : Z; lw_channel : Z; lw_mode : Z; lw_bandwidth : Z }.
Definition legacy_wlan_of_bytes (b : list Z) (off : Z) : legacy_radio_wlan :=
  mk_legacy_wlan (le16_read b off) (le16_read b (off + 2)) (rd b (off + 4)) (rd b (off + 5)).

Definition legacy_radio_wlan_convert (i : legacy_radio_wlan) : opc_wlan_radio_cfg_t :=
  let scan_band := if (2400 <=? lw_freq_mhz i) && (lw_freq_mhz i <=? 2484) then OPC_SCAN_BAND_2_4GHZ
                   else if (4900 <=? lw_freq_mhz i) && (lw_freq_mhz i <=? 5925) then OPC_SCAN_BAND_5GHZ
                   else OPC_SCAN_BAND_UNSET in
  let ch := Z.land (lw_channel i) 255 in
  let chlist := zeros OPC_SCAN_CHLIST_LEN in
  let chlist := if negb (scan_band =? OPC_SCAN_BAND_UNSET) && negb (ch =? 0)
                then opc_scan_list_set_channel chlist scan_band ch else chlist in
  mk_radio_cfg (lw_mode i) (lw_bandwidth i) scan_band chlist.

(** The C return value (0 exact, 1 legacy) with the decoded config; [None] for -1. *)
Definition opcd_radio_conf_decode (buf : list Z) : option (Z * opc_set_radio_config_req_t) :=
  let n := len buf in
  if n =? RADIO_SIZE then Some (0, radio_of_bytes buf)
  else if n =? OPCD_RADIO_CONF_LEGACY_LEN then
    Some (1, mk_radio_config (le16_read buf 0) (le16_read buf 2)
               (legacy_radio_wlan_convert (legacy_wlan_of_bytes buf 4))
               (legacy_radio_wlan_convert (legacy_wlan_of_bytes buf 10)))
  else None.

(** Result: (valid after migration, moved, the config after the in-place moves). *)
Definition opcd_radio_conf_migrate_lists (cfg : opc_set_radio_config_req_t)
    : bool * bool * opc_set_radio_config_req_t :=
  let dual := station_type cfg =? OPC_STATION_DUAL in
  let '(m1, l1) := opc_scan_list_normalize_rows (rc_scan_band (wlan1 cfg)) (rc_scan_chlist (wlan1 cfg)) in
  let '(m2, l2) := if dual then opc_scan_list_normalize_rows (rc_scan_band (wlan2 cfg)) (rc_scan_chlist (wlan2 cfg))
                   else (false, rc_scan_chlist (wlan2 cfg)) in
  let w1 := mk_radio_cfg (rc_mode (wlan1 cfg)) (rc_bandwidth (wlan1 cfg)) (rc_scan_band (wlan1 cfg)) l1 in
  let w2 := mk_radio_cfg (rc_mode (wlan2 cfg)) (rc_bandwidth (wlan2 cfg)) (rc_scan_band (wlan2 cfg)) l2 in
  let cfg := mk_radio_config (station_type cfg) (priority_ch cfg) w1 w2 in
  let ok := if negb (opc_scan_list_valid (rc_scan_band w1) (rc_scan_chlist w1)) then false
            else if dual && negb (opc_scan_list_valid (rc_scan_band w2) (rc_scan_chlist w2)) then false
            else true in
  (ok, m1 || m2, cfg).

Inductive opcd_radio_restore_t :=
  OPCD_RADIO_RESTORE_DISCARD_SIZE | OPCD_RADIO_RESTORE_DISCARD_INVALID
| OPCD_RADIO_RESTORE_COMMITTED | OPCD_RADIO_RESTORE_MIGRATED | OPCD_RADIO_RESTORE_LEGACY.
#[global] Instance radio_restore_eq_dec : EqDecision opcd_radio_restore_t.
Proof. solve_decision. Defined.

Definition radio_cfg_zero : opc_set_radio_config_req_t :=
  mk_radio_config 0 0 (mk_radio_cfg 0 0 0 (zeros 8)) (mk_radio_cfg 0 0 0 (zeros 8)).

(** The verdict, with the config left in [out] (only used for the last three). *)
Definition opcd_radio_conf_restore (buf : list Z) : opcd_radio_restore_t * opc_set_radio_config_req_t :=
  match (if 0 <? len buf then opcd_radio_conf_decode buf else None) with
  | None => (OPCD_RADIO_RESTORE_DISCARD_SIZE, radio_cfg_zero)
  | Some (rc, out) =>
      let '(ok, moved, out) := opcd_radio_conf_migrate_lists out in
      if negb ok then (OPCD_RADIO_RESTORE_DISCARD_INVALID, out)
      else if rc =? 1 then (OPCD_RADIO_RESTORE_LEGACY, out)
      else (if (moved : bool) then OPCD_RADIO_RESTORE_MIGRATED else OPCD_RADIO_RESTORE_COMMITTED, out)
  end.

Section Load.
Context {E : Type} `{Env E}.
(** [access(path, F_OK) == 0]: the path can be read from the store. *)
Definition marker_present (path : option string) : M E bool :=
  match path with
  | None => mret false
  | Some p => r ← call (env_read p 0); mret (bool_decide (is_Some r))
  end.

Definition opcd_radio_conf_load : M E opcd_radio_restore_t :=
  st ← get;
  r ← call (env_read (p_radio (paths st)) 64);
  let '(rr, loaded) := opcd_radio_conf_restore (default [] r) in
  match rr with
  | OPCD_RADIO_RESTORE_DISCARD_SIZE | OPCD_RADIO_RESTORE_DISCARD_INVALID =>
      modify (λ s, (s <| radio := mk_radio_config (default_station_type (conf s)) 0
                       (mk_radio_cfg 0 0 OPC_SCAN_BAND_UNSET (zeros 8))
                       (mk_radio_cfg 0 0 OPC_SCAN_BAND_UNSET (zeros 8)) |>)
                     <| radio_committed := false |>);;
      mret rr
  | _ =>
      modify (λ s, (s <| radio := loaded |>)
                     <| radio_committed := negb (bool_decide (rr = OPCD_RADIO_RESTORE_LEGACY)) |>);;
      st ← get;
      (if radio_committed st then
         m ← marker_present (p_radio_marker (paths st));
         whenM m (modify (λ s, s <| radio_committed := false |>))
       else mret tt);;
      (if bool_decide (rr = OPCD_RADIO_RESTORE_MIGRATED) then
         st ← get;
         w ← call (env_write (p_radio (paths st)) (radio_bytes (radio st)) 420);
         whenM (negb (w.1 =? 0)) (modify (λ s, s <| radio_committed := false |>))
       else mret tt);;
      mret rr
  end.
End Load.

(** ** Round trip *)

Definition wlan_ok (w : opc_wlan_radio_cfg_t) : Prop :=
  is_u8 (rc_mode w) ∧ is_u8 (rc_bandwidth w) ∧ is_u16 (rc_scan_band w) ∧ list_ok (rc_scan_chlist w).
Definition radio_ok (c : opc_set_radio_config_req_t) : Prop :=
  is_u16 (station_type c) ∧ is_u16 (priority_ch c) ∧ wlan_ok (wlan1 c) ∧ wlan_ok (wlan2 c).
#[global] Instance radio_ok_dec c : Decision (radio_ok c).
Proof. unfold radio_ok, wlan_ok. apply _. Defined.

(** The lists the validator looks at: WLAN#1's, and WLAN#2's for a dual station. *)
Definition lists_valid (c : opc_set_radio_config_req_t) : Prop :=
  opc_scan_list_valid (rc_scan_band (wlan1 c)) (rc_scan_chlist (wlan1 c)) = true ∧
  (station_type c = OPC_STATION_DUAL →
   opc_scan_list_valid (rc_scan_band (wlan2 c)) (rc_scan_chlist (wlan2 c)) = true).

Lemma le16_read_write x pre r off :
  is_u16 x → off = len pre → le16_read (pre ++ le16 x ++ r) off = x.
Proof.
  unfold is_u16. intros Hx ->. unfold le16_read, le16.
  rewrite (rd_app_r pre _ (len pre)), (rd_app_r pre _ (len pre + 1)) by lia.
  replace (len pre - len pre) with 0 by lia.
  replace (len pre + 1 - len pre) with 1 by lia.
  change (rd ([x mod 256; x / 256 mod 256] ++ r) 0) with (x mod 256).
  change (rd ([x mod 256; x / 256 mod 256] ++ r) 1) with (x / 256 mod 256).
  rewrite (Z.mod_small (x / 256) 256) by (Z.to_euclidean_division_equations; lia).
  pose proof (Z.div_mod x 256 ltac:(lia)). lia.
Qed.

Lemma wlan_of_bytes_roundtrip pre w r off :
  wlan_ok w → off = len pre → wlan_of_bytes (pre ++ wlan_bytes w ++ r) off = w.
Proof.
  intros (Hm & Hb & Hs & Hl) ->. destruct w as [m b s l]. unfold wlan_of_bytes, wlan_bytes.
  cbn [rc_mode rc_bandwidth rc_scan_band rc_scan_chlist app] in *.
  destruct Hl as [_ Hl]. unfold OPC_SCAN_CHLIST_LEN in Hl. f_equal.
  - rewrite rd_app_r by lia. by replace (len pre - len pre) with 0 by lia.
  - rewrite rd_app_r by lia. by replace (len pre + 1 - len pre) with 1 by lia.
  - replace (pre ++ m :: b :: (le16 s ++ l) ++ r) with ((pre ++ [m; b]) ++ le16 s ++ l ++ r)
      by (by rewrite <- !app_assoc).
    apply le16_read_write; [done|]. rewrite len_app. done.
  - replace (pre ++ m :: b :: (le16 s ++ l) ++ r) with ((pre ++ [m; b] ++ le16 s) ++ l ++ r)
      by (by rewrite <- !app_assoc).
    unfold slice. rewrite (drop_app_len (pre ++ [m; b] ++ le16 s)) by (rewrite !len_app; done).
    unfold len in Hl. rewrite take_app_length'; [done|]. lia.
Qed.

Lemma radio_of_bytes_roundtrip c : radio_ok c → radio_of_bytes (radio_bytes c) = c.
Proof.
  intros (Hs & Hp & H1 & H2). destruct c as [s p w1 w2]. unfold radio_of_bytes, radio_bytes.
  cbn [station_type priority_ch wlan1 wlan2] in *.
  assert (Hw : len (wlan_bytes w1) = 12).
  { destruct H1 as (_ & _ & _ & _ & Hl). unfold wlan_bytes. rewrite !len_app, Hl. done. }
  f_equal.
  - by apply (le16_read_write s []).
  - by apply (le16_read_write p (le16 s)).
  - replace (le16 s ++ le16 p ++ wlan_bytes w1 ++ wlan_bytes w2)
      with ((le16 s ++ le16 p) ++ wlan_bytes w1 ++ wlan_bytes w2) by (by rewrite <- app_assoc).
    by apply wlan_of_bytes_roundtrip.
  - replace (le16 s ++ le16 p ++ wlan_bytes w1 ++ wlan_bytes w2)
      with ((le16 s ++ le16 p ++ wlan_bytes w1) ++ wlan_bytes w2 ++ [])
      by (by rewrite app_nil_r, <- !app_assoc).
    apply wlan_of_bytes_roundtrip; [done|]. by rewrite !len_app, Hw.
Qed.

Lemma radio_bytes_len c : radio_ok c → len (radio_bytes c) = RADIO_SIZE.
Proof.
  intros (_ & _ & (_ & _ & _ & _ & H1) & (_ & _ & _ & _ & H2)). unfold radio_bytes, wlan_bytes.
  rewrite !len_app, H1, H2. done.
Qed.

Lemma normalize_valid band l :
  opc_scan_list_valid band l = true → opc_scan_list_normalize_rows band l = (false, l).
Proof.
  intros Hv. unfold opc_scan_list_normalize_rows. destruct (negb _ && negb _) eqn:E; [done|].
  unfold opc_scan_list_valid, opc_scan_band_known in Hv.
  assert (band = OPC_SCAN_BAND_2_4GHZ ∨ band = OPC_SCAN_BAND_5GHZ) as [-> | ->] by (guards; lia);
    cbn -[opc_scan_row_word row_bits_assigned] in Hv;
    (destruct (opc_scan_row_word l OPC_SCAN_ROW_B =? 0); [by rewrite orb_true_r|done]).
Qed.

Lemma migrate_valid c :
  lists_valid c → opcd_radio_conf_migrate_lists c = (true, false, c).
Proof.
  intros [H1 H2]. destruct c as [s p [m1 b1 s1 l1] [m2 b2 s2 l2]]. unfold opcd_radio_conf_migrate_lists.
  cbn in *. rewrite (normalize_valid _ _ H1), H1. destruct (s =? OPC_STATION_DUAL) eqn:E; guards; cbn.
  - rewrite (normalize_valid _ _ (H2 E)), (H2 E). done.
  - done.
Qed.

(** A configuration whose SCAN lists the validator accepts survives storage: the
    dump written to radio.conf is restored as committed, unchanged and not migrated. *)
Theorem radio_conf_roundtrip c :
  radio_ok c → lists_valid c →
  opcd_radio_conf_restore (radio_bytes c) = (OPCD_RADIO_RESTORE_COMMITTED, c).
Proof.
  intros Hc Hv. unfold opcd_radio_conf_restore, opcd_radio_conf_decode.
  rewrite radio_bytes_len by done. cbn -[opcd_radio_conf_migrate_lists radio_of_bytes radio_bytes].
  rewrite radio_of_bytes_roundtrip by done. by rewrite migrate_valid.
Qed.

Definition demo_radio : opc_set_radio_config_req_t :=
  mk_radio_config OPC_STATION_SINGLE 0 (mk_radio_cfg OPC_WLAN_MODE_11AC OPC_BANDWIDTH_20 OPC_SCAN_BAND_5GHZ [0;0;0;15;0;0;0;0])
    (mk_radio_cfg 0 0 0 (zeros 8)).
Lemma radio_conf_roundtrip_witness :
  opcd_radio_conf_restore (radio_bytes demo_radio) = (OPCD_RADIO_RESTORE_COMMITTED, demo_radio).
Proof.
  apply radio_conf_roundtrip; [apply (bool_decide_unpack _); vm_compute; exact I|].
  split; [reflexivity|discriminate].
Defined.
End RadioConf.
Export RadioConf.
