(* ===== verification/Persist.v ===== *)
(** * Persistence and deferred acknowledgments of opcd/handler.c

    The pending-ack table, admission, submission, the customer copy of the IP list, the
    SetRadioConfig transaction marker and revert, and the completion routine
    [opcd_store_async_on_ready]. With a writer attached the state holds the queue of
    [StoreAsync]; without one the writes go to the environment's store directly. The
    worker's own steps are taken between the daemon's operations: they move no slot that
    reserve, submit or cancel look at. Log lines and errno are left out. *)
From S2P Require Import Prelude Codec ScanList Commands Indications Store StoreAsync IpListText FaultProbe State Indication Validate RadioConf.
From stdpp Require Import base list numbers option tactics strings.
From Stdlib Require Import ZArith Lia.
#[local] Open Scope Z_scope.
Import Store.Store StoreAsync.StoreAsync IpListText.IpListText.

Module Persist.

(** [strncmp(a, b, n) == 0] *)
Definition strncmp_eq (n : nat) (a b : list Z) : bool := bool_decide (take n (cstr a) = take n (cstr b)).

Definition OPCD_STORE_TOKEN_MIRROR : Z := 18446744073709551614.

Definition emit_ack (packed : option (list Z)) : list Z := default [] packed.

Definition pending_ack_alloc (st : opcd_state_t) : option nat :=
  fst <$> list_find (λ a, pa_in_use a = false) (pending_acks st).

Definition pending_slot_for (st : opcd_state_t) (req_id ip port : Z) : option nat :=
  fst <$> list_find (λ a, pa_in_use a = true ∧ pa_req_id a = req_id ∧
                          pa_client_ip a = ip ∧ pa_client_port a = port) (pending_acks st).
Definition is_request_retransmission (st : opcd_state_t) (req_id ip port : Z) : bool :=
  bool_decide (is_Some (pending_slot_for st req_id ip port)).

Definition persist_resource_busy (st : opcd_state_t) (resource : opcd_persist_resource_t) : bool :=
  existsb (λ a, pa_in_use a && bool_decide (pa_resource a = resource)) (pending_acks st).

Section Persist.
Context {E : Type} `{Env E}.

(** An operation on the attached writer; [dflt] when there is none. *)
Definition with_store {A} (dflt : A) (f : opc_store_async → A * opc_store_async) : M E A :=
  st ← get;
  match store_async st with
  | None => mret dflt
  | Some sa => let '(x, sa) := f sa in
               modify (λ s, s <| store_async := Some sa |>);; mret x
  end.
Definition store_cancel (reservation : option nat) : M E unit :=
  match reservation with
  | None => mret tt
  | Some r => with_store tt (λ sa, (tt, opc_store_async_cancel sa r))
  end.

(** ** IP list files *)

(** The return value, 0 on success; -1 when the text does not fit or the write failed. *)
Definition iplist_write_user : M E Z :=
  st ← get;
  match opc_iplist_text_format (ip_list st) OPC_IPLIST_TEXT_MAX with
  | None => mret (-1)
  | Some text =>
      '(rc, outcome) ← (match p_ip_list_user (paths st) with
                        | Some user => call (env_write user text 420)
                        | None => mret (-1, OPC_STORE_UNCHANGED) end);
      (match p_ip_list_user_last (paths st) with
       | Some last => if bool_decide (outcome ≠ OPC_STORE_UNCHANGED)
                      then _ ← call (env_write last text 420); mret tt else mret tt
       | None => mret tt end);;
      mret rc
  end.

Definition iplist_mirror_user : M E unit :=
  st ← get;
  match p_ip_list_user (paths st) with
  | None => mret tt
  | Some user =>
      match opc_iplist_text_format (ip_list st) OPC_IPLIST_TEXT_MAX with
      | None => mret tt
      | Some text =>
          rc ← with_store (Some EINVAL) (λ sa,
            match p_ip_list_user_last (paths st) with
            | Some last => opc_store_async_submit_echo sa user last text 420 OPCD_STORE_TOKEN_MIRROR
            | None => opc_store_async_submit sa user text 420 OPCD_STORE_TOKEN_MIRROR
            end);
          match rc with
          | None => mret tt
          | Some _ => _ ← iplist_write_user; mret tt
          end
      end
  end.

(** ** Password outcome *)

Definition password_resend_of_unsynced (st : opcd_state_t) (req : opc_set_password_req_t) : bool :=
  password_unsynced st &&
  strncmp_eq 127 (sp_old_password req) (password_unsynced_prev st) &&
  strncmp_eq 127 (sp_new_password req) (password st).

Definition password_note_outcome (candidate : list Z) (outcome : opc_store_outcome_t) : M E unit :=
  modify (λ s, match outcome with
    | OPC_STORE_DURABLE => (s <| password_unsynced := false |>) <| password_unsynced_prev := zeros 128 |>
    | OPC_STORE_REPLACED_UNSYNCED =>
        if strncmp_eq 127 candidate (password s) then s
        else (s <| password_unsynced_prev := password s |>) <| password_unsynced := true |>
    | OPC_STORE_UNCHANGED => s
    end).

(** ** Radio transaction marker and revert *)

Definition radio_txn_arm (req : opc_set_radio_config_req_t) : M E Z :=
  st ← get;
  match p_radio_marker (paths st) with
  | None => mret 0
  | Some m => '(rc, _) ← call (env_write m (radio_bytes req) 420); mret rc
  end.
Definition radio_txn_clear : M E unit :=
  st ← get;
  match p_radio_marker (paths st) with
  | None => mret tt
  | Some m => _ ← call (env_unlink m); mret tt
  end.

Definition radio_arm_revert (baseline : opc_set_radio_config_req_t)
    (baseline_committed baseline_valid : bool) : M E unit :=
  modify (λ s,
    if negb baseline_valid then
      ((s <| radio_applied_known := false |>) <| radio_committed := false |>)
        <| radio_recovery_state := OPCD_RADIO_RECOVERY_DEGRADED_UNKNOWN_BASELINE |>
    else ((s <| radio_revert_cfg := baseline |>) <| radio_revert_committed := baseline_committed |>)
           <| radio_revert_pending := true |>).

Definition opcd_radio_revert_drain : M E unit :=
  st ← get;
  if negb (radio_revert_pending st) then mret tt
  else
    rc ← call (apply_radio_config (radio_revert_cfg st));
    modify (λ s,
      if negb (rc =? 0) then
        ((s <| radio_applied_known := false |>) <| radio_committed := false |>)
          <| radio_recovery_state := OPCD_RADIO_RECOVERY_DEGRADED_RESTORE_FAILED |>
      else (((s <| radio := radio_revert_cfg s |>) <| radio_committed := radio_revert_committed s |>)
              <| radio_applied_known := true |>)
             <| radio_recovery_state := OPCD_RADIO_RECOVERY_HEALTHY |>);;
    modify (λ s, s <| radio_revert_pending := false |>).

(** ** Deferred address change *)

Definition slot_present (l : opcd_ip_list_t) (n : Z) : bool :=
  negb (default 0 (present l !! Z.to_nat (n - 1)) =? 0).
Definition slot_at (l : opcd_ip_list_t) (n : Z) : opc_ipcfg_entry_t :=
  default ipcfg_entry_zero (slots l !! Z.to_nat (n - 1)).

Definition arm_ip_change_from_committed : M E unit :=
  modify (λ s,
    let n := ip_change_list_no s in
    if (1 <=? n) && (n <=? OPC_IPCFG_LIST_MAX_SLOTS) && negb (slot_present (ip_list s) n) then
      (s <| ip_change_pending := false |>) <| ip_change_list_no := 0 |>
    else if (1 <=? n) && (n <=? OPC_IPCFG_LIST_MAX_SLOTS) then
      ((s <| ip_change_armed_entry := slot_at (ip_list s) n |>) <| ip_change_armed_no := n |>)
        <| ip_change_commit_armed := true |>
    else s).

(** ** Completions *)

Definition on_done_password (outcome : opc_store_outcome_t) : M E unit :=
  st ← get;
  password_note_outcome (pending_password st) outcome;;
  modify (λ s, if bool_decide (outcome ≠ OPC_STORE_UNCHANGED)
               then s <| password := pending_password s |> else s);;
  modify (λ s, s <| pending_password := zeros 128 |>).

Definition on_done_ip_list (outcome : opc_store_outcome_t) : M E unit :=
  (if bool_decide (outcome ≠ OPC_STORE_UNCHANGED) then
     modify (λ s, s <| ip_list := pending_ip_list s |>);;
     iplist_mirror_user;;
     modify (λ s, if logged_in s && (session_generation s =? pending_ip_staging_session_generation s)
                  then (s <| ip_list_staging := pending_ip_staging s |>)
                         <| ip_list_staging_active := pending_ip_staging_active s |>
                  else s)
   else mret tt);;
  modify (λ s, (((s <| pending_ip_list := ip_list_zero |>) <| pending_ip_staging := ip_list_zero |>)
                  <| pending_ip_staging_active := false |>)
                 <| pending_ip_staging_session_generation := 0 |>);;
  st ← get;
  if ip_change_logout_deferred st then
    modify (λ s, s <| ip_change_logout_deferred := false |>);;
    if ip_change_pending st && negb (ip_change_commit_armed st)
    then arm_ip_change_from_committed else mret tt
  else mret tt.

Definition on_done_radio (gen : Z) (outcome : opc_store_outcome_t) : M E unit :=
  st ← get;
  (if gen =? radio_gen st then
     match outcome with
     | OPC_STORE_DURABLE => modify (λ s, s <| radio_committed := true |>);; radio_txn_clear
     | OPC_STORE_REPLACED_UNSYNCED => modify (λ s, s <| radio_committed := false |>)
     | OPC_STORE_UNCHANGED =>
         modify (λ s, s <| radio_committed := false |>);;
         radio_arm_revert (radio_revert_cfg st) (radio_revert_committed st)
           (radio_persist_baseline_valid st);;
         opcd_radio_revert_drain
     end
   else mret tt);;
  modify (λ s, s <| radio_persist_baseline_valid := false |>).

Definition on_done_ack (pa : opcd_pending_ack_t) (a : opc_simple_ack_t) : list Z :=
  if pa_req_id pa =? OPC_REQ_SET_PASSWORD then
    emit_ack (opc_set_password_ack_pack OPC_FRAME_MAX (pa_seq pa) a)
  else if pa_req_id pa =? OPC_REQ_SET_IP_CONFIG_LIST then
    emit_ack (opc_set_ip_config_list_ack_pack OPC_FRAME_MAX (pa_seq pa) a)
  else if pa_req_id pa =? OPC_REQ_SET_RADIO_CONFIG then
    emit_ack (opc_set_radio_config_ack_pack OPC_FRAME_MAX (pa_seq pa) a)
  else [].

(** One completion of the drain. *)
Definition on_done (d : opc_store_async_done_t) : M E unit :=
  if d_token d =? OPCD_STORE_TOKEN_MIRROR then mret tt
  else if Z.of_nat OPCD_PENDING_ACK_MAX <=? d_token d then mret tt
  else
    let slot := Z.to_nat (d_token d) in
    st ← get;
    let pa := default pending_ack_zero (pending_acks st !! slot) in
    if negb (pa_in_use pa) then mret tt
    else
      let a := if d_result d =? 0 then mk_simple_ack OPC_RESULT_OK OPC_ERR_NONE
               else mk_simple_ack OPC_RESULT_NG OPC_ERR_NVRAM in
      (match pa_resource pa with
       | OPCD_PERSIST_PASSWORD => on_done_password (d_outcome d)
       | OPCD_PERSIST_IP_LIST => on_done_ip_list (d_outcome d)
       | _ => mret tt end);;
      whenM (pa_req_id pa =? OPC_REQ_SET_RADIO_CONFIG) (on_done_radio (pa_radio_gen pa) (d_outcome d));;
      let resp := on_done_ack pa a in
      st ← get;
      (if negb (pa_no_ack pa) && (0 <? len resp) && (0 <=? udp_fd st) then
         _ ← sendto (pa_client_ip pa) (pa_client_port pa) resp; mret tt
       else mret tt);;
      modify (λ s, s <| pending_acks := alter (λ p, p <| pa_in_use := false |>) slot (pending_acks s) |>).

Fixpoint on_done_all (ds : list opc_store_async_done_t) : M E unit :=
  match ds with [] => mret tt | d :: ds' => on_done d;; on_done_all ds' end.

Definition opcd_store_async_on_ready : M E unit :=
  done ← with_store [] (opc_store_async_drain DEPTH);
  on_done_all done.

(** ** Admission and submission *)

(** [persist_admit]: admitted with a reservation (none without a writer), left
    unaccepted (1), or refused (-1). *)
Inductive admission := AdmOk (reservation : option nat) | AdmBusy | AdmFail.

(** One turn of the loop; [None] goes round again. *)
Definition admit_attempt (resource : opcd_persist_resource_t) (path : string) (ln : Z)
    : M E (option admission) :=
  st ← get;
  if persist_resource_busy st resource then mret (Some AdmBusy)
  else match pending_ack_alloc st with
       | None => mret None
       | Some _ =>
           r ← with_store (inl EAGAIN) (λ sa, opc_store_async_reserve sa path ln);
           match r with
           | inr reservation => mret (Some (AdmOk (Some reservation)))
           | inl EAGAIN => mret None
           | inl _ => mret (Some AdmFail)
           end
       end.

Definition persist_admit (resource : opcd_persist_resource_t) (path : string) (ln : Z)
    : M E admission :=
  st ← get;
  match store_async st with
  | None => mret (AdmOk None)
  | Some _ =>
      a ← admit_attempt resource path ln;
      match a with
      | Some v => mret v
      | None =>
          opcd_store_async_on_ready;;
          a ← admit_attempt resource path ln;
          mret (default AdmBusy a)
      end
  end.

(** The C return value, whether the ack is deferred, and the outcome. *)
Record persist_result := mk_persist { pr_rc : Z; pr_deferred : bool; pr_outcome : opc_store_outcome_t }.

Definition persist_blob (path : string) (data : list Z) (mode : Z)
    (resource : opcd_persist_resource_t) (no_ack : bool) (req_id ip port seq : Z)
    (reservation : option nat) : M E persist_result :=
  st ← get;
  match store_async st with
  | None => '(rc, outcome) ← call (env_write path data mode); mret (mk_persist rc false outcome)
  | Some _ =>
      match pending_ack_alloc st with
      | None => store_cancel reservation;; mret (mk_persist (-1) false OPC_STORE_UNCHANGED)
      | Some slot =>
          r ← (match reservation with
               | None => mret (Some EINVAL)
               | Some rv => with_store (Some EINVAL) (λ sa,
                   opc_store_async_submit_reserved sa rv data mode (Z.of_nat slot))
               end);
          match r with
          | Some _ => store_cancel reservation;; mret (mk_persist (-1) false OPC_STORE_UNCHANGED)
          | None =>
              modify (λ s, s <| pending_acks := <[slot :=
                mk_pending_ack true no_ack resource req_id seq 0 ip port]> (pending_acks s) |>);;
              mret (mk_persist 0 true OPC_STORE_UNCHANGED)
          end
      end
  end.

Definition persist_password (candidate : list Z) (ip port seq : Z) (reservation : option nat)
    : M E persist_result :=
  st ← get;
  persist_blob (p_password (paths st)) candidate 384 OPCD_PERSIST_PASSWORD false
    OPC_REQ_SET_PASSWORD ip port seq reservation.

Definition persist_radio (ip port seq : Z) (reservation : option nat) : M E persist_result :=
  st ← get;
  persist_blob (p_radio (paths st)) (radio_bytes (radio st)) 420 OPCD_PERSIST_RADIO false
    OPC_REQ_SET_RADIO_CONFIG ip port seq reservation.

Definition persist_ip_list (ip port seq : Z) (reservation : option nat) (no_ack : bool)
    (candidate : opcd_ip_list_t) : M E persist_result :=
  st ← get;
  match opc_iplist_text_format candidate OPC_IPLIST_TEXT_MAX with
  | None => store_cancel reservation;; mret (mk_persist (-1) false OPC_STORE_UNCHANGED)
  | Some text =>
      persist_blob (p_ip_list (paths st)) text 420 OPCD_PERSIST_IP_LIST no_ack
        OPC_REQ_SET_IP_CONFIG_LIST ip port seq reservation
  end.
End Persist.
End Persist.
Export Persist.
