(* ===== verification/Handlers.v ===== *)
(** * Command handlers and dispatch: opcd/handler.c

    One definition per handler, in the monad of [State]; the result is the response
    frame, [[]] for no response. A handler's request and acknowledgment go through the
    codecs of [Commands]. Log lines are left out. *)
From S2P Require Import Prelude Codec ScanList Commands Indications Store StoreAsync IpListText FaultProbe State Indication Validate RadioConf Persist.
From stdpp Require Import base list numbers option tactics strings.
From Stdlib Require Import ZArith Lia.
#[local] Open Scope Z_scope.
Import Store.Store StoreAsync.StoreAsync IpListText.IpListText.

Module Handlers.

#[global] Instance eta_radio_state : Eta opc_wlan_radio_state_t := λ w,
  mk_radio_state (rs_mac w) (rs_mode w) (rs_bandwidth w) (rs_freq_mhz w) (rs_channel w)
    (rs_status w) (rs_snr w) (rs_rssi w) (rs_connect_ap_mac w) (rs_scan_band w) (rs_scan_chlist w).
Definition radio_state_zero : opc_wlan_radio_state_t :=
  mk_radio_state (zeros 6) 0 0 0 0 0 0 0 (zeros 6) 0 (zeros 8).
#[global] Instance eta_device_info : Eta opc_get_device_info_ack_t := λ d,
  mk_device_info (di_result d) (di_error_cause d) (di_vendor_code d) (di_product_code d)
    (di_product_subcode d) (di_manufacture d) (di_shipment d) (di_firmware_version d)
    (di_hardware_version d) (di_serial_number d) (di_ethernet_mac d) (di_ip_address d)
    (di_subnet_mask d) (di_default_gateway d) (di_ntp_server d) (di_essid d) (di_device_status d)
    (di_station_type d) (di_priority_ch d) (di_ieee_11r d) (di_ieee_11ai d) (di_ieee_11k d)
    (di_ieee_11v d) (di_wlan1 d) (di_wlan2 d).
Definition device_info_zero : opc_get_device_info_ack_t :=
  mk_device_info 0 0 0 0 0 (mk_date 0 0 0) (mk_date 0 0 0) (zeros 32) (zeros 32) (zeros 32)
    (zeros 6) 0 0 0 0 (zeros 32) 0 0 0 0 0 0 0 radio_state_zero radio_state_zero.

Definition devinfo_wlan_unassociated (w : opc_wlan_radio_state_t) : opc_wlan_radio_state_t :=
  (((((w <| rs_freq_mhz := OPC_WLAN_FREQ_UNSET |>) <| rs_channel := OPC_WLAN_CH_UNSET |>)
       <| rs_status := 0 |>) <| rs_snr := OPC_WLAN_SIGNAL_INVALID |>)
       <| rs_rssi := OPC_WLAN_SIGNAL_INVALID |>) <| rs_connect_ap_mac := zeros 6 |>.

Definition devinfo_wlan_invalid : opc_wlan_radio_state_t :=
  mk_radio_state (zeros 6) OPC_WLAN_MODE_UNSET OPC_BANDWIDTH_UNSET OPC_WLAN_FREQ_UNSET
    OPC_WLAN_CH_UNSET OPC_WLAN_STATUS_INVALID OPC_WLAN_SIGNAL_INVALID OPC_WLAN_SIGNAL_INVALID
    (zeros 6) OPC_SCAN_BAND_UNSET (zeros 8).

(** The measured fields of an associated link; (state, associated, live freq, live ch). *)
Definition devinfo_wlan_link (w : opc_wlan_radio_state_t) (link : option opcd_platform_link_t)
    : opc_wlan_radio_state_t * bool * Z * Z :=
  match link with
  | Some l =>
      if l_associated l then
        let w := w <| rs_connect_ap_mac := l_bssid l |> in
        let w := if l_snr_valid l then w <| rs_snr := l_snr l |> else w in
        let w := if l_rssi_valid l then w <| rs_rssi := l_rssi l |> else w in
        (w <| rs_status := 1 |>, true, l_freq_mhz l, l_channel l)
      else (w, false, 0, 0)
  | None => (w, false, 0, 0)
  end.

(** *** The entry loop of SetIpConfigList *)

Record ipcfg_loop := mk_ipcfg_loop {
  il_candidate : opcd_ip_list_t; il_staging : opcd_ip_list_t; il_active : bool; il_committed : bool }.

Definition set_slot (l : opcd_ip_list_t) (slot : nat) (e : opc_ipcfg_entry_t) (p : Z) : opcd_ip_list_t :=
  mk_ip_list (<[slot := e]> (slots l)) (<[slot := p]> (present l)).

(** One entry: the new loop state, or the error that ends the loop. *)
Definition ipcfg_step (mask : Z) (i : nat) (e : opc_ipcfg_entry_t) (s : ipcfg_loop) : Z + ipcfg_loop :=
  if (list_number e <? 1) || (OPC_IPCFG_LIST_MAX_SLOTS <? list_number e) then inl OPC_ERR_SLOT_RANGE
  else
    let clear_slot := ip_address e =? 0 in
    let verr := if clear_slot then 0
                else ipcfg_entry_error e (negb (Z.land (Z.shiftr mask (Z.of_nat i)) 1 =? 0)) in
    if negb (verr =? 0) then inl verr
    else
      let flag := boundary_flag e in
      let opens := (flag =? OPC_LIST_BOUNDARY_START) || (flag =? OPC_LIST_BOUNDARY_START_END) in
      let closes := (flag =? OPC_LIST_BOUNDARY_END) || (flag =? OPC_LIST_BOUNDARY_START_END) in
      if negb opens && negb (il_active s) then inl OPC_ERR_LIST_SEQUENCE
      else
        let staging := if opens then il_candidate s else il_staging s in
        let slot := Z.to_nat (list_number e - 1) in
        let staging := if clear_slot then set_slot staging slot ipcfg_entry_zero 0
                       else set_slot staging slot e 1 in
        inr (if closes then mk_ipcfg_loop staging ip_list_zero false true
             else mk_ipcfg_loop (il_candidate s) staging true (il_committed s)).

Fixpoint ipcfg_run (mask : Z) (i : nat) (es : list opc_ipcfg_entry_t) (s : ipcfg_loop)
    : option Z * ipcfg_loop :=
  match es with
  | [] => (None, s)
  | e :: es' =>
      match ipcfg_step mask i e s with
      | inl err => (Some err, s)
      | inr s => ipcfg_run mask (S i) es' s
      end
  end.

Section Handlers.
Context {E : Type} `{Env E}.

(** ** Session *)

Definition mono_now : M E Z := call env_mono.

Definition session_touch : M E unit :=
  now ← mono_now;
  modify (λ s, s <| idle_deadline := now + login_idle_s (conf s) |>).

Definition session_owns (st : opcd_state_t) (client_ip : Z) : bool :=
  logged_in st && (holder_ip st =? client_ip).

Definition effective_station_type (st : opcd_state_t) : Z :=
  if negb (station_type (radio st) =? 0) then station_type (radio st)
  else default_station_type (conf st).

(** [None]: the session may proceed; [Some err]: NG with that cause. *)
Definition check_login_required (client_ip : Z) : M E (option Z) :=
  st ← get;
  if negb (logged_in st) then mret (Some OPC_ERR_LOGIN_VIOLATION)
  else if negb (session_owns st client_ip) then mret (Some OPC_ERR_LOGIN_CONDITION)
  else session_touch;; mret None.

Definition mgmt_ip_iface_idx (st : opcd_state_t) : Z :=
  match management_topology (conf st) with
  | OPC_TOPOLOGY_PEER_ROUTE => 1
  | OPC_TOPOLOGY_ETH0_IP =>
      match device_ip_iface (conf st) with OPC_IP_IFACE_MLAN0 => 1 | OPC_IP_IFACE_ETH0 => 0 end
  end.

Definition opcd_session_logout : M E unit :=
  _ ← opcd_ind_init_complete OPC_INIT_STATE_LOGGED_OUT;
  modify (λ s, ((((s <| session_generation := u32 (session_generation s + 1) |>)
                   <| logged_in := false |>) <| boot_status := OPC_DEVICE_READY |>)
                   <| ip_list_staging_active := false |>) <| ip_list_staging := ip_list_zero |>).

Definition indication_recipient_reachable (ip_host : Z) : M E bool :=
  if Z.shiftr ip_host 24 =? 127 then mret true
  else
    r ← call (lookup_direct_route ip_host);
    mret (match r with
          | None => false
          | Some mask => negb ((mask <? 4294967294) && (ip_host =? Z.lor ip_host (not32 mask)))
          end).

(** The acknowledgment of a verdict: OK, or NG with a cause. *)
Definition verdict (e : option Z) : opc_simple_ack_t :=
  match e with
  | None => mk_simple_ack OPC_RESULT_OK OPC_ERR_NONE
  | Some err => mk_simple_ack OPC_RESULT_NG err
  end.

(** ** Login and Logout *)

Definition login_error (st : opcd_state_t) (frame : list Z) (ip : Z) : option Z :=
  match opc_login_req_unpack frame with
  | None => Some OPC_ERR_PACKET_SIZE
  | Some req =>
      if boot_status st =? OPC_DEVICE_BOOTING then Some OPC_ERR_LOGIN_VIOLATION
      else if logged_in st && negb (holder_ip st =? ip) then Some OPC_ERR_LOGIN_CONDITION
      else if negb (lr_password_terminated req) then Some OPC_ERR_PW_NUL
      else if negb (valid_opc_charset (lr_password req)) then Some OPC_ERR_LOGIN_PW_CHAR
      else if rd (password st) 0 =? 0 then Some OPC_ERR_PASSWORD_MISMATCH
      else if negb (strncmp_eq 127 (lr_password req) (password st)) then Some OPC_ERR_PASSWORD_MISMATCH
      else None
  end.

Definition handle_login (frame : list Z) (ip port rcap seq : Z) : M E (list Z) :=
  st ← get;
  let err := login_error st frame ip in
  (match err with
   | Some _ => mret tt
   | None =>
       let was_active := logged_in st in
       modify (λ s, if negb was_active
                    then s <| session_generation := u32 (session_generation s + 1) |> else s);;
       modify (λ s, (((s <| logged_in := true |>) <| holder_ip := ip |>) <| holder_port := port |>)
                      <| boot_status := OPC_DEVICE_LOGGED_IN |>);;
       modify (λ s, if negb was_active && negb (ip_change_commit_armed s) &&
                       negb (ip_change_logout_deferred s)
                    then ((s <| ip_change_pending := false |>) <| ip_change_list_no := 0 |>)
                           <| ip_change_commit_armed := false |>
                    else s);;
       session_touch;;
       _ ← opcd_ind_init_complete OPC_INIT_STATE_LOGGED_IN; mret tt
   end);;
  mret (emit_ack (opc_login_ack_pack rcap seq (verdict err))).

Definition logout_error (st : opcd_state_t) (frame : list Z) (ip : Z) : option Z :=
  match opc_logout_req_unpack frame with
  | None => Some OPC_ERR_PACKET_SIZE
  | Some _ => if negb (logged_in st) then Some OPC_ERR_LOGIN_VIOLATION
              else if negb (session_owns st ip) then Some OPC_ERR_LOGIN_CONDITION
              else None
  end.

Definition handle_logout (frame : list Z) (ip port rcap seq : Z) : M E (list Z) :=
  st ← get;
  let err := logout_error st frame ip in
  (match err with
   | Some _ => mret tt
   | None =>
       (if ip_change_pending st && negb (ip_change_commit_armed st) then
          if persist_resource_busy st OPCD_PERSIST_IP_LIST
          then modify (λ s, s <| ip_change_logout_deferred := true |>)
          else arm_ip_change_from_committed
        else mret tt);;
       opcd_session_logout
   end);;
  mret (emit_ack (opc_logout_ack_pack rcap seq (verdict err))).

(** ** Queries *)

Definition pack_basic_info_ack (rcap seq : Z) : M E (option (list Z)) :=
  st ← get;
  inv ← query opcd_inventory;
  mret (opc_get_basic_info_ack_pack rcap seq
    (mk_basic_info (inv_vendor_code inv) (inv_product_code inv) (inv_product_subcode inv)
       (boot_status st) (effective_station_type st))).

Definition handle_get_basic_info (frame : list Z) (ip port rcap seq : Z) : M E (list Z) :=
  match opc_get_basic_info_req_unpack frame with
  | None => mret (emit_ack (opc_simple_ack_pack rcap OPC_REQ_GET_BASIC_INFO seq
                    OPC_SIMPLE_ACK_LENGTH OPC_RESULT_NG OPC_ERR_PACKET_SIZE))
  | Some _ =>
      st ← get;
      whenM (session_owns st ip) session_touch;;
      p ← pack_basic_info_ack rcap seq;
      mret (emit_ack p)
  end.

Definition devinfo_wlan_cfg (cfg : opc_wlan_radio_cfg_t) (iface : string)
    (w : opc_wlan_radio_state_t) : M E opc_wlan_radio_state_t :=
  if negb (rc_mode cfg =? 0) && negb (rc_mode cfg =? OPC_WLAN_MODE_UNSET)
  then mret ((w <| rs_mode := rc_mode cfg |>) <| rs_bandwidth := rc_bandwidth cfg |>)
  else '(mode, bw) ← call (opcd_devinfo_cfg_read iface);
       mret ((w <| rs_mode := mode |>) <| rs_bandwidth := bw |>).

(** The configured fields of one WLAN: SCAN band and list, the frequency source toggle,
    mode and bandwidth. *)
Definition devinfo_wlan_fill (cfg : opc_wlan_radio_cfg_t) (iface : string)
    (w : opc_wlan_radio_state_t) (assoc : bool) (lfreq lch : Z) : M E opc_wlan_radio_state_t :=
  st ← get;
  let w := (w <| rs_scan_band := opc_scan_band_or_unset (rc_scan_band cfg) |>)
             <| rs_scan_chlist := rc_scan_chlist cfg |> in
  let '(cfreq, cch) := opc_scan_derive_freq_ch (rs_scan_band w) (rs_scan_chlist w) in
  let '(freq, ch) := select_devinfo_freq_ch (device_info_freq_source (conf st)) assoc lfreq lch cfreq cch in
  devinfo_wlan_cfg cfg iface ((w <| rs_freq_mhz := freq |>) <| rs_channel := ch |>).

(** The readbacks of the platform into a zeroed acknowledgment, and the live frequency
    data of both WLANs. *)
Definition device_info_read : M E (opc_get_device_info_ack_t * (bool * Z * Z) * (bool * Z * Z)) :=
  st ← get;
  inv ← query opcd_inventory;
  fw ← call get_firmware_version;
  ntp ← call get_ntp_server;
  eth ← call get_eth_mac;
  '(_, (ip, mask, gw)) ← call (get_dev_ipv4 (mgmt_ip_iface_idx st));
  mac1 ← call (get_wlan_mac 0);
  ess ← call (get_essid 0);
  link1 ← call (get_link 0);
  let '(w1, a1, f1, c1) :=
    devinfo_wlan_link (devinfo_wlan_unassociated (radio_state_zero <| rs_mac := mac1 |>)) link1 in
  '(w2, a2, f2, c2) ←
    (if station_type (radio st) =? OPC_STATION_DUAL then
       mac2 ← call (get_wlan_mac 1);
       link2 ← call (get_link 1);
       mret (devinfo_wlan_link (devinfo_wlan_unassociated (radio_state_zero <| rs_mac := mac2 |>)) link2)
     else mret (radio_state_zero, false, 0, 0));
  mret (mk_device_info 0 0 (inv_vendor_code inv) (inv_product_code inv) (inv_product_subcode inv)
          (inv_manufacture_date inv) (inv_shipment_date inv) fw (inv_hardware_version inv)
          (inv_serial_number inv) eth ip mask gw ntp ess 0 0 0 (inv_ieee_11r inv)
          (inv_ieee_11ai inv) (inv_ieee_11k inv) (inv_ieee_11v inv) w1 w2,
        (a1, f1, c1), (a2, f2, c2)).

Definition device_info_fill : M E opc_get_device_info_ack_t :=
  '(ack, (a1, f1, c1), (a2, f2, c2)) ← device_info_read;
  session_touch;;
  st ← get;
  let stype := effective_station_type st in
  let ack := ((ack <| di_device_status := boot_status st |>) <| di_station_type := stype |>)
    <| di_priority_ch := if (stype =? OPC_STATION_DUAL) && negb (priority_ch (radio st) =? 0)
                         then priority_ch (radio st) else OPC_PRIORITY_CH_UNSET |> in
  w1 ← devinfo_wlan_fill (wlan1 (radio st)) "mlan0" (di_wlan1 ack) a1 f1 c1;
  let ack := ack <| di_wlan1 := w1 |> in
  if negb (stype =? OPC_STATION_DUAL) then mret (ack <| di_wlan2 := devinfo_wlan_invalid |>)
  else w2 ← devinfo_wlan_fill (wlan2 (radio st)) "mlan1" (di_wlan2 ack) a2 f2 c2;
       mret (ack <| di_wlan2 := w2 |>).

Definition handle_get_device_info (frame : list Z) (ip port rcap seq : Z) : M E (list Z) :=
  '(err, ack) ←
    (match opc_get_device_info_req_unpack frame with
     | None => mret (Some OPC_ERR_PACKET_SIZE, device_info_zero)
     | Some _ =>
         e ← check_login_required ip;
         match e with
         | Some err => mret (Some err, device_info_zero)
         | None =>
             st ← get;
             if indication_enabled st
             then mret (Some OPC_ERR_INDICATION_SETTING_VIOLATION, device_info_zero)
             else ack ← device_info_fill; mret (None, ack)
         end
     end);
  let ack := (ack <| di_result := result (verdict err) |>) <| di_error_cause := error_cause (verdict err) |> in
  let resp := emit_ack (opc_get_device_info_ack_pack rcap seq ack) in
  _ ← call (opcd_snapshot_publish ack);
  mret resp.

(** ** SetPassword *)

(** The value checks, in the handler's order; [newlen] is the new password's length. *)
Definition set_password_error (st : opcd_state_t) (req : opc_set_password_req_t) (newlen : Z) : option Z :=
  if negb (sp_old_password_terminated req) then Some OPC_ERR_PW_NUL
  else if negb (sp_new_password_terminated req) then Some OPC_ERR_NEW_PW_NUL
  else if negb (valid_opc_charset (sp_old_password req)) then Some OPC_ERR_OLD_PW_CHAR
  else if (newlen =? 0) || negb (valid_opc_charset (sp_new_password req)) then Some OPC_ERR_NEW_PW_CHAR
  else if negb (strncmp_eq 127 (sp_old_password req) (password st)) &&
          negb (password_resend_of_unsynced st req) then Some OPC_ERR_PASSWORD_MISMATCH
  else None.

(** From admission on: [None] is "no response now", [Some verdict] an immediate one. *)
Definition set_password_store (req : opc_set_password_req_t) (newlen ip port seq : Z)
    : M E (option (option Z)) :=
  st ← get;
  a ← persist_admit OPCD_PERSIST_PASSWORD (p_password (paths st)) newlen;
  match a with
  | AdmBusy => session_touch;; mret None
  | AdmFail => mret (Some (Some OPC_ERR_NVRAM))
  | AdmOk reservation =>
      let data := take (Z.to_nat newlen) (sp_new_password req) in
      let candidate := write_at 0 data (zeros 128) in
      pr ← persist_password data ip port seq reservation;
      session_touch;;
      if pr_deferred pr then
        modify (λ s, s <| pending_password := candidate |>);; mret None
      else
        password_note_outcome candidate (pr_outcome pr);;
        modify (λ s, if bool_decide (pr_outcome pr ≠ OPC_STORE_UNCHANGED)
                     then s <| password := candidate |> else s);;
        mret (Some (if negb (pr_rc pr =? 0) then Some OPC_ERR_NVRAM else None))
  end.

Definition handle_set_password (frame : list Z) (ip port rcap seq : Z) : M E (list Z) :=
  r ← (match opc_set_password_req_unpack frame with
       | None => mret (Some (Some OPC_ERR_PACKET_SIZE))
       | Some req =>
           e ← check_login_required ip;
           match e with
           | Some err => mret (Some (Some err))
           | None =>
               st ← get;
               let newlen := opc_bounded_strnlen (sp_new_password req) 127 in
               if persist_resource_busy st OPCD_PERSIST_PASSWORD then session_touch;; mret None
               else match set_password_error st req newlen with
                    | Some err => mret (Some (Some err))
                    | None => set_password_store req newlen ip port seq
                    end
           end
       end);
  mret (match r with
        | None => []
        | Some v => emit_ack (opc_set_password_ack_pack rcap seq (verdict v))
        end).

(** ** SetIpConfigList *)

Definition set_ip_config_store (req : opc_set_ip_config_list_req_t) (ip port seq : Z)
    : M E (option (option Z)) :=
  st ← get;
  a ← persist_admit OPCD_PERSIST_IP_LIST (p_ip_list (paths st)) OPC_IPLIST_TEXT_MAX;
  match a with
  | AdmBusy => session_touch;; mret None
  | AdmFail => mret (Some (Some OPC_ERR_NVRAM))
  | AdmOk reservation =>
      st ← get;
      let '(err, s) := ipcfg_run (essid_terminated_mask req) 0 (entries req)
        (mk_ipcfg_loop (ip_list st) (ip_list_staging st) (ip_list_staging_active st) false) in
      session_touch;;
      if il_committed s then
        let no_ack := bool_decide (is_Some err) in
        pr ← persist_ip_list ip port seq reservation no_ack (il_candidate s);
        let err := match err with
                   | None => if negb (pr_rc pr =? 0) then Some OPC_ERR_NVRAM else None
                   | Some _ => err end in
        if pr_deferred pr then
          modify (λ st, (((st <| pending_ip_list := il_candidate s |>)
                            <| pending_ip_staging := il_staging s |>)
                            <| pending_ip_staging_active := il_active s |>)
                           <| pending_ip_staging_session_generation := session_generation st |>);;
          mret (if negb no_ack then None else Some err)
        else
          (if bool_decide (pr_outcome pr ≠ OPC_STORE_UNCHANGED) then
             modify (λ st, ((st <| ip_list := il_candidate s |>) <| ip_list_staging := il_staging s |>)
                             <| ip_list_staging_active := il_active s |>);;
             iplist_mirror_user
           else mret tt);;
          mret (Some err)
      else
        modify (λ st, (st <| ip_list_staging := il_staging s |>) <| ip_list_staging_active := il_active s |>);;
        store_cancel reservation;;
        mret (Some err)
  end.

Definition handle_set_ip_config_list (frame : list Z) (ip port rcap seq : Z) : M E (list Z) :=
  r ← (match opc_set_ip_config_list_req_unpack frame with
       | OPC_UNPACK_ERR_LIST_SIZE => mret (Some (Some OPC_ERR_IPCFG_LIST_SIZE))
       | UnpackErr => mret (Some (Some OPC_ERR_PACKET_SIZE))
       | UnpackOk req =>
           e ← check_login_required ip;
           match e with
           | Some err => mret (Some (Some err))
           | None =>
               st ← get;
               if is_request_retransmission st OPC_REQ_SET_IP_CONFIG_LIST ip port
               then session_touch;; mret None
               else set_ip_config_store req ip port seq
           end
       end);
  mret (match r with
        | None => []
        | Some v => emit_ack (opc_set_ip_config_list_ack_pack rcap seq (verdict v))
        end).

(** ** ChangeIpAddress *)

Definition ipcfg_clashes_other_iface (e : opc_ipcfg_entry_t) : M E bool :=
  st ← get;
  let other := if mgmt_ip_iface_idx st =? 0 then 1 else 0 in
  '(rc, (oip, omask, _)) ← call (get_dev_ipv4 other);
  mret (if negb (rc =? 0) then false else subnets_clash e oip omask).

Definition handle_change_ip_address (frame : list Z) (ip port rcap seq : Z) : M E (list Z) :=
  err ← (match opc_change_ip_address_req_unpack frame with
         | None => mret (Some OPC_ERR_PACKET_SIZE)
         | Some req =>
             e ← check_login_required ip;
             match e with
             | Some err => mret (Some err)
             | None =>
                 st ← get;
                 let n := ci_list_number req in
                 if ip_change_commit_armed st || ip_change_logout_deferred st
                 then mret (Some OPC_ERR_IP_CHANGE_CONFLICT)
                 else if ip_list_staging_active st then mret (Some OPC_ERR_IP_CHANGE_CONFLICT)
                 else if (n <? 1) || (OPC_IPCFG_LIST_MAX_SLOTS <? n) then mret (Some OPC_ERR_SLOT_RANGE)
                 else if negb (slot_present (ip_list st) n) then mret (Some OPC_ERR_SLOT_EMPTY)
                 else
                   clash ← ipcfg_clashes_other_iface (slot_at (ip_list st) n);
                   if (clash : bool) then mret (Some OPC_ERR_IP_CHANGE_CLASH)
                   else modify (λ s, (s <| ip_change_pending := true |>) <| ip_change_list_no := n |>);;
                        session_touch;; mret None
             end
         end);
  mret (emit_ack (opc_change_ip_address_ack_pack rcap seq (verdict err))).

(** ** SetRadioConfig *)

(** From the transaction marker on, with the writer slot reserved. *)
Definition set_radio_apply (req : opc_set_radio_config_req_t) (reservation : option nat)
    (ip port seq : Z) : M E (option (option Z)) :=
  st ← get;
  let baseline := radio st in
  let baseline_committed := radio_committed st in
  let baseline_valid := radio_baseline_covers st req in
  arc ← radio_txn_arm req;
  if negb (arc =? 0) then
    store_cancel reservation;; session_touch;; mret (Some (Some OPC_ERR_NVRAM))
  else
    rc ← call (apply_radio_config req);
    if negb (rc =? 0) then
      store_cancel reservation;;
      whenM (radio_cfg_differs req baseline)
        (radio_arm_revert baseline baseline_committed baseline_valid);;
      session_touch;; mret (Some (Some OPC_ERR_RADIO_APPLY))
    else
      modify (λ s, ((((s <| radio := req |>) <| radio_applied_known := true |>)
                       <| radio_recovery_state := OPCD_RADIO_RECOVERY_HEALTHY |>)
                       <| radio_gen := u32 (radio_gen s + 1) |>) <| radio_committed := false |>);;
      pr ← persist_radio ip port seq reservation;
      if negb (pr_rc pr =? 0) then
        whenM (bool_decide (pr_outcome pr = OPC_STORE_UNCHANGED))
          (radio_arm_revert baseline baseline_committed baseline_valid);;
        session_touch;; mret (Some (Some OPC_ERR_NVRAM))
      else if pr_deferred pr then
        modify (λ s, match pending_slot_for s OPC_REQ_SET_RADIO_CONFIG ip port with
                     | Some k => s <| pending_acks :=
                         alter (λ p, p <| pa_radio_gen := radio_gen s |>) k (pending_acks s) |>
                     | None => s end);;
        modify (λ s, ((s <| radio_revert_cfg := baseline |>)
                        <| radio_revert_committed := baseline_committed |>)
                       <| radio_persist_baseline_valid := baseline_valid |>);;
        session_touch;; mret None
      else
        modify (λ s, s <| radio_committed := true |>);;
        radio_txn_clear;;
        session_touch;; mret (Some None).

Definition set_radio_store (req : opc_set_radio_config_req_t) (ip port seq : Z)
    : M E (option (option Z)) :=
  st ← get;
  a ← persist_admit OPCD_PERSIST_RADIO (p_radio (paths st)) RADIO_SIZE;
  match a with
  | AdmBusy => session_touch;; mret None
  | AdmFail => mret (Some (Some OPC_ERR_NVRAM))
  | AdmOk reservation => set_radio_apply req reservation ip port seq
  end.

Definition handle_set_radio_config (frame : list Z) (ip port rcap seq : Z) : M E (list Z) :=
  r ← (match opc_set_radio_config_req_unpack frame with
       | None => mret (Some (Some OPC_ERR_PACKET_SIZE))
       | Some req =>
           e ← check_login_required ip;
           match e with
           | Some err => mret (Some (Some err))
           | None =>
               st ← get;
               if persist_resource_busy st OPCD_PERSIST_RADIO then session_touch;; mret None
               else if negb (radio_req_error req =? 0) then mret (Some (Some (radio_req_error req)))
               else
                 cap ← query (validate_radio_config req);
                 match cap with
                 | CapMode => mret (Some (Some OPC_ERR_RADIO_MODE))
                 | CapBw => mret (Some (Some OPC_ERR_RADIO_BW))
                 | CapOk =>
                     if radio_committed st && negb (radio_cfg_differs req (radio st))
                     then session_touch;; mret (Some None)
                     else set_radio_store req ip port seq
                 end
           end
       end);
  mret (match r with
        | None => []
        | Some v => emit_ack (opc_set_radio_config_ack_pack rcap seq (verdict v))
        end).

(** ** SetIndicationConfig *)

(** Is WLAN#1 associated: the latch of the last event while fresh, else the polled link. *)
Definition assoc_now : M E bool :=
  st ← get;
  fresh ← (if wlan0_assoc_known st then
             now ← opcd_mono_now_s; mret (now - wlan0_assoc_at st <=? OPCD_ASSOC_LATCH_TTL_S)
           else mret false);
  if (fresh : bool) then mret (wlan0_assoc st)
  else link ← call (get_link 0);
       mret (match link with Some l => l_associated l | None => false end).

Definition indication_enable (req : opc_set_indication_config_req_t) : M E unit :=
  modify (λ s, ((((((s <| indication_enabled := negb (info_bits req =? 0) |>)
                      <| indication_recipient_ip := recipient_ip req |>)
                      <| indication_recipient_port := recipient_port req |>)
                      <| indication_info_bits := info_bits req |>)
                      <| indication_period_s := period_seconds req |>)
                      <| indication_tick_counter := 0 |>) <| radio_up_reported := false |>);;
  opcd_ind_coalesce_reset;;
  session_touch;;
  st ← get;
  if indication_enabled st then
    _ ← opcd_ind_init_complete OPC_INIT_STATE_READY;
    assoc ← assoc_now;
    whenM assoc opcd_ind_radio_up;;
    st ← get;
    if logged_in st then _ ← opcd_ind_init_complete OPC_INIT_STATE_LOGGED_IN; mret tt else mret tt
  else mret tt.

Definition handle_set_indication_config (frame : list Z) (ip port rcap seq : Z) : M E (list Z) :=
  err ← (match opc_set_indication_config_req_unpack frame with
         | None => mret (Some OPC_ERR_PACKET_SIZE)
         | Some req =>
             e ← check_login_required ip;
             match e with
             | Some err => mret (Some err)
             | None =>
                 if bit_set (info_bits req) OPC_IND_BITS_RESERVED then mret (Some OPC_ERR_IND_BITS)
                 else
                   bad ← (if negb (info_bits req =? 0) then
                            if negb (valid_unicast_ipv4 (recipient_ip req)) then mret true
                            else r ← indication_recipient_reachable (recipient_ip req); mret (negb r)
                          else mret false);
                   if (bad : bool) then mret (Some OPC_ERR_IND_RECIPIENT_IP)
                   else indication_enable req;; mret None
             end
         end);
  mret (emit_ack (opc_set_indication_config_ack_pack rcap seq (verdict err))).

(** ** Reset *)

Definition handle_reset (frame : list Z) (ip port rcap seq : Z) : M E (list Z) :=
  err ← (match opc_reset_req_unpack frame with
         | None => mret (Some OPC_ERR_PACKET_SIZE)
         | Some _ =>
             e ← check_login_required ip;
             match e with
             | Some err => mret (Some err)
             | None => modify (λ s, s <| should_reset := true |>);; mret None
             end
         end);
  mret (emit_ack (opc_reset_ack_pack rcap seq (verdict err))).

(** ** Dispatch *)

Definition handler : Type := list Z → Z → Z → Z → Z → M E (list Z).
Definition opcd_dispatch_table : list (Z * handler) :=
  [(OPC_REQ_LOGIN, handle_login); (OPC_REQ_LOGOUT, handle_logout);
   (OPC_REQ_GET_BASIC_INFO, handle_get_basic_info);
   (OPC_REQ_GET_DEVICE_INFO, handle_get_device_info);
   (OPC_REQ_SET_PASSWORD, handle_set_password);
   (OPC_REQ_SET_IP_CONFIG_LIST, handle_set_ip_config_list);
   (OPC_REQ_CHANGE_IP_ADDRESS, handle_change_ip_address);
   (OPC_REQ_SET_RADIO_CONFIG, handle_set_radio_config);
   (OPC_REQ_SET_INDICATION_CONFIG, handle_set_indication_config);
   (OPC_REQ_RESET, handle_reset)].

Definition lookup_handler (req_id : Z) : option handler :=
  snd <$> List.find (λ row, row.1 =? req_id) opcd_dispatch_table.

(** The C return value (0 or -1) and the response. *)
Definition opcd_dispatch (frame : list Z) (client_ip client_port resp_cap : Z) : M E (Z * list Z) :=
  match opc_frame_parse frame with
  | None => mret (-1, [])
  | Some (hdr, _) =>
      if negb (command_type hdr =? OPC_CMD_REQUEST) then mret (-1, [])
      else
        st ← get;
        (if logged_in st then
           now ← mono_now;
           whenM (idle_deadline st <=? now) opcd_session_logout
         else mret tt);;
        match lookup_handler (req_indication_id hdr) with
        | None => mret (-1, [])
        | Some fn =>
            resp ← fn frame client_ip client_port resp_cap (sequence_number hdr);
            mret (0, resp)
        end
  end.

Definition opcd_post_ack : M E unit :=
  st ← get;
  if should_reset st && negb (reset_notice_sent st) then
    modify (λ s, s <| reset_notice_sent := true |>);;
    _ ← opcd_ind_reset_notice OPC_RESET_CAUSE_USER; mret tt
  else mret tt.

Definition opcd_apply_pending_ip_change : M E unit :=
  st ← get;
  if negb (ip_change_commit_armed st) then mret tt
  else
    let e := ip_change_armed_entry st in
    rc ← call (apply_ip_change e (mgmt_ip_iface_idx st) (ip_change_armed_no st));
    (if rc =? 0 then
       modify (λ s, s <| indication_enabled := false |>);;
       st ← get;
       whenM (logged_in st) opcd_session_logout;;
       match management_topology (conf st) with
       | OPC_TOPOLOGY_PEER_ROUTE => _ ← call (peer_route_refresh (ip_address e) (subnet_mask e)); mret tt
       | OPC_TOPOLOGY_ETH0_IP => mret tt
       end
     else mret tt);;
    modify (λ s, ((((s <| ip_change_pending := false |>) <| ip_change_commit_armed := false |>)
                     <| ip_change_list_no := 0 |>) <| ip_change_armed_no := 0 |>)
                   <| ip_change_armed_entry := ipcfg_entry_zero |>).

(** ** Receive length policy *)

(** The frame bytes to dispatch out of the [buffered] ones, 0 for a bad length. *)
Definition opcd_intake_frame_len (frame : list Z) : Z :=
  match opc_fixed_header_unpack frame with
  | None => 0
  | Some hdr =>
      let want := OPC_FIXED_HEADER_SIZE + hdr_length hdr in
      let valid_extent := (want =? OPC_FIXED_HEADER_SIZE) ||
                          ((OPC_HEADER_SIZE <=? want) && (want <=? OPC_FRAME_MAX)) in
      if negb valid_extent || (len frame <? want) then 0 else want
  end.

Definition opcd_reject_bad_length (frame : list Z) (cip cport : Z) : M E unit :=
  st ← get;
  if negb (logged_in st) || negb (holder_ip st =? cip) then mret tt
  else match opc_fixed_header_unpack frame with
  | None => mret tt
  | Some hdr =>
      let request := command_type hdr =? OPC_CMD_REQUEST in
      let n :=
        if request && (req_indication_id hdr =? OPC_REQ_GET_DEVICE_INFO) then
          opc_get_device_info_ack_pack OPC_FRAME_MAX (sequence_number hdr)
            ((device_info_zero <| di_result := OPC_RESULT_NG |>) <| di_error_cause := OPC_ERR_PACKET_SIZE |>)
        else opc_simple_ack_pack OPC_FRAME_MAX (req_indication_id hdr) (sequence_number hdr)
               OPC_SIMPLE_ACK_LENGTH OPC_RESULT_NG OPC_ERR_PACKET_SIZE in
      match n with
      | None => mret tt
      | Some resp => if udp_fd st <? 0 then mret tt
                     else _ ← sendto cip cport resp; mret tt
      end
  end.
End Handlers.
End Handlers.
Export Handlers.
