(* ===== verification/WriterTurn.v ===== *)
(** * One job of the asynchronous writer, from admission to completion

    What opcd/opcd.c, opcd/handler.c and opcd/store_async.c do with one file to be written
    when the writer is at rest: the reservation, the queued job, the worker's write with the
    environment's store (and its echo), and the harvest that hands the outcome to the
    completion. The transactions of the password, the radio and the IP list follow their
    requests to the end with it. *)
From S2P Require Import Prelude Codec ScanList Commands Indications Store StoreAsync IpListText FaultProbe State Indication Validate RadioConf Persist Handlers.
From stdpp Require Import base list numbers option tactics strings.
From Stdlib Require Import ZArith Lia.
#[local] Open Scope Z_scope.
Import Store.Store StoreAsync.StoreAsync.

Module WriterTurn.

(** Unfolds the monad. *)
Ltac turn :=
  cbv beta iota zeta delta [mbind M_bind mret M_ret get modify query call whenM];
  cbn [w_st w_env w_tx fst snd].

(** ** The writer with at most one job, in its first slot *)

Definition table (a : opc_store_async) (j : job_t) : Prop :=
  shutdown a = false ∧ (q_head a < DEPTH)%nat ∧ length (q a) = DEPTH ∧
  ∃ js, jobs a = j :: js ∧ length js = 15%nat ∧ Forall (λ j, j_state j = JOB_FREE) js.
Definition idle (a : opc_store_async) : Prop := q_count a = 0%nat ∧ ∃ j, table a j ∧ j_state j = JOB_FREE.
Definition reserved (a : opc_store_async) (path echo : string) (ln : Z) : Prop :=
  q_count a = 0%nat ∧ ∃ j, table a j ∧ j_state j = JOB_RESERVED ∧ j_path j = path ∧ j_echo_path j = echo ∧ j_len j = ln.
Definition queued (a : opc_store_async) (path echo : string) (data : list Z) (mode token : Z) : Prop :=
  q_count a = 1%nat ∧ q a !! q_head a = Some 0%nat ∧
  ∃ j, table a j ∧ j_state j = JOB_QUEUED ∧ j_path j = path ∧ j_echo_path j = echo ∧ j_data j = data ∧ j_mode j = mode ∧ j_token j = token.
Definition finished (a : opc_store_async) (token rc : Z) (o : opc_store_outcome_t) : Prop :=
  q_count a = 0%nat ∧ ∃ j, table a j ∧ j_state j = JOB_DONE ∧ j_token j = token ∧ j_result j = rc ∧ j_outcome j = o.

(** The sizes and paths a job admits. *)
Definition job_fits (path : string) (ln : Z) : Prop := ln <= OPC_STORE_ASYNC_DATA_MAX ∧ (String.length path < 1024)%nat.
#[global] Instance job_fits_dec path ln : Decision (job_fits path ln).
Proof. unfold job_fits. apply _. Defined.

Lemma reserve_idle a path ln : idle a → job_fits path ln →
  ∃ a', opc_store_async_reserve a path ln = (inr 0%nat, a') ∧ reserved a' path "" ln.
Proof.
  intros (Hq & j & (Hs & Hh & Hl & js & Hj & Hn & Hf) & Hj0) [Hd Hp]. unfold opc_store_async_reserve.
  rewrite (proj2 (Z.ltb_ge _ _)) by lia. rewrite (proj2 (Nat.leb_gt _ _)) by lia. rewrite Hs. unfold free_slot. rewrite Hj. cbn [list_find].
  rewrite decide_True by done. cbn. eexists. split; [reflexivity|]. split; [done|]. unfold upd_job, table. cbn. rewrite Hj. cbn.
  eexists. split; [split_and!; try done; by eexists|]. done.
Qed.
(** A job that does not fit is refused. *)
Lemma reserve_unfit a path ln : ¬ job_fits path ln →
  ∃ e, opc_store_async_reserve a path ln = (inl e, a) ∧ e ≠ EAGAIN.
Proof.
  intros Hn. unfold opc_store_async_reserve. destruct (Z.ltb_spec OPC_STORE_ASYNC_DATA_MAX ln); [by eexists|].
  destruct (Nat.leb_spec 1024 (String.length path)); [by eexists|]. destruct Hn. split; lia.
Qed.
Lemma cancel_reserved a path echo ln : reserved a path echo ln → idle (opc_store_async_cancel a 0).
Proof.
  intros (Hq & j & (Hs & Hh & Hl & js & Hj & Hn & Hf) & Hr & _). unfold opc_store_async_cancel, job_state_of. rewrite Hj. cbn.
  rewrite decide_True by (by rewrite Hr). split; [done|]. unfold upd_job, table. cbn. rewrite Hj. cbn.
  eexists. split; [split_and!; try done; by eexists|]. done.
Qed.
Lemma submit_reserved a path echo ln data mode token : reserved a path echo ln → len data <= ln →
  ∃ a', opc_store_async_submit_reserved a 0 data mode token = (None, a') ∧ queued a' path echo data mode token.
Proof.
  intros (Hq & j & (Hs & Hh & Hl & js & Hj & Hn & Hf) & Hr & Hp & He & Hln) Hd. unfold opc_store_async_submit_reserved. rewrite Hj. cbn.
  rewrite Hs, bool_decide_eq_false_2 by naive_solver. rewrite (proj2 (Z.ltb_ge _ _)) by lia. cbn [orb].
  eexists. split; [reflexivity|]. unfold queued, upd_job, table. cbn. rewrite Hj, Hq. cbn. split; [done|].
  rewrite Nat.add_0_r, Nat.mod_small by done. split; [apply list_lookup_insert_eq; by rewrite Hl|].
  eexists. split; [split_and!; try done; [by rewrite length_insert|by eexists]|done].
Qed.
(** An echo job is admitted and queued at once. *)
Lemma submit_echo_idle a path echo data mode token : idle a → job_fits path (len data) → (String.length echo < 1024)%nat →
  ∃ a', opc_store_async_submit_echo a path echo data mode token = (None, a') ∧ queued a' path echo data mode token.
Proof.
  intros Hi Hf He. unfold opc_store_async_submit_echo. rewrite (proj2 (Nat.leb_gt _ _)) by lia.
  destruct (reserve_idle a path (len data) Hi Hf) as (a1 & -> & (Hq & j & (Hs & Hh & Hl & js & Hj & Hn & Hfr) & Hr & Hp & _ & Hln)).
  assert (Hr' : reserved (upd_job 0 (λ j, j <| j_echo_path := echo |>) a1) path echo (len data)).
  { split; [done|]. unfold upd_job, table. cbn. rewrite Hj. cbn. eexists. split; [split_and!; try done; by eexists|]. done. }
  destruct (submit_reserved _ _ _ _ data mode token Hr' (Z.le_refl _)) as (a2 & -> & Hq2). by eexists.
Qed.

(** ** The worker's turn *)

Section Turn.
Context {E : Type} `{Env E}.

(** The worker's loop body (store_async.c [worker_main]): take the oldest job, write it with
    the environment's store, write the echo after a visible replacement, mark it done. *)
Definition worker_turn : M E unit :=
  st ← get;
  match store_async st with
  | None => mret tt
  | Some a =>
      match worker_take (mk_system a None false [] [] []) with
      | None => mret tt
      | Some t =>
          match running t with
          | None => mret tt
          | Some ji =>
              let j := default job_zero (jobs (sa t) !! ji) in
              '(rc, o) ← call (env_write (j_path j) (j_data j) (j_mode j));
              (if bool_decide (j_echo_path j ≠ "" ∧ o ≠ OPC_STORE_UNCHANGED)
               then _ ← call (env_write (j_echo_path j) (j_data j) (j_mode j)); mret tt else mret tt);;
              modify (λ s, s <| store_async := sa <$> worker_finish rc o t |>)
          end
      end
  end.
(** The echo's write, where there is one. *)
Definition echo_write (echo : string) (data : list Z) (mode : Z) (o : opc_store_outcome_t) (e : E) : E :=
  if bool_decide (echo ≠ ""%string ∧ o ≠ OPC_STORE_UNCHANGED) then (env_write echo data mode e).2 else e.
Lemma worker_turn_queued s a (e : E) tx path echo data mode token :
  store_async s = Some a → queued a path echo data mode token →
  let '((rc, o), e1) := env_write path data mode e in
  ∃ a', worker_turn (mk_world s e tx) = (tt, mk_world (s <| store_async := Some a' |>) (echo_write echo data mode o e1) tx) ∧
    finished a' token rc o.
Proof.
  intros Ha (Hq & Hq0 & j & (Hs & Hh & Hl & js & Hj & Hn & Hf) & Hst & Hp & He & Hd & Hm & Ht).
  unfold worker_turn. turn. rewrite Ha. unfold worker_take. cbn. rewrite Hq. cbn. rewrite Hq0, Hj. cbn.
  rewrite Hp, Hd, Hm, He. destruct (env_write path data mode e) as [[rc o] e1]. unfold echo_write.
  destruct (bool_decide _); turn.
  - destruct (env_write echo data mode e1) as [[rc2 o2] e2]. eexists. split; [reflexivity|].
    split; [done|]. unfold table, upd_job. cbn. rewrite Hj. cbn. eexists. split; [split_and!; try done; [by apply Nat.mod_upper_bound|by eexists]|done].
  - eexists. split; [reflexivity|].
    split; [done|]. unfold table, upd_job. cbn. rewrite Hj. cbn. eexists. split; [split_and!; try done; [by apply Nat.mod_upper_bound|by eexists]|done].
Qed.
Lemma harvest_free cap js : Forall (λ j, j_state j = JOB_FREE) js → harvest cap js = ([], false, js).
Proof. intros Hf. revert cap. induction Hf as [|j js Hj _ IH]; intros cap; [done|]. cbn [harvest]. rewrite decide_False by (by rewrite Hj). by rewrite IH. Qed.
Lemma drain_finished a token rc o : finished a token rc o →
  ∃ a', opc_store_async_drain DEPTH a = ([mk_done token rc o], a') ∧ idle a'.
Proof.
  intros (Hq & j & (Hs & Hh & Hl & js & Hj & Hn & Hf) & Hst & Ht & Hr & Ho). unfold opc_store_async_drain, drain_harvest.
  change (DEPTH =? 0)%nat with false. cbv iota. unfold drain_clear. cbn [jobs setter]. cbn. rewrite Hj. change DEPTH with 16%nat. cbn [harvest].
  rewrite decide_True by done. rewrite harvest_free by done. eexists. rewrite Ht, Hr, Ho. split; [reflexivity|].
  split; [done|]. eexists. split; [split_and!; try done; by eexists|done].
Qed.
Lemma drain_idle a : idle a → ∃ a', opc_store_async_drain DEPTH a = ([], a') ∧ idle a'.
Proof.
  intros (Hq & j & (Hs & Hh & Hl & js & Hj & Hn & Hf) & Hst). unfold opc_store_async_drain, drain_harvest.
  change (DEPTH =? 0)%nat with false. cbv iota. unfold drain_clear. cbn. rewrite Hj, harvest_free by (by constructor).
  eexists. split; [reflexivity|]. split; [done|]. eexists. split; [split_and!; try done; by eexists|done].
Qed.
Lemma on_ready_finished s a (e : E) tx token rc o : store_async s = Some a → finished a token rc o →
  ∃ a', idle a' ∧ opcd_store_async_on_ready (mk_world s e tx) = on_done (mk_done token rc o) (mk_world (s <| store_async := Some a' |>) e tx).
Proof.
  intros Ha Hf. destruct (drain_finished a token rc o Hf) as (a' & Hd & Hi). exists a'. split; [done|].
  unfold opcd_store_async_on_ready, with_store. turn. rewrite Ha, Hd. turn. cbn [on_done_all]. turn.
  by destruct (on_done _ _) as [[] w].
Qed.

(** ** A daemon whose writer is at rest *)

Definition acks_free (s : opcd_state_t) : Prop :=
  ∃ p ps, pending_acks s = p :: ps ∧ pa_in_use p = false ∧ Forall (λ p, pa_in_use p = false) ps.
(** No writer (the fallback: files are written on the spot), or one with nothing to do. *)
Definition store_ready (s : opcd_state_t) : Prop :=
  match store_async s with None => True | Some a => idle a ∧ acks_free s ∧ 0 <= udp_fd s end.

Definition store_part (s : opcd_state_t) := (store_async s, pending_acks s, udp_fd s).
Lemma store_part_ready s s' : store_part s' = store_part s → store_ready s → store_ready s'.
Proof. unfold store_part, store_ready, acks_free. intros [= -> -> ->]. done. Qed.
Lemma acks_free_busy s res : acks_free s → persist_resource_busy s res = false.
Proof.
  intros (p & ps & Hp & H0 & Hf). unfold persist_resource_busy. rewrite Hp. cbn [existsb]. rewrite H0. cbn [andb orb]. clear Hp H0.
  induction Hf as [|q ps Hq _ IH]; [done|]. cbn [existsb]. by rewrite Hq, IH.
Qed.
Lemma acks_free_alloc s : acks_free s → pending_ack_alloc s = Some 0%nat.
Proof. intros (p & ps & Hp & H0 & Hf). unfold pending_ack_alloc. rewrite Hp. cbn [list_find]. by rewrite decide_True. Qed.
Lemma acks_free_slot s req ip port : acks_free s → pending_slot_for s req ip port = None.
Proof.
  intros (p & ps & Hp & H0 & Hf). unfold pending_slot_for. rewrite Hp. apply fmap_None, list_find_None.
  constructor; [intros [? _]; congruence|]. eapply Forall_impl; [exact Hf|]. intros q Hq [? _]. congruence.
Qed.
Lemma admit_idle s a (e : E) tx res path ln : store_async s = Some a → idle a → acks_free s → job_fits path ln →
  ∃ a', persist_admit res path ln (mk_world s e tx) = (AdmOk (Some 0%nat), mk_world (s <| store_async := Some a' |>) e tx) ∧
    reserved a' path "" ln.
Proof.
  intros Ha Hi Hf Hj. destruct (reserve_idle a path ln Hi Hj) as (a' & Hr & Hres). exists a'. split; [|done].
  unfold persist_admit, admit_attempt, with_store. turn. rewrite Ha. turn. rewrite acks_free_busy, acks_free_alloc by done. turn.
  rewrite Ha. turn. by rewrite Hr.
Qed.
Lemma admit_unfit s a (e : E) tx res path ln : store_async s = Some a → acks_free s → ¬ job_fits path ln →
  persist_admit res path ln (mk_world s e tx) = (AdmFail, mk_world (s <| store_async := Some a |>) e tx).
Proof.
  intros Ha Hf Hj. destruct (reserve_unfit a path ln Hj) as (er & Hr & He).
  unfold persist_admit, admit_attempt, with_store. turn. rewrite Ha. turn. rewrite acks_free_busy, acks_free_alloc by done. turn.
  rewrite Ha. turn. rewrite Hr. turn. by destruct er.
Qed.
Lemma blob_reserved s a (e : E) tx path path' ln data mode res no_ack req ip port seq :
  store_async s = Some a → reserved a path "" ln → acks_free s → len data <= ln →
  ∃ a', persist_blob path' data mode res no_ack req ip port seq (Some 0%nat) (mk_world s e tx) =
    (mk_persist 0 true OPC_STORE_UNCHANGED,
     mk_world ((s <| store_async := Some a' |>) <| pending_acks := <[0%nat := mk_pending_ack true no_ack res req seq 0 ip port]> (pending_acks s) |>) e tx) ∧
    queued a' path "" data mode 0.
Proof.
  intros Ha Hr Hf Hl. destruct (submit_reserved a path "" ln data mode 0 Hr Hl) as (a' & Hs & Hq). exists a'. split; [|done].
  unfold persist_blob, with_store. turn. rewrite Ha. rewrite acks_free_alloc by done. turn. rewrite Ha. change (Z.of_nat 0) with 0. by rewrite Hs.
Qed.
Lemma cancel_run s a (e : E) tx path echo ln : store_async s = Some a → reserved a path echo ln →
  ∃ a', store_cancel (Some 0%nat) (mk_world s e tx) = (tt, mk_world (s <| store_async := Some a' |>) e tx) ∧ idle a'.
Proof.
  intros Ha Hr. exists (opc_store_async_cancel a 0). split; [|by eapply cancel_reserved].
  unfold store_cancel, with_store. turn. by rewrite Ha.
Qed.
(** The worker's write of a queued job and the harvest of its outcome. *)
Definition settle : M E unit := worker_turn;; opcd_store_async_on_ready.
Lemma settle_queued s a (e : E) tx path echo data mode token : store_async s = Some a → queued a path echo data mode token →
  let '((rc, o), e1) := env_write path data mode e in
  ∃ a', idle a' ∧ settle (mk_world s e tx) = on_done (mk_done token rc o) (mk_world (s <| store_async := Some a' |>) (echo_write echo data mode o e1) tx).
Proof.
  intros Ha Hq. pose proof (worker_turn_queued s a e tx path echo data mode token Ha Hq) as Ht.
  destruct (env_write path data mode e) as [[rc o] e1]. destruct Ht as (a1 & Et & Hf).
  assert (Hs : store_async (s <| store_async := Some a1 |>) = Some a1) by reflexivity.
  destruct (on_ready_finished _ a1 (echo_write echo data mode o e1) tx token rc o Hs Hf) as (a2 & Hi & Er).
  exists a2. split; [done|]. unfold settle. turn. rewrite Et. exact Er.
Qed.
(** Without a writer, or with nothing queued, there is nothing to settle. *)
Lemma settle_none s (e : E) tx : store_async s = None → settle (mk_world s e tx) = (tt, mk_world s e tx).
Proof. intros Hn. unfold settle, worker_turn, opcd_store_async_on_ready, with_store. turn. rewrite Hn. turn. by rewrite Hn. Qed.
Lemma settle_idle s a (e : E) tx : store_async s = Some a → idle a →
  ∃ a', settle (mk_world s e tx) = (tt, mk_world (s <| store_async := Some a' |>) e tx) ∧ idle a'.
Proof.
  intros Ha Hi. destruct (drain_idle a Hi) as (a' & Hd & Hi'). exists a'. split; [|done].
  unfold settle, worker_turn, opcd_store_async_on_ready, with_store. turn. rewrite Ha. destruct Hi as (Hq & j & (Hs & _) & _).
  unfold worker_take. cbn. rewrite Hq, Hs. cbn. turn. rewrite Ha, Hd. by turn.
Qed.
(** The completion of the job in slot 0: its effect on the state, then its answer. *)
Definition done_effect (pa : opcd_pending_ack_t) (o : opc_store_outcome_t) : M E unit :=
  (match pa_resource pa with
   | OPCD_PERSIST_PASSWORD => on_done_password o
   | OPCD_PERSIST_IP_LIST => on_done_ip_list o
   | _ => mret tt end);;
  whenM (pa_req_id pa =? OPC_REQ_SET_RADIO_CONFIG) (on_done_radio (pa_radio_gen pa) o).
Definition done_verdict (rc : Z) : option Z := if rc =? 0 then None else Some OPC_ERR_NVRAM.
Lemma simple_ack_emitted id seq a : 0 < len (emit_ack (opc_simple_ack_pack OPC_FRAME_MAX id seq OPC_SIMPLE_ACK_LENGTH (result a) (error_cause a))).
Proof. vm_compute. done. Qed.
Lemma ack_length pa a : pa_req_id pa ∈ [OPC_REQ_SET_PASSWORD; OPC_REQ_SET_IP_CONFIG_LIST; OPC_REQ_SET_RADIO_CONFIG] → 0 < len (on_done_ack pa a).
Proof.
  unfold on_done_ack. intros [-> |[-> |[-> |[]%elem_of_nil]%elem_of_cons]%elem_of_cons]%elem_of_cons; apply simple_ack_emitted.
Qed.
(** Frees the slot. *)
Definition free_first (s : opcd_state_t) : opcd_state_t := s <| pending_acks := alter (λ p, p <| pa_in_use := false |>) 0%nat (pending_acks s) |>.
Lemma on_done_first s (e : E) tx pa rc o s1 e1 :
  pending_acks s !! 0%nat = Some pa → pa_in_use pa = true →
  pa_req_id pa ∈ [OPC_REQ_SET_PASSWORD; OPC_REQ_SET_IP_CONFIG_LIST; OPC_REQ_SET_RADIO_CONFIG] →
  done_effect pa o (mk_world s e tx) = (tt, mk_world s1 e1 tx) → 0 <= udp_fd s1 →
  let ack := on_done_ack pa (verdict (done_verdict rc)) in
  on_done (mk_done 0 rc o) (mk_world s e tx) =
    (tt, mk_world (free_first s1) (if pa_no_ack pa then e1 else (env_sendto (pa_client_ip pa) (pa_client_port pa) ack e1).2)
      (if pa_no_ack pa then tx else tx ++ [mk_datagram (pa_client_ip pa) (pa_client_port pa) ack])).
Proof.
  intros Hp Hu Hr He Hfd. unfold done_effect in He. unfold on_done. cbn [d_token d_result d_outcome].
  change (0 =? OPCD_STORE_TOKEN_MIRROR) with false. change (Z.of_nat OPCD_PENDING_ACK_MAX <=? 0) with false. cbv iota.
  change (Z.to_nat 0) with 0%nat. unfold mbind, M_bind, mret, M_ret, get, modify in *. cbn [w_st w_env w_tx] in *. rewrite Hp. cbn [default id]. rewrite Hu. cbn [negb].
  replace (if rc =? 0 then mk_simple_ack OPC_RESULT_OK OPC_ERR_NONE else mk_simple_ack OPC_RESULT_NG OPC_ERR_NVRAM) with (verdict (done_verdict rc))
    by (unfold done_verdict; by destruct (rc =? 0)).
  lazymatch type of He with (let '(_, w) := ?x in _) = _ => destruct x as [[] w0] end.
  rewrite He. cbn [w_st w_env w_tx]. rewrite (proj2 (Z.ltb_lt 0 _) (ack_length pa (verdict (done_verdict rc)) Hr)), (proj2 (Z.leb_le _ _) Hfd), !andb_true_r.
  destruct (pa_no_ack pa); cbn [negb]; [done|]. unfold sendto. cbn [w_st w_env w_tx].
  by destruct (env_sendto _ _ _ _) as [ok e2].
Qed.
Lemma touch_run s (e : E) tx : ∃ s' e', session_touch (mk_world s e tx) = (tt, mk_world s' e' tx) ∧ s' = s <| idle_deadline := idle_deadline s' |>.
Proof. unfold session_touch, mono_now. turn. destruct (env_mono e) as [t e']. do 2 eexists. split; [reflexivity|]. done. Qed.
Lemma blob_oversize s a (e : E) tx path path' ln data mode res no_ack req ip port seq :
  store_async s = Some a → reserved a path "" ln → acks_free s → ln < len data →
  ∃ a', persist_blob path' data mode res no_ack req ip port seq (Some 0%nat) (mk_world s e tx) =
    (mk_persist (-1) false OPC_STORE_UNCHANGED, mk_world (s <| store_async := Some a' |>) e tx) ∧ idle a'.
Proof.
  intros Ha Hr Hf Hl. exists (opc_store_async_cancel a 0). split; [|by eapply cancel_reserved].
  destruct Hr as (Hq & j & (Hs & Hh & Hlq & js & Hj & Hn & Hfr) & Hst & Hp & He & Hln).
  unfold persist_blob, with_store, store_cancel, with_store. turn. rewrite Ha. rewrite acks_free_alloc by done. turn. rewrite Ha.
  unfold opc_store_async_submit_reserved at 1. rewrite Hj. cbn. rewrite Hs, bool_decide_eq_false_2 by naive_solver.
  rewrite (proj2 (Z.ltb_lt _ _)) by lia. cbn [orb]. turn. done.
Qed.
(** How a request is answered: at once with the verdict (nothing else is sent), or later by the completion. *)
Definition answered (pack : opc_simple_ack_t → option (list Z)) (ip port : Z) (r : option (option Z)) (v : option Z) (w w' : world E) : Prop :=
  match r with
  | Some v' => v' = v ∧ w_tx w' = w_tx w
  | None => w_tx w' = w_tx w ++ [mk_datagram ip port (emit_ack (pack (verdict v)))]
  end.
End Turn.
End WriterTurn.
