(* ===== verification/IpListLoad.v ===== *)
(** * Loading the IP address list at start: opcd/handler.c (spec 6.5)

    Two files hold the list: the daemon's own copy ("previous list", read leniently) and
    the customer's file (read strictly: one bad line rejects it all). A third records the
    bytes the daemon last put into, or applied from, the customer's file; a fourth is the
    binary list of releases before the text format, converted once. Log lines and the
    [why] text are left out. *)
From S2P Require Import Prelude Codec ScanList Commands Store StoreAsync IpListText State Validate RadioConf Persist.
From stdpp Require Import base list numbers option tactics strings.
From Stdlib Require Import ZArith Lia.
#[local] Open Scope Z_scope.
Import Store.Store StoreAsync.StoreAsync IpListText.IpListText Validate.Validate RadioConf.RadioConf.

Module IpListLoad.

(** ** Text to list *)

Definition UTF8_BOM : list Z := [239; 187; 191].
Definition strip_bom (buf : list Z) : list Z :=
  if (3 <=? len buf) && bool_decide (take 3 buf = UTF8_BOM) then drop 3 buf else buf.

(** What the loop does with one number: leave it empty, refuse it, or take the entry. *)
Inductive slot_verdict := SlotEmpty | SlotRefused | SlotTaken (e : opc_ipcfg_entry_t).
Definition slot_verdict_of (n : Z) (e : opc_ipcfg_entry_t) (ks : Z) (is_bad : bool) : slot_verdict :=
  if (ks =? 0) && negb is_bad then SlotEmpty
  else if is_bad then SlotRefused
  else if negb (ks =? OPC_IPLIST_KEY_ALL) then SlotRefused
  else if negb (ip_address e =? 0) && negb (ipcfg_entry_error e true =? 0) then SlotRefused
  else if ip_address e =? 0 then SlotEmpty
  else SlotTaken ((e <| boundary_flag := 0 |>) <| list_number := u16 n |>).

(** The loop over the numbers from [i] on; [None] is the strict refusal. *)
Fixpoint slots_from (strict : bool) (i : Z) (l : list (opc_ipcfg_entry_t * Z * bool))
    : option (list (opc_ipcfg_entry_t * Z)) :=
  match l with
  | [] => Some []
  | (e, ks, b) :: l' =>
      match slot_verdict_of (i + 1) e ks b with
      | SlotRefused => if strict then None
                       else r ← slots_from strict (i + 1) l'; Some ((ipcfg_entry_zero, 0) :: r)
      | SlotEmpty => r ← slots_from strict (i + 1) l'; Some ((ipcfg_entry_zero, 0) :: r)
      | SlotTaken e' => r ← slots_from strict (i + 1) l'; Some ((e', 1) :: r)
      end
  end.

Definition iplist_from_text (buf : list Z) (strict : bool) : option opcd_ip_list_t :=
  let t := opc_iplist_text_parse (strip_bom buf) in
  if strict && negb (first_error_line t =? 0) then None
  else r ← slots_from strict 0 (zip (zip (entry t) (keys_seen t)) (bad t));
       Some (mk_ip_list r.*1 r.*2).

Definition iplist_count (l : opcd_ip_list_t) : Z :=
  foldl (λ n p, if p =? 0 then n else n + 1) 0 (present l).

Definition iplist_same (a b : opcd_ip_list_t) : bool :=
  match opc_iplist_text_format a OPC_IPLIST_TEXT_MAX, opc_iplist_text_format b OPC_IPLIST_TEXT_MAX with
  | Some ta, Some tb => bool_decide (ta = tb)
  | _, _ => false
  end.

(** ** The binary list of earlier releases: a memory dump of [opcd_ip_list_t]
    (little-endian, no padding: 128 entries of 52 bytes, then 128 flag bytes) *)
Definition ENTRY_SIZE : Z := 52.
Definition IP_LIST_SIZE : Z := OPC_IPCFG_LIST_MAX_SLOTS * ENTRY_SIZE + OPC_IPCFG_LIST_MAX_SLOTS.
Definition le32_read (b : list Z) (off : Z) : Z := le16_read b off + 65536 * le16_read b (off + 2).
Definition entry_of_bytes (b : list Z) (off : Z) : opc_ipcfg_entry_t :=
  mk_ipcfg_entry (le16_read b off) (le16_read b (off + 2)) (le32_read b (off + 4))
    (le32_read b (off + 8)) (le32_read b (off + 12)) (le32_read b (off + 16))
    (slice (off + 20) OPC_ESSID_FIELD_LEN b).

Definition legacy_slot (b : list Z) (i : Z) : opc_ipcfg_entry_t * Z :=
  if rd b (OPC_IPCFG_LIST_MAX_SLOTS * ENTRY_SIZE + i) =? 0 then (ipcfg_entry_zero, 0)
  else
    let e := entry_of_bytes b (i * ENTRY_SIZE) in
    let terminated := existsb (Z.eqb 0) (essid e) in
    let verr := if ip_address e =? 0 then OPC_ERR_IPCFG_IP else ipcfg_entry_error e terminated in
    if negb (verr =? 0) then (ipcfg_entry_zero, 0)
    else ((e <| boundary_flag := 0 |>) <| list_number := u16 (i + 1) |>, 1).
Definition legacy_list (b : list Z) : opcd_ip_list_t :=
  let l := map (legacy_slot b) (map Z.of_nat (seq 0 SLOTS)) in
  mk_ip_list l.*1 l.*2.

(** ** Loading *)

Inductive opcd_iplist_load_t :=
  OPCD_IPLIST_LOAD_NONE | OPCD_IPLIST_LOAD_TEXT | OPCD_IPLIST_LOAD_TOO_LARGE
| OPCD_IPLIST_LOAD_ERROR | OPCD_IPLIST_LOAD_MIGRATED | OPCD_IPLIST_LOAD_LEGACY_UNSAVED
| OPCD_IPLIST_LOAD_LEGACY_DISCARD.
Inductive opcd_iplist_user_t :=
  OPCD_IPLIST_USER_UNSET | OPCD_IPLIST_USER_CREATED | OPCD_IPLIST_USER_APPLIED
| OPCD_IPLIST_USER_KEPT | OPCD_IPLIST_USER_REJECTED | OPCD_IPLIST_USER_UNUSABLE.
#[global] Instance iplist_load_eq_dec : EqDecision opcd_iplist_load_t.
Proof. solve_decision. Defined.
#[global] Instance iplist_user_eq_dec : EqDecision opcd_iplist_user_t.
Proof. solve_decision. Defined.

Definition mtime_after (a b : Z * Z) : bool :=
  (b.1 <? a.1) || ((a.1 =? b.1) && (b.2 <? a.2)).

(** Bytes read from the customer file: at most [cap], in as many calls as it takes.
    [None]: a call failed. *)
Fixpoint user_read_loop (cap : nat) (acc : list Z) (reads : list read_step) : option (list Z) :=
  match reads with
  | [] => Some acc
  | RdEintr :: reads' => user_read_loop cap acc reads'
  | RdFail :: _ => None
  | RdBytes b :: reads' =>
      let got := take (cap - length acc) b in
      if (length got =? 0)%nat then Some acc
      else let acc := acc ++ got in
           if (length acc =? cap)%nat then Some acc else user_read_loop cap acc reads'
  end.

(** The C results 0, 1, -1 and -2 in this order. *)
Inductive user_file := UserRead (b : list Z) | UserAbsent | UserUnusable | UserTooLarge.

Definition path_max : nat := 1024.
Definition suffixed (path suffix : string) : option string :=
  let to := path +:+ suffix in
  if (path_max <=? String.length to)%nat then None else Some to.

Section Load.
Context {E : Type} `{Env E}.

Definition iplist_write (path : string) (l : opcd_ip_list_t) (skip_if_same : bool) : M E Z :=
  match opc_iplist_text_format l OPC_IPLIST_TEXT_MAX with
  | None => mret (-1)
  | Some text =>
      same ← (if skip_if_same then
                cur ← call (env_read path (OPC_IPLIST_TEXT_MAX + 1));
                mret (bool_decide (cur = Some text))
              else mret false);
      if (same : bool) then mret 0
      else '(rc, _) ← call (env_write path text 420); mret rc
  end.

Definition iplist_retire_legacy (legacy : string) : M E unit :=
  match suffixed legacy ".migrated" with
  | None => mret tt
  | Some to => _ ← call (env_rename legacy to); mret tt
  end.

(** [legacy]: the path, not NULL in either call. *)
Definition iplist_convert_legacy (legacy : string) : M E opcd_iplist_load_t :=
  modify (λ s, s <| ip_list := ip_list_zero |>);;
  st ← get;
  r ← call (env_read legacy (IP_LIST_SIZE + 1));
  match r with
  | None => mret OPCD_IPLIST_LOAD_NONE
  | Some b =>
      if negb (len b =? IP_LIST_SIZE) then mret OPCD_IPLIST_LOAD_LEGACY_DISCARD
      else
        modify (λ s, s <| ip_list := legacy_list b |>);;
        rc ← iplist_write (p_ip_list (paths st)) (legacy_list b) false;
        if negb (rc =? 0) then mret OPCD_IPLIST_LOAD_LEGACY_UNSAVED
        else iplist_retire_legacy legacy;; mret OPCD_IPLIST_LOAD_MIGRATED
  end.

(** The own text, once no newer binary stands in its way. *)
Definition iplist_load_text : M E opcd_iplist_load_t :=
  st ← get;
  r ← call (env_read (p_ip_list (paths st)) (OPC_IPLIST_TEXT_MAX + 1));
  match r with
  | None => mret OPCD_IPLIST_LOAD_ERROR
  | Some b =>
      if OPC_IPLIST_TEXT_MAX <? len b then mret OPCD_IPLIST_LOAD_TOO_LARGE
      else modify (λ s, s <| ip_list := default ip_list_zero (iplist_from_text b false) |>);;
           mret OPCD_IPLIST_LOAD_TEXT
  end.

Definition iplist_load_own : M E opcd_iplist_load_t :=
  modify (λ s, s <| ip_list := ip_list_zero |>);;
  st ← get;
  own ← call (env_stat (p_ip_list (paths st)));
  match own with
  | StatOk _ own_mtime =>
      lsb ← (match p_ip_list_legacy (paths st) with
             | Some legacy => call (env_stat legacy)
             | None => mret StatNoent end);
      match p_ip_list_legacy (paths st), lsb with
      | Some legacy, StatOk size mtime =>
          if (size =? IP_LIST_SIZE) && mtime_after mtime own_mtime then
            cr ← iplist_convert_legacy legacy;
            if bool_decide (cr = OPCD_IPLIST_LOAD_MIGRATED ∨ cr = OPCD_IPLIST_LOAD_LEGACY_UNSAVED)
            then mret cr
            else modify (λ s, s <| ip_list := ip_list_zero |>);; iplist_load_text
          else iplist_retire_legacy legacy;; iplist_load_text
      | _, _ => iplist_load_text
      end
  | StatFail => mret OPCD_IPLIST_LOAD_ERROR
  | StatNoent =>
      match p_ip_list_legacy (paths st) with
      | None => mret OPCD_IPLIST_LOAD_NONE
      | Some legacy => iplist_convert_legacy legacy
      end
  end.

Definition iplist_read_user (path : string) (cap : Z) : M E user_file :=
  r ← call (env_open_user path);
  mret (match r with
        | OpenNoent => UserAbsent
        | OpenFail => UserUnusable
        | OpenFd false _ => UserUnusable
        | OpenFd true reads =>
            match user_read_loop (Z.to_nat cap) [] reads with
            | None => UserUnusable
            | Some b => if OPC_IPLIST_IMPORT_MAX <? len b then UserTooLarge else UserRead b
            end
        end).

Definition iplist_user_unreplaced (b : list Z) : M E bool :=
  st ← get;
  match p_ip_list_user_last (paths st) with
  | None => mret false
  | Some last =>
      r ← call (env_read last (OPC_IPLIST_IMPORT_MAX + 1));
      mret (bool_decide (r = Some b))
  end.

Definition own_read (lr : opcd_iplist_load_t) : bool :=
  bool_decide (lr = OPCD_IPLIST_LOAD_TEXT ∨ lr = OPCD_IPLIST_LOAD_MIGRATED ∨
               lr = OPCD_IPLIST_LOAD_LEGACY_UNSAVED).

(** A customer file that reads as [l]: keep the own list when the file is as the daemon
    left it, else put [l] in effect and record the bytes. *)
Definition iplist_take_user (lr : opcd_iplist_load_t) (b : list Z) (l : opcd_ip_list_t)
    : M E opcd_iplist_user_t :=
  unreplaced ← (if own_read lr then iplist_user_unreplaced b else mret false);
  st ← get;
  if (unreplaced : bool) then
    (if negb (iplist_same l (ip_list st)) then _ ← iplist_write_user; mret tt else mret tt);;
    mret OPCD_IPLIST_USER_KEPT
  else
    modify (λ s, s <| ip_list := l |>);;
    rc ← iplist_write (p_ip_list (paths st)) l true;
    (match p_ip_list_user_last (paths st) with
     | Some last => if rc =? 0 then _ ← call (env_write last b 420); mret tt else mret tt
     | None => mret tt end);;
    mret OPCD_IPLIST_USER_APPLIED.

(** A file over the size limit or with a bad line: set aside, list in effect shown again. *)
Definition iplist_reject_user (user : string) : M E opcd_iplist_user_t :=
  (match suffixed user ".rejected" with
   | Some rej => _ ← call (env_rename user rej); mret tt
   | None => mret tt end);;
  _ ← iplist_write_user;
  mret OPCD_IPLIST_USER_REJECTED.

(** The result with what [own] receives. *)
Definition opcd_iplist_load : M E (opcd_iplist_user_t * opcd_iplist_load_t) :=
  lr ← iplist_load_own;
  st ← get;
  match p_ip_list_user (paths st) with
  | None => mret (OPCD_IPLIST_USER_UNSET, lr)
  | Some user =>
      f ← iplist_read_user user (OPC_IPLIST_IMPORT_MAX + 1);
      r ← (match f with
           | UserAbsent => _ ← iplist_write_user; mret OPCD_IPLIST_USER_CREATED
           | UserUnusable => mret OPCD_IPLIST_USER_UNUSABLE
           | UserTooLarge => iplist_reject_user user
           | UserRead b =>
               match iplist_from_text b true with
               | Some l => iplist_take_user lr b l
               | None => iplist_reject_user user
               end
           end);
      mret (r, lr)
  end.
End Load.

(** ** What the parser leaves in its table *)

(** An ESSID field as the parser fills it: text, then NULs. *)
Definition essid_padded (e : opc_ipcfg_entry_t) : Prop :=
  essid e = write_at 0 (essid_str e) (zeros 32).
Definition parsed_ok (e : opc_ipcfg_entry_t) : Prop := entry_ok e ∧ essid_padded e.
#[global] Instance parsed_ok_dec e : Decision (parsed_ok e).
Proof. unfold parsed_ok, essid_padded. apply _. Defined.
Definition table_ok (t : opc_iplist_text_t) : Prop :=
  length (entry t) = SLOTS ∧ length (keys_seen t) = SLOTS ∧ length (bad t) = SLOTS ∧
  Forall parsed_ok (entry t).

Lemma ipv4_parts_u32 p f ip s ip' r :
  is_u32 ip → ipv4_parts p f ip s = Some (ip', r) → is_u32 ip'.
Proof.
  revert f ip s. induction p as [|p IH]; intros f ip s Hip; cbn [ipv4_parts]; [by intros; simplify_eq|].
  intros H. apply bind_Some in H as (s1 & _ & H). apply bind_Some in H as ([v s2] & _ & H).
  eapply IH; [|exact H]. unfold is_u32, u32. apply Z.mod_pos_bound. lia.
Qed.
Lemma parse_ipv4_u32 s ip : parse_ipv4 s = Some ip → is_u32 ip.
Proof.
  unfold parse_ipv4. intros H. apply bind_Some in H as ([v r] & Hp & H).
  destruct r; simplify_eq. eapply ipv4_parts_u32; [|exact Hp]. unfold is_u32. lia.
Qed.

Lemma write_zeros v : (length v <= 32)%nat → write_at 0 v (zeros 32) = v ++ zeros (32 - len v).
Proof.
  intros. unfold write_at. cbn [app]. change (Z.to_nat 0) with 0%nat. rewrite take_0, Nat.add_0_l.
  cbn [app]. f_equal. unfold zeros, len. rewrite drop_replicate. f_equal. lia.
Qed.
Lemma cstr_app_nul v k : Forall (λ c, c ≠ 0) v → cstr (v ++ 0 :: k) = v.
Proof. induction 1 as [|c v Hc _ IH]; [done|]. cbn [app cstr]. by rewrite (proj2 (Z.eqb_neq _ _) Hc), IH. Qed.
Lemma essid_written v :
  Forall (λ c, c ≠ 0) v → (length v < 32)%nat →
  ∀ e, essid e = write_at 0 v (zeros 32) → essid_str e = v.
Proof.
  intros Hv Hl e He. unfold essid_str. rewrite He, write_zeros by lia.
  unfold OPC_ESSID_FIELD_LEN. rewrite (write_at_shift _ _ _ _ (31 - len v)) by (unfold len; lia).
  assert (∃ k, write_at (31 - len v) [0] (zeros (32 - len v)) = 0 :: k) as [k ->].
  { unfold write_at, zeros, len. destruct (decide (length v = 31%nat)) as [->|]; [by eexists|].
    destruct (Z.to_nat (32 - Z.of_nat (length v))) as [|m] eqn:E1; [lia|].
    destruct (Z.to_nat (31 - Z.of_nat (length v))) as [|m'] eqn:E2; [lia|]. by eexists. }
  by apply cstr_app_nul.
Qed.

Lemma set_value_parsed bit p e e' :
  Forall (λ c, c ≠ 0) p → parsed_ok e → set_value bit p e = Some e' → parsed_ok e'.
Proof.
  intros Hp [(H1 & H2 & H3 & H4 & H5) H6]. unfold set_value.
  destruct (bit =? OPC_IPLIST_KEY_ESSID).
  - intros H. apply bind_Some in H as (v & Hv & H). simplify_eq.
    unfold essid_value in Hv. case_match eqn:Hg; simplify_eq. guards.
    set (v := take (length p - 2) (drop 1 p)).
    assert (Hl : (length v < 32)%nat) by (unfold v; rewrite length_take; rewrite ?Nat.ltb_lt in *; lia).
    assert (Hv : Forall (λ c, c ≠ 0) v) by (unfold v; by apply Forall_take, Forall_drop).
    split; [|unfold essid_padded; cbn [essid]; by rewrite (essid_written v Hv Hl)].
    repeat split; try done; try apply H1; try apply H2; try apply H3; try apply H4.
    change (len (write_at 0 v (zeros 32)) = OPC_ESSID_FIELD_LEN).
    rewrite len_write_at; [done|lia|]. unfold len. change (length (zeros 32)) with 32%nat. lia.
  - intros H. apply bind_Some in H as (v & Hv%parse_ipv4_u32 & H). simplify_eq.
    unfold parsed_ok, entry_ok, essid_padded, essid_str.
    repeat case_match; cbn; repeat split; try done;
      try apply H1; try apply H2; try apply H3; try apply H4; apply Hv.
Qed.

Lemma digits_rest P k v s : Forall P s → Forall P (digits k v s).2.
Proof.
  revert v s. induction k as [|k IH]; intros v s Hs; [done|]. destruct Hs as [|c s Hc Hs]; [done|].
  cbn [digits]. destruct (is_digit c); [|by constructor].
  specialize (IH (v * 10 + (c - 48)) s Hs). by destruct (digits k _ s) as [[w nd] r].
Qed.
Lemma find_key_rest P ks s bit p : Forall P s → find_key ks s = Some (bit, p) → Forall P p.
Proof.
  intros Hs. induction ks as [|[name b] ks IH]; [done|]. cbn [find_key]. unfold match_key.
  repeat case_match; intros; simplify_eq; by auto using Forall_drop.
Qed.
Lemma no_nul s : existsb (Z.eqb 0) s = false → Forall (λ c, c ≠ 0) s.
Proof.
  induction s as [|c s IH]; [constructor|]. cbn [existsb]. intros [H1 H2]%orb_false_iff.
  constructor; [guards; lia|auto].
Qed.
Lemma table_ok_note t line : table_ok t → table_ok (note t line).
Proof. intros H. unfold note. by case_match. Qed.
Lemma table_ok_bad t i b : table_ok t → table_ok (t <| bad := <[i := b]> (bad t) |>).
Proof. intros (H1 & H2 & H3 & H4). repeat split; try done. cbn. by rewrite length_insert. Qed.
Lemma table_ok_parse_line s line t : table_ok t → table_ok (parse_line s line t).
Proof.
  intros Ht. unfold parse_line. destruct (existsb _ s) eqn:Ez; [by apply table_ok_note|].
  apply no_nul in Ez. destruct (find_key keys s) as [[bit p]|] eqn:Ek; [|by apply table_ok_note].
  apply (find_key_rest _ _ _ _ _ Ez) in Ek. pose proof (digits_rest _ 4 0 p Ek) as Hr.
  destruct (digits 4 0 p) as [[n nd] r]. cbn [snd] in Hr.
  case_match; [by apply table_ok_note|]. case_match; [by apply table_ok_note, table_ok_bad|].
  case_match eqn:Hv; [|by apply table_ok_note, table_ok_bad].
  destruct Ht as (H1 & H2 & H3 & H4). apply set_value_parsed in Hv as [He1 He2].
  - repeat split; cbn; rewrite ?length_insert; try done.
    apply Forall_insert; [done|]. split; [exact He1|exact He2].
  - by apply Forall_tail.
  - destruct (entry t !! _) eqn:E; [by eapply Forall_lookup_1|].
    apply (bool_decide_unpack _). by vm_compute.
Qed.
Lemma table_ok_parse_lines fuel : ∀ p line t, table_ok t → table_ok (parse_lines fuel p line t).
Proof.
  induction fuel as [|f IH]; intros p line t Ht; [done|]. destruct p; [done|]. cbn [parse_lines].
  destruct (break_lf _) as [l next]. apply IH. destruct (strip_cr l); [done|by apply table_ok_parse_line].
Qed.
Lemma table_ok_parse buf : table_ok (opc_iplist_text_parse buf).
Proof.
  unfold opc_iplist_text_parse. apply table_ok_parse_lines. split_and!; try done.
  apply Forall_replicate. apply (bool_decide_unpack _). by vm_compute.
Qed.

(** ** Strict and lenient reading *)

(** One row of the parser's table: entry, keys, malformed line seen. *)
Definition rows (t : opc_iplist_text_t) : list (opc_ipcfg_entry_t * Z * bool) :=
  zip (zip (entry t) (keys_seen t)) (bad t).
(** A row that becomes a populated slot. *)
Definition row_good (row : opc_ipcfg_entry_t * Z * bool) : Prop :=
  row.2 = false ∧ row.1.2 = OPC_IPLIST_KEY_ALL ∧ ip_address row.1.1 ≠ 0 ∧ ipcfg_entry_error row.1.1 true = 0.
(** A row the text does not name, or names completely with the address 0.0.0.0. *)
Definition row_unset (row : opc_ipcfg_entry_t * Z * bool) : Prop :=
  row.2 = false ∧ (row.1.2 = 0 ∨ row.1.2 = OPC_IPLIST_KEY_ALL ∧ ip_address row.1.1 = 0).
#[global] Instance row_good_dec row : Decision (row_good row).
Proof. unfold row_good. apply _. Defined.
Definition slot_result (n : Z) (row : opc_ipcfg_entry_t * Z * bool) : opc_ipcfg_entry_t * Z :=
  if decide (row_good row)
  then ((row.1.1 <| boundary_flag := 0 |>) <| list_number := u16 n |>, 1) else (ipcfg_entry_zero, 0).

Lemma slot_verdict_cases n e ks b :
  match slot_verdict_of n e ks b with
  | SlotTaken e' => row_good (e, ks, b) ∧ e' = (e <| boundary_flag := 0 |>) <| list_number := u16 n |>
  | SlotEmpty => ¬ row_good (e, ks, b) ∧ row_unset (e, ks, b)
  | SlotRefused => ¬ row_good (e, ks, b) ∧ ¬ row_unset (e, ks, b)
  end.
Proof.
  unfold slot_verdict_of, row_good, row_unset, OPC_IPLIST_KEY_ALL. cbn [fst snd].
  destruct b, (ks =? 0) eqn:E1, (ks =? 31) eqn:E2, (ip_address e =? 0) eqn:E3,
    (ipcfg_entry_error e true =? 0) eqn:E4; cbn; guards; split; try done; naive_solver lia.
Qed.
Lemma slots_from_Some strict i l r :
  slots_from strict i l = Some r →
  r = imap (λ j, slot_result (i + 1 + Z.of_nat j)) l ∧
  (strict = true → Forall (λ row, row_good row ∨ row_unset row) l).
Proof.
  revert i r. induction l as [|[[e ks] b] l IH]; intros i r; cbn [slots_from]; [by intros; simplify_eq|].
  assert (Hi : ∀ r', r' = imap (λ j, slot_result (i + 1 + 1 + Z.of_nat j)) l →
    imap ((λ j, slot_result (i + 1 + Z.of_nat j)) ∘ S) l = r').
  { intros r' ->. apply imap_ext. intros j row _. unfold compose. f_equal. lia. }
  pose proof (slot_verdict_cases (i + 1) e ks b) as Hv. rewrite imap_cons.
  replace (i + 1 + Z.of_nat 0) with (i + 1) by lia. unfold slot_result at 1.
  destruct (slot_verdict_of _ _ _ _); [..|].
  - intros H. apply bind_Some in H as (r' & Hr & ?). simplify_eq. apply IH in Hr as [Hr Hs].
    rewrite decide_False, (Hi _ Hr) by tauto. split; [done|]. intros ?. constructor; [right; apply Hv|auto].
  - destruct strict; [done|]. intros H. apply bind_Some in H as (r' & Hr & ?). simplify_eq.
    apply IH in Hr as [Hr Hs]. by rewrite decide_False, (Hi _ Hr) by tauto.
  - intros H. apply bind_Some in H as (r' & Hr & ?). simplify_eq. apply IH in Hr as [Hr Hs].
    destruct Hv as [Hg ->]. rewrite decide_True, (Hi _ Hr) by tauto. split; [done|]. intros ?. constructor; [by left|auto].
Qed.
Lemma slots_from_total strict i l :
  strict = false ∨ Forall (λ row, row_good row ∨ row_unset row) l → is_Some (slots_from strict i l).
Proof.
  revert i. induction l as [|[[e ks] b] l IH]; intros i Hl; cbn [slots_from]; [done|].
  assert (is_Some (slots_from strict (i + 1) l)) as [r ->].
  { apply IH. destruct Hl as [|Hl]; [by left|right]. by inversion Hl. }
  pose proof (slot_verdict_cases (i + 1) e ks b) as Hv.
  destruct (slot_verdict_of _ _ _ _); [by eexists| |by eexists].
  destruct Hl as [-> |Hl]; [by eexists|]. apply Forall_cons_1 in Hl as [Hl _]. naive_solver.
Qed.

(** The lists a text denotes: an empty slot is all zero, a populated one carries its own
    number, no boundary flag, a padded ESSID, and passes the checks of SetIpConfigList. *)
Definition slot_canonical (n : Z) (e : opc_ipcfg_entry_t) (p : Z) : Prop :=
  e = ipcfg_entry_zero ∧ p = 0 ∨
  p = 1 ∧ parsed_ok e ∧ boundary_flag e = 0 ∧ list_number e = n ∧ ip_address e ≠ 0 ∧
  ipcfg_entry_error e true = 0.
Definition canonical (l : opcd_ip_list_t) : Prop :=
  length (slots l) = SLOTS ∧ length (present l) = SLOTS ∧
  ∀ i e p, slots l !! i = Some e → present l !! i = Some p → slot_canonical (Z.of_nat i + 1) e p.

Definition list_of_rows (t : opc_iplist_text_t) : opcd_ip_list_t :=
  let r := imap (λ j, slot_result (0 + 1 + Z.of_nat j)) (rows t) in mk_ip_list r.*1 r.*2.

Lemma rows_length t : table_ok t → length (rows t) = SLOTS.
Proof. intros (H1 & H2 & H3 & _). unfold rows. rewrite !length_zip. lia. Qed.
Lemma rows_parsed t i row : table_ok t → rows t !! i = Some row → parsed_ok row.1.1 ∧ (i < SLOTS)%nat.
Proof.
  intros Ht Hr. pose proof (lookup_lt_Some _ _ _ Hr) as Hi. rewrite rows_length in Hi by done.
  split; [|done]. destruct Ht as (H1 & H2 & H3 & H4). unfold rows in Hr.
  destruct row as [[e ks] b]. apply lookup_zip_Some in Hr as [Hr _].
  apply lookup_zip_Some in Hr as [Hr _]. by eapply Forall_lookup_1.
Qed.
Lemma list_of_rows_lookup t i row :
  rows t !! i = Some row →
  slots (list_of_rows t) !! i = Some (slot_result (Z.of_nat i + 1) row).1 ∧
  present (list_of_rows t) !! i = Some (slot_result (Z.of_nat i + 1) row).2.
Proof.
  intros Hr. unfold list_of_rows. cbn [slots present]. rewrite !list_lookup_fmap, !list_lookup_imap, Hr.
  cbn [fmap option_fmap option_map]. by replace (0 + 1 + Z.of_nat i) with (Z.of_nat i + 1) by lia.
Qed.
Lemma canonical_list_of_rows t : table_ok t → canonical (list_of_rows t).
Proof.
  intros Ht. pose proof (rows_length t Ht) as Hl. split; [|split].
  1,2: unfold list_of_rows; cbn [slots present]; by rewrite length_fmap, length_imap.
  intros i e p He Hp. destruct (rows t !! i) as [row|] eqn:Hr.
  2: { unfold list_of_rows in He. cbn [slots] in He. by rewrite list_lookup_fmap, list_lookup_imap, Hr in He. }
  destruct (rows_parsed t i row Ht Hr) as [[Hok Hpad] Hi].
  apply list_of_rows_lookup in Hr as [Hs Hq]. rewrite Hs in He. rewrite Hq in Hp. simplify_eq.
  unfold slot_result. destruct (decide (row_good row)) as [(Hb & Hk & Hip & Herr)|]; [right|by left].
  cbn [fst snd]. split_and!; try done.
  change (u16 (Z.of_nat i + 1) = Z.of_nat i + 1). apply u16_id. unfold is_u16.
  change SLOTS with 128%nat in Hi. lia.
Qed.

(** Reading a list from text. The lenient reading always succeeds; it populates exactly
    the numbers whose five lines are all there, well-formed and accepted by the checks of
    SetIpConfigList with a non-zero address, under their own number, and leaves every other
    slot empty. The strict reading gives the same list or none: it refuses the whole text
    when any line is in error or any number it names is incomplete or rejected. *)
Theorem iplist_from_text_spec buf :
  let t := opc_iplist_text_parse (strip_bom buf) in
  ∃ l, iplist_from_text buf false = Some l ∧ canonical l ∧
    (∀ i row, rows t !! i = Some row →
       if decide (row_good row)
       then slots l !! i = Some ((row.1.1 <| boundary_flag := 0 |>) <| list_number := u16 (Z.of_nat i + 1) |>)
            ∧ present l !! i = Some 1
       else slots l !! i = Some ipcfg_entry_zero ∧ present l !! i = Some 0) ∧
    (∀ l', iplist_from_text buf true = Some l' ↔
       l' = l ∧ first_error_line t = 0 ∧ Forall (λ row, row_good row ∨ row_unset row) (rows t)).
Proof.
  intros t. pose proof (table_ok_parse (strip_bom buf)) as Ht. fold t in Ht.
  exists (list_of_rows t). unfold iplist_from_text. fold t. fold (rows t). split_and!.
  - destruct (slots_from_total false 0 (rows t)) as [r Hr]; [by left|]. cbn [andb]. rewrite Hr.
    apply slots_from_Some in Hr as [-> _]. done.
  - by apply canonical_list_of_rows.
  - intros i row [Hs Hp]%list_of_rows_lookup. rewrite Hs, Hp. unfold slot_result. by case_decide.
  - intros l'. cbn [andb]. destruct (first_error_line t =? 0) eqn:E; guards; cbn [negb]; [|naive_solver].
    split.
    + intros H. apply bind_Some in H as (r & Hr & ?). simplify_eq.
      apply slots_from_Some in Hr as [-> Hg]. auto.
    + intros (-> & _ & Hg). destruct (slots_from_total true 0 (rows t)) as [r Hr]; [by right|].
      rewrite Hr. by apply slots_from_Some in Hr as [-> _].
Qed.
(** ** Writing a list and reading it back *)

Definition list_text (l : opcd_ip_list_t) : list Z := lines_text (list_lines 0 (zip (slots l) (present l))).
(** What the text keeps of an entry. *)
Definition normal_entry (e : opc_ipcfg_entry_t) : opc_ipcfg_entry_t :=
  (e <| boundary_flag := 0 |>) <| essid := write_at 0 (essid_str e) (zeros 32) |>.
Definition normal (l : opcd_ip_list_t) : opcd_ip_list_t := mk_ip_list (normal_entry <$> slots l) (present l).
(** As [slot_canonical], with any boundary flag and any bytes after the ESSID's terminator. *)
Definition slot_valid (n : Z) (e : opc_ipcfg_entry_t) (p : Z) : Prop :=
  e = ipcfg_entry_zero ∧ p = 0 ∨
  p = 1 ∧ entry_ok e ∧ list_number e = n ∧ ip_address e ≠ 0 ∧
  ipcfg_entry_error e true = 0.
Definition list_valid (l : opcd_ip_list_t) : Prop :=
  length (slots l) = SLOTS ∧ length (present l) = SLOTS ∧
  ∀ i e p, slots l !! i = Some e → present l !! i = Some p → slot_valid (Z.of_nat i + 1) e p.

Lemma canonical_valid l : canonical l → list_valid l ∧ normal l = l.
Proof.
  intros (Hs & Hp & H). split.
  - split_and!; try done. intros i e p He Hq. destruct (H i e p He Hq) as [?|(? & [? ?] & _ & ?)]; [by left|by right].
  - destruct l as [sl pr]. unfold normal. cbn [slots present] in *. f_equal.
    apply list_eq. intros i. rewrite list_lookup_fmap. destruct (sl !! i) as [e|] eqn:He; [|done].
    cbn. f_equal. destruct (lookup_lt_is_Some_2 pr i) as [p Hq].
    { apply lookup_lt_Some in He. lia. }
    destruct (H i e p He Hq) as [[-> _]|(_ & [_ Hpad] & Hbf & _)]; [by vm_compute|].
    unfold normal_entry. rewrite <- Hpad. destruct e; cbn in *; by subst.
Qed.

Lemma cstr_cut P k a : ∀ n, Forall P (cstr a) → Forall P (cstr (take n a ++ 0 :: k)).
Proof.
  induction a as [|c a IH]; intros [|n] H; cbn [take app cstr Z.eqb]; try by constructor.
  cbn [cstr] in H. destruct (c =? 0); [by constructor|]. apply Forall_cons_1 in H as [? ?].
  constructor; auto.
Qed.
Lemma essid_str_chars P e : len (essid e) = OPC_ESSID_FIELD_LEN → Forall P (cstr (essid e)) → Forall P (essid_str e).
Proof.
  intros Hl H. unfold essid_str, write_at. change (Z.to_nat (OPC_ESSID_FIELD_LEN - 1)) with 31%nat.
  cbn [app length]. by apply cstr_cut.
Qed.
Lemma entry_error_charset e : ipcfg_entry_error e true = 0 → valid_opc_charset (essid e) = true.
Proof. unfold ipcfg_entry_error. repeat case_match; try done. intros _. by apply negb_false_iff. Qed.
Lemma valid_essid_text e :
  len (essid e) = OPC_ESSID_FIELD_LEN → ipcfg_entry_error e true = 0 → essid_text_ok e.
Proof.
  intros Hl He%entry_error_charset. apply valid_opc_charset_iff in He.
  unfold essid_text_ok. apply essid_str_chars; [done|]. eapply Forall_impl; [exact He|].
  intros c Hc. unfold opc_char_ok in Hc. unfold LF, QUOTE.
  split; intros ->; by vm_compute in Hc.
Qed.
Lemma essid_str_normal e : len (essid e) = OPC_ESSID_FIELD_LEN → essid_str (normal_entry e) = essid_str e.
Proof.
  intros Hl. apply (essid_written (essid_str e)); [apply cstr_no_nul| |done].
  apply essid_str_len in Hl. unfold len in Hl. lia.
Qed.
Lemma valid_text_ok l : list_valid l → ip_list_text_ok l.
Proof.
  intros (Hs & Hp & H).
  assert (Hz : entry_ok ipcfg_entry_zero) by (apply (bool_decide_unpack _); by vm_compute).
  assert (He : ∀ i e, slots l !! i = Some e → entry_ok e ∧ ∀ p, present l !! i = Some p → p = 0 ∨ essid_text_ok e).
  { intros i e He. destruct (lookup_lt_is_Some_2 (present l) i) as [p Hq].
    { apply lookup_lt_Some in He. lia. }
    destruct (H i e p He Hq) as [[-> ->]|(-> & Hok & _ & _ & Herr)].
    - split; [done|]. intros p' ?. simplify_eq. by left.
    - split; [done|]. intros p' ?. right. apply valid_essid_text; [apply Hok|done]. }
  split; [split_and!; try done|].
  - apply Forall_lookup_2. intros i e Hi. by apply (He i e).
  - apply Forall_lookup_2. intros i [e p] Hi. apply lookup_zip_Some in Hi as [Hi Hq].
    destruct (He i e Hi) as [? Hx]. split; [done|]. by apply Hx.
Qed.
Lemma list_text_bom l : strip_bom (list_text l) = list_text l.
Proof.
  unfold list_text. assert (Hh : ∀ ls i, lines_text (list_lines i ls) = [] ∨
    ∃ r, lines_text (list_lines i ls) = 73 :: r).
  { induction ls as [|[e p] ls IH]; intros i; [by left|]. cbn [list_lines]. rewrite lines_text_app.
    destruct (p =? 0); [apply IH|]. right. unfold slot_lines, put_line, lines_text.
    cbn [flat_map]. by eexists. }
  destruct (Hh (zip (slots l) (present l)) 0) as [-> |[r ->]]; [done|].
  unfold strip_bom. rewrite bool_decide_eq_false_2, andb_false_r; [done|]. by destruct r as [|? [|? r]].
Qed.
Lemma text_entries_lookup l : ∀ i j,
  text_entries i l !! j
  = (λ ep, if ep.2 =? 0 then ipcfg_entry_zero else text_entry (i + 1 + Z.of_nat j) ep.1) <$> l !! j.
Proof.
  induction l as [|[e p] l IH]; intros i j; [done|]. cbn [text_entries]. destruct j as [|j].
  - cbn [lookup list_lookup fmap option_fmap option_map fst snd].
    by replace (i + 1 + Z.of_nat 0) with (i + 1) by lia.
  - cbn [lookup list_lookup]. rewrite IH. destruct (l !! j) as [[e' p']|]; [|done].
    cbn [fmap option_fmap option_map fst snd]. by replace (i + 1 + 1 + Z.of_nat j) with (i + 1 + Z.of_nat (S j)) by lia.
Qed.

(** The row the parser holds for a slot of the text. *)
Definition text_row (n : Z) (e : opc_ipcfg_entry_t) (p : Z) : opc_ipcfg_entry_t * Z * bool :=
  (if p =? 0 then ipcfg_entry_zero else text_entry n e, if p =? 0 then 0 else OPC_IPLIST_KEY_ALL, false).
Lemma text_of_row l i e p :
  length (slots l) = SLOTS → length (present l) = SLOTS →
  slots l !! i = Some e → present l !! i = Some p →
  rows (text_of l) !! i = Some (text_row (Z.of_nat i + 1) e p).
Proof.
  intros Hs Hp He Hq. unfold rows, text_of, text_row. cbn [entry keys_seen bad].
  assert (Hz : zip (slots l) (present l) !! i = Some (e, p)) by (by apply lookup_zip_Some).
  apply lookup_zip_Some. split; [apply lookup_zip_Some; split|].
  - rewrite text_entries_lookup, Hz. cbn [fmap option_fmap option_map fst snd].
    by replace (0 + 1 + Z.of_nat i) with (Z.of_nat i + 1) by lia.
  - unfold text_keys. by rewrite list_lookup_fmap, Hq.
  - apply lookup_replicate_2. rewrite <- Hs. by eapply lookup_lt_Some.
Qed.

Lemma normal_entry_error e : entry_ok e → ipcfg_entry_error e true = 0 → ipcfg_entry_error (normal_entry e) true = 0.
Proof.
  intros Hok He. pose proof (entry_error_charset e He) as Hc. revert He.
  assert (Hn : valid_opc_charset (essid (normal_entry e)) = true).
  { apply valid_opc_charset_iff. change (essid (normal_entry e)) with (write_at 0 (essid_str e) (zeros 32)).
    destruct Hok as (_ & _ & _ & _ & Hl). pose proof (essid_str_len e Hl) as Hl'. unfold len in Hl'.
    rewrite write_zeros by lia. assert (∃ k, zeros (32 - len (essid_str e)) = 0 :: k) as [k ->].
    { unfold zeros, len. destruct (Z.to_nat (32 - Z.of_nat (length (essid_str e)))) eqn:E; [lia|by eexists]. }
    rewrite cstr_app_nul by apply cstr_no_nul. apply essid_str_chars; [done|].
    by apply valid_opc_charset_iff. }
  unfold ipcfg_entry_error. rewrite Hc, Hn. done.
Qed.
Lemma slot_of_text_row n e p :
  1 <= n <= 128 → slot_valid n e p →
  (row_good (text_row n e p) ∨ row_unset (text_row n e p)) ∧
  slot_result n (text_row n e p) = (normal_entry e, p).
Proof.
  intros Hn [[-> ->]|(-> & Hok & Hln & Hip & Herr)].
  - unfold text_row, slot_result. cbn [Z.eqb]. split; [right; split; [done|by left]|].
    rewrite decide_False; [by vm_compute|]. by intros (_ & ? & _).
  - assert (Ht : text_entry n e = normal_entry e).
    { unfold text_entry, normal_entry. destruct e; cbn in *; by subst. }
    assert (Hg : row_good (text_row n e 1)).
    { unfold row_good, text_row. cbn [Z.eqb fst snd]. split_and!; try done.
      rewrite Ht. by apply normal_entry_error. }
    split; [by left|]. unfold slot_result. rewrite decide_True by done. unfold text_row. cbn [Z.eqb fst snd].
    f_equal. rewrite Ht. rewrite u16_id by (unfold is_u16; lia).
    unfold normal_entry. destruct e; cbn in *; by subst.
Qed.

Lemma valid_slot l i :
  list_valid l → (i < SLOTS)%nat →
  ∃ e p, slots l !! i = Some e ∧ present l !! i = Some p ∧
    (row_good (text_row (Z.of_nat i + 1) e p) ∨ row_unset (text_row (Z.of_nat i + 1) e p)) ∧
    rows (text_of l) !! i = Some (text_row (Z.of_nat i + 1) e p) ∧
    slot_result (Z.of_nat i + 1) (text_row (Z.of_nat i + 1) e p) = (normal_entry e, p).
Proof.
  intros (Hs & Hp & Hv) Hi.
  destruct (lookup_lt_is_Some_2 (slots l) i) as [e He]; [lia|].
  destruct (lookup_lt_is_Some_2 (present l) i) as [p Hq]; [lia|].
  destruct (slot_of_text_row (Z.of_nat i + 1) e p) as [Hg Hr]; [change SLOTS with 128%nat in Hi; lia|auto|].
  exists e, p. split_and!; try done. by apply text_of_row.
Qed.
Lemma table_ok_text_of l : list_valid l → table_ok (text_of l).
Proof. intros Hv%valid_text_ok. rewrite <- parse_list_text by done. apply table_ok_parse. Qed.
Lemma rows_text_of l :
  list_valid l → Forall (λ row, row_good row ∨ row_unset row) (rows (text_of l)).
Proof.
  intros Hv. apply Forall_lookup_2. intros i row Hr. pose proof (lookup_lt_Some _ _ _ Hr) as Hi.
  rewrite rows_length in Hi by (by apply table_ok_text_of).
  destruct (valid_slot l i Hv Hi) as (e & p & _ & _ & Hg & Hr' & _). by simplify_eq.
Qed.
Lemma list_of_rows_text_of l : list_valid l → list_of_rows (text_of l) = normal l.
Proof.
  intros Hv. destruct (canonical_list_of_rows _ (table_ok_text_of l Hv)) as (HLs & HLp & _).
  assert (Hi : ∀ i, slots (list_of_rows (text_of l)) !! i = normal_entry <$> slots l !! i ∧
                    present (list_of_rows (text_of l)) !! i = present l !! i).
  { intros i. destruct (decide (i < SLOTS)%nat) as [Hi|Hi].
    - destruct (valid_slot l i Hv Hi) as (e & p & He & Hq & _ & Hr & Hres).
      destruct (list_of_rows_lookup _ _ _ Hr) as [-> ->]. by rewrite He, Hq, Hres.
    - destruct Hv as (Hs & Hp & _). rewrite !lookup_ge_None_2 by lia. done. }
  unfold normal. destruct (list_of_rows (text_of l)) as [sl pr]. cbn [slots present] in *.
  f_equal; apply list_eq; intros i; [rewrite list_lookup_fmap|]; apply Hi.
Qed.

(** A valid list is written, and read back strictly as itself with padded ESSIDs. *)
Lemma list_text_read l :
  list_valid l →
  opc_iplist_text_format l OPC_IPLIST_TEXT_MAX = Some (list_text l) ∧ len (list_text l) <= 21604 ∧
  ∀ strict, iplist_from_text (list_text l) strict = Some (normal l).
Proof.
  intros Hv. pose proof (valid_text_ok l Hv) as Ht. destruct (ip_list_text l (proj1 Ht)) as [Hlen Hf].
  split; [apply Hf; unfold OPC_IPLIST_TEXT_MAX; lia|]. split; [done|]. intros strict.
  unfold iplist_from_text. rewrite list_text_bom. unfold list_text. rewrite parse_list_text by done.
  change (first_error_line (text_of l)) with 0. rewrite andb_false_r. fold (rows (text_of l)).
  destruct (slots_from_total strict 0 (rows (text_of l))) as [r Hr]; [right; by apply rows_text_of|].
  rewrite Hr. apply slots_from_Some in Hr as [-> _]. cbn [mbind option_bind]. f_equal.
  by apply list_of_rows_text_of.
Qed.
Lemma list_lines_normal ls : ∀ i,
  Forall (λ ep : opc_ipcfg_entry_t * Z, len (essid ep.1) = OPC_ESSID_FIELD_LEN) ls →
  list_lines i (prod_map normal_entry id <$> ls) = list_lines i ls.
Proof.
  induction ls as [|[e p] ls IH]; intros i H; [done|]. apply Forall_cons_1 in H as [He H].
  rewrite fmap_cons. unfold prod_map at 1. cbn [list_lines fst snd id] in *. rewrite IH by done.
  unfold slot_lines. by rewrite essid_str_normal.
Qed.
Lemma list_text_normal l : list_valid l → list_text (normal l) = list_text l.
Proof.
  intros Hv. unfold list_text, normal. cbn [slots present]. f_equal.
  replace (zip (normal_entry <$> slots l) (present l))
    with (prod_map normal_entry id <$> zip (slots l) (present l)).
  - apply list_lines_normal. apply valid_text_ok in Hv as [(_ & _ & Hok) _].
    apply Forall_lookup_2. intros i [e p] Hi. apply lookup_zip_Some in Hi as [Hi _].
    by apply (Forall_lookup_1 _ _ _ _ Hok) in Hi as (_ & _ & _ & _ & ?).
  - generalize (present l). induction (slots l) as [|e sl IH]; intros [|p ps]; [done..|].
    cbn. by rewrite IH.
Qed.
Lemma iplist_from_text_canonical buf strict l : iplist_from_text buf strict = Some l → canonical l.
Proof.
  unfold iplist_from_text. case_match; [done|]. intros H'. apply bind_Some in H' as (r & Hr & ?).
  simplify_eq. apply slots_from_Some in Hr as [-> _]. apply (canonical_list_of_rows _), table_ok_parse.
Qed.
Lemma iplist_from_text_lenient buf : is_Some (iplist_from_text buf false).
Proof.
  unfold iplist_from_text. cbn [andb].
  destruct (slots_from_total false 0 (rows (opc_iplist_text_parse (strip_bom buf)))) as [r Hr]; [by left|].
  unfold rows in Hr. rewrite Hr. by eexists.
Qed.

(** Every populated slot of a converted binary list passes the checks. *)
Lemma le16_read_u16 b off : bytes_ok b → is_u16 (le16_read b off).
Proof.
  intros Hb. unfold le16_read, is_u16. pose proof (rd_range b off Hb). pose proof (rd_range b (off + 1) Hb).
  unfold is_u8 in *. lia.
Qed.
Lemma le32_read_u32 b off : bytes_ok b → is_u32 (le32_read b off).
Proof.
  intros Hb. unfold le32_read, is_u32. pose proof (le16_read_u16 b off Hb).
  pose proof (le16_read_u16 b (off + 2) Hb). unfold is_u16 in *. lia.
Qed.
Lemma entry_error_terminated e t : ipcfg_entry_error e t = 0 → ipcfg_entry_error e true = 0.
Proof. destruct t; [done|]. unfold ipcfg_entry_error. by repeat case_match. Qed.
Lemma legacy_slot_valid b i :
  bytes_ok b → len b = IP_LIST_SIZE → 0 <= i < 128 →
  slot_valid (i + 1) (legacy_slot b i).1 (legacy_slot b i).2.
Proof.
  intros Hb Hl Hi. unfold legacy_slot. case_match; [by left|]. case_match; [by left|].
  set (e := entry_of_bytes b (i * ENTRY_SIZE)) in *. guards. right. cbn [fst snd].
  rewrite u16_id by (unfold is_u16; lia). split_and!; try done.
  - unfold entry_ok, e, entry_of_bytes. cbn -[le32_read]. split_and!; try by apply le32_read_u32.
    change (len (slice (i * ENTRY_SIZE + 20) OPC_ESSID_FIELD_LEN b) = OPC_ESSID_FIELD_LEN).
    unfold OPC_ESSID_FIELD_LEN, ENTRY_SIZE. rewrite len_slice; [done|lia|lia|].
    rewrite Hl. change IP_LIST_SIZE with 6784. lia.
  - case_match; guards; try done.
  - case_match; guards; [done|]. by eapply entry_error_terminated.
Qed.
Lemma legacy_list_valid b : bytes_ok b → len b = IP_LIST_SIZE → list_valid (legacy_list b).
Proof.
  intros Hb Hl. unfold list_valid, legacy_list. cbn [slots present].
  split_and!; [by rewrite !length_fmap, length_seq..|].
  intros i e p. rewrite !list_lookup_fmap. destruct (seq 0 SLOTS !! i) as [k|] eqn:Hk; [|done].
  apply lookup_seq in Hk as [-> Hi]. change SLOTS with 128%nat in Hi. cbn [fmap option_fmap option_map].
  intros ? ?. simplify_eq. apply legacy_slot_valid; [done..|lia].
Qed.
End IpListLoad.
Export IpListLoad.
