(* ===== verification/Daemon.v ===== *)
(** * The main loop: opcd/opcd.c

    Start-up defaults, the body of each epoll branch, one turn of the loop and the
    reconciliation after it. What the descriptors deliver is the input: a turn is the
    list of events [epoll_wait] returned, with the datagrams, timer expirations and
    platform events read from them. The worker thread runs beside the loop, so an event
    [EvWorker] may replace the writer's queue anywhere. Log lines are left out; option
    parsing and the set-up are in Startup.v, the whole of [main] in MainProgram.v. *)
From S2P Require Import Prelude Codec ScanList Commands Indications Store StoreAsync IpListText FaultProbe State Indication Validate RadioConf Persist Handlers IpListLoad.
From stdpp Require Import base list numbers option tactics strings.
From Stdlib Require Import ZArith Lia.
#[local] Open Scope Z_scope.
Import Store.Store StoreAsync.StoreAsync IpListText.IpListText FaultProbe.FaultProbe.

Module Daemon.

(** ** Start-up *)

Definition OPC_DEFAULT_UDP_PORT : Z := 50607.
Definition OPC_DEFAULT_ROAM_NOTIFY_PORT : Z := 50608.
Definition OPC_LOGIN_IDLE_S : Z := 300.
Definition OPC_PASSWORD_DEFAULT : list Z := str "MyPassword".
Definition OPCD_INGRESS_BATCH_MAX : nat := 16.

Definition default_conf : opcd_conf_t :=
  mk_conf OPC_DEFAULT_UDP_PORT OPC_DEFAULT_ROAM_NOTIFY_PORT OPC_STATION_SINGLE OPC_LOGIN_IDLE_S
    OPC_FREQ_SRC_LIVE OPC_IP_IFACE_ETH0 OPC_TOPOLOGY_ETH0_IP.
Definition default_paths : opcd_paths_t :=
  mk_paths "/usr/local/opc/etc/password" "/usr/local/opc/etc/iplist.txt"
    (Some "/home/admin/iplist.txt") (Some "/usr/local/opc/etc/iplist.user.last")
    (Some "/usr/local/opc/etc/iplist.cfg") "/usr/local/opc/etc/radio.conf"
    (Some "/usr/local/opc/etc/radio.txn").

Definition wlan_cfg_zero : opc_wlan_radio_cfg_t := mk_radio_cfg 0 0 0 (zeros 8).
Definition radio_config_zero : opc_set_radio_config_req_t :=
  mk_radio_config 0 0 wlan_cfg_zero wlan_cfg_zero.

(** [memset] of the state to zero, then the assignments. *)
Definition state_set_defaults : opcd_state_t := {|
  conf := default_conf; paths := default_paths;
  logged_in := false; holder_ip := 0; holder_port := 0; idle_deadline := 0;
  session_generation := 0;
  password := write_at 0 OPC_PASSWORD_DEFAULT (zeros 128);
  password_unsynced := false; password_unsynced_prev := zeros 128;
  radio := mk_radio_config OPC_STATION_SINGLE 0 (mk_radio_cfg 0 0 OPC_SCAN_BAND_UNSET (zeros 8))
             (mk_radio_cfg 0 0 OPC_SCAN_BAND_UNSET (zeros 8));
  radio_committed := false; radio_applied_known := false;
  radio_recovery_state := OPCD_RADIO_RECOVERY_HEALTHY; radio_gen := 0;
  ip_list := ip_list_zero;
  radio_revert_pending := false; radio_revert_cfg := radio_config_zero;
  radio_revert_committed := false; radio_persist_baseline_valid := false;
  ip_list_staging := ip_list_zero; ip_list_staging_active := false;
  ip_change_pending := false; ip_change_commit_armed := false;
  ip_change_logout_deferred := false; ip_change_list_no := 0; ip_change_armed_no := 0;
  ip_change_armed_entry := ipcfg_entry_zero;
  fault_probe := opcd_fault_probe_init;
  indication_enabled := false; indication_recipient_ip := 0; indication_recipient_port := 0;
  indication_info_bits := 0; indication_period_s := 0; radio_up_reported := false;
  wlan0_assoc_known := false; wlan0_assoc := false; wlan0_assoc_at := 0;
  indication_seq := 0; indication_tick_counter := 0;
  indication_coalesce := replicate 2 coalesce_zero;
  boot_status := OPC_DEVICE_BOOTING;
  store_async := None; pending_acks := replicate OPCD_PENDING_ACK_MAX pending_ack_zero;
  pending_password := zeros 128; pending_ip_list := ip_list_zero;
  pending_ip_staging := ip_list_zero; pending_ip_staging_active := false;
  pending_ip_staging_session_generation := 0;
  udp_fd := -1; should_exit := false; should_reset := false; reset_notice_sent := false |}.

Section Daemon.
Context {E : Type} `{Env E}.

(** The password part of [state_load_from_disk]. *)
Definition load_password : M E unit :=
  st ← get;
  r ← call (env_read (p_password (paths st)) 127);
  match r with
  | Some data => if 0 <? len data
                 then modify (λ s, s <| password := write_at 0 data (zeros 128) |>) else mret tt
  | None => mret tt
  end.

(** The files read at start. (The inventory and the snapshot directory are the
    environment's.) *)
Definition state_load_from_disk : M E unit :=
  load_password;;
  _ ← opcd_radio_conf_load;
  _ ← opcd_iplist_load;
  mret tt.

(** The assignments of [main] after a successful platform init: the control socket, READY,
    and the writer when it could be created. *)
Definition publish (fd : Z) (writer : option opc_store_async) : M E unit :=
  modify (λ s, ((s <| udp_fd := fd |>) <| boot_status := OPC_DEVICE_READY |>)
                 <| store_async := writer |>).

(** ** Platform events *)

Definition OPCD_WLAN_STATUS_DOWN : Z := 0.
Definition OPCD_WLAN_STATUS_UP : Z := 1.
Definition OPCD_WLAN_STATUS_ASSOCIATED : Z := 2.
Definition OPCD_WLAN_STATUS_CHANNEL_CHANGE : Z := 3.

Inductive opcd_platform_evt_t :=
  | OPCD_PEVT_NONE
  | OPCD_PEVT_INIT_COMPLETE (status : Z)
  | OPCD_PEVT_WLAN_STATUS (idx status channel : Z)
  | OPCD_PEVT_ROAMING (idx snr rssi : Z) (mac : list Z) (channel : Z)
  | OPCD_PEVT_AP_DISCONNECT (idx reason_msg_id result_code : Z) (mac : list Z)
  | OPCD_PEVT_FAULT_DETECT (congestion_id current_val : Z)
  | OPCD_PEVT_RESET_NOTICE (cause : Z).

Definition wlan_status_to_wire (internal : Z) : Z :=
  if (internal =? OPCD_WLAN_STATUS_ASSOCIATED) || (internal =? OPCD_WLAN_STATUS_CHANNEL_CHANGE)
  then OPC_WLAN_STATUS_CONNECTED else OPC_WLAN_STATUS_DISCONNECTED.

Definition on_platform_event (evt : opcd_platform_evt_t) : M E Z :=
  match evt with
  | OPCD_PEVT_INIT_COMPLETE status => _ ← opcd_ind_init_complete status; mret 0
  | OPCD_PEVT_WLAN_STATUS idx status channel =>
      if negb (idx =? 0) then mret 0
      else _ ← opcd_ind_wlan_status (wlan_status_to_wire status) channel; mret 0
  | OPCD_PEVT_ROAMING idx snr rssi mac channel =>
      if negb (idx =? 0) then mret 0 else _ ← opcd_ind_roaming snr rssi mac channel; mret 0
  | OPCD_PEVT_AP_DISCONNECT idx reason_msg_id result_code mac =>
      if negb (idx =? 0) then mret 0
      else _ ← opcd_ind_ap_disconnect reason_msg_id result_code mac; mret 0
  | OPCD_PEVT_FAULT_DETECT congestion_id current_val =>
      _ ← opcd_ind_fault_detect congestion_id current_val; mret 0
  | OPCD_PEVT_RESET_NOTICE cause => _ ← opcd_ind_reset_notice cause; mret 0
  | OPCD_PEVT_NONE => mret 0
  end.

(** ** The branches of the loop *)

Definition SIGTERM : Z := 15.

(** reset_cause.c *)
Definition opcd_shutdown_reset_cause (stopping file_cause : Z) : Z :=
  if negb (stopping =? 1) then 0
  else if negb (file_cause =? 0) then file_cause else OPC_RESET_CAUSE_SYSTEM.

(** The signal branch; [first_signo] is 0 when nothing was read. *)
Definition on_signal (first_signo : Z) : M E unit :=
  (if first_signo =? SIGTERM then
     stopping ← call opcd_system_stopping;
     file_cause ← call opcd_reset_cause_read;
     let cause := opcd_shutdown_reset_cause stopping file_cause in
     if negb (cause =? 0) then _ ← opcd_ind_reset_notice cause; mret tt else mret tt
   else mret tt);;
  modify (λ s, s <| should_exit := true |>).

(** The timer branch; [elapsed] sums the expirations read. *)
Definition on_timer (elapsed : Z) : M E unit :=
  st ← get;
  (if logged_in st then
     now ← mono_now;
     whenM (idle_deadline st <=? now) opcd_session_logout
   else mret tt);;
  let elapsed_s := if 4294967295 <? elapsed then 4294967295 else elapsed in
  opcd_ind_tick_elapsed elapsed_s;;
  _ ← call opcd_systemd_watchdog;
  call (refresh_firmware_version elapsed_s).

(** One [recvfrom]: a datagram with its source, EINTR, or another error; the end of a
    list is EAGAIN. *)
Inductive recv_result (A : Type) := Rx (x : A) | RxEintr | RxError.
Arguments Rx {A} x.
Arguments RxEintr {A}.
Arguments RxError {A}.

(** One datagram of the control socket; whether to stop draining. *)
Definition on_datagram (dg : datagram) : M E bool :=
  let buffered := take (Z.to_nat OPC_FRAME_MAX) (dg_bytes dg) in
  let want := opcd_intake_frame_len buffered in
  if want =? 0 then
    opcd_reject_bad_length buffered (dg_ip dg) (dg_port dg);; mret false
  else
    '(rc, tx) ← opcd_dispatch (take (Z.to_nat want) buffered) (dg_ip dg) (dg_port dg) OPC_FRAME_MAX;
    (if rc =? 0 then
       (if 0 <? len tx then _ ← sendto (dg_ip dg) (dg_port dg) tx; mret tt else mret tt);;
       opcd_post_ack
     else mret tt);;
    opcd_radio_revert_drain;;
    st ← get;
    mret (ip_change_commit_armed st).

(** At most [batch] receives; the rest stays queued in the socket. *)
Fixpoint udp_batch (batch : nat) (queue : list (recv_result datagram))
    : M E (list (recv_result datagram)) :=
  match batch, queue with
  | S batch', Rx dg :: queue' =>
      stop ← on_datagram dg;
      if (stop : bool) then mret queue' else udp_batch batch' queue'
  | S batch', RxEintr :: queue' => udp_batch batch' queue'
  | S _, RxError :: queue' => mret queue'
  | _, _ => mret queue
  end.

(** The roam-notify branch; a datagram that [roam_datagram_to_evt] rejects is [None]. *)
Fixpoint roam_batch (batch : nat) (queue : list (recv_result (option opcd_platform_evt_t)))
    : M E (list (recv_result (option opcd_platform_evt_t))) :=
  match batch, queue with
  | S batch', Rx (Some evt) :: queue' => _ ← on_platform_event evt; roam_batch batch' queue'
  | S batch', Rx None :: queue' => roam_batch batch' queue'
  | S batch', RxEintr :: queue' => roam_batch batch' queue'
  | S _, RxError :: queue' => mret queue'
  | _, _ => mret queue
  end.

Fixpoint drain_events (evts : list opcd_platform_evt_t) : M E unit :=
  match evts with [] => mret tt | e :: evts' => _ ← on_platform_event e; drain_events evts' end.

Inductive event :=
  | EvSignal (first_signo : Z)
  | EvTimer (elapsed : Z)
  | EvStore
  | EvPlatform (evts : list opcd_platform_evt_t)
  | EvRoam (queue : list (recv_result (option opcd_platform_evt_t)))
  | EvUdp (queue : list (recv_result datagram))
  | EvWorker (queue : opc_store_async → opc_store_async).

Definition on_event (ev : event) : M E unit :=
  match ev with
  | EvSignal first_signo => on_signal first_signo
  | EvTimer elapsed => on_timer elapsed
  | EvStore => opcd_store_async_on_ready
  | EvPlatform evts => drain_events evts
  | EvRoam queue => _ ← roam_batch OPCD_INGRESS_BATCH_MAX queue; mret tt
  | EvUdp queue => _ ← udp_batch OPCD_INGRESS_BATCH_MAX queue; mret tt
  | EvWorker f => modify (λ s, s <| store_async := f <$> store_async s |>)
  end.

Fixpoint on_events (evs : list event) : M E unit :=
  match evs with [] => mret tt | ev :: evs' => on_event ev;; on_events evs' end.

(** One turn of the loop, and the loop over the turns the descriptors produce. *)
Definition loop_turn (evs : list event) : M E unit :=
  on_events evs;; opcd_apply_pending_ip_change.

Fixpoint main_loop (turns : list (list event)) : M E unit :=
  match turns with
  | [] => mret tt
  | evs :: turns' =>
      st ← get;
      if should_exit st || should_reset st then mret tt
      else loop_turn evs;; main_loop turns'
  end.

(** After the loop: [finish] is what joining the worker leaves in the queue. *)
Definition main_exit (finish : opc_store_async → opc_store_async) : M E unit :=
  modify (λ s, s <| store_async := finish <$> store_async s |>);;
  opcd_store_async_on_ready;;
  modify (λ s, if ip_change_commit_armed s then s <| ip_change_commit_armed := false |> else s);;
  modify (λ s, s <| store_async := None |>);;
  st ← get;
  if should_reset st then _ ← call prepare_reset; mret tt else mret tt.
End Daemon.
End Daemon.
Export Daemon.
