(* ===== verification/SimEnv.v ===== *)
(** * A concrete environment

    The smallest instance of [Env]: the environment is the monotonic clock, every system
    call succeeds, the platform is idle. The witnesses run the daemon in it. *)
From S2P Require Import Prelude Codec ScanList Commands Indications Store StoreAsync IpListText FaultProbe State Indication Validate RadioConf Persist Handlers Daemon.
From stdpp Require Import base list numbers option tactics strings.
From Stdlib Require Import ZArith Lia.
#[local] Open Scope Z_scope.
Import Store.Store StoreAsync.StoreAsync IpListText.IpListText FaultProbe.FaultProbe.

Module SimEnv.

Definition sim_readings : readings := mk_readings None None None None 0.
Definition sim_inventory : opcd_inventory_t :=
  mk_inventory 1 2 3 (zeros 32) (zeros 32) (mk_date 2026 1 1) (mk_date 2026 1 2) 0 0 0 0.

#[export] Instance sim_env : Env Z := {|
  env_mono e := (e, e);
  env_timestamp e := (zeros 32, e);
  env_sendto _ _ _ e := (true, e);
  env_readings _ e := (sim_readings, e);
  env_write _ _ _ e := ((0, OPC_STORE_DURABLE), e);
  env_read _ _ e := (None, e);
  env_unlink _ e := (true, e);
  env_stat _ e := (StatNoent, e);
  env_rename _ _ e := (true, e);
  env_open_user _ e := (OpenNoent, e);
  lookup_direct_route _ e := (Some 4294967040, e);
  get_dev_ipv4 _ e := ((-1, (0, 0, 0)), e);
  get_link _ e := (None, e);
  get_eth_mac e := (zeros 6, e);
  get_wlan_mac _ e := (zeros 6, e);
  get_essid _ e := (zeros 32, e);
  get_firmware_version e := (zeros 32, e);
  get_ntp_server e := (0, e);
  validate_radio_config _ _ := CapOk;
  apply_radio_config _ e := (0, e);
  apply_ip_change _ _ _ e := (0, e);
  peer_route_refresh _ _ e := (0, e);
  opcd_inventory _ := sim_inventory;
  opcd_devinfo_cfg_read _ e := ((0, 0), e);
  opcd_snapshot_publish _ e := (tt, e);
  refresh_firmware_version _ e := (tt, e);
  prepare_reset e := (0, e);
  opcd_systemd_watchdog e := (0, e);
  opcd_system_stopping e := (0, e);
  opcd_reset_cause_read e := (0, e) |}.

(** ** States the witnesses start from *)

Definition demo_client : Z := 167772162.   (* 10.0.0.2 *)
Definition demo_other : Z := 167772163.    (* 10.0.0.3 *)

(** Serving, nobody logged in. *)
Definition demo_up : opcd_state_t :=
  (state_set_defaults <| udp_fd := 3 |>) <| boot_status := OPC_DEVICE_READY |>.
(** The client holds the session until second 300. *)
Definition demo_session : opcd_state_t :=
  (((demo_up <| logged_in := true |>) <| holder_ip := demo_client |>) <| idle_deadline := 300 |>)
    <| boot_status := OPC_DEVICE_LOGGED_IN |>.
(** Slot 1 of the IP list is populated and the session asked to change to it. *)
Definition demo_slot1 : opc_ipcfg_entry_t :=
  mk_ipcfg_entry OPC_LIST_BOUNDARY_START_END 1 3232235786 4294967040 3232235777 0 (zeros 32).
Definition demo_ip_list : opcd_ip_list_t := set_slot ip_list_zero 0 demo_slot1 1.
Definition demo_change : opcd_state_t :=
  ((demo_session <| ip_list := demo_ip_list |>) <| ip_change_pending := true |>)
    <| ip_change_list_no := 1 |>.
(** The Logout has armed it. *)
Definition demo_armed : opcd_state_t :=
  ((demo_change <| ip_change_commit_armed := true |>) <| ip_change_armed_no := 1 |>)
    <| ip_change_armed_entry := demo_slot1 |>.
(** A writer is attached, a SetIpConfigList that clears slot 1 is being written, and the
    Logout's decision waits for it. *)
Definition demo_deferred : opcd_state_t :=
  ((((demo_change <| store_async := Some opc_store_async_create |>)
       <| pending_acks := <[0%nat := mk_pending_ack true false OPCD_PERSIST_IP_LIST
            OPC_REQ_SET_IP_CONFIG_LIST 7 0 demo_client 5000]> (pending_acks demo_change) |>)
       <| pending_ip_list := ip_list_zero |>)
       <| ip_change_logout_deferred := true |>).
Definition demo_world (s : opcd_state_t) : world Z := mk_world s 10 [].
End SimEnv.
Export SimEnv.
