(* ===== verification/Logic.v ===== *)
(** * Reasoning about the daemon's monad

    [wps m Q s]: started in state [s], in any environment and after any transmissions,
    [m] ends with a result and a state that satisfy [Q]. [keeps R m]: the state after [m]
    is [R]-related to the state before. The rules follow the monad's structure; [wp]
    applies them. *)
From S2P Require Import Prelude Codec ScanList Commands Indications Store StoreAsync IpListText FaultProbe State.
From stdpp Require Import base list numbers option tactics strings.
From Stdlib Require Import ZArith Lia.
#[local] Open Scope Z_scope.

Module Logic.
Section Wp.
Context {E : Type}.

Definition wps {A} (m : M E A) (Q : A → opcd_state_t → Prop) (s : opcd_state_t) : Prop :=
  ∀ e tx, Q (m (mk_world s e tx)).1 (w_st (m (mk_world s e tx)).2).

Lemma wps_ret {A} (x : A) Q s : Q x s → wps (mret x) Q s.
Proof. by intros HQ e tx. Qed.
Lemma wps_bind {A B} (m : M E A) (k : A → M E B) Q s :
  wps m (λ x s', wps (k x) Q s') s → wps (m ≫= k) Q s.
Proof.
  intros Hm e tx. specialize (Hm e tx). unfold mbind, M_bind.
  destruct (m (mk_world s e tx)) as [x [s' e' tx']]. apply Hm.
Qed.
Lemma wps_get Q s : Q s s → wps get Q s.
Proof. by intros HQ e tx. Qed.
Lemma wps_modify f Q s : Q tt (f s) → wps (modify f) Q s.
Proof. by intros HQ e tx. Qed.
Lemma wps_call {A} (op : E → A * E) Q s : (∀ x, Q x s) → wps (call op) Q s.
Proof. intros HQ e tx. unfold call. simpl. destruct (op e) as [x e']. apply HQ. Qed.
Lemma wps_call_val {A} (op : E → A * E) Q s : (∀ e, Q (op e).1 s) → wps (call op) Q s.
Proof. intros HQ e tx. specialize (HQ e). unfold call. simpl. by destruct (op e). Qed.
Lemma wps_query {A} (op : E → A) Q s : (∀ x, Q x s) → wps (query op) Q s.
Proof. intros HQ e tx. apply HQ. Qed.
Lemma wps_sendto `{Env E} ip port frame Q s : (∀ ok, Q ok s) → wps (sendto ip port frame) Q s.
Proof.
  intros HQ e tx. unfold sendto. simpl. destruct (env_sendto ip port frame e). apply HQ.
Qed.
Lemma wps_whenM b (m : M E unit) Q s :
  (b = true → wps m Q s) → (b = false → Q tt s) → wps (whenM b m) Q s.
Proof. destruct b; simpl; [auto|]. intros _ HQ. by apply wps_ret, HQ. Qed.
Lemma wps_conseq {A} (m : M E A) (Q Q' : A → opcd_state_t → Prop) s :
  wps m Q s → (∀ x s', Q x s' → Q' x s') → wps m Q' s.
Proof. intros Hm HQ e tx. apply HQ, Hm. Qed.
Lemma wps_all {A} (m : M E A) (Q : A → opcd_state_t → Prop) s : (∀ x s', Q x s') → wps m Q s.
Proof. intros HQ e tx. apply HQ. Qed.
Lemma wps_and {A} (m : M E A) (Q Q' : A → opcd_state_t → Prop) s :
  wps m Q s → wps m Q' s → wps m (λ x s', Q x s' ∧ Q' x s') s.
Proof. intros Hm Hm' e tx. split; [apply Hm|apply Hm']. Qed.
Lemma wps_elim {A} (m : M E A) Q (w : world E) : wps m Q (w_st w) → Q (m w).1 (w_st (m w).2).
Proof. destruct w. intros Hm. apply Hm. Qed.

(** ** Frames *)

Definition keeps (R : relation opcd_state_t) {A} (m : M E A) : Prop :=
  ∀ s, wps m (λ _ s', R s s') s.

Section Frames.
Context (R : relation opcd_state_t) `{!PreOrder R}.

Lemma keeps_ret {A} (x : A) : keeps R (mret x).
Proof. intros s. apply wps_ret. reflexivity. Qed.
Lemma keeps_bind {A B} (m : M E A) (k : A → M E B) :
  keeps R m → (∀ x, keeps R (k x)) → keeps R (m ≫= k).
Proof.
  intros Hm Hk s. apply wps_bind. eapply wps_conseq; [apply Hm|]. intros x s' Hs.
  eapply wps_conseq; [apply Hk|]. intros y s'' Hs'. etransitivity; [exact Hs|exact Hs'].
Qed.
Lemma keeps_get : keeps R get.
Proof. intros s. apply wps_get. reflexivity. Qed.
Lemma keeps_call {A} (op : E → A * E) : keeps R (call op).
Proof. intros s. apply wps_call; intros; cbv beta; reflexivity. Qed.
Lemma keeps_query {A} (op : E → A) : keeps R (query op).
Proof. intros s. apply wps_query; intros; cbv beta; reflexivity. Qed.
Lemma keeps_sendto `{Env E} ip port frame : keeps R (sendto ip port frame).
Proof. intros s. apply wps_sendto; intros; cbv beta; reflexivity. Qed.
Lemma keeps_modify f : (∀ s, R s (f s)) → keeps R (modify f).
Proof. intros Hf s. apply wps_modify, Hf. Qed.
Lemma keeps_whenM b m : keeps R m → keeps R (whenM b m).
Proof. destruct b; [done|]. intros _. apply keeps_ret. Qed.
End Frames.

Lemma keeps_weaken (R R' : relation opcd_state_t) {A} (m : M E A) :
  (∀ s s', R s s' → R' s s') → keeps R m → keeps R' m.
Proof. intros HR Hm s. eapply wps_conseq; [apply Hm|]. eauto. Qed.
(** A frame in front of a postcondition. *)
Lemma wps_keeps (R : relation opcd_state_t) {A} (m : M E A) (Q : A → opcd_state_t → Prop) s :
  keeps R m → (∀ x s', R s s' → Q x s') → wps m Q s.
Proof. intros Hm HQ. eapply wps_conseq; [apply Hm|]. apply HQ. Qed.

(** ** Frames over the whole world *)

Definition wkeeps (R : relation (world E)) {A} (m : M E A) : Prop := ∀ w, R w (m w).2.

Section WorldFrames.
Context (R : relation (world E)) `{!PreOrder R}.

Lemma wkeeps_ret {A} (x : A) : wkeeps R (mret x).
Proof. intros w. unfold mret, M_ret. simpl. reflexivity. Qed.
Lemma wkeeps_bind {A B} (m : M E A) (k : A → M E B) :
  wkeeps R m → (∀ x, wkeeps R (k x)) → wkeeps R (m ≫= k).
Proof.
  intros Hm Hk w. specialize (Hm w). unfold mbind, M_bind. destruct (m w) as [x w']. simpl in Hm.
  etransitivity; [exact Hm|apply Hk].
Qed.
Lemma wkeeps_get : wkeeps R get.
Proof. intros w. simpl. reflexivity. Qed.
Lemma wkeeps_query {A} (op : E → A) : wkeeps R (query op).
Proof. intros w. simpl. reflexivity. Qed.
Lemma wkeeps_whenM b m : wkeeps R m → wkeeps R (whenM b m).
Proof. destruct b; [done|]. intros _. apply wkeeps_ret. Qed.
Lemma wkeeps_call {A} (op : E → A * E) :
  (∀ s e e' tx, R (mk_world s e tx) (mk_world s e' tx)) → wkeeps R (call op).
Proof. intros HR [s e tx]. unfold call. simpl. destruct (op e). apply HR. Qed.
Lemma wkeeps_modify f :
  (∀ s e tx, R (mk_world s e tx) (mk_world (f s) e tx)) → wkeeps R (modify f).
Proof. intros HR [s e tx]. apply HR. Qed.
End WorldFrames.
End Wp.

(** An invariant is a frame: the relation of its preservation. *)
Definition preserves (I : opcd_state_t → Prop) : relation opcd_state_t := λ s s', I s → I s'.
#[global] Instance preserves_preorder I : PreOrder (preserves I).
Proof. split; [by intros s Hs|]. intros s1 s2 s3 H12 H23 Hs. by apply H23, H12. Qed.

(** A frame that keeps the value of a projection. *)
Definition same {T} (f : opcd_state_t → T) : relation opcd_state_t := λ s s', f s' = f s.
#[global] Instance same_preorder {T} (f : opcd_state_t → T) : PreOrder (same f).
Proof. split; [by intros s|]. intros s1 s2 s3 H12 H23. unfold same in *. congruence. Qed.
Lemma same_preserves {T} (f : opcd_state_t → T) (I : T → Prop) s s' :
  same f s s' → preserves (λ s, I (f s)) s s'.
Proof. unfold same, preserves. by intros ->. Qed.
End Logic.
Export Logic.

(** The frames of the operations already known, applied before unfolding. *)
Create HintDb frames discriminated.
#[export] Hint Constants Opaque : frames.

Ltac wp_step :=
  lazymatch goal with
  | |- wps (mbind _ _) _ _ => apply wps_bind
  | |- wps (mret _) _ _ => apply wps_ret
  | |- wps get _ _ => apply wps_get
  | |- wps (modify _) _ _ => apply wps_modify
  | |- wps (call _) _ _ => apply wps_call; intros ?
  | |- wps (query _) _ _ => apply wps_query; intros ?
  | |- wps (sendto _ _ _) _ _ => apply wps_sendto; intros ?
  | |- wps (whenM _ _) _ _ => apply wps_whenM; intros ?
  end.
Ltac wp := repeat (wp_step; cbv beta).

(** Frames by structure: bind, branches and leaves. *)
Ltac keeps_step :=
  first
    [ solve [eauto 4 with frames]
    | lazymatch goal with
      | |- keeps _ (mbind _ _) => apply keeps_bind; [apply _| |intros ?]
      | |- keeps _ (mret _) => apply keeps_ret; apply _
      | |- keeps _ get => apply keeps_get; apply _
      | |- keeps _ (call _) => apply keeps_call; apply _
      | |- keeps _ (query _) => apply keeps_query; apply _
      | |- keeps _ (sendto _ _ _) => apply keeps_sendto; apply _
      | |- keeps _ (whenM _ _) => apply keeps_whenM; [apply _|]
      | |- keeps _ (modify _) =>
          apply keeps_modify; intros ?; solve [done | repeat case_match; done]
      | |- keeps _ (match _ with _ => _ end) => progress case_match
      end ].
Ltac keeps := repeat keeps_step.

(** The same for frames over the world; a [modify] or [call] leaf is left to the hints. *)
Ltac wkeeps_step :=
  first
    [ solve [eauto 4 with frames]
    | lazymatch goal with
      | |- wkeeps _ (mbind _ _) => apply wkeeps_bind; [apply _| |intros ?]
      | |- wkeeps _ (mret _) => apply wkeeps_ret; apply _
      | |- wkeeps _ get => apply wkeeps_get; apply _
      | |- wkeeps _ (query _) => apply wkeeps_query; apply _
      | |- wkeeps _ (whenM _ _) => apply wkeeps_whenM; [apply _|]
      | |- wkeeps _ (match _ with _ => _ end) => progress case_match
      end ].
Ltac wkeeps := repeat wkeeps_step.
