(* ===== verification/Frames.v ===== *)
(** * What the daemon's operations leave alone

    [core]: the session, the address-change decision, the IP list, the pending
    acknowledgments and whether a writer is attached. The notifications, the radio transaction,
    the customer copy of the IP list and the queries keep all of it. *)
From S2P Require Import Prelude Codec ScanList Commands Indications Store StoreAsync IpListText FaultProbe State Indication Validate RadioConf Persist Handlers Daemon Logic.
From stdpp Require Import base list numbers option tactics strings.
From Stdlib Require Import ZArith Lia.
#[local] Open Scope Z_scope.
Import Store.Store StoreAsync.StoreAsync IpListText.IpListText FaultProbe.FaultProbe.

Module Frames.

Record core_t := mk_core {
  k_logged_in : bool; k_holder_ip : Z; k_generation : Z; k_boot_status : Z;
  k_staging_active : bool; k_ip_list : opcd_ip_list_t;
  k_pending : bool; k_armed : bool; k_deferred : bool; k_list_no : Z; k_armed_no : Z;
  k_armed_entry : opc_ipcfg_entry_t; k_acks : list opcd_pending_ack_t; k_writer : bool }.
Definition core (s : opcd_state_t) : core_t :=
  mk_core (logged_in s) (holder_ip s) (session_generation s) (boot_status s)
    (ip_list_staging_active s) (ip_list s) (ip_change_pending s) (ip_change_commit_armed s)
    (ip_change_logout_deferred s) (ip_change_list_no s) (ip_change_armed_no s)
    (ip_change_armed_entry s) (pending_acks s) (bool_decide (is_Some (store_async s))).

(** The state without the notifications' bookkeeping. *)
Definition quiet (s : opcd_state_t) : opcd_state_t :=
  (((((((s <| indication_seq := 0 |>) <| indication_tick_counter := 0 |>)
        <| indication_coalesce := [] |>) <| fault_probe := opcd_fault_probe_init |>)
       <| radio_up_reported := false |>) <| wlan0_assoc_known := false |>)
     <| wlan0_assoc := false |>) <| wlan0_assoc_at := 0 |>.

Section Frames.
Context {E : Type} `{Env E}.
Abbreviation keeps_quiet m := (keeps (E := E) (same quiet) m).

Lemma quiet_next_seq : keeps_quiet next_seq.
Proof. unfold next_seq. keeps. Qed.
Lemma quiet_send_indication_frame f : keeps_quiet (send_indication_frame f).
Proof. unfold send_indication_frame. keeps. Qed.
#[local] Hint Resolve quiet_next_seq quiet_send_indication_frame : frames.
Lemma quiet_init_complete status : keeps_quiet (opcd_ind_init_complete status).
Proof. unfold opcd_ind_init_complete. keeps. Qed.
Lemma quiet_emit_wlan_status status ch : keeps_quiet (emit_wlan_status status ch).
Proof. unfold emit_wlan_status. keeps. Qed.
Lemma quiet_emit_roaming snr rssi mac ch : keeps_quiet (emit_roaming snr rssi mac ch).
Proof. unfold emit_roaming. keeps. Qed.
Lemma quiet_emit_ap_disconnect m r mac : keeps_quiet (emit_ap_disconnect m r mac).
Proof. unfold emit_ap_disconnect. keeps. Qed.
Lemma quiet_emit_fault_detect c v : keeps_quiet (emit_fault_detect c v).
Proof. unfold emit_fault_detect. keeps. Qed.
Lemma quiet_set_coalesce i f : keeps_quiet (set_coalesce i f).
Proof. unfold set_coalesce. keeps. Qed.
#[local] Hint Resolve quiet_init_complete quiet_emit_wlan_status quiet_emit_roaming
  quiet_emit_ap_disconnect quiet_emit_fault_detect quiet_set_coalesce : frames.
Lemma quiet_radio_up : keeps_quiet opcd_ind_radio_up.
Proof. unfold opcd_ind_radio_up. keeps. Qed.
#[local] Hint Resolve quiet_radio_up : frames.
Lemma quiet_wlan_status status ch : keeps_quiet (opcd_ind_wlan_status status ch).
Proof. unfold opcd_ind_wlan_status, opcd_mono_now_s. keeps. Qed.
Lemma quiet_roaming snr rssi mac ch : keeps_quiet (opcd_ind_roaming snr rssi mac ch).
Proof. unfold opcd_ind_roaming. keeps. Qed.
Lemma quiet_ap_disconnect m r mac : keeps_quiet (opcd_ind_ap_disconnect m r mac).
Proof. unfold opcd_ind_ap_disconnect. keeps. Qed.
Lemma quiet_fault_detect c v : keeps_quiet (opcd_ind_fault_detect c v).
Proof. unfold opcd_ind_fault_detect. keeps. Qed.
Lemma quiet_fault_clear c : keeps_quiet (opcd_ind_fault_clear c).
Proof. unfold opcd_ind_fault_clear. keeps. Qed.
Lemma quiet_reset_notice c : keeps_quiet (opcd_ind_reset_notice c).
Proof. unfold opcd_ind_reset_notice. keeps. Qed.
Lemma quiet_keep_alive ts : keeps_quiet (opcd_ind_keep_alive ts).
Proof. unfold opcd_ind_keep_alive. keeps. Qed.
Lemma quiet_coalesce_reset : keeps_quiet opcd_ind_coalesce_reset.
Proof. unfold opcd_ind_coalesce_reset. keeps. Qed.
#[local] Hint Resolve quiet_wlan_status quiet_roaming quiet_ap_disconnect quiet_fault_detect
  quiet_fault_clear quiet_reset_notice quiet_keep_alive quiet_coalesce_reset : frames.
Lemma quiet_fault_notify b c p r : keeps_quiet (fault_notify b c p r).
Proof. unfold fault_notify. keeps. Qed.
#[local] Hint Resolve quiet_fault_notify : frames.
Lemma quiet_fault_probe_tick n : keeps_quiet (fault_probe_tick n).
Proof. unfold fault_probe_tick. keeps. Qed.
Lemma quiet_get_coalesce i : keeps_quiet (get_coalesce i).
Proof. unfold get_coalesce. keeps. Qed.
Lemma quiet_flush_one b m d : keeps_quiet m → keeps_quiet d → keeps_quiet (flush_one b m d).
Proof. intros ??. unfold flush_one. keeps; done. Qed.
#[local] Hint Resolve quiet_fault_probe_tick quiet_get_coalesce quiet_flush_one : frames.
Lemma quiet_flush_faults i k n : keeps_quiet (flush_faults i k n).
Proof. revert k. induction n as [|n IH]; intros k; simpl; keeps. Qed.
#[local] Hint Resolve quiet_flush_faults : frames.
Lemma quiet_flush_link i : keeps_quiet (flush_link i).
Proof. unfold flush_link. keeps. Qed.
#[local] Hint Resolve quiet_flush_link : frames.
Lemma quiet_tick n : keeps_quiet (opcd_ind_tick_elapsed n).
Proof. unfold opcd_ind_tick_elapsed, period_flush. keeps. Qed.
#[local] Hint Resolve quiet_tick : frames.
Lemma quiet_platform_event evt : keeps_quiet (on_platform_event evt).
Proof. unfold on_platform_event. keeps. Qed.

(** A property of every row of the dispatch table holds of what a lookup finds. *)
Lemma lookup_handler_ind (P : Z → handler (E := E) → Prop) :
  P OPC_REQ_LOGIN handle_login → P OPC_REQ_LOGOUT handle_logout →
  P OPC_REQ_GET_BASIC_INFO handle_get_basic_info →
  P OPC_REQ_GET_DEVICE_INFO handle_get_device_info →
  P OPC_REQ_SET_PASSWORD handle_set_password →
  P OPC_REQ_SET_IP_CONFIG_LIST handle_set_ip_config_list →
  P OPC_REQ_CHANGE_IP_ADDRESS handle_change_ip_address →
  P OPC_REQ_SET_RADIO_CONFIG handle_set_radio_config →
  P OPC_REQ_SET_INDICATION_CONFIG handle_set_indication_config →
  P OPC_REQ_RESET handle_reset →
  ∀ id fn, lookup_handler id = Some fn → P id fn.
Proof.
  intros H1 H2 H3 H4 H5 H6 H7 H8 H9 H10 id fn Hl. unfold lookup_handler in Hl.
  destruct (List.find _ _) as [[k g]|] eqn:Ef; [|done]. injection Hl as <-.
  apply List.find_some in Ef as [Hin Heq]. guards. simpl in *. subst k.
  repeat (destruct Hin as [Hin|Hin]; [injection Hin as <- <-; assumption|]). done.
Qed.

(** ** Frames of [core] *)
Abbreviation keeps_core m := (keeps (E := E) (same core) m).

Lemma quiet_core {A} (m : M E A) : keeps_quiet m → keeps_core m.
Proof.
  apply keeps_weaken. unfold same. intros s s' Hq.
  change (core (quiet s') = core (quiet s)). by rewrite Hq.
Qed.
#[local] Hint Resolve quiet_core quiet_platform_event : frames.

Lemma core_session_touch : keeps_core session_touch.
Proof. unfold session_touch, mono_now. keeps. Qed.
Lemma core_with_store {A} (dflt : A) f : keeps_core (with_store dflt f).
Proof.
  intros s. unfold with_store. wp. destruct (store_async s) as [sa|] eqn:Es; [|by apply wps_ret].
  destruct (f sa) as [x sa']. wp. unfold same, core. simpl. by rewrite Es.
Qed.
#[local] Hint Resolve core_session_touch core_with_store : frames.
Lemma core_store_cancel r : keeps_core (store_cancel r).
Proof. unfold store_cancel. keeps. Qed.
Lemma core_iplist_write_user : keeps_core iplist_write_user.
Proof. unfold iplist_write_user. keeps. Qed.
#[local] Hint Resolve core_store_cancel core_iplist_write_user : frames.
Lemma core_iplist_mirror_user : keeps_core iplist_mirror_user.
Proof. unfold iplist_mirror_user. keeps. Qed.
Lemma core_password_note_outcome c o : keeps_core (password_note_outcome c o).
Proof. unfold password_note_outcome. keeps. Qed.
Lemma core_radio_txn_arm r : keeps_core (radio_txn_arm r).
Proof. unfold radio_txn_arm. keeps. Qed.
Lemma core_radio_txn_clear : keeps_core radio_txn_clear.
Proof. unfold radio_txn_clear. keeps. Qed.
Lemma core_radio_arm_revert b c v : keeps_core (radio_arm_revert b c v).
Proof. unfold radio_arm_revert. keeps. Qed.
Lemma core_radio_revert_drain : keeps_core opcd_radio_revert_drain.
Proof. unfold opcd_radio_revert_drain. keeps. Qed.
#[local] Hint Resolve core_iplist_mirror_user core_password_note_outcome core_radio_txn_arm
  core_radio_txn_clear core_radio_arm_revert core_radio_revert_drain : frames.
Lemma core_on_done_password o : keeps_core (on_done_password o).
Proof. unfold on_done_password. keeps. Qed.
Lemma core_on_done_radio g o : keeps_core (on_done_radio g o).
Proof. unfold on_done_radio. keeps. Qed.
Lemma core_assoc_now : keeps_core assoc_now.
Proof. unfold assoc_now, opcd_mono_now_s. keeps. Qed.
#[local] Hint Resolve core_on_done_password core_on_done_radio core_assoc_now : frames.
Lemma core_indication_enable r : keeps_core (indication_enable r).
Proof. unfold indication_enable. keeps. Qed.
Lemma core_recipient_reachable ip : keeps_core (indication_recipient_reachable ip).
Proof. unfold indication_recipient_reachable. keeps. Qed.
Lemma core_check_login ip : keeps_core (check_login_required ip).
Proof. unfold check_login_required. keeps. Qed.
Lemma core_devinfo_wlan_cfg c i w : keeps_core (devinfo_wlan_cfg c i w).
Proof. unfold devinfo_wlan_cfg. keeps. Qed.
#[local] Hint Resolve core_indication_enable core_recipient_reachable core_check_login
  core_devinfo_wlan_cfg : frames.
Lemma core_devinfo_wlan_fill c i w a f ch : keeps_core (devinfo_wlan_fill c i w a f ch).
Proof. unfold devinfo_wlan_fill. keeps. Qed.
Lemma core_device_info_read : keeps_core device_info_read.
Proof. unfold device_info_read. keeps. Qed.
#[local] Hint Resolve core_devinfo_wlan_fill core_device_info_read : frames.
Lemma core_device_info_fill : keeps_core device_info_fill.
Proof. unfold device_info_fill. keeps. Qed.
#[local] Hint Resolve core_device_info_fill : frames.

Lemma core_clashes_other_iface e : keeps_core (ipcfg_clashes_other_iface e).
Proof. unfold ipcfg_clashes_other_iface. keeps. Qed.
Lemma core_get_basic_info f i p c q : keeps_core (handle_get_basic_info f i p c q).
Proof. unfold handle_get_basic_info, pack_basic_info_ack. keeps. Qed.
Lemma core_get_device_info f i p c q : keeps_core (handle_get_device_info f i p c q).
Proof. unfold handle_get_device_info. keeps. Qed.
Lemma core_set_indication_config f i p c q : keeps_core (handle_set_indication_config f i p c q).
Proof. unfold handle_set_indication_config. keeps. Qed.
Lemma core_reset f i p c q : keeps_core (handle_reset f i p c q).
Proof. unfold handle_reset. keeps. Qed.
Lemma core_post_ack : keeps_core opcd_post_ack.
Proof. unfold opcd_post_ack. keeps. Qed.
Lemma core_reject_bad_length f i p : keeps_core (opcd_reject_bad_length f i p).
Proof. unfold opcd_reject_bad_length. keeps. Qed.
Lemma core_on_signal n : keeps_core (on_signal n).
Proof. unfold on_signal. keeps. Qed.
Lemma core_drain_events evts : keeps_core (drain_events evts).
Proof. induction evts; simpl; keeps. Qed.
Lemma core_roam_batch n q : keeps_core (roam_batch n q).
Proof. revert q. induction n as [|n IH]; intros q; simpl; keeps; apply IH. Qed.
End Frames.

#[export] Hint Resolve quiet_next_seq quiet_send_indication_frame quiet_init_complete
  quiet_emit_wlan_status quiet_emit_roaming quiet_emit_ap_disconnect quiet_emit_fault_detect
  quiet_set_coalesce quiet_radio_up quiet_wlan_status quiet_roaming quiet_ap_disconnect
  quiet_fault_detect quiet_fault_clear quiet_reset_notice quiet_keep_alive
  quiet_coalesce_reset quiet_fault_notify quiet_fault_probe_tick quiet_get_coalesce
  quiet_flush_one quiet_flush_faults quiet_flush_link quiet_tick quiet_platform_event
  core_session_touch core_with_store core_store_cancel core_iplist_write_user
  core_iplist_mirror_user core_password_note_outcome core_radio_txn_arm core_radio_txn_clear
  core_radio_arm_revert core_radio_revert_drain core_on_done_password core_on_done_radio
  core_assoc_now core_indication_enable core_recipient_reachable core_check_login
  core_devinfo_wlan_cfg core_devinfo_wlan_fill core_device_info_read core_device_info_fill
  core_clashes_other_iface core_get_basic_info core_get_device_info core_set_indication_config core_reset
  core_post_ack core_reject_bad_length core_on_signal core_drain_events core_roam_batch quiet_core : frames.
End Frames.
Export Frames.
