(* ===== verification/Invariant.v ===== *)
(** * The invariant of the daemon's state machine

    [core_ok]: session and device status agree, a staged IP list belongs to a session, at
    most one pending acknowledgment per persisted resource, and a deferred or armed
    address change is in a consistent stage. Every event of the main loop preserves it. *)
From S2P Require Import Prelude Codec ScanList Commands Indications Store StoreAsync IpListText FaultProbe State Indication Validate RadioConf Persist Handlers SimEnv Daemon Logic Frames.
From stdpp Require Import base list numbers option tactics strings.
From Stdlib Require Import ZArith Lia.
#[local] Open Scope Z_scope.
Import Store.Store StoreAsync.StoreAsync IpListText.IpListText FaultProbe.FaultProbe.

Module Invariant.

(** The request each resource's acknowledgment answers. *)
Definition resource_request (r : opcd_persist_resource_t) : option Z :=
  match r with
  | OPCD_PERSIST_NONE => None
  | OPCD_PERSIST_PASSWORD => Some OPC_REQ_SET_PASSWORD
  | OPCD_PERSIST_IP_LIST => Some OPC_REQ_SET_IP_CONFIG_LIST
  | OPCD_PERSIST_RADIO => Some OPC_REQ_SET_RADIO_CONFIG
  end.

(** The pending-ack table: full size, the resources in use distinct, each with its request. *)
Record acks_ok (l : list opcd_pending_ack_t) : Prop := {
  acks_len : length l = OPCD_PENDING_ACK_MAX;
  acks_one : ∀ i j a b, l !! i = Some a → l !! j = Some b → pa_in_use a = true →
    pa_in_use b = true → pa_resource a = pa_resource b → i = j;
  acks_kind : ∀ i a, l !! i = Some a → pa_in_use a = true →
    resource_request (pa_resource a) = Some (pa_req_id a) }.

Definition busy (l : list opcd_pending_ack_t) (r : opcd_persist_resource_t) : Prop :=
  ∃ i a, l !! i = Some a ∧ pa_in_use a = true ∧ pa_resource a = r.

(** The device status that goes with a session, and without one. *)
Definition session_status (logged_in : bool) : Z :=
  if logged_in then OPC_DEVICE_LOGGED_IN else OPC_DEVICE_READY.

Record core_ok (k : core_t) : Prop := {
  ok_boot : k_boot_status k = session_status (k_logged_in k);
  ok_staging : k_staging_active k = true → k_logged_in k = true;
  ok_acks : acks_ok (k_acks k);
  ok_pending : k_pending k = true → 1 <= k_list_no k <= OPC_IPCFG_LIST_MAX_SLOTS;
  ok_armed : k_armed k = true →
    k_pending k = true ∧ k_deferred k = false ∧ 1 <= k_armed_no k <= OPC_IPCFG_LIST_MAX_SLOTS;
  ok_deferred : k_deferred k = true →
    k_pending k = true ∧ busy (k_acks k) OPCD_PERSIST_IP_LIST }.

Definition daemon_ok (s : opcd_state_t) : Prop := core_ok (core s).

(** Splits the invariant of an updated state into its clauses. *)
Ltac ok_split :=
  split; simpl in *; try solve [done | intros; congruence | intros; guards; naive_solver].

Lemma core_daemon_ok {E A} (m : M E A) : keeps (same core) m → keeps (preserves daemon_ok) m.
Proof. apply keeps_weaken. intros s s'. apply (same_preserves core core_ok). Qed.

Lemma busy_spec s r : persist_resource_busy s r = true ↔ busy (pending_acks s) r.
Proof.
  unfold persist_resource_busy, busy. rewrite existsb_exists. split.
  - intros (a & Ha & Hb). guards. apply list_elem_of_In, list_elem_of_lookup in Ha as [i Hi]. eauto.
  - intros (i & a & Hi & Hu & Hr). exists a. split.
    + apply list_elem_of_In, list_elem_of_lookup. eauto.
    + rewrite Hu. by apply bool_decide_eq_true.
Qed.

(** ** The pending-ack table *)

Lemma acks_insert l slot a :
  acks_ok l → ¬ busy l (pa_resource a) → resource_request (pa_resource a) = Some (pa_req_id a) →
  acks_ok (<[slot := a]> l).
Proof.
  intros [Hlen Hone Hkind] Hbusy Ha. split.
  - by rewrite length_insert.
  - intros i j b c Hi Hj Hb Hc Hr.
    destruct (decide (i = slot)) as [->|], (decide (j = slot)) as [->|]; [done|..].
    + apply list_lookup_insert_Some in Hi as [[_ [<- _]]|[? _]]; [|done].
      rewrite list_lookup_insert_ne in Hj by done. destruct Hbusy. exists j, c. by rewrite Hr.
    + apply list_lookup_insert_Some in Hj as [[_ [<- _]]|[? _]]; [|done].
      rewrite list_lookup_insert_ne in Hi by done. destruct Hbusy. exists i, b. by rewrite <- Hr.
    + rewrite list_lookup_insert_ne in Hi, Hj by done. by eapply Hone.
  - intros i b Hi Hb. apply list_lookup_insert_Some in Hi as [[_ [<- _]]|[_ Hi]]; eauto.
Qed.

(** An update that keeps an entry's resource and request, and may only release it. *)
Definition quiet_update (g : opcd_pending_ack_t → opcd_pending_ack_t) : Prop :=
  ∀ a, pa_resource (g a) = pa_resource a ∧ pa_req_id (g a) = pa_req_id a ∧
       (pa_in_use (g a) = true → pa_in_use a = true).
Lemma acks_alter l k g : quiet_update g → acks_ok l → acks_ok (alter g k l).
Proof.
  intros Hg [Hlen Hone Hkind].
  assert (Hl : ∀ i a, alter g k l !! i = Some a → ∃ b, l !! i = Some b ∧
     pa_resource a = pa_resource b ∧ pa_req_id a = pa_req_id b ∧
     (pa_in_use a = true → pa_in_use b = true)).
  { intros i a Hi. destruct (decide (i = k)) as [->|].
    - rewrite list_lookup_alter, decide_True in Hi by done. destruct (l !! k) as [b|] eqn:Eb; simplify_eq/=.
      exists b. destruct (Hg b) as (? & ? & ?). by split_and!.
    - rewrite list_lookup_alter_ne in Hi by congruence. eauto 6. }
  split.
  - by rewrite length_alter.
  - intros i j a b Hi Hj Ha Hb Hr. apply Hl in Hi as (a' & Hi & ? & ? & ?), Hj as (b' & Hj & ? & ? & ?).
    eapply (Hone i j a' b'); eauto. congruence.
  - intros i a Hi Ha. apply Hl in Hi as (a' & Hi & Hr & Hq & Hu). rewrite Hr, Hq. eauto.
Qed.

(** Releasing a slot frees no other resource. *)
Lemma busy_release l k a r :
  l !! k = Some a → pa_resource a ≠ r → busy l r →
  busy (alter (λ p, p <| pa_in_use := false |>) k l) r.
Proof.
  intros Hk Hr (i & b & Hi & Hb & Hbr). exists i, b. split; [|done].
  rewrite list_lookup_alter_ne; congruence.
Qed.

(** ** Session and address change *)

Section Ops.
Context {E : Type} `{Env E}.
Abbreviation inv_kept m := (keeps (E := E) (preserves daemon_ok) m).

Lemma ok_session_logout : inv_kept opcd_session_logout.
Proof.
  unfold opcd_session_logout. apply keeps_bind; [apply _|apply core_daemon_ok; keeps|intros _].
  apply keeps_modify. intros s [Hb Hs Ha Hn Hm Hd]. by split.
Qed.

(** Arming needs a change that is pending and not deferred. *)
Lemma ok_arm_ip_change s :
  daemon_ok s → ip_change_pending s = true → ip_change_logout_deferred s = false →
  ip_change_commit_armed s = false →
  wps (E := E) arm_ip_change_from_committed (λ _ s', daemon_ok s') s.
Proof.
  intros [Hb Hs Ha Hn Hm Hd] Hp Hf Hc. unfold arm_ip_change_from_committed. wp.
  repeat case_match; split; simpl in *; try done; try congruence; intros _; guards; split_and!; done || lia.
Qed.

(** The invariant together with a given pending-ack table. *)
Definition ok_with (l : list opcd_pending_ack_t) (s : opcd_state_t) : Prop :=
  daemon_ok s ∧ pending_acks s = l.
Lemma core_ok_with {A} (m : M E A) l : keeps (same core) m → keeps (preserves (ok_with l)) m.
Proof.
  apply keeps_weaken. intros s s' Hs. apply (same_preserves core (λ k, core_ok k ∧ k_acks k = l) _ _ Hs).
Qed.

Lemma ok_ip_list_install o l :
  keeps (E := E) (preserves (ok_with l))
    (if bool_decide (o ≠ OPC_STORE_UNCHANGED) then
       modify (λ s, s <| ip_list := pending_ip_list s |>);;
       iplist_mirror_user;;
       modify (λ s, if logged_in s && (session_generation s =? pending_ip_staging_session_generation s)
                    then (s <| ip_list_staging := pending_ip_staging s |>)
                           <| ip_list_staging_active := pending_ip_staging_active s |>
                    else s)
     else mret tt).
Proof.
  case_match; [|apply keeps_ret; apply _].
  repeat (apply keeps_bind; [apply _| |intros _]).
  - apply keeps_modify. intros s [[Hb Hs Ha Hn Hm Hd] Hl]. split; [by split|done].
  - apply core_ok_with. keeps.
  - apply keeps_modify. intros s [[Hb Hs Ha Hn Hm Hd] Hl]. case_match; guards; (split; [by split|done]).
Qed.

Lemma ok_on_done_ip_list s o :
  daemon_ok s →
  wps (E := E) (on_done_ip_list o)
    (λ _ s', ok_with (pending_acks s) s' ∧ ip_change_logout_deferred s' = false) s.
Proof.
  intros Hok. unfold on_done_ip_list. apply wps_bind.
  eapply wps_conseq; [apply (ok_ip_list_install o (pending_acks s))|]. intros [] s1 H1. cbv beta in H1.
  destruct (H1 (conj Hok eq_refl)) as [[Hb Hs Ha Hn Hm Hd] Hl]. wp. simpl in *.
  destruct (ip_change_logout_deferred s1) eqn:Ed; wp; [|split; [split; [ok_split|done]|done]].
  destruct Hd as [Hp Hbusy]; [done|].
  assert (Hc : ip_change_commit_armed s1 = false) by (destruct (ip_change_commit_armed s1); [naive_solver|done]).
  simpl. rewrite Hp, Hc. simpl.
  eapply wps_conseq; [apply wps_and; [apply ok_arm_ip_change|]|]; simpl; try done.
  - ok_split.
  - instantiate (1 := λ _ s', pending_acks s' = pending_acks s ∧ ip_change_logout_deferred s' = false).
    unfold arm_ip_change_from_committed. wp. by repeat case_match.
  - intros _ s' [? [? ?]]. done.
Qed.

(** ** Completions *)

Lemma ok_release s slot a :
  daemon_ok s → pending_acks s !! slot = Some a →
  (pa_resource a = OPCD_PERSIST_IP_LIST → ip_change_logout_deferred s = false) →
  daemon_ok (s <| pending_acks := alter (λ p, p <| pa_in_use := false |>) slot (pending_acks s) |>).
Proof.
  intros [Hb Hs Ha Hn Hm Hd] Hl Hr. split; simpl in *; try done.
  - apply acks_alter; [|done]. intros p. by simpl.
  - intros Hf. destruct (Hd Hf) as [Hp Hbusy]. split; [done|].
    eapply busy_release; [done| |done]. intros Heq. rewrite Hr in Hf; done.
Qed.

Lemma ok_on_done d : inv_kept (on_done d).
Proof.
  intros s. unfold on_done.
  case_match; [by apply wps_ret|]. case_match; [by apply wps_ret|]. guards.
  apply wps_bind, wps_get. set (pa := default _ _).
  destruct (pa_in_use pa) eqn:Eu; simpl; [|by apply wps_ret].
  assert (Hpa : pending_acks s !! Z.to_nat (d_token d) = Some pa).
  { unfold pa in *. by destruct (pending_acks s !! _). }
  apply wps_bind.
  apply wps_conseq with (Q := λ _ s', daemon_ok s → ok_with (pending_acks s) s' ∧
    (pa_resource pa = OPCD_PERSIST_IP_LIST → ip_change_logout_deferred s' = false)).
  { destruct (pa_resource pa); try by (apply wps_ret; intros; split).
    - eapply wps_conseq; [apply core_on_done_password|]. intros ? s' Hs Hok. split; [|done].
      by apply (same_preserves core (λ k, core_ok k ∧ k_acks k = pending_acks s) _ _ Hs).
    - intros e tx Hok. destruct (ok_on_done_ip_list s (d_outcome d) Hok e tx) as [??]. by split. }
  intros ? s1 Hs1. apply wps_bind. apply (wps_keeps (same core)); [keeps|].
  intros ? s2 Hs2. wp.
  apply (wps_keeps eq).
  { by keeps. }
  intros ? s3 <-. wp. intros Hok. destruct (Hs1 Hok) as [[Hok1 Ha1] Hd1].
  apply ok_release with pa.
  - by apply (same_preserves core core_ok _ _ Hs2).
  - injection Hs2 as. congruence.
  - injection Hs2 as. intros. rewrite <- Hd1 by done. done.
Qed.

Lemma ok_on_done_all ds : inv_kept (on_done_all ds).
Proof.
  induction ds as [|d ds IH]; simpl; [apply keeps_ret; apply _|].
  apply keeps_bind; [apply _|apply ok_on_done|done].
Qed.
Lemma ok_on_ready : inv_kept opcd_store_async_on_ready.
Proof.
  apply keeps_bind; [apply _|apply core_daemon_ok; keeps|]. intros ds. apply ok_on_done_all.
Qed.

(** ** Admission and submission *)

(** The completions keep the session and the writer. *)
Definition session_of (s : opcd_state_t) : bool * Z * Z * bool :=
  (logged_in s, holder_ip s, session_generation s, bool_decide (is_Some (store_async s))).
Lemma core_session_of {A} (m : M E A) : keeps (same core) m → keeps (same session_of) m.
Proof.
  apply keeps_weaken. unfold same. intros s s' Hs. injection Hs as. unfold session_of. congruence.
Qed.
#[local] Hint Resolve core_session_of : frames.
Lemma session_on_ready : keeps (E := E) (same session_of) opcd_store_async_on_ready.
Proof.
  apply keeps_bind; [apply _|apply core_session_of; keeps|]. intros ds.
  induction ds as [|d ds IH]; simpl; [apply keeps_ret; apply _|].
  apply keeps_bind; [apply _| |done].
  unfold on_done, on_done_ip_list, arm_ip_change_from_committed. keeps.
Qed.

(** A resource is free for a new acknowledgment. *)
Definition admitted (r : opcd_persist_resource_t) (s : opcd_state_t) : Prop :=
  store_async s = None ∨ ¬ busy (pending_acks s) r.

Lemma admit_attempt_spec r path ln s :
  wps (E := E) (admit_attempt r path ln)
    (λ a s', same core s s' ∧ ∀ rv, a = Some (AdmOk rv) → admitted r s') s.
Proof.
  unfold admit_attempt. wp. destruct (persist_resource_busy s r) eqn:Eb; [by apply wps_ret|].
  assert (Hb : ¬ busy (pending_acks s) r) by (rewrite <- busy_spec; congruence).
  case_match; [|by apply wps_ret]. apply wps_bind.
  apply (wps_keeps (same core)); [keeps|]. intros x s' Hs.
  assert (Ha : admitted r s') by (right; injection Hs as; congruence).
  repeat case_match; by apply wps_ret.
Qed.

Lemma ok_persist_admit r path ln s :
  daemon_ok s →
  wps (E := E) (persist_admit r path ln)
    (λ a s', daemon_ok s' ∧ same session_of s s' ∧ ∀ rv, a = AdmOk rv → admitted r s') s.
Proof.
  intros Hok. unfold persist_admit. wp. case_match eqn:Es; [|by apply wps_ret; split_and!; [..|left]].
  apply wps_bind. eapply wps_conseq; [apply admit_attempt_spec|]. intros a s1 [Hs1 Ha]. cbv beta in *.
  assert (Hok1 : daemon_ok s1) by (by apply (same_preserves core core_ok _ _ Hs1)).
  assert (Hse : same session_of s s1) by (injection Hs1 as; unfold same, session_of; congruence).
  destruct a as [a|]; [apply wps_ret; naive_solver|].
  apply wps_bind. eapply wps_conseq; [apply wps_and; [apply ok_on_ready|apply session_on_ready]|].
  intros ? s2 [Hok2 Hse2]. cbv beta in *. apply wps_bind.
  eapply wps_conseq; [apply admit_attempt_spec|]. intros a s3 [Hs3 Ha3]. cbv beta in *. apply wps_ret.
  split_and!.
  - apply (same_preserves core core_ok _ _ Hs3). by apply Hok2.
  - injection Hs3 as. unfold same, session_of in *. congruence.
  - destruct a; simpl; naive_solver.
Qed.

Lemma ok_persist_blob path data mode r na req ip port seq rv s :
  daemon_ok s → admitted r s → resource_request r = Some req →
  wps (E := E) (persist_blob path data mode r na req ip port seq rv)
    (λ _ s', daemon_ok s' ∧ same session_of s s') s.
Proof.
  intros Hok Hadm Hreq. unfold persist_blob. wp. case_match eqn:Es; [|wp; by case_match; wp].
  destruct Hadm as [?|Hbusy]; [congruence|].
  assert (Hcore : ∀ s', same core s s' → daemon_ok s' ∧ same session_of s s').
  { intros s' Hs. split; [by apply (same_preserves core core_ok _ _ Hs)|].
    injection Hs as. unfold same, session_of. congruence. }
  assert (Hcancel : ∀ x : persist_result, wps (E := E) (store_cancel rv;; mret x)
            (λ _ s', same core s s') s) by (intros; apply (keeps_bind (same core)); intros; keeps).
  case_match; [|eapply wps_conseq; [apply Hcancel|]; auto].
  apply wps_bind. apply (wps_keeps (same core)); [keeps|]. intros x s1 Hs1. case_match.
  - eapply wps_conseq; [apply (keeps_bind (same core)); intros; keeps|]. intros ? s2 Hs2.
    apply Hcore. by etransitivity.
  - wp. destruct (Hcore _ Hs1) as [[Hb Hs Ha Hn Hm Hd] Hse]. injection Hs1 as. split; [|done].
    split; simpl in *; try done.
    + apply acks_insert; [done| |done]. simpl; congruence.
    + intros Hf. destruct (Hd Hf) as [Hp (i & a & Hi & Hu & Hr)]. split; [done|].
      exists i, a. split; [|done]. rewrite list_lookup_insert_ne; [done|]. intros ->.
      unfold pending_ack_alloc in *.
      destruct (list_find _ (pending_acks s)) as [[j b]|] eqn:Ef; simplify_eq/=.
      apply list_find_Some in Ef as (Hj & Hfree & _). congruence.
Qed.
End Ops.
End Invariant.
Export Invariant.
