(* ===== verification/Reachable.v ===== *)
(** * Every event of the main loop preserves the daemon's invariant

    The handlers one by one, then dispatch, the branches of the loop, a turn, and any
    number of turns from start-up. *)
From S2P Require Import Prelude Codec ScanList Commands Indications Store StoreAsync IpListText FaultProbe State Indication Validate RadioConf Persist Handlers IpListLoad SimEnv Daemon Logic Frames Invariant.
From stdpp Require Import base list numbers option tactics strings.
From Stdlib Require Import ZArith Lia.
#[local] Open Scope Z_scope.
Import Store.Store StoreAsync.StoreAsync IpListText.IpListText FaultProbe.FaultProbe RadioConf.RadioConf.

Module Reachable.
Section Reachable.
Context {E : Type} `{Env E}.
Abbreviation inv_kept m := (keeps (E := E) (preserves daemon_ok) m).
#[local] Hint Resolve core_daemon_ok ok_session_logout ok_on_ready : frames.

Lemma ok_login f i p c q : inv_kept (handle_login f i p c q).
Proof.
  intros s. unfold handle_login. wp. case_match; [by apply wps_ret; wp|]. wp.
  apply (wps_keeps (same core)); [keeps|]. intros ? s1 Hs1. wp.
  apply (wps_keeps (same core)); [keeps|]. intros ? s2 Hs2. wp. intros [Hb Hs Ha Hn Hm Hd].
  apply (same_preserves core core_ok _ _ Hs2), (same_preserves core core_ok _ _ Hs1).
  repeat case_match; guards; ok_split.
Qed.

(** The decision a Logout takes about a pending address change. *)
Lemma ok_logout_decision s :
  daemon_ok s → ip_change_pending s = true → ip_change_commit_armed s = false →
  wps (E := E) (if persist_resource_busy s OPCD_PERSIST_IP_LIST
       then modify (λ s, s <| ip_change_logout_deferred := true |>)
       else arm_ip_change_from_committed) (λ _ s', daemon_ok s') s.
Proof.
  intros Hok Hp Hc. case_match eqn:Eb.
  - apply busy_spec in Eb. wp. destruct Hok as [Hb Hs Ha Hn Hm Hd]. ok_split.
  - apply ok_arm_ip_change; try done. destruct Hok as [Hb Hs Ha Hn Hm Hd].
    destruct (ip_change_logout_deferred s) eqn:Ed; [|done].
    destruct (Hd Ed) as [_ Hbusy]. apply busy_spec in Hbusy. congruence.
Qed.

Lemma ok_logout f i p c q : inv_kept (handle_logout f i p c q).
Proof.
  intros s. unfold handle_logout. wp. destruct (logout_error s f i); wp; [done|].
  apply wps_conseq with (Q := λ _ s', preserves daemon_ok s s').
  - case_match; [|by apply wps_ret]. guards. intros e tx Hok. by apply ok_logout_decision.
  - intros ? s1 Hs1. wp. apply (wps_keeps (preserves daemon_ok)); [keeps|].
    intros ? s2 Hs2. wp. by etransitivity.
Qed.

Lemma ok_change_ip f i p c q : inv_kept (handle_change_ip_address f i p c q).
Proof.
  intros s. unfold handle_change_ip_address. wp. apply wps_conseq with (Q := λ _ s', preserves daemon_ok s s').
  2: { intros ? s1 Hs1. by wp. }
  case_match; [|by wp]. wp. apply (wps_keeps (same core)); [keeps|]. intros e s1 Hs1.
  case_match; wp; [by apply (same_preserves core core_ok)|].
  assert (Hp1 : preserves daemon_ok s s1) by (by apply (same_preserves core core_ok)).
  repeat case_match; try by wp. guards. wp. apply (wps_keeps (same core)); [keeps|].
  intros clash s2 Hs2. assert (Hp2 : preserves daemon_ok s s2).
  { etransitivity; [exact Hp1|]. by apply (same_preserves core core_ok). }
  case_match; wp; [done|]. apply (wps_keeps (same core)); [keeps|]. intros ? s3 Hs3. wp. intros Hok.
  apply (same_preserves core core_ok _ _ Hs3). destruct (Hp2 Hok) as [Hb Hs Ha Hn Hm Hd].
  injection Hs2 as. ok_split.
Qed.

(** A step that keeps the core, after which the invariant still holds. *)
Lemma wps_core {A} (m : M E A) Q s :
  keeps (same core) m → daemon_ok s →
  (∀ x s', same core s s' → daemon_ok s' → Q x s') → wps m Q s.
Proof.
  intros Hm Hok HQ. apply (wps_keeps (same core)); [done|]. intros x s' Hs. apply HQ; [done|].
  by apply (same_preserves core core_ok _ _ Hs).
Qed.
Lemma admitted_core r s s' : same core s s' → admitted r s → admitted r s'.
Proof.
  unfold admitted, same. intros Hs. injection Hs as.
  intros [Hn|?]; [left|right; congruence]. rewrite Hn in *.
  destruct (store_async s'); [by rewrite bool_decide_true in * by eauto|done].
Qed.

Lemma ok_set_password f i p c q : inv_kept (handle_set_password f i p c q).
Proof.
  intros s e0 tx0 Hok. revert e0 tx0. change (wps (handle_set_password f i p c q) (λ _ s', daemon_ok s') s).
  unfold handle_set_password. wp. apply wps_conseq with (Q := λ _ s', daemon_ok s').
  2: { intros ? s1 Hs1. by wp. }
  case_match; [|by wp]. wp. apply wps_core; [keeps|done|]. intros x s1 Hs1 Hok1.
  case_match; wp; [done|]. case_match; [wp; apply wps_core; [keeps|done|]; intros; by wp|].
  case_match; [by wp|]. unfold set_password_store. wp.
  eapply wps_conseq; [by apply ok_persist_admit|]. intros a s2 (Hok2 & _ & Ha). cbv beta in *.
  destruct a; [|wp; apply wps_core; [keeps|done|]; intros; by wp|by wp]. wp.
  unfold persist_password. wp. eapply wps_conseq; [apply ok_persist_blob; [done|eauto|done]|].
  intros pr s3 [Hok3 _]. cbv beta in *. wp. apply wps_core; [keeps|done|]. intros ? s4 Hs4 Hok4.
  eapply wps_core; [keeps|done|done].
Qed.

(** What the store part of SetIpConfigList does once admitted, in a session. *)
Lemma ok_set_ip_config_store req i p q s :
  daemon_ok s → logged_in s = true →
  wps (E := E) (set_ip_config_store req i p q) (λ _ s', daemon_ok s') s.
Proof.
  intros Hok Hlog. unfold set_ip_config_store. wp.
  eapply wps_conseq; [by apply ok_persist_admit|]. intros a s1 (Hok1 & Hse & Ha). cbv beta in *.
  destruct a; [|wp; apply wps_core; [keeps|done|]; intros; by wp|by wp]. wp.
  destruct (ipcfg_run _ _ _ _) as [err il]. wp. apply wps_core; [keeps|done|].
  intros ? s2 Hs2 Hok2. assert (Hlog2 : logged_in s2 = true).
  { injection Hs2 as. unfold same, session_of in Hse. congruence. }
  case_match.
  - wp. unfold persist_ip_list. wp. apply wps_conseq with
      (Q := λ _ s', daemon_ok s' ∧ logged_in s' = true).
    { case_match; [eapply wps_conseq; [apply ok_persist_blob; [done| |done]|]|].
      - eapply admitted_core; [done|eauto].
      - intros ? s3 [? Hse3]. unfold same, session_of in Hse3. split; [done|congruence].
      - wp. apply wps_core; [keeps|done|]. intros ? s3 Hs3 Hok3. wp.
        split; [done|]. injection Hs3 as. congruence. }
    intros pr s3 [Hok3 Hlog3]. case_match; wp.
    + destruct Hok3 as [Hb Hs Hk Hn Hm Hd]. ok_split.
    + apply wps_conseq with (Q := λ _ s', daemon_ok s'); [|intros; by wp].
      case_match; wp; [|done]. apply wps_core; [keeps| |done].
      destruct Hok3 as [Hb Hs Hk Hn Hm Hd]. ok_split.
  - wp. apply wps_core; [keeps| |intros; by wp]. destruct Hok2 as [Hb Hs Hk Hn Hm Hd]. ok_split.
Qed.

Lemma ok_set_ip_config_list f i p c q : inv_kept (handle_set_ip_config_list f i p c q).
Proof.
  intros s e0 tx0 Hok. revert e0 tx0. change (wps (handle_set_ip_config_list f i p c q) (λ _ s', daemon_ok s') s).
  unfold handle_set_ip_config_list. wp. apply wps_conseq with (Q := λ _ s', daemon_ok s').
  2: { intros ? s1 Hs1. by wp. }
  case_match; [|by wp..]. wp. apply wps_conseq with
    (Q := λ e s', daemon_ok s' ∧ (e = None → logged_in s' = true)).
  { unfold check_login_required. wp. destruct (logged_in s) eqn:El; simpl; [|by wp].
    case_match; [by wp|]. wp. apply wps_core; [keeps|done|]. intros ? s1 Hs1 Hok1. wp.
    split; [done|]. injection Hs1 as. congruence. }
  intros x s1 [Hok1 Hlog]. case_match; wp; [done|]. case_match; wp.
  - apply wps_core; [keeps|done|]. intros; by wp.
  - apply ok_set_ip_config_store; auto.
Qed.

Lemma ok_radio_gen s k g :
  daemon_ok s → daemon_ok (s <| pending_acks := alter (λ p, p <| pa_radio_gen := g |>) k (pending_acks s) |>).
Proof.
  intros [Hb Hs Ha Hn Hm Hd]. split; simpl in *; try done.
  - apply acks_alter; [|done]. intros a. by simpl.
  - intros Hf. destruct (Hd Hf) as [Hp (i & a & Hi & Hu & Hr)]. split; [done|].
    destruct (decide (k = i)) as [->|].
    + exists i, (a <| pa_radio_gen := g |>). by rewrite list_lookup_alter, decide_True, Hi.
    + exists i, a. by rewrite list_lookup_alter_ne.
Qed.

Lemma ok_set_radio_apply req rv i p q s :
  daemon_ok s → admitted OPCD_PERSIST_RADIO s →
  wps (E := E) (set_radio_apply req rv i p q) (λ _ s', daemon_ok s') s.
Proof.
  intros Hok Hadm. unfold set_radio_apply. wp. apply wps_core; [keeps|done|]. intros arc s1 Hs1 Hok1.
  case_match; [apply wps_core; [keeps|done|done]|]. wp. case_match; [apply wps_core; [keeps|done|done]|]. wp.
  set (s2 := s1 <| radio := _ |> <| radio_applied_known := _ |> <| radio_recovery_state := _ |>
                 <| radio_gen := _ |> <| radio_committed := _ |>).
  assert (Hs2 : same core s1 s2) by done. clearbody s2.
  assert (Hok2 : daemon_ok s2) by (by apply (same_preserves core core_ok _ _ Hs2)).
  unfold persist_radio. wp. eapply wps_conseq; [apply ok_persist_blob; [done| |done]|].
  { eapply admitted_core; [done|]. by eapply admitted_core. }
  intros pr s3 [Hok3 _]. cbv beta in *. case_match; [apply wps_core; [keeps|done|done]|].
  case_match; wp.
  - apply wps_core; [keeps| |intros; by wp].
    case_match; [by apply (ok_radio_gen s3 n (radio_gen s3)) in Hok3|].
    by destruct Hok3 as [Hb Hs Hk Hn Hm Hd]; split.
  - apply wps_core; [keeps| |intros; wp; apply wps_core; [keeps|done|intros; by wp]].
    by destruct Hok3 as [Hb Hs Hk Hn Hm Hd]; split.
Qed.

Lemma ok_set_radio_config f i p c q : inv_kept (handle_set_radio_config f i p c q).
Proof.
  intros s e0 tx0 Hok. revert e0 tx0. change (wps (handle_set_radio_config f i p c q) (λ _ s', daemon_ok s') s).
  unfold handle_set_radio_config. wp. apply wps_conseq with (Q := λ _ s', daemon_ok s').
  2: { intros ? s1 Hs1. by wp. }
  case_match; [|by wp]. wp. apply wps_core; [keeps|done|]. intros x s1 Hs1 Hok1.
  case_match; wp; [done|]. case_match; [apply wps_core; [keeps|done|done]|]. case_match; [by wp|].
  wp. case_match; [|by wp|by wp]. case_match; [apply wps_core; [keeps|done|done]|].
  unfold set_radio_store. wp. eapply wps_conseq; [by apply ok_persist_admit|].
  intros a s2 (Hok2 & _ & Ha). cbv beta in *.
  destruct a; [|apply wps_core; [keeps|done|done]|by wp]. apply ok_set_radio_apply; eauto.
Qed.

#[local] Hint Resolve ok_login ok_logout ok_change_ip ok_set_password ok_set_ip_config_list
  ok_set_radio_config : frames.

Lemma ok_dispatch f i p c : inv_kept (opcd_dispatch f i p c).
Proof.
  assert (Hall : ∀ id fn, lookup_handler id = Some fn → ∀ f i p c q, inv_kept (fn f i p c q))
    by (apply (lookup_handler_ind (λ _ fn, ∀ f i p c q, inv_kept (fn f i p c q))); eauto 4 with frames).
  unfold opcd_dispatch, mono_now. keeps.
Qed.
#[local] Hint Resolve ok_dispatch : frames.

Lemma ok_on_datagram dg : inv_kept (on_datagram dg).
Proof. unfold on_datagram. keeps. Qed.
#[local] Hint Resolve ok_on_datagram : frames.
Lemma ok_udp_batch n q : inv_kept (udp_batch n q).
Proof. revert q. induction n as [|n IH]; intros q; simpl; keeps. Qed.
#[local] Hint Resolve ok_udp_batch : frames.
Lemma ok_on_timer n : inv_kept (on_timer n).
Proof. unfold on_timer, mono_now. keeps. Qed.
#[local] Hint Resolve ok_on_timer : frames.
Lemma ok_on_event ev : inv_kept (on_event ev).
Proof.
  destruct ev; unfold on_event; try solve [keeps].
  apply core_daemon_ok, keeps_modify. intros s. unfold same, core. simpl. by destruct (store_async s).
Qed.
#[local] Hint Resolve ok_on_event : frames.

(** Without a deferred decision, ending the session keeps it so. *)
Definition settled (s : opcd_state_t) : Prop := daemon_ok s ∧ ip_change_logout_deferred s = false.
Lemma core_settled {A} (m : M E A) : keeps (same core) m → keeps (preserves settled) m.
Proof.
  apply keeps_weaken. intros s s' Hs.
  apply (same_preserves core (λ k, core_ok k ∧ k_deferred k = false) _ _ Hs).
Qed.
Lemma settled_logout : keeps (E := E) (preserves settled) opcd_session_logout.
Proof.
  unfold opcd_session_logout. apply keeps_bind; [apply _|apply core_settled; keeps|intros _].
  apply keeps_modify. intros s [[Hb Hs Ha Hn Hm Hd] Hf]. split; [by split|done].
Qed.
#[local] Hint Resolve core_settled settled_logout : frames.

Lemma ok_apply_pending : inv_kept opcd_apply_pending_ip_change.
Proof.
  intros s. unfold opcd_apply_pending_ip_change. wp.
  destruct (ip_change_commit_armed s) eqn:Ec; simpl; wp; [|done].
  apply (wps_keeps (preserves settled)).
  { assert (keeps (E := E) (preserves settled) (modify (λ s, s <| indication_enabled := false |>)))
      by (apply core_settled; keeps). keeps. }
  intros ? s1 Hs1. wp. intros Hok. destruct Hs1 as [[Hb Hs Ha Hn Hm Hd] Hf].
  { split; [done|]. by apply Hok. }
  ok_split.
Qed.
#[local] Hint Resolve ok_apply_pending : frames.

Lemma ok_main_loop turns : inv_kept (main_loop turns).
Proof.
  assert (Hev : ∀ evs, inv_kept (on_events evs)) by (intros evs; induction evs; simpl; keeps).
  induction turns as [|evs turns IH]; simpl; unfold loop_turn; keeps.
Qed.

Lemma ok_main_exit finish : inv_kept (main_exit finish).
Proof.
  unfold main_exit. apply keeps_bind; [apply _| |intros _].
  { apply core_daemon_ok, keeps_modify. intros s. unfold same, core. simpl. by destruct (store_async s). }
  apply keeps_bind; [apply _|keeps|intros _]. apply keeps_bind; [apply _| |intros _].
  { apply keeps_modify. intros s [Hb Hs Ha Hn Hm Hd]. case_match; ok_split. }
  apply keeps_bind; [apply _| |intros _; keeps].
  apply keeps_modify. intros s [Hb Hs Ha Hn Hm Hd]. by split.
Qed.

(** ** From start-up *)

(** The state [main] loads the files into, with the configuration and the probe's levels. *)
Definition configured (c : opcd_conf_t) (p : opcd_fault_probe_t) : opcd_state_t :=
  (state_set_defaults <| conf := c |>) <| fault_probe := p |>.
(** The state the loads of start-up leave: the configured defaults with the password, the
    radio configuration and the IP list read from the files. *)
Definition loaded (c : opcd_conf_t) (p : opcd_fault_probe_t) (pw : list Z) (r : opc_set_radio_config_req_t) (rc : bool)
    (l : opcd_ip_list_t) : opcd_state_t :=
  ((((configured c p) <| password := pw |>) <| radio := r |>) <| radio_committed := rc |>) <| ip_list := l |>.

Lemma acks_initial : acks_ok (replicate OPCD_PENDING_ACK_MAX pending_ack_zero).
Proof.
  split; [done|..].
  - intros i j a b Hi _ Ha _ _. apply lookup_replicate in Hi as [-> _]. done.
  - intros i a Hi Ha. apply lookup_replicate in Hi as [-> _]. done.
Qed.
Lemma ok_loaded c p pw r rc l fd writer :
  wps (E := E) (publish fd writer) (λ _ s', daemon_ok s') (loaded c p pw r rc l).
Proof.
  unfold publish. wp. split; try done. apply acks_initial.
Qed.

(** The loads change nothing else. *)
Definition unloaded (s : opcd_state_t) : opcd_state_t :=
  (((s <| password := [] |>) <| radio := radio_config_zero |>) <| radio_committed := false |>)
    <| ip_list := ip_list_zero |>.
#[local] Abbreviation loads := (keeps (same unloaded)).
Lemma loads_write_user : loads iplist_write_user.
Proof. unfold iplist_write_user. keeps. Qed.
Lemma loads_write path l skip : loads (iplist_write path l skip).
Proof. unfold iplist_write. keeps. Qed.
Lemma loads_retire legacy : loads (iplist_retire_legacy legacy).
Proof. unfold iplist_retire_legacy. keeps. Qed.
#[local] Hint Resolve loads_write_user loads_write loads_retire : frames.
Lemma loads_convert legacy : loads (iplist_convert_legacy legacy).
Proof. unfold iplist_convert_legacy. keeps. Qed.
Lemma loads_text : loads iplist_load_text.
Proof. unfold iplist_load_text. keeps. Qed.
#[local] Hint Resolve loads_convert loads_text : frames.
Lemma loads_own : loads iplist_load_own.
Proof. unfold iplist_load_own. keeps. Qed.
Lemma loads_reject user : loads (iplist_reject_user user).
Proof. unfold iplist_reject_user. keeps. Qed.
Lemma loads_unreplaced b : loads (iplist_user_unreplaced b).
Proof. unfold iplist_user_unreplaced. keeps. Qed.
Lemma loads_read_user path cap : loads (iplist_read_user path cap).
Proof. unfold iplist_read_user. keeps. Qed.
#[local] Hint Resolve loads_own loads_reject loads_unreplaced loads_read_user : frames.
Lemma loads_take lr b l : loads (iplist_take_user lr b l).
Proof. unfold iplist_take_user. keeps. Qed.
#[local] Hint Resolve loads_take : frames.
Lemma loads_iplist : loads opcd_iplist_load.
Proof. unfold opcd_iplist_load. keeps. Qed.
Lemma loads_radio : loads opcd_radio_conf_load.
Proof. unfold opcd_radio_conf_load, marker_present. keeps. Qed.
Lemma loads_all : loads state_load_from_disk.
Proof.
  unfold state_load_from_disk, load_password.
  pose proof loads_iplist. pose proof loads_radio. keeps.
Qed.
Lemma loads_loaded s c p :
  unloaded s = unloaded (configured c p) →
  s = loaded c p (password s) (radio s) (radio_committed s) (ip_list s).
Proof. destruct s. unfold unloaded, loaded, configured. cbn. intros H0. injection H0. intros. by subst. Qed.

Lemma run_ok c p fd writer turns :
  wps (state_load_from_disk;; publish fd writer;; main_loop turns) (λ _ s', daemon_ok s') (configured c p).
Proof.
  apply wps_bind. eapply wps_conseq; [apply loads_all|]. intros ? s1 Hs1%loads_loaded. rewrite Hs1.
  apply wps_bind. eapply wps_conseq; [apply ok_loaded|]. intros ? s2 Hs2.
  eapply wps_conseq; [apply ok_main_loop|]. intros ? s3 Hs3. by apply Hs3.
Qed.
Lemma run_exit_ok c p fd writer turns finish :
  wps ((state_load_from_disk;; publish fd writer;; main_loop turns);; main_exit finish) (λ _ s', daemon_ok s') (configured c p).
Proof.
  apply wps_bind. eapply wps_conseq; [apply run_ok|]. intros ? s1 Hs1.
  eapply wps_conseq; [apply ok_main_exit|]. intros ? s2 Hs2. by apply Hs2.
Qed.

(** C2: Whatever the start-up files hold and whatever happens afterwards (any datagrams,
    timer ticks, platform and roam events, signals, worker progress and completions, in
    any order and grouping into loop turns, with any results of the platform and the file
    system), the daemon's invariant holds: the device status agrees with the session, a
    staged IP list belongs to a live session, the 16-entry table holds at most one pending
    acknowledgment per persisted resource and for the right request, a pending address
    change names a slot 1..128, an armed one is neither deferred nor without its slot, and
    a deferred one has an IP-list write in flight that will decide it. The exit path
    keeps it. *)
Theorem daemon_reachable_ok c p fd writer turns finish e tx :
  let run := state_load_from_disk;; publish fd writer;; main_loop turns in
  daemon_ok (w_st (run (mk_world (configured c p) e tx)).2) ∧
  daemon_ok (w_st ((run;; main_exit finish) (mk_world (configured c p) e tx)).2).
Proof. intros run. split; [apply run_ok|apply run_exit_ok]. Qed.
End Reachable.
End Reachable.
Export Reachable.
