(* ===== verification/IpChange.v ===== *)
(** * The deferred address change

    A ChangeIpAddress takes effect after the Logout that commits it: when the commit is
    armed, what may arm it, what the armed snapshot survives, how a decision deferred to
    an IP-list write resolves, and what applying does. *)
From S2P Require Import Prelude Codec ScanList Commands Indications Store StoreAsync IpListText FaultProbe State Indication Validate RadioConf Persist Handlers SimEnv Daemon Logic Frames Invariant Reachable.
From stdpp Require Import base list numbers option tactics strings.
From Stdlib Require Import ZArith Lia.
#[local] Open Scope Z_scope.
Import Store.Store StoreAsync.StoreAsync IpListText.IpListText FaultProbe.FaultProbe.

Module IpChange.

(** ** The armed snapshot *)

(** Once armed, still armed with the same slot and entry. *)
Definition snapshot_kept : relation opcd_state_t := λ s s',
  ip_change_commit_armed s = true →
  ip_change_commit_armed s' = true ∧ ip_change_armed_no s' = ip_change_armed_no s ∧
  ip_change_armed_entry s' = ip_change_armed_entry s.
#[global] Instance snapshot_kept_preorder : PreOrder snapshot_kept.
Proof.
  split; [by intros s|]. intros s1 s2 s3 H12 H23 H1. destruct (H12 H1) as (? & ? & ?).
  destruct H23 as (? & ? & ?); [done|]. split_and!; congruence.
Qed.

(** Neither armed nor waiting for a decision. *)
Definition uncommitted (s : opcd_state_t) : Prop :=
  ip_change_commit_armed s = false ∧ ip_change_logout_deferred s = false.

(** Both facts at once: what an operation other than Logout does to the commitment. *)
Definition commit_kept : relation opcd_state_t := λ s s',
  snapshot_kept s s' ∧ (uncommitted s → uncommitted s').
#[global] Instance commit_kept_preorder : PreOrder commit_kept.
Proof.
  split; [by intros s; split|]. intros s1 s2 s3 [H12 ?] [H23 ?]. split; [by etransitivity|auto].
Qed.

Section IpChange.
Context {E : Type} `{Env E}.
Abbreviation kept m := (keeps (E := E) commit_kept m).

Lemma core_commit {A} (m : M E A) : keeps (same core) m → kept m.
Proof.
  apply keeps_weaken. unfold same, commit_kept, snapshot_kept, uncommitted. intros s s' Hs.
  injection Hs as. split; [intros; split_and!|intros [??]; split]; congruence.
Qed.
#[local] Hint Resolve core_commit : frames.

(** A modification that leaves the commitment alone. *)
Lemma modify_commit f :
  (∀ s, ip_change_commit_armed (f s) = ip_change_commit_armed s ∧
        ip_change_logout_deferred (f s) = ip_change_logout_deferred s ∧
        ip_change_armed_no (f s) = ip_change_armed_no s ∧
        ip_change_armed_entry (f s) = ip_change_armed_entry s) → kept (modify f).
Proof.
  intros Hf. apply keeps_modify. intros s. destruct (Hf s) as (Ha & Hd & Hn & He).
  unfold commit_kept, snapshot_kept, uncommitted. by rewrite Ha, Hd, Hn, He.
Qed.
#[local] Hint Extern 2 (keeps commit_kept (modify _)) =>
  apply modify_commit; intros ?; repeat case_match; by split_and! : frames.

Lemma commit_session_logout : kept opcd_session_logout.
Proof. unfold opcd_session_logout. keeps. Qed.
#[local] Hint Resolve commit_session_logout : frames.

Lemma commit_on_done_ip_list o : kept (on_done_ip_list o).
Proof.
  unfold on_done_ip_list. do 2 (apply keeps_bind; [apply _|keeps|intros _]). intros s. wp.
  destruct (ip_change_logout_deferred s) eqn:Ed; wp; [|reflexivity].
  unfold commit_kept, snapshot_kept, uncommitted. simpl. rewrite Ed.
  case_match; wp; simpl; [|by split; [intros|intros [??]]].
  unfold arm_ip_change_from_committed. wp. guards.
  repeat case_match; simpl; (split; [intros|intros [??]]; congruence).
Qed.
#[local] Hint Resolve commit_on_done_ip_list : frames.
Lemma commit_on_done d : kept (on_done d).
Proof. unfold on_done. keeps. Qed.
#[local] Hint Resolve commit_on_done : frames.
Lemma commit_on_ready : kept opcd_store_async_on_ready.
Proof.
  apply keeps_bind; [apply _|keeps|]. intros ds.
  induction ds as [|d ds IH]; simpl; keeps.
Qed.
#[local] Hint Resolve commit_on_ready : frames.
Lemma commit_persist_admit r p l : kept (persist_admit r p l).
Proof. unfold persist_admit, admit_attempt. keeps. Qed.
Lemma commit_persist_blob a b c d e f g h i j : kept (persist_blob a b c d e f g h i j).
Proof. unfold persist_blob. keeps. Qed.
#[local] Hint Resolve commit_persist_admit commit_persist_blob : frames.
Lemma commit_set_password f i p c q : kept (handle_set_password f i p c q).
Proof. unfold handle_set_password, set_password_store, persist_password. keeps. Qed.
Lemma commit_set_ip f i p c q : kept (handle_set_ip_config_list f i p c q).
Proof. unfold handle_set_ip_config_list, set_ip_config_store, persist_ip_list. keeps. Qed.
Lemma commit_set_radio f i p c q : kept (handle_set_radio_config f i p c q).
Proof. unfold handle_set_radio_config, set_radio_store, set_radio_apply, persist_radio. keeps. Qed.
Lemma commit_change_ip f i p c q : kept (handle_change_ip_address f i p c q).
Proof. unfold handle_change_ip_address. keeps. Qed.
Lemma commit_login f i p c q : kept (handle_login f i p c q).
Proof.
  unfold handle_login. keeps. apply keeps_modify. intros s.
  unfold commit_kept, snapshot_kept, uncommitted. case_match; guards; simpl;
    (split; [intros; try congruence|intros [??]; by split]); done.
Qed.
#[local] Hint Resolve commit_set_password commit_set_ip commit_set_radio commit_change_ip
  commit_login : frames.

(** A Logout keeps an armed snapshot; it commits only for the holder of a session with a
    pending change. *)
Lemma snapshot_logout f i p c q s :
  wps (E := E) (handle_logout f i p c q)
    (λ _ s', snapshot_kept s s' ∧
       (uncommitted s → ¬ uncommitted s' →
        session_owns s i = true ∧ ip_change_pending s = true)) s.
Proof.
  unfold handle_logout. wp. destruct (logout_error s f i) eqn:El; wp; [by split|].
  assert (Ho : session_owns s i = true).
  { unfold logout_error in El. repeat case_match; simplify_eq. by guards. }
  apply wps_conseq with (Q := λ _ s', snapshot_kept s s' ∧
    (uncommitted s → ¬ uncommitted s' → ip_change_pending s = true)).
  - case_match; [|by wp]. guards.
    assert (snapshot_kept s s) by reflexivity.
    case_match; [by wp|]. unfold arm_ip_change_from_committed, snapshot_kept. wp.
    repeat case_match; simpl; (split; [|done]); intros; congruence.
  - intros ? s1 [Hs1 Hu1]. wp. apply (wps_keeps commit_kept); [keeps|]. intros ? s2 [Hs2 Hu2]. wp.
    split; [by etransitivity|]. intros Hu Hu'. split; [done|]. apply Hu1; [done|].
    intros Hn. by apply Hu', Hu2.
Qed.

Lemma snapshot_dispatch f i p c : keeps (E := E) snapshot_kept (opcd_dispatch f i p c).
Proof.
  assert (Hc : ∀ A (m : M E A), kept m → keeps snapshot_kept m) by (intros A m; apply keeps_weaken; by intros ?? []).
  assert (Hall : ∀ id fn, lookup_handler id = Some fn → ∀ f i p c q, keeps snapshot_kept (fn f i p c q)).
  { apply (lookup_handler_ind (λ _ fn, ∀ f i p c q, keeps snapshot_kept (fn f i p c q)));
      try solve [intros; apply Hc; eauto 4 with frames].
    intros ????? s. eapply wps_conseq; [apply snapshot_logout|]. intros ? ? [Hs _]. exact Hs. }
  unfold opcd_dispatch, mono_now. keeps.
Qed.

Lemma commit_on_timer n : kept (on_timer n).
Proof. unfold on_timer, mono_now. keeps. Qed.

Lemma snapshot_on_event ev : keeps (E := E) snapshot_kept (on_event ev).
Proof.
  assert (Hc : ∀ A (m : M E A), kept m → keeps snapshot_kept m) by (intros A m; apply keeps_weaken; by intros ?? []).
  assert (Hdg : ∀ dg, keeps (E := E) snapshot_kept (on_datagram dg)).
  { intros dg. unfold on_datagram. pose proof snapshot_dispatch. keeps. }
  destruct ev as [| | | | |q|f]; unfold on_event; try solve [apply Hc; keeps; apply commit_on_timer].
  apply keeps_bind; [apply _| |intros; keeps]. generalize OPCD_INGRESS_BATCH_MAX as n. intros n.
    revert q. induction n as [|n IH]; intros q; simpl; keeps.
Qed.

Lemma snapshot_on_events evs : keeps (E := E) snapshot_kept (on_events evs).
Proof.
  pose proof snapshot_on_event. induction evs as [|ev evs IH]; simpl; keeps.
Qed.

(** C14: Once a Logout has armed an address change, the slot number and the entry it
    recorded survive everything that can happen before the change is applied: further
    sessions, SetIpConfigList rewriting or clearing the slot, another ChangeIpAddress,
    another Logout, completions, timer ticks. *)
Theorem armed_snapshot_stable evs (w : world E) :
  ip_change_commit_armed (w_st w) = true →
  let s' := w_st (on_events evs w).2 in
  ip_change_commit_armed s' = true ∧ ip_change_armed_no s' = ip_change_armed_no (w_st w) ∧
  ip_change_armed_entry s' = ip_change_armed_entry (w_st w).
Proof. exact (wps_elim _ _ w (snapshot_on_events evs (w_st w))). Qed.

(** ** What commits a change *)

Lemma handler_commit f i p c s id fn :
  lookup_handler id = Some fn → ∀ q,
  wps (E := E) (fn f i p c q) (λ _ s', uncommitted s → ¬ uncommitted s' →
    id = OPC_REQ_LOGOUT ∧ session_owns s i = true ∧ ip_change_pending s = true) s.
Proof.
  assert (Hk : ∀ A (m : M E A) (P : Prop), kept m → wps m (λ _ s', uncommitted s → ¬ uncommitted s' → P) s).
  { intros A m P Hm. apply (wps_keeps commit_kept); [done|]. intros ? s' [_ Hs'] ??. naive_solver. }
  revert id fn. apply (lookup_handler_ind (λ id fn, ∀ q, wps (fn f i p c q) (λ _ s', uncommitted s →
    ¬ uncommitted s' → id = OPC_REQ_LOGOUT ∧ session_owns s i = true ∧ ip_change_pending s = true) s));
    intros q; try solve [apply Hk; eauto 4 with frames].
  eapply wps_conseq; [apply snapshot_logout|]. naive_solver.
Qed.

Lemma dispatch_commit f i p c s :
  wps (E := E) (opcd_dispatch f i p c) (λ _ s', uncommitted s → ¬ uncommitted s' →
    ∃ hdr body, opc_frame_parse f = Some (hdr, body) ∧ req_indication_id hdr = OPC_REQ_LOGOUT ∧
      session_owns s i = true ∧ ip_change_pending s = true) s.
Proof.
  unfold opcd_dispatch. destruct (opc_frame_parse f) as [[hdr body]|] eqn:Ef; [|by wp].
  case_match; [by wp|]. wp.
  apply wps_conseq with (Q := λ _ s', (s' = s ∨ session_owns s' i = false) ∧ (uncommitted s → uncommitted s')).
  { case_match; [|wp; auto]. unfold mono_now. wp; [|auto].
    unfold opcd_session_logout. wp. apply (wps_keeps (same core)); [keeps|]. intros ? s1 Hs1. wp.
    split; [by right|]. unfold uncommitted. injection Hs1 as. intros [??]. simpl. split; congruence. }
  intros ? s1 [Hs1 Hu1]. case_match eqn:El; wp; [|naive_solver].
  eapply wps_conseq; [by apply handler_commit|]. intros ? s2 Hs2. wp. intros Hu Hn.
  destruct Hs2 as (Hid & Ho & Hp); [auto..|]. destruct Hs1 as [->|?]; [|congruence]. eauto 6.
Qed.

Lemma event_commit ev : (∀ q, ev ≠ EvUdp q) → kept (on_event ev).
Proof.
  intros Hev. destruct ev as [| | | | |q|f]; unfold on_event; try by destruct (Hev q).
  all: keeps. apply commit_on_timer.
Qed.

(** C15: Only the explicit Logout of the session holder commits an address change. When a
    frame takes the daemon from "nothing committed" to a committed (armed or deferred)
    change, the frame is a well-formed Logout request, its sender holds the session and a
    ChangeIpAddress is pending; and no event other than a received datagram (idle
    time-out, completions, platform events, signals) commits one. *)
Theorem commit_needs_logout f i p c ev (w : world E) :
  uncommitted (w_st w) →
  (¬ uncommitted (w_st (opcd_dispatch f i p c w).2) →
   ∃ hdr body, opc_frame_parse f = Some (hdr, body) ∧ req_indication_id hdr = OPC_REQ_LOGOUT ∧
     session_owns (w_st w) i = true ∧ ip_change_pending (w_st w) = true) ∧
  ((∀ q, ev ≠ EvUdp q) → uncommitted (w_st (on_event ev w).2)).
Proof.
  intros Hu. split.
  - exact (wps_elim _ _ w (dispatch_commit f i p c (w_st w)) Hu).
  - intros Hev. by apply (wps_elim _ _ w (event_commit ev Hev (w_st w))).
Qed.

(** ** Resolving a deferred decision *)

(** The list that stands once a write with this outcome is known. *)
Definition settled_list (s : opcd_state_t) (o : opc_store_outcome_t) : opcd_ip_list_t :=
  if bool_decide (o ≠ OPC_STORE_UNCHANGED) then pending_ip_list s else ip_list s.

(** Armed with the entry of that list, or dropped because the slot is empty there. *)
Definition decided (n : Z) (l : opcd_ip_list_t) (s : opcd_state_t) : Prop :=
  ip_change_logout_deferred s = false ∧
  if slot_present l n
  then ip_change_commit_armed s = true ∧ ip_change_armed_no s = n ∧ ip_change_armed_entry s = slot_at l n
  else ip_change_commit_armed s = false ∧ ip_change_pending s = false.

Lemma decided_core n l s s' : same core s s' → decided n l s → decided n l s'.
Proof. unfold same, decided. intros Hs. injection Hs as. case_match; intuition congruence. Qed.

Lemma deferred_decided s o :
  daemon_ok s → ip_change_logout_deferred s = true →
  wps (E := E) (on_done_ip_list o) (λ _ s', decided (ip_change_list_no s) (settled_list s o) s') s.
Proof.
  intros [_ _ _ Hn Hm Hd] Hdef. simpl in *. destruct (Hd Hdef) as [Hp _]. specialize (Hn Hp).
  assert (Hc : ip_change_commit_armed s = false).
  { destruct (ip_change_commit_armed s); [|done]. destruct Hm as (? & ? & ?); [done|congruence]. }
  unfold on_done_ip_list. apply wps_bind.
  apply wps_conseq with (Q := λ _ s', ip_list s' = settled_list s o ∧
    ip_change_list_no s' = ip_change_list_no s ∧ ip_change_pending s' = true ∧
    ip_change_commit_armed s' = false ∧ ip_change_logout_deferred s' = true).
  { unfold settled_list. case_match; [|by wp]. wp. apply (wps_keeps (same core)); [keeps|].
    intros ? s1 Hs1. wp. injection Hs1 as. case_match; simpl; split_and!; congruence. }
  intros ? s1 (Hl & Hno & Hp1 & Hc1 & Hd1). wp. simpl. rewrite Hd1, Hp1, Hc1. wp. simpl.
  unfold arm_ip_change_from_committed, decided. wp. simpl. rewrite Hno, Hl. guard_eval. simpl.
  destruct (slot_present _ _); simpl; by rewrite ?Hc1.
Qed.

(** C24: A Logout whose decision was deferred to an IP-list write in flight is decided by
    that write's completion, whatever the outcome: against the list that then stands (the
    written one when the file was replaced, the old one otherwise) the change is armed
    with that list's entry when the slot is populated, and dropped when it is empty; the
    acknowledgment slot is released. *)
Theorem deferred_logout_resolves (w : world E) d a :
  let s := w_st w in
  daemon_ok s → ip_change_logout_deferred s = true →
  0 <= d_token d < Z.of_nat OPCD_PENDING_ACK_MAX →
  pending_acks s !! Z.to_nat (d_token d) = Some a → pa_in_use a = true →
  pa_resource a = OPCD_PERSIST_IP_LIST →
  let s' := w_st (on_done d w).2 in
  decided (ip_change_list_no s) (settled_list s (d_outcome d)) s' ∧
  persist_resource_busy s' OPCD_PERSIST_IP_LIST = false.
Proof.
  intros s Hok Hdef Htok Ha Hu Hr. apply (wps_elim (on_done d) (λ _ s',
    decided (ip_change_list_no s) (settled_list s (d_outcome d)) s' ∧
    persist_resource_busy s' OPCD_PERSIST_IP_LIST = false) w).
  fold s. clearbody s. clear w. unfold on_done. unfold OPCD_STORE_TOKEN_MIRROR.
  assert (Z.of_nat OPCD_PENDING_ACK_MAX = 16) by done.
  rewrite (proj2 (Z.eqb_neq _ _)), (proj2 (Z.leb_gt _ _)) by lia.
  wp. rewrite Ha. simpl. rewrite Hu. simpl. apply wps_bind. rewrite Hr.
  eapply wps_conseq; [apply wps_and; [by apply deferred_decided|by apply ok_on_done_ip_list]|].
  intros ? s1 (Hdec & [Hok1 Hl] & Hf). apply wps_bind. apply (wps_keeps (same core)); [keeps|].
  intros ? s2 Hs2. wp. apply (wps_keeps eq); [keeps|]. intros ? s3 <-. wp.
  split; [exact (decided_core _ _ s1 s2 Hs2 Hdec)|].
  destruct (persist_resource_busy _ _) eqn:Eb; [|done]. apply busy_spec in Eb as (i & b & Hi & Hb & Hbr).
  simpl in Hi. replace (pending_acks s2) with (pending_acks s) in Hi by (injection Hs2 as; congruence).
  destruct (decide (Z.to_nat (d_token d) = i)) as [<-|Hne].
  - rewrite list_lookup_alter, decide_True, Ha in Hi by done. simplify_eq/=.
  - rewrite list_lookup_alter_ne in Hi by done. destruct Hne.
    destruct Hok as [_ _ [_ Hone _] _ _ _]. by eapply (Hone _ _ a b); try congruence.
Qed.

(** ** Applying *)

(** With notifications off, a notification changes the sequence number at most. *)
Lemma init_complete_disabled status (w : world E) :
  indication_enabled (w_st w) = false →
  ∃ q, (opcd_ind_init_complete status w).2 =
       mk_world ((w_st w) <| indication_seq := q |>) (w_env w) (w_tx w).
Proof.
  destruct w as [s e tx]. simpl. intros Hoff.
  unfold opcd_ind_init_complete, next_seq, send_indication_frame, mbind, M_bind, get, modify, mret, M_ret. simpl.
  case_match; [by exists (indication_seq s); destruct s|]. simpl.
  repeat case_match; first [by eexists | guards; simpl in *; congruence].
Qed.

(** Applying calls the platform with the armed entry and slot number, sends nothing,
    leaves the IP list alone and clears the change whatever the platform answers; on
    success the session is over and notifications are off, on failure the session and the
    notification settings stand. Without an armed change it does nothing. *)
Theorem apply_pending_ip_change_spec (w : world E) :
  let s := w_st w in
  let '(rc, e1) := apply_ip_change (ip_change_armed_entry s) (mgmt_ip_iface_idx s)
                     (ip_change_armed_no s) (w_env w) in
  let w' := (opcd_apply_pending_ip_change w).2 in
  let s' := w_st w' in
  if ip_change_commit_armed s then
    w_tx w' = w_tx w ∧ ip_list s' = ip_list s ∧
    (ip_change_pending s', ip_change_commit_armed s', ip_change_list_no s') = (false, false, 0) ∧
    (rc = 0 → logged_in s' = false ∧ indication_enabled s' = false ∧
       (logged_in s = true → ip_list_staging_active s' = false ∧
          session_generation s' = u32 (session_generation s + 1))) ∧
    (rc ≠ 0 → w_env w' = e1 ∧ logged_in s' = logged_in s ∧ holder_ip s' = holder_ip s ∧
       idle_deadline s' = idle_deadline s ∧ indication_enabled s' = indication_enabled s)
  else w' = w.
Proof.
  destruct w as [s e tx]. simpl. destruct (apply_ip_change _ _ _ _) as [rc e1] eqn:Ea.
  unfold opcd_apply_pending_ip_change, mbind, M_bind, get, call, modify, whenM, mret, M_ret. simpl.
  destruct (ip_change_commit_armed s); simpl; [|done]. rewrite Ea.
  destruct (rc =? 0) eqn:Er; guards; simpl; [|by split_and!].
  destruct (logged_in s) eqn:El; unfold opcd_session_logout, mbind, M_bind, modify; simpl.
  - set (w1 := mk_world _ _ _). destruct (init_complete_disabled OPC_INIT_STATE_LOGGED_OUT w1) as [q Hq]; [done|].
    destruct (opcd_ind_init_complete OPC_INIT_STATE_LOGGED_OUT w1) as [x w2]. simpl in Hq. subst w2. simpl.
    destruct (management_topology (conf s)); [by split_and!|]. destruct (peer_route_refresh _ _ _).
    by split_and!.
  - destruct (management_topology (conf s)); [by split_and!|]. destruct (peer_route_refresh _ _ _).
    by split_and!.
Qed.
End IpChange.

(** ** Witnesses *)

Lemma armed_snapshot_stable_witness :
  let s' := w_st (on_events [EvTimer 1; EvStore] (demo_world demo_armed)).2 in
  ip_change_commit_armed s' = true ∧ ip_change_armed_no s' = 1 ∧ ip_change_armed_entry s' = demo_slot1.
Proof. exact (armed_snapshot_stable [EvTimer 1; EvStore] (demo_world demo_armed) eq_refl). Defined.

Lemma commit_needs_logout_witness :
  let f := default [] (opc_logout_req_pack OPC_FRAME_MAX 9) in
  (∃ hdr body, opc_frame_parse f = Some (hdr, body) ∧ req_indication_id hdr = OPC_REQ_LOGOUT ∧
     session_owns demo_change demo_client = true ∧ ip_change_pending demo_change = true) ∧
  uncommitted (w_st (on_event (EvTimer 400) (demo_world demo_change)).2).
Proof.
  intros f. destruct (commit_needs_logout f demo_client 5000 OPC_FRAME_MAX (EvTimer 400)
    (demo_world demo_change)) as [Hf Ht]; [done|]. split.
  - apply Hf. intros [Hc _]. vm_compute in Hc. discriminate.
  - by apply Ht.
Defined.

Definition demo_done : opc_store_async_done_t := mk_done 0 0 OPC_STORE_DURABLE.
Lemma deferred_logout_resolves_witness :
  let s' := w_st (on_done demo_done (demo_world demo_deferred)).2 in
  decided 1 ip_list_zero s' ∧ persist_resource_busy s' OPCD_PERSIST_IP_LIST = false.
Proof.
  apply (deferred_logout_resolves (demo_world demo_deferred) demo_done
    (mk_pending_ack true false OPCD_PERSIST_IP_LIST OPC_REQ_SET_IP_CONFIG_LIST 7 0 demo_client 5000));
    try done.
  split; try done.
  - apply acks_insert; [apply acks_initial| |done].
    intros (i & a & Hi & Hu & _). apply lookup_replicate in Hi as [-> _]. done.
  - intros _. split; [done|]. by eexists 0%nat, _.
Defined.
End IpChange.
Export IpChange.
