(* ===== verification/Answers.v ===== *)
(** * Answers and the receive length policy

    Every response is an acknowledgment that carries the request's id and sequence number
    and fits the buffer; the length policy admits exactly the datagrams that start with a
    well-formed frame; a bad length is answered to the session holder only. *)
From S2P Require Import Prelude Codec ScanList Commands Indications Store StoreAsync IpListText FaultProbe State Indication Validate RadioConf Persist Handlers Daemon SimEnv Logic Frames.
From stdpp Require Import base list numbers option tactics strings.
From Stdlib Require Import ZArith Lia.
#[local] Open Scope Z_scope.

Module Answers.

(** An acknowledgment of request [id], number [seq], that fits [cap] bytes. *)
Definition acknowledges (cap id seq : Z) (resp : list Z) : Prop :=
  64 <= len resp <= cap ∧ ∃ lf, opc_fixed_header_unpack resp =
    Some {| protocol_version := OPC_PROTOCOL_VERSION; command_type := OPC_CMD_ACK;
            req_indication_id := id; sequence_number := seq; hdr_length := lf |}.
Definition answers (cap id seq : Z) (resp : list Z) : Prop := resp = [] ∨ acknowledges cap id seq resp.

Lemma build_acknowledges cap id seq lf body frame :
  is_u16 id → is_u16 seq → is_u16 lf →
  opc_frame_build cap OPC_CMD_ACK id seq lf body = Some frame → acknowledges cap id seq frame.
Proof.
  intros Hid Hseq Hlf Eb. pose proof (len_frame_build _ _ _ _ _ _ _ Eb) as Hl. pose proof (len_nonneg body).
  apply frame_build_inv in Eb as (_ & Hc & ->). split; [lia|]. exists lf.
  apply fixed_header_unpack_app, fixed_header_unpack_pack; [|done].
  unfold header_ok, OPC_CMD_ACK, OPC_PROTOCOL_VERSION, is_u8, is_u16 in *; cbn; lia.
Qed.
Lemma build_answers cap id seq lf body :
  is_u16 id → is_u16 seq → is_u16 lf →
  answers cap id seq (emit_ack (opc_frame_build cap OPC_CMD_ACK id seq lf body)).
Proof.
  intros Hid Hseq Hlf. destruct (opc_frame_build _ _ _ _ _ _) as [frame|] eqn:Eb; [right|by left].
  by eapply build_acknowledges.
Qed.
Lemma simple_ack_answers cap id seq lf res cause :
  is_u16 id → is_u16 seq → is_u16 lf →
  answers cap id seq (emit_ack (opc_simple_ack_pack cap id seq lf res cause)).
Proof. apply build_answers. Qed.

Section Answers.
Context {E : Type} `{Env E}.

Lemma handler_answers id fn :
  lookup_handler (E := E) id = Some fn → ∀ f i p c q s,
  is_u16 q → wps (fn f i p c q) (λ r _, answers c id q r) s.
Proof.
  revert id fn.
  apply (lookup_handler_ind (λ id fn, ∀ f i p c q s, is_u16 q → wps (fn f i p c q) (λ r _, answers c id q r) s));
    intros f i p c q s Hq.
  - unfold handle_login. wp. apply wps_all. intros. wp. by apply simple_ack_answers.
  - unfold handle_logout. wp. apply wps_all. intros. wp. by apply simple_ack_answers.
  - unfold handle_get_basic_info, pack_basic_info_ack. case_match; wp; [|by apply build_answers|by apply simple_ack_answers].
    apply wps_all. intros. wp. by apply build_answers.
  - unfold handle_get_device_info. wp. apply wps_all. intros [err ack] ?. wp. by apply build_answers.
  - unfold handle_set_password. wp. apply wps_all. intros [v|] ?; wp; [by apply simple_ack_answers|by left].
  - unfold handle_set_ip_config_list. wp. apply wps_all. intros [v|] ?; wp; [by apply simple_ack_answers|by left].
  - unfold handle_change_ip_address. wp. apply wps_all. intros. wp. by apply simple_ack_answers.
  - unfold handle_set_radio_config. wp. apply wps_all. intros [v|] ?; wp; [by apply simple_ack_answers|by left].
  - unfold handle_set_indication_config. wp. apply wps_all. intros. wp. by apply simple_ack_answers.
  - unfold handle_reset. wp. apply wps_all. intros. wp. by apply simple_ack_answers.
Qed.

(** C27: Whatever frame arrives, in whatever state and environment, the dispatcher either
    gives no response or one acknowledgment frame of at least 64 bytes that fits the
    buffer, of protocol version 1 and type Ack, with the id and the sequence number of
    the request, which then was a well-formed Request frame. *)
Theorem dispatch_answers f i p c (w : world E) :
  let '(rc, resp) := (opcd_dispatch f i p c w).1 in
  resp = [] ∨ rc = 0 ∧ ∃ hdr body, opc_frame_parse f = Some (hdr, body) ∧
    command_type hdr = OPC_CMD_REQUEST ∧
    acknowledges c (req_indication_id hdr) (sequence_number hdr) resp.
Proof.
  apply (wps_elim (opcd_dispatch f i p c) (λ r _, let '(rc, resp) := r in resp = [] ∨ rc = 0 ∧ ∃ hdr body,
    opc_frame_parse f = Some (hdr, body) ∧ command_type hdr = OPC_CMD_REQUEST ∧
    acknowledges c (req_indication_id hdr) (sequence_number hdr) resp) w).
  unfold opcd_dispatch. destruct (opc_frame_parse f) as [[hdr body]|] eqn:Ef; [|by wp; left].
  case_match; [by wp; left|]. guards. wp. apply wps_all. intros _ s1.
  destruct (lookup_handler _) as [fn|] eqn:El; [|by wp; left]. wp.
  eapply wps_conseq; [eapply handler_answers; [done|]|].
  - apply parse_wf_frame in Ef as [Hu _]. unfold opc_fixed_header_unpack in Hu. case_match; simplify_eq/=.
    apply opc_be16_read_range.
  - intros resp s2 [->|Ha]; wp; [by left|right]. eauto 6.
Qed.
End Answers.

(** ** The receive length policy *)

Lemma fixed_header_unpack_take n f :
  8 <= n <= len f → opc_fixed_header_unpack (take (Z.to_nat n) f) = opc_fixed_header_unpack f.
Proof.
  intros Hn. assert (Hrd : ∀ k, 0 <= k < 8 → rd (take (Z.to_nat n) f) k = rd f k).
  { intros k Hk. unfold rd. rewrite lookup_take_lt by lia. done. }
  unfold opc_fixed_header_unpack, opc_be16_read, OPC_FIXED_HEADER_SIZE.
  replace (len (take (Z.to_nat n) f)) with n by (unfold len in *; rewrite length_take; lia).
  guard_eval. by rewrite !Hrd by lia.
Qed.

(** [opcd_intake_frame_len] returns 0 exactly when no prefix of the received bytes is
    a well-formed frame; otherwise it returns the length of the one prefix that is, so the
    bytes handed to the dispatcher always parse and trailing bytes never matter. *)
Theorem opcd_intake_frame_len_spec f :
  let n := opcd_intake_frame_len f in
  (n = 0 → ∀ k, opc_frame_parse (take k f) = None) ∧
  (n ≠ 0 → 8 <= n <= len f ∧ is_Some (opc_frame_parse (take (Z.to_nat n) f)) ∧
     ∀ k, 0 <= k <= len f → is_Some (opc_frame_parse (take (Z.to_nat k) f)) → k = n).
Proof.
  intros n. assert (Hpre : ∀ k, 0 <= k <= len f → is_Some (opc_frame_parse (take (Z.to_nat k) f)) → k = n ∧ k ≠ 0).
  { intros k Hk [[hdr body] Hp]. apply parse_wf_frame in Hp as (Hu & Hl & Hx).
    assert (Hlk : len (take (Z.to_nat k) f) = k) by (unfold len in *; rewrite length_take; lia).
    rewrite Hlk in *. assert (Hr : k = 8 ∨ 64 <= k <= 1424) by (destruct Hx as [(? & _)|(? & _)]; lia).
    rewrite fixed_header_unpack_take in Hu by lia. unfold n, opcd_intake_frame_len. rewrite Hu, Hl.
    unfold OPC_FIXED_HEADER_SIZE, OPC_HEADER_SIZE, OPC_FRAME_MAX.
    replace (8 + (k - 8)) with k by lia. destruct Hr as [->|?]; guard_eval; simpl; lia. }
  split.
  - intros Hn k. destruct (opc_frame_parse (take k f)) as [x|] eqn:Ep; [|done].
    destruct (decide (k ≤ length f)%nat) as [Hk|Hk].
    + destruct (Hpre (Z.of_nat k)) as [? ?]; [unfold len; lia| |lia]. rewrite Nat2Z.id. eauto.
    + rewrite take_ge in Ep by lia.
      destruct (Hpre (len f)) as [? ?]; [pose proof (len_nonneg f); lia| |lia].
      unfold len. rewrite Nat2Z.id, take_ge by lia. eauto.
  - intros Hn. unfold n, opcd_intake_frame_len in Hn. destruct (opc_fixed_header_unpack f) as [hdr|] eqn:Eu; [|done].
    unfold n, opcd_intake_frame_len. rewrite Eu. unfold OPC_FIXED_HEADER_SIZE, OPC_HEADER_SIZE, OPC_FRAME_MAX in *.
    set (k := 8 + hdr_length hdr) in *.
    assert (Hk : (k = 8 ∨ 64 <= k <= 1424) ∧ k <= len f ∧
       (if negb ((k =? 8) || (64 <=? k) && (k <=? 1424)) || (len f <? k) then 0 else k) = k).
    { destruct (_ || (len f <? k)) eqn:Ec; [done|]. guards; split_and!; lia. }
    destruct Hk as (Hr & Hle & Hkn). rewrite Hkn.
    assert (Hlk : len (take (Z.to_nat k) f) = k) by (unfold len in *; rewrite length_take; lia).
    split_and!; [lia..| |].
    2: { intros k0 Hk0 Hs0. destruct (Hpre k0 Hk0 Hs0) as [-> _]. unfold n, opcd_intake_frame_len.
         by rewrite Eu. }
    exists (hdr, if 64 <=? k then drop 64 (take (Z.to_nat k) f) else []). apply wf_frame_parse.
    split_and!; [by rewrite fixed_header_unpack_take by lia|rewrite Hlk; lia|]. rewrite Hlk.
    destruct Hr as [->|?]; guard_eval; [by left|right]. split; [lia|]. exists (take 64 (take (Z.to_nat k) f)).
    split; [|by rewrite take_drop]. unfold len in *. rewrite !length_take. lia.
Qed.

(** The acknowledgment a bad length gets. *)
Definition bad_length_ack (hdr : opc_header_t) : option (list Z) :=
  if (command_type hdr =? OPC_CMD_REQUEST) && (req_indication_id hdr =? OPC_REQ_GET_DEVICE_INFO) then
    opc_get_device_info_ack_pack OPC_FRAME_MAX (sequence_number hdr)
      ((device_info_zero <| di_result := OPC_RESULT_NG |>) <| di_error_cause := OPC_ERR_PACKET_SIZE |>)
  else opc_simple_ack_pack OPC_FRAME_MAX (req_indication_id hdr) (sequence_number hdr)
         OPC_SIMPLE_ACK_LENGTH OPC_RESULT_NG OPC_ERR_PACKET_SIZE.

Lemma bad_length_ack_some f hdr :
  opc_fixed_header_unpack f = Some hdr → ∃ resp, bad_length_ack hdr = Some resp ∧
    acknowledges OPC_FRAME_MAX (req_indication_id hdr) (sequence_number hdr) resp.
Proof.
  intros Hu. assert (Hr : is_u16 (req_indication_id hdr) ∧ is_u16 (sequence_number hdr)).
  { unfold opc_fixed_header_unpack in Hu. case_match; simplify_eq/=. split; apply opc_be16_read_range. }
  destruct Hr as [Hi Hq]. assert (Hb : is_Some (bad_length_ack hdr)).
  { unfold bad_length_ack, opc_get_device_info_ack_pack, opc_simple_ack_pack.
    case_match; apply frame_build_some; by vm_compute. }
  destruct Hb as [resp Hb]. exists resp. split; [done|].
  unfold bad_length_ack, opc_get_device_info_ack_pack, opc_simple_ack_pack in Hb. case_match; guards.
  - match goal with He : req_indication_id hdr = _ |- _ => rewrite He in * end.
    by eapply build_acknowledges; [..|exact Hb].
  - by eapply build_acknowledges; [..|exact Hb].
  - by eapply build_acknowledges; [..|exact Hb].
Qed.

(** A datagram with a bad length never changes the daemon's state. It is answered with
    one acknowledgment (packet-size error, echoing the header's id and sequence number)
    sent back to where it came from, exactly when it comes from the session holder's
    address and carries a readable fixed header; anyone else gets nothing. *)
Theorem reject_bad_length_spec {E} `{Env E} f ip port (w : world E) :
  let w' := (opcd_reject_bad_length f ip port w).2 in
  w_st w' = w_st w ∧
  match opc_fixed_header_unpack f with
  | Some hdr =>
      if session_owns (w_st w) ip && (0 <=? udp_fd (w_st w)) then
        ∃ resp, w_tx w' = w_tx w ++ [mk_datagram ip port resp] ∧ bad_length_ack hdr = Some resp ∧
          acknowledges OPC_FRAME_MAX (req_indication_id hdr) (sequence_number hdr) resp
      else w_tx w' = w_tx w
  | None => w_tx w' = w_tx w
  end.
Proof.
  destruct w as [s e tx]. unfold opcd_reject_bad_length, mbind, M_bind, get, mret, M_ret, session_owns. cbn [w_st w_tx].
  destruct (logged_in s), (holder_ip s =? ip); cbn [negb orb andb]; try by (split; [|case_match]).
  destruct (opc_fixed_header_unpack f) as [hdr|] eqn:Eu; [|done].
  destruct (bad_length_ack_some f hdr Eu) as (resp & Hb & Ha).
  pose proof Hb as Hb'. unfold bad_length_ack in Hb. rewrite Hb.
  destruct (udp_fd s <? 0) eqn:Ef; guards; guard_eval; [done|].
  unfold sendto. cbn [w_st w_env w_tx]. destruct (env_sendto _ _ _ _). cbn. eauto.
Qed.
End Answers.
Export Answers.
