(* ===== verification/Notify.v ===== *)
(** * Notifications: addressing and coalescing

    Timer ticks, platform and roam events and signals transmit to the configured recipient
    only, and only while notifications are on; within a period, link events are merged
    into one notification that carries the last of them. *)
From S2P Require Import Prelude Codec ScanList Commands Indications Store StoreAsync IpListText FaultProbe State Indication Validate RadioConf Persist Handlers Daemon SimEnv Logic.
From stdpp Require Import base list numbers option tactics strings.
From Stdlib Require Import ZArith Lia.
#[local] Open Scope Z_scope.
Import FaultProbe.FaultProbe.

Module Notify.

(** ** Addressing *)

Record recipient := mk_recipient { r_on : bool; r_fd : Z; r_ip : Z; r_port : Z }.
Definition recipient_of (s : opcd_state_t) : recipient :=
  mk_recipient (indication_enabled s) (udp_fd s) (indication_recipient_ip s) (indication_recipient_port s).
Definition addressed (r : recipient) (d : datagram) : Prop :=
  r_on r = true ∧ 0 <= r_fd r ∧ r_ip r ≠ 0 ∧ r_port r ≠ 0 ∧ dg_ip d = r_ip r ∧ dg_port d = r_port r.

Section Notify.
Context {E : Type} `{Env E}.

(** Only datagrams to the recipient are added, and the recipient stays. *)
Definition notifies (w w' : world E) : Prop :=
  recipient_of (w_st w') = recipient_of (w_st w) ∧
  ∃ ds, w_tx w' = w_tx w ++ ds ∧ Forall (addressed (recipient_of (w_st w))) ds.
#[local] Instance notifies_preorder : PreOrder notifies.
Proof.
  split.
  - intros w. split; [done|]. exists []. by rewrite app_nil_r.
  - intros w1 w2 w3 [H12 (d1 & T1 & F1)] [H23 (d2 & T2 & F2)]. split; [congruence|].
    exists (d1 ++ d2). rewrite T2, T1, app_assoc. split; [done|]. rewrite H12 in F2. by apply Forall_app_2.
Qed.

Lemma notifies_refl_tx s s' e e' tx :
  recipient_of s' = recipient_of s → notifies (mk_world s e tx) (mk_world s' e' tx).
Proof. intros Hr. split; [done|]. exists []. by rewrite app_nil_r. Qed.
Lemma notifies_call {A} (op : E → A * E) : wkeeps notifies (call op).
Proof. apply wkeeps_call. intros. by apply notifies_refl_tx. Qed.
Lemma notifies_modify f : (∀ s, recipient_of (f s) = recipient_of s) → wkeeps notifies (modify f).
Proof. intros Hf. apply wkeeps_modify. intros. by apply notifies_refl_tx. Qed.
#[local] Hint Resolve notifies_call : frames.
#[local] Hint Extern 2 (wkeeps notifies (modify _)) =>
  apply notifies_modify; intros ?; solve [done | repeat case_match; done] : frames.

Lemma notifies_send f : wkeeps notifies (send_indication_frame f).
Proof.
  intros [s e tx]. unfold send_indication_frame. destruct f as [f|]; [|reflexivity].
  unfold mbind, M_bind, get, mret, M_ret. cbn [w_st].
  destruct (negb (indication_enabled s) || (udp_fd s <? 0)) eqn:E1; [reflexivity|].
  destruct ((indication_recipient_ip s =? 0) || (indication_recipient_port s =? 0)) eqn:E2; [reflexivity|].
  unfold sendto. cbn [w_st w_env w_tx]. destruct (env_sendto _ _ _ _) as [ok e']. cbn [snd].
  split; [done|]. eexists. split; [done|]. constructor; [|done]. guards. by split_and!.
Qed.
Lemma notifies_next_seq : wkeeps notifies next_seq.
Proof. unfold next_seq. wkeeps. Qed.
#[local] Hint Resolve notifies_send notifies_next_seq : frames.
Lemma notifies_init_complete st : wkeeps notifies (opcd_ind_init_complete st).
Proof. unfold opcd_ind_init_complete. wkeeps. Qed.
Lemma notifies_emit_wlan_status a b : wkeeps notifies (emit_wlan_status a b).
Proof. unfold emit_wlan_status. wkeeps. Qed.
Lemma notifies_emit_roaming a b m c : wkeeps notifies (emit_roaming a b m c).
Proof. unfold emit_roaming. wkeeps. Qed.
Lemma notifies_emit_ap_disconnect a b m : wkeeps notifies (emit_ap_disconnect a b m).
Proof. unfold emit_ap_disconnect. wkeeps. Qed.
Lemma notifies_emit_fault_detect a b : wkeeps notifies (emit_fault_detect a b).
Proof. unfold emit_fault_detect. wkeeps. Qed.
#[local] Hint Resolve notifies_emit_wlan_status notifies_emit_roaming notifies_emit_ap_disconnect
  notifies_emit_fault_detect : frames.
Lemma notifies_set_coalesce i f : wkeeps notifies (set_coalesce i f).
Proof. unfold set_coalesce. wkeeps. Qed.
#[local] Hint Resolve notifies_init_complete notifies_set_coalesce : frames.
Lemma notifies_radio_up : wkeeps notifies opcd_ind_radio_up.
Proof. unfold opcd_ind_radio_up. wkeeps. Qed.
#[local] Hint Resolve notifies_radio_up : frames.
Lemma notifies_fault_detect c v : wkeeps notifies (opcd_ind_fault_detect c v).
Proof. unfold opcd_ind_fault_detect. wkeeps. Qed.
Lemma notifies_fault_clear c : wkeeps notifies (opcd_ind_fault_clear c).
Proof. unfold opcd_ind_fault_clear. wkeeps. Qed.
Lemma notifies_reset_notice c : wkeeps notifies (opcd_ind_reset_notice c).
Proof. unfold opcd_ind_reset_notice. wkeeps. Qed.
#[local] Hint Resolve notifies_fault_detect notifies_fault_clear notifies_reset_notice : frames.
Lemma notifies_wlan_status st ch : wkeeps notifies (opcd_ind_wlan_status st ch).
Proof. unfold opcd_ind_wlan_status, opcd_mono_now_s. wkeeps. Qed.
Lemma notifies_roaming a b m c : wkeeps notifies (opcd_ind_roaming a b m c).
Proof. unfold opcd_ind_roaming. wkeeps. Qed.
Lemma notifies_ap_disconnect a b m : wkeeps notifies (opcd_ind_ap_disconnect a b m).
Proof. unfold opcd_ind_ap_disconnect. wkeeps. Qed.
#[local] Hint Resolve notifies_wlan_status notifies_roaming notifies_ap_disconnect : frames.
Lemma notifies_platform_event evt : wkeeps notifies (on_platform_event evt).
Proof. unfold on_platform_event. wkeeps. Qed.
Lemma notifies_fault_probe_tick n : wkeeps notifies (fault_probe_tick n).
Proof. unfold fault_probe_tick, fault_notify. wkeeps. Qed.
#[local] Hint Resolve notifies_platform_event notifies_fault_probe_tick : frames.
Lemma notifies_flush_link i : wkeeps notifies (flush_link i).
Proof.
  assert (Hf : ∀ n k, wkeeps notifies (flush_faults i k n)).
  { intros n. induction n; intros k; simpl; unfold get_coalesce, flush_one; wkeeps. }
  unfold flush_link, get_coalesce, flush_one. wkeeps.
Qed.
#[local] Hint Resolve notifies_flush_link : frames.
Lemma notifies_tick n : wkeeps notifies (opcd_ind_tick_elapsed n).
Proof. unfold opcd_ind_tick_elapsed, period_flush, opcd_ind_keep_alive. wkeeps. Qed.
Lemma notifies_logout : wkeeps notifies opcd_session_logout.
Proof. unfold opcd_session_logout. wkeeps. Qed.
#[local] Hint Resolve notifies_tick notifies_logout : frames.

(** An event that is not a datagram for the control socket nor a writer completion. *)
Definition background (ev : event) : Prop :=
  match ev with EvUdp _ | EvStore => False | _ => True end.

Lemma notifies_background ev : background ev → wkeeps notifies (on_event ev).
Proof.
  intros Hb. destruct ev as [n|n| |evts|q|q|f]; try done; clear Hb; unfold on_event.
  - unfold on_signal. wkeeps.
  - unfold on_timer, mono_now. wkeeps.
  - induction evts; simpl; wkeeps.
  - apply wkeeps_bind; [apply _| |intros; wkeeps]. generalize OPCD_INGRESS_BATCH_MAX as n.
    intros n. revert q. induction n; intros q; simpl; wkeeps.
  - wkeeps.
Qed.

(** C30: Timer ticks (with the idle logout, the congestion probe and the period flush),
    platform and roam events, signals and worker progress transmit only to the recipient
    that SetIndicationConfig set: every datagram they add goes to that address and port,
    and there is none while notifications are off, the recipient is unset or the socket is
    closed. They leave the recipient as it is. *)
Theorem background_addressing ev (w : world E) :
  background ev →
  let w' := (on_event ev w).2 in
  recipient_of (w_st w') = recipient_of (w_st w) ∧
  ∃ ds, w_tx w' = w_tx w ++ ds ∧ Forall (addressed (recipient_of (w_st w))) ds.
Proof. intros Hb. exact (notifies_background ev Hb w). Qed.

(** ** Coalescing *)

(** Notifications of link changes are on, with a period. *)
Record coalescing (s : opcd_state_t) : Prop := {
  co_on : indication_enabled s = true;
  co_period : 0 < indication_period_s s;
  co_bit : bit_set (indication_info_bits s) OPC_IND_BIT_WLAN_STATUS_CHANGE = true;
  co_reported : radio_up_reported s = true }.

Definition latest_link (c : opcd_ind_coalesce) (st ch : Z) : opcd_ind_coalesce :=
  ((c <| c_wlan_status := st |>) <| c_wlan_ch := ch |>) <| c_wlan_pending := true |>.

Ltac run :=
  cbv beta iota zeta delta [mbind M_bind mret M_ret get modify query call];
  cbn [w_st w_env w_tx fst snd].

Lemma radio_up_done b (w : world E) :
  radio_up_reported (w_st w) = true → whenM b opcd_ind_radio_up w = (tt, w).
Proof. intros Hr. destruct b; [|done]. unfold whenM, opcd_ind_radio_up. run. by rewrite Hr, orb_true_r. Qed.

Lemma wlan_status_staged st ch (w : world E) c :
  coalescing (w_st w) → indication_coalesce (w_st w) !! 0%nat = Some c →
  let w' := (opcd_ind_wlan_status st ch w).2 in
  coalescing (w_st w') ∧ w_tx w' = w_tx w ∧ recipient_of (w_st w') = recipient_of (w_st w) ∧
  indication_seq (w_st w') = indication_seq (w_st w) ∧
  indication_coalesce (w_st w') !! 0%nat = Some (latest_link c st ch).
Proof.
  destruct w as [s e tx]. cbn [w_st w_tx]. intros [H1 H2 H3 H4] Hc.
  unfold opcd_ind_wlan_status, opcd_mono_now_s, set_coalesce. run. destruct (env_mono e) as [now e']. run.
  rewrite radio_up_done by done. run. simpl. rewrite H3. simpl. guard_eval. run.
  split_and!; try done. simpl. by rewrite list_lookup_alter, decide_True, Hc.
Qed.

Fixpoint wlan_status_all (evs : list (Z * Z)) : M E unit :=
  match evs with
  | [] => mret tt
  | (st, ch) :: evs' => _ ← opcd_ind_wlan_status st ch; wlan_status_all evs'
  end.

Lemma wlan_status_all_staged evs (w : world E) c st ch :
  coalescing (w_st w) → indication_coalesce (w_st w) !! 0%nat = Some c →
  let w' := (wlan_status_all (evs ++ [(st, ch)]) w).2 in
  coalescing (w_st w') ∧ w_tx w' = w_tx w ∧ recipient_of (w_st w') = recipient_of (w_st w) ∧
  indication_seq (w_st w') = indication_seq (w_st w) ∧
  indication_coalesce (w_st w') !! 0%nat = Some (latest_link c st ch).
Proof.
  revert w c. induction evs as [|[st0 ch0] evs IH]; intros w c Hco Hc; simpl.
  - destruct (wlan_status_staged st ch w c Hco Hc) as (? & ? & ? & ? & ?). run.
    by destruct (opcd_ind_wlan_status st ch w).
  - destruct (wlan_status_staged st0 ch0 w c Hco Hc) as (H1 & H2 & H3 & H4 & H5). run.
    destruct (opcd_ind_wlan_status st0 ch0 w) as [x w1]. cbn [snd] in *.
    destruct (IH w1 _ H1 H5) as (? & ? & ? & ? & ?). split_and!; try done; congruence.
Qed.

(** Nothing else is staged on the link. *)
Definition only_link (c : opcd_ind_coalesce) : Prop :=
  c_roam_pending c = false ∧ c_apd_pending c = false ∧ c_fault_pending c = replicate 4 false.

Lemma flush_faults_none i k n (w : world E) c :
  indication_coalesce (w_st w) !! i = Some c → c_fault_pending c = replicate 4 false →
  flush_faults i k n w = (tt, w).
Proof.
  intros Hc Hf. revert k. induction n as [|n IH]; intros k; [done|].
  cbn [flush_faults]. unfold get_coalesce. run. rewrite Hc. cbn [from_option id]. rewrite Hf.
  assert (Hk : default false (replicate 4 false !! k) = false).
  { destruct (replicate 4 false !! k) eqn:Ek; [|done]. by apply lookup_replicate in Ek as [-> _]. }
  rewrite Hk. unfold flush_one. run. apply IH.
Qed.

Lemma emit_wlan_status_sent st ch s (e : E) tx :
  indication_enabled s = true → 0 <= udp_fd s →
  indication_recipient_ip s ≠ 0 → indication_recipient_port s ≠ 0 →
  ∃ frame ok e', opc_ind_wlan_status_change_pack OPC_FRAME_MAX (indication_seq s)
                   (mk_wlan_status_change st ch) = Some frame ∧
    emit_wlan_status st ch (mk_world s e tx) =
    (if ok : bool then 0 else -1,
     mk_world (s <| indication_seq := u16 (indication_seq s + 1) |>) e'
       (tx ++ [mk_datagram (indication_recipient_ip s) (indication_recipient_port s) frame])).
Proof.
  intros Hon Hfd Hip Hport.
  assert (Hp : is_Some (opc_ind_wlan_status_change_pack OPC_FRAME_MAX (indication_seq s)
    (mk_wlan_status_change st ch))) by (apply frame_build_some; by vm_compute).
  destruct Hp as [frame Hp]. destruct (env_sendto (indication_recipient_ip s)
    (indication_recipient_port s) frame e) as [ok e'] eqn:Es.
  exists frame, ok, e'. split; [done|]. unfold emit_wlan_status, next_seq. run. rewrite Hp.
  unfold send_indication_frame. run. cbn. rewrite Hon. guard_eval. cbn. unfold sendto. cbn. by rewrite Es.
Qed.

(** Flushing a link on which only a status change is staged. *)
Lemma flush_link_status (w : world E) c st ch r :
  recipient_of (w_st w) = r → r_on r = true → 0 <= r_fd r → r_ip r ≠ 0 → r_port r ≠ 0 →
  only_link c → indication_coalesce (w_st w) !! 0%nat = Some (latest_link c st ch) →
  ∃ frame, opc_ind_wlan_status_change_pack OPC_FRAME_MAX (indication_seq (w_st w))
             (mk_wlan_status_change st ch) = Some frame ∧
    w_tx (flush_link 0 w).2 = w_tx w ++ [mk_datagram (r_ip r) (r_port r) frame].
Proof.
  destruct w as [s e tx]. cbn [w_st w_tx]. intros <- Hon Hfd Hip Hport (Hro & Hap & Hfa) Hc.
  destruct (emit_wlan_status_sent st ch s e tx) as (frame & ok & e' & Hp & He); [done..|].
  exists frame. split; [done|]. unfold flush_link, get_coalesce. run. rewrite Hc. cbn [from_option id].
  change (c_wlan_pending (latest_link c st ch)) with true.
  change (c_roam_pending (latest_link c st ch)) with (c_roam_pending c).
  change (c_apd_pending (latest_link c st ch)) with (c_apd_pending c).
  rewrite Hro, Hap. unfold flush_one. run.
  change (c_wlan_status (latest_link c st ch)) with st. change (c_wlan_ch (latest_link c st ch)) with ch.
  rewrite He. destruct ok; cbn [whenM Z.eqb]; unfold set_coalesce; run.
  - rewrite (flush_faults_none _ _ _ _ ((latest_link c st ch) <| c_wlan_pending := false |>)); [done| |done].
    simpl. by rewrite list_lookup_alter, decide_True, Hc.
  - by rewrite (flush_faults_none _ _ _ _ (latest_link c st ch)).
Qed.

(** Within a period, any number of link-status events of the primary WLAN, in any
    order, transmit nothing by themselves; the flush at the end of the period then sends
    exactly one WlanStatusChange, carrying the status and the channel of the last event
    and the current sequence number, to the configured recipient. *)
Theorem link_events_coalesce evs st ch (w : world E) c :
  let s := w_st w in
  coalescing s → 0 <= udp_fd s → indication_recipient_ip s ≠ 0 → indication_recipient_port s ≠ 0 →
  indication_coalesce s !! 0%nat = Some c → only_link c →
  let w1 := (wlan_status_all (evs ++ [(st, ch)]) w).2 in
  w_tx w1 = w_tx w ∧
  ∃ frame, opc_ind_wlan_status_change_pack OPC_FRAME_MAX (indication_seq s)
             (mk_wlan_status_change st ch) = Some frame ∧
    w_tx (flush_link 0 w1).2 =
      w_tx w ++ [mk_datagram (indication_recipient_ip s) (indication_recipient_port s) frame].
Proof.
  intros s Hco Hfd Hip Hport Hc Ho w1. unfold w1.
  destruct (wlan_status_all_staged evs w c st ch Hco Hc) as (_ & Htx & Hr & Hq & Hc1).
  split; [done|]. destruct (flush_link_status (wlan_status_all (evs ++ [(st, ch)]) w).2 c st ch (recipient_of s))
    as (frame & Hp & Hf); try done; [apply Hco|]. rewrite Hq in Hp. rewrite Htx in Hf. eauto.
Qed.
End Notify.

(** ** Witnesses *)

Definition demo_notify : opcd_state_t :=
  (((((demo_session <| indication_enabled := true |>) <| indication_recipient_ip := demo_client |>)
       <| indication_recipient_port := 6000 |>) <| indication_info_bits := 65535 |>)
       <| indication_period_s := 10 |>) <| radio_up_reported := true |>.

Lemma background_addressing_witness :
  let w' := (on_event (EvTimer 10) (demo_world demo_notify)).2 in
  recipient_of (w_st w') = mk_recipient true 3 demo_client 6000 ∧
  ∃ ds, w_tx w' = [] ++ ds ∧ Forall (addressed (mk_recipient true 3 demo_client 6000)) ds.
Proof. exact (background_addressing (EvTimer 10) (demo_world demo_notify) I). Defined.

Lemma link_events_coalesce_witness :
  let w1 := (wlan_status_all ([(1, 36); (0, 36)] ++ [(1, 44)]) (demo_world demo_notify)).2 in
  w_tx w1 = [] ∧
  ∃ frame, opc_ind_wlan_status_change_pack OPC_FRAME_MAX 0 (mk_wlan_status_change 1 44) = Some frame ∧
    w_tx (flush_link 0 w1).2 = [] ++ [mk_datagram demo_client 6000 frame].
Proof.
  apply (link_events_coalesce [(1, 36); (0, 36)] 1 44 (demo_world demo_notify) coalesce_zero); by vm_compute.
Defined.
End Notify.
Export Notify.
