(* ===== verification/IpCfgTxn.v ===== *)
(** * SetIpConfigList as transactions

    The entry loop of the handler works on two 128-slot arrays (the candidate list and the
    staging copy) with a boundary flag per entry. The specification is a finite map from
    slot numbers to entries and, while a block is open, the log of its updates; the loop
    refines it. *)
From S2P Require Import Prelude Codec ScanList Commands Indications Store StoreAsync IpListText FaultProbe State Indication Validate RadioConf Persist Handlers.
From stdpp Require Import base list numbers option tactics strings gmap.
From Stdlib Require Import ZArith Lia.
#[local] Open Scope Z_scope.
Import IpListText.IpListText.

Module IpCfgTxn.

(** ** Specification *)

Abbreviation ip_map := (gmap Z opc_ipcfg_entry_t).
(** Set a slot, or clear it. *)
Inductive update := Put (n : Z) (e : opc_ipcfg_entry_t) | Clear (n : Z).
Definition apply_update (m : ip_map) (u : update) : ip_map :=
  match u with Put n e => <[n := e]> m | Clear n => delete n m end.
Definition apply_log (log : list update) (m : ip_map) : ip_map := foldl apply_update m log.

Record txn := mk_txn { t_map : ip_map; t_open : option (list update) }.

Definition entry_update (e : opc_ipcfg_entry_t) : update :=
  if ip_address e =? 0 then Clear (list_number e) else Put (list_number e) e.

(** The verdict on one entry by itself; [terminated]: its ESSID ends within the field. *)
Definition entry_verdict (e : opc_ipcfg_entry_t) (terminated : bool) : option Z :=
  if (list_number e <? 1) || (OPC_IPCFG_LIST_MAX_SLOTS <? list_number e) then Some OPC_ERR_SLOT_RANGE
  else if ip_address e =? 0 then None
  else let v := ipcfg_entry_error e terminated in if v =? 0 then None else Some v.

Inductive boundary := Opens | Inside | Closes | Whole.
Definition boundary_of (flag : Z) : boundary :=
  if flag =? OPC_LIST_BOUNDARY_START then Opens
  else if flag =? OPC_LIST_BOUNDARY_END then Closes
  else if flag =? OPC_LIST_BOUNDARY_START_END then Whole else Inside.

(** An entry opens a block (dropping one left open), extends it, or closes it, which
    applies the whole log at once. *)
Definition txn_step (e : opc_ipcfg_entry_t) (t : txn) : Z + txn :=
  let u := entry_update e in
  match boundary_of (boundary_flag e), t_open t with
  | Opens, _ => inr (mk_txn (t_map t) (Some [u]))
  | Whole, _ => inr (mk_txn (apply_update (t_map t) u) None)
  | Inside, Some log => inr (mk_txn (t_map t) (Some (log ++ [u])))
  | Closes, Some log => inr (mk_txn (apply_log (log ++ [u]) (t_map t)) None)
  | _, None => inl OPC_ERR_LIST_SEQUENCE
  end.

Fixpoint txn_run (mask : Z) (i : nat) (es : list opc_ipcfg_entry_t) (t : txn) : option Z * txn :=
  match es with
  | [] => (None, t)
  | e :: es' =>
      match entry_verdict e (negb (Z.land (Z.shiftr mask (Z.of_nat i)) 1 =? 0)) with
      | Some err => (Some err, t)
      | None => match txn_step e t with
                | inl err => (Some err, t)
                | inr t' => txn_run mask (S i) es' t'
                end
      end
  end.

(** ** Refinement *)

Definition in_range (n : Z) : Prop := 1 <= n <= OPC_IPCFG_LIST_MAX_SLOTS.
Definition full_size (l : opcd_ip_list_t) : Prop := length (slots l) = SLOTS ∧ length (present l) = SLOTS.

(** The list holds exactly the map: slot [n] of it is populated with [e] iff the map has
    [n ↦ e]. *)
Definition represents (m : ip_map) (l : opcd_ip_list_t) : Prop :=
  full_size l ∧ ∀ n, m !! n = if decide (in_range n ∧ slot_present l n = true) then Some (slot_at l n) else None.

Definition related (s : ipcfg_loop) (t : txn) : Prop :=
  represents (t_map t) (il_candidate s) ∧
  match t_open t with
  | None => il_active s = false
  | Some log => il_active s = true ∧ represents (apply_log log (t_map t)) (il_staging s)
  end.

Lemma slot_present_set l n k e p :
  full_size l → in_range n → in_range k →
  slot_present (set_slot l (Z.to_nat (n - 1)) e p) k = if decide (k = n) then negb (p =? 0) else slot_present l k.
Proof.
  unfold in_range, OPC_IPCFG_LIST_MAX_SLOTS, full_size, slot_present, set_slot. simpl. intros [Hs Hp] Hn Hk.
  assert (SLOTS = 128%nat) by done.
  case_decide as Hd.
  - subst. by rewrite list_lookup_insert_eq by lia.
  - by rewrite list_lookup_insert_ne by lia.
Qed.
Lemma slot_at_set l n k e p :
  full_size l → in_range n → in_range k →
  slot_at (set_slot l (Z.to_nat (n - 1)) e p) k = if decide (k = n) then e else slot_at l k.
Proof.
  unfold in_range, OPC_IPCFG_LIST_MAX_SLOTS, full_size, slot_at, set_slot. simpl. intros [Hs Hp] Hn Hk.
  assert (SLOTS = 128%nat) by done.
  case_decide as Hd.
  - subst. by rewrite list_lookup_insert_eq by lia.
  - by rewrite list_lookup_insert_ne by lia.
Qed.

Lemma represents_other l n k e p :
  full_size l → in_range n → k ≠ n →
  (if decide (in_range k ∧ slot_present l k = true) then Some (slot_at l k) else None) =
  (let l' := set_slot l (Z.to_nat (n - 1)) e p in
   if decide (in_range k ∧ slot_present l' k = true) then Some (slot_at l' k) else None).
Proof.
  intros Hf Hn Hne. simpl. destruct (decide (in_range k)) as [Hk|Hk].
  - rewrite slot_present_set, slot_at_set, !(decide_False (P := k = n)) by done. done.
  - by rewrite !decide_False by tauto.
Qed.

Lemma represents_update m l e :
  in_range (list_number e) → represents m l →
  represents (apply_update m (entry_update e))
    (if ip_address e =? 0 then set_slot l (Z.to_nat (list_number e - 1)) ipcfg_entry_zero 0
     else set_slot l (Z.to_nat (list_number e - 1)) e 1).
Proof.
  intros Hr [Hf Hm]. unfold entry_update, apply_update.
  assert (Hf' : ∀ e' p, full_size (set_slot l (Z.to_nat (list_number e - 1)) e' p)).
  { intros e' p. destruct Hf. by split; simpl; rewrite length_insert. }
  destruct (ip_address e =? 0); (split; [apply Hf'|]); intros n; cbv iota.
  - destruct (decide (n = list_number e)) as [->|Hne].
    + rewrite lookup_delete_eq, decide_False; [done|]. intros [_ Hp].
      by rewrite slot_present_set, decide_True in Hp.
    + rewrite lookup_delete_ne, Hm by done. by apply represents_other.
  - destruct (decide (n = list_number e)) as [->|Hne].
    + rewrite lookup_insert_eq, decide_True; [by rewrite slot_at_set, decide_True|].
      by rewrite slot_present_set, decide_True.
    + rewrite lookup_insert_ne, Hm by done. by apply represents_other.
Qed.

Lemma step_refines mask i e s t :
  related s t →
  match entry_verdict e (negb (Z.land (Z.shiftr mask (Z.of_nat i)) 1 =? 0)) with
  | Some err => ipcfg_step mask i e s = inl err
  | None => match ipcfg_step mask i e s, txn_step e t with
            | inl err, inl err' => err = err'
            | inr s', inr t' => related s' t'
            | _, _ => False
            end
  end.
Proof.
  intros [Hc Ho]. unfold entry_verdict, ipcfg_step.
  destruct ((list_number e <? 1) || (OPC_IPCFG_LIST_MAX_SLOTS <? list_number e)) eqn:Er; [done|].
  assert (Hr : in_range (list_number e)) by (unfold in_range; guards; lia).
  set (v := ipcfg_entry_error _ _). clearbody v.
  destruct (decide (¬ (ip_address e =? 0) = true ∧ v ≠ 0)) as [[Hz Hv]|Hok].
  { destruct (ip_address e =? 0); [done|]. by rewrite (proj2 (Z.eqb_neq _ _) Hv). }
  assert (Hverr : (if ip_address e =? 0 then None else if v =? 0 then None else Some v) = None ∧
    negb ((if ip_address e =? 0 then 0 else v) =? 0) = false).
  { destruct (ip_address e =? 0); [done|]. destruct (decide (v = 0)) as [->|]; [done|]. destruct Hok. by split. }
  destruct Hverr as [-> ->]. unfold txn_step, boundary_of.
  unfold OPC_LIST_BOUNDARY_START, OPC_LIST_BOUNDARY_END, OPC_LIST_BOUNDARY_START_END.
  pose proof (represents_update _ _ e Hr Hc) as Hcu.
  destruct (boundary_flag e =? 1) eqn:F1, (boundary_flag e =? 2) eqn:F2, (boundary_flag e =? 3) eqn:F3;
    guards; try lia; simpl.
  - by split.
  - destruct (t_open t) as [log|]; [destruct Ho as [-> Hs]|by rewrite Ho]. simpl. split; [|done]. simpl.
    unfold apply_log. rewrite foldl_app. by apply represents_update.
  - by split.
  - destruct (t_open t) as [log|]; [destruct Ho as [-> Hs]|by rewrite Ho]. simpl. split; [done|]. simpl.
    split; [done|]. unfold apply_log. rewrite foldl_app. by apply represents_update.
Qed.

(** C10: The SetIpConfigList loop refines the transaction specification. Started on arrays
    that represent a map and (while a block is open) its pending log, it stops at the same
    entry with the same error code, and leaves arrays that represent the specification's
    map and log: a block's updates become visible all at once when its END entry is
    accepted, in order, and not at all before. *)
Theorem ipcfg_run_refines mask i es s t :
  related s t →
  let '(err, s') := ipcfg_run mask i es s in
  let '(err', t') := txn_run mask i es t in
  err = err' ∧ related s' t'.
Proof.
  revert i s t. induction es as [|e es IH]; intros i s t Hst; [done|]. simpl.
  pose proof (step_refines mask i e s t Hst) as Hstep. case_match; [by rewrite Hstep|].
  destruct (ipcfg_step mask i e s), (txn_step e t); try done; [by subst|]. by apply IH.
Qed.

(** ** Witness *)

Definition demo_put (flag n ip : Z) : opc_ipcfg_entry_t :=
  mk_ipcfg_entry flag n ip 4294967040 0 0 ([65; 80] ++ zeros 30).
Lemma zero_represents : represents ∅ ip_list_zero.
Proof.
  split; [done|]. intros n. rewrite lookup_empty, decide_False; [done|]. intros [Hr Hp].
  unfold slot_present, ip_list_zero in Hp. cbn [present] in Hp.
  destruct (replicate SLOTS 0 !! _) as [x|] eqn:Ex; [|done]. by apply lookup_replicate in Ex as [-> _].
Qed.

Lemma ipcfg_run_refines_witness :
  let es := [demo_put 1 1 3232235777; demo_put 2 2 3232235778; demo_put 3 40 3232235779] in
  let '(err, s') := ipcfg_run 7 0 es (mk_ipcfg_loop ip_list_zero ip_list_zero false false) in
  let '(err', t') := txn_run 7 0 es (mk_txn ∅ None) in
  err = err' ∧ related s' t'.
Proof.
  apply (ipcfg_run_refines 7 0 _ (mk_ipcfg_loop ip_list_zero ip_list_zero false false) (mk_txn ∅ None)).
  split; [apply zero_represents|done].
Defined.
End IpCfgTxn.
Export IpCfgTxn.
