(* ===== verification/PasswordTxn.v ===== *)
(** * SetPassword: what is stored, and retrying after a failed write

    From the request to its answer, written on the spot or by the writer thread: an OK answer
    means the new password is the one that logs in from now on; an error answer leaves the
    daemon ready to accept the very same request again, also when the file was already
    replaced. *)
From S2P Require Import Prelude Codec ScanList Commands Indications Store StoreAsync IpListText FaultProbe State Indication Validate RadioConf Persist Handlers WriterTurn Daemon SimEnv Session.
From stdpp Require Import base list numbers option tactics strings.
From Stdlib Require Import ZArith Lia.
#[local] Open Scope Z_scope.
Import Store.Store StoreAsync.StoreAsync IpListText.IpListText WriterTurn.

Module PasswordTxn.

(** ** The stored copy of a password *)

Lemma strnlen_loop_cstr l n : strnlen_loop l n = length (take n (cstr l)).
Proof.
  revert n. induction l as [|c l IH]; intros [|n]; simpl; try done.
  case_match; simpl; [done|]. by rewrite IH.
Qed.
Lemma take_cstr l n : take (length (take n (cstr l))) l = take n (cstr l).
Proof.
  revert n. induction l as [|c l IH]; intros [|n]; simpl; try done.
  case_match; simpl; [done|]. by rewrite IH.
Qed.
Lemma cstr_app_zeros l k : Forall (λ c, c ≠ 0) l → cstr (l ++ 0 :: k) = l.
Proof. induction 1 as [|c l Hc Hl IH]; simpl; [done|]. rewrite (proj2 (Z.eqb_neq c 0)) by done. by rewrite IH. Qed.
Lemma cstr_nonzero l : Forall (λ c, c ≠ 0) (cstr l).
Proof. induction l as [|c l IH]; simpl; [done|]. case_match; guards; [done|]. by constructor. Qed.

(** The candidate the handler builds holds the request's first 127 characters. *)
Lemma candidate_cstr l :
  let n := opc_bounded_strnlen l 127 in
  cstr (write_at 0 (take (Z.to_nat n) l) (zeros 128)) = take 127 (cstr l).
Proof.
  simpl. unfold opc_bounded_strnlen. rewrite Nat2Z.id, strnlen_loop_cstr.
  change (Z.to_nat 127) with 127%nat. rewrite take_cstr.
  assert (Hl : (length (take 127 (cstr l)) <= 127)%nat) by (rewrite length_take; lia).
  unfold write_at, zeros. change (Z.to_nat 0) with 0%nat. rewrite take_0. cbn [app].
  rewrite drop_replicate. destruct (Z.to_nat 128 - _)%nat as [|k] eqn:Ek; [lia|].
  apply cstr_app_zeros. apply Forall_take, cstr_nonzero.
Qed.
Lemma candidate_eq l r :
  strncmp_eq 127 (write_at 0 (take (Z.to_nat (opc_bounded_strnlen l 127)) l) (zeros 128)) r = strncmp_eq 127 l r.
Proof. unfold strncmp_eq. rewrite candidate_cstr, take_take. done. Qed.
Lemma strncmp_eq_spec n a b : strncmp_eq n a b = true ↔ take n (cstr a) = take n (cstr b).
Proof. unfold strncmp_eq. apply bool_decide_eq_true. Qed.

(** The comparison of the old password, or of a re-sent request. *)
Definition old_password_ok (s : opcd_state_t) (req : opc_set_password_req_t) : bool :=
  strncmp_eq 127 (sp_old_password req) (password s) || password_resend_of_unsynced s req.

Lemma set_password_error_mono s s' req n :
  set_password_error s req n = None → old_password_ok s' req = true → set_password_error s' req n = None.
Proof.
  unfold set_password_error, old_password_ok. intros He Ho.
  repeat (case_match; [done|]). apply orb_true_iff in Ho as [Ho|Ho]; rewrite Ho; [done|by rewrite andb_false_r].
Qed.
Lemma set_password_error_old s req n :
  set_password_error s req n = None → old_password_ok s req = true ∧ n ≠ 0.
Proof.
  unfold set_password_error, old_password_ok. intros He. repeat case_match; try done. guards; split; try lia.
  - apply orb_true_iff. by left.
  - apply orb_true_iff. by right.
Qed.

Section PasswordTxn.
Context {E : Type} `{Env E}.

(** The state after the write's outcome is noted: the retry is accepted. *)
Lemma retry_accepted s req cand :
  (∀ r, strncmp_eq 127 cand r = strncmp_eq 127 (sp_new_password req) r) →
  old_password_ok s req = true →
  ∀ s', password s' = cand →
    (if strncmp_eq 127 cand (password s)
     then password_unsynced s' = password_unsynced s ∧ password_unsynced_prev s' = password_unsynced_prev s
     else password_unsynced s' = true ∧ password_unsynced_prev s' = password s) →
  old_password_ok s' req = true.
Proof.
  intros Hcand Ho s' Hp Hu. unfold old_password_ok, password_resend_of_unsynced in *. rewrite Hp.
  assert (Hnew : strncmp_eq 127 (sp_new_password req) cand = true).
  { rewrite <- Hcand. by apply strncmp_eq_spec. }
  destruct (strncmp_eq 127 cand (password s)) eqn:Ec.
  - destruct Hu as [Hu1 Hu2]; rewrite Hu1, Hu2. rewrite Hnew. apply orb_true_iff in Ho as [Ho|Ho].
    + apply orb_true_iff. left. apply strncmp_eq_spec in Ho, Ec. apply strncmp_eq_spec. congruence.
    + apply andb_true_iff in Ho as [[Ho1 Ho2]%andb_true_iff _]. rewrite Ho1, Ho2. apply orb_true_r.
  - destruct Hu as [Hu1 Hu2]; rewrite Hu1, Hu2. rewrite Hnew. apply orb_true_iff in Ho as [Ho|Ho]; [by rewrite Ho, orb_true_r|].
    apply andb_true_iff in Ho as [_ Ho]. rewrite Hcand in Ec. congruence.
Qed.

(** What the outcome of the write leaves of the password, with the candidate [cand]. *)
Definition noted (s : opcd_state_t) (cand : list Z) (o : opc_store_outcome_t) (s' : opcd_state_t) : Prop :=
  match o with
  | OPC_STORE_UNCHANGED => (password s', password_unsynced s', password_unsynced_prev s') = (password s, password_unsynced s, password_unsynced_prev s)
  | OPC_STORE_REPLACED_UNSYNCED => password s' = cand ∧
      (if strncmp_eq 127 cand (password s)
       then password_unsynced s' = password_unsynced s ∧ password_unsynced_prev s' = password_unsynced_prev s
       else password_unsynced s' = true ∧ password_unsynced_prev s' = password s)
  | OPC_STORE_DURABLE => password s' = cand ∧ password_unsynced s' = false
  end.
Lemma note_outcome_noted s cand o (e : E) tx :
  let w' := ((password_note_outcome cand o;; modify (λ s, if bool_decide (o ≠ OPC_STORE_UNCHANGED) then s <| password := cand |> else s)) (mk_world s e tx)).2 in
  noted s cand o (w_st w').
Proof.
  unfold password_note_outcome, mbind, M_bind, modify. cbn [w_st w_env w_tx]. destruct o; cbn; [done| |done].
  destruct (strncmp_eq 127 cand (password s)); done.
Qed.

(** The answer's verdict and what it means for the password. *)
Definition password_verdict (req : opc_set_password_req_t) (v : option Z) (s' : opcd_state_t) : Prop :=
  match v with
  | None => cstr (password s') = take 127 (cstr (sp_new_password req)) ∧ cstr (password s') ≠ [] ∧ password_unsynced s' = false
  | Some err => err = OPC_ERR_NVRAM ∧ set_password_error s' req (opc_bounded_strnlen (sp_new_password req) 127) = None
  end.
Definition candidate_of (req : opc_set_password_req_t) : list Z :=
  write_at 0 (take (Z.to_nat (opc_bounded_strnlen (sp_new_password req) 127)) (sp_new_password req)) (zeros 128).
Lemma noted_verdict s s' req rc o :
  set_password_error s req (opc_bounded_strnlen (sp_new_password req) 127) = None → (rc = 0 ↔ o = OPC_STORE_DURABLE) →
  noted s (candidate_of req) o s' → password_verdict req (done_verdict rc) s'.
Proof.
  intros Hacc Hw Hn. destruct (set_password_error_old _ _ _ Hacc) as [Hold Hlen]. unfold done_verdict, password_verdict.
  assert (Hcand : ∀ r, strncmp_eq 127 (candidate_of req) r = strncmp_eq 127 (sp_new_password req) r) by apply candidate_eq.
  assert (Hcc : cstr (candidate_of req) = take 127 (cstr (sp_new_password req))) by apply candidate_cstr.
  destruct (Z.eqb_spec rc 0) as [->|Hrc].
  - assert (o = OPC_STORE_DURABLE) as -> by (by apply Hw). destruct Hn as [-> ->]. rewrite Hcc. split_and!; [done| |done].
    intros Hnil. apply Hlen. unfold opc_bounded_strnlen. rewrite strnlen_loop_cstr. change (Z.to_nat 127) with 127%nat. by rewrite Hnil.
  - split; [done|]. eapply set_password_error_mono; [done|]. destruct o; cbn in Hn.
    + injection Hn as Hp Hu Hv. revert Hold. unfold old_password_ok, password_resend_of_unsynced. by rewrite Hp, Hu, Hv.
    + destruct Hn as [Hp Hu]. by apply (retry_accepted s req (candidate_of req)).
    + destruct Hrc. by apply Hw.
Qed.

Definition password_write_law : Prop := ∀ p d m (e : E), (env_write p d m e).1.1 = 0 ↔ (env_write p d m e).1.2 = OPC_STORE_DURABLE.

(** The candidate is written on the spot. *)
Lemma set_password_sync req ip port seq s (e : E) tx :
  let n := opc_bounded_strnlen (sp_new_password req) 127 in
  password_write_law → store_async s = None → set_password_error s req n = None →
  let '(r, w1) := set_password_store req n ip port seq (mk_world s e tx) in
  ∃ v, r = Some v ∧ w_tx w1 = tx ∧ store_async (w_st w1) = None ∧ password_verdict req v (w_st w1).
Proof.
  intros n Hw Hsa Hacc. unfold set_password_store, persist_admit. turn. rewrite Hsa. turn. unfold persist_password, persist_blob. turn. rewrite Hsa. turn.
  specialize (Hw (p_password (paths s)) (take (Z.to_nat n) (sp_new_password req)) 384 e).
  destruct (env_write _ _ _ e) as [[rc o] e1]. cbn [fst snd] in Hw. turn. cbn [pr_deferred pr_outcome pr_rc].
  destruct (touch_run s e1 tx) as (s1 & e2 & -> & Hs1). turn.
  pose proof (note_outcome_noted s1 (candidate_of req) o e2 tx) as Hn. unfold password_note_outcome, mbind, M_bind, modify in Hn |- *. cbn [w_st w_env w_tx snd fst] in Hn |- *.
  fold (candidate_of req). eexists. split; [reflexivity|]. split; [reflexivity|]. split.
  { transitivity (store_async s1); [|by rewrite Hs1]. destruct o; cbn; [done| |done]. by destruct (strncmp_eq _ _ _). }
  replace (if negb (rc =? 0) then Some OPC_ERR_NVRAM else None) with (done_verdict rc) by (unfold done_verdict; by destruct (rc =? 0)).
  eapply (noted_verdict s1); [|done|exact Hn]. rewrite Hs1. exact Hacc.
Qed.
(** The completion of the writer's job. *)
Lemma on_done_password_run s o (e : E) tx : ∃ s', on_done_password o (mk_world s e tx) = (tt, mk_world s' e tx) ∧
  noted s (pending_password s) o s' ∧ store_async s' = store_async s ∧ pending_acks s' = pending_acks s ∧ udp_fd s' = udp_fd s.
Proof.
  unfold on_done_password, password_note_outcome. turn. destruct o; cbn; [| |].
  - eexists. split; [reflexivity|]. done.
  - destruct (strncmp_eq 127 (pending_password s) (password s)) eqn:Ec; (eexists; split; [reflexivity|]); (split; [|done]); (split; [done|]); done.
  - eexists. split; [reflexivity|]. done.
Qed.
(** The candidate goes to the writer, and the completion answers. *)
Lemma set_password_async req ip port seq s a (e : E) tx :
  let n := opc_bounded_strnlen (sp_new_password req) 127 in
  password_write_law → store_async s = Some a → idle a → acks_free s → 0 <= udp_fd s → set_password_error s req n = None →
  let '(r, w1) := set_password_store req n ip port seq (mk_world s e tx) in
  let w2 := (settle w1).2 in
  ∃ v, answered (opc_set_password_ack_pack OPC_FRAME_MAX seq) ip port r v (mk_world s e tx) w2 ∧ store_ready (w_st w2) ∧ password_verdict req v (w_st w2).
Proof.
  intros n Hw Ha Hi Hf Hfd Hacc. unfold set_password_store. turn.
  destruct (decide (job_fits (p_password (paths s)) n)) as [Hj|Hj].
  2: { rewrite (admit_unfit s a) by done. turn. set (s1 := s <| store_async := Some a |>). assert (Hs1 : store_async s1 = Some a) by reflexivity.
    destruct (settle_idle s1 a e tx Hs1 Hi) as (a' & -> & Hi'). exists (Some OPC_ERR_NVRAM). split; [done|]. split; [|done]. split; [done|]. split; done. }
  destruct (admit_idle s a e tx OPCD_PERSIST_PASSWORD (p_password (paths s)) n Ha Hi Hf Hj) as (a1 & -> & Hr). turn. unfold persist_password. turn.
  set (s1 := s <| store_async := Some a1 |>). assert (Hs1 : store_async s1 = Some a1) by reflexivity.
  set (data := take (Z.to_nat n) (sp_new_password req)).
  assert (Hn : 0 <= n) by (unfold n, opc_bounded_strnlen; lia).
  assert (Hd : len data <= n) by (unfold data, len; rewrite length_take; lia).
  destruct (blob_reserved s1 a1 e tx (p_password (paths s)) (p_password (paths s1)) n data 384 OPCD_PERSIST_PASSWORD false OPC_REQ_SET_PASSWORD ip port seq Hs1 Hr Hf Hd)
    as (a2 & -> & Hq). turn. cbn [pr_deferred].
  set (s2 := (s1 <| store_async := Some a2 |>) <| pending_acks := _ |>).
  destruct (touch_run s2 e tx) as (s3 & e3 & -> & Hs3). turn. change (write_at 0 data (zeros 128)) with (candidate_of req).
  set (s4 := s3 <| pending_password := candidate_of req |>). assert (Hs4 : store_async s4 = Some a2) by (change (store_async s3 = Some a2); by rewrite Hs3).
  pose proof (settle_queued s4 a2 e3 tx _ _ _ _ _ Hs4 Hq) as Hset. specialize (Hw (p_password (paths s)) data 384 e3).
  destruct (env_write _ _ _ e3) as [[rc o] e4]. cbn [fst snd] in Hw. destruct Hset as (a5 & Hi5 & ->). change (echo_write "" data 384 o e4) with e4.
  set (s5 := s4 <| store_async := Some a5 |>).
  destruct (on_done_password_run s5 o e4 tx) as (s6 & E6 & Hn6 & Hsa6 & Hpa6 & Hfd6).
  destruct Hf as (p & ps & Hp & Hp0 & Hps).
  assert (Hacks : pending_acks s6 = mk_pending_ack true false OPCD_PERSIST_PASSWORD OPC_REQ_SET_PASSWORD seq 0 ip port :: ps).
  { rewrite Hpa6. change (pending_acks s5) with (pending_acks s3). rewrite Hs3. change (pending_acks (s2 <| idle_deadline := idle_deadline s3 |>)) with (pending_acks s2).
    unfold s2. cbn. change (pending_acks s1) with (pending_acks s). by rewrite Hp. }
  assert (Hu6 : 0 <= udp_fd s6) by (rewrite Hfd6; change (udp_fd s5) with (udp_fd s3); by rewrite Hs3).
  rewrite (on_done_first s5 e4 tx (mk_pending_ack true false OPCD_PERSIST_PASSWORD OPC_REQ_SET_PASSWORD seq 0 ip port) rc o s6 e4); [|by rewrite <- Hpa6, Hacks|done|by vm_compute; left|unfold done_effect, mbind, M_bind; cbn [pa_resource]; by rewrite E6|done].
  cbn [pa_no_ack].
  exists (done_verdict rc). split; [reflexivity|]. split.
  - assert (Hst : store_async (free_first s6) = Some a5) by exact Hsa6. unfold store_ready. cbn [w_st snd]. rewrite Hst. split; [done|]. split; [|done].
    exists (mk_pending_ack false false OPCD_PERSIST_PASSWORD OPC_REQ_SET_PASSWORD seq 0 ip port), ps. unfold free_first. cbn. by rewrite Hacks.
  - eapply (noted_verdict s5); [|done|exact Hn6]. transitivity (set_password_error s3 req n); [done|]. rewrite Hs3. exact Hacc.
Qed.

(** C26: SetPassword, with a store whose write reports success exactly when it is durable,
    written on the spot or handed to a writer with nothing to do and followed through the
    worker's write and its completion: a request that passed the checks is always answered,
    by its handler or by the completion, once. Answered OK, the stored password is the
    requested one (127 characters at most) and not empty, so it is the password Login
    compares against. Answered with an error the cause is NVRAM, and the same request,
    re-sent, passes the checks again: also when the file was already replaced and the old
    password no longer matches the one in force. The writer is at rest again. *)
Theorem set_password_retry req ip port seq (w : world E) :
  let s := w_st w in let n := opc_bounded_strnlen (sp_new_password req) 127 in
  (∀ p d m (e : E), (env_write p d m e).1.1 = 0 ↔ (env_write p d m e).1.2 = OPC_STORE_DURABLE) →
  store_ready s → set_password_error s req n = None →
  let '(r, w1) := set_password_store req n ip port seq w in
  let w2 := (settle w1).2 in let s' := w_st w2 in
  ∃ v, answered (opc_set_password_ack_pack OPC_FRAME_MAX seq) ip port r v w w2 ∧ store_ready s' ∧
  match v with
  | None => cstr (password s') = take 127 (cstr (sp_new_password req)) ∧
            cstr (password s') ≠ [] ∧ password_unsynced s' = false
  | Some err => err = OPC_ERR_NVRAM ∧ set_password_error s' req n = None
  end.
Proof.
  destruct w as [s e tx]. cbn [w_st]. set (n := opc_bounded_strnlen _ _). intros Hw Hst Hacc. unfold store_ready in Hst. destruct (store_async s) as [a|] eqn:Ha.
  - destruct Hst as (Hi & Hf & Hu). exact (set_password_async req ip port seq s a e tx Hw Ha Hi Hf Hu Hacc).
  - pose proof (set_password_sync req ip port seq s e tx Hw Ha Hacc) as Hs. fold n in Hs. destruct (set_password_store _ _ _ _ _ _) as [r [s1 e1 tx1]].
    destruct Hs as (v & -> & Htx & Hn & Hv). cbn [w_st w_tx] in *. rewrite settle_none by done. exists v. split; [done|]. split; [|exact Hv].
    unfold store_ready. cbn [w_st snd]. by rewrite Hn.
Qed.
End PasswordTxn.

(** ** Witness *)

Definition demo_set_password : opc_set_password_req_t :=
  mk_set_password (write_at 0 OPC_PASSWORD_DEFAULT (zeros 128)) (write_at 0 (str "Other1") (zeros 128)) true true.
(** With the writer thread. *)
Definition demo_writer : opcd_state_t := demo_session <| store_async := Some opc_store_async_create |>.
Lemma demo_writer_ready : store_ready demo_writer.
Proof.
  split.
  - split; [done|]. exists job_zero. split; [|done]. split_and!; try (vm_compute; lia); try done. exists (replicate 15 job_zero). split; [done|]. split; [done|]. by apply Forall_replicate.
  - split; [|vm_compute; congruence]. exists pending_ack_zero, (replicate 15 pending_ack_zero). split; [done|]. split; [done|]. by apply Forall_replicate.
Qed.
Lemma set_password_retry_witness :
  let '(r, w1) := set_password_store demo_set_password 6 demo_client 5000 1 (demo_world demo_writer) in
  let w2 := (settle w1).2 in let s' := w_st w2 in
  r = None ∧
  ∃ v, answered (opc_set_password_ack_pack OPC_FRAME_MAX 1) demo_client 5000 r v (demo_world demo_writer) w2 ∧ store_ready s' ∧
  match v with
  | None => cstr (password s') = take 127 (cstr (sp_new_password demo_set_password)) ∧ cstr (password s') ≠ [] ∧ password_unsynced s' = false
  | Some err => err = OPC_ERR_NVRAM ∧ set_password_error s' demo_set_password 6 = None
  end.
Proof.
  pose proof (set_password_retry demo_set_password demo_client 5000 1 (demo_world demo_writer) ltac:(by vm_compute) demo_writer_ready ltac:(by vm_compute)) as Hp.
  change (opc_bounded_strnlen (sp_new_password demo_set_password) 127) with 6 in Hp.
  destruct (set_password_store demo_set_password 6 demo_client 5000 1 (demo_world demo_writer)) as [r w1] eqn:Er.
  split; [|exact Hp]. apply (f_equal fst) in Er. vm_compute in Er. congruence.
Defined.
End PasswordTxn.
Export PasswordTxn.
