(* ===== verification/RadioTxn.v ===== *)
(** * SetRadioConfig is all or nothing

    The transaction of a radio change: the marker, the platform apply, the write of
    radio.conf, and the revert that runs after the answer; written on the spot or by the
    writer thread, whose completion then ends it. *)
From S2P Require Import Prelude Codec ScanList Commands Indications Store StoreAsync IpListText FaultProbe State Indication Validate RadioConf Persist Handlers WriterTurn Daemon SimEnv PasswordTxn.
From stdpp Require Import base list numbers option tactics strings.
From Stdlib Require Import ZArith Lia.
#[local] Open Scope Z_scope.
Import Store.Store StoreAsync.StoreAsync IpListText.IpListText WriterTurn.

Module RadioTxn.

(** The radio configuration and the flags that go with it. *)
Definition radio_view (s : opcd_state_t) : opc_set_radio_config_req_t * bool * bool :=
  (radio s, radio_committed s, radio_revert_pending s).

Section RadioTxn.
Context {E : Type} `{Env E}.

(** ** Undoing a change *)

(** The radio is reported as degraded: nothing is known to be applied or committed. *)
Definition degraded (how : opcd_radio_recovery_state_t) (s : opcd_state_t) : Prop :=
  radio_recovery_state s = how ∧ radio_applied_known s = false ∧ radio_committed s = false ∧ radio_revert_pending s = false.
(** What an error answer leaves, of the state [s] before the request: the previous
    configuration in force with its commit status; the new one in force but uncommitted,
    when the file was replaced without being synced; or a radio reported as degraded, when
    the platform refused the previous configuration or none was known to go back to. *)
Definition radio_undone (s : opcd_state_t) (req : opc_set_radio_config_req_t) (s' : opcd_state_t) : Prop :=
  radio_view s' = (radio s, radio_committed s, false) ∨
  ((∃ e : E, (env_write (p_radio (paths s)) (radio_bytes req) 420 e).1.2 = OPC_STORE_REPLACED_UNSYNCED) ∧ radio_view s' = (req, false, false)) ∨
  ((∃ e : E, (apply_radio_config (radio s) e).1 ≠ 0) ∧ degraded OPCD_RADIO_RECOVERY_DEGRADED_RESTORE_FAILED s') ∨
  (radio_baseline_covers s req = false ∧ degraded OPCD_RADIO_RECOVERY_DEGRADED_UNKNOWN_BASELINE s').
(** What the revert after the answer will leave. *)
Definition drains_to (s : opcd_state_t) (req : opc_set_radio_config_req_t) (s1 : opcd_state_t) : Prop :=
  if radio_revert_pending s1 then radio_revert_cfg s1 = radio s ∧ radio_revert_committed s1 = radio_committed s
  else radio_undone s req s1.

Lemma drain_undone s req s1 (e : E) tx : drains_to s req s1 →
  ∃ s2 e2, opcd_radio_revert_drain (mk_world s1 e tx) = (tt, mk_world s2 e2 tx) ∧ radio_undone s req s2 ∧ store_part s2 = store_part s1.
Proof.
  unfold drains_to, opcd_radio_revert_drain. turn. destruct (radio_revert_pending s1) eqn:Hp; cbn [negb]; turn; [|intros Hu; by do 2 eexists].
  intros [Hc Hb]. destruct (apply_radio_config (radio_revert_cfg s1) e) as [rc e2] eqn:Ea. destruct (Z.eqb_spec rc 0) as [->|Hrc]; cbn [negb].
  - do 2 eexists. split; [reflexivity|]. split; [left|done]. unfold radio_view. cbn. by rewrite Hc, Hb.
  - do 2 eexists. split; [reflexivity|]. split; [right; right; left|done]. split; [exists e; rewrite <- Hc, Ea; exact Hrc|done].
Qed.
Lemma drain_quiet s (e : E) tx : radio_revert_pending s = false → opcd_radio_revert_drain (mk_world s e tx) = (tt, mk_world s e tx).
Proof. intros Hp. unfold opcd_radio_revert_drain. turn. by rewrite Hp. Qed.
(** Arming the revert to the configuration before the request. *)
Lemma arm_drains s req s1 (e : E) tx : radio_revert_pending s1 = false →
  ∃ s2, radio_arm_revert (radio s) (radio_committed s) (radio_baseline_covers s req) (mk_world s1 e tx) = (tt, mk_world s2 e tx) ∧
    drains_to s req s2 ∧ store_part s2 = store_part s1.
Proof.
  intros Hp. unfold radio_arm_revert. turn. eexists. split; [reflexivity|]. unfold drains_to. destruct (radio_baseline_covers s req) eqn:Hc; cbn [negb].
  - cbn. done.
  - cbn. rewrite Hp. split; [|done]. right. right. right. split; [done|]. by split_and!.
Qed.
Lemma touch_keeps s s' : s' = s <| idle_deadline := idle_deadline s' |> →
  radio_view s' = radio_view s ∧ store_part s' = store_part s ∧ (∀ s0 req, drains_to s0 req s → drains_to s0 req s') ∧
  paths s' = paths s ∧ radio_gen s' = radio_gen s.
Proof. intros ->. done. Qed.
Lemma arm_run s (e : E) tx req : ∃ rc e', radio_txn_arm req (mk_world s e tx) = (rc, mk_world s e' tx).
Proof.
  unfold radio_txn_arm. turn. destruct (p_radio_marker (paths s)) as [m|]; turn; [|by do 2 eexists].
  destruct (env_write m _ _ e) as [[rc o] e']. turn. by do 2 eexists.
Qed.
Lemma clear_run s (e : E) tx : ∃ e', radio_txn_clear (mk_world s e tx) = (tt, mk_world s e' tx).
Proof.
  unfold radio_txn_clear. turn. destruct (p_radio_marker (paths s)) as [m|]; turn; [|by eexists].
  destruct (env_unlink m e) as [ok e']. turn. by eexists.
Qed.

(** ** The request *)

(** The writer slot reserved for the request; none without a writer. *)
Definition held (s : opcd_state_t) (reservation : option nat) : Prop :=
  match reservation with
  | None => store_async s = None
  | Some i => i = 0%nat ∧ ∃ a, store_async s = Some a ∧ reserved a (p_radio (paths s)) "" RADIO_SIZE ∧ acks_free s ∧ 0 <= udp_fd s
  end.
Lemma release_run s reservation (e : E) tx : held s reservation →
  ∃ x, store_cancel reservation (mk_world s e tx) = (tt, mk_world (s <| store_async := x |>) e tx) ∧ store_ready (s <| store_async := x |>).
Proof.
  destruct reservation as [i|]; cbn [held].
  - intros (-> & a & Ha & Hr & Hf & Hu). destruct (cancel_run s a e tx _ _ _ Ha Hr) as (a' & -> & Hi). exists (Some a'). split; [done|]. by split_and!.
  - intros Hn. exists None. unfold store_cancel. turn. split; [|done]. rewrite <- Hn. by destruct s.
Qed.
(** The job waits for the writer; the configuration before the request is kept for the completion. *)
Definition waiting (s : opcd_state_t) (req : opc_set_radio_config_req_t) (ip port seq : Z) (s1 : opcd_state_t) : Prop :=
  radio_view s1 = (req, false, false) ∧
  (radio_revert_cfg s1, radio_revert_committed s1, radio_persist_baseline_valid s1) = (radio s, radio_committed s, radio_baseline_covers s req) ∧
  0 <= udp_fd s1 ∧
  (∃ a, store_async s1 = Some a ∧ queued a (p_radio (paths s)) "" (radio_bytes req) 420 0) ∧
  ∃ ps, Forall (λ p, pa_in_use p = false) ps ∧
    pending_acks s1 = mk_pending_ack true false OPCD_PERSIST_RADIO OPC_REQ_SET_RADIO_CONFIG seq (radio_gen s1) ip port :: ps.
Definition applied_state (s : opcd_state_t) (req : opc_set_radio_config_req_t) : opcd_state_t :=
  ((((s <| radio := req |>) <| radio_applied_known := true |>) <| radio_recovery_state := OPCD_RADIO_RECOVERY_HEALTHY |>)
     <| radio_gen := u32 (radio_gen s + 1) |>) <| radio_committed := false |>.
(** The stage of a request: refused with what the revert will leave, done, or waiting. *)
Definition radio_stage (s : opcd_state_t) (req : opc_set_radio_config_req_t) (ip port seq : Z) (r : option (option Z)) (s1 : opcd_state_t) : Prop :=
  match r with
  | None => waiting s req ip port seq s1
  | Some None => radio_view s1 = (req, true, false) ∧ store_ready s1
  | Some (Some err) => drains_to s req s1 ∧ store_ready s1
  end.
Lemma stage_touch s req ip port seq r s1 s2 : s2 = s1 <| idle_deadline := idle_deadline s2 |> → radio_stage s req ip port seq r s1 → radio_stage s req ip port seq r s2.
Proof. intros ->. by destruct r as [[err|]|]. Qed.
(** The write of radio.conf, and what its outcome leaves. *)
Lemma persist_radio_run s s0 req reservation ip port seq (e : E) tx :
  (∀ p d m (e : E), (env_write p d m e).1.1 = 0 ↔ (env_write p d m e).1.2 = OPC_STORE_DURABLE) →
  held s0 reservation → radio s0 = req → paths s0 = paths s →
  ∃ pr s2 e2, persist_radio ip port seq reservation (mk_world s0 e tx) = (pr, mk_world s2 e2 tx) ∧
    (if pr_deferred pr then pr_rc pr = 0 ∧ ∃ a p ps, Forall (λ p, pa_in_use p = false) ps ∧ pending_acks s0 = p :: ps ∧ queued a (p_radio (paths s)) "" (radio_bytes req) 420 0 ∧ 0 <= udp_fd s0 ∧
       s2 = (s0 <| store_async := Some a |>) <| pending_acks := mk_pending_ack true false OPCD_PERSIST_RADIO OPC_REQ_SET_RADIO_CONFIG seq 0 ip port :: ps |>
     else (∃ x, s2 = s0 <| store_async := x |>) ∧ store_ready s2 ∧
       (pr_rc pr ≠ 0 → pr_outcome pr = OPC_STORE_UNCHANGED ∨
          ∃ e : E, pr_outcome pr = OPC_STORE_REPLACED_UNSYNCED ∧ (env_write (p_radio (paths s)) (radio_bytes req) 420 e).1.2 = OPC_STORE_REPLACED_UNSYNCED)).
Proof.
  intros Hw Hh Hr Hp. unfold persist_radio. turn. rewrite Hr. destruct reservation as [i|]; cbn [held] in Hh.
  - destruct Hh as (-> & a & Ha & Hres & Hf & Hu). destruct (Z.le_gt_cases (len (radio_bytes req)) RADIO_SIZE) as [Hl|Hl].
    + destruct (blob_reserved s0 a e tx _ (p_radio (paths s0)) _ (radio_bytes req) 420 OPCD_PERSIST_RADIO false OPC_REQ_SET_RADIO_CONFIG ip port seq Ha Hres Hf Hl) as (a2 & -> & Hq).
      destruct Hf as (p & ps & Hps & Hp0 & Hfr). do 3 eexists. split; [reflexivity|]. cbn [pr_deferred pr_rc]. split; [done|]. rewrite Hp in Hq. exists a2, p, ps.
      split_and!; try done. rewrite Hps. done.
    + destruct (blob_oversize s0 a e tx _ (p_radio (paths s0)) _ (radio_bytes req) 420 OPCD_PERSIST_RADIO false OPC_REQ_SET_RADIO_CONFIG ip port seq Ha Hres Hf Hl) as (a2 & -> & Hi).
      do 3 eexists. split; [reflexivity|]. cbn [pr_deferred pr_rc pr_outcome]. split; [by eexists|]. split; [by split_and!|]. intros _. by left.
  - unfold persist_blob. turn. rewrite Hh. turn. specialize (Hw (p_radio (paths s0)) (radio_bytes req) 420 e).
    destruct (env_write _ _ _ e) as [[rc o] e2] eqn:Ew. do 3 eexists. split; [reflexivity|]. cbn [pr_deferred pr_rc pr_outcome fst snd] in *.
    split; [exists None; rewrite <- Hh; by destruct s0|]. split; [unfold store_ready; by rewrite Hh|]. intros Hrc. destruct o; [by left|right|by destruct Hrc; apply Hw].
    exists e. rewrite <- Hp, Ew. done.
Qed.
Lemma radio_apply_run s req reservation ip port seq (e : E) tx :
  (∀ p d m (e : E), (env_write p d m e).1.1 = 0 ↔ (env_write p d m e).1.2 = OPC_STORE_DURABLE) →
  held s reservation → radio_revert_pending s = false →
  let '(r, w1) := set_radio_apply req reservation ip port seq (mk_world s e tx) in
  w_tx w1 = tx ∧ radio_stage s req ip port seq r (w_st w1).
Proof.
  intros Hw Hh Hp. unfold set_radio_apply. turn. destruct (arm_run s e tx req) as (arc & e1 & ->). turn.
  destruct (release_run s reservation e1 tx Hh) as (x & Hc & Hrdy).
  assert (H0 : drains_to s req (s <| store_async := x |>)) by (unfold drains_to; cbn; rewrite Hp; left; unfold radio_view; cbn; by rewrite Hp).
  destruct (negb (arc =? 0)); turn.
  { rewrite Hc. turn. destruct (touch_run (s <| store_async := x |>) e1 tx) as (s2 & e2 & -> & Hs2). split; [done|].
    eapply stage_touch; [exact Hs2|]. by split. }
  destruct (apply_radio_config req e1) as [rc e2]. destruct (negb (rc =? 0)); turn.
  { destruct (release_run s reservation e2 tx Hh) as (y & -> & Hrdy'). turn.
    assert (H0' : drains_to s req (s <| store_async := y |>)) by (unfold drains_to; cbn; rewrite Hp; left; unfold radio_view; cbn; by rewrite Hp).
    assert (Hpy : radio_revert_pending (s <| store_async := y |>) = false) by exact Hp.
    destruct (radio_cfg_differs req (radio s)); turn.
    - destruct (arm_drains s req (s <| store_async := y |>) e2 tx Hpy) as (s3 & -> & Hd & Hst). turn.
      destruct (touch_run s3 e2 tx) as (s4 & e4 & -> & Hs4). split; [done|]. eapply stage_touch; [exact Hs4|]. split; [exact Hd|]. by eapply store_part_ready.
    - destruct (touch_run (s <| store_async := y |>) e2 tx) as (s4 & e4 & -> & Hs4). split; [done|]. eapply stage_touch; [exact Hs4|]. by split. }
  fold (applied_state s req). set (s0 := applied_state s req).
  assert (Hh0 : held s0 reservation) by (by destruct reservation). assert (Hr0 : radio s0 = req) by reflexivity. assert (Hp0 : paths s0 = paths s) by reflexivity.
  destruct (persist_radio_run s s0 req reservation ip port seq e2 tx Hw Hh0 Hr0 Hp0) as (pr & s2 & e3 & -> & Hpr). turn.
  destruct (pr_deferred pr).
  - destruct Hpr as (Hrc & a & p & ps & Hf & Hps & Hq & Hu & Hs2). rewrite Hrc. change (0 =? 0) with true. cbn [negb]. turn.
    assert (Hslot : pending_slot_for s2 OPC_REQ_SET_RADIO_CONFIG ip port = Some 0%nat).
    { rewrite Hs2. unfold pending_slot_for. cbn. by rewrite decide_True. }
    rewrite Hslot. set (s3 := ((_ <| radio_revert_cfg := _ |>) <| radio_revert_committed := _ |>) <| radio_persist_baseline_valid := _ |>).
    destruct (touch_run s3 e3 tx) as (s4 & e4 & -> & Hs4). split; [done|]. eapply stage_touch; [exact Hs4|]. unfold s3. rewrite Hs2. split_and!.
    + unfold radio_view. cbn. by rewrite Hp.
    + done.
    + exact Hu.
    + by exists a.
    + by exists ps.
  - destruct Hpr as ((x2 & Hs2) & Hrdy2 & Hfail). destruct (Z.eqb_spec (pr_rc pr) 0) as [Hrc|Hrc]; cbn [negb]; turn.
    + destruct (clear_run (s2 <| radio_committed := true |>) e3 tx) as (e4 & ->). turn.
      destruct (touch_run (s2 <| radio_committed := true |>) e4 tx) as (s4 & e5 & -> & Hs4). split; [done|]. eapply stage_touch; [exact Hs4|].
      split; [|exact Hrdy2]. rewrite Hs2. unfold radio_view. cbn. by rewrite Hp.
    + assert (Hp2 : radio_revert_pending s2 = false) by (by rewrite Hs2).
      destruct (Hfail Hrc) as [Ho|(ew & Ho & Hew)]; rewrite Ho.
      * rewrite bool_decide_eq_true_2 by done. destruct (arm_drains s req s2 e3 tx Hp2) as (s3 & -> & Hd & Hst). turn.
        destruct (touch_run s3 e3 tx) as (s4 & e4 & -> & Hs4). split; [done|]. eapply stage_touch; [exact Hs4|]. split; [exact Hd|]. by eapply store_part_ready.
      * rewrite bool_decide_eq_false_2 by done. turn. destruct (touch_run s2 e3 tx) as (s4 & e4 & -> & Hs4). split; [done|]. eapply stage_touch; [exact Hs4|].
        split; [|exact Hrdy2]. unfold drains_to. rewrite Hp2. right. left. split; [by exists ew|]. rewrite Hs2. unfold radio_view. cbn. by rewrite Hp.
Qed.

(** ** The completion and the whole transaction *)

(** What an answer means for the radio. *)
Definition radio_verdict (s : opcd_state_t) (req : opc_set_radio_config_req_t) (v : option Z) (s' : opcd_state_t) : Prop :=
  match v with None => radio_view s' = (req, true, false) | Some _ => radio_undone s req s' end.
Lemma radio_completion s req s5 (e : E) tx rc o :
  radio_view s5 = (req, false, false) →
  (radio_revert_cfg s5, radio_revert_committed s5, radio_persist_baseline_valid s5) = (radio s, radio_committed s, radio_baseline_covers s req) →
  (rc = 0 ↔ o = OPC_STORE_DURABLE) →
  (o = OPC_STORE_REPLACED_UNSYNCED → ∃ e : E, (env_write (p_radio (paths s)) (radio_bytes req) 420 e).1.2 = OPC_STORE_REPLACED_UNSYNCED) →
  ∃ s6 e6, on_done_radio (radio_gen s5) o (mk_world s5 e tx) = (tt, mk_world s6 e6 tx) ∧ store_part s6 = store_part s5 ∧
    radio_verdict s req (done_verdict rc) s6.
Proof.
  intros Hv Hb Hw Hu. unfold radio_view in Hv. injection Hv as Hr Hc Hp. injection Hb as Hb1 Hb2 Hb3. unfold on_done_radio. turn. rewrite Z.eqb_refl.
  destruct o.
  - turn. rewrite Hb1, Hb2, Hb3. set (s1 := s5 <| radio_committed := false |>). assert (Hp1 : radio_revert_pending s1 = false) by exact Hp.
    destruct (arm_drains s req s1 e tx Hp1) as (s2 & -> & Hd & Hst). turn. destruct (drain_undone s req s2 e tx Hd) as (s3 & e3 & -> & Hun & Hst3). turn.
    do 2 eexists. split; [reflexivity|]. split; [transitivity (store_part s3); [done|]; rewrite Hst3, Hst; done|].
    unfold done_verdict. destruct (Z.eqb_spec rc 0) as [Hrc|Hrc]; [by apply Hw in Hrc|]. exact Hun.
  - turn. do 2 eexists. split; [reflexivity|]. split; [done|].
    unfold done_verdict. destruct (Z.eqb_spec rc 0) as [Hrc|Hrc]; [by apply Hw in Hrc|]. right. left. split; [by apply Hu|]. unfold radio_view. cbn. by rewrite Hr, Hp.
  - turn. destruct (clear_run (s5 <| radio_committed := true |>) e tx) as (e2 & ->). turn. do 2 eexists. split; [reflexivity|]. split; [done|].
    unfold done_verdict. rewrite (proj2 (Z.eqb_eq rc 0)) by (by apply Hw). unfold radio_verdict, radio_view. cbn. by rewrite Hr, Hp.
Qed.
Lemma waiting_settles s req ip port seq s1 (e : E) tx :
  (∀ p d m (e : E), (env_write p d m e).1.1 = 0 ↔ (env_write p d m e).1.2 = OPC_STORE_DURABLE) →
  waiting s req ip port seq s1 →
  let w2 := (settle (mk_world s1 e tx)).2 in
  ∃ v, w_tx w2 = tx ++ [mk_datagram ip port (emit_ack (opc_set_radio_config_ack_pack OPC_FRAME_MAX seq (verdict v)))] ∧
    store_ready (w_st w2) ∧ radio_verdict s req v (w_st w2).
Proof.
  intros Hw (Hv & Hb & Hu & (a & Ha & Hq) & (ps & Hf & Hps)). pose proof (settle_queued s1 a e tx _ _ _ _ _ Ha Hq) as Hset.
  specialize (Hw (p_radio (paths s)) (radio_bytes req) 420 e). destruct (env_write _ _ _ e) as [[rc o] e1] eqn:Ew. cbn [fst snd] in Hw.
  destruct Hset as (a5 & Hi5 & ->). change (echo_write "" (radio_bytes req) 420 o e1) with e1. set (s5 := s1 <| store_async := Some a5 |>). set (pa := mk_pending_ack _ _ _ _ _ _ _ _) in Hps.
  assert (Hv5 : radio_view s5 = (req, false, false)) by exact Hv.
  assert (Hrep : o = OPC_STORE_REPLACED_UNSYNCED → ∃ e : E, (env_write (p_radio (paths s)) (radio_bytes req) 420 e).1.2 = OPC_STORE_REPLACED_UNSYNCED)
    by (intros ->; exists e; by rewrite Ew).
  destruct (radio_completion s req s5 e1 tx rc o Hv5 Hb Hw Hrep) as (s6 & e6 & Er & Hst & Hver).
  assert (Hst6 : (store_async s6, pending_acks s6, udp_fd s6) = (Some a5, pa :: ps, udp_fd s1)) by (fold (store_part s6); rewrite Hst; unfold store_part; by rewrite <- Hps).
  injection Hst6 as Ha6 Hp6 Hu6.
  rewrite (on_done_first s5 e1 tx pa rc o s6 e6); [|change (pending_acks s5) with (pending_acks s1); by rewrite Hps|done|by vm_compute; right; right; left
    |unfold done_effect, mbind, M_bind; cbn [pa_resource pa]; exact Er|by rewrite Hu6].
  cbn [pa_no_ack].
  cbn [w_tx w_st snd]. exists (done_verdict rc). split; [reflexivity|]. split; [|exact Hver].
  unfold store_ready. change (store_async (free_first s6)) with (store_async s6). rewrite Ha6. split; [done|]. split; [|change (0 <= udp_fd s6); by rewrite Hu6].
  exists (pa <| pa_in_use := false |>), ps. unfold free_first. cbn. by rewrite Hp6.
Qed.

End RadioTxn.

(** ** Witness *)

Definition demo_next : opc_set_radio_config_req_t :=
  mk_radio_config OPC_STATION_SINGLE 0 (mk_radio_cfg OPC_WLAN_MODE_11AC OPC_BANDWIDTH_20 OPC_SCAN_BAND_5GHZ [0;0;0;3;0;0;0;0])
    (mk_radio_cfg 0 0 0 (zeros 8)).
Definition demo_tuned : opcd_state_t :=
  ((demo_session <| radio := demo_radio |>) <| radio_committed := true |>) <| radio_applied_known := true |>.

(** With the writer thread. *)
Definition demo_tuned_writer : opcd_state_t := demo_tuned <| store_async := Some opc_store_async_create |>.
End RadioTxn.
Export RadioTxn.
