(* ===== verification/IpListBoot.v ===== *)
(** * The IP address list across restarts

    The loading code of [IpListLoad] run against a disk: files with modification times,
    paths that cannot be read or opened, and a store whose writes and renames may fail.
    What the customer's file does at a start, that a start settles (the next one finds the
    same list), and that a list set by a client survives a restart. *)
From S2P Require Import Prelude Codec ScanList Commands Indications Store StoreAsync IpListText FaultProbe State Indication Validate RadioConf Persist Handlers Daemon IpListLoad SimEnv.
From stdpp Require Import base list numbers option tactics strings gmap.
From Stdlib Require Import ZArith Lia.
#[local] Open Scope Z_scope.
Import Store.Store StoreAsync.StoreAsync IpListText.IpListText FaultProbe.FaultProbe Validate.Validate RadioConf.RadioConf.

Module IpListBoot.

(** ** The disk *)

(** A path holds a regular file, a symbolic link to one, something whose contents cannot
    be read (a directory, a file without permission), or something [stat] fails on. *)
Inductive node :=
  | NFile (b : list Z) (mtime : Z * Z)
  | NLink (b : list Z) (mtime : Z * Z)
  | NUnreadable (size : Z) (mtime : Z * Z)
  | NBroken.

Record disk := mk_disk {
  d_files : gmap string node;
  d_now : Z * Z;                                (* the modification time a write gets *)
  d_write : string → opc_store_outcome_t;       (* how a write to the path ends *)
  d_rename : bool }.                            (* whether renames succeed *)
#[global] Instance eta_disk : Eta disk := λ d, mk_disk (d_files d) (d_now d) (d_write d) (d_rename d).

Definition disk_stat (p : string) (d : disk) : stat_result :=
  match d_files d !! p with
  | None => StatNoent
  | Some (NFile b m) | Some (NLink b m) => StatOk (len b) m
  | Some (NUnreadable n m) => StatOk n m
  | Some NBroken => StatFail
  end.
Definition disk_read (p : string) (cap : Z) (d : disk) : option (list Z) :=
  match d_files d !! p with
  | Some (NFile b _) | Some (NLink b _) => Some (take (Z.to_nat cap) b)
  | _ => None
  end.
Definition disk_put (p : string) (b : list Z) (d : disk) : disk :=
  d <| d_files := <[p := NFile b (d_now d)]> (d_files d) |>.
Definition disk_write (p : string) (b : list Z) (d : disk) : (Z * opc_store_outcome_t) * disk :=
  match d_write d p with
  | OPC_STORE_UNCHANGED => ((-1, OPC_STORE_UNCHANGED), d)
  | OPC_STORE_REPLACED_UNSYNCED => ((-1, OPC_STORE_REPLACED_UNSYNCED), disk_put p b d)
  | OPC_STORE_DURABLE => ((0, OPC_STORE_DURABLE), disk_put p b d)
  end.
Definition disk_rename (a b : string) (d : disk) : bool * disk :=
  match d_files d !! a with
  | Some n => if d_rename d then (true, d <| d_files := <[b := n]> (delete a (d_files d)) |>)
              else (false, d)
  | None => (false, d)
  end.
Definition disk_open (p : string) (d : disk) : open_result :=
  match d_files d !! p with
  | None => OpenNoent
  | Some (NFile b _) => OpenFd true [RdBytes b]
  | Some (NUnreadable _ _) => OpenFd false []
  | Some (NLink _ _) | Some NBroken => OpenFail
  end.

#[export] Instance disk_env : Env disk := {|
  env_mono e := (0, e);
  env_timestamp e := (zeros 32, e);
  env_sendto _ _ _ e := (true, e);
  env_readings _ e := (sim_readings, e);
  env_write p b _ e := disk_write p b e;
  env_read p cap e := (disk_read p cap e, e);
  env_unlink p e := (true, e <| d_files := delete p (d_files e) |>);
  env_stat p e := (disk_stat p e, e);
  env_rename a b e := disk_rename a b e;
  env_open_user p e := (disk_open p e, e);
  lookup_direct_route _ e := (None, e);
  get_dev_ipv4 _ e := ((-1, (0, 0, 0)), e);
  get_link _ e := (None, e);
  get_eth_mac e := (zeros 6, e);
  get_wlan_mac _ e := (zeros 6, e);
  get_essid _ e := (zeros 32, e);
  get_firmware_version e := (zeros 32, e);
  get_ntp_server e := (0, e);
  validate_radio_config _ _ := CapOk;
  apply_radio_config _ e := (0, e);
  apply_ip_change _ _ _ e := (0, e);
  peer_route_refresh _ _ e := (0, e);
  opcd_inventory _ := sim_inventory;
  opcd_devinfo_cfg_read _ e := ((0, 0), e);
  opcd_snapshot_publish _ e := (tt, e);
  refresh_firmware_version _ e := (tt, e);
  prepare_reset e := (0, e);
  opcd_systemd_watchdog e := (0, e);
  opcd_system_stopping e := (0, e);
  opcd_reset_cause_read e := (0, e) |}.

Abbreviation OWN := "/usr/local/opc/etc/iplist.txt"%string.
Abbreviation USER := "/home/admin/iplist.txt"%string.
Abbreviation LAST := "/usr/local/opc/etc/iplist.user.last"%string.
Abbreviation LEGACY := "/usr/local/opc/etc/iplist.cfg"%string.
Abbreviation MIGRATED := "/usr/local/opc/etc/iplist.cfg.migrated"%string.
Abbreviation REJECTED := "/home/admin/iplist.txt.rejected"%string.

(** A start on the disk, with the default paths: the results of the load, the list in
    effect and the disk it leaves. *)
Definition boot (d : disk) : opcd_iplist_user_t * opcd_iplist_load_t * opcd_ip_list_t * disk :=
  let '(r, w) := opcd_iplist_load (mk_world state_set_defaults d []) in
  (r.1, r.2, ip_list (w_st w), w_env w).
Definition boot_list (d : disk) : opcd_ip_list_t := (boot d).1.2.
Definition boot_disk (d : disk) : disk := (boot d).2.
Definition boot_user (d : disk) : opcd_iplist_user_t := (boot d).1.1.1.

(** What the daemon's own files say before the customer's is looked at. *)
Definition own_boot (d : disk) : opcd_iplist_load_t * opcd_ip_list_t * disk :=
  let '(lr, w) := iplist_load_own (mk_world state_set_defaults d []) in
  (lr, ip_list (w_st w), w_env w).
Definition own_result (d : disk) : opcd_iplist_load_t := (own_boot d).1.1.
Definition own_list (d : disk) : opcd_ip_list_t := (own_boot d).1.2.
Definition own_disk (d : disk) : disk := (own_boot d).2.

(** Unfolds the monad. *)
Ltac run :=
  cbv beta iota zeta delta [mbind M_bind mret M_ret get modify query call whenM];
  cbn [w_st w_env w_tx fst snd env_write env_read env_stat env_rename env_open_user disk_env].

(** The own text, read leniently. *)
Definition text_result (d : disk) : opcd_iplist_load_t * opcd_ip_list_t :=
  match disk_read OWN (OPC_IPLIST_TEXT_MAX + 1) d with
  | None => (OPCD_IPLIST_LOAD_ERROR, ip_list_zero)
  | Some b => if OPC_IPLIST_TEXT_MAX <? len b then (OPCD_IPLIST_LOAD_TOO_LARGE, ip_list_zero)
              else (OPCD_IPLIST_LOAD_TEXT, default ip_list_zero (iplist_from_text b false))
  end.
Lemma load_text_run s d tx :
  paths s = default_paths → ip_list s = ip_list_zero →
  iplist_load_text (mk_world s d tx)
  = ((text_result d).1, mk_world (s <| ip_list := (text_result d).2 |>) d tx).
Proof.
  intros Hp Hl. unfold iplist_load_text. run. rewrite Hp. cbn [p_ip_list default_paths].
  unfold text_result. destruct (disk_read _ _ _); run; [case_match; run|]; cbn [fst snd]; try done.
  all: rewrite <- Hl; by destruct s.
Qed.
Definition retired (d : disk) : disk := (disk_rename LEGACY MIGRATED d).2.
Lemma retire_run (s : opcd_state_t) d tx : iplist_retire_legacy LEGACY (mk_world s d tx) = (tt, mk_world s (retired d) tx).
Proof.
  unfold iplist_retire_legacy. change (suffixed LEGACY ".migrated") with (Some MIGRATED). run.
  unfold retired. by destruct (disk_rename _ _ _).
Qed.
Lemma write_run (s : opcd_state_t) d tx p l skip :
  list_valid l →
  iplist_write p l skip (mk_world s d tx)
  = if skip && bool_decide (disk_read p (OPC_IPLIST_TEXT_MAX + 1) d = Some (list_text l))
    then (0, mk_world s d tx)
    else ((disk_write p (list_text l) d).1.1, mk_world s (disk_write p (list_text l) d).2 tx).
Proof.
  intros Hv. unfold iplist_write. destruct (list_text_read l Hv) as (-> & _ & _).
  destruct skip; run; [case_match; run; [done|]|]; by destruct (disk_write p (list_text l) d) as [[rc o] d'].
Qed.
Definition convert_result (d : disk) : opcd_iplist_load_t * opcd_ip_list_t * disk :=
  match disk_read LEGACY (IP_LIST_SIZE + 1) d with
  | None => (OPCD_IPLIST_LOAD_NONE, ip_list_zero, d)
  | Some b =>
      if len b =? IP_LIST_SIZE then
        let '((rc, _), d') := disk_write OWN (list_text (legacy_list b)) d in
        if rc =? 0 then (OPCD_IPLIST_LOAD_MIGRATED, legacy_list b, retired d')
        else (OPCD_IPLIST_LOAD_LEGACY_UNSAVED, legacy_list b, d')
      else (OPCD_IPLIST_LOAD_LEGACY_DISCARD, ip_list_zero, d)
  end.
(** The binary list, if there is one, is a file of bytes. *)
Definition disk_bytes (d : disk) : Prop :=
  match d_files d !! LEGACY with Some (NFile b _) | Some (NLink b _) => bytes_ok b | _ => True end.
#[global] Instance disk_bytes_dec d : Decision (disk_bytes d).
Proof. unfold disk_bytes. repeat case_match; apply _. Defined.
Lemma legacy_read_bytes cap d b : disk_bytes d → disk_read LEGACY cap d = Some b → bytes_ok b.
Proof.
  unfold disk_bytes, disk_read. intros Hd.
  destruct (d_files d !! LEGACY) as [[]|]; intros; simplify_eq; by apply Forall_take.
Qed.
Lemma convert_run s d tx :
  disk_bytes d → paths s = default_paths →
  iplist_convert_legacy LEGACY (mk_world s d tx)
  = ((convert_result d).1.1, mk_world (s <| ip_list := (convert_result d).1.2 |>) (convert_result d).2 tx).
Proof.
  intros Hd Hp. unfold iplist_convert_legacy, convert_result. run.
  change (paths (s <| ip_list := ip_list_zero |>)) with (paths s). rewrite Hp. cbn [p_ip_list default_paths].
  destruct (disk_read LEGACY _ d) as [b|] eqn:Hb; run; [|done].
  destruct (len b =? IP_LIST_SIZE) eqn:Hl; cbn [negb]; run; [|done]. guards.
  assert (Hv : list_valid (legacy_list b)) by (apply legacy_list_valid; [by eapply legacy_read_bytes|done]).
  rewrite write_run by done. cbn [andb].
  destruct (disk_write OWN _ d) as [[rc o] d']. cbn [fst snd]. destruct (rc =? 0); cbn [negb]; run; [|done].
  by rewrite retire_run.
Qed.

Definition own_view (d : disk) : opcd_iplist_load_t * opcd_ip_list_t * disk :=
  match disk_stat OWN d, disk_stat LEGACY d with
  | StatOk _ m, StatOk size lm =>
      if (size =? IP_LIST_SIZE) && mtime_after lm m then
        let c := convert_result d in
        if bool_decide (c.1.1 = OPCD_IPLIST_LOAD_MIGRATED ∨ c.1.1 = OPCD_IPLIST_LOAD_LEGACY_UNSAVED)
        then c else (text_result c.2, c.2)
      else (text_result (retired d), retired d)
  | StatOk _ _, _ => (text_result d, d)
  | StatFail, _ => (OPCD_IPLIST_LOAD_ERROR, ip_list_zero, d)
  | StatNoent, _ => convert_result d
  end.
Lemma load_own_run s d tx :
  disk_bytes d → paths s = default_paths →
  iplist_load_own (mk_world s d tx)
  = ((own_view d).1.1, mk_world (s <| ip_list := (own_view d).1.2 |>) (own_view d).2 tx).
Proof.
  intros Hd Hp. unfold iplist_load_own, own_view. run.
  change (paths (s <| ip_list := ip_list_zero |>)) with (paths s). rewrite Hp.
  cbn [p_ip_list p_ip_list_legacy default_paths].
  destruct (disk_stat OWN d); run; [|by rewrite convert_run|done].
  destruct (disk_stat LEGACY d); run; [|by rewrite load_text_run..].
  case_match; run; [rewrite convert_run by done; run; case_match; run; [done|] | rewrite retire_run; run];
    by rewrite load_text_run.
Qed.
Lemma own_boot_view d : disk_bytes d → own_boot d = own_view d.
Proof. intros Hd. unfold own_boot. rewrite load_own_run by done. cbn. by destruct (own_view d) as [[? ?] ?]. Qed.

(** *** The customer's file *)

(** The list shown in the customer's file, and recorded once it shows. *)
Definition shown (l : opcd_ip_list_t) (d : disk) : disk :=
  let '((_, o), d') := disk_write USER (list_text l) d in
  if bool_decide (o ≠ OPC_STORE_UNCHANGED) then (disk_write LAST (list_text l) d').2 else d'.
Lemma write_user_run s d tx :
  list_valid (ip_list s) → paths s = default_paths →
  ∃ rc, iplist_write_user (mk_world s d tx) = (rc, mk_world s (shown (ip_list s) d) tx).
Proof.
  intros Hv Hp. unfold iplist_write_user. run. destruct (list_text_read _ Hv) as (-> & _ & _).
  rewrite Hp. cbn [p_ip_list_user p_ip_list_user_last default_paths]. run. unfold shown.
  destruct (disk_write USER _ d) as [[rc o] d']. exists rc. run.
  destruct (bool_decide (o ≠ OPC_STORE_UNCHANGED)); run; [|done].
  by destruct (disk_write LAST _ d') as [[? ?] ?].
Qed.

Definition user_view (d : disk) : user_file :=
  match d_files d !! USER with
  | None => UserAbsent
  | Some (NFile b _) => if OPC_IPLIST_IMPORT_MAX <? len b then UserTooLarge else UserRead b
  | Some _ => UserUnusable
  end.
Lemma read_user_run (s : opcd_state_t) d tx :
  iplist_read_user USER (OPC_IPLIST_IMPORT_MAX + 1) (mk_world s d tx) = (user_view d, mk_world s d tx).
Proof.
  unfold iplist_read_user, user_view. run. unfold disk_open. f_equal.
  destruct (d_files d !! USER) as [[b m| | |]|]; try done. cbn [user_read_loop length].
  set (cap := Z.to_nat (OPC_IPLIST_IMPORT_MAX + 1)). rewrite Nat.sub_0_r.
  assert (Hcap : Z.of_nat cap = 65537) by (unfold cap; by rewrite Z2Nat.id). clearbody cap.
  assert (Ht : len (take cap b) = Z.min 65537 (len b)) by (unfold len; rewrite length_take; lia).
  assert (Heq : len b <= 65536 → take cap b = b) by (intros; apply take_ge; unfold len in *; lia).
  unfold OPC_IPLIST_IMPORT_MAX in *. cbn [app].
  destruct (length (take cap b) =? 0)%nat eqn:E0.
  { apply Nat.eqb_eq in E0. rewrite length_take in E0. destruct b; [done|]. cbn [length] in E0. lia. }
  assert (H1 : (65536 <? len (take cap b)) = (65536 <? len b)) by (apply eq_bool_prop_intro; rewrite !Is_true_true, !Z.ltb_lt; lia).
  destruct (length (take cap b) =? cap)%nat; cbn [user_read_loop]; rewrite H1; destruct (65536 <? len b) eqn:E; guards; try done; by rewrite Heq by lia.
Qed.
Definition unreplaced (b : list Z) (d : disk) : bool :=
  bool_decide (disk_read LAST (OPC_IPLIST_IMPORT_MAX + 1) d = Some b).

(** The disk after a valid customer file is applied. *)
Definition applied (l : opcd_ip_list_t) (b : list Z) (d : disk) : disk :=
  if bool_decide (disk_read OWN (OPC_IPLIST_TEXT_MAX + 1) d = Some (list_text l))
  then (disk_write LAST b d).2
  else let '((rc, _), d') := disk_write OWN (list_text l) d in
       if rc =? 0 then (disk_write LAST b d').2 else d'.
Definition rejected (l : opcd_ip_list_t) (d : disk) : disk := shown l (disk_rename USER REJECTED d).2.
Definition take_view (lr : opcd_iplist_load_t) (l0 : opcd_ip_list_t) (b : list Z) (l : opcd_ip_list_t)
    (d : disk) : opcd_iplist_user_t * opcd_ip_list_t * disk :=
  if own_read lr && unreplaced b d
  then (OPCD_IPLIST_USER_KEPT, l0, if iplist_same l l0 then d else shown l0 d)
  else (OPCD_IPLIST_USER_APPLIED, l, applied l b d).
Lemma take_user_run s d tx lr b l :
  list_valid (ip_list s) → list_valid l → paths s = default_paths →
  let v := take_view lr (ip_list s) b l d in
  iplist_take_user lr b l (mk_world s d tx) = (v.1.1, mk_world (s <| ip_list := v.1.2 |>) v.2 tx).
Proof.
  intros Hv Hl Hp. unfold iplist_take_user, take_view, iplist_user_unreplaced, unreplaced, applied.
  assert (Hs : s = s <| ip_list := ip_list s |>) by (by destruct s).
  destruct (own_read lr); run; rewrite ?Hp; cbn [p_ip_list p_ip_list_user_last default_paths andb]; run.
  1: destruct (bool_decide (disk_read LAST _ d = Some b)); run.
  1: { destruct (iplist_same l (ip_list s)); cbn [negb]; run; [by rewrite Hs at 1|].
       destruct (write_user_run s d tx) as [rc ->]; [done..|]. run. by rewrite Hs at 1. }
  all: rewrite ?Hp; cbn [p_ip_list p_ip_list_user_last default_paths]; rewrite write_run by done; cbn [andb].
  all: destruct (bool_decide (disk_read OWN _ d = Some _)); run; [cbn [Z.eqb]; run;
     by destruct (disk_write LAST b d) as [[? ?] ?]|].
  all: destruct (disk_write OWN _ d) as [[rc o] d']; cbn [fst snd]; destruct (rc =? 0); run; [|done].
  all: by destruct (disk_write LAST b d') as [[? ?] ?].
Qed.
Lemma reject_user_run s d tx :
  list_valid (ip_list s) → paths s = default_paths →
  iplist_reject_user USER (mk_world s d tx) = (OPCD_IPLIST_USER_REJECTED, mk_world s (rejected (ip_list s) d) tx).
Proof.
  intros Hv Hp. unfold iplist_reject_user, rejected. change (suffixed USER ".rejected") with (Some REJECTED).
  run. destruct (disk_rename USER REJECTED d) as [ok d']. run.
  destruct (write_user_run s d' tx) as [rc ->]; [done..|]. by run.
Qed.

(** *** A start, as a function of the disk *)

Definition boot_view (d : disk) : opcd_iplist_user_t * opcd_iplist_load_t * opcd_ip_list_t * disk :=
  let '(lr, l0, d0) := own_view d in
  match user_view d0 with
  | UserAbsent => (OPCD_IPLIST_USER_CREATED, lr, l0, shown l0 d0)
  | UserUnusable => (OPCD_IPLIST_USER_UNUSABLE, lr, l0, d0)
  | UserTooLarge => (OPCD_IPLIST_USER_REJECTED, lr, l0, rejected l0 d0)
  | UserRead b =>
      match iplist_from_text b true with
      | Some l => let v := take_view lr l0 b l d0 in (v.1.1, lr, v.1.2, v.2)
      | None => (OPCD_IPLIST_USER_REJECTED, lr, l0, rejected l0 d0)
      end
  end.

Lemma zero_valid : list_valid ip_list_zero.
Proof.
  split_and!; try done. intros i e p He Hq. left.
  apply lookup_replicate in He as [-> _]. by apply lookup_replicate in Hq as [-> _].
Qed.
Lemma from_text_valid b strict l : iplist_from_text b strict = Some l → list_valid l.
Proof. intros H. by apply iplist_from_text_canonical, canonical_valid in H as [? _]. Qed.
Lemma text_result_valid d : list_valid (text_result d).2.
Proof.
  unfold text_result. destruct (disk_read _ _ d) as [b|]; [|apply zero_valid].
  case_match; [apply zero_valid|]. cbn [snd]. destruct (iplist_from_text_lenient b) as [l Hl].
  rewrite Hl. by eapply from_text_valid.
Qed.
Lemma convert_result_valid d : disk_bytes d → list_valid (convert_result d).1.2.
Proof.
  intros Hd. unfold convert_result. destruct (disk_read LEGACY _ d) as [b|] eqn:Hb; [|apply zero_valid].
  destruct (len b =? IP_LIST_SIZE) eqn:Hl; [|apply zero_valid]. guards.
  destruct (disk_write _ _ _) as [[rc o] d']. assert (list_valid (legacy_list b)).
  { apply legacy_list_valid; [by eapply legacy_read_bytes|done]. }
  by destruct (rc =? 0).
Qed.
Lemma own_view_valid d : disk_bytes d → list_valid (own_view d).1.2.
Proof.
  intros Hd. pose proof (convert_result_valid d Hd). unfold own_view.
  destruct (disk_stat OWN d); [|done|apply zero_valid].
  destruct (disk_stat LEGACY d); try apply text_result_valid. case_match; [|apply text_result_valid].
  case_match; [done|apply text_result_valid].
Qed.
Lemma boot_run d : disk_bytes d → boot d = boot_view d.
Proof.
  intros Hd. pose proof (own_view_valid d Hd) as Hv. unfold boot, opcd_iplist_load, boot_view. run.
  rewrite load_own_run by done. destruct (own_view d) as [[lr l0] d0]. cbn [fst snd] in *. run.
  change (p_ip_list_user (paths (state_set_defaults <| ip_list := l0 |>))) with (Some USER). run.
  rewrite read_user_run. set (s := state_set_defaults <| ip_list := l0 |>).
  assert (Hs : list_valid (ip_list s)) by done. assert (Hp : paths s = default_paths) by done. run.
  destruct (user_view d0) as [b| | |]; run.
  - destruct (iplist_from_text b true) as [l|] eqn:Hl.
    + rewrite (take_user_run s) by (try done; by eapply from_text_valid). run. done.
    + rewrite (reject_user_run s) by done. by run.
  - destruct (write_user_run s d0 []) as [rc ->]; [done..|]. by run.
  - done.
  - rewrite (reject_user_run s) by done. by run.
Qed.

(** *** What an operation touches *)

(** [d'] differs from [d] at most at the paths [ps]. *)
Definition touches (ps : list string) (d d' : disk) : Prop :=
  d_now d' = d_now d ∧ d_write d' = d_write d ∧ d_rename d' = d_rename d ∧
  ∀ q, q ∉ ps → d_files d' !! q = d_files d !! q.
#[global] Instance touches_refl ps : Reflexive (touches ps).
Proof. by intros d. Qed.
#[global] Instance touches_trans ps : Transitive (touches ps).
Proof.
  intros a b c (H1 & H2 & H3 & H4) (K1 & K2 & K3 & K4). split_and!; try congruence.
  intros q Hq. by rewrite K4, H4.
Qed.
Lemma touches_mono ps qs d d' : touches ps d d' → ps ⊆ qs → touches qs d d'.
Proof. intros (H1 & H2 & H3 & H4) Hs. split_and!; try done. intros q Hq. apply H4. set_solver. Qed.
Lemma touches_write ps p b d : p ∈ ps → touches ps d (disk_write p b d).2.
Proof.
  intros Hp. unfold disk_write. destruct (d_write d p); [done|..];
    (split_and!; try done; intros q Hq; cbn; apply lookup_insert_ne; set_solver).
Qed.
Lemma touches_rename ps p q d : p ∈ ps → q ∈ ps → touches ps d (disk_rename p q d).2.
Proof.
  intros Hp Hq. unfold disk_rename. destruct (d_files d !! p); [|done]. destruct (d_rename d) eqn:E; [|done].
  split_and!; try done. intros r Hr. cbn. rewrite lookup_insert_ne, lookup_delete_ne by set_solver. done.
Qed.
Lemma touches_convert d : touches [OWN; LEGACY; MIGRATED] d (convert_result d).2.
Proof.
  unfold convert_result. destruct (disk_read _ _ d) as [b|]; [|done]. case_match; [|done].
  pose proof (touches_write [OWN; LEGACY; MIGRATED] OWN (list_text (legacy_list b)) d) as Hw.
  destruct (disk_write _ _ d) as [[rc o] d']. cbn [snd] in Hw. case_match; [|apply Hw; set_solver].
  etransitivity; [apply Hw; set_solver|]. apply touches_rename; set_solver.
Qed.
Lemma touches_own d : touches [OWN; LEGACY; MIGRATED] d (own_view d).2.
Proof.
  pose proof (touches_convert d) as Hc. unfold own_view. destruct (disk_stat OWN d); [|done|done].
  destruct (disk_stat LEGACY d); [|done|done]. case_match; [by case_match|].
  apply touches_rename; set_solver.
Qed.
Lemma touches_shown l d : touches [USER; LAST] d (shown l d).
Proof.
  unfold shown. pose proof (touches_write [USER; LAST] USER (list_text l) d) as Hw.
  destruct (disk_write USER _ d) as [[rc o] d']. cbn [snd] in Hw. case_match; [|apply Hw; set_solver].
  etransitivity; [apply Hw; set_solver|]. apply touches_write. set_solver.
Qed.
Lemma touches_rejected l d : touches [USER; LAST; REJECTED] d (rejected l d).
Proof.
  unfold rejected. etransitivity; [apply (touches_rename _ USER REJECTED); set_solver|].
  eapply touches_mono; [apply touches_shown|set_solver].
Qed.
Lemma touches_applied l b d : touches [OWN; LAST] d (applied l b d).
Proof.
  unfold applied. case_match; [apply touches_write; set_solver|].
  pose proof (touches_write [OWN; LAST] OWN (list_text l) d) as Hw.
  destruct (disk_write OWN _ d) as [[rc o] d']. cbn [snd] in Hw. case_match; [|apply Hw; set_solver].
  etransitivity; [apply Hw; set_solver|]. apply touches_write. set_solver.
Qed.
Lemma touched ps d d' q : touches ps d d' → q ∉ ps → d_files d' !! q = d_files d !! q.
Proof. intros (_ & _ & _ & H). apply H. Qed.
Ltac other_path := compute_done.
Lemma own_keeps_user d : d_files (own_view d).2 !! USER = d_files d !! USER.
Proof. eapply touched; [apply touches_own|other_path]. Qed.
Lemma own_keeps_last d : d_files (own_view d).2 !! LAST = d_files d !! LAST.
Proof. eapply touched; [apply touches_own|other_path]. Qed.
Lemma read_local p cap d d' : d_files d' !! p = d_files d !! p → disk_read p cap d' = disk_read p cap d.
Proof. unfold disk_read. by intros ->. Qed.
Lemma read_put p cap b d : len b <= cap → disk_read p cap (disk_put p b d) = Some b.
Proof.
  intros Hl. unfold disk_read, disk_put. cbn. rewrite lookup_insert_eq.
  f_equal. apply take_ge. unfold len in Hl. lia.
Qed.
Lemma put_lookup p b d : d_files (disk_put p b d) !! p = Some (NFile b (d_now d)).
Proof. apply lookup_insert_eq. Qed.
Lemma write_done p b d :
  d_write d p ≠ OPC_STORE_UNCHANGED →
  (disk_write p b d).2 = disk_put p b d ∧ (disk_write p b d).1.2 ≠ OPC_STORE_UNCHANGED.
Proof. unfold disk_write. by destruct (d_write d p). Qed.
Lemma shown_user l d :
  d_write d USER ≠ OPC_STORE_UNCHANGED → d_files (shown l d) !! USER = Some (NFile (list_text l) (d_now d)).
Proof.
  intros Hw. unfold shown. destruct (write_done USER (list_text l) d Hw) as [Hd Ho].
  destruct (disk_write USER _ d) as [[rc o] d']. cbn [fst snd] in *. subst d'.
  rewrite bool_decide_eq_true_2 by done.
  erewrite (touched [LAST]); [apply put_lookup|apply touches_write; set_solver|other_path].
Qed.
Lemma applied_own l b d :
  list_valid l → d_write d OWN = OPC_STORE_DURABLE →
  disk_read OWN (OPC_IPLIST_TEXT_MAX + 1) (applied l b d) = Some (list_text l).
Proof.
  intros Hv Hw. unfold applied. destruct (list_text_read l Hv) as (_ & Hl & _).
  case_bool_decide as Hr.
  - rewrite <- Hr. apply read_local. eapply touched; [by apply (touches_write [LAST]); set_solver|other_path].
  - unfold disk_write at 1. rewrite Hw. cbn [Z.eqb].
    erewrite read_local; [apply (read_put OWN _ (list_text l) d); unfold OPC_IPLIST_TEXT_MAX; lia|].
    eapply touched; [by apply (touches_write [LAST]); set_solver|other_path].
Qed.

Lemma shown_last l d : d_write d USER ≠ OPC_STORE_UNCHANGED → d_write d LAST ≠ OPC_STORE_UNCHANGED →
  d_files (shown l d) !! LAST = Some (NFile (list_text l) (d_now d)).
Proof.
  intros Hw Hl. unfold shown. destruct (write_done USER (list_text l) d Hw) as [Hd Ho].
  destruct (disk_write USER _ d) as [[rc o] d']. cbn [fst snd] in *. subst d'.
  rewrite bool_decide_eq_true_2 by done. destruct (write_done LAST (list_text l) (disk_put USER (list_text l) d) Hl) as [-> _].
  exact (put_lookup LAST _ (disk_put USER (list_text l) d)).
Qed.
Lemma shown_nowhere l d : d_write d USER = OPC_STORE_UNCHANGED → shown l d = d.
Proof. intros Hw. unfold shown, disk_write. rewrite Hw. done. Qed.
Lemma applied_last l b d : list_valid l → d_write d OWN = OPC_STORE_DURABLE → d_write d LAST ≠ OPC_STORE_UNCHANGED →
  d_files (applied l b d) !! LAST = Some (NFile b (d_now d)).
Proof.
  intros Hv Hw Hl. unfold applied. case_bool_decide.
  - destruct (write_done LAST b d Hl) as [-> _]. apply put_lookup.
  - unfold disk_write at 1. rewrite Hw. cbn [Z.eqb]. destruct (write_done LAST b (disk_put OWN (list_text l) d) Hl) as [-> _].
    exact (put_lookup LAST _ (disk_put OWN (list_text l) d)).
Qed.
(** The customer's file shows the list, and the record of what the daemon put there says so;
    a store that refuses the write leaves what stood there. *)
Definition shown_on_disk (d : disk) (l : opcd_ip_list_t) (old : option node) (d' : disk) : Prop :=
  match d_write d USER with
  | OPC_STORE_UNCHANGED => d_files d' !! USER = old
  | _ => d_files d' !! USER = Some (NFile (list_text l) (d_now d)) ∧
         (d_write d LAST ≠ OPC_STORE_UNCHANGED → d_files d' !! LAST = Some (NFile (list_text l) (d_now d)))
  end.
Lemma shown_on_disk_run d d0 l : d_now d0 = d_now d → d_write d0 = d_write d → shown_on_disk d l (d_files d0 !! USER) (shown l d0).
Proof.
  intros Hn Hw. unfold shown_on_disk. rewrite <- Hn, <- Hw. destruct (d_write d0 USER) eqn:E.
  - by rewrite shown_nowhere.
  - split; [apply shown_user; by rewrite E|]. intros. apply shown_last; [by rewrite E|done].
  - split; [apply shown_user; by rewrite E|]. intros. apply shown_last; [by rewrite E|done].
Qed.

(** C16: what the customer's file does at a start (spec 6.5), whatever the disk holds. An
    absent file is created on the disk with the daemon's own list, and the record of what the
    daemon put there is set to it; a link, directory or unreadable file is left alone. A
    valid file replaces the whole list, unless the own copy was read and the file is byte for
    byte what the daemon last put there: the own copy then holds it, and the record holds
    the file's bytes. When the file is what the daemon last put there the own list stays in
    effect and is shown again if the file says otherwise. A file over 64 KB or with any bad
    line changes nothing: the own list stays in effect, the file is kept under [.rejected]
    and the list in effect is shown in its place. What a failing store or rename leaves is
    stated with each case. *)
Theorem customer_file_decides d :
  disk_bytes d →
  match d_files d !! USER with
  | None => boot_user d = OPCD_IPLIST_USER_CREATED ∧ boot_list d = own_list d ∧ shown_on_disk d (own_list d) None (boot_disk d)
  | Some (NFile b m) =>
      match (if OPC_IPLIST_IMPORT_MAX <? len b then None else iplist_from_text b true) with
      | Some l =>
          if own_read (own_result d) && bool_decide (disk_read LAST (OPC_IPLIST_IMPORT_MAX + 1) d = Some b)
          then boot_user d = OPCD_IPLIST_USER_KEPT ∧ boot_list d = own_list d ∧
               (if iplist_same l (own_list d) then d_files (boot_disk d) !! USER = Some (NFile b m)
                else shown_on_disk d (own_list d) (Some (NFile b m)) (boot_disk d))
          else boot_user d = OPCD_IPLIST_USER_APPLIED ∧ boot_list d = l ∧
               (d_write d OWN = OPC_STORE_DURABLE →
                disk_read OWN (OPC_IPLIST_TEXT_MAX + 1) (boot_disk d) = Some (list_text l) ∧
                (d_write d LAST ≠ OPC_STORE_UNCHANGED → d_files (boot_disk d) !! LAST = Some (NFile b (d_now d))))
      | None =>
          boot_user d = OPCD_IPLIST_USER_REJECTED ∧ boot_list d = own_list d ∧
          (d_rename d = true → d_files (boot_disk d) !! REJECTED = Some (NFile b m)) ∧
          shown_on_disk d (own_list d) (if d_rename d then None else Some (NFile b m)) (boot_disk d)
      end
  | Some n => boot_user d = OPCD_IPLIST_USER_UNUSABLE ∧ boot_list d = own_list d ∧
              d_files (boot_disk d) !! USER = Some n
  end.
Proof.
  intros Hd. unfold boot_user, boot_list, boot_disk, own_list, own_result.
  rewrite boot_run, own_boot_view by done. unfold boot_view.
  pose proof (own_keeps_user d) as Hu. pose proof (own_keeps_last d) as Hla.
  destruct (touches_own d) as (Hn & Hw & Hr & _). destruct (own_view d) as [[lr l0] d0].
  cbn [fst snd] in *. unfold user_view. rewrite Hu.
  assert (Hrej : ∀ b m, d_files d !! USER = Some (NFile b m) →
    (d_rename d = true → d_files (rejected l0 d0) !! REJECTED = Some (NFile b m)) ∧
    shown_on_disk d l0 (if d_rename d then None else Some (NFile b m)) (rejected l0 d0)).
  { intros b m Hb. rewrite <- Hu in Hb. unfold rejected. split; [intros H|].
    - erewrite touched; [|apply touches_shown|other_path]. unfold disk_rename. rewrite Hb, Hr, H.
      apply lookup_insert_eq.
    - destruct (touches_rename [USER; REJECTED] USER REJECTED d0) as (Hn' & Hw' & _); [set_solver..|].
      replace (if d_rename d then None else Some (NFile b m)) with (d_files (disk_rename USER REJECTED d0).2 !! USER).
      { apply shown_on_disk_run; congruence. }
      unfold disk_rename. rewrite Hb, Hr. destruct (d_rename d); cbn; [|done]. by rewrite lookup_insert_ne, lookup_delete_eq. }
  pose proof (shown_on_disk_run d d0 l0 Hn Hw) as Hsh. rewrite Hu in Hsh.
  destruct (d_files d !! USER) as [[b m|b m|n m|]|]; cbn [fst snd]; try done.
  destruct (Hrej b m eq_refl) as [Hrj Hrs].
  destruct (OPC_IPLIST_IMPORT_MAX <? len b); cbn [fst snd]; [by split_and!|].
  destruct (iplist_from_text b true) as [l|] eqn:Hl; cbn [fst snd]; [|by split_and!].
  unfold take_view, unreplaced. rewrite (read_local LAST _ d d0) by done.
  destruct (own_read lr && _); cbn [fst snd]; [split_and!; try done; by destruct (iplist_same l l0)|]. split_and!; try done.
  intros H'. apply from_text_valid in Hl. split; [apply applied_own; [done|by rewrite Hw]|]. intros H''. rewrite <- Hn.
  apply applied_last; [done|by rewrite Hw..].
Qed.
Definition demo_disk : disk :=
  mk_disk {[ OWN := NFile (list_text demo_list) (5, 0);
             USER := NFile (str "IPAddress1=10.0.0.256") (7, 0) ]}
    (9, 0) (λ _, OPC_STORE_DURABLE) true.
Lemma customer_file_decides_witness :
  boot_user demo_disk = OPCD_IPLIST_USER_REJECTED ∧ boot_list demo_disk = own_list demo_disk.
Proof.
  assert (H : disk_bytes demo_disk) by (apply (bool_decide_unpack _); vm_compute; exact I).
  pose proof (customer_file_decides demo_disk H) as Hc.
  assert (Hu : d_files demo_disk !! USER = Some (NFile (str "IPAddress1=10.0.0.256") (7, 0))) by reflexivity.
  rewrite Hu in Hc. assert (Hl : (if OPC_IPLIST_IMPORT_MAX <? len (str "IPAddress1=10.0.0.256") then None
    else iplist_from_text (str "IPAddress1=10.0.0.256") true) = None) by (vm_compute; reflexivity).
  rewrite Hl in Hc. destruct Hc as (H1 & H2 & _). split; assumption.
Defined.

(** ** A start settles *)

(** The files' times are not ahead of the clock. *)
Definition mtime_of (n : node) : option (Z * Z) :=
  match n with NFile _ m | NLink _ m | NUnreadable _ m => Some m | NBroken => None end.
Definition clock_ok (d : disk) : Prop :=
  map_Forall (λ _ n, match mtime_of n with Some m => mtime_after m (d_now d) = false | None => True end) (d_files d).
Lemma clock_stat d p size m : clock_ok d → disk_stat p d = StatOk size m → mtime_after m (d_now d) = false.
Proof.
  intros Hc. unfold disk_stat. destruct (d_files d !! p) as [n|] eqn:E; [|done]. apply Hc in E.
  by destruct n; intros; simplify_eq.
Qed.

Lemma text_result_local d d' : d_files d' !! OWN = d_files d !! OWN → text_result d' = text_result d.
Proof. intros H. unfold text_result. by rewrite (read_local OWN _ d d'). Qed.
Lemma stat_local p d d' : d_files d' !! p = d_files d !! p → disk_stat p d' = disk_stat p d.
Proof. unfold disk_stat. by intros ->. Qed.
Lemma convert_local d d' :
  d_files d' !! LEGACY = d_files d !! LEGACY → d_write d' = d_write d →
  (convert_result d').1 = (convert_result d).1.
Proof.
  intros HL HW. unfold convert_result. rewrite (read_local LEGACY _ d d') by done.
  destruct (disk_read LEGACY _ d) as [b|]; [|done]. case_match; [|done].
  unfold disk_write. rewrite HW. by destruct (d_write d OWN).
Qed.
Lemma retired_own d : d_files (retired d) !! OWN = d_files d !! OWN.
Proof. eapply touched; [apply (touches_rename [LEGACY; MIGRATED]); set_solver|other_path]. Qed.

Definition converted (lr : opcd_iplist_load_t) : Prop :=
  lr = OPCD_IPLIST_LOAD_MIGRATED ∨ lr = OPCD_IPLIST_LOAD_LEGACY_UNSAVED.
Lemma convert_unused d : ¬ converted (convert_result d).1.1 → (convert_result d).2 = d.
Proof.
  unfold converted, convert_result. destruct (disk_read _ _ d) as [b|]; [|done]. case_match; [|done].
  destruct (disk_write _ _ _) as [[rc o] d']. destruct (rc =? 0); cbn; naive_solver.
Qed.

(** The own files say the same as long as they and the store's behaviour stay. *)
Lemma own_view_local d d' :
  d_files d' !! OWN = d_files d !! OWN → d_files d' !! LEGACY = d_files d !! LEGACY →
  d_write d' = d_write d → (own_view d').1 = (own_view d).1.
Proof.
  intros HO HL HW. pose proof (convert_local d d' HL HW) as Hc. unfold own_view.
  rewrite (stat_local OWN d d'), (stat_local LEGACY d d') by done.
  destruct (disk_stat OWN d); [|done|done].
  destruct (disk_stat LEGACY d); [|cbn [fst]; by rewrite (text_result_local d d')..].
  destruct (_ && _); cbn [fst]; [|by rewrite (text_result_local (retired d) (retired d')) by (by rewrite !retired_own)].
  pose proof (convert_unused d') as Hn. rewrite Hc in *. case_bool_decide as Hb; [done|]. cbn [fst].
  rewrite (convert_unused d), Hn by done. by apply text_result_local.
Qed.
Lemma text_result_read d l :
  list_valid l → disk_read OWN (OPC_IPLIST_TEXT_MAX + 1) d = Some (list_text l) →
  text_result d = (OPCD_IPLIST_LOAD_TEXT, normal l).
Proof.
  intros Hv Hr. unfold text_result. rewrite Hr. destruct (list_text_read l Hv) as (_ & Hl & Hf).
  by rewrite (proj2 (Z.ltb_ge _ _)), Hf by (unfold OPC_IPLIST_TEXT_MAX; lia).
Qed.
(** The own text is read when no binary is newer than it. *)
Lemma own_view_text d l :
  clock_ok d → list_valid l → disk_read OWN (OPC_IPLIST_TEXT_MAX + 1) d = Some (list_text l) →
  (∀ size m, disk_stat OWN d = StatOk size m → m = d_now d) →
  (own_view d).1 = (OPCD_IPLIST_LOAD_TEXT, normal l).
Proof.
  intros Hc Hv Hr Hm. pose proof (text_result_read d l Hv Hr) as Ht.
  unfold own_view. destruct (disk_stat OWN d) as [size m| |] eqn:HO.
  2,3: exfalso; unfold disk_read in Hr; unfold disk_stat in HO; by repeat case_match.
  rewrite (Hm size m) by done. destruct (disk_stat LEGACY d) as [lsize lm| |] eqn:HL; [|by rewrite Ht..].
  rewrite (clock_stat d LEGACY lsize lm Hc HL), andb_false_r. cbn [fst].
  by rewrite (text_result_local d) by apply retired_own.
Qed.
Lemma clock_ok_put p b d : clock_ok d → clock_ok (disk_put p b d).
Proof.
  intros Hc. unfold clock_ok, disk_put. cbn. apply map_Forall_insert_2; [|done]. cbn.
  unfold mtime_after. destruct (d_now d) as [x y]. cbn [fst snd]. apply orb_false_iff.
  rewrite Z.eqb_refl, Z.ltb_irrefl. split; [done|]. by rewrite Z.ltb_irrefl.
Qed.
Lemma clock_ok_rename p q d : clock_ok d → clock_ok (disk_rename p q d).2.
Proof.
  intros Hc. unfold disk_rename. destruct (d_files d !! p) as [n|] eqn:E; [|done].
  destruct (d_rename d); [|done]. unfold clock_ok. cbn.
  apply map_Forall_insert_2; [by apply (Hc p)|]. by apply map_Forall_delete.
Qed.
Lemma clock_ok_write p b d : clock_ok d → clock_ok (disk_write p b d).2.
Proof. intros Hc. unfold disk_write. destruct (d_write d p); [done|by apply clock_ok_put..]. Qed.

(** How a load of the own files ends: the binary was converted, the binary was set aside
    as stale, or the disk is untouched. *)
Lemma own_view_cases d :
  (own_view d = convert_result d ∧ converted (convert_result d).1.1) ∨
  own_view d = (text_result d, d) ∨
  ((own_view d).2 = d ∧ ∀ size m, disk_stat OWN d ≠ StatOk size m) ∨
  (∃ size m lsize lm, disk_stat OWN d = StatOk size m ∧ disk_stat LEGACY d = StatOk lsize lm ∧
     (lsize =? IP_LIST_SIZE) && mtime_after lm m = false ∧ own_view d = (text_result (retired d), retired d)).
Proof.
  pose proof (convert_unused d) as Hu. unfold own_view.
  assert (Hdec : Decision (converted (convert_result d).1.1)) by (unfold converted; apply _).
  destruct (disk_stat OWN d) as [size m| |].
  2: destruct (decide (converted (convert_result d).1.1)); [by left|right; right; left; by split; [apply Hu|]].
  2: right; right; left; by split.
  destruct (disk_stat LEGACY d) as [lsize lm| |]; [|by right; left..].
  destruct (_ && _) eqn:Hn; [|right; right; right; by exists size, m, lsize, lm].
  case_bool_decide as Hb; [by left|]. right. left. cbn [snd]. by rewrite Hu.
Qed.

Lemma converted_own d :
  d_write d OWN = OPC_STORE_DURABLE → converted (convert_result d).1.1 →
  d_files (convert_result d).2 !! OWN = Some (NFile (list_text (convert_result d).1.2) (d_now d)).
Proof.
  intros Hw. unfold converted, convert_result. destruct (disk_read _ _ d) as [b|]; [|naive_solver].
  case_match; [|naive_solver]. unfold disk_write. rewrite Hw. cbn [Z.eqb fst snd]. intros _.
  rewrite retired_own. apply put_lookup.
Qed.
(** An own text that holds [l] after the load was loaded as [l]. *)
Lemma own_view_holds d l :
  d_write d OWN = OPC_STORE_DURABLE → disk_bytes d → list_valid l →
  disk_read OWN (OPC_IPLIST_TEXT_MAX + 1) (own_view d).2 = Some (list_text l) →
  list_text (own_view d).1.2 = list_text l.
Proof.
  intros Hw Hd Hv Hr.
  destruct (own_view_cases d) as [[He Hcv]|[He|[[He Hno]|(size & m & lsize & lm & H1 & H2 & H3 & He)]]].
  - rewrite He in *. pose proof (converted_own d Hw Hcv) as Hown. unfold disk_read in Hr. rewrite Hown in Hr.
    destruct (list_text_read _ (convert_result_valid d Hd)) as (_ & Hl & _).
    rewrite take_ge in Hr by (unfold len, OPC_IPLIST_TEXT_MAX in *; lia). by simplify_eq.
  - rewrite He in *. cbn [fst snd] in *. rewrite (text_result_read d l) by done. by apply list_text_normal.
  - exfalso. rewrite He in Hr. unfold disk_read in Hr. unfold disk_stat in Hno. repeat case_match; naive_solver.
  - rewrite He in *. cbn [fst snd] in *. rewrite (text_result_read _ l) by done. by apply list_text_normal.
Qed.

(** The own files after they were loaded, whatever happens to the other paths: loading
    them again gives the same list. *)
Section Again.
Context (d d1 : disk).
Hypothesis Hd : disk_bytes d.
Hypothesis Hw : d_write d OWN = OPC_STORE_DURABLE.
Hypothesis HO : d_files d1 !! OWN = d_files (own_view d).2 !! OWN.
Hypothesis HL : d_files d1 !! LEGACY = d_files (own_view d).2 !! LEGACY.
Hypothesis HW : d_write d1 = d_write d.
Hypothesis HN : d_now d1 = d_now d.
Hypothesis Hc1 : clock_ok d1.

Lemma again_converted :
  own_view d = convert_result d → converted (convert_result d).1.1 →
  list_text (own_view d1).1.2 = list_text (own_view d).1.2.
Proof using All.
  intros He Hcv. rewrite He in *. pose proof (convert_result_valid d Hd) as Hv.
  destruct (list_text_read _ Hv) as (_ & Hl & _).
  pose proof (converted_own d Hw Hcv) as Hown.
  rewrite <- HO in Hown. rewrite (own_view_text d1 (convert_result d).1.2).
  - cbn [snd]. by apply list_text_normal.
  - done.
  - done.
  - unfold disk_read. rewrite Hown. f_equal. apply take_ge. unfold len, OPC_IPLIST_TEXT_MAX in *. lia.
  - intros size m. unfold disk_stat. rewrite Hown. intros. by simplify_eq.
Qed.
Lemma again_retired size m lsize lm :
  disk_stat OWN d = StatOk size m → disk_stat LEGACY d = StatOk lsize lm →
  (lsize =? IP_LIST_SIZE) && mtime_after lm m = false → own_view d = (text_result (retired d), retired d) →
  list_text (own_view d1).1.2 = list_text (own_view d).1.2.
Proof using All.
  intros Hso Hsl Hold He. rewrite He in *. cbn [fst snd] in *. rewrite retired_own in HO.
  rewrite (text_result_local d) by apply retired_own.
  assert (Ht : text_result d1 = text_result d) by (by apply text_result_local).
  unfold own_view. rewrite (stat_local OWN d d1), Hso by done.
  assert (d_files d1 !! LEGACY = None ∨ d_files d1 !! LEGACY = d_files d !! LEGACY) as [Hl|Hl].
  { rewrite HL. unfold retired, disk_rename. destruct (d_files d !! LEGACY) as [n|] eqn:E; [|by right].
    destruct (d_rename d); cbn [snd]; [left|by right].
    cbn. by rewrite lookup_insert_ne, lookup_delete_eq by done. }
  - unfold disk_stat. rewrite Hl. cbn [fst]. by rewrite Ht.
  - rewrite (stat_local LEGACY d d1), Hsl, Hold by done. cbn [fst]. rewrite (text_result_local d1) by apply retired_own. by rewrite Ht.
Qed.
Lemma own_view_again : list_text (own_view d1).1.2 = list_text (own_view d).1.2.
Proof using All.
  assert (Hsame : (own_view d).2 = d → list_text (own_view d1).1.2 = list_text (own_view d).1.2).
  { intros He. rewrite He in *. by rewrite (own_view_local d d1). }
  destruct (own_view_cases d) as [[He Hcv]|[He|[[He _]|(size & m & lsize & lm & H1 & H2 & H3 & H4)]]].
  - by apply again_converted.
  - apply Hsame. by rewrite He.
  - by apply Hsame.
  - by eapply again_retired.
Qed.
End Again.

Lemma iplist_same_text a b : list_valid a → list_valid b → iplist_same a b = true ↔ list_text a = list_text b.
Proof.
  intros Ha Hb. unfold iplist_same. destruct (list_text_read a Ha) as (-> & _), (list_text_read b Hb) as (-> & _).
  apply bool_decide_eq_true.
Qed.
(** The list in effect is one the customer's file or the own files give. *)
Lemma boot_list_cases d :
  disk_bytes d →
  boot_list d = own_list d ∨ ∃ b, user_view d = UserRead b ∧ iplist_from_text b true = Some (boot_list d).
Proof.
  intros Hd. unfold boot_list, own_list. rewrite boot_run, own_boot_view by done. unfold boot_view.
  assert (Hu : user_view (own_view d).2 = user_view d) by (unfold user_view; by rewrite own_keeps_user).
  destruct (own_view d) as [[lr l0] d0]. cbn [fst snd] in *. rewrite Hu.
  destruct (user_view d) as [b| | |]; cbn [fst snd]; auto.
  destruct (iplist_from_text b true) as [l|] eqn:Hl; cbn [fst snd]; auto.
  unfold take_view. case_match; cbn [fst snd]; eauto.
Qed.
(** A customer's file that reads as the list, and own files that give it too. *)
Definition settled (l : opcd_ip_list_t) (d : disk) : Prop :=
  list_text (own_list d) = list_text l ∧
  ∀ b l', user_view d = UserRead b → iplist_from_text b true = Some l' → list_text l' = list_text l.
Lemma settled_boot l d : disk_bytes d → settled l d → list_text (boot_list d) = list_text l.
Proof. intros Hd [H1 H2]. destruct (boot_list_cases d Hd) as [-> |(b & Hb & Hl)]; [done|]. by eapply H2. Qed.
Lemma shown_view l d : d_write d USER = OPC_STORE_DURABLE → list_valid l → user_view (shown l d) = UserRead (list_text l).
Proof.
  intros Hw Hv. unfold user_view. rewrite shown_user by (by rewrite Hw).
  destruct (list_text_read l Hv) as (_ & Hl & _). rewrite (proj2 (Z.ltb_ge _ _)); [done|].
  unfold OPC_IPLIST_IMPORT_MAX. lia.
Qed.
Lemma own_view_clock d : clock_ok d → clock_ok (own_view d).2.
Proof.
  intros Hc. destruct (own_view_cases d) as [[He _]|[-> |[[-> _]|(size & m & lsize & lm & H1 & H2 & H3 & ->)]]].
  - rewrite He. unfold convert_result. destruct (disk_read _ _ d) as [b|]; [|done]. case_match; [|done].
    pose proof (clock_ok_write OWN (list_text (legacy_list b)) d Hc) as Hc'.
    destruct (disk_write _ _ d) as [[rc o] d']. cbn [snd] in Hc'. case_match; cbn [snd]; [|done].
    by apply clock_ok_rename.
  - done.
  - done.
  - by apply clock_ok_rename.
Qed.
Lemma shown_clock l d : clock_ok d → clock_ok (shown l d).
Proof.
  intros Hc. unfold shown. pose proof (clock_ok_write USER (list_text l) d Hc) as Hc'.
  destruct (disk_write USER _ d) as [[rc o] d']. cbn [snd] in Hc'. case_match; [|done]. by apply clock_ok_write.
Qed.
Lemma applied_clock l b d : clock_ok d → clock_ok (applied l b d).
Proof.
  intros Hc. unfold applied. case_match; [by apply clock_ok_write|].
  pose proof (clock_ok_write OWN (list_text l) d Hc) as Hc'.
  destruct (disk_write OWN _ d) as [[rc o] d']. cbn [snd] in Hc'. case_match; [|done]. by apply clock_ok_write.
Qed.
Lemma legacy_after_own d : d_files (own_view d).2 !! LEGACY = None ∨ d_files (own_view d).2 !! LEGACY = d_files d !! LEGACY.
Proof.
  assert (Hret : ∀ d', d_files d' !! LEGACY = d_files d !! LEGACY →
    d_files (retired d') !! LEGACY = None ∨ d_files (retired d') !! LEGACY = d_files d !! LEGACY).
  { intros d' He. unfold retired, disk_rename. destruct (d_files d' !! LEGACY) as [n|] eqn:E; [|by left].
    destruct (d_rename d'); cbn [snd]; [left|right; congruence].
    cbn. by rewrite lookup_insert_ne, lookup_delete_eq by done. }
  destruct (own_view_cases d) as [[-> _]|[-> |[[-> _]|(size & m & lsize & lm & H1 & H2 & H3 & ->)]]];
    [|by right|by right|by apply Hret].
  unfold convert_result. destruct (disk_read _ _ d) as [b|]; [|by right]. case_match; [|by right].
  pose proof (touches_write [OWN] OWN (list_text (legacy_list b)) d) as Hw.
  destruct (disk_write _ _ d) as [[rc o] d']. cbn [snd] in *.
  assert (Hl : d_files d' !! LEGACY = d_files d !! LEGACY) by (eapply touched; [apply Hw; set_solver|other_path]).
  case_match; cbn [snd]; auto.
Qed.
Lemma bytes_legacy d d1 :
  disk_bytes d → d_files d1 !! LEGACY = d_files (own_view d).2 !! LEGACY → disk_bytes d1.
Proof. intros Hd H1. unfold disk_bytes in *. rewrite H1. by destruct (legacy_after_own d) as [-> | ->]. Qed.

(** A disk that differs from the one the own files were loaded from at the customer's paths
    only, and whose customer's file reads as that list if it reads at all, is settled. *)
Lemma settled_own d d1 :
  disk_bytes d → clock_ok d1 → d_write d OWN = OPC_STORE_DURABLE →
  touches [USER; LAST; REJECTED] (own_view d).2 d1 →
  (∀ b l', user_view d1 = UserRead b → iplist_from_text b true = Some l' → list_text l' = list_text (own_view d).1.2) →
  disk_bytes d1 ∧ settled (own_view d).1.2 d1.
Proof.
  intros Hd Hc Hw Ht Hu. destruct (touches_own d) as (Hn & Hwr & _). pose proof Ht as (Hn1 & Hw1 & _).
  assert (HL : d_files d1 !! LEGACY = d_files (own_view d).2 !! LEGACY) by (eapply touched; [exact Ht|other_path]).
  assert (Hb1 : disk_bytes d1) by (by eapply bytes_legacy). split; [done|]. split; [|done].
  unfold own_list. rewrite own_boot_view by done. apply own_view_again; try done; try congruence.
  eapply touched; [exact Ht|other_path].
Qed.
Lemma settled_shown d d0' :
  disk_bytes d → clock_ok d0' → d_write d OWN = OPC_STORE_DURABLE → d_write d USER = OPC_STORE_DURABLE →
  touches [USER; LAST; REJECTED] (own_view d).2 d0' →
  disk_bytes (shown (own_view d).1.2 d0') ∧ settled (own_view d).1.2 (shown (own_view d).1.2 d0').
Proof.
  intros Hd Hc Hw Hwu Ht. pose proof (own_view_valid d Hd) as Hv. apply settled_own; try done.
  - by apply shown_clock.
  - etransitivity; [exact Ht|]. eapply touches_mono; [apply touches_shown|set_solver].
  - intros b l'. destruct (touches_own d) as (_ & Hwr & _), Ht as (_ & Hwr' & _).
    rewrite shown_view by (try done; congruence). intros ? Hl. simplify_eq.
    destruct (list_text_read _ Hv) as (_ & _ & Hf). rewrite Hf in Hl. simplify_eq. by apply list_text_normal.
Qed.
Lemma settled_applied d b l :
  disk_bytes d → clock_ok d → d_write d OWN = OPC_STORE_DURABLE →
  user_view (own_view d).2 = UserRead b → iplist_from_text b true = Some l →
  disk_bytes (applied l b (own_view d).2) ∧ settled l (applied l b (own_view d).2).
Proof.
  intros Hd Hc Hw Hu Hl. pose proof (from_text_valid _ _ _ Hl) as Hv. set (d1 := applied l b (own_view d).2).
  destruct (touches_own d) as (Hn & Hwr & _). pose proof (touches_applied l b (own_view d).2) as Ht.
  assert (HL : d_files d1 !! LEGACY = d_files (own_view d).2 !! LEGACY) by (eapply touched; [exact Ht|other_path]).
  assert (Hb1 : disk_bytes d1) by (by eapply bytes_legacy). split; [done|]. split.
  - assert (Hc1 : clock_ok d1) by (by apply applied_clock, own_view_clock).
    unfold own_list. rewrite own_boot_view by done. destruct Ht as (Hn1 & Hw1 & _).
    destruct (decide (disk_read OWN (OPC_IPLIST_TEXT_MAX + 1) (own_view d).2 = Some (list_text l))) as [Hr|Hr].
    + rewrite <- (own_view_holds d l) by done. apply own_view_again; try done; try (unfold d1; congruence).
      unfold d1, applied. rewrite bool_decide_eq_true_2 by done.
      eapply touched; [by apply (touches_write [LAST]); set_solver|other_path].
    + rewrite (own_view_text d1 l); [by apply list_text_normal|done|done| |].
      * apply applied_own; [done|congruence].
      * intros size m. replace (d_now d1) with (d_now (own_view d).2) by done.
        unfold disk_stat, d1, applied. rewrite bool_decide_eq_false_2 by done.
        unfold disk_write at 1. rewrite Hwr, Hw. cbn [Z.eqb].
        erewrite touched; [|by apply (touches_write [LAST]); set_solver|other_path].
        rewrite put_lookup. intros Hm. by simplify_eq.
  - intros b' l'. replace (user_view d1) with (UserRead b); [intros; by simplify_eq|].
    rewrite <- Hu. unfold user_view, d1. by rewrite (touched _ _ _ USER Ht) by other_path.
Qed.

(** A start settles the list: when the writes of the own copy and of the customer's
    file succeed and the clock is not behind the files, the next start finds the same list,
    whatever the first one found (a converted binary, a rejected or replaced customer's
    file, a missing or damaged own copy) and also when the record of the customer's bytes
    or the renames fail. *)
Theorem reboot_settles d :
  disk_bytes d → clock_ok d → d_write d OWN = OPC_STORE_DURABLE → d_write d USER = OPC_STORE_DURABLE →
  iplist_same (boot_list (boot_disk d)) (boot_list d) = true.
Proof.
  intros Hd Hc Hw Hwu. pose proof (own_view_clock d Hc) as Hc0. pose proof (own_view_valid d Hd) as Hv0.
  pose proof (settled_own d) as Hown. pose proof (settled_shown d) as Hshown. pose proof (settled_applied d) as Happ.
  assert (Hgoal : list_valid (boot_list d) ∧ disk_bytes (boot_disk d) ∧ settled (boot_list d) (boot_disk d)).
  { unfold boot_list, boot_disk. rewrite boot_run by done. unfold boot_view.
    destruct (own_view d) as [[lr l0] d0]. cbn [fst snd] in *.
    assert (Hrej : list_valid l0 ∧ disk_bytes (rejected l0 d0) ∧ settled l0 (rejected l0 d0)).
    { split; [done|]. apply Hshown; try done; [by apply clock_ok_rename|].
      apply touches_rename; set_solver. }
    destruct (user_view d0) as [b| | |] eqn:Hu; cbn [fst snd]; [|split; [done|by apply Hshown]| |done].
    2: split; [done|]; apply Hown; try done; congruence.
    destruct (iplist_from_text b true) as [l|] eqn:Hl; cbn [fst snd]; [|done].
    unfold take_view. destruct (_ && _); cbn [fst snd]; [|split; [by eapply from_text_valid|by apply Happ]].
    split; [done|]. destruct (iplist_same l l0) eqn:Hs; [|by apply Hshown].
    apply Hown; try done. intros b' l' Hu' Hl'. rewrite Hu in Hu'. simplify_eq.
    apply iplist_same_text in Hs; [done|by eapply from_text_valid|done]. }
  destruct Hgoal as (Hv & Hb & Hset). apply iplist_same_text; [|done|by apply settled_boot].
  destruct (boot_list_cases _ Hb) as [-> |(b & _ & Hl)]; [|by eapply from_text_valid].
  unfold own_list. rewrite own_boot_view by done. by apply own_view_valid.
Qed.
#[global] Instance clock_ok_dec d : Decision (clock_ok d).
Proof. unfold clock_ok. apply map_Forall_dec. intros p n. destruct (mtime_of n); apply _. Defined.
Lemma reboot_settles_witness : iplist_same (boot_list (boot_disk demo_disk)) (boot_list demo_disk) = true.
Proof. apply reboot_settles; [apply (bool_decide_unpack _); vm_compute; exact I..| |]; reflexivity. Defined.
End IpListBoot.
