(* ===== verification/IpListRestart.v ===== *)
(** * A client's IP list survives a restart

    SetIpConfigList on the disk of [IpListBoot], written on the spot or by the writer thread:
    the list the daemon holds after the request, whatever the request and however the writes
    end, is the list the next start finds; also at a restart in the middle of the writer's
    work. *)
From S2P Require Import Prelude Codec ScanList Commands Indications Store StoreAsync IpListText FaultProbe State Indication Validate RadioConf Persist Handlers WriterTurn IpListLoad Daemon SimEnv PasswordTxn IpListBoot.
From stdpp Require Import base list numbers option tactics strings gmap.
From Stdlib Require Import ZArith Lia.
#[local] Open Scope Z_scope.
Import Store.Store StoreAsync.StoreAsync IpListText.IpListText FaultProbe.FaultProbe Validate.Validate RadioConf.RadioConf WriterTurn IpListBoot.

Module IpListRestart.

(** ** Only valid lists are built *)

Lemma set_slot_valid l slot e p :
  list_valid l → (slot < SLOTS)%nat → slot_valid (Z.of_nat slot + 1) e p → list_valid (set_slot l slot e p).
Proof.
  intros (Hs & Hp & H) Hi Hv. unfold set_slot. split_and!; cbn [slots present]; rewrite ?length_insert; try done.
  intros i e' p'. rewrite !list_lookup_insert. case_decide as Hd.
  - destruct Hd as [<- Hd1]. rewrite decide_True by (split; [done|lia]). intros. by simplify_eq.
  - intros He Hq. rewrite decide_False in Hq; [by eapply H|]. intros [-> _]. apply Hd. split; [done|]. lia.
Qed.
Definition loop_valid (s : ipcfg_loop) : Prop :=
  list_valid (il_candidate s) ∧ (il_active s = true → list_valid (il_staging s)).
Lemma ipcfg_step_valid mask i e s s' :
  entry_ok e → loop_valid s → ipcfg_step mask i e s = inr s' → loop_valid s'.
Proof.
  intros Hok [Hc Hst]. unfold ipcfg_step. destruct (_ || (_ <? list_number e)) eqn:Hr; [done|].
  apply orb_false_iff in Hr as [Hr1 Hr2]. unfold OPC_IPCFG_LIST_MAX_SLOTS in *. guards.
  set (verr := if ip_address e =? 0 then 0 else _). destruct (negb (verr =? 0)) eqn:Hv; [done|]. apply negb_false_iff, Z.eqb_eq in Hv.
  set (opens := (_ =? OPC_LIST_BOUNDARY_START) || _). set (closes := (_ =? OPC_LIST_BOUNDARY_END) || _).
  destruct (negb opens && negb (il_active s)) eqn:Hseq; [done|]. intros [= <-].
  assert (Hs : list_valid (if opens then il_candidate s else il_staging s)).
  { destruct opens; [done|]. apply Hst. cbn [negb andb] in Hseq. by apply negb_false_iff. }
  set (staging := if opens then _ else _) in *.
  set (staging' := if ip_address e =? 0 then _ else _).
  assert (Hs' : list_valid staging').
  { unfold staging'. assert ((Z.to_nat (list_number e - 1) < SLOTS)%nat) by (change SLOTS with 128%nat; lia).
    unfold verr in Hv. destruct (ip_address e =? 0) eqn:Hz.
    - apply set_slot_valid; try done. by left.
    - apply set_slot_valid; try done. right. apply Z.eqb_neq in Hz. split_and!; try done; [lia|].
      by eapply entry_error_terminated. }
  destruct closes; split; cbn; done.
Qed.
Lemma ipcfg_run_valid mask es : ∀ i s,
  Forall entry_ok es → loop_valid s → loop_valid (ipcfg_run mask i es s).2.
Proof.
  induction es as [|e es IH]; intros i s Hes Hs; [done|]. apply Forall_cons_1 in Hes as [He Hes].
  cbn [ipcfg_run]. destruct (ipcfg_step mask i e s) eqn:Hst; [done|]. apply IH; [done|].
  by eapply ipcfg_step_valid.
Qed.

(** *** Entries of a request *)

Lemma lor_bound a b n : 0 <= n → 0 <= a < 2 ^ n → 0 <= b < 2 ^ n → 0 <= Z.lor a b < 2 ^ n.
Proof.
  intros Hn Ha Hb. assert (H0 : 0 <= Z.lor a b) by (apply Z.lor_nonneg; lia). split; [done|].
  assert (Hs : Z.shiftr (Z.lor a b) n = 0).
  { rewrite Z.shiftr_lor, !Z.shiftr_div_pow2, !Z.div_small by lia. done. }
  rewrite Z.shiftr_div_pow2 in Hs by done. apply Z.div_small_iff in Hs; lia.
Qed.
Lemma be32_read_u32 b off : bytes_ok b → is_u32 (opc_be32_read b off).
Proof.
  intros Hb. unfold opc_be32_read, is_u32. change 4294967296 with (2 ^ 32).
  pose proof (λ o, rd_range b o Hb) as Hr. unfold is_u8 in Hr.
  repeat apply lor_bound; try lia; rewrite ?Z.shiftl_mul_pow2 by lia; cbn [Z.pow Z.pow_pos Pos.iter Z.mul Pos.mul];
    [specialize (Hr off)|specialize (Hr (off + 1))|specialize (Hr (off + 2))|specialize (Hr (off + 3))]; lia.
Qed.
Lemma unpack_ipcfg_entry_ok body off :
  bytes_ok body → 0 <= off → off + 52 <= len body → entry_ok (unpack_ipcfg_entry body off).1.
Proof.
  intros Hb Ho Hl. unfold unpack_ipcfg_entry, copy_string_field, entry_ok. cbn [fst ip_address subnet_mask
    default_gateway ntp_server essid]. split_and!; try by apply be32_read_u32.
  unfold OPC_ESSID_FIELD_LEN. rewrite len_write_at; rewrite ?len_slice; try lia. by cbn.
Qed.
Lemma unpack_entries_ok body n : ∀ i mask,
  bytes_ok body → 0 <= i → (i + Z.of_nat n) * OPC_IPCFG_ENTRY_LEN <= len body →
  Forall entry_ok (unpack_entries body i n mask).1.
Proof.
  unfold OPC_IPCFG_ENTRY_LEN.
  induction n as [|n IH]; intros i mask Hb Hi Hl; [constructor|]. cbn [unpack_entries].
  pose proof (unpack_ipcfg_entry_ok body (i * OPC_IPCFG_ENTRY_LEN) Hb) as He. unfold OPC_IPCFG_ENTRY_LEN in *.
  destruct (unpack_ipcfg_entry _ _) as [e t]. cbn [fst] in He.
  set (mask' := if t then _ else _). specialize (IH (i + 1) mask' Hb). destruct (unpack_entries body (i + 1) n mask') as [es m].
  cbn [fst] in *. constructor; [apply He; lia|apply IH; lia].
Qed.
Lemma unpack_request_ok frame req :
  bytes_ok frame → opc_set_ip_config_list_req_unpack frame = UnpackOk req → Forall entry_ok (entries req).
Proof.
  intros Hb. unfold opc_set_ip_config_list_req_unpack. destruct (opc_frame_parse frame) as [[hdr body]|] eqn:Hp; [|done].
  apply parse_wf_frame in Hp as (_ & _ & Hp).
  assert (Hbody : bytes_ok body).
  { destruct Hp as [[_ ->]|(_ & common & _ & ->)]; [constructor|]. by apply Forall_app in Hb as [_ ?]. }
  repeat (case_match; [done|]). set (n := len body / OPC_IPCFG_ENTRY_LEN).
  pose proof (unpack_entries_ok body (Z.to_nat n) 0 0 Hbody) as He.
  destruct (unpack_entries _ _ _ _) as [es mask]. intros. simplify_eq. cbn [entries fst] in *. apply He; [lia|].
  pose proof (len_nonneg body). unfold n, OPC_IPCFG_ENTRY_LEN. Z.to_euclidean_division_equations; lia.
Qed.
(** ** The disk agrees with the daemon *)

(** The own copy holds the list in effect, no binary is left, and a customer's file that
    would be applied is what the daemon last put there. *)
Definition disk_agrees (s : opcd_state_t) (d : disk) : Prop :=
  paths s = default_paths ∧
  list_valid (ip_list s) ∧ (ip_list_staging_active s = true → list_valid (ip_list_staging s)) ∧
  d_files d !! LEGACY = None ∧
  disk_read OWN (OPC_IPLIST_TEXT_MAX + 1) d = Some (list_text (ip_list s)) ∧
  ∀ b l, user_view d = UserRead b → iplist_from_text b true = Some l →
         disk_read LAST (OPC_IPLIST_IMPORT_MAX + 1) d = Some b.
(** And there is no writer, or one with nothing to do. *)
Definition restart_ok (s : opcd_state_t) (d : disk) : Prop := store_ready s ∧ disk_agrees s d.
(** The fields the agreement looks at. *)
Definition list_part (s : opcd_state_t) := (paths s, ip_list s, ip_list_staging s, ip_list_staging_active s).
Lemma agrees_part s s' d : list_part s' = list_part s → disk_agrees s d → disk_agrees s' d.
Proof. unfold list_part, disk_agrees. intros [= -> -> -> ->]. done. Qed.

Lemma restart_list s d : disk_agrees s d → iplist_same (boot_list d) (ip_list s) = true.
Proof.
  intros (Hp & Hv & _ & HL & HO & Hu).
  assert (Hb : disk_bytes d) by (unfold disk_bytes; by rewrite HL).
  assert (Hown : own_view d = (text_result d, d)).
  { unfold own_view. replace (disk_stat LEGACY d) with StatNoent by (unfold disk_stat; by rewrite HL).
    destruct (disk_stat OWN d) eqn:E; [done|exfalso..]; unfold disk_read in HO; unfold disk_stat in E; by repeat case_match. }
  pose proof (text_result_read d (ip_list s) Hv HO) as Ht.
  assert (Hboot : boot_list d = normal (ip_list s)).
  { unfold boot_list. rewrite boot_run by done. unfold boot_view. rewrite Hown, Ht.
    destruct (user_view d) as [b| | |] eqn:Huv; try done. destruct (iplist_from_text b true) as [l|] eqn:Hl; [|done].
    unfold take_view, unreplaced. rewrite (Hu b l) by done. rewrite bool_decide_eq_true_2 by done. done. }
  rewrite Hboot. apply iplist_same_text; [|done|by apply list_text_normal].
  destruct (list_text_read _ Hv) as (_ & _ & Hf). apply (from_text_valid (list_text (ip_list s)) true). by rewrite Hf.
Qed.

(** Showing a list fails and leaves the disk alone, or puts it in the customer's file and,
    when that write works, in the record. *)
Lemma shown_cases l d :
  shown l d = d ∨ shown l d = (disk_write LAST (list_text l) (disk_put USER (list_text l) d)).2.
Proof. unfold shown, disk_write at 1 3. by destruct (d_write d USER); [left|right..]. Qed.
Lemma shown_recorded l d b :
  list_valid l → d_write d LAST ≠ OPC_STORE_UNCHANGED →
  user_view (shown l d) = UserRead b →
  shown l d = d ∨ disk_read LAST (OPC_IPLIST_IMPORT_MAX + 1) (shown l d) = Some b.
Proof.
  intros Hv Hw Hb. destruct (shown_cases l d) as [?|He]; [by left|right]. rewrite He in *.
  destruct (list_text_read l Hv) as (_ & Hlen & _).
  destruct (write_done LAST (list_text l) (disk_put USER (list_text l) d)) as [Hd _]; [done|]. rewrite Hd in *.
  unfold user_view in Hb. unfold disk_put in Hb at 1. cbn in Hb.
  rewrite lookup_insert_ne, lookup_insert_eq in Hb by done. rewrite read_put by (unfold OPC_IPLIST_IMPORT_MAX; lia).
  case_match; by simplify_eq.
Qed.
(** A list that replaced the own copy, before and after it is shown. *)
Lemma agrees_stored s s' d c :
  disk_agrees s d → list_valid c → paths s' = default_paths → ip_list s' = c →
  (ip_list_staging_active s' = true → list_valid (ip_list_staging s')) →
  disk_agrees s' (disk_put OWN (list_text c) d).
Proof.
  intros (Hp & Hv & Hs & HL & HO & Hu) Hc Hp' Hl' Hs'. set (d1 := disk_put OWN (list_text c) d).
  destruct (list_text_read c Hc) as (_ & Hlen & _).
  assert (Hsame : ∀ q, q ≠ OWN → d_files d1 !! q = d_files d !! q) by (intros q Hq; unfold d1, disk_put; cbn; by apply lookup_insert_ne).
  split_and!; try done.
  - by rewrite Hl'.
  - by rewrite Hsame.
  - rewrite Hl'. apply read_put. unfold OPC_IPLIST_TEXT_MAX. lia.
  - intros b l Hb Hl. rewrite (read_local LAST _ d) by (by apply Hsame). apply (Hu b l); [|done]. unfold user_view in *. by rewrite Hsame in Hb.
Qed.
Lemma agrees_shown s d : disk_agrees s d → d_write d LAST ≠ OPC_STORE_UNCHANGED → disk_agrees s (shown (ip_list s) d).
Proof.
  intros (Hp & Hv & Hs & HL & HO & Hu) Hlast. pose proof (touches_shown (ip_list s) d) as Ht. split_and!; try done.
  - by rewrite (touched _ _ _ LEGACY Ht) by other_path.
  - by rewrite (read_local OWN _ d) by (by rewrite (touched _ _ _ OWN Ht) by other_path).
  - intros b l Hb Hl. destruct (shown_recorded (ip_list s) d b) as [He|He]; [done..| |done]. rewrite He in *. by apply (Hu b l).
Qed.
(** ** The handler *)

Lemma touch_disk_run s (d : disk) tx :
  ∃ s', session_touch (mk_world s d tx) = (tt, mk_world s' d tx) ∧ s' = s <| idle_deadline := idle_deadline s' |>.
Proof. eexists. split; [reflexivity|]. done. Qed.
Lemma restart_touch s s' d : s' = s <| idle_deadline := idle_deadline s' |> → restart_ok s d → restart_ok s' d.
Proof. intros ->. done. Qed.
Lemma persist_ip_list_run s (d : disk) tx ip port seq no_ack c :
  paths s = default_paths → store_async s = None → list_valid c →
  persist_ip_list ip port seq None no_ack c (mk_world s d tx)
  = (mk_persist (disk_write OWN (list_text c) d).1.1 false (disk_write OWN (list_text c) d).1.2,
     mk_world s (disk_write OWN (list_text c) d).2 tx).
Proof.
  intros Hp Hst Hc. unfold persist_ip_list. run. destruct (list_text_read c Hc) as (-> & _ & _).
  unfold persist_blob. run. rewrite Hst, Hp. run. cbn [p_ip_list default_paths].
  by destruct (disk_write OWN _ d) as [[rc o] d'].
Qed.
Lemma mirror_run s d tx :
  paths s = default_paths → store_async s = None → list_valid (ip_list s) →
  iplist_mirror_user (mk_world s d tx) = (tt, mk_world s (shown (ip_list s) d) tx).
Proof.
  intros Hp Hst Hv. unfold iplist_mirror_user. run. rewrite Hp. cbn [p_ip_list_user p_ip_list_user_last default_paths].
  destruct (list_text_read _ Hv) as (-> & _ & _). unfold with_store. run. rewrite Hst. run.
  destruct (write_user_run s d tx) as [rc ->]; [done..|]. by run.
Qed.
(** The candidate waits for the writer. *)
Definition list_waiting (s : opcd_state_t) : Prop :=
  list_valid (pending_ip_list s) ∧ (pending_ip_staging_active s = true → list_valid (pending_ip_staging s)) ∧ 0 <= udp_fd s ∧
  (∃ a, store_async s = Some a ∧ queued a OWN "" (list_text (pending_ip_list s)) 420 0) ∧
  ∃ pa ps, pending_acks s = pa :: ps ∧ Forall (λ p, pa_in_use p = false) ps ∧
    pa_in_use pa = true ∧ pa_resource pa = OPCD_PERSIST_IP_LIST ∧ pa_req_id pa = OPC_REQ_SET_IP_CONFIG_LIST.
Lemma store_sync_restart s d tx req ip port seq :
  store_async s = None → disk_agrees s d → d_write d LAST ≠ OPC_STORE_UNCHANGED → Forall entry_ok (entries req) →
  let w := (set_ip_config_store req ip port seq (mk_world s d tx)).2 in store_async (w_st w) = None ∧ disk_agrees (w_st w) (w_env w).
Proof.
  intros Hst Hr Hlast Hes. pose proof Hr as (Hp & Hv & Hs & _).
  unfold set_ip_config_store, persist_admit. run. rewrite Hst. run.
  pose proof (ipcfg_run_valid (essid_terminated_mask req) (entries req) 0
    (mk_ipcfg_loop (ip_list s) (ip_list_staging s) (ip_list_staging_active s) false) Hes (conj Hv Hs)) as [Hc Hstg].
  destruct (ipcfg_run _ _ _ _) as [err lp]. cbn [snd] in *.
  destruct (touch_disk_run s d tx) as (s1 & -> & Hs1). run.
  assert (Hst1 : store_async s1 = None) by (by rewrite Hs1). assert (Hp1 : paths s1 = default_paths) by (by rewrite Hs1).
  assert (Hr1 : disk_agrees s1 d) by (eapply agrees_part; [|exact Hr]; by rewrite Hs1).
  destruct (il_committed lp).
  - rewrite persist_ip_list_run by done. run. cbn [pr_deferred pr_outcome].
    unfold disk_write. destruct (d_write d OWN) eqn:Hw; cbn [fst snd].
    + rewrite bool_decide_eq_false_2 by naive_solver. by run.
    + rewrite bool_decide_eq_true_2 by done. run. rewrite mirror_run by done. run. split; [exact Hst1|]. apply (agrees_shown (((s1 <| ip_list := _ |>) <| ip_list_staging := _ |>) <| ip_list_staging_active := _ |>)); [|done].
      by eapply agrees_stored.
    + rewrite bool_decide_eq_true_2 by done. run. rewrite mirror_run by done. run. split; [exact Hst1|]. apply (agrees_shown (((s1 <| ip_list := _ |>) <| ip_list_staging := _ |>) <| ip_list_staging_active := _ |>)); [|done].
      by eapply agrees_stored.
  - destruct Hr1 as (H1 & H3 & H4 & H5 & H6 & H7). run. split; [done|]. by split_and!.
Qed.
(** With the writer the request changes no file: the list stays, or the candidate waits. *)
Lemma store_async_restart s a d tx req ip port seq :
  store_async s = Some a → idle a → acks_free s → 0 <= udp_fd s → disk_agrees s d → Forall entry_ok (entries req) →
  let w := (set_ip_config_store req ip port seq (mk_world s d tx)).2 in
  w_env w = d ∧ disk_agrees (w_st w) d ∧ (store_ready (w_st w) ∨ list_waiting (w_st w)).
Proof.
  intros Ha Hi Hf Hu Hr Hes. pose proof Hr as (Hp & Hv & Hs & _). unfold set_ip_config_store. run.
  assert (Hj : job_fits (p_ip_list (paths s)) OPC_IPLIST_TEXT_MAX) by (rewrite Hp; split; vm_compute; [congruence|lia]).
  destruct (admit_idle s a d tx OPCD_PERSIST_IP_LIST _ _ Ha Hi Hf Hj) as (a1 & -> & Hres). run. rewrite Hp in Hres. cbn [p_ip_list default_paths] in Hres.
  set (s1 := s <| store_async := Some a1 |>). assert (Hr1 : disk_agrees s1 d) by exact Hr.
  pose proof (ipcfg_run_valid (essid_terminated_mask req) (entries req) 0
    (mk_ipcfg_loop (ip_list s) (ip_list_staging s) (ip_list_staging_active s) false) Hes (conj Hv Hs)) as [Hc Hstg].
  change (ip_list s1) with (ip_list s). change (ip_list_staging s1) with (ip_list_staging s). change (ip_list_staging_active s1) with (ip_list_staging_active s).
  destruct (ipcfg_run _ _ _ _) as [err lp]. cbn [snd] in *.
  destruct (touch_disk_run s1 d tx) as (s2 & -> & Hs2). run.
  assert (Hst2 : store_async s2 = Some a1) by (by rewrite Hs2). assert (Hp2 : paths s2 = default_paths) by (by rewrite Hs2).
  assert (Hf2 : acks_free s2) by (by rewrite Hs2). assert (Hu2 : 0 <= udp_fd s2) by (by rewrite Hs2).
  assert (Hr2 : disk_agrees s2 d) by (eapply agrees_part; [|exact Hr1]; by rewrite Hs2).
  destruct (il_committed lp).
  - unfold persist_ip_list. run. destruct (list_text_read _ Hc) as (-> & Hlen & _). run.
    assert (Hl : len (list_text (il_candidate lp)) <= OPC_IPLIST_TEXT_MAX) by (unfold OPC_IPLIST_TEXT_MAX; lia).
    destruct (blob_reserved s2 a1 d tx OWN (p_ip_list (paths s2)) _ (list_text (il_candidate lp)) 420 OPCD_PERSIST_IP_LIST (bool_decide (is_Some err))
                OPC_REQ_SET_IP_CONFIG_LIST ip port seq Hst2 Hres Hf2 Hl) as (a3 & -> & Hq). run. cbn [pr_deferred]. run.
    split; [done|]. split; [exact Hr2|]. right. destruct Hf2 as (p & ps & Hps & Hp0 & Hfr).
    split; [exact Hc|]. split; [exact Hstg|]. split; [exact Hu2|]. split; [by exists a3|].
    eexists _, ps. split; [cbn; rewrite Hps; reflexivity|]. done.
  - run. set (s3 := (s2 <| ip_list_staging := _ |>) <| ip_list_staging_active := _ |>). assert (Hst3 : store_async s3 = Some a1) by exact Hst2.
    destruct (cancel_run s3 a1 d tx _ _ _ Hst3 Hres) as (a4 & -> & Hi4). run. split; [done|]. split; [|left; split; [exact Hi4|]; split; [exact Hf2|exact Hu2]].
    destruct Hr2 as (H1 & H3 & H4 & H5 & H6 & H7). by split_and!.
Qed.

(** *** Completions *)

Lemma done_list_tail s (d : disk) tx : ∃ s', (st ← get (E := disk);
    if ip_change_logout_deferred st then
      modify (λ s, s <| ip_change_logout_deferred := false |>);;
      if ip_change_pending st && negb (ip_change_commit_armed st) then arm_ip_change_from_committed else mret tt
    else mret tt) (mk_world s d tx) = (tt, mk_world s' d tx) ∧ list_part s' = list_part s ∧ store_part s' = store_part s.
Proof.
  run. destruct (ip_change_logout_deferred s); run; [|by eexists]. destruct (_ && _); run; [|by eexists].
  unfold arm_ip_change_from_committed. run. eexists. split; [reflexivity|]. by repeat case_match.
Qed.
Lemma done_list_unchanged s d tx : ∃ s', on_done_ip_list OPC_STORE_UNCHANGED (mk_world s d tx) = (tt, mk_world s' d tx) ∧
  list_part s' = list_part s ∧ store_part s' = store_part s.
Proof.
  unfold on_done_ip_list. rewrite bool_decide_eq_false_2 by naive_solver.
  set (s1 := (((s <| pending_ip_list := ip_list_zero |>) <| pending_ip_staging := ip_list_zero |>) <| pending_ip_staging_active := false |>)
               <| pending_ip_staging_session_generation := 0 |>).
  destruct (done_list_tail s1 d tx) as (s' & Et & Hl & Hs). exists s'. split; [exact Et|]. split; [exact Hl|exact Hs].
Qed.
Lemma mirror_queued s a d tx : store_async s = Some a → idle a → paths s = default_paths → list_valid (ip_list s) →
  ∃ a', iplist_mirror_user (mk_world s d tx) = (tt, mk_world (s <| store_async := Some a' |>) d tx) ∧
    queued a' USER LAST (list_text (ip_list s)) 420 OPCD_STORE_TOKEN_MIRROR.
Proof.
  intros Ha Hi Hp Hv. unfold iplist_mirror_user. run. rewrite Hp. cbn [p_ip_list_user p_ip_list_user_last default_paths].
  destruct (list_text_read _ Hv) as (-> & Hlen & _).
  assert (Hj : job_fits USER (len (list_text (ip_list s)))) by (split; [unfold OPC_STORE_ASYNC_DATA_MAX; lia|vm_compute; lia]).
  destruct (submit_echo_idle a USER LAST (list_text (ip_list s)) 420 OPCD_STORE_TOKEN_MIRROR Hi Hj ltac:(vm_compute; lia)) as (a' & Hs & Hq).
  exists a'. split; [|done]. unfold with_store. run. rewrite Ha, Hs. by run.
Qed.
Lemma done_list_replaced s a o d tx : o ≠ OPC_STORE_UNCHANGED →
  store_async s = Some a → idle a → paths s = default_paths → list_valid (pending_ip_list s) →
  ∃ s' a', on_done_ip_list o (mk_world s d tx) = (tt, mk_world s' d tx) ∧
    queued a' USER LAST (list_text (pending_ip_list s)) 420 OPCD_STORE_TOKEN_MIRROR ∧ store_part s' = (Some a', pending_acks s, udp_fd s) ∧
    paths s' = default_paths ∧ ip_list s' = pending_ip_list s ∧
    ((ip_list_staging s', ip_list_staging_active s') = (pending_ip_staging s, pending_ip_staging_active s) ∨
     (ip_list_staging s', ip_list_staging_active s') = (ip_list_staging s, ip_list_staging_active s)).
Proof.
  intros Ho Ha Hi Hp Hv. set (s1 := s <| ip_list := pending_ip_list s |>).
  assert (Ha1 : store_async s1 = Some a) by exact Ha. assert (Hp1 : paths s1 = default_paths) by exact Hp. assert (Hv1 : list_valid (ip_list s1)) by exact Hv.
  destruct (mirror_queued s1 a d tx Ha1 Hi Hp1 Hv1) as (a' & Em & Hq). set (s2 := s1 <| store_async := Some a' |>) in *.
  set (s3 := if logged_in s2 && (session_generation s2 =? pending_ip_staging_session_generation s2)
             then (s2 <| ip_list_staging := pending_ip_staging s2 |>) <| ip_list_staging_active := pending_ip_staging_active s2 |> else s2).
  set (s4 := (((s3 <| pending_ip_list := ip_list_zero |>) <| pending_ip_staging := ip_list_zero |>) <| pending_ip_staging_active := false |>)
               <| pending_ip_staging_session_generation := 0 |>).
  destruct (done_list_tail s4 d tx) as (s5 & Et & Hl & Hs). exists s5, a'. split.
  { unfold on_done_ip_list. rewrite bool_decide_eq_true_2 by done. rewrite <- Et. run. fold s1. rewrite Em. reflexivity. }
  split; [exact Hq|]. unfold list_part in Hl. injection Hl as L1 L2 L3 L4. rewrite Hs, L1, L2, L3, L4. unfold s4, s3.
  destruct (_ && _); cbn; split_and!; try done; by auto.
Qed.
(** The completion's answer leaves the disk alone. *)
Lemma done_first_disk s (d : disk) tx pa rc o s1 :
  pending_acks s !! 0%nat = Some pa → pa_in_use pa = true → pa_resource pa = OPCD_PERSIST_IP_LIST → pa_req_id pa = OPC_REQ_SET_IP_CONFIG_LIST →
  on_done_ip_list o (mk_world s d tx) = (tt, mk_world s1 d tx) → 0 <= udp_fd s1 →
  ∃ tx', on_done (mk_done 0 rc o) (mk_world s d tx) = (tt, mk_world (free_first s1) d tx').
Proof.
  intros Hp Hu Hr Hq He Hfd. rewrite (on_done_first s d tx pa rc o s1 d); try done.
  - destruct (pa_no_ack pa); by eexists.
  - rewrite Hq. by vm_compute; right; left.
  - unfold done_effect, mbind, M_bind. by rewrite Hr, He, Hq.
Qed.
Lemma ready_settles s d tx : restart_ok s d → let w := (settle (mk_world s d tx)).2 in restart_ok (w_st w) (w_env w).
Proof.
  intros [Hr Hd]. unfold store_ready in Hr. destruct (store_async s) as [a|] eqn:Ha.
  - destruct Hr as (Hi & Hf & Hu). destruct (settle_idle s a d tx Ha Hi) as (a' & -> & Hi'). split; [split; [exact Hi'|]; split; [exact Hf|exact Hu]|exact Hd].
  - rewrite settle_none by done. cbn [w_st w_env snd]. split; [|done]. unfold store_ready. by rewrite Ha.
Qed.
Lemma ready_free s a pa ps : store_async s = Some a → idle a → 0 <= udp_fd s → pending_acks s = pa :: ps → Forall (λ p, pa_in_use p = false) ps → store_ready (free_first s).
Proof.
  intros Ha Hi Hu Hp Hf. unfold store_ready. change (store_async (free_first s)) with (store_async s). rewrite Ha. split; [done|]. split; [|exact Hu].
  exists (pa <| pa_in_use := false |>), ps. unfold free_first. cbn. by rewrite Hp.
Qed.
(** The copy for the customer is shown by the writer's second job. *)
Lemma mirror_settles s a d tx : disk_agrees s d → d_write d LAST ≠ OPC_STORE_UNCHANGED → store_async s = Some a →
  queued a USER LAST (list_text (ip_list s)) 420 OPCD_STORE_TOKEN_MIRROR → acks_free s → 0 <= udp_fd s →
  let w := (settle (mk_world s d tx)).2 in restart_ok (w_st w) (w_env w).
Proof.
  intros Hd Hlast Ha Hq Hf Hu. pose proof (settle_queued s a d tx _ _ _ _ _ Ha Hq) as Hset. cbn [env_write disk_env] in Hset.
  pose proof (agrees_shown s d Hd Hlast) as Hsh. unfold shown in Hsh. destruct (disk_write USER _ d) as [[rc o] d1]. destruct Hset as (a' & Hi & ->).
  assert (He : echo_write LAST (list_text (ip_list s)) 420 o d1 = if bool_decide (o ≠ OPC_STORE_UNCHANGED) then (disk_write LAST (list_text (ip_list s)) d1).2 else d1)
    by (by destruct o).
  rewrite He. split; [split; [exact Hi|]; split; [exact Hf|exact Hu]|exact Hsh].
Qed.
Lemma list_waiting_settles s d tx : list_waiting s → disk_agrees s d → d_write d LAST ≠ OPC_STORE_UNCHANGED →
  let w2 := (settle (mk_world s d tx)).2 in let w3 := (settle w2).2 in
  disk_agrees (w_st w2) (w_env w2) ∧ restart_ok (w_st w3) (w_env w3).
Proof.
  intros (Hc & Hs & Hu & (a & Ha & Hq) & (pa & ps & Hp & Hf & P1 & P2 & P3)) Hd Hlast.
  pose proof (settle_queued s a d tx _ _ _ _ _ Ha Hq) as Hset. cbn [env_write disk_env] in Hset. unfold disk_write in Hset.
  assert (Hp0 : pending_acks s !! 0%nat = Some pa) by (by rewrite Hp).
  destruct (decide (d_write d OWN = OPC_STORE_UNCHANGED)) as [Hw|Hw].
  - rewrite Hw in Hset. destruct Hset as (a' & Hi & ->). set (s1 := s <| store_async := Some a' |>).
    change (echo_write "" (list_text (pending_ip_list s)) 420 OPC_STORE_UNCHANGED d) with d.
    destruct (done_list_unchanged s1 d tx) as (s2 & E2 & Hl2 & Hs2). unfold store_part in Hs2. injection Hs2 as S1 S2 S3.
    destruct (done_first_disk s1 d tx pa (-1) OPC_STORE_UNCHANGED s2 Hp0 P1 P2 P3 E2) as (tx' & ->); [by rewrite S3|].
    assert (Hr : restart_ok (free_first s2) d).
    { split; [by apply (ready_free s2 a' pa ps); rewrite ?S1, ?S2, ?S3|]. by eapply agrees_part; [|exact Hd]. }
    split; [apply Hr|by apply ready_settles].
  - assert (Hout : ∃ rc o, (match d_write d OWN with
        | OPC_STORE_UNCHANGED => (-1, OPC_STORE_UNCHANGED, d)
        | OPC_STORE_REPLACED_UNSYNCED => (-1, OPC_STORE_REPLACED_UNSYNCED, disk_put OWN (list_text (pending_ip_list s)) d)
        | OPC_STORE_DURABLE => (0, OPC_STORE_DURABLE, disk_put OWN (list_text (pending_ip_list s)) d) end) =
        (rc, o, disk_put OWN (list_text (pending_ip_list s)) d) ∧ o ≠ OPC_STORE_UNCHANGED) by (destruct (d_write d OWN); [done|by do 2 eexists..]).
    destruct Hout as (rc & o & Eo & Ho). rewrite Eo in Hset. destruct Hset as (a' & Hi & ->). set (s1 := s <| store_async := Some a' |>).
    set (d1 := disk_put OWN _ d). change (echo_write "" (list_text (pending_ip_list s)) 420 o d1) with d1.
    assert (Ha1 : store_async s1 = Some a') by reflexivity. pose proof Hd as (Hpa & _ & Hst & _).
    destruct (done_list_replaced s1 a' o d1 tx Ho Ha1 Hi Hpa Hc) as (s2 & a2 & E2 & Hq2 & Hs2 & L1 & L2 & L3). unfold store_part in Hs2. injection Hs2 as S1 S2 S3.
    destruct (done_first_disk s1 d1 tx pa rc o s2 Hp0 P1 P2 P3 E2) as (tx' & ->); [by rewrite S3|]. cbn [w_st w_env snd].
    assert (Hd2 : disk_agrees (free_first s2) d1).
    { apply (agrees_stored s _ d (pending_ip_list s) Hd Hc L1 L2). change (ip_list_staging_active s2 = true → list_valid (ip_list_staging s2)).
      destruct L3 as [[= -> ->]|[= -> ->]]; [exact Hs|exact Hst]. }
    split; [exact Hd2|]. apply (mirror_settles (free_first s2) a2); [exact Hd2|exact Hlast|exact S1| | |change (0 <= udp_fd s2); by rewrite S3].
    { change (ip_list (free_first s2)) with (ip_list s2). rewrite L2. exact Hq2. }
    exists (pa <| pa_in_use := false |>), ps. unfold free_first. cbn. by rewrite S2, Hp.
Qed.

(** C7: a list a client sets survives a restart. From a daemon whose files agree with the
    list in effect, without a writer or with one that has nothing to do, and any
    SetIpConfigList request (accepted, rejected half-way, or with an own copy that could not
    be written, and whether or not the copy in the customer's file could be written): a
    restart after the request, after the writer's write of the own copy and its completion,
    and after its write of the customer's copy finds exactly the list then in effect; only
    the small record of the customer's bytes must be writable. The writer is at rest again. *)
Theorem set_ip_config_survives_restart s d tx frame ip port rcap seq :
  restart_ok s d → d_write d LAST ≠ OPC_STORE_UNCHANGED → bytes_ok frame →
  let w1 := (handle_set_ip_config_list frame ip port rcap seq (mk_world s d tx)).2 in
  let w2 := (settle w1).2 in let w3 := (settle w2).2 in
  restart_ok (w_st w3) (w_env w3) ∧
  Forall (λ w, iplist_same (boot_list (w_env w)) (ip_list (w_st w)) = true) [w1; w2; w3].
Proof.
  intros Hr Hlast Hb w1 w2 w3.
  assert (Hstage : disk_agrees (w_st w1) (w_env w1) ∧ (store_ready (w_st w1) ∨ list_waiting (w_st w1) ∧ w_env w1 = d)).
  { unfold w1, handle_set_ip_config_list. run. destruct Hr as [Hrdy Hd].
    destruct (opc_set_ip_config_list_req_unpack frame) as [req| |] eqn:Hu; run; [|by auto..].
    apply unpack_request_ok in Hu; [|done]. unfold check_login_required. run.
    destruct (negb (logged_in s)); run; [by auto|]. destruct (negb (session_owns s ip)); run; [by auto|].
    destruct (touch_disk_run s d tx) as (s1 & -> & Hs1). run. pose proof (restart_touch _ _ _ Hs1 (conj Hrdy Hd)) as [Hrdy1 Hd1].
    destruct (is_request_retransmission _ _ _ _); run.
    - destruct (touch_disk_run s1 d tx) as (s2 & -> & Hs2). run. destruct (restart_touch _ _ _ Hs2 (conj Hrdy1 Hd1)) as [Hrdy2 Hd2]. auto.
    - pose proof Hrdy1 as Hrdy1'. unfold store_ready in Hrdy1'. destruct (store_async s1) as [a|] eqn:Ha.
      + destruct Hrdy1' as (Hi & Hf & Hfd). pose proof (store_async_restart s1 a d tx req ip port seq Ha Hi Hf Hfd Hd1 Hu) as H.
        destruct (set_ip_config_store _ _ _ _ _) as [r w']. cbn [fst snd] in *. destruct H as (-> & H2 & H3). split; [done|]. destruct H3; auto.
      + pose proof (store_sync_restart s1 d tx req ip port seq Ha Hd1 Hlast Hu) as H.
        destruct (set_ip_config_store _ _ _ _ _) as [r w']. cbn [fst snd] in *. destruct H as [H1 H2]. split; [done|]. left. unfold store_ready. by rewrite H1. }
  destruct Hstage as [Hd1 Hs]. assert (H23 : disk_agrees (w_st w2) (w_env w2) ∧ restart_ok (w_st w3) (w_env w3)).
  { unfold w3, w2. destruct w1 as [s1 e1 tx1]. cbn [w_st w_env] in Hd1, Hs. destruct Hs as [Hs|[Hs ->]]; [|by apply list_waiting_settles].
    pose proof (ready_settles s1 e1 tx1 (conj Hs Hd1)) as Hr2. destruct (settle (mk_world s1 e1 tx1)) as [[] [s2 e2 tx2]]. cbn [w_st w_env snd] in *.
    split; [apply Hr2|by apply ready_settles]. }
  destruct H23 as [H2 H3]. split; [done|]. repeat constructor; [by apply restart_list..|]. by apply restart_list, H3.
Qed.
(** The client sets slot 1 while the customer's file cannot be written. *)
Definition demo_set_disk : disk :=
  mk_disk {[ OWN := NFile [] (5, 0); USER := NFile [] (5, 0); LAST := NFile [] (5, 0) ]} (9, 0)
    (λ p, if bool_decide (p = USER) then OPC_STORE_UNCHANGED else OPC_STORE_DURABLE) true.
Definition demo_set_frame : list Z :=
  default [] (opc_set_ip_config_list_req_pack 2048 7 {| entries := [demo_slot1]; essid_terminated_mask := 1 |}).
Lemma demo_restart_ok : restart_ok demo_writer demo_set_disk.
Proof.
  split; [exact demo_writer_ready|]. split_and!; try done; [apply zero_valid|]. intros b l Hb _. assert (b = []) as -> by (vm_compute in Hb; congruence).
  by vm_compute.
Qed.
Lemma set_ip_config_survives_restart_witness :
  let w1 := (handle_set_ip_config_list demo_set_frame demo_client 5000 2048 7 (mk_world demo_writer demo_set_disk [])).2 in
  let w2 := (settle w1).2 in let w3 := (settle w2).2 in
  (present (ip_list (w_st w1)) !! 0%nat, present (ip_list (w_st w2)) !! 0%nat) = (Some 0, Some 1) ∧
  restart_ok (w_st w3) (w_env w3) ∧
  Forall (λ w, iplist_same (boot_list (w_env w)) (ip_list (w_st w)) = true) [w1; w2; w3].
Proof.
  split; [vm_compute; reflexivity|]. apply set_ip_config_survives_restart.
  - exact demo_restart_ok.
  - vm_compute. discriminate.
  - apply (bool_decide_unpack _). vm_compute. exact I.
Defined.
End IpListRestart.
