(* ===== verification/Nl80211.v ===== *)
(** * nl80211 events: opcd/nl80211_parse.h, opcd/nl80211_parse.c

    The netlink attribute parser on a message of bytes. Every access goes through a read
    that fails when it is out of bounds, and the loops carry fuel, so that "no read leaves
    the buffer" and "the loops end" are statements about the result. The host is
    little-endian; pointers into the message are offsets. *)
From S2P Require Import Prelude.
From stdpp Require Import base list numbers option tactics strings.
From Stdlib Require Import ZArith Lia.
#[local] Open Scope Z_scope.

Module Nl80211.

(** ** Constants *)
Definition NL_NLMSGHDR_LEN : Z := 16.
Definition NL_GENLMSGHDR_LEN : Z := 4.
Definition NL_NLATTR_HDR_LEN : Z := 4.
Definition NL80211_CMD_GET_INTERFACE : Z := 5.
Definition NL80211_CMD_NEW_INTERFACE : Z := 7.
Definition NL80211_CMD_DEAUTHENTICATE : Z := 39.
Definition NL80211_CMD_DISASSOCIATE : Z := 40.
Definition NL80211_CMD_CONNECT : Z := 46.
Definition NL80211_CMD_ROAM : Z := 47.
Definition NL80211_CMD_DISCONNECT : Z := 48.
Definition NL80211_CMD_CH_SWITCH_NOTIFY : Z := 88.
Definition NL80211_ATTR_IFINDEX : Z := 3.
Definition NL80211_ATTR_MAC : Z := 6.
Definition NL80211_ATTR_FRAME : Z := 51.
Definition NL80211_ATTR_WIPHY_FREQ : Z := 38.
Definition NL80211_ATTR_STATUS_CODE : Z := 72.
Definition NL80211_ATTR_REASON_CODE : Z := 54.
Definition NL80211_ATTR_DISCONNECTED_BY_AP : Z := 71.
Definition NL80211_ATTR_SSID : Z := 52.
Definition CTRL_ATTR_FAMILY_ID : Z := 1.
Definition CTRL_ATTR_MCAST_GROUPS : Z := 7.
Definition CTRL_ATTR_MCAST_GRP_NAME : Z := 1.
Definition CTRL_ATTR_MCAST_GRP_ID : Z := 2.
Definition NLM_F_REQUEST : Z := 1.
Definition NLA_TYPE_MASK : Z := 16383.
(** [~3u] is a 32-bit constant. *)
Definition NLA_ALIGN (n : Z) : Z := Z.land (n + 3) 4294967292.

(** ** Checked access *)

Inductive res (A : Type) := Ok (a : A) | OutOfBounds | OutOfFuel.
Arguments Ok {A} a.
Arguments OutOfBounds {A}.
Arguments OutOfFuel {A}.
#[global] Instance res_ret : MRet res := λ A a, Ok a.
#[global] Instance res_bind : MBind res := λ A B k m,
  match m with Ok a => k a | OutOfBounds => OutOfBounds | OutOfFuel => OutOfFuel end.

Definition byte_at (b : list Z) (off : Z) : res Z :=
  if (0 <=? off) && (off <? len b) then Ok (rd b off) else OutOfBounds.
Definition bytes_at (b : list Z) (off n : Z) : res (list Z) :=
  if (0 <=? off) && (off + n <=? len b) then Ok (slice off n b) else OutOfBounds.
Definition rd_u16 (b : list Z) (off : Z) : res Z :=
  p ← bytes_at b off 2; mret (rd p 0 + 256 * rd p 1).
Definition rd_u32 (b : list Z) (off : Z) : res Z :=
  p ← bytes_at b off 4; mret (rd p 0 + 256 * rd p 1 + 65536 * rd p 2 + 16777216 * rd p 3).

(** ** Events *)

Inductive opcd_nl_kind_t :=
  OPCD_NL_IGNORE | OPCD_NL_CONNECT | OPCD_NL_DISCONNECT | OPCD_NL_ROAM | OPCD_NL_CH_SWITCH
| OPCD_NL_INTERFACE | OPCD_NL_DEAUTH | OPCD_NL_DISASSOC.
#[global] Instance nl_kind_eq_dec : EqDecision opcd_nl_kind_t.
Proof. solve_decision. Defined.

(** [ssid]: the 33-byte array. *)
Record opcd_nl_evt_t := mk_nl_evt {
  e_kind : opcd_nl_kind_t; e_ifindex : Z; e_freq_mhz : Z; e_channel : Z; e_mac : list Z;
  e_mac_present : bool; e_ap_frame_mac : list Z; e_reason_code : Z; e_status_code : Z;
  e_by_ap : bool; e_ssid : list Z; e_ssid_present : bool }.
#[global] Instance eta_nl_evt : Eta opcd_nl_evt_t := λ e,
  mk_nl_evt (e_kind e) (e_ifindex e) (e_freq_mhz e) (e_channel e) (e_mac e) (e_mac_present e)
    (e_ap_frame_mac e) (e_reason_code e) (e_status_code e) (e_by_ap e) (e_ssid e) (e_ssid_present e).
Definition nl_evt_zero : opcd_nl_evt_t :=
  mk_nl_evt OPCD_NL_IGNORE 0 0 0 (zeros 6) false (zeros 6) 0 0 false (zeros 33) false.

Definition freq_to_channel (freq_mhz : Z) : Z :=
  if (2412 <=? freq_mhz) && (freq_mhz <=? 2472) then u16 ((freq_mhz - 2407) / 5)
  else if freq_mhz =? 2484 then 14
  else if (5000 <=? freq_mhz) && (freq_mhz <=? 5895) then u16 ((freq_mhz - 5000) / 5)
  else if (5955 <=? freq_mhz) && (freq_mhz <=? 7115) then u16 ((freq_mhz - 5950) / 5)
  else 0.

Definition cmd_to_kind (cmd : Z) : opcd_nl_kind_t :=
  if cmd =? NL80211_CMD_CONNECT then OPCD_NL_CONNECT
  else if cmd =? NL80211_CMD_ROAM then OPCD_NL_ROAM
  else if cmd =? NL80211_CMD_DISCONNECT then OPCD_NL_DISCONNECT
  else if cmd =? NL80211_CMD_DEAUTHENTICATE then OPCD_NL_DEAUTH
  else if cmd =? NL80211_CMD_DISASSOCIATE then OPCD_NL_DISASSOC
  else if cmd =? NL80211_CMD_CH_SWITCH_NOTIFY then OPCD_NL_CH_SWITCH
  else if cmd =? NL80211_CMD_NEW_INTERFACE then OPCD_NL_INTERFACE
  else OPCD_NL_IGNORE.

(** The attribute loop over the [blen] bytes from [base] on, at offset [off] of them. The
    body gets the type, the offset of the payload and its length; its flag is [break]. *)
Fixpoint walk {A} (fuel : nat) (msg : list Z) (base blen off : Z)
    (body : Z → Z → Z → A → res (A * bool)) (acc : A) : res A :=
  if negb (off + NL_NLATTR_HDR_LEN <=? blen) then Ok acc
  else match fuel with
  | O => OutOfFuel
  | S fuel =>
      nla_len ← rd_u16 msg (base + off);
      nla_type ← rd_u16 msg (base + off + 2);
      let nla_type := Z.land nla_type NLA_TYPE_MASK in
      if nla_len <? NL_NLATTR_HDR_LEN then mret acc
      else if blen - off <? nla_len then mret acc
      else
        '(acc, stop) ← body nla_type (base + off + NL_NLATTR_HDR_LEN) (nla_len - NL_NLATTR_HDR_LEN) acc;
        if (stop : bool) then mret acc
        else
          let advance := NLA_ALIGN nla_len in
          if off + advance <=? off then mret acc
          else walk fuel msg base blen (off + advance) body acc
  end.

(** The [NL80211_ATTR_FRAME] case: the transmitter of an AP-sent management frame. *)
Definition ap_frame_mac (msg : list Z) (kind : opcd_nl_kind_t) (pl pl_len : Z) : res (option (list Z)) :=
  let subtype := if bool_decide (kind = OPCD_NL_DEAUTH) then 192 else 160 in
  if bool_decide (kind = OPCD_NL_DEAUTH ∨ kind = OPCD_NL_DISASSOC) && (26 <=? pl_len) then
    c0 ← byte_at msg pl;
    if negb (c0 =? subtype) then mret None else
    c1 ← byte_at msg (pl + 1);
    if negb (Z.land c1 3 =? 0) then mret None else
    c10 ← byte_at msg (pl + 10);
    if negb (Z.land c10 1 =? 0) then mret None else
    ta ← bytes_at msg (pl + 10) 6;
    bssid ← bytes_at msg (pl + 16) 6;
    mret (if bool_decide (ta ≠ zeros 6) && bool_decide (ta = bssid) then Some ta else None)
  else mret None.

Definition evt_attr (msg : list Z) (kind : opcd_nl_kind_t) (nla_type pl pl_len : Z) (out : opcd_nl_evt_t)
    : res (opcd_nl_evt_t * bool) :=
  out ←
    (if nla_type =? NL80211_ATTR_IFINDEX then
       if 4 <=? pl_len then v ← rd_u32 msg pl; mret (out <| e_ifindex := i32 v |>) else mret out
     else if nla_type =? NL80211_ATTR_WIPHY_FREQ then
       if 4 <=? pl_len then
         v ← rd_u32 msg pl; mret ((out <| e_freq_mhz := v |>) <| e_channel := freq_to_channel v |>)
       else mret out
     else if nla_type =? NL80211_ATTR_STATUS_CODE then
       if 2 <=? pl_len then v ← rd_u16 msg pl; mret (out <| e_status_code := v |>) else mret out
     else if nla_type =? NL80211_ATTR_REASON_CODE then
       if 2 <=? pl_len then v ← rd_u16 msg pl; mret (out <| e_reason_code := v |>) else mret out
     else if nla_type =? NL80211_ATTR_MAC then
       if 6 <=? pl_len then
         m ← bytes_at msg pl 6; mret ((out <| e_mac := m |>) <| e_mac_present := true |>)
       else mret out
     else if nla_type =? NL80211_ATTR_FRAME then
       m ← ap_frame_mac msg kind pl pl_len;
       mret (match m with Some m => out <| e_ap_frame_mac := m |> | None => out end)
     else if nla_type =? NL80211_ATTR_DISCONNECTED_BY_AP then mret (out <| e_by_ap := true |>)
     else if nla_type =? NL80211_ATTR_SSID then
       if (0 <? pl_len) && (pl_len <=? 32) then
         s ← bytes_at msg pl pl_len;
         mret ((out <| e_ssid := write_at 0 (s ++ [0]) (e_ssid out) |>) <| e_ssid_present := true |>)
       else mret out
     else mret out);
  mret (out, false).

(** The result 0 with the event, or -1 with the event as it was left. The message is at
    most as long as its bytes, so their number is enough fuel ([parse_evt_safe]). *)
Definition nl80211_parse_evt (msg : list Z) (family_id : Z) : res (Z * opcd_nl_evt_t) :=
  let ln := len msg in
  if ln <? NL_NLMSGHDR_LEN + NL_GENLMSGHDR_LEN then mret (-1, nl_evt_zero)
  else if (family_id <? 0) || (65535 <? family_id) then mret (-1, nl_evt_zero)
  else
    nlmsg_type ← rd_u16 msg 4;
    if negb (nlmsg_type =? u16 family_id) then mret (-1, nl_evt_zero)
    else
      cmd ← byte_at msg NL_NLMSGHDR_LEN;
      let kind := cmd_to_kind cmd in
      if bool_decide (kind = OPCD_NL_IGNORE) then mret (-1, nl_evt_zero)
      else
        out ← walk (length msg) msg 0 ln (NL_NLMSGHDR_LEN + NL_GENLMSGHDR_LEN) (evt_attr msg kind)
                (nl_evt_zero <| e_kind := kind |>);
        mret (0, out).

(** ** Family resolution *)

(** The locals of [ctrl_grp_is_mlme]. *)
Record grp := mk_grp { g_id : option Z; g_mlme : bool }.
#[global] Instance eta_grp : Eta grp := λ g, mk_grp (g_id g) (g_mlme g).
Definition grp_attr (msg : list Z) (nla_type pl pl_len : Z) (g : grp) : res (grp * bool) :=
  g ← (if nla_type =? CTRL_ATTR_MCAST_GRP_NAME then
         if 5 <=? pl_len then
           s ← bytes_at msg pl 5;
           mret (if bool_decide (s = str "mlme" ++ [0]) then g <| g_mlme := true |> else g)
         else mret g
       else if nla_type =? CTRL_ATTR_MCAST_GRP_ID then
         if 4 <=? pl_len then v ← rd_u32 msg pl; mret (g <| g_id := Some (u16 v) |>) else mret g
       else mret g);
  mret (g, false).
(** The group's id when it is the mlme group. *)
Definition ctrl_grp_is_mlme (msg : list Z) (base blen : Z) : res (option Z) :=
  g ← walk (length msg) msg base blen 0 (grp_attr msg) (mk_grp None false);
  mret (if g_mlme g then g_id g else None).

(** One element of the group array; its own type is the index, unused. *)
Definition groups_elem (msg : list Z) (e_type epl epl_len : Z) (found : option Z) : res (option Z * bool) :=
  r ← ctrl_grp_is_mlme msg epl epl_len;
  mret (match r with Some id => (Some id, true) | None => (found, false) end).

Record ctrl := mk_ctrl { c_family : option Z; c_mlme : option Z }.
#[global] Instance eta_ctrl : Eta ctrl := λ c, mk_ctrl (c_family c) (c_mlme c).
Definition ctrl_attr (msg : list Z) (nla_type pl pl_len : Z) (c : ctrl) : res (ctrl * bool) :=
  c ← (if nla_type =? CTRL_ATTR_FAMILY_ID then
         if 2 <=? pl_len then v ← rd_u16 msg pl; mret (c <| c_family := Some v |>) else mret c
       else if nla_type =? CTRL_ATTR_MCAST_GROUPS then
         match c_mlme c with
         | Some _ => mret c
         | None => r ← walk (length msg) msg pl pl_len 0 (groups_elem msg) None; mret (c <| c_mlme := r |>)
         end
       else mret c);
  mret (c, false).

(** The family id and the mlme group id; [None] is -1. *)
Definition nl80211_parse_ctrl_family (msg : list Z) : res (option (Z * Z)) :=
  if len msg <? NL_NLMSGHDR_LEN + NL_GENLMSGHDR_LEN then mret None
  else
    c ← walk (length msg) msg 0 (len msg) (NL_NLMSGHDR_LEN + NL_GENLMSGHDR_LEN) (ctrl_attr msg)
          (mk_ctrl None None);
    mret (match c_family c, c_mlme c with Some f, Some m => Some (f, m) | _, _ => None end).

(** ** The channel query *)

Definition le_u16 (v : Z) : list Z := [v mod 256; v / 256 mod 256].
Definition le_u32 (v : Z) : list Z := le_u16 (v mod 65536) ++ le_u16 (v / 65536 mod 65536).
(** The bytes written; [None] for the result 0. *)
Definition nl80211_build_get_interface (cap family_id ifindex : Z) : option (list Z) :=
  let nla_len := NL_NLATTR_HDR_LEN + 4 in
  let total := NL_NLMSGHDR_LEN + NL_GENLMSGHDR_LEN + NLA_ALIGN nla_len in
  if cap <? total then None
  else
    let buf := zeros total in
    let buf := write_at 0 (le_u32 total) buf in
    let buf := write_at 4 (le_u16 family_id) buf in
    let buf := write_at 6 (le_u16 NLM_F_REQUEST) buf in
    let buf := write_at 16 [NL80211_CMD_GET_INTERFACE] buf in
    let buf := write_at 17 [0] buf in
    let aoff := NL_NLMSGHDR_LEN + NL_GENLMSGHDR_LEN in
    let buf := write_at aoff (le_u16 nla_len) buf in
    let buf := write_at (aoff + 2) (le_u16 NL80211_ATTR_IFINDEX) buf in
    Some (write_at (aoff + NL_NLATTR_HDR_LEN) (le_u32 ifindex) buf).
(** ** Specification: a stream of attributes *)

(** An attribute: its type without the flag bits, and its payload. *)
Definition attr : Type := Z * list Z.
Definition le_num (p : list Z) : Z := rd p 0 + 256 * rd p 1.
Definition le_num4 (p : list Z) : Z := rd p 0 + 256 * rd p 1 + 65536 * rd p 2 + 16777216 * rd p 3.

(** The attributes at the front of a region, up to the first that does not fit in it. *)
Fixpoint attrs_of (fuel : nat) (region : list Z) : list attr :=
  match fuel with
  | O => []
  | S fuel =>
      let n := le_num region in
      if (len region <? 4) || (n <? 4) || (len region <? n) then []
      else (Z.land (le_num (drop 2 region)) NLA_TYPE_MASK, slice 4 (n - 4) region)
             :: attrs_of fuel (drop (Z.to_nat (NLA_ALIGN n)) region)
  end.

Fixpoint fold_until {A B} (f : A → B → A * bool) (acc : A) (l : list B) : A :=
  match l with
  | [] => acc
  | x :: l' => let '(acc, stop) := f acc x in if (stop : bool) then acc else fold_until f acc l'
  end.

Lemma align_bounds n : 4 <= n <= 65535 → n <= NLA_ALIGN n < n + 4.
Proof.
  intros Hn. unfold NLA_ALIGN. change 4294967292 with (Z.ldiff (Z.ones 32) (Z.ones 2)).
  assert (Hb : ∀ x a b, Z.land x (Z.ldiff a b) = Z.ldiff (Z.land x a) b).
  { intros x a b. apply Z.bits_inj'. intros i _. by rewrite !Z.ldiff_spec, !Z.land_spec, Z.ldiff_spec, andb_assoc. }
  rewrite Hb, Z.land_ones by lia. rewrite Z.mod_small by (change (2 ^ 32) with 4294967296; lia).
  rewrite Z.ldiff_ones_r, Z.shiftl_mul_pow2, Z.shiftr_div_pow2 by lia. change (2 ^ 2) with 4.
  Z.to_euclidean_division_equations; lia.
Qed.

Lemma bytes_at_ok b off n : 0 <= off → off + n <= len b → bytes_at b off n = Ok (slice off n b).
Proof. intros. unfold bytes_at. by rewrite (proj2 (Z.leb_le _ _)), (proj2 (Z.leb_le _ _)). Qed.
Lemma byte_at_ok b off : 0 <= off < len b → byte_at b off = Ok (rd b off).
Proof. intros. unfold byte_at. by rewrite (proj2 (Z.leb_le _ _)), (proj2 (Z.ltb_lt _ _)) by lia. Qed.
Lemma rd_u16_ok b off : 0 <= off → off + 2 <= len b → rd_u16 b off = Ok (le_num (slice off 2 b)).
Proof. intros. unfold rd_u16. by rewrite bytes_at_ok. Qed.
Lemma rd_u32_ok b off : 0 <= off → off + 4 <= len b → rd_u32 b off = Ok (le_num4 (slice off 4 b)).
Proof. intros. unfold rd_u32. by rewrite bytes_at_ok. Qed.
Lemma slice_slice off n off' n' (b : list Z) :
  0 <= off → 0 <= off' → 0 <= n' → off' + n' <= n → slice off' n' (slice off n b) = slice (off + off') n' b.
Proof.
  intros. unfold slice. rewrite skipn_firstn_comm, drop_drop, take_take.
  replace (Z.to_nat off' + Z.to_nat off)%nat with (Z.to_nat (off + off')) by lia.
  replace (Z.to_nat off + Z.to_nat off')%nat with (Z.to_nat (off + off')) by lia. f_equal. lia.
Qed.
Lemma le_num_slice o n (b : list Z) : 0 <= o → 2 <= n → le_num (slice o n b) = le_num (slice o 2 b).
Proof. intros. unfold le_num. by rewrite !rd_slice by lia. Qed.
Lemma drop_slice k o n (b : list Z) : 0 <= k → 0 <= o → drop (Z.to_nat k) (slice o n b) = slice (o + k) (n - k) b.
Proof.
  intros. unfold slice. rewrite skipn_firstn_comm, drop_drop. f_equal; [lia|f_equal; lia].
Qed.
Lemma le_num_range b : bytes_ok b → 0 <= le_num b <= 65535.
Proof.
  intros Hb. unfold le_num. pose proof (rd_range b 0 Hb). pose proof (rd_range b 1 Hb). unfold is_u8 in *. lia.
Qed.

Section Walk.
Context {A : Type} (msg : list Z) (body : Z → Z → Z → A → res (A * bool)) (f : A → attr → A * bool).
Hypothesis Hmsg : bytes_ok msg.
Hypothesis Hbody : ∀ ty pl n acc, 0 <= pl → 0 <= n → pl + n <= len msg →
  body ty pl n acc = Ok (f acc (ty, slice pl n msg)).

(** The loop, run on any region of the message with as much fuel as the region has bytes,
    ends without leaving the buffer, and does what folding over the region's attributes
    does. *)
Lemma walk_spec fuel base blen : ∀ off acc,
  0 <= base → base + blen <= len msg → 0 <= off → blen - off <= Z.of_nat fuel →
  walk fuel msg base blen off body acc
  = Ok (fold_until f acc (attrs_of fuel (slice (base + off) (blen - off) msg))).
Proof using Hmsg Hbody.
  induction fuel as [|fuel IH]; intros off acc Hb Hl Ho Hf; cbn [walk attrs_of]; unfold NL_NLATTR_HDR_LEN.
  { by rewrite (proj2 (Z.leb_gt _ _)) by lia. }
  destruct (off + 4 <=? blen) eqn:Hfit; guards; cbn [negb].
  2: { rewrite (proj2 (Z.ltb_lt (len (slice (base + off) (blen - off) msg)) 4)); [done|].
       unfold slice, len. rewrite length_take. lia. }
  rewrite !rd_u16_ok by lia. cbn [mbind res_bind mret res_ret].
  assert (Hlen : len (slice (base + off) (blen - off) msg) = blen - off) by (apply len_slice; lia).
  rewrite Hlen, (le_num_slice _ (blen - off)), (proj2 (Z.ltb_ge (blen - off) 4)) by lia. cbn [orb].
  pose proof (le_num_range (slice (base + off) 2 msg) (slice_bytes _ _ _ Hmsg)) as Hrange.
  set (n := le_num (slice (base + off) 2 msg)) in *.
  replace (drop 2 (slice (base + off) (blen - off) msg)) with (slice (base + off + 2) (blen - off - 2) msg)
    by (by rewrite <- drop_slice by lia).
  rewrite (le_num_slice (base + off + 2) (blen - off - 2)) by lia.
  set (ty := Z.land _ NLA_TYPE_MASK).
  destruct (n <? 4) eqn:Hn4; guards; [done|]. destruct (blen - off <? n) eqn:Hfits; guards; [done|]. cbn [orb fold_until].
  rewrite Hbody by lia. cbn [mbind res_bind]. rewrite slice_slice by lia.
  destruct (f acc (ty, slice (base + off + 4) (n - 4) msg)) as [acc' stop]. destruct stop; [done|].
  pose proof (align_bounds n) as Ha. rewrite (proj2 (Z.leb_gt _ _)) by lia.
  rewrite IH by lia. rewrite drop_slice by lia. do 4 f_equal; lia.
Qed.
End Walk.

(** *** What an attribute means *)

(** The sender of a deauthentication or disassociation frame, when it is the AP. *)
Definition frame_sender (kind : opcd_nl_kind_t) (p : list Z) : option (list Z) :=
  let ta := slice 10 6 p in
  if decide ((kind = OPCD_NL_DEAUTH ∧ rd p 0 = 192 ∨ kind = OPCD_NL_DISASSOC ∧ rd p 0 = 160) ∧
             26 <= len p ∧ Z.land (rd p 1) 3 = 0 ∧ Z.land (rd p 10) 1 = 0 ∧
             ta ≠ zeros 6 ∧ ta = slice 16 6 p)
  then Some ta else None.
Definition apply_attr (kind : opcd_nl_kind_t) (out : opcd_nl_evt_t) (a : attr) : opcd_nl_evt_t :=
  let '(ty, p) := a in
  if ty =? NL80211_ATTR_IFINDEX then if 4 <=? len p then out <| e_ifindex := i32 (le_num4 p) |> else out
  else if ty =? NL80211_ATTR_WIPHY_FREQ then
    if 4 <=? len p then (out <| e_freq_mhz := le_num4 p |>) <| e_channel := freq_to_channel (le_num4 p) |> else out
  else if ty =? NL80211_ATTR_STATUS_CODE then if 2 <=? len p then out <| e_status_code := le_num p |> else out
  else if ty =? NL80211_ATTR_REASON_CODE then if 2 <=? len p then out <| e_reason_code := le_num p |> else out
  else if ty =? NL80211_ATTR_MAC then
    if 6 <=? len p then (out <| e_mac := take 6 p |>) <| e_mac_present := true |> else out
  else if ty =? NL80211_ATTR_FRAME then
    match frame_sender kind p with Some m => out <| e_ap_frame_mac := m |> | None => out end
  else if ty =? NL80211_ATTR_DISCONNECTED_BY_AP then out <| e_by_ap := true |>
  else if ty =? NL80211_ATTR_SSID then
    if (0 <? len p) && (len p <=? 32) then
      (out <| e_ssid := write_at 0 (p ++ [0]) (e_ssid out) |>) <| e_ssid_present := true |> else out
  else out.

Lemma rd_slice0 pl n (msg : list Z) i : 0 <= pl → 0 <= i < n → rd msg (pl + i) = rd (slice pl n msg) i.
Proof. intros. by rewrite rd_slice by lia. Qed.
Lemma ap_frame_mac_ok msg kind pl n :
  0 <= pl → 0 <= n → pl + n <= len msg → ap_frame_mac msg kind pl n = Ok (frame_sender kind (slice pl n msg)).
Proof.
  intros Hp Hn Hl. unfold ap_frame_mac, frame_sender. set (p := slice pl n msg).
  assert (Hlen : len p = n) by (apply len_slice; lia). rewrite Hlen.
  destruct (26 <=? n) eqn:H26; guards; [|rewrite andb_false_r, decide_False by lia; done]. rewrite andb_true_r.
  case_bool_decide as Hk; [|rewrite decide_False by naive_solver; done].
  rewrite <- (Z.add_0_r pl) at 1. rewrite !byte_at_ok, !bytes_at_ok by lia.
  rewrite !(rd_slice0 pl n) by lia. fold p. cbn [mbind res_bind mret res_ret].
  assert (Hta : slice (pl + 10) 6 msg = slice 10 6 p) by (unfold p; by rewrite slice_slice by lia).
  assert (Hbs : slice (pl + 16) 6 msg = slice 16 6 p) by (unfold p; by rewrite slice_slice by lia).
  rewrite Hta, Hbs. set (sub := if bool_decide (kind = OPCD_NL_DEAUTH) then 192 else 160).
  assert (Hsub : (kind = OPCD_NL_DEAUTH ∧ rd p 0 = 192 ∨ kind = OPCD_NL_DISASSOC ∧ rd p 0 = 160) ↔ rd p 0 = sub).
  { unfold sub. case_bool_decide; naive_solver. }
  destruct (rd p 0 =? sub) eqn:E0; guards; cbn [negb]; [|rewrite decide_False by naive_solver; done].
  destruct (Z.land (rd p 1) 3 =? 0) eqn:E1; guards; cbn [negb]; [|rewrite decide_False by naive_solver; done].
  destruct (Z.land (rd p 10) 1 =? 0) eqn:E2; guards; cbn [negb]; [|rewrite decide_False by naive_solver; done].
  f_equal. do 2 case_bool_decide; cbn [andb]; [rewrite decide_True by naive_solver|rewrite decide_False by naive_solver..]; done.
Qed.
Lemma evt_attr_ok msg kind ty pl n out :
  0 <= pl → 0 <= n → pl + n <= len msg →
  evt_attr msg kind ty pl n out = Ok (apply_attr kind out (ty, slice pl n msg), false).
Proof.
  intros Hp Hn Hl. unfold evt_attr, apply_attr. set (p := slice pl n msg).
  assert (Hlen : len p = n) by (apply len_slice; lia). rewrite Hlen.
  assert (H2 : 2 <= n → le_num (slice pl 2 msg) = le_num p) by (intros; unfold p; symmetry; apply le_num_slice; lia).
  assert (H4 : 4 <= n → le_num4 (slice pl 4 msg) = le_num4 p).
  { intros. unfold le_num4, p. by rewrite !rd_slice by lia. }
  assert (H6 : 6 <= n → slice pl 6 msg = take 6 p).
  { intros. unfold p, slice. rewrite take_take. f_equal. lia. }
  destruct (ty =? NL80211_ATTR_IFINDEX).
  { destruct (4 <=? n) eqn:E; guards; [|done]. rewrite rd_u32_ok by lia. cbn [mbind res_bind]. by rewrite H4. }
  destruct (ty =? NL80211_ATTR_WIPHY_FREQ).
  { destruct (4 <=? n) eqn:E; guards; [|done]. rewrite rd_u32_ok by lia. cbn [mbind res_bind]. by rewrite H4. }
  destruct (ty =? NL80211_ATTR_STATUS_CODE).
  { destruct (2 <=? n) eqn:E; guards; [|done]. rewrite rd_u16_ok by lia. cbn [mbind res_bind]. by rewrite H2. }
  destruct (ty =? NL80211_ATTR_REASON_CODE).
  { destruct (2 <=? n) eqn:E; guards; [|done]. rewrite rd_u16_ok by lia. cbn [mbind res_bind]. by rewrite H2. }
  destruct (ty =? NL80211_ATTR_MAC).
  { destruct (6 <=? n) eqn:E; guards; [|done]. rewrite bytes_at_ok by lia. cbn [mbind res_bind]. by rewrite H6. }
  destruct (ty =? NL80211_ATTR_FRAME); [by rewrite ap_frame_mac_ok|].
  destruct (ty =? NL80211_ATTR_DISCONNECTED_BY_AP); [done|].
  destruct (ty =? NL80211_ATTR_SSID); [|done].
  destruct (_ && _); [|done]. by rewrite bytes_at_ok.
Qed.

Lemma fold_until_never {A B} (f : A → B → A) acc l : fold_until (λ a x, (f a x, false)) acc l = foldl f acc l.
Proof. revert acc. induction l; intros acc; cbn; auto. Qed.
Lemma slice_to_end o (b : list Z) : 0 <= o → slice o (len b - o) b = drop (Z.to_nat o) b.
Proof. intros. unfold slice, len. apply take_ge. rewrite length_drop. lia. Qed.

Lemma parse_evt_eq msg family_id :
  bytes_ok msg →
  let kind := cmd_to_kind (rd msg 16) in
  nl80211_parse_evt msg family_id =
  Ok (if decide (20 <= len msg ∧ 0 <= family_id <= 65535 ∧ le_num (drop 4 msg) = family_id ∧ kind ≠ OPCD_NL_IGNORE)
      then (0, foldl (apply_attr kind) (nl_evt_zero <| e_kind := kind |>) (attrs_of (length msg) (drop 20 msg)))
      else (-1, nl_evt_zero)).
Proof.
  intros Hb kind. unfold nl80211_parse_evt, NL_NLMSGHDR_LEN, NL_GENLMSGHDR_LEN. change (16 + 4) with 20.
  destruct (len msg <? 20) eqn:H20; guards; [by rewrite decide_False by lia|].
  destruct (_ || _) eqn:Hf; [rewrite decide_False; [done|]; intros (_ & ? & _); apply orb_true_iff in Hf as [?|?]; guards; lia|].
  apply orb_false_iff in Hf as [? ?]. guards. rewrite rd_u16_ok by lia. cbn [mbind res_bind].
  assert (H4 : le_num (slice 4 2 msg) = le_num (drop 4 msg)).
  { change 4%nat with (Z.to_nat 4). rewrite <- slice_to_end by lia. symmetry. apply le_num_slice; lia. }
  rewrite H4, u16_id by (unfold is_u16; lia).
  destruct (le_num (drop 4 msg) =? family_id) eqn:Hfam; guards; cbn [negb]; [|by rewrite decide_False by tauto].
  rewrite byte_at_ok by lia. cbn [mbind res_bind]. fold kind.
  case_bool_decide as Hk; [by rewrite decide_False by tauto|].
  rewrite (walk_spec msg _ (λ out a, (apply_attr kind out a, false)) Hb) by first [lia | (intros; by apply evt_attr_ok) | (unfold len; lia)].
  cbn [mbind res_bind mret res_ret]. rewrite fold_until_never, decide_True by (split_and!; done || lia).
  do 4 f_equal. by rewrite Z.add_0_l, slice_to_end by lia.
Qed.

(** C18: parsing an nl80211 event is total and memory-safe and means what netlink says: for
    any bytes of any length and any family id, no read leaves the message and every loop
    ends; the result is an event exactly when the message has both headers, carries the
    family's id and a command the daemon watches, and the event is then obtained by
    applying the attributes of the stream in order (the last of a type wins), up to the
    first one whose length does not fit the bytes left. *)
Theorem nl80211_parse_evt_spec msg family_id :
  bytes_ok msg →
  let kind := cmd_to_kind (rd msg 16) in
  nl80211_parse_evt msg family_id =
  Ok (if decide (20 <= len msg ∧ 0 <= family_id <= 65535 ∧ le_num (drop 4 msg) = family_id ∧ kind ≠ OPCD_NL_IGNORE)
      then (0, foldl (apply_attr kind) (nl_evt_zero <| e_kind := kind |>) (attrs_of (length msg) (drop 20 msg)))
      else (-1, nl_evt_zero)).
Proof. apply parse_evt_eq. Qed.

(** *** Encoding *)

Definition enc_attr (a : attr) : list Z :=
  let n := 4 + len a.2 in
  le_u16 n ++ le_u16 a.1 ++ a.2 ++ zeros (NLA_ALIGN n - n).
Definition enc_attrs (l : list attr) : list Z := flat_map enc_attr l.
Definition attr_ok (a : attr) : Prop := 0 <= a.1 < 16384 ∧ len a.2 <= 65531.
(** Bytes the loop stops at: too short for a header, or a length that does not fit. *)
Definition stops (junk : list Z) : Prop := len junk < 4 ∨ le_num junk < 4 ∨ len junk < le_num junk.
#[global] Instance attr_ok_dec a : Decision (attr_ok a).
Proof. unfold attr_ok. apply _. Defined.

Lemma le_num_le16 v k : 0 <= v < 65536 → le_num (le_u16 v ++ k) = v.
Proof.
  intros. unfold le_num, le_u16, rd. change (Z.to_nat 0) with 0%nat. change (Z.to_nat 1) with 1%nat.
  cbn [app lookup list_lookup default]. cbn. Z.to_euclidean_division_equations; lia.
Qed.
Lemma attrs_of_app junk l : ∀ fuel,
  Forall attr_ok l → stops junk → (length (enc_attrs l ++ junk) <= fuel)%nat →
  attrs_of fuel (enc_attrs l ++ junk) = l.
Proof.
  induction l as [|[ty p] l IH]; intros fuel Hok Hj Hf.
  - destruct fuel as [|fuel]; [done|]. cbn [enc_attrs flat_map app attrs_of].
    destruct (_ || _ || _) eqn:E; [done|]. exfalso.
    apply orb_false_iff in E as [[E1 E2]%orb_false_iff E3]. guards. unfold stops in Hj. lia.
  - apply Forall_cons_1 in Hok as [[Ht Hp] Hok]. cbn [fst snd] in *.
    cbn [enc_attrs flat_map] in *. fold (enc_attrs l) in *. rewrite <- app_assoc in *.
    set (rest := enc_attrs l ++ junk) in *. pose proof (len_nonneg p) as Hp0.
    unfold enc_attr in *. cbn [fst snd] in *. set (n := 4 + len p) in *.
    pose proof (align_bounds n ltac:(lia)) as Ha. rewrite <- !app_assoc in *.
    assert (Hlen : len (le_u16 n ++ le_u16 ty ++ p ++ zeros (NLA_ALIGN n - n) ++ rest) = NLA_ALIGN n + len rest).
    { rewrite !len_app, len_zeros by lia. change (len (le_u16 n)) with 2. change (len (le_u16 ty)) with 2. lia. }
    pose proof (len_nonneg rest). destruct fuel as [|fuel]; [cbn in Hf; lia|]. cbn [attrs_of].
    rewrite Hlen, le_num_le16 by lia. rewrite !(proj2 (Z.ltb_ge _ _)) by lia. cbn [orb].
    change (drop 2 (le_u16 n ++ le_u16 ty ++ p ++ zeros (NLA_ALIGN n - n) ++ rest))
      with (le_u16 ty ++ p ++ zeros (NLA_ALIGN n - n) ++ rest).
    rewrite le_num_le16 by lia. f_equal.
    + f_equal.
      * unfold NLA_TYPE_MASK. change 16383 with (Z.ones 14). rewrite Z.land_ones by lia. by apply Z.mod_small.
      * unfold slice. change (Z.to_nat 4) with 4%nat.
        change (drop 4 (le_u16 n ++ le_u16 ty ++ p ++ zeros (NLA_ALIGN n - n) ++ rest))
          with (p ++ zeros (NLA_ALIGN n - n) ++ rest).
        replace (Z.to_nat (n - 4)) with (length p) by (unfold n, len; lia). by rewrite take_app_length.
    + replace (drop (Z.to_nat (NLA_ALIGN n)) _) with rest; [apply IH; try done; cbn [length app le_u16] in Hf; rewrite !length_app in Hf; lia|].
      rewrite !app_assoc. symmetry. apply drop_app_length'.
      rewrite !length_app. unfold zeros. rewrite length_replicate. cbn [le_u16 length]. unfold n, len in *. lia.
Qed.

(** What the kernel sends is what the daemon sees: a message whose attribute area is the
    netlink encoding of a list of attributes (lengths, types, padding to four bytes),
    followed by any bytes the loop stops at, yields the event those attributes describe. *)
Theorem nl80211_evt_stream hdr l junk family_id :
  bytes_ok (hdr ++ enc_attrs l ++ junk) → len hdr = 20 → Forall attr_ok l → stops junk →
  0 <= family_id <= 65535 → le_num (drop 4 hdr) = family_id → cmd_to_kind (rd hdr 16) ≠ OPCD_NL_IGNORE →
  nl80211_parse_evt (hdr ++ enc_attrs l ++ junk) family_id
  = Ok (0, foldl (apply_attr (cmd_to_kind (rd hdr 16))) (nl_evt_zero <| e_kind := cmd_to_kind (rd hdr 16) |>) l).
Proof.
  intros Hb Hh Hl Hj Hf Hfam Hk. rewrite parse_evt_eq by done.
  assert (Hlen : length hdr = 20%nat) by (unfold len in Hh; lia).
  rewrite (rd_app_l hdr) by lia. rewrite (drop_app_length' hdr _ 20) by done.
  rewrite attrs_of_app by (try done; rewrite (length_app hdr); lia).
  rewrite decide_True; [done|]. split_and!; try done; try lia.
  - rewrite len_app. pose proof (len_nonneg (enc_attrs l ++ junk)). lia.
  - rewrite drop_app_le by lia. rewrite <- Hfam. unfold le_num. rewrite !rd_app_l; [done|..];
      unfold len; rewrite length_drop; lia.
Qed.

(** A CONNECT on interface 3 from an AP, its last attribute cut off. *)
Definition demo_attrs : list attr :=
  [(NL80211_ATTR_IFINDEX, [3; 0; 0; 0]); (NL80211_ATTR_MAC, [2; 0; 0; 0; 0; 1]);
   (NL80211_ATTR_WIPHY_FREQ, [60; 20; 0; 0]); (NL80211_ATTR_STATUS_CODE, [0; 0])].
Definition demo_hdr : list Z := zeros 4 ++ le_u16 28 ++ zeros 10 ++ [NL80211_CMD_CONNECT; 1; 0; 0].
Lemma nl80211_parse_evt_spec_witness :
  bytes_ok (demo_hdr ++ [255]) ∧
  nl80211_parse_evt (demo_hdr ++ [255]) 28 = Ok (0, nl_evt_zero <| e_kind := OPCD_NL_CONNECT |>).
Proof.
  assert (H : bytes_ok (demo_hdr ++ [255])) by (apply (bool_decide_unpack _); vm_compute; exact I).
  split; [exact H|]. rewrite (nl80211_parse_evt_spec _ 28 H). vm_compute. reflexivity.
Defined.
Lemma nl80211_evt_stream_witness :
  nl80211_parse_evt (demo_hdr ++ enc_attrs demo_attrs ++ [255; 0]) 28
  = Ok (0, mk_nl_evt OPCD_NL_CONNECT 3 5180 36 [2; 0; 0; 0; 0; 1] true (zeros 6) 0 0 false (zeros 33) false).
Proof.
  rewrite (nl80211_evt_stream demo_hdr demo_attrs [255; 0] 28); [vm_compute; reflexivity|..];
    try (apply (bool_decide_unpack _); vm_compute; exact I); try (vm_compute; reflexivity).
Defined.

(** *** Family resolution *)

Definition grp_step (g : grp) (a : attr) : grp :=
  let '(ty, p) := a in
  if ty =? CTRL_ATTR_MCAST_GRP_NAME then
    if (5 <=? len p) && bool_decide (take 5 p = str "mlme" ++ [0]) then g <| g_mlme := true |> else g
  else if ty =? CTRL_ATTR_MCAST_GRP_ID then if 4 <=? len p then g <| g_id := Some (u16 (le_num4 p)) |> else g
  else g.
(** The id of a group described by [p], when it is named "mlme". *)
Definition mlme_id (fuel : nat) (p : list Z) : option Z :=
  let g := foldl grp_step (mk_grp None false) (attrs_of fuel p) in if g_mlme g then g_id g else None.
Fixpoint first_mlme (fuel : nat) (groups : list attr) : option Z :=
  match groups with
  | [] => None
  | (_, p) :: groups => match mlme_id fuel p with Some id => Some id | None => first_mlme fuel groups end
  end.
Definition ctrl_step (fuel : nat) (c : ctrl) (a : attr) : ctrl :=
  let '(ty, p) := a in
  if ty =? CTRL_ATTR_FAMILY_ID then if 2 <=? len p then c <| c_family := Some (le_num p) |> else c
  else if ty =? CTRL_ATTR_MCAST_GROUPS then
    match c_mlme c with None => c <| c_mlme := first_mlme fuel (attrs_of fuel p) |> | Some _ => c end
  else c.

Section Ctrl.
Context (msg : list Z).
Hypothesis Hmsg : bytes_ok msg.
Lemma grp_attr_ok ty pl n g :
  0 <= pl → 0 <= n → pl + n <= len msg → grp_attr msg ty pl n g = Ok (grp_step g (ty, slice pl n msg), false).
Proof using.
  intros Hp Hn Hl. unfold grp_attr, grp_step. set (p := slice pl n msg).
  assert (Hlen : len p = n) by (apply len_slice; lia). rewrite Hlen.
  destruct (ty =? CTRL_ATTR_MCAST_GRP_NAME).
  { destruct (5 <=? n) eqn:E; guards; [|done]. rewrite bytes_at_ok by lia. cbn [mbind res_bind andb mret res_ret].
    replace (slice pl 5 msg) with (take 5 p) by (unfold p, slice; rewrite take_take; f_equal; lia). done. }
  destruct (ty =? CTRL_ATTR_MCAST_GRP_ID); [|done]. destruct (4 <=? n) eqn:E; guards; [|done].
  rewrite rd_u32_ok by lia. cbn [mbind res_bind mret res_ret].
  replace (le_num4 (slice pl 4 msg)) with (le_num4 p); [done|]. unfold le_num4, p. by rewrite !rd_slice by lia.
Qed.
Lemma ctrl_grp_ok pl n :
  0 <= pl → 0 <= n → pl + n <= len msg → ctrl_grp_is_mlme msg pl n = Ok (mlme_id (length msg) (slice pl n msg)).
Proof using Hmsg.
  intros Hp Hn Hl. unfold ctrl_grp_is_mlme, mlme_id.
  rewrite (walk_spec msg _ (λ g a, (grp_step g a, false)) Hmsg)
    by first [lia | (intros; by apply grp_attr_ok) | (unfold len in *; lia)].
  cbn [mbind res_bind mret res_ret]. by rewrite fold_until_never, Z.add_0_r, Z.sub_0_r.
Qed.
Lemma groups_ok pl n :
  0 <= pl → 0 <= n → pl + n <= len msg →
  walk (length msg) msg pl n 0 (groups_elem msg) None
  = Ok (first_mlme (length msg) (attrs_of (length msg) (slice pl n msg))).
Proof using Hmsg.
  intros Hp Hn Hl.
  rewrite (walk_spec msg _ (λ found a, match mlme_id (length msg) a.2 with
                                        | Some id => (Some id, true) | None => (found, false) end) Hmsg).
  - rewrite Z.add_0_r, Z.sub_0_r. f_equal. generalize (attrs_of (length msg) (slice pl n msg)) as l.
    induction l as [|[ty p] l IH]; [done|]. cbn [fold_until first_mlme snd]. by destruct (mlme_id _ p).
  - intros ty pl' n' acc Hp' Hn' Hl'. unfold groups_elem. rewrite ctrl_grp_ok by done. done.
  - done.
  - done.
  - lia.
  - unfold len in *. lia.
Qed.
Lemma ctrl_attr_ok ty pl n c :
  0 <= pl → 0 <= n → pl + n <= len msg →
  ctrl_attr msg ty pl n c = Ok (ctrl_step (length msg) c (ty, slice pl n msg), false).
Proof using Hmsg.
  intros Hp Hn Hl. unfold ctrl_attr, ctrl_step. set (p := slice pl n msg).
  assert (Hlen : len p = n) by (apply len_slice; lia). rewrite Hlen.
  destruct (ty =? CTRL_ATTR_FAMILY_ID).
  { destruct (2 <=? n) eqn:E; guards; [|done]. rewrite rd_u16_ok by lia. cbn [mbind res_bind mret res_ret].
    by rewrite <- (le_num_slice pl n) by lia. }
  destruct (ty =? CTRL_ATTR_MCAST_GROUPS); [|done]. destruct (c_mlme c); [done|]. by rewrite groups_ok.
Qed.
(** Resolving the family is total and memory-safe too: the family id is the last one
    given, the group id that of the first group named "mlme" that has an id. *)
Lemma parse_ctrl_family_spec :
  nl80211_parse_ctrl_family msg =
  Ok (if len msg <? 20 then None
      else let c := foldl (ctrl_step (length msg)) (mk_ctrl None None) (attrs_of (length msg) (drop 20 msg)) in
           match c_family c, c_mlme c with Some f, Some m => Some (f, m) | _, _ => None end).
Proof using Hmsg.
  unfold nl80211_parse_ctrl_family, NL_NLMSGHDR_LEN, NL_GENLMSGHDR_LEN. change (16 + 4) with 20.
  destruct (len msg <? 20) eqn:H20; guards; [done|].
  rewrite (walk_spec msg _ (λ c a, (ctrl_step (length msg) c a, false)) Hmsg)
    by first [lia | (intros; by apply ctrl_attr_ok) | (unfold len; lia)].
  cbn [mbind res_bind mret res_ret]. by rewrite fold_until_never, Z.add_0_l, slice_to_end by lia.
Qed.
End Ctrl.
End Nl80211.
Export Nl80211.
