(* ===== verification/CText.v ===== *)
(** * C text functions

    The parts of <ctype.h>, <stdlib.h> and <string.h> the text parsers of the daemon use.
    A C string is the list of its bytes without the terminating NUL. [long] and
    [long long] have 64 bits. *)
From S2P Require Import Prelude.
From stdpp Require Import base list numbers option tactics strings.
From Stdlib Require Import ZArith Lia.
#[local] Open Scope Z_scope.

Module CText.

Definition LONG_MAX : Z := 9223372036854775807.
Definition LONG_MIN : Z := -9223372036854775808.
Definition ULONG_MAX : Z := 18446744073709551615.

(** errno values *)
Definition ENOENT : Z := 2.
Definition EINVAL : Z := 22.
Definition EFBIG : Z := 27.
Definition ENAMETOOLONG : Z := 36.
Definition ENETUNREACH : Z := 101.

(** ** Characters *)
Definition isspace (c : Z) : bool := ((9 <=? c) && (c <=? 13)) || (c =? 32).
Definition is_blank (c : Z) : bool := (c =? 32) || (c =? 9).
Definition hexval (c : Z) : Z :=
  if (48 <=? c) && (c <=? 57) then c - 48
  else if (97 <=? c) && (c <=? 102) then c - 97 + 10
  else if (65 <=? c) && (c <=? 70) then c - 65 + 10
  else -1.
Definition isxdigit (c : Z) : bool := 0 <=? hexval c.
Definition isalnum_ (c : Z) : bool :=
  ((65 <=? c) && (c <=? 90)) || ((97 <=? c) && (c <=? 122)) || is_digit c || (c =? 95).

(** ** Prefixes *)

(** [strncmp(s, k, strlen(k)) == 0] *)
Fixpoint starts (k s : list Z) : bool :=
  match k, s with
  | [], _ => true
  | c :: k', d :: s' => (c =? d) && starts k' s'
  | _, _ => false
  end.
(** The longest prefix of bytes that satisfy [f], and the rest. *)
Fixpoint span (f : Z → bool) (s : list Z) : list Z * list Z :=
  match s with
  | [] => ([], [])
  | c :: s' => if f c then let '(a, b) := span f s' in (c :: a, b) else ([], s)
  end.
Definition skip (f : Z → bool) (s : list Z) : list Z := (span f s).2.
(** At most [n] of them. *)
Fixpoint span_n (n : nat) (f : Z → bool) (s : list Z) : list Z * list Z :=
  match n, s with
  | S n, c :: s' => if f c then let '(a, b) := span_n n f s' in (c :: a, b) else ([], s)
  | _, _ => ([], s)
  end.
(** The line up to the next LF, and what follows the LF ([None]: there is none). *)
Fixpoint split_lf (s : list Z) : list Z * option (list Z) :=
  match s with
  | [] => ([], None)
  | c :: s' => if c =? 10 then ([], Some s')
               else let '(l, r) := split_lf s' in (c :: l, r)
  end.

(** ** Numbers *)

(** The value of a run of digits in base [b], most significant first. *)
Definition digits_value (b : Z) (ds : list Z) : Z := foldl (λ v c, v * b + hexval c) 0 ds.

(** Spaces, a sign, the digits: negative?, the digits, what follows. *)
Definition scan_int (digit : Z → bool) (s : list Z) : bool * list Z * list Z :=
  let s := skip isspace s in
  let '(neg, s) := match s with
                   | c :: s' => if c =? 45 then (true, s') else if c =? 43 then (false, s') else (false, s)
                   | [] => (false, s)
                   end in
  let '(ds, r) := span digit s in (neg, ds, r).

Definition clamp (lo hi v : Z) : Z := Z.max lo (Z.min hi v).
(** [strtol(s, &end, 10)]: the value and [end]; [None]: no conversion ([end == s]). *)
Definition strtol (s : list Z) : option (Z * list Z) :=
  let '(neg, ds, r) := scan_int is_digit s in
  match ds with
  | [] => None
  | _ => let v := digits_value 10 ds in
         Some (clamp LONG_MIN LONG_MAX (if neg then - v else v), r)
  end.
(** [strtoul(s, NULL, 10)], 0 without a conversion; a minus negates modulo 2^64. *)
Definition strtoul_value (s : list Z) : Z :=
  let '(neg, ds, _) := scan_int is_digit s in
  let v := digits_value 10 ds in
  if ULONG_MAX <? v then ULONG_MAX else if neg then u64 (- v) else v.
Definition strtoll_value (s : list Z) : Z :=
  match strtol s with Some (v, _) => v | None => 0 end.

(** [printf]'s [%lld]. *)
Definition dec_ll (z : Z) : list Z :=
  if z <? 0 then 45 :: dec_loop 20 (- z) [] else dec_loop 20 z [].
(** [%02x] of a byte. *)
Definition hex_digit (v : Z) : Z := if v <? 10 then 48 + v else 97 + (v - 10).
Definition hex2 (v : Z) : list Z := [hex_digit (v / 16); hex_digit (v mod 16)].

(** ** Facts *)

Lemma starts_app k s : starts k (k ++ s) = true.
Proof. induction k as [|c k IH]; [done|]. cbn. by rewrite Z.eqb_refl, IH. Qed.
Lemma starts_inv k s : starts k s = true → ∃ r, s = k ++ r.
Proof.
  revert s. induction k as [|c k IH]; intros s H; [by eexists|]. destruct s as [|d s]; [done|].
  cbn in H. apply andb_true_iff in H as [H1 H2]. guards. subst. destruct (IH s H2) as [r ->]. by eexists.
Qed.
Lemma span_app f s : (span f s).1 ++ (span f s).2 = s.
Proof. induction s as [|c s IH]; [done|]. cbn. destruct (f c); [|done]. destruct (span f s); cbn in *. by f_equal. Qed.
Lemma span_all f s : Forall (λ c, f c = true) (span f s).1.
Proof. induction s as [|c s IH]; [constructor|]. cbn. destruct (f c) eqn:E; [|constructor]. destruct (span f s). by constructor. Qed.
Lemma span_stops f s : match (span f s).2 with c :: _ => f c = false | [] => True end.
Proof. induction s as [|c s IH]; [done|]. cbn. destruct (f c) eqn:E; [|done]. by destruct (span f s). Qed.
(** A run of [f] bytes in front of something that stops it. *)
Lemma span_run f a b :
  Forall (λ c, f c = true) a → match b with c :: _ => f c = false | [] => True end → span f (a ++ b) = (a, b).
Proof.
  intros Ha Hb. induction Ha as [|c a Hc Ha IH]; cbn.
  - destruct b as [|c b]; [done|]. cbn. by rewrite Hb.
  - by rewrite Hc, IH.
Qed.
Lemma split_lf_run a b : Forall (λ c, c ≠ 10) a → split_lf (a ++ 10 :: b) = (a, Some b).
Proof. induction 1 as [|c a Hc Ha IH]; [done|]. cbn. by rewrite (proj2 (Z.eqb_neq _ _) Hc), IH. Qed.
Lemma split_lf_last a : Forall (λ c, c ≠ 10) a → split_lf a = (a, None).
Proof. induction 1 as [|c a Hc Ha IH]; [done|]. cbn. by rewrite (proj2 (Z.eqb_neq _ _) Hc), IH. Qed.
Lemma split_lf_inv s :
  Forall (λ c, c ≠ 10) (split_lf s).1 ∧
  s = (split_lf s).1 ++ match (split_lf s).2 with Some r => 10 :: r | None => [] end.
Proof.
  induction s as [|c s [IH1 IH2]]; [by split|]. cbn. destruct (c =? 10) eqn:E; guards; [by subst|].
  destruct (split_lf s) as [l r]. cbn [fst snd] in *. split; [by constructor|]. cbn. by f_equal.
Qed.
Lemma split_lf_shorter s l r : split_lf s = (l, Some r) → (length r < length s)%nat.
Proof.
  intros H. destruct (split_lf_inv s) as [_ He]. rewrite H in He. cbn in He. rewrite He, length_app. cbn. lia.
Qed.

(** *** The text as lines *)

Definition no_lf (l : list Z) : Prop := Forall (λ c, c ≠ 10) l.
Definition text (ls : list (list Z)) : list Z := flat_map (λ l, l ++ [10]) ls.
Lemma text_cons l ls : text (l :: ls) = l ++ 10 :: text ls.
Proof. unfold text. cbn [flat_map]. by rewrite <- app_assoc. Qed.
Lemma text_app a b : text (a ++ b) = text a ++ text b.
Proof. apply flat_map_app. Qed.
Lemma text_lines s : ∃ ls last, s = text ls ++ last ∧ Forall no_lf ls ∧ no_lf last.
Proof.
  induction s as [|c s (ls & last & -> & Hls & Hl)]; [exists [], []; by repeat constructor|].
  destruct (decide (c = 10)) as [->|Hc]; [exists ([] :: ls), last; split_and!; try done; constructor; [constructor|done]|].
  destruct ls as [|l ls]; [exists [], (c :: last); split_and!; try done; by constructor|].
  exists ((c :: l) :: ls), last. apply Forall_cons_1 in Hls as [Hl1 Hls]. split_and!; try done.
  constructor; [by constructor|done].
Qed.

Lemma take_split_lf n l rest :
  Forall (λ c, c ≠ 10) l →
  split_lf (take n (l ++ 10 :: rest)) =
  if decide (length l < n)%nat then (l, Some (take (n - length l - 1) rest)) else (take n l, None).
Proof.
  intros Hl. case_decide as Hn.
  - rewrite take_app_ge by lia. destruct (n - length l)%nat as [|k] eqn:E; [lia|]. cbn [take].
    rewrite split_lf_run by done. by replace (S k - 1)%nat with k by lia.
  - rewrite take_app_le by lia. by rewrite split_lf_last by (by apply Forall_take).
Qed.
Lemma cstr_nul_free s : Forall (λ c, c ≠ 0) s → cstr s = s.
Proof. induction 1 as [|c s Hc _ IH]; [done|]. cbn [cstr]. by rewrite (proj2 (Z.eqb_neq c 0)), IH. Qed.

(** *** Printed numbers read back *)
Lemma digits_value_snoc b ds d : digits_value b (ds ++ [d]) = digits_value b ds * b + hexval d.
Proof. unfold digits_value. by rewrite foldl_app. Qed.
Lemma hexval_dec d : 0 <= d < 10 → hexval (48 + d) = d.
Proof.
  intros. unfold hexval. rewrite (proj2 (Z.leb_le 48 (48 + d))), (proj2 (Z.leb_le (48 + d) 57)) by lia. cbn [andb]. lia.
Qed.
Lemma dec_loop_spec fuel : ∀ n acc, (0 < fuel)%nat → 0 <= n < 10 ^ Z.of_nat fuel →
  ∃ ds, dec_loop fuel n acc = ds ++ acc ∧ Forall (λ c, is_digit c = true) ds ∧ digits_value 10 ds = n ∧
        (1 <= length ds <= fuel)%nat.
Proof.
  induction fuel as [|fuel IH]; intros n acc Hf Hn; [lia|]. cbn [dec_loop].
  assert (Hd : 0 <= n mod 10 < 10) by (apply Z.mod_pos_bound; lia).
  destruct (n / 10 =? 0) eqn:E; guards.
  - exists [48 + n mod 10]. split_and!; [done| | |cbn [length]; lia..].
    + constructor; [apply is_digit_add; lia|constructor].
    + unfold digits_value. cbn [foldl]. rewrite hexval_dec by lia. Z.to_euclidean_division_equations; lia.
  - destruct fuel as [|fuel]; [exfalso; cbn in Hn; Z.to_euclidean_division_equations; lia|].
    destruct (IH (n / 10) ((48 + n mod 10) :: acc)) as (ds & He & Hds & Hv & Hl); [lia| |].
    { rewrite Nat2Z.inj_succ, Z.pow_succ_r in Hn by lia. Z.to_euclidean_division_equations; lia. }
    exists (ds ++ [48 + n mod 10]). split_and!.
    + by rewrite He, <- app_assoc.
    + apply Forall_app_2; [done|]. constructor; [apply is_digit_add; lia|constructor].
    + rewrite digits_value_snoc, hexval_dec, Hv by lia. Z.to_euclidean_division_equations; lia.
    + rewrite length_app. cbn. lia.
    + rewrite length_app. cbn. lia.
Qed.
Lemma digit_not_space c : is_digit c = true → isspace c = false ∧ c ≠ 45 ∧ c ≠ 43 ∧ c ≠ 10 ∧ c ≠ 0.
Proof.
  unfold is_digit, isspace. intros H. apply andb_true_iff in H as [H1 H2]. guards. split; [|lia].
  apply orb_false_iff. split; [apply andb_false_iff; right; apply Z.leb_gt; lia|apply Z.eqb_neq; lia].
Qed.
Lemma scan_int_digits ds :
  Forall (λ c, is_digit c = true) ds → ds ≠ [] → scan_int is_digit ds = (false, ds, []).
Proof.
  intros Hd Hn. unfold scan_int, skip. destruct ds as [|c ds]; [done|]. apply Forall_cons_1 in Hd as [Hc Hd].
  destruct (digit_not_space c Hc) as (Hs & H45 & H43 & _). cbn [span]. rewrite Hs. cbn [snd].
  rewrite (proj2 (Z.eqb_neq _ _) H45), (proj2 (Z.eqb_neq _ _) H43).
  pose proof (span_run is_digit (c :: ds) []) as Hr. rewrite app_nil_r in Hr. rewrite Hr; [done|by constructor|done].
Qed.
Lemma strtoul_dec n : is_u32 n → strtoul_value (dec n) = n.
Proof.
  unfold is_u32. intros Hn. destruct (dec_loop_spec 10 n []) as (ds & He & Hds & Hv & Hl); [lia|cbn; lia|].
  unfold dec. rewrite app_nil_r in He. rewrite He. unfold strtoul_value.
  rewrite scan_int_digits by (try done; intros ->; cbn in Hl; lia). cbv zeta. rewrite Hv.
  rewrite (proj2 (Z.ltb_ge _ _)); [done|]. unfold ULONG_MAX. lia.
Qed.
Lemma strtoll_dec z : LONG_MIN <= z <= LONG_MAX → strtoll_value (dec_ll z) = z.
Proof.
  unfold LONG_MIN, LONG_MAX. intros Hz. unfold dec_ll, strtoll_value, strtol.
  destruct (z <? 0) eqn:E; guards.
  - destruct (dec_loop_spec 20 (- z) []) as (ds & He & Hds & Hv & Hl); [lia|cbn; lia|].
    rewrite app_nil_r in He. rewrite He. unfold scan_int, skip. cbn [span snd]. change (isspace 45) with false. cbn [snd].
    change (45 =? 45) with true. cbv iota.
    pose proof (span_run is_digit ds []) as Hr. rewrite app_nil_r in Hr. rewrite Hr by done.
    destruct ds as [|c ds]; [cbn in Hl; lia|]. rewrite Hv. unfold clamp, LONG_MIN, LONG_MAX. lia.
  - destruct (dec_loop_spec 20 z []) as (ds & He & Hds & Hv & Hl); [lia|cbn; lia|].
    rewrite app_nil_r in He. rewrite He. destruct ds as [|c ds]; [cbn in Hl; lia|].
    rewrite scan_int_digits by done. rewrite Hv. unfold clamp, LONG_MIN, LONG_MAX. lia.
Qed.
Lemma dec_text n : is_u32 n → Forall (λ c, c ≠ 10 ∧ c ≠ 0) (dec n) ∧ (1 <= length (dec n) <= 10)%nat.
Proof.
  unfold is_u32. intros Hn. destruct (dec_loop_spec 10 n []) as (ds & He & Hds & Hv & Hl); [lia|cbn; lia|].
  unfold dec. rewrite app_nil_r in He. rewrite He. split; [|done].
  eapply Forall_impl; [exact Hds|]. intros c Hc%digit_not_space. tauto.
Qed.
Lemma dec_ll_text z : LONG_MIN <= z <= LONG_MAX → Forall (λ c, c ≠ 10 ∧ c ≠ 0) (dec_ll z) ∧ (1 <= length (dec_ll z) <= 21)%nat.
Proof.
  unfold LONG_MIN, LONG_MAX. intros Hz. unfold dec_ll. destruct (z <? 0) eqn:E; guards.
  - destruct (dec_loop_spec 20 (- z) []) as (ds & He & Hds & Hv & Hl); [lia|cbn; lia|].
    rewrite app_nil_r in He. rewrite He. split; [|cbn; lia]. constructor; [done|].
    eapply Forall_impl; [exact Hds|]. intros c Hc%digit_not_space. tauto.
  - destruct (dec_loop_spec 20 z []) as (ds & He & Hds & Hv & Hl); [lia|cbn; lia|].
    rewrite app_nil_r in He. rewrite He. split; [|lia].
    eapply Forall_impl; [exact Hds|]. intros c Hc%digit_not_space. tauto.
Qed.
End CText.
Export CText.
