(* ===== verification/EssidMarker.v ===== *)
(** * The ESSID restore marker: opcd/essid_marker.h, opcd/essid_marker.c

    A ChangeIpAddress edits the persistent wpa_supplicant configuration, and the marker
    file remembers the SSID to put back at the next start. The two files are the state;
    the result of every system call that can fail is given by an [io] record (a write is
    all or nothing: the temporary file is renamed over the target, and its own name is
    not tracked). A file is read as a C string, so up to its first NUL. *)
From S2P Require Import Prelude CText.
From stdpp Require Import base list numbers option tactics strings.
From Stdlib Require Import ZArith Lia.
#[local] Open Scope Z_scope.

Module EssidMarker.

Definition FILE_MAX_BYTES : Z := 65536.
Definition TOKEN_MAX : Z := 256.

(** ** Files *)
Record files := mk_files { f_conf : option (list Z); f_marker : option (list Z) }.
#[global] Instance eta_files : Eta files := λ f, mk_files (f_conf f) (f_marker f).

(** What the calls of one operation return; [None]: success. *)
Record io := mk_io {
  io_read_conf : option Z; io_read_marker : option Z; io_write_conf : option Z;
  io_write_marker : option Z; io_unlink : option Z }.
Definition io_ok : io := mk_io None None None None None.

(** The contents, or the errno. *)
Definition slurp (file : option (list Z)) (fault : option Z) : Z + list Z :=
  match fault, file with
  | Some e, _ => inl e
  | None, None => inl ENOENT
  | None, Some b => if FILE_MAX_BYTES <=? len b then inl EFBIG else inr (cstr b)
  end.

(** ** The configuration's [ssid=] line *)

Definition SSID_KEY : list Z := str "ssid=".
Definition is_trail (c : Z) : bool := (c =? 13) || is_blank c.
(** The bytes of [v] without the CRs and blanks at its end, and those. *)
Definition strip_trail (v : list Z) : list Z * list Z :=
  let '(t, r) := span is_trail (rev v) in (rev r, rev t).

(** The loop over the lines from [ln] on; [before] is the text in front of [ln]. The result
    is the count and, for the first assignment, the text before [*vs], the text of
    [*vs, *ve) and the text from [*ve] on. *)
Fixpoint find_ssid_loop (fuel : nat) (before ln : list Z) (count : Z)
    (first : option (list Z * list Z * list Z)) : Z * option (list Z * list Z * list Z) :=
  match fuel, ln with
  | S fuel, _ :: _ =>
      let '(line, next) := split_lf ln in
      let '(lead, p) := span is_blank line in
      let '(count, first) :=
        if starts SSID_KEY p then
          (count + 1,
           match first with
           | Some _ => first
           | None => let '(v, t) := strip_trail (drop 5 p) in
                     Some (before ++ lead ++ SSID_KEY, v, t ++ drop (length line) ln)
           end)
        else (count, first) in
      match next with
      | Some rest => find_ssid_loop fuel (before ++ line ++ [10]) rest count first
      | None => (count, first)
      end
  | _, _ => (count, first)
  end.
Definition find_ssid (conf : list Z) : Z * option (list Z * list Z * list Z) :=
  find_ssid_loop (length conf) [] conf 0 None.

(** ** The marker *)

(** The char arrays as the strings they hold. *)
Record marker_t := mk_marker {
  m_essid : list Z; m_applied : list Z; m_target_hex : list Z; m_slot : Z; m_time : Z }.
#[global] Instance eta_marker : Eta marker_t := λ m,
  mk_marker (m_essid m) (m_applied m) (m_target_hex m) (m_slot m) (m_time m).

Inductive line_result := LineFound (v : list Z) | LineAbsent | LineInvalid.
Fixpoint line_value_loop (fuel : nat) (ln key : list Z) (cap : Z) : line_result :=
  match fuel, ln with
  | S fuel, _ :: _ =>
      let '(line, next) := split_lf ln in
      if starts key ln then
        match next with
        | None => LineInvalid
        | Some _ =>
            let v := drop (length key) line in
            if (len v =? 0) || (cap <=? len v) then LineInvalid else LineFound v
        end
      else match next with
           | Some rest => line_value_loop fuel rest key cap
           | None => LineAbsent
           end
  | _, _ => LineAbsent
  end.
Definition line_value (body : list Z) (key : string) (cap : Z) : line_result :=
  line_value_loop (length body) body (str key) cap.

(** [None] is -EINVAL. *)
Definition marker_parse (body : list Z) : option marker_t :=
  if negb (starts (str "essid=") body) then None
  else match line_value body "essid=" TOKEN_MAX with
  | LineFound essid =>
      match line_value body "applied=" TOKEN_MAX, line_value body "target=" TOKEN_MAX with
      | LineInvalid, _ | _, LineInvalid => None
      | a, t =>
          let text r := match r with LineFound v => v | _ => [] end in
          let slot := match line_value body "slot=" 32 with LineFound n => u32 (strtoul_value n) | _ => 0 end in
          let time := match line_value body "time=" 32 with LineFound n => strtoll_value n | _ => 0 end in
          Some (mk_marker essid (text a) (text t) slot time)
      end
  | _ => None
  end.

Definition BODY_SIZE : Z := 3 * TOKEN_MAX + 96.
Definition opt_line (key : string) (v : list Z) : list Z :=
  match v with [] => [] | _ => str key ++ v ++ [10] end.
Definition marker_body (m : marker_t) : list Z :=
  str "essid=" ++ m_essid m ++ [10] ++ str "slot=" ++ dec (m_slot m) ++ [10] ++
  str "time=" ++ dec_ll (m_time m) ++ [10] ++
  opt_line "target=" (m_target_hex m) ++ opt_line "applied=" (m_applied m).

Definition marker_write (i : io) (m : marker_t) (f : files) : Z * files :=
  let body := marker_body m in
  if BODY_SIZE <=? len body then (- ENAMETOOLONG, f)
  else match io_write_marker i with
       | Some e => (- e, f)
       | None => (0, f <| f_marker := Some body |>)
       end.
Definition marker_unlink (i : io) (f : files) : Z * files :=
  match f_marker f with
  | None => (0, f)
  | Some _ => match io_unlink i with
              | Some e => (- e, f)
              | None => (0, f <| f_marker := None |>)
              end
  end.
(** The marker, or the negative errno. *)
Definition load_marker (i : io) (f : files) : Z + marker_t :=
  match slurp (f_marker f) (io_read_marker i) with
  | inl e => inl (- e)
  | inr body => match marker_parse body with Some m => inr m | None => inl (- EINVAL) end
  end.

Definition conf_token (i : io) (f : files) : Z + list Z :=
  match slurp (f_conf f) (io_read_conf i) with
  | inl e => inl (- e)
  | inr conf =>
      match find_ssid conf with
      | (1, Some (_, v, _)) => if (len v =? 0) || (TOKEN_MAX <=? len v) then inl (- EINVAL) else inr v
      | _ => inl (- EINVAL)
      end
  end.

(** ** Does a token denote the requested SSID *)

Definition QUOTE : Z := 34.
Definition quoted (tok : list Z) : bool :=
  (2 <=? len tok) && (rd tok 0 =? QUOTE) && (rd tok (len tok - 1) =? QUOTE).
(** The loops compare position by position, two hex digits per byte or one per digit. *)
Fixpoint hex_bytes_eq (tok hex : list Z) : bool :=
  match tok, hex with
  | [], [] => true
  | c :: tok, h :: l :: hex =>
      (0 <=? hexval h) && (0 <=? hexval l) && (c =? hexval h * 16 + hexval l) && hex_bytes_eq tok hex
  | _, _ => false
  end.
Fixpoint hex_digits_eq (tok hex : list Z) : bool :=
  match tok, hex with
  | [], [] => true
  | c :: tok, h :: hex => (0 <=? hexval c) && (0 <=? hexval h) && (hexval c =? hexval h) && hex_digits_eq tok hex
  | _, _ => false
  end.
Definition token_is_ssid (tok target_hex : list Z) : bool :=
  if (len target_hex =? 0) || negb (len target_hex mod 2 =? 0) then false
  else if quoted tok then
    if negb (len tok - 2 =? len target_hex / 2) then false
    else hex_bytes_eq (slice 1 (len tok - 2) tok) target_hex
  else if negb (len tok =? len target_hex) then false
  else hex_digits_eq tok target_hex.

(** Whether the chain recorded in [m] wrote the token. *)
Definition ours (m : marker_t) (cur : list Z) : bool :=
  (negb (len (m_applied m) =? 0) && bool_decide (m_applied m = cur)) ||
  (negb (len (m_target_hex m) =? 0) && token_is_ssid cur (m_target_hex m)).

(** ** The SSID the configuration asks for *)

(** Two hex digits per byte; [None] at a bad digit or a NUL byte. *)
Fixpoint unhex (s : list Z) : option (list Z) :=
  match s with
  | [] => Some []
  | h :: l :: s' =>
      if (hexval h <? 0) || (hexval l <? 0) || (hexval h * 16 + hexval l =? 0) then None
      else r ← unhex s'; Some ((hexval h * 16 + hexval l) :: r)
  | _ => None
  end.
(** The return value and the string left in [out] (of [cap] bytes). *)
Definition opc_wpa_conf_ssid (i : io) (cap : Z) (f : files) : Z * list Z :=
  if cap =? 0 then (- EINVAL, [])
  else match slurp (f_conf f) (io_read_conf i) with
  | inl e => (- e, [])
  | inr conf =>
      let v := match find_ssid conf with (_, Some (_, v, _)) => v | _ => [] end in
      if quoted v then (0, if len v - 2 <? cap then slice 1 (len v - 2) v else [])
      else if (0 <? len v) && (len v mod 2 =? 0) && (len v / 2 <? cap) then (0, default [] (unhex v))
      else (0, [])
  end.

(** ** Operations *)

(** [requested]: [None] for NULL. *)
Definition opc_essid_marker_arm (i : io) (slot_no now : Z) (requested : option (list Z)) (f : files) : Z * files :=
  match conf_token i f with
  | inl rc => (rc, f)
  | inr cur =>
      let m := match load_marker i f with
               | inr old => if ours old cur then mk_marker (m_essid old) cur [] slot_no now
                            else mk_marker cur [] [] slot_no now
               | inl _ => mk_marker cur [] [] slot_no now
               end in
      match requested with
      | Some ((_ :: _) as r) =>
          if TOKEN_MAX <=? 2 * len r then (- ENAMETOOLONG, f)
          else marker_write i (m <| m_target_hex := flat_map hex2 r |>) f
      | _ => marker_write i m f
      end
  end.

Definition opc_essid_marker_commit (i : io) (f : files) : Z * files :=
  match load_marker i f with
  | inl rc => (rc, f)
  | inr m => match conf_token i f with
             | inl rc => (rc, f)
             | inr cur => marker_write i (m <| m_applied := cur |>) f
             end
  end.

Definition opc_essid_marker_disarm (i : io) (f : files) : Z * files :=
  match load_marker i f with
  | inl rc => if rc =? - ENOENT then (0, f) else (rc, f)
  | inr m => if negb (len (m_applied m) =? 0) then (0, f) else marker_unlink i f
  end.

(** A failed step's result, else [v]. *)
Definition or_else (r : Z * files) (v : Z) : Z * files := (if r.1 =? 0 then v else r.1, r.2).

Definition opc_essid_marker_settle (i : io) (f : files) : Z * files :=
  match load_marker i f with
  | inl rc => if rc =? - ENOENT then (0, f) else (rc, f)
  | inr m =>
      match conf_token i f with
      | inl rc => (rc, f)
      | inr cur =>
          let committed := negb (len (m_applied m) =? 0) in
          let pre := if committed then m_applied m else m_essid m in
          if bool_decide (cur = pre) then
            if negb committed then marker_unlink i f
            else marker_write i (m <| m_target_hex := [] |>) f
          else if negb (len (m_target_hex m) =? 0) && token_is_ssid cur (m_target_hex m) then
            or_else (marker_write i (m <| m_applied := cur |>) f) 1
          else if negb committed then or_else (marker_unlink i f) 2
          else or_else (marker_write i (m <| m_target_hex := [] |>) f) 2
      end
  end.

Definition opc_essid_marker_restore (i : io) (f : files) : Z * files :=
  match load_marker i f with
  | inl rc => if rc =? - ENOENT then (0, f) else (rc, f)
  | inr m =>
      match slurp (f_conf f) (io_read_conf i) with
      | inl e => (- e, f)
      | inr conf =>
          match find_ssid conf with
          | (1, Some (head, cur, tail)) =>
              if TOKEN_MAX <=? len cur then (- EINVAL, f)
              else if bool_decide (cur = m_essid m) then marker_unlink i f
              else if negb (ours m cur) then or_else (marker_unlink i f) 2
              else
                match io_write_conf i with
                | Some e => (- e, f)
                | None => or_else (marker_unlink i (f <| f_conf := Some (head ++ m_essid m ++ tail) |>)) 1
                end
          | _ => (- EINVAL, f)
          end
      end
  end.
(** ** Finding the assignment *)

Definition is_ssid_line (l : list Z) : bool := starts SSID_KEY (skip is_blank l).
(** What is reported for an assignment on line [l] with [before] in front of it and [after]
    behind it. *)
Definition report (before l after : list Z) : list Z * list Z * list Z :=
  let '(lead, p) := span is_blank l in
  let '(v, t) := strip_trail (drop 5 p) in (before ++ lead ++ SSID_KEY, v, t ++ after).
Fixpoint first_of (before : list Z) (ls : list (list Z)) (last : list Z) : option (list Z * list Z * list Z) :=
  match ls with
  | [] => if is_ssid_line last then Some (report before last []) else None
  | l :: ls => if is_ssid_line l then Some (report before l (10 :: text ls ++ last))
               else first_of (before ++ l ++ [10]) ls last
  end.
Definition count_of (ls : list (list Z)) : Z := len (filter (λ l, is_ssid_line l = true) ls).

Lemma find_loop_line fuel before line tail count first :
  no_lf line → line ++ tail ≠ [] → tail = [] ∨ (∃ rest, tail = 10 :: rest) →
  find_ssid_loop (S fuel) before (line ++ tail) count first =
  (let cf := if is_ssid_line line
             then (count + 1, match first with Some _ => first | None => Some (report before line tail) end)
             else (count, first) in
   match tail with
   | _ :: rest => find_ssid_loop fuel (before ++ line ++ [10]) rest cf.1 cf.2
   | [] => cf
   end).
Proof.
  intros Hl Hne Ht. cbn [find_ssid_loop]. destruct (line ++ tail) as [|x y] eqn:E; [done|]. rewrite <- E. clear E x y Hne.
  assert (Hs : split_lf (line ++ tail) = (line, match tail with [] => None | _ :: rest => Some rest end)).
  { destruct Ht as [-> |[rest ->]]; [rewrite app_nil_r; by apply split_lf_last|by apply split_lf_run]. }
  rewrite Hs. unfold is_ssid_line, skip, report. destruct (span is_blank line) as [lead p]. cbn [snd].
  rewrite drop_app_length. destruct (strip_trail (drop 5 p)) as [v t].
  destruct (starts SSID_KEY p), tail; cbn [fst snd]; done.
Qed.
Lemma find_loop_lines last : ∀ ls fuel before count first,
  Forall no_lf ls → no_lf last → (length (text ls ++ last) <= fuel)%nat →
  find_ssid_loop fuel before (text ls ++ last) count first =
  (count + count_of (ls ++ [last]), match first with Some _ => first | None => first_of before ls last end).
Proof.
  induction ls as [|l ls IH]; intros fuel before count first Hls Hlast Hf.
  - cbn [text flat_map app first_of]. unfold count_of. cbn [filter list_filter app].
    destruct last as [|c last'].
    { destruct fuel; cbn; rewrite Z.add_0_r; by destruct first. }
    destruct fuel as [|fuel]; [cbn in Hf; lia|].
    pose proof (find_loop_line fuel before (c :: last') [] count first Hlast) as H. rewrite app_nil_r in H.
    rewrite H by (try done; by left). cbn zeta. unfold filter, list_filter.
    destruct (is_ssid_line (c :: last')) eqn:E; cbn [decide]; rewrite ?E; [by destruct first|].
    change (len []) with 0. rewrite Z.add_0_r. by destruct first.
  - apply Forall_cons_1 in Hls as [Hl Hls]. rewrite text_cons, <- app_assoc in *. cbn [app] in *.
    destruct fuel as [|fuel]; [rewrite length_app in Hf; cbn in Hf; lia|].
    rewrite find_loop_line by first [done | by destruct l | (right; by eexists)]. cbn zeta.
    rewrite IH by (try done; rewrite length_app in Hf; cbn in Hf; lia).
    cbn [first_of app]. unfold count_of. rewrite filter_cons.
    destruct (is_ssid_line l) eqn:E; cbn [fst snd].
    + rewrite decide_True, len_cons by done. f_equal; [lia|]. by destruct first.
    + rewrite decide_False by congruence. by destruct first.
Qed.
(** *** A configuration with one assignment, around its value *)

Definition plain_line (l : list Z) : Prop := no_lf l ∧ is_ssid_line l = false.
Definition value_ok (v : list Z) : Prop :=
  no_lf v ∧ match last v with Some c => is_trail c = false | None => True end.
Inductive conf_shape (head tail : list Z) : Prop :=
  Shape ls1 lead trail rest :
    Forall plain_line ls1 → Forall (λ c, is_blank c = true) lead → Forall (λ c, is_trail c = true) trail →
    head = text ls1 ++ lead ++ SSID_KEY → tail = trail ++ rest →
    rest = [] ∨ (∃ ls2 lst, rest = 10 :: text ls2 ++ lst ∧ Forall plain_line (ls2 ++ [lst])) →
    conf_shape head tail.

Lemma plain_no_lf ls : Forall plain_line ls → Forall no_lf ls.
Proof. intros H. eapply Forall_impl; [exact H|]. by intros l [? _]. Qed.
Lemma plain_count ls : Forall plain_line ls → count_of ls = 0.
Proof.
  intros H. unfold count_of. induction H as [|l ls [_ Hl] _ IH]; [done|].
  rewrite filter_cons, decide_False by congruence. done.
Qed.
Lemma count_app a b : count_of (a ++ b) = count_of a + count_of b.
Proof. unfold count_of. by rewrite filter_app, len_app. Qed.
Lemma first_of_plain ls1 ls lst : ∀ before,
  Forall plain_line ls1 → first_of before (ls1 ++ ls) lst = first_of (before ++ text ls1) ls lst.
Proof.
  induction ls1 as [|l ls1 IH]; intros before H; [by rewrite app_nil_r|].
  apply Forall_cons_1 in H as [[_ Hl] H]. cbn [app first_of]. rewrite Hl, IH, text_cons, <- !app_assoc by done. done.
Qed.
Lemma strip_trail_app v t :
  match last v with Some c => is_trail c = false | None => True end → Forall (λ c, is_trail c = true) t →
  strip_trail (v ++ t) = (v, t).
Proof.
  intros Hv Ht. unfold strip_trail. rewrite rev_app_distr, span_run.
  - by rewrite !rev_involutive.
  - by apply Forall_rev.
  - destruct v as [|c v _] using rev_ind; [done|].
    rewrite last_snoc in Hv. by rewrite rev_app_distr.
Qed.
Lemma strip_trail_inv w v t :
  strip_trail w = (v, t) →
  w = v ++ t ∧ Forall (λ c, is_trail c = true) t ∧ match last v with Some c => is_trail c = false | None => True end.
Proof.
  unfold strip_trail. pose proof (span_app is_trail (rev w)) as Ha. pose proof (span_all is_trail (rev w)) as Hf.
  pose proof (span_stops is_trail (rev w)) as Hs. destruct (span is_trail (rev w)) as [a b]. cbn [fst snd] in *.
  intros [= <- <-]. split_and!.
  - rewrite <- rev_app_distr, Ha. by rewrite rev_involutive.
  - by apply Forall_rev.
  - destruct b as [|c b]; [done|]. cbn [rev]. by rewrite last_snoc.
Qed.
Lemma ssid_line_shape lead v trail :
  Forall (λ c, is_blank c = true) lead → Forall (λ c, is_trail c = true) trail →
  match last v with Some c => is_trail c = false | None => True end →
  is_ssid_line (lead ++ SSID_KEY ++ v ++ trail) = true ∧
  ∀ before after, report before (lead ++ SSID_KEY ++ v ++ trail) after = (before ++ lead ++ SSID_KEY, v, trail ++ after).
Proof.
  intros Hl Ht Hv. unfold is_ssid_line, skip, report.
  rewrite span_run by done. cbn [snd]. split; [apply starts_app|]. intros before after.
  change (drop 5 (SSID_KEY ++ v ++ trail)) with (v ++ trail). by rewrite strip_trail_app.
Qed.
Lemma trail_no_lf t : Forall (λ c, is_trail c = true) t → no_lf t.
Proof. intros H. eapply Forall_impl; [exact H|]. intros c Hc ->. done. Qed.
Lemma blank_no_lf t : Forall (λ c, is_blank c = true) t → no_lf t.
Proof. intros H. eapply Forall_impl; [exact H|]. intros c Hc ->. done. Qed.

Lemma find_shape head tail v :
  conf_shape head tail → value_ok v → find_ssid (head ++ v ++ tail) = (1, Some (head, v, tail)).
Proof.
  intros [ls1 lead trail rest H1 Hlead Htrail -> -> Hrest] [Hv Hlast].
  destruct (ssid_line_shape lead v trail Hlead Htrail Hlast) as [Hssid Hrep].
  set (line := lead ++ SSID_KEY ++ v ++ trail) in *.
  assert (Hline : no_lf line).
  { unfold line. repeat apply Forall_app_2; try done; [by apply blank_no_lf|by repeat constructor|by apply trail_no_lf]. }
  assert (Hone : count_of [line] = 1).
  { unfold count_of. rewrite filter_cons, decide_True by done. done. }
  replace ((text ls1 ++ lead ++ SSID_KEY) ++ v ++ trail ++ rest) with (text ls1 ++ line ++ rest)
    by (unfold line; by rewrite <- !app_assoc).
  unfold find_ssid. destruct Hrest as [-> |(ls2 & lst & -> & H2)].
  - rewrite app_nil_r, find_loop_lines by (try done; by apply plain_no_lf).
    rewrite count_app, plain_count, Hone by done. f_equal.
    rewrite <- (app_nil_r ls1) at 1. rewrite first_of_plain by done. cbn [first_of app]. by rewrite Hssid, Hrep.
  - replace (text ls1 ++ line ++ 10 :: text ls2 ++ lst) with (text (ls1 ++ line :: ls2) ++ lst)
      by (by rewrite text_app, text_cons, <- !app_assoc).
    pose proof (plain_no_lf _ H2) as Hn2. apply Forall_app in Hn2 as [Hn2 Hlst]. apply Forall_cons_1 in Hlst as [Hlst _].
    rewrite find_loop_lines; [|apply Forall_app_2; [by apply plain_no_lf|by constructor]|done|done].
    rewrite <- app_assoc. cbn [app]. change (line :: ls2 ++ [lst]) with ([line] ++ (ls2 ++ [lst])).
    rewrite !count_app, Hone, (plain_count ls1) by done. rewrite <- count_app, (plain_count (ls2 ++ [lst])) by done.
    f_equal. rewrite first_of_plain by done. cbn [first_of app]. by rewrite Hssid, Hrep.
Qed.
Lemma count_nonneg ls : 0 <= count_of ls.
Proof. apply len_nonneg. Qed.
Lemma count_zero ls : Forall no_lf ls → count_of ls = 0 → Forall plain_line ls.
Proof.
  intros Hn. unfold count_of. induction Hn as [|l ls Hl Hn IH]; [constructor|]. rewrite filter_cons.
  case_decide as Hd; [rewrite len_cons; pose proof (len_nonneg (filter (λ l, is_ssid_line l = true) ls)); lia|].
  intros Hc. constructor; [split; [done|by destruct (is_ssid_line l)]|auto].
Qed.
Lemma ssid_line_inv l :
  no_lf l → is_ssid_line l = true →
  ∃ lead v trail, l = lead ++ SSID_KEY ++ v ++ trail ∧ Forall (λ c, is_blank c = true) lead ∧
    Forall (λ c, is_trail c = true) trail ∧ value_ok v.
Proof.
  intros Hn. unfold is_ssid_line, skip. pose proof (span_app is_blank l) as Ha. pose proof (span_all is_blank l) as Hf.
  destruct (span is_blank l) as [lead p]. cbn [fst snd] in *. intros [w ->]%starts_inv.
  destruct (strip_trail w) as [v t] eqn:E. apply strip_trail_inv in E as (-> & Ht & Hv).
  exists lead, v, t. split_and!; try done. split; [|done]. subst l.
  apply Forall_app in Hn as [_ Hn]. apply Forall_app in Hn as [_ Hn]. by apply Forall_app in Hn as [? _].
Qed.
Lemma shape_of_line ls1 l after :
  Forall plain_line ls1 → no_lf l → is_ssid_line l = true →
  after = [] ∨ (∃ ls2 lst, after = 10 :: text ls2 ++ lst ∧ Forall plain_line (ls2 ++ [lst])) →
  let '(head, v, tail) := report (text ls1) l after in
  conf_shape head tail ∧ value_ok v ∧ text ls1 ++ l ++ after = head ++ v ++ tail.
Proof.
  intros H1 Hl Hs Ha. destruct (ssid_line_inv l Hl Hs) as (lead & v & trail & -> & Hlead & Htrail & Hv).
  destruct (ssid_line_shape lead v trail Hlead Htrail (proj2 Hv)) as [_ ->]. split_and!; [|done|].
  - by apply (Shape _ _ ls1 lead trail after).
  - by rewrite <- !app_assoc.
Qed.
Lemma find_shape_inv c head v tail :
  find_ssid c = (1, Some (head, v, tail)) → conf_shape head tail ∧ value_ok v ∧ c = head ++ v ++ tail.
Proof.
  destruct (text_lines c) as (ls & lst & -> & Hls & Hlst). unfold find_ssid.
  rewrite find_loop_lines by done. rewrite Z.add_0_l. intros [= Hc Hf].
  assert (Hgen : ∀ ls ls1, Forall plain_line ls1 → Forall no_lf ls → count_of (ls ++ [lst]) = 1 →
    first_of (text ls1) ls lst = Some (head, v, tail) →
    conf_shape head tail ∧ value_ok v ∧ text ls1 ++ text ls ++ lst = head ++ v ++ tail).
  { clear ls Hls Hc Hf. induction ls as [|l ls IH]; intros ls1 H1 Hls Hc; cbn [first_of].
    - destruct (is_ssid_line lst) eqn:E; [|done]. intros [= Hr].
      pose proof (shape_of_line ls1 lst [] H1 Hlst E) as Hs. rewrite Hr, app_nil_r in Hs. apply Hs. by left.
    - apply Forall_cons_1 in Hls as [Hl Hls]. change ((l :: ls) ++ [lst]) with ([l] ++ (ls ++ [lst])) in Hc.
      rewrite count_app in Hc. destruct (is_ssid_line l) eqn:E.
      + intros [= Hr]. rewrite text_cons.
        pose proof (shape_of_line ls1 l (10 :: text ls ++ lst) H1 Hl E) as Hs. rewrite Hr in Hs.
        rewrite <- app_assoc. apply Hs. right. exists ls, lst. split; [done|]. apply count_zero.
        * apply Forall_app_2; [done|by repeat constructor].
        * unfold count_of at 1 in Hc. rewrite filter_cons, decide_True in Hc by done.
          change (len (l :: filter _ [])) with 1 in Hc. lia.
      + intros Hr. rewrite text_cons. replace (text ls1 ++ (l ++ 10 :: text ls) ++ lst)
          with (text (ls1 ++ [l]) ++ text ls ++ lst)
          by (rewrite text_app, text_cons; cbn [text flat_map]; by rewrite <- !app_assoc).
        apply IH; try done.
        * apply Forall_app_2; [done|]. by repeat constructor.
        * rewrite (plain_count [l]) in Hc by (by repeat constructor). lia.
        * rewrite text_app, text_cons. cbn [text flat_map]. done. }
  apply (Hgen ls []); try done.
Qed.
(** ** The marker written and read back *)

Definition text_ok (v : list Z) : Prop := Forall (λ c, c ≠ 10 ∧ c ≠ 0) v.
#[global] Instance text_ok_dec v : Decision (text_ok v).
Proof. unfold text_ok. apply _. Defined.
Lemma text_ok_no_lf v : text_ok v → no_lf v.
Proof. intros H. eapply Forall_impl; [exact H|]. by intros c [? _]. Qed.
Record marker_ok (m : marker_t) : Prop := {
  mo_essid : text_ok (m_essid m) ∧ 0 < len (m_essid m) < TOKEN_MAX;
  mo_applied : text_ok (m_applied m) ∧ len (m_applied m) < TOKEN_MAX;
  mo_target : text_ok (m_target_hex m) ∧ len (m_target_hex m) < TOKEN_MAX;
  mo_slot : is_u32 (m_slot m);
  mo_time : LONG_MIN <= m_time m <= LONG_MAX }.

(** Looking a key up line by line. *)
Fixpoint pick (ls : list (list Z)) (key : list Z) (cap : Z) : line_result :=
  match ls with
  | [] => LineAbsent
  | l :: ls =>
      if starts key l then
        let v := drop (length key) l in
        if (len v =? 0) || (cap <=? len v) then LineInvalid else LineFound v
      else pick ls key cap
  end.
Lemma starts_line key l rest : no_lf key → starts key (l ++ 10 :: rest) = starts key l.
Proof.
  revert l. induction key as [|k key IH]; intros l Hk; [done|]. apply Forall_cons_1 in Hk as [Hk1 Hk].
  destruct l as [|c l]; cbn [app starts]; [by rewrite (proj2 (Z.eqb_neq _ _) Hk1)|]. by rewrite IH.
Qed.
Lemma line_value_lines key cap ls : ∀ fuel,
  no_lf key → Forall no_lf ls → (length (text ls) <= fuel)%nat →
  line_value_loop fuel (text ls) key cap = pick ls key cap.
Proof.
  induction ls as [|l ls IH]; intros fuel Hk Hls Hf; [by destruct fuel|].
  apply Forall_cons_1 in Hls as [Hl Hls]. rewrite text_cons in *.
  rewrite length_app in Hf. cbn [length] in Hf. destruct fuel as [|fuel]; [lia|].
  cbn [line_value_loop pick]. destruct (l ++ 10 :: text ls) eqn:E; [by destruct l|]. rewrite <- E.
  rewrite split_lf_run, starts_line by done. destruct (starts key l); [done|].
  apply IH; try done. lia.
Qed.

Definition opt_lines (key : string) (v : list Z) : list (list Z) :=
  match v with [] => [] | _ => [str key ++ v] end.
Definition marker_lines (m : marker_t) : list (list Z) :=
  [str "essid=" ++ m_essid m; str "slot=" ++ dec (m_slot m); str "time=" ++ dec_ll (m_time m)] ++
  opt_lines "target=" (m_target_hex m) ++ opt_lines "applied=" (m_applied m).
Lemma opt_line_text key v : opt_line key v = text (opt_lines key v).
Proof. destruct v; [done|]. unfold opt_line, opt_lines, text. cbn [flat_map]. by rewrite app_nil_r, <- app_assoc. Qed.
Lemma marker_body_text m : marker_body m = text (marker_lines m).
Proof.
  unfold marker_body, marker_lines. rewrite !opt_line_text, !text_app. unfold text. cbn [flat_map].
  by rewrite <- !app_assoc.
Qed.
Lemma key_no_lf key : bool_decide (no_lf (str key)) = true → no_lf (str key).
Proof. apply bool_decide_eq_true_1. Qed.
Lemma marker_lines_no_lf m : marker_ok m → Forall no_lf (marker_lines m).
Proof.
  intros [[He _] [Ha _] [Ht _] Hs Hti]. apply dec_text in Hs as [Hs _]. apply dec_ll_text in Hti as [Hti _].
  assert (Hk : ∀ key v, bool_decide (no_lf (str key)) = true → text_ok v → no_lf (str key ++ v)).
  { intros key v H1 H2. apply Forall_app_2; [by apply key_no_lf|by apply text_ok_no_lf]. }
  assert (Ho : ∀ key v, bool_decide (no_lf (str key)) = true → text_ok v → Forall no_lf (opt_lines key v)).
  { intros key v H1 H2. unfold opt_lines. case_match; [constructor|]. apply Forall_cons_2; [by apply Hk|constructor]. }
  unfold marker_lines. cbn [app]. do 3 (apply Forall_cons_2; [by apply Hk|]). apply Forall_app_2; by apply Ho.
Qed.
Lemma pick_app key cap ls1 ls2 :
  forallb (λ l, negb (starts key l)) ls1 = true → pick (ls1 ++ ls2) key cap = pick ls2 key cap.
Proof.
  induction ls1 as [|l ls1 IH]; [done|]. cbn. intros [Hl H]%andb_true_iff. destruct (starts key l); [done|auto].
Qed.
Lemma pick_skip key cap l ls : starts key l = false → pick (l :: ls) key cap = pick ls key cap.
Proof. cbn [pick]. by intros ->. Qed.
Lemma pick_hit key v cap ls : 0 < len v < cap → pick ((str key ++ v) :: ls) (str key) cap = LineFound v.
Proof.
  intros Hv. cbn [pick]. rewrite starts_app, drop_app_length.
  rewrite (proj2 (Z.eqb_neq _ _)), (proj2 (Z.leb_gt _ _)) by lia. done.
Qed.
Lemma pick_opt key v cap :
  len v < cap → pick (opt_lines key v) (str key) cap = match v with [] => LineAbsent | _ => LineFound v end.
Proof.
  intros Hv. destruct v as [|c v]; [done|]. apply pick_hit. rewrite len_cons in *. pose proof (len_nonneg v). lia.
Qed.
Lemma marker_parse_body m : marker_ok m → marker_parse (marker_body m) = Some m.
Proof.
  intros Hm. pose proof (marker_lines_no_lf m Hm) as Hls. destruct Hm as [[He He'] [Ha Ha'] [Ht Ht'] Hs Hti].
  unfold marker_parse. rewrite marker_body_text.
  assert (Hlv : ∀ key cap, bool_decide (no_lf (str key)) = true →
    line_value (text (marker_lines m)) key cap = pick (marker_lines m) (str key) cap).
  { intros key cap Hk. unfold line_value. apply line_value_lines; [by apply key_no_lf|done|done]. }
  rewrite !Hlv by done.
  replace (starts (str "essid=") (text (marker_lines m))) with true
    by (unfold marker_lines, text; cbn [flat_map app]; rewrite <- !app_assoc; by rewrite starts_app).
  cbn [negb].
  assert (H1 : pick (marker_lines m) (str "essid=") TOKEN_MAX = LineFound (m_essid m)) by (by apply pick_hit).
  assert (H2 : pick (marker_lines m) (str "slot=") 32 = LineFound (dec (m_slot m))).
  { unfold marker_lines. cbn [app]. rewrite pick_skip by done. apply pick_hit. apply dec_text in Hs as [_ Hs]. unfold len. lia. }
  assert (H3 : pick (marker_lines m) (str "time=") 32 = LineFound (dec_ll (m_time m))).
  { unfold marker_lines. cbn [app]. rewrite !pick_skip by done. apply pick_hit. apply dec_ll_text in Hti as [_ Hti]. unfold len. lia. }
  assert (H4 : pick (marker_lines m) (str "target=") TOKEN_MAX
    = match m_target_hex m with [] => LineAbsent | _ => LineFound (m_target_hex m) end).
  { unfold marker_lines. rewrite (pick_app _ _ [_; _; _]) by done. destruct (m_target_hex m) as [|c v] eqn:E.
    - cbn [opt_lines app]. destruct (m_applied m); done.
    - apply pick_hit. rewrite len_cons in *. pose proof (len_nonneg v). lia. }
  assert (H5 : pick (marker_lines m) (str "applied=") TOKEN_MAX
    = match m_applied m with [] => LineAbsent | _ => LineFound (m_applied m) end).
  { unfold marker_lines. rewrite (pick_app _ _ [_; _; _]) by done. rewrite (pick_app _ _ (opt_lines _ _)).
    - by apply pick_opt.
    - by destruct (m_target_hex m). }
  rewrite H1, H2, H3, H4, H5, strtoul_dec, strtoll_dec, u32_id by done.
  destruct m as [e a t sl ti]. cbn in *. by destruct a, t.
Qed.

(** *** The files as the operations read them *)

Definition no_nul (s : list Z) : Prop := Forall (λ c, c ≠ 0) s.
Lemma cstr_id s : no_nul s → cstr s = s.
Proof. induction 1 as [|c s Hc _ IH]; [done|]. cbn [cstr]. by rewrite (proj2 (Z.eqb_neq c 0)), IH. Qed.
Lemma slurp_text s fault :
  no_nul s → len s < FILE_MAX_BYTES → slurp (Some s) fault = match fault with Some e => inl e | None => inr s end.
Proof. intros H1 H2. unfold slurp. by rewrite (proj2 (Z.leb_gt FILE_MAX_BYTES _) H2), cstr_id. Qed.
Lemma text_ok_no_nul v : text_ok v → no_nul v.
Proof. intros H. eapply Forall_impl; [exact H|]. by intros c [_ ?]. Qed.
Lemma opt_line_facts key v b :
  no_nul (str key) → text_ok v → len v <= b → no_nul (opt_line key v) ∧ len (opt_line key v) <= len (str key) + b + 1.
Proof.
  intros Hk Hv Hb. unfold opt_line. destruct v as [|c v].
  - split; [constructor|]. pose proof (len_nonneg (str key)). change (len []) with 0 in *. lia.
  - split; [|rewrite !len_app; change (len [10]) with 1; lia].
    repeat apply Forall_app_2; [done|by apply text_ok_no_nul|by repeat constructor].
Qed.
(** The body of a well-formed marker always fits the buffer. *)
Lemma marker_body_facts m : marker_ok m → no_nul (marker_body m) ∧ len (marker_body m) < BODY_SIZE.
Proof.
  intros [[He He'] [Ha Ha'] [Ht Ht'] Hs Hti]. apply dec_text in Hs as [Hs Hsl]. apply dec_ll_text in Hti as [Hti Htl].
  assert (Hstr : ∀ key, bool_decide (no_nul (str key)) = true → no_nul (str key)) by (intros key; apply bool_decide_eq_true_1).
  destruct (opt_line_facts "target=" (m_target_hex m) (TOKEN_MAX - 1)) as [Ht1 Ht2]; [by apply Hstr|done|lia|].
  destruct (opt_line_facts "applied=" (m_applied m) (TOKEN_MAX - 1)) as [Ha1 Ha2]; [by apply Hstr|done|lia|].
  unfold marker_body. split.
  - repeat apply Forall_app_2; first [done | by apply Hstr | by apply text_ok_no_nul | by repeat constructor].
  - rewrite !len_app. unfold len in *. unfold TOKEN_MAX, BODY_SIZE in *.
    change (Z.of_nat (length (str "target="))) with 7 in *. change (Z.of_nat (length (str "applied="))) with 8 in *.
    change (Z.of_nat (length (str "essid="))) with 6. change (Z.of_nat (length (str "slot="))) with 5.
    change (Z.of_nat (length (str "time="))) with 5. change (Z.of_nat (length [10])) with 1. unfold TOKEN_MAX. lia.
Qed.
Lemma load_marker_body i f m :
  marker_ok m → f_marker f = Some (marker_body m) →
  load_marker i f = match io_read_marker i with Some e => inl (- e) | None => inr m end.
Proof.
  intros Hm Hf. destruct (marker_body_facts m Hm) as [Hn Hl]. unfold load_marker. rewrite Hf, slurp_text; [|done|].
  - destruct (io_read_marker i); [done|]. by rewrite marker_parse_body.
  - unfold BODY_SIZE, TOKEN_MAX, FILE_MAX_BYTES in *. lia.
Qed.
Lemma load_marker_none i f :
  f_marker f = None → load_marker i f = inl (- match io_read_marker i with Some e => e | None => ENOENT end).
Proof. intros Hf. unfold load_marker, slurp. rewrite Hf. by destruct (io_read_marker i). Qed.
Lemma marker_write_ok i m f :
  marker_ok m →
  marker_write i m f = match io_write_marker i with
                       | Some e => (- e, f) | None => (0, f <| f_marker := Some (marker_body m) |>) end.
Proof.
  intros Hm. destruct (marker_body_facts m Hm) as [_ Hl]. unfold marker_write.
  by rewrite (proj2 (Z.leb_gt BODY_SIZE _) Hl).
Qed.

Definition token_ok (v : list Z) : Prop := text_ok v ∧ value_ok v ∧ 0 < len v < TOKEN_MAX.
Record conf_ok (head tail : list Z) : Prop := {
  co_shape : conf_shape head tail; co_head : no_nul head; co_tail : no_nul tail;
  co_len : len head + len tail + TOKEN_MAX <= FILE_MAX_BYTES }.
Lemma conf_slurp head tail v fault :
  conf_ok head tail → token_ok v →
  slurp (Some (head ++ v ++ tail)) fault = match fault with Some e => inl e | None => inr (head ++ v ++ tail) end.
Proof.
  intros [_ Hh Ht Hl] (Hv & _ & Hvl). apply slurp_text; [|rewrite !len_app; lia].
  repeat apply Forall_app_2; try done. by apply text_ok_no_nul.
Qed.
Lemma conf_find head tail v :
  conf_ok head tail → token_ok v → find_ssid (head ++ v ++ tail) = (1, Some (head, v, tail)).
Proof. intros [Hs _ _ _] (_ & Hv & _). by apply find_shape. Qed.
Lemma conf_token_ok i f head tail v :
  conf_ok head tail → token_ok v → f_conf f = Some (head ++ v ++ tail) →
  conf_token i f = match io_read_conf i with Some e => inl (- e) | None => inr v end.
Proof.
  intros Hc Hv Hf. unfold conf_token. rewrite Hf, (conf_slurp head tail v) by done.
  destruct (io_read_conf i); [done|]. rewrite conf_find by done. destruct Hv as (_ & _ & Hl).
  rewrite (proj2 (Z.eqb_neq (len v) 0)), (proj2 (Z.leb_gt TOKEN_MAX _)) by lia. done.
Qed.
End EssidMarker.
