(* ===== verification/EssidChain.v ===== *)
(** * The ESSID comes back: chains of ChangeIpAddress requests over opcd/essid_marker.c

    The files a sequence of marker operations and edits by the apply helper can leave
    behind, with system calls failing (one case apart, stated with the theorem) and power lost
    anywhere between two steps, and what
    the restore at the next start makes of them. *)
From S2P Require Import Prelude CText EssidMarker.
From stdpp Require Import base list numbers option tactics strings.
From Stdlib Require Import ZArith Lia.
#[local] Open Scope Z_scope.
Import EssidMarker.

Module EssidChain.

(** What the helper does to the configuration: it replaces the value of the [ssid=] line. *)
Definition edit_ssid (tok : list Z) (f : files) : files :=
  match f_conf f with
  | Some c => match find_ssid c with
              | (_, Some (head, _, tail)) => f <| f_conf := Some (head ++ tok ++ tail) |>
              | _ => f
              end
  | None => f
  end.

Definition errno_ok (e : option Z) : Prop := match e with Some e => 0 < e | None => True end.
(** Errors are positive, and a file that is there is not reported missing. *)
Record io_wf (i : io) : Prop := {
  iw_rc : errno_ok (io_read_conf i); iw_rm : errno_ok (io_read_marker i); iw_wc : errno_ok (io_write_conf i);
  iw_wm : errno_ok (io_write_marker i); iw_u : errno_ok (io_unlink i); iw_there : io_read_marker i ≠ Some ENOENT }.
Definition requested_ok (r : option (list Z)) : Prop :=
  match r with Some r => Forall (λ c, 0 < c < 256) r | None => True end.

(** An arm that reads the marker, or writes none, or finds the configuration [c0]. *)
Definition arm_safe (c0 : list Z) (i : io) (f : files) : Prop :=
  io_read_marker i = None ∨ is_Some (io_write_marker i) ∨ f_conf f = Some c0.
(** The files reachable from a configuration [c0] without a marker. The flag says that the
    helper has edited the configuration and no successful arm, commit or settle has
    followed. The helper writes only a rendering of the SSID the marker records as
    requested. Arm takes a marker it cannot read for none; where that would lose the
    original (it also writes a marker, and the configuration holds another value than
    [c0]), the read succeeds. *)
Inductive chain (c0 : list Z) : files → bool → Prop :=
| chain_start : chain c0 (mk_files (Some c0) None) false
| chain_arm f ran i slot_no now requested :
    chain c0 f ran → io_wf i → arm_safe c0 i f → is_u32 slot_no →
    LONG_MIN <= now <= LONG_MAX → requested_ok requested →
    let r := opc_essid_marker_arm i slot_no now requested f in
    chain c0 r.2 (if r.1 <? 0 then ran else false)
| chain_edit f ran m tok :
    chain c0 f ran → load_marker io_ok f = inr m → token_is_ssid tok (m_target_hex m) = true →
    text_ok tok → value_ok tok → chain c0 (edit_ssid tok f) true
| chain_commit f ran i :
    chain c0 f ran → io_wf i →
    let r := opc_essid_marker_commit i f in chain c0 r.2 (if r.1 <? 0 then ran else false)
| chain_settle f ran i :
    chain c0 f ran → io_wf i →
    let r := opc_essid_marker_settle i f in chain c0 r.2 (if r.1 <? 0 then ran else false)
| chain_disarm f i :
    chain c0 f false → io_wf i → chain c0 (opc_essid_marker_disarm i f).2 false
| chain_restore f ran i :
    chain c0 f ran → io_wf i →
    let r := opc_essid_marker_restore i f in chain c0 r.2 (if r.1 <? 0 then ran else false).

Section chains.
Context (head orig tail : list Z) (Hconf : conf_ok head tail) (Horig : token_ok orig).

(** The invariant: [cur] is the value in the configuration. *)
Definition marked (cur : list Z) (ran : bool) (mk : option (list Z)) : Prop :=
  match mk with
  | None => cur = orig
  | Some b => ∃ m, b = marker_body m ∧ marker_ok m ∧ m_essid m = orig ∧
                (cur = orig ∨ ours m cur = true ∧ (ran = false → m_applied m ≠ []))
  end.
Definition inv (f : files) (ran : bool) : Prop :=
  ∃ cur, f_conf f = Some (head ++ cur ++ tail) ∧ token_ok cur ∧ marked cur ran (f_marker f).

Lemma token_len_ok tok target :
  token_is_ssid tok target = true → len target < TOKEN_MAX → 0 < len tok < TOKEN_MAX.
Proof.
  unfold token_is_ssid. intros H Hl. pose proof (len_nonneg target). unfold TOKEN_MAX in *.
  destruct (len target =? 0) eqn:E0; [done|]. apply Z.eqb_neq in E0. cbn [orb] in H.
  destruct (negb (len target mod 2 =? 0)); [done|]. destruct (quoted tok).
  - destruct (len tok - 2 =? len target / 2) eqn:E; [|done]. apply Z.eqb_eq in E.
    assert (0 <= len target / 2 <= 128) by (split; [apply Z.div_pos|apply Z.div_le_upper_bound]; lia). lia.
  - destruct (len tok =? len target) eqn:E; [|done]. apply Z.eqb_eq in E. lia.
Qed.
Lemma ours_target m cur : token_is_ssid cur (m_target_hex m) = true → ours m cur = true.
Proof.
  intros H. unfold ours. rewrite H. unfold token_is_ssid in H. destruct (len (m_target_hex m) =? 0); [done|].
  cbn [negb andb]. by rewrite orb_true_r.
Qed.
Lemma ours_applied m cur : m_applied m = cur → cur ≠ [] → ours m cur = true.
Proof. intros <- H. unfold ours. rewrite bool_decide_true by done. by destruct (m_applied m). Qed.
Lemma ours_inv m cur :
  ours m cur = true → (m_applied m ≠ [] ∧ cur = m_applied m) ∨ token_is_ssid cur (m_target_hex m) = true.
Proof.
  unfold ours. intros [[H1 H2]%andb_true_iff|[_ H]%andb_true_iff]%orb_true_iff; [left|by right].
  apply bool_decide_eq_true_1 in H2. split; [|done]. by destruct (m_applied m).
Qed.
Lemma token_ne cur : token_ok cur → cur ≠ [].
Proof. intros (_ & _ & Hl) ->. change (len (A:=Z) []) with 0 in Hl. lia. Qed.
Lemma hex2_text r : Forall (λ c, 0 < c < 256) r → text_ok (flat_map hex2 r) ∧ len (flat_map hex2 r) = 2 * len r.
Proof.
  induction 1 as [|c r Hc _ [IH1 IH2]]; [split; [constructor|done]|]. cbn [flat_map]. split.
  - apply Forall_app_2; [|done].
    assert (Hd : ∀ v, 0 <= v → hex_digit v ≠ 10 ∧ hex_digit v ≠ 0) by (intros v Hv; unfold hex_digit; case_match; lia).
    apply Forall_cons_2; [apply Hd, Z.div_pos; lia|]. apply Forall_cons_2; [|constructor].
    apply Hd, Z.mod_pos_bound. lia.
  - rewrite len_app, IH2, len_cons. change (len (hex2 c)) with 2. lia.
Qed.

(** Writing a well-formed marker that keeps the original. *)
Lemma write_inv i m f cur ran ran' :
  io_wf i → inv f ran → f_conf f = Some (head ++ cur ++ tail) → token_ok cur →
  marker_ok m → m_essid m = orig → cur = orig ∨ ours m cur = true ∧ (ran' = false → m_applied m ≠ []) →
  inv (marker_write i m f).2 (if (marker_write i m f).1 <? 0 then ran else ran').
Proof.
  intros [_ _ _ Hi _ _] Hinv Hf Hcur Hm He Hours. rewrite marker_write_ok by done.
  destruct (io_write_marker i) as [e|]; cbn [fst snd errno_ok] in *.
  - by rewrite (proj2 (Z.ltb_lt (- e) 0)) by lia.
  - exists cur. split_and!; [done|done|]. cbn. by exists m.
Qed.
Lemma unlink_inv i f ran : f_conf f = Some (head ++ orig ++ tail) → inv f ran → ∀ ran', inv (marker_unlink i f).2 ran'.
Proof.
  intros Hf (cur & Hf' & Hcur & Hm) ran'. unfold marker_unlink. destruct f as [c mk]. cbn in *. subst c.
  destruct mk as [b|]; [destruct (io_unlink i)|]; exists orig; split_and!; try done; cbn.
  destruct Hm as (m & -> & Hm & He & _). exists m. split_and!; try done. by left.
Qed.
Lemma marker_write_fails i m f e : io_write_marker i = Some e → 0 < e → ∃ rc, marker_write i m f = (rc, f) ∧ rc < 0.
Proof. intros He Hp. unfold marker_write. rewrite He. cbv zeta. destruct (_ <=? _); eexists; (split; [reflexivity|]); [done|lia]. Qed.
Lemma arm_inv f ran i slot_no now requested :
  inv f ran → io_wf i → arm_safe (head ++ orig ++ tail) i f → is_u32 slot_no →
  LONG_MIN <= now <= LONG_MAX → requested_ok requested →
  let r := opc_essid_marker_arm i slot_no now requested f in inv r.2 (if r.1 <? 0 then ran else false).
Proof.
  intros Hinv Hi Hrm Hslot Hnow Hreq. cbn zeta. pose proof Hinv as (cur & Hf & Hcur & Hmk).
  unfold opc_essid_marker_arm. rewrite (conf_token_ok i f head tail cur) by done.
  destruct (io_read_conf i) as [e|] eqn:Erc.
  { destruct Hi as [Hi _ _ _ _ _]. rewrite Erc in Hi. cbn [fst snd errno_ok] in *.
    by rewrite (proj2 (Z.ltb_lt (- e) 0)) by lia. }
  set (m := match load_marker i f with inr _ => _ | inl _ => _ end).
  destruct (io_write_marker i) as [ew|] eqn:Ew.
  { destruct Hi as [_ _ _ Hi _ _]. rewrite Ew in Hi. cbn in Hi.
    assert (Hfail : ∀ x, inv (marker_write i x f).2 (if (marker_write i x f).1 <? 0 then ran else false)).
    { intros x. destruct (marker_write_fails i x f ew Ew Hi) as (rc & -> & Hrc). cbn [fst snd]. by rewrite (proj2 (Z.ltb_lt rc 0)). }
    destruct requested as [[|c r]|]; [|destruct (TOKEN_MAX <=? _); [done|]|].
    all: apply Hfail. }
  assert (Hrd : io_read_marker i = None ∨ cur = orig).
  { destruct Hrm as [Hrm|[[x Hrm]|Hrm]]; [by left|by rewrite Ew in Hrm|right]. rewrite Hf in Hrm. injection Hrm as Hrm. by apply app_inv_head, app_inv_tail in Hrm. }
  assert (Hm : marker_ok m ∧ m_essid m = orig ∧ m_target_hex m = [] ∧ (cur = orig ∨ m_applied m = cur)).
  { destruct Hcur as (Ht & _ & Hl), Horig as (Hot & _ & Hol).
    assert (H0 : text_ok [] ∧ len (A:=Z) [] < TOKEN_MAX) by (split; [constructor|done]).
    assert (Hnew : ∀ e a, e = orig → a = [] ∨ a = cur → marker_ok (mk_marker e a [] slot_no now)).
    { intros e a -> [-> | ->]; constructor; cbn; try done; split; try done; lia. }
    unfold m. unfold marked in Hmk. destruct (f_marker f) as [b|] eqn:Eb.
    - destruct Hmk as (old & -> & Hold & He & Hours). rewrite (load_marker_body i f old) by done.
      destruct (io_read_marker i) as [er|]; [destruct Hrd as [|Hrd]; [done|]; cbn; split_and!; auto|]. cbv iota.
      destruct (ours old cur) eqn:Eo; cbn.
      + split_and!; auto.
      + destruct Hours as [-> |[Ho _]]; [|congruence]. split_and!; auto.
    - rewrite load_marker_none by done. cbn. subst cur. split_and!; auto. }
  clearbody m. destruct Hm as (Hm & He & Htg & Hours).
  assert (Hw : ∀ m', marker_ok m' → m_essid m' = m_essid m → m_applied m' = m_applied m →
    inv (marker_write i m' f).2 (if (marker_write i m' f).1 <? 0 then ran else false)).
  { intros m' Hm' He' Ha'. apply (write_inv i m' f cur); try done; [congruence|]. destruct Hours as [|Ha]; [by left|right].
    assert (Hne : m_applied m' ≠ []) by (rewrite Ha', Ha; by apply token_ne).
    split; [|done]. apply ours_applied; [congruence|by apply token_ne]. }
  destruct requested as [[|c r]|]; [by apply Hw| |by apply Hw].
  cbn in Hreq. apply hex2_text in Hreq as [Ht Hl].
  destruct (TOKEN_MAX <=? 2 * len (c :: r)) eqn:E; [done|]. apply Z.leb_gt in E.
  apply Hw; [|done|done]. destruct Hm as [H1 H2 _ H4 H5]. constructor; try done.
  change (m_target_hex (m <| m_target_hex := flat_map hex2 (c :: r) |>)) with (flat_map hex2 (c :: r)).
  rewrite Hl. by split.
Qed.
Lemma edit_inv f ran m tok :
  inv f ran → load_marker io_ok f = inr m → token_is_ssid tok (m_target_hex m) = true →
  text_ok tok → value_ok tok → inv (edit_ssid tok f) true.
Proof.
  intros (cur & Hf & Hcur & Hmk) Hl Htok Ht Hv. unfold edit_ssid. rewrite Hf, conf_find by done.
  unfold marked in Hmk. destruct (f_marker f) as [b|] eqn:Eb; [|by rewrite load_marker_none in Hl].
  destruct Hmk as (m' & -> & Hm & He & _). rewrite (load_marker_body io_ok f m') in Hl by done.
  cbn in Hl. injection Hl as ->. exists tok. split_and!; [done| |].
  - split_and!; try done; (eapply token_len_ok; [exact Htok|by destruct Hm as [_ _ [_ ?] _ _]]).
  - change (f_marker (f <| f_conf := Some (head ++ tok ++ tail) |>)) with (f_marker f). rewrite Eb.
    exists m. split_and!; try done. right. split; [by apply ours_target|done].
Qed.
Lemma applied_ok m cur : marker_ok m → token_ok cur → marker_ok (m <| m_applied := cur |>).
Proof. intros [H1 H2 H3 H4 H5] (Ht & _ & Hl). constructor; try done. cbn. split; [done|lia]. Qed.
Lemma no_target_ok m : marker_ok m → marker_ok (m <| m_target_hex := [] |>).
Proof. intros [H1 H2 H3 H4 H5]. constructor; try done. split; [constructor|done]. Qed.
Lemma write_applied_inv i m f cur ran :
  io_wf i → inv f ran → f_conf f = Some (head ++ cur ++ tail) → token_ok cur → marker_ok m → m_essid m = orig →
  let r := marker_write i (m <| m_applied := cur |>) f in inv r.2 (if r.1 <? 0 then ran else false).
Proof.
  intros Hi Hinv Hf Hcur Hm He. apply (write_inv i _ f cur); try done; [by apply applied_ok|].
  right. split; [|intros _; by apply token_ne].
  apply ours_applied; [done|by apply token_ne].
Qed.
(** What a flag and a result say together: an error leaves the files alone. *)
Definition settled (ran : bool) (r : Z * files) : Prop := inv r.2 (if r.1 <? 0 then ran else false).
Lemma settled_error rc f ran : inv f ran → rc < 0 → settled ran (rc, f).
Proof. intros Hinv Hrc. unfold settled. cbn [fst snd]. by rewrite (proj2 (Z.ltb_lt rc 0)). Qed.
Lemma settled_unlink i f ran v :
  io_wf i → f_conf f = Some (head ++ orig ++ tail) → inv f ran → settled ran (or_else (marker_unlink i f) v).
Proof. intros Hi Hf Hinv. unfold settled, or_else. cbn [fst snd]. by apply (unlink_inv i f ran). Qed.
Lemma settled_plain_unlink i f ran :
  io_wf i → f_conf f = Some (head ++ orig ++ tail) → inv f ran → settled ran (marker_unlink i f).
Proof. intros Hi Hf Hinv. by apply (unlink_inv i f ran). Qed.
(** The marker as the operations load it. *)
Lemma settled_load i f ran (k : marker_t → Z * files) (missing : Z) :
  inv f ran → io_wf i →
  (∀ m cur, f_conf f = Some (head ++ cur ++ tail) → token_ok cur → marker_ok m → m_essid m = orig →
     cur = orig ∨ ours m cur = true ∧ (ran = false → m_applied m ≠ []) → settled ran (k m)) →
  settled ran (match load_marker i f with
               | inl rc => if rc =? - ENOENT then (missing, f) else (rc, f)
               | inr m => k m
               end).
Proof.
  intros Hinv Hi Hk. pose proof Hinv as (cur & Hf & Hcur & Hmk). destruct Hi as [_ Hi _ _ _ Hthere].
  unfold marked in Hmk. destruct (f_marker f) as [b|] eqn:Eb.
  - destruct Hmk as (m & -> & Hm & He & Hours). rewrite (load_marker_body i f m) by done.
    destruct (io_read_marker i) as [e|]; [|by apply (Hk m cur)]. cbn in Hi.
    rewrite (proj2 (Z.eqb_neq (- e) (- ENOENT))) by (intros He'; apply Hthere; f_equal; lia).
    apply settled_error; [done|lia].
  - assert (∀ ran', inv f ran') by (intros ran'; exists cur; by rewrite Eb).
    rewrite load_marker_none by done. unfold settled. destruct (_ =? _); auto.
Qed.
Lemma settled_token i f ran cur (k : list Z → Z * files) :
  inv f ran → io_wf i → f_conf f = Some (head ++ cur ++ tail) → token_ok cur → settled ran (k cur) →
  settled ran (match conf_token i f with inl rc => (rc, f) | inr cur => k cur end).
Proof.
  intros Hinv [Hi _ _ _ _ _] Hf Hcur Hk. rewrite (conf_token_ok i f head tail cur) by done.
  destruct (io_read_conf i) as [e|]; [|done]. cbn in Hi. apply settled_error; [done|lia].
Qed.
Lemma settled_or_else i m f ran v :
  0 <= v → settled ran (marker_write i m f) → settled ran (or_else (marker_write i m f) v).
Proof.
  intros Hv. unfold settled, or_else. cbn [fst snd]. destruct (_ =? 0) eqn:E; [|done].
  apply Z.eqb_eq in E. rewrite E. by rewrite (proj2 (Z.ltb_ge v 0)).
Qed.

Lemma commit_inv f ran i : inv f ran → io_wf i → settled ran (opc_essid_marker_commit i f).
Proof.
  intros Hinv Hi.
  replace (opc_essid_marker_commit i f) with
    (match load_marker i f with
     | inl rc => if rc =? - ENOENT then (- ENOENT, f) else (rc, f)
     | inr m => match conf_token i f with
                | inl rc => (rc, f) | inr cur => marker_write i (m <| m_applied := cur |>) f end
     end)
    by (unfold opc_essid_marker_commit; destruct (load_marker i f) as [rc|]; [|done];
        destruct (Z.eqb_spec rc (- ENOENT)) as [-> |]; done).
  apply settled_load; [done|done|]. intros m cur Hf Hcur Hm He _.
  apply (settled_token i f ran cur); [done|done|done|done|]. by apply write_applied_inv.
Qed.
Lemma settle_inv f ran i : inv f ran → io_wf i → settled ran (opc_essid_marker_settle i f).
Proof.
  intros Hinv Hi. apply settled_load; [done|done|]. intros m cur Hf Hcur Hm He Hours.
  apply (settled_token i f ran cur); [done|done|done|done|]. cbn zeta.
  assert (Happ : negb (len (m_applied m) =? 0) = bool_decide (m_applied m ≠ [])) by (by destruct (m_applied m)).
  rewrite Happ. case_bool_decide as Ha; cbn [negb].
  - assert (Hkeep : cur = orig ∨ cur = m_applied m → settled ran (marker_write i (m <| m_target_hex := [] |>) f)).
    { intros Hc. apply (write_inv i _ f cur); try done; [by apply no_target_ok|].
      destruct Hc as [|Hc]; [by left|right]. split; [by apply ours_applied; [|rewrite Hc]|done]. }
    case_bool_decide as Hc; [apply Hkeep; by right|]. destruct (negb _ && _) eqn:Et.
    + apply settled_or_else; [done|]. by apply write_applied_inv.
    + apply settled_or_else; [done|]. apply Hkeep. left. destruct Hours as [|[Ho _]]; [done|].
      apply ours_inv in Ho as [[_ Ho]|Ho]; [done|]. rewrite Ho in Et. unfold token_is_ssid in Ho.
      by destruct (len (m_target_hex m) =? 0).
  - rewrite He. case_bool_decide as Hc; [subst cur; by apply settled_plain_unlink|].
    destruct Hours as [|[Ho Hran]]; [done|]. apply ours_inv in Ho as [[Ho _]|Ho]; [done|]. rewrite Ho.
    destruct (len (m_target_hex m) =? 0) eqn:E0; [unfold token_is_ssid in Ho; by rewrite E0 in Ho|]. cbn [negb andb].
    apply settled_or_else; [done|]. by apply write_applied_inv.
Qed.
Lemma disarm_inv f i : inv f false → io_wf i → inv (opc_essid_marker_disarm i f).2 false.
Proof.
  intros Hinv Hi. assert (H : settled false (opc_essid_marker_disarm i f)); [|by unfold settled in H; destruct (_ <? 0)].
  apply settled_load; [done|done|]. intros m cur Hf Hcur Hm He Hours.
  destruct (m_applied m) as [|a l] eqn:Ea; [|done]. cbn. apply settled_plain_unlink; try done.
  destruct Hours as [-> |[_ Hn]]; [done|]. by destruct Hn.
Qed.
(** One start: the files it leaves, whatever fails. *)
Lemma restore_inv f ran i : inv f ran → io_wf i → settled ran (opc_essid_marker_restore i f).
Proof.
  intros Hinv Hi. apply settled_load; [done|done|]. intros m cur Hf Hcur Hm He Hours.
  rewrite Hf, (conf_slurp head tail cur) by done. pose proof Hi as [Hi1 _ Hi3 _ _ _].
  destruct (io_read_conf i) as [e|]; [cbn in Hi1; apply settled_error; [done|lia]|].
  rewrite conf_find by done. pose proof Hcur as (_ & _ & Hl). rewrite (proj2 (Z.leb_gt TOKEN_MAX (len cur))) by lia.
  rewrite He. case_bool_decide as Hc; [subst cur; by apply settled_plain_unlink|].
  destruct Hours as [|[Ho Hran]]; [done|]. rewrite Ho. cbn [negb].
  destruct (io_write_conf i) as [e|]; [cbn in Hi3; apply settled_error; [done|lia]|].
  apply settled_unlink; [done|done|]. destruct Hinv as (cur' & Hf' & Hcur' & Hmk). exists orig. split_and!; [done|done|].
  change (f_marker (f <| f_conf := Some (head ++ orig ++ tail) |>)) with (f_marker f).
  unfold marked in *. destruct (f_marker f); [|done]. destruct Hmk as (m' & ? & ? & ? & _). exists m'. split_and!; auto.
Qed.
Lemma chain_inv f ran : chain (head ++ orig ++ tail) f ran → inv f ran.
Proof.
  induction 1.
  - exists orig. by split_and!.
  - by apply arm_inv.
  - by eapply edit_inv.
  - by apply commit_inv.
  - by apply settle_inv.
  - by apply disarm_inv.
  - by apply restore_inv.
Qed.
Lemma restore_ok f ran :
  inv f ran →
  opc_essid_marker_restore io_ok f =
  (if bool_decide (f_conf f = Some (head ++ orig ++ tail)) then 0 else 1, mk_files (Some (head ++ orig ++ tail)) None).
Proof.
  intros (cur & Hf & Hcur & Hmk). unfold opc_essid_marker_restore. destruct f as [c mk]. cbn in Hf, Hmk. subst c.
  destruct mk as [b|]; cbn [marked] in Hmk.
  2:{ subst cur. rewrite load_marker_none by done. cbn. by rewrite bool_decide_true. }
  destruct Hmk as (m & -> & Hm & He & Hours). rewrite (load_marker_body io_ok _ m) by done. cbn [io_ok io_read_marker].
  cbn [f_conf]. rewrite (conf_slurp head tail cur) by done. cbn [io_ok io_read_conf].
  rewrite conf_find by done. pose proof Hcur as (_ & _ & Hl). rewrite (proj2 (Z.leb_gt TOKEN_MAX (len cur))) by lia.
  rewrite He. case_bool_decide as Hc; [subst cur; by rewrite bool_decide_true|].
  destruct Hours as [|[Ho _]]; [done|]. rewrite Ho. cbn [negb io_write_conf io_ok].
  rewrite bool_decide_false; [done|]. intros [= Happ]. apply app_inv_head, app_inv_tail in Happ. done.
Qed.
End chains.

Lemma conf_parts c0 head orig tail :
  find_ssid c0 = (1, Some (head, orig, tail)) → 0 < len orig < TOKEN_MAX → no_nul c0 →
  len head + len tail + TOKEN_MAX <= FILE_MAX_BYTES →
  c0 = head ++ orig ++ tail ∧ conf_ok head tail ∧ token_ok orig.
Proof.
  intros Hfind Hlen Hnul Hsize. apply find_shape_inv in Hfind as (Hshape & Hv & ->).
  apply Forall_app in Hnul as [Hh Hnul]. apply Forall_app in Hnul as [Ho Ht].
  split_and!; [done|by constructor|]. split; [|done]. destruct Hv as [Hlf _].
  apply Forall_forall. intros c Hc. split; [by apply (proj1 (Forall_forall _ _) Hlf)|by apply (proj1 (Forall_forall _ _) Ho)].
Qed.


(** A request for "B" is applied but its commit never runs, a second one for "C" is refused:
    the marker cannot be rewritten, so the helper is not started. *)
Definition example_conf : list Z := str "network={" ++ [10] ++ str " ssid=" ++ [34] ++ str "home" ++ [34; 10] ++ str "}" ++ [10].
Definition example_armed : files := (opc_essid_marker_arm io_ok 3 1000 (Some (str "B")) (mk_files (Some example_conf) None)).2.
Definition example_edited : files := edit_ssid ([34] ++ str "B" ++ [34]) example_armed.
Definition example_full : io := mk_io None None None (Some 28) None.
Definition example_left : files := (opc_essid_marker_arm example_full 4 2000 (Some (str "C")) example_edited).2.

(** The assumption on arm's read of the marker is needed: an arm that cannot read the marker
    of a chain takes the value the chain wrote for the original, and the true original is
    gone. *)
Example unreadable_marker_loses_original :
  (opc_essid_marker_restore io_ok
    (opc_essid_marker_arm (mk_io None (Some 5) None None None) 4 2000 (Some (str "C")) example_edited).2).2
  = mk_files (f_conf example_edited) None.
Proof. vm_compute. reflexivity. Qed.
End EssidChain.
