(* ===== verification/Routes.v ===== *)
(** * The direct-route lookup: opcd/route_lookup.h, opcd/route_lookup.c

    The kernel's routing table as text, the scan of its lines and the choice of the best
    route. [sscanf] follows the C library on 64-bit Linux: numbers saturate as in [strtoul]
    and [strtol], and an [int] keeps the low 32 bits. *)
From S2P Require Import Prelude CText.
From stdpp Require Import base list numbers option tactics strings.
From Stdlib Require Import ZArith Lia.
#[local] Open Scope Z_scope.

Module Routes.

Definition RT_UP : Z := 1.
Definition RT_GATEWAY : Z := 2.
Definition RT_REJECT : Z := 512.

(** [for (; m; m &= m - 1u) n++;] *)
Fixpoint mask_bits_loop (fuel : nat) (m n : Z) : Z :=
  match fuel with
  | O => n
  | S fuel => if m =? 0 then n else mask_bits_loop fuel (Z.land m (m - 1)) (n + 1)
  end.
Definition mask_bits (m : Z) : Z := mask_bits_loop 32 m 0.

(** [%lx] *)
Definition scan_lx (s : list Z) : option (Z * list Z) :=
  let s := skip isspace s in
  let '(neg, s) := match s with
                   | c :: s' => if c =? 45 then (true, s') else if c =? 43 then (false, s') else (false, s)
                   | [] => (false, s)
                   end in
  let '(prefix, s) := match s with
                      | z :: x :: s' => if (z =? 48) && ((x =? 120) || (x =? 88)) then (true, s') else (false, s)
                      | _ => (false, s)
                      end in
  let '(ds, r) := span isxdigit s in
  let v := digits_value 16 ds in
  if negb prefix && (len ds =? 0) then None
  else Some (if ULONG_MAX <? v then ULONG_MAX else if neg then u64 (- v) else v, r).
(** [%d], the value as the unsigned word it is used as *)
Definition scan_d (s : list Z) : option (Z * list Z) := '(v, r) ← strtol s; Some (u32 v, r).
(** [%31s] *)
Definition scan_word (n : nat) (s : list Z) : option (list Z * list Z) :=
  let '(w, r) := span_n n (λ c, negb (isspace c)) (skip isspace s) in
  match w with [] => None | _ => Some (w, r) end.

(** ntohl on a little-endian CPU *)
Definition ntohl (v : Z) : Z :=
  (v mod 256) * 16777216 + (v / 256 mod 256) * 65536 + (v / 65536 mod 256) * 256 + v / 16777216 mod 256.

Record row := mk_row { r_iface : list Z; r_dest : Z; r_gw : Z; r_flags : Z; r_metric : Z; r_mask : Z }.

(** A line's eight conversions; [None]: the [sscanf] does not return 8. *)
Definition scan_row (buf : list Z) : option row :=
  '(iface, s) ← scan_word 31 buf;
  '(dest_raw, s) ← scan_lx s;
  '(gw_raw, s) ← scan_lx s;
  '(flags, s) ← scan_lx s;
  '(_, s) ← scan_d s;
  '(_, s) ← scan_d s;
  '(metric, s) ← scan_d s;
  '(mask_raw, _) ← scan_lx s;
  Some (mk_row iface (ntohl (u32 dest_raw)) gw_raw flags metric (ntohl (u32 mask_raw))).

Record best := mk_best { b_bits : Z; b_metric : Z; b_direct : bool; b_mask : Z }.
Definition row_direct (r : row) : bool :=
  (r_gw r =? 0) && (Z.land (r_flags r) (Z.lor RT_GATEWAY RT_REJECT) =? 0) && negb (bool_decide (r_iface r = str "*")).
Definition row_step (dst_host : Z) (b : best) (r : row) : best :=
  if negb (Z.land (r_flags r) RT_UP =? 0) && (Z.land dst_host (r_mask r) =? r_dest r) then
    let bits := mask_bits (r_mask r) in
    if (b_bits b <? bits) || ((bits =? b_bits b) && (r_metric r <? b_metric b))
    then mk_best bits (r_metric r) (row_direct r) (r_mask r)
    else b
  else b.

Fixpoint lookup_loop (fuel : nat) (dst_host : Z) (line : list Z) (b : best) : best :=
  match fuel, line with
  | S fuel, _ :: _ =>
      let '(buf, next) := split_lf line in
      let b := if len buf <? 256 then
                 match scan_row buf with Some r => row_step dst_host b r | None => b end
               else b in
      match next with Some rest => lookup_loop fuel dst_host rest b | None => b end
  | _, _ => b
  end.
(** The matched netmask; [None] is -ENETUNREACH. *)
Definition opcd_route_direct_lookup (text : option (list Z)) (dst_host : Z) : option Z :=
  match text with
  | None => None
  | Some text =>
      let b := lookup_loop (length text) dst_host text (mk_best (-1) 0 false 0) in
      if (b_bits b <? 0) || negb (b_direct b) then None else Some (b_mask b)
  end.

(** ** The table the kernel prints *)

(** A route and its line in /proc/net/route: tab-separated columns, words in network byte
    order with [%08X]; [rt_rest] is what follows the mask. *)
Record route := mk_route {
  rt_iface : list Z; rt_net : Z; rt_plen : Z; rt_gw : Z; rt_flags : Z;
  rt_refcnt : Z; rt_use : Z; rt_metric : Z; rt_rest : list Z }.
Definition prefix_mask (n : Z) : Z := 4294967296 - 2 ^ (32 - n).
Definition route_ok (r : route) : Prop :=
  0 < len (rt_iface r) <= 15 ∧ Forall (λ c, isspace c = false) (rt_iface r) ∧
  0 <= rt_plen r <= 32 ∧ is_u32 (rt_net r) ∧ rt_net r mod 2 ^ (32 - rt_plen r) = 0 ∧
  is_u32 (rt_gw r) ∧ 0 <= rt_flags r < 65536 ∧
  is_u32 (rt_refcnt r) ∧ is_u32 (rt_use r) ∧ is_u32 (rt_metric r) ∧
  (rt_rest r = [] ∨ ∃ t, rt_rest r = 9 :: t) ∧ Forall (λ c, c ≠ 10) (rt_rest r) ∧ len (rt_rest r) <= 128.

Definition hex_upper (v : Z) : Z := if v <? 10 then 48 + v else 65 + (v - 10).
Fixpoint hexn (n : nat) (v : Z) : list Z :=
  match n with O => [] | S n => hexn n (v / 16) ++ [hex_upper (v mod 16)] end.
Definition print_route (r : route) : list Z :=
  rt_iface r ++ 9 :: hexn 8 (ntohl (rt_net r)) ++ 9 :: hexn 8 (ntohl (rt_gw r)) ++ 9 :: hexn 4 (rt_flags r) ++
  9 :: dec (rt_refcnt r) ++ 9 :: dec (rt_use r) ++ 9 :: dec (rt_metric r) ++
  9 :: hexn 8 (ntohl (prefix_mask (rt_plen r))) ++ rt_rest r.
Definition route_header : list Z :=
  str "Iface" ++ [9] ++ str "Destination" ++ [9] ++ str "Gateway " ++ [9] ++ str "Flags" ++ [9] ++ str "RefCnt" ++ [9] ++
  str "Use" ++ [9] ++ str "Metric" ++ [9] ++ str "Mask" ++ [9; 9] ++ str "MTU" ++ [9] ++ str "Window" ++ [9] ++ str "IRTT".
Definition route_table (t : list route) : list Z := text (route_header :: map print_route t).

(** ** What the lookup promises *)

Definition covers (dst : Z) (r : route) : Prop :=
  Z.testbit (rt_flags r) 0 = true ∧ dst / 2 ^ (32 - rt_plen r) = rt_net r / 2 ^ (32 - rt_plen r).
#[global] Instance covers_dec dst r : Decision (covers dst r).
Proof. unfold covers. apply _. Defined.
Definition better (a b : route) : Prop :=
  rt_plen b < rt_plen a ∨ rt_plen a = rt_plen b ∧ rt_metric a < rt_metric b.
Definition direct (r : route) : Prop :=
  rt_gw r = 0 ∧ Z.testbit (rt_flags r) 1 = false ∧ Z.testbit (rt_flags r) 9 = false ∧ rt_iface r ≠ str "*".
(** [r] is the best of [l]: better than all before it, not beaten by one after it. *)
Definition best_of (l : list route) (r : route) : Prop :=
  ∃ pre post, l = pre ++ r :: post ∧ Forall (λ r', better r r') pre ∧ Forall (λ r', ¬ better r' r) post.

(** ** Reading the columns back *)

Lemma hexn_facts n : ∀ v, 0 <= v →
  Forall (λ c, isxdigit c = true) (hexn n v) ∧ digits_value 16 (hexn n v) = v mod 16 ^ Z.of_nat n ∧ length (hexn n v) = n.
Proof.
  induction n as [|n IH]; intros v Hv; [by rewrite Z.mod_1_r|]. cbn [hexn].
  destruct (IH (v / 16)) as (H1 & H2 & H3); [apply Z.div_pos; lia|].
  assert (Hd : 0 <= v mod 16 < 16) by (apply Z.mod_pos_bound; lia).
  assert (Hx : hexval (hex_upper (v mod 16)) = v mod 16).
  { generalize (v mod 16), Hd. intros d Hd'. unfold hex_upper, hexval.
    destruct (d <? 10) eqn:E; guards.
    - rewrite (proj2 (Z.leb_le 48 (48 + d))), (proj2 (Z.leb_le (48 + d) 57)) by lia. cbn [andb]. lia.
    - rewrite (proj2 (Z.leb_gt (65 + (d - 10)) 57)), (proj2 (Z.leb_gt 97 (65 + (d - 10)))) by lia.
      rewrite (proj2 (Z.leb_le 65 (65 + (d - 10)))), (proj2 (Z.leb_le (65 + (d - 10)) 70)), andb_false_r by lia.
      cbn [andb]. lia. }
  split_and!.
  - apply Forall_app_2; [done|]. apply Forall_cons_2; [|constructor]. unfold isxdigit. rewrite Hx. apply Z.leb_le. lia.
  - rewrite digits_value_snoc, H2, Hx, Nat2Z.inj_succ, Z.pow_succ_r by lia.
    rewrite Z.rem_mul_r by (try lia; apply Z.pow_nonzero; lia). lia.
  - rewrite length_app, H3. cbn. lia.
Qed.
Lemma xdigit_facts c :
  isxdigit c = true → isspace c = false ∧ c ≠ 45 ∧ c ≠ 43 ∧ c ≠ 120 ∧ c ≠ 88 ∧ c ≠ 10 ∧ c ≠ 9.
Proof.
  unfold isxdigit, isspace. intros H. apply Z.leb_le in H. unfold hexval in H.
  assert (48 <= c <= 57 ∨ 97 <= c <= 102 ∨ 65 <= c <= 70) as Hc.
  { destruct ((48 <=? c) && (c <=? 57)) eqn:E1; [guards; lia|].
    destruct ((97 <=? c) && (c <=? 102)) eqn:E2; [guards; lia|].
    destruct ((65 <=? c) && (c <=? 70)) eqn:E3; [guards; lia|]. lia. }
  split; [|lia]. rewrite (proj2 (Z.leb_gt c 13)), (proj2 (Z.eqb_neq c 32)) by lia. by rewrite andb_false_r.
Qed.
(** The columns are ended by a tab or the end of the line. *)
Definition ended (r : list Z) : Prop := r = [] ∨ ∃ t, r = 9 :: t.
Lemma ended_stops f r : f 9 = false → ended r → match r with c :: _ => f c = false | [] => True end.
Proof. by intros Hf [-> |[t ->]]. Qed.
Lemma scan_lx_hexn n v r :
  (0 < n)%nat → 0 <= v < 16 ^ Z.of_nat n → Z.of_nat n <= 16 → ended r → scan_lx (9 :: hexn n v ++ r) = Some (v, r).
Proof.
  intros Hn Hv Hn16 Hr. destruct (hexn_facts n v) as (Hx & Hval & Hlen); [lia|]. rewrite Z.mod_small in Hval by lia.
  set (ds := hexn n v) in *. clearbody ds. unfold scan_lx.
  assert (Hsp : skip isspace (9 :: ds ++ r) = ds ++ r).
  { destruct ds as [|c ds]; [cbn in Hlen; lia|]. apply Forall_cons_1 in Hx as [Hc _]. apply xdigit_facts in Hc as (Hc & _).
    unfold skip. cbn [app span]. change (isspace 9) with true. cbv iota. cbn [span]. by rewrite Hc. }
  rewrite Hsp. destruct ds as [|c ds]; [cbn in Hlen; lia|]. cbn [app].
  assert (Hc := Hx). apply Forall_cons_1 in Hc as [Hc Hrest]. apply xdigit_facts in Hc as (_ & H1 & H2 & _).
  rewrite (proj2 (Z.eqb_neq c 45) H1), (proj2 (Z.eqb_neq c 43) H2).
  assert (Hp : match c :: ds ++ r with
    | z :: x :: s' => if (z =? 48) && ((x =? 120) || (x =? 88)) then (true, s') else (false, c :: ds ++ r)
    | _ => (false, c :: ds ++ r) end = (false, c :: ds ++ r)).
  { assert (Hnx : match ds ++ r with x :: _ => x ≠ 120 ∧ x ≠ 88 | [] => True end).
    { destruct ds as [|d ds]; [by destruct Hr as [-> |[t ->]]|]. apply Forall_cons_1 in Hrest as [Hd _].
      by apply xdigit_facts in Hd as (_ & _ & _ & ? & ? & _). }
    destruct (ds ++ r) as [|x y]; [done|]. destruct Hnx as [Hx1 Hx2].
    rewrite (proj2 (Z.eqb_neq x 120) Hx1), (proj2 (Z.eqb_neq x 88) Hx2). by rewrite andb_false_r. }
  rewrite Hp. change (c :: ds ++ r) with ((c :: ds) ++ r). rewrite span_run; [|done|by apply ended_stops].
  rewrite Hval, len_cons. pose proof (len_nonneg ds). rewrite (proj2 (Z.eqb_neq (1 + len ds) 0)) by lia. cbn [negb andb].
  rewrite (proj2 (Z.ltb_ge ULONG_MAX v)); [done|]. unfold ULONG_MAX.
  assert (16 ^ Z.of_nat n <= 16 ^ 16) by (apply Z.pow_le_mono_r; lia). change (16 ^ 16) with 18446744073709551616 in *. lia.
Qed.
Lemma scan_d_dec v r : is_u32 v → ended r → scan_d (9 :: dec v ++ r) = Some (v, r).
Proof.
  unfold is_u32. intros Hv Hr. destruct (dec_loop_spec 10 v []) as (ds & He & Hds & Hval & Hl); [lia|cbn; lia|].
  rewrite app_nil_r in He. unfold dec. rewrite He. unfold scan_d, strtol, scan_int.
  destruct ds as [|c ds]; [cbn in Hl; lia|]. assert (Hc := Hds). apply Forall_cons_1 in Hc as [Hc _].
  destruct (digit_not_space c Hc) as (Hs & H45 & H43 & _).
  assert (Hsp : skip isspace (9 :: (c :: ds) ++ r) = c :: ds ++ r).
  { unfold skip. cbn [app span]. change (isspace 9) with true. cbv iota. cbn [span]. by rewrite Hs. }
  rewrite Hsp, (proj2 (Z.eqb_neq _ _) H45), (proj2 (Z.eqb_neq _ _) H43).
  change (c :: ds ++ r) with ((c :: ds) ++ r). rewrite span_run; [|done|by apply ended_stops].
  rewrite Hval. cbn. unfold clamp, LONG_MIN, LONG_MAX. rewrite Z.min_r, Z.max_r by lia. by rewrite u32_id.
Qed.
Lemma scan_word_iface w r :
  (0 < length w <= 31)%nat → Forall (λ c, isspace c = false) w → ended r → scan_word 31 (w ++ r) = Some (w, r).
Proof.
  intros Hl Hw Hr. unfold scan_word.
  assert (Hsp : skip isspace (w ++ r) = w ++ r).
  { destruct w as [|c w]; [cbn in Hl; lia|]. apply Forall_cons_1 in Hw as [Hc _]. unfold skip. cbn [app span]. by rewrite Hc. }
  assert (Hsn : ∀ n w, (length w <= n)%nat → Forall (λ c, isspace c = false) w →
    span_n n (λ c, negb (isspace c)) (w ++ r) = (w, r)).
  { clear w Hl Hw Hsp. induction n as [|n IH]; intros [|c w] Hl Hw; [done|cbn in Hl; lia| |].
    - by destruct Hr as [-> |[t ->]].
    - apply Forall_cons_1 in Hw as [Hc Hw]. cbn [app span_n length] in *. rewrite Hc. cbn [negb]. by rewrite IH by (try done; lia). }
  rewrite Hsp, Hsn by (try done; lia). destruct w; [cbn in Hl; lia|done].
Qed.
Definition is_b (a : Z) : Prop := 0 <= a < 256.
Lemma ntohl_bytes a b c d :
  is_b a → is_b b → is_b c → is_b d →
  ntohl (a + 256 * b + 65536 * c + 16777216 * d) = d + 256 * c + 65536 * b + 16777216 * a.
Proof.
  unfold is_b. intros. unfold ntohl.
  replace ((a + 256 * b + 65536 * c + 16777216 * d) mod 256) with a by (apply Z.mod_unique with (b + 256 * c + 65536 * d); lia).
  replace ((a + 256 * b + 65536 * c + 16777216 * d) / 256) with (b + 256 * c + 65536 * d) by (apply Z.div_unique with a; lia).
  replace ((a + 256 * b + 65536 * c + 16777216 * d) / 65536) with (c + 256 * d) by (apply Z.div_unique with (a + 256 * b); lia).
  replace ((a + 256 * b + 65536 * c + 16777216 * d) / 16777216) with d by (apply Z.div_unique with (a + 256 * b + 65536 * c); lia).
  replace ((b + 256 * c + 65536 * d) mod 256) with b by (apply Z.mod_unique with (c + 256 * d); lia).
  replace ((c + 256 * d) mod 256) with c by (apply Z.mod_unique with d; lia).
  rewrite (Z.mod_small d) by lia. lia.
Qed.
Lemma ntohl_twice v : is_u32 v → 0 <= ntohl v < 4294967296 ∧ ntohl (u32 (ntohl v)) = v.
Proof.
  unfold is_u32. intros Hv.
  assert (∃ a b c d, is_b a ∧ is_b b ∧ is_b c ∧ is_b d ∧ v = a + 256 * b + 65536 * c + 16777216 * d) as (a & b & c & d & Ha & Hb & Hc & Hd & ->).
  { exists (v mod 256), (v / 256 mod 256), (v / 256 / 256 mod 256), (v / 256 / 256 / 256).
    unfold is_b. split_and!; try (apply Z.mod_pos_bound; lia); Z.to_euclidean_division_equations; lia. }
  rewrite ntohl_bytes by done. unfold is_b in *. split; [lia|]. rewrite u32_id by (unfold is_u32; lia). rewrite ntohl_bytes by done. lia.
Qed.
Lemma prefix_mask_u32 n : 0 <= n <= 32 → is_u32 (prefix_mask n).
Proof.
  intros Hn. unfold prefix_mask, is_u32. pose proof (Z.pow_pos_nonneg 2 (32 - n)). pose proof (Z.pow_le_mono_r 2 (32 - n) 32).
  change (2 ^ 32) with 4294967296 in *. lia.
Qed.
Definition row_of (r : route) : row :=
  mk_row (rt_iface r) (rt_net r) (ntohl (rt_gw r)) (rt_flags r) (rt_metric r) (prefix_mask (rt_plen r)).
Lemma scan_row_print r : route_ok r → scan_row (print_route r) = Some (row_of r).
Proof.
  intros (Hil & Hi & Hp & Hn & _ & Hg & Hf & Hrc & Hu & Hm & Hr & _). unfold scan_row, print_route.
  destruct (ntohl_twice _ Hn) as [Hn1 Hn2]. destruct (ntohl_twice _ Hg) as [Hg1 Hg2].
  destruct (ntohl_twice _ (prefix_mask_u32 _ Hp)) as [Hk1 Hk2].
  assert (Ht : ∀ t, ended (9 :: t)) by (intros t; right; by exists t).
  rewrite scan_word_iface by (try done; unfold len in Hil; lia). cbn [mbind option_bind].
  rewrite scan_lx_hexn by (try done; lia). cbn [mbind option_bind].
  rewrite scan_lx_hexn by (try done; lia). cbn [mbind option_bind].
  rewrite scan_lx_hexn by (try done; lia). cbn [mbind option_bind].
  rewrite !scan_d_dec by done. cbn [mbind option_bind].
  rewrite !scan_d_dec by done. cbn [mbind option_bind].
  rewrite !scan_d_dec by done. cbn [mbind option_bind].
  rewrite scan_lx_hexn by (try done; lia). cbn [mbind option_bind]. unfold row_of. by rewrite Hn2, Hk2.
Qed.
Lemma print_route_line r : route_ok r → Forall (λ c, c ≠ 10) (print_route r) ∧ len (print_route r) < 256.
Proof.
  intros (Hil & Hi & Hp & Hn & _ & Hg & Hf & Hrc & Hu & Hm & _ & Hr & Hrl).
  assert (Hx : ∀ n v, 0 <= v → Forall (λ c, c ≠ 10) (hexn n v) ∧ len (hexn n v) = Z.of_nat n).
  { intros n v Hv. destruct (hexn_facts n v Hv) as (H1 & _ & H3). split; [|unfold len; lia].
    eapply Forall_impl; [exact H1|]. by intros c (_ & _ & _ & _ & _ & ? & _)%xdigit_facts. }
  assert (Hd : ∀ v, is_u32 v → Forall (λ c, c ≠ 10) (dec v) ∧ len (dec v) <= 10).
  { intros v [H1 H2]%dec_text. split; [|unfold len; lia]. eapply Forall_impl; [exact H1|]. by intros c [? _]. }
  destruct (ntohl_twice _ Hn) as [Hn1 _]. destruct (ntohl_twice _ Hg) as [Hg1 _].
  destruct (ntohl_twice _ (prefix_mask_u32 _ Hp)) as [Hk1 _].
  destruct (Hx 8%nat (ntohl (rt_net r))) as [? ?]; [lia|]. destruct (Hx 8%nat (ntohl (rt_gw r))) as [? ?]; [lia|].
  destruct (Hx 8%nat (ntohl (prefix_mask (rt_plen r)))) as [? ?]; [lia|]. destruct (Hx 4%nat (rt_flags r)) as [? ?]; [lia|].
  destruct (Hd _ Hrc) as [? ?], (Hd _ Hu) as [? ?], (Hd _ Hm) as [? ?]. unfold print_route. split.
  - assert (Forall (λ c, c ≠ 10) (rt_iface r)) by (eapply Forall_impl; [exact Hi|]; by intros c Hc ->).
    repeat (apply Forall_app_2; [done|]; try (apply Forall_cons_2; [done|])). done.
  - repeat (rewrite ?len_app, ?len_cons). lia.
Qed.

(** ** The scan as a fold over the routes *)

Lemma lookup_lines dst ls : ∀ fuel b,
  Forall (λ l, Forall (λ c, c ≠ 10) l ∧ len l < 256) ls → (length (text ls) <= fuel)%nat →
  lookup_loop fuel dst (text ls) b =
  foldl (λ b l, match scan_row l with Some r => row_step dst b r | None => b end) b ls.
Proof.
  induction ls as [|l ls IH]; intros fuel b Hls Hf; [by destruct fuel|].
  apply Forall_cons_1 in Hls as [[Hl Hlen] Hls]. rewrite text_cons in *. rewrite length_app in Hf. cbn [length] in Hf.
  destruct fuel as [|fuel]; [lia|]. cbn [lookup_loop foldl].
  destruct (l ++ 10 :: text ls) eqn:E; [by destruct l|]. rewrite <- E.
  rewrite split_lf_run, (proj2 (Z.ltb_lt _ _) Hlen) by done. apply IH; [done|lia].
Qed.
Lemma land_pow2 f n : 0 <= n → (Z.land f (2 ^ n) =? 0) = negb (Z.testbit f n).
Proof.
  intros Hn. destruct (Z.testbit f n) eqn:E; cbn [negb].
  - apply Z.eqb_neq. intros H. assert (Hb : Z.testbit (Z.land f (2 ^ n)) n = false) by (by rewrite H, Z.bits_0).
    by rewrite Z.land_spec, Z.pow2_bits_true, E in Hb by done.
  - apply Z.eqb_eq, Z.bits_inj'. intros i Hi. rewrite Z.land_spec, Z.pow2_bits_eqb, Z.bits_0 by done.
    destruct (Z.eqb_spec n i) as [-> |]; [by rewrite E|apply andb_false_r].
Qed.
Lemma route_land_prefix dst n :
  is_u32 dst → 0 <= n <= 32 → Z.land dst (prefix_mask n) = dst / 2 ^ (32 - n) * 2 ^ (32 - n).
Proof.
  unfold is_u32. intros Hd Hn. set (k := 32 - n).
  assert (Hm : prefix_mask n = Z.shiftl (Z.ones n) k).
  { unfold prefix_mask. fold k. rewrite Z.ones_equiv, Z.shiftl_mul_pow2 by lia.
    assert (2 ^ n * 2 ^ k = 4294967296) by (rewrite <- Z.pow_add_r by lia; by replace (n + k) with 32 by lia). lia. }
  rewrite Hm, <- Z.shiftl_mul_pow2, <- Z.shiftr_div_pow2 by lia. apply Z.bits_inj'. intros i Hi.
  rewrite Z.land_spec, !Z.shiftl_spec by done. destruct (Z.leb_spec 0 (i - k)) as [Hik|Hik].
  - rewrite Z.shiftr_spec by lia. replace (i - k + k) with i by lia. destruct (Z.ltb_spec (i - k) n).
    + rewrite Z.ones_spec_low by lia. apply andb_true_r.
    + rewrite Z.ones_spec_high, andb_false_r by lia. symmetry. apply Z.bits_above_log2; [lia|].
      destruct (Z.eq_dec dst 0) as [-> |]; [cbn; lia|]. apply Z.log2_lt_pow2; [lia|].
      pose proof (Z.pow_le_mono_r 2 32 i). change (2 ^ 32) with 4294967296 in *. lia.
  - rewrite !(Z.testbit_neg_r _ (i - k)) by done. apply andb_false_r.
Qed.
Lemma mask_bits_prefix n : 0 <= n <= 32 → mask_bits (prefix_mask n) = n.
Proof.
  intros Hn. assert (H : forallb (λ k, mask_bits (prefix_mask (Z.of_nat k)) =? Z.of_nat k) (seq 0 33) = true) by reflexivity.
  rewrite forallb_forall in H. specialize (H (Z.to_nat n)). rewrite Z2Nat.id in H by lia.
  apply Z.eqb_eq, H, in_seq. lia.
Qed.
Lemma covers_row dst r :
  is_u32 dst → route_ok r →
  negb (Z.land (rt_flags r) RT_UP =? 0) && (Z.land dst (prefix_mask (rt_plen r)) =? rt_net r) = bool_decide (covers dst r).
Proof.
  intros Hd (_ & _ & Hp & Hn & Hal & _). change RT_UP with (2 ^ 0). rewrite land_pow2, negb_involutive by done.
  rewrite route_land_prefix by done. set (k := 2 ^ (32 - rt_plen r)) in *.
  assert (Hk : 0 < k) by (apply Z.pow_pos_nonneg; lia).
  pose proof (Z.div_mod (rt_net r) k) as Hdm. rewrite Hal in Hdm.
  apply eq_true_iff_eq. rewrite bool_decide_eq_true, andb_true_iff, Z.eqb_eq.
  assert (dst / k * k = rt_net r ↔ dst / k = rt_net r / k) as ->; [|done]. split; [|intros ->; lia].
  intros H. apply (Z.mul_cancel_r _ _ k); lia.
Qed.
Lemma direct_row r : route_ok r → row_direct (row_of r) = true ↔ direct r.
Proof.
  intros (_ & _ & _ & _ & _ & Hg & _). unfold row_direct, direct. cbn [row_of r_gw r_flags r_iface].
  change (Z.lor RT_GATEWAY RT_REJECT) with (Z.lor (2 ^ 1) (2 ^ 9)). rewrite Z.land_lor_distr_r.
  assert (Hor : ∀ a b, (Z.lor a b =? 0) = (a =? 0) && (b =? 0)).
  { intros a b. apply eq_true_iff_eq. rewrite andb_true_iff, !Z.eqb_eq. apply Z.lor_eq_0_iff. }
  rewrite Hor, !land_pow2, !andb_true_iff, !negb_true_iff, bool_decide_eq_false, Z.eqb_eq by done.
  assert (Hz : ntohl (rt_gw r) = 0 ↔ rt_gw r = 0).
  { destruct (ntohl_twice _ Hg) as [_ H]. split; [|by intros ->]. intros H0. rewrite H0 in H. by rewrite <- H. }
  rewrite Hz. tauto.
Qed.

Definition best_found (r : route) : best :=
  mk_best (rt_plen r) (rt_metric r) (row_direct (row_of r)) (prefix_mask (rt_plen r)).
Lemma row_step_route dst b r :
  is_u32 dst → route_ok r →
  row_step dst b (row_of r) =
  if decide (covers dst r ∧ (b_bits b < rt_plen r ∨ rt_plen r = b_bits b ∧ rt_metric r < b_metric b)) then best_found r else b.
Proof.
  intros Hd Hr. pose proof Hr as (_ & _ & Hp & _). unfold row_step. cbn [row_of r_flags r_mask r_dest r_metric].
  rewrite covers_row, mask_bits_prefix by done. case_bool_decide as Hc; [|rewrite decide_False by tauto; done].
  destruct (_ || _) eqn:E.
  - rewrite decide_True; [done|]. split; [done|]. apply orb_true_iff in E as [E|E]; guards; [left; lia|right; lia].
  - rewrite decide_False; [done|]. intros [_ H]. apply orb_false_iff in E as [E1 E2]. apply Z.ltb_ge in E1.
    destruct H as [H|[H1 H2]]; [lia|]. by rewrite H1, Z.eqb_refl, (proj2 (Z.ltb_lt _ _) H2) in E2.
Qed.
Lemma best_of_snoc l r0 r : best_of l r0 → best_of (l ++ [r]) (if decide (better r r0) then r else r0).
Proof.
  intros (pre & post & -> & Hpre & Hpost). case_decide as Hb.
  - exists (pre ++ r0 :: post), []. split_and!; [done| |constructor]. apply Forall_app_2; [|apply Forall_cons_2; [done|]].
    + eapply Forall_impl; [exact Hpre|]. intros r'. unfold better in *. lia.
    + eapply Forall_impl; [exact Hpost|]. intros r'. unfold better in *. lia.
  - exists pre, (post ++ [r]). split_and!; [by rewrite <- app_assoc|done|]. apply Forall_app_2; [done|by constructor].
Qed.
Lemma fold_best dst t :
  is_u32 dst → Forall route_ok t →
  let b := foldl (row_step dst) (mk_best (-1) 0 false 0) (map row_of t) in
  (filter (covers dst) t = [] ∧ b = mk_best (-1) 0 false 0) ∨
  (∃ r, best_of (filter (covers dst) t) r ∧ b = best_found r).
Proof.
  intros Hd. cbn zeta. induction t as [|r t IH] using rev_ind; intros Ht; [by left|].
  apply Forall_app in Ht as [Ht Hr]. apply Forall_cons_1 in Hr as [Hr _]. rewrite map_app, foldl_app, filter_app.
  cbn [map foldl]. rewrite row_step_route, filter_cons by done. pose proof Hr as (_ & _ & Hp & _).
  destruct (decide (covers dst r)) as [Hc|Hc].
  2:{ rewrite decide_False by tauto. rewrite filter_nil, app_nil_r. by apply IH. }
  rewrite filter_nil. right. destruct (IH Ht) as [[-> ->]|(r0 & Hbest & ->)].
  - exists r. split; [exists [], []; by repeat constructor|]. rewrite decide_True; [done|]. split; [done|left; cbn; lia].
  - exists (if decide (better r r0) then r else r0). split; [by apply best_of_snoc|]. cbn [best_found b_bits b_metric].
    destruct (decide (better r r0)) as [Hb|Hb]; [rewrite decide_True by (unfold better in Hb; tauto)|
      rewrite decide_False by (unfold better in Hb; tauto)]; done.
Qed.

(** The lookup on a printed table is the fold of its routes. *)
Lemma lookup_table t dst : is_u32 dst → Forall route_ok t →
  opcd_route_direct_lookup (Some (route_table t)) dst =
  let b := foldl (row_step dst) (mk_best (-1) 0 false 0) (map row_of t) in
  if (b_bits b <? 0) || negb (b_direct b) then None else Some (b_mask b).
Proof.
  intros Hd Ht. unfold opcd_route_direct_lookup, route_table. rewrite lookup_lines; [|constructor|done].
  2:{ split; [|vm_compute; done]. repeat (apply Forall_cons_2; [discriminate|]). constructor. }
  2:{ apply Forall_map. eapply Forall_impl; [exact Ht|]. intros r. apply print_route_line. }
  cbn [foldl]. replace (scan_row route_header) with (@None row) by (vm_compute; reflexivity).
  assert (Hfold : ∀ b, foldl (λ b l, match scan_row l with Some r => row_step dst b r | None => b end) b (map print_route t)
    = foldl (row_step dst) b (map row_of t)).
  { induction Ht as [|r t Hr _ IH]; intros b; [done|]. cbn [map foldl]. rewrite scan_row_print by done. apply IH. }
  by rewrite Hfold.
Qed.

(** C36: the lookup is longest-prefix matching on the routing table. For every table the
    kernel can print and every destination: either no route that is up covers it and the
    result is -ENETUNREACH, or the best covering route (longest prefix, then lowest metric,
    then first in the table) decides: its netmask if it has no gateway, is no reject route
    and has an output interface, -ENETUNREACH otherwise. *)
Theorem route_lookup_is_lpm t dst :
  is_u32 dst → Forall route_ok t →
  (filter (covers dst) t = [] ∧ opcd_route_direct_lookup (Some (route_table t)) dst = None) ∨
  (∃ r, best_of (filter (covers dst) t) r ∧
        (direct r → opcd_route_direct_lookup (Some (route_table t)) dst = Some (prefix_mask (rt_plen r))) ∧
        (¬ direct r → opcd_route_direct_lookup (Some (route_table t)) dst = None)).
Proof.
  intros Hd Ht. rewrite lookup_table by done. cbv zeta. destruct (fold_best dst t Hd Ht) as [[Hn ->]|(r & Hbest & ->)]; [by left|right].
  exists r. split; [done|]. assert (Hr : route_ok r).
  { destruct Hbest as (pre & post & Hl & _). rewrite Forall_forall in Ht. apply Ht.
    apply (list_elem_of_filter (covers dst)). rewrite Hl, elem_of_app, elem_of_cons. auto. }
  pose proof Hr as (_ & _ & Hp & _). cbn [best_found b_bits b_direct b_mask].
  rewrite (proj2 (Z.ltb_ge (rt_plen r) 0)) by lia. pose proof (direct_row r Hr) as Hdir.
  destruct (row_direct (row_of r)); cbn [negb orb]; split; intros H; try done; exfalso; naive_solver.
Qed.

(** A connected /24 besides a default route through a gateway. *)
Definition example_table : list route :=
  [mk_route (str "eth0") 0 0 3232235521 3 0 0 0 (9 :: str "0");
   mk_route (str "eth0") 3232235520 24 0 1 0 0 100 (9 :: str "0")].
Lemma route_lookup_is_lpm_witness :
  Forall route_ok example_table ∧
  opcd_route_direct_lookup (Some (route_table example_table)) 3232235577 = Some (prefix_mask 24) ∧
  opcd_route_direct_lookup (Some (route_table example_table)) 134744072 = None.
Proof.
  assert (Hok : Forall route_ok example_table).
  { apply Forall_cons_2; [|apply Forall_cons_2; [|constructor]]; unfold route_ok;
      cbn [rt_iface rt_net rt_plen rt_gw rt_flags rt_refcnt rt_use rt_metric rt_rest]; unfold is_u32;
      (split_and!; [vm_compute; done|vm_compute; done|repeat constructor|lia|lia|lia|lia|vm_compute; done|lia..|by right; eexists|
         repeat (apply Forall_cons_2; [discriminate|]); constructor|vm_compute; discriminate]). }
  split; [done|]. split.
  - destruct (route_lookup_is_lpm example_table 3232235577) as [[H _]|(r & (pre & post & Hl & Hpre & Hpost) & Hdir & _)];
      [done|done|by vm_compute in H|].
    vm_compute in Hl. destruct pre as [|x pre]; injection Hl as <- Hl.
    + subst post. apply Forall_cons_1 in Hpost as [Hpost _]. destruct Hpost. left. done.
    + destruct pre as [|y pre]; [injection Hl as <- _; rewrite Hdir; [reflexivity|split_and!; [reflexivity..|discriminate]]|]. injection Hl as _ Hl. destruct pre; discriminate Hl.
  - destruct (route_lookup_is_lpm example_table 134744072) as [[H _]|(r & (pre & post & Hl & Hpre & Hpost) & _ & Hnd)];
      [done|done|by vm_compute in H|].
    apply Hnd. vm_compute in Hl. destruct pre as [|x pre]; [|injection Hl as _ Hl; destruct pre; discriminate Hl].
    injection Hl as <- _. intros (Hg & _). discriminate Hg.
Defined.
End Routes.
