(* ===== verification/Conf.v ===== *)
(** * Readers of opc.conf: opcd/freq_source.c, opcd/ip_iface.c, opcd/roam_notify_conf.c,
    opcd/topology.c and the congestion keys of opcd/fault_probe.c

    A file is the list of its bytes, [None] when it cannot be opened. *)
From S2P Require Import Prelude CText FaultProbe State.
From stdpp Require Import base list numbers option tactics strings.
From Stdlib Require Import ZArith Lia.
#[local] Open Scope Z_scope.
Import FaultProbe.

Module Conf.

(** ** Lines *)

Definition LINE_SIZE : nat := 160.
(** [fgets(line, 160, f)] on the unread bytes [s]: the bytes read, whether the end of the
    file was met, the bytes left; [None]: nothing is left. *)
Definition fgets (s : list Z) : option (list Z * bool * list Z) :=
  match s with
  | [] => None
  | _ =>
      let '(l, next) := split_lf (take (LINE_SIZE - 1) s) in
      match next with
      | Some _ => Some (l ++ [10], false, drop (length l + 1) s)
      | None => Some (l, (length s <? LINE_SIZE - 1)%nat, drop (LINE_SIZE - 1) s)
      end
  end.
(** [while ((c = fgetc(f)) != '\n' && c != EOF) {}] *)
Definition skip_line (s : list Z) : list Z := default [] (split_lf s).2.
(** [strchr(line, '\n') != NULL] *)
Definition has_lf (line : list Z) : bool := bool_decide (10 ∈ cstr line).

(** [sscanf(line, " %47[A-Za-z0-9_] = %63s", key, val)]; [None] unless it returns 2. *)
Definition scan_assign (line : list Z) : option (list Z * list Z) :=
  let '(key, s) := span_n 47 isalnum_ (skip isspace (cstr line)) in
  match key, skip isspace s with
  | _ :: _, c :: s =>
      if c =? 61 then
        let '(val, _) := span_n 63 (λ c, negb (isspace c)) (skip isspace s) in
        match val with [] => None | _ => Some (key, val) end
      else None
  | _, _ => None
  end.

(** The loop of the readers: an over-long line is dropped whole. *)
Fixpoint conf_loop {A} (fuel : nat) (step : A → list Z → list Z → A) (s : list Z) (a : A) : A :=
  match fuel with
  | O => a
  | S fuel =>
      match fgets s with
      | None => a
      | Some (line, eof, rest) =>
          if negb (has_lf line) && negb eof then conf_loop fuel step (skip_line rest) a
          else conf_loop fuel step rest
                 (match scan_assign line with Some (key, val) => step a key val | None => a end)
      end
  end.
Definition conf_read {A} (step : A → list Z → list Z → A) (file : option (list Z)) (a : A) : A :=
  match file with None => a | Some s => conf_loop (length s) step s a end.
(** The loop of the congestion keys: an over-long line is read in pieces. *)
Fixpoint piece_loop {A} (fuel : nat) (step : A → list Z → list Z → A) (s : list Z) (a : A) : A :=
  match fuel with
  | O => a
  | S fuel =>
      match fgets s with
      | None => a
      | Some (line, _, rest) =>
          piece_loop fuel step rest (match scan_assign line with Some (key, val) => step a key val | None => a end)
      end
  end.

(** ** The selectors *)

Definition eqs (v : list Z) (s : string) : bool := bool_decide (v = str s).

Definition opcd_freq_source_from_token (val : option (list Z)) : opcd_freq_source_t :=
  match val with
  | None => OPC_FREQ_SRC_LIVE
  | Some v => if eqs v "config" then OPC_FREQ_SRC_CONFIG
              else if eqs v "auto" then OPC_FREQ_SRC_AUTO else OPC_FREQ_SRC_LIVE
  end.
Definition opcd_freq_source_parse (file : option (list Z)) : opcd_freq_source_t :=
  conf_read (λ src key val, if eqs key "device_info_freq_source" then opcd_freq_source_from_token (Some val) else src)
    file OPC_FREQ_SRC_LIVE.

Definition opcd_ip_iface_from_token (val : option (list Z)) : opcd_ip_iface_t :=
  match val with
  | None => OPC_IP_IFACE_ETH0
  | Some v => if eqs v "mlan0" then OPC_IP_IFACE_MLAN0 else OPC_IP_IFACE_ETH0
  end.
Definition opcd_ip_iface_parse (file : option (list Z)) : opcd_ip_iface_t :=
  conf_read (λ src key val, if eqs key "device_ip_iface" then opcd_ip_iface_from_token (Some val) else src)
    file OPC_IP_IFACE_ETH0.

Inductive opcd_topology_conf_t := OPC_TOPOLOGY_CONF_AUTO | OPC_TOPOLOGY_CONF_ETH0_IP | OPC_TOPOLOGY_CONF_PEER_ROUTE.
Definition opcd_topology_from_token (val : option (list Z)) : opcd_topology_conf_t :=
  match val with
  | None => OPC_TOPOLOGY_CONF_AUTO
  | Some v => if eqs v "peer_route" then OPC_TOPOLOGY_CONF_PEER_ROUTE
              else if eqs v "eth0_ip" then OPC_TOPOLOGY_CONF_ETH0_IP else OPC_TOPOLOGY_CONF_AUTO
  end.
Definition conf_override (file : option (list Z)) : opcd_topology_conf_t :=
  conf_read (λ v key val, if eqs key "management_topology" then opcd_topology_from_token (Some val) else v)
    file OPC_TOPOLOGY_CONF_AUTO.

(** ** Ports *)

Record port_scan := mk_port { p_port : Z; p_bad : bool; p_good : bool }.
Definition port_step (key : string) (a : port_scan) (k val : list Z) : port_scan :=
  if negb (eqs k key) then a
  else match strtol val with
       | Some (n, []) => if (n <? 1) || (65535 <? n) then mk_port (p_port a) true (p_good a)
                         else mk_port n (p_bad a) true
       | _ => mk_port (p_port a) true (p_good a)
       end.
(** The port and [*rejected]. *)
Definition opcd_conf_port_parse (file : option (list Z)) (key : string) (dflt : Z) : Z * bool :=
  let a := conf_read (port_step key) file (mk_port dflt false false) in
  (p_port a, p_bad a && negb (p_good a)).
Definition opcd_roam_notify_port_parse (file : option (list Z)) (dflt : Z) : Z :=
  (opcd_conf_port_parse file "roam_notify_port" dflt).1.

(** ** The congestion keys *)

(** [strtoul(val, &end, 10)]: the value and [end]; [None]: no conversion. *)
Definition strtoul (s : list Z) : option (Z * list Z) :=
  let '(_, ds, r) := scan_int is_digit s in
  match ds with [] => None | _ => Some (strtoul_value s, r) end.
Fixpoint to_string (l : list Z) : string :=
  match l with [] => EmptyString | c :: l => String (Ascii.ascii_of_N (Z.to_N c)) (to_string l) end.
Definition OPCD_FAULT_PROBE_INTERVAL_MAX : Z := 3600.
Definition NET_LINK_JSON (iface : string) : string := "/var/log/cantops/json/" +:+ iface +:+ "/link.json".

(** One accepted line; the flag is [clear_seen]. *)
Definition probe_conf_step (a : opcd_fault_probe_t * bool) (key val : list Z) : opcd_fault_probe_t * bool :=
  let '(p, clear_seen) := a in
  if eqs key "congestion_threshold_pct" then
    let v := strtoul_value val in
    if (1 <=? v) && (v <=? 100) then (p <| threshold_pct := v |>, clear_seen) else a
  else if eqs key "congestion_clear_pct" then
    match strtoul val with
    | Some (v, []) => if (1 <=? v) && (v <=? 100) then (p <| clear_pct := v |>, true) else a
    | _ => a
    end
  else if eqs key "congestion_probe_interval_s" then
    let v := strtoul_value val in
    if (1 <=? v) && (v <=? OPCD_FAULT_PROBE_INTERVAL_MAX) then (p <| probe_interval_s := v |>, clear_seen) else a
  else if eqs key "congestion_net_capacity_mbps" then a
  else if eqs key "congestion_disk_dev" then
    if 33 <=? len val then a else (p <| disk_dev := to_string val |>, clear_seen)
  else if eqs key "congestion_net_if" then
    if eqs val "mlan0" then (p <| net_link_json := NET_LINK_JSON "mlan0" |>, clear_seen)
    else if eqs val "mlan1" then (p <| net_link_json := NET_LINK_JSON "mlan1" |>, clear_seen)
    else a
  else a.
Definition opcd_fault_probe_conf (p : opcd_fault_probe_t) (file : option (list Z)) : opcd_fault_probe_t :=
  match file with
  | None => p
  | Some s =>
      let '(p, clear_seen) := piece_loop (length s) probe_conf_step s (p, false) in
      let p := if clear_seen then p
               else
                 let band := threshold_pct p / 2 in
                 let band := if OPCD_FAULT_CLEAR_BAND_PCT <? band then OPCD_FAULT_CLEAR_BAND_PCT else band in
                 p <| clear_pct := if band <? threshold_pct p then u32 (threshold_pct p - band) else 1 |> in
      if threshold_pct p <? clear_pct p then p <| clear_pct := threshold_pct p |> else p
  end.

(** ** The file as the operator sees it *)

(** Its lines, without their LF. *)
Fixpoint lines_of (s : list Z) : list (list Z) :=
  match s with
  | [] => [[]]
  | c :: s' => if c =? 10 then [] :: lines_of s'
               else match lines_of s' with l :: ls => (c :: l) :: ls | [] => [[c]] end
  end.
(** The assignments on lines of at most 158 bytes, in order. *)
Definition assigns (s : list Z) : list (list Z * list Z) :=
  omap scan_assign (filter (λ l, (length l < LINE_SIZE - 1)%nat) (lines_of s)).
Definition values (key : string) (s : list Z) : list (list Z) :=
  omap (λ kv, if eqs kv.1 key then Some kv.2 else None) (assigns s).
Definition port_value (val : list Z) : option Z :=
  match strtol val with
  | Some (n, []) => if (n <? 1) || (65535 <? n) then None else Some n
  | _ => None
  end.

(** ** The loop reads exactly those *)

Lemma lines_of_lf l rest : Forall (λ c, c ≠ 10) l → lines_of (l ++ 10 :: rest) = l :: lines_of rest.
Proof. induction 1 as [|c l Hc _ IH]; [done|]. cbn. by rewrite (proj2 (Z.eqb_neq c 10) Hc), IH. Qed.
Lemma lines_of_last l : Forall (λ c, c ≠ 10) l → lines_of l = [l].
Proof. induction 1 as [|c l Hc _ IH]; [done|]. cbn. by rewrite (proj2 (Z.eqb_neq c 10) Hc), IH. Qed.
Lemma span_n_lf n f s : f 10 = false → span_n n f (s ++ [10]) = ((span_n n f s).1, (span_n n f s).2 ++ [10]).
Proof.
  intros Hf. revert n. induction s as [|c s IH]; intros n; destruct n as [|n]; try done.
  - cbn. by rewrite Hf.
  - cbn [app span_n]. destruct (f c); [|done]. rewrite IH. by destruct (span_n n f s).
Qed.
Lemma skip_lf s :
  skip isspace (s ++ [10]) = match skip isspace s with [] => [] | c :: r => c :: r ++ [10] end.
Proof.
  unfold skip. induction s as [|c s IH]; [done|]. cbn [app span]. destruct (isspace c); [|done].
  destruct (span isspace (s ++ [10])), (span isspace s). done.
Qed.
Lemma scan_assign_lf l : Forall (λ c, c ≠ 0) l → scan_assign (l ++ [10]) = scan_assign l.
Proof.
  intros Hl. unfold scan_assign. rewrite !cstr_nul_free; [|done|apply Forall_app_2; [done|by repeat constructor]].
  rewrite skip_lf. destruct (skip isspace l) as [|c r]; [done|].
  change (c :: r ++ [10]) with ((c :: r) ++ [10]). rewrite span_n_lf by done.
  destruct (span_n 47 isalnum_ (c :: r)) as [key s]. cbn [fst snd]. destruct key as [|k key]; [done|].
  rewrite skip_lf. destruct (skip isspace s) as [|d t]; [done|]. destruct (d =? 61); [|done].
  rewrite skip_lf. destruct (skip isspace t) as [|e u]; [done|].
  change (e :: u ++ [10]) with ((e :: u) ++ [10]). rewrite span_n_lf by done. by destruct (span_n 63 _ (e :: u)).
Qed.
Lemma conf_loop_assigns {A} (step : A → list Z → list Z → A) : ∀ fuel s a,
  Forall (λ c, c ≠ 0) s → (length s <= fuel)%nat →
  conf_loop fuel step s a = foldl (λ a kv, step a kv.1 kv.2) a (assigns s).
Proof.
  induction fuel as [|fuel IH]; intros s a Hs Hf; [by destruct s; [|cbn in Hf; lia]|].
  destruct (split_lf_inv s) as [Hl Hsplit]. destruct (split_lf s) as [l next]. cbn [fst snd] in *.
  cbn [conf_loop]. unfold fgets. destruct s as [|c0 s0] eqn:E0; [done|]. rewrite <- E0 in *. clear E0 c0 s0.
  assert (Hend : conf_loop fuel step [] a = a) by (by destruct fuel).
  unfold assigns. destruct next as [rest|].
  - rewrite Hsplit, take_split_lf, lines_of_lf by done. rewrite Hsplit in Hs, Hf. rewrite length_app in Hf. cbn [length] in Hf.
    apply Forall_app in Hs as [Hs1 Hs2]. apply Forall_cons_1 in Hs2 as [_ Hs2]. rewrite filter_cons.
    destruct (decide (length l < LINE_SIZE - 1)%nat) as [Hn|Hn].
    + cbn [fst snd]. assert (Hh : has_lf (l ++ [10]) = true).
      { unfold has_lf. rewrite cstr_nul_free by (apply Forall_app_2; [done|by repeat constructor]).
        apply bool_decide_eq_true_2, elem_of_app. right. by left. }
      rewrite Hh. cbn [negb andb]. rewrite scan_assign_lf by done.
      replace (drop (length l + 1) (l ++ 10 :: rest)) with rest
        by (rewrite drop_app_ge by lia; by replace (length l + 1 - length l)%nat with 1%nat by lia).
      rewrite IH by (try done; lia). cbn [omap list_omap]. by destruct (scan_assign l) as [[k v]|].
    + assert (Hh : has_lf (take (LINE_SIZE - 1) l) = false).
      { unfold has_lf. rewrite cstr_nul_free by (by apply Forall_take). apply bool_decide_eq_false_2. intros Hin.
        apply (Forall_take _ (LINE_SIZE - 1)) in Hl. rewrite Forall_forall in Hl. by apply (Hl 10). }
      cbn [fst snd]. rewrite Hh. replace (Nat.ltb (length (l ++ 10 :: rest)) (LINE_SIZE - 1)) with false
        by (symmetry; apply Nat.ltb_ge; rewrite length_app; cbn [length]; lia). cbn [negb andb].
      unfold skip_line. rewrite drop_app_le by lia. rewrite split_lf_run by (by apply Forall_drop). cbn [snd].
      change (default [] (Some rest)) with rest. apply IH; [done|lia].
  - rewrite app_nil_r in Hsplit. subst l. rewrite split_lf_last by (by apply Forall_take). cbn [fst snd].
    rewrite lines_of_last, filter_cons by done.
    assert (Hh : ∀ n, has_lf (take n s) = false).
    { intros n. unfold has_lf. rewrite cstr_nul_free by (by apply Forall_take). apply bool_decide_eq_false_2. intros Hin.
      apply (Forall_take _ n) in Hl. rewrite Forall_forall in Hl. by apply (Hl 10). }
    rewrite Hh. cbn [negb andb]. destruct (decide (length s < LINE_SIZE - 1)%nat) as [Hn|Hn].
    + rewrite (proj2 (Nat.ltb_lt _ _) Hn). cbn [negb]. rewrite take_ge, drop_ge by lia.
      cbn [omap list_omap filter list_filter]. destruct (scan_assign s) as [[k v]|]; by destruct fuel.
    + rewrite (proj2 (Nat.ltb_ge _ _)) by lia. cbn [negb]. unfold skip_line.
      rewrite split_lf_last by (by apply Forall_drop). cbn [snd]. change (default [] (@None (list Z))) with (@nil Z). by rewrite Hend.
Qed.

(** The value a selector keeps: that of the key's last line. *)
Lemma fold_last {A} (key : string) (f : option (list Z) → A) l : ∀ a,
  foldl (λ a kv, if eqs kv.1 key then f (Some kv.2) else a) a l =
  match last (omap (λ kv, if eqs kv.1 key then Some kv.2 else None) l) with Some v => f (Some v) | None => a end.
Proof.
  induction l as [|[k v] l IH] using rev_ind; intros a; [done|]. rewrite foldl_app, omap_app. cbn [foldl omap list_omap fst snd].
  destruct (eqs k key); [by rewrite last_snoc|]. rewrite app_nil_r. apply IH.
Qed.
Lemma conf_read_assigns {A} (step : A → list Z → list Z → A) file a :
  Forall (λ c, c ≠ 0) (default [] file) →
  conf_read step file a = foldl (λ a kv, step a kv.1 kv.2) a (assigns (default [] file)).
Proof. intros Hf. destruct file as [s|]; [by apply conf_loop_assigns|done]. Qed.
Lemma selector_last {A} (key : string) (f : option (list Z) → A) file :
  Forall (λ c, c ≠ 0) (default [] file) →
  conf_read (λ a k v, if eqs k key then f (Some v) else a) file (f None) = f (last (values key (default [] file))).
Proof. intros Hf. rewrite conf_read_assigns, fold_last by done. unfold values. by destruct (last _). Qed.
Lemma fold_port key l : ∀ a,
  foldl (λ a kv, port_step key a kv.1 kv.2) a l =
  (let vs := omap (λ kv, if eqs kv.1 key then Some kv.2 else None) l in
   mk_port (default (p_port a) (last (omap port_value vs)))
     (p_bad a || existsb (λ v, negb (bool_decide (is_Some (port_value v)))) vs)
     (p_good a || existsb (λ v, bool_decide (is_Some (port_value v))) vs)).
Proof.
  cbn zeta. induction l as [|[k v] l IH] using rev_ind; intros a; [cbn; rewrite !orb_false_r; by destruct a|].
  rewrite foldl_app, omap_app, IH. cbn [foldl omap list_omap fst snd]. unfold port_step.
  destruct (eqs k key); cbn [negb]; [|by rewrite !app_nil_r].
  rewrite !existsb_app, omap_app. cbn [omap list_omap existsb p_port p_bad p_good].
  set (bad := existsb _ _). set (good := existsb _ _). unfold port_value.
  destruct (strtol v) as [[n [|c r]]|]; [destruct (_ || _)| |]; cbn; rewrite ?app_nil_r, ?orb_false_r, ?orb_true_r, ?last_snoc; done.
Qed.

(** The readers of opc.conf. Whatever the file holds (without NUL bytes), each selector
    is what the last assignment of its key says and its default without one; a port is the
    last assignment in 1..65535, the default without one, and [rejected] says that there
    were assignments and none was accepted. Lines of 159 bytes and more, comments and other
    keys have no effect; a file that cannot be opened gives the defaults. *)
Theorem conf_readers_spec file :
  Forall (λ c, c ≠ 0) (default [] file) →
  let vs key := values key (default [] file) in
  opcd_freq_source_parse file = opcd_freq_source_from_token (last (vs "device_info_freq_source")) ∧
  opcd_ip_iface_parse file = opcd_ip_iface_from_token (last (vs "device_ip_iface")) ∧
  conf_override file = opcd_topology_from_token (last (vs "management_topology")) ∧
  ∀ key dflt, opcd_conf_port_parse file key dflt =
    (default dflt (last (omap port_value (vs key))),
     bool_decide (vs key ≠ [] ∧ omap port_value (vs key) = [])).
Proof.
  intros Hf. cbn zeta. split_and!; [by apply (selector_last _ opcd_freq_source_from_token)
    |by apply (selector_last _ opcd_ip_iface_from_token)|by apply (selector_last _ opcd_topology_from_token)|].
  intros key dflt. unfold opcd_conf_port_parse. rewrite conf_read_assigns, fold_port by done.
  unfold values. cbn [p_port p_bad p_good orb]. f_equal.
  set (vs := omap _ _). clearbody vs. induction vs as [|v vs IH]; [done|]. cbn [existsb omap list_omap].
  destruct (port_value v) as [n|] eqn:E.
  - rewrite (bool_decide_true (is_Some (Some n))) by (by eexists). cbn [negb orb]. rewrite andb_false_r.
    rewrite bool_decide_false; [done|]. by intros [_ ?].
  - rewrite (bool_decide_false (is_Some None)) by (by intros [? ?]). cbn [negb orb andb].
    apply eq_true_iff_eq. rewrite bool_decide_eq_true, negb_true_iff. split.
    + intros Hex. split; [done|]. clear IH E. induction vs as [|w vs IH]; [done|]. cbn in Hex |- *.
      destruct (port_value w); [by rewrite bool_decide_true in Hex|]. rewrite bool_decide_false in Hex by (by intros [? ?]). by apply IH.
    + intros [_ Hn]. clear IH E. induction vs as [|w vs IH]; [done|]. cbn in Hn |- *.
      destruct (port_value w); [done|]. rewrite bool_decide_false by (by intros [? ?]). by apply IH.
Qed.
Definition example_file : list Z :=
  str "# ports" ++ [10] ++ str "roam_notify_port = 70000" ++ [10] ++ str "  roam_notify_port=50609" ++ [13; 10] ++
  str "roam_notify_port = none" ++ [10] ++ str "device_ip_iface = mlan0 # wireless".
Lemma conf_readers_spec_witness :
  opcd_conf_port_parse (Some example_file) "roam_notify_port" 50608 = (50609, false) ∧
  opcd_ip_iface_parse (Some example_file) = OPC_IP_IFACE_MLAN0 ∧
  opcd_freq_source_parse (Some example_file) = OPC_FREQ_SRC_LIVE.
Proof.
  destruct (conf_readers_spec (Some example_file)) as (Hf & Hi & _ & Hp).
  - repeat (apply Forall_cons_2; [discriminate|]). constructor.
  - rewrite Hf, Hi, Hp. vm_compute. split_and!; reflexivity.
Defined.

(** A line as an operator writes it. *)
Lemma scan_assign_written ws1 key ws2 ws3 val rest :
  Forall (λ c, isspace c = true) ws1 → Forall (λ c, isspace c = true) ws2 → Forall (λ c, isspace c = true) ws3 →
  Forall (λ c, isalnum_ c = true) key → (0 < length key <= 47)%nat →
  Forall (λ c, isspace c = false) val → (0 < length val <= 63)%nat →
  match rest with c :: _ => isspace c = true | [] => True end →
  Forall (λ c, c ≠ 0) (ws1 ++ key ++ ws2 ++ 61 :: ws3 ++ val ++ rest) →
  scan_assign (ws1 ++ key ++ ws2 ++ 61 :: ws3 ++ val ++ rest) = Some (key, val).
Proof.
  intros Hw1 Hw2 Hw3 Hk Hkl Hv Hvl Hr Hnul. unfold scan_assign. rewrite cstr_nul_free by done.
  assert (Hskip : ∀ ws s, Forall (λ c, isspace c = true) ws → match s with c :: _ => isspace c = false | [] => True end →
    skip isspace (ws ++ s) = s).
  { intros ws s Hws Hs. unfold skip. by rewrite span_run. }
  assert (Hspan : ∀ f (w s : list Z) n, Forall (λ c, f c = true) w → (length w <= n)%nat →
    match s with c :: _ => f c = false | [] => True end → span_n n f (w ++ s) = (w, s)).
  { clear. intros f w s. induction w as [|c w IH]; intros n Hw Hn Hs.
    - destruct n, s; try done. cbn. by rewrite Hs.
    - apply Forall_cons_1 in Hw as [Hc Hw]. destruct n as [|n]; [cbn in Hn; lia|]. cbn in *. rewrite Hc, IH by (try done; lia). done. }
  assert (Hsp : ∀ c, isspace c = true → isalnum_ c = false).
  { intros c Hc. unfold isspace in Hc. unfold isalnum_, is_digit. apply orb_true_iff in Hc as [Hc|Hc]; guards.
    - rewrite (proj2 (Z.leb_gt 65 c)), (proj2 (Z.leb_gt 97 c)), (proj2 (Z.leb_gt 48 c)), (proj2 (Z.eqb_neq c 95)) by lia. done.
    - by subst. }
  rewrite Hskip; [|done|]. 2:{ destruct key as [|c key]; [cbn in Hkl; lia|]. apply Forall_cons_1 in Hk as [Hc _]. cbn.
    destruct (isspace c) eqn:E; [|done]. rewrite (Hsp c E) in Hc. done. }
  rewrite Hspan; [|done|lia|]. 2:{ destruct ws2 as [|c ws2]; [done|]. apply Forall_cons_1 in Hw2 as [Hc _]. by apply Hsp. }
  destruct key as [|k key]; [cbn in Hkl; lia|]. rewrite Hskip by done. change (61 =? 61) with true. cbv iota.
  rewrite Hskip; [|done|by destruct val as [|c val]; [cbn in Hvl; lia|apply Forall_cons_1 in Hv as [? _]]].
  rewrite Hspan; [by destruct val; [cbn in Hvl; lia|]| |lia|].
  - eapply Forall_impl; [exact Hv|]. cbn. by intros c ->.
  - destruct rest as [|c rest]; [done|]. cbn in Hr. by rewrite Hr.
Qed.

(** ** The congestion levels *)

Record probe_levels (p : opcd_fault_probe_t) : Prop := {
  pl_threshold : 1 <= threshold_pct p <= 100; pl_clear : 1 <= clear_pct p <= 100;
  pl_interval : 1 <= probe_interval_s p <= OPCD_FAULT_PROBE_INTERVAL_MAX;
  pl_link : net_link_json p = NET_LINK_JSON "mlan0" ∨ net_link_json p = NET_LINK_JSON "mlan1" }.
Lemma probe_conf_step_levels a key val : probe_levels a.1 → probe_levels (probe_conf_step a key val).1.
Proof.
  destruct a as [p seen]. intros Hp. cbn [fst] in Hp. pose proof Hp as [H1 H2 H3 H4]. unfold probe_conf_step.
  destruct (eqs key _); [cbn zeta; destruct (_ && _) eqn:E; [guards; by constructor|exact Hp]|].
  destruct (eqs key _).
  { destruct (strtoul val) as [[v [|c r]]|]; [|exact Hp|exact Hp].
    destruct (_ && _) eqn:E; [guards; by constructor|exact Hp]. }
  destruct (eqs key _); [cbn zeta; destruct (_ && _) eqn:E; [guards; by constructor|exact Hp]|].
  destruct (eqs key _); [exact Hp|].
  destruct (eqs key _); [destruct (33 <=? _); [exact Hp|by constructor]|].
  destruct (eqs key _); [|exact Hp].
  destruct (eqs val _); [constructor; [done|done|done|by left]|].
  destruct (eqs val _); [constructor; [done|done|done|by right]|exact Hp].
Qed.
Lemma piece_loop_levels fuel : ∀ s a, probe_levels a.1 → probe_levels (piece_loop fuel probe_conf_step s a).1.
Proof.
  induction fuel as [|fuel IH]; intros s a Ha; [done|]. cbn [piece_loop].
  destruct (fgets s) as [[[line eof] rest]|]; [|done]. apply IH.
  destruct (scan_assign line) as [[k v]|]; [by apply probe_conf_step_levels|done].
Qed.

Lemma probe_conf_levels file :
  let p := opcd_fault_probe_conf opcd_fault_probe_init file in probe_levels p ∧ clear_pct p <= threshold_pct p.
Proof.
  cbn zeta.
  unfold opcd_fault_probe_conf. destruct file as [s|]; [|split; [constructor; cbn; auto; done|done]].
  pose proof (piece_loop_levels (length s) s (opcd_fault_probe_init, false)) as Hl.
  destruct (piece_loop _ _ _ _) as [q seen]. cbn [fst] in Hl.
  destruct Hl as [H1 H2 H3 H4]; [constructor; cbn; auto; done|].
  set (q' := if seen then q else _).
  assert (Hq : probe_levels q').
  { unfold q'. destruct seen; [by constructor|]. constructor; try done. cbn.
    destruct (_ <? threshold_pct q) eqn:E; [|lia]. guards.
    assert (0 <= threshold_pct q / 2) by (apply Z.div_pos; lia).
    destruct (OPCD_FAULT_CLEAR_BAND_PCT <? threshold_pct q / 2) eqn:E2; unfold OPCD_FAULT_CLEAR_BAND_PCT in *;
      rewrite u32_id by (unfold is_u32; lia); lia. }
  clearbody q'. clear -Hq. destruct Hq as [H1 H2 H3 H4].
  destruct (threshold_pct q' <? clear_pct q') eqn:E; guards; [|split; [by constructor|lia]].
  split; [constructor; cbn; auto|cbn; lia].
Qed.
(** Reading the file leaves the latches and the band as they are: clear. *)
Lemma probe_conf_idle res file :
  let p := opcd_fault_probe_conf opcd_fault_probe_init file in notified res p = false ∧ congested res p = false.
Proof.
  cbn zeta. unfold opcd_fault_probe_conf. destruct file as [s|]; [|by destruct res].
  assert (Hl : ∀ fuel t a, notified res a.1 = false ∧ congested res a.1 = false →
    notified res (piece_loop fuel probe_conf_step t a).1 = false ∧ congested res (piece_loop fuel probe_conf_step t a).1 = false).
  { induction fuel as [|fuel IH]; intros t a Ha; [done|]. cbn [piece_loop].
    destruct (fgets t) as [[[line eof] rest]|]; [|done]. apply IH.
    destruct (scan_assign line) as [[k v]|]; [|done]. destruct a as [p seen].
    unfold probe_conf_step. repeat case_match; by destruct res. }
  specialize (Hl (length s) s (opcd_fault_probe_init, false) ltac:(by destruct res)).
  destruct (piece_loop _ _ _ _) as [q seen]. cbn [fst] in Hl. destruct seen, res; cbn in *; destruct (_ <? _); exact Hl.
Qed.

(** The congestion levels after reading any opc.conf. The entry level is 1..100 %, the
    release level is at least 1 and never above the entry level, the probe interval is
    1..3600 s and the survey is read from one of the two station interfaces; so the test
    whether a resource is congested always uses the configured levels, entry outside the
    band and release inside it. *)
Theorem fault_probe_conf_levels file :
  let p := opcd_fault_probe_conf opcd_fault_probe_init file in
  1 <= clear_pct p <= threshold_pct p ∧ threshold_pct p <= 100 ∧
  1 <= probe_interval_s p <= OPCD_FAULT_PROBE_INTERVAL_MAX ∧
  (net_link_json p = NET_LINK_JSON "mlan0" ∨ net_link_json p = NET_LINK_JSON "mlan1") ∧
  ∀ in_band pct, fault_over p in_band pct = if in_band then clear_pct p <=? pct else threshold_pct p <=? pct.
Proof.
  cbn zeta. destruct (probe_conf_levels file) as [[H1 H2 H3 H4] H5]. set (p := opcd_fault_probe_conf _ _) in *.
  clearbody p. split_and!; try lia; [done|]. intros in_band pct. unfold fault_over.
  rewrite (proj2 (Z.eqb_neq (clear_pct p) 0)), (proj2 (Z.ltb_ge (threshold_pct p) (clear_pct p))) by lia. done.
Qed.
End Conf.
