(* ===== verification/JsonText.v ===== *)
(** * Scanning JSON text: the key scanners of opcd/topology.c and opcd/devinfo_cfg.c

    The scanners walk the text with a nesting depth and skip string literals; they are
    compared here with the structure of the document. A pointer into the text is the text
    from it on. *)
From S2P Require Import Prelude CText.
From stdpp Require Import base list numbers option tactics strings.
From Stdlib Require Import ZArith Lia.
#[local] Open Scope Z_scope.

Module JsonText.

Definition jws (c : Z) : bool := (c =? 32) || (c =? 9) || (c =? 13) || (c =? 10).

(** After the opening quote: past the closing quote; [None]: unterminated. *)
Fixpoint skip_chars (s : list Z) : option (list Z) :=
  match s with
  | [] => None
  | c :: s' => if c =? 92 then match s' with [] => None | _ :: s'' => skip_chars s'' end
               else if c =? 34 then Some s' else skip_chars s'
  end.
Definition skip_string (p : list Z) : option (list Z) :=
  match p with
  | c :: s => if c =? 34 then skip_chars s else Some p
  | [] => Some p
  end.
(** The value of the key [name], if the text starts with it. *)
Definition at_key (p : list Z) (name : string) : option (list Z) :=
  let n := str name in
  match p with
  | c :: s =>
      if (c =? 34) && starts n s && (rd s (len n) =? 34) then
        match skip jws (drop (S (length n)) s) with
        | d :: v => if d =? 58 then Some (skip jws v) else None
        | [] => None
        end
      else None
  | [] => None
  end.

(** The loop of the scanners: [brackets] also count as nesting when set, [closed] says at
    which depth a closing character ends the scan. *)
Fixpoint key_loop (fuel : nat) (brackets : bool) (closed : Z → bool) (name : string) (want depth : Z) (p : list Z)
    : option (list Z) :=
  match fuel, p with
  | S fuel, c :: s =>
      if c =? 34 then
        match (if depth =? want then at_key p name else None) with
        | Some v => Some v
        | None => match skip_string p with
                  | Some r => key_loop fuel brackets closed name want depth r
                  | None => None
                  end
        end
      else if (c =? 123) || (brackets && (c =? 91)) then key_loop fuel brackets closed name want (depth + 1) s
      else if (c =? 125) || (brackets && (c =? 93)) then
        if closed (depth - 1) then None else key_loop fuel brackets closed name want (depth - 1) s
      else key_loop fuel brackets closed name want depth s
  | _, _ => None
  end.
(** topology.c *)
Definition find_object_key (p : list Z) (name : string) (want_depth : Z) : option (list Z) :=
  key_loop (length p) false (λ d, d <? want_depth) name want_depth 0 p.
(** devinfo_cfg.c *)
Definition member (obj : option (list Z)) (name : string) : option (list Z) :=
  match obj with
  | Some ((c :: _) as p) => if c =? 123 then key_loop (length p) true (λ d, d =? 0) name 1 0 p else None
  | _ => None
  end.

(** ** Documents *)

(** A document with its white space: literals and numbers as their text, strings and keys
    as the text between the quotes. *)
Inductive json :=
| JBare (tok : list Z)
| JStr (s : list Z)
| JArr (w : list Z) (items : jitems)
| JObj (w : list Z) (members : jmembers)
with jitems :=
| INone
| ICons (w1 : list Z) (v : json) (w2 : list Z) (more : jitems)
with jmembers :=
| MNone
| MCons (w1 key w2 w3 : list Z) (v : json) (w4 : list Z) (more : jmembers).

Scheme json_mut := Induction for json Sort Prop
with jitems_mut := Induction for jitems Sort Prop
with jmembers_mut := Induction for jmembers Sort Prop.
Combined Scheme json_mutind from json_mut, jitems_mut, jmembers_mut.

Fixpoint print (v : json) : list Z :=
  match v with
  | JBare tok => tok
  | JStr s => 34 :: s ++ [34]
  | JArr w its => 91 :: w ++ print_items its ++ [93]
  | JObj w ms => 123 :: w ++ print_members ms ++ [125]
  end
with print_items (its : jitems) : list Z :=
  match its with
  | INone => []
  | ICons w1 v w2 more =>
      w1 ++ print v ++ w2 ++ match more with INone => [] | _ => 44 :: print_items more end
  end
with print_members (ms : jmembers) : list Z :=
  match ms with
  | MNone => []
  | MCons w1 key w2 w3 v w4 more =>
      w1 ++ 34 :: key ++ 34 :: w2 ++ 58 :: w3 ++ print v ++ w4 ++
      match more with MNone => [] | _ => 44 :: print_members more end
  end.

Definition is_ws (w : list Z) : bool := forallb jws w.
Definition bare_char (c : Z) : bool :=
  negb (jws c || (c =? 0) || (c =? 34) || (c =? 44) || (c =? 58) || (c =? 91) || (c =? 93) || (c =? 123) || (c =? 125)).
(** String contents the scanners can take: a quote or a backslash only after a backslash, no
    NUL. This is more than JSON allows: raw control characters and any escape are let through. *)
Fixpoint str_ok (s : list Z) : bool :=
  match s with
  | [] => true
  | c :: s' => negb (c =? 0) && if c =? 92 then match s' with [] => false | d :: s'' => negb (d =? 0) && str_ok s'' end
               else negb (c =? 34) && str_ok s'
  end.
Fixpoint wf (v : json) : bool :=
  match v with
  | JBare tok => negb (len tok =? 0) && forallb bare_char tok
  | JStr s => str_ok s
  | JArr w its => is_ws w && wf_items its
  | JObj w ms => is_ws w && wf_members ms
  end
with wf_items (its : jitems) : bool :=
  match its with
  | INone => true
  | ICons w1 v w2 more => is_ws w1 && wf v && is_ws w2 && wf_items more
  end
with wf_members (ms : jmembers) : bool :=
  match ms with
  | MNone => true
  | MCons w1 key w2 w3 v w4 more =>
      is_ws w1 && str_ok key && is_ws w2 && is_ws w3 && wf v && is_ws w4 && wf_members more
  end.

(** The first member of an object with that key. *)
Fixpoint mfind (ms : jmembers) (name : string) : option json :=
  match ms with
  | MNone => None
  | MCons _ key _ _ v _ more => if bool_decide (key = str name) then Some v else mfind more name
  end.
Definition jget (v : json) (name : string) : option json :=
  match v with JObj _ ms => mfind ms name | _ => None end.

(** ** The loop, without its fuel *)

Lemma skip_chars_shorter s : ∀ r, skip_chars s = Some r → (length r < length s)%nat.
Proof.
  induction s as [s IH] using (induction_ltof1 _ (@length Z)). unfold ltof in IH. intros r. destruct s as [|c s]; [done|].
  cbn [skip_chars]. destruct (c =? 92).
  - destruct s as [|d s]; [done|]. intros H. apply IH in H; cbn in *; lia.
  - destruct (c =? 34); [intros [= ->]; cbn; lia|]. intros H. apply IH in H; cbn in *; lia.
Qed.
Section loop.
Context (brackets : bool) (closed : Z → bool) (name : string) (want : Z).
Lemma key_loop_fuel : ∀ f1 f2 p depth, (length p <= f1)%nat → (length p <= f2)%nat →
  key_loop f1 brackets closed name want depth p = key_loop f2 brackets closed name want depth p.
Proof.
  induction f1 as [|f1 IH]; intros f2 p depth H1 H2; [destruct p; [by destruct f2|cbn in H1; lia]|].
  destruct p as [|c s]; [by destruct f2|]. cbn [length] in *. destruct f2 as [|f2]; [lia|]. cbn [key_loop].
  destruct (c =? 34) eqn:E.
  - destruct (if depth =? want then _ else _); [done|]. cbn [skip_string]. rewrite E.
    destruct (skip_chars s) as [r|] eqn:Er; [|done]. apply skip_chars_shorter in Er. apply IH; lia.
  - repeat case_match; try done; apply IH; lia.
Qed.
Definition keys (depth : Z) (p : list Z) : option (list Z) := key_loop (length p) brackets closed name want depth p.
Lemma keys_cons c s depth :
  keys depth (c :: s) =
  if c =? 34 then
    match (if depth =? want then at_key (c :: s) name else None) with
    | Some v => Some v
    | None => match skip_chars s with Some r => keys depth r | None => None end
    end
  else if (c =? 123) || (brackets && (c =? 91)) then keys (depth + 1) s
  else if (c =? 125) || (brackets && (c =? 93)) then if closed (depth - 1) then None else keys (depth - 1) s
  else keys depth s.
Proof.
  unfold keys. cbn [length key_loop]. destruct (c =? 34) eqn:E; [|done].
  destruct (if depth =? want then _ else _); [done|]. cbn [skip_string]. rewrite E.
  destruct (skip_chars s) as [r|] eqn:Er; [|done]. apply skip_chars_shorter in Er. apply key_loop_fuel; lia.
Qed.
End loop.

(** ** Stepping over a value *)

Definition no_colon (r : list Z) : Prop := match skip jws r with c :: _ => c ≠ 58 | [] => True end.
Lemma skip_ws w r : is_ws w = true → skip jws (w ++ r) = skip jws r.
Proof.
  unfold is_ws, skip. induction w as [|c w IH]; [done|]. cbn. intros [Hc Hw]%andb_true_iff. rewrite Hc.
  specialize (IH Hw). destruct (span jws (w ++ r)), (span jws r). done.
Qed.
Lemma no_colon_ws w r : is_ws w = true → no_colon r → no_colon (w ++ r).
Proof. intros Hw. unfold no_colon. by rewrite skip_ws. Qed.
Lemma skip_nows c r : jws c = false → skip jws (c :: r) = c :: r.
Proof. intros Hc. unfold skip. cbn. by rewrite Hc. Qed.
Lemma jws_plain c : jws c = true → c ≠ 34 ∧ c ≠ 123 ∧ c ≠ 125 ∧ c ≠ 91 ∧ c ≠ 93 ∧ c ≠ 58.
Proof. unfold jws. rewrite !orb_true_iff, !Z.eqb_eq. lia. Qed.
Lemma bare_plain c : bare_char c = true → c ≠ 34 ∧ c ≠ 123 ∧ c ≠ 125 ∧ c ≠ 91 ∧ c ≠ 93 ∧ c ≠ 58 ∧ c ≠ 44 ∧ jws c = false.
Proof.
  unfold bare_char. rewrite negb_true_iff, !orb_false_iff, !Z.eqb_neq. intros H. split_and!; tauto.
Qed.
Lemma skip_chars_str s r : str_ok s = true → skip_chars (s ++ 34 :: r) = Some r.
Proof.
  induction s as [s IH] using (induction_ltof1 _ (@length Z)). unfold ltof in IH. destruct s as [|c s]; [done|].
  cbn [str_ok app skip_chars]. intros [_ H]%andb_true_iff. destruct (c =? 92).
  - destruct s as [|d s]; [done|]. apply andb_true_iff in H as [_ H]. cbn [app]. apply IH; [cbn; lia|done].
  - apply andb_true_iff in H as [H1 H2]. destruct (c =? 34); [done|]. apply IH; [cbn; lia|done].
Qed.
Lemma str_starts n s r :
  forallb (λ c, negb (c =? 34) && negb (c =? 92)) n = true → str_ok s = true →
  starts n (s ++ 34 :: r) = true → rd (s ++ 34 :: r) (len n) = 34 → s = n.
Proof.
  revert s. induction n as [|k n IH]; intros s Hn Hs Hst Hrd.
  - destruct s as [|c s]; [done|]. change (rd ((c :: s) ++ 34 :: r) (len (A:=Z) [])) with c in Hrd. subst c. by cbn in Hs.
  - cbn in Hn. apply andb_true_iff in Hn as [Hk Hn]. apply andb_true_iff in Hk as [Hk1 Hk2].
    destruct s as [|c s]; cbn [app starts] in Hst; apply andb_true_iff in Hst as [Hck Hst]; apply Z.eqb_eq in Hck; subst.
    + done.
    + f_equal. cbn [str_ok] in Hs. apply andb_true_iff in Hs as [_ Hs]. destruct (c =? 92); [done|].
      apply andb_true_iff in Hs as [_ Hs]. apply IH; try done. rewrite len_cons in Hrd.
      change ((c :: s) ++ 34 :: r) with ([c] ++ (s ++ 34 :: r)) in Hrd. pose proof (len_nonneg n).
      rewrite rd_app_r in Hrd by (change (len [c]) with 1; lia). change (len [c]) with 1 in Hrd.
      by replace (1 + len n - 1) with (len n) in Hrd by lia.
Qed.
Lemma print_no_nul :
  (∀ v, wf v = true → Forall (λ c, c ≠ 0) (print v)) ∧
  (∀ its, wf_items its = true → Forall (λ c, c ≠ 0) (print_items its)) ∧
  (∀ ms, wf_members ms = true → Forall (λ c, c ≠ 0) (print_members ms)).
Proof.
  assert (Hws : ∀ w, is_ws w = true → Forall (λ c, c ≠ 0) w).
  { intros w Hw. apply Forall_forall. intros c Hc ->. unfold is_ws in Hw. rewrite forallb_forall in Hw.
    by specialize (Hw 0 (proj1 (list_elem_of_In _ _) Hc)). }
  assert (Hstr : ∀ s, str_ok s = true → Forall (λ c, c ≠ 0) s).
  { induction s as [s IH] using (induction_ltof1 _ (@length Z)). unfold ltof in IH. destruct s as [|c s]; [constructor|].
    cbn [str_ok]. intros [Hc H]%andb_true_iff. apply negb_true_iff, Z.eqb_neq in Hc. apply Forall_cons_2; [done|].
    destruct (c =? 92).
    - destruct s as [|d s]; [done|]. apply andb_true_iff in H as [Hd H]. apply negb_true_iff, Z.eqb_neq in Hd.
      apply Forall_cons_2; [done|]. apply IH; [cbn; lia|done].
    - apply andb_true_iff in H as [_ H]. apply IH; [cbn; lia|done]. }
  assert (Hcons : ∀ c l, c ≠ 0 → Forall (λ c, c ≠ 0) l → Forall (λ c, c ≠ 0) (c :: l)) by (by constructor).
  apply json_mutind; cbn; intros; rewrite ?andb_true_iff in *; destruct_and?; try done.
  - apply Forall_forall. intros c Hc ->. rewrite forallb_forall in *. by specialize (H1 0 (proj1 (list_elem_of_In _ _) Hc)).
  - apply Hcons; [done|]. apply Forall_app_2; auto.
  - apply Hcons; [done|]. repeat apply Forall_app_2; auto.
  - apply Hcons; [done|]. repeat apply Forall_app_2; auto.
  - repeat apply Forall_app_2; auto. destruct more; auto.
  - repeat first [apply Forall_app_2 | apply Hcons]; auto. destruct more; auto.
Qed.

Section keys.
Context (brackets : bool) (closed : Z → bool) (name : string).
Hypothesis Hname : forallb (λ c, negb (c =? 34) && negb (c =? 92)) (str name) = true.
Hypothesis Hclosed : ∀ d, closed d = (d <=? 0) ∨ d < 0.
Let K := keys brackets closed name 1.

Lemma closed_pos d : 1 <= d → closed d = false.
Proof using Hclosed. intros Hd. destruct (Hclosed d) as [-> |]; [apply Z.leb_gt; lia|lia]. Qed.
Lemma K_plain c r d :
  c ≠ 34 → c ≠ 123 → c ≠ 125 → (brackets = true → c ≠ 91 ∧ c ≠ 93) → K d (c :: r) = K d r.
Proof using.
  intros H1 H2 H3 H4. unfold K. rewrite keys_cons, (proj2 (Z.eqb_neq c 34)), (proj2 (Z.eqb_neq c 123)), (proj2 (Z.eqb_neq c 125)) by done.
  destruct brackets; [|done]. destruct H4 as [H4 H5]; [done|].
  by rewrite (proj2 (Z.eqb_neq c 91)), (proj2 (Z.eqb_neq c 93)).
Qed.
Lemma K_ws w r d : is_ws w = true → K d (w ++ r) = K d r.
Proof using.
  unfold is_ws. induction w as [|c w IH]; [done|]. cbn [forallb app]. intros [Hc Hw]%andb_true_iff. apply jws_plain in Hc.
  rewrite K_plain by tauto. by apply IH.
Qed.
Lemma K_bare tok r d : forallb bare_char tok = true → K d (tok ++ r) = K d r.
Proof using.
  induction tok as [|c w IH]; [done|]. cbn [forallb app]. intros [Hc Hw]%andb_true_iff. apply bare_plain in Hc.
  rewrite K_plain by tauto. by apply IH.
Qed.
Lemma at_key_other s r : str_ok s = true → s ≠ str name ∨ no_colon r → at_key (34 :: s ++ 34 :: r) name = None.
Proof using Hname.
  intros Hs Ho. unfold at_key. change (34 =? 34) with true. cbn [andb].
  destruct (starts (str name) (s ++ 34 :: r)) eqn:Est; [|done]. cbn [andb].
  destruct (rd (s ++ 34 :: r) (len (str name)) =? 34) eqn:Erd; [|done]. apply Z.eqb_eq in Erd.
  pose proof (str_starts (str name) s r Hname Hs Est Erd) as ->. destruct Ho as [|Hn]; [done|].
  replace (drop (S (length (str name))) (str name ++ 34 :: r)) with r
    by (rewrite drop_app_ge by lia; by replace (S (length (str name)) - length (str name))%nat with 1%nat by lia).
  unfold no_colon in Hn. destruct (skip jws r) as [|d v]; [done|]. by rewrite (proj2 (Z.eqb_neq d 58) Hn).
Qed.
Lemma at_key_hit w2 w3 t :
  is_ws w2 = true → is_ws w3 = true → match t with c :: _ => jws c = false | [] => True end →
  at_key (34 :: str name ++ 34 :: w2 ++ 58 :: w3 ++ t) name = Some t.
Proof using.
  intros Hw2 Hw3 Ht. unfold at_key. change (34 =? 34) with true. rewrite starts_app. cbn [andb].
  rewrite rd_app_r, Z.sub_diag by lia. change (rd (34 :: w2 ++ 58 :: w3 ++ t) 0) with 34. change (34 =? 34) with true. cbv iota.
  replace (drop (S (length (str name))) (str name ++ 34 :: w2 ++ 58 :: w3 ++ t)) with (w2 ++ 58 :: w3 ++ t)
    by (rewrite drop_app_ge by lia; by replace (S (length (str name)) - length (str name))%nat with 1%nat by lia).
  rewrite skip_ws by done. rewrite skip_nows by done. change (58 =? 58) with true. cbv iota. rewrite skip_ws by done.
  destruct t as [|c t]; [done|]. by rewrite skip_nows.
Qed.
Lemma K_string s r d : str_ok s = true → d ≠ 1 ∨ s ≠ str name ∨ no_colon r → K d (34 :: s ++ 34 :: r) = K d r.
Proof using Hname.
  intros Hs Ho. unfold K. rewrite keys_cons. change (34 =? 34) with true. cbv iota. rewrite skip_chars_str by done.
  destruct (Z.eqb_spec d 1) as [-> |]; [|done]. rewrite at_key_other; [done..|]. tauto.
Qed.
Lemma K_close d r : 2 <= d → K d (125 :: r) = K (d - 1) r.
Proof using Hclosed. intros Hd. unfold K. rewrite keys_cons. cbn [Z.eqb Pos.eqb orb andb]. by rewrite andb_false_r, closed_pos by lia. Qed.
Lemma K_open_arr d r : K d (91 :: r) = K (if brackets then d + 1 else d) r.
Proof using. unfold K. rewrite keys_cons. by destruct brackets. Qed.
Lemma K_close_arr d r : 1 <= d → K (if brackets then d + 1 else d) (93 :: r) = K d r.
Proof using Hclosed.
  intros Hd. unfold K. rewrite keys_cons. destruct brackets; cbn [Z.eqb Pos.eqb orb andb]; [|done].
  rewrite closed_pos by lia. by replace (d + 1 - 1) with d by lia.
Qed.

(** A value, the items of an array and the members of a nested object leave the scan where
    it was. *)
Lemma K_value :
  (∀ v, wf v = true → ∀ d r, 1 <= d → no_colon r → K d (print v ++ r) = K d r) ∧
  (∀ its, wf_items its = true → ∀ d r, 1 <= d → K d (print_items its ++ 93 :: r) = K d (93 :: r)) ∧
  (∀ ms, wf_members ms = true → ∀ d r, 2 <= d → K d (print_members ms ++ 125 :: r) = K d (125 :: r)).
Proof using Hname Hclosed.
  apply json_mutind.
  - intros tok Hwf d r _ _. cbn in *. apply andb_true_iff in Hwf as [_ Hwf]. by apply K_bare.
  - intros s Hwf d r _ Hr. cbn [print app]. rewrite <- app_assoc. cbn [app]. apply K_string; [done|auto].
  - intros w its IH Hwf d r Hd _. cbn in Hwf. apply andb_true_iff in Hwf as [Hw Hwf]. cbn [print app].
    rewrite <- !app_assoc. cbn [app]. rewrite K_open_arr, K_ws, IH, K_close_arr by (try done; case_match; lia). done.
  - intros w ms IH Hwf d r Hd _. cbn in Hwf. apply andb_true_iff in Hwf as [Hw Hwf]. cbn [print app].
    rewrite <- !app_assoc. cbn [app]. unfold K. rewrite keys_cons. fold K. cbn [Z.eqb Pos.eqb orb].
    rewrite K_ws, IH, K_close by (try done; lia). by replace (d + 1 - 1) with d by lia.
  - done.
  - intros w1 v IHv w2 more IHm Hwf d r Hd. cbn in Hwf. rewrite !andb_true_iff in Hwf.
    destruct Hwf as (((Hw1 & Hv) & Hw2) & Hm). cbn [print_items]. rewrite <- !app_assoc.
    rewrite K_ws, IHv, K_ws by first [done | (apply no_colon_ws; [done|]; by destruct more)].
    destruct more; [done|]. cbn [app]. rewrite K_plain by done. by apply IHm.
  - done.
  - intros w1 key w2 w3 v IHv w4 more IHm Hwf d r Hd. cbn in Hwf. rewrite !andb_true_iff in Hwf.
    destruct Hwf as ((((((Hw1 & Hk) & Hw2) & Hw3) & Hv) & Hw4) & Hm). cbn [print_members].
    repeat (rewrite <- ?app_assoc; cbn [app]). rewrite K_ws, K_string, K_ws by (try done; left; lia).
    rewrite K_plain, K_ws, IHv, K_ws by first [done | lia | (apply no_colon_ws; [done|]; by destruct more)].
    destruct more; [done|]. cbn [app]. rewrite K_plain by done. by apply IHm.
Qed.

(** ** What a key scan finds *)

(** What can follow a member's value. *)
Definition follows (r : list Z) : Prop :=
  match r with [] => True | c :: _ => jws c = true ∨ c = 44 ∨ c = 125 end ∧
  match skip jws r with [] => True | c :: _ => c = 44 ∨ c = 125 end.
(** The pointer and the value of the document it stands for. *)
Definition at_value (p : option (list Z)) (o : option json) : Prop :=
  match p, o with
  | Some p, Some v => wf v = true ∧ ∃ r, p = print v ++ r ∧ follows r
  | None, None => True
  | _, _ => False
  end.
Lemma follows_ws w r : is_ws w = true → follows r → follows (w ++ r).
Proof using.
  intros Hw [H1 H2]. split; [|by rewrite skip_ws]. destruct w as [|c w]; [done|]. cbn in Hw.
  apply andb_true_iff in Hw as [Hc _]. cbn. auto.
Qed.
Lemma follows_char c r : c = 44 ∨ c = 125 → follows (c :: r).
Proof using. intros Hc. split; [by right|]. rewrite skip_nows; [done|]. by destruct Hc as [-> | ->]. Qed.
Lemma follows_no_colon r : follows r → no_colon r.
Proof using. intros [_ H]. unfold no_colon. destruct (skip jws r); [done|]. lia. Qed.
Lemma print_head v r : wf v = true → match print v ++ r with c :: _ => jws c = false | [] => True end.
Proof using.
  destruct v as [tok|s|w its|w ms]; cbn; try done. destruct tok as [|c tok]; [done|]. cbn.
  rewrite !andb_true_iff. intros (_ & Hc & _). by apply bare_plain in Hc as (_ & _ & _ & _ & _ & _ & _ & ?).
Qed.
Lemma K_members ms r :
  wf_members ms = true → closed 0 = true → at_value (K 1 (print_members ms ++ 125 :: r)) (mfind ms name).
Proof using Hname Hclosed.
  intros Hwf Hc0. revert Hwf. induction ms as [|w1 key w2 w3 v w4 more IH]; intros Hwf.
  - cbn [print_members app mfind]. unfold K. rewrite keys_cons. cbn [Z.eqb Pos.eqb orb andb].
    rewrite andb_false_r. change (1 - 1) with 0. by rewrite Hc0.
  - cbn in Hwf. rewrite !andb_true_iff in Hwf. destruct Hwf as ((((((Hw1 & Hk) & Hw2) & Hw3) & Hv) & Hw4) & Hm).
    cbn [print_members mfind]. repeat (rewrite <- ?app_assoc; cbn [app]). rewrite K_ws by done.
    set (after := match more with MNone => [] | _ => 44 :: print_members more end).
    assert (Hfol : follows (w4 ++ after ++ 125 :: r)).
    { apply follows_ws; [done|]. unfold after. destruct more; apply follows_char; auto. }
    case_bool_decide as Hkey.
    + subst key. unfold K. rewrite keys_cons. change (34 =? 34) with true. change (1 =? 1) with true. cbv iota.
      rewrite at_key_hit by (try done; by apply print_head). split; [done|]. by eexists.
    + rewrite K_string, K_ws, K_plain, K_ws by first [done | tauto].
      rewrite (proj1 K_value), K_ws by first [done | by apply follows_no_colon].
      unfold after. destruct more; [by apply IH|]. cbn [app]. rewrite K_plain by done. by apply IH.
Qed.
Lemma K_object w ms r :
  wf (JObj w ms) = true → closed 0 = true → at_value (K 0 (print (JObj w ms) ++ r)) (mfind ms name).
Proof using Hname Hclosed.
  cbn [wf]. intros [Hw Hm]%andb_true_iff Hc0. cbn [print app]. rewrite <- !app_assoc. cbn [app].
  unfold K. rewrite keys_cons. fold K. cbn [Z.eqb Pos.eqb orb]. rewrite K_ws by done. by apply K_members.
Qed.
End keys.

Lemma member_at p o name :
  forallb (λ c, negb (c =? 34) && negb (c =? 92)) (str name) = true →
  at_value p o → at_value (member p name) (o ≫= λ v, jget v name).
Proof.
  intros Hname Hat. destruct p as [p|], o as [v|]; try done. destruct Hat as [Hv (r & -> & Hr)]. cbn [mbind option_bind].
  destruct v as [tok|s|w its|w ms]; cbn [jget].
  - destruct tok as [|c tok]; [done|]. cbn in Hv. rewrite !andb_true_iff in Hv. destruct Hv as (_ & Hc & _).
    apply bare_plain in Hc as (_ & Hc & _). cbn [member print app]. by rewrite (proj2 (Z.eqb_neq c 123) Hc).
  - done.
  - done.
  - cbn [member]. change (123 =? 123) with true. cbv iota.
    apply (K_object true (λ d, d =? 0) name Hname); [|done|done].
    intros d. destruct (Z.ltb_spec d 0); [by right|left]. apply eq_true_iff_eq. rewrite Z.eqb_eq, Z.leb_le. lia.
Qed.
Lemma find_object_key_at p o name :
  forallb (λ c, negb (c =? 34) && negb (c =? 92)) (str name) = true →
  at_value p o → (∃ w ms, o = Some (JObj w ms)) →
  at_value (p ≫= λ p, find_object_key p name 1) (o ≫= λ v, jget v name).
Proof.
  intros Hname Hat (w & ms & ->). destruct p as [p|]; [|done]. destruct Hat as [Hv (r & -> & Hr)]. cbn [mbind option_bind jget].
  apply (K_object false (λ d, d <? 1) name Hname); [|done|done].
  intros d. left. apply eq_true_iff_eq. rewrite Z.ltb_lt, Z.leb_le. lia.
Qed.
End JsonText.
