(* ===== verification/Topology.v ===== *)
(** * The management topology: opcd/topology.h, opcd/topology.c

    opc.conf first, then the peer_route toggle of wifi_init_conf.json. A file is the list
    of its bytes, [None] when it cannot be read. *)
From S2P Require Import Prelude CText FaultProbe State Conf JsonText.
From stdpp Require Import base list numbers option tactics strings.
From Stdlib Require Import ZArith Lia.
#[local] Open Scope Z_scope.
Import Conf JsonText.

Module Topology.

(** 1, 0 or -1. *)
Definition json_bool_at (v : list Z) : Z :=
  let quoted := match v with c :: _ => c =? 34 | [] => false end in
  let v := if quoted then drop 1 v else v in
  let n := if starts (str "true") v then 4 else if starts (str "false") v then 5 else 0 in
  if n =? 0 then -1
  else
    let c := rd v n in
    let bad := if quoted then negb (c =? 34)
               else negb ((c =? 0) || (c =? 44) || (c =? 125) || (c =? 32) || (c =? 9) || (c =? 13) || (c =? 10)) in
    if bad then -1 else if n =? 4 then 1 else 0.

Definition opens_object (p : list Z) : bool := match p with c :: _ => c =? 123 | [] => false end.
Definition opcd_topology_json_peer_route (json : option (list Z)) : Z :=
  match json with
  | None => -1
  | Some json =>
      match find_object_key json "wbridge" 1 with
      | Some wb =>
          if negb (opens_object wb) then -1
          else match find_object_key wb "peer_route" 1 with
               | Some pr =>
                   if negb (opens_object pr) then -1
                   else match key_loop (length pr) false (λ d, d =? 0) "enabled" 1 0 pr with
                        | Some val => json_bool_at val
                        | None => -1
                        end
               | None => -1
               end
      | None => -1
      end
  end.

Definition TOPOLOGY_JSON_CAP : Z := 1024 * 1024.
Definition topology_slurp (file : option (list Z)) : option (list Z) :=
  s ← file; if TOPOLOGY_JSON_CAP <=? len s then None else Some (cstr s).
Definition opcd_topology_parse (opc_conf wifi_init_conf : option (list Z)) : opcd_topology_t :=
  match conf_override opc_conf with
  | OPC_TOPOLOGY_CONF_PEER_ROUTE => OPC_TOPOLOGY_PEER_ROUTE
  | OPC_TOPOLOGY_CONF_ETH0_IP => OPC_TOPOLOGY_ETH0_IP
  | OPC_TOPOLOGY_CONF_AUTO =>
      match topology_slurp wifi_init_conf with
      | None => OPC_TOPOLOGY_ETH0_IP
      | Some json => if opcd_topology_json_peer_route (Some json) =? 0
                     then OPC_TOPOLOGY_ETH0_IP else OPC_TOPOLOGY_PEER_ROUTE
      end
  end.

(** ** The toggle in the document *)

Definition bool_of (v : json) : Z :=
  match v with
  | JBare t | JStr t => if bool_decide (t = str "true") then 1 else if bool_decide (t = str "false") then 0 else -1
  | _ => -1
  end.
(** .wbridge.peer_route.enabled *)
Definition peer_route_of (doc : json) : Z :=
  match jget doc "wbridge" with
  | Some (JObj _ _ as wb) =>
      match jget wb "peer_route" with
      | Some (JObj _ _ as pr) => match jget pr "enabled" with Some v => bool_of v | None => -1 end
      | _ => -1
      end
  | _ => -1
  end.

Lemma opens_print v r : wf v = true → opens_object (print v ++ r) = match v with JObj _ _ => true | _ => false end.
Proof.
  destruct v as [tok|s|w its|w ms]; try done. destruct tok as [|c tok]; [done|]. cbn. rewrite !andb_true_iff.
  intros (_ & Hc & _). apply bare_plain in Hc as (_ & Hc & _). by apply Z.eqb_neq.
Qed.
(** A word in front of something that ends it. *)
Lemma starts_word k t r :
  forallb bare_char k = true → match r with c :: _ => bare_char c = false | [] => True end →
  starts k (t ++ r) = true → ∃ t', t = k ++ t'.
Proof.
  revert t. induction k as [|c k IH]; intros t Hk Hr Hst; [by exists t|]. cbn in Hk. apply andb_true_iff in Hk as [Hc Hk].
  destruct t as [|d t].
  - destruct r as [|d r]; [done|]. cbn in Hst. apply andb_true_iff in Hst as [Hd _]. apply Z.eqb_eq in Hd. subst. congruence.
  - cbn in Hst. apply andb_true_iff in Hst as [Hd Hst]. apply Z.eqb_eq in Hd. subst.
    destruct (IH t Hk Hr Hst) as [t' ->]. by exists t'.
Qed.
Lemma rd_after k t r : rd ((k ++ t) ++ r) (len k) = match t ++ r with c :: _ => c | [] => 0 end.
Proof. rewrite <- app_assoc, rd_app_r, Z.sub_diag by lia. by destruct (t ++ r). Qed.
(** The literal [k] or nothing: [e] is the character after the word. *)
Definition word_verdict (ok : Z → bool) (v : list Z) : Z :=
  let n := if starts (str "true") v then 4 else if starts (str "false") v then 5 else 0 in
  if n =? 0 then -1 else if negb (ok (rd v n)) then -1 else if n =? 4 then 1 else 0.
Lemma word_verdict_spec ok t r :
  match r with c :: _ => bare_char c = false | [] => True end →
  ok (match r with c :: _ => c | [] => 0 end) = true →
  (∀ k c t', t = k ++ c :: t' → forallb (λ c, negb (c =? 92)) k = true → ok c = false) →
  word_verdict ok (t ++ r) = if bool_decide (t = str "true") then 1 else if bool_decide (t = str "false") then 0 else -1.
Proof.
  intros Hr Hok Ht. unfold word_verdict.
  assert (Hw : ∀ k, forallb bare_char k = true → forallb (λ c, negb (c =? 92)) k = true →
    (starts k (t ++ r) = true → ok (rd (t ++ r) (len k)) = bool_decide (t = k)) ∧ (t = k → starts k (t ++ r) = true)).
  { intros k Hk Hk'. split; [|intros ->; apply starts_app]. intros Hst. destruct (starts_word k t r Hk Hr Hst) as [t' ->].
    rewrite rd_after. destruct t' as [|c t']; [rewrite app_nil_r, bool_decide_true by done; exact Hok|].
    rewrite bool_decide_false; [|intros H; rewrite <- (app_nil_r k) in H at 2; by apply app_inv_head in H].
    by apply (Ht k c t'). }
  destruct (Hw (str "true")) as [H1 H2]; [done..|]. destruct (Hw (str "false")) as [H3 H4]; [done..|].
  change (len (str "true")) with 4 in H1. change (len (str "false")) with 5 in H3.
  destruct (starts (str "true") (t ++ r)) eqn:E1.
  - cbn [Z.eqb Pos.eqb]. rewrite H1 by done. destruct (decide (t = str "true")) as [Hb|Hb].
    + by rewrite !(bool_decide_true _ Hb).
    + rewrite !(bool_decide_false _ Hb). cbn [negb]. rewrite bool_decide_false; [done|]. intros ->. discriminate E1.
  - rewrite (bool_decide_false (t = str "true")) by (intros Hb; discriminate (H2 Hb)).
    destruct (starts (str "false") (t ++ r)) eqn:E2; cbn [Z.eqb Pos.eqb].
    + rewrite H3 by done. destruct (decide (t = str "false")) as [Hb|Hb].
      * by rewrite !(bool_decide_true _ Hb).
      * by rewrite !(bool_decide_false _ Hb).
    + rewrite bool_decide_false; [done|]. intros Hb. discriminate (H4 Hb).
Qed.
Lemma str_ok_cut k c t : str_ok (k ++ c :: t) = true → forallb (λ c, negb (c =? 92)) k = true → c ≠ 34.
Proof.
  induction k as [|d k IH]; cbn [app str_ok forallb].
  - intros [_ H]%andb_true_iff _ ->. done.
  - intros [_ H]%andb_true_iff [Hd Hk]%andb_true_iff. destruct (d =? 92); [done|]. apply andb_true_iff in H as [_ H]. auto.
Qed.
Lemma json_bool_at_value v r : wf v = true → follows r → json_bool_at (print v ++ r) = bool_of v.
Proof.
  intros Hv [Hr _]. set (ends := λ c, (c =? 0) || (c =? 44) || (c =? 125) || (c =? 32) || (c =? 9) || (c =? 13) || (c =? 10)).
  assert (Hends : ∀ c, bare_char c = true → ends c = false).
  { intros c. unfold bare_char, ends, jws. rewrite negb_true_iff, !orb_false_iff. tauto. }
  destruct v as [tok|s|w its|w ms].
  - cbn [print bool_of wf] in *. apply andb_true_iff in Hv as [Hne Htok].
    assert (Hq : match tok ++ r with c :: _ => c =? 34 | [] => false end = false).
    { destruct tok as [|c tok]; [done|]. cbn in Htok |- *. apply andb_true_iff in Htok as [Hc _].
      apply bare_plain in Hc as (Hc & _). by apply Z.eqb_neq. }
    unfold json_bool_at. rewrite Hq. apply (word_verdict_spec ends).
    + destruct r as [|c r]; [done|]. unfold bare_char. destruct Hr as [-> |[-> | ->]]; done.
    + destruct r as [|c r]; [done|]. unfold ends. unfold jws in Hr. rewrite !orb_true_iff, !Z.eqb_eq in *. tauto.
    + intros k c t' -> _. apply Hends. rewrite forallb_app in Htok. cbn in Htok. rewrite !andb_true_iff in Htok. tauto.
  - cbn [print bool_of wf] in *. unfold json_bool_at. change (34 =? 34) with true. cbn [app]. change (34 =? 34) with true. cbv iota.
    cbn [drop]. rewrite <- app_assoc. cbn [app]. apply (word_verdict_spec (λ c, c =? 34) s (34 :: r)).
    + done.
    + done.
    + intros k c t' -> Hk. apply Z.eqb_neq. by apply (str_ok_cut k c t').
  - done.
  - done.
Qed.
Lemma peer_route_doc w0 w ms w9 :
  is_ws w0 = true → is_ws w9 = true → wf (JObj w ms) = true →
  opcd_topology_json_peer_route (Some (w0 ++ print (JObj w ms) ++ w9)) = peer_route_of (JObj w ms).
Proof.
  intros Hw0 Hw9 Hwf. unfold opcd_topology_json_peer_route, peer_route_of.
  assert (Hroot : at_value (Some (print (JObj w ms) ++ w9)) (Some (JObj w ms))).
  { split; [done|]. exists w9. split; [done|]. rewrite <- (app_nil_r w9). apply follows_ws; [done|]. by split. }
  assert (Hws : find_object_key (w0 ++ print (JObj w ms) ++ w9) "wbridge" 1
    = find_object_key (print (JObj w ms) ++ w9) "wbridge" 1).
  { by apply (K_ws false (λ d, d <? 1) "wbridge" w0). }
  rewrite Hws. clear Hws. pose proof (find_object_key_at _ _ "wbridge" eq_refl Hroot ltac:(by do 2 eexists)) as H1.
  cbn [mbind option_bind] in H1. destruct (find_object_key _ "wbridge" 1) as [p1|], (jget _ "wbridge") as [v1|]; try done.
  pose proof H1 as [Hv1 (r1 & -> & Hr1)]. rewrite opens_print by done. destruct v1 as [| | |w1 ms1]; try done. cbn [negb].
  pose proof (find_object_key_at _ _ "peer_route" eq_refl H1 ltac:(by do 2 eexists)) as H2.
  cbn [mbind option_bind] in H2. destruct (find_object_key _ "peer_route" 1) as [p2|], (jget _ "peer_route") as [v2|]; try done.
  pose proof H2 as [Hv2 (r2 & -> & Hr2)]. rewrite opens_print by done. destruct v2 as [| | |w2 ms2]; try done. cbn [negb].
  pose proof (K_object false (λ d, d =? 0) "enabled" eq_refl) as H3. unfold keys in H3.
  specialize (H3 ltac:(intros d; destruct (Z.ltb_spec d 0); [by right|left]; apply eq_true_iff_eq; rewrite Z.eqb_eq, Z.leb_le; lia)
    w2 ms2 r2 Hv2 eq_refl). cbn [jget].
  destruct (key_loop _ _ _ _ _ _ _) as [p3|], (mfind ms2 "enabled") as [v3|]; try done.
  destruct H3 as [Hv3 (r3 & -> & Hr3)]. by apply json_bool_at_value.
Qed.
(** What opc.conf leaves to wifi_init_conf.json. *)
Definition overridden (conf : option (list Z)) (auto : opcd_topology_t) : opcd_topology_t :=
  match last (values "management_topology" (default [] conf)) with
  | Some v => if eqs v "peer_route" then OPC_TOPOLOGY_PEER_ROUTE
              else if eqs v "eth0_ip" then OPC_TOPOLOGY_ETH0_IP else auto
  | None => auto
  end.

(** The management topology. The last management_topology line of opc.conf decides when
    it names a topology. Otherwise wifi_init_conf.json does: unreadable means eth0_ip, and
    for a document (any JSON object, in any layout, with the key names anywhere else in
    strings, arrays or other objects) the topology is eth0_ip exactly if
    .wbridge.peer_route.enabled is false or "false", else peer_route. *)
Theorem topology_decision conf :
  Forall (λ c, c ≠ 0) (default [] conf) →
  opcd_topology_parse conf None = overridden conf OPC_TOPOLOGY_ETH0_IP ∧
  ∀ w0 w ms w9,
    is_ws w0 = true → is_ws w9 = true → wf (JObj w ms) = true →
    len (w0 ++ print (JObj w ms) ++ w9) < TOPOLOGY_JSON_CAP →
    opcd_topology_parse conf (Some (w0 ++ print (JObj w ms) ++ w9)) =
    overridden conf (if peer_route_of (JObj w ms) =? 0 then OPC_TOPOLOGY_ETH0_IP else OPC_TOPOLOGY_PEER_ROUTE).
Proof.
  intros Hconf.
  assert (Hov : ∀ init, opcd_topology_parse conf init = overridden conf (match topology_slurp init with
    | None => OPC_TOPOLOGY_ETH0_IP
    | Some json => if opcd_topology_json_peer_route (Some json) =? 0 then OPC_TOPOLOGY_ETH0_IP else OPC_TOPOLOGY_PEER_ROUTE end)).
  { intros init. unfold opcd_topology_parse, conf_override, overridden.
    rewrite (selector_last _ opcd_topology_from_token) by done. unfold opcd_topology_from_token.
    destruct (last _) as [v|]; [|done]. by destruct (eqs v "peer_route"), (eqs v "eth0_ip"). }
  split; [by rewrite Hov|]. intros w0 w ms w9 Hw0 Hw9 Hwf Hlen. rewrite Hov. f_equal.
  unfold topology_slurp. cbn [mbind option_bind]. rewrite (proj2 (Z.leb_gt TOPOLOGY_JSON_CAP _) Hlen).
  rewrite cstr_nul_free.
  - by rewrite peer_route_doc.
  - assert (Hws : ∀ w, is_ws w = true → Forall (λ c, c ≠ 0) w).
    { intros x Hx. pose proof (proj1 print_no_nul (JArr x INone)) as Hp. cbn in Hp. rewrite Hx in Hp. specialize (Hp eq_refl). apply Forall_cons_1 in Hp as [_ Hp]. by apply Forall_app in Hp as [? _]. }
    repeat apply Forall_app_2; auto. by apply print_no_nul.
Qed.

(** A document that mentions the toggle in a comment string, in an array and deeper down. *)
Definition example_ws : list Z := [10; 32].
Definition example_doc : jmembers :=
  MCons example_ws (str "_comment") [] [32] (JStr (str "set " ++ [92; 34] ++ str "enabled" ++ [92; 34] ++ str ": false")) []
  (MCons example_ws (str "list") [] [32] (JArr [] (ICons [] (JStr (str "wbridge")) [] INone)) []
  (MCons example_ws (str "wbridge") [32] [32]
    (JObj [] (MCons [] (str "other") [] [] (JObj [] (MCons [] (str "enabled") [] [] (JBare (str "true")) [] MNone)) []
      (MCons [] (str "peer_route") [] [32] (JObj [] (MCons [] (str "enabled") [] [] (JBare (str "false")) [32] MNone)) [] MNone)))
    [10] MNone)).
Definition example_topology_conf : list Z := str "management_topology = auto" ++ [10].
Lemma topology_decision_witness :
  opcd_topology_parse (Some example_topology_conf) (Some (print (JObj [] example_doc) ++ [10])) = OPC_TOPOLOGY_ETH0_IP.
Proof.
  destruct (topology_decision (Some example_topology_conf)) as [_ H].
  - repeat (apply Forall_cons_2; [discriminate|]). constructor.
  - change (print (JObj [] example_doc) ++ [10]) with ([] ++ print (JObj [] example_doc) ++ [10]).
    rewrite H; [vm_compute; reflexivity..].
Defined.
End Topology.
