(* ===== verification/DevinfoCfg.v ===== *)
(** * Mode and bandwidth from wifi_init_conf.json: opcd/devinfo_cfg.h, opcd/devinfo_cfg.c *)
From S2P Require Import Prelude CText Codec ScanList Commands JsonText.
From stdpp Require Import base list numbers option tactics strings.
From Stdlib Require Import ZArith Lia.
#[local] Open Scope Z_scope.
Import Commands JsonText.

Module DevinfoCfg.

(** ** Scalars *)

Fixpoint scalar_chars (v : list Z) (n cap : Z) : option (list Z) :=
  match v with
  | [] => None
  | c :: v' => if c =? 34 then Some []
               else if (c =? 92) || (cap <=? n + 1) then None
               else r ← scalar_chars v' (n + 1) cap; Some (c :: r)
  end.
Definition token_char (c : Z) : bool := ((48 <=? c) && (c <=? 57)) || ((97 <=? c) && (c <=? 122)).
Fixpoint scalar_token (v : list Z) (n cap : Z) : option (list Z) :=
  match v with
  | c :: v' => if token_char c then if cap <=? n + 1 then None else r ← scalar_token v' (n + 1) cap; Some (c :: r)
               else Some []
  | [] => Some []
  end.
(** The text, [None] for -1. *)
Definition scalar (v : option (list Z)) (cap : Z) : option (list Z) :=
  match v with
  | None => None
  | Some ((c :: v') as v) =>
      if c =? 34 then scalar_chars v' 0 cap
      else r ← scalar_token v 0 cap; if len r =? 0 then None else Some r
  | Some [] => None
  end.

(** ** Values *)

Definition is_text (t : list Z) (s : string) : bool := bool_decide (t = str s).
Definition mode_from_radio (t : list Z) (mlan1 : bool) : Z :=
  if is_text t "b" then OPC_WLAN_MODE_11B
  else if is_text t "g" then OPC_WLAN_MODE_11G
  else if is_text t "a" then OPC_WLAN_MODE_11A
  else if is_text t "n" then OPC_WLAN_MODE_11N
  else if is_text t "ac" then OPC_WLAN_MODE_11AC
  else if is_text t "ax" && negb mlan1 then OPC_WLAN_MODE_11AX
  else OPC_WLAN_MODE_UNSET.
Definition to_lower (c : Z) : Z := if (65 <=? c) && (c <=? 90) then c - 65 + 97 else c.
Definition mode_from_standard (t : list Z) (mlan1 : bool) : Z :=
  if 8 <=? len t then OPC_WLAN_MODE_UNSET
  else
    let s := map to_lower t in
    if is_text s "n" || is_text s "4" then OPC_WLAN_MODE_11N
    else if is_text s "ac" || is_text s "5" then OPC_WLAN_MODE_11AC
    else if is_text s "ax" || is_text s "6" then if mlan1 then OPC_WLAN_MODE_11AC else OPC_WLAN_MODE_11AX
    else OPC_WLAN_MODE_UNSET.
(** The text when it counts as set. *)
Definition std_value (v : option (list Z)) (cap : Z) : option (list Z) :=
  t ← scalar v cap;
  if (len t =? 0) || is_text t "null" || is_text t "false" then None else Some t.
Definition bw_from_token (t : list Z) : Z :=
  if is_text t "20" then OPC_BANDWIDTH_20
  else if is_text t "40" then OPC_BANDWIDTH_40
  else if is_text t "80" then OPC_BANDWIDTH_80
  else OPC_BANDWIDTH_UNSET.

(** ** The reader *)

Definition BOM : list Z := [239; 187; 191].
(** [*mode] and [*bandwidth]. *)
Definition opcd_devinfo_cfg_from_json (json : option (list Z)) (iface : string) : Z * Z :=
  match json with
  | None => (OPC_WLAN_MODE_UNSET, OPC_BANDWIDTH_UNSET)
  | Some json =>
      let root := if starts BOM json then drop 3 json else json in
      let root := Some (skip jws root) in
      let mlan1 := bool_decide (iface = "mlan1"%string) in
      let ifo := member root iface in
      let radio := member ifo "radio" in
      let mode := match scalar (member radio "mode") 16 with
                  | Some t => mode_from_radio t mlan1 | None => OPC_WLAN_MODE_UNSET end in
      let bandwidth := match scalar (member radio "bw") 16 with
                       | Some t => bw_from_token t | None => OPC_BANDWIDTH_UNSET end in
      if negb (mode =? OPC_WLAN_MODE_UNSET) then (mode, bandwidth)
      else match std_value (member ifo "STANDARD") 16 with
           | Some t => (mode_from_standard t mlan1, bandwidth)
           | None => match std_value (member (member root "global") "STANDARD") 16 with
                     | Some t => (mode_from_standard t mlan1, bandwidth)
                     | None => (mode, bandwidth)
                     end
           end
  end.
(** [file]: what [opc_json_slurp_file] gives. *)
Definition opcd_devinfo_cfg_read (file : option (list Z)) (iface : string) : Z * Z :=
  opcd_devinfo_cfg_from_json file iface.

(** ** The configuration in the document *)

(** A scalar as text: a string of at most 15 characters without escapes, or the leading
    digits and small letters of a bare literal. *)
Definition text_of (v : json) : option (list Z) :=
  match v with
  | JStr s => if bool_decide (92 ∈ s) || (16 <=? len s) then None else Some s
  | JBare t => let w := (span token_char t).1 in if (len w =? 0) || (16 <=? len w) then None else Some w
  | _ => None
  end.
Definition set_text (v : json) : option (list Z) :=
  t ← text_of v; if (len t =? 0) || is_text t "null" || is_text t "false" then None else Some t.
(** The first value found of a list of lookups. *)
Definition first_some {A} (l : list (option A)) : option A := head (omap id l).
(** Mode: .<iface>.radio.mode if valid, else the limit .<iface>.STANDARD, else
    .global.STANDARD; bandwidth: .<iface>.radio.bw. *)
Definition cfg_of (doc : json) (iface : string) : Z * Z :=
  let mlan1 := bool_decide (iface = "mlan1"%string) in
  let ifo := jget doc iface in
  let radio := ifo ≫= λ v, jget v "radio" in
  let mode := from_option (λ t, mode_from_radio t mlan1) OPC_WLAN_MODE_UNSET ((radio ≫= λ v, jget v "mode") ≫= text_of) in
  let standard := first_some [(ifo ≫= λ v, jget v "STANDARD") ≫= set_text;
                              (jget doc "global" ≫= λ v, jget v "STANDARD") ≫= set_text] in
  (if mode =? OPC_WLAN_MODE_UNSET then from_option (λ t, mode_from_standard t mlan1) OPC_WLAN_MODE_UNSET standard else mode,
   from_option bw_from_token OPC_BANDWIDTH_UNSET ((radio ≫= λ v, jget v "bw") ≫= text_of)).

Lemma scalar_chars_str s r : ∀ n, str_ok s = true → 0 <= n →
  scalar_chars (s ++ 34 :: r) n 16 = if bool_decide (92 ∈ s) || (16 <=? n + len s) && (0 <? len s) then None else Some s.
Proof.
  induction s as [|c s IH]; intros n Hs Hn.
  - cbn [app scalar_chars]. change (34 =? 34) with true. cbv iota. rewrite bool_decide_false by (by intros ?%elem_of_nil).
    by rewrite andb_false_r.
  - cbn [app scalar_chars str_ok] in *. apply andb_true_iff in Hs as [_ Hs]. rewrite len_cons. pose proof (len_nonneg s).
    destruct (Z.eqb_spec c 92) as [-> |Hc].
    { change (92 =? 34) with false. cbn [orb]. cbv iota. rewrite bool_decide_true by (by left). done. }
    apply andb_true_iff in Hs as [Hq Hs]. apply negb_true_iff in Hq. rewrite Hq. cbn [orb].
    rewrite (proj2 (Z.ltb_lt 0 (1 + len s))), andb_true_r by lia.
    replace (bool_decide (92 ∈ c :: s)) with (bool_decide (92 ∈ s))
      by (apply eq_true_iff_eq; rewrite !bool_decide_eq_true, elem_of_cons; split; [auto|intros [Hx|Hx]; [congruence|done]]).
    destruct (16 <=? n + 1) eqn:E; guards.
    + rewrite (proj2 (Z.leb_le 16 (n + (1 + len s)))), orb_true_r by lia. done.
    + rewrite IH by (try done; lia). destruct (bool_decide (92 ∈ s)); [done|]. cbn [orb].
      replace (n + 1 + len s) with (n + (1 + len s)) by lia. destruct (16 <=? n + (1 + len s)) eqn:E2; guards.
      * rewrite (proj2 (Z.ltb_lt 0 (len s))) by lia. done.
      * done.
Qed.
Lemma scalar_token_bare t r : ∀ n, 0 <= n <= 15 → match r with c :: _ => token_char c = false | [] => True end →
  scalar_token (t ++ r) n 16 = let w := (span token_char t).1 in if 16 <=? n + len w then None else Some w.
Proof.
  cbn zeta. induction t as [|c t IH]; intros n Hn Hr.
  - cbn [app span fst]. change (len (A:=Z) []) with 0. rewrite (proj2 (Z.leb_gt 16 (n + 0))) by lia.
    destruct r as [|c r]; [done|]. cbn. by rewrite Hr.
  - cbn [app scalar_token span]. destruct (token_char c).
    + destruct (span token_char t) as [w rest] eqn:Ew. cbn [fst] in *. rewrite len_cons. pose proof (len_nonneg w).
      destruct (16 <=? n + 1) eqn:E; guards; [rewrite (proj2 (Z.leb_le 16 (n + (1 + len w)))) by lia; done|].
      rewrite IH by (try done; lia). replace (n + 1 + len w) with (n + (1 + len w)) by lia.
      by destruct (16 <=? n + (1 + len w)).
    + cbn [fst]. change (len (A:=Z) []) with 0. by rewrite (proj2 (Z.leb_gt 16 (n + 0))) by lia.
Qed.
Lemma scalar_at p o : at_value p o → scalar p 16 = o ≫= text_of.
Proof.
  intros Hat. destruct p as [p|], o as [v|]; try done. destruct Hat as [Hv (r & -> & Hr & _)]. cbn [mbind option_bind].
  destruct v as [tok|s|w its|w ms]; cbn [text_of print].
  - cbn [wf] in Hv. apply andb_true_iff in Hv as [Hne Htok]. unfold scalar.
    destruct (tok ++ r) as [|c q] eqn:E; [by destruct tok|].
    assert (Hc : (c =? 34) = false).
    { destruct tok as [|d tok]; [done|]. injection E as -> _. cbn in Htok. apply andb_true_iff in Htok as [Hc _].
      apply bare_plain in Hc as (Hc & _). by apply Z.eqb_neq. }
    rewrite Hc, <- E, scalar_token_bare; [|lia|].
    + cbn zeta. rewrite Z.add_0_l. destruct (16 <=? len _); [by rewrite orb_true_r|]. cbn. by rewrite orb_false_r.
    + destruct r as [|d r]; [done|]. unfold token_char. destruct Hr as [Hd|[-> | ->]]; try done.
      unfold jws in Hd. rewrite !orb_true_iff, !Z.eqb_eq in Hd. destruct Hd as [[[-> | ->]| ->]| ->]; done.
  - cbn [app]. unfold scalar. change (34 =? 34) with true. cbv iota. rewrite <- app_assoc. cbn [app].
    rewrite scalar_chars_str by (try done; lia). rewrite Z.add_0_l. f_equal.
    destruct (16 <=? len s) eqn:E; [|done]. guards. rewrite (proj2 (Z.ltb_lt 0 (len s))) by lia. done.
  - cbn. reflexivity.
  - cbn. reflexivity.
Qed.
Lemma std_value_at p o : at_value p o → std_value p 16 = o ≫= set_text.
Proof. intros Hat. unfold std_value. rewrite (scalar_at p o Hat). by destruct o. Qed.
Definition plain_name (n : string) : bool := forallb (λ c, negb (c =? 34) && negb (c =? 92)) (str n).

(** The configured mode and bandwidth. For every JSON object, in any layout and with or
    without a byte order mark, the scanner reports what the document's members say: the
    mode of .<iface>.radio.mode, else of the first set STANDARD of the interface and the
    global section, the bandwidth of .<iface>.radio.bw; strings, arrays and objects that
    merely contain those names are not taken for them. *)
Theorem devinfo_cfg_reads_document iface bom w0 w ms w9 :
  plain_name iface = true → bom = [] ∨ bom = BOM → is_ws w0 = true → is_ws w9 = true → wf (JObj w ms) = true →
  opcd_devinfo_cfg_from_json (Some (bom ++ w0 ++ print (JObj w ms) ++ w9)) iface = cfg_of (JObj w ms) iface.
Proof.
  intros Hif Hbom Hw0 Hw9 Hwf. unfold opcd_devinfo_cfg_from_json.
  assert (Hroot : skip jws (if starts BOM (bom ++ w0 ++ print (JObj w ms) ++ w9)
    then drop 3 (bom ++ w0 ++ print (JObj w ms) ++ w9) else bom ++ w0 ++ print (JObj w ms) ++ w9) = print (JObj w ms) ++ w9).
  { assert (Hskip : skip jws (w0 ++ print (JObj w ms) ++ w9) = print (JObj w ms) ++ w9) by (by rewrite skip_ws).
    destruct Hbom as [-> | ->]; [|by rewrite starts_app].
    cbn [app]. replace (starts BOM (w0 ++ print (JObj w ms) ++ w9)) with false; [done|].
    destruct w0 as [|c w0]; [done|]. cbn in Hw0 |- *. apply andb_true_iff in Hw0 as [Hc _].
    unfold jws in Hc. rewrite !orb_true_iff, !Z.eqb_eq in Hc. destruct Hc as [[[-> | ->]| ->]| ->]; done. }
  cbv zeta. rewrite Hroot. clear Hroot.
  assert (Hr : at_value (Some (print (JObj w ms) ++ w9)) (Some (JObj w ms))).
  { split; [done|]. exists w9. split; [done|]. rewrite <- (app_nil_r w9). apply follows_ws; [done|]. by split. }
  pose proof (member_at _ _ iface Hif Hr) as Hifo. pose proof (member_at _ _ "global" eq_refl Hr) as Hglob.
  pose proof (member_at _ _ "radio" eq_refl Hifo) as Hradio.
  pose proof (scalar_at _ _ (member_at _ _ "mode" eq_refl Hradio)) as Hmode.
  pose proof (scalar_at _ _ (member_at _ _ "bw" eq_refl Hradio)) as Hbw.
  pose proof (std_value_at _ _ (member_at _ _ "STANDARD" eq_refl Hifo)) as Hs1.
  pose proof (std_value_at _ _ (member_at _ _ "STANDARD" eq_refl Hglob)) as Hs2.
  rewrite Hmode, Hbw, Hs1, Hs2. unfold cfg_of, first_some. clear.
  change (Some (JObj w ms) ≫= λ v, jget v iface) with (jget (JObj w ms) iface).
  change (Some (JObj w ms) ≫= λ v, jget v "global") with (jget (JObj w ms) "global"). cbv zeta.
  set (m := _ ≫= text_of). set (b := _ ≫= text_of). set (s1 := _ ≫= set_text). set (s2 := _ ≫= set_text).
  clearbody m b s1 s2. set (mode := from_option _ _ m).
  replace (match m with Some t => mode_from_radio t (bool_decide (iface = "mlan1"%string)) | None => OPC_WLAN_MODE_UNSET end)
    with mode by (by destruct m).
  destruct (Z.eqb_spec mode OPC_WLAN_MODE_UNSET) as [Hm|Hm]; cbn [negb]; [|by destruct b].
  destruct s1; [by destruct b|]. destruct s2; [by destruct b|]. rewrite Hm. by destruct b.
Qed.
(** mlan1 cannot do ax: its radio.mode is skipped and the global limit means ac. *)
Definition example_radio : jmembers :=
  MCons [10] (str "global") [] [32] (JObj [] (MCons [] (str "STANDARD") [] [] (JStr (str "AX")) [] MNone)) []
  (MCons [10] (str "mlan1") [] [32]
    (JObj [] (MCons [] (str "radio") [] []
       (JObj [] (MCons [] (str "mode") [] [] (JStr (str "ax")) [] (MCons [] (str "bw") [] [] (JBare (str "40")) [] MNone))) [] MNone))
    [10] MNone).
Lemma devinfo_cfg_reads_document_witness :
  opcd_devinfo_cfg_from_json (Some (BOM ++ [32] ++ print (JObj [] example_radio) ++ [10])) "mlan1"
  = (OPC_WLAN_MODE_11AC, OPC_BANDWIDTH_40).
Proof. rewrite devinfo_cfg_reads_document; [vm_compute; reflexivity|done|by right|done|done|vm_compute; reflexivity]. Defined.
End DevinfoCfg.
