(* ===== verification/JsonUtil.v ===== *)
(** * Value extraction by key: opcd/json_util.h, opcd/json_util.c

    [opc_json_string] and [opc_json_integer] look for the quoted key anywhere in the text;
    the section variants scan one object. The text is a C string; a result is a return
    value with the output. *)
From S2P Require Import Prelude CText JsonText.
From stdpp Require Import base list numbers option tactics strings.
From Stdlib Require Import ZArith Lia.
#[local] Open Scope Z_scope.
Import JsonText.

Module JsonUtil.

Definition OPC_JSON_MAX_BYTES : Z := 1048576.
Definition EIO : Z := 5.
(** The text, or errno. [fault]: the error of a call on the open file. *)
Definition opc_json_slurp_file (file : option (list Z)) (open_errno : Z) (fault : option Z) : Z + list Z :=
  match file, fault with
  | None, _ => inl open_errno
  | Some _, Some e => inl (if e =? 0 then EIO else e)
  | Some s, None => if OPC_JSON_MAX_BYTES <? len s then inl EFBIG else inr (cstr s)
  end.

(** The character after a key. *)
Definition key_end (c : Z) : bool := (c =? 58) || jws c.
Fixpoint find_key_quote (json needle : list Z) : option (list Z) :=
  match json with
  | [] => None
  | _ :: s => if starts needle json && key_end (rd json (len needle)) then Some json else find_key_quote s needle
  end.
(** [strchr(p, c)] *)
Fixpoint strchr (p : list Z) (c : Z) : option (list Z) :=
  match p with [] => None | d :: s => if d =? c then Some p else strchr s c end.
Definition advance_to_value (p : list Z) : option (list Z) :=
  q ← strchr p 58; Some (skip jws (drop 1 q)).
Fixpoint copy_chars (p : list Z) (i cap : Z) : list Z :=
  match p with
  | c :: p' => if negb (c =? 34) && (i + 1 <? cap) then c :: copy_chars p' (i + 1) cap else []
  | [] => []
  end.
(** [None]: -ENOENT *)
Definition copy_quoted_value (p : list Z) (cap : Z) : option (list Z) :=
  match p with
  | c :: p' => if c =? 34 then Some (copy_chars p' 0 cap) else None
  | [] => None
  end.

Inductive json_result (A : Type) := Got (a : A) | Failed (rc : Z).
Arguments Got {A} a.
Arguments Failed {A} rc.

(** ["<key>"], [None] if it does not fit 64 bytes. *)
Definition needle_of (key : string) : option (list Z) :=
  let n := 34 :: str key ++ [34] in if 64 <=? len n then None else Some n.
Definition opc_json_string (json : list Z) (key : string) (cap : Z) : json_result (list Z) :=
  if cap =? 0 then Failed (- EINVAL)
  else match needle_of key with
  | None => Failed (- EINVAL)
  | Some needle =>
      match find_key_quote json needle with
      | None => Failed (- ENOENT)
      | Some p => match advance_to_value (drop (length needle) p) with
                  | None => Failed (- ENOENT)
                  | Some p => match copy_quoted_value p cap with Some v => Got v | None => Failed (- ENOENT) end
                  end
      end
  end.
Definition opc_json_integer (json : list Z) (key : string) : json_result Z :=
  match needle_of key with
  | None => Failed (- EINVAL)
  | Some needle =>
      match find_key_quote json needle with
      | None => Failed (- ENOENT)
      | Some p => match advance_to_value (drop (length needle) p) with
                  | None => Failed (- ENOENT)
                  | Some p => match strtol p with Some (v, _) => Got v | None => Failed (- EINVAL) end
                  end
      end
  end.

(** ** Sections *)

Definition find_section_body (json : list Z) (section : string) : option (list Z) :=
  needle ← needle_of section;
  sec ← find_key_quote json needle;
  b ← strchr sec 123;
  Some (drop 1 b).
(** After the opening quote. *)
Fixpoint skip_json_chars (p : list Z) : list Z :=
  match p with
  | [] => []
  | c :: p' => if c =? 34 then p'
               else if c =? 92 then match p' with [] => [] | _ :: p'' => skip_json_chars p'' end
               else skip_json_chars p'
  end.
Definition skip_json_string (p : list Z) : list Z :=
  match p with c :: p' => if c =? 34 then skip_json_chars p' else p | [] => p end.
(** The loop of the section readers: where the key's value starts ([Some None]: no colon). *)
Fixpoint section_loop (fuel : nat) (needle : list Z) (depth : Z) (p : list Z) : option (option (list Z)) :=
  match fuel, p with
  | S fuel, c :: s =>
      if depth <=? 0 then None
      else if starts needle p && key_end (rd p (len needle)) then Some (advance_to_value (drop (length needle) p))
      else if c =? 34 then section_loop fuel needle depth (skip_json_string p)
      else if c =? 123 then section_loop fuel needle (depth + 1) s
      else if c =? 125 then if depth - 1 =? 0 then None else section_loop fuel needle (depth - 1) s
      else section_loop fuel needle depth s
  | _, _ => None
  end.
Definition opc_json_string_section (json : list Z) (section key : string) (cap : Z) : json_result (list Z) :=
  if cap =? 0 then Failed (- EINVAL)
  else match find_section_body json section with
  | None => Failed (- ENOENT)
  | Some body =>
      match needle_of key with
      | None => Failed (- EINVAL)
      | Some needle =>
          match section_loop (length body) needle 1 body with
          | Some (Some v) => match copy_quoted_value v cap with Some v => Got v | None => Failed (- ENOENT) end
          | _ => Failed (- ENOENT)
          end
      end
  end.
Definition opc_json_integer_section (json : list Z) (section key : string) : json_result Z :=
  match find_section_body json section with
  | None => Failed (- ENOENT)
  | Some body =>
      match needle_of key with
      | None => Failed (- EINVAL)
      | Some needle =>
          match section_loop (length body) needle 1 body with
          | Some (Some v) => match strtol v with Some (n, _) => Got n | None => Failed (- EINVAL) end
          | _ => Failed (- ENOENT)
          end
      end
  end.
(** ** Flat objects *)

(** A flat object holds literals and strings without escapes. *)
Definition no_quote (s : list Z) : bool := forallb (λ c, negb (c =? 34)) s.
Definition plain (s : list Z) : bool := forallb (λ c, negb (c =? 34) && negb (c =? 92)) s.
Definition flat_value (v : json) : bool :=
  match v with
  | JBare t => forallb (λ c, negb (isspace c)) t
  | JStr s => plain s
  | _ => false
  end.
(** [keys]: the key names in question; none of them is also the text of a string value. *)
Fixpoint flat (keys : list string) (ms : jmembers) : bool :=
  match ms with
  | MNone => true
  | MCons _ key _ _ v _ more =>
      plain key && flat_value v &&
      forallb (λ k, negb (match v with JStr s => bool_decide (s = str k) | _ => false end)) keys && flat keys more
  end.

Lemma alnum_plain c : isalnum_ c = true → c ≠ 34 ∧ c ≠ 92 ∧ c ≠ 58 ∧ c ≠ 44 ∧ c ≠ 125 ∧ jws c = false.
Proof.
  unfold isalnum_, is_digit, jws. rewrite !orb_true_iff, !andb_true_iff, !Z.leb_le, Z.eqb_eq, !orb_false_iff, !Z.eqb_neq. lia.
Qed.
Lemma jws_not_alnum c : jws c = true → isalnum_ c = false.
Proof. intros Hc. destruct (isalnum_ c) eqn:E; [|done]. apply alnum_plain in E as (_ & _ & _ & _ & _ & E). congruence. Qed.
Lemma starts_quoted k s r :
  no_quote k = true → no_quote s = true → starts (k ++ [34]) (s ++ 34 :: r) = bool_decide (s = k).
Proof.
  unfold no_quote. revert s. induction k as [|c k IH]; intros s Hk Hs.
  - destruct s as [|d s]; [done|]. cbn [forallb] in Hs. cbn [app starts]. apply andb_true_iff in Hs as [Hd _].
    apply negb_true_iff, Z.eqb_neq in Hd. rewrite (proj2 (Z.eqb_neq 34 d)) by lia. done.
  - cbn in Hk. apply andb_true_iff in Hk as [Hc Hk]. apply negb_true_iff in Hc. destruct s as [|d s].
    + cbn [app starts]. by rewrite Hc.
    + cbn [forallb] in Hs. cbn [app starts]. apply andb_true_iff in Hs as [Hd Hs]. rewrite IH by done.
      apply eq_true_iff_eq. rewrite andb_true_iff, !bool_decide_eq_true, Z.eqb_eq. naive_solver.
Qed.
Lemma ws_no_quote w : is_ws w = true → no_quote w = true.
Proof.
  unfold is_ws, no_quote. rewrite !forallb_forall. intros H c Hc. apply H, jws_plain in Hc as (Hc & _).
  by apply negb_true_iff, Z.eqb_neq.
Qed.
Lemma plain_no_quote s : plain s = true → no_quote s = true.
Proof. unfold plain, no_quote. rewrite !forallb_forall. intros H c Hc. apply H in Hc. by apply andb_true_iff in Hc as [? _]. Qed.
Lemma follows_not_alnum r : follows r → match r with c :: _ => isalnum_ c = false | [] => True end.
Proof.
  intros [H _]. destruct r as [|c r]; [done|]. destruct H as [H|[-> | ->]]; [by apply jws_not_alnum|done|done].
Qed.

Section find.
Context (key : string).
Hypothesis Hkey : forallb isalnum_ (str key) = true ∧ str key ≠ [].
Let needle := 34 :: str key ++ [34].
Let F (p : list Z) := find_key_quote p needle.

Lemma F_plain c r : c ≠ 34 → F (c :: r) = F r.
Proof using.
  intros Hc. unfold F, needle. cbn [find_key_quote starts]. rewrite (proj2 (Z.eqb_neq 34 c)) by lia. done.
Qed.
Lemma F_word w r : no_quote w = true → F (w ++ r) = F r.
Proof using.
  unfold no_quote. induction w as [|c w IH]; [done|]. cbn [forallb app]. intros [Hc Hw]%andb_true_iff.
  apply negb_true_iff, Z.eqb_neq in Hc. rewrite F_plain by done. by apply IH.
Qed.
Lemma key_no_quote : no_quote (str key) = true.
Proof using Hkey.
  destruct Hkey as [Hk _]. unfold no_quote. apply forallb_forall. intros c Hc. rewrite forallb_forall in Hk.
  apply Hk, alnum_plain in Hc as (Hc & _). by apply negb_true_iff, Z.eqb_neq.
Qed.
Lemma F_string s r :
  no_quote s = true → s ≠ str key → match r with c :: _ => isalnum_ c = false | [] => True end → F (34 :: s ++ 34 :: r) = F r.
Proof using Hkey.
  intros Hs Hne Hr. transitivity (F (s ++ 34 :: r)).
  { unfold F, needle. cbn [find_key_quote starts]. change (34 =? 34) with true. cbn [andb].
    by rewrite starts_quoted, bool_decide_false by (done || apply key_no_quote). }
  rewrite F_word by done. unfold F, needle. cbn [find_key_quote starts]. change (34 =? 34) with true. cbn [andb].
  destruct Hkey as [Hk Hn]. destruct (str key) as [|k ks]; [done|]. cbn in Hk. apply andb_true_iff in Hk as [Hk _].
  destruct r as [|c r]; [done|]. cbn [app starts]. destruct (Z.eqb_spec k c) as [-> |]; [congruence|done].
Qed.
Lemma F_hit r : match r with c :: _ => key_end c = true | [] => False end → F (34 :: str key ++ 34 :: r) = Some (needle ++ r).
Proof using Hkey.
  intros Hr. unfold F. replace (34 :: str key ++ 34 :: r) with (needle ++ r) by (unfold needle; cbn; by rewrite <- app_assoc).
  destruct (needle ++ r) as [|c q] eqn:E; [done|]. cbn [find_key_quote]. rewrite <- E, starts_app.
  rewrite rd_app_r, Z.sub_diag by lia. destruct r as [|d r]; [done|]. change (rd (d :: r) 0) with d. by rewrite Hr.
Qed.
Lemma F_members keys ms r :
  In key keys → wf_members ms = true → flat keys ms = true →
  match mfind ms key with
  | Some v => ∃ w2 w3 rest, F (print_members ms ++ 125 :: r) = Some (needle ++ w2 ++ 58 :: w3 ++ print v ++ rest) ∧
      is_ws w2 = true ∧ is_ws w3 = true ∧ follows rest ∧ flat_value v = true ∧ wf v = true
  | None => F (print_members ms ++ 125 :: r) = F r
  end.
Proof using Hkey.
  intros Hin. induction ms as [|w1 k w2 w3 v w4 more IH]; intros Hwf Hfl.
  { cbn [mfind print_members app]. by apply F_plain. }
  cbn in Hwf. rewrite !andb_true_iff in Hwf. cbn [flat] in Hfl. rewrite !andb_true_iff in Hfl.
  destruct Hwf as ((((((Hw1 & Hk) & Hw2) & Hw3) & Hv) & Hw4) & Hm). destruct Hfl as (((Hpk & Hfv) & Hnot) & Hfm).
  cbn [print_members mfind]. repeat (rewrite <- ?app_assoc; cbn [app]). rewrite F_word by (by apply ws_no_quote).
  set (after := match more with MNone => [] | _ => 44 :: print_members more end).
  assert (Hfol : follows (w4 ++ after ++ 125 :: r)).
  { apply follows_ws; [done|]. unfold after. destruct more; apply follows_char; auto. }
  case_bool_decide as Hkk.
  - subst k. rewrite F_hit; [by exists w2, w3, (w4 ++ after ++ 125 :: r)|].
    destruct w2 as [|c w2]; [done|]. cbn in Hw2 |- *. apply andb_true_iff in Hw2 as [Hc _]. unfold key_end. by rewrite Hc, orb_true_r.
  - rewrite F_string; [|by apply plain_no_quote|done|].
    2:{ destruct w2 as [|c w2]; [done|]. cbn in Hw2 |- *. apply andb_true_iff in Hw2 as [Hc _].
        by apply jws_not_alnum. }
    rewrite F_word, F_plain, F_word by (done || by apply ws_no_quote).
    assert (Hskip : F (print v ++ w4 ++ after ++ 125 :: r) = F (w4 ++ after ++ 125 :: r)).
    { destruct v as [t|s| |]; try done.
      - cbn [print]. apply F_word. cbn in Hv. apply andb_true_iff in Hv as [_ Hv]. unfold no_quote. rewrite !forallb_forall in *.
        intros c Hc. apply Hv, bare_plain in Hc as (Hc & _). by apply negb_true_iff, Z.eqb_neq.
      - cbn [print app]. rewrite <- app_assoc. cbn [app]. apply F_string; [by apply plain_no_quote| |by apply follows_not_alnum].
        rewrite forallb_forall in Hnot. specialize (Hnot key Hin). apply negb_true_iff in Hnot.
        by apply bool_decide_eq_false in Hnot. }
    rewrite Hskip, F_word by (by apply ws_no_quote). unfold after.
    destruct more as [|a b c d e g h]; [by apply IH|]. cbn [app]. rewrite F_plain by done. by apply IH.
Qed.

Definition doc (w0 w : list Z) (ms : jmembers) (w9 : list Z) : list Z := w0 ++ print (JObj w ms) ++ w9.
Record doc_ok (keys : list string) (w0 w : list Z) (ms : jmembers) (w9 : list Z) : Prop := {
  dk_w0 : is_ws w0 = true; dk_w9 : is_ws w9 = true; dk_wf : wf (JObj w ms) = true; dk_flat : flat keys ms = true }.
(** Where the value of the key starts, as both extractors compute it. *)
Definition key_value (json : list Z) : option (list Z) :=
  p ← find_key_quote json needle; advance_to_value (drop (length needle) p).
Lemma key_value_doc keys w0 w ms w9 :
  In key keys → doc_ok keys w0 w ms w9 →
  match mfind ms key with
  | Some v => ∃ rest, key_value (doc w0 w ms w9) = Some (print v ++ rest) ∧ follows rest ∧ flat_value v = true ∧ wf v = true
  | None => key_value (doc w0 w ms w9) = None
  end.
Proof using Hkey.
  intros Hin [Hw0 Hw9 Hwf Hfl]. cbn [wf] in Hwf. apply andb_true_iff in Hwf as [Hw Hwf].
  pose proof (F_members keys ms w9 Hin Hwf Hfl) as H. unfold key_value, doc.
  assert (Hdoc : find_key_quote (w0 ++ print (JObj w ms) ++ w9) needle = F (print_members ms ++ 125 :: w9)).
  { change (F (w0 ++ print (JObj w ms) ++ w9) = F (print_members ms ++ 125 :: w9)). rewrite F_word by (by apply ws_no_quote).
    cbn [print app]. rewrite F_plain by done. rewrite <- !app_assoc. by rewrite F_word by (by apply ws_no_quote). }
  rewrite Hdoc. destruct (mfind ms key) as [v|].
  - destruct H as (w2 & w3 & rest & -> & Hw2 & Hw3 & Hrest & Hfv & Hv). exists rest. split; [|done]. cbn [mbind option_bind].
    rewrite drop_app_length. unfold advance_to_value.
    assert (Hc : ∀ q, is_ws w2 = true → strchr (w2 ++ 58 :: q) 58 = Some (58 :: q)).
    { intros q. clear. unfold is_ws. induction w2 as [|c w2 IH]; [done|]. cbn [forallb app strchr].
      intros [Hc Hw]%andb_true_iff. apply jws_plain in Hc as (_ & _ & _ & _ & _ & Hc). rewrite (proj2 (Z.eqb_neq c 58) Hc). auto. }
    rewrite Hc by done. cbn [mbind option_bind].
    change (drop 1 (58 :: w3 ++ print v ++ rest)) with (w3 ++ print v ++ rest). rewrite skip_ws by done. f_equal.
    pose proof (print_head v rest Hv) as Hh. destruct (print v ++ rest) as [|c q]; [done|]. by apply skip_nows.
  - rewrite H. rewrite <- (app_nil_r w9). by rewrite F_word by (by apply ws_no_quote).
Qed.
Lemma copy_chars_take s r : ∀ i cap, no_quote s = true → copy_chars (s ++ 34 :: r) i cap = take (Z.to_nat (cap - 1 - i)) s.
Proof using.
  unfold no_quote. induction s as [|c s IH]; intros i cap; cbn [forallb app copy_chars].
  - intros _. change (34 =? 34) with true. by rewrite take_nil.
  - intros [Hc Hs]%andb_true_iff. rewrite Hc. cbn [andb]. destruct (i + 1 <? cap) eqn:E; guards.
    + rewrite IH by done. replace (Z.to_nat (cap - 1 - i)) with (S (Z.to_nat (cap - 1 - (i + 1)))) by lia. done.
    + by replace (Z.to_nat (cap - 1 - i)) with 0%nat by lia.
Qed.
Lemma strtol_bare t r :
  forallb (λ c, negb (isspace c)) t = true → t ≠ [] → match r with c :: _ => is_digit c = false | [] => True end →
  fst <$> strtol (t ++ r) = fst <$> strtol t.
Proof using.
  intros Ht Hne Hr. unfold strtol, scan_int.
  assert (Hskip : ∀ q, skip isspace (t ++ q) = t ++ q).
  { intros q. destruct t as [|c t]; [done|]. cbn in Ht. apply andb_true_iff in Ht as [Hc _]. apply negb_true_iff in Hc.
    unfold skip. cbn [app span]. by rewrite Hc. }
  assert (Hspan : ∀ t, (span is_digit (t ++ r)).1 = (span is_digit t).1).
  { clear -Hr. induction t as [|c t IH]; [destruct r as [|c r]; [done|]; cbn; by rewrite Hr|]. cbn [app span].
    destruct (is_digit c); [|done]. destruct (span is_digit (t ++ r)), (span is_digit t). cbn [fst] in *. by subst. }
  assert (Hskip0 : skip isspace t = t) by (pose proof (Hskip []) as H0; by rewrite app_nil_r in H0).
  rewrite Hskip, Hskip0. clear Hskip Hskip0. destruct t as [|c t]; [done|]. cbn [app].
  destruct (c =? 45); [|destruct (c =? 43)].
  - specialize (Hspan t). destruct (span is_digit (t ++ r)) as [d1 q1], (span is_digit t) as [d2 q2]. cbn [fst] in Hspan. subst. by destruct d2.
  - specialize (Hspan t). destruct (span is_digit (t ++ r)) as [d1 q1], (span is_digit t) as [d2 q2]. cbn [fst] in Hspan. subst. by destruct d2.
  - specialize (Hspan (c :: t)). cbn [app] in Hspan. destruct (span is_digit (c :: t ++ r)) as [d1 q1], (span is_digit (c :: t)) as [d2 q2].
    cbn [fst] in Hspan. subst. by destruct d2.
Qed.

(** What the extractors return on a flat object. *)
Lemma opc_json_string_flat keys w0 w ms w9 cap :
  In key keys → doc_ok keys w0 w ms w9 → len needle < 64 → 0 < cap →
  opc_json_string (doc w0 w ms w9) key cap =
  match mfind ms key with Some (JStr s) => Got (take (Z.to_nat (cap - 1)) s) | _ => Failed (- ENOENT) end.
Proof using Hkey.
  intros Hin Hdoc Hn Hcap. unfold opc_json_string. rewrite (proj2 (Z.eqb_neq cap 0)) by lia.
  unfold needle_of. fold needle. rewrite (proj2 (Z.leb_gt 64 (len needle)) Hn).
  pose proof (key_value_doc keys w0 w ms w9 Hin Hdoc) as H. unfold key_value in H.
  destruct (find_key_quote _ needle) as [p|]; cbn [mbind option_bind] in H; [|destruct (mfind ms key) as [v|]; [by destruct H as (? & ? & _)|done]].
  destruct (mfind ms key) as [v|]; [|by rewrite H]. destruct H as (rest & -> & Hrest & Hfv & Hv).
  destruct v as [t|s| |]; try done.
  - cbn [print]. destruct t as [|c t]; [done|]. cbn in Hv. rewrite !andb_true_iff in Hv. destruct Hv as (_ & Hc & _).
    apply bare_plain in Hc as (Hc & _). cbn. by rewrite (proj2 (Z.eqb_neq c 34) Hc).
  - cbn [print app copy_quoted_value]. change (34 =? 34) with true. cbv iota. rewrite <- app_assoc. cbn [app].
    rewrite copy_chars_take by (by apply plain_no_quote). by rewrite Z.sub_0_r.
Qed.
Lemma opc_json_integer_flat keys w0 w ms w9 :
  In key keys → doc_ok keys w0 w ms w9 → len needle < 64 →
  opc_json_integer (doc w0 w ms w9) key =
  match mfind ms key with
  | Some (JBare t) => match strtol t with Some (v, _) => Got v | None => Failed (- EINVAL) end
  | Some _ => Failed (- EINVAL)
  | None => Failed (- ENOENT)
  end.
Proof using Hkey.
  intros Hin Hdoc Hn. unfold opc_json_integer, needle_of. fold needle. rewrite (proj2 (Z.leb_gt 64 (len needle)) Hn).
  pose proof (key_value_doc keys w0 w ms w9 Hin Hdoc) as H. unfold key_value in H.
  destruct (find_key_quote _ needle) as [p|]; cbn [mbind option_bind] in H; [|destruct (mfind ms key) as [v|]; [by destruct H as (? & ? & _)|done]].
  destruct (mfind ms key) as [v|]; [|by rewrite H]. destruct H as (rest & -> & Hrest & Hfv & Hv).
  destruct v as [t|s| |]; try done. cbn [print].
  assert (Ht : t ≠ []) by (by destruct t). assert (Hd : match rest with c :: _ => is_digit c = false | [] => True end).
  { pose proof (follows_not_alnum rest Hrest) as Ha. destruct rest as [|c rest]; [done|]. unfold isalnum_ in Ha.
    rewrite !orb_false_iff in Ha. tauto. }
  pose proof (strtol_bare t rest Hfv Ht Hd) as He.
  destruct (strtol (t ++ rest)) as [[v q]|], (strtol t) as [[v' q']|]; cbn in He; congruence.
Qed.
End find.
End JsonUtil.
