(* ===== verification/Roam.v ===== *)
(** * Roam-notify datagrams: opcd/roam_datagram.h, opcd/roam_datagram.c *)
From S2P Require Import Prelude CText Codec ScanList Commands State Validate Daemon JsonText JsonUtil.
From stdpp Require Import base list numbers option tactics strings.
From Stdlib Require Import ZArith Lia.
#[local] Open Scope Z_scope.
Import Commands Validate Daemon JsonText JsonUtil.

Module Roam.

(** [%2x], as the C library reads it: a sign and a [0x] count against the width. *)
Definition scan_x2 (s : list Z) : option (Z * list Z) :=
  let s := skip isspace s in
  let '(neg, s, width) := match s with
                          | c :: s' => if c =? 45 then (true, s', 1%nat) else if c =? 43 then (false, s', 1%nat)
                                       else (false, s, 2%nat)
                          | [] => (false, s, 2%nat)
                          end in
  let zero_x := match s with
                | c :: x :: _ => (c =? 48) && ((x =? 120) || (x =? 88)) && (width =? 2)%nat
                | _ => false
                end in
  if zero_x then Some (0, drop 2 s)
  else
    let '(ds, r) := span_n width isxdigit s in
    match ds with
    | [] => None
    | _ => Some (u32 (if neg then - digits_value 16 ds else digits_value 16 ds), r)
    end.
(** [n] octets separated by colons. *)
Fixpoint scan_octets (n : nat) (s : list Z) : option (list Z) :=
  match n with
  | O => Some []
  | S n => '(v, r) ← scan_x2 s;
           match n, r with
           | O, _ => Some [v]
           | _, c :: r' => if c =? 58 then vs ← scan_octets n r'; Some (v :: vs) else None
           | _, [] => None
           end
  end.
Definition roam_parse_bssid (s : list Z) : option (list Z) :=
  v ← scan_octets 6 s; if forallb (λ x, x <=? 255) v then Some v else None.

Definition got {A} (r : json_result A) (dflt : A) : A := match r with Got a => a | Failed _ => dflt end.
Definition clamp8 (v : Z) : Z := if 127 <? v then 127 else if v <? -128 then -128 else v.
(** [None]: -1 *)
Definition roam_datagram_to_evt (json : list Z) : option opcd_platform_evt_t :=
  match opc_json_string json "ap_mac" 32 with
  | Failed _ => None
  | Got mac_str =>
      mac ← roam_parse_bssid mac_str;
      idx ← match opc_json_string json "iface" 16 with
            | Got iface => if bool_decide (iface = str "mlan0") then Some 0
                           else if bool_decide (iface = str "mlan1") then Some 1 else None
            | Failed _ => Some 0
            end;
      let rssi := got (opc_json_integer json "rssi") OPC_WLAN_SIGNAL_INVALID in
      let snr := got (opc_json_integer json "snr") OPC_WLAN_SIGNAL_INVALID in
      match opc_json_integer json "channel" with
      | Failed _ => None
      | Got channel =>
          if (channel <? 1) || (255 <? channel) then None
          else match opc_json_integer json "freq" with
               | Failed _ => None
               | Got freq =>
                   if (freq <? 2400) || (7300 <? freq) then None
                   else Some (OPCD_PEVT_ROAMING idx (clamp8 snr) (clamp8 rssi) mac (opc_chan_field freq channel))
               end
      end
  end.

(** ** The contract *)

Definition roam_keys : list string := ["ap_mac"; "iface"; "rssi"; "snr"; "channel"; "freq"]%string.
(** An address as the sender prints it. *)
Fixpoint mac_text (mac : list Z) : list Z :=
  match mac with
  | [] => []
  | [a] => hex2 a
  | a :: mac' => hex2 a ++ 58 :: mac_text mac'
  end.
Lemma hex_digit_val v : 0 <= v < 16 → hexval (hex_digit v) = v.
Proof.
  intros Hv. unfold hexval, hex_digit. destruct (v <? 10) eqn:E; guards.
  - rewrite (proj2 (Z.leb_le 48 (48 + v))), (proj2 (Z.leb_le (48 + v) 57)) by lia. cbn [andb]. lia.
  - rewrite (proj2 (Z.leb_gt (97 + (v - 10)) 57)), (proj2 (Z.leb_le 97 (97 + (v - 10)))), (proj2 (Z.leb_le (97 + (v - 10)) 102)) by lia.
    rewrite andb_false_r. cbn [andb]. lia.
Qed.
Lemma hex2_facts a :
  is_u8 a → isxdigit (hex_digit (a / 16)) = true ∧ isxdigit (hex_digit (a mod 16)) = true ∧ digits_value 16 (hex2 a) = a.
Proof.
  unfold is_u8. intros Ha.
  assert (0 <= a / 16 < 16) by (split; [apply Z.div_pos; lia|apply Z.div_lt_upper_bound; lia]).
  assert (0 <= a mod 16 < 16) by (apply Z.mod_pos_bound; lia).
  unfold isxdigit, hex2, digits_value. cbn [foldl]. rewrite !hex_digit_val by lia. split_and!; [apply Z.leb_le; lia..|].
  rewrite (Z.div_mod a 16) at 3 by lia. lia.
Qed.
Lemma xdigit_plain c :
  isxdigit c = true → isspace c = false ∧ (c =? 45) = false ∧ (c =? 43) = false ∧ (c =? 120) = false ∧ (c =? 88) = false.
Proof.
  unfold isxdigit, isspace. intros H. apply Z.leb_le in H. unfold hexval in H.
  assert (48 <= c <= 57 ∨ 97 <= c <= 102 ∨ 65 <= c <= 70) as Hc.
  { destruct ((48 <=? c) && (c <=? 57)) eqn:E1; [guards; lia|].
    destruct ((97 <=? c) && (c <=? 102)) eqn:E2; [guards; lia|].
    destruct ((65 <=? c) && (c <=? 70)) eqn:E3; [guards; lia|]. lia. }
  rewrite (proj2 (Z.leb_gt c 13)), andb_false_r, !(proj2 (Z.eqb_neq c _)) by lia. done.
Qed.
Lemma scan_x2_hex2 a r : is_u8 a → scan_x2 (hex2 a ++ r) = Some (a, r).
Proof.
  intros Ha. destruct (hex2_facts a Ha) as (H1 & H2 & H3). unfold hex2 in *.
  set (h := hex_digit (a / 16)) in *. set (l := hex_digit (a mod 16)) in *. clearbody h l. cbn [app].
  destruct (xdigit_plain h H1) as (Hs & H45 & H43 & _). destruct (xdigit_plain l H2) as (_ & _ & _ & Hx & HX).
  unfold scan_x2, skip. cbn [span]. rewrite Hs. cbn [snd]. rewrite H45, H43, Hx, HX. cbn [orb]. rewrite andb_false_r. cbn [andb].
  cbn [span_n]. rewrite H1, H2, H3. destruct r; by rewrite u32_id by (unfold is_u32, is_u8 in *; lia).
Qed.
Lemma scan_octets_text mac r :
  mac ≠ [] → Forall is_u8 mac → scan_octets (length mac) (mac_text mac ++ r) = Some mac.
Proof.
  induction mac as [|a mac IH]; intros Hne Hmac; [done|]. apply Forall_cons_1 in Hmac as [Ha Hmac].
  destruct mac as [|b mac].
  - cbn [length scan_octets mac_text]. by rewrite scan_x2_hex2.
  - change (mac_text (a :: b :: mac)) with (hex2 a ++ 58 :: mac_text (b :: mac)). rewrite <- app_assoc.
    change (length (a :: b :: mac)) with (S (length (b :: mac))). cbn [scan_octets]. rewrite scan_x2_hex2 by done.
    cbn [mbind option_bind app]. change (length (b :: mac)) with (S (length mac)). cbv iota. change (58 =? 58) with true. cbv iota.
    change (S (length mac)) with (length (b :: mac)). by rewrite IH.
Qed.
Lemma roam_parse_bssid_text mac : length mac = 6%nat → Forall is_u8 mac → roam_parse_bssid (mac_text mac) = Some mac.
Proof.
  intros Hl Hmac. unfold roam_parse_bssid. pose proof (scan_octets_text mac []) as H. rewrite app_nil_r, Hl in H.
  rewrite H by (try done; by intros ->). cbn [mbind option_bind].
  replace (forallb (λ x, x <=? 255) mac) with true; [done|]. symmetry. apply forallb_forall. intros c Hc.
  rewrite Forall_forall in Hmac. apply Z.leb_le. specialize (Hmac c (proj2 (list_elem_of_In _ _) Hc)). unfold is_u8 in Hmac. lia.
Qed.
Lemma mac_text_short mac : length mac = 6%nat → (length (mac_text mac) <= 31)%nat.
Proof. intros Hl. do 7 (destruct mac as [|? mac]; try discriminate Hl). cbn. lia. Qed.
Lemma strtol_dec_ll z : LONG_MIN <= z <= LONG_MAX → ∃ r, strtol (dec_ll z) = Some (z, r).
Proof.
  intros Hz. pose proof (strtoll_dec z Hz) as H. unfold strtoll_value in H.
  destruct (strtol (dec_ll z)) as [[v r]|] eqn:E; [subst; by eexists|]. exfalso.
  unfold dec_ll, strtol, scan_int, LONG_MIN, LONG_MAX in *. destruct (z <? 0) eqn:Ez; guards; [lia|].
  assert (z = 0) by lia. subst. vm_compute in E. done.
Qed.
(** The members of the object: an absent one, or the number as the sender prints it. *)
Definition number_is (ms : jmembers) (key : string) (z : Z) : Prop :=
  mfind ms key = Some (JBare (dec_ll z)) ∧ LONG_MIN <= z <= LONG_MAX.
Definition optional_is (ms : jmembers) (key : string) (z : option Z) : Prop :=
  match z with None => mfind ms key = None | Some z => number_is ms key z end.
Definition iface_is (ms : jmembers) (idx : Z) : Prop :=
  match mfind ms "iface" with
  | None => idx = 0
  | Some (JStr s) => s = str "mlan0" ∧ idx = 0 ∨ s = str "mlan1" ∧ idx = 1
  | _ => False
  end.

Lemma roam_key_ok key :
  In key roam_keys → (forallb isalnum_ (str key) = true ∧ str key ≠ []) ∧ len (34 :: str key ++ [34]) < 64.
Proof. cbn. intros H. destruct_or! H; subst; done. Qed.
Section members.
Context (w0 w : list Z) (ms : jmembers) (w9 : list Z) (Hdoc : doc_ok roam_keys w0 w ms w9).
Lemma roam_string key cap :
  In key roam_keys → 0 < cap →
  opc_json_string (doc w0 w ms w9) key cap =
  match mfind ms key with Some (JStr s) => Got (take (Z.to_nat (cap - 1)) s) | _ => Failed (- ENOENT) end.
Proof using Hdoc. intros Hin Hcap. destruct (roam_key_ok key Hin) as [Hk Hn]. by apply (opc_json_string_flat key Hk roam_keys). Qed.
Lemma roam_number key z : In key roam_keys → number_is ms key z → opc_json_integer (doc w0 w ms w9) key = Got z.
Proof using Hdoc.
  intros Hin [Hm Hz]. destruct (roam_key_ok key Hin) as [Hk Hn]. rewrite (opc_json_integer_flat key Hk roam_keys) by done.
  rewrite Hm. by destruct (strtol_dec_ll z Hz) as [r ->].
Qed.
Lemma roam_optional key z :
  In key roam_keys → optional_is ms key z →
  got (opc_json_integer (doc w0 w ms w9) key) OPC_WLAN_SIGNAL_INVALID = default OPC_WLAN_SIGNAL_INVALID z.
Proof using Hdoc.
  intros Hin Hz. destruct z as [z|]; [by rewrite (roam_number key z)|]. destruct (roam_key_ok key Hin) as [Hk Hn].
  rewrite (opc_json_integer_flat key Hk roam_keys) by done. by rewrite Hz.
Qed.
End members.

(** The roam-notify contract. A flat JSON object, in any layout and member order and
    with any further members, that holds the access point's address, a channel in 1..255
    and a frequency in 2400..7300 is accepted, and the event carries exactly what it says:
    the station index of its interface (the primary one if absent), the address, the
    band-qualified channel, and RSSI and SNR limited to a signed byte, -128 if absent. *)
Theorem roam_datagram_contract w0 w ms w9 idx mac rssi snr channel freq :
  doc_ok roam_keys w0 w ms w9 → iface_is ms idx →
  mfind ms "ap_mac" = Some (JStr (mac_text mac)) → length mac = 6%nat → Forall is_u8 mac →
  optional_is ms "rssi" rssi → optional_is ms "snr" snr →
  number_is ms "channel" channel → 1 <= channel <= 255 → number_is ms "freq" freq → 2400 <= freq <= 7300 →
  roam_datagram_to_evt (doc w0 w ms w9) =
  Some (OPCD_PEVT_ROAMING idx (clamp8 (default OPC_WLAN_SIGNAL_INVALID snr)) (clamp8 (default OPC_WLAN_SIGNAL_INVALID rssi))
          mac (opc_chan_field freq channel)).
Proof.
  intros Hdoc Hif Hmac Hl Hb Hrssi Hsnr [Hch Hchl] Hchr [Hfr Hfrl] Hfrr. unfold roam_datagram_to_evt.
  rewrite (roam_string w0 w ms w9 Hdoc "ap_mac"), Hmac by (done || (cbn; tauto)). rewrite take_ge by (by apply mac_text_short).
  rewrite roam_parse_bssid_text by done. cbn [mbind option_bind].
  rewrite (roam_string w0 w ms w9 Hdoc "iface") by (done || (cbn; tauto)).
  set (idx' := match (match mfind ms "iface" with Some (JStr s) => _ | _ => _ end) with Got iface => _ | Failed _ => _ end).
  assert (Hidx : idx' = Some idx).
  { unfold idx', iface_is in *. destruct (mfind ms "iface") as [[t|s| |]|]; try done; [|by rewrite Hif].
    destruct Hif as [[-> ->]|[-> ->]]; done. }
  rewrite Hidx. cbn [mbind option_bind].
  rewrite (roam_optional w0 w ms w9 Hdoc "rssi" rssi), (roam_optional w0 w ms w9 Hdoc "snr" snr) by (done || (cbn; tauto)).
  rewrite (roam_number w0 w ms w9 Hdoc "channel" channel), (roam_number w0 w ms w9 Hdoc "freq" freq) by (done || (cbn; tauto)).
  rewrite (proj2 (Z.ltb_ge channel 1)), (proj2 (Z.ltb_ge 255 channel)) by lia.
  by rewrite (proj2 (Z.ltb_ge freq 2400)), (proj2 (Z.ltb_ge 7300 freq)) by lia.
Qed.
(** The address is sent before the interface, with a comment member and white space. *)
Definition example_members : jmembers :=
  MCons [] (str "src") [] [32] (JStr (str "wifi_roam")) []
  (MCons [32] (str "ap_mac") [] [32] (JStr (str "04:ba:d6:ec:0b:08")) []
  (MCons [32] (str "iface") [] [32] (JStr (str "mlan1")) []
  (MCons [32] (str "rssi") [] [32] (JBare (str "-200")) []
  (MCons [32] (str "channel") [] [32] (JBare (str "40")) []
  (MCons [32] (str "freq") [] [32] (JBare (str "5200")) [10] MNone))))).
Lemma roam_datagram_contract_witness :
  roam_datagram_to_evt (doc [] [] example_members [10])
  = Some (OPCD_PEVT_ROAMING 1 (-128) (-128) [4; 186; 214; 236; 11; 8] (opc_chan_field 5200 40)).
Proof.
  apply (roam_datagram_contract [] [] example_members [10] 1 [4; 186; 214; 236; 11; 8] (Some (-200)) None 40 5200).
  - constructor; vm_compute; reflexivity.
  - right. done.
  - vm_compute. reflexivity.
  - reflexivity.
  - unfold is_u8. repeat constructor; lia.
  - split; [vm_compute; reflexivity|unfold LONG_MIN, LONG_MAX; lia].
  - vm_compute. reflexivity.
  - split; [vm_compute; reflexivity|unfold LONG_MIN, LONG_MAX; lia].
  - lia.
  - split; [vm_compute; reflexivity|unfold LONG_MIN, LONG_MAX; lia].
  - lia.
Defined.

(** ** Any datagram *)

Lemma u32_nonneg v : 0 <= u32 v.
Proof. unfold u32. apply Z.mod_pos_bound. lia. Qed.
Lemma scan_x2_nonneg s v r : scan_x2 s = Some (v, r) → 0 <= v.
Proof.
  unfold scan_x2. destruct (match skip isspace s with [] => _ | _ :: _ => _ end) as [[neg q] width].
  destruct (match q with [] => false | _ :: _ => _ end); [intros [= <- _]; lia|].
  destruct (span_n width isxdigit q) as [[|d ds] rest]; [done|]. intros [= <- _]. apply u32_nonneg.
Qed.
Lemma scan_octets_facts n : ∀ s v, scan_octets n s = Some v → length v = n ∧ Forall (λ x, 0 <= x) v.
Proof.
  induction n as [|n IH]; intros s v; cbn [scan_octets]; [intros [= <-]; split; [done|constructor]|].
  destruct (scan_x2 s) as [[x r]|] eqn:E; [|done]. cbn [mbind option_bind]. apply scan_x2_nonneg in E.
  destruct n as [|n]; [intros [= <-]; split; [done|by repeat constructor]|].
  destruct r as [|c r]; [done|]. destruct (c =? 58); [|done].
  destruct (scan_octets (S n) r) as [vs|] eqn:Ev; [|done]. cbn [mbind option_bind]. intros [= <-].
  apply IH in Ev as [Hl Hv]. split; [cbn; by rewrite Hl|by constructor].
Qed.
Lemma roam_parse_bssid_facts s mac : roam_parse_bssid s = Some mac → length mac = 6%nat ∧ Forall is_u8 mac.
Proof.
  unfold roam_parse_bssid. destruct (scan_octets 6 s) as [v|] eqn:E; [|done]. cbn [mbind option_bind].
  destruct (forallb _ v) eqn:Ev; [|done]. intros [= <-]. apply scan_octets_facts in E as [Hl Hv]. split; [done|].
  rewrite forallb_forall in Ev. rewrite Forall_forall in *. intros c Hc. unfold is_u8.
  specialize (Hv c Hc). specialize (Ev c (proj1 (list_elem_of_In _ _) Hc)). apply Z.leb_le in Ev. lia.
Qed.
Lemma clamp8_range v : -128 <= clamp8 v <= 127.
Proof. unfold clamp8. destruct (127 <? v) eqn:E; guards; [lia|]. destruct (v <? -128) eqn:E2; guards; lia. Qed.

(** Whatever arrives on the roam-notify port, an event made from it is well formed: a
    station index of 0 or 1, SNR and RSSI in a signed byte, six address bytes and the
    channel field of a channel in 1..255 and a frequency in 2400..7300 MHz. *)
Theorem roam_datagram_evt_ok json evt :
  roam_datagram_to_evt json = Some evt →
  ∃ idx snr rssi mac freq channel,
    evt = OPCD_PEVT_ROAMING idx snr rssi mac (opc_chan_field freq channel) ∧ (idx = 0 ∨ idx = 1) ∧
    -128 <= snr <= 127 ∧ -128 <= rssi <= 127 ∧ length mac = 6%nat ∧ Forall is_u8 mac ∧
    1 <= channel <= 255 ∧ 2400 <= freq <= 7300.
Proof.
  unfold roam_datagram_to_evt. destruct (opc_json_string json "ap_mac" 32) as [s|]; [|done].
  destruct (roam_parse_bssid s) as [mac|] eqn:Em; [|done]. apply roam_parse_bssid_facts in Em as [Hl Hm].
  cbn [mbind option_bind]. destruct (match opc_json_string json "iface" 16 with Got _ => _ | Failed _ => _ end) as [idx|] eqn:Ei; [|done].
  cbn [mbind option_bind]. destruct (opc_json_integer json "channel") as [ch|]; [|done].
  destruct ((ch <? 1) || (255 <? ch)) eqn:Ec; [done|]. apply orb_false_iff in Ec as [Ec1 Ec2].
  destruct (opc_json_integer json "freq") as [fr|]; [|done].
  destruct ((fr <? 2400) || (7300 <? fr)) eqn:Ef; [done|]. apply orb_false_iff in Ef as [Ef1 Ef2]. guards. intros [= <-].
  eexists idx, _, _, mac, fr, ch. split_and!; try done; try apply clamp8_range; try lia.
  destruct (opc_json_string json "iface" 16) as [f|]; [|injection Ei as <-; by left].
  destruct (bool_decide (f = str "mlan0")); [injection Ei as <-; by left|].
  destruct (bool_decide (f = str "mlan1")); [injection Ei as <-; by right|done].
Qed.
Definition example_datagram : list Z := print (JObj [] example_members).
Lemma roam_datagram_evt_ok_witness :
  ∃ idx snr rssi mac freq channel,
    roam_datagram_to_evt example_datagram = Some (OPCD_PEVT_ROAMING idx snr rssi mac (opc_chan_field freq channel)) ∧
    (idx = 0 ∨ idx = 1) ∧ 1 <= channel <= 255.
Proof.
  assert (H : roam_datagram_to_evt example_datagram
    = Some (OPCD_PEVT_ROAMING 1 (-128) (-128) [4; 186; 214; 236; 11; 8] (opc_chan_field 5200 40))) by (vm_compute; reflexivity).
  destruct (roam_datagram_evt_ok example_datagram _ H) as (idx & snr & rssi & mac & freq & channel & He & Hi & _ & _ & _ & _ & Hc & _).
  exists idx, snr, rssi, mac, freq, channel. split; [by rewrite H, <- He|by split].
Defined.
End Roam.
