(* ===== verification/DeviceFiles.v ===== *)
(** * Identity and cause files: opcd/inventory.c, opcd/ntp_parse.c, opcd/reset_cause.c

    The static inventory of device_info.json, the NTP line of timesyncd.conf and the reset
    cause the reboot policy leaves behind. *)
From S2P Require Import Prelude CText Codec ScanList Commands IpListText State JsonText JsonUtil.
From stdpp Require Import base list numbers option tactics strings.
From Stdlib Require Import ZArith Lia.
#[local] Open Scope Z_scope.
Import Commands IpListText.IpListText JsonText JsonUtil.

Module DeviceFiles.

(** ** Inventory *)

(** [strtoul(s, &end, 0)] with [errno]: the value and [end]; [None] without digits or out of range. *)
Definition strtoul0 (s : list Z) : option (Z * list Z) :=
  let s := skip isspace s in
  let '(neg, s) := match s with
                   | c :: s' => if c =? 45 then (true, s') else if c =? 43 then (false, s') else (false, s)
                   | [] => (false, s)
                   end in
  let hex := match s with
             | z :: x :: d :: _ => (z =? 48) && ((x =? 120) || (x =? 88)) && isxdigit d
             | _ => false
             end in
  let '(base, s, digit) := if hex then (16, drop 2 s, isxdigit)
                           else match s with
                                | z :: _ => if z =? 48 then (8, s, λ c, (48 <=? c) && (c <=? 55)) else (10, s, is_digit)
                                | [] => (10, s, is_digit)
                                end in
  let '(ds, r) := span digit s in
  let v := digits_value base ds in
  if (len ds =? 0) || (ULONG_MAX <? v) then None else Some (if neg then u64 (- v) else v, r).
Definition parse_unsigned (s : list Z) : option Z :=
  match s with
  | [] => None
  | _ => match strtoul0 s with Some (v, []) => Some v | _ => None end
  end.

(** [%<n>u] *)
Definition scan_u (n : nat) (s : list Z) : option (Z * list Z) :=
  let s := skip isspace s in
  let '(neg, s, n) := match s with
                      | c :: s' => if c =? 45 then (true, s', Nat.pred n) else if c =? 43 then (false, s', Nat.pred n)
                                   else (false, s, n)
                      | [] => (false, s, n)
                      end in
  let '(ds, r) := span_n n is_digit s in
  match ds with
  | [] => None
  | _ => Some (u32 (if neg then - digits_value 10 ds else digits_value 10 ds), r)
  end.
Definition lit (c : Z) (s : list Z) : option (list Z) :=
  match s with d :: s' => if d =? c then Some s' else None | [] => None end.
Definition parse_date (s : list Z) : option opc_date_t :=
  '(y, s) ← scan_u 4 s; s ← lit 45 s; '(m, s) ← scan_u 2 s; s ← lit 45 s; '(d, _) ← scan_u 2 s;
  if (y <? 1970) || (9999 <? y) then None
  else if (m <? 1) || (12 <? m) then None
  else if (d <? 1) || (31 <? d) then None
  else Some (mk_date y m d).

Definition load_code (json : list Z) (key : string) (max : Z) : option Z :=
  match opc_json_string json key 32 with
  | Failed _ => None
  | Got buf => v ← parse_unsigned buf; if max <? v then None else Some v
  end.
Definition load_code32 (json : list Z) (key : string) : option Z := load_code json key 4294967295.
Definition load_code16 (json : list Z) (key : string) : option Z := load_code json key 65535.
Definition load_cap_bit (json : list Z) (key : string) : option Z :=
  match opc_json_integer json key with Failed _ => None | Got v => Some (if v =? 0 then 0 else 1) end.
(** The array the string is copied into. *)
Definition load_text (json : list Z) (key : string) (cap : Z) (arr : list Z) : option (list Z) :=
  match opc_json_string json key cap with Failed _ => None | Got v => Some (write_at 0 (v ++ [0]) arr) end.
Definition load_date (json : list Z) (key : string) : option opc_date_t :=
  match opc_json_string json key 16 with Failed _ => None | Got v => parse_date v end.

(** The scratch inventory after the eleven fields, and whether one was recovered. *)
Record fields := mk_fields {
  f_vendor : option Z; f_product : option Z; f_subcode : option Z; f_hw : option (list Z); f_serial : option (list Z);
  f_made : option opc_date_t; f_shipped : option opc_date_t;
  f_11r : option Z; f_11ai : option Z; f_11k : option Z; f_11v : option Z }.
Definition recovered (f : fields) : bool :=
  bool_decide (is_Some (f_vendor f)) || bool_decide (is_Some (f_product f)) || bool_decide (is_Some (f_subcode f)) ||
  bool_decide (is_Some (f_hw f)) || bool_decide (is_Some (f_serial f)) || bool_decide (is_Some (f_made f)) ||
  bool_decide (is_Some (f_shipped f)) || bool_decide (is_Some (f_11r f)) || bool_decide (is_Some (f_11ai f)) ||
  bool_decide (is_Some (f_11k f)) || bool_decide (is_Some (f_11v f)).
Definition merge (i : opcd_inventory_t) (f : fields) : opcd_inventory_t :=
  mk_inventory (default (inv_vendor_code i) (f_vendor f)) (default (inv_product_code i) (f_product f))
    (default (inv_product_subcode i) (f_subcode f)) (default (inv_hardware_version i) (f_hw f))
    (default (inv_serial_number i) (f_serial f)) (default (inv_manufacture_date i) (f_made f))
    (default (inv_shipment_date i) (f_shipped f)) (default (inv_ieee_11r i) (f_11r f)) (default (inv_ieee_11ai i) (f_11ai f))
    (default (inv_ieee_11k i) (f_11k f)) (default (inv_ieee_11v i) (f_11v f)).
Definition fields_of (json : list Z) (i : opcd_inventory_t) : fields :=
  mk_fields (load_code32 json "vendor_code") (load_code16 json "product_code") (load_code16 json "product_subcode")
    (load_text json "hardware_version" OPC_VERSION_FIELD_LEN (inv_hardware_version i))
    (load_text json "serial_number" OPC_SERIAL_FIELD_LEN (inv_serial_number i))
    (load_date json "manufacture_date") (load_date json "shipment_date")
    (load_cap_bit json "ieee_11r") (load_cap_bit json "ieee_11ai") (load_cap_bit json "ieee_11k") (load_cap_bit json "ieee_11v").
(** [json]: what [opc_json_slurp_file] gives; the return value and the global inventory. *)
Definition opcd_inventory_load (json : Z + list Z) (g_inv : opcd_inventory_t) : Z * opcd_inventory_t :=
  match json with
  | inl e => (- e, g_inv)
  | inr json =>
      let f := fields_of json g_inv in
      if recovered f then (0, merge g_inv f) else (- EINVAL, g_inv)
  end.

(** ** NTP *)

Definition ntp_stop (c : Z) : bool := (c =? 10) || (c =? 13) || (c =? 35).
(** The token loop on the text after the key; the token is read by [inet_pton]. *)
Fixpoint ntp_loop (fuel : nat) (p : list Z) : option Z :=
  match fuel, p with
  | S fuel, c :: _ =>
      if ntp_stop c then None
      else
        match skip is_blank p with
        | [] => None
        | (c :: _) as p =>
            if ntp_stop c then None
            else
              let '(tok, r) := span (λ c, negb (is_blank c || ntp_stop c)) p in
              if 64 <=? len tok then ntp_loop fuel r
              else match parse_ipv4 tok with Some a => Some a | None => ntp_loop fuel r end
        end
  | _, _ => None
  end.
(** The address; [None] is -ENOENT. *)
Definition opc_ntp_parse_line (line : list Z) : option Z :=
  let line := skip is_blank line in
  if negb (starts (str "NTP=") line) then None else ntp_loop (length line) (drop 4 line).

(** ** Reset cause *)

(** [strtoull(p, &end, base)] at a digit, with [errno]; in base 16 a [0x] is skipped. *)
Definition strtoull_at (base : Z) (p : list Z) : option (Z * list Z) :=
  let prefix := match p with
                | z :: x :: d :: _ => (base =? 16) && (z =? 48) && ((x =? 120) || (x =? 88)) && isxdigit d
                | _ => false
                end in
  let p := if prefix then drop 2 p else p in
  let '(ds, r) := span (if base =? 16 then isxdigit else is_digit) p in
  let v := digits_value base ds in if ULONG_MAX <? v then None else Some (v, r).
(** [file]: the contents, [None] when it cannot be opened. *)
Definition opcd_reset_cause_read (file : option (list Z)) : Z :=
  match file with
  | None | Some [] => 0
  | Some s =>
      let line := let '(l, next) := split_lf (take 63 s) in
                  cstr (l ++ match next with Some _ => [10] | None => [] end) in
      let p := skip isspace line in
      let hex := match p with z :: x :: _ => (z =? 48) && ((x =? 120) || (x =? 88)) | _ => false end in
      let base := if hex then 16 else 10 in
      let p := if hex then drop 2 p else p in
      let digit := match p with c :: _ => if base =? 10 then is_digit c else isxdigit c | [] => false end in
      if negb digit then 0
      else match strtoull_at base p with
           | None => 0
           | Some (v, r) =>
               match skip isspace r with
               | [] => if (v =? 0) || (4294967295 <? v) then 0 else v
               | _ => 0
               end
           end
  end.
(** ** What the files say *)

Definition inventory_keys : list string :=
  ["vendor_code"; "product_code"; "product_subcode"; "hardware_version"; "serial_number"; "manufacture_date";
   "shipment_date"; "ieee_11r"; "ieee_11ai"; "ieee_11k"; "ieee_11v"]%string.
(** A string member, cut to what the buffer of [cap] bytes holds, and a number member. *)
Definition str_of (ms : jmembers) (key : string) (cap : Z) : option (list Z) :=
  match mfind ms key with Some (JStr s) => Some (take (Z.to_nat (cap - 1)) s) | _ => None end.
Definition int_of (ms : jmembers) (key : string) : option Z :=
  match mfind ms key with Some (JBare t) => fst <$> strtol t | _ => None end.
Definition code_of (ms : jmembers) (key : string) (max : Z) : option Z :=
  t ← str_of ms key 32; v ← parse_unsigned t; if max <? v then None else Some v.
Definition bit_of (ms : jmembers) (key : string) : option Z := v ← int_of ms key; Some (if v =? 0 then 0 else 1).
Definition inventory_in (ms : jmembers) (i : opcd_inventory_t) : fields :=
  mk_fields (code_of ms "vendor_code" 4294967295) (code_of ms "product_code" 65535) (code_of ms "product_subcode" 65535)
    ((λ v, write_at 0 (v ++ [0]) (inv_hardware_version i)) <$> str_of ms "hardware_version" OPC_VERSION_FIELD_LEN)
    ((λ v, write_at 0 (v ++ [0]) (inv_serial_number i)) <$> str_of ms "serial_number" OPC_SERIAL_FIELD_LEN)
    (str_of ms "manufacture_date" 16 ≫= parse_date) (str_of ms "shipment_date" 16 ≫= parse_date)
    (bit_of ms "ieee_11r") (bit_of ms "ieee_11ai") (bit_of ms "ieee_11k") (bit_of ms "ieee_11v").

Lemma inventory_key_ok key :
  In key inventory_keys → (forallb isalnum_ (str key) = true ∧ str key ≠ []) ∧ len (34 :: str key ++ [34]) < 64.
Proof. cbn. intros H. destruct_or! H; subst; done. Qed.
Section object.
Context (w0 w : list Z) (ms : jmembers) (w9 : list Z) (Hdoc : doc_ok inventory_keys w0 w ms w9).
Lemma inventory_string key cap :
  In key inventory_keys → 0 < cap →
  opc_json_string (doc w0 w ms w9) key cap = match str_of ms key cap with Some s => Got s | None => Failed (- ENOENT) end.
Proof using Hdoc.
  intros Hin Hcap. destruct (inventory_key_ok key Hin) as [Hk Hn]. rewrite (opc_json_string_flat key Hk inventory_keys) by done.
  unfold str_of. by destruct (mfind ms key) as [[| | |]|].
Qed.
Lemma inventory_code key max : In key inventory_keys → load_code (doc w0 w ms w9) key max = code_of ms key max.
Proof using Hdoc. intros Hin. unfold load_code, code_of. rewrite inventory_string by done. by destruct (str_of ms key 32). Qed.
Lemma inventory_text key cap arr :
  In key inventory_keys → 0 < cap →
  load_text (doc w0 w ms w9) key cap arr = (λ v, write_at 0 (v ++ [0]) arr) <$> str_of ms key cap.
Proof using Hdoc. intros Hin Hc. unfold load_text. rewrite inventory_string by done. by destruct (str_of ms key cap). Qed.
Lemma inventory_date key : In key inventory_keys → load_date (doc w0 w ms w9) key = str_of ms key 16 ≫= parse_date.
Proof using Hdoc. intros Hin. unfold load_date. rewrite inventory_string by done. by destruct (str_of ms key 16). Qed.
Lemma inventory_bit key : In key inventory_keys → load_cap_bit (doc w0 w ms w9) key = bit_of ms key.
Proof using Hdoc.
  intros Hin. unfold load_cap_bit, bit_of, int_of. destruct (inventory_key_ok key Hin) as [Hk Hn].
  rewrite (opc_json_integer_flat key Hk inventory_keys) by done. destruct (mfind ms key) as [[t| | |]|]; try done.
  by destruct (strtol t) as [[v r]|].
Qed.
End object.

(** Loading the inventory. From a flat JSON object, in any layout, every member whose
    value is acceptable replaces the field of the same name and every other field keeps its
    value; without an acceptable member, or without a readable file, the inventory is
    unchanged and the result is an error. *)
Theorem inventory_load_spec g_inv :
  (∀ e, opcd_inventory_load (inl e) g_inv = (- e, g_inv)) ∧
  ∀ w0 w ms w9, doc_ok inventory_keys w0 w ms w9 →
    opcd_inventory_load (inr (doc w0 w ms w9)) g_inv =
    if recovered (inventory_in ms g_inv) then (0, merge g_inv (inventory_in ms g_inv)) else (- EINVAL, g_inv).
Proof.
  split; [done|]. intros w0 w ms w9 Hdoc. unfold opcd_inventory_load.
  assert (Hf : fields_of (doc w0 w ms w9) g_inv = inventory_in ms g_inv); [|by rewrite Hf].
  unfold fields_of, inventory_in, load_code32, load_code16.
  assert (Hin : ∀ n key, inventory_keys !! n = Some key → In key inventory_keys).
  { intros n key H. apply list_elem_of_In. by eapply list_elem_of_lookup_2. }
  f_equal.
  - apply inventory_code; [done|by apply (Hin 0%nat)].
  - apply inventory_code; [done|by apply (Hin 1%nat)].
  - apply inventory_code; [done|by apply (Hin 2%nat)].
  - apply inventory_text; [done|by apply (Hin 3%nat)|done].
  - apply inventory_text; [done|by apply (Hin 4%nat)|done].
  - apply inventory_date; [done|by apply (Hin 5%nat)].
  - apply inventory_date; [done|by apply (Hin 6%nat)].
  - apply inventory_bit; [done|by apply (Hin 7%nat)].
  - apply inventory_bit; [done|by apply (Hin 8%nat)].
  - apply inventory_bit; [done|by apply (Hin 9%nat)].
  - apply inventory_bit; [done|by apply (Hin 10%nat)].
Qed.
Definition example_inventory : jmembers :=
  MCons [10] (str "vendor_code") [] [32] (JStr (str "0x00902CFB")) []
  (MCons [10] (str "product_code") [] [32] (JStr (str "65536")) []
  (MCons [10] (str "manufacture_date") [] [32] (JStr (str "2026-02-28")) []
  (MCons [10] (str "ieee_11r") [] [32] (JBare (str "7")) [10] MNone))).
Definition zero_inventory : opcd_inventory_t :=
  mk_inventory 0 0 0 (zeros 32) (zeros 32) (mk_date 0 0 0) (mk_date 0 0 0) 0 0 0 0.
Lemma inventory_load_spec_witness :
  opcd_inventory_load (inr (doc [] [] example_inventory [10])) zero_inventory
  = (0, mk_inventory 9448699 0 0 (zeros 32) (zeros 32) (mk_date 2026 2 28) (mk_date 0 0 0) 1 0 0 0).
Proof.
  rewrite (proj2 (inventory_load_spec zero_inventory) [] [] example_inventory [10]).
  - vm_compute. reflexivity.
  - constructor; vm_compute; reflexivity.
Defined.

(** The servers of an NTP line: the words before a comment or the end of the line that are
    IPv4 addresses. *)
Fixpoint pieces (s : list Z) : list (list Z) :=
  match s with
  | [] => [[]]
  | c :: s' => if is_blank c then [] :: pieces s'
               else match pieces s' with l :: ls => (c :: l) :: ls | [] => [[c]] end
  end.
Definition server (tok : list Z) : option Z := if 64 <=? len tok then None else parse_ipv4 tok.
Definition ntp_servers (body : list Z) : list Z :=
  omap server (pieces (span (λ c, negb (ntp_stop c)) body).1).

Lemma pieces_blanks b q : Forall (λ c, is_blank c = true) b → omap server (pieces (b ++ q)) = omap server (pieces q).
Proof. induction 1 as [|c b Hc _ IH]; [done|]. cbn [app pieces]. by rewrite Hc. Qed.
Lemma pieces_word tok q :
  Forall (λ c, is_blank c = false) tok →
  pieces (tok ++ q) = match pieces q with l :: ls => (tok ++ l) :: ls | [] => [tok] end.
Proof.
  induction 1 as [|c tok Hc _ IH]; [cbn; by destruct (pieces q) eqn:E; [destruct q as [|d q]; cbn in E; repeat case_match|]|].
  cbn [app pieces]. rewrite Hc, IH. by destruct (pieces q).
Qed.
Lemma servers_blanks b q : Forall (λ c, is_blank c = true) b → ntp_servers (b ++ q) = ntp_servers q.
Proof.
  intros Hb. unfold ntp_servers.
  assert (Hs : (span (λ c, negb (ntp_stop c)) (b ++ q)).1 = b ++ (span (λ c, negb (ntp_stop c)) q).1).
  { induction Hb as [|c b Hc _ IH]; [done|]. cbn [app span].
    assert (Hst : ntp_stop c = false).
    { unfold is_blank in Hc. apply orb_true_iff in Hc as [Hc|Hc]; apply Z.eqb_eq in Hc; by subst. }
    rewrite Hst. cbn [negb]. destruct (span _ (b ++ q)). cbn [fst] in *. by rewrite IH. }
  rewrite Hs. by apply pieces_blanks.
Qed.
Lemma servers_word tok r :
  Forall (λ c, negb (is_blank c || ntp_stop c) = true) tok →
  match r with c :: _ => negb (is_blank c || ntp_stop c) = false | [] => True end →
  ntp_servers (tok ++ r) = match server tok with Some a => a :: ntp_servers r | None => ntp_servers r end.
Proof.
  intros Ht Hr. unfold ntp_servers.
  assert (Hs : (span (λ c, negb (ntp_stop c)) (tok ++ r)).1 = tok ++ (span (λ c, negb (ntp_stop c)) r).1).
  { induction Ht as [|c tok Hc _ IH]; [done|]. cbn [app span]. apply negb_true_iff, orb_false_iff in Hc as [_ Hc].
    rewrite Hc. cbn [negb]. destruct (span _ (tok ++ r)). cbn [fst] in *. by rewrite IH. }
  rewrite Hs, pieces_word.
  2:{ eapply Forall_impl; [exact Ht|]. intros c Hc. by apply negb_true_iff, orb_false_iff in Hc as [? _]. }
  destruct r as [|c r].
  - cbn [span fst pieces]. rewrite app_nil_r. cbn [omap list_omap]. by destruct (server tok).
  - apply negb_false_iff, orb_true_iff in Hr. cbn [span]. destruct (ntp_stop c) eqn:Est; cbn [negb fst].
    + cbn [pieces]. rewrite app_nil_r. cbn [omap list_omap]. by destruct (server tok).
    + destruct Hr as [Hb|]; [|done]. destruct (span _ r) as [x y]. cbn [fst pieces]. rewrite Hb, app_nil_r.
      cbn [omap list_omap]. change (server []) with (@None Z). by destruct (server tok).
Qed.
Lemma ntp_loop_servers : ∀ fuel p, (length p <= fuel)%nat → ntp_loop fuel p = head (ntp_servers p).
Proof.
  induction fuel as [|fuel IH]; intros p Hf; [destruct p; [done|cbn in Hf; lia]|]. destruct p as [|c p]; [done|].
  cbn [ntp_loop]. destruct (ntp_stop c) eqn:Ec; [unfold ntp_servers; cbn [span]; by rewrite Ec|].
  pose proof (span_app is_blank (c :: p)) as Hspl. pose proof (span_all is_blank (c :: p)) as Hbl.
  pose proof (span_stops is_blank (c :: p)) as Hnb.
  unfold skip. destruct (span is_blank (c :: p)) as [b q]. cbn [fst snd] in *. rewrite <- Hspl, servers_blanks by done.
  assert (Hlq : (length q <= S fuel)%nat) by (rewrite <- Hspl, length_app in Hf; lia).
  destruct q as [|d q]; [done|]. destruct (ntp_stop d) eqn:Ed; [unfold ntp_servers; cbn [span]; by rewrite Ed|].
  set (f := λ c, negb (is_blank c || ntp_stop c)). pose proof (span_app f (d :: q)) as Hspl2.
  pose proof (span_all f (d :: q)) as Htok. pose proof (span_stops f (d :: q)) as Hstop.
  assert (Hprog : (length (span f (d :: q)).2 <= fuel)%nat).
  { assert (Hfd : f d = true) by (unfold f; by rewrite Hnb, Ed). clear Hspl2 Htok Hstop. cbn [span]. rewrite Hfd.
    pose proof (span_app f q) as Hq. destruct (span f q) as [x y]. cbn [fst snd length] in *.
    rewrite <- Hq, length_app in Hlq. lia. }
  destruct (span f (d :: q)) as [tok r]. cbn [fst snd] in *. rewrite <- Hspl2, servers_word by done. unfold server.
  destruct (64 <=? len tok); [by apply IH|]. destruct (parse_ipv4 tok); [done|]. by apply IH.
Qed.
(** The line's server is the first of them. *)
Lemma ntp_line_first b body :
  Forall (λ c, is_blank c = true) b → opc_ntp_parse_line (b ++ str "NTP=" ++ body) = head (ntp_servers body).
Proof.
  intros Hb. unfold opc_ntp_parse_line, skip. rewrite span_run by done. cbn [snd]. rewrite starts_app. cbn [negb].
  change (drop 4 (str "NTP=" ++ body)) with body. apply ntp_loop_servers. rewrite length_app. lia.
Qed.

Lemma ipv4_str_word ip :
  is_u32 ip → Forall (λ c, negb (is_blank c || ntp_stop c) = true) (ipv4_str ip) ∧ len (ipv4_str ip) < 64.
Proof.
  intros Hip. pose proof (ipv4_str_len ip Hip). split; [|lia]. unfold ipv4_str, is_u32 in *.
  assert (Hd : ∀ n, 0 <= n < 1000 → Forall (λ c, negb (is_blank c || ntp_stop c) = true) (dec n)).
  { intros n Hn. eapply Forall_impl; [exact (dec_digits n Hn)|]. intros c Hc. unfold is_digit in Hc.
    apply andb_true_iff in Hc as [H1 H2]. guards. unfold is_blank, ntp_stop. rewrite !(proj2 (Z.eqb_neq c _)) by lia. done. }
  assert (Hl : ∀ x, 0 <= Z.land x 255 < 1000).
  { intros x. change 255 with (Z.ones 8). rewrite Z.land_ones by lia. pose proof (Z.mod_pos_bound x (2 ^ 8)). lia. }
  assert (0 <= Z.shiftr ip 24 < 1000).
  { rewrite Z.shiftr_div_pow2 by lia. split; [apply Z.div_pos; lia|]. apply Z.div_lt_upper_bound; lia. }
  repeat apply Forall_app_2; try (by apply Hd); by repeat constructor.
Qed.

(** The NTP server of a timesyncd.conf line. A line is taken for one exactly if it
    starts, after blanks, with NTP=; its server is the first word before a comment or the
    line's end that is an IPv4 address, and a server written as an address is read back. *)
Theorem ntp_line_spec line :
  opc_ntp_parse_line line =
    (if starts (str "NTP=") (skip is_blank line) then head (ntp_servers (drop 4 (skip is_blank line))) else None) ∧
  ∀ ip rest, is_u32 ip → opc_ntp_parse_line (str "NTP=" ++ ipv4_str ip ++ 32 :: rest) = Some ip.
Proof.
  split.
  - destruct (starts (str "NTP=") (skip is_blank line)) eqn:E; [|unfold opc_ntp_parse_line; by rewrite E].
    unfold opc_ntp_parse_line. rewrite E. cbn [negb]. apply ntp_loop_servers. rewrite length_drop. lia.
  - intros ip rest Hip. pose proof (ntp_line_first [] (ipv4_str ip ++ 32 :: rest)) as Hl. cbn [app] in Hl. rewrite Hl by constructor. clear Hl.
    assert (Hp := parse_ipv4_str ip Hip). destruct (ipv4_str_word ip Hip) as [Hw Hlen].
    rewrite servers_word; [|done|done]. unfold server. rewrite (proj2 (Z.leb_gt 64 _)) by lia. by rewrite Hp.
Qed.

(** The reset cause a script writes in decimal on the first line is the cause reported. *)
Lemma reset_cause_written v rest : 0 < v < 4294967296 → opcd_reset_cause_read (Some (dec v ++ 10 :: rest)) = v.
Proof.
  intros Hv. assert (Hu : is_u32 v) by (unfold is_u32; lia). pose proof (dec_text v Hu) as [Htext Hlen].
  unfold opcd_reset_cause_read. destruct (dec v ++ 10 :: rest) as [|c0 s0] eqn:E0; [by destruct (dec v)|]. rewrite <- E0. clear E0 c0 s0.
  assert (Hlf : Forall (λ c, c ≠ 10) (dec v)) by (eapply Forall_impl; [exact Htext|]; by intros c [? _]).
  assert (Hnul : Forall (λ c, c ≠ 0) (dec v)) by (eapply Forall_impl; [exact Htext|]; by intros c [_ ?]).
  rewrite take_split_lf by done. rewrite decide_True by lia. rewrite cstr_nul_free by (apply Forall_app_2; [done|by repeat constructor]).
  destruct (dec_loop_spec 10 v []) as (ds & He & Hds & Hval & Hl); [lia|cbn; unfold is_u32 in Hu; lia|]. rewrite app_nil_r in He.
  unfold dec. rewrite He. destruct ds as [|c ds]; [cbn in Hl; lia|]. assert (Hc := Hds). apply Forall_cons_1 in Hc as [Hc Hrest].
  destruct (digit_not_space c Hc) as (Hs & _). cbn [app].
  assert (Hsk : skip isspace (c :: ds ++ [10]) = c :: ds ++ [10]) by (unfold skip; cbn [span]; by rewrite Hs).
  rewrite Hsk. clear Hsk. cbv beta iota zeta.
  assert (Hx : match c :: ds ++ [10] with z :: x :: _ => (z =? 48) && ((x =? 120) || (x =? 88)) | _ => false end = false).
  { destruct ds as [|d ds]; [cbn [app]; change ((10 =? 120) || (10 =? 88)) with false; by rewrite andb_false_r|]. apply Forall_cons_1 in Hrest as [Hd _]. unfold is_digit in Hd.
    apply andb_true_iff in Hd as [H1 H2]. guards. cbn [app]. rewrite !(proj2 (Z.eqb_neq d _)) by lia. by rewrite andb_false_r. }
  rewrite !Hx. change (10 =? 10) with true. cbv iota. rewrite Hc. cbn [negb]. unfold strtoull_at. change (10 =? 16) with false. cbv iota.
  replace (match c :: ds ++ [10] with | z :: x :: d :: _ => false && (z =? 48) && ((x =? 120) || (x =? 88)) && isxdigit d | _ => false end)
    with false by (by destruct (ds ++ [10]) as [|? [|? ?]]). cbv iota.
  change (c :: ds ++ [10]) with ((c :: ds) ++ [10]). rewrite span_run by done. rewrite Hval.
  rewrite (proj2 (Z.ltb_ge ULONG_MAX v)) by (unfold ULONG_MAX; lia). change (skip isspace [10]) with (@nil Z). cbv iota.
  by rewrite (proj2 (Z.eqb_neq v 0)), (proj2 (Z.ltb_ge 4294967295 v)) by lia.
Qed.
(** A doubled prefix is not refused: the number's own parser skips the second one. *)
Example reset_cause_double_prefix : opcd_reset_cause_read (Some (str "0x0x12" ++ [10])) = 18.
Proof. vm_compute. reflexivity. Qed.
End DeviceFiles.
