(* ===== verification/ProcFiles.v ===== *)
(** * The counters behind the congestion probe: the parsers of opcd/fault_probe.c

    /proc/stat, /proc/diskstats, /proc/meminfo and the channel survey of link.json. The
    scans run on the text from the current line on, as [sscanf] does: white space in a
    format also matches line ends. A run of the probe is a sequence of samples, re-arms of a
    resource and resets of the latches, as indication.c makes them. *)
From S2P Require Import Prelude CText FaultProbe State Conf JsonText JsonUtil.
From stdpp Require Import base list numbers option tactics strings.
From Stdlib Require Import ZArith Lia.
#[local] Open Scope Z_scope.
Import FaultProbe Conf JsonUtil.

Module ProcFiles.

(** [%llu]: saturating, a minus negates modulo 2^64. *)
Definition scan_llu (s : list Z) : option (Z * list Z) :=
  let '(neg, ds, r) := scan_int is_digit s in
  match ds with
  | [] => None
  | _ => let v := digits_value 10 ds in
         Some (if ULONG_MAX <? v then ULONG_MAX else if neg then u64 (- v) else v, r)
  end.
(** Up to [n] of them: those that were read. *)
Fixpoint scan_llus (n : nat) (s : list Z) : list Z :=
  match n with
  | O => []
  | S n => match scan_llu s with Some (v, r) => v :: scan_llus n r | None => [] end
  end.

(** ** /proc/stat *)

(** [*busy] and [*total]; [None]: -1. *)
Definition opcd_fault_parse_proc_stat (text : list Z) : option (Z * Z) :=
  if negb (starts (str "cpu ") text) then None
  else
    let v := scan_llus 8 (drop 4 text) in
    if len v <? 4 then None
    else
      let t := foldl (λ t x, u64 (t + x)) 0 v in
      Some (u64 (t - rd v 3 - (if 4 <? len v then rd v 4 else 0)), t).

(** ** /proc/diskstats *)

(** [%*u], [n] times. *)
Fixpoint skip_nums (n : nat) (s : list Z) : option (list Z) :=
  match n with O => Some s | S n => '(_, r) ← scan_llu s; skip_nums n r end.
Definition scan_name (s : list Z) : option (list Z * list Z) :=
  let '(w, r) := span_n 32 (λ c, negb (isspace c)) (skip isspace s) in
  match w with [] => None | _ => Some (w, r) end.
Definition scan_disk (s : list Z) : option (list Z * Z) :=
  s ← skip_nums 2 s; '(name, s) ← scan_name s; s ← skip_nums 9 s; '(ticks, _) ← scan_llu s; Some (name, ticks).
Fixpoint diskstats_loop (fuel : nat) (line dev : list Z) : option Z :=
  match fuel, line with
  | S fuel, _ :: _ =>
      match scan_disk line with
      | Some (name, ticks) =>
          if bool_decide (name = dev) then Some ticks
          else match (split_lf line).2 with Some rest => diskstats_loop fuel rest dev | None => None end
      | None => match (split_lf line).2 with Some rest => diskstats_loop fuel rest dev | None => None end
      end
  | _, _ => None
  end.
Definition opcd_fault_parse_diskstats (text dev : list Z) : option Z := diskstats_loop (length text) text dev.

(** ** /proc/meminfo *)

Definition meminfo_keys : list string := ["MemTotal"; "MemFree"; "Buffers"; "Cached"; "Slab"]%string.
(** [sscanf(line, "%31[^:]: %llu", key, &kb)]; [None] unless it returns 2. *)
Definition scan_kb (s : list Z) : option (list Z * Z) :=
  let '(key, r) := span_n 31 (λ c, negb (c =? 58)) s in
  match key, r with
  | _ :: _, c :: r => if c =? 58 then '(kb, _) ← scan_llu r; Some (key, kb) else None
  | _, _ => None
  end.
(** [v] and [seen], as one optional value per key. *)
Definition see (vs : list (option Z)) (key : list Z) (kb : Z) : list (option Z) :=
  match list_find (λ k, str k = key) meminfo_keys with
  | Some (i, _) => <[i := Some kb]> vs
  | None => vs
  end.
Fixpoint meminfo_loop (fuel : nat) (line : list Z) (vs : list (option Z)) : list (option Z) :=
  match fuel, line with
  | S fuel, _ :: _ =>
      let vs := match scan_kb line with Some (key, kb) => see vs key kb | None => vs end in
      match (split_lf line).2 with Some rest => meminfo_loop fuel rest vs | None => vs end
  | _, _ => vs
  end.
(** [*used_kb] and [*total_kb]; [None]: -1. *)
Definition opcd_fault_parse_meminfo (text : list Z) : option (Z * Z) :=
  match meminfo_loop (length text) text (replicate 5 None) with
  | [Some total; Some free; Some buffers; Some cached; Some slab] =>
      if total =? 0 then None
      else
        let not_used := foldl (λ n v, if u64 (total - n) <? v then total else u64 (n + v)) 0 [free; buffers; cached; slab] in
        Some (u64 (total - not_used), total)
  | _ => None
  end.

(** ** The channel survey *)

(** The three counters of link.json, [None]: -1; [net_missing] only drives a log line. *)
Definition read_net_survey (json : option (list Z)) : option (Z * Z * Z) :=
  json ← json;
  match opc_json_integer_section json "survey_in_use" "active_time_ms" with
  | Failed _ => None
  | Got active =>
      match opc_json_integer_section json "survey_in_use" "busy_time_ms" with
      | Failed _ => None
      | Got busy =>
          match opc_json_integer_section json "survey_in_use" "mono_ms" with
          | Failed _ => None
          | Got mono => if (0 <=? active) && (0 <=? busy) && (0 <=? mono) then Some (active, busy, mono) else None
          end
      end
  end.

(** ** Memory in use *)

(** A line of the table: the key, blanks, the number and the rest. *)
Record mem_line := mk_mem { ml_key : list Z; ml_pad : nat; ml_kb : Z; ml_rest : list Z }.
Definition mem_line_ok (l : mem_line) : Prop :=
  0 < len (ml_key l) <= 31 ∧ Forall (λ c, c ≠ 58 ∧ c ≠ 10) (ml_key l) ∧ 0 <= ml_kb l <= LONG_MAX ∧
  match ml_rest l with c :: _ => is_digit c = false | [] => True end ∧ Forall (λ c, c ≠ 10) (ml_rest l).
Definition print_mem (l : mem_line) : list Z :=
  ml_key l ++ 58 :: replicate (ml_pad l) 32 ++ dec_ll (ml_kb l) ++ ml_rest l.
Definition meminfo_text (t : list mem_line) : list Z := text (map print_mem t).
(** The last line with that key. *)
Definition mem_value (t : list mem_line) (key : string) : option Z :=
  ml_kb <$> last (filter (λ l, ml_key l = str key) t).
Lemma scan_llu_dec pad v r :
  0 <= v <= LONG_MAX → match r with c :: _ => is_digit c = false | [] => True end →
  scan_llu (replicate pad 32 ++ dec_ll v ++ r) = Some (v, r).
Proof.
  intros Hv Hr. unfold scan_llu, dec_ll. rewrite (proj2 (Z.ltb_ge v 0)) by lia.
  destruct (dec_loop_spec 20 v []) as (ds & He & Hds & Hval & Hl); [lia|unfold LONG_MAX in Hv; cbn; lia|].
  rewrite app_nil_r in He. rewrite He. destruct ds as [|c ds]; [cbn in Hl; lia|].
  assert (Hc := Hds). apply Forall_cons_1 in Hc as [Hc _]. destruct (digit_not_space c Hc) as (Hs & H45 & H43 & _).
  unfold scan_int, skip. rewrite span_run; [|by apply Forall_replicate|by cbn]. cbn [snd app].
  rewrite (proj2 (Z.eqb_neq c 45) H45), (proj2 (Z.eqb_neq c 43) H43). change (c :: ds ++ r) with ((c :: ds) ++ r).
  rewrite span_run by done. rewrite Hval, (proj2 (Z.ltb_ge ULONG_MAX v)); [done|]. unfold ULONG_MAX, LONG_MAX in *. lia.
Qed.
Lemma scan_kb_line l rest : mem_line_ok l → scan_kb (print_mem l ++ 10 :: rest) = Some (ml_key l, ml_kb l).
Proof.
  intros (Hlen & Hkey & Hkb & Hrest & _). unfold scan_kb, print_mem. rewrite <- app_assoc. cbn [app].
  assert (Hspan : ∀ n k q, (length k <= n)%nat → Forall (λ c, c ≠ 58 ∧ c ≠ 10) k →
    span_n n (λ c, negb (c =? 58)) (k ++ 58 :: q) = (k, 58 :: q)).
  { clear. induction n as [|n IH]; intros [|c k] q Hn Hk; try done; [cbn in Hn; lia|].
    apply Forall_cons_1 in Hk as [[Hc _] Hk]. cbn [app span_n length] in *. rewrite (proj2 (Z.eqb_neq c 58) Hc). cbn [negb].
    by rewrite IH by (try done; lia). }
  rewrite Hspan by (try done; unfold len in Hlen; lia). destruct (ml_key l) as [|c k] eqn:Ek; [unfold len in Hlen; cbn in Hlen; lia|].
  change (58 =? 58) with true. cbv iota. rewrite <- !app_assoc. rewrite scan_llu_dec; [done|done|].
  by destruct (ml_rest l).
Qed.
Lemma print_mem_no_lf l : mem_line_ok l → Forall (λ c, c ≠ 10) (print_mem l).
Proof.
  intros (_ & Hkey & Hkb & _ & Hrest). unfold print_mem. apply Forall_app_2; [eapply Forall_impl; [exact Hkey|]; by intros c [_ ?]|].
  apply Forall_cons_2; [done|]. repeat apply Forall_app_2; [by apply Forall_replicate| |done].
  destruct (dec_ll_text (ml_kb l)) as [Hd _]; [unfold LONG_MIN, LONG_MAX in *; lia|].
  eapply Forall_impl; [exact Hd|]. by intros c [? _].
Qed.
Lemma meminfo_lines : ∀ t fuel vs, Forall mem_line_ok t → (length (meminfo_text t) <= fuel)%nat →
  meminfo_loop fuel (meminfo_text t) vs = foldl (λ vs l, see vs (ml_key l) (ml_kb l)) vs t.
Proof.
  induction t as [|l t IH]; intros fuel vs Ht Hf; [by destruct fuel|]. apply Forall_cons_1 in Ht as [Hl Ht].
  unfold meminfo_text in *. cbn [map] in *. rewrite text_cons in *. rewrite length_app in Hf. cbn [length] in Hf.
  destruct fuel as [|fuel]; [lia|]. cbn [meminfo_loop foldl].
  destruct (print_mem l ++ 10 :: text (map print_mem t)) eqn:E; [by destruct (print_mem l)|]. rewrite <- E.
  rewrite scan_kb_line, split_lf_run by (done || by apply print_mem_no_lf). cbn [snd]. apply IH; [done|lia].
Qed.
Lemma mem_value_snoc t l key :
  mem_value (t ++ [l]) key = if decide (str key = ml_key l) then Some (ml_kb l) else mem_value t key.
Proof.
  unfold mem_value. rewrite filter_app, filter_cons, filter_nil. destruct (decide (ml_key l = str key)) as [Hk|Hk].
  - rewrite decide_True by done. by rewrite last_snoc.
  - rewrite decide_False by done. by rewrite app_nil_r.
Qed.
Lemma meminfo_values t : foldl (λ vs l, see vs (ml_key l) (ml_kb l)) (replicate 5 None) t = map (mem_value t) meminfo_keys.
Proof.
  induction t as [|l t IH] using rev_ind; [done|]. rewrite foldl_app. cbn [foldl]. rewrite IH. unfold see, meminfo_keys.
  cbn [map list_find]. rewrite !mem_value_snoc. destruct (decide (str "MemTotal" = ml_key l)) as [<-|H1]; [reflexivity|].
  destruct (decide (str "MemFree" = ml_key l)) as [<-|H2]; [reflexivity|].
  destruct (decide (str "Buffers" = ml_key l)) as [<-|H3]; [reflexivity|].
  destruct (decide (str "Cached" = ml_key l)) as [<-|H4]; [reflexivity|].
  destruct (decide (str "Slab" = ml_key l)); reflexivity.
Qed.

Lemma u64_small v : 0 <= v < 18446744073709551616 → u64 v = v.
Proof. intros Hv. unfold u64. by apply Z.mod_small. Qed.

(** Memory in use. From a memory table the kernel prints, the parser takes the total
    minus what is free, buffered, cached or in slabs, never below 0 and never above the
    total; it gives no reading when one of the five lines is missing or the total is 0. *)
Theorem meminfo_in_use t :
  Forall mem_line_ok t →
  opcd_fault_parse_meminfo (meminfo_text t) =
  (total ← mem_value t "MemTotal"; free ← mem_value t "MemFree"; buffers ← mem_value t "Buffers";
   cached ← mem_value t "Cached"; slab ← mem_value t "Slab";
   if total =? 0 then None else Some (Z.max 0 (total - (free + buffers + cached + slab)), total)).
Proof.
  intros Ht. unfold opcd_fault_parse_meminfo. rewrite meminfo_lines, meminfo_values by done. unfold meminfo_keys. cbn [map].
  assert (Hr : ∀ key v, mem_value t key = Some v → 0 <= v <= LONG_MAX).
  { intros key v. unfold mem_value. destruct (last _) as [l|] eqn:El; [|done]. intros [= <-].
    apply last_Some in El as [l' El]. assert (Hin : l ∈ filter (λ l, ml_key l = str key) t) by (rewrite El; apply elem_of_app; right; by left).
    apply list_elem_of_filter in Hin as [_ Hin]. rewrite Forall_forall in Ht. by destruct (Ht l Hin) as (_ & _ & ? & _). }
  destruct (mem_value t "MemTotal") as [total|] eqn:E1; [|done]. destruct (mem_value t "MemFree") as [free|] eqn:E2; [|done].
  destruct (mem_value t "Buffers") as [buffers|] eqn:E3; [|done]. destruct (mem_value t "Cached") as [cached|] eqn:E4; [|done].
  destruct (mem_value t "Slab") as [slab|] eqn:E5; [|done]. cbn [mbind option_bind].
  apply Hr in E1, E2, E3, E4, E5. destruct (total =? 0); [done|]. unfold LONG_MAX in *.
  assert (Hstep : ∀ n v, 0 <= n <= total → 0 <= v <= 9223372036854775807 →
    (if u64 (total - n) <? v then total else u64 (n + v)) = Z.min total (n + v)).
  { intros n v Hn Hv. rewrite (u64_small (total - n)) by lia.
    destruct (total - n <? v) eqn:E; guards; [lia|]. rewrite u64_small by lia. lia. }
  cbn [foldl]. rewrite (Hstep 0 free), (Hstep _ buffers), (Hstep _ cached), (Hstep _ slab) by lia. rewrite u64_small by lia. f_equal. f_equal. lia.
Qed.
Definition example_meminfo : list mem_line :=
  [mk_mem (str "MemTotal") 8 1000 (str " kB"); mk_mem (str "MemFree") 9 200 (str " kB"); mk_mem (str "Buffers") 9 50 (str " kB");
   mk_mem (str "SwapCached") 3 900 (str " kB"); mk_mem (str "Cached") 10 150 (str " kB"); mk_mem (str "Slab") 12 100 (str " kB")].
Lemma meminfo_in_use_witness : opcd_fault_parse_meminfo (meminfo_text example_meminfo) = Some (500, 1000).
Proof.
  rewrite meminfo_in_use; [vm_compute; reflexivity|].
  repeat (apply Forall_cons_2; [|]); try constructor;
    (unfold LONG_MAX; repeat first [lia | split | done | apply Forall_cons_2 | constructor]).
Defined.

(** ** Sampling the files *)

Definition PROBE_BUF : Z := 32768.
(** The text the parsers see: at most the buffer less one byte, up to a NUL. *)
Definition read_text (file : option (list Z)) : option (list Z) := s ← file; Some (cstr (take (Z.to_nat (PROBE_BUF - 1)) s)).
(** [fs]: the contents of a path, [None] when it cannot be read. *)
Definition probe_readings (p : opcd_fault_probe_t) (fs : string → option (list Z)) (now : Z) : readings :=
  mk_readings
    (t ← read_text (fs (path_proc_stat p)); opcd_fault_parse_proc_stat t)
    (t ← read_text (fs (path_diskstats p)); opcd_fault_parse_diskstats t (str (disk_dev p)))
    (t ← read_text (fs (path_meminfo p)); opcd_fault_parse_meminfo t)
    (read_net_survey (match opc_json_slurp_file (fs (net_link_json p)) 0 None with inl _ => None | inr t => Some t end))
    now.
(** What the daemon does with the probe: a sample of the files; the re-arming of one resource
    after a notification that could not be sent ([fault_probe_tick] of indication.c); and the
    reset of all latches for a new recipient ([opcd_ind_coalesce_reset]). *)
Inductive probe_event :=
  | Sample (fs : string → option (list Z)) (now : Z)
  | Rearm (res : opcd_fault_res_t)
  | ResetLatch.
(** The events with the probe before each, and the reports of the samples. *)
Fixpoint probe_run (p : opcd_fault_probe_t) (evs : list probe_event) : list (opcd_fault_probe_t * probe_event * opcd_fault_report_t) :=
  match evs with
  | [] => []
  | ev :: l =>
      let '(o, q) := match ev with
                     | Sample fs now => opcd_fault_probe_sample p (probe_readings p fs now)
                     | Rearm res => (report_zero, opcd_fault_probe_rearm p res)
                     | ResetLatch => (report_zero, opcd_fault_probe_reset_latch p)
                     end in
      (p, ev, o) :: probe_run q l
  end.
(** What one step means for a resource: an entry or a clear with its percentage, or the
    latch opened again. *)
Inductive mark := Entry (v : Z) | Clear (v : Z) | Reopen.
#[global] Instance res_eq_dec : EqDecision opcd_fault_res_t.
Proof. solve_decision. Defined.
Definition marks (res : opcd_fault_res_t) (x : opcd_fault_probe_t * probe_event * opcd_fault_report_t) : list mark :=
  match x.1.2 with
  | Sample _ _ => (if entered res x.2 then [Entry (pct res x.2)] else []) ++ (if cleared res x.2 then [Clear (pct res x.2)] else [])
  | Rearm r => if decide (r = res) then [Reopen] else []
  | ResetLatch => [Reopen]
  end.
(** Where a resource stands: nothing announced; an entry announced; announced once, and the
    latch opened since. *)
Inductive standing := Quiet | Announced | Reopened.
(** The marks a recipient may see: an entry never while one is announced, at or above the
    entry level from quiet, and at or above the release level once re-opened; a clear only of
    an announced entry and below the release level. *)
Fixpoint legal (hi lo : Z) (st : standing) (l : list mark) : Prop :=
  match l with
  | [] => True
  | Entry v :: l => match st with Quiet => hi <= v <= 100 | Announced => False | Reopened => lo <= v <= 100 end ∧ legal hi lo Announced l
  | Clear v :: l => st = Announced ∧ 0 <= v < lo ∧ legal hi lo Quiet l
  | Reopen :: l => legal hi lo (match st with Quiet => Quiet | _ => Reopened end) l
  end.
(** No congestion is lost: a measured resource with an open latch is announced at the entry
    level, and, as long as it counts as congested, also in the band below it. *)
Definition not_lost (res : opcd_fault_res_t) (hi lo : Z) (x : opcd_fault_probe_t * probe_event * opcd_fault_report_t) : Prop :=
  let '(p, ev, o) := x in
  match ev with
  | Sample fs now => measured res p (probe_readings p fs now) = true → notified res p = false →
      (if congested res p then lo else hi) <= pct res o → entered res o = true
  | _ => True
  end.
Definition stands (res : opcd_fault_res_t) (st : standing) (p : opcd_fault_probe_t) : Prop :=
  match st with
  | Quiet => notified res p = false ∧ congested res p = false
  | Announced => notified res p = true ∧ congested res p = true
  | Reopened => notified res p = false
  end.

Lemma rearm_latch res r p : let q := opcd_fault_probe_rearm p r in
  notified res q = (if decide (r = res) then false else notified res p) ∧ congested res q = congested res p ∧
  threshold_pct q = threshold_pct p ∧ clear_pct q = clear_pct p.
Proof. by destruct r, res. Qed.
Lemma reset_latch res p : let q := opcd_fault_probe_reset_latch p in
  notified res q = false ∧ congested res q = congested res p ∧ threshold_pct q = threshold_pct p ∧ clear_pct q = clear_pct p.
Proof. by destruct res. Qed.
Lemma reopen_stands res st p q : stands res st p → notified res q = false → congested res q = congested res p →
  stands res (match st with Quiet => Quiet | _ => Reopened end) q.
Proof. destruct st; cbn; [intros [_ Hc] Hn Hg; by rewrite Hg|done..]. Qed.
Lemma probe_run_marks res hi lo evs : ∀ p st,
  threshold_pct p = hi → clear_pct p = lo → 1 <= lo <= hi → stands res st p →
  legal hi lo st (flat_map (marks res) (probe_run p evs)) ∧ Forall (not_lost res hi lo) (probe_run p evs).
Proof.
  induction evs as [|[fs now|r|] l IH]; intros p st Ht Hc Hlo Hst; [done|..]; cbn [probe_run].
  - set (r := probe_readings p fs now). pose proof (sample_latch res p r) as Hs.
    destruct (sample_report_res res p r ltac:(lia) ltac:(lia)) as (Ho & Hp & He & Hcl).
    assert (Hlev : level res p = if congested res p then lo else hi).
    { unfold level. rewrite Ht, Hc. rewrite (proj2 (Z.eqb_neq lo 0)), (proj2 (Z.ltb_ge hi lo)) by lia. done. }
    destruct (opcd_fault_probe_sample p r) as [o q] eqn:Eq.
    destruct (Hs He Hcl) as (Ee & Ec & Hnq & Hgq & Hpct & Htq & Hcq).
    assert (Hq : ∀ st', stands res st' q → legal hi lo st' (flat_map (marks res) (probe_run q l)) ∧ Forall (not_lost res hi lo) (probe_run q l))
      by (intros st' Hst'; apply IH; congruence || done). clear IH Hs.
    cbn [flat_map marks fst snd]. rewrite Ee, Ec. rewrite Ho, Hlev in *.
    destruct (measured res p r) eqn:Em; [rewrite (Hpct eq_refl)|];
      [|cbn [andb app]; destruct (Hq st) as [H1 H2]; [destruct st; cbn in *; rewrite Hnq, ?Hgq; done|]; split; [exact H1|];
        constructor; [|exact H2]; cbn; fold r; by rewrite Em].
    set (v := pct res (sample_report p r)) in *. cbn [andb] in *.
    assert (Hnl : not_lost res hi lo (p, Sample fs now, o)).
    { cbn. fold r. rewrite (Hpct eq_refl). fold v. intros _ Hn Hv. rewrite Ee, Hn. by rewrite (proj2 (Z.leb_le _ _) Hv). }
    destruct ((if congested res p then lo else hi) <=? v) eqn:Ev; guards; cbn [andb negb app] in *.
    + destruct (Hq Announced) as [H1 H2]; [split; [exact Hnq|exact Hgq]|]. split; [|by constructor].
      destruct st; cbn in Hst; [destruct Hst as [Hn Hg]; rewrite Hn; rewrite Hg in Ev; cbn|destruct Hst as [Hn Hg]; rewrite Hn; done
        |rewrite Hst; cbn]; (split; [|exact H1]); [lia|]. destruct (congested res p); lia.
    + destruct st; cbn in Hst.
      * destruct Hst as [Hn Hg]. rewrite Hn. destruct (Hq Quiet) as [H1 H2]; [split; [exact Hnq|exact Hgq]|]. split; [exact H1|by constructor].
      * destruct Hst as [Hn Hg]. rewrite Hn. rewrite Hg in Ev. destruct (Hq Quiet) as [H1 H2]; [split; [exact Hnq|exact Hgq]|].
        split; [|by constructor]. cbn. split; [done|]. split; [lia|exact H1].
      * rewrite Hst. destruct (Hq Reopened) as [H1 H2]; [exact Hnq|]. split; [exact H1|by constructor].
  - destruct (rearm_latch res r p) as (Hn & Hg & Htq & Hcq). cbn [flat_map marks fst snd]. destruct (decide (r = res)).
    + destruct (IH (opcd_fault_probe_rearm p r) (match st with Quiet => Quiet | _ => Reopened end)) as [H1 H2]; try congruence; [by eapply reopen_stands|].
      split; [exact H1|by constructor].
    + destruct (IH (opcd_fault_probe_rearm p r) st) as [H1 H2]; try congruence; [destruct st; cbn in *; rewrite Hn, ?Hg; done|].
      split; [exact H1|by constructor].
  - destruct (reset_latch res p) as (Hn & Hg & Htq & Hcq). cbn [flat_map marks fst snd].
    destruct (IH (opcd_fault_probe_reset_latch p) (match st with Quiet => Quiet | _ => Reopened end)) as [H1 H2]; try congruence; [by eapply reopen_stands|].
    split; [exact H1|by constructor].
Qed.

(** C37: the congestion notifications of a daemon, from its files. Whatever opc.conf holds,
    whatever the sampled files hold (unreadable, truncated, counters running backwards, the
    logger stopped), and wherever between the samples the daemon re-arms a resource or resets
    all latches: an entry is never repeated while it stands announced. It is reported at or
    above the configured entry level; only after a re-arm or reset of an announced congestion
    also in the band below, at or above the release level. A clear is reported only of an
    announced entry and below the release level, a percentage is at most 100, and no
    congestion is lost: with the latch open, a measured resource at its level is announced. *)
Theorem congestion_notifications_alternate res conf evs :
  let p := opcd_fault_probe_conf opcd_fault_probe_init conf in
  let run := probe_run p evs in
  legal (threshold_pct p) (clear_pct p) Quiet (flat_map (marks res) run) ∧
  Forall (not_lost res (threshold_pct p) (clear_pct p)) run.
Proof.
  cbn zeta. destruct (probe_conf_levels conf) as [[H1 H2 _ _] H5].
  apply probe_run_marks; [done|done|lia|]. by apply probe_conf_idle.
Qed.

(** A processor that turns busy, is announced again inside the band after a reset, and turns
    idle. *)
Example congestion_run :
  let fs t := λ path, if bool_decide (path = "/proc/stat"%string) then Some (str t) else None in
  flat_map (marks OPCD_FAULT_RES_CPU) (probe_run (opcd_fault_probe_conf opcd_fault_probe_init None)
    [Sample (fs "cpu  0 0 0 100 0 0 0 0") 0; Sample (fs "cpu  95 0 0 105 0 0 0 0") 10000; ResetLatch;
     Sample (fs "cpu  170 0 0 130 0 0 0 0") 20000; Sample (λ _, None) 30000;
     Sample (fs "cpu  200 0 0 200 0 0 0 0") 40000; Sample (fs "cpu  210 0 0 290 0 0 0 0") 50000]%string)
  = [Entry 95; Reopen; Entry 75; Clear 10].
Proof. vm_compute. reflexivity. Qed.
End ProcFiles.
