(* ===== verification/PlatformRead.v ===== *)
(** * Readback of the device: the query half of opcd/platform_nxp.c

    Addresses and link state from the logger's link.json files, the NTP server in effect
    and the firmware version with its retries. [slurp] gives what [opc_json_slurp_file]
    returns for a path, the text or errno; the child process behind the firmware query is
    given by what it wrote and how it ended. *)
From S2P Require Import Prelude CText Codec ScanList Commands IpListText State JsonText JsonUtil Routes Roam DeviceFiles.
From stdpp Require Import base list numbers option tactics strings.
From Stdlib Require Import ZArith Lia.
#[local] Open Scope Z_scope.
Import Commands IpListText JsonUtil Routes Roam DeviceFiles.

Module PlatformRead.

Definition ENODEV : Z := 19.
Definition INT8_MIN : Z := -128.
Definition INT8_MAX : Z := 127.

(** ** Field parsers *)

Definition parse_signed_dbm (s : list Z) : option Z :=
  '(v, _) ← strtol s; let v := i32 v in
  let v := if v <? INT8_MIN then INT8_MIN else v in
  Some (if INT8_MAX <? v then INT8_MAX else v).
Definition parse_width_to_bw (s : list Z) : option Z :=
  '(v, _) ← strtol s; let mhz := i32 v in
  if mhz =? 20 then Some OPC_BANDWIDTH_20
  else if mhz =? 40 then Some OPC_BANDWIDTH_40
  else if mhz =? 80 then Some OPC_BANDWIDTH_80
  else if mhz =? 160 then Some OPC_BANDWIDTH_160
  else if mhz =? 320 then Some OPC_BANDWIDTH_320
  else None.
(** [strstr(s, k) != NULL] *)
Fixpoint has (k s : list Z) : bool :=
  starts k s || match s with [] => false | _ :: s' => has k s' end.
Definition parse_bitrate_to_mode (s : list Z) : option Z :=
  if has (str " HE-") s then Some OPC_WLAN_MODE_11AX
  else if has (str " VHT-") s then Some OPC_WLAN_MODE_11AC
  else if has (str " MCS ") s then Some OPC_WLAN_MODE_11N
  else None.
(** [%x] *)
Definition scan_x (s : list Z) : option (Z * list Z) := '(v, r) ← scan_lx s; Some (u32 v, r).
Fixpoint scan_hexes (n : nat) (s : list Z) : option (list Z) :=
  match n with
  | O => Some []
  | S n => '(v, r) ← scan_x s;
           match n, r with
           | O, _ => Some [v]
           | _, c :: r' => if c =? 58 then vs ← scan_hexes n r'; Some (v :: vs) else None
           | _, [] => None
           end
  end.
Definition parse_mac_str (s : list Z) : option (list Z) :=
  v ← scan_hexes 6 s; if forallb (λ x, x <=? 255) v then Some v else None.

(** ** Addresses *)

Definition ETH0_LINK_JSON : string := "/var/log/cantops/json/eth0/link.json".
Definition MLAN0_LINK_JSON : string := "/var/log/cantops/json/mlan0/link.json".
Definition MLAN1_LINK_JSON : string := "/var/log/cantops/json/mlan1/link.json".

(** [slurp]: the files; [access_mlan1]: errno of [access] on mlan1's link.json, [None]: 0. *)
Record device := mk_device { slurp : string → Z + list Z; access_mlan1 : option Z }.

(** [None] in place of the address: a failed [parse_mac_str] leaves the caller's buffer. *)
Definition mac_field (r : json_result (list Z)) : Z * option (list Z) :=
  match r with
  | Failed rc => (rc, Some (zeros 6))
  | Got buf => match parse_mac_str buf with Some mac => (0, Some mac) | None => (- EINVAL, None) end
  end.
Definition nxp_get_eth_mac (d : device) : Z * option (list Z) :=
  match slurp d ETH0_LINK_JSON with
  | inl e => (- e, Some (zeros 6))
  | inr json => mac_field (opc_json_string json "mac_address" 32)
  end.
Definition nxp_json_ipv4 (json : list Z) (key : string) : Z :=
  match opc_json_string json key 32 with
  | Failed _ => 0
  | Got buf => default 0 (parse_ipv4 buf)
  end.
Definition nxp_get_dev_ipv4 (d : device) (iface : Z) : Z * (Z * Z * Z) :=
  match slurp d (if iface =? 1 then MLAN0_LINK_JSON else ETH0_LINK_JSON) with
  | inl e => (- e, (0, 0, 0))
  | inr json => (0, (nxp_json_ipv4 json "ip_address", nxp_json_ipv4 json "netmask", nxp_json_ipv4 json "gateway"))
  end.
Definition nxp_get_wlan_count (d : device) : Z :=
  match access_mlan1 d with None => 2 | Some e => if e =? ENOENT then 1 else - e end.
Definition link_path (idx : Z) : string := if idx =? 0 then MLAN0_LINK_JSON else MLAN1_LINK_JSON.
Definition no_wlan (d : device) (idx : Z) : bool := (idx <? 0) || (nxp_get_wlan_count d <=? idx).
Definition nxp_get_wlan_mac (d : device) (idx : Z) : Z * option (list Z) :=
  if no_wlan d idx then (- ENODEV, None)
  else match slurp d (link_path idx) with
       | inl e => (- e, Some (zeros 6))
       | inr json => mac_field (opc_json_string_section json "info" "address" 32)
       end.
(** The first 65535 bytes of /proc/net/route; [inl]: the call that failed. *)
Definition ROUTE_TEXT : Z := 65536.
Definition nxp_lookup_direct_route (table : Z + list Z) (dst_host : Z) : Z + Z :=
  match table with
  | inl e => inl (- e)
  | inr s => match opcd_route_direct_lookup (Some (cstr (take (Z.to_nat (ROUTE_TEXT - 1)) s))) dst_host with
             | Some mask => inr mask
             | None => inl (- ENETUNREACH)
             end
  end.

(** ** Link state *)

Definition link_zero : opcd_platform_link_t := mk_link 0 0 0 0 false (zeros 6) 0 0 false false false.
Definition info_number (json : list Z) (key : string) (lo : Z) : Z :=
  match opc_json_integer_section json "info" key with
  | Got v => if (lo <=? v) && (v <=? 65535) then v else 0
  | Failed _ => 0
  end.
Definition section_field {A} (json : list Z) (section key : string) (parse : list Z → option A) : option A :=
  match opc_json_string_section json section key 64 with Got buf => parse buf | Failed _ => None end.
Definition link_of (json : list Z) : opcd_platform_link_t :=
  let freq := info_number json "freq" 1 in
  let channel := info_number json "channel" 0 in
  let bssid := section_field json "link" "address" parse_mac_str in
  let associated := bool_decide (is_Some bssid) in
  let bw := if associated then section_field json "info" "width" parse_width_to_bw else None in
  let tx := if associated then default 0 (section_field json "link" "tx_bitrate" parse_bitrate_to_mode) else 0 in
  let mode := if associated && (tx =? 0)
              then default 0 (section_field json "link" "rx_bitrate" parse_bitrate_to_mode) else tx in
  let rssi := section_field json "link" "signal_avg" parse_signed_dbm in
  let snr := match rssi with
             | Some r =>
                 if associated then
                   match opc_json_integer_section json "channel_info" "noise" with
                   | Got noise =>
                       if (INT8_MIN <=? noise) && (noise <? 0) then
                         let snr := r - noise in
                         let snr := if snr <? INT8_MIN then INT8_MIN else snr in
                         Some (if INT8_MAX <? snr then INT8_MAX else snr)
                       else None
                   | Failed _ => None
                   end
                 else None
             | None => None
             end in
  mk_link freq channel mode (default 0 bw) (bool_decide (is_Some bw)) (default (zeros 6) bssid)
    (default 0 snr) (default 0 rssi) (bool_decide (is_Some snr)) (bool_decide (is_Some rssi)) associated.
(** The return code and the structure; it is left alone for an interface that is not there. *)
Definition nxp_get_link (d : device) (idx : Z) (out : opcd_platform_link_t) : Z * opcd_platform_link_t :=
  if no_wlan d idx then (- ENODEV, out)
  else match slurp d (link_path idx) with
       | inl e => (- e, link_zero)
       | inr json => (0, link_of json)
       end.

(** What a readback promises: every field within its type, and no value of a link that is
    not there. *)
Record link_ok (l : opcd_platform_link_t) : Prop := {
  lk_freq : is_u16 (l_freq_mhz l); lk_channel : is_u16 (l_channel l);
  lk_bssid : length (l_bssid l) = 6%nat ∧ bytes_ok (l_bssid l);
  lk_rssi : is_i8 (l_rssi l); lk_snr : is_i8 (l_snr l);
  lk_mode : l_mode l ∈ [0; OPC_WLAN_MODE_11N; OPC_WLAN_MODE_11AC; OPC_WLAN_MODE_11AX];
  lk_bw : l_bandwidth_valid l = true →
          l_bandwidth l ∈ [OPC_BANDWIDTH_20; OPC_BANDWIDTH_40; OPC_BANDWIDTH_80; OPC_BANDWIDTH_160; OPC_BANDWIDTH_320];
  lk_down : l_associated l = false →
            l_bssid l = zeros 6 ∧ l_mode l = 0 ∧ l_bandwidth_valid l = false ∧ l_snr_valid l = false;
  lk_no_rssi : l_rssi_valid l = false → l_rssi l = 0 ∧ l_snr_valid l = false;
  lk_snr_pos : l_snr_valid l = true → l_rssi l < l_snr l ∨ l_snr l = INT8_MAX }.

(** Membership in a list of constants. *)
Ltac in_list := lazymatch goal with |- ?P => apply (bool_decide_eq_true_1 P); reflexivity end.
Lemma parse_mac_str_ok s mac : parse_mac_str s = Some mac → length mac = 6%nat ∧ bytes_ok mac.
Proof.
  unfold parse_mac_str. destruct (scan_hexes 6 s) as [v|] eqn:E; [|done]. cbn [mbind option_bind].
  destruct (forallb _ v) eqn:Ef; [|done]. intros [= <-].
  assert (Hn : ∀ n t w, scan_hexes n t = Some w → length w = n ∧ Forall (λ x, 0 <= x) w).
  { clear. induction n as [|n IH]; intros t w; cbn [scan_hexes]; [intros [= <-]; by repeat constructor|].
    destruct (scan_x t) as [[x r]|] eqn:Ex; [|done]. cbn [mbind option_bind].
    assert (Hx : 0 <= x). { unfold scan_x in Ex. destruct (scan_lx t) as [[y q]|]; [|done].
      cbn in Ex. injection Ex as <- _. apply u32_range. }
    destruct n as [|n]; [destruct r; intros [= <-]; by repeat constructor|].
    destruct r as [|c r]; [done|]. destruct (c =? 58); [|done].
    destruct (scan_hexes (S n) r) as [vs|] eqn:Ev; [|done]. cbn [mbind option_bind]. intros [= <-].
    destruct (IH r vs Ev) as [Hl Hf]. split; [cbn; by rewrite Hl|by constructor]. }
  destruct (Hn _ _ _ E) as [Hl Hf]. split; [done|]. apply Forall_forall. intros x Hx.
  rewrite Forall_forall in Hf. specialize (Hf x Hx).
  assert (Hle : (x <=? 255) = true).
  { apply (proj1 (forallb_forall _ _) Ef x). by apply list_elem_of_In. }
  guards. unfold is_u8. lia.
Qed.
Lemma parse_signed_dbm_ok s v : parse_signed_dbm s = Some v → is_i8 v.
Proof.
  unfold parse_signed_dbm, is_i8, INT8_MIN, INT8_MAX. destruct (strtol s) as [[x r]|]; [|done].
  cbn [mbind option_bind]. cbv zeta. intros [= <-].
  destruct (i32 x <? -128) eqn:E1; guards; [cbn; lia|]. destruct (127 <? i32 x) eqn:E2; guards; lia.
Qed.
Lemma section_field_inv {A} (P : A → Prop) json section key parse v :
  (∀ s a, parse s = Some a → P a) → section_field json section key parse = Some v → P v.
Proof. intros HP. unfold section_field. destruct (opc_json_string_section _ _ _ _); [apply HP|done]. Qed.
Lemma info_number_ok json key lo : 0 <= lo → is_u16 (info_number json key lo).
Proof.
  intros. unfold info_number, is_u16. destruct (opc_json_integer_section _ _ _) as [v|]; [|lia].
  destruct (_ && _) eqn:E; guards; lia.
Qed.
Definition mode_ok (m : Z) : Prop := m ∈ [0; OPC_WLAN_MODE_11N; OPC_WLAN_MODE_11AC; OPC_WLAN_MODE_11AX].
Definition bw_ok (b : Z) : Prop :=
  b ∈ [OPC_BANDWIDTH_20; OPC_BANDWIDTH_40; OPC_BANDWIDTH_80; OPC_BANDWIDTH_160; OPC_BANDWIDTH_320].
Lemma bitrate_mode_ok json key : mode_ok (default 0 (section_field json "link" key parse_bitrate_to_mode)).
Proof.
  destruct (section_field _ _ _ _) as [m|] eqn:E; cbn [default]; [|by left].
  apply (section_field_inv mode_ok) in E; [done|]. clear. unfold parse_bitrate_to_mode, mode_ok. intros s a.
  destruct (has _ s); [intros [= <-]; in_list|]. destruct (has _ s); [intros [= <-]; in_list|].
  destruct (has _ s); [intros [= <-]; in_list|done].
Qed.
Lemma link_of_ok json : link_ok (link_of json).
Proof.
  unfold link_of. cbv zeta.
  destruct (section_field json "link" "address" parse_mac_str) as [mac|] eqn:Em.
  - rewrite bool_decide_eq_true_2 by done. cbv iota.
    apply (section_field_inv (λ m, length m = 6%nat ∧ bytes_ok m)) in Em; [|apply parse_mac_str_ok].
    pose proof (bitrate_mode_ok json "tx_bitrate") as Htx. pose proof (bitrate_mode_ok json "rx_bitrate") as Hrx.
    set (tx := default 0 (section_field json "link" "tx_bitrate" _)) in *.
    set (rx := default 0 (section_field json "link" "rx_bitrate" _)) in *. clearbody tx rx.
    set (bw := section_field json "info" "width" parse_width_to_bw).
    assert (Hbw : ∀ b, bw = Some b → bw_ok b).
    { intros b. apply (section_field_inv bw_ok). clear. intros s a. unfold parse_width_to_bw, bw_ok.
      destruct (strtol s) as [[x r]|]; [|done]. cbn [mbind option_bind]. cbv zeta.
      repeat (destruct (i32 x =? _); [intros [= <-]; in_list|]). done. }
    clearbody bw.
    destruct (section_field json "link" "signal_avg" parse_signed_dbm) as [r|] eqn:Er.
    + apply (section_field_inv is_i8) in Er; [|apply parse_signed_dbm_ok].
      set (snr := match opc_json_integer_section _ _ _ with Got _ => _ | Failed _ => _ end).
      assert (Hsnr : ∀ v, snr = Some v → is_i8 v ∧ (r < v ∨ v = INT8_MAX)).
      { intros v. unfold snr, is_i8, INT8_MIN, INT8_MAX in *. destruct (opc_json_integer_section _ _ _) as [n|]; [|done].
        destruct (_ && _) eqn:E; [|done]. cbv zeta. intros [= <-]. guards.
        destruct (r - n <? -128) eqn:E1; guards; [lia|]. destruct (127 <? r - n) eqn:E2; guards; lia. }
      clearbody snr.
      constructor; cbn [l_freq_mhz l_channel l_mode l_bandwidth l_bandwidth_valid l_bssid l_snr l_rssi l_snr_valid l_rssi_valid l_associated default].
      * by apply info_number_ok.
      * by apply info_number_ok.
      * done.
      * done.
      * destruct snr as [v|]; [by apply Hsnr|done].
      * by destruct (tx =? 0).
      * destruct bw as [b|]; [intros _; by apply Hbw|done].
      * done.
      * done.
      * destruct snr as [v|]; [intros _; by apply Hsnr|done].
    + constructor; cbn [l_freq_mhz l_channel l_mode l_bandwidth l_bandwidth_valid l_bssid l_snr l_rssi l_snr_valid l_rssi_valid l_associated default];
        try done; try (by apply info_number_ok).
      * by destruct (tx =? 0).
      * destruct bw as [b|]; [intros _; by apply Hbw|done].
  - rewrite bool_decide_eq_false_2 by (intros [? ?]; done). cbv iota.
    set (rssi := section_field json "link" "signal_avg" parse_signed_dbm).
    assert (Hr : ∀ v, rssi = Some v → is_i8 v) by (intros v; apply section_field_inv, parse_signed_dbm_ok).
    clearbody rssi.
    constructor; cbn [l_freq_mhz l_channel l_mode l_bandwidth l_bandwidth_valid l_bssid l_snr l_rssi l_snr_valid l_rssi_valid l_associated default];
      try (by apply info_number_ok).
    + split; [done|]. by repeat constructor.
    + destruct rssi as [v|]; [by apply Hr|done].
    + by destruct rssi.
    + left.
    + done.
    + intros _. by destruct rssi.
    + by destruct rssi.
    + by destruct rssi.
Qed.

Lemma link_zero_ok : link_ok link_zero.
Proof.
  constructor; cbn; try done; [split; [done|by repeat constructor]|in_list].
Qed.
(** The link readback, for any contents of the logger's files. Every field is within
    its type; without an association there is no BSSID, mode, bandwidth or SNR; a signal
    that was not read is never given as a value, and the SNR is above the signal level or
    at the top of its range; an association is reported only for an interface that is
    there and whose file could be read. *)
Theorem nxp_get_link_ok d idx :
  let '(rc, l) := nxp_get_link d idx link_zero in
  link_ok l ∧ (l_associated l = true → rc = 0 ∧ 0 <= idx < nxp_get_wlan_count d).
Proof.
  unfold nxp_get_link. destruct (no_wlan d idx) eqn:E; [split; [apply link_zero_ok|done]|].
  destruct (slurp d (link_path idx)) as [e|json]; [split; [apply link_zero_ok|done]|].
  split; [apply link_of_ok|]. intros _. split; [done|]. unfold no_wlan in E. apply orb_false_iff in E as [E1 E2]. guards. lia.
Qed.
Example link_read_back :
  let json := str "{ ~info~: {~freq~: 5180, ~channel~: 36, ~width~: ~80 MHz~}, ~link~: {~address~: ~02:00:00:00:01:00~, ~signal_avg~: ~-66 dBm~, ~tx_bitrate~: ~433.3 MBit/s VHT-MCS 9~}, ~channel_info~: {~5180~: {~noise~: -95}} }" in
  link_of (map (λ c, if c =? 126 then 34 else c) json) =
  mk_link 5180 36 OPC_WLAN_MODE_11AC OPC_BANDWIDTH_80 true [2; 0; 0; 0; 1; 0] 29 (-66) true true true.
Proof. vm_compute. reflexivity. Qed.

(** ** The NTP server in effect *)

Definition TIMESYNCD_CONF : string := "/etc/systemd/timesyncd.conf".
Definition OPC_NTP_DROPIN : string := "/run/systemd/timesyncd.conf.d/opc-ntp.conf".

(** The loop over the lines of [strtok_r(body, "\n")]; empty lines never come up. *)
Fixpoint ntp_lines (fuel : nat) (body : list Z) : option Z :=
  match fuel with
  | O => None
  | S fuel =>
      let '(ln, rest) := split_lf body in
      match (if len ln =? 0 then None else opc_ntp_parse_line ln), rest with
      | Some server, _ => Some server
      | None, Some rest => ntp_lines fuel rest
      | None, None => None
      end
  end.
(** The return code and the server left in the output. *)
Definition ntp_from_file (d : device) (path : string) : Z * Z :=
  match slurp d path with
  | inl e => (- e, 0)
  | inr body => match ntp_lines (S (length body)) body with Some server => (0, server) | None => (- ENOENT, 0) end
  end.
Definition nxp_get_ntp_server (d : device) : Z * Z :=
  let '(rc, server) := ntp_from_file d OPC_NTP_DROPIN in
  if rc =? 0 then (0, server) else ntp_from_file d TIMESYNCD_CONF.

(** ** The firmware version *)

Definition FW_CACHE_LEN : Z := OPC_VERSION_FIELD_LEN.
Definition FW_RETRY_INTERVAL_S : Z := 60.
Definition FW_RETRY_MAX : Z := 5.
Definition fw_trail (c : Z) : bool := (c =? 10) || (c =? 13) || (c =? 32) || (c =? 9).
(** What [nxp_query_fw_version] makes of the child: what it wrote to the pipe, and whether
    it exited with 0 inside the deadline; [None]: -1. *)
Definition nxp_query_fw_version (written : list Z) (exited_0 : bool) (cap : Z) : option (list Z) :=
  if negb exited_0 then None
  else let buf := take (Z.to_nat (FW_CACHE_LEN - 1)) written in
       let v := rev (skip fw_trail (rev buf)) in
       if len v =? 0 then None else Some (take (Z.to_nat (cap - 1)) v).

Record fw_state := mk_fw { g_fw_cache : list Z; g_fw_retries_left : Z; g_fw_retry_wait_s : Z }.
(** [q]: what the query would give at that moment. *)
Definition nxp_fw_version_init (q : option (list Z)) : fw_state := mk_fw (default [] q) FW_RETRY_MAX 0.
(** The state after a tick; the flag says whether the query ran. *)
Definition nxp_refresh_firmware_version (elapsed_s : Z) (q : option (list Z)) (s : fw_state) : bool * fw_state :=
  if negb (rd (g_fw_cache s) 0 =? 0) || (g_fw_retries_left s =? 0) then (false, s)
  else
    let wait := if u32 (FW_RETRY_INTERVAL_S - g_fw_retry_wait_s s) <=? elapsed_s
                then FW_RETRY_INTERVAL_S else u32 (g_fw_retry_wait_s s + elapsed_s) in
    if wait <? FW_RETRY_INTERVAL_S then (false, mk_fw (g_fw_cache s) (g_fw_retries_left s) wait)
    else (true, mk_fw (default [] q) (g_fw_retries_left s - 1) 0).
Definition nxp_get_firmware_version (s : fw_state) (cap : Z) : list Z := take (Z.to_nat (cap - 1)) (cstr (g_fw_cache s)).

(** A run of timer ticks: what happened at each of them (the seconds passed, and the result of
    the query if it ran), and the state. *)
Definition fw_tick (x : list (Z * option (option (list Z))) * fw_state) (t : Z * option (list Z)) : list (Z * option (option (list Z))) * fw_state :=
  let '(ran, s) := nxp_refresh_firmware_version t.1 t.2 x.2 in
  (x.1 ++ [(t.1, if ran then Some t.2 else None)], s).
Definition fw_run (ticks : list (Z * option (list Z))) (s : fw_state) : list (Z * option (option (list Z))) * fw_state :=
  foldl fw_tick ([], s) ticks.
(** Read off a history: the results so far, the seconds since the last query (or the start),
    and the seconds of a stretch. *)
Definition fw_results (hist : list (Z * option (option (list Z)))) : list (option (list Z)) := omap snd hist.
Definition fw_since (hist : list (Z * option (option (list Z)))) : Z :=
  foldl (λ acc h, match h.2 with Some _ => 0 | None => acc + h.1 end) 0 hist.
Definition fw_seconds (hist : list (Z * option (option (list Z)))) : Z := foldr Z.add 0 (map fst hist).
(** A version that reads as a non-empty string. *)
Definition version_ok (q : option (list Z)) : Prop := match q with Some v => rd v 0 ≠ 0 | None => True end.
(** When the query runs, in terms of the history alone. *)
Definition fw_due (q0 : option (list Z)) (pre : list (Z * option (option (list Z)))) (elapsed : Z) : Prop :=
  Forall (λ r, r = None) (q0 :: fw_results pre) ∧ len (fw_results pre) < FW_RETRY_MAX ∧ FW_RETRY_INTERVAL_S <= fw_since pre + elapsed.
Definition fw_schedule (q0 : option (list Z)) (hist : list (Z * option (option (list Z)))) : Prop :=
  ∀ pre e x post, hist = pre ++ (e, x) :: post → is_Some x ↔ fw_due q0 pre e.

Lemma fw_results_snoc hist e x : fw_results (hist ++ [(e, x)]) = fw_results hist ++ match x with Some q => [q] | None => [] end.
Proof. unfold fw_results. rewrite omap_app. by destruct x. Qed.
Lemma fw_since_snoc hist e x : fw_since (hist ++ [(e, x)]) = match x with Some _ => 0 | None => fw_since hist + e end.
Proof. unfold fw_since. by rewrite foldl_app. Qed.
Lemma fw_schedule_snoc q0 hist e x : fw_schedule q0 hist → (is_Some x ↔ fw_due q0 hist e) → fw_schedule q0 (hist ++ [(e, x)]).
Proof.
  intros Hs Hx pre e' x' post Heq. destruct post as [|h post _] using rev_ind.
  - apply app_inj_tail in Heq as [-> [= -> ->]]. done.
  - rewrite app_comm_cons, app_assoc in Heq. apply app_inj_tail in Heq as [-> _]. by eapply Hs.
Qed.
Lemma fw_since_stretch a x e b : Forall (λ h, 0 <= h.1) b → fw_since (a ++ (e, Some x) :: b) <= fw_seconds b ∧ 0 <= fw_since (a ++ (e, Some x) :: b).
Proof.
  induction b as [|[e' y] b IH] using rev_ind; intros Hb.
  - rewrite fw_since_snoc. done.
  - apply Forall_app in Hb as [Hb H0]. apply Forall_cons_1 in H0 as [H0 _]. cbn in H0. specialize (IH Hb).
    rewrite app_comm_cons, app_assoc, fw_since_snoc. unfold fw_seconds in *. rewrite map_app, foldr_app. cbn [map foldr fst].
    assert (Hf : ∀ l z, foldr Z.add z l = foldr Z.add 0 l + z) by (intros l; induction l as [|c l IHl]; intros z; cbn; [lia|rewrite IHl; lia]).
    rewrite Hf. destruct y; lia.
Qed.
(** The state and the history of a run agree. *)
Record fw_tracks (q0 : option (list Z)) (hist : list (Z * option (option (list Z)))) (s : fw_state) : Prop := {
  ft_left : g_fw_retries_left s = FW_RETRY_MAX - len (fw_results hist) ∧ 0 <= g_fw_retries_left s;
  ft_cache : g_fw_cache s = default [] (default None (last (q0 :: fw_results hist)));
  ft_missing : rd (g_fw_cache s) 0 = 0 ↔ Forall (λ r, r = None) (q0 :: fw_results hist);
  ft_wait : rd (g_fw_cache s) 0 = 0 → g_fw_retries_left s ≠ 0 →
    g_fw_retry_wait_s s = fw_since hist ∧ 0 <= fw_since hist < FW_RETRY_INTERVAL_S;
  ft_schedule : fw_schedule q0 hist }.
Lemma version_ok_empty q : version_ok q → rd (default [] q) 0 = 0 ↔ q = None.
Proof. intros Hq. destruct q as [v|]; cbn in *; split; done. Qed.
Lemma fw_tracks_init q0 : version_ok q0 → fw_tracks q0 [] (nxp_fw_version_init q0).
Proof.
  intros H0. split; cbn [nxp_fw_version_init g_fw_cache g_fw_retries_left g_fw_retry_wait_s]; [done|done| |done|].
  - rewrite version_ok_empty by done. split; [by repeat constructor|by inversion 1].
  - intros pre e x post Hp. by destruct pre.
Qed.
Lemma fw_tracks_idle q0 hist s e : fw_tracks q0 hist s → ¬ fw_due q0 hist e → (rd (g_fw_cache s) 0 ≠ 0 ∨ g_fw_retries_left s = 0) →
  fw_tracks q0 (hist ++ [(e, None)]) s.
Proof.
  intros [Hl Hc Hm Hw Hs] Hd Hor. split; rewrite ?fw_results_snoc, ?app_nil_r; [done..| |].
  - intros Hz Hn. by destruct Hor.
  - apply fw_schedule_snoc; [done|]. split; [by intros [? ?]|done].
Qed.
Lemma fw_tracks_tick q0 hist s e q : fw_tracks q0 hist s → 0 <= e <= 4294967295 → version_ok q →
  let '(ran, s') := nxp_refresh_firmware_version e q s in fw_tracks q0 (hist ++ [(e, if ran then Some q else None)]) s'.
Proof.
  intros Ht He Hq. pose proof Ht as [[Hl Hl0] Hc Hm Hw Hs]. unfold nxp_refresh_firmware_version.
  destruct (rd (g_fw_cache s) 0 =? 0) eqn:Ec; guards; cbn [negb orb].
  2: { apply fw_tracks_idle; [done| |by left]. intros (Hn & _). by apply Ec, Hm. }
  destruct (g_fw_retries_left s =? 0) eqn:El; guards.
  { apply fw_tracks_idle; [done| |by right]. intros (_ & Hn & _). lia. }
  destruct (Hw Ec El) as [Ew Hsince]. unfold FW_RETRY_INTERVAL_S in Hsince. rewrite Ew. cbv zeta. unfold FW_RETRY_INTERVAL_S.
  rewrite (u32_id (60 - _)) by (unfold is_u32; lia). assert (Hnone : Forall (λ r, r = None) (q0 :: fw_results hist)) by (by apply Hm).
  destruct (60 - fw_since hist <=? e) eqn:Ee; guards.
  - change (60 <? 60) with false. cbv iota. split; rewrite ?fw_results_snoc, ?fw_since_snoc; cbn [g_fw_cache g_fw_retries_left g_fw_retry_wait_s].
    + rewrite len_app. change (len [q]) with 1. lia.
    + by rewrite app_comm_cons, last_snoc.
    + rewrite version_ok_empty by done. rewrite app_comm_cons, Forall_app, Forall_singleton. tauto.
    + done.
    + apply fw_schedule_snoc; [done|]. split; [|by eexists]. intros _. split_and!; [done|lia|unfold FW_RETRY_INTERVAL_S; lia].
  - rewrite u32_id by (unfold is_u32; lia). rewrite (proj2 (Z.ltb_lt (fw_since hist + e) 60)) by lia.
    split; rewrite ?fw_results_snoc, ?fw_since_snoc, ?app_nil_r; cbn [g_fw_cache g_fw_retries_left g_fw_retry_wait_s]; try done.
    + intros _ _. split; [done|unfold FW_RETRY_INTERVAL_S; lia].
    + apply fw_schedule_snoc; [done|]. split; [by intros [? ?]|]. intros (_ & _ & Hd). unfold FW_RETRY_INTERVAL_S in Hd. lia.
Qed.
Lemma fw_run_tracks q0 ticks : version_ok q0 → Forall (λ t, 0 <= t.1 <= 4294967295 ∧ version_ok t.2) ticks →
  let '(hist, s) := fw_run ticks (nxp_fw_version_init q0) in map fst hist = map fst ticks ∧ fw_tracks q0 hist s.
Proof.
  intros H0. unfold fw_run. induction ticks as [|[e q] ticks IH] using rev_ind; intros Ht; [split; [done|by apply fw_tracks_init]|].
  apply Forall_app in Ht as [Ht He]. apply Forall_cons_1 in He as [[He Hq] _]. rewrite foldl_app. specialize (IH Ht).
  destruct (foldl fw_tick _ ticks) as [hist s]. destruct IH as [IHm IH]. cbn [foldl]. unfold fw_tick. cbn [fst snd] in *.
  pose proof (fw_tracks_tick q0 hist s e q IH He Hq) as Hn. destruct (nxp_refresh_firmware_version e q s) as [ran s']. split; [|done].
  by rewrite !map_app, IHm.
Qed.

(** C40: the firmware version query. Whatever the timer delivers after a start: a tick runs
    the query exactly when every query so far failed, fewer than five have run since the
    start, and sixty seconds have passed since the last one (or the start); so two queries are never less
    than sixty seconds apart and there are at most five; the version served is what the last
    query gave. *)
Theorem fw_retries_bounded q0 ticks :
  version_ok q0 → Forall (λ t, 0 <= t.1 <= 4294967295 ∧ version_ok t.2) ticks →
  let '(hist, s) := fw_run ticks (nxp_fw_version_init q0) in
  map fst hist = map fst ticks ∧ fw_schedule q0 hist ∧
  len (fw_results hist) <= FW_RETRY_MAX ∧
  (∀ a e1 x b e2 y c, hist = a ++ (e1, Some x) :: b ++ (e2, Some y) :: c → FW_RETRY_INTERVAL_S <= fw_seconds b + e2) ∧
  g_fw_cache s = default [] (default None (last (q0 :: fw_results hist))).
Proof.
  intros H0 Ht. pose proof (fw_run_tracks q0 ticks H0 Ht) as H. destruct (fw_run ticks _) as [hist s]. destruct H as [Hm [Hl Hc _ _ Hs]].
  split_and!; [done|done|lia| |done]. intros a e1 x b e2 y c Hh.
  assert (Hpos : Forall (λ h, 0 <= h.1) hist).
  { apply (Forall_map fst (λ e, 0 <= e)). rewrite Hm. apply Forall_map. eapply Forall_impl; [exact Ht|]. cbn. lia. }
  assert (Hb : Forall (λ h, 0 <= h.1) b) by (rewrite Hh in Hpos; apply Forall_app in Hpos as [_ Hp]; apply Forall_cons_1 in Hp as [_ Hp]; by apply Forall_app in Hp as [? _]).
  rewrite app_comm_cons, app_assoc in Hh. destruct (proj1 (Hs _ _ _ _ Hh) ltac:(by eexists)) as (_ & _ & Hd).
  pose proof (fw_since_stretch a x e1 b Hb). lia.
Qed.
Lemma fw_retries_bounded_witness :
  let ticks := [(30, None); (30, None); (120, None); (1, None); (60, Some (str "1.2")); (60, None)] in
  fw_run ticks (nxp_fw_version_init None) =
    ([(30, None); (30, Some None); (120, Some None); (1, None); (60, Some (Some (str "1.2"))); (60, None)], mk_fw (str "1.2") 2 0) ∧
  fw_schedule None (fw_run ticks (nxp_fw_version_init None)).1.
Proof.
  split; [vm_compute; reflexivity|].
  pose proof (fw_retries_bounded None [(30, None); (30, None); (120, None); (1, None); (60, Some (str "1.2")); (60, None)] I) as H.
  destruct (fw_run _ _) as [hist s]. apply H. repeat constructor; cbn; try lia; discriminate.
Defined.
End PlatformRead.
