(* ===== verification/NlEvents.v ===== *)
(** * Link events: the nl80211 half of opcd/platform_nxp.c

    What a drain of the event socket delivers: the messages of each datagram are parsed
    (Nl80211.v), mapped to one of the two stations, translated to platform events under
    the per-station caches (subtype and sender of the last deauthentication or
    disassociation frame, last channel) and coalesced to the latest of each kind and
    station. The calls around a message (interface names, the kernel's answer to a query,
    the link readback) are arguments. *)
From S2P Require Import Prelude CText Codec ScanList Commands Indications State Validate Daemon Nl80211 PlatformRead.
From stdpp Require Import base list numbers option tactics strings.
From Stdlib Require Import ZArith Lia.
#[local] Open Scope Z_scope.
Import Commands Validate Daemon Nl80211 PlatformRead.

Module NlEvents.

Definition NL_GENL_ID_CTRL : Z := 16.
Definition NL_MSG_ERROR : Z := 2.
Definition NL_CTRL_CMD_GETFAMILY : Z := 3.
Definition NL_CTRL_ATTR_FAMILY_NAME : Z := 2.
Definition NL_FAMILY_NAME : string := "nl80211".
Definition NL_RECV_BUF : Z := 8192.
Definition NL_COALESCE_MAX : Z := 8.
Definition NXP_WLAN_COUNT_MAX : Z := 2.

(** ** Family resolution *)

Definition nl_build_getfamily (cap : Z) : option (list Z) :=
  let name := str NL_FAMILY_NAME ++ [0] in
  let nla_len := NL_NLATTR_HDR_LEN + len name in
  let total := NL_NLMSGHDR_LEN + NL_GENLMSGHDR_LEN + NLA_ALIGN nla_len in
  if cap <? total then None
  else
    let buf := zeros total in
    let buf := write_at 0 (le_u32 total) buf in
    let buf := write_at 4 (le_u16 NL_GENL_ID_CTRL) buf in
    let buf := write_at 6 (le_u16 NLM_F_REQUEST) buf in
    let buf := write_at 16 [NL_CTRL_CMD_GETFAMILY] buf in
    let buf := write_at 17 [1] buf in
    let aoff := NL_NLMSGHDR_LEN + NL_GENLMSGHDR_LEN in
    let buf := write_at aoff (le_u16 nla_len) buf in
    let buf := write_at (aoff + 2) (le_u16 NL_CTRL_ATTR_FAMILY_NAME) buf in
    Some (write_at (aoff + NL_NLATTR_HDR_LEN) name buf).

(** [kernel]: what a request is answered with; [None]: a call on the socket failed. *)
Definition nl_reply (kernel : list Z → option (list Z)) (req : list Z) : option (list Z) :=
  reply ← kernel req; Some (take (Z.to_nat NL_RECV_BUF) reply).
(** The family and the group; [None]: -1. *)
Definition nl_resolve_family (kernel : list Z → option (list Z)) : res (option (Z * Z)) :=
  match nl_build_getfamily 64 with
  | None => mret None
  | Some req =>
      match nl_reply kernel req with
      | None => mret None
      | Some reply =>
          if len reply <? NL_NLMSGHDR_LEN + NL_GENLMSGHDR_LEN then mret None
          else reply_type ← rd_u16 reply 4;
               if reply_type =? NL_MSG_ERROR then mret None else nl80211_parse_ctrl_family reply
      end
  end.

(** ** The channel query *)

(** What surrounds the handling of one message. *)
Record nl_around := mk_around {
  if_indextoname : Z → option (list Z); kernel : list Z → option (list Z); dev : device }.

Definition nl_ifindex_to_idx (a : nl_around) (ifindex : Z) : Z :=
  if ifindex <=? 0 then -1
  else match if_indextoname a ifindex with
       | Some name => if bool_decide (name = str "mlan0") then 0
                      else if bool_decide (name = str "mlan1") then 1 else -1
       | None => -1
       end.
Definition nxp_query_iface (family_id : Z) (a : nl_around) (ifindex : Z) : res (option opcd_nl_evt_t) :=
  if (family_id =? 0) || (ifindex <=? 0) then mret None
  else match nl80211_build_get_interface 64 family_id (u32 ifindex) with
  | None => mret None
  | Some req =>
      match nl_reply (kernel a) req with
      | None => mret None
      | Some reply =>
          if len reply <? NL_NLMSGHDR_LEN + NL_GENLMSGHDR_LEN then mret None
          else reply_type ← rd_u16 reply 4;
               if reply_type =? NL_MSG_ERROR then mret None
               else '(rc, nev) ← nl80211_parse_evt reply family_id;
                    mret (if (rc =? 0) && bool_decide (e_kind nev = OPCD_NL_INTERFACE) then Some nev else None)
      end
  end.
Definition nxp_get_iface_freq (family_id : Z) (a : nl_around) (ifindex : Z) : res (option (Z * Z)) :=
  r ← nxp_query_iface family_id a ifindex;
  mret (match r with
        | Some nev => if negb (e_freq_mhz nev =? 0) then Some (e_freq_mhz nev, e_channel nev) else None
        | None => None
        end).

(** ** The caches *)

Record nl_caches := mk_caches { g_ap_disc_msgid : list Z; g_ap_disc_mac : list (list Z); g_last_ch : list Z }.
#[global] Instance eta_caches : Eta nl_caches := λ c, mk_caches (g_ap_disc_msgid c) (g_ap_disc_mac c) (g_last_ch c).
Definition caches_init : nl_caches :=
  mk_caches [OPC_AP_MSG_DEAUTHENTICATION; OPC_AP_MSG_DEAUTHENTICATION] [zeros 6; zeros 6]
    [OPC_WLAN_CH_UNSET; OPC_WLAN_CH_UNSET].
Definition known_idx (idx : Z) : bool := (0 <=? idx) && (idx <? NXP_WLAN_COUNT_MAX).
Definition nl_note_ch (idx ch_field : Z) (c : nl_caches) : nl_caches :=
  if negb (known_idx idx) then c
  else c <| g_last_ch := <[Z.to_nat idx := if ch_field =? 0 then OPC_WLAN_CH_UNSET else ch_field]> (g_last_ch c) |>.
(** [freq]: the result of [g_iface_freq_query]. *)
Definition nl_seed_ch_cache_idx (freq : Z → option (Z * Z)) (idx ifindex : Z) (c : nl_caches) : nl_caches :=
  if negb (known_idx idx) || (ifindex =? 0) then c
  else match freq ifindex with Some (f, ch) => nl_note_ch idx (opc_chan_field f ch) c | None => c end.
(** [index]: [if_nametoindex]. *)
Definition nl_seed_ch_cache (freq : Z → option (Z * Z)) (index : string → Z) (c : nl_caches) : nl_caches :=
  nl_seed_ch_cache_idx freq 1 (index "mlan1"%string) (nl_seed_ch_cache_idx freq 0 (index "mlan0"%string) c).
Definition nl_clear_ap_disc_hint (idx : Z) (c : nl_caches) : nl_caches :=
  if negb (known_idx idx) then c
  else (c <| g_ap_disc_msgid := <[Z.to_nat idx := OPC_AP_MSG_DEAUTHENTICATION]> (g_ap_disc_msgid c) |>)
         <| g_ap_disc_mac := <[Z.to_nat idx := zeros 6]> (g_ap_disc_mac c) |>.

(** ** Coalescing *)

Definition evt_kind (e : opcd_platform_evt_t) : Z :=
  match e with
  | OPCD_PEVT_NONE => 0 | OPCD_PEVT_INIT_COMPLETE _ => 1 | OPCD_PEVT_WLAN_STATUS _ _ _ => 2
  | OPCD_PEVT_ROAMING _ _ _ _ _ => 3 | OPCD_PEVT_AP_DISCONNECT _ _ _ _ => 4
  | OPCD_PEVT_FAULT_DETECT _ _ => 5 | OPCD_PEVT_RESET_NOTICE _ => 6
  end.
Definition coalesce_idx (e : opcd_platform_evt_t) : Z :=
  match e with
  | OPCD_PEVT_WLAN_STATUS idx _ _ => idx
  | OPCD_PEVT_ROAMING idx _ _ _ _ => idx
  | OPCD_PEVT_AP_DISCONNECT idx _ _ _ => idx
  | _ => 0
  end.
(** The loop over the table; [None]: nothing was replaced. *)
Fixpoint coalesce_replace (tab : list opcd_platform_evt_t) (evt : opcd_platform_evt_t)
    : option (list opcd_platform_evt_t) :=
  match tab with
  | [] => None
  | e :: tab' =>
      if (evt_kind e =? evt_kind evt) && (coalesce_idx e =? coalesce_idx evt) then Some (evt :: tab')
      else r ← coalesce_replace tab' evt; Some (e :: r)
  end.
Definition nl_coalesce_put (tab : list opcd_platform_evt_t) (evt : opcd_platform_evt_t) : list opcd_platform_evt_t :=
  match coalesce_replace tab evt with
  | Some tab' => tab'
  | None => if len tab <? NL_COALESCE_MAX then tab ++ [evt] else tab
  end.

(** ** Translation *)

Definition usable_mac (nev : opcd_nl_evt_t) : bool :=
  e_mac_present nev && (Z.land (rd (e_mac nev) 0) 1 =? 0) && negb (bool_decide (e_mac nev = zeros 6)).
Definition nl_stage_evt (family_id : Z) (a : nl_around) (nev : opcd_nl_evt_t) (idx : Z)
    (t : list opcd_platform_evt_t * nl_caches) : res (list opcd_platform_evt_t * nl_caches) :=
  let '(tab, c) := t in
  match e_kind nev with
  | OPCD_NL_CONNECT =>
      if negb (e_status_code nev =? 0) then mret (tab, c)
      else
        let c := nl_clear_ap_disc_hint idx c in
        k ← (if e_channel nev =? 0 then nxp_get_iface_freq family_id a (e_ifindex nev) else mret None);
        let '(kfreq, kch) := default (0, 0) k in
        let channel := opc_assoc_chan_field (e_freq_mhz nev) (e_channel nev) (negb (kfreq =? 0)) kfreq kch in
        let c := nl_note_ch idx channel c in
        mret (nl_coalesce_put tab (OPCD_PEVT_WLAN_STATUS (u8 idx) OPCD_WLAN_STATUS_ASSOCIATED channel), c)
  | OPCD_NL_DISCONNECT =>
      let tab :=
        if e_by_ap nev then
          let reason := if known_idx idx then default 0 (g_ap_disc_msgid c !! Z.to_nat idx)
                        else OPC_AP_MSG_DEAUTHENTICATION in
          let mac := if usable_mac nev then e_mac nev
                     else if known_idx idx then default [] (g_ap_disc_mac c !! Z.to_nat idx) else zeros 6 in
          nl_coalesce_put tab (OPCD_PEVT_AP_DISCONNECT (u8 idx) reason (e_reason_code nev) mac)
        else tab in
      let c := nl_clear_ap_disc_hint idx c in
      let channel := if known_idx idx then default 0 (g_last_ch c !! Z.to_nat idx) else OPC_WLAN_CH_UNSET in
      mret (nl_coalesce_put tab (OPCD_PEVT_WLAN_STATUS (u8 idx) OPCD_WLAN_STATUS_UP channel), c)
  | OPCD_NL_DEAUTH | OPCD_NL_DISASSOC =>
      mret (tab,
        if known_idx idx then
          (c <| g_ap_disc_msgid := <[Z.to_nat idx := if bool_decide (e_kind nev = OPCD_NL_DEAUTH)
                  then OPC_AP_MSG_DEAUTHENTICATION else OPC_AP_MSG_DISASSOCIATION]> (g_ap_disc_msgid c) |>)
             <| g_ap_disc_mac := <[Z.to_nat idx := e_ap_frame_mac nev]> (g_ap_disc_mac c) |>
        else c)
  | OPCD_NL_ROAM =>
      let c := nl_clear_ap_disc_hint idx c in
      let link := (nxp_get_link (dev a) idx link_zero).2 in
      let snr := if l_snr_valid link then l_snr link else OPC_WLAN_SIGNAL_INVALID in
      let rssi := if l_rssi_valid link then l_rssi link else OPC_WLAN_SIGNAL_INVALID in
      let channel := opc_notify_chan_field (e_freq_mhz nev) (e_channel nev) in
      let c := nl_note_ch idx channel c in
      mret (nl_coalesce_put tab (OPCD_PEVT_ROAMING (u8 idx) snr rssi (e_mac nev) channel), c)
  | OPCD_NL_CH_SWITCH =>
      let channel := opc_notify_chan_field (e_freq_mhz nev) (e_channel nev) in
      let c := nl_note_ch idx channel c in
      mret (nl_coalesce_put tab (OPCD_PEVT_WLAN_STATUS (u8 idx) OPCD_WLAN_STATUS_CHANNEL_CHANGE channel), c)
  | OPCD_NL_IGNORE | OPCD_NL_INTERFACE => mret (tab, c)
  end.

(** ** The drain *)

(** The messages of one datagram, from offset [off] on. *)
Fixpoint datagram_loop (fuel : nat) (family_id : Z) (around : Z → nl_around) (buf : list Z) (off : Z)
    (t : list opcd_platform_evt_t * nl_caches) : res (list opcd_platform_evt_t * nl_caches) :=
  if negb (off + NL_NLMSGHDR_LEN <=? len buf) then mret t
  else match fuel with
  | O => OutOfFuel
  | S fuel =>
      msglen ← rd_u32 buf off;
      if (msglen <? NL_NLMSGHDR_LEN) || (len buf - off <? msglen) then mret t
      else
        msg ← bytes_at buf off msglen;
        '(rc, nev) ← nl80211_parse_evt msg family_id;
        t ← (if rc =? 0 then
               let idx := nl_ifindex_to_idx (around off) (e_ifindex nev) in
               if 0 <=? idx then nl_stage_evt family_id (around off) nev idx t else mret t
             else mret t);
        let advance := NLA_ALIGN msglen in
        if (advance =? 0) || (off + advance <=? off) then mret t
        else datagram_loop fuel family_id around buf (off + advance) t
  end.

(** The results of [recv]; the list ends where [recv] reports EAGAIN. *)
Inductive nl_recv := NlData (buf : list Z) (around : Z → nl_around) | NlEintr | NlEnobufs | NlError.
Fixpoint drain_loop (family_id : Z) (rx : list nl_recv) (t : list opcd_platform_evt_t * nl_caches)
    : res (list opcd_platform_evt_t * nl_caches) :=
  match rx with
  | [] | NlError :: _ => mret t
  | NlEintr :: rx' | NlEnobufs :: rx' => drain_loop family_id rx' t
  | NlData buf around :: rx' =>
      let buf := take (Z.to_nat NL_RECV_BUF) buf in
      if len buf =? 0 then mret t
      else t ← datagram_loop (length buf) family_id around buf 0 t; drain_loop family_id rx' t
  end.
(** The delivery: the return code and the events given to the callback. *)
Fixpoint deliver (cb : opcd_platform_evt_t → Z) (tab : list opcd_platform_evt_t) : Z * list opcd_platform_evt_t :=
  match tab with
  | [] => (0, [])
  | e :: tab' => let rc := cb e in
                 if 0 <? rc then (rc, [e]) else let '(r, l) := deliver cb tab' in (r, e :: l)
  end.
Definition nxp_drain_events (fd family_id : Z) (rx : list nl_recv) (cb : opcd_platform_evt_t → Z) (c : nl_caches)
    : res (Z * list opcd_platform_evt_t * nl_caches) :=
  if fd <? 0 then mret (0, [], c)
  else '(tab, c) ← drain_loop family_id rx ([], c); mret (deliver cb tab, c).

(** ** Specification: the history of a drain *)

(** A message for one of the stations: the event, what the kernel answers to the query of
    the operating channel, and the link as read back at that moment. *)
Record nl_msg := mk_msg { m_idx : Z; m_evt : opcd_nl_evt_t; m_freq : Z * Z; m_link : opcd_platform_link_t }.
Definition value {A} (r : res A) (dflt : A) : A := match r with Ok a => a | _ => dflt end.
Definition msg_of (family_id : Z) (a : nl_around) (bytes : list Z) : list nl_msg :=
  let '(rc, nev) := value (nl80211_parse_evt bytes family_id) (-1, nl_evt_zero) in
  let idx := nl_ifindex_to_idx a (e_ifindex nev) in
  if (rc =? 0) && (0 <=? idx)
  then [mk_msg idx nev (default (0, 0) (value (nxp_get_iface_freq family_id a (e_ifindex nev)) None))
          (nxp_get_link (dev a) idx link_zero).2]
  else [].
(** The messages of a datagram: each is as long as its header says, padded to four bytes. *)
Fixpoint msgs_from (fuel : nat) (family_id : Z) (around : Z → nl_around) (buf : list Z) (off : Z) : list nl_msg :=
  match fuel with
  | O => []
  | S fuel =>
      let n := le_num4 (slice off 4 buf) in
      if (off + NL_NLMSGHDR_LEN <=? len buf) && (NL_NLMSGHDR_LEN <=? n) && (n <=? len buf - off)
      then msg_of family_id (around off) (slice off n buf) ++ msgs_from fuel family_id around buf (off + NLA_ALIGN n)
      else []
  end.
Fixpoint history (family_id : Z) (rx : list nl_recv) : list nl_msg :=
  match rx with
  | [] | NlError :: _ => []
  | NlEintr :: rx' | NlEnobufs :: rx' => history family_id rx'
  | NlData buf around :: rx' =>
      let buf := take (Z.to_nat NL_RECV_BUF) buf in
      if len buf =? 0 then []
      else msgs_from (length buf) family_id around buf 0 ++ history family_id rx'
  end.

Definition kind_is (k : opcd_nl_kind_t) (m : nl_msg) : bool := bool_decide (e_kind (m_evt m) = k).
Definition connects (m : nl_msg) : bool := kind_is OPCD_NL_CONNECT m && (e_status_code (m_evt m) =? 0).
Definition frame (m : nl_msg) : bool := kind_is OPCD_NL_DEAUTH m || kind_is OPCD_NL_DISASSOC m.
Definition ends_hint (m : nl_msg) : bool := connects m || kind_is OPCD_NL_DISCONNECT m || kind_is OPCD_NL_ROAM m.
Definition tunes (m : nl_msg) : bool := connects m || kind_is OPCD_NL_ROAM m || kind_is OPCD_NL_CH_SWITCH m.
Definition chan (m : nl_msg) : Z :=
  let nev := m_evt m in
  if kind_is OPCD_NL_CONNECT m then
    let '(kfreq, kch) := if e_channel nev =? 0 then m_freq m else (0, 0) in
    opc_assoc_chan_field (e_freq_mhz nev) (e_channel nev) (negb (kfreq =? 0)) kfreq kch
  else opc_notify_chan_field (e_freq_mhz nev) (e_channel nev).
(** The latest message of a station with a property. *)
Definition latest_msg (idx : Z) (f : nl_msg → bool) (past : list nl_msg) : option nl_msg :=
  last (filter (λ m, m_idx m = idx ∧ f m = true) past).

(** Subtype and sender of the AP's frame since the last association, roam or disconnect. *)
Definition label (c : nl_caches) (past : list nl_msg) (idx : Z) : Z * list Z :=
  match latest_msg idx (λ m, frame m || ends_hint m) past with
  | Some m => if frame m then (if kind_is OPCD_NL_DEAUTH m then OPC_AP_MSG_DEAUTHENTICATION else OPC_AP_MSG_DISASSOCIATION,
                               e_ap_frame_mac (m_evt m))
              else (OPC_AP_MSG_DEAUTHENTICATION, zeros 6)
  | None => (default 0 (g_ap_disc_msgid c !! Z.to_nat idx), default [] (g_ap_disc_mac c !! Z.to_nat idx))
  end.
(** The channel in effect: that of the last association, roam or channel switch. *)
Definition channel_at (c : nl_caches) (past : list nl_msg) (idx : Z) : Z :=
  match latest_msg idx tunes past with
  | Some m => if chan m =? 0 then OPC_WLAN_CH_UNSET else chan m
  | None => default 0 (g_last_ch c !! Z.to_nat idx)
  end.
(** The events a message stands for, after the messages [past]. *)
Definition events_of (c : nl_caches) (past : list nl_msg) (m : nl_msg) : list opcd_platform_evt_t :=
  let idx := m_idx m in
  let nev := m_evt m in
  match e_kind nev with
  | OPCD_NL_CONNECT =>
      if e_status_code nev =? 0 then [OPCD_PEVT_WLAN_STATUS idx OPCD_WLAN_STATUS_ASSOCIATED (chan m)] else []
  | OPCD_NL_DISCONNECT =>
      (if e_by_ap nev
       then [OPCD_PEVT_AP_DISCONNECT idx (label c past idx).1 (e_reason_code nev)
               (if usable_mac nev then e_mac nev else (label c past idx).2)] else []) ++
      [OPCD_PEVT_WLAN_STATUS idx OPCD_WLAN_STATUS_UP (channel_at c past idx)]
  | OPCD_NL_ROAM =>
      let l := m_link m in
      [OPCD_PEVT_ROAMING idx (if l_snr_valid l then l_snr l else OPC_WLAN_SIGNAL_INVALID)
         (if l_rssi_valid l then l_rssi l else OPC_WLAN_SIGNAL_INVALID) (e_mac nev) (chan m)]
  | OPCD_NL_CH_SWITCH => [OPCD_PEVT_WLAN_STATUS idx OPCD_WLAN_STATUS_CHANNEL_CHANGE (chan m)]
  | _ => []
  end.
Fixpoint events_after (c : nl_caches) (past : list nl_msg) (msgs : list nl_msg) : list opcd_platform_evt_t :=
  match msgs with [] => [] | m :: l => events_of c past m ++ events_after c (past ++ [m]) l end.

(** The latest event of each kind and station, in the order the pairs first came up. *)
Definition ekey (e : opcd_platform_evt_t) : Z * Z := (evt_kind e, coalesce_idx e).
Fixpoint first_keys (l : list opcd_platform_evt_t) : list (Z * Z) :=
  match l with [] => [] | e :: l => ekey e :: filter (λ k, k ≠ ekey e) (first_keys l) end.
Definition latest_evt (l : list opcd_platform_evt_t) (k : Z * Z) : option opcd_platform_evt_t :=
  last (filter (λ e, ekey e = k) l).
Definition latest (l : list opcd_platform_evt_t) : list opcd_platform_evt_t := omap (latest_evt l) (first_keys l).

(** *** Coalescing *)

Lemma elem_first_keys l k : k ∈ first_keys l ↔ k ∈ map ekey l.
Proof.
  induction l as [|e l IH]; [done|]. cbn [first_keys map]. rewrite !elem_of_cons, list_elem_of_filter, IH.
  destruct (decide (k = ekey e)); tauto.
Qed.
Lemma first_keys_nodup l : NoDup (first_keys l).
Proof.
  induction l as [|e l IH]; cbn [first_keys]; constructor; [|by apply NoDup_filter].
  rewrite list_elem_of_filter. tauto.
Qed.
Lemma first_keys_snoc l e :
  first_keys (l ++ [e]) = first_keys l ++ (if decide (ekey e ∈ first_keys l) then [] else [ekey e]).
Proof.
  induction l as [|d l IH]; [done|]. cbn [first_keys app]. rewrite IH, filter_app. cbn [app]. f_equal. f_equal.
  destruct (decide (ekey e = ekey d)) as [Hd|Hd].
  - rewrite (decide_True (P := ekey e ∈ ekey d :: _)) by (rewrite Hd; left).
    case_decide; [done|]. by rewrite filter_cons_False by (intros H'; by apply H').
  - destruct (decide (ekey e ∈ first_keys l)) as [Hi|Hi].
    + rewrite (decide_True (P := ekey e ∈ ekey d :: _)); [done|]. right. by apply list_elem_of_filter.
    + rewrite decide_False, filter_cons_True by (try done; rewrite elem_of_cons, list_elem_of_filter; tauto). done.
Qed.
Lemma latest_evt_snoc l e k : latest_evt (l ++ [e]) k = if decide (ekey e = k) then Some e else latest_evt l k.
Proof.
  unfold latest_evt. rewrite filter_app. case_decide as Hk.
  - rewrite filter_cons_True by done. apply last_snoc.
  - rewrite filter_cons_False by done. f_equal. apply app_nil_r.
Qed.
Lemma latest_evt_key l k e : latest_evt l k = Some e → ekey e = k.
Proof.
  unfold latest_evt. intros H. apply last_Some_elem_of, list_elem_of_filter in H. tauto.
Qed.
Lemma latest_evt_some l k : k ∈ first_keys l → is_Some (latest_evt l k).
Proof.
  rewrite elem_first_keys. intros (e & -> & Hi)%list_elem_of_fmap. unfold latest_evt. apply last_is_Some.
  intros Hn. assert (Hf : e ∈ filter (λ d, ekey d = ekey e) l) by (by apply list_elem_of_filter). rewrite Hn in Hf. inversion Hf.
Qed.
Lemma coalesce_replace_omap (f : Z * Z → option opcd_platform_evt_t) e ks :
  NoDup ks → (∀ k, k ∈ ks → ∃ d, f k = Some d ∧ ekey d = k) →
  coalesce_replace (omap f ks) e =
  if decide (ekey e ∈ ks) then Some (omap (λ k, if decide (ekey e = k) then Some e else f k) ks) else None.
Proof.
  induction ks as [|k ks IH]; intros Hn Hf; [done|]. apply NoDup_cons in Hn as [Hk Hn].
  destruct (Hf k ltac:(by left)) as (d & Hd & Hdk). cbn [omap list_omap]. rewrite Hd. cbn [coalesce_replace].
  assert (He : (evt_kind d =? evt_kind e) && (coalesce_idx d =? coalesce_idx e) = bool_decide (ekey e = k)).
  { rewrite <- Hdk. unfold ekey. case_bool_decide as H; [injection H as -> ->; by rewrite !Z.eqb_refl|].
    apply not_true_iff_false. intros [H1 H2]%andb_true_iff. guards. congruence. }
  rewrite He. case_bool_decide as Hek.
  - rewrite decide_True by (rewrite Hek; left). rewrite decide_True by done. f_equal. f_equal.
    apply list_omap_ext. apply Forall2_same_length_lookup; split; [done|]. intros i x y Hx Hy.
    rewrite Hx in Hy. injection Hy as <-. rewrite decide_False; [done|].
    intros He'. apply Hk. rewrite <- Hek, He'. by eapply list_elem_of_lookup_2.
  - rewrite IH by (try done; intros; apply Hf; by right).
    destruct (decide (ekey e ∈ ks)) as [Hi|Hi].
    + rewrite decide_True by (by right). rewrite decide_False by done. done.
    + by rewrite decide_False by (rewrite elem_of_cons; tauto).
Qed.

Definition station_keys : list (Z * Z) := [(2, 0); (2, 1); (3, 0); (3, 1); (4, 0); (4, 1)].
Definition station_evt (e : opcd_platform_evt_t) : Prop := ekey e ∈ station_keys.
(** Three kinds on two stations: the table never fills. *)
Lemma latest_fits l : Forall station_evt l → len (latest l) <= 6.
Proof.
  intros Hl. assert (Hs : first_keys l ⊆ station_keys).
  { intros k Hk. apply elem_first_keys, list_elem_of_fmap in Hk as (e & -> & He). rewrite Forall_forall in Hl. by apply Hl. }
  assert (Hn : (length (first_keys l) <= 6)%nat).
  { apply (submseteq_length _ station_keys), NoDup_submseteq; [apply first_keys_nodup|done]. }
  unfold latest, len. assert (Ho : ∀ ks, (length (omap (latest_evt l) ks) <= length ks)%nat).
  { induction ks as [|k ks IH]; [done|]. cbn. destruct (latest_evt l k); cbn; lia. }
  specialize (Ho (first_keys l)). lia.
Qed.
Lemma latest_snoc l e : Forall station_evt l → nl_coalesce_put (latest l) e = latest (l ++ [e]).
Proof.
  intros Hl. unfold nl_coalesce_put. pose proof (latest_fits l Hl) as Hfit. revert Hfit. unfold latest. intros Hfit.
  rewrite (coalesce_replace_omap (latest_evt l)); [|apply first_keys_nodup|].
  2: { intros k Hk. destruct (latest_evt_some l k Hk) as [d Hd]. exists d. split; [done|by eapply latest_evt_key]. }
  rewrite first_keys_snoc. case_decide as He.
  - rewrite app_nil_r. apply list_omap_ext, Forall2_same_length_lookup. split; [done|]. intros i x y Hx Hy.
    rewrite Hx in Hy. injection Hy as <-. by rewrite latest_evt_snoc.
  - rewrite (proj2 (Z.ltb_lt _ _)) by (unfold NL_COALESCE_MAX; lia). rewrite omap_app. f_equal.
    + apply list_omap_ext, Forall2_same_length_lookup. split; [done|]. intros i x y Hx Hy.
      rewrite Hx in Hy. injection Hy as <-. rewrite latest_evt_snoc, decide_False; [done|].
      intros Hex. apply He. rewrite Hex. by eapply list_elem_of_lookup_2.
    + cbn. rewrite latest_evt_snoc, decide_True by done. done.
Qed.
Lemma coalesce_latest l k : Forall station_evt (l ++ k) → foldl nl_coalesce_put (latest l) k = latest (l ++ k).
Proof.
  revert l. induction k as [|e k IH]; intros l H; cbn [foldl]; [by rewrite app_nil_r|].
  rewrite latest_snoc by (by eapply Forall_app_1_l || by apply Forall_app in H as [? _]).
  replace (l ++ e :: k) with ((l ++ [e]) ++ k) in * by (by rewrite <- app_assoc). by apply IH.
Qed.

(** *** Staging *)

Definition caches_ok (c : nl_caches) : Prop :=
  length (g_ap_disc_msgid c) = 2%nat ∧ length (g_ap_disc_mac c) = 2%nat ∧ length (g_last_ch c) = 2%nat.
Definition is_station (idx : Z) : Prop := idx = 0 ∨ idx = 1.
(** The caches [c'] hold what the messages [past] leave of the caches [c]. *)
Record holds (c : nl_caches) (past : list nl_msg) (c' : nl_caches) : Prop := {
  h_ok : caches_ok c';
  h_label : ∀ idx, is_station idx →
    g_ap_disc_msgid c' !! Z.to_nat idx = Some (label c past idx).1 ∧ g_ap_disc_mac c' !! Z.to_nat idx = Some (label c past idx).2;
  h_chan : ∀ idx, is_station idx → g_last_ch c' !! Z.to_nat idx = Some (channel_at c past idx) }.

Lemma latest_msg_snoc idx f past m :
  latest_msg idx f (past ++ [m]) =
  if decide (m_idx m = idx ∧ f m = true) then Some m else latest_msg idx f past.
Proof.
  unfold latest_msg. rewrite filter_app. case_decide as Hk.
  - rewrite filter_cons_True by done. apply last_snoc.
  - rewrite filter_cons_False by done. f_equal. apply app_nil_r.
Qed.
Lemma label_snoc c past m idx :
  label c (past ++ [m]) idx =
  if decide (m_idx m = idx) then
    if frame m then (if kind_is OPCD_NL_DEAUTH m then OPC_AP_MSG_DEAUTHENTICATION else OPC_AP_MSG_DISASSOCIATION,
                     e_ap_frame_mac (m_evt m))
    else if ends_hint m then (OPC_AP_MSG_DEAUTHENTICATION, zeros 6) else label c past idx
  else label c past idx.
Proof.
  unfold label. rewrite latest_msg_snoc. cbv beta. destruct (decide (m_idx m = idx)) as [Hi|Hi].
  - destruct (frame m) eqn:Ef; [rewrite decide_True by done; by rewrite Ef|]. cbn [orb].
    destruct (ends_hint m) eqn:Ee; [rewrite decide_True by done; by rewrite Ef|by rewrite decide_False by (by intros [_ ?])].
  - by rewrite decide_False by (by intros [? _]).
Qed.
Lemma channel_snoc c past m idx :
  channel_at c (past ++ [m]) idx =
  if decide (m_idx m = idx ∧ tunes m = true) then (if chan m =? 0 then OPC_WLAN_CH_UNSET else chan m) else channel_at c past idx.
Proof. unfold channel_at. rewrite latest_msg_snoc. by case_decide. Qed.
Lemma station_cases idx : is_station idx → known_idx idx = true ∧ u8 idx = idx ∧ (Z.to_nat idx < 2)%nat.
Proof. intros [-> | ->]; by repeat split; try lia. Qed.
Lemma insert_station {A} (l : list A) idx idx' x y :
  is_station idx → is_station idx' → length l = 2%nat → l !! Z.to_nat idx' = Some y →
  <[Z.to_nat idx := x]> l !! Z.to_nat idx' = Some (if decide (idx = idx') then x else y).
Proof.
  intros Hi Hi' Hl Hy. destruct (station_cases idx Hi) as (_ & _ & Hlt).
  case_decide as E; [subst; rewrite list_lookup_insert_eq by lia; done|].
  rewrite list_lookup_insert_ne; [done|]. destruct Hi, Hi'; subst; done.
Qed.
Lemma holds_init c : caches_ok c → holds c [] c.
Proof.
  intros (H1 & H2 & H3). constructor; [done|..]; intros idx [-> | ->]; unfold label, channel_at; cbn;
    destruct (g_ap_disc_msgid c) as [|? [|? [|]]], (g_ap_disc_mac c) as [|? [|? [|]]], (g_last_ch c) as [|? [|? [|]]]; done.
Qed.

(** The caches after a message. *)
Definition caches_after (c : nl_caches) (m : nl_msg) : nl_caches :=
  let i := Z.to_nat (m_idx m) in
  let c := if frame m then
             (c <| g_ap_disc_msgid := <[i := if kind_is OPCD_NL_DEAUTH m then OPC_AP_MSG_DEAUTHENTICATION
                                             else OPC_AP_MSG_DISASSOCIATION]> (g_ap_disc_msgid c) |>)
               <| g_ap_disc_mac := <[i := e_ap_frame_mac (m_evt m)]> (g_ap_disc_mac c) |>
           else if ends_hint m then nl_clear_ap_disc_hint (m_idx m) c else c in
  if tunes m then nl_note_ch (m_idx m) (chan m) c else c.
Lemma hint_holds c past c' m :
  is_station (m_idx m) → holds c past c' →
  let c1 := if frame m then
             (c' <| g_ap_disc_msgid := <[Z.to_nat (m_idx m) := if kind_is OPCD_NL_DEAUTH m then OPC_AP_MSG_DEAUTHENTICATION
                                             else OPC_AP_MSG_DISASSOCIATION]> (g_ap_disc_msgid c') |>)
               <| g_ap_disc_mac := <[Z.to_nat (m_idx m) := e_ap_frame_mac (m_evt m)]> (g_ap_disc_mac c') |>
           else if ends_hint m then nl_clear_ap_disc_hint (m_idx m) c' else c' in
  caches_ok c1 ∧ g_last_ch c1 = g_last_ch c' ∧
  ∀ idx, is_station idx → g_ap_disc_msgid c1 !! Z.to_nat idx = Some (label c (past ++ [m]) idx).1 ∧
                          g_ap_disc_mac c1 !! Z.to_nat idx = Some (label c (past ++ [m]) idx).2.
Proof.
  intros Hi [(H1 & H2 & H3) Hl Hc]. destruct (station_cases _ Hi) as (Hk & _ & _). cbv zeta.
  unfold nl_clear_ap_disc_hint. rewrite Hk. cbn [negb].
  assert (Hset : ∀ x y idx, is_station idx →
    <[Z.to_nat (m_idx m) := x]> (g_ap_disc_msgid c') !! Z.to_nat idx = Some (if decide (m_idx m = idx) then x else (label c past idx).1) ∧
    <[Z.to_nat (m_idx m) := y]> (g_ap_disc_mac c') !! Z.to_nat idx = Some (if decide (m_idx m = idx) then y else (label c past idx).2)).
  { intros x y idx Hx. destruct (Hl idx Hx). split; by apply insert_station. }
  destruct (frame m) eqn:Ef; [|destruct (ends_hint m) eqn:Ee].
  - cbn [setter g_ap_disc_msgid g_ap_disc_mac g_last_ch]. split; [|split; [done|]].
    + unfold caches_ok. cbn. by rewrite !length_insert.
    + intros idx Hx. rewrite label_snoc, Ef. cbn.
      destruct (Hset (if kind_is OPCD_NL_DEAUTH m then OPC_AP_MSG_DEAUTHENTICATION else OPC_AP_MSG_DISASSOCIATION)
                  (e_ap_frame_mac (m_evt m)) idx Hx) as [-> ->]. by case_decide.
  - split; [|split; [done|]].
    + unfold caches_ok. cbn. by rewrite !length_insert.
    + intros idx Hx. rewrite label_snoc, Ef, Ee. cbn.
      destruct (Hset OPC_AP_MSG_DEAUTHENTICATION (zeros 6) idx Hx) as [-> ->]. by case_decide.
  - split; [done|split; [done|]]. intros idx Hx. rewrite label_snoc, Ef, Ee. destruct (Hl idx Hx). by case_decide.
Qed.
Lemma caches_after_holds c past c' m :
  is_station (m_idx m) → holds c past c' → holds c (past ++ [m]) (caches_after c' m).
Proof.
  intros Hi Hh. pose proof (hint_holds c past c' m Hi Hh) as H. cbv zeta in H. unfold caches_after. cbv zeta.
  set (c1 := if frame m then _ else _) in *. clearbody c1. destruct H as ((H1 & H2 & H3) & Hch & Hl).
  destruct (station_cases _ Hi) as (Hk & _ & _). unfold nl_note_ch. rewrite Hk. cbn [negb].
  destruct (tunes m) eqn:Et.
  - constructor; [unfold caches_ok; cbn; by rewrite length_insert|exact Hl|]. intros idx Hx. cbn.
    rewrite channel_snoc, Et. rewrite (insert_station _ _ _ _ (channel_at c past idx)) by (try done; rewrite Hch; by apply Hh).
    f_equal. destruct (decide (m_idx m = idx)); [by rewrite decide_True by done|by rewrite decide_False by (by intros [? _])].
  - constructor; [done|exact Hl|]. intros idx Hx. rewrite channel_snoc, Et, decide_False by (by intros [_ ?]).
    rewrite Hch. by apply Hh.
Qed.

Definition around_ok (a : nl_around) : Prop := ∀ req r, kernel a req = Some r → bytes_ok r.
Lemma iface_freq_total family_id a ifindex : around_ok a → ∃ r, nxp_get_iface_freq family_id a ifindex = Ok r.
Proof.
  intros Ha. unfold nxp_get_iface_freq, nxp_query_iface, nl_reply. destruct (_ || _); [by eexists|].
  destruct (nl80211_build_get_interface _ _ _) as [req|]; [|by eexists].
  destruct (kernel a req) as [reply|] eqn:Ek; [|by eexists]. cbn [mbind option_bind].
  assert (Hb : bytes_ok (take (Z.to_nat NL_RECV_BUF) reply)) by (by apply Forall_take; eapply Ha).
  set (r := take _ reply) in *. clearbody r. destruct (len r <? _) eqn:El; [by eexists|]. guards.
  unfold NL_NLMSGHDR_LEN, NL_GENLMSGHDR_LEN in El. rewrite rd_u16_ok by lia. cbn [mbind res_bind].
  destruct (_ =? NL_MSG_ERROR); [by eexists|]. rewrite parse_evt_eq by done. cbv zeta.
  destruct (decide _); cbn [mbind res_bind mret res_ret]; by eexists.
Qed.

Definition msg_at (family_id : Z) (a : nl_around) (nev : opcd_nl_evt_t) (idx : Z) : nl_msg :=
  mk_msg idx nev (default (0, 0) (value (nxp_get_iface_freq family_id a (e_ifindex nev)) None))
    (nxp_get_link (dev a) idx link_zero).2.
Lemma stage_spec family_id a nev idx tab c past c' :
  is_station idx → around_ok a → holds c past c' →
  let m := msg_at family_id a nev idx in
  nl_stage_evt family_id a nev idx (tab, c') = Ok (foldl nl_coalesce_put tab (events_of c past m), caches_after c' m).
Proof.
  intros Hi Ha Hh m. destruct (station_cases _ Hi) as (Hk & Hu & _).
  destruct (h_label _ _ _ Hh idx Hi) as [Hl1 Hl2]. pose proof (h_chan _ _ _ Hh idx Hi) as Hch.
  unfold nl_stage_evt, events_of, caches_after, frame, ends_hint, tunes, connects, kind_is.
  replace (m_idx m) with idx by done. replace (m_evt m) with nev by done. rewrite Hk, Hu.
  destruct (e_kind nev) eqn:Ek;
    repeat first [rewrite bool_decide_eq_true_2 by done | rewrite bool_decide_eq_false_2 by done]; cbn [orb andb]; try done.
  - (* CONNECT *)
    destruct (e_status_code nev =? 0) eqn:Es; cbn [negb orb andb]; [|done].
    assert (Hf : (if e_channel nev =? 0 then nxp_get_iface_freq family_id a (e_ifindex nev) else mret None) =
                 Ok (if e_channel nev =? 0 then value (nxp_get_iface_freq family_id a (e_ifindex nev)) None else None)).
    { destruct (e_channel nev =? 0); [|done]. destruct (iface_freq_total family_id a (e_ifindex nev) Ha) as [r ->]. done. }
    rewrite Hf. cbn [mbind res_bind]. unfold chan, kind_is. replace (m_evt m) with nev by done.
    rewrite Ek, bool_decide_eq_true_2 by done. replace (m_freq m) with (default (0, 0) (value (nxp_get_iface_freq family_id a (e_ifindex nev)) None)) by done.
    destruct (e_channel nev =? 0); [|done].
    destruct (default (0, 0) (value (nxp_get_iface_freq family_id a (e_ifindex nev)) None)) as [kf kc]. done.
  - (* DISCONNECT *)
    rewrite Hl1, Hl2. cbn [default].
    assert (Hc : g_last_ch (nl_clear_ap_disc_hint idx c') = g_last_ch c') by (unfold nl_clear_ap_disc_hint; by rewrite Hk).
    rewrite Hc, Hch. cbn [default]. destruct (e_by_ap nev); done.
  - (* ROAM *)
    unfold chan, kind_is. replace (m_evt m) with nev by done. by rewrite Ek, bool_decide_eq_false_2 by done.
  - (* CH_SWITCH *)
    unfold chan, kind_is. replace (m_evt m) with nev by done. by rewrite Ek, bool_decide_eq_false_2 by done.
Qed.

(** *** Drains *)

Lemma events_of_station c past m : is_station (m_idx m) → Forall station_evt (events_of c past m).
Proof.
  unfold events_of, station_evt. intros [Hi|Hi]; rewrite Hi; destruct (e_kind (m_evt m));
    try destruct (_ =? 0); try destruct (e_by_ap _); cbn [app]; repeat (constructor; [in_list|]); constructor.
Qed.
Lemma events_after_station c msgs : ∀ past, Forall (λ m, is_station (m_idx m)) msgs → Forall station_evt (events_after c past msgs).
Proof.
  induction msgs as [|m l IH]; intros past H; cbn [events_after]; [constructor|]. apply Forall_cons_1 in H as [Hm H].
  apply Forall_app_2; [by apply events_of_station|by apply IH].
Qed.
Lemma events_after_snoc c msgs m : ∀ past,
  events_after c past (msgs ++ [m]) = events_after c past msgs ++ events_of c (past ++ msgs) m.
Proof.
  induction msgs as [|x l IH]; intros past; cbn [events_after app]; [by rewrite !app_nil_r|].
  by rewrite IH, <- !app_assoc.
Qed.
(** The table and the caches after the messages [past]. *)
Record synced (c : nl_caches) (past : list nl_msg) (t : list opcd_platform_evt_t * nl_caches) : Prop := {
  sy_tab : t.1 = latest (events_after c [] past);
  sy_holds : holds c past t.2;
  sy_stations : Forall (λ m, is_station (m_idx m)) past }.
Lemma stage_synced family_id a nev idx c past t :
  is_station idx → around_ok a → synced c past t →
  ∃ t', nl_stage_evt family_id a nev idx t = Ok t' ∧ synced c (past ++ [msg_at family_id a nev idx]) t'.
Proof.
  intros Hi Ha [H1 H2 H3]. destruct t as [tab c']. cbn [fst snd] in *. subst tab.
  rewrite (stage_spec _ _ _ _ _ c past) by done. eexists. split; [done|]. constructor; cbn [fst snd].
  - rewrite events_after_snoc. apply coalesce_latest. apply Forall_app_2; [by apply events_after_station|].
    by apply events_of_station.
  - by apply caches_after_holds.
  - apply Forall_app_2; [done|]. constructor; [exact Hi|constructor].
Qed.
Lemma station_idx a ifindex : 0 <= nl_ifindex_to_idx a ifindex → is_station (nl_ifindex_to_idx a ifindex).
Proof.
  unfold nl_ifindex_to_idx, is_station. destruct (ifindex <=? 0); [lia|]. destruct (if_indextoname a ifindex); [|lia].
  case_bool_decide; [lia|]. case_bool_decide; lia.
Qed.
(** One message. *)
Lemma message_synced family_id a bytes c past t :
  bytes_ok bytes → around_ok a → synced c past t →
  ∃ t', ('(rc, nev) ← nl80211_parse_evt bytes family_id;
         if rc =? 0 then
           let idx := nl_ifindex_to_idx a (e_ifindex nev) in
           if 0 <=? idx then nl_stage_evt family_id a nev idx t else mret t
         else mret t) = Ok t' ∧ synced c (past ++ msg_of family_id a bytes) t'.
Proof.
  intros Hb Ha Hs. unfold msg_of.
  assert (Hp : ∃ r, nl80211_parse_evt bytes family_id = Ok r) by (rewrite parse_evt_eq by done; by eexists).
  destruct Hp as [[rc nev] ->]. cbn [mbind res_bind value]. destruct (rc =? 0); cbn [andb].
  2: { eexists. split; [done|]. by rewrite app_nil_r. }
  cbv zeta. destruct (0 <=? nl_ifindex_to_idx a (e_ifindex nev)) eqn:E; guards.
  - apply stage_synced; [by apply station_idx|done|done].
  - eexists. split; [done|]. by rewrite app_nil_r.
Qed.
Lemma datagram_synced family_id around buf c fuel : ∀ off past t,
  bytes_ok buf → len buf <= 65535 → (∀ o, around_ok (around o)) → 0 <= off → len buf - off <= Z.of_nat fuel → synced c past t →
  ∃ t', datagram_loop fuel family_id around buf off t = Ok t' ∧
        synced c (past ++ msgs_from fuel family_id around buf off) t'.
Proof.
  induction fuel as [|fuel IH]; intros off past t Hb Hn Ha Ho Hf Hs; cbn [datagram_loop msgs_from].
  { unfold NL_NLMSGHDR_LEN. rewrite (proj2 (Z.leb_gt (off + 16) (len buf))) by lia. eexists. split; [done|]. by rewrite app_nil_r. }
  unfold NL_NLMSGHDR_LEN. destruct (off + 16 <=? len buf) eqn:E16; guards; cbn [negb andb].
  2: { eexists. split; [done|]. by rewrite app_nil_r. }
  rewrite rd_u32_ok by lia. cbn [mbind res_bind]. set (n := le_num4 (slice off 4 buf)).
  destruct (n <? 16) eqn:E1; guards; cbn [orb].
  { rewrite (proj2 (Z.leb_gt 16 n)) by lia. eexists. split; [done|]. by rewrite app_nil_r. }
  rewrite (proj2 (Z.leb_le 16 n)) by lia. cbn [andb].
  destruct (len buf - off <? n) eqn:E2; guards.
  { rewrite (proj2 (Z.leb_gt n (len buf - off))) by lia. eexists. split; [done|]. by rewrite app_nil_r. }
  rewrite (proj2 (Z.leb_le n (len buf - off))) by lia.
  rewrite bytes_at_ok by lia. cbn [mbind res_bind].
  destruct (message_synced family_id (around off) (slice off n buf) c past t) as (t1 & Ht1 & Hs1); [|done|done|].
  { apply Forall_take, Forall_drop, Hb. }
  destruct (nl80211_parse_evt (slice off n buf) family_id) as [[rc nev]| |] eqn:Ep; [|done|done]. cbn [mbind res_bind] in Ht1 |- *. cbv zeta in Ht1 |- *.
  rewrite Ht1. cbn [mbind res_bind]. pose proof (align_bounds n ltac:(lia)) as Hal.
  rewrite (proj2 (Z.eqb_neq (NLA_ALIGN n) 0)), (proj2 (Z.leb_gt (off + NLA_ALIGN n) off)) by lia. cbn [orb].
  destruct (IH (off + NLA_ALIGN n) _ t1 Hb Hn Ha ltac:(lia) ltac:(lia) Hs1) as (t2 & -> & Hs2). eexists. split; [done|].
  by rewrite app_assoc.
Qed.
Definition rx_ok (r : nl_recv) : Prop :=
  match r with NlData buf around => bytes_ok buf ∧ ∀ o, around_ok (around o) | _ => True end.
Lemma drain_synced family_id rx c : ∀ past t,
  Forall rx_ok rx → synced c past t →
  ∃ t', drain_loop family_id rx t = Ok t' ∧ synced c (past ++ history family_id rx) t'.
Proof.
  induction rx as [|r rx IH]; intros past t Hr Hs; [eexists; split; [done|]; by rewrite app_nil_r|].
  apply Forall_cons_1 in Hr as [Hr Hrx]. cbn [drain_loop history].
  destruct r as [buf around| | |]; [|by apply IH|by apply IH|eexists; split; [done|]; by rewrite app_nil_r].
  destruct Hr as [Hb Ha]. set (b := take _ buf). assert (Hb' : bytes_ok b) by (by apply Forall_take).
  assert (Hn : len b <= 8192) by (unfold b, len; rewrite length_take; unfold NL_RECV_BUF; lia). clearbody b.
  destruct (len b =? 0); [eexists; split; [done|]; by rewrite app_nil_r|].
  destruct (datagram_synced family_id around b c (length b) 0 past t) as (t1 & -> & Hs1);
    [done|lia|done|lia|unfold len; lia|done|]. cbn [mbind res_bind].
  destruct (IH _ t1 Hrx Hs1) as (t2 & -> & Hs2). eexists. split; [done|]. by rewrite app_assoc.
Qed.

(** C19: what a drain of the event socket delivers. For any datagrams, receive errors and
    surroundings, the drain ends without a read outside a buffer; the callback is given,
    until it asks to stop, the latest event of each kind and station, in the order these
    first came up, and none is dropped for lack of room. A disconnect by the access point
    carries subtype and sender of the frame the access point sent since the last
    association, roam or disconnect of that station (deauthentication and no sender
    without one), and the link-down event carries the channel of the last association,
    roam or channel switch, also from earlier drains, which the caches remember. *)
Theorem nl_drain_refines fd family_id rx cb c :
  0 <= fd → Forall rx_ok rx → caches_ok c →
  let h := history family_id rx in
  ∃ c', nxp_drain_events fd family_id rx cb c = Ok (deliver cb (latest (events_after c [] h)), c') ∧
        holds c h c' ∧ len (latest (events_after c [] h)) <= 6.
Proof.
  intros Hfd Hrx Hc h. unfold nxp_drain_events. rewrite (proj2 (Z.ltb_ge fd 0)) by done.
  destruct (drain_synced family_id rx c [] ([], c) Hrx) as ([tab c'] & -> & [H1 H2 H3]).
  { constructor; [done|by apply holds_init|constructor]. }
  cbn [app fst snd mbind res_bind] in *. subst tab. exists c'. split; [done|]. split; [done|].
  by apply latest_fits, events_after_station.
Qed.

(** A disassociation frame of 02:00:00:00:01:00 on mlan0, then the disconnect. *)
Definition example_msg (cmd : Z) (attrs : list attr) : list Z :=
  let body := [cmd; 1; 0; 0] ++ enc_attrs attrs in
  le_u32 (16 + len body) ++ le_u16 28 ++ zeros 10 ++ body.
Definition example_ap : list Z := [2; 0; 0; 0; 1; 0].
Definition example_frame : list Z := [160; 0; 0; 0] ++ zeros 6 ++ example_ap ++ example_ap ++ zeros 4.
Definition example_rx : list nl_recv :=
  let a := mk_around (λ i, if i =? 3 then Some (str "mlan0") else None) (λ _, None) (mk_device (λ _, inl 2) None) in
  [NlEintr;
   NlData (example_msg NL80211_CMD_DISASSOCIATE [(NL80211_ATTR_IFINDEX, le_u32 3); (NL80211_ATTR_FRAME, example_frame)] ++
           example_msg NL80211_CMD_DISCONNECT [(NL80211_ATTR_IFINDEX, le_u32 3); (NL80211_ATTR_REASON_CODE, le_u16 8);
                                               (NL80211_ATTR_DISCONNECTED_BY_AP, [])]) (λ _, a)].
Lemma nl_drain_refines_witness :
  ∃ c', nxp_drain_events 4 28 example_rx (λ _, 0) caches_init =
        Ok ((0, [OPCD_PEVT_AP_DISCONNECT 0 OPC_AP_MSG_DISASSOCIATION 8 example_ap;
                 OPCD_PEVT_WLAN_STATUS 0 OPCD_WLAN_STATUS_UP OPC_WLAN_CH_UNSET]), c').
Proof.
  destruct (nl_drain_refines 4 28 example_rx (λ _, 0) caches_init) as (c' & H & _).
  - lia.
  - repeat constructor; cbn; try lia; discriminate.
  - by repeat split.
  - exists c'. rewrite H. vm_compute. reflexivity.
Defined.
End NlEvents.
