(* ===== verification/PlatformRun.v ===== *)
(** * Helper processes: the bounded runs and the reset hook of opcd/platform_nxp.c

    [run_argv_bounded_status] polls a child in its own process group. A poll sees what
    [waitpid] reports, whether the group is gone and the milliseconds since the start; the
    loop is a function of the list of polls. After SIGKILL the function waits for the child
    without a bound; what that blocking [waitpid] returns, call by call, is a second list.
    [None] means that the function has not returned after what the lists hold. The return
    codes and signals it produces are what the reset hook classifies. *)
From S2P Require Import Prelude CText.
From stdpp Require Import base list numbers option tactics strings.
From Stdlib Require Import ZArith Lia.
#[local] Open Scope Z_scope.

Module PlatformRun.

Definition EPROTO : Z := 71.
Definition ETIMEDOUT : Z := 110.
Definition EOWNERDEAD : Z := 130.
Definition OPC_RESET_UNCONFIRMED : Z := - EOWNERDEAD.
Definition SIGTERM : Z := 15.
Definition OPC_WLAN_APPLY_POLL_MS : Z := 10.

(** The wait status macros. *)
Definition WTERMSIG (st : Z) : Z := Z.land st 127.
Definition WIFEXITED (st : Z) : bool := WTERMSIG st =? 0.
Definition WEXITSTATUS (st : Z) : Z := Z.land (Z.shiftr st 8) 255.
Definition WIFSIGNALED (st : Z) : bool := negb (WTERMSIG st =? 0) && negb (WTERMSIG st =? 127).

Inductive wait_obs := WRunning | WDone (status : Z) | WEintr | WFail (errno : Z).
Record poll := mk_poll { p_wait : wait_obs; p_gone : bool; p_elapsed : Z }.
(** The returns of a blocking [waitpid]: interrupted, or the child's status or another error. *)
Inductive block_obs := BEintr | BDone (status : Z) | BFail (errno : Z).
(** [while (waitpid(pid, &status, 0) < 0 && errno == EINTR) { }]: is the loop left? *)
Fixpoint reap_block (obs : list block_obs) : bool :=
  match obs with
  | [] => false
  | BEintr :: obs' => reap_block obs'
  | BDone _ :: _ | BFail _ :: _ => true
  end.
(** What was sent to the process group. *)
Inductive sent := TermAt (ms : Z) | KillAt (ms : Z) | KillOnError.
#[global] Instance sent_eq_dec : EqDecision sent.
Proof. solve_decision. Defined.
(** A sleep of the loop: when it was entered, for how long, and whether SIGTERM had been sent. *)
Record nap := mk_nap { n_at : Z; n_ms : Z; n_termed : bool }.
Record run_result := mk_run { rr_rc : Z; rr_wstatus : Z; rr_sent : list sent; rr_naps : list nap }.

Definition term_grace_ms (timeout_ms : Z) : Z := if 150 <? timeout_ms then 150 else Z.quot timeout_ms 2.
Definition term_at_ms (timeout_ms : Z) : Z := timeout_ms - term_grace_ms timeout_ms.
(** The end of the function, after the loop was left with [status]. *)
Definition run_status (status : Z) (naps : list nap) : run_result :=
  mk_run (if negb (WIFEXITED status) || negb (WEXITSTATUS status =? 0) then - EPROTO else 0) status [] naps.
(** How long the loop sleeps after a poll, in milliseconds; none at or below 0. *)
Definition poll_sleep (timeout_ms elapsed_ms : Z) (timeout_started : bool) : Z :=
  let next_ms := if timeout_started then timeout_ms else term_at_ms timeout_ms in
  let remain_ms := next_ms - elapsed_ms in
  if remain_ms <? OPC_WLAN_APPLY_POLL_MS then remain_ms else OPC_WLAN_APPLY_POLL_MS.

(** The loop's variables; [lv_sent] and [lv_naps] are what it has done so far. *)
Record loop_vars := mk_vars { lv_reaped : bool; lv_started : bool; lv_sent : list sent; lv_naps : list nap }.
(** A turn of the loop: it returns, blocks in the wait for a killed child, or goes on. *)
Inductive turn := Ends (r : run_result) | Blocks | Goes (v : loop_vars).
(** After a SIGKILL: the blocking wait for the leader unless [reaped], then the return. *)
Definition after_kill (reaped : bool) (reap : list block_obs) (r : run_result) : turn :=
  if reaped || reap_block reap then Ends r else Blocks.
(** A turn after [waitpid]: the clock, the signals and the sleep. *)
Definition poll_clock (timeout_ms : Z) (reap : list block_obs) (p : poll) (v : loop_vars) : turn :=
  if lv_started v && lv_reaped v && p_gone p then Ends (mk_run (- ETIMEDOUT) (-1) (lv_sent v) (lv_naps v))
  else
    let start := negb (lv_started v) && (term_at_ms timeout_ms <=? p_elapsed p) in
    let s := if start then lv_sent v ++ [TermAt (p_elapsed p)] else lv_sent v in
    if timeout_ms <=? p_elapsed p
    then after_kill (lv_reaped v) reap (mk_run (- ETIMEDOUT) (-1) (s ++ [KillAt (p_elapsed p)]) (lv_naps v))
    else
      let started := lv_started v || start in
      let sleep_ms := poll_sleep timeout_ms (p_elapsed p) started in
      Goes (mk_vars (lv_reaped v) started s (if sleep_ms <=? 0 then lv_naps v else lv_naps v ++ [mk_nap (p_elapsed p) sleep_ms started])).
Definition poll_step (timeout_ms : Z) (reap : list block_obs) (p : poll) (v : loop_vars) : turn :=
  if lv_reaped v then poll_clock timeout_ms reap p v
  else match p_wait p with
       | WDone status => if negb (lv_started v) then Ends (run_status status (lv_naps v))
                         else poll_clock timeout_ms reap p (mk_vars true (lv_started v) (lv_sent v) (lv_naps v))
       | WFail e => after_kill false reap (mk_run (- e) (-1) (lv_sent v ++ [KillOnError]) (lv_naps v))
       | WRunning | WEintr => poll_clock timeout_ms reap p v
       end.
Fixpoint poll_loop (timeout_ms : Z) (reap : list block_obs) (polls : list poll) (v : loop_vars) : option run_result :=
  match polls with
  | [] => None
  | p :: polls' =>
      match poll_step timeout_ms reap p v with
      | Ends r => Some r
      | Blocks => None
      | Goes v => poll_loop timeout_ms reap polls' v
      end
  end.
Definition loop_start : loop_vars := mk_vars false false [] [].
(** [fork_err], [setpgid_err]: errno of a failed call; the latter of one that counts.
    [reap]: the blocking wait, which is entered at most once. *)
Definition run_argv_bounded_status (fork_err setpgid_err : option Z) (timeout_ms : Z) (polls : list poll) (reap : list block_obs)
    : option run_result :=
  match fork_err, setpgid_err with
  | Some e, _ => Some (mk_run (- e) (-1) [] [])
  | None, Some e => if reap_block reap then Some (mk_run (- e) (-1) [KillOnError] []) else None
  | None, None => poll_loop timeout_ms reap polls loop_start
  end.
Definition run_argv_bounded (fork_err setpgid_err : option Z) (timeout_ms : Z) (polls : list poll) (reap : list block_obs) : option Z :=
  rr_rc <$> run_argv_bounded_status fork_err setpgid_err timeout_ms polls reap.

(** ** How a run can end *)

(** The ends of a run, by return code, wait status and signals sent. *)
Inductive run_outcome (timeout_ms : Z) (polls : list poll) : run_result → Prop :=
  | run_exited pre p post status naps :
      polls = pre ++ p :: post → p_wait p = WDone status →
      Forall (λ q, p_elapsed q < term_at_ms timeout_ms) pre →
      run_outcome timeout_ms polls (run_status status naps)
  | run_timed_out t rest naps :
      term_at_ms timeout_ms <= t →
      (rest = [] ∨ ∃ t', rest = [KillAt t'] ∧ timeout_ms <= t') →
      run_outcome timeout_ms polls (mk_run (- ETIMEDOUT) (-1) (TermAt t :: rest) naps)
  | run_wait_failed e pre naps :
      (∃ p, p ∈ polls ∧ p_wait p = WFail e) →
      (pre = [] ∨ ∃ t, pre = [TermAt t] ∧ term_at_ms timeout_ms <= t) →
      run_outcome timeout_ms polls (mk_run (- e) (-1) (pre ++ [KillOnError]) naps).
(** A sleep is at most a poll interval and never goes past the point where the next signal
    is due: SIGTERM, or SIGKILL once SIGTERM was sent. *)
Definition nap_ok (timeout_ms : Z) (n : nap) : Prop :=
  0 < n_ms n <= OPC_WLAN_APPLY_POLL_MS ∧ n_at n + n_ms n <= if n_termed n then timeout_ms else term_at_ms timeout_ms.

Lemma term_at_bounds timeout_ms : 0 < timeout_ms → 0 < term_at_ms timeout_ms <= timeout_ms.
Proof.
  intros. unfold term_at_ms, term_grace_ms. destruct (150 <? timeout_ms) eqn:E; guards; [lia|].
  Z.to_euclidean_division_equations; lia.
Qed.
Lemma poll_sleep_ok timeout_ms elapsed started : 0 < poll_sleep timeout_ms elapsed started →
  nap_ok timeout_ms (mk_nap elapsed (poll_sleep timeout_ms elapsed started) started).
Proof.
  unfold poll_sleep, nap_ok, OPC_WLAN_APPLY_POLL_MS. cbv zeta. cbn [n_ms n_at n_termed]. set (next := if started then _ else _).
  destruct (next - elapsed <? 10) eqn:E; guards; lia.
Qed.
(** While the loop runs: nothing sent and nothing late, or SIGTERM sent. *)
Definition waiting (timeout_ms : Z) (pre : list poll) (v : loop_vars) : Prop :=
  Forall (nap_ok timeout_ms) (lv_naps v) ∧
  if lv_started v then ∃ t, lv_sent v = [TermAt t] ∧ term_at_ms timeout_ms <= t
  else lv_sent v = [] ∧ lv_reaped v = false ∧ Forall (λ q, p_elapsed q < term_at_ms timeout_ms) pre.
Definition stays (timeout_ms : Z) (reap : list block_obs) (pre : list poll) (p : poll) (x : turn) : Prop :=
  match x with
  | Ends r => (∀ post, run_outcome timeout_ms (pre ++ p :: post) r) ∧ Forall (nap_ok timeout_ms) (rr_naps r)
  | Blocks => reap_block reap = false
  | Goes v => waiting timeout_ms (pre ++ [p]) v ∧ p_elapsed p < timeout_ms
  end.
Lemma after_kill_stays timeout_ms reap pre p reaped r :
  stays timeout_ms reap pre p (Ends r) → stays timeout_ms reap pre p (after_kill reaped reap r).
Proof. unfold after_kill. destruct reaped, (reap_block reap) eqn:E; done. Qed.
Lemma poll_clock_stays timeout_ms reap pre p v :
  0 < timeout_ms → waiting timeout_ms pre v → stays timeout_ms reap pre p (poll_clock timeout_ms reap p v).
Proof.
  intros Ht Hw. pose proof (term_at_bounds timeout_ms Ht) as Hta. unfold poll_clock. cbv zeta. destruct v as [lr ts s naps].
  destruct Hw as [Hn Hw]. cbn [lv_reaped lv_started lv_sent lv_naps] in *.
  assert (Hnap : ∀ b, Forall (nap_ok timeout_ms) (if poll_sleep timeout_ms (p_elapsed p) b <=? 0 then naps
                        else naps ++ [mk_nap (p_elapsed p) (poll_sleep timeout_ms (p_elapsed p) b) b])).
  { intros b. destruct (_ <=? 0) eqn:E; guards; [done|]. apply Forall_app_2; [done|]. constructor; [by apply poll_sleep_ok|constructor]. }
  destruct ts; cbn [negb andb orb].
  - destruct Hw as (t & -> & Htt). destruct (lr && p_gone p); [split; [intros post; apply run_timed_out; [done|by left]|done]|].
    destruct (timeout_ms <=? p_elapsed p) eqn:E; guards.
    + apply after_kill_stays. split; [|done]. intros post. apply run_timed_out; [done|right; by eexists].
    + split; [|done]. split; [apply Hnap|by exists t].
  - destruct Hw as (-> & -> & Hpre). cbn [app andb].
    destruct (term_at_ms timeout_ms <=? p_elapsed p) eqn:E1, (timeout_ms <=? p_elapsed p) eqn:E; guards; [| |lia|].
    + apply after_kill_stays. split; [|done]. intros post. apply (run_timed_out _ _ (p_elapsed p) [KillAt (p_elapsed p)]); [done|right; by eexists].
    + split; [|done]. split; [apply Hnap|by exists (p_elapsed p)].
    + split; [|done]. split; [apply Hnap|]. split_and!; [done|done|]. apply Forall_app_2; [done|]. constructor; [done|constructor].
Qed.
Lemma poll_step_stays timeout_ms reap pre p v :
  0 < timeout_ms → waiting timeout_ms pre v → stays timeout_ms reap pre p (poll_step timeout_ms reap p v).
Proof.
  intros Ht Hw. unfold poll_step. destruct (lv_reaped v) eqn:El; [by apply poll_clock_stays|].
  destruct (p_wait p) as [|status| |e] eqn:Ew; [by apply poll_clock_stays| |by apply poll_clock_stays|]; destruct v as [lr ts s naps];
    destruct Hw as [Hn Hw]; cbn [lv_reaped lv_started lv_sent lv_naps] in *.
  - destruct ts; cbn [negb]; [by apply poll_clock_stays|]. split; [|done]. intros post. destruct Hw as (-> & _ & Hpre). by eapply run_exited.
  - apply after_kill_stays. split; [|done]. intros post. apply run_wait_failed; [exists p; split; [apply elem_of_app; right; by left|done]|].
    destruct ts; [by right|left; by destruct Hw].
Qed.
Lemma poll_loop_outcome timeout_ms reap polls r : ∀ pre v,
  0 < timeout_ms → waiting timeout_ms pre v → poll_loop timeout_ms reap polls v = Some r →
  run_outcome timeout_ms (pre ++ polls) r ∧ Forall (nap_ok timeout_ms) (rr_naps r).
Proof.
  induction polls as [|p polls IH]; intros pre v Ht Hw; cbn [poll_loop]; [done|].
  pose proof (poll_step_stays timeout_ms reap pre p v Ht Hw) as Hs.
  destruct (poll_step timeout_ms reap p v) as [r'| |v']; [intros [= <-]; by split; [apply Hs|apply Hs]|done|].
  intros H. replace (pre ++ p :: polls) with ((pre ++ [p]) ++ polls) by (by rewrite <- app_assoc).
  eapply IH; [done|apply Hs|exact H].
Qed.
Lemma poll_loop_returns timeout_ms reap polls : ∀ pre v,
  0 < timeout_ms → waiting timeout_ms pre v → reap_block reap = true →
  (∃ p, p ∈ polls ∧ timeout_ms <= p_elapsed p) → is_Some (poll_loop timeout_ms reap polls v).
Proof.
  induction polls as [|p polls IH]; intros pre v Ht Hw Hr (q & Hq & Hlate); [by apply not_elem_of_nil in Hq|]. cbn [poll_loop].
  pose proof (poll_step_stays timeout_ms reap pre p v Ht Hw) as Hs.
  destruct (poll_step timeout_ms reap p v) as [r'| |v']; [done|by (cbn in Hs; rewrite Hr in Hs)|]. destruct Hs as [Hs Hp].
  eapply IH; [done|exact Hs|done|]. exists q. split; [|done]. apply elem_of_cons in Hq as [->|?]; [lia|done].
Qed.
Lemma waiting_init timeout_ms : waiting timeout_ms [] loop_start.
Proof. by repeat constructor. Qed.
(** C38: a helper process is waited for within its bound, up to the collection of a killed
    child. Once a poll happens at or after the deadline, the run returns as soon as the
    blocking [waitpid] that follows SIGKILL does (its returning is the hypothesis: the kernel ends
    a process that was sent SIGKILL; a call that is only interrupted does not count); the
    same wait follows a failed setpgid. A run returns the child's own status only when the
    child ended before anything was sent to its group; SIGTERM goes to the group once, not
    before the grace point, SIGKILL only after it and at or after the deadline, and a run
    that sent one reports a timeout; the group is also killed when waiting fails. Every sleep
    between the polls is at most a poll interval and ends at or before the time the next
    signal is due. *)
Theorem run_argv_bounded_spec timeout_ms polls reap :
  0 < timeout_ms →
  (reap_block reap = true →
     (∀ fork_err setpgid_err, is_Some fork_err ∨ is_Some setpgid_err → is_Some (run_argv_bounded_status fork_err setpgid_err timeout_ms polls reap)) ∧
     ((∃ p, p ∈ polls ∧ timeout_ms <= p_elapsed p) → is_Some (run_argv_bounded_status None None timeout_ms polls reap))) ∧
  (∀ r, run_argv_bounded_status None None timeout_ms polls reap = Some r →
     run_outcome timeout_ms polls r ∧ Forall (nap_ok timeout_ms) (rr_naps r)).
Proof.
  intros Ht. split.
  - intros Hr. split; [|intros H; by apply (poll_loop_returns timeout_ms reap polls [] loop_start); [|apply waiting_init|..]].
    intros fe se Hs. unfold run_argv_bounded_status. destruct fe; [done|]. destruct se; [by rewrite Hr|]. by destruct Hs as [[? ?]|[? ?]].
  - intros r H. by apply (poll_loop_outcome timeout_ms reap polls r [] loop_start); [|apply waiting_init|].
Qed.
Definition example_polls : list poll :=
  [mk_poll WRunning false 740; mk_poll WRunning false 751; mk_poll WRunning false 895; mk_poll WRunning false 903].
Lemma run_argv_bounded_spec_witness :
  is_Some (run_argv_bounded_status None None 900 example_polls [BEintr; BDone 9]) ∧
  run_argv_bounded_status None None 900 example_polls [BEintr] = None ∧
  run_outcome 900 example_polls (mk_run (- ETIMEDOUT) (-1) [TermAt 751; KillAt 903] [mk_nap 740 10 false; mk_nap 751 10 true; mk_nap 895 5 true]).
Proof.
  destruct (run_argv_bounded_spec 900 example_polls [BEintr; BDone 9]) as (H1 & H2); [lia|]. split; [|split; [reflexivity|]].
  - apply (H1 eq_refl). exists (mk_poll WRunning false 903). split; [|cbn; lia]. unfold example_polls. do 3 right. by left.
  - apply H2. vm_compute. reflexivity.
Defined.

(** ** The reset hook *)

(** [sigtimedwait] on SIGTERM: the time left and what the call reports, a signal or an
    errno; the list ends with the deadline. *)
Fixpoint stop_wait (obs : list (Z * (Z + Z))) : Z :=
  match obs with
  | [] => -1
  | (left_ns, got) :: obs' =>
      if left_ns <=? 0 then -1
      else match got with inl sig => sig | inr errno => if errno =? 4 then stop_wait obs' else -1 end
  end.
Definition nxp_stop_signal_arrives (mask_ok : bool) (obs : list (Z * (Z + Z))) : bool :=
  if negb mask_ok then false else stop_wait obs =? SIGTERM.
(** [stop]: the result of [nxp_stop_signal_arrives], asked only for a plain non-zero exit. *)
Definition nxp_prepare_reset (r : run_result) (stop : bool) : Z :=
  let rc := rr_rc r in
  let wstatus := rr_wstatus r in
  if rc =? 0 then 0
  else if rc =? - ETIMEDOUT then 0
  else if (rc =? - EPROTO) && negb (wstatus =? -1) && WIFSIGNALED wstatus then
    if WTERMSIG wstatus =? SIGTERM then 0 else OPC_RESET_UNCONFIRMED
  else if (rc =? - EPROTO) && negb (wstatus =? -1) && WIFEXITED wstatus then
    let code := WEXITSTATUS wstatus in
    if negb ((code =? 126) || (code =? 127)) && stop then 0
    else if negb (code =? 0) then code else - EPROTO
  else rc.

(** A status [waitpid] gives without [WUNTRACED]: an exit code or a signal. *)
Definition wait_status (st : Z) : Prop :=
  (∃ code, 0 <= code <= 255 ∧ st = code * 256) ∨ (∃ sig core, 1 <= sig <= 126 ∧ (core = 0 ∨ core = 128) ∧ st = sig + core).
(** The three documented classes of a reset. *)
Inductive reset_class := UnderWay | CannotTell | NotStarted.
Definition class_of (rc : Z) : reset_class :=
  if rc =? 0 then UnderWay else if rc =? OPC_RESET_UNCONFIRMED then CannotTell else NotStarted.
(** What the end of the policy client means. *)
Definition meaning (r : run_result) (stop : bool) : reset_class :=
  match rr_sent r with
  | [] => if WIFEXITED (rr_wstatus r) then
            let code := WEXITSTATUS (rr_wstatus r) in
            if code =? 0 then UnderWay
            else if (code =? 126) || (code =? 127) then NotStarted
            else if stop then UnderWay else NotStarted
          else if WTERMSIG (rr_wstatus r) =? SIGTERM then UnderWay else CannotTell
  | s => if bool_decide (KillOnError ∈ s) then NotStarted else UnderWay
  end.
Lemma wait_status_cases st : wait_status st →
  (WTERMSIG st = 0 ∧ 0 <= WEXITSTATUS st <= 255 ∧ st ≠ -1) ∨ (WIFSIGNALED st = true ∧ 1 <= WTERMSIG st <= 126 ∧ st ≠ -1).
Proof.
  assert (H7 : ∀ x, Z.land x 127 = x mod 128) by (intros x; apply (Z.land_ones x 7); lia).
  assert (H8 : ∀ x, Z.land x 255 = x mod 256) by (intros x; apply (Z.land_ones x 8); lia).
  unfold WIFSIGNALED, WTERMSIG, WEXITSTATUS. rewrite H7, H8. intros [(code & Hc & ->)|(sig & core & Hs & Hk & ->)].
  - left. rewrite Z.shiftr_div_pow2 by lia. change (2 ^ 8) with 256. split_and!; Z.to_euclidean_division_equations; lia.
  - right. assert (Hm : (sig + core) mod 128 = sig) by (destruct Hk; subst; Z.to_euclidean_division_equations; lia).
    rewrite Hm. rewrite (proj2 (Z.eqb_neq sig 0)) by lia. rewrite (proj2 (Z.eqb_neq sig 127)) by lia.
    split_and!; [done|lia|lia|lia].
Qed.
(** The reset hook tells its three cases apart. For every way the policy client can
    end within its bound, 0 is returned when a reboot is under way or held (exit 0, the
    bound, the stop job's SIGTERM, or another exit followed by opcd's own stop signal),
    the unconfirmed value exactly when the client died by another signal, and any other
    value when no reboot was started; the values never collide. *)
Theorem reset_classes timeout_ms polls reap stop r :
  0 < timeout_ms →
  Forall (λ p, match p_wait p with WDone st => wait_status st | WFail e => 0 < e ∧ e ∉ [EPROTO; ETIMEDOUT; EOWNERDEAD] | _ => True end) polls →
  run_argv_bounded_status None None timeout_ms polls reap = Some r →
  class_of (nxp_prepare_reset r stop) = meaning r stop.
Proof.
  intros Ht Hp Hr. apply (poll_loop_outcome timeout_ms reap polls r [] loop_start) in Hr as [Hr _]; [|done|apply waiting_init].
  rewrite Forall_forall in Hp. cbn [app] in Hr. destruct Hr as [pre p post st naps -> Hd _|t rest naps _ Hrest|e pre naps (p & Hin & Hw) Hpre].
  - specialize (Hp p ltac:(apply elem_of_app; right; by left)). rewrite Hd in Hp.
    unfold run_status, nxp_prepare_reset, meaning, WIFEXITED. cbn [rr_rc rr_wstatus rr_sent].
    destruct (wait_status_cases st Hp) as [(H0 & Hc & H1)|(Hs & Hsig & H1)].
    + unfold WIFSIGNALED. rewrite H0. change (0 =? 0) with true. rewrite (proj2 (Z.eqb_neq st (-1))) by lia. cbn [negb orb andb].
      destruct (WEXITSTATUS st =? 0) eqn:Ec; guards; cbn [negb]; [done|]. change (- EPROTO =? 0) with false; change (- EPROTO =? - ETIMEDOUT) with false; change (- EPROTO =? - EPROTO) with true; cbn [negb orb andb].
      destruct (_ || _) eqn:E2; cbn [negb andb].
      * unfold class_of, OPC_RESET_UNCONFIRMED, EOWNERDEAD. rewrite (proj2 (Z.eqb_neq (WEXITSTATUS st) 0)), (proj2 (Z.eqb_neq (WEXITSTATUS st) (Z.opp 130))) by lia. done.
      * destruct stop; [done|]. unfold class_of, OPC_RESET_UNCONFIRMED, EOWNERDEAD.
        rewrite (proj2 (Z.eqb_neq (WEXITSTATUS st) 0)), (proj2 (Z.eqb_neq (WEXITSTATUS st) (Z.opp 130))) by lia. done.
    + rewrite (proj2 (Z.eqb_neq (WTERMSIG st) 0)) by lia. rewrite (proj2 (Z.eqb_neq st (-1))) by lia. rewrite Hs.
      cbn [negb orb andb]. change (- EPROTO =? 0) with false; change (- EPROTO =? - ETIMEDOUT) with false; change (- EPROTO =? - EPROTO) with true; cbn [negb orb andb]. by destruct (WTERMSIG st =? SIGTERM).
  - unfold nxp_prepare_reset, meaning. cbn [rr_rc rr_wstatus rr_sent].
    rewrite bool_decide_eq_false_2; [done|]. intros [|Hin]%elem_of_cons; [done|].
    destruct Hrest as [->|(t' & -> & _)]; [by apply not_elem_of_nil in Hin|by apply list_elem_of_singleton in Hin].
  - specialize (Hp p Hin). rewrite Hw in Hp. destruct Hp as [He Hne]. rewrite !not_elem_of_cons in Hne. destruct Hne as (N1 & N2 & N3 & _).
    unfold nxp_prepare_reset, meaning, class_of, OPC_RESET_UNCONFIRMED. cbn [rr_rc rr_wstatus rr_sent].
    rewrite (proj2 (Z.eqb_neq (- e) 0)), (proj2 (Z.eqb_neq (- e) (- ETIMEDOUT))), (proj2 (Z.eqb_neq (- e) (- EPROTO))) by lia. cbn [andb].
    rewrite (proj2 (Z.eqb_neq (- e) 0)), (proj2 (Z.eqb_neq (- e) (- EOWNERDEAD))) by lia.
    destruct Hpre as [->|(t & -> & _)]; cbn [app]; rewrite bool_decide_eq_true_2; [done|by left|done|by right; left].
Qed.
Lemma reset_classes_witness :
  let r := run_status 256 [] in
  class_of (nxp_prepare_reset r true) = UnderWay ∧ class_of (nxp_prepare_reset r true) = meaning r true ∧
  class_of (nxp_prepare_reset (run_status 9 []) true) = CannotTell.
Proof.
  split; [reflexivity|]. split; [|reflexivity]. apply (reset_classes 20000 [mk_poll (WDone 256) false 40] [] true (run_status 256 [])).
  - lia.
  - constructor; [|constructor]. left. exists 1. lia.
  - reflexivity.
Defined.
End PlatformRun.
