(* ===== verification/PlatformApply.v ===== *)
(** * Applying settings to the device: the command half of opcd/platform_nxp.c

    SetRadioConfig and ChangeIpAddress as the platform carries them out: the capability
    check, the text handed to the helper script, and the shell commands, files and marker
    operations of an address change, in their order. A [step] is one such call; [ans]
    answers it, given the steps before it and the step itself, so that every combination of
    successes and failures is covered. *)
From S2P Require Import Prelude CText Codec ScanList Commands IpListText State Validate JsonText JsonUtil DevinfoCfg Routes Roam DeviceFiles PlatformRead.
From stdpp Require Import base list numbers option tactics strings.
From Stdlib Require Import ZArith Lia.
#[local] Open Scope Z_scope.
Import Commands ScanList IpListText Validate JsonUtil DevinfoCfg DeviceFiles PlatformRead.

Module PlatformApply.

Definition EEXIST : Z := 17.
Definition EOPNOTSUPP : Z := 95.
Definition EADDRNOTAVAIL : Z := 99.

(** ** Steps *)

Inductive step :=
  | RunSh (cmd : list Z)                   (* run_argv_bounded of sh -c *)
  | RunApply (argv : list (list Z))        (* run_argv_bounded_status of opc_wlan_apply.sh *)
  | MkDropinDir | WriteDropin (body : list Z) | UnlinkDropin
  | MarkerArm (slot_no : Z) (essid : list Z) | MarkerCommit | MarkerSettle.
(** An operation: its result and the steps it took after the given ones. *)
Definition P (A : Type) : Type := list step → A * list step.
#[global] Instance P_ret : MRet P := λ A x tr, (x, tr).
#[global] Instance P_bind : MBind P := λ A B k m tr, let '(x, tr) := m tr in k x tr.

(** ** Radio *)

Definition radio_mode_token (mode : Z) : option (list Z) :=
  if mode =? OPC_WLAN_MODE_11B then Some (str "b")
  else if mode =? OPC_WLAN_MODE_11G then Some (str "g")
  else if mode =? OPC_WLAN_MODE_11A then Some (str "a")
  else if mode =? OPC_WLAN_MODE_11N then Some (str "n")
  else if mode =? OPC_WLAN_MODE_11AC then Some (str "ac")
  else if mode =? OPC_WLAN_MODE_11AX then Some (str "ax")
  else None.
Definition radio_bw_token (bandwidth : Z) : option (list Z) :=
  if bandwidth =? OPC_BANDWIDTH_20 then Some (str "20")
  else if bandwidth =? OPC_BANDWIDTH_40 then Some (str "40")
  else if bandwidth =? OPC_BANDWIDTH_80 then Some (str "80")
  else None.
Definition is_none {A} (o : option A) : bool := match o with None => true | Some _ => false end.
Definition validate_one_radio (w : opc_wlan_radio_cfg_t) (mlan1 : bool) : Z :=
  if is_none (radio_mode_token (rc_mode w)) || (mlan1 && (rc_mode w =? OPC_WLAN_MODE_11AX)) ||
     (((rc_mode w =? OPC_WLAN_MODE_11B) || (rc_mode w =? OPC_WLAN_MODE_11G)) && (rc_scan_band w =? OPC_SCAN_BAND_5GHZ)) ||
     ((rc_mode w =? OPC_WLAN_MODE_11A) && (rc_scan_band w =? OPC_SCAN_BAND_2_4GHZ))
  then OPC_ERR_RADIO_MODE
  else if is_none (radio_bw_token (rc_bandwidth w)) then OPC_ERR_RADIO_BW
  else 0.
Definition nxp_validate_radio_config (cfg : opc_set_radio_config_req_t) : Z :=
  let err := validate_one_radio (wlan1 cfg) false in
  if negb (err =? 0) then err
  else if station_type cfg =? OPC_STATION_DUAL then validate_one_radio (wlan2 cfg) true
  else 0.

(** [snprintf] at offset [len acc]: the text cut to the room, and whether it fitted. *)
Definition print_at (cap : Z) (acc s : list Z) : list Z * bool :=
  if cap - len acc <=? len s then (acc ++ take (Z.to_nat (cap - len acc - 1)) s, false) else (acc ++ s, true).
Fixpoint render_loop (band : Z) (chs : list Z) (cap total : Z) (acc : list Z) : Z * list Z :=
  match chs with
  | [] => (total, acc)
  | ch :: chs' =>
      let mhz := opc_scan_channel_mhz band ch in
      if mhz =? 0 then render_loop band chs' cap total acc
      else match print_at cap acc ((if len acc =? 0 then [] else str " ") ++ dec mhz) with
           | (acc, false) => (total, acc)
           | (acc, true) => render_loop band chs' cap (total + 1) acc
           end
  end.
Definition scan_freqs_render (w : opc_wlan_radio_cfg_t) (cap : Z) : Z * list Z :=
  if rc_scan_band w =? OPC_SCAN_BAND_UNSET then (if cap <? 5 then (0, []) else (1, str "none"))
  else if negb (opc_scan_band_supported (rc_scan_band w)) then (0, [])
  else let '(n, chs) := opc_scan_list_channels (rc_scan_band w) (rc_scan_chlist w) 64 in
       render_loop (rc_scan_band w) chs cap 0 [].

(** The argument vector; an empty text stands for NULL as well. *)
Definition opt_arg (key : string) (v : list Z) : list (list Z) := match v with [] => [] | _ => [str key; v] end.
Definition apply_argv (iface : string) (freqs mode bandwidth ssid : list Z) : list (list Z) :=
  [str "opc_wlan_apply.sh"; str iface] ++ opt_arg "freq" freqs ++ opt_arg "mode" mode ++ opt_arg "bw" bandwidth ++ opt_arg "ssid" ssid.

Section Apply.
Context (ans : list step → Z).
Definition take_step (s : step) : P Z := λ tr, (ans (tr ++ [s]), tr ++ [s]).

Definition run_opc_wlan_apply (iface : string) (freqs mode bandwidth ssid : list Z) : P Z :=
  match freqs, mode, bandwidth, ssid with
  | [], [], [], [] => mret (- EINVAL)
  | _, _, _, _ => take_step (RunApply (apply_argv iface freqs mode bandwidth ssid))
  end.
Definition nxp_apply_radio_config (cfg : opc_set_radio_config_req_t) : P Z :=
  if negb (nxp_validate_radio_config cfg =? 0) then mret (- EOPNOTSUPP)
  else
    let dual := station_type cfg =? OPC_STATION_DUAL in
    let '(n1, f1) := scan_freqs_render (wlan1 cfg) 320 in
    let '(n2, f2) := if dual then scan_freqs_render (wlan2 cfg) 320 else (0, []) in
    let token {A} (o : option (list A)) := default [] o in
    rc ← (if 0 <? n1 then run_opc_wlan_apply "mlan0" f1 (token (radio_mode_token (rc_mode (wlan1 cfg))))
                            (token (radio_bw_token (rc_bandwidth (wlan1 cfg)))) []
          else mret 0);
    if negb (rc =? 0) then mret rc
    else if dual && (0 <? n2) then
      run_opc_wlan_apply "mlan1" f2 (token (radio_mode_token (rc_mode (wlan2 cfg))))
        (token (radio_bw_token (rc_bandwidth (wlan2 cfg)))) []
    else mret 0.

(** ** NTP *)

Definition ntp_body (server_host : Z) : list Z := str "[Time]" ++ [10] ++ str "NTP=" ++ [10] ++ str "NTP=" ++ ipv4_str server_host ++ [10].
Definition restart_timesyncd : list Z := str "systemctl --no-block try-restart systemd-timesyncd.service".
Definition nxp_apply_ntp (server_host : Z) : P Z :=
  rc ← take_step MkDropinDir;
  if negb (rc =? 0) && negb (rc =? - EEXIST) then mret rc
  else rc ← take_step (WriteDropin (ntp_body server_host));
       if negb (rc =? 0) then mret rc else take_step (RunSh restart_timesyncd).
Definition nxp_clear_ntp : P Z :=
  rc ← take_step UnlinkDropin;
  if negb (rc =? 0) && negb (rc =? - ENOENT) then mret rc else take_step (RunSh restart_timesyncd).

(** ** The address *)

Fixpoint bits_loop (fuel : nat) (v n : Z) : Z :=
  match fuel with O => n | S fuel => if v =? 0 then n else bits_loop fuel (Z.shiftr v 1) (n + Z.land v 1) end.
Definition count_set_bits (v : Z) : Z := bits_loop 32 v 0.

Definition addr_cmd (ip prefix dev : list Z) : list Z :=
  str "ip addr replace " ++ ip ++ str "/" ++ prefix ++ str " dev " ++ dev ++ str " && " ++
  str "ip -4 -o addr show dev " ++ dev ++ str " | grep -q 'inet " ++ ip ++ str "/" ++ prefix ++ str " .*scope global' && " ++
  str "ip -4 addr show dev " ++ dev ++ str " | " ++
  str "awk -v keep=" ++ ip ++ str "/" ++ prefix ++ str " '/scope global/&&!/\/32/&&$2!=keep{print $2}' | " ++
  str "xargs -r -I{} ip addr del {} dev " ++ dev.
Definition route_cmd (gw dev : list Z) (onlink : bool) : list Z :=
  str "ip route replace default via " ++ gw ++ str " dev " ++ dev ++ (if onlink then str " onlink" else []).
Definition flush_cmd (dev : list Z) : list Z := str "ip -4 route flush exact 0.0.0.0/0 dev " ++ dev.

Definition unicast (ip : Z) : bool :=
  let hi := Z.land (Z.shiftr ip 24) 255 in
  negb ((ip =? 0) || (ip =? 4294967295) || (hi =? 127) || (224 <=? hi)).
(** The prefix length of an accepted mask. *)
Definition prefix_of (mask : Z) : option Z :=
  let prefix := count_set_bits mask in
  let recon := if prefix =? 0 then 0 else u32 (Z.shiftl 4294967295 (32 - prefix)) in
  if (prefix <? 1) || (32 <? prefix) || negb (recon =? mask) then None else Some prefix.
Definition clashes (d : device) (iface ip mask : Z) : bool :=
  let '(rc, (oip, omask, _)) := nxp_get_dev_ipv4 d (if iface =? 1 then 0 else 1) in
  (rc =? 0) && negb (oip =? 0) && negb (omask =? 0) && negb (omask =? 4294967295) &&
  (Z.land (Z.land (Z.lxor ip oip) mask) omask =? 0).

Definition apply_gateway (slot : opc_ipcfg_entry_t) (prefix : Z) (dev : list Z) : P unit :=
  let gw := default_gateway slot in
  if unicast gw then _ ← take_step (RunSh (route_cmd (ipv4_str gw) dev (prefix =? 32))); mret tt
  else if gw =? 0 then _ ← take_step (RunSh (flush_cmd dev)); mret tt
  else mret tt.
Definition apply_essid (slot : opc_ipcfg_entry_t) (slot_no : Z) : P unit :=
  if rd (essid slot) 0 =? 0 then mret tt
  else
    let essid_buf := cstr (essid slot) in
    mrc ← take_step (MarkerArm slot_no essid_buf);
    if negb (mrc =? 0) then mret tt
    else
      erc ← run_opc_wlan_apply "mlan0" [] [] [] essid_buf;
      _ ← take_step (if erc =? 0 then MarkerCommit else MarkerSettle); mret tt.
Definition nxp_apply_ip_change (d : device) (slot : opc_ipcfg_entry_t) (iface slot_no : Z) : P Z :=
  let dev := str (if iface =? 1 then "mlan0" else "eth0") in
  match prefix_of (subnet_mask slot) with
  | None => mret (- EINVAL)
  | Some prefix =>
      let ip := ip_address slot in
      if negb (unicast ip) then mret (- EINVAL)
      else if clashes d iface ip (subnet_mask slot) then mret (- EADDRNOTAVAIL)
      else
        let cmd := addr_cmd (ipv4_str ip) (dec prefix) dev in
        if 448 <=? len cmd then mret (- ENAMETOOLONG)
        else
          ret ← take_step (RunSh cmd);
          _ ← (if ret =? 0 then
                 _ ← apply_gateway slot prefix dev;
                 _ ← (if negb (ntp_server slot =? 0) then nxp_apply_ntp (ntp_server slot) else nxp_clear_ntp);
                 mret tt
               else mret tt);
          _ ← apply_essid slot slot_no;
          mret ret
  end.
End Apply.

(** ** The peer route *)

(** Text with a double quote written as a tilde. *)
Definition sh_text (s : string) : list Z := map (λ c, if c =? 126 then 34 else c) (str s).
Definition peer_cmd (new net prefix : list Z) : list Z :=
  sh_text "rc=0; new=" ++ new ++ sh_text "; " ++
  sh_text "old=$(ip -4 addr show dev eth0 | awk '/inet .*\/32/{sub(~/32~,~~,$2); print $2; exit}'); " ++
  sh_text "snap=$(ip -4 route show dev eth0 | awk -v o=~$old~ -v n=~$new~ " ++
  sh_text "'/proto kernel/{next} {for(i=1;i<NF;i++) if($i==~src~&&$(i+1)==o){$(i+1)=n}; " ++
  sh_text "gsub(/(^| )(linkdown|dead|offload|trap|notify)( |$)/,~ ~); print}'); " ++
  sh_text "ip addr replace ~$new/32~ dev eth0 || rc=1; " ++
  sh_text "ip -4 addr show dev eth0 | awk '/inet .*\/32/{print $2}' | " ++
  sh_text "while read -r a; do [ ~$a~ = ~$new/32~ ] || ip addr del ~$a~ dev eth0 || exit 1; done || rc=1; " ++
  sh_text "ip -4 addr show dev eth0 | awk '/inet .*scope global/&&!/\/32/{b=($3==~brd~)?~ brd ~$4:~~; print $2 b}' | " ++
  sh_text "while read -r a; do ip addr del $a dev eth0 2>/dev/null; ip addr add $a dev eth0 || exit 1; done || rc=1; " ++
  sh_text "ip route flush table 100 2>/dev/null; ip route replace " ++ net ++ sh_text "/" ++ prefix ++
  sh_text " dev eth0 scope link table 100 || rc=1; " ++
  sh_text "printf '%s\n' ~$snap~ | while read -r r; do [ -n ~$r~ ] || continue; " ++
  sh_text "ip route replace $r dev eth0 || exit 1; done || rc=1; " ++
  sh_text "exit $rc".
Definition peer_prefix (mask : Z) : option Z :=
  let prefix := count_set_bits mask in
  if (prefix <? 1) || (32 <? prefix) ||
     negb (mask =? (if prefix =? 32 then 4294967295 else u32 (Z.lnot (Z.shiftr 4294967295 prefix))))
  then None else Some prefix.
Definition nxp_peer_route_refresh (ans : list step → Z) (ip_host netmask_host : Z) : P Z :=
  match peer_prefix netmask_host with
  | None => mret (- EINVAL)
  | Some prefix =>
      let cmd := peer_cmd (ipv4_str ip_host) (ipv4_str (Z.land ip_host netmask_host)) (dec prefix) in
      if 1400 <=? len cmd then mret (- ENAMETOOLONG) else take_step ans (RunSh cmd)
  end.

(** ** Masks *)

Definition prefixes : list Z := seqZ 1 32.
Lemma prefixes_all (Q : Z → bool) : forallb Q prefixes = true → ∀ k, 1 <= k <= 32 → Q k = true.
Proof.
  intros H k Hk. apply (proj1 (forallb_forall _ _) H). apply list_elem_of_In, elem_of_seqZ. lia.
Qed.
(** Both tests accept exactly the masks of a prefix of 1 to 32 bits. *)
Lemma prefix_of_iff m k : prefix_of m = Some k ↔ 1 <= k <= 32 ∧ m = prefix_mask k.
Proof.
  split.
  - unfold prefix_of. cbv zeta. destruct (_ || _) eqn:E; [done|]. intros [= <-].
    apply orb_false_iff in E as [E E3]. apply orb_false_iff in E as [E1 E2]. guards. split; [lia|].
    rewrite (proj2 (Z.eqb_neq (count_set_bits m) 0)) in E3 by lia. etransitivity; [symmetry; exact E3|]. clear E3.
    assert (Hk : ∀ k, 1 <= k <= 32 → (u32 (Z.shiftl 4294967295 (32 - k)) =? prefix_mask k) = true)
      by (apply prefixes_all; vm_compute; reflexivity).
    apply Z.eqb_eq, Hk. lia.
  - intros [Hk ->]. assert (H : ∀ k, 1 <= k <= 32 → bool_decide (prefix_of (prefix_mask k) = Some k) = true)
      by (apply prefixes_all; vm_compute; reflexivity). exact (bool_decide_eq_true_1 _ (H k Hk)).
Qed.
Lemma peer_prefix_eq m : peer_prefix m = prefix_of m.
Proof.
  unfold peer_prefix, prefix_of. cbv zeta. set (k := count_set_bits m). clearbody k.
  destruct (k <? 1) eqn:E1; [done|]. destruct (32 <? k) eqn:E2; [done|]. guards. cbn [orb].
  assert (H : ∀ k, 1 <= k <= 32 → ((if k =? 32 then 4294967295 else u32 (Z.lnot (Z.shiftr 4294967295 k))) =?
    (if k =? 0 then 0 else u32 (Z.shiftl 4294967295 (32 - k)))) = true) by (apply prefixes_all; vm_compute; reflexivity).
  specialize (H k ltac:(lia)). apply Z.eqb_eq in H. rewrite H. by rewrite Z.eqb_sym.
Qed.
Lemma unicast_iff ip : is_u32 ip → unicast ip = true ↔ usable_addr ip ∧ ip < 4026531840.
Proof.
  intros Hip. unfold unicast, usable_addr, is_u32 in *. cbv zeta.
  rewrite !octet_of_land, !Z.shiftr_div_pow2 by lia. change (2 ^ 24) with 16777216.
  set (hi := ip / 16777216 mod 256).
  assert (Hh : hi = 127 ↔ 2130706432 <= ip < 2147483648) by (unfold hi; Z.to_euclidean_division_equations; lia).
  assert (Hm : 224 <= hi ↔ 3758096384 <= ip) by (unfold hi; Z.to_euclidean_division_equations; lia).
  clearbody hi. destruct (ip =? 0) eqn:E1, (ip =? 4294967295) eqn:E2, (hi =? 127) eqn:E3, (224 <=? hi) eqn:E4; guards; cbn [negb orb];
    split; intros; try done; try lia.
Qed.

(** ** The texts *)

Definition addr_char (c : Z) : bool := is_digit c || (c =? 46).
Lemma dec_addr_chars n : 0 <= n < 1000 → Forall (λ c, addr_char c = true) (dec n).
Proof. intros Hn. eapply Forall_impl; [by apply dec_digits|]. unfold addr_char. by intros c ->. Qed.
Lemma ipv4_chars ip : is_u32 ip → Forall (λ c, addr_char c = true) (ipv4_str ip).
Proof.
  unfold is_u32. intros. unfold ipv4_str. rewrite !octet_of_land, !Z.shiftr_div_pow2 by lia.
  change (2 ^ 24) with 16777216; change (2 ^ 16) with 65536; change (2 ^ 8) with 256.
  assert (Hdot : Forall (λ c, addr_char c = true) (str ".")) by (by repeat constructor).
  repeat apply Forall_app_2; try done; apply dec_addr_chars; Z.to_euclidean_division_equations; lia.
Qed.
Lemma addr_char_not c : addr_char c = true → c ≠ 10 ∧ c ≠ 13 ∧ c ≠ 32 ∧ c ≠ 9 ∧ c ≠ 35.
Proof. unfold addr_char, is_digit. intros H. apply orb_true_iff in H as [H|H]; guards; lia. Qed.

(** The drop-in a ChangeIpAddress writes is read back as the server it names. *)
Lemma ntp_lines_body server : is_u32 server → ntp_lines (S (length (ntp_body server))) (ntp_body server) = Some server.
Proof.
  intros Hs. pose proof (ipv4_chars server Hs) as Hc. unfold ntp_body.
  assert (Hlf : Forall (λ c, c ≠ 10) (str "NTP=" ++ ipv4_str server)).
  { apply Forall_app_2; [by repeat constructor|]. eapply Forall_impl; [exact Hc|]. intros c H%addr_char_not. tauto. }
  assert (Hline : opc_ntp_parse_line (str "NTP=" ++ ipv4_str server) = Some server).
  { unfold opc_ntp_parse_line. change (skip is_blank (str "NTP=" ++ ipv4_str server)) with (str "NTP=" ++ ipv4_str server).
    rewrite starts_app. cbn [negb]. change (drop 4 (str "NTP=" ++ ipv4_str server)) with (ipv4_str server).
    change (length (str "NTP=" ++ ipv4_str server)) with (S (S (S (S (length (ipv4_str server)))))).
    pose proof (parse_ipv4_str server Hs) as Hp. pose proof (ipv4_str_len server Hs) as Hlen.
    set (a := ipv4_str server) in *. clearbody a.
    destruct a as [|c a]; [by cbn in Hp|]. pose proof Hc as Hc'. apply Forall_cons_1 in Hc' as [Hc0 _].
    apply addr_char_not in Hc0.
    assert (Hst : ntp_stop c = false) by (unfold ntp_stop; by rewrite !(proj2 (Z.eqb_neq c _)) by lia).
    assert (Hsk : skip is_blank (c :: a) = c :: a).
    { unfold skip. cbn [span]. unfold is_blank at 1. by rewrite !(proj2 (Z.eqb_neq c _)) by lia. }
    cbn [ntp_loop]. rewrite Hst, Hsk, Hst.
    rewrite <- (app_nil_r (c :: a)) at 1. rewrite span_run; [|eapply Forall_impl; [exact Hc|]|done].
    - rewrite (proj2 (Z.leb_gt 64 (len (c :: a)))) by lia. by rewrite Hp.
    - intros x Hx%addr_char_not. unfold is_blank, ntp_stop. rewrite !(proj2 (Z.eqb_neq x _)) by lia. done. }
  set (line := str "NTP=" ++ ipv4_str server) in *.
  replace (str "[Time]" ++ [10] ++ str "NTP=" ++ [10] ++ str "NTP=" ++ ipv4_str server ++ [10])
    with (str "[Time]" ++ 10 :: str "NTP=" ++ 10 :: line ++ 10 :: []) by (unfold line; by rewrite <- app_assoc).
  change (length (str "[Time]" ++ 10 :: str "NTP=" ++ 10 :: line ++ 10 :: [])) with (12 + length (line ++ 10%Z :: []))%nat.
  cbn [Nat.add ntp_lines]. rewrite split_lf_run by (by repeat constructor).
  change (len (str "[Time]") =? 0) with false. change (opc_ntp_parse_line (str "[Time]")) with (@None Z). cbv iota.
  rewrite split_lf_run by (by repeat constructor).
  change (len (str "NTP=") =? 0) with false. change (opc_ntp_parse_line (str "NTP=")) with (@None Z). cbv iota.
  rewrite split_lf_run by done. rewrite Hline. by destruct (len line =? 0) eqn:E; [apply Z.eqb_eq in E; unfold line in E; cbn in E|].
Qed.

(** ** The frequency list *)

Definition freq_text (ms : list Z) : list Z :=
  match ms with [] => [] | m :: r => dec m ++ flat_map (λ m, str " " ++ dec m) r end.
(** The frequencies of the channels a band and list select. *)
Definition selected_mhz (w : opc_wlan_radio_cfg_t) : list Z :=
  filter (λ m, m ≠ 0) (map (opc_scan_channel_mhz (rc_scan_band w)) (scan_selected (rc_scan_band w) (rc_scan_chlist w))).
Lemma channel_mhz_u32 band ch : is_u32 (opc_scan_channel_mhz band ch).
Proof.
  unfold opc_scan_channel_mhz, is_u32. destruct (opc_scan_bit_for_channel band ch); [|lia].
  repeat (match goal with |- context [if ?b then _ else _] => destruct b end);
    try lia; match goal with |- context [u16 ?x] => pose proof (u16_range x) as Hu; unfold is_u16 in Hu; lia end.
Qed.
Lemma render_more band cap chs : ∀ total acc,
  0 < len acc → len acc + 11 * len chs < cap →
  let ms := filter (λ m, m ≠ 0) (map (opc_scan_channel_mhz band) chs) in
  render_loop band chs cap total acc = (total + len ms, acc ++ flat_map (λ m, str " " ++ dec m) ms).
Proof.
  induction chs as [|ch chs IH]; intros total acc Ha Hc; cbn [render_loop map]; [rewrite app_nil_r; f_equal; unfold len; cbn; lia|].
  rewrite len_cons in Hc. pose proof (channel_mhz_u32 band ch) as Hu. set (m := opc_scan_channel_mhz band ch) in *. clearbody m.
  pose proof (len_nonneg chs).
  destruct (m =? 0) eqn:E; guards.
  - rewrite filter_cons_False by lia. apply IH; lia.
  - rewrite filter_cons_True by done. rewrite (proj2 (Z.eqb_neq (len acc) 0)) by lia. unfold print_at.
    destruct (dec_text m Hu) as [_ Hl]. rewrite len_app. change (len (str " ")) with 1.
    assert (len (dec m) <= 10) by (unfold len; lia). pose proof (len_nonneg (dec m)).
    rewrite (proj2 (Z.leb_gt (cap - len acc) (1 + len (dec m)))) by lia.
    rewrite IH by (rewrite !len_app; change (len (str " ")) with 1; lia).
    rewrite len_cons. cbn [flat_map]. f_equal; [lia|]. by rewrite <- !app_assoc.
Qed.
Lemma render_first band cap chs :
  11 * len chs < cap →
  let ms := filter (λ m, m ≠ 0) (map (opc_scan_channel_mhz band) chs) in
  render_loop band chs cap 0 [] = (len ms, freq_text ms).
Proof.
  induction chs as [|ch chs IH]; intros Hc; cbn [render_loop map]; [done|].
  rewrite len_cons in Hc. pose proof (channel_mhz_u32 band ch) as Hu. set (m := opc_scan_channel_mhz band ch) in *. clearbody m.
  pose proof (len_nonneg chs).
  destruct (m =? 0) eqn:E; guards.
  - rewrite filter_cons_False by lia. apply IH. lia.
  - rewrite filter_cons_True by done. change (len [] =? 0) with true. unfold print_at. cbn [app].
    destruct (dec_text m Hu) as [_ Hl]. change (len []) with 0.
    assert (1 <= len (dec m) <= 10) by (unfold len; lia).
    rewrite (proj2 (Z.leb_gt (cap - 0) (len (dec m)))) by lia.
    rewrite render_more by lia. by rewrite len_cons.
Qed.
Lemma omap_length_filter {A B} (f : A → option B) (Q : A → Prop) `{∀ x, Decision (Q x)} l :
  (∀ x, is_Some (f x) → Q x) → (length (omap f l) <= length (filter Q l))%nat.
Proof.
  intros HQ. induction l as [|x l IH]; [done|]. cbn [omap list_omap]. destruct (f x) as [y|] eqn:E.
  - rewrite filter_cons_True by (apply HQ; by eexists). cbn. lia.
  - rewrite filter_cons. case_decide; cbn; lia.
Qed.
Lemma selected_few band l : opc_scan_band_supported band = true → len (scan_selected band l) <= 25.
Proof.
  unfold opc_scan_band_supported, scan_selected, opc_scan_band_known. intros Hb.
  assert (Hr : ∀ all w, (length (row_channels band all OPC_SCAN_ROW_A w) <=
    length (filter (λ b, opc_scan_row_channel band OPC_SCAN_ROW_A b ≠ 0%Z) scan_bits))%nat).
  { intros all w. apply omap_length_filter. intros b [y Hy]. cbv zeta in Hy.
    destruct (_ =? 0) eqn:E; guards; done. }
  apply orb_true_iff in Hb as [Hb|Hb]; apply Z.eqb_eq in Hb; subst band; cbn [negb orb Z.eqb Pos.eqb];
    (etransitivity; [unfold len; apply inj_le, Hr|vm_compute; discriminate]).
Qed.
(** The list never fills the 320-byte buffer: it is the text of every selected frequency. *)
Lemma scan_freqs_render_spec w :
  scan_freqs_render w 320 =
  if rc_scan_band w =? OPC_SCAN_BAND_UNSET then (1, str "none")
  else if opc_scan_band_supported (rc_scan_band w) then (len (selected_mhz w), freq_text (selected_mhz w))
  else (0, []).
Proof.
  unfold scan_freqs_render. destruct (rc_scan_band w =? OPC_SCAN_BAND_UNSET); [done|].
  destruct (opc_scan_band_supported (rc_scan_band w)) eqn:Es; [|done]. cbn [negb]. unfold opc_scan_list_channels.
  pose proof (selected_few _ (rc_scan_chlist w) Es) as Hf.
  rewrite take_ge by (unfold len in Hf; lia). apply render_first. lia.
Qed.

(** ** Applying a radio configuration *)

(** The request to the helper for one station: nothing when no frequency is selected,
    otherwise its frequencies and the texts for its mode and bandwidth. *)
Definition request (iface : string) (w : opc_wlan_radio_cfg_t) (mlan1 : bool) (steps : list step) : Prop :=
  steps = [] ∨ ∃ mode bw,
    steps = [RunApply [str "opc_wlan_apply.sh"; str iface;
                       str "freq"; (if rc_scan_band w =? OPC_SCAN_BAND_UNSET then str "none" else freq_text (selected_mhz w));
                       str "mode"; mode; str "bw"; bw]] ∧
    mode_from_radio mode mlan1 = rc_mode w ∧ bw_from_token bw = rc_bandwidth w.
Lemma validate_one_tokens w mlan1 :
  validate_one_radio w mlan1 = 0 →
  ∃ mode bw, radio_mode_token (rc_mode w) = Some mode ∧ radio_bw_token (rc_bandwidth w) = Some bw ∧
    mode ≠ [] ∧ bw ≠ [] ∧ mode_from_radio mode mlan1 = rc_mode w ∧ bw_from_token bw = rc_bandwidth w.
Proof.
  unfold validate_one_radio. intros H. destruct (_ || _) eqn:E1 in H; [done|].
  apply orb_false_iff in E1 as [E1 _]. apply orb_false_iff in E1 as [E1 _]. apply orb_false_iff in E1 as [Em Ea].
  destruct (radio_bw_token (rc_bandwidth w)) as [bw|] eqn:Eb; [|done].
  destruct (radio_mode_token (rc_mode w)) as [mode|] eqn:Et; [|done]. exists mode, bw.
  assert (Hm : mode ≠ [] ∧ mode_from_radio mode mlan1 = rc_mode w).
  { revert Et Ea. unfold radio_mode_token.
    repeat (match goal with |- (if rc_mode w =? ?m then _ else _) = _ → _ =>
              let H := fresh in destruct (rc_mode w =? m) eqn:H; guards; [rewrite H; intros [= <-] Ea'; split; [discriminate|by destruct mlan1]|] end). done. }
  assert (Hb : bw ≠ [] ∧ bw_from_token bw = rc_bandwidth w).
  { revert Eb. unfold radio_bw_token.
    destruct (Z.eqb_spec (rc_bandwidth w) OPC_BANDWIDTH_20) as [->|_]; [intros [= <-]; split; [discriminate|reflexivity]|].
    destruct (Z.eqb_spec (rc_bandwidth w) OPC_BANDWIDTH_40) as [->|_]; [intros [= <-]; split; [discriminate|reflexivity]|].
    destruct (Z.eqb_spec (rc_bandwidth w) OPC_BANDWIDTH_80) as [->|_]; [intros [= <-]; split; [discriminate|reflexivity]|]. done. }
  tauto.
Qed.
Lemma render_nonempty w n f : scan_freqs_render w 320 = (n, f) → 0 < n →
  f = (if rc_scan_band w =? OPC_SCAN_BAND_UNSET then str "none" else freq_text (selected_mhz w)) ∧ f ≠ [].
Proof.
  rewrite scan_freqs_render_spec. destruct (rc_scan_band w =? OPC_SCAN_BAND_UNSET); [by intros [= <- <-]|].
  destruct (opc_scan_band_supported _); [|intros [= <- <-]; lia]. intros [= <- <-] Hn. split; [done|].
  destruct (selected_mhz w) as [|m ms] eqn:E; [unfold len in Hn; cbn in Hn; lia|]. cbn [freq_text].
  assert (Hu : is_u32 m).
  { assert (Hin : m ∈ selected_mhz w) by (rewrite E; left). unfold selected_mhz in Hin.
    apply list_elem_of_filter in Hin as [_ Hin]. apply list_elem_of_fmap in Hin as (ch & -> & _). apply channel_mhz_u32. }
  destruct (dec_text m Hu) as [_ Hl]. destruct (dec m); [cbn in Hl; lia|done].
Qed.
Lemma request_one ans iface w mlan1 tr n f :
  validate_one_radio w mlan1 = 0 → scan_freqs_render w 320 = (n, f) →
  ∃ steps, (if 0 <? n then run_opc_wlan_apply ans iface f (default [] (radio_mode_token (rc_mode w)))
                             (default [] (radio_bw_token (rc_bandwidth w))) [] else mret 0) tr
           = ((if decide (steps = []) then 0 else ans (tr ++ steps)), tr ++ steps) ∧ request iface w mlan1 steps.
Proof.
  intros Hv Hr. destruct (0 <? n) eqn:En; guards.
  2: { exists []. rewrite app_nil_r. split; [done|by left]. }
  destruct (render_nonempty w n f Hr En) as [Hf Hne].
  destruct (validate_one_tokens w mlan1 Hv) as (mode & bw & -> & -> & Hm & Hb & Hmode & Hbw). cbn [default].
  exists [RunApply (apply_argv iface f mode bw [])]. rewrite decide_False by done.
  split; [by destruct f|]. right. exists mode, bw. split; [|done]. unfold apply_argv, opt_arg. rewrite <- Hf.
  destruct f, mode, bw; done.
Qed.

(** How the platform applies a radio configuration. A configuration it cannot run is
    refused with one of the two documented codes and nothing is touched. Otherwise mlan0
    is asked first, and mlan1 only for a dual station and only when mlan0's request
    succeeded or was not needed; each request carries every selected frequency (the list
    never exceeds its buffer) or [none] for no band lock, and the mode and bandwidth texts
    it carries are the ones GetDeviceInfo reads back as the requested mode and bandwidth;
    the result is that of the last request. *)
Theorem radio_apply_spec ans cfg :
  let '(rc, tr) := nxp_apply_radio_config ans cfg [] in
  nxp_validate_radio_config cfg ∈ [0; OPC_ERR_RADIO_MODE; OPC_ERR_RADIO_BW] ∧
  (nxp_validate_radio_config cfg ≠ 0 → rc = - EOPNOTSUPP ∧ tr = []) ∧
  (nxp_validate_radio_config cfg = 0 →
   ∃ s1 s2, tr = s1 ++ s2 ∧ request "mlan0" (wlan1 cfg) false s1 ∧ request "mlan1" (wlan2 cfg) true s2 ∧
     (s2 ≠ [] → station_type cfg = OPC_STATION_DUAL ∧ (s1 = [] ∨ ans s1 = 0)) ∧
     rc = (if decide (tr = []) then 0 else ans tr)).
Proof.
  assert (Hin : ∀ w b, validate_one_radio w b ∈ [0; OPC_ERR_RADIO_MODE; OPC_ERR_RADIO_BW]).
  { intros w b. unfold validate_one_radio. destruct (_ || _); [in_list|]. destruct (is_none _); in_list. }
  unfold nxp_apply_radio_config. destruct (nxp_validate_radio_config cfg =? 0) eqn:Ev; guards; cbn [negb].
  2: { split; [|done]. unfold nxp_validate_radio_config. cbv zeta. destruct (negb _); [apply Hin|].
       destruct (_ =? _); [apply Hin|in_list]. }
  assert (H1 : validate_one_radio (wlan1 cfg) false = 0).
  { unfold nxp_validate_radio_config in Ev. cbv zeta in Ev. destruct (validate_one_radio (wlan1 cfg) false =? 0) eqn:E; guards; done. }
  assert (H2 : station_type cfg = OPC_STATION_DUAL → validate_one_radio (wlan2 cfg) true = 0).
  { intros Hd. unfold nxp_validate_radio_config in Ev. cbv zeta in Ev. by rewrite H1, Hd in Ev. }
  destruct (scan_freqs_render (wlan1 cfg) 320) as [n1 f1] eqn:R1. cbv zeta.
  destruct (request_one ans "mlan0" (wlan1 cfg) false [] n1 f1 H1 R1) as (s1 & Hs1 & Hq1). rewrite app_nil_l in Hs1.
  destruct (station_type cfg =? OPC_STATION_DUAL) eqn:Ed; guards.
  - destruct (scan_freqs_render (wlan2 cfg) 320) as [n2 f2] eqn:R2.
    destruct (request_one ans "mlan1" (wlan2 cfg) true s1 n2 f2 (H2 Ed) R2) as (s2 & Hs2 & Hq2).
    unfold mbind, P_bind. rewrite Hs1. set (rc1 := if decide (s1 = []) then 0 else ans s1).
    destruct (rc1 =? 0) eqn:Erc; guards; cbn [negb andb].
    + rewrite Hs2. rewrite Ev. split; [in_list|]. split; [done|]. intros _. exists s1, s2. split_and!; try done.
      * intros _. split; [done|]. unfold rc1 in Erc. case_decide; [by left|by right].
      * destruct (decide (s2 = [])) as [->|Hne]; [rewrite app_nil_r; symmetry; exact Erc|].
        rewrite decide_False; [done|]. intros [_ ?]%app_eq_nil. done.
    + rewrite Ev. split; [in_list|]. split; [done|]. intros _. exists s1, []. rewrite app_nil_r. split_and!; try done. by left.
  - unfold mbind, P_bind. rewrite Hs1. rewrite Ev. set (rc1 := if decide (s1 = []) then 0 else ans s1).
    destruct (rc1 =? 0) eqn:Erc; guards; cbn [negb andb]; (split; [in_list|]; split; [done|]; intros _; exists s1, [];
      rewrite app_nil_r; split_and!; try done; by left).
Qed.

(** ** Changing the address *)

Definition iface_dev (iface : Z) : list Z := str (if iface =? 1 then "mlan0" else "eth0").
(** The gateway part: the default route is replaced by one through a usable gateway, and
    removed when the slot has none. *)
Inductive gateway_run (slot : opc_ipcfg_entry_t) (k : Z) (dev : list Z) : list step → Prop :=
  | gateway_set : usable_addr (default_gateway slot) → default_gateway slot < 4026531840 →
      gateway_run slot k dev [RunSh (route_cmd (ipv4_str (default_gateway slot)) dev (k =? 32))]
  | gateway_unset : default_gateway slot = 0 → gateway_run slot k dev [RunSh (flush_cmd dev)]
  | gateway_odd : default_gateway slot ≠ 0 → ¬ (usable_addr (default_gateway slot) ∧ default_gateway slot < 4026531840) →
      gateway_run slot k dev [].
(** The NTP part, after the steps [before]: the drop-in is written (or removed for a server of
    0), then timesyncd is restarted; the part stops at the first step that failed. *)
Inductive ntp_run (ans : list step → Z) (server : Z) (before : list step) : list step → Prop :=
  | ntp_no_dir : server ≠ 0 → ans (before ++ [MkDropinDir]) ∉ [0; - EEXIST] → ntp_run ans server before [MkDropinDir]
  | ntp_unwritten s : server ≠ 0 → s = [MkDropinDir; WriteDropin (ntp_body server)] →
      ans (before ++ [MkDropinDir]) ∈ [0; - EEXIST] → ans (before ++ s) ≠ 0 → ntp_run ans server before s
  | ntp_written s : server ≠ 0 → s = [MkDropinDir; WriteDropin (ntp_body server)] →
      ans (before ++ [MkDropinDir]) ∈ [0; - EEXIST] → ans (before ++ s) = 0 →
      ntp_run ans server before (s ++ [RunSh restart_timesyncd])
  | ntp_kept : server = 0 → ans (before ++ [UnlinkDropin]) ∉ [0; - ENOENT] → ntp_run ans server before [UnlinkDropin]
  | ntp_removed : server = 0 → ans (before ++ [UnlinkDropin]) ∈ [0; - ENOENT] →
      ntp_run ans server before [UnlinkDropin; RunSh restart_timesyncd].
(** Both, after an address command with result [ret]. *)
Definition net_run (ans : list step → Z) (slot : opc_ipcfg_entry_t) (k : Z) (dev : list Z) (ret : Z) (before net : list step) : Prop :=
  if ret =? 0
  then ∃ gw ntp, net = gw ++ ntp ∧ gateway_run slot k dev gw ∧ ntp_run ans (ntp_server slot) (before ++ gw) ntp
  else net = [].
(** The ESSID part, after the steps [before]: the marker is armed before the helper edits
    the configuration, nothing is edited without it, and the helper's result is settled. *)
Inductive essid_run (ans : list step → Z) (slot_no : Z) (e : list Z) (before : list step) : list step → Prop :=
  | essid_none : rd e 0 = 0 → essid_run ans slot_no e before []
  | essid_unarmed : rd e 0 ≠ 0 → ans (before ++ [MarkerArm slot_no (cstr e)]) ≠ 0 →
      essid_run ans slot_no e before [MarkerArm slot_no (cstr e)]
  | essid_applied s1 s2 last : rd e 0 ≠ 0 →
      s1 = MarkerArm slot_no (cstr e) → ans (before ++ [s1]) = 0 →
      s2 = RunApply [str "opc_wlan_apply.sh"; str "mlan0"; str "ssid"; cstr e] →
      last = (if ans (before ++ [s1; s2]) =? 0 then MarkerCommit else MarkerSettle) →
      essid_run ans slot_no e before [s1; s2; last].

Lemma addr_cmd_fits ip k iface : is_u32 ip → 1 <= k <= 32 → len (addr_cmd (ipv4_str ip) (dec k) (iface_dev iface)) < 448.
Proof.
  intros Hip Hk. pose proof (ipv4_str_len ip Hip). pose proof (dec_length k ltac:(lia)) as Hd.
  assert (len (dec k) <= 3) by (unfold len; lia).
  assert (len (iface_dev iface) <= 5) by (unfold iface_dev; destruct (iface =? 1); vm_compute; discriminate).
  unfold addr_cmd. rewrite !len_app.
  repeat match goal with |- context [len (str ?x)] => let n := eval vm_compute in (len (str x)) in change (len (str x)) with n end.
  lia.
Qed.
Lemma essid_steps ans slot slot_no tr :
  ∃ steps, apply_essid ans slot slot_no tr = (tt, tr ++ steps) ∧ essid_run ans slot_no (essid slot) tr steps.
Proof.
  unfold apply_essid. destruct (rd (essid slot) 0 =? 0) eqn:E; guards.
  { exists []. rewrite app_nil_r. split; [done|by constructor]. }
  cbv zeta. unfold mbind, P_bind, take_step.
  assert (Hc : cstr (essid slot) ≠ []).
  { intros Hc. apply E. destruct (essid slot) as [|c l]; [done|]. cbn [cstr] in Hc. destruct (c =? 0) eqn:Ez; guards; done. }
  destruct (ans (tr ++ [MarkerArm slot_no (cstr (essid slot))]) =? 0) eqn:Em; guards; cbn [negb].
  2: { eexists. split; [done|]. by apply essid_unarmed. }
  assert (Ha : run_opc_wlan_apply ans "mlan0" [] [] [] (cstr (essid slot)) =
    take_step ans (RunApply [str "opc_wlan_apply.sh"; str "mlan0"; str "ssid"; cstr (essid slot)])).
  { unfold run_opc_wlan_apply, apply_argv, opt_arg. by destruct (cstr (essid slot)). }
  rewrite Ha. unfold take_step. cbn [mret P_ret]. rewrite <- !app_assoc. cbn [app].
  eexists. split; [done|]. by eapply essid_applied.
Qed.
Lemma gateway_steps ans slot k dev tr : is_u32 (default_gateway slot) →
  ∃ gw, apply_gateway ans slot k dev tr = (tt, tr ++ gw) ∧ gateway_run slot k dev gw.
Proof.
  intros Hu. unfold apply_gateway. cbv zeta. pose proof (unicast_iff _ Hu) as Hi. destruct (unicast (default_gateway slot)).
  - eexists. split; [done|]. destruct (proj1 Hi eq_refl). by constructor.
  - destruct (default_gateway slot =? 0) eqn:E; guards; [eexists; split; [done|by constructor]|].
    exists []. rewrite app_nil_r. split; [done|]. apply gateway_odd; [done|]. intros Hn%Hi. done.
Qed.
Lemma two_answers rc e : (negb (rc =? 0) && negb (rc =? e)) = true ↔ rc ∉ [0; e].
Proof.
  rewrite !not_elem_of_cons, andb_true_iff, !negb_true_iff, !Z.eqb_neq.
  split; [intros [? ?]; split_and!; [done|done|apply not_elem_of_nil]|naive_solver].
Qed.
Lemma ntp_steps ans server tr : ∃ rc ntp,
  (if negb (server =? 0) then nxp_apply_ntp ans server else nxp_clear_ntp ans) tr = (rc, tr ++ ntp) ∧ ntp_run ans server tr ntp.
Proof.
  destruct (server =? 0) eqn:E; guards; cbn [negb]; unfold nxp_apply_ntp, nxp_clear_ntp, mbind, P_bind, take_step.
  - pose proof (two_answers (ans (tr ++ [UnlinkDropin])) (- ENOENT)) as Ht. destruct (_ && _).
    + do 2 eexists. split; [done|]. apply ntp_kept; [done|]. by apply Ht.
    + rewrite <- app_assoc. do 2 eexists. split; [done|]. apply ntp_removed; [done|].
      destruct (decide (ans (tr ++ [UnlinkDropin]) ∈ [0; - ENOENT])) as [|Hn]; [done|]. by apply Ht in Hn.
  - pose proof (two_answers (ans (tr ++ [MkDropinDir])) (- EEXIST)) as Ht. destruct (negb (ans (tr ++ [MkDropinDir]) =? 0) && _).
    + do 2 eexists. split; [done|]. apply ntp_no_dir; [done|]. by apply Ht.
    + assert (Hd : ans (tr ++ [MkDropinDir]) ∈ [0; - EEXIST]).
      { destruct (decide (ans (tr ++ [MkDropinDir]) ∈ [0; - EEXIST])) as [|Hn]; [done|]. by apply Ht in Hn. }
      rewrite <- !app_assoc. cbn [app]. destruct (ans _ =? 0) eqn:Ew in |- *; guards; cbn [negb]; rewrite <- ?app_assoc; cbn [app]; do 2 eexists; (split; [done|]).
      * by apply (ntp_written ans server tr [MkDropinDir; WriteDropin (ntp_body server)]).
      * by apply ntp_unwritten.
Qed.
Lemma net_steps ans slot k dev ret tr : is_u32 (default_gateway slot) → ∃ net,
  (if ret =? 0 then
     _ ← apply_gateway ans slot k dev;
     _ ← (if negb (ntp_server slot =? 0) then nxp_apply_ntp ans (ntp_server slot) else nxp_clear_ntp ans); mret tt
   else mret tt) tr = (tt, tr ++ net) ∧ net_run ans slot k dev ret tr net.
Proof.
  intros Hu. unfold net_run. destruct (ret =? 0); [|exists []; by rewrite app_nil_r].
  destruct (gateway_steps ans slot k dev tr Hu) as (gw & Eg & Hg). destruct (ntp_steps ans (ntp_server slot) (tr ++ gw)) as (rc & ntp & En & Hn).
  exists (gw ++ ntp). unfold mbind, P_bind. rewrite Eg, En, app_assoc. split; [done|]. by exists gw, ntp.
Qed.

Lemma ip_change_run ans d slot iface slot_no :
  entry_u32 slot →
  let '(ret, tr) := nxp_apply_ip_change ans d slot iface slot_no [] in
  (tr = [] ∧ (ret = - EINVAL ∧ (unicast (ip_address slot) = false ∨ ∀ k, 1 <= k <= 32 → subnet_mask slot ≠ prefix_mask k) ∨
              ret = - EADDRNOTAVAIL ∧ unicast (ip_address slot) = true ∧ clashes d iface (ip_address slot) (subnet_mask slot) = true)) ∨
  ∃ k net ssid,
    1 <= k <= 32 ∧ subnet_mask slot = prefix_mask k ∧ unicast (ip_address slot) = true ∧
    clashes d iface (ip_address slot) (subnet_mask slot) = false ∧
    let first := RunSh (addr_cmd (ipv4_str (ip_address slot)) (dec k) (iface_dev iface)) in
    tr = first :: net ++ ssid ∧ ret = ans [first] ∧
    net_run ans slot k (iface_dev iface) ret [first] net ∧
    essid_run ans slot_no (essid slot) (first :: net) ssid.
Proof.
  intros (Hip & _ & Hgw & _). unfold nxp_apply_ip_change. fold (iface_dev iface). cbv zeta.
  destruct (prefix_of (subnet_mask slot)) as [k|] eqn:Ek.
  2: { left. split; [done|]. left. split; [done|]. right. intros k Hk Hm.
       assert (H : prefix_of (subnet_mask slot) = Some k) by (by apply prefix_of_iff). by rewrite Ek in H. }
  apply prefix_of_iff in Ek as [Hk Hm]. destruct (unicast (ip_address slot)) eqn:Eu; cbn [negb]; [|left; auto].
  destruct (clashes d iface (ip_address slot) (subnet_mask slot)) eqn:Ec; [left; auto|].
  pose proof (addr_cmd_fits (ip_address slot) k iface Hip Hk) as Hfit.
  apply Z.leb_gt in Hfit. rewrite Hfit. clear Hfit.
  set (first := RunSh (addr_cmd _ _ _)). unfold mbind at 1, P_bind at 1, take_step at 1. cbn [app].
  set (ret := ans [first]).
  destruct (net_steps ans slot k (iface_dev iface) ret [first] Hgw) as (net & Hn & Hq). unfold mbind at 1, P_bind at 1. rewrite Hn. cbn [app].
  destruct (essid_steps ans slot slot_no (first :: net)) as (ssid & Hs & He). unfold mbind, P_bind. rewrite Hs.
  right. exists k, net, ssid. split_and!; first [done|lia].
Qed.
(** An address change on the device, whatever fails. Nothing is touched unless the mask
    is a prefix of 1 to 32 bits, the address is unicast and it does not clash with the
    subnet of the other interface; otherwise the first step is the address command, which
    names the address and prefix of the slot and always fits its buffer, and its result is
    the result of the change. Gateway and NTP server follow only when it succeeded. The
    ESSID part follows in either case: the marker is armed first, the helper runs only
    with the marker in place, and a helper that failed is settled instead of committed. *)
Theorem ip_change_steps ans d slot iface slot_no :
  entry_u32 slot →
  let '(ret, tr) := nxp_apply_ip_change ans d slot iface slot_no [] in
  (tr = [] ∧ (ret = - EINVAL ∧ (unicast (ip_address slot) = false ∨ ∀ k, 1 <= k <= 32 → subnet_mask slot ≠ prefix_mask k) ∨
              ret = - EADDRNOTAVAIL ∧ unicast (ip_address slot) = true ∧ clashes d iface (ip_address slot) (subnet_mask slot) = true)) ∨
  ∃ k net ssid,
    1 <= k <= 32 ∧ subnet_mask slot = prefix_mask k ∧ unicast (ip_address slot) = true ∧
    clashes d iface (ip_address slot) (subnet_mask slot) = false ∧
    let first := RunSh (addr_cmd (ipv4_str (ip_address slot)) (dec k) (iface_dev iface)) in
    tr = first :: net ++ ssid ∧ ret = ans [first] ∧
    net_run ans slot k (iface_dev iface) ret [first] net ∧
    essid_run ans slot_no (essid slot) (first :: net) ssid.
Proof. apply ip_change_run. Qed.

Definition example_slot : opc_ipcfg_entry_t :=
  mk_ipcfg_entry OPC_LIST_BOUNDARY_START_END 1 3232235786 4294967040 3232235777 0 (str "ap2" ++ zeros 29).
Definition example_device : device := mk_device (λ _, inl 2) None.
(** The helper fails: the marker is settled. *)
Definition example_ans (tr : list step) : Z := match last tr with Some (RunApply _) => - 71 | _ => 0 end.
Lemma ip_change_steps_witness :
  let '(ret, tr) := nxp_apply_ip_change example_ans example_device example_slot 0 1 [] in
  ret = 0 ∧ length tr = 7%nat ∧ last tr = Some MarkerSettle.
Proof.
  pose proof (ip_change_steps example_ans example_device example_slot 0 1) as H.
  destruct (nxp_apply_ip_change example_ans example_device example_slot 0 1 []) as [ret tr] eqn:E.
  destruct H as [(-> & _)|(k & net & ssid & _ & _ & _ & _ & Ht & Hr & _)].
  - vm_compute; repeat split; discriminate.
  - exfalso. vm_compute in E. discriminate.
  - vm_compute in E. injection E as <- <-. vm_compute. repeat split; reflexivity.
Defined.


(** 250.1.2.3/24 is accepted into the list and refused by the platform. *)
Definition example_class_e : opc_ipcfg_entry_t :=
  mk_ipcfg_entry OPC_LIST_BOUNDARY_START_END 1 4194370051 4294967040 0 0 (zeros 32).

(** An NTP server set by an address change is the one GetDeviceInfo reports: the
    drop-in written for any server is read back as that server. *)
Theorem ntp_dropin_in_effect d server :
  is_u32 server → slurp d OPC_NTP_DROPIN = inr (ntp_body server) → nxp_get_ntp_server d = (0, server).
Proof.
  intros Hs Hd. unfold nxp_get_ntp_server, ntp_from_file. by rewrite Hd, ntp_lines_body.
Qed.
Lemma ntp_dropin_in_effect_witness :
  nxp_get_ntp_server (mk_device (λ p, if bool_decide (p = OPC_NTP_DROPIN) then inr (ntp_body 3232235777) else inl 2) None)
  = (0, 3232235777).
Proof. apply ntp_dropin_in_effect; [split; [discriminate|reflexivity]|reflexivity]. Defined.

(** The peer route of an accepted mask is always within the command buffer. *)
Lemma peer_route_runs ans ip k :
  is_u32 ip → 1 <= k <= 32 →
  let cmd := RunSh (peer_cmd (ipv4_str ip) (ipv4_str (Z.land ip (prefix_mask k))) (dec k)) in
  nxp_peer_route_refresh ans ip (prefix_mask k) [] = (ans [cmd], [cmd]).
Proof.
  intros Hip Hk. unfold nxp_peer_route_refresh. rewrite peer_prefix_eq, (proj2 (prefix_of_iff _ k)) by done.
  assert (Hn : is_u32 (Z.land ip (prefix_mask k))).
  { rewrite land_prefix by (done || lia). unfold is_u32 in *.
    assert (0 < 2 ^ (32 - k)) by (apply Z.pow_pos_nonneg; lia).
    pose proof (Z.mul_div_le ip (2 ^ (32 - k)) ltac:(lia)). pose proof (Z.div_pos ip (2 ^ (32 - k)) ltac:(lia) ltac:(lia)). nia. }
  pose proof (ipv4_str_len ip Hip). pose proof (ipv4_str_len _ Hn). pose proof (dec_length k ltac:(lia)) as Hd.
  assert (len (dec k) <= 3) by (unfold len; lia).
  assert (Hl : len (peer_cmd (ipv4_str ip) (ipv4_str (Z.land ip (prefix_mask k))) (dec k)) < 1400).
  { unfold peer_cmd. rewrite !len_app.
    repeat match goal with |- context [len (sh_text ?x)] => let n := eval vm_compute in (len (sh_text x)) in change (len (sh_text x)) with n end.
    lia. }
  apply Z.leb_gt in Hl. by rewrite Hl.
Qed.
End PlatformApply.
