(* ===== verification/Startup.v ===== *)
(** * Starting and stopping: the set-up half of main in opcd/opcd.c, opcd/systemd_notify.c

    The option loop, the configuration taken from the command line and opc.conf, the
    directories, the descriptors opened, watched and released on every path, and the
    systemd notifications of opcd/systemd_notify.c. The kernel's descriptor table hands out the lowest free number;
    whether a call succeeds is an input. [k_bad] is set when a descriptor that is not open
    is closed or watched. *)
From S2P Require Import Prelude CText Codec ScanList Commands Indications Store StoreAsync IpListText FaultProbe State Indication Validate RadioConf Persist Handlers IpListLoad Daemon Conf JsonText Topology.
From stdpp Require Import base list numbers option tactics strings gmap sets.
From Stdlib Require Import ZArith Lia.
#[local] Open Scope Z_scope.
Import StoreAsync.StoreAsync FaultProbe Conf Topology.

Module Startup.

(** ** The command line *)

Definition atoi (s : list Z) : Z := match strtol s with Some (v, _) => i32 v | None => 0 end.

Record overrides := mk_over { port_override : Z; idle_override : Z; conf_path : list Z }.
Inductive cmdline := CmdRun (o : overrides) | CmdRestore | CmdUsage (code : Z).
Inductive cluster := ClNext (o : overrides) | ClArg (c : Z) (o : overrides) | ClExit (r : cmdline).

Definition OPC_PATH_CONF : list Z := str "/usr/local/opc/etc/opc.conf".
Definition OPC_PATH_TEMP : list Z := str "/usr/local/opc/etc/temp".
Definition no_overrides : overrides := mk_over 0 0 OPC_PATH_CONF.

(** The cases of the switch that take [optarg]. *)
Definition with_optarg (c : Z) (optarg : list Z) (o : overrides) : overrides :=
  if c =? 112 then mk_over (atoi optarg) (idle_override o) (conf_path o)
  else if c =? 105 then mk_over (port_override o) (atoi optarg) (conf_path o)
  else mk_over (port_override o) (idle_override o) optarg.
Definition wants_arg (c : Z) : bool := (c =? 112) || (c =? 105) || (c =? 99).
(** The letters of one word of options, "p:i:c:Rh". *)
Definition opt_letters (w : list Z) (o : overrides) : cluster :=
  match w with
  | [] => ClNext o
  | c :: rest =>
      if c =? 82 then ClExit CmdRestore
      else if c =? 104 then ClExit (CmdUsage 0)
      else if wants_arg c then match rest with [] => ClArg c o | _ => ClNext (with_optarg c rest o) end
      else ClExit (CmdUsage 2)
  end.
(** POSIX [getopt]: ends at [--] and at the first word that is not an option. *)
Fixpoint getopt_loop (argv : list (list Z)) (o : overrides) : cmdline :=
  match argv with
  | (d :: c :: w) :: argv' =>
      if negb (d =? 45) || ((c =? 45) && bool_decide (w = [])) then CmdRun o
      else match opt_letters (c :: w) o with
           | ClNext o => getopt_loop argv' o
           | ClArg c o => match argv' with
                          | optarg :: argv'' => getopt_loop argv'' (with_optarg c optarg o)
                          | [] => CmdUsage 2
                          end
           | ClExit r => r
           end
  | _ => CmdRun o
  end.

(** ** The configuration *)

(** [read] gives the contents of a file, [None] when it cannot be opened. *)
Definition main_conf (read : list Z → option (list Z)) (wifi_init_conf : option (list Z)) (o : overrides) : opcd_conf_t :=
  let f := read (conf_path o) in
  let udp_port := (opcd_conf_port_parse f "udp_port" (udp_port default_conf)).1 in
  mk_conf (if 0 <? port_override o then u16 (port_override o) else udp_port)
    (opcd_roam_notify_port_parse f (roam_notify_port default_conf))
    (default_station_type default_conf)
    (if 0 <? idle_override o then u32 (idle_override o) else login_idle_s default_conf)
    (opcd_freq_source_parse f) (opcd_ip_iface_parse f) (opcd_topology_parse f wifi_init_conf).
Definition main_state (read : list Z → option (list Z)) (wifi_init_conf : option (list Z)) (o : overrides) : opcd_state_t :=
  (state_set_defaults <| conf := main_conf read wifi_init_conf o |>)
    <| fault_probe := opcd_fault_probe_conf (fault_probe state_set_defaults) (read (conf_path o)) |>.

(** The paths handed to [mkdir]: each prefix that ends before a slash, then the path. *)
Fixpoint dir_prefixes (pre rest : list Z) : list (list Z) :=
  match rest with
  | [] => [pre]
  | c :: rest' => (if c =? 47 then [pre] else []) ++ dir_prefixes (pre ++ [c]) rest'
  end.
Definition ensure_dirs (temp_dir : list Z) : list (list Z) :=
  match take 1023 temp_dir with [] => [] | c :: rest => dir_prefixes [c] rest end.

(** ** Descriptors *)

Record kern := mk_kern {
  k_fds : gset Z; k_watched : gset Z; k_platform : Z; k_up : bool; k_said : list (list Z);
  k_dirs : list (list Z); k_bad : bool }.
#[global] Instance eta_kern : Eta kern := λ k,
  mk_kern (k_fds k) (k_watched k) (k_platform k) (k_up k) (k_said k) (k_dirs k) (k_bad k).
Definition K (A : Type) : Type := kern → A * kern.
#[global] Instance K_ret : MRet K := λ A x k, (x, k).
#[global] Instance K_bind : MBind K := λ A B f m k, let '(x, k) := m k in f x k.
Definition kmod (f : kern → kern) : K unit := λ k, (tt, f k).
Definition kwhen (b : bool) (m : K unit) : K unit := if b then m else mret tt.

Fixpoint lowest_free (fuel : nat) (n : Z) (fds : gset Z) : Z :=
  match fuel with
  | O => n
  | S fuel => if bool_decide (n ∈ fds) then lowest_free fuel (n + 1) fds else n
  end.
Definition fd_new (fds : gset Z) : Z := lowest_free (size fds) 0 fds.
(** A call that makes a descriptor, or fails with -1. *)
Definition kopen (ok : bool) : K Z := λ k,
  if ok then let fd := fd_new (k_fds k) in (fd, k <| k_fds := {[fd]} ∪ k_fds k |>) else (-1, k).
Definition kclose (fd : Z) : K unit :=
  kmod (λ k, ((k <| k_bad := k_bad k || negb (bool_decide (fd ∈ k_fds k)) |>) <| k_fds := k_fds k ∖ {[fd]} |>)
               <| k_watched := k_watched k ∖ {[fd]} |>).
(** [epoll_ctl(ep, EPOLL_CTL_ADD, fd)]: did it succeed *)
Definition kwatch (ok : bool) (fd : Z) : K bool := λ k,
  if ok then (true, (k <| k_bad := k_bad k || negb (bool_decide (fd ∈ k_fds k)) |>) <| k_watched := {[fd]} ∪ k_watched k |>)
  else (false, k).

Definition open_udp_socket_addr (socket_ok bind_ok : bool) : K Z :=
  fd ← kopen socket_ok;
  if fd <? 0 then mret (-1) else if bind_ok then mret fd else kclose fd;; mret (-1).
Definition open_signalfd (mask_ok signalfd_ok : bool) : K Z := if mask_ok then kopen signalfd_ok else mret (-1).
Definition open_timerfd_1s (create_ok settime_ok : bool) : K Z :=
  fd ← kopen create_ok;
  if fd <? 0 then mret (-1) else if settime_ok then mret fd else kclose fd;; mret (-1).

(** The platform backend: [init] may open an event descriptor of its own and holds it
    until [teardown], which tolerates a partial [init]. *)
Definition plat_init (rc : Z) (evt_ok : bool) : K Z :=
  fd ← kopen evt_ok;
  kmod (λ k, (k <| k_up := true |>) <| k_platform := fd |>);;
  mret rc.
Definition plat_event_fd : K Z := λ k, (k_platform k, k).
Definition plat_teardown : K unit :=
  fd ← plat_event_fd;
  kwhen (0 <=? fd) (kclose fd);;
  kmod (λ k, (k <| k_up := false |>) <| k_platform := -1 |>).

(** The writer's side of the table: an eventfd, released when the rest of the creation
    fails; [opc_store_async_event_fd] of no writer is -1. *)
Definition store_create (eventfd_ok worker_ok : bool) : K Z :=
  fd ← kopen eventfd_ok;
  if fd <? 0 then mret (-1) else if worker_ok then mret fd else kclose fd;; mret (-1).

(** ** systemd_notify.c *)

Record opcd_systemd_notify_t := mk_notify { n_fd : Z; n_watchdog : bool; n_path : list Z; n_addr_len : Z }.
Record sd_env := mk_sd { NOTIFY_SOCKET : option (list Z); WATCHDOG_USEC : option (list Z); WATCHDOG_PID : option (list Z); sd_pid : Z }.
Definition SUN_PATH_SIZE : Z := 108.
Definition SUN_PATH_OFFSET : Z := 2.
Definition parse_positive_decimal (text : option (list Z)) : option Z :=
  s ← text;
  if bool_decide (s = []) then None
  else if negb (forallb is_digit s) then None
  else let v := digits_value 10 s in
       if (18446744073709551615 <? v) || (v =? 0) then None else Some v.
Definition watchdog_pid_matches (e : sd_env) : bool :=
  match WATCHDOG_PID e with
  | None => true
  | Some text => match parse_positive_decimal (Some text) with Some pid => pid =? sd_pid e | None => false end
  end.
Definition notify_zero : opcd_systemd_notify_t := mk_notify (-1) false (zeros SUN_PATH_SIZE) 0.
Definition notify_addr (path : list Z) : list Z * Z :=
  if bool_decide (head path = Some 64)
  then (write_at 1 (drop 1 path) (zeros SUN_PATH_SIZE), SUN_PATH_OFFSET + len path)
  else (write_at 0 path (zeros SUN_PATH_SIZE), SUN_PATH_OFFSET + len path + 1).
Definition opcd_systemd_notify_init (e : sd_env) (socket_ok : bool) : K (Z * opcd_systemd_notify_t) :=
  match NOTIFY_SOCKET e with
  | None => mret (0, notify_zero)
  | Some path =>
      if bool_decide (head path ≠ Some 47) && bool_decide (head path ≠ Some 64) then mret (-1, notify_zero)
      else if SUN_PATH_SIZE <=? len path then mret (-1, notify_zero)
      else
        let '(addr, addr_len) := notify_addr path in
        fd ← kopen socket_ok;
        if fd <? 0 then mret (-1, mk_notify fd false addr addr_len)
        else mret (0, mk_notify fd (bool_decide (is_Some (parse_positive_decimal (WATCHDOG_USEC e))) && watchdog_pid_matches e)
                        addr addr_len)
  end.
Definition opcd_systemd_notify_close (n : opcd_systemd_notify_t) : K unit := kwhen (0 <=? n_fd n) (kclose (n_fd n)).
(** [sent]: what [sendto] returns. *)
Definition send_state (n : opcd_systemd_notify_t) (state : list Z) (sent : Z) : K Z :=
  if n_fd n <? 0 then mret 0
  else kmod (λ k, k <| k_said := k_said k ++ [state] |>);;
       mret (if sent <? 0 then -1 else if negb (sent =? len state) then -1 else 1).
Definition READY : list Z := str "READY=1".
Definition WATCHDOG : list Z := str "WATCHDOG=1".
Definition opcd_systemd_ready (n : opcd_systemd_notify_t) (sent : Z) : K Z := send_state n READY sent.
Definition opcd_systemd_watchdog (n : opcd_systemd_notify_t) (sent : Z) : K Z :=
  if negb (n_watchdog n) then mret 0 else send_state n WATCHDOG sent.

(** ** Set-up and release *)

(** The results of the calls of the set-up, in their order. *)
Record setup := mk_setup {
  a_udp_socket : bool; a_udp_bind : bool; a_registered : bool; a_init : Z; a_evt_socket : bool; a_wlan_count : Z;
  a_roam_socket : bool; a_roam_bind : bool; a_sigmask : bool; a_signalfd : bool; a_timer_create : bool; a_timer_set : bool;
  a_epoll : bool; a_add_udp : bool; a_add_sig : bool; a_add_timer : bool; a_add_evt : bool; a_eventfd : bool; a_worker : bool;
  a_add_store : bool; a_add_roam : bool; a_sd : sd_env; a_notify_socket : bool; a_ready_sent : Z }.
Record running := mk_running {
  r_udp : Z; r_roam : Z; r_sig : Z; r_timer : Z; r_ep : Z; r_evt : Z; r_store : Z; r_notify : opcd_systemd_notify_t }.

(** The control socket and the platform, up to the publication of the socket. *)
Definition start_platform (a : setup) : K (option Z) :=
  udp ← open_udp_socket_addr (a_udp_socket a) (a_udp_bind a);
  if udp <? 0 then mret None
  else if negb (a_registered a) then kclose udp;; mret None
  else
    rc ← plat_init (a_init a) (a_evt_socket a);
    if negb (rc =? 0) then plat_teardown;; kclose udp;; mret None
    else if a_wlan_count a <? 1 then plat_teardown;; kclose udp;; mret None
    else mret (Some udp).
Definition open_roam (a : setup) (c : opcd_conf_t) : K Z :=
  if roam_notify_port c =? udp_port c then mret (-1) else open_udp_socket_addr (a_roam_socket a) (a_roam_bind a).
(** The signal, timer and epoll descriptors; everything is released when one is missing. *)
Definition start_loop (a : setup) (c : opcd_conf_t) (udp : Z) : K (option (Z * Z * Z * Z)) :=
  roam ← open_roam a c;
  sig ← open_signalfd (a_sigmask a) (a_signalfd a);
  timer ← open_timerfd_1s (a_timer_create a) (a_timer_set a);
  ep ← kopen (a_epoll a);
  if (sig <? 0) || (timer <? 0) || (ep <? 0) then
    kclose udp;; kwhen (0 <=? roam) (kclose roam);; kwhen (0 <=? sig) (kclose sig);;
    kwhen (0 <=? timer) (kclose timer);; kwhen (0 <=? ep) (kclose ep);; plat_teardown;; mret None
  else mret (Some (roam, sig, timer, ep)).
Definition add_evt (a : setup) : K Z :=
  evt ← plat_event_fd;
  if evt <? 0 then mret evt else ok ← kwatch (a_add_evt a) evt; mret (if (ok : bool) then evt else -1).
Definition add_store (a : setup) : K Z :=
  store ← store_create (a_eventfd a) (a_worker a);
  if store <? 0 then mret store
  else ok ← kwatch (a_add_store a) store; if (ok : bool) then mret store else kclose store;; mret (-1).
Definition add_roam (a : setup) (roam : Z) : K Z :=
  if roam <? 0 then mret roam
  else ok ← kwatch (a_add_roam a) roam; if (ok : bool) then mret roam else kclose roam;; mret (-1).
(** The registrations, the writer and the notification that the daemon is ready. *)
Definition start_watch (a : setup) (udp roam sig timer ep : Z) : K running :=
  _ ← kwatch (a_add_udp a) udp; _ ← kwatch (a_add_sig a) sig; _ ← kwatch (a_add_timer a) timer;
  evt ← add_evt a;
  store ← add_store a;
  roam ← add_roam a roam;
  '(rc, n) ← opcd_systemd_notify_init (a_sd a) (a_notify_socket a);
  (if rc <? 0 then mret tt else _ ← opcd_systemd_ready n (a_ready_sent a); mret tt);;
  mret (mk_running udp roam sig timer ep evt store n).
Definition start (a : setup) (c : opcd_conf_t) : K (Z + running) :=
  udp ← start_platform a;
  match udp with
  | None => mret (inl 1)
  | Some udp =>
      s ← start_loop a c udp;
      match s with
      | None => mret (inl 1)
      | Some (roam, sig, timer, ep) => r ← start_watch a udp roam sig timer ep; mret (inr r)
      end
  end.

(** Which branch of the loop serves a descriptor [epoll_wait] reports. *)
Inductive branch := BrSignal | BrTimer | BrStore | BrPlatform | BrRoam | BrUdp.
Definition branch_of (r : running) (fd : Z) : option branch :=
  if fd =? r_sig r then Some BrSignal
  else if fd =? r_timer r then Some BrTimer
  else if fd =? r_store r then Some BrStore
  else if fd =? r_evt r then Some BrPlatform
  else if fd =? r_roam r then Some BrRoam
  else if fd =? r_udp r then Some BrUdp
  else None.

(** After the loop: the writer is destroyed first ([opc_store_async_destroy]). *)
Definition stop (r : running) : K unit :=
  kwhen (0 <=? r_store r) (kclose (r_store r));;
  plat_teardown;;
  kclose (r_udp r);; kwhen (0 <=? r_roam r) (kclose (r_roam r));; kclose (r_sig r);;
  kclose (r_timer r);; kclose (r_ep r);; opcd_systemd_notify_close (r_notify r).

(** ** Ownership of descriptors *)

Definition wpk {A} (m : K A) (Q : A → kern → Prop) (k : kern) : Prop := Q (m k).1 (m k).2.
Lemma wpk_bind {A B} (m : K A) (f : A → K B) Q k :
  wpk m (λ x, wpk (f x) Q) k → wpk (m ≫= f) Q k.
Proof. unfold wpk, mbind, K_bind. by destruct (m k). Qed.
Lemma wpk_conseq {A} (m : K A) (Q R : A → kern → Prop) k :
  wpk m Q k → (∀ x k, Q x k → R x k) → wpk m R k.
Proof. unfold wpk. auto. Qed.

Lemma lowest_free_spec fuel : ∀ n (fds : gset Z),
  0 <= n → (∀ i, 0 <= i < n → i ∈ fds) → Z.of_nat (size fds) <= n + Z.of_nat fuel →
  lowest_free fuel n fds ∉ fds ∧ 0 <= lowest_free fuel n fds.
Proof.
  induction fuel as [|fuel IH]; intros n fds Hn Hlow Hsize; cbn [lowest_free].
  - split; [|done]. intros Hin.
    assert (Hsub : (list_to_set (seqZ 0 (n + 1)) : gset Z) ⊆ fds).
    { intros x Hx%elem_of_list_to_set%elem_of_seqZ. destruct (decide (x = n)) as [->|]; [done|]. apply Hlow. lia. }
    apply subseteq_size in Hsub. rewrite size_list_to_set in Hsub by apply NoDup_seqZ. rewrite length_seqZ in Hsub. lia.
  - case_bool_decide as Hin; [|done]. apply IH; [lia| |lia]. intros i Hi.
    destruct (decide (i = n)) as [->|]; [done|]. apply Hlow. lia.
Qed.
Lemma fd_new_fresh fds : fd_new fds ∉ fds ∧ 0 <= fd_new fds.
Proof. apply lowest_free_spec; [lia|lia|]. lia. Qed.

(** A descriptor or none. *)
Definition opt (fd : Z) : gset Z := if 0 <=? fd then {[fd]} else ∅.
Lemma opt_some fd : 0 <= fd → opt fd = {[fd]}.
Proof. intros. unfold opt. by rewrite (proj2 (Z.leb_le 0 fd)). Qed.
Lemma opt_none fd : fd < 0 → opt fd = ∅.
Proof. intros. unfold opt. by rewrite (proj2 (Z.leb_gt 0 fd)). Qed.

(** [k] differs from [k0] by the descriptors [X], of which the platform holds [P] and at
    most [W] are watched. *)
Record holds (k0 k : kern) (X W : gset Z) (P : Z) (up : bool) : Prop := mk_holds {
  h_fds : k_fds k = X ∪ k_fds k0;
  h_disj : X ## k_fds k0;
  h_watched : k_watched k ⊆ W;
  h_platform : k_platform k = P;
  h_up : k_up k = up;
  h_rest : k_said k = k_said k0 ∧ k_dirs k = k_dirs k0 ∧ k_bad k = k_bad k0 }.

(** Decides inclusions, equations and disjointness of sets built from atoms, at one element. *)
Ltac elementwise :=
  repeat match goal with
  | H : holds _ _ _ _ _ _ |- _ => clear H
  | H : _ = _ ∨ _ |- _ => clear H
  | H : _ <= _ |- _ => clear H
  | H : _ ∈ _ |- _ => clear H
  end;
  let x := fresh "x" in
  first [apply set_eq; intros x | apply elem_of_disjoint; intros x | apply elem_of_subseteq; intros x];
  repeat match goal with
  | H : _ ## _ |- _ => rewrite elem_of_disjoint in H; specialize (H x)
  | H : _ ⊆ _ |- _ => rewrite elem_of_subseteq in H; specialize (H x)
  end;
  rewrite ?elem_of_difference, ?elem_of_union, ?elem_of_difference, ?elem_of_union, ?elem_of_empty in *; tauto.

Definition opened (k0 : kern) (X W : gset Z) (P : Z) (up : bool) (fd : Z) (k : kern) : Prop :=
  opt fd ## X ∧ -1 <= fd ∧ holds k0 k (opt fd ∪ X) W P up.

Section Ownership.
Context (k0 : kern).

Lemma wp_open ok X W P up k :
  holds k0 k X W P up →
  wpk (kopen ok) (opened k0 X W P up) k.
Proof.
  intros [Hf Hd Hw Hp Hu Hr]. unfold wpk, kopen, opened. destruct ok; cbn [fst snd].
  - destruct (fd_new_fresh (k_fds k)) as [Hn H0]. rewrite opt_some by done. rewrite Hf in *.
    split; [set_solver|]. split; [lia|]. split; cbn; try done; set_solver.
  - rewrite opt_none by lia. split; [set_solver|]. split; [lia|]. split; try done; set_solver.
Qed.
Lemma wp_close fd X W P up k (Q : unit → kern → Prop) :
  holds k0 k X W P up → 0 <= fd → opt fd ⊆ X →
  (∀ k', holds k0 k' (X ∖ opt fd) (W ∖ opt fd) P up → Q tt k') → wpk (kclose fd) Q k.
Proof.
  intros [Hf Hd Hw Hp Hu (Hr1 & Hr2 & Hr3)] H0 Hx HQ. apply HQ. rewrite opt_some in * by done.
  split; cbn; try done; [|set_solver|set_solver|].
  - rewrite Hf. set_solver.
  - split_and!; [done..|]. rewrite bool_decide_eq_true_2 by (rewrite Hf; set_solver). cbn. by rewrite orb_false_r.
Qed.
Lemma wp_drop fd X W P up k (Q : unit → kern → Prop) :
  holds k0 k X W P up → opt fd ⊆ X →
  (∀ k', holds k0 k' (X ∖ opt fd) (W ∖ opt fd) P up → Q tt k') → wpk (kwhen (0 <=? fd) (kclose fd)) Q k.
Proof.
  intros Hh Hx HQ. destruct (0 <=? fd) eqn:E; guards.
  - by eapply wp_close.
  - apply HQ. rewrite opt_none by lia. by rewrite !difference_empty_L.
Qed.
Lemma wp_watch ok fd X W P up k :
  holds k0 k X W P up → fd ∈ X →
  wpk (kwatch ok fd) (λ b k', b = ok ∧ holds k0 k' X ((if b then {[fd]} else ∅) ∪ W) P up) k.
Proof.
  intros [Hf Hd Hw Hp Hu (Hr1 & Hr2 & Hr3)] Hx. unfold wpk, kwatch. destruct ok; (split; [done|]); split; cbn; try done.
  - by apply union_mono_l.
  - split_and!; [done..|]. rewrite bool_decide_eq_true_2 by (rewrite Hf; by apply elem_of_union_l). cbn. by rewrite orb_false_r.
  - by rewrite union_empty_l_L.
Qed.
Lemma wp_teardown X W P up k (Q : unit → kern → Prop) :
  holds k0 k X W P up → opt P ⊆ X →
  (∀ k', holds k0 k' (X ∖ opt P) (W ∖ opt P) (-1) false → Q tt k') → wpk plat_teardown Q k.
Proof.
  intros Hh Hx HQ. unfold plat_teardown. apply wpk_bind. change (wpk plat_event_fd) with (λ (Q : Z → kern → Prop) k, Q (k_platform k) k).
  cbv beta. rewrite (h_platform _ _ _ _ _ _ Hh). apply wpk_bind. eapply wp_drop; [done..|]. intros k' [? ? ? ? ? ?].
  apply HQ. by split.
Qed.
Lemma holds_less k X X' W W' P up : holds k0 k X W P up → X = X' → W ⊆ W' → holds k0 k X' W' P up.
Proof. intros [? ? ? ? ? ?] <- HW. split; try done. by etrans. Qed.
(** A descriptor that is given up again when its set-up fails. *)
Lemma wp_open_or_close ok1 ok2 X W P up k :
  holds k0 k X W P up → wpk (open_udp_socket_addr ok1 ok2) (opened k0 X W P up) k.
Proof.
  intros Hh. unfold open_udp_socket_addr. apply wpk_bind. eapply wpk_conseq; [by apply wp_open|].
  intros fd k1 (Hd & H1 & Hh1). assert (Hnone : ∀ k', holds k0 k' X W P up → opened k0 X W P up (-1) k').
  { intros k' Hk'. split; [rewrite opt_none by lia; set_solver|]. split; [done|]. rewrite opt_none by lia. by rewrite union_empty_l_L. }
  destruct (fd <? 0) eqn:E; guards.
  - apply Hnone. rewrite opt_none in Hh1 by lia. by rewrite union_empty_l_L in Hh1.
  - destruct ok2; [exact (conj Hd (conj H1 Hh1))|]. apply wpk_bind. eapply wp_close; [done|done|apply union_subseteq_l|].
    intros k2 Hh2. apply Hnone. eapply holds_less; [done| |apply subseteq_difference_l; done].
    rewrite difference_union_distr_l_L, difference_diag_L, union_empty_l_L. by apply difference_disjoint_L.
Qed.

(** The state [main] finds. *)
Record fresh_process : Prop := {
  f_watched : k_watched k0 = ∅; f_platform : k_platform k0 = -1; f_up : k_up k0 = false }.
Lemma nothing_held : fresh_process → holds k0 k0 ∅ ∅ (-1) false.
Proof. intros [H1 H2 H3]. split; try done; [by rewrite union_empty_l_L|by rewrite H1]. Qed.

Definition platform_ready (o : option Z) (k : kern) : Prop :=
  match o with
  | None => holds k0 k ∅ ∅ (-1) false
  | Some udp => 0 <= udp ∧ ∃ P, opt P ## opt udp ∧ holds k0 k (opt P ∪ opt udp) ∅ P true
  end.
Lemma wp_start_platform a : fresh_process → wpk (start_platform a) platform_ready k0.
Proof.
  intros Hk0. unfold start_platform. apply wpk_bind. eapply wpk_conseq; [apply wp_open_or_close, nothing_held, Hk0|].
  intros udp k1 (_ & H1 & Hh1). destruct (udp <? 0) eqn:E; guards.
  { rewrite opt_none in Hh1 by lia. by rewrite union_empty_l_L in Hh1. }
  rewrite union_empty_r_L in Hh1. destruct (a_registered a); cbn [negb].
  2: { apply wpk_bind. eapply wp_close; [done|done|done|]. intros k2 Hh2. eapply holds_less; [done| |]; set_solver. }
  unfold plat_init. apply wpk_bind. apply wpk_bind. eapply wpk_conseq; [by apply wp_open|].
  intros fd k2 (Hd2 & H2 & Hh2). apply wpk_bind. unfold kmod, wpk at 1. cbn [fst snd].
  set (k3 := _ <| k_platform := fd |>). assert (Hh3 : holds k0 k3 (opt fd ∪ opt udp) ∅ fd true) by (destruct Hh2; by split).
  clearbody k3. unfold wpk at 1. cbn [mret K_ret fst snd].
  assert (Hfail : wpk (plat_teardown;; kclose udp;; mret None) platform_ready k3).
  { apply wpk_bind. eapply wp_teardown; [exact Hh3|apply union_subseteq_l|]. intros k4 Hh4. apply wpk_bind.
    eapply wp_close; [exact Hh4|done|set_solver|]. intros k5 Hh5. eapply holds_less; [done| |]; set_solver. }
  destruct (negb (a_init a =? 0)); [done|]. destruct (a_wlan_count a <? 1); [done|]. split; [done|]. by exists fd.
Qed.

Definition loop_ready (udp P : Z) (o : option (Z * Z * Z * Z)) (k : kern) : Prop :=
  match o with
  | None => holds k0 k ∅ ∅ (-1) false
  | Some (roam, sig, timer, ep) =>
      0 <= sig ∧ 0 <= timer ∧ 0 <= ep ∧ opt roam ## opt P ∪ opt udp ∧ opt sig ## opt roam ∪ (opt P ∪ opt udp) ∧
      opt timer ## opt sig ∪ (opt roam ∪ (opt P ∪ opt udp)) ∧ opt ep ## opt timer ∪ (opt sig ∪ (opt roam ∪ (opt P ∪ opt udp))) ∧
      holds k0 k (opt ep ∪ (opt timer ∪ (opt sig ∪ (opt roam ∪ (opt P ∪ opt udp))))) ∅ P true
  end.
Lemma wp_open_roam a c X W P up k : holds k0 k X W P up → wpk (open_roam a c) (opened k0 X W P up) k.
Proof.
  intros Hh. unfold open_roam. destruct (_ =? _); [by apply (wp_open false)|by apply wp_open_or_close].
Qed.
Lemma wp_open_signalfd a b X W P up k : holds k0 k X W P up → wpk (open_signalfd a b) (opened k0 X W P up) k.
Proof.
  intros Hh. unfold open_signalfd. destruct a; [by apply wp_open|]. by apply (wp_open false).
Qed.
Lemma wp_start_loop a c udp P k :
  0 <= udp → opt P ## opt udp → holds k0 k (opt P ∪ opt udp) ∅ P true → wpk (start_loop a c udp) (loop_ready udp P) k.
Proof.
  intros Hu Hp Hh. unfold start_loop.
  apply wpk_bind. eapply wpk_conseq; [by apply wp_open_roam|]. intros roam k1 (D1 & _ & Hh1).
  apply wpk_bind. eapply wpk_conseq; [by apply wp_open_signalfd|]. intros sig k2 (D2 & _ & Hh2).
  apply wpk_bind. eapply wpk_conseq; [by apply wp_open_or_close|]. intros timer k3 (D3 & _ & Hh3).
  apply wpk_bind. eapply wpk_conseq; [by apply wp_open|]. intros ep k4 (D4 & _ & Hh4).
  destruct (_ || _) eqn:E; [|guards; unfold wpk, loop_ready; cbn [mret K_ret fst snd]; by split_and!]. clear Hh Hh1 Hh2 Hh3 E.
  apply wpk_bind. eapply wp_close; [exact Hh4|done|set_solver|]. intros k5 Hh5.
  apply wpk_bind. eapply wp_drop; [exact Hh5|set_solver|]. intros k6 Hh6.
  apply wpk_bind. eapply wp_drop; [exact Hh6|set_solver|]. intros k7 Hh7.
  apply wpk_bind. eapply wp_drop; [exact Hh7|set_solver|]. intros k8 Hh8.
  apply wpk_bind. eapply wp_drop; [exact Hh8|set_solver|]. intros k9 Hh9.
  apply wpk_bind. eapply wp_teardown; [exact Hh9|set_solver|]. intros k10 Hh10.
  eapply holds_less; [exact Hh10| |]; set_solver.
Qed.

(** ** The running daemon *)

Fixpoint held (l : list Z) : gset Z := match l with [] => ∅ | fd :: l' => opt fd ∪ held l' end.
Fixpoint separate (l : list Z) : Prop := match l with [] => True | fd :: l' => opt fd ## held l' ∧ separate l' end.
Definition watchable (r : running) : gset Z :=
  held [r_roam r; r_store r; r_evt r; r_timer r; r_sig r; r_udp r].

Lemma in_opt fd : 0 <= fd → fd ∈ opt fd.
Proof. intros. rewrite opt_some by done. set_solver. Qed.
Lemma wp_add_evt a X W P up k :
  holds k0 k X W P up → opt P ⊆ X →
  wpk (add_evt a) (λ evt k', (evt = P ∨ evt = -1) ∧ holds k0 k' X (opt evt ∪ W) P up) k.
Proof.
  intros Hh HP. unfold add_evt. apply wpk_bind. change (wpk plat_event_fd) with (λ (Q : Z → kern → Prop) k, Q (k_platform k) k).
  cbv beta. rewrite (h_platform _ _ _ _ _ _ Hh). destruct (P <? 0) eqn:E; guards.
  - split; [by left|]. eapply holds_less; [done|done|apply union_subseteq_r].
  - apply wpk_bind. eapply wpk_conseq; [apply wp_watch; [done|]; apply HP, in_opt; lia|]. intros b k' [_ Hk'].
    unfold wpk. cbn [mret K_ret fst snd]. destruct b.
    + split; [by left|]. by rewrite opt_some by lia.
    + split; [by right|]. by rewrite opt_none by lia.
Qed.
Lemma wp_add_store a X W P up k :
  holds k0 k X W P up →
  wpk (add_store a) (λ fd k', opt fd ## X ∧ holds k0 k' (opt fd ∪ X) (opt fd ∪ W) P up) k.
Proof.
  intros Hh. unfold add_store. apply wpk_bind. eapply wpk_conseq; [by apply wp_open_or_close|]. intros fd k1 (Hd & H1 & Hh1).
  destruct (fd <? 0) eqn:E; guards.
  - split; [done|]. eapply holds_less; [done|done|apply union_subseteq_r].
  - apply wpk_bind. eapply wpk_conseq; [apply wp_watch; [done|]; apply elem_of_union_l, in_opt; lia|]. intros b k' [_ Hk'].
    destruct b.
    + split; [done|]. unfold wpk; cbn [mret K_ret fst snd n_fd notify_zero]. by rewrite opt_some in * by lia.
    + apply wpk_bind. eapply wp_close; [exact Hk'|done|apply union_subseteq_l|]. intros k2 Hh2.
      unfold wpk; cbn [mret K_ret fst snd n_fd notify_zero]. rewrite (opt_none (-1)) by lia. split; [set_solver|]. eapply holds_less; [done| |]; set_solver.
Qed.
Lemma wp_add_roam a roam X W P up k :
  holds k0 k X W P up → opt roam ⊆ X →
  wpk (add_roam a roam) (λ fd k', (fd = roam ∨ fd = -1) ∧ holds k0 k' (opt fd ∪ X ∖ opt roam) (opt fd ∪ W) P up) k.
Proof.
  intros Hh HX. unfold add_roam. destruct (roam <? 0) eqn:E; guards.
  - unfold wpk; cbn [mret K_ret fst snd]. split; [by left|]. rewrite (opt_none roam) by lia.
    eapply holds_less; [done| |]; set_solver.
  - apply wpk_bind. eapply wpk_conseq; [apply wp_watch; [done|]; apply HX, in_opt; lia|]. intros b k' [_ Hk'].
    destruct b.
    + split; [by left|]. unfold wpk; cbn [mret K_ret fst snd n_fd notify_zero]. rewrite (opt_some roam) in * by lia. eapply holds_less; [done| |set_solver].
      apply union_difference_L in HX. done.
    + apply wpk_bind. eapply wp_close; [exact Hk'|done|done|]. intros k2 Hh2.
      split; [by right|]. unfold wpk; cbn [mret K_ret fst snd n_fd notify_zero]. rewrite (opt_none (-1)) by lia. eapply holds_less; [done| |]; set_solver.
Qed.
Lemma wp_notify_init e ok X W P up k :
  holds k0 k X W P up →
  wpk (opcd_systemd_notify_init e ok) (λ p k', opt (n_fd p.2) ## X ∧ holds k0 k' (opt (n_fd p.2) ∪ X) W P up) k.
Proof.
  intros Hh. assert (H0 : ∀ rc : Z, wpk (mret (rc, notify_zero)) (λ p k', opt (n_fd p.2) ## X ∧ holds k0 k' (opt (n_fd p.2) ∪ X) W P up) k).
  { intros rc. unfold wpk; cbn [mret K_ret fst snd n_fd notify_zero]. rewrite opt_none by lia. split; [set_solver|]. by rewrite union_empty_l_L. }
  unfold opcd_systemd_notify_init. destruct (NOTIFY_SOCKET e) as [path|]; [|done].
  destruct (_ && _); [done|]. destruct (_ <=? _); [done|]. destruct (notify_addr path).
  apply wpk_bind. eapply wpk_conseq; [by apply wp_open|]. intros fd k' (Hd & _ & Hk'). by destruct (fd <? 0).
Qed.
End Ownership.

(** [k0] with the notifications sent since. *)
Definition after_saying (k0 : kern) (said : list (list Z)) : kern := k0 <| k_said := k_said k0 ++ said |>.
Lemma holds_said k0 k X W P up l : holds k0 k X W P up → holds (after_saying k0 l) (k <| k_said := k_said k ++ l |>) X W P up.
Proof. intros [? ? ? ? ? (H1 & ? & ?)]. split; try done. cbn. by rewrite H1. Qed.
Lemma after_saying_nil k0 : after_saying k0 [] = k0.
Proof. destruct k0. unfold after_saying. cbn. by rewrite app_nil_r. Qed.
Lemma holds_nothing k0 k : fresh_process k0 → holds k0 k ∅ ∅ (-1) false → k = k0.
Proof.
  intros [H1 H2 H3] [Hf _ Hw Hp Hu (Hs & Hd & Hb)]. destruct k, k0. cbn in *. subst. f_equal; [set_solver|set_solver].
Qed.

Definition serving (k0 : kern) (r : running) (k : kern) : Prop :=
  ∃ P said, (r_evt r = P ∨ r_evt r = -1) ∧ (0 <= r_udp r ∧ 0 <= r_sig r ∧ 0 <= r_timer r ∧ 0 <= r_ep r) ∧
    separate [n_fd (r_notify r); r_store r; r_roam r; r_ep r; r_timer r; r_sig r; P; r_udp r] ∧
    (said = [] ∨ said = [READY]) ∧
    holds (after_saying k0 said) k (held [n_fd (r_notify r); r_store r; r_roam r; r_ep r; r_timer r; r_sig r; P; r_udp r])
      (watchable r) P true.
Lemma wp_ready k0 (rc sent : Z) n X W P up k :
  holds k0 k X W P up →
  wpk (if rc <? 0 then mret tt else _ ← opcd_systemd_ready n sent; mret tt)
    (λ _ k', ∃ said, (said = [] ∨ said = [READY]) ∧ holds (after_saying k0 said) k' X W P up) k.
Proof.
  intros Hh. assert (H0 : ∃ said, (said = [] ∨ said = [READY]) ∧ holds (after_saying k0 said) k X W P up).
  { exists []. split; [by left|]. by rewrite after_saying_nil. }
  destruct (rc <? 0); [done|]. unfold opcd_systemd_ready, send_state. destruct (n_fd n <? 0); [done|].
  exists [READY]. split; [by right|]. by apply holds_said.
Qed.
Lemma wp_start_watch k0 a udp P roam sig timer ep k :
  0 <= udp → opt P ## opt udp → loop_ready k0 udp P (Some (roam, sig, timer, ep)) k →
  wpk (start_watch a udp roam sig timer ep) (serving k0) k.
Proof.
  intros Hu Hp (Hs & Ht & He & D1 & D2 & D3 & D4 & Hh). unfold start_watch.
  pose proof (in_opt udp Hu). pose proof (in_opt sig Hs). pose proof (in_opt timer Ht).
  apply wpk_bind. eapply wpk_conseq; [apply wp_watch; [exact Hh|set_solver]|]. intros b1 k1 [_ Hh1].
  apply wpk_bind. eapply wpk_conseq; [apply wp_watch; [exact Hh1|set_solver]|]. intros b2 k2 [_ Hh2].
  apply wpk_bind. eapply wpk_conseq; [apply wp_watch; [exact Hh2|set_solver]|]. intros b3 k3 [_ Hh3].
  apply wpk_bind. eapply wpk_conseq; [apply wp_add_evt; [exact Hh3|set_solver]|]. intros evt k4 [Hevt Hh4].
  apply wpk_bind. eapply wpk_conseq; [apply wp_add_store, Hh4|]. intros store k5 [D5 Hh5].
  apply wpk_bind. eapply wpk_conseq; [apply wp_add_roam; [exact Hh5|set_solver]|]. intros roam' k6 [Hr Hh6].
  apply wpk_bind. eapply wpk_conseq; [apply wp_notify_init, Hh6|]. intros [rc n] k7 [D7 Hh7]. cbn [snd] in *.
  apply wpk_bind. eapply wpk_conseq; [apply wp_ready, Hh7|]. intros ? k8 (said & Hsaid & Hh8).
  unfold wpk; cbn [mret K_ret fst snd]. exists P, said. cbn [r_evt r_udp r_sig r_timer r_ep r_notify r_store r_roam].
  assert (Hr' : opt roam' = opt roam ∨ opt roam' = ∅) by (destruct Hr as [->| ->]; [by left|right; by apply opt_none]).
  split; [done|]. split; [done|]. cbn [separate held]. unfold watchable. cbn [held r_evt r_udp r_sig r_timer r_ep r_notify r_store r_roam].
  split; [split_and!; try done; destruct Hr' as [Hr'|Hr']; rewrite ?Hr' in *; elementwise|]. split; [done|].
  eapply holds_less; [exact Hh8| |].
  - destruct Hr' as [Hr'|Hr']; rewrite ?Hr' in *; [|elementwise].
    rewrite <- (union_difference_L (opt roam)) by elementwise. elementwise.
  - assert (Hb : ∀ (b : bool) fd, 0 <= fd → (if b then {[fd]} else ∅) ⊆ opt fd) by (intros [] fd ?; rewrite opt_some by done; set_solver).
    pose proof (Hb b1 udp Hu). pose proof (Hb b2 sig Hs). pose proof (Hb b3 timer Ht). clear Hb Hr'.
    generalize dependent (if b1 then {[udp]} else ∅ : gset Z). generalize dependent (if b2 then {[sig]} else ∅ : gset Z).
    generalize dependent (if b3 then {[timer]} else ∅ : gset Z). intros. elementwise.
Qed.
Lemma wp_stop k0 r k : fresh_process k0 → serving k0 r k →
  wpk (stop r) (λ _ k', ∃ said, (said = [] ∨ said = [READY]) ∧ k' = after_saying k0 said) k.
Proof.
  intros Hk0 (P & said & Hevt & (Hu & Hs & Ht & He) & Hsep & Hsaid & Hh). unfold stop.
  assert (Hsub : opt (r_evt r) ⊆ opt P) by (destruct Hevt as [->| ->]; [done|rewrite (opt_none (-1)) by lia; set_solver]).
  destruct Hsep as (D1 & D2 & D3 & D4 & D5 & D6 & D7 & _). cbn [held] in *.
  apply wpk_bind. eapply wp_drop; [exact Hh|elementwise|]. intros k1 Hh1.
  apply wpk_bind. eapply wp_teardown; [exact Hh1|elementwise|]. intros k2 Hh2.
  apply wpk_bind. eapply wp_close; [exact Hh2|done|elementwise|]. intros k3 Hh3.
  apply wpk_bind. eapply wp_drop; [exact Hh3|elementwise|]. intros k4 Hh4.
  apply wpk_bind. eapply wp_close; [exact Hh4|done|elementwise|]. intros k5 Hh5.
  apply wpk_bind. eapply wp_close; [exact Hh5|done|elementwise|]. intros k6 Hh6.
  apply wpk_bind. eapply wp_close; [exact Hh6|done|elementwise|]. intros k7 Hh7.
  eapply wp_drop; [exact Hh7|elementwise|]. intros k8 Hh8. exists said. split; [done|].
  apply holds_nothing; [by destruct Hk0; split|]. eapply holds_less; [exact Hh8|elementwise|].
  unfold watchable. cbn [held]. elementwise.
Qed.

Lemma wp_start k0 a c : fresh_process k0 →
  wpk (start a c) (λ x k, match x with inl code => code = 1 ∧ k = k0 | inr r => serving k0 r k end) k0.
Proof.
  intros Hk0. unfold start. apply wpk_bind. eapply wpk_conseq; [by apply wp_start_platform|].
  intros [udp|] k1; [|intros Hk; split; [done|by apply holds_nothing]]. intros (Hu & P & Hd & Hh).
  apply wpk_bind. eapply wpk_conseq; [by eapply wp_start_loop|].
  intros [[[[roam sig] timer] ep]|] k2 Hl; [|split; [done|by apply holds_nothing]].
  apply wpk_bind. eapply wpk_conseq; [by eapply wp_start_watch|]. done.
Qed.
Lemma in_opt_eq fd x : x ∈ opt fd → x = fd ∧ 0 <= fd.
Proof. unfold opt. destruct (0 <=? fd) eqn:E; guards; set_solver. Qed.
Lemma apart a b : opt a ## opt b → 0 <= b → a ≠ b.
Proof. intros Hd Hb ->. by apply (Hd b); apply in_opt. Qed.

(** Each descriptor is served by its own branch of the loop. *)
Definition own_branches (r : running) : Prop :=
  branch_of r (r_sig r) = Some BrSignal ∧ branch_of r (r_timer r) = Some BrTimer ∧ branch_of r (r_udp r) = Some BrUdp ∧
  (0 <= r_store r → branch_of r (r_store r) = Some BrStore) ∧
  (0 <= r_evt r → branch_of r (r_evt r) = Some BrPlatform) ∧
  (0 <= r_roam r → branch_of r (r_roam r) = Some BrRoam).
Lemma serving_branches k0 r k : serving k0 r k →
  own_branches r ∧ (∀ fd, fd ∈ k_watched k → is_Some (branch_of r fd)) ∧ k_bad k = k_bad k0.
Proof.
  intros (P & said & Hevt & (Hu & Hs & Ht & He) & Hsep & Hsaid & Hh).
  destruct Hsep as (D1 & D2 & D3 & D4 & D5 & D6 & D7 & _). cbn [held] in *.
  assert (Hsub : opt (r_evt r) ⊆ opt P) by (destruct Hevt as [->| ->]; [done|rewrite (opt_none (-1)) by lia; set_solver]).
  split_and!.
  - assert (N1 : r_timer r ≠ r_sig r) by (apply apart; [elementwise|done]).
    assert (N2 : r_udp r ≠ r_sig r) by (apply apart; [elementwise|done]).
    assert (N3 : r_udp r ≠ r_timer r) by (apply apart; [elementwise|done]).
    assert (N4 : ∀ x, x ∈ [r_sig r; r_timer r; r_udp r] → r_store r ≠ x ∧ r_evt r ≠ x ∧ r_roam r ≠ x).
    { intros x Hx. repeat apply elem_of_cons in Hx as [->|Hx]; [..|by apply not_elem_of_nil in Hx];
        (split_and!; (apply apart; [elementwise|done])). }
    assert (N5 : 0 <= r_evt r → r_store r ≠ r_evt r) by (intros; apply apart; [elementwise|done]).
    assert (N6 : 0 <= r_roam r → r_store r ≠ r_roam r ∧ r_evt r ≠ r_roam r) by (intros; split; (apply apart; [elementwise|done])).
    destruct (N4 (r_sig r) ltac:(by left)) as (? & ? & ?), (N4 (r_timer r) ltac:(by right; left)) as (? & ? & ?),
      (N4 (r_udp r) ltac:(by right; right; left)) as (? & ? & ?).
    unfold own_branches, branch_of. rewrite !Z.eqb_refl.
    repeat split; intros; repeat match goal with |- context [?a =? ?b] => rewrite (proj2 (Z.eqb_neq a b)) by (try apply not_eq_sym; intuition auto) end; done.
  - intros fd Hfd%(h_watched _ _ _ _ _ _ Hh). unfold watchable in Hfd. cbn [held] in Hfd.
    rewrite !elem_of_union in Hfd. unfold branch_of.
    assert (Hin : fd = r_roam r ∨ fd = r_store r ∨ fd = r_evt r ∨ fd = r_timer r ∨ fd = r_sig r ∨ fd = r_udp r).
    { repeat (destruct Hfd as [Hfd%in_opt_eq|Hfd]; [tauto|]). set_solver. }
    destruct (fd =? r_sig r) eqn:?, (fd =? r_timer r) eqn:?, (fd =? r_store r) eqn:?, (fd =? r_evt r) eqn:?, (fd =? r_roam r) eqn:?,
      (fd =? r_udp r) eqn:?; try done. guards. tauto.
  - apply Hh.
Qed.

(** C21: starting and stopping leak nothing. Whatever the calls of the set-up answer, a
    start that fails exits with 1, every descriptor it opened closed again (none twice) and
    the platform torn down; one that succeeds watches open descriptors only, each served by
    its own branch of the loop, has told systemd that it is ready at most once, and stopping
    then gives the descriptor table back as it was found. *)
Theorem start_stop_balanced k0 a c :
  fresh_process k0 →
  match start a c k0 with
  | (inl code, k) => code = 1 ∧ k = k0
  | (inr r, k) =>
      own_branches r ∧ (∀ fd, fd ∈ k_watched k → is_Some (branch_of r fd)) ∧ k_bad k = k_bad k0 ∧
      ((stop r k).2 = k0 ∨ (stop r k).2 = after_saying k0 [READY])
  end.
Proof.
  intros Hk0. pose proof (wp_start k0 a c Hk0) as H. unfold wpk in H. destruct (start a c k0) as [[code|r] k]; [done|].
  cbn in H. destruct (serving_branches _ _ _ H) as (H1 & H2 & H3). split_and!; [done..|].
  destruct (wp_stop k0 r k Hk0 H) as (said & [-> | ->] & ->); [left; apply after_saying_nil|by right].
Qed.
Definition example_kern : kern := mk_kern {[0; 1; 2]} ∅ (-1) false [] [] false.
Definition example_sd : sd_env := mk_sd (Some (str "/run/systemd/notify")) (Some (str "30000000")) None 7.
Definition example_setup (roam_bind epoll : bool) : setup :=
  mk_setup true true true 0 true 1 true roam_bind true true true true epoll true true true true true true true true example_sd true 7.
Definition example_outcome (a : setup) : option (list Z) :=
  match start a default_conf example_kern with
  | (inr r, _) => Some [r_udp r; r_evt r; r_roam r; r_store r]
  | (inl _, _) => None
  end.
Lemma start_stop_balanced_witness :
  fresh_process example_kern ∧
  example_outcome (example_setup true true) = Some [3; 4; 5; 9] ∧
  (start (example_setup true false) default_conf example_kern).2 = example_kern.
Proof.
  assert (H0 : fresh_process example_kern) by (by split). split; [done|]. split; [vm_compute; reflexivity|].
  pose proof (start_stop_balanced example_kern (example_setup true false) default_conf H0) as H.
  assert (E : example_outcome (example_setup true false) = None) by (vm_compute; reflexivity). unfold example_outcome in E.
  destruct (start (example_setup true false) default_conf example_kern) as [[code|r] k]; [by destruct H as [_ ->]|done].
Defined.
End Startup.
