(* ===== verification/MainProgram.v ===== *)
(** * The whole program: main of opcd/opcd.c

    [main] composes the command line, the configuration, the files read at start, the
    set-up of Startup.v, the loop of Daemon.v and the release after it. *)
From S2P Require Import Prelude CText Codec ScanList Commands Indications Store StoreAsync IpListText FaultProbe State Indication Validate RadioConf Persist Handlers IpListLoad Daemon SimEnv Logic Frames Invariant Reachable Conf JsonText Topology Startup.
From stdpp Require Import base list numbers option tactics strings gmap sets.
From Stdlib Require Import ZArith Lia.
#[local] Open Scope Z_scope.
Import StoreAsync.StoreAsync FaultProbe Conf Topology Startup.

Module MainProgram.

Section Main.
Context {E : Type} `{Env E}.
(** [restored]: what [opc_essid_marker_restore] returns for -R. The result is the exit
    status. *)
Definition main (argv : list (list Z)) (read : list Z → option (list Z)) (wifi_init_conf : option (list Z)) (restored : Z)
    (a : setup) (turns : list (list event)) (finish : opc_store_async → opc_store_async)
    (e : E) (k : kern) : Z * option (world E) * kern :=
  match getopt_loop argv no_overrides with
  | CmdUsage code => (code, None, k)
  | CmdRestore => (if restored <? 0 then 1 else 0, None, k)
  | CmdRun o =>
      let s := main_state read wifi_init_conf o in
      let k := k <| k_dirs := k_dirs k ++ ensure_dirs OPC_PATH_TEMP |> in
      let '(_, w) := state_load_from_disk (mk_world s e []) in
      match start a (conf s) k with
      | (inl code, k) => (code, Some w, k)
      | (inr r, k) =>
          let writer := if r_store r <? 0 then None else Some opc_store_async_create in
          let '(_, w) := (publish (r_udp r) writer;; main_loop turns;; main_exit finish) w in
          let '(_, k) := stop r k in
          (0, Some w, k)
      end
  end.
End Main.

Section MainOk.
Context {E : Type} `{Env E}.
Lemma served_ok c p fd writer turns finish :
  wps (state_load_from_disk;; publish fd writer;; main_loop turns;; main_exit finish) (λ _ s', daemon_ok s') (configured c p).
Proof.
  apply wps_bind. eapply wps_conseq; [apply loads_all|]. intros ? s1 Hs1%loads_loaded. rewrite Hs1.
  apply wps_bind. eapply wps_conseq; [apply ok_loaded|]. intros ? s2 Hs2.
  apply wps_bind. eapply wps_conseq; [apply ok_main_loop|]. intros ? s3 Hs3.
  eapply wps_conseq; [apply ok_main_exit|]. intros ? s4 Hs4. by apply Hs4, Hs3.
Qed.
(** The state of a daemon that never came to serve: still booting, and otherwise in order. *)
Definition unserved_ok (s : opcd_state_t) : Prop :=
  boot_status s = OPC_DEVICE_BOOTING ∧ logged_in s = false ∧ daemon_ok (s <| boot_status := OPC_DEVICE_READY |>).
Lemma unserved_loaded c p : wps (E := E) state_load_from_disk (λ _ s', unserved_ok s') (configured c p).
Proof.
  eapply wps_conseq; [apply loads_all|]. intros ? s1 Hs1%loads_loaded. rewrite Hs1.
  split; [done|]. split; [done|]. split; try done. apply acks_initial.
Qed.
Lemma bind_run {A B} (m : M E A) (f : A → M E B) w : (m ≫= f) w = f (m w).1 (m w).2.
Proof. unfold mbind, M_bind. by destruct (m w). Qed.
Definition exit_codes : list Z := [0; 1; 2].
Lemma letters_exit w o : match opt_letters w o with ClExit (CmdUsage code) => code ∈ exit_codes | _ => True end.
Proof. destruct w as [|c w]; [done|]. cbn. repeat (case_match; try done); simplify_eq; set_solver. Qed.
Lemma getopt_exit fuel : ∀ argv o, (length argv <= fuel)%nat →
  match getopt_loop argv o with CmdUsage code => code ∈ exit_codes | _ => True end.
Proof.
  induction fuel as [|fuel IH]; intros [|w argv] o Hl; cbn in Hl; try done; try lia. cbn [getopt_loop].
  destruct w as [|d [|c w]]; [done..|]. destruct (_ || _); [done|].
  pose proof (letters_exit (c :: w) o) as Hw. destruct (opt_letters (c :: w) o) as [o'|c' o'|r]; [apply IH; lia| |by destruct r].
  destruct argv as [|optarg argv]; [set_solver|]. apply IH. cbn in Hl. lia.
Qed.

End MainOk.

(** ** The configuration in effect *)

(** An option with its argument, in the same word or in the next. *)
Inductive cli_option := CliPort (arg : list Z) | CliIdle (arg : list Z) | CliConf (arg : list Z).
Definition cli_letter (x : cli_option) : Z := match x with CliPort _ => 112 | CliIdle _ => 105 | CliConf _ => 99 end.
Definition cli_arg (x : cli_option) : list Z := match x with CliPort a | CliIdle a | CliConf a => a end.
Definition cli_words (x : bool * cli_option) : list (list Z) :=
  if x.1 && negb (bool_decide (cli_arg x.2 = [])) then [45 :: cli_letter x.2 :: cli_arg x.2] else [[45; cli_letter x.2]; cli_arg x.2].
Definition cli_port (x : bool * cli_option) : option Z := match x.2 with CliPort a => Some (atoi a) | _ => None end.
Definition cli_idle (x : bool * cli_option) : option Z := match x.2 with CliIdle a => Some (atoi a) | _ => None end.
Definition cli_conf (x : bool * cli_option) : option (list Z) := match x.2 with CliConf a => Some a | _ => None end.
Definition cli_over (opts : list (bool * cli_option)) : overrides :=
  mk_over (default 0 (last (omap cli_port opts))) (default 0 (last (omap cli_idle opts)))
    (default OPC_PATH_CONF (last (omap cli_conf opts))).

Lemma getopt_word x argv o : getopt_loop (cli_words x ++ argv) o = getopt_loop argv (with_optarg (cli_letter x.2) (cli_arg x.2) o).
Proof.
  destruct x as [[] x]; unfold cli_words; cbn [fst snd andb]; [case_bool_decide as Ha; cbn [negb]|]; [by destruct x| |by destruct x].
  cbn [app getopt_loop]. destruct x as [a|a|a]; cbn [cli_arg] in *; (destruct a; [done|]); done.
Qed.
Lemma with_option_over x opts : with_optarg (cli_letter x.2) (cli_arg x.2) (cli_over opts) = cli_over (opts ++ [x]).
Proof.
  unfold cli_over. rewrite !omap_app, !last_app. destruct x as [b [a|a|a]]; cbn; by rewrite ?last_nil.
Qed.
Lemma getopt_words opts : ∀ pre,
  getopt_loop (concat (map cli_words opts)) (cli_over pre) = CmdRun (cli_over (pre ++ opts)).
Proof.
  induction opts as [|x opts IH]; intros pre; [by rewrite app_nil_r|].
  cbn [map concat]. rewrite getopt_word, with_option_over, IH. by rewrite <- app_assoc.
Qed.

(** C33: the configuration the daemon runs with. For options in any order, number and
    spelling and any opc.conf without NUL bytes: the last -c names the file; the control
    port is the last -p when it is positive (reduced modulo 2^16), else the last udp_port
    in 1..65535 of the file, else 50607; the idle time is the last positive -i or 300 s;
    the roam port, the frequency source, the address interface and the topology are those
    of the file. *)
Theorem main_configuration opts read wifi_init_conf :
  let o := cli_over opts in
  let f := default [] (read (conf_path o)) in
  Forall (λ c, c ≠ 0) f →
  let c := main_conf read wifi_init_conf o in
  getopt_loop (concat (map cli_words opts)) no_overrides = CmdRun o ∧
  udp_port c = (let p := default 0 (last (omap cli_port opts)) in
                if 0 <? p then u16 p else default 50607 (last (omap port_value (values "udp_port" f)))) ∧
  login_idle_s c = (let i := default 0 (last (omap cli_idle opts)) in if 0 <? i then u32 i else 300) ∧
  roam_notify_port c = default 50608 (last (omap port_value (values "roam_notify_port" f))) ∧
  device_info_freq_source c = opcd_freq_source_from_token (last (values "device_info_freq_source" f)) ∧
  device_ip_iface c = opcd_ip_iface_from_token (last (values "device_ip_iface" f)) ∧
  management_topology c = opcd_topology_parse (read (conf_path o)) wifi_init_conf.
Proof.
  intros o f Hf c. destruct (conf_readers_spec (read (conf_path o)) Hf) as (H1 & H2 & _ & H4).
  split; [apply (getopt_words opts [])|]. unfold c, main_conf, opcd_roam_notify_port_parse. cbn [udp_port login_idle_s roam_notify_port device_info_freq_source device_ip_iface management_topology].
  rewrite !H4, H1, H2. by split_and!.
Qed.
Definition example_conf : list Z := str "udp_port = 50800" ++ [10] ++ str "device_ip_iface=mlan0" ++ [10].
Definition example_read (path : list Z) : option (list Z) := if bool_decide (path = str "/tmp/opc.conf") then Some example_conf else None.
Lemma main_configuration_witness :
  let opts := [(true, CliPort (str "0")); (false, CliConf (str "/tmp/opc.conf"))] in
  Forall (λ c, c ≠ 0) (default [] (example_read (conf_path (cli_over opts)))) ∧
  udp_port (main_conf example_read None (cli_over opts)) = 50800 ∧
  getopt_loop [str "-p0"; str "-c"; str "/tmp/opc.conf"] no_overrides = CmdRun (cli_over opts).
Proof.
  assert (Hf : Forall (λ c, c ≠ 0) (default [] (example_read (conf_path (cli_over [(true, CliPort (str "0")); (false, CliConf (str "/tmp/opc.conf"))]))))).
  { vm_compute. repeat (constructor; [done|]). constructor. }
  split; [exact Hf|].
  destruct (main_configuration [(true, CliPort (str "0")); (false, CliConf (str "/tmp/opc.conf"))] example_read None Hf) as (H1 & H2 & _).
  split; [rewrite H2; vm_compute; reflexivity|exact H1].
Defined.
End MainProgram.
