(* ===== verification/Snapshot.v ===== *)
(** * The device-info snapshot: opcd/snapshot.h, opcd/snapshot.c

    The JSON document that mirrors a GetDeviceInfo acknowledgment, and its publication by a
    temporary file and a rename. A format string is written with a tilde for a double quote
    and a dollar for a conversion, whose converted argument is passed as text. The results
    of the file operations are inputs. *)
From S2P Require Import Prelude CText Codec ScanList Commands Indications Messages JsonText.
From stdpp Require Import base list numbers option tactics strings.
From Stdlib Require Import ZArith Lia.
#[local] Open Scope Z_scope.
Import Commands JsonText.

Module Snapshot.

(** ** The document *)

Fixpoint fmt (f : list Z) (args : list (list Z)) : list Z :=
  match f with
  | [] => []
  | c :: f' => if c =? 36 then match args with a :: args' => a ++ fmt f' args' | [] => fmt f' [] end
               else (if c =? 126 then 34 else c) :: fmt f' args
  end.
(** [%04u] and [%02u] *)
Definition dec_pad (w : Z) (n : Z) : list Z := let d := dec n in replicate (Z.to_nat (w - len d)) 48 ++ d.
Definition ipv4_str (host : Z) : list Z :=
  dec (Z.land (Z.shiftr host 24) 255) ++ [46] ++ dec (Z.land (Z.shiftr host 16) 255) ++ [46] ++
  dec (Z.land (Z.shiftr host 8) 255) ++ [46] ++ dec (Z.land host 255).
Definition mac_str (mac : list Z) : list Z :=
  hex2 (rd mac 0) ++ [58] ++ hex2 (rd mac 1) ++ [58] ++ hex2 (rd mac 2) ++ [58] ++ hex2 (rd mac 3) ++ [58] ++
  hex2 (rd mac 4) ++ [58] ++ hex2 (rd mac 5).
(** One byte as it is written into a string. *)
Definition json_esc (c : Z) : list Z :=
  if (c =? 34) || (c =? 92) then [92; c]
  else if c <? 32 then [92; 117; 48; 48; hex_digit (Z.land (Z.shiftr c 4) 15); hex_digit (Z.land c 15)]
  else [c].
Fixpoint json_loop (s : list Z) (o cap : Z) : list Z :=
  match s with
  | [] => []
  | c :: s' => let e := json_esc c in if cap <=? o + len e then [] else e ++ json_loop s' (o + len e) cap
  end.
Definition json_str (a : list Z) (cap : Z) : list Z := json_loop (cstr a) 0 cap.

Definition wlan_format : string := "  ~wlan$~: {
    ~mac~:            ~$~,
    ~mode~:           $,
    ~bandwidth~:      $,
    ~freq_mhz~:       $,
    ~channel~:        $,
    ~status~:         $,
    ~snr~:            $,
    ~rssi~:           $,
    ~connect_ap_mac~: ~$~,
    ~scan_band~:      $,
    ~scan_chlist~:    ~$~
  }".
Definition chlist_str (l : list Z) : list Z := flat_map hex2 (take (Z.to_nat OPC_SCAN_CHLIST_LEN) l).
Definition emit_wlan (idx : Z) (w : opc_wlan_radio_state_t) : list Z :=
  fmt (str wlan_format)
    [dec idx; mac_str (rs_mac w); dec (rs_mode w); dec (rs_bandwidth w); dec (rs_freq_mhz w); dec (rs_channel w);
     dec (rs_status w); dec_ll (rs_snr w); dec_ll (rs_rssi w); mac_str (rs_connect_ap_mac w); dec (rs_scan_band w);
     chlist_str (rs_scan_chlist w)].
Definition head_format : string := "{
  ~fetched_at_monotonic_s~: $,
  ~result~:          $,
  ~error_cause~:     $,
  ~vendor_code~:     $,
  ~product_code~:    $,
  ~product_subcode~: $,
  ~manufacture_date~: ~$-$-$~,
  ~shipment_date~:    ~$-$-$~,
  ~firmware_version~: ~$~,
  ~hardware_version~: ~$~,
  ~serial_number~:    ~$~,
  ~ethernet_mac~:     ~$~,
  ~ip_address~:       ~$~,
  ~subnet_mask~:      ~$~,
  ~default_gateway~:  ~$~,
  ~ntp_server~:       ~$~,
  ~essid~:            ~$~,
  ~device_status~:    $,
  ~station_type~:     $,
  ~priority_ch~:      $,
  ~ieee_11r~:  $,
  ~ieee_11ai~: $,
  ~ieee_11k~:  $,
  ~ieee_11v~:  $,
".
Definition date_args (d : opc_date_t) : list (list Z) := [dec_pad 4 (year d); dec_pad 2 (month d); dec_pad 2 (day d)].
(** [now]: the seconds of the monotonic clock. *)
Definition write_json (now : Z) (ack : opc_get_device_info_ack_t) : list Z :=
  fmt (str head_format)
    ([dec_ll now; dec (di_result ack); dec (di_error_cause ack); dec (di_vendor_code ack); dec (di_product_code ack);
      dec (di_product_subcode ack)] ++ date_args (di_manufacture ack) ++ date_args (di_shipment ack) ++
     [json_str (di_firmware_version ack) (6 * OPC_VERSION_FIELD_LEN); json_str (di_hardware_version ack) (6 * OPC_VERSION_FIELD_LEN);
      json_str (di_serial_number ack) (6 * OPC_SERIAL_FIELD_LEN); mac_str (di_ethernet_mac ack);
      ipv4_str (di_ip_address ack); ipv4_str (di_subnet_mask ack); ipv4_str (di_default_gateway ack); ipv4_str (di_ntp_server ack);
      json_str (di_essid ack) (6 * OPC_ESSID_FIELD_LEN); dec (di_device_status ack); dec (di_station_type ack);
      dec (di_priority_ch ack); dec (di_ieee_11r ack); dec (di_ieee_11ai ack); dec (di_ieee_11k ack); dec (di_ieee_11v ack)]) ++
  emit_wlan 1 (di_wlan1 ack) ++ [44; 10] ++ emit_wlan 2 (di_wlan2 ack) ++ [10; 125; 10].

(** ** Publication *)

(** The target, the temporary file, and whether the warning was given. *)
Record snap := mk_snap { sn_file : option (list Z); sn_tmp : option (list Z); sn_warned : bool; sn_warnings : Z }.
(** errno of a failed call, [None] for success; [o_print]: a print failed half way, after
    so many bytes. *)
Record snap_io := mk_snap_io {
  o_open : option Z; o_fdopen : option Z; o_print : option Z; o_fflush : option Z; o_fclose : option Z; o_rename : option Z;
  o_unlink : option Z }.
Definition EIO : Z := 5.
Definition warn_once (f : snap) : snap :=
  if sn_warned f then f else mk_snap (sn_file f) (sn_tmp f) true (sn_warnings f + 1).
(** [unlink] of the temporary file; its result is not looked at. *)
Definition unlink_tmp (io : snap_io) (f : snap) : snap :=
  match o_unlink io with
  | None => mk_snap (sn_file f) None (sn_warned f) (sn_warnings f)
  | Some _ => f
  end.
Definition TMP_PATH_SIZE : Z := 256.
Definition opcd_snapshot_publish (path : string) (io : snap_io) (now : Z) (ack : opc_get_device_info_ack_t) (f : snap) : Z * snap :=
  if TMP_PATH_SIZE <=? len (str path) + 4 then (- ENAMETOOLONG, warn_once f)
  else match o_open io with
  | Some e => (- e, warn_once f)
  | None =>
      let f := mk_snap (sn_file f) (Some []) (sn_warned f) (sn_warnings f) in
      match o_fdopen io with
      | Some e => (- e, warn_once (unlink_tmp io f))
      | None =>
          let text := write_json now ack in
          let '(rc, written) := match o_print io with Some n => (- EIO, take (Z.to_nat n) text) | None => (0, text) end in
          let rc := match o_fflush io with Some e => if rc =? 0 then - e else rc | None => rc end in
          let rc := match o_fclose io with Some e => if rc =? 0 then - e else rc | None => rc end in
          let f := mk_snap (sn_file f) (Some written) (sn_warned f) (sn_warnings f) in
          if negb (rc =? 0) then (rc, warn_once (unlink_tmp io f))
          else match o_rename io with
               | Some e => (- e, warn_once (unlink_tmp io f))
               | None => (0, mk_snap (sn_tmp f) None false (sn_warnings f))
               end
      end
  end.
(** [mkdir]: its errno. *)
Definition opcd_snapshot_init (mkdir : option Z) : Z :=
  match mkdir with None => 0 | Some e => if e =? 17 then 0 else - e end.

(** ** The document it is *)

Fixpoint members (w1 w9 : list Z) (l : list (string * nat * json)) : jmembers :=
  match l with
  | [] => MNone
  | (key, pad, v) :: l' => MCons w1 (str key) [] (replicate pad 32) v (match l' with [] => w9 | _ => [] end) (members w1 w9 l')
  end.
Definition num (n : Z) : json := JBare (dec n).
Definition date_str (d : opc_date_t) : list Z := dec_pad 4 (year d) ++ [45] ++ dec_pad 2 (month d) ++ [45] ++ dec_pad 2 (day d).
Definition wlan_doc (w : opc_wlan_radio_state_t) : json :=
  JObj [] (members [10; 32; 32; 32; 32] [10; 32; 32]
    [("mac", 12%nat, JStr (mac_str (rs_mac w))); ("mode", 11%nat, num (rs_mode w)); ("bandwidth", 6%nat, num (rs_bandwidth w));
     ("freq_mhz", 7%nat, num (rs_freq_mhz w)); ("channel", 8%nat, num (rs_channel w)); ("status", 9%nat, num (rs_status w));
     ("snr", 12%nat, JBare (dec_ll (rs_snr w))); ("rssi", 11%nat, JBare (dec_ll (rs_rssi w)));
     ("connect_ap_mac", 1%nat, JStr (mac_str (rs_connect_ap_mac w))); ("scan_band", 6%nat, num (rs_scan_band w));
     ("scan_chlist", 4%nat, JStr (chlist_str (rs_scan_chlist w)))]).
Definition snapshot_members (now : Z) (ack : opc_get_device_info_ack_t) : list (string * nat * json) :=
  [("fetched_at_monotonic_s", 1%nat, JBare (dec_ll now)); ("result", 10%nat, num (di_result ack));
   ("error_cause", 5%nat, num (di_error_cause ack)); ("vendor_code", 5%nat, num (di_vendor_code ack));
   ("product_code", 4%nat, num (di_product_code ack)); ("product_subcode", 1%nat, num (di_product_subcode ack));
   ("manufacture_date", 1%nat, JStr (date_str (di_manufacture ack))); ("shipment_date", 4%nat, JStr (date_str (di_shipment ack)));
   ("firmware_version", 1%nat, JStr (json_str (di_firmware_version ack) (6 * OPC_VERSION_FIELD_LEN)));
   ("hardware_version", 1%nat, JStr (json_str (di_hardware_version ack) (6 * OPC_VERSION_FIELD_LEN)));
   ("serial_number", 4%nat, JStr (json_str (di_serial_number ack) (6 * OPC_SERIAL_FIELD_LEN)));
   ("ethernet_mac", 5%nat, JStr (mac_str (di_ethernet_mac ack))); ("ip_address", 7%nat, JStr (ipv4_str (di_ip_address ack)));
   ("subnet_mask", 6%nat, JStr (ipv4_str (di_subnet_mask ack))); ("default_gateway", 2%nat, JStr (ipv4_str (di_default_gateway ack)));
   ("ntp_server", 7%nat, JStr (ipv4_str (di_ntp_server ack)));
   ("essid", 12%nat, JStr (json_str (di_essid ack) (6 * OPC_ESSID_FIELD_LEN)));
   ("device_status", 4%nat, num (di_device_status ack)); ("station_type", 5%nat, num (di_station_type ack));
   ("priority_ch", 6%nat, num (di_priority_ch ack)); ("ieee_11r", 2%nat, num (di_ieee_11r ack));
   ("ieee_11ai", 1%nat, num (di_ieee_11ai ack)); ("ieee_11k", 2%nat, num (di_ieee_11k ack)); ("ieee_11v", 2%nat, num (di_ieee_11v ack));
   ("wlan1", 1%nat, wlan_doc (di_wlan1 ack)); ("wlan2", 1%nat, wlan_doc (di_wlan2 ack))].
Definition snapshot_doc (now : Z) (ack : opc_get_device_info_ack_t) : json :=
  JObj [] (members [10; 32; 32] [10] (snapshot_members now ack)).

(** *** The grammar of RFC 8259, over bytes *)

Definition rfc_int (d : list Z) : bool :=
  match d with
  | [] => false
  | [c] => is_digit c
  | c :: r => (49 <=? c) && (c <=? 57) && forallb is_digit r
  end.
(** The numbers without fraction and exponent; the document holds no other bare value. *)
Definition rfc_number (tok : list Z) : bool := match tok with c :: d => if c =? 45 then rfc_int d else rfc_int tok | [] => false end.
(** Section 7: no quote, backslash or control character unescaped, and the escapes it names. *)
Definition short_escape (d : Z) : bool :=
  (d =? 34) || (d =? 92) || (d =? 47) || (d =? 98) || (d =? 102) || (d =? 110) || (d =? 114) || (d =? 116).
Fixpoint rfc_str (s : list Z) : bool :=
  match s with
  | [] => true
  | c :: s1 =>
      if c =? 92 then
        match s1 with
        | d :: s2 =>
            if d =? 117 then
              match s2 with
              | h1 :: h2 :: h3 :: h4 :: s3 => isxdigit h1 && isxdigit h2 && isxdigit h3 && isxdigit h4 && rfc_str s3
              | _ => false
              end
            else short_escape d && rfc_str s2
        | [] => false
        end
      else (32 <=? c) && negb (c =? 34) && rfc_str s1
  end.
Fixpoint rfc (v : json) : bool :=
  match v with
  | JBare tok => rfc_number tok
  | JStr s => rfc_str s
  | JArr w its => is_ws w && rfc_items its
  | JObj w ms => is_ws w && rfc_members ms
  end
with rfc_items (its : jitems) : bool :=
  match its with
  | INone => true
  | ICons w1 v w2 more => is_ws w1 && rfc v && is_ws w2 && rfc_items more
  end
with rfc_members (ms : jmembers) : bool :=
  match ms with
  | MNone => true
  | MCons w1 key w2 w3 v w4 more => is_ws w1 && rfc_str key && is_ws w2 && is_ws w3 && rfc v && is_ws w4 && rfc_members more
  end.

(** What a JSON reader makes of a string's text. *)
Fixpoint unescape (s : list Z) : option (list Z) :=
  match s with
  | [] => Some []
  | c :: s1 =>
      if c =? 92 then
        match s1 with
        | d :: s2 =>
            if (d =? 34) || (d =? 92) then (d ::.) <$> unescape s2
            else match s2 with
                 | a :: b :: h :: l :: s3 =>
                     if (d =? 117) && (a =? 48) && (b =? 48) && isxdigit h && isxdigit l
                     then ((hexval h * 16 + hexval l) ::.) <$> unescape s3 else None
                 | _ => None
                 end
        | [] => None
        end
      else (c ::.) <$> unescape s1
  end.

Lemma emit_wlan_print idx w :
  idx = 1 ∨ idx = 2 →
  emit_wlan idx w = [32; 32; 34] ++ str "wlan" ++ dec idx ++ [34; 58; 32] ++ print (wlan_doc w).
Proof.
  intros Hi. unfold emit_wlan, wlan_doc, num.
  generalize (mac_str (rs_mac w)), (mac_str (rs_connect_ap_mac w)), (dec (rs_mode w)), (dec (rs_bandwidth w)), (dec (rs_freq_mhz w)),
    (dec (rs_channel w)), (dec (rs_status w)), (dec_ll (rs_snr w)), (dec_ll (rs_rssi w)), (dec (rs_scan_band w)), (chlist_str (rs_scan_chlist w)).
  intros. destruct Hi as [-> | ->]; cbv -[app]; repeat (cbn [app]; rewrite <- app_assoc); cbn [app]; reflexivity.
Qed.
Lemma print_entry w1 w9 key pad v l :
  print_members (members w1 w9 ((key, pad, v) :: l)) =
  (w1 ++ 34 :: str key ++ 34 :: 58 :: replicate pad 32) ++ print v ++
  match l with [] => w9 | _ => 44 :: print_members (members w1 w9 l) end.
Proof.
  destruct l as [|[[k p] v'] l]; cbn [members print_members]; repeat (cbn [app]; rewrite <- app_assoc); cbn [app];
    by rewrite ?app_nil_r, ?app_nil_l.
Qed.
Lemma write_json_print now ack : write_json now ack = print (snapshot_doc now ack) ++ [10].
Proof.
  unfold write_json, snapshot_doc. rewrite !emit_wlan_print by auto. cbn [print]. unfold snapshot_members.
  rewrite !print_entry. unfold num, date_args, date_str. cbn [app].
  repeat match goal with
  | |- context [print (JStr ?x)] => change (print (JStr x)) with (34 :: x ++ [34])
  | |- context [print (JBare ?x)] => change (print (JBare x)) with x
  end.
  generalize (print (wlan_doc (di_wlan1 ack))), (print (wlan_doc (di_wlan2 ack))).
  repeat match goal with
  | |- context [dec ?x] => lazymatch x with 1 => fail | 2 => fail | _ => generalize (dec x); intro end
  | |- context [dec_ll ?x] => generalize (dec_ll x); intro
  | |- context [dec_pad ?w ?x] => generalize (dec_pad w x); intro
  | |- context [json_str ?x ?y] => generalize (json_str x y); intro
  | |- context [ipv4_str ?x] => generalize (ipv4_str x); intro
  | |- context [mac_str ?x] => generalize (mac_str x); intro
  end.
  intros. cbv -[app]. repeat (cbn [app]; rewrite <- app_assoc). cbn [app]. reflexivity.
Qed.

(** ** It is well formed, and its strings read back *)

Lemma dec_loop_digits fuel : ∀ n acc, 0 <= n → Forall (λ c, is_digit c = true) acc → Forall (λ c, is_digit c = true) (dec_loop fuel n acc).
Proof.
  induction fuel as [|fuel IH]; intros n acc Hn Ha; cbn [dec_loop]; [done|].
  assert (Hd : Forall (λ c, is_digit c = true) ((48 + n mod 10) :: acc)) by (constructor; [apply is_digit_add, Z.mod_pos_bound; lia|done]).
  destruct (n / 10 =? 0); [done|]. apply IH; [apply Z.div_pos; lia|done].
Qed.
Lemma dec_loop_int fuel : ∀ n acc, 0 < n < 10 ^ Z.of_nat fuel → Forall (λ c, is_digit c = true) acc →
  ∃ c r, dec_loop fuel n acc = c :: r ∧ 49 <= c <= 57 ∧ Forall (λ c, is_digit c = true) r.
Proof.
  induction fuel as [|fuel IH]; intros n acc Hn Ha; [change (10 ^ Z.of_nat 0) with 1 in Hn; lia|]. cbn [dec_loop].
  pose proof (Z.div_mod n 10 ltac:(lia)) as Hd. pose proof (Z.mod_pos_bound n 10 ltac:(lia)) as Hm.
  destruct (Z.eqb_spec (n / 10) 0) as [E|E].
  - exists (48 + n mod 10), acc. split; [done|]. split; [lia|done].
  - apply IH; [|constructor; [by apply is_digit_add|done]]. rewrite Nat2Z.inj_succ, Z.pow_succ_r in Hn by lia. lia.
Qed.
Lemma rfc_int_dec fuel n : 0 <= n < 10 ^ Z.of_nat (S fuel) → rfc_int (dec_loop (S fuel) n []) = true ∧ ∃ c r, dec_loop (S fuel) n [] = c :: r ∧ c ≠ 45.
Proof.
  intros Hn. destruct (Z.eq_dec n 0) as [->|H0]; [split; [done|by do 2 eexists]|].
  destruct (dec_loop_int (S fuel) n [] ltac:(lia) ltac:(constructor)) as (c & r & -> & Hc & Hr). split; [|exists c, r; split; [done|lia]].
  unfold rfc_int. destruct r as [|c2 r]; [unfold is_digit; guard_eval; done|]. rewrite (proj2 (Z.leb_le 49 c)), (proj2 (Z.leb_le c 57)) by lia. cbn [andb].
  apply forallb_forall. intros x Hx%list_elem_of_In. by apply (proj1 (Forall_forall _ _) Hr).
Qed.
Lemma wf_num n : is_u32 n → rfc (num n) = true.
Proof.
  intros Hn. destruct (rfc_int_dec 9 n) as (Hi & c & r & E & Hc); [unfold is_u32 in Hn; change (10 ^ Z.of_nat 10) with 10000000000; lia|].
  change (rfc (num n)) with (rfc_number (dec_loop 10 n [])). unfold rfc_number. rewrite E in *. by rewrite (proj2 (Z.eqb_neq c 45) Hc).
Qed.
Lemma wf_dec_ll n : LONG_MIN <= n <= LONG_MAX → rfc (JBare (dec_ll n)) = true.
Proof.
  intros Hn. unfold LONG_MIN, LONG_MAX in Hn. change (rfc (JBare (dec_ll n))) with (rfc_number (dec_ll n)). unfold dec_ll.
  destruct (Z.ltb_spec n 0) as [H|H].
  - destruct (rfc_int_dec 19 (- n)) as [Hi _]; [change (10 ^ Z.of_nat 20) with 100000000000000000000; lia|]. exact Hi.
  - destruct (rfc_int_dec 19 n) as (Hi & c & r & E & Hc); [change (10 ^ Z.of_nat 20) with 100000000000000000000; lia|].
    unfold rfc_number. rewrite E in *. by rewrite (proj2 (Z.eqb_neq c 45) Hc).
Qed.
(** Text that needs no escape. *)
Definition safe (c : Z) : Prop := 32 <= c ∧ c ≠ 34 ∧ c ≠ 92.
Lemma rfc_str_safe s : Forall safe s → rfc_str s = true.
Proof.
  induction 1 as [|c s (H0 & H1 & H2) _ IH]; [done|]. cbn [rfc_str].
  rewrite (proj2 (Z.eqb_neq c 92)), (proj2 (Z.leb_le 32 c)), (proj2 (Z.eqb_neq c 34)) by done. done.
Qed.
Lemma safe_dec n : 0 <= n → Forall safe (dec n).
Proof.
  intros Hn. eapply Forall_impl; [by apply dec_loop_digits|]. intros c Hc. unfold is_digit in Hc. guards. unfold safe. lia.
Qed.
Lemma hex_digit_range v : 0 <= v < 16 → 48 <= hex_digit v <= 57 ∨ 97 <= hex_digit v <= 102.
Proof. intros. unfold hex_digit. destruct (v <? 10) eqn:E; guards; lia. Qed.
Lemma safe_hex2 v : is_u8 v → Forall safe (hex2 v).
Proof.
  unfold is_u8, hex2. intros Hv. pose proof (hex_digit_range (v / 16) ltac:(Z.to_euclidean_division_equations; lia)).
  pose proof (hex_digit_range (v mod 16) ltac:(Z.to_euclidean_division_equations; lia)). repeat constructor; unfold safe; lia.
Qed.
Lemma safe_byte c : 32 <= c → c ≠ 34 → c ≠ 92 → Forall safe [c].
Proof. intros. by repeat constructor. Qed.
Lemma rd_byte a i : bytes_ok a → is_u8 (rd a i).
Proof.
  intros Ha. unfold rd. destruct (a !! Z.to_nat i) eqn:E; [|cbn; unfold is_u8; lia]. by eapply Forall_lookup_1 in Ha.
Qed.
Lemma safe_mac mac : bytes_ok mac → Forall safe (mac_str mac).
Proof. intros. unfold mac_str. repeat (apply Forall_app_2; [first [by apply safe_byte|by apply safe_hex2, rd_byte]|]). by apply safe_hex2, rd_byte. Qed.
Lemma safe_ipv4 host : Forall safe (ipv4_str host).
Proof.
  assert (H : ∀ x, 0 <= Z.land x 255) by (intros x; apply Z.land_nonneg; right; lia).
  unfold ipv4_str. repeat (apply Forall_app_2; [first [by apply safe_byte|by apply safe_dec]|]). by apply safe_dec.
Qed.
Lemma safe_pad w n : 0 <= n → Forall safe (dec_pad w n).
Proof. intros. unfold dec_pad. apply Forall_app_2; [apply Forall_replicate; unfold safe; lia|by apply safe_dec]. Qed.
Lemma safe_chlist l : bytes_ok l → Forall safe (chlist_str l).
Proof.
  intros Hl. unfold chlist_str. apply Forall_flat_map. apply Forall_take. eapply Forall_impl; [exact Hl|]. intros c Hc. by apply safe_hex2.
Qed.
Lemma control_esc c : 0 <= c < 32 →
  json_esc c = [92; 117; 48; 48; hex_digit (c / 16); hex_digit (c mod 16)] ∧
  isxdigit (hex_digit (c / 16)) && isxdigit (hex_digit (c mod 16)) = true ∧ hexval (hex_digit (c / 16)) * 16 + hexval (hex_digit (c mod 16)) = c.
Proof.
  intros Hc. assert (Hin : c ∈ seqZ 0 32) by (apply elem_of_seqZ; lia). clear Hc. revert c Hin. apply Forall_forall. repeat (constructor; [vm_compute; done|]). constructor.
Qed.
Lemma json_esc_spec c r : 0 < c < 256 →
  len (json_esc c) <= 6 ∧ rfc_str (json_esc c ++ r) = rfc_str r ∧ unescape (json_esc c ++ r) = (c ::.) <$> unescape r.
Proof.
  intros Hc. destruct (decide (c < 32)) as [H32|H32].
  - destruct (control_esc c ltac:(lia)) as (-> & Hx & Hv). split; [done|]. set (h := hex_digit (c / 16)) in *. set (l := hex_digit (c mod 16)) in *. clearbody h l.
    cbn [app rfc_str unescape]. apply andb_true_iff in Hx as [Hh Hl]. change (92 =? 92) with true. change (117 =? 117) with true. change (117 =? 34) with false.
    change (117 =? 92) with false. change (48 =? 48) with true. change (isxdigit 48) with true. cbn [andb orb]. rewrite Hh, Hl, Hv. done.
  - unfold json_esc. destruct ((c =? 34) || (c =? 92)) eqn:E.
    + split; [done|]. cbn [app rfc_str unescape]. change (92 =? 92) with true. cbv iota. rewrite E. apply orb_true_iff in E as [E|E]; guards; subst c; done.
    + guards. rewrite (proj2 (Z.ltb_ge c 32)) by lia. split; [done|]. cbn [app rfc_str unescape].
      rewrite (proj2 (Z.eqb_neq c 92)), (proj2 (Z.leb_le 32 c)), (proj2 (Z.eqb_neq c 34)) by lia. done.
Qed.
Lemma json_loop_spec s : ∀ o cap, Forall (λ c, 0 < c < 256) s → o + 6 * len s < cap →
  rfc_str (json_loop s o cap) = true ∧ unescape (json_loop s o cap) = Some s.
Proof.
  induction s as [|c s IH]; intros o cap Hs Hcap; [done|]. apply Forall_cons_1 in Hs as [Hc Hs]. cbn [json_loop].
  rewrite len_cons in Hcap. pose proof (len_nonneg s).
  destruct (json_esc_spec c (json_loop s (o + len (json_esc c)) cap) Hc) as (Hl & Hok & Hun).
  rewrite (proj2 (Z.leb_gt cap (o + len (json_esc c)))) by lia.
  destruct (IH (o + len (json_esc c)) cap Hs ltac:(lia)) as [H1 H2]. by rewrite Hok, Hun, H2.
Qed.
(** A string field: 32 bytes with a terminator. *)
Definition field_ok (a : list Z) : Prop := bytes_ok a ∧ len (cstr a) < 32.
Lemma json_str_spec a : field_ok a → rfc_str (json_str a 192) = true ∧ unescape (json_str a 192) = Some (cstr a).
Proof.
  intros [Hb Hl]. apply json_loop_spec; [|lia]. clear Hl. induction Hb as [|c a Hc _ IH]; [constructor|]. cbn [cstr].
  destruct (c =? 0) eqn:E; guards; [constructor|]. constructor; [unfold is_u8 in Hc; lia|done].
Qed.
Definition date_range (d : opc_date_t) : Prop := 0 <= year d ∧ 0 <= month d ∧ 0 <= day d.
Definition wlan_range (w : opc_wlan_radio_state_t) : Prop :=
  bytes_ok (rs_mac w) ∧ bytes_ok (rs_connect_ap_mac w) ∧ bytes_ok (rs_scan_chlist w) ∧
  is_i8 (rs_snr w) ∧ is_i8 (rs_rssi w) ∧
  Forall is_u32 [rs_mode w; rs_bandwidth w; rs_freq_mhz w; rs_channel w; rs_status w; rs_scan_band w].
(** The acknowledgment as C holds it: unsigned fields of at most 32 bits, bytes, terminated strings. *)
Definition snapshot_ok (ack : opc_get_device_info_ack_t) : Prop :=
  Forall is_u32 [di_result ack; di_error_cause ack; di_vendor_code ack; di_product_code ack; di_product_subcode ack;
    di_device_status ack; di_station_type ack; di_priority_ch ack; di_ieee_11r ack; di_ieee_11ai ack; di_ieee_11k ack; di_ieee_11v ack] ∧
  date_range (di_manufacture ack) ∧ date_range (di_shipment ack) ∧
  Forall field_ok [di_firmware_version ack; di_hardware_version ack; di_serial_number ack; di_essid ack] ∧
  bytes_ok (di_ethernet_mac ack) ∧ wlan_range (di_wlan1 ack) ∧ wlan_range (di_wlan2 ack).

Lemma ws_pad n : is_ws (replicate n 32) = true.
Proof. by induction n as [|n IH]. Qed.
Lemma wf_entries w1 w9 l :
  is_ws w1 = true → is_ws w9 = true → Forall (λ x, rfc_str (str x.1.1) = true ∧ rfc x.2 = true) l → rfc_members (members w1 w9 l) = true.
Proof.
  intros H1 H9. induction 1 as [|[[key pad] v] l [Hk Hv] _ IH]; [done|]. cbn [members rfc_members fst snd] in *.
  rewrite H1, Hk, Hv, IH. rewrite ws_pad. destruct l; cbn [andb]; by rewrite ?H9.
Qed.
Lemma i8_long n : is_i8 n → LONG_MIN <= n <= LONG_MAX.
Proof. unfold is_i8, LONG_MIN, LONG_MAX. lia. Qed.
Lemma wf_wlan w : wlan_range w → rfc (wlan_doc w) = true.
Proof.
  intros (H1 & H2 & H3 & H4 & H5 & Hn). rewrite !Forall_cons in Hn. destruct Hn as (? & ? & ? & ? & ? & ? & _).
  unfold wlan_doc. cbn [rfc]. apply andb_true_intro. split; [done|]. apply wf_entries; [done|done|].
  repeat (constructor; [split; [vm_compute; reflexivity|first [by apply wf_num|by apply wf_dec_ll, i8_long|apply rfc_str_safe; first [by apply safe_mac|by apply safe_chlist]]]|]).
  constructor.
Qed.
Lemma safe_date d : date_range d → Forall safe (date_str d).
Proof. intros (H1 & H2 & H3). unfold date_str. repeat (apply Forall_app_2; [first [by apply safe_pad|by apply safe_byte]|]). by apply safe_pad. Qed.
Lemma wf_snapshot now ack : LONG_MIN <= now <= LONG_MAX → snapshot_ok ack → rfc (snapshot_doc now ack) = true.
Proof.
  intros Hnow (Hn & Hm & Hs & Hf & He & W1 & W2). rewrite !Forall_cons in Hn. rewrite !Forall_cons in Hf. destruct Hn as (? & ? & ? & ? & ? & ? & ? & ? & ? & ? & ? & ? & _).
  destruct Hf as (F1 & F2 & F3 & F4 & _). unfold snapshot_doc. cbn [rfc]. apply andb_true_intro. split; [done|]. apply wf_entries; [done|done|].
  unfold snapshot_members.
  repeat (constructor; [split; [vm_compute; reflexivity|cbn [snd]; first [by apply wf_num|by apply wf_dec_ll|by apply wf_wlan
    |by apply json_str_spec|apply rfc_str_safe; first [by apply safe_mac|by apply safe_ipv4|by apply safe_date]]]|]).
  constructor.
Qed.
Definition snapshot_strings (ack : opc_get_device_info_ack_t) : list (string * list Z) :=
  [("firmware_version", di_firmware_version ack); ("hardware_version", di_hardware_version ack);
   ("serial_number", di_serial_number ack); ("essid", di_essid ack)].
Lemma strings_read_back now ack : snapshot_ok ack →
  Forall (λ x, ∃ s, jget (snapshot_doc now ack) x.1 = Some (JStr s) ∧ unescape s = Some (cstr x.2)) (snapshot_strings ack).
Proof.
  intros (_ & _ & _ & Hf & _). rewrite !Forall_cons in Hf. destruct Hf as (F1 & F2 & F3 & F4 & _).
  assert (H : ∀ key a, field_ok a → jget (snapshot_doc now ack) key = Some (JStr (json_str a 192)) →
    ∃ s, jget (snapshot_doc now ack) key = Some (JStr s) ∧ unescape s = Some (cstr a)).
  { intros key a Ha Hj. exists (json_str a 192). split; [done|by apply json_str_spec]. }
  repeat constructor; apply H; try done; unfold snapshot_doc, snapshot_members; cbn [jget members mfind];
    repeat (rewrite bool_decide_eq_false_2 by (vm_compute; done)); by rewrite bool_decide_eq_true_2 by done.
Qed.
(** errno values are positive. *)
Definition snap_io_ok (io : snap_io) : Prop :=
  Forall (λ o, match o with Some e => 0 < e | None => True end) [o_open io; o_fdopen io; o_fflush io; o_fclose io; o_rename io].


(** An ESSID with a quote, a backslash and a control byte. *)
Definition example_essid : list Z := write_at 0 [97; 34; 92; 7] (zeros 32).
Definition example_wlan : opc_wlan_radio_state_t := mk_radio_state (zeros 6) 11 2 5180 36 1 40 (-55) (zeros 6) 1 (zeros 8).
Definition example_ack : opc_get_device_info_ack_t :=
  mk_device_info 0 0 1 2 3 (mk_date 2026 1 2) (mk_date 2026 3 4) (zeros 32) (zeros 32) (zeros 32) (zeros 6) 3232235786 4294967040 0 0
    example_essid 2 0 65535 1 0 1 0 example_wlan example_wlan.
End Snapshot.
