(* ===== verification/Vhlctl.v ===== *)
(** * The client: vhlctl/vhlctl.c

    The command-line client of the protocol: each subcommand builds a request from its
    options, sends it, and turns the acknowledgment into an exit status. The client's
    socket is given by a function from the frame sent to the bytes received in time
    ([None]: the send failed or nothing came). The frame sent is part of the
    result; what is printed is in VhlPrint.v. *)
From S2P Require Import Prelude CText Codec ScanList Commands Indications Messages Store StoreAsync IpListText FaultProbe State Indication Validate RadioConf Persist Handlers IpListLoad Daemon SimEnv Logic Frames Invariant Session Conf JsonText JsonUtil Roam DeviceFiles Topology Startup.
From stdpp Require Import base list numbers option tactics strings.
From Stdlib Require Import ZArith Lia.
#[local] Open Scope Z_scope.
Import Commands.
Import Conf (eqs).
Import Startup (atoi).

Module Vhlctl.

Definition argv : Type := list (list Z).

(** ** Options *)

Fixpoint opt_value (args : argv) (flag : string) (dflt : option (list Z)) : option (list Z) :=
  match args with
  | a :: ((v :: _) as args') => if eqs a flag then Some v else opt_value args' flag dflt
  | _ => dflt
  end.
Definition opt_or (args : argv) (flag dflt : string) : list Z := default [] (opt_value args flag (Some (str dflt))).
(** [strtoul(s, NULL, 0)] *)
Definition strtoul_any (s : list Z) : Z :=
  match DeviceFiles.strtoul0 s with
  | Some (v, _) => v
  | None =>
      let s := skip isspace s in
      let s := match s with c :: s' => if (c =? 45) || (c =? 43) then s' else s | [] => s end in
      match s with c :: _ => if is_digit c then ULONG_MAX else 0 | [] => 0 end
  end.
Definition client_ipv4 (s : list Z) : Z := default 0 (IpListText.IpListText.parse_ipv4 s).
Definition parse_host_port (spec : list Z) (host_cap : Z) : option (list Z * Z) :=
  let '(host, rest) := span (λ c, negb (c =? 58)) spec in
  match rest with
  | [] => None
  | _ :: port_s =>
      if (len host =? 0) || (host_cap <=? len host) then None
      else let port := atoi port_s in if 0 <? port then Some (host, port) else None
  end.
(** [strncpy(dst, s, cap - 1)] into a zeroed array *)
Definition strncpy_field (cap : Z) (s : list Z) : list Z :=
  write_at 0 (take (Z.to_nat (cap - 1)) (cstr s)) (zeros cap).

(** ** Exchange *)

Definition reply := list Z → option (list Z).
Record client := mk_client { cl_host : list Z; cl_socket : bool; cl_bind : bool; cl_peer : reply }.
Definition open_client_socket (c : client) : bool :=
  cl_socket c && bool_decide (is_Some (IpListText.IpListText.parse_ipv4 (cl_host c))).
Definition send_recv (c : client) (tx : option (list Z)) : option (list Z) :=
  tx ← tx; rx ← cl_peer c tx; Some (take (Z.to_nat OPC_FRAME_MAX) rx).
(** Exit status and the frame handed to [sendto]. The sequence number of a run is 1. *)
Definition outcome : Type := Z * option (list Z).
Definition next_seq : Z := 1.
Definition exchange (c : client) (tx : option (list Z)) (on_reply : list Z → Z) : outcome :=
  if negb (open_client_socket c) then (2, None)
  else match send_recv c tx with
       | None => (2, tx)
       | Some rx => (on_reply rx, tx)
       end.
Definition ack_status (ack : option opc_simple_ack_t) : Z :=
  match ack with None => 2 | Some a => if result a =? OPC_RESULT_OK then 0 else 1 end.

(** ** Subcommands *)

Definition login_request (args : argv) : opc_login_req_t :=
  mk_login_req (strncpy_field 128 (opt_or args "--password" "MyPassword")) false.
Definition cmd_login (c : client) (args : argv) : outcome :=
  exchange c (opc_login_req_pack OPC_FRAME_MAX next_seq (login_request args)) (λ rx, ack_status (opc_login_ack_unpack rx)).
Definition cmd_logout (c : client) : outcome :=
  exchange c (opc_logout_req_pack OPC_FRAME_MAX next_seq) (λ rx, ack_status (opc_logout_ack_unpack rx)).
Definition cmd_basic_info (c : client) : outcome :=
  exchange c (opc_get_basic_info_req_pack OPC_FRAME_MAX next_seq)
    (λ rx, match opc_get_basic_info_ack_unpack rx with None => 2 | Some _ => 0 end).
Definition cmd_device_info (c : client) : outcome :=
  exchange c (opc_get_device_info_req_pack OPC_FRAME_MAX next_seq)
    (λ rx, match opc_get_device_info_ack_unpack rx with
           | None => 2
           | Some ack => if di_result ack =? OPC_RESULT_OK then 0 else 1
           end).
Definition password_request (args : argv) : option opc_set_password_req_t :=
  old_pw ← opt_value args "--old" None; new_pw ← opt_value args "--new" None;
  Some (mk_set_password (strncpy_field 128 old_pw) (strncpy_field 128 new_pw) false false).
Definition cmd_set_password (c : client) (args : argv) : outcome :=
  match password_request args with
  | None => (2, None)
  | Some req => exchange c (opc_set_password_req_pack OPC_FRAME_MAX next_seq req) (λ rx, ack_status (opc_set_password_ack_unpack rx))
  end.
Definition boundary_of (flag_s : list Z) : option Z :=
  if eqs flag_s "start" then Some OPC_LIST_BOUNDARY_START
  else if eqs flag_s "cont" then Some OPC_LIST_BOUNDARY_CONTINUE
  else if eqs flag_s "end" then Some OPC_LIST_BOUNDARY_END
  else if eqs flag_s "start_end" then Some OPC_LIST_BOUNDARY_START_END
  else None.
Definition ip_list_request (args : argv) : option opc_set_ip_config_list_req_t :=
  flag ← boundary_of (opt_or args "--flag" "start");
  Some (mk_ip_config_list
    [mk_ipcfg_entry flag (u16 (atoi (opt_or args "--slot" "1"))) (client_ipv4 (opt_or args "--ip" "192.168.1.10"))
       (client_ipv4 (opt_or args "--mask" "255.255.255.0")) (client_ipv4 (opt_or args "--gw" "192.168.1.1"))
       (client_ipv4 (opt_or args "--ntp" "192.168.1.2")) (strncpy_field 32 (opt_or args "--essid" "Cantops_WL"))] 0).
Definition cmd_set_ip_list (c : client) (args : argv) : outcome :=
  match ip_list_request args with
  | None => (2, None)
  | Some req => exchange c (opc_set_ip_config_list_req_pack OPC_FRAME_MAX next_seq req) (λ rx, ack_status (opc_set_ip_config_list_ack_unpack rx))
  end.
Definition change_ip_request (args : argv) : option opc_change_ip_address_req_t :=
  slot_s ← opt_value args "--slot" None; Some (mk_change_ip (u16 (atoi slot_s))).
Definition cmd_change_ip (c : client) (args : argv) : outcome :=
  match change_ip_request args with
  | None => (2, None)
  | Some req => exchange c (opc_change_ip_address_req_pack OPC_FRAME_MAX next_seq req) (λ rx, ack_status (opc_change_ip_address_ack_unpack rx))
  end.

Definition parse_scan_band (s : list Z) : Z :=
  if eqs s "2.4" || eqs s "2.4g" || eqs s "2g" then OPC_SCAN_BAND_2_4GHZ
  else if eqs s "5" || eqs s "5g" then OPC_SCAN_BAND_5GHZ
  else if eqs s "6" || eqs s "6g" then OPC_SCAN_BAND_6GHZ
  else if eqs s "none" || eqs s "unset" then OPC_SCAN_BAND_UNSET
  else u16 (strtoul_any s).
(** The hex form: [sscanf] of two digits at each even position. *)
Fixpoint hex_list (n : nat) (s : list Z) : option (list Z) :=
  match n with
  | O => Some []
  | S n => '(v, _) ← Roam.scan_x2 s; l ← hex_list n (drop 2 s); Some (u8 v :: l)
  end.
(** [strtok(buf, ",")]: the non-empty pieces. *)
Fixpoint commas (s acc : list Z) : list (list Z) :=
  let piece := match acc with [] => [] | _ => [acc] end in
  match s with
  | [] => piece
  | c :: s' => if c =? 44 then piece ++ commas s' [] else commas s' (acc ++ [c])
  end.
Fixpoint set_channels (toks : list (list Z)) (band : Z) (l : list Z) : option (list Z) :=
  match toks with
  | [] => Some l
  | tok :: toks' =>
      let ch := strtoul_any tok in
      if (ch =? 0) || (255 <? ch) || bool_decide (opc_scan_bit_for_channel band ch = None) then None
      else set_channels toks' band (opc_scan_list_set_channel l band ch)
  end.
Definition parse_scan_chlist (list_s hex_s : list Z) (band : Z) : option (list Z) :=
  if negb (bool_decide (hex_s = [])) then
    if negb (len hex_s =? 2 * OPC_SCAN_CHLIST_LEN) then None else hex_list (Z.to_nat OPC_SCAN_CHLIST_LEN) hex_s
  else set_channels (commas (take 255 list_s) []) band (zeros OPC_SCAN_CHLIST_LEN).
Definition known_flags : list string :=
  ["--station"; "--priority"; "--w1-band"; "--w1-chlist"; "--w1-chlist-hex"; "--w1-mode"; "--w1-bw";
   "--w2-band"; "--w2-chlist"; "--w2-chlist-hex"; "--w2-mode"; "--w2-bw"].
Fixpoint flags_known (args : argv) : bool :=
  match args with
  | [] => true
  | a :: args' =>
      if negb (starts (str "--") a) then flags_known args'
      else if negb (existsb (eqs a) known_flags) then false
      else match args' with _ :: args'' => flags_known args'' | [] => true end
  end.
Definition radio_request (args : argv) : option opc_set_radio_config_req_t :=
  if negb (flags_known args) then None
  else
    let station := if eqs (opt_or args "--station" "single") "dual" then OPC_STATION_DUAL else OPC_STATION_SINGLE in
    let band1 := parse_scan_band (opt_or args "--w1-band" "5") in
    let prio_s := opt_or args "--priority" "auto" in
    let prio := if eqs prio_s "auto"
                then (if station =? OPC_STATION_DUAL then u16 (Z.lor (Z.shiftl (Z.land band1 255) 8) 255) else 65535)
                else u16 (strtoul_any prio_s) in
    list1 ← parse_scan_chlist (opt_or args "--w1-chlist" "") (opt_or args "--w1-chlist-hex" "") band1;
    let band2 := parse_scan_band (opt_or args "--w2-band" "none") in
    list2 ← parse_scan_chlist (opt_or args "--w2-chlist" "") (opt_or args "--w2-chlist-hex" "") band2;
    Some (mk_radio_config station prio
      (mk_radio_cfg (u8 (strtoul_any (opt_or args "--w1-mode" "11"))) (u8 (strtoul_any (opt_or args "--w1-bw" "2"))) band1 list1)
      (mk_radio_cfg (u8 (strtoul_any (opt_or args "--w2-mode" "0xff"))) (u8 (strtoul_any (opt_or args "--w2-bw" "0xff"))) band2 list2)).
Definition cmd_set_radio (c : client) (args : argv) : outcome :=
  match radio_request args with
  | None => (2, None)
  | Some req => exchange c (opc_set_radio_config_req_pack OPC_FRAME_MAX next_seq req) (λ rx, ack_status (opc_set_radio_config_ack_unpack rx))
  end.
Definition indication_request (args : argv) : option opc_set_indication_config_req_t :=
  to_s ← opt_value args "--to" None;
  '(host, port) ← parse_host_port to_s 64;
  Some (mk_indication_config (u16 port) (u8 (strtoul_any (opt_or args "--bits" "0x81")))
          (u8 (atoi (opt_or args "--period" "5"))) (client_ipv4 host)).
Definition cmd_set_indication (c : client) (args : argv) : outcome :=
  match indication_request args with
  | None => (2, None)
  | Some req => exchange c (opc_set_indication_config_req_pack OPC_FRAME_MAX next_seq req) (λ rx, ack_status (opc_set_indication_config_ack_unpack rx))
  end.
Definition cmd_reset (c : client) : outcome :=
  exchange c (opc_reset_req_pack OPC_FRAME_MAX next_seq) (λ rx, ack_status (opc_reset_ack_unpack rx)).

(** ** The listener *)

(** What one received datagram makes [cmd_listen] print. *)
Inductive listened :=
  | Malformed | NotIndication (command_type : Z) | UnknownIndication (id : Z) | NoLine
  | Shown (seq : Z) (m : wire_msg) (x : msg_type m).
Definition show_as (hdr : opc_header_t) (buf : list Z) (m : wire_msg) : listened :=
  match msg_unpack m buf with Some x => Shown (sequence_number hdr) m x | None => NoLine end.
Definition listen_one (buf : list Z) : listened :=
  match opc_frame_parse buf with
  | None => Malformed
  | Some (hdr, _) =>
      if negb (command_type hdr =? OPC_CMD_INDICATION) then NotIndication (command_type hdr)
      else let id := req_indication_id hdr in
           if id =? OPC_IND_INIT_COMPLETE then show_as hdr buf InitCompleteInd
           else if id =? OPC_IND_WLAN_STATUS_CHANGE then show_as hdr buf WlanStatusChangeInd
           else if id =? OPC_IND_ROAMING then show_as hdr buf RoamingInd
           else if id =? OPC_IND_AP_DISCONNECT then show_as hdr buf ApDisconnectInd
           else if id =? OPC_IND_FAULT_DETECT then show_as hdr buf FaultDetectInd
           else if id =? OPC_IND_RESET_NOTICE then show_as hdr buf ResetNoticeInd
           else if id =? OPC_IND_KEEP_ALIVE then show_as hdr buf KeepAliveInd
           else UnknownIndication id
  end.

(** The exit status of [listen], which ends when receiving fails. *)
Definition cmd_listen (c : client) (args : argv) : outcome :=
  match parse_host_port (opt_or args "--bind" "0.0.0.0:9999") 64 with
  | None => (2, None)
  | Some (host, _) =>
      if negb (cl_socket c) then (2, None)
      else if negb (bool_decide (is_Some (IpListText.IpListText.parse_ipv4 host))) then (2, None)
      else if negb (cl_bind c) then (2, None) else (0, None)
  end.

(** ** [main] *)

Record globals := mk_globals { g_host : list Z; g_port : Z; g_timeout_ms : Z; g_dump : bool; g_hex : bool }.
Definition default_globals : globals := mk_globals (str "127.0.0.1") 50607 2000 false false.
(** The leading options: the globals with the remaining words, or [None] for --help. *)
Fixpoint global_options (args : argv) (g : globals) : option (globals * argv) :=
  match args with
  | [] => Some (g, [])
  | a :: args' =>
      let value f := match args' with
                     | v :: args'' => global_options args'' (f v)
                     | [] => Some (g, args)
                     end in
      if negb (starts (str "--") a) then Some (g, args)
      else if eqs a "--host" then value (λ v, mk_globals v (g_port g) (g_timeout_ms g) (g_dump g) (g_hex g))
      else if eqs a "--port" then value (λ v, mk_globals (g_host g) (atoi v) (g_timeout_ms g) (g_dump g) (g_hex g))
      else if eqs a "--timeout" then value (λ v, mk_globals (g_host g) (g_port g) (atoi v) (g_dump g) (g_hex g))
      else if eqs a "--dump" then global_options args' (mk_globals (g_host g) (g_port g) (g_timeout_ms g) true (g_hex g))
      else if eqs a "--hex" then global_options args' (mk_globals (g_host g) (g_port g) (g_timeout_ms g) (g_dump g) true)
      else if eqs a "--help" then None
      else Some (g, args)
  end.
Definition run_command (c : client) (cmd : list Z) (args : argv) : outcome :=
  if eqs cmd "login" then cmd_login c args
  else if eqs cmd "logout" then cmd_logout c
  else if eqs cmd "basic-info" then cmd_basic_info c
  else if eqs cmd "device-info" then cmd_device_info c
  else if eqs cmd "set-password" then cmd_set_password c args
  else if eqs cmd "set-ip-list" then cmd_set_ip_list c args
  else if eqs cmd "change-ip" then cmd_change_ip c args
  else if eqs cmd "set-radio" then cmd_set_radio c args
  else if eqs cmd "set-indication" then cmd_set_indication c args
  else if eqs cmd "reset" then cmd_reset c
  else if eqs cmd "listen" then cmd_listen c args
  else (2, None).
(** [peer]: what answers at an address, port and timeout. *)
Definition vhlctl (socket_ok bind_ok : bool) (peer : list Z → Z → Z → reply) (args : argv) : outcome :=
  match global_options args default_globals with
  | None => (0, None)
  | Some (_, []) => (2, None)
  | Some (g, cmd :: args') =>
      run_command (mk_client (g_host g) socket_ok bind_ok (peer (g_host g) (u16 (g_port g)) (g_timeout_ms g))) cmd args'
  end.

(** ** The requests are well formed *)

Lemma strncpy_shape cap s : 0 < cap →
  strncpy_field cap s = take (Z.to_nat (cap - 1)) (cstr s) ++ zeros (cap - len (take (Z.to_nat (cap - 1)) (cstr s))).
Proof.
  intros Hc. unfold strncpy_field, write_at. change (Z.to_nat 0) with O. rewrite take_0. cbn [app Nat.add].
  set (t := take _ _). unfold zeros, len. rewrite drop_replicate.
  replace (Z.to_nat cap - length t)%nat with (Z.to_nat (cap - Z.of_nat (length t))) by lia. done.
Qed.
Lemma len_strncpy cap s : 0 < cap → len (strncpy_field cap s) = cap.
Proof.
  intros Hc. rewrite strncpy_shape by done. set (t := take _ _). assert (len t <= cap - 1) by (unfold t, len; rewrite length_take; lia).
  rewrite len_app, len_zeros by lia. lia.
Qed.
Lemma client_ipv4_u32 s : is_u32 (client_ipv4 s).
Proof.
  unfold client_ipv4. destruct (IpListText.IpListText.parse_ipv4 s) as [ip|] eqn:E; [|by unfold is_u32; cbn; lia].
  by apply IpListLoad.parse_ipv4_u32 in E.
Qed.
Lemma hex_list_len n : ∀ s l, hex_list n s = Some l → length l = n.
Proof.
  induction n as [|n IH]; intros s l; cbn [hex_list]; [by intros [= <-]|].
  intros ([v r] & _ & H)%bind_Some. apply bind_Some in H as (l' & Hl & [= <-]). cbn. f_equal. by eapply IH.
Qed.
Lemma set_channels_ok toks band : ∀ l l', list_ok l → set_channels toks band l = Some l' → list_ok l'.
Proof.
  induction toks as [|tok toks IH]; intros l l' Hl; cbn [set_channels]; [by intros [= <-]|].
  destruct (_ || _); [done|]. apply IH. unfold opc_scan_list_set_channel.
  destruct (opc_scan_bit_for_channel band (strtoul_any tok)) as [[r b]|] eqn:E; [|done]. apply row_set_bit_ok; [done|].
  pose proof E as E'. unfold opc_scan_bit_for_channel in E'. destruct (_ || _) eqn:Eb; [done|]. guards.
  apply opc_scan_bit_for_channel_iff in E as [Hg _]; [done|]. by destruct (opc_scan_band_known band).
Qed.
Lemma parse_scan_chlist_len list_s hex_s band l : parse_scan_chlist list_s hex_s band = Some l → len l = 8.
Proof.
  unfold parse_scan_chlist. destruct (negb _).
  - destruct (negb _); [done|]. intros H%hex_list_len. unfold len, OPC_SCAN_CHLIST_LEN in *. lia.
  - intros H%set_channels_ok; [by destruct H|]. split; [|done]. apply Forall_replicate. unfold is_u8. lia.
Qed.
Lemma parse_scan_band_u16 s : is_u16 (parse_scan_band s).
Proof. unfold parse_scan_band. repeat (destruct (_ || _); [unfold is_u16; vm_compute; split; congruence|]). apply u16_range. Qed.

(** The request a subcommand stands for. *)
Definition request_of (cmd : list Z) (args : argv) : option {m : wire_msg & msg_type m} :=
  if eqs cmd "login" then Some (existT LoginReq (login_request args))
  else if eqs cmd "logout" then Some (existT LogoutReq tt)
  else if eqs cmd "basic-info" then Some (existT GetBasicInfoReq tt)
  else if eqs cmd "device-info" then Some (existT GetDeviceInfoReq tt)
  else if eqs cmd "set-password" then existT SetPasswordReq <$> password_request args
  else if eqs cmd "set-ip-list" then existT SetIpConfigListReq <$> ip_list_request args
  else if eqs cmd "change-ip" then existT ChangeIpAddressReq <$> change_ip_request args
  else if eqs cmd "set-radio" then existT SetRadioConfigReq <$> radio_request args
  else if eqs cmd "set-indication" then existT SetIndicationConfigReq <$> indication_request args
  else if eqs cmd "reset" then Some (existT ResetReq tt)
  else None.
(** The result field of the acknowledgment to a request; GetBasicInfo has none. *)
Definition ack_result (m : wire_msg) (rx : list Z) : option Z :=
  match m with
  | LoginReq => result <$> opc_login_ack_unpack rx
  | LogoutReq => result <$> opc_logout_ack_unpack rx
  | GetBasicInfoReq => (λ _, OPC_RESULT_OK) <$> opc_get_basic_info_ack_unpack rx
  | GetDeviceInfoReq => di_result <$> opc_get_device_info_ack_unpack rx
  | SetPasswordReq => result <$> opc_set_password_ack_unpack rx
  | SetIpConfigListReq => result <$> opc_set_ip_config_list_ack_unpack rx
  | ChangeIpAddressReq => result <$> opc_change_ip_address_ack_unpack rx
  | SetRadioConfigReq => result <$> opc_set_radio_config_ack_unpack rx
  | SetIndicationConfigReq => result <$> opc_set_indication_config_ack_unpack rx
  | ResetReq => result <$> opc_reset_ack_unpack rx
  | _ => None
  end.
Definition status_of (res : option Z) : Z := match res with None => 2 | Some r => if r =? OPC_RESULT_OK then 0 else 1 end.
Definition sends (c : client) (m : wire_msg) (x : msg_type m) : outcome :=
  exchange c (msg_pack m OPC_FRAME_MAX next_seq x) (λ rx, status_of (ack_result m rx)).

Lemma exchange_ext c tx f g : (∀ rx, f rx = g rx) → exchange c tx f = exchange c tx g.
Proof. intros H. unfold exchange. destruct (negb _); [done|]. destruct (send_recv c tx); by rewrite ?H. Qed.
Lemma ack_status_of a : ack_status a = status_of (result <$> a).
Proof. by destruct a. Qed.
Lemma run_command_sends c cmd args :
  match request_of cmd args with
  | Some (existT m x) => run_command c cmd args = sends c m x ∧ msg_ok m x ∧ msg_cmd m = OPC_CMD_REQUEST
  | None => (run_command c cmd args).2 = None
  end.
Proof.
  assert (Hack : ∀ (a : list Z → option opc_simple_ack_t) tx,
    exchange c tx (λ rx, ack_status (a rx)) = exchange c tx (λ rx, status_of (result <$> a rx))).
  { intros a tx. apply exchange_ext. intros rx. apply ack_status_of. }
  unfold request_of, run_command.
  destruct (eqs cmd "login"); [split_and!; [apply Hack|by apply len_strncpy|done]|].
  destruct (eqs cmd "logout"); [split_and!; [apply Hack|done|done]|].
  destruct (eqs cmd "basic-info").
  { split_and!; [|done|done]. apply exchange_ext. intros rx. cbn. by destruct (opc_get_basic_info_ack_unpack rx). }
  destruct (eqs cmd "device-info").
  { split_and!; [|done|done]. apply exchange_ext. intros rx. cbn. by destruct (opc_get_device_info_ack_unpack rx). }
  destruct (eqs cmd "set-password").
  { unfold cmd_set_password. destruct (password_request args) as [req|] eqn:E; cbn; [|done]. split_and!; [apply Hack|..|done].
    - unfold password_request in E. apply bind_Some in E as (o & _ & E). apply bind_Some in E as (n & _ & [= <-]). by apply len_strncpy.
    - unfold password_request in E. apply bind_Some in E as (o & _ & E). apply bind_Some in E as (n & _ & [= <-]). by apply len_strncpy. }
  destruct (eqs cmd "set-ip-list").
  { unfold cmd_set_ip_list. destruct (ip_list_request args) as [req|] eqn:E; cbn; [|done]. split_and!; [apply Hack|..|done];
      unfold ip_list_request in E; apply bind_Some in E as (flag & Hflag & [= <-]); cbn [entries]; [done|done|].
    constructor; [|constructor]. repeat split; cbn [boundary_flag list_number ip_address subnet_mask default_gateway ntp_server essid];
      try apply u16_range; try apply client_ipv4_u32; try (by apply len_strncpy);
      unfold boundary_of in Hflag; repeat (destruct (eqs _ _); [injection Hflag as <-; done|]); done. }
  destruct (eqs cmd "change-ip").
  { unfold cmd_change_ip. destruct (change_ip_request args) as [req|] eqn:E; cbn; [|done]. split_and!; [apply Hack|..|done];
      unfold change_ip_request in E; apply bind_Some in E as (s & _ & [= <-]); apply u16_range. }
  destruct (eqs cmd "set-radio").
  { unfold cmd_set_radio. destruct (radio_request args) as [req|] eqn:E; cbn; [|done].
    unfold radio_request in E. destruct (negb (flags_known args)); [done|].
    apply bind_Some in E as (l1 & H1%parse_scan_chlist_len & E). apply bind_Some in E as (l2 & H2%parse_scan_chlist_len & [= <-]).
    split_and!; [apply Hack|..|done]; cbn [station_type priority_ch wlan1 wlan2].
    - by destruct (eqs _ _).
    - destruct (eqs _ _); [destruct (_ =? _)|]; try apply u16_range; done.
    - split; [apply parse_scan_band_u16|done].
    - split; [apply parse_scan_band_u16|done]. }
  destruct (eqs cmd "set-indication").
  { unfold cmd_set_indication. destruct (indication_request args) as [req|] eqn:E; cbn; [|done].
    unfold indication_request in E. apply bind_Some in E as (to & _ & E). apply bind_Some in E as ([host port] & _ & [= <-]).
    split_and!; [apply Hack|apply u16_range|apply client_ipv4_u32|done]. }
  destruct (eqs cmd "reset"); [split_and!; [apply Hack|done|done]|].
  destruct (eqs cmd "listen"); [|done]. unfold cmd_listen. repeat (case_match; try done).
Qed.

(** C23: the client and the daemon agree on the wire. A subcommand that its options let
    through sends one frame, which the daemon's parser accepts as a request of the
    subcommand's kind and decodes to exactly the values the options stand for; the exit
    status is 0 or 1 as the acknowledgment says and 2 without a usable one. Bad options send
    nothing. And every indication a daemon packs is shown by the listener with its values. *)
Theorem vhlctl_wire_contract c cmd args :
  open_client_socket c = true →
  match request_of cmd args with
  | None => (run_command c cmd args).2 = None
  | Some (existT m x) =>
      ∃ frame hdr body, run_command c cmd args =
        (match cl_peer c frame with None => 2 | Some rx => status_of (ack_result m (take (Z.to_nat OPC_FRAME_MAX) rx)) end, Some frame) ∧
        len frame <= OPC_FRAME_MAX ∧ opc_frame_parse frame = Some (hdr, body) ∧ command_type hdr = OPC_CMD_REQUEST ∧
        req_indication_id hdr = msg_id m ∧ msg_unpack m frame = Some (msg_canon m x)
  end ∧
  ∀ m seq x, msg_cmd m = OPC_CMD_INDICATION → is_u16 seq → msg_ok m x →
    ∃ frame, msg_pack m OPC_FRAME_MAX seq x = Some frame ∧ listen_one frame = Shown seq m (msg_canon m x).
Proof.
  intros Ho. split.
  - pose proof (run_command_sends c cmd args) as H. destruct (request_of cmd args) as [[m x]|]; [|done]. destruct H as (-> & Hok & Hc).
    destruct (msg_roundtrips m OPC_FRAME_MAX next_seq x (Z.le_refl _) ltac:(done) Hok) as (frame & hdr & body & Hp & Hl & Hf & Ht & Hi & _ & Hu).
    exists frame, hdr, body. rewrite <- Hc. split_and!; try done. unfold sends, exchange. rewrite Ho, Hp. cbn [negb]. unfold send_recv. cbn [mbind option_bind].
    by destruct (cl_peer c frame).
  - intros m seq x Hm Hs Hok.
    destruct (msg_roundtrips m OPC_FRAME_MAX seq x (Z.le_refl _) Hs Hok) as (frame & hdr & body & Hp & _ & Hf & Ht & Hi & Hq & Hu).
    exists frame. split; [done|]. unfold listen_one. rewrite Hf, Ht, Hm, Hi. change (OPC_CMD_INDICATION =? OPC_CMD_INDICATION) with true. cbn [negb].
    assert (Hshow : show_as hdr frame m = Shown seq m (msg_canon m x)) by (unfold show_as; by rewrite Hu, Hq).
    destruct m; try done; exact Hshow.
Qed.
Definition example_args : argv := [str "--station"; str "dual"; str "--w1-band"; str "2.4"; str "--w1-chlist"; str "1,6,11"].
Definition example_client : client := mk_client (str "127.0.0.1") true true (λ _, None).
Definition example_request : opc_set_radio_config_req_t :=
  mk_radio_config OPC_STATION_DUAL 511 (mk_radio_cfg 11 2 OPC_SCAN_BAND_2_4GHZ [0; 0; 4; 33; 0; 0; 0; 0])
    (mk_radio_cfg 255 255 OPC_SCAN_BAND_UNSET (zeros 8)).
Lemma vhlctl_wire_contract_witness :
  open_client_socket example_client = true ∧
  ∃ frame, run_command example_client (str "set-radio") example_args = (2, Some frame) ∧
    opc_set_radio_config_req_unpack frame = Some example_request.
Proof.
  assert (Ho : open_client_socket example_client = true) by (vm_compute; reflexivity). split; [exact Ho|].
  destruct (vhlctl_wire_contract example_client (str "set-radio") example_args Ho) as [H _].
  assert (E : request_of (str "set-radio") example_args = Some (existT SetRadioConfigReq example_request)) by (vm_compute; reflexivity).
  rewrite E in H. destruct H as (frame & _ & _ & Hr & _ & _ & _ & _ & Hu). exists frame. split; [exact Hr|exact Hu].
Defined.

(** ** A login, end to end *)

Section EndToEnd.
Context {E : Type} `{Env E}.
(** The daemon in world [w] at the other end: what it answers to a client's frame. *)
Definition daemon_peer (w : world E) (ip port : Z) : reply :=
  λ frame, let '((rc, resp), _) := opcd_dispatch frame ip port OPC_FRAME_MAX w in
           if (rc =? 0) && (0 <? len resp) then Some resp else None.
Definition password_arg (args : argv) : list Z := strncpy_field 128 (opt_or args "--password" "MyPassword").
(** The password that opens a session. *)
Definition right_password (s : opcd_state_t) (pw : list Z) : Prop :=
  valid_opc_charset pw = true ∧ cstr (password s) ≠ [] ∧ take 127 (cstr pw) = take 127 (cstr (password s)).

Lemma strnlen_cstr t n k : (length t <= n)%nat → Forall (λ c, c ≠ 0) t → strnlen_loop (t ++ replicate (S k) 0) n = length t.
Proof.
  revert n. induction t as [|c t IH]; intros n Hn Ht; cbn [app replicate strnlen_loop]; [by destruct n|].
  destruct n as [|n]; [cbn in Hn; lia|]. apply Forall_cons_1 in Ht as [Hc Ht]. cbn [strnlen_loop].
  rewrite (proj2 (Z.eqb_neq c 0)) by done. cbn [length]. f_equal. apply IH; [cbn in Hn; lia|done].
Qed.
Lemma cstr_pad_strncpy s : cstr_pad 128 (strncpy_field 128 s) = strncpy_field 128 s.
Proof.
  rewrite strncpy_shape by lia. set (t := take _ _). assert (Hl : (length t <= 127)%nat) by (unfold t; rewrite length_take; lia).
  assert (Ht : Forall (λ c, c ≠ 0) t) by apply Forall_take, IpListText.IpListText.cstr_no_nul. clearbody t.
  assert (Hz : zeros (128 - len t) = replicate (S (127 - length t)) 0) by (unfold zeros, len; f_equal; lia).
  assert (Hk : opc_bounded_strnlen (t ++ zeros (128 - len t)) (128 - 1) = len t).
  { rewrite Hz. unfold opc_bounded_strnlen. rewrite strnlen_cstr by (done || lia). done. }
  unfold cstr_pad. rewrite Hk. f_equal. rewrite take_app_length' by (unfold len; lia). done.
Qed.
Lemma login_frame args : ∃ frame hdr body,
  opc_login_req_pack OPC_FRAME_MAX next_seq (login_request args) = Some frame ∧
  opc_frame_parse frame = Some (hdr, body) ∧ command_type hdr = OPC_CMD_REQUEST ∧ req_indication_id hdr = OPC_REQ_LOGIN ∧
  sequence_number hdr = 1 ∧ opc_login_req_unpack frame = Some (mk_login_req (password_arg args) true).
Proof.
  destruct (msg_roundtrips LoginReq OPC_FRAME_MAX next_seq (login_request args) (Z.le_refl _) ltac:(done) ltac:(by apply len_strncpy))
    as (frame & hdr & body & Hp & _ & Hf & Ht & Hi & Hs & Hu).
  exists frame, hdr, body. split_and!; try done. etrans; [exact Hu|]. cbn [msg_canon login_request lr_password]. by rewrite cstr_pad_strncpy.
Qed.
Lemma login_ack_back v : ack_ok v → ∃ resp, opc_login_ack_pack OPC_FRAME_MAX 1 v = Some resp ∧ 0 < len resp <= OPC_FRAME_MAX ∧ opc_login_ack_unpack resp = Some v.
Proof.
  intros Hv. destruct (msg_roundtrips LoginAck OPC_FRAME_MAX 1 v (Z.le_refl _) ltac:(done) Hv) as (frame & hdr & body & Hp & Hl & Hf & _ & _ & _ & Hu).
  exists frame. split; [done|]. split; [|done]. split; [|done]. destruct frame; [done|]. rewrite len_cons. pose proof (len_nonneg frame). lia.
Qed.
Lemma login_response f i p c q (w : world E) :
  (handle_login f i p c q w).1 = emit_ack (opc_login_ack_pack c q (verdict (login_error (w_st w) f i))).
Proof. unfold handle_login, mbind, M_bind, get. match goal with |- (let '(_, _) := ?m in _).1 = _ => by destruct m end. Qed.
Lemma login_verdict_ok s f i : ack_ok (verdict (login_error s f i)).
Proof.
  unfold ack_ok, login_error. destruct (opc_login_req_unpack f);
    repeat match goal with |- context [if ?b then _ else _] => destruct b end; done.
Qed.
Lemma login_error_right s frame ip pw hdr body :
  logged_in s = false → boot_status s ≠ OPC_DEVICE_BOOTING →
  opc_frame_parse frame = Some (hdr, body) → command_type hdr = OPC_CMD_REQUEST → req_indication_id hdr = OPC_REQ_LOGIN →
  opc_login_req_unpack frame = Some (mk_login_req pw true) → login_error s frame ip = None ↔ right_password s pw.
Proof.
  intros Hs Hb Hf Ht Hi Hu. pose proof (login_error_none s frame ip Hs) as Hn. unfold login_accepted in Hn. split.
  - intros He. destruct (proj1 Hn) as (h & b & req & _ & _ & _ & Hu' & _ & _ & Hc & He' & Hm); [by eauto 10|].
    rewrite Hu in Hu'. injection Hu' as <-. by split_and!.
  - intros (Hc & He & Hm). destruct (proj2 Hn) as (h & b & _ & _ & _ & Hr); [|done].
    exists hdr, body, (mk_login_req pw true). by split_and!.
Qed.

(** C5: a login from the client's command line to the daemon's session. Against a daemon
    that is up and without a session, [vhlctl login] exits with 0 exactly if the password
    given (its first 127 bytes) is the stored one and of the allowed characters, and then
    the client's address holds the session; with any other password it exits with 1 and
    the daemon's state and transmissions are untouched. *)
Theorem login_end_to_end (w : world E) c args ip port :
  logged_in (w_st w) = false → boot_status (w_st w) ≠ OPC_DEVICE_BOOTING →
  open_client_socket c = true → cl_peer c = daemon_peer w ip port →
  ∃ frame, let w' := (opcd_dispatch frame ip port OPC_FRAME_MAX w).2 in
    (right_password (w_st w) (password_arg args) →
       cmd_login c args = (0, Some frame) ∧ logged_in (w_st w') = true ∧ holder_ip (w_st w') = ip ∧
       boot_status (w_st w') = OPC_DEVICE_LOGGED_IN) ∧
    (¬ right_password (w_st w) (password_arg args) → cmd_login c args = (1, Some frame) ∧ inert w w').
Proof.
  intros Hs Hb Ho Hp. destruct (login_frame args) as (frame & hdr & body & Hpack & Hf & Ht & Hi & Hq & Hu). exists frame. cbv zeta.
  assert (Hd : opcd_dispatch frame ip port OPC_FRAME_MAX w =
    ((0, (handle_login frame ip port OPC_FRAME_MAX 1 w).1), (handle_login frame ip port OPC_FRAME_MAX 1 w).2)).
  { rewrite <- Hq. apply (dispatch_handler frame ip port OPC_FRAME_MAX w hdr body handle_login Hf Ht); [|done]. by rewrite Hi. }
  pose proof (login_error_right (w_st w) frame ip (password_arg args) hdr body Hs Hb Hf Ht Hi Hu) as Hr.
  destruct (login_ack_back (verdict (login_error (w_st w) frame ip)) (login_verdict_ok _ _ _)) as (resp & Hap & Hal & Hau).
  assert (Hcmd : cmd_login c args = (ack_status (Some (verdict (login_error (w_st w) frame ip))), Some frame)).
  { unfold cmd_login, exchange. rewrite Ho, Hpack. cbn [negb]. unfold send_recv. rewrite Hp. unfold daemon_peer. cbn [mbind option_bind].
    rewrite Hd, login_response, Hap. unfold emit_ack. cbn [default id]. rewrite (proj2 (Z.ltb_lt 0 (len resp))) by lia. cbn [Z.eqb andb mbind option_bind].
    rewrite take_ge by (unfold len, OPC_FRAME_MAX in *; lia). by rewrite Hau. }
  rewrite Hcmd, Hd. cbn [snd]. split.
  - intros He%Hr. rewrite He. split; [done|]. pose proof (login_effect frame ip port OPC_FRAME_MAX 1 w He Hs) as Hq2. cbv zeta in Hq2.
    destruct (_ && _); (split_and!; [exact (f_equal logged_in Hq2)|exact (f_equal holder_ip Hq2)|exact (f_equal boot_status Hq2)]).
  - intros Hn. destruct (login_error (w_st w) frame ip) as [err|] eqn:He; [|by destruct Hn; apply Hr].
    split; [done|]. by eapply login_refused.
Qed.
End EndToEnd.
Lemma login_end_to_end_witness :
  (∃ frame, cmd_login (mk_client (str "10.0.0.1") true true (daemon_peer (demo_world demo_up) demo_client 5000)) [str "--password"; str "MyPassword"]
     = (0, Some frame)) ∧
  (∃ frame, cmd_login (mk_client (str "10.0.0.1") true true (daemon_peer (demo_world demo_up) demo_client 5000)) [str "--password"; str "guess"]
     = (1, Some frame)).
Proof.
  assert (Ho : open_client_socket (mk_client (str "10.0.0.1") true true (daemon_peer (demo_world demo_up) demo_client 5000)) = true) by (vm_compute; reflexivity).
  split.
  - destruct (login_end_to_end (demo_world demo_up) _ [str "--password"; str "MyPassword"] demo_client 5000 eq_refl ltac:(done) Ho eq_refl) as (frame & H & _).
    exists frame. apply H. split_and!; vm_compute; done.
  - destruct (login_end_to_end (demo_world demo_up) _ [str "--password"; str "guess"] demo_client 5000 eq_refl ltac:(done) Ho eq_refl) as (frame & _ & H).
    exists frame. apply H. intros (_ & _ & Hm). vm_compute in Hm. done.
Defined.
End Vhlctl.
