(* ===== verification/FieldDump.v ===== *)
(** * Field-level disassembly: vhlctl/fielddump.h, vhlctl/fielddump.c

    The tables of [vhlctl --hex] describe a frame by field lengths only; the walker adds
    them up. The theorem locks the tables to the codec: what is printed for a field is what
    the unpackers of protocol/commands.c and protocol/indications.c read. *)
From S2P Require Import Prelude CText Codec ScanList Commands Indications Messages.
From stdpp Require Import base list numbers option tactics strings.
From Stdlib Require Import ZArith Lia.
#[local] Open Scope Z_scope.
Import Commands.

Module FieldDump.

Inductive fd_kind_t := FD_HEX | FD_U8 | FD_I8 | FD_U16BE | FD_I16BE | FD_U32BE | FD_MAC | FD_STR | FD_DATE | FD_IPV4.
Record fd_field_t := mk_fd { fd_label : string; fd_len : Z; fd_kind : fd_kind_t }.

(** ** Text *)

Fixpoint hex_digits (n : nat) (v : Z) : list Z :=
  match n with O => [] | S n => hex_digits n (v / 16) ++ [hex_digit (v mod 16)] end.
Definition i16 (z : Z) : Z := (z + 32768) mod 65536 - 32768.
(** [%0<w>u] *)
Definition dec0 (w : Z) (n : Z) : list Z := let d := dec n in replicate (Z.to_nat (w - len d)) 48 ++ d.
Definition text_u8 (v : Z) : list Z := dec v ++ str " (0x" ++ hex_digits 2 v ++ str ")".
Definition text_int (v : Z) : list Z := dec_ll v.
Definition text_u16 (v : Z) : list Z := str "0x" ++ hex_digits 4 v ++ str " (" ++ dec v ++ str ")".
Definition text_u32 (v : Z) : list Z := str "0x" ++ hex_digits 8 v.
Definition text_mac (m : list Z) : list Z :=
  hex2 (rd m 0) ++ [58] ++ hex2 (rd m 1) ++ [58] ++ hex2 (rd m 2) ++ [58] ++ hex2 (rd m 3) ++ [58] ++ hex2 (rd m 4) ++ [58] ++ hex2 (rd m 5).
Definition printable (c : Z) : Z := if (32 <=? c) && (c <? 127) then c else 46.
Definition text_str (s : list Z) : list Z := [39] ++ map printable (cstr s) ++ [39].
Definition text_date (y m d : Z) : list Z := dec0 4 y ++ [45] ++ dec0 2 m ++ [45] ++ dec0 2 d.
Definition text_ipv4 (a b c d : Z) : list Z := dec a ++ [46] ++ dec b ++ [46] ++ dec c ++ [46] ++ dec d.

Fixpoint hex_pairs (p : list Z) : list Z :=
  match p with [] => [] | [c] => hex2 c | c :: p' => hex2 c ++ [32] ++ hex_pairs p' end.
Definition build_hex (p : list Z) (n : Z) : list Z :=
  let shown := if n <? 16 then n else 16 in
  hex_pairs (take (Z.to_nat shown) p) ++ (if shown <? n then str " ..." else []).
Definition build_decoded (p : list Z) (f : fd_field_t) : list Z :=
  match fd_kind f with
  | FD_HEX => []
  | FD_U8 => text_u8 (rd p 0)
  | FD_I8 => text_int (i8 (rd p 0))
  | FD_U16BE => text_u16 (opc_be16_read p 0)
  | FD_I16BE => text_int (i16 (opc_be16_read p 0))
  | FD_U32BE => text_u32 (opc_be32_read p 0)
  | FD_MAC => text_mac p
  | FD_STR => text_str (take (Z.to_nat (if fd_len f <? 63 then fd_len f else 63)) p)
  | FD_DATE => text_date (opc_be16_read p 0) (rd p 2) (rd p 3)
  | FD_IPV4 => text_ipv4 (rd p 0) (rd p 1) (rd p 2) (rd p 3)
  end.
(** [%-18s], [%2zu] *)
Definition pad_right (n : Z) (s : list Z) : list Z := s ++ replicate (Z.to_nat (n - len s)) 32.
Definition pad_left (n : Z) (s : list Z) : list Z := replicate (Z.to_nat (n - len s)) 32 ++ s.
Definition fd_render (frame : list Z) (off : Z) (f : fd_field_t) : list Z :=
  let head := str "  " ++ pad_right 18 (str (fd_label f)) ++ str " @" ++ dec0 3 off ++ str " (" ++ pad_left 2 (dec (fd_len f)) ++ str "B): " in
  if len frame <? off + fd_len f then head ++ str "(truncated)"
  else
    let p := drop (Z.to_nat off) frame in
    let hex := build_hex p (fd_len f) in
    match build_decoded p f with
    | [] => head ++ hex
    | d => head ++ hex ++ str " = " ++ d
    end.

(** ** Tables *)

Definition HDR : list fd_field_t :=
  [mk_fd "protocol_ver" 1 FD_U8; mk_fd "command_type" 1 FD_U8; mk_fd "req_id" 2 FD_U16BE; mk_fd "sequence" 2 FD_U16BE;
   mk_fd "length" 2 FD_U16BE].
Definition BASIC : list fd_field_t :=
  [mk_fd "vendor_code" 4 FD_U32BE; mk_fd "product_code" 2 FD_U16BE; mk_fd "product_subcode" 2 FD_U16BE;
   mk_fd "device_status" 4 FD_U32BE; mk_fd "(reserve)" 2 FD_HEX; mk_fd "station_type" 2 FD_U16BE].
Definition DEVINFO : list fd_field_t :=
  [mk_fd "result" 2 FD_U16BE; mk_fd "error_cause" 2 FD_U16BE; mk_fd "vendor_code" 4 FD_U32BE; mk_fd "product_code" 2 FD_U16BE;
   mk_fd "product_subcode" 2 FD_U16BE; mk_fd "manufacture" 4 FD_DATE; mk_fd "shipment" 4 FD_DATE;
   mk_fd "firmware_version" 32 FD_STR; mk_fd "hardware_version" 32 FD_STR; mk_fd "serial_number" 32 FD_STR;
   mk_fd "ethernet_mac" 6 FD_MAC; mk_fd "(reserve)" 2 FD_HEX; mk_fd "ip_address" 4 FD_IPV4; mk_fd "subnet_mask" 4 FD_IPV4;
   mk_fd "default_gateway" 4 FD_IPV4; mk_fd "ntp_server" 4 FD_IPV4; mk_fd "essid" 32 FD_STR; mk_fd "device_status" 4 FD_U32BE;
   mk_fd "station_type" 2 FD_U16BE; mk_fd "priority_ch" 2 FD_U16BE; mk_fd "ieee_11r" 1 FD_U8; mk_fd "ieee_11ai" 1 FD_U8;
   mk_fd "ieee_11k" 1 FD_U8; mk_fd "ieee_11v" 1 FD_U8; mk_fd "(reserve)" 40 FD_HEX;
   mk_fd "wlan1.mac" 6 FD_MAC; mk_fd "wlan1.mode" 1 FD_U8; mk_fd "wlan1.bandwidth" 1 FD_U8; mk_fd "wlan1.freq_mhz" 2 FD_U16BE;
   mk_fd "wlan1.channel" 2 FD_U16BE; mk_fd "wlan1.status" 2 FD_U16BE; mk_fd "wlan1.snr" 1 FD_I8; mk_fd "wlan1.rssi" 1 FD_I8;
   mk_fd "wlan1.ap_mac" 6 FD_MAC; mk_fd "wlan1.scan_band" 2 FD_U16BE; mk_fd "wlan1.scan_chlist" 8 FD_HEX; mk_fd "(reserve)" 32 FD_HEX;
   mk_fd "wlan2.mac" 6 FD_MAC; mk_fd "wlan2.mode" 1 FD_U8; mk_fd "wlan2.bandwidth" 1 FD_U8; mk_fd "wlan2.freq_mhz" 2 FD_U16BE;
   mk_fd "wlan2.channel" 2 FD_U16BE; mk_fd "wlan2.status" 2 FD_U16BE; mk_fd "wlan2.snr" 1 FD_I8; mk_fd "wlan2.rssi" 1 FD_I8;
   mk_fd "wlan2.ap_mac" 6 FD_MAC; mk_fd "wlan2.scan_band" 2 FD_U16BE; mk_fd "wlan2.scan_chlist" 8 FD_HEX; mk_fd "(reserve)" 32 FD_HEX].
Definition IND_INIT : list fd_field_t := [mk_fd "status" 4 FD_U32BE].
Definition IND_WLANSTAT : list fd_field_t := [mk_fd "wlan_status" 2 FD_U16BE; mk_fd "indication_ch" 2 FD_U16BE].
Definition IND_ROAMING : list fd_field_t :=
  [mk_fd "current_snr" 2 FD_I16BE; mk_fd "current_rssi" 2 FD_I16BE; mk_fd "connect_ap_mac" 6 FD_MAC; mk_fd "ch_number" 2 FD_U16BE].
Definition IND_APDISC : list fd_field_t :=
  [mk_fd "message_id" 2 FD_U16BE; mk_fd "result_code" 2 FD_U16BE; mk_fd "disconnect_ap_mac" 6 FD_MAC; mk_fd "(reserve)" 2 FD_HEX].
Definition IND_FAULT : list fd_field_t := [mk_fd "congestion_id" 2 FD_U16BE; mk_fd "current_val" 2 FD_U16BE].
Definition IND_RESET : list fd_field_t := [mk_fd "reset_cause" 4 FD_U32BE].
Definition IND_KEEPALIVE : list fd_field_t := [mk_fd "timestamp" 32 FD_STR].

(** ** The walker *)

Fixpoint dump_table (frame : list Z) (off : Z) (t : list fd_field_t) : list (list Z) :=
  match t with [] => [] | f :: t' => fd_render frame off f :: dump_table frame (off + fd_len f) t' end.
Definition dump_header (frame : list Z) : list (list Z) := dump_table frame 0 HDR.
Definition fd_dump_basic_info (frame : list Z) : list (list Z) := dump_header frame ++ dump_table frame OPC_HEADER_SIZE BASIC.
Definition fd_dump_device_info (frame : list Z) : list (list Z) := dump_header frame ++ dump_table frame OPC_HEADER_SIZE DEVINFO.
Definition ind_table (ind_id : Z) : option (list fd_field_t) :=
  if ind_id =? OPC_IND_INIT_COMPLETE then Some IND_INIT
  else if ind_id =? OPC_IND_WLAN_STATUS_CHANGE then Some IND_WLANSTAT
  else if ind_id =? OPC_IND_ROAMING then Some IND_ROAMING
  else if ind_id =? OPC_IND_AP_DISCONNECT then Some IND_APDISC
  else if ind_id =? OPC_IND_FAULT_DETECT then Some IND_FAULT
  else if ind_id =? OPC_IND_RESET_NOTICE then Some IND_RESET
  else if ind_id =? OPC_IND_KEEP_ALIVE then Some IND_KEEPALIVE
  else None.
Definition fd_dump_indication (ind_id : Z) (frame : list Z) : list (list Z) :=
  dump_header frame ++ match ind_table ind_id with Some t => dump_table frame OPC_HEADER_SIZE t | None => [] end.

(** ** What the unpackers read, as text *)

Definition text_ip (n : Z) : list Z :=
  text_ipv4 (Z.land (Z.shiftr n 24) 255) (Z.land (Z.shiftr n 16) 255) (Z.land (Z.shiftr n 8) 255) (Z.land n 255).
Definition date_text (d : opc_date_t) : list Z := text_date (year d) (month d) (day d).
Definition basic_texts (a : opc_get_basic_info_ack_t) : list (list Z) :=
  [text_u32 (bi_vendor_code a); text_u16 (bi_product_code a); text_u16 (bi_product_subcode a); text_u32 (bi_device_status a); [];
   text_u16 (bi_station_type a)].
Definition radio_texts (r : opc_wlan_radio_state_t) : list (list Z) :=
  [text_mac (rs_mac r); text_u8 (rs_mode r); text_u8 (rs_bandwidth r); text_u16 (rs_freq_mhz r); text_u16 (rs_channel r);
   text_u16 (rs_status r); text_int (rs_snr r); text_int (rs_rssi r); text_mac (rs_connect_ap_mac r); text_u16 (rs_scan_band r); []; []].
Definition devinfo_texts (a : opc_get_device_info_ack_t) : list (list Z) :=
  [text_u16 (di_result a); text_u16 (di_error_cause a); text_u32 (di_vendor_code a); text_u16 (di_product_code a);
   text_u16 (di_product_subcode a); date_text (di_manufacture a); date_text (di_shipment a); text_str (di_firmware_version a);
   text_str (di_hardware_version a); text_str (di_serial_number a); text_mac (di_ethernet_mac a); []; text_ip (di_ip_address a);
   text_ip (di_subnet_mask a); text_ip (di_default_gateway a); text_ip (di_ntp_server a); text_str (di_essid a);
   text_u32 (di_device_status a); text_u16 (di_station_type a); text_u16 (di_priority_ch a); text_u8 (di_ieee_11r a);
   text_u8 (di_ieee_11ai a); text_u8 (di_ieee_11k a); text_u8 (di_ieee_11v a); []] ++ radio_texts (di_wlan1 a) ++ radio_texts (di_wlan2 a).

(** The lines that show the fields of [t] at their offsets with the given texts. *)
Fixpoint lines (frame : list Z) (off : Z) (t : list fd_field_t) (texts : list (list Z)) : list (list Z) :=
  match t, texts with
  | f :: t', d :: texts' =>
      (str "  " ++ pad_right 18 (str (fd_label f)) ++ str " @" ++ dec0 3 off ++ str " (" ++ pad_left 2 (dec (fd_len f)) ++ str "B): " ++
       build_hex (slice off (fd_len f) frame) (fd_len f) ++ match d with [] => [] | _ => str " = " ++ d end)
      :: lines frame (off + fd_len f) t' texts'
  | _, _ => []
  end.
Definition table_len (t : list fd_field_t) : Z := foldr (λ f n, fd_len f + n) 0 t.
Fixpoint decoded (body : list Z) (off : Z) (t : list fd_field_t) : list (list Z) :=
  match t with [] => [] | f :: t' => build_decoded (drop (Z.to_nat off) body) f :: decoded body (off + fd_len f) t' end.

(** ** Lemmas *)

Lemma rd_drop p n i : 0 <= n → 0 <= i → rd (drop (Z.to_nat n) p) i = rd p (n + i).
Proof. intros. unfold rd. rewrite lookup_drop. do 2 f_equal. lia. Qed.
Lemma be16_drop p n : 0 <= n → opc_be16_read (drop (Z.to_nat n) p) 0 = opc_be16_read p n.
Proof. intros. unfold opc_be16_read. rewrite !rd_drop by lia. by rewrite Z.add_0_r, !Z.add_0_l. Qed.
Lemma be32_drop p n : 0 <= n → opc_be32_read (drop (Z.to_nat n) p) 0 = opc_be32_read p n.
Proof. intros. unfold opc_be32_read. rewrite !rd_drop by lia. by rewrite Z.add_0_r, !Z.add_0_l. Qed.
Lemma mac_drop p n : 0 <= n → text_mac (drop (Z.to_nat n) p) = text_mac (slice n 6 p).
Proof. intros. unfold text_mac. by rewrite !rd_drop, !rd_slice by lia. Qed.

Lemma byte_bits b k : is_u8 b → 8 <= k → Z.testbit b k = false.
Proof. intros Hb Hk. apply (Z.bits_above_log2 b k); [unfold is_u8 in Hb; lia|].
  destruct (decide (b = 0)) as [->|]; [simpl; lia|]. unfold is_u8 in Hb. pose proof (Z.log2_lt_pow2 b 8 ltac:(lia)). lia. Qed.
Lemma be32_byte p n k : bytes_ok p → 0 <= k < 4 →
  Z.land (Z.shiftr (opc_be32_read p n) (8 * (3 - k))) 255 = rd p (n + k).
Proof.
  intros Hp Hk. apply Z.bits_inj'. intros i Hi. change 255 with (Z.ones 8).
  assert (Hb : ∀ o j, 8 <= j → Z.testbit (rd p o) j = false) by (intros; apply byte_bits; [by apply rd_range|done]).
  assert (Hn : ∀ o j, j < 0 → Z.testbit (rd p o) j = false) by (intros; by apply Z.testbit_neg_r).
  unfold opc_be32_read. rewrite Z.land_spec, Z.shiftr_spec, !Z.lor_spec by done. rewrite !Z.shiftl_spec by lia.
  destruct (decide (i < 8)) as [Hi8|Hi8].
  2: { rewrite Z.ones_spec_high, andb_false_r, Hb by lia. done. }
  rewrite Z.ones_spec_low, andb_true_r by lia.
  assert (k = 0 ∨ k = 1 ∨ k = 2 ∨ k = 3) as [-> | [-> | [-> | ->]]] by lia;
    repeat match goal with |- context [Z.testbit (rd p ?o) ?j] =>
      first [rewrite (Hb o j) by lia | rewrite (Hn o j) by lia] end;
    rewrite ?orb_false_r, ?orb_false_l, ?Z.add_0_r; f_equal; lia.
Qed.
Lemma ip_drop p n : bytes_ok p → 0 <= n →
  (let q := drop (Z.to_nat n) p in text_ipv4 (rd q 0) (rd q 1) (rd q 2) (rd q 3)) = text_ip (opc_be32_read p n).
Proof.
  intros Hp Hn. cbv zeta. unfold text_ip. rewrite !rd_drop by lia.
  pose proof (be32_byte p n 0 Hp ltac:(lia)) as E0. pose proof (be32_byte p n 1 Hp ltac:(lia)) as E1.
  pose proof (be32_byte p n 2 Hp ltac:(lia)) as E2. pose proof (be32_byte p n 3 Hp ltac:(lia)) as E3.
  change (8 * (3 - 0)) with 24 in E0. change (8 * (3 - 1)) with 16 in E1. change (8 * (3 - 2)) with 8 in E2.
  change (8 * (3 - 3)) with 0 in E3. rewrite Z.shiftr_0_r in E3. by rewrite E0, E1, E2, E3.
Qed.
Lemma cstr_write_last l n : len l = n → 0 < n → rd l (n - 1) = 0 → write_at (n - 1) [0] l = l.
Proof.
  intros Hl Hn Hz. apply list_eq_rd; [rewrite len_write_at; rewrite ?len_cons, ?len_nil; lia|].
  rewrite len_write_at by (rewrite ?len_cons, ?len_nil; lia). intros i Hi.
  destruct (decide (i = n - 1)) as [->|].
  - rewrite rd_write_in by (rewrite ?len_cons, ?len_nil; lia). by rewrite Hz, Z.sub_diag.
  - rewrite rd_write_out by (rewrite ?len_cons, ?len_nil; lia). done.
Qed.
(** A 32-byte string field, terminated within its 32 bytes. *)
Lemma str_drop p n : 0 <= n → n + 32 <= len p → rd p (n + 31) = 0 →
  text_str (take 32 (drop (Z.to_nat n) p)) = text_str (copy_string_field 32 p n).1.
Proof.
  intros Hn Hl Hz. cbn [copy_string_field fst]. change (take 32 (drop (Z.to_nat n) p)) with (slice n 32 p).
  rewrite cstr_write_last; [done|rewrite len_slice; lia|lia|]. by rewrite rd_slice by lia.
Qed.

Lemma decoded_drop frame k off t : 0 <= k → 0 <= off → Forall (λ f, 0 <= fd_len f) t →
  decoded frame (k + off) t = decoded (drop (Z.to_nat k) frame) off t.
Proof.
  intros Hk Ho Ht. revert off Ho. induction Ht as [|f t Hf Ht IH]; intros off Ho; [done|]. cbn [decoded].
  rewrite drop_drop, <- Z2Nat.inj_add by lia. f_equal. rewrite <- Z.add_assoc. apply IH. lia.
Qed.
Lemma hex_slice p n l : 0 <= n → build_hex (slice n l p) l = build_hex (drop (Z.to_nat n) p) l.
Proof.
  intros. unfold build_hex, slice. do 2 f_equal. rewrite take_take. f_equal.
  destruct (Z.ltb_spec l 16); lia.
Qed.
(** The walker prints the line of every field, none truncated. *)
Lemma dump_table_lines frame off t : 0 <= off → Forall (λ f, 0 <= fd_len f) t → off + table_len t <= len frame →
  dump_table frame off t = lines frame off t (decoded frame off t).
Proof.
  intros Ho Ht. revert off Ho. induction Ht as [|f t Hf Ht IH]; intros off Ho Hl; [done|].
  cbn [dump_table decoded lines table_len foldr] in *. change (foldr _ 0 t) with (table_len t) in Hl.
  assert (0 <= table_len t) by (clear -Ht; induction Ht; simpl; [done|lia]).
  rewrite IH by lia. f_equal. unfold fd_render. rewrite (proj2 (Z.ltb_ge _ _)) by lia. cbv zeta.
  rewrite hex_slice by done. destruct (build_decoded _ _); rewrite ?app_nil_r, <- ?app_assoc; done.
Qed.

Lemma parse_body frame hdr body : opc_frame_parse frame = Some (hdr, body) → 0 < len body →
  body = drop (Z.to_nat OPC_HEADER_SIZE) frame ∧ len frame = OPC_HEADER_SIZE + len body.
Proof.
  unfold opc_frame_parse. intros H Hl. repeat case_match; simplify_eq.
  - split; [done|]. unfold len. rewrite length_drop.
    match goal with H : (OPC_HEADER_SIZE <=? _) = true |- _ => apply Z.leb_le in H; unfold len, OPC_HEADER_SIZE in *; lia end.
  - by vm_compute in Hl.
Qed.

(** ** The tables against the unpackers *)

Lemma date_drop p n : 0 <= n →
  (let q := drop (Z.to_nat n) p in text_date (opc_be16_read q 0) (rd q 2) (rd q 3)) = date_text (unpack_date p n).
Proof. intros. cbv zeta. unfold date_text, unpack_date; cbn [year month day]. by rewrite be16_drop, !rd_drop, Z.add_0_r by lia. Qed.

Ltac field :=
  lazymatch goal with
  | |- build_decoded _ (mk_fd _ _ FD_U16BE) = text_u16 (opc_be16_read ?b ?k) => exact (f_equal text_u16 (be16_drop b k ltac:(lia)))
  | |- build_decoded _ (mk_fd _ _ FD_U32BE) = text_u32 (opc_be32_read ?b ?k) => exact (f_equal text_u32 (be32_drop b k ltac:(lia)))
  | |- build_decoded _ (mk_fd _ _ FD_MAC) = text_mac (slice ?k 6 ?b) => exact (mac_drop b k ltac:(lia))
  | |- build_decoded _ (mk_fd _ _ FD_U8) = text_u8 (rd ?b ?k) => exact (f_equal text_u8 (rd_drop b k 0 ltac:(lia) ltac:(lia)))
  | |- build_decoded _ (mk_fd _ _ FD_I8) = text_int (i8 (rd ?b ?k)) =>
      exact (f_equal (λ z, text_int (i8 z)) (rd_drop b k 0 ltac:(lia) ltac:(lia)))
  | |- build_decoded _ (mk_fd _ _ FD_IPV4) = text_ip (opc_be32_read ?b ?k) => apply (ip_drop b k); [assumption|lia]
  | |- build_decoded _ (mk_fd _ _ FD_DATE) = date_text (unpack_date ?b ?k) => apply (date_drop b k); lia
  | |- build_decoded _ (mk_fd _ _ FD_STR) = text_str (copy_string_field _ ?b ?k).1 => apply (str_drop b k); [lia|lia|assumption]
  | _ => reflexivity
  end.

Definition header_texts (h : opc_header_t) : list (list Z) :=
  [text_u8 (protocol_version h); text_u8 (command_type h); text_u16 (req_indication_id h); text_u16 (sequence_number h); text_u16 (hdr_length h)].
Definition strings_terminated (frame : list Z) (offs : list Z) : Prop := Forall (λ o, rd frame (64 + o + 31) = 0) offs.

Lemma decoded_cons body off f t d ds : build_decoded (drop (Z.to_nat off) body) f = d → decoded body (off + fd_len f) t = ds →
  decoded body off (f :: t) = d :: ds.
Proof. intros <- <-. done. Qed.
Ltac fields := repeat (apply decoded_cons; [field|]); reflexivity.

Definition ind_texts (ind_id : Z) (frame : list Z) : option (list (list Z)) :=
  if ind_id =? OPC_IND_INIT_COMPLETE then i ← opc_ind_init_complete_unpack frame; Some [text_u32 (ic_status i)]
  else if ind_id =? OPC_IND_WLAN_STATUS_CHANGE then
    i ← opc_ind_wlan_status_change_unpack frame; Some [text_u16 (ws_wlan_status i); text_u16 (ws_indication_ch i)]
  else if ind_id =? OPC_IND_ROAMING then
    i ← opc_ind_roaming_unpack frame;
    Some [text_int (ro_current_snr i); text_int (ro_current_rssi i); text_mac (ro_connect_ap_mac i); text_u16 (ro_ch_number i)]
  else if ind_id =? OPC_IND_AP_DISCONNECT then
    i ← opc_ind_ap_disconnect_unpack frame;
    Some [text_u16 (ad_message_id i); text_u16 (ad_result_code i); text_mac (ad_disconnect_ap_mac i); []]
  else if ind_id =? OPC_IND_FAULT_DETECT then
    i ← opc_ind_fault_detect_unpack frame; Some [text_u16 (fd_congestion_id i); text_u16 (fd_current_val i)]
  else if ind_id =? OPC_IND_RESET_NOTICE then i ← opc_ind_reset_notice_unpack frame; Some [text_u32 (rn_reset_cause i)]
  else if ind_id =? OPC_IND_KEEP_ALIVE then i ← opc_ind_keep_alive_unpack frame; Some [text_str (ka_timestamp i)]
  else None.
(** The levels of a Roaming indication are an [int8_t] sign-extended to the field; the time
    stamp of a KeepAlive ends within its field. *)
Definition ind_shown (ind_id : Z) (frame : list Z) : Prop :=
  (ind_id = OPC_IND_ROAMING →
     -128 <= i16 (opc_be16_read frame 64) < 128 ∧ -128 <= i16 (opc_be16_read frame 66) < 128) ∧
  (ind_id = OPC_IND_KEEP_ALIVE → strings_terminated frame [0]).

Lemma i16_i8 z : -128 <= i16 z < 128 → i16 z = i8 z.
Proof.
  unfold i16, i8. intros H. pose proof (Z.div_mod (z + 32768) 65536 ltac:(done)).
  assert (E : (z + 128) mod 256 = (z + 32768) mod 65536 - 32640); [|lia].
  symmetry. apply (Z.mod_unique_pos _ _ (256 * ((z + 32768) / 65536))); lia.
Qed.
Lemma expect_body frame ty id n body : parse_expect frame ty id n = Some body → 0 < n →
  body = drop 64 frame ∧ len frame = 64 + len body ∧ n <= len body ∧ ∃ hdr, opc_frame_parse frame = Some (hdr, body).
Proof.
  unfold parse_expect. intros H Hn. repeat case_match; simplify_eq. guards.
  destruct (parse_body _ _ _ H0 ltac:(lia)) as [-> ?]. eauto 10.
Qed.
Lemma basic_decoded frame ack : opc_get_basic_info_ack_unpack frame = Some ack →
  decoded (drop 64 frame) 0 BASIC = basic_texts ack ∧ 80 <= len frame.
Proof.
  unfold opc_get_basic_info_ack_unpack. intros H. destruct (parse_expect _ _ _ _) as [body|] eqn:E; [|done].
  apply expect_body in E as (-> & ? & ? & _); [|done]. simplify_eq. split; [|unfold OPC_GET_BASIC_INFO_ACK_BODY_LEN in *; lia].
  unfold basic_texts; cbn [bi_vendor_code bi_product_code bi_product_subcode bi_device_status bi_station_type]. fields.
Qed.
Lemma device_decoded frame ack : bytes_ok frame → strings_terminated frame [20; 52; 84; 140] →
  opc_get_device_info_ack_unpack frame = Some ack → decoded (drop 64 frame) 0 DEVINFO = devinfo_texts ack ∧ 416 <= len frame.
Proof.
  unfold opc_get_device_info_ack_unpack. intros Hb Hs H. destruct (parse_expect _ _ _ _) as [body|] eqn:E; [|done].
  apply expect_body in E as (Eb & ? & Hn & _); [|done]. unfold OPC_GET_DEVICE_INFO_ACK_BODY_LEN in Hn. simplify_eq.
  split; [|lia].
  unfold strings_terminated in Hs. rewrite !Forall_cons in Hs. destruct Hs as (S1 & S2 & S3 & S4 & _).
  assert (Ht : ∀ o, 0 <= o → rd frame (64 + o + 31) = 0 → rd (drop 64 frame) (o + 31) = 0).
  { intros o Ho <-. change (drop 64 frame) with (drop (Z.to_nat 64) frame). rewrite rd_drop by lia. f_equal. lia. }
  apply Ht in S1, S2, S3, S4; [|lia..]. apply (Forall_drop _ 64) in Hb. fold (bytes_ok (drop 64 frame)) in Hb.
  unfold devinfo_texts, radio_texts, unpack_radio_state.
  cbn [di_result di_error_cause di_vendor_code di_product_code di_product_subcode di_manufacture di_shipment di_firmware_version
       di_hardware_version di_serial_number di_ethernet_mac di_ip_address di_subnet_mask di_default_gateway di_ntp_server di_essid
       di_device_status di_station_type di_priority_ch di_ieee_11r di_ieee_11ai di_ieee_11k di_ieee_11v di_wlan1 di_wlan2
       rs_mac rs_mode rs_bandwidth rs_freq_mhz rs_channel rs_status rs_snr rs_rssi rs_connect_ap_mac rs_scan_band app].
  fields.
Qed.
Lemma indication_body frame id body n : indication_parse frame id = Some body → (len body <? n) = false → 0 < n →
  body = drop 64 frame ∧ 64 + n <= len frame.
Proof.
  unfold indication_parse. intros H Hl Hn. apply Z.ltb_ge in Hl. repeat case_match; simplify_eq.
  destruct (parse_body _ _ _ H0 ltac:(lia)) as [Eb E]. change OPC_HEADER_SIZE with 64 in E. split; [exact Eb|lia].
Qed.
Lemma roam_text frame k : 0 <= k → -128 <= i16 (opc_be16_read frame (64 + k)) < 128 →
  text_int (i16 (opc_be16_read (drop (Z.to_nat k) (drop 64 frame)) 0)) = text_int (i8 (opc_be16_read (drop 64 frame) k)).
Proof.
  intros Hk H. rewrite be16_drop by done.
  assert (E : opc_be16_read (drop 64 frame) k = opc_be16_read frame (64 + k)).
  { unfold opc_be16_read. change (drop 64 frame) with (drop (Z.to_nat 64) frame).
    rewrite !rd_drop by lia. by rewrite !Z.add_assoc. }
  rewrite E. f_equal. by apply i16_i8.
Qed.
Ltac ind_open H :=
  destruct (indication_parse _ _) as [body|] eqn:E in H; [|discriminate H];
  match type of H with context [?x <? ?n] => destruct (x <? n) eqn:Hl in H; [discriminate H|];
    destruct (indication_body _ _ _ n E Hl eq_refl) as [-> Hlen] end;
  injection H as <-; eexists; split; [reflexivity|]; split; [|assumption].
Lemma ind_decoded id frame texts : ind_shown id frame → ind_texts id frame = Some texts →
  ∃ t, ind_table id = Some t ∧ decoded (drop 64 frame) 0 t = texts ∧ 64 + table_len t <= len frame.
Proof.
  unfold ind_texts, ind_table, ind_shown.
  unfold opc_ind_init_complete_unpack, opc_ind_wlan_status_change_unpack, opc_ind_roaming_unpack, opc_ind_ap_disconnect_unpack,
    opc_ind_fault_detect_unpack, opc_ind_reset_notice_unpack, opc_ind_keep_alive_unpack.
  intros [Hr Hk] H. repeat match goal with |- context [id =? ?c] => destruct (Z.eqb_spec id c); [ind_open H|] end; [..|done].
  all: cbn [ic_status ws_wlan_status ws_indication_ch ro_current_snr ro_current_rssi ro_connect_ap_mac ro_ch_number
            ad_message_id ad_result_code ad_disconnect_ap_mac fd_congestion_id fd_current_val rn_reset_cause ka_timestamp].
  1,2,4,5,6: fields.
  - destruct (Hr e). repeat (apply decoded_cons; [first [apply roam_text; [lia|assumption] | field]|]). reflexivity.
  - apply decoded_cons; [|reflexivity]. specialize (Hk e). apply Forall_cons in Hk as [Hk _].
    apply (str_drop (drop 64 frame) 0); [lia|unfold len in *; rewrite length_drop; unfold OPC_IND_KEEP_ALIVE_BODY_LEN in *; lia|].
    change (drop 64 frame) with (drop (Z.to_nat 64) frame). by rewrite rd_drop by lia.
Qed.

(** The header lines, and the lines of a table behind the 64-byte header. *)
Lemma header_lines frame hdr body : opc_frame_parse frame = Some (hdr, body) → dump_header frame = lines frame 0 HDR (header_texts hdr).
Proof.
  intros H. assert (Hh : opc_fixed_header_unpack frame = Some hdr) by (unfold opc_frame_parse in H; by repeat case_match; simplify_eq).
  unfold opc_fixed_header_unpack in Hh. case_match; simplify_eq. guards. unfold OPC_FIXED_HEADER_SIZE in *.
  unfold dump_header. rewrite dump_table_lines; [|lia|by repeat constructor|cbn; lia]. f_equal.
  unfold header_texts; cbn [protocol_version command_type req_indication_id sequence_number hdr_length]. fields.
Qed.
Lemma body_lines frame t texts : Forall (λ f, 0 <= fd_len f) t → decoded (drop 64 frame) 0 t = texts → 64 + table_len t <= len frame →
  dump_table frame OPC_HEADER_SIZE t = lines frame 64 t texts.
Proof.
  intros Ht <- Hl. change OPC_HEADER_SIZE with (64 + 0). rewrite dump_table_lines by (done || lia). f_equal.
  apply (decoded_drop frame 64 0); [lia..|done].
Qed.
Lemma tables_ok : Forall (Forall (λ f, 0 <= fd_len f)) [BASIC; DEVINFO; IND_INIT; IND_WLANSTAT; IND_ROAMING; IND_APDISC; IND_FAULT; IND_RESET; IND_KEEPALIVE].
Proof. by repeat constructor. Qed.
Lemma ind_table_ok id t : ind_table id = Some t → Forall (λ f, 0 <= fd_len f) t.
Proof. unfold ind_table. intros H. repeat case_match; simplify_eq; by repeat constructor. Qed.

(** C34: the disassembly of [vhlctl --hex] agrees with the codec. For a frame the unpackers
    accept, the lines printed are those of the header and then, field by field at the offset
    its predecessors add up to, the bytes of the field and the value the unpacker reads for
    it, with nothing truncated: for the GetBasicInfo and GetDeviceInfo acknowledgments and for
    every indication. Strings are assumed to end within their field, and the levels of a
    Roaming indication to be the sign-extended [int8_t] the daemon sends. *)
Theorem fielddump_agrees_with_codec frame hdr body : bytes_ok frame → opc_frame_parse frame = Some (hdr, body) →
  (∀ ack, opc_get_basic_info_ack_unpack frame = Some ack →
     fd_dump_basic_info frame = lines frame 0 HDR (header_texts hdr) ++ lines frame 64 BASIC (basic_texts ack)) ∧
  (∀ ack, opc_get_device_info_ack_unpack frame = Some ack → strings_terminated frame [20; 52; 84; 140] →
     fd_dump_device_info frame = lines frame 0 HDR (header_texts hdr) ++ lines frame 64 DEVINFO (devinfo_texts ack)) ∧
  (∀ id texts, ind_texts id frame = Some texts → ind_shown id frame →
     ∃ t, ind_table id = Some t ∧
       fd_dump_indication id frame = lines frame 0 HDR (header_texts hdr) ++ lines frame 64 t texts).
Proof.
  intros Hb Hp. pose proof tables_ok as Ht. rewrite !Forall_cons in Ht. destruct Ht as (Hb1 & Hd1 & _).
  unfold fd_dump_basic_info, fd_dump_device_info, fd_dump_indication. rewrite (header_lines _ _ _ Hp).
  split; [|split].
  - intros ack H. destruct (basic_decoded _ _ H). f_equal. by apply body_lines.
  - intros ack H Hs. destruct (device_decoded _ _ Hb Hs H). f_equal. by apply body_lines.
  - intros id texts H Hs. destruct (ind_decoded _ _ _ Hs H) as (t & Et & ? & ?). exists t. split; [done|].
    rewrite Et. f_equal. apply body_lines; eauto using ind_table_ok.
Qed.
Definition example_frame : list Z :=
  default [] (opc_frame_build 1424 OPC_CMD_ACK OPC_REQ_GET_DEVICE_INFO 7 OPC_GET_DEVICE_INFO_ACK_LENGTH
    (write_at 140 (str "plant") (write_at 124 [192; 168; 0; 10] (zeros 352)))).
Lemma fielddump_agrees_with_codec_witness :
  match opc_frame_parse example_frame, opc_get_device_info_ack_unpack example_frame with
  | Some (hdr, _), Some ack =>
      fd_dump_device_info example_frame =
        lines example_frame 0 HDR (header_texts hdr) ++ lines example_frame 64 DEVINFO (devinfo_texts ack) ∧
      lines example_frame 0 HDR (header_texts hdr) !! 2%nat = Some (str "  req_id             @002 ( 2B): 00 02 = 0x0002 (2)") ∧
      lines example_frame 64 DEVINFO (devinfo_texts ack) !! 16%nat =
        Some (str "  essid              @204 (32B): 70 6c 61 6e 74 00 00 00 00 00 00 00 00 00 00 00 ... = 'plant'")
  | _, _ => False
  end.
Proof.
  destruct (opc_frame_parse example_frame) as [[hdr body]|] eqn:E; [|by vm_compute in E].
  destruct (opc_get_device_info_ack_unpack example_frame) as [ack|] eqn:Ea; [|by vm_compute in Ea].
  split; [|vm_compute in E, Ea; simplify_eq; split; vm_compute; reflexivity].
  apply (fielddump_agrees_with_codec example_frame hdr body).
  - apply (bool_decide_unpack _). vm_compute. exact I.
  - exact E.
  - exact Ea.
  - by repeat constructor.
Defined.
End FieldDump.
