(* ===== verification/Board.v ===== *)
(** * The daemon on the board: the operations table of opcd/platform_nxp.c

    The class [Env] of State.v is what the daemon calls; here it is discharged by the code
    that runs on the board: the platform operations by platform_nxp.c (PlatformRead.v,
    PlatformApply.v, PlatformRun.v), the probe's sources, the configured mode, the reset
    cause and the snapshot by the readers of their files. What remains an input is the
    kernel: a base environment for clocks, sockets and the stored files, and the record [hw]
    of what the device's files hold and how a call of the platform ends. *)
From S2P Require Import Prelude CText Codec ScanList Commands Indications Messages Store StoreAsync IpListText FaultProbe State Indication Validate RadioConf Persist Handlers IpListLoad Daemon SimEnv Logic Frames Invariant Reachable IpChange Session Answers JsonText JsonUtil DevinfoCfg Routes Roam DeviceFiles ProcFiles EssidMarker PlatformRead PlatformRun PlatformApply Snapshot.
From stdpp Require Import base list numbers option tactics strings.
From Stdlib Require Import ZArith Lia.
#[local] Open Scope Z_scope.
Import Commands Store.Store IpListText.IpListText.
Import CText.CText (EINVAL).

Module Board.
Import PlatformApply.PlatformApply.

(** What the device answers in a given state of the kernel; the files of the logger also
    depend on the platform calls made so far. *)
Record hw (B : Type) := mk_hw {
  hw_device : B → list step → PlatformRead.PlatformRead.device;
  hw_answer : B → list step → Z;
  hw_route : B → Z + list Z;
  hw_wpa : B → Z → EssidMarker.EssidMarker.io * EssidMarker.EssidMarker.files;
  hw_fw : B → list Z * bool;
  hw_reset : B → PlatformRun.PlatformRun.run_result * bool;
  hw_file : B → string → option (list Z);
  hw_snap : B → Snapshot.Snapshot.snap_io }.
Arguments hw_device {B} _ _ _.
Arguments hw_answer {B} _ _ _.
Arguments hw_route {B} _ _.
Arguments hw_wpa {B} _ _ _.
Arguments hw_fw {B} _ _.
Arguments hw_reset {B} _ _.
Arguments hw_file {B} _ _ _.
Arguments hw_snap {B} _ _.

(** The kernel, the platform calls made so far, the cached firmware version, the snapshot
    file and the inventory loaded at start. *)
Record board (B : Type) := mk_board {
  b_base : B; b_steps : list step; b_fw : PlatformRead.PlatformRead.fw_state;
  b_snap : Snapshot.Snapshot.snap; b_inv : opcd_inventory_t }.
Arguments mk_board {B} _ _ _ _ _.
Arguments b_base {B} _.
Arguments b_steps {B} _.
Arguments b_fw {B} _.
Arguments b_snap {B} _.
Arguments b_inv {B} _.

Definition WIFI_INIT_CONF : string := "/usr/local/etc/wifi_init_conf.json".
Definition OPC_PATH_RESET_CAUSE : string := "/run/opc/reset_cause".
Definition OPCD_SNAPSHOT_PATH : string := "/dev/shm/opcd/device_info.json".

Section Board.
Context {B : Type} `{Env B} (k : hw B).

(** A call of the kernel. *)
Definition base {A} (op : B → A * B) (b : board B) : A * board B :=
  let '(x, e) := op (b_base b) in (x, mk_board e (b_steps b) (b_fw b) (b_snap b) (b_inv b)).
(** The device as it is now. *)
Definition now (b : board B) : PlatformRead.PlatformRead.device := hw_device k (b_base b) (b_steps b).
(** A platform operation that takes steps. *)
Definition stepping {A} (op : (list step → Z) → P A) (b : board B) : A * board B :=
  let '(x, tr) := op (λ tr, hw_answer k (b_base b) (b_steps b ++ tr)) [] in
  (x, mk_board (b_base b) (b_steps b ++ tr) (b_fw b) (b_snap b) (b_inv b)).
(** A string and a MAC address in the zeroed output. *)
Definition in_field (n : Z) (s : list Z) : list Z := s ++ zeros (n - len s).
Definition mac_or_zero (r : Z * option (list Z)) : list Z := default (zeros 6) r.2.
Definition nxp_get_essid (b : board B) (idx : Z) : list Z :=
  if PlatformRead.PlatformRead.no_wlan (now b) idx then []
  else let '(io, f) := hw_wpa k (b_base b) idx in
       (EssidMarker.EssidMarker.opc_wpa_conf_ssid io OPC_ESSID_FIELD_LEN f).2.
Definition fw_query (b : board B) : option (list Z) :=
  let '(written, ok) := hw_fw k (b_base b) in
  PlatformRead.PlatformRead.nxp_query_fw_version written ok PlatformRead.PlatformRead.FW_CACHE_LEN.
Definition capability_of (err : Z) : capability :=
  if err =? 0 then CapOk else if err =? OPC_ERR_RADIO_MODE then CapMode else CapBw.

Definition board_env : Env (board B) := {|
  env_mono := base env_mono;
  env_timestamp := base env_timestamp;
  env_sendto ip port f := base (env_sendto ip port f);
  env_readings p b := (ProcFiles.ProcFiles.probe_readings p (hw_file k (b_base b)) (env_mono (b_base b)).1, b);
  env_write path data mode := base (env_write path data mode);
  env_read path cap := base (env_read path cap);
  env_unlink path := base (env_unlink path);
  env_stat path := base (env_stat path);
  env_rename a b := base (env_rename a b);
  env_open_user path := base (env_open_user path);
  lookup_direct_route dst b :=
    (match PlatformRead.PlatformRead.nxp_lookup_direct_route (hw_route k (b_base b)) dst with inr mask => Some mask | inl _ => None end, b);
  get_dev_ipv4 iface b := (PlatformRead.PlatformRead.nxp_get_dev_ipv4 (now b) iface, b);
  get_link idx b :=
    (let '(rc, l) := PlatformRead.PlatformRead.nxp_get_link (now b) idx PlatformRead.PlatformRead.link_zero in
     if rc =? 0 then Some l else None, b);
  get_eth_mac b := (mac_or_zero (PlatformRead.PlatformRead.nxp_get_eth_mac (now b)), b);
  get_wlan_mac idx b := (mac_or_zero (PlatformRead.PlatformRead.nxp_get_wlan_mac (now b) idx), b);
  get_essid idx b := (in_field OPC_ESSID_FIELD_LEN (nxp_get_essid b idx), b);
  get_firmware_version b :=
    (in_field OPC_VERSION_FIELD_LEN (PlatformRead.PlatformRead.nxp_get_firmware_version (b_fw b) OPC_VERSION_FIELD_LEN), b);
  get_ntp_server b := ((PlatformRead.PlatformRead.nxp_get_ntp_server (now b)).2, b);
  validate_radio_config cfg _ := capability_of (nxp_validate_radio_config cfg);
  apply_radio_config cfg := stepping (λ ans, nxp_apply_radio_config ans cfg);
  apply_ip_change e iface n b := stepping (λ ans, nxp_apply_ip_change ans (now b) e iface n) b;
  peer_route_refresh ip mask := stepping (λ ans, nxp_peer_route_refresh ans ip mask);
  opcd_inventory b := b_inv b;
  opcd_devinfo_cfg_read iface b := (DevinfoCfg.DevinfoCfg.opcd_devinfo_cfg_read (hw_file k (b_base b) WIFI_INIT_CONF) iface, b);
  opcd_snapshot_publish ack b :=
    (tt, mk_board (b_base b) (b_steps b) (b_fw b)
           (Snapshot.Snapshot.opcd_snapshot_publish OPCD_SNAPSHOT_PATH (hw_snap k (b_base b)) (env_mono (b_base b)).1 ack (b_snap b)).2
           (b_inv b));
  refresh_firmware_version elapsed b :=
    (tt, mk_board (b_base b) (b_steps b)
           (PlatformRead.PlatformRead.nxp_refresh_firmware_version elapsed (fw_query b) (b_fw b)).2 (b_snap b) (b_inv b));
  prepare_reset b := (let '(r, stop) := hw_reset k (b_base b) in PlatformRun.PlatformRun.nxp_prepare_reset r stop, b);
  opcd_systemd_watchdog := base opcd_systemd_watchdog;
  opcd_system_stopping := base opcd_system_stopping;
  opcd_reset_cause_read b := (DeviceFiles.DeviceFiles.opcd_reset_cause_read (hw_file k (b_base b) OPC_PATH_RESET_CAUSE), b) |}.
End Board.

(** ** The Logout that commits an address change *)

(** The session ends; the notification about it may have used a sequence number. *)
Definition closed (q : Z) (s : opcd_state_t) : opcd_state_t :=
  let s := s <| indication_seq := q |> in
  ((((s <| session_generation := u32 (session_generation s + 1) |>) <| logged_in := false |>)
      <| boot_status := OPC_DEVICE_READY |>) <| ip_list_staging_active := false |>) <| ip_list_staging := ip_list_zero |>.
(** The pending change is armed with the entry of the list as it is. *)
Definition armed (s : opcd_state_t) : opcd_state_t :=
  ((s <| ip_change_armed_entry := slot_at (ip_list s) (ip_change_list_no s) |>)
     <| ip_change_armed_no := ip_change_list_no s |>) <| ip_change_commit_armed := true |>.
(** A Logout of [ip] now commits a change to a slot of the list. *)
Definition ready_to_commit `{Env E} (w : world E) (ip : Z) : Prop :=
  let s := w_st w in
  session_owns s ip = true ∧ (env_mono (w_env w)).1 < idle_deadline s ∧
  ip_change_pending s = true ∧ ip_change_commit_armed s = false ∧
  1 <= ip_change_list_no s <= OPC_IPCFG_LIST_MAX_SLOTS ∧ slot_present (ip_list s) (ip_change_list_no s) = true ∧
  persist_resource_busy s OPCD_PERSIST_IP_LIST = false ∧ radio_revert_pending s = false ∧ should_reset s = false.

Section Logout.
Context {E : Type} `{Env E} (Q : E → Prop).
Hypothesis (Hm : ∀ e, Q e → Q (env_mono e).2) (Hs : ∀ ip port f e, Q e → Q (env_sendto ip port f e).2).

Lemma init_complete_run st (w : world E) : Q (w_env w) →
  ∃ x q e tx, opcd_ind_init_complete st w = (x, mk_world ((w_st w) <| indication_seq := q |>) e (w_tx w ++ tx)) ∧ Q e.
Proof.
  destruct w as [s e tx]. cbn [w_env w_st w_tx]. intros He.
  assert (Hnone : ∀ x, ∃ x' q e' tx', ((x, mk_world s e tx) : Z * world E) = (x', mk_world (s <| indication_seq := q |>) e' (tx ++ tx')) ∧ Q e').
  { intros x. exists x, (indication_seq s), e, []. rewrite app_nil_r. by destruct s. }
  unfold opcd_ind_init_complete, next_seq, send_indication_frame, mbind, M_bind, get, modify, mret, M_ret. cbn [w_st].
  destruct (negb _); [apply Hnone|]. cbn [w_st w_env w_tx].
  destruct (opc_ind_init_complete_pack _ _ _) as [f|]; [|by exists (-1), (u16 (indication_seq s + 1)), e, []; rewrite app_nil_r].
  cbn [w_st w_env w_tx]. destruct (_ || _); [by exists 0, (u16 (indication_seq s + 1)), e, []; rewrite app_nil_r|].
  destruct (_ || _); [by exists 0, (u16 (indication_seq s + 1)), e, []; rewrite app_nil_r|].
  unfold sendto. cbn [w_st w_env w_tx]. destruct (env_sendto _ _ _ _) as [ok e'] eqn:Es.
  assert (He' : Q e') by (change e' with ((ok, e').2); rewrite <- Es; by apply Hs). by do 4 eexists.
Qed.
Lemma session_logout_run (w : world E) : Q (w_env w) →
  ∃ q e tx, opcd_session_logout w = (tt, mk_world (closed q (w_st w)) e (w_tx w ++ tx)) ∧ Q e.
Proof.
  intros He. destruct (init_complete_run OPC_INIT_STATE_LOGGED_OUT w He) as (x & q & e & tx & E1 & He').
  exists q, e, tx. unfold opcd_session_logout, mbind, M_bind. rewrite E1. by split.
Qed.
Lemma logout_frame seq : is_u16 seq → ∃ frame hdr body,
  opc_logout_req_pack OPC_FRAME_MAX seq = Some frame ∧ len frame <= OPC_FRAME_MAX ∧
  opc_frame_parse frame = Some (hdr, body) ∧ command_type hdr = OPC_CMD_REQUEST ∧ req_indication_id hdr = OPC_REQ_LOGOUT ∧
  sequence_number hdr = seq ∧ opc_logout_req_unpack frame = Some tt.
Proof.
  intros Hseq. destruct (msg_roundtrips LogoutReq OPC_FRAME_MAX seq tt (Z.le_refl _) Hseq I)
    as (frame & hdr & body & Hp & Hl & Hf & Ht & Hi & Hs' & Hu).
  exists frame, hdr, body. split_and!; done.
Qed.
Lemma logout_ack_back seq : is_u16 seq → ∃ ack, opc_logout_ack_pack OPC_FRAME_MAX seq (verdict None) = Some ack ∧ 0 < len ack ∧
  opc_logout_ack_unpack ack = Some (verdict None).
Proof.
  intros Hseq. destruct (msg_roundtrips LogoutAck OPC_FRAME_MAX seq (verdict None) (Z.le_refl _) Hseq ltac:(done))
    as (frame & hdr & body & Hp & _ & Hf & _ & _ & _ & Hu).
  exists frame. split_and!; [done| |done]. destruct frame; [done|]. rewrite len_cons. pose proof (len_nonneg frame). lia.
Qed.
Lemma intake_frame frame hdr body : len frame <= OPC_FRAME_MAX → opc_frame_parse frame = Some (hdr, body) →
  take (Z.to_nat OPC_FRAME_MAX) frame = frame ∧ opcd_intake_frame_len frame ≠ 0 ∧ take (Z.to_nat (opcd_intake_frame_len frame)) frame = frame.
Proof.
  intros Hl Hp. destruct (opcd_intake_frame_len_spec frame) as [H0 H1].
  assert (Hn : opcd_intake_frame_len frame ≠ 0).
  { intros Hz. specialize (H0 Hz (length frame)). rewrite take_ge in H0 by done. by rewrite Hp in H0. }
  destruct (H1 Hn) as (_ & _ & Hu). assert (El : len frame = opcd_intake_frame_len frame).
  { apply Hu; [pose proof (len_nonneg frame); lia|]. rewrite take_ge by (unfold len; lia). eauto. }
  rewrite <- El. split_and!; [apply take_ge; unfold len in *; lia|lia|apply take_ge; unfold len; lia].
Qed.
(** The dispatch of the Logout: the change is armed, the session closed. *)
Lemma logout_dispatch (w : world E) frame hdr body ip port cap :
  opc_frame_parse frame = Some (hdr, body) → command_type hdr = OPC_CMD_REQUEST → req_indication_id hdr = OPC_REQ_LOGOUT →
  opc_logout_req_unpack frame = Some tt → ready_to_commit w ip → Q (w_env w) →
  ∃ q e tx, opcd_dispatch frame ip port cap w =
    ((0, emit_ack (opc_logout_ack_pack cap (sequence_number hdr) (verdict None))), mk_world (closed q (armed (w_st w))) e (w_tx w ++ tx)) ∧ Q e.
Proof.
  intros Hf Ht Hi Hu (Ho & Hd & Hp & Ha & Hn & Hpr & Hb & _) He. destruct w as [s e tx]. cbn [w_st w_env w_tx] in *.
  unfold session_owns in Ho. apply andb_true_iff in Ho as [Hl Hh].
  unfold opcd_dispatch. rewrite Hf, Ht. cbn [negb Z.eqb OPC_CMD_REQUEST Pos.eqb]. unfold mbind at 1, M_bind at 1, get at 1. cbn [w_st].
  rewrite Hl. unfold mono_now, call, mbind, M_bind. cbn [w_env]. pose proof (Hm e He) as He1.
  destruct (env_mono e) as [t e1]. cbn [fst snd w_st w_tx] in *. rewrite (proj2 (Z.leb_gt (idle_deadline s) t)) by lia.
  cbn [whenM]. unfold mret at 1, M_ret at 1. rewrite Hi. change (lookup_handler OPC_REQ_LOGOUT) with (Some (handle_logout : handler (E := E))). cbn beta iota.
  unfold handle_logout, mbind, M_bind, get. cbn [w_st]. unfold logout_error. rewrite Hu, Hl. unfold session_owns. rewrite Hl, Hh. cbn [negb andb].
  rewrite Hp, Ha, Hb. cbn [andb negb]. unfold arm_ip_change_from_committed, modify. cbn [w_st w_env w_tx]. cbv zeta.
  rewrite Hpr, (proj2 (Z.leb_le _ _)), (proj2 (Z.leb_le _ _)) by lia. cbn [andb negb].
  destruct (session_logout_run (mk_world (armed s) e1 tx) He1) as (q & e2 & tx2 & E1 & He2).
  exists q, e2, tx2. unfold armed in E1. rewrite E1. by split.
Qed.
Lemma logout_datagram (w : world E) seq frame ip port :
  is_u16 seq → opc_logout_req_pack OPC_FRAME_MAX seq = Some frame → ready_to_commit w ip → Q (w_env w) →
  ∃ q e tx ack, on_datagram (mk_datagram ip port frame) w =
      (true, mk_world (closed q (armed (w_st w))) e (w_tx w ++ tx ++ [mk_datagram ip port ack])) ∧
    opc_logout_ack_unpack ack = Some (verdict None) ∧ Q e.
Proof.
  intros Hseq Hpk Hr He. destruct (logout_frame seq Hseq) as (f & hdr & body & Hpk' & Hl & Hf & Ht & Hi & Hsq & Hu).
  rewrite Hpk in Hpk'. injection Hpk' as <-. destruct (intake_frame frame hdr body Hl Hf) as (E1 & E2 & E3).
  destruct (logout_ack_back seq Hseq) as (ack & Hap & Hal & Hau).
  destruct (logout_dispatch w frame hdr body ip port OPC_FRAME_MAX Hf Ht Hi Hu Hr He) as (q & e & tx & Ed & He').
  unfold on_datagram. cbn [dg_bytes dg_ip dg_port]. cbv zeta. rewrite E1, E3, (proj2 (Z.eqb_neq _ _) E2).
  unfold mbind, M_bind. rewrite Ed, Hsq, Hap. unfold emit_ack. cbn [default id Z.eqb]. rewrite (proj2 (Z.ltb_lt _ _) Hal).
  unfold sendto. cbn [w_env w_st w_tx]. pose proof (Hs ip port ack e He') as He2. destruct (env_sendto ip port ack e) as [ok e2]. cbn [snd] in He2.
  destruct Hr as (_ & _ & _ & _ & _ & _ & _ & Hrv & Hrs).
  unfold opcd_post_ack, opcd_radio_revert_drain, mbind, M_bind, get, mret, M_ret. cbn [w_st].
  change (should_reset (closed q (armed (w_st w)))) with (should_reset (w_st w)). rewrite Hrs. cbn [andb w_st].
  change (radio_revert_pending (closed q (armed (w_st w)))) with (radio_revert_pending (w_st w)). rewrite Hrv. cbn [negb w_st].
  exists q, e2, tx, ack. rewrite <- app_assoc. by split_and!.
Qed.
End Logout.

Section AddressChange.
Context {B : Type} `{Env B} (k : hw B).
#[local] Instance the_board : Env (board B) := board_env k.

(** The kernel after nothing but readings of the clock and datagrams sent. *)
Inductive ticked (e : B) : B → Prop :=
  | ticked_none : ticked e e
  | ticked_mono e' : ticked e e' → ticked e (env_mono e').2
  | ticked_sent ip port f e' : ticked e e' → ticked e (env_sendto ip port f e').2.
(** The platform part of the board: what neither clocks nor datagrams change. *)
Definition platform_part (b : board B) : list step * PlatformRead.PlatformRead.fw_state * Snapshot.Snapshot.snap :=
  (b_steps b, b_fw b, b_snap b).
Lemma platform_base {A} (op : B → A * B) b : platform_part (base op b).2 = platform_part b.
Proof. unfold base. by destruct (op (b_base b)). Qed.
Definition undisturbed (b b' : board B) : Prop := platform_part b' = platform_part b ∧ ticked (b_base b) (b_base b').
Lemma undisturbed_mono b b' : undisturbed b b' → undisturbed b (env_mono b').2.
Proof.
  intros [Hp Ht]. cbn [env_mono the_board board_env]. split; [by rewrite platform_base|]. apply ticked_mono in Ht. unfold base. by destruct (env_mono (b_base b')).
Qed.
Lemma undisturbed_sent b b' ip port f : undisturbed b b' → undisturbed b (env_sendto ip port f b').2.
Proof.
  intros [Hp Ht]. cbn [env_sendto the_board board_env]. split; [by rewrite platform_base|]. apply (ticked_sent _ ip port f) in Ht.
  unfold base. by destruct (env_sendto ip port f (b_base b')).
Qed.

(** How an address change of [slot] on [iface] runs on the device: refused without a step,
    or the address command first, then the steps of the gateway and of the NTP server if it
    succeeded (and only then), then the ESSID under its marker. *)
Definition change_run (ans : list step → Z) (d : PlatformRead.PlatformRead.device) (slot : opc_ipcfg_entry_t) (iface slot_no ret : Z)
    (tr : list step) : Prop :=
  tr = [] ∧ (ret = - EINVAL ∧ (unicast (ip_address slot) = false ∨ ∀ j, 1 <= j <= 32 → subnet_mask slot ≠ prefix_mask j) ∨
             ret = - EADDRNOTAVAIL ∧ clashes d iface (ip_address slot) (subnet_mask slot) = true) ∨
  ∃ j net ssid, 1 <= j <= 32 ∧ subnet_mask slot = prefix_mask j ∧
    let first := RunSh (addr_cmd (ipv4_str (ip_address slot)) (dec j) (iface_dev iface)) in
    tr = first :: net ++ ssid ∧ ret = ans [first] ∧ net_run ans slot j (iface_dev iface) ret [first] net ∧
    essid_run ans slot_no (essid slot) (first :: net) ssid.

(** The reconciliation after the events of a turn, with an armed change and no session. *)
Lemma apply_run (s : opcd_state_t) (b : board B) txs :
  ip_change_commit_armed s = true → logged_in s = false →
  let ans := λ tr, hw_answer k (b_base b) (b_steps b ++ tr) in
  let slot := ip_change_armed_entry s in
  let '(ret, tr) := nxp_apply_ip_change ans (now k b) slot (mgmt_ip_iface_idx s) (ip_change_armed_no s) [] in
  ∃ s' b' peer, opcd_apply_pending_ip_change (mk_world s b txs) = (tt, mk_world s' b' txs) ∧
    b_steps b' = b_steps b ++ tr ++ peer ∧
    (ret ≠ 0 ∨ management_topology (conf s) = OPC_TOPOLOGY_ETH0_IP → peer = []) ∧
    (ret = 0 → management_topology (conf s) = OPC_TOPOLOGY_PEER_ROUTE →
       peer = (nxp_peer_route_refresh (λ t, hw_answer k (b_base b) ((b_steps b ++ tr) ++ t)) (ip_address slot) (subnet_mask slot) []).2) ∧
    logged_in s' = false ∧ ip_list s' = ip_list s ∧
    (ip_change_pending s', ip_change_commit_armed s', ip_change_list_no s') = (false, false, 0).
Proof.
  intros Ha Hl ans slot. destruct (nxp_apply_ip_change _ _ _ _ _ _) as [ret tr] eqn:Et.
  assert (Hap : apply_ip_change slot (mgmt_ip_iface_idx s) (ip_change_armed_no s) b =
                (ret, mk_board (b_base b) (b_steps b ++ tr) (b_fw b) (b_snap b) (b_inv b))).
  { cbn [apply_ip_change the_board board_env]. unfold stepping. fold ans. by rewrite Et. }
  unfold opcd_apply_pending_ip_change, mbind, M_bind, get, call, modify, whenM, mret, M_ret. cbn [w_st w_env w_tx].
  rewrite Ha. cbn [negb]. cbv zeta. fold slot. cbn [w_env]. rewrite Hap. destruct (Z.eqb_spec ret 0) as [->|Hr]; cbn [w_st w_env w_tx].
  2: { do 2 eexists. exists []. split; [reflexivity|]. cbn [b_steps]. rewrite app_nil_r. by split_and!. }
  change (logged_in (s <| indication_enabled := false |>)) with (logged_in s). rewrite Hl.
  change (conf (s <| indication_enabled := false |>)) with (conf s).
  destruct (management_topology (conf s)); cbn [w_st w_env w_tx].
  - do 2 eexists. exists []. split; [reflexivity|]. cbn [b_steps]. rewrite app_nil_r. by split_and!.
  - cbn [peer_route_refresh the_board board_env]. unfold stepping. cbn [b_base b_steps].
    destruct (nxp_peer_route_refresh _ _ _ _) as [rc peer]. do 2 eexists. exists peer. split; [reflexivity|]. cbn [b_steps].
    rewrite <- app_assoc. split_and!; try done. intros [?|?]; done.
Qed.

(** C20: an address change from the Logout to the device. On the board, when the session
    holder's Logout arrives while a change to a populated slot is pending (no list write in
    flight, nothing to revert), that turn of the loop answers the Logout with OK, then
    carries out the change with the entry of the slot as it is at that moment and makes no
    other platform call before it: it is refused without a step, or the address command
    comes first and gives the result; exactly if it succeeded the gateway follows (the
    default route replaced by one through a usable gateway, removed for 0.0.0.0) and then
    the NTP server (the drop-in written, or removed for 0.0.0.0, and timesyncd restarted);
    and the ESSID is edited under its marker. The kernel at that moment is the one before the
    turn after readings of the clock and datagrams sent. In the peer-route topology a successful change is
    followed by the refresh of the route. The session is over and the change is no longer
    pending; requests queued behind the Logout wait for the next turn. *)
Theorem logout_changes_address (w : world (board B)) seq frame ip port queue :
  is_u16 seq → opc_logout_req_pack OPC_FRAME_MAX seq = Some frame → ready_to_commit w ip →
  let s := w_st w in
  let slot := slot_at (ip_list s) (ip_change_list_no s) in
  let iface := mgmt_ip_iface_idx s in
  entry_u32 slot →
  let w' := (loop_turn [EvUdp (Rx _ (mk_datagram ip port frame) :: queue)] w).2 in
  ∃ (e1 : B) tx ack ret tr peer,
    let before := b_steps (w_env w) in
    let ans := λ tr, hw_answer k e1 (before ++ tr) in
    let d := hw_device k e1 before in
    ticked (b_base (w_env w)) e1 ∧ w_tx w' = w_tx w ++ tx ++ [mk_datagram ip port ack] ∧ opc_logout_ack_unpack ack = Some (verdict None) ∧
    nxp_apply_ip_change ans d slot iface (ip_change_list_no s) [] = (ret, tr) ∧
    change_run ans d slot iface (ip_change_list_no s) ret tr ∧
    b_steps (w_env w') = before ++ tr ++ peer ∧
    (ret ≠ 0 ∨ management_topology (conf s) = OPC_TOPOLOGY_ETH0_IP → peer = []) ∧
    (ret = 0 → management_topology (conf s) = OPC_TOPOLOGY_PEER_ROUTE →
       peer = (nxp_peer_route_refresh (λ t, hw_answer k e1 ((before ++ tr) ++ t)) (ip_address slot) (subnet_mask slot) []).2) ∧
    logged_in (w_st w') = false ∧ ip_list (w_st w') = ip_list s ∧
    (ip_change_pending (w_st w'), ip_change_commit_armed (w_st w'), ip_change_list_no (w_st w')) = (false, false, 0).
Proof.
  intros Hseq Hpk Hr s slot iface Hu w'.
  destruct (logout_datagram (undisturbed (w_env w)) (undisturbed_mono (w_env w)) (λ a c d x, undisturbed_sent (w_env w) x a c d) w seq frame ip port Hseq Hpk Hr
              (conj eq_refl (ticked_none _))) as (q & e & tx & ack & Ed & Hau & [He Htk]).
  assert (Hb : b_steps e = b_steps (w_env w)) by exact (f_equal (λ x, x.1.1) He).
  assert (Hw : w' = (opcd_apply_pending_ip_change (mk_world (closed q (armed s)) e (w_tx w ++ tx ++ [mk_datagram ip port ack]))).2).
  { unfold w', loop_turn. cbn [on_events on_event]. unfold OPCD_INGRESS_BATCH_MAX. cbn [udp_batch]. unfold mbind, M_bind. by rewrite Ed. }
  pose proof (ip_change_run (λ tr, hw_answer k (b_base e) (b_steps e ++ tr)) (hw_device k (b_base e) (b_steps e)) slot iface
                (ip_change_list_no s) Hu) as Hrun.
  pose proof (apply_run (closed q (armed s)) e (w_tx w ++ tx ++ [mk_datagram ip port ack]) eq_refl eq_refl) as Hap. cbv zeta in Hap.
  change (ip_change_armed_entry (closed q (armed s))) with slot in Hap. change (ip_change_armed_no (closed q (armed s))) with (ip_change_list_no s) in Hap.
  change (mgmt_ip_iface_idx (closed q (armed s))) with iface in Hap. unfold now in Hap. change (conf (closed q (armed s))) with (conf s) in Hap.
  change (ip_list (closed q (armed s))) with (ip_list s) in Hap. rewrite Hb in Hap, Hrun.
  destruct (nxp_apply_ip_change _ _ _ _ _ _) as [ret tr] eqn:Et.
  destruct Hap as (s' & b' & peer & E1 & E2 & H1 & H2 & H3 & H4 & H5). rewrite E1 in Hw. rewrite Hw. cbn [snd w_st w_env w_tx].
  exists (b_base e), tx, ack, ret, tr, peer. cbv zeta. split_and!; try done.
  unfold change_run. destruct Hrun as [[-> [[? ?]|[? [? ?]]]]|(j & net & ssid & ? & ? & ? & ? & ?)];
    [left; split; [done|by left]|left; split; [done|by right]|].
  right. exists j, net, ssid. by do 2 (split; [done|]).
Qed.
End AddressChange.

(** ** A board for the witnesses *)

(** Every call succeeds, no file can be read; the clock of SimEnv.v. *)
Definition example_hw : hw Z :=
  mk_hw Z (λ _ _, PlatformRead.PlatformRead.mk_device (λ _, inl 2) (Some 2)) (λ _ _, 0) (λ _, inl 2)
    (λ _ _, (EssidMarker.EssidMarker.io_ok, EssidMarker.EssidMarker.mk_files None None)) (λ _, ([], false))
    (λ _, (PlatformRun.PlatformRun.mk_run 0 0 [] [], false)) (λ _ _, None)
    (λ _, Snapshot.Snapshot.mk_snap_io None None None None None None None).
Definition example_board : board Z :=
  mk_board 10 [] (PlatformRead.PlatformRead.nxp_fw_version_init None) (Snapshot.Snapshot.mk_snap None None false 0) sim_inventory.
Definition example_logout : list Z := default [] (opc_logout_req_pack OPC_FRAME_MAX 9).
Definition example_turn : world (board Z) :=
  (loop_turn (H := board_env example_hw) [EvUdp [Rx _ (mk_datagram demo_client 5000 example_logout)]] (mk_world demo_change example_board [])).2.
Lemma logout_changes_address_witness :
  ready_to_commit (H := board_env example_hw) (mk_world demo_change example_board []) demo_client ∧
  logged_in (w_st example_turn) = false ∧
  ∃ net, b_steps (w_env example_turn) = RunSh (addr_cmd (str "192.168.1.10") (str "24") (str "eth0")) :: net.
Proof.
  assert (Hr : ready_to_commit (H := board_env example_hw) (mk_world demo_change example_board []) demo_client)
    by (vm_compute; repeat split; done).
  split; [exact Hr|].
  destruct (logout_changes_address example_hw (mk_world demo_change example_board []) 9 example_logout demo_client 5000 []
              ltac:(done) ltac:(vm_compute; reflexivity) Hr ltac:(vm_compute; repeat split; done))
    as (e1 & tx & ack & ret & tr & peer & _ & _ & _ & Ht & _ & Hb & _ & _ & Hl & _).
  fold example_turn in *.
  split; [exact Hl|]. exists (tail (b_steps (w_env example_turn))). vm_compute. reflexivity.
Defined.
End Board.
