(* ===== verification/LinkFiles.v ===== *)
(** * What the device's files say, and that the readers of opcd/platform_nxp.c report it

    A declarative reading of the texts the platform's queries look into: a key with its
    string value anywhere in a document, a key in a named section, a line that sets the NTP
    server, the assignment of the SSID. The lemmas say that the extractors of json_util.c
    and the readers built on them give the value so read, from the file and under the key
    named here. *)
From S2P Require Import Prelude CText Codec ScanList Commands IpListText State JsonText JsonUtil Roam DeviceFiles EssidMarker PlatformRead.
From stdpp Require Import base list numbers option tactics strings.
From Stdlib Require Import ZArith Lia.
#[local] Open Scope Z_scope.
Import IpListText JsonText JsonUtil DeviceFiles PlatformRead.

Module LinkFiles.

(** ** Keys and values in a text *)

Definition quoted_key (key : string) : list Z := 34 :: str key ++ [34].
Definition ends_key (c : Z) : Prop := c = 58 ∨ jws c = true.
(** The first place where the quoted key stands before a colon or white space. *)
Definition first_key (json : list Z) (key : string) (pre rest : list Z) : Prop :=
  json = pre ++ quoted_key key ++ rest ∧ match rest with c :: _ => ends_key c | [] => False end ∧
  ∀ a c b, json = a ++ quoted_key key ++ c :: b → ends_key c → (length pre <= length a)%nat.
Definition no_key (json : list Z) (key : string) : Prop := ∀ a c b, json = a ++ quoted_key key ++ c :: b → ¬ ends_key c.
(** A colon and a string value follow. *)
Definition value_follows (rest v : list Z) : Prop :=
  ∃ w2 w3 post, rest = w2 ++ 58 :: w3 ++ 34 :: v ++ 34 :: post ∧ is_ws w2 = true ∧ is_ws w3 = true ∧ no_quote v = true.
Definition says (json : list Z) (key : string) (v : list Z) : Prop := ∃ pre rest, first_key json key pre rest ∧ value_follows rest v.

Lemma key_end_iff c : key_end c = true ↔ ends_key c.
Proof. unfold key_end, ends_key. rewrite orb_true_iff, Z.eqb_eq. done. Qed.
Lemma starts_quoted_key key s : starts (quoted_key key) s && key_end (rd s (len (quoted_key key))) = true →
  ∃ c b, s = quoted_key key ++ c :: b ∧ ends_key c.
Proof.
  intros [Hs Hk]%andb_true_iff. apply starts_inv in Hs as [r ->]. rewrite rd_app_r, Z.sub_diag in Hk by lia.
  destruct r as [|c r]; [done|]. change (rd (c :: r) 0) with c in Hk. exists c, r. split; [done|by apply key_end_iff].
Qed.
Lemma find_key_first key pre : ∀ json rest, first_key json key pre rest → find_key_quote json (quoted_key key) = Some (quoted_key key ++ rest).
Proof.
  induction pre as [|x pre IH]; intros json rest (-> & Hr & Hfirst).
  - cbn [app]. destruct rest as [|c rest]; [done|]. set (needle := quoted_key key). destruct (needle ++ c :: rest) as [|y q] eqn:E; [done|].
    cbn [find_key_quote]. rewrite <- E, starts_app, rd_app_r, Z.sub_diag by lia. change (rd (c :: rest) 0) with c. by rewrite (proj2 (key_end_iff c) Hr).
  - cbn [app find_key_quote]. destruct (starts _ _ && _) eqn:E.
    + apply starts_quoted_key in E as (c & b & Hs & Hc). specialize (Hfirst [] c b Hs Hc). cbn in Hfirst. lia.
    + apply IH. split_and!; [done|done|]. intros a c b Ha Hc. specialize (Hfirst (x :: a) c b (f_equal (cons x) Ha) Hc). cbn in Hfirst. lia.
Qed.
Lemma find_key_none key json : no_key json key → find_key_quote json (quoted_key key) = None.
Proof.
  induction json as [|x json IH]; intros Hn; [done|]. cbn [find_key_quote]. destruct (starts _ _ && _) eqn:E.
  - apply starts_quoted_key in E as (c & b & Hs & Hc). by destruct (Hn [] c b Hs).
  - apply IH. intros a c b Ha. exact (Hn (x :: a) c b (f_equal (cons x) Ha)).
Qed.
Lemma advance_value rest v cap : value_follows rest v → 0 < cap →
  ∃ p, advance_to_value rest = Some p ∧ copy_quoted_value p cap = Some (take (Z.to_nat (cap - 1)) v).
Proof.
  intros (w2 & w3 & post & -> & H2 & H3 & Hv) Hc. unfold advance_to_value.
  assert (Hs : ∀ q, is_ws w2 = true → strchr (w2 ++ 58 :: q) 58 = Some (58 :: q)).
  { intros q. clear. unfold is_ws. induction w2 as [|c w2 IH]; [done|]. cbn [forallb app strchr].
    intros [Hc Hw]%andb_true_iff. apply jws_plain in Hc as (_ & _ & _ & _ & _ & Hc). rewrite (proj2 (Z.eqb_neq c 58) Hc). auto. }
  rewrite Hs by done. cbn [mbind option_bind]. change (drop 1 (58 :: ?q)) with q. eexists. split; [done|].
  rewrite skip_ws by done. rewrite skip_nows by done. cbn [copy_quoted_value]. change (34 =? 34) with true. cbv iota.
  rewrite copy_chars_take by done. by rewrite Z.sub_0_r.
Qed.
(** The whole-document extractor. *)
Lemma json_string_says json key v cap : says json key v → len (quoted_key key) < 64 → 0 < cap →
  opc_json_string json key cap = Got (take (Z.to_nat (cap - 1)) v).
Proof.
  intros (pre & rest & Hf & Hv) Hn Hc. unfold opc_json_string, needle_of. rewrite (proj2 (Z.eqb_neq cap 0)) by lia.
  fold (quoted_key key). rewrite (proj2 (Z.leb_gt 64 _) Hn), (find_key_first key pre json rest Hf), drop_app_length.
  destruct (advance_value rest v cap Hv Hc) as (p & -> & ->). done.
Qed.
Lemma json_string_silent json key cap : no_key json key → len (quoted_key key) < 64 → 0 < cap → opc_json_string json key cap = Failed (- ENOENT).
Proof.
  intros Hn Hl Hc. unfold opc_json_string, needle_of. rewrite (proj2 (Z.eqb_neq cap 0)) by lia.
  fold (quoted_key key). by rewrite (proj2 (Z.leb_gt 64 _) Hl), find_key_none.
Qed.

(** ** Keys in a section *)

(** The text of a section, after its opening brace. *)
Definition section_text (json : list Z) (section : string) (body : list Z) : Prop :=
  ∃ pre gap, first_key json section pre (gap ++ 123 :: body) ∧ Forall (λ c, c ≠ 123) gap.
(** What stands before the key: no brace, and strings other than the key. *)
Inductive before_key (key : string) : list Z → Prop :=
  | before_nil : before_key key []
  | before_char c s : c ≠ 34 → c ≠ 123 → c ≠ 125 → before_key key s → before_key key (c :: s)
  | before_string t s : plain t = true → t ≠ str key → before_key key s → before_key key (34 :: t ++ 34 :: s).
Definition section_says (json : list Z) (section key : string) (v : list Z) : Prop :=
  ∃ body before rest, section_text json section body ∧ body = before ++ quoted_key key ++ rest ∧ before_key key before ∧ value_follows rest v.

Lemma strchr_skip w q c : Forall (λ x, x ≠ c) w → strchr (w ++ c :: q) c = Some (c :: q).
Proof.
  induction 1 as [|x w Hx _ IH]; cbn [app strchr]; [by rewrite Z.eqb_refl|]. by rewrite (proj2 (Z.eqb_neq x c) Hx).
Qed.
Lemma skip_chars_plain t r : plain t = true → skip_json_chars (t ++ 34 :: r) = r.
Proof.
  unfold plain. induction t as [|c t IH]; [done|]. cbn [forallb app skip_json_chars]. intros [[H1 H2]%andb_true_iff Ht]%andb_true_iff.
  apply negb_true_iff in H1, H2. rewrite H1, H2. by apply IH.
Qed.
Lemma section_loop_before key before r : no_quote (str key) = true → before_key key before →
  ∀ fuel, (length (before ++ r) <= fuel)%nat → ∃ fuel', (length r <= fuel')%nat ∧
  section_loop fuel (quoted_key key) 1 (before ++ r) = section_loop fuel' (quoted_key key) 1 r.
Proof.
  intros Hk. induction 1 as [|c s H1 H2 H3 _ IH|t s Ht Hne _ IH]; intros fuel Hf.
  - by exists fuel.
  - destruct fuel as [|fuel]; [cbn in Hf; lia|]. destruct (IH fuel ltac:(cbn in Hf; lia)) as (fuel' & Hl & E). exists fuel'. split; [done|].
    cbn [app section_loop]. change (1 <=? 0) with false. unfold quoted_key at 1. cbn [starts]. rewrite (proj2 (Z.eqb_neq 34 c)) by lia. cbn [andb].
    by rewrite (proj2 (Z.eqb_neq c 34) H1), (proj2 (Z.eqb_neq c 123) H2), (proj2 (Z.eqb_neq c 125) H3).
  - destruct fuel as [|fuel]; [cbn in Hf; lia|].
    destruct (IH fuel) as (fuel' & Hl & E). { cbn [app length] in Hf. rewrite !length_app in *. cbn [length] in Hf. lia. }
    exists fuel'. split; [done|]. replace ((34 :: t ++ 34 :: s) ++ r) with (34 :: t ++ 34 :: (s ++ r)) by (cbn; by rewrite <- app_assoc).
    cbn [section_loop]. change (1 <=? 0) with false. unfold quoted_key at 1. cbn [starts]. change (34 =? 34) with true. cbn [andb].
    rewrite starts_quoted, bool_decide_false by (done || by apply plain_no_quote). cbn [andb].
    cbn [skip_json_string]. change (34 =? 34) with true. cbv iota. by rewrite skip_chars_plain.
Qed.
Lemma json_section_says json section key v cap : section_says json section key v →
  no_quote (str key) = true → Forall (λ c, c ≠ 123) (quoted_key section) →
  len (quoted_key section) < 64 → len (quoted_key key) < 64 → 0 < cap →
  opc_json_string_section json section key cap = Got (take (Z.to_nat (cap - 1)) v).
Proof.
  intros (body & before & rest & (pre & gap & Hf & Hg) & -> & Hb & Hv) Hq Hs Hls Hlk Hc.
  unfold opc_json_string_section. rewrite (proj2 (Z.eqb_neq cap 0)) by lia. unfold find_section_body, needle_of.
  fold (quoted_key section) (quoted_key key). rewrite (proj2 (Z.leb_gt 64 _) Hls), (proj2 (Z.leb_gt 64 _) Hlk). cbn [mbind option_bind].
  rewrite (find_key_first section pre json _ Hf). cbn [mbind option_bind]. rewrite app_assoc, strchr_skip by (by apply Forall_app_2). cbn [mbind option_bind].
  change (drop 1 (123 :: ?q)) with q.
  destruct (section_loop_before key before (quoted_key key ++ rest) Hq Hb (length (before ++ quoted_key key ++ rest)) ltac:(lia)) as (fuel & Hfu & ->).
  assert (He : ∃ c q, rest = c :: q ∧ key_end c = true).
  { destruct Hv as (w2 & w3 & post & -> & H2 & _). destruct w2 as [|c w2]; [by do 2 eexists|]. cbn in H2. apply andb_true_iff in H2 as [H2 _].
    exists c. eexists. split; [done|]. unfold key_end. by rewrite H2, orb_true_r. }
  destruct He as (c & q & -> & He). destruct fuel as [|fuel]; [cbn in Hfu; lia|].
  assert (Hl : section_loop (S fuel) (quoted_key key) 1 (quoted_key key ++ c :: q) = Some (advance_to_value (c :: q))).
  { destruct (quoted_key key ++ c :: q) as [|y z] eqn:E; [done|]. cbn [section_loop]. change (1 <=? 0) with false. rewrite <- E, starts_app, rd_app_r, Z.sub_diag by lia.
    change (rd (c :: q) 0) with c. rewrite He. cbn [andb]. by rewrite drop_app_length. }
  rewrite Hl. destruct (advance_value (c :: q) v cap Hv Hc) as (p & -> & ->). done.
Qed.

(** ** Texts of values *)

(** A MAC address as the logger writes it. *)
Definition hex_char (n : Z) : Z := if n <? 10 then 48 + n else 87 + n.
Definition hex_pair (b : Z) : list Z := [hex_char (b / 16); hex_char (b mod 16)].
Definition mac_text (m : list Z) : list Z :=
  match m with [a; b; c; d; e; f] => hex_pair a ++ 58 :: hex_pair b ++ 58 :: hex_pair c ++ 58 :: hex_pair d ++ 58 :: hex_pair e ++ 58 :: hex_pair f | _ => [] end.
Definition mac_ok (m : list Z) : Prop := length m = 6%nat ∧ bytes_ok m.
(** A signal level. *)
Definition dbm_text (v : Z) : list Z := 45 :: dec (- v) ++ str " dBm".

Lemma bytes_all (P : Z → Prop) : Forall P (seqZ 0 256) → ∀ b, is_u8 b → P b.
Proof. intros H b Hb. rewrite Forall_forall in H. apply H, elem_of_seqZ. unfold is_u8 in Hb. lia. Qed.
Lemma scan_pair b r : is_u8 b → scan_x (hex_pair b ++ 58 :: r) = Some (b, 58 :: r) ∧ scan_x (hex_pair b) = Some (b, []).
Proof.
  revert b. apply bytes_all. let l := eval vm_compute in (seqZ 0 256) in change (seqZ 0 256) with l. repeat (constructor; [split; reflexivity|]). constructor.
Qed.
Lemma parse_mac_text m : mac_ok m → parse_mac_str (mac_text m) = Some m.
Proof.
  intros [Hl Hb]. destruct m as [|a [|b [|c [|d [|e [|f [|]]]]]]]; try done. unfold bytes_ok in Hb.
  repeat match goal with H : Forall is_u8 (_ :: _) |- _ => apply Forall_cons_1 in H as [? H] end.
  unfold mac_text, parse_mac_str. cbn [scan_hexes].
  repeat (match goal with |- context [scan_x (hex_pair ?x ++ 58 :: ?r)] => rewrite (proj1 (scan_pair x r ltac:(done))) end; cbn [mbind option_bind]; change (58 =? 58) with true; cbv iota).
  rewrite (proj2 (scan_pair f [] ltac:(done))). cbn [mbind option_bind forallb]. unfold is_u8 in *.
  rewrite !(proj2 (Z.leb_le _ 255)) by lia. done.
Qed.
Lemma mac_text_len m : mac_ok m → length (mac_text m) = 17%nat.
Proof. intros [Hl _]. by destruct m as [|a [|b [|c [|d [|e [|f [|]]]]]]]. Qed.
Lemma parse_dbm_text v : -128 <= v < 0 → parse_signed_dbm (dbm_text v) = Some v ∧ (length (dbm_text v) <= 8)%nat.
Proof.
  intros Hv. assert (H : Forall (λ n, parse_signed_dbm (dbm_text (- n)) = Some (- n) ∧ (length (dbm_text (- n)) <= 8)%nat) (seqZ 1 128)).
  { let l := eval vm_compute in (seqZ 1 128) in change (seqZ 1 128) with l. repeat (constructor; [split; [reflexivity|vm_compute; lia]|]). constructor. }
  rewrite Forall_forall in H. specialize (H (- v) ltac:(apply elem_of_seqZ; lia)). by rewrite Z.opp_involutive in H.
Qed.

(** ** The readers *)

Definition link_json (name : string) : string := "/var/log/cantops/json/" +:+ name +:+ "/link.json".
(** mlan0 can be queried: mlan1 is there, or it is not. *)
Definition wlan_known (d : device) : Prop := access_mlan1 d = None ∨ access_mlan1 d = Some ENOENT.
Lemma wlan_known_0 d : wlan_known d → no_wlan d 0 = false.
Proof. unfold no_wlan, nxp_get_wlan_count. by intros [-> | ->]. Qed.

(** An address under a key: the one whose dotted text is the value; 0 without the key. *)
Definition address_said (json : list Z) (key : string) (a : Z) : Prop :=
  (∀ ip, is_u32 ip → says json key (ipv4_str ip) → a = ip) ∧ (no_key json key → a = 0).
Lemma json_ipv4_said json key : len (quoted_key key) < 64 → address_said json key (nxp_json_ipv4 json key).
Proof.
  intros Hk. unfold nxp_json_ipv4. split.
  - intros ip Hip Hs. rewrite (json_string_says json key (ipv4_str ip) 32 Hs Hk ltac:(done)). pose proof (ipv4_str_len ip Hip).
    rewrite take_ge by (unfold len in *; lia). by rewrite parse_ipv4_str.
  - intros Hn. by rewrite json_string_silent.
Qed.
(** The three addresses of an interface, from its own file. *)
Definition addresses_said (d : device) (name : string) (ip mask gw : Z) : Prop :=
  (∀ json, slurp d (link_json name) = inr json →
     address_said json "ip_address" ip ∧ address_said json "netmask" mask ∧ address_said json "gateway" gw) ∧
  (∀ e, slurp d (link_json name) = inl e → (ip, mask, gw) = (0, 0, 0)).
Lemma dev_ipv4_said d iface : let '(_, (ip, mask, gw)) := nxp_get_dev_ipv4 d iface in
  addresses_said d (if iface =? 1 then "mlan0" else "eth0") ip mask gw.
Proof.
  unfold nxp_get_dev_ipv4, addresses_said.
  assert (Hp : (if iface =? 1 then MLAN0_LINK_JSON else ETH0_LINK_JSON) = link_json (if iface =? 1 then "mlan0" else "eth0")) by (by destruct (iface =? 1)).
  rewrite Hp. destruct (slurp d _) as [e|json]; split; try done.
  intros json' [= <-]. split_and!; by apply json_ipv4_said.
Qed.
(** The MAC address of the Ethernet port. *)
Definition eth_mac_said (d : device) (mac : list Z) : Prop :=
  (∀ json m, slurp d (link_json "eth0") = inr json → mac_ok m → says json "mac_address" (mac_text m) → mac = m) ∧
  (∀ json, slurp d (link_json "eth0") = inr json → no_key json "mac_address" → mac = zeros 6) ∧
  (∀ e, slurp d (link_json "eth0") = inl e → mac = zeros 6).
Lemma eth_mac_reader d : eth_mac_said d (default (zeros 6) (nxp_get_eth_mac d).2).
Proof.
  unfold nxp_get_eth_mac, eth_mac_said. change ETH0_LINK_JSON with (link_json "eth0"). destruct (slurp d (link_json "eth0")) as [e|json]; split_and!; try done.
  - intros json' m [= <-] Hm Hs. rewrite (json_string_says _ _ _ 32 Hs) by done. pose proof (mac_text_len m Hm).
    rewrite take_ge by lia. cbn [mac_field]. by rewrite parse_mac_text.
  - intros json' [= <-] Hn. by rewrite json_string_silent.
Qed.
Lemma section_field_said {A} json section key (parse : list Z → option A) v : section_says json section key v → (length v <= 63)%nat →
  no_quote (str key) = true → Forall (λ c, c ≠ 123) (quoted_key section) → len (quoted_key section) < 64 → len (quoted_key key) < 64 →
  section_field json section key parse = parse v.
Proof.
  intros Hs Hl H1 H2 H3 H4. unfold section_field. rewrite (json_section_says _ _ _ _ 64 Hs) by done. by rewrite take_ge by lia.
Qed.
Ltac plain_section := first [done|by repeat constructor].
(** The MAC address of a WLAN interface, and the state of its link. *)
Lemma wlan_mac_said d json m : wlan_known d → slurp d (link_json "mlan0") = inr json → mac_ok m →
  section_says json "info" "address" (mac_text m) → default (zeros 6) (nxp_get_wlan_mac d 0).2 = m.
Proof.
  intros Hw Hf Hm Hs. unfold nxp_get_wlan_mac. rewrite wlan_known_0 by done. change (link_path 0) with (link_json "mlan0"). rewrite Hf.
  pose proof (mac_text_len m Hm). rewrite (json_section_says _ _ _ _ 32 Hs) by plain_section. rewrite take_ge by lia.
  cbn [mac_field]. by rewrite parse_mac_text.
Qed.
Lemma link_said d json ap : wlan_known d → slurp d (link_json "mlan0") = inr json → mac_ok ap →
  section_says json "link" "address" (mac_text ap) → ∃ l, nxp_get_link d 0 link_zero = (0, l) ∧ l_associated l = true ∧ l_bssid l = ap ∧
  ∀ v, -128 <= v < 0 → section_says json "link" "signal_avg" (dbm_text v) → l_rssi_valid l = true ∧ l_rssi l = v.
Proof.
  intros Hw Hf Hm Hs. unfold nxp_get_link. rewrite wlan_known_0 by done. change (link_path 0) with (link_json "mlan0"). rewrite Hf.
  exists (link_of json). split; [done|]. unfold link_of. cbv zeta. cbn [l_associated l_bssid l_rssi_valid l_rssi]. pose proof (mac_text_len ap Hm).
  rewrite (section_field_said json "link" "address" parse_mac_str _ Hs), parse_mac_text by first [done|lia|plain_section]. split; [done|]. split; [done|].
  intros v Hv Hd. destruct (parse_dbm_text v Hv) as [Hp Hl].
  rewrite (section_field_said json "link" "signal_avg" parse_signed_dbm _ Hd), Hp by first [done|lia|plain_section]. done.
Qed.
(** Without a section "link" nothing is associated. *)
Lemma link_silent json : no_key json "link" → l_associated (link_of json) = false.
Proof.
  intros Hn. unfold link_of. cbv zeta. cbn [l_associated]. unfold section_field, opc_json_string_section, find_section_body, needle_of.
  fold (quoted_key "link"). change (64 <=? len (quoted_key "link")) with false. cbn [mbind option_bind]. by rewrite find_key_none.
Qed.
(** What the file of the WLAN interface says of the interface and of its link, in the fields
    of its state; the values that say there is no link otherwise. *)
Definition no_link (r : opc_wlan_radio_state_t) : Prop :=
  (rs_status r, rs_connect_ap_mac r, rs_snr r, rs_rssi r) = (0, zeros 6, OPC_WLAN_SIGNAL_INVALID, OPC_WLAN_SIGNAL_INVALID).
Definition wlan_said (d : device) (r : opc_wlan_radio_state_t) : Prop :=
  (∀ json, slurp d (link_json "mlan0") = inr json →
     (∀ m, mac_ok m → section_says json "info" "address" (mac_text m) → rs_mac r = m) ∧
     (∀ ap, mac_ok ap → section_says json "link" "address" (mac_text ap) →
        rs_status r = 1 ∧ rs_connect_ap_mac r = ap ∧
        ∀ v, -128 <= v < 0 → section_says json "link" "signal_avg" (dbm_text v) → rs_rssi r = v) ∧
     (no_key json "link" → no_link r)) ∧
  (∀ e, e ≠ 0 → slurp d (link_json "mlan0") = inl e → rs_mac r = zeros 6 ∧ no_link r).

(** ** The NTP server *)

Definition ntp_line (l : list Z) : bool := starts (str "NTP=") (skip is_blank l).
(** The first NTP line of the text names the server first. *)
Definition sets_ntp (body : list Z) (server : Z) : Prop :=
  ∃ ls b l rest, body = text ls ++ (b ++ str "NTP=" ++ l) ++ rest ∧ Forall (λ x, no_lf x ∧ ntp_line x = false) ls ∧
    Forall (λ c, is_blank c = true) b ∧ no_lf l ∧ head (ntp_servers l) = Some server ∧ (rest = [] ∨ ∃ r, rest = 10 :: r).
Lemma ntp_lines_set body server : sets_ntp body server → ∀ fuel, (length body < fuel)%nat → ntp_lines fuel body = Some server.
Proof.
  intros (ls & b & l & rest & -> & Hls & Hb & Hl & Hs & Hr).
  assert (Hn : no_lf (b ++ str "NTP=" ++ l)).
  { apply Forall_app_2; [|apply Forall_app_2; [by repeat constructor|done]]. eapply Forall_impl; [exact Hb|]. intros c Hc ->. done. }
  induction Hls as [|x ls [Hx Hxn] _ IH]; intros fuel Hf; (destruct fuel as [|fuel]; [lia|]).
  - cbn [text flat_map app ntp_lines].
    assert (Hsp : (split_lf ((b ++ str "NTP=" ++ l) ++ rest)).1 = b ++ str "NTP=" ++ l).
    { destruct Hr as [->|[r ->]]; [rewrite app_nil_r; by rewrite split_lf_last|by rewrite split_lf_run]. }
    destruct (split_lf _) as [ln nx]. cbn [fst] in Hsp. subst ln.
    rewrite (proj2 (Z.eqb_neq (len _) 0)) by (rewrite !len_app; pose proof (len_nonneg b); pose proof (len_nonneg l); change (len (str "NTP=")) with 4; lia).
    by rewrite ntp_line_first, Hs.
  - rewrite text_cons, <- !app_assoc in *. cbn [app] in *. rewrite length_app in Hf. cbn [length] in Hf.
    cbn [ntp_lines]. rewrite split_lf_run by done. 
    assert (Hp : (if len x =? 0 then None else opc_ntp_parse_line x) = None).
    { destruct (_ =? 0); [done|]. unfold opc_ntp_parse_line. unfold ntp_line in Hxn. by rewrite Hxn. }
    rewrite Hp. apply IH. lia.
Qed.
(** The runtime drop-in decides; without it the device's own configuration. *)
Definition ntp_said (d : device) (server : Z) : Prop :=
  (∀ body x, slurp d "/run/systemd/timesyncd.conf.d/opc-ntp.conf" = inr body → sets_ntp body x → server = x) ∧
  (∀ e body x, slurp d "/run/systemd/timesyncd.conf.d/opc-ntp.conf" = inl e → e ≠ 0 →
     slurp d "/etc/systemd/timesyncd.conf" = inr body → sets_ntp body x → server = x).
Lemma ntp_reader d : ntp_said d (nxp_get_ntp_server d).2.
Proof.
  unfold nxp_get_ntp_server, ntp_from_file, ntp_said, OPC_NTP_DROPIN, TIMESYNCD_CONF. split.
  - intros body x -> Hs. by rewrite (ntp_lines_set body x Hs) by lia.
  - intros e body x -> He -> Hs. rewrite (proj2 (Z.eqb_neq (- e) 0)) by lia. by rewrite (ntp_lines_set body x Hs) by lia.
Qed.

(** ** The configured ESSID *)

(** A readable configuration of moderate size with one assignment, of the quoted [essid]. *)
Definition conf_asks (i : EssidMarker.EssidMarker.io) (f : EssidMarker.EssidMarker.files) (essid : list Z) : Prop :=
  EssidMarker.EssidMarker.io_read_conf i = None ∧ ∃ head tail,
    let conf := head ++ (34 :: essid ++ [34]) ++ tail in
    EssidMarker.EssidMarker.f_conf f = Some conf ∧ len conf < EssidMarker.EssidMarker.FILE_MAX_BYTES ∧ Forall (λ c, c ≠ 0) conf ∧
    EssidMarker.EssidMarker.conf_shape head tail ∧ no_lf essid.
Lemma wpa_ssid_asked i f essid cap : conf_asks i f essid → len essid < cap → (EssidMarker.EssidMarker.opc_wpa_conf_ssid i cap f).2 = essid.
Proof.
  intros (Hi & head & tail & Hf & Hl & H0 & Hs & Hn) Hc. pose proof (len_nonneg essid). unfold EssidMarker.EssidMarker.opc_wpa_conf_ssid.
  rewrite (proj2 (Z.eqb_neq cap 0)) by lia. unfold EssidMarker.EssidMarker.slurp. rewrite Hi, Hf, (proj2 (Z.leb_gt _ _) Hl).
  rewrite cstr_nul_free by done. rewrite EssidMarker.EssidMarker.find_shape; [|done|].
  2: { split; [constructor; [done|]; apply Forall_app_2; [done|by repeat constructor]|]. by rewrite app_comm_cons, last_snoc. }
  assert (El : len (34 :: essid ++ [34]) = len essid + 2) by (rewrite len_cons, len_app; change (len [34]) with 1; lia).
  assert (Hq : EssidMarker.EssidMarker.quoted (34 :: essid ++ [34]) = true).
  { unfold EssidMarker.EssidMarker.quoted. rewrite El, (proj2 (Z.leb_le 2 _)) by lia. change (rd (34 :: essid ++ [34]) 0) with 34.
    replace (len essid + 2 - 1) with (len (34 :: essid) + 0) by (rewrite len_cons; lia). rewrite app_comm_cons, rd_app_r by (rewrite len_cons; lia).
    replace (len (34 :: essid) + 0 - len (34 :: essid)) with 0 by lia. done. }
  cbv zeta. rewrite Hq, El, (proj2 (Z.ltb_lt _ _)) by lia. cbn [snd]. unfold slice. replace (len essid + 2 - 2) with (len essid) by lia.
  change (drop (Z.to_nat 1) (34 :: essid ++ [34])) with (essid ++ [34]). unfold len. rewrite Nat2Z.id. by rewrite take_app_length.
Qed.
End LinkFiles.
