(* ===== verification/BoardInfo.v ===== *)
(** * What the board reports: GetDeviceInfo from the device's files to the wire

    The handler of handler.c on the board of Board.v: the readers of platform_nxp.c fill the
    acknowledgment, the codec carries it, and the same acknowledgment is published as the
    snapshot. What it must carry is stated with the readings of LinkFiles.v. *)
From S2P Require Import Prelude CText Codec ScanList Commands Indications Messages Store StoreAsync IpListText FaultProbe State Indication Validate RadioConf Persist Handlers IpListLoad Daemon SimEnv Logic Frames Invariant Session JsonText JsonUtil DevinfoCfg Routes Roam DeviceFiles ProcFiles EssidMarker PlatformRead PlatformRun PlatformApply LinkFiles Snapshot Board.
From stdpp Require Import base list numbers option tactics strings.
From Stdlib Require Import ZArith Lia.
#[local] Open Scope Z_scope.
Import Commands ScanList IpListText Validate PlatformRead.PlatformRead Board.Board LinkFiles.LinkFiles.
Import CText.CText (EINVAL).

Module BoardInfo.

(** ** The readers stay within their types *)

Lemma mac_field_len r : len (mac_or_zero (mac_field r)) = 6.
Proof.
  unfold mac_or_zero, mac_field. destruct r as [buf|rc]; [|done]. destruct (parse_mac_str buf) as [m|] eqn:E; [|done].
  apply parse_mac_str_ok in E as [E _]. cbn. unfold len. by rewrite E.
Qed.
Lemma eth_mac_len d : len (mac_or_zero (nxp_get_eth_mac d)) = 6.
Proof. unfold nxp_get_eth_mac. destruct (slurp d _); [done|apply mac_field_len]. Qed.
Lemma wlan_mac_len d idx : len (mac_or_zero (nxp_get_wlan_mac d idx)) = 6.
Proof. unfold nxp_get_wlan_mac. destruct (no_wlan d idx); [done|]. destruct (slurp d _); [done|apply mac_field_len]. Qed.
Lemma json_ipv4_u32 json key : is_u32 (nxp_json_ipv4 json key).
Proof.
  unfold nxp_json_ipv4. destruct (JsonUtil.opc_json_string json key 32) as [buf|]; [|by unfold is_u32].
  destruct (parse_ipv4 buf) as [ip|] eqn:E; [|by unfold is_u32]. by apply IpListLoad.parse_ipv4_u32 in E.
Qed.
Lemma dev_ipv4_u32 d iface : let '(_, (ip, mask, gw)) := nxp_get_dev_ipv4 d iface in is_u32 ip ∧ is_u32 mask ∧ is_u32 gw.
Proof. unfold nxp_get_dev_ipv4. destruct (slurp d _); [by repeat split|]. split_and!; apply json_ipv4_u32. Qed.
Lemma ntp_loop_u32 fuel : ∀ p a, DeviceFiles.ntp_loop fuel p = Some a → is_u32 a.
Proof.
  induction fuel as [|fuel IH]; intros [|c p] a; cbn [DeviceFiles.ntp_loop]; try done. case_match; [done|].
  case_match; [done|]. case_match; [done|]. destruct (span _ _) as [tok r]. case_match; [apply IH|].
  destruct (parse_ipv4 tok) as [x|] eqn:E; [|apply IH]. intros [= <-]. by apply IpListLoad.parse_ipv4_u32 in E.
Qed.
Lemma ntp_lines_u32 fuel : ∀ body a, ntp_lines fuel body = Some a → is_u32 a.
Proof.
  induction fuel as [|fuel IH]; intros body a; cbn [ntp_lines]; [done|]. destruct (split_lf body) as [ln rest].
  destruct (len ln =? 0); [destruct rest; [apply IH|done]|].
  unfold DeviceFiles.opc_ntp_parse_line. destruct (negb _); [destruct rest; [apply IH|done]|].
  destruct (DeviceFiles.ntp_loop _ _) as [x|] eqn:E; [|destruct rest; [apply IH|done]]. intros [= <-]. by eapply ntp_loop_u32.
Qed.
Lemma ntp_u32 d : is_u32 (nxp_get_ntp_server d).2.
Proof.
  assert (Hf : ∀ path, is_u32 (ntp_from_file d path).2).
  { intros path. unfold ntp_from_file. destruct (slurp d path) as [|body]; [by unfold is_u32|].
    destruct (ntp_lines _ body) as [a|] eqn:E; [|by unfold is_u32]. by eapply ntp_lines_u32. }
  unfold nxp_get_ntp_server. pose proof (Hf OPC_NTP_DROPIN). destruct (ntp_from_file d OPC_NTP_DROPIN) as [rc server].
  destruct (rc =? 0); [done|apply Hf].
Qed.
Lemma len_in_field n s : len s <= n → len (in_field n s) = n.
Proof. intros. unfold in_field. rewrite len_app, len_zeros; lia. Qed.
Lemma unhex_len s : ∀ r, EssidMarker.EssidMarker.unhex s = Some r → 2 * len r = len s.
Proof.
  assert (Hn : ∀ n s r, (length s <= n)%nat → EssidMarker.EssidMarker.unhex s = Some r → 2 * len r = len s).
  { clear. induction n as [|n IH]; intros [|h [|l s]] r Hl; cbn [EssidMarker.EssidMarker.unhex]; try (intros [= <-]; done); try done; [cbn in Hl; lia..|].
    destruct (_ || _ || _); [done|]. intros (t & Ht & [= <-])%bind_Some. apply IH in Ht; [|cbn in Hl; lia]. rewrite !len_cons. lia. }
  intros r. by apply (Hn (length s)).
Qed.
Lemma wpa_ssid_len i cap f : 0 < cap → len (EssidMarker.EssidMarker.opc_wpa_conf_ssid i cap f).2 < cap.
Proof.
  intros Hc. unfold EssidMarker.EssidMarker.opc_wpa_conf_ssid. rewrite (proj2 (Z.eqb_neq cap 0)) by lia.
  destruct (EssidMarker.EssidMarker.slurp _ _) as [e|conf]; [done|]. cbv zeta.
  match goal with |- context [EssidMarker.EssidMarker.quoted ?x] => generalize x end. intros v.
  destruct (EssidMarker.EssidMarker.quoted v).
  - destruct (Z.ltb_spec (len v - 2) cap); [|done]. cbn. unfold len, slice in *. rewrite length_take, length_drop. lia.
  - destruct (_ && _) eqn:Eb; [|done]. guards. cbn. destruct (EssidMarker.EssidMarker.unhex v) as [r|] eqn:E; cbn; [|done].
    apply unhex_len in E. assert (len v / 2 = len r) by (rewrite <- E, Z.mul_comm; by apply Z.div_mul). lia.
Qed.

(** ** One WLAN *)

(** The link as the handler sees it. *)
Definition link_now (d : device) (idx : Z) : option opcd_platform_link_t :=
  let '(rc, l) := nxp_get_link d idx link_zero in if rc =? 0 then Some l else None.
Lemma link_now_ok d idx l : link_now d idx = Some l → link_ok l.
Proof.
  unfold link_now. pose proof (nxp_get_link_ok d idx) as H. destruct (nxp_get_link d idx link_zero) as [rc l'].
  destruct (rc =? 0); [|done]. intros [= <-]. apply H.
Qed.
(** The link_measured fields of a WLAN: those of an associated link, else the values that say
    there is none. *)
Definition link_measured (d : device) (idx : Z) (r : opc_wlan_radio_state_t) : Prop :=
  rs_mac r = mac_or_zero (nxp_get_wlan_mac d idx) ∧
  match link_now d idx with
  | Some l =>
      if l_associated l
      then rs_status r = 1 ∧ rs_connect_ap_mac r = l_bssid l ∧
           rs_snr r = (if l_snr_valid l then l_snr l else OPC_WLAN_SIGNAL_INVALID) ∧
           rs_rssi r = (if l_rssi_valid l then l_rssi l else OPC_WLAN_SIGNAL_INVALID)
      else (rs_status r, rs_connect_ap_mac r, rs_snr r, rs_rssi r) = (0, zeros 6, OPC_WLAN_SIGNAL_INVALID, OPC_WLAN_SIGNAL_INVALID)
  | None => (rs_status r, rs_connect_ap_mac r, rs_snr r, rs_rssi r) = (0, zeros 6, OPC_WLAN_SIGNAL_INVALID, OPC_WLAN_SIGNAL_INVALID)
  end.
(** The fields the configuration and the link decide together are filled in later. *)
Definition part_ok (r : opc_wlan_radio_state_t) : Prop :=
  len (rs_mac r) = 6 ∧ is_u16 (rs_status r) ∧ is_i8 (rs_snr r) ∧ is_i8 (rs_rssi r) ∧ len (rs_connect_ap_mac r) = 6.
Lemma wlan_link_run d idx :
  let '(r, _, f, c) := devinfo_wlan_link (devinfo_wlan_unassociated (radio_state_zero <| rs_mac := mac_or_zero (nxp_get_wlan_mac d idx) |>)) (link_now d idx) in
  link_measured d idx r ∧ part_ok r ∧ is_u16 f ∧ is_u16 c.
Proof.
  pose proof (wlan_mac_len d idx) as Hm. set (mac := mac_or_zero _) in *.
  unfold devinfo_wlan_link, link_measured. fold mac. destruct (link_now d idx) as [l|] eqn:El.
  2: { split; [done|]. split; [|done]. split_and!; try exact Hm; done. }
  apply link_now_ok in El as [Hf Hc [Hb _] Hr Hs _ _ _ _ _].
  destruct (l_associated l); [|split; [done|]; split; [|done]; split_and!; try exact Hm; done].
  cbv zeta. assert (Hb' : len (l_bssid l) = 6) by (unfold len; by rewrite Hb).
  destruct (l_snr_valid l), (l_rssi_valid l); (split; [done|]; split; [|done]; split_and!; try exact Hm; try exact Hb'; try exact Hs; try exact Hr; done).
Qed.
Lemma derive_u16 band l : let '(f, c) := opc_scan_derive_freq_ch band l in is_u16 f ∧ is_u16 c.
Proof.
  unfold opc_scan_derive_freq_ch. destruct (_ || _); [done|]. destruct (opc_scan_list_channels band l 1) as [[] out]; try done.
  all: cbv zeta; destruct (_ =? 0); [done|]; split; [|apply u16_range];
    unfold opc_scan_channel_mhz; destruct (opc_scan_bit_for_channel _ _); [|done];
    repeat match goal with |- context [if ?b then _ else _] => destruct b end; try done; apply u16_range.
Qed.
Lemma chan_field_u16 f c : is_u16 (opc_chan_field f c).
Proof. unfold opc_chan_field. destruct (_ || _); [done|]. apply u16_range. Qed.
Lemma select_u16 src a lf lc cf cc : is_u16 lf → is_u16 cf → is_u16 cc →
  let '(f, c) := select_devinfo_freq_ch src a lf lc cf cc in is_u16 f ∧ is_u16 c.
Proof.
  intros. unfold select_devinfo_freq_ch. cbv zeta. destruct (_ && _); [split; [done|]; destruct (negb _); [apply chan_field_u16|done]|].
  destruct (_ || _); done.
Qed.

(** The dispatch of a request while a session is alive. *)
Lemma dispatch_alive `{Env E} f i p c (w : world E) hdr body fn :
  opc_frame_parse f = Some (hdr, body) → command_type hdr = OPC_CMD_REQUEST → lookup_handler (req_indication_id hdr) = Some fn →
  logged_in (w_st w) = true → (env_mono (w_env w)).1 < idle_deadline (w_st w) →
  opcd_dispatch f i p c w = let '(resp, w') := fn f i p c (sequence_number hdr) (mk_world (w_st w) (env_mono (w_env w)).2 (w_tx w)) in ((0, resp), w').
Proof.
  intros Hp Ht Hf Hl Hd. unfold opcd_dispatch. rewrite Hp, Ht, Z.eqb_refl, Hf. cbn [negb]. unfold mbind, M_bind, get, mono_now, call.
  rewrite Hl. destruct (env_mono (w_env w)) as [t e]. cbn [fst snd] in *. rewrite (proj2 (Z.leb_gt (idle_deadline (w_st w)) t)) by lia. done.
Qed.

Section Info.
Context {B : Type} `{Env B} (k : hw B).
#[local] Instance info_board : Env (board B) := board_env k.

Definition cfg_ok (c : opc_wlan_radio_cfg_t) : Prop := is_u16 (rc_scan_band c) ∧ len (rc_scan_chlist c) = 8.
Definition keeps_link (r r' : opc_wlan_radio_state_t) : Prop :=
  (rs_mac r', rs_status r', rs_connect_ap_mac r', rs_snr r', rs_rssi r') = (rs_mac r, rs_status r, rs_connect_ap_mac r, rs_snr r, rs_rssi r).
Lemma link_measured_keeps d idx r r' : keeps_link r r' → link_measured d idx r → link_measured d idx r'.
Proof. unfold keeps_link, link_measured. intros [= -> -> -> -> ->]. done. Qed.
Lemma fill_run cfg iface r a f c (w : world (board B)) : cfg_ok cfg → part_ok r → is_u16 f →
  ∃ r', devinfo_wlan_fill cfg iface r a f c w = (r', w) ∧ keeps_link r r' ∧ radio_state_ok r'.
Proof.
  intros [Hb Hl] (H1 & H2 & H3 & H4 & H5) Hf. destruct w as [s b tx].
  unfold devinfo_wlan_fill, mbind, M_bind, get. cbn [w_st]. cbv zeta.
  set (r1 := (r <| rs_scan_band := _ |>) <| rs_scan_chlist := _ |>).
  assert (Hb' : is_u16 (opc_scan_band_or_unset (rc_scan_band cfg))) by (unfold opc_scan_band_or_unset; by destruct (_ =? 0)).
  pose proof (derive_u16 (rs_scan_band r1) (rs_scan_chlist r1)) as Hd. destruct (opc_scan_derive_freq_ch _ _) as [cf cc].
  destruct Hd as [Hd1 Hd2]. pose proof (select_u16 (device_info_freq_source (conf s)) a f c cf cc Hf Hd1 Hd2) as Hsel.
  destruct (select_devinfo_freq_ch _ _ _ _ _ _) as [freq ch]. destruct Hsel as [Hs1 Hs2].
  unfold devinfo_wlan_cfg. destruct (_ && _).
  - eexists. split; [reflexivity|]. split; [done|]. split_and!; done.
  - unfold mbind, M_bind, call. cbn [w_env opcd_devinfo_cfg_read info_board board_env].
    destruct (DevinfoCfg.DevinfoCfg.opcd_devinfo_cfg_read _ _) as [mode bw]. eexists. split; [reflexivity|]. split; [done|]. split_and!; done.
Qed.

(** The identity loaded at start and the settings of the state are within their types. *)
Definition inventory_ok (i : opcd_inventory_t) : Prop :=
  is_u32 (inv_vendor_code i) ∧ is_u16 (inv_product_code i) ∧ is_u16 (inv_product_subcode i) ∧ date_ok (inv_manufacture_date i) ∧
  date_ok (inv_shipment_date i) ∧ len (inv_hardware_version i) = 32 ∧ len (inv_serial_number i) = 32.
Definition settings_ok (s : opcd_state_t) : Prop :=
  is_u32 (boot_status s) ∧ is_u16 (effective_station_type s) ∧ is_u16 (priority_ch (radio s)) ∧
  cfg_ok (wlan1 (radio s)) ∧ cfg_ok (wlan2 (radio s)).

(** What the readers gave, in the acknowledgment. *)
Record readback (b : board B) (iface : Z) (ack : opc_get_device_info_ack_t) : Prop := mk_readback {
  rb_inventory : let i := b_inv b in
    (di_vendor_code ack, di_product_code ack, di_product_subcode ack, di_manufacture ack, di_shipment ack) =
      (inv_vendor_code i, inv_product_code i, inv_product_subcode i, inv_manufacture_date i, inv_shipment_date i) ∧
    di_hardware_version ack = inv_hardware_version i ∧ di_serial_number ack = inv_serial_number i;
  rb_ip : (di_ip_address ack, di_subnet_mask ack, di_default_gateway ack) = (nxp_get_dev_ipv4 (now k b) iface).2;
  rb_eth : di_ethernet_mac ack = mac_or_zero (nxp_get_eth_mac (now k b));
  rb_ntp : di_ntp_server ack = (nxp_get_ntp_server (now k b)).2;
  rb_fw : di_firmware_version ack = in_field OPC_VERSION_FIELD_LEN (nxp_get_firmware_version (b_fw b) OPC_VERSION_FIELD_LEN);
  rb_essid : di_essid ack = in_field OPC_ESSID_FIELD_LEN (nxp_get_essid k b 0);
  rb_wlan1 : link_measured (now k b) 0 (di_wlan1 ack) }.
(** What the device says, in the acknowledgment: the inventory of the start, and the contents
    of its files as LinkFiles.v reads them, with no reference to the readers. *)
Record reported (b : board B) (iface : Z) (ack : opc_get_device_info_ack_t) : Prop := mk_reported {
  rp_inventory : let i := b_inv b in
    (di_vendor_code ack, di_product_code ack, di_product_subcode ack, di_manufacture ack, di_shipment ack) =
      (inv_vendor_code i, inv_product_code i, inv_product_subcode i, inv_manufacture_date i, inv_shipment_date i) ∧
    di_hardware_version ack = inv_hardware_version i ∧ di_serial_number ack = inv_serial_number i;
  rp_ip : addresses_said (now k b) (if iface =? 1 then "mlan0" else "eth0") (di_ip_address ack) (di_subnet_mask ack) (di_default_gateway ack);
  rp_eth : eth_mac_said (now k b) (di_ethernet_mac ack);
  rp_ntp : ntp_said (now k b) (di_ntp_server ack);
  rp_fw : let v := take 31 (cstr (g_fw_cache (b_fw b))) in di_firmware_version ack = v ++ zeros (32 - len v);
  rp_essid : ∀ essid, wlan_known (now k b) → len essid < 32 → conf_asks (hw_wpa k (b_base b) 0).1 (hw_wpa k (b_base b) 0).2 essid →
    di_essid ack = essid ++ zeros (32 - len essid);
  rp_wlan1 : wlan_known (now k b) → wlan_said (now k b) (di_wlan1 ack) }.
Lemma wlan_measured_said d r : wlan_known d → link_measured d 0 r → wlan_said d r.
Proof.
  intros Hw [Hm Hl]. unfold mac_or_zero in Hm. split.
  - intros json Hj. split; [|split].
    + intros m Hok Hs. rewrite Hm. by apply (wlan_mac_said d json).
    + intros ap Hok Hs. destruct (link_said d json ap Hw Hj Hok Hs) as (l & El & Ea & Eb & Ev). unfold link_now in Hl. rewrite El in Hl.
      change (0 =? 0) with true in Hl. cbv iota beta in Hl. rewrite Ea in Hl. destruct Hl as (H1 & H2 & _ & H4). rewrite <- Eb. split; [done|]. split; [done|].
      intros v Hv Hd. destruct (Ev v Hv Hd) as [E1 E2]. by rewrite H4, E1.
    + intros Hn. unfold link_now, nxp_get_link in Hl. rewrite wlan_known_0 in Hl by done. change (link_path 0) with (link_json "mlan0") in Hl.
      rewrite Hj in Hl. change (0 =? 0) with true in Hl. cbv iota beta in Hl. by rewrite link_silent in Hl.
  - intros e He Hj. unfold link_now, nxp_get_link in Hl. unfold nxp_get_wlan_mac in Hm. rewrite wlan_known_0 in Hl, Hm by done.
    change (link_path 0) with (link_json "mlan0") in *. rewrite Hj in Hl, Hm. rewrite (proj2 (Z.eqb_neq (- e) 0)) in Hl by lia. by split.
Qed.
Lemma readback_reported b iface ack : readback b iface ack → reported b iface ack.
Proof.
  intros [Hv Hip He Hn Hf Hs Hw]. split.
  - exact Hv.
  - pose proof (dev_ipv4_said (now k b) iface) as Hd. destruct (nxp_get_dev_ipv4 (now k b) iface) as [rc [[ip mask] gw]]. cbn [snd] in Hip.
    injection Hip as -> -> ->. exact Hd.
  - rewrite He. apply eth_mac_reader.
  - rewrite Hn. apply ntp_reader.
  - exact Hf.
  - intros essid Hk Hl Hc. rewrite Hs. unfold nxp_get_essid. rewrite wlan_known_0 by done. destruct (hw_wpa k (b_base b) 0) as [io f].
    by rewrite (wpa_ssid_asked io f essid OPC_ESSID_FIELD_LEN Hc Hl).
  - intros Hk. by apply wlan_measured_said.
Qed.
Lemma essid_field_len (b : board B) idx : len (in_field OPC_ESSID_FIELD_LEN (nxp_get_essid k b idx)) = 32.
Proof.
  apply len_in_field. unfold nxp_get_essid. destruct (no_wlan _ _); [done|]. destruct (hw_wpa k _ idx) as [io f].
  pose proof (wpa_ssid_len io OPC_ESSID_FIELD_LEN f ltac:(done)) as Hl. unfold OPC_ESSID_FIELD_LEN in *. lia.
Qed.
Lemma fw_field_len (b : board B) : len (in_field OPC_VERSION_FIELD_LEN (nxp_get_firmware_version (b_fw b) OPC_VERSION_FIELD_LEN)) = 32.
Proof. apply len_in_field. unfold nxp_get_firmware_version, len, OPC_VERSION_FIELD_LEN. rewrite length_take. lia. Qed.
(** The readbacks: the acknowledgment so far, with the parts of the two WLANs. *)
Definition identity_ack (b : board B) (iface : Z) (w1 w2 : opc_wlan_radio_state_t) : opc_get_device_info_ack_t :=
  let inv := b_inv b in
  let '(ip, mask, gw) := (nxp_get_dev_ipv4 (now k b) iface).2 in
  mk_device_info 0 0 (inv_vendor_code inv) (inv_product_code inv) (inv_product_subcode inv) (inv_manufacture_date inv) (inv_shipment_date inv)
    (in_field OPC_VERSION_FIELD_LEN (nxp_get_firmware_version (b_fw b) OPC_VERSION_FIELD_LEN)) (inv_hardware_version inv) (inv_serial_number inv)
    (mac_or_zero (nxp_get_eth_mac (now k b))) ip mask gw (nxp_get_ntp_server (now k b)).2
    (in_field OPC_ESSID_FIELD_LEN (nxp_get_essid k b 0)) 0 0 0 (inv_ieee_11r inv) (inv_ieee_11ai inv) (inv_ieee_11k inv) (inv_ieee_11v inv) w1 w2.
Lemma read_run (w : world (board B)) :
  ∃ w1 a1 f1 c1 w2 a2 f2 c2,
    device_info_read w = ((identity_ack (w_env w) (mgmt_ip_iface_idx (w_st w)) w1 w2, (a1, f1, c1), (a2, f2, c2)), w) ∧
    link_measured (now k (w_env w)) 0 w1 ∧ part_ok w1 ∧ part_ok w2 ∧ is_u16 f1 ∧ is_u16 f2.
Proof.
  destruct w as [s b tx]. cbn [w_st w_env]. pose proof (wlan_link_run (now k b) 0) as H1. pose proof (wlan_link_run (now k b) 1) as H2.
  unfold device_info_read, identity_ack. unfold mbind, M_bind, get, query, call. cbn [w_st w_env w_tx].
  cbn [opcd_inventory get_firmware_version get_ntp_server get_eth_mac get_dev_ipv4 get_wlan_mac get_essid get_link info_board board_env].
  destruct (nxp_get_dev_ipv4 _ _) as [rc [[ip mask] gw]]. cbn [w_st w_env w_tx snd]. fold (link_now (now k b) 0).
  destruct (devinfo_wlan_link _ (link_now (now k b) 0)) as [[[w1 a1] f1] c1]. destruct H1 as (M1 & P1 & F1 & _).
  destruct (station_type (radio s) =? OPC_STATION_DUAL).
  - cbn [w_st w_env w_tx]. fold (link_now (now k b) 1). destruct (devinfo_wlan_link _ (link_now (now k b) 1)) as [[[w2 a2] f2] c2].
    destruct H2 as (_ & P2 & F2 & _). do 8 eexists. split; [reflexivity|]. by split_and!.
  - do 8 eexists. split; [reflexivity|]. split_and!; done.
Qed.
Lemma identity_wlans (b : board B) iface w1 w2 : di_wlan1 (identity_ack b iface w1 w2) = w1 ∧ di_wlan2 (identity_ack b iface w1 w2) = w2.
Proof. unfold identity_ack. by destruct (nxp_get_dev_ipv4 (now k b) iface).2 as [[ip mask] gw]. Qed.
(** The settings of the state, in the acknowledgment. *)
Definition with_settings (s : opcd_state_t) (w1 w2 : opc_wlan_radio_state_t) (ack : opc_get_device_info_ack_t) : opc_get_device_info_ack_t :=
  let stype := effective_station_type s in
  let ack := ((ack <| di_device_status := boot_status s |>) <| di_station_type := stype |>)
    <| di_priority_ch := if (stype =? OPC_STATION_DUAL) && negb (priority_ch (radio s) =? 0) then priority_ch (radio s) else OPC_PRIORITY_CH_UNSET |> in
  (ack <| di_wlan1 := w1 |>) <| di_wlan2 := w2 |>.
Lemma settings_device_ok (b : board B) iface s w1 w2 x1 x2 :
  settings_ok s → inventory_ok (b_inv b) → radio_state_ok w1 → radio_state_ok w2 →
  device_info_ok (with_settings s w1 w2 (identity_ack b iface x1 x2)).
Proof.
  intros (Hb & Ht & Hp & _) (I1 & I2 & I3 & I4 & I5 & I6 & I7) H1 H2.
  unfold identity_ack. pose proof (dev_ipv4_u32 (now k b) iface) as Hd.
  destruct (nxp_get_dev_ipv4 (now k b) iface) as [rc [[ip mask] gw]]. destruct Hd as (D1 & D2 & D3). cbn [snd].
  pose proof (eth_mac_len (now k b)) as He. pose proof (ntp_u32 (now k b)) as Hn. pose proof (fw_field_len b) as Hf. pose proof (essid_field_len b 0) as Hs.
  set (essid_bytes := in_field _ (nxp_get_essid k b 0)) in *. set (fw_bytes := in_field _ (nxp_get_firmware_version _ _)) in *.
  set (mac := mac_or_zero _) in *. set (ntp := (nxp_get_ntp_server _).2) in *. clearbody essid_bytes fw_bytes mac ntp.
  assert (Hpr : is_u16 (if (effective_station_type s =? OPC_STATION_DUAL) && negb (priority_ch (radio s) =? 0) then priority_ch (radio s) else OPC_PRIORITY_CH_UNSET))
    by (destruct (_ && _); done).
  unfold with_settings, device_info_ok. cbv zeta. split_and!; done.
Qed.
Lemma info_fill_run (w : world (board B)) : settings_ok (w_st w) → inventory_ok (b_inv (w_env w)) →
  ∃ w1 w2 x1 x2 st',
    let ack := with_settings (w_st w) w1 w2 (identity_ack (w_env w) (mgmt_ip_iface_idx (w_st w)) x1 x2) in
    device_info_fill w = (ack, mk_world st' (base env_mono (w_env w)).2 (w_tx w)) ∧
    link_measured (now k (w_env w)) 0 w1 ∧ radio_state_ok w1 ∧ radio_state_ok w2.
Proof.
  intros Hs Hi. destruct (read_run w) as (x1 & a1 & f1 & c1 & x2 & a2 & f2 & c2 & Er & M1 & P1 & P2 & F1 & F2).
  pose proof Hs as (_ & _ & _ & C1 & C2).
  unfold device_info_fill, mbind, M_bind. rewrite Er. unfold session_touch, mono_now, mbind, M_bind, call, modify, get. cbn [w_st w_env w_tx].
  change (env_mono (w_env w)) with (base env_mono (w_env w)). destruct (base env_mono (w_env w)) as [t b1]. cbn [w_st w_env w_tx snd].
  set (st' := (w_st w) <| idle_deadline := _ |>).
  change (boot_status st') with (boot_status (w_st w)). change (effective_station_type st') with (effective_station_type (w_st w)).
  change (radio st') with (radio (w_st w)).
  destruct (fill_run (wlan1 (radio (w_st w))) "mlan0" x1 a1 f1 c1 (mk_world st' b1 (w_tx w)) C1 P1 F1) as (w1 & E1 & K1 & R1).
  destruct (fill_run (wlan2 (radio (w_st w))) "mlan1" x2 a2 f2 c2 (mk_world st' b1 (w_tx w)) C2 P2 F2) as (w2 & E2 & K2 & R2).
  destruct (identity_wlans (w_env w) (mgmt_ip_iface_idx (w_st w)) x1 x2) as [D1 D2].
  exists w1. set (A := identity_ack _ _ _ _) in *.
  match goal with |- context [devinfo_wlan_fill _ "mlan0" ?y a1 f1 c1] => change y with (di_wlan1 A) end. rewrite D1, E1.
  destruct (negb _).
  - exists devinfo_wlan_invalid, x1, x2, st'. split; [reflexivity|]. split; [by eapply link_measured_keeps|]. split; [done|by vm_compute].
  - match goal with |- context [devinfo_wlan_fill _ "mlan1" ?y a2 f2 c2] => change y with (di_wlan2 A) end. rewrite D2, E2.
    exists w2, x1, x2, st'. split; [reflexivity|]. split; [by eapply link_measured_keeps|]. done.
Qed.
Definition accepted (ack : opc_get_device_info_ack_t) : opc_get_device_info_ack_t :=
  (ack <| di_result := OPC_RESULT_OK |>) <| di_error_cause := OPC_ERR_NONE |>.
Lemma accepted_ok ack : device_info_ok ack → device_info_ok (accepted ack).
Proof.
  intros (_ & _ & Ha). split; [by vm_compute|]. split; [by vm_compute|]. exact Ha.
Qed.
Lemma settings_reported (b : board B) iface s w1 w2 x1 x2 :
  link_measured (now k b) 0 w1 → reported b iface (accepted (with_settings s w1 w2 (identity_ack b iface x1 x2))).
Proof.
  intros Hm. apply readback_reported. unfold identity_ack. destruct (nxp_get_dev_ipv4 (now k b) iface) as [rc [[ip mask] gw]] eqn:E. cbn [snd].
  constructor; try done. by rewrite E.
Qed.
(** The board when its clock was read [n] times more. *)
Fixpoint clock_reads (n : nat) (e : B) : B := match n with O => e | S n => clock_reads n (env_mono e).2 end.
Definition board_at (n : nat) (b : board B) : board B := mk_board (clock_reads n (b_base b)) (b_steps b) (b_fw b) (b_snap b) (b_inv b).
(** The board after [n] clock reads, with the snapshot of an acknowledgment published. *)
Definition published_at (n : nat) (b : board B) (ack : opc_get_device_info_ack_t) : board B :=
  let e := clock_reads n (b_base b) in
  mk_board e (b_steps b) (b_fw b) (Snapshot.Snapshot.opcd_snapshot_publish OPCD_SNAPSHOT_PATH (hw_snap k e) (env_mono e).1 ack (b_snap b)).2 (b_inv b).
Lemma base_clock b : (base env_mono b).2 = board_at 1 b.
Proof. unfold base, board_at. cbn [clock_reads]. by destruct (env_mono (b_base b)). Qed.
Lemma board_touch (w : world (board B)) : ∃ t, session_touch w = (tt, mk_world ((w_st w) <| idle_deadline := t |>) (base env_mono (w_env w)).2 (w_tx w)).
Proof.
  unfold session_touch, mono_now, mbind, M_bind, call, modify. change (env_mono (w_env w)) with (base env_mono (w_env w)).
  destruct (base env_mono (w_env w)) as [t b1]. by eexists.
Qed.
Lemma info_handler (w : world (board B)) frame ip port cap seq :
  opc_get_device_info_req_unpack frame = Some tt → session_owns (w_st w) ip = true → indication_enabled (w_st w) = false →
  settings_ok (w_st w) → inventory_ok (b_inv (w_env w)) →
  ∃ ack s',
    handle_get_device_info frame ip port cap seq w =
      (emit_ack (opc_get_device_info_ack_pack cap seq ack), mk_world s' (published_at 2 (w_env w) ack) (w_tx w)) ∧
    reported (board_at 1 (w_env w)) (mgmt_ip_iface_idx (w_st w)) ack ∧ device_info_ok ack ∧ di_result ack = OPC_RESULT_OK.
Proof.
  intros Hu Ho Hi Hs Hv. destruct w as [s b tx]. cbn [w_st w_env w_tx] in *.
  unfold handle_get_device_info. rewrite Hu. unfold check_login_required, mbind, M_bind, get. cbn [w_st].
  pose proof Ho as Ho'. unfold session_owns in Ho'. apply andb_true_iff in Ho' as [Hl _]. rewrite Hl, Ho. cbn [negb].
  destruct (board_touch (mk_world s b tx)) as [t Et]. rewrite Et. unfold mret at 1, M_ret at 1. cbn [w_st w_env w_tx].
  set (s1 := s <| idle_deadline := t |>). change (indication_enabled s1) with (indication_enabled s). rewrite Hi.
  rewrite base_clock. set (b1 := board_at 1 b).
  destruct (info_fill_run (mk_world s1 b1 tx) Hs Hv) as (w1 & w2 & x1 & x2 & st' & Ef & M1 & R1 & R2). cbn [w_st w_env w_tx] in *.
  rewrite Ef, base_clock. cbn [w_st w_env w_tx].
  change (mgmt_ip_iface_idx s1) with (mgmt_ip_iface_idx s) in *.
  exists (accepted (with_settings s1 w1 w2 (identity_ack b1 (mgmt_ip_iface_idx s) x1 x2))), st'. split; [reflexivity|].
  split; [by apply settings_reported|]. split; [|done]. apply accepted_ok. by apply settings_device_ok.
Qed.

Lemma info_dispatch (w : world (board B)) frame hdr body ip port cap :
  opc_frame_parse frame = Some (hdr, body) → command_type hdr = OPC_CMD_REQUEST → req_indication_id hdr = OPC_REQ_GET_DEVICE_INFO →
  opc_get_device_info_req_unpack frame = Some tt →
  session_owns (w_st w) ip = true → (env_mono (w_env w)).1 < idle_deadline (w_st w) → indication_enabled (w_st w) = false →
  settings_ok (w_st w) → inventory_ok (b_inv (w_env w)) →
  ∃ ack s',
    opcd_dispatch frame ip port cap w =
      ((0, emit_ack (opc_get_device_info_ack_pack cap (sequence_number hdr) ack)), mk_world s' (published_at 3 (w_env w) ack) (w_tx w)) ∧
    reported (board_at 2 (w_env w)) (mgmt_ip_iface_idx (w_st w)) ack ∧ device_info_ok ack ∧ di_result ack = OPC_RESULT_OK.
Proof.
  intros Hf Ht Hid Hu Ho Hd Hi Hs Hv. pose proof Ho as Ho'. unfold session_owns in Ho'. apply andb_true_iff in Ho' as [Hl _].
  rewrite (dispatch_alive frame ip port cap w hdr body handle_get_device_info Hf Ht ltac:(by rewrite Hid) Hl Hd).
  change (env_mono (w_env w)) with (base env_mono (w_env w)). rewrite base_clock.
  destruct (info_handler (mk_world (w_st w) (board_at 1 (w_env w)) (w_tx w)) frame ip port cap (sequence_number hdr) Hu Ho Hi Hs Hv)
    as (ack & s' & Eh & Hr).
  exists ack, s'. rewrite Eh. split; [reflexivity|exact Hr].
Qed.

Lemma info_request seq : is_u16 seq → ∃ frame hdr body,
  opc_get_device_info_req_pack OPC_FRAME_MAX seq = Some frame ∧ opc_frame_parse frame = Some (hdr, body) ∧
  command_type hdr = OPC_CMD_REQUEST ∧ req_indication_id hdr = OPC_REQ_GET_DEVICE_INFO ∧ sequence_number hdr = seq ∧
  opc_get_device_info_req_unpack frame = Some tt.
Proof.
  intros Hseq. destruct (msg_roundtrips GetDeviceInfoReq OPC_FRAME_MAX seq tt (Z.le_refl _) Hseq I)
    as (f & hdr & body & Hp & _ & Hf & Ht & Hid & Hsq & Hu).
  exists f, hdr, body. by split_and!.
Qed.
Lemma info_ack_back seq ack : is_u16 seq → device_info_ok ack → ∃ resp,
  opc_get_device_info_ack_pack OPC_FRAME_MAX seq ack = Some resp ∧ opc_get_device_info_ack_unpack resp = Some (device_info_canon ack).
Proof.
  intros Hseq Hok. destruct (device_info_ack_roundtrip OPC_FRAME_MAX seq (Z.le_refl _) Hseq ack Hok)
    as (resp & hdr & body & Ha & _ & _ & _ & _ & _ & Hua).
  exists resp. split; [exact Ha|exact Hua].
Qed.

(** C8: what a client learns about the board. For any contents of the device's files and
    any results of the calls, a GetDeviceInfo of the session holder, with the session alive,
    notifications off (else the answer is NG), and settings and inventory within their types,
    is answered OK with an acknowledgment whose every field is within its type, which the
    client's unpacker reads back, and which carries what the device says when the handler
    reads it, after two clock reads: the inventory of the start; the addresses found under
    their keys in the link file of the management interface; the Ethernet MAC; the NTP server
    of the drop-in, else of the device's own configuration; the configured ESSID; the cached
    firmware version; and the MAC, access point and signal of the first WLAN from its file,
    or the values for "none" where nothing is associated. The snapshot published for
    monitoring is made from the same acknowledgment, and no platform call changes anything. *)
Theorem device_info_on_board (w : world (board B)) seq frame ip port :
  let s := w_st w in
  let b := w_env w in
  is_u16 seq → opc_get_device_info_req_pack OPC_FRAME_MAX seq = Some frame →
  session_owns s ip = true → (env_mono b).1 < idle_deadline s → indication_enabled s = false →
  settings_ok s → inventory_ok (b_inv b) →
  ∃ ack resp s',
    opcd_dispatch frame ip port OPC_FRAME_MAX w = ((0, resp), mk_world s' (published_at 3 b ack) (w_tx w)) ∧
    opc_get_device_info_ack_unpack resp = Some (device_info_canon ack) ∧ device_info_ok ack ∧ di_result ack = OPC_RESULT_OK ∧
    reported (board_at 2 b) (mgmt_ip_iface_idx s) ack.
Proof.
  intros s b Hseq Hpk Ho Hd Hi Hs Hv.
  destruct (info_request seq Hseq) as (f & hdr & body & Hp & Hf & Ht & Hid & Hsq & Hu). rewrite Hpk in Hp. injection Hp as <-.
  destruct (info_dispatch w frame hdr body ip port OPC_FRAME_MAX Hf Ht Hid Hu Ho Hd Hi Hs Hv) as (ack & s' & Ed & Hr & Hok & Hres).
  destruct (info_ack_back seq ack Hseq Hok) as (resp & Ha & Hua). rewrite Hsq, Ha in Ed.
  exists ack, resp, s'. split; [exact Ed|]. split; [exact Hua|]. split; [exact Hok|]. split; [exact Hres|exact Hr].
Qed.
End Info.

(** A board whose Ethernet link file names an address. *)
Definition example_link : list Z := map (λ c, if c =? 126 then 34 else c) (str "{~ip_address~: ~192.168.0.10~}").
Definition linked_hw : hw Z :=
  mk_hw Z (λ _ _, mk_device (λ p, if bool_decide (p = link_json "eth0") then inr example_link else inl 2) (Some 2)) (λ _ _, 0) (λ _, inl 2)
    (hw_wpa example_hw) (hw_fw example_hw) (hw_reset example_hw) (hw_file example_hw) (hw_snap example_hw).
Definition example_address : Z := 0xC0A8000A.
Lemma example_link_says : says example_link "ip_address" (ipv4_str example_address).
Proof.
  exists [123], (drop 13 example_link). split; [split; [reflexivity|]; split|].
  - vm_compute. by left.
  - intros [|x a] c b Ha _; [|cbn; lia]. vm_compute in Ha. congruence.
  - exists [], [32], [125]. split; [vm_compute; reflexivity|]. by vm_compute.
Qed.
Definition example_request : list Z := default [] (opc_get_device_info_req_pack OPC_FRAME_MAX 3).
Lemma device_info_on_board_witness :
  session_owns demo_session demo_client = true ∧
  ∃ ack resp, opc_get_device_info_ack_unpack resp = Some (device_info_canon ack) ∧ device_info_ok ack ∧
    di_ip_address ack = example_address.
Proof.
  split; [reflexivity|].
  assert (Hs : settings_ok demo_session) by (vm_compute; repeat split; done).
  assert (Hv : inventory_ok (b_inv example_board)) by (vm_compute; repeat split; done).
  destruct (device_info_on_board linked_hw (mk_world demo_session example_board []) 3 example_request demo_client 5000
              ltac:(done) ltac:(vm_compute; reflexivity) eq_refl ltac:(vm_compute; reflexivity) eq_refl Hs Hv)
    as (ack & resp & s' & _ & Hu & Hok & _ & Hr).
  exists ack, resp. split; [exact Hu|]. split; [exact Hok|]. destruct Hr as [_ [Hip _] _ _ _ _ _].
  destruct (Hip example_link eq_refl) as [[Ha _] _]. apply Ha; [by vm_compute|apply example_link_says].
Defined.
End BoardInfo.
