(* ===== verification/Contract.v ===== *)
(** * What platform.h promises: the contract of the platform operations

    [PlatformContract]: an invariant of the environment that every operation of [Env] keeps,
    and what the operations deliver under it, as opcd/platform.h documents the operations
    table: addresses and counters within their types, MAC addresses of six bytes, strings in
    their fields. The rules below reason about the daemon against the contract alone;
    the board and the stub discharge it in Platforms.v. *)
From S2P Require Import Prelude CText Codec ScanList Commands Indications Messages Store StoreAsync IpListText FaultProbe State Indication Validate RadioConf Persist Handlers IpListLoad Daemon SimEnv Logic BoardInfo.
From stdpp Require Import base list numbers option tactics strings.
From Stdlib Require Import ZArith Lia.
#[local] Open Scope Z_scope.
Import Commands ScanList IpListText Validate BoardInfo.BoardInfo.

Module Contract.

(** ** The contract *)

Definition op_keeps {E A} (I : E → Prop) (op : E → A * E) : Prop := ∀ e, I e → I (op e).2.
Record env_kept {E} `{Env E} (I : E → Prop) : Prop := {
  ek_mono : op_keeps I env_mono;
  ek_timestamp : op_keeps I env_timestamp;
  ek_sendto ip port f : op_keeps I (env_sendto ip port f);
  ek_readings p : op_keeps I (env_readings p);
  ek_write path data mode : op_keeps I (env_write path data mode);
  ek_read path cap : op_keeps I (env_read path cap);
  ek_unlink path : op_keeps I (env_unlink path);
  ek_stat path : op_keeps I (env_stat path);
  ek_rename a b : op_keeps I (env_rename a b);
  ek_open_user path : op_keeps I (env_open_user path);
  ek_route dst : op_keeps I (lookup_direct_route dst);
  ek_ipv4 i : op_keeps I (get_dev_ipv4 i);
  ek_link i : op_keeps I (get_link i);
  ek_eth_mac : op_keeps I get_eth_mac;
  ek_wlan_mac i : op_keeps I (get_wlan_mac i);
  ek_essid i : op_keeps I (get_essid i);
  ek_fw : op_keeps I get_firmware_version;
  ek_ntp : op_keeps I get_ntp_server;
  ek_apply_radio cfg : op_keeps I (apply_radio_config cfg);
  ek_apply_ip slot i n : op_keeps I (apply_ip_change slot i n);
  ek_peer_route ip mask : op_keeps I (peer_route_refresh ip mask);
  ek_devinfo_cfg i : op_keeps I (opcd_devinfo_cfg_read i);
  ek_snapshot ack : op_keeps I (opcd_snapshot_publish ack);
  ek_refresh n : op_keeps I (refresh_firmware_version n);
  ek_reset : op_keeps I prepare_reset;
  ek_watchdog : op_keeps I opcd_systemd_watchdog;
  ek_stopping : op_keeps I opcd_system_stopping;
  ek_cause : op_keeps I opcd_reset_cause_read }.

(** What the daemon relies on of the kernel below the platform: the files hold bytes. *)
Class KernelContract (E : Type) `{Env E} := {
  kc_inv : E → Prop;
  kc_kept : env_kept kc_inv;
  kc_read path cap e data : kc_inv e → (env_read path cap e).1 = Some data → bytes_ok data }.

(** A link state whose fields are within their types. *)
Record link_typed (l : opcd_platform_link_t) : Prop := {
  lt_freq : is_u16 (l_freq_mhz l); lt_channel : is_u16 (l_channel l); lt_bssid : len (l_bssid l) = 6;
  lt_rssi : is_i8 (l_rssi l); lt_snr : is_i8 (l_snr l) }.

Class PlatformContract (E : Type) `{Env E} := {
  pc_inv : E → Prop;
  pc_kept : env_kept pc_inv;
  pc_read path cap e data : pc_inv e → (env_read path cap e).1 = Some data → bytes_ok data;
  pc_ipv4 i e : pc_inv e → let '(_, (ip, mask, gw)) := (get_dev_ipv4 i e).1 in is_u32 ip ∧ is_u32 mask ∧ is_u32 gw;
  pc_link i e l : pc_inv e → (get_link i e).1 = Some l → link_typed l;
  pc_eth_mac e : pc_inv e → len (get_eth_mac e).1 = 6;
  pc_wlan_mac i e : pc_inv e → len (get_wlan_mac i e).1 = 6;
  pc_essid i e : pc_inv e → len (get_essid i e).1 = OPC_ESSID_FIELD_LEN;
  pc_fw e : pc_inv e → len (get_firmware_version e).1 = OPC_VERSION_FIELD_LEN;
  pc_ntp e : pc_inv e → is_u32 (get_ntp_server e).1;
  pc_inventory e : pc_inv e → inventory_ok (opcd_inventory e) }.

(** ** Reasoning against it *)

Section Wpt.
Context {E : Type} `{PlatformContract E}.

(** [wpt m Q s]: started in state [s] and any environment that satisfies the contract's
    invariant, [m] ends in such an environment, with a result and a state that satisfy [Q]. *)
Definition wpt {A} (m : M E A) (Q : A → opcd_state_t → Prop) (s : opcd_state_t) : Prop :=
  ∀ e tx, pc_inv e → let '(x, w) := m (mk_world s e tx) in Q x (w_st w) ∧ pc_inv (w_env w).

Lemma wpt_ret {A} (x : A) Q s : Q x s → wpt (mret x) Q s.
Proof. intros HQ e tx He. by split. Qed.
Lemma wpt_bind {A B} (m : M E A) (k : A → M E B) Q s : wpt m (λ x s', wpt (k x) Q s') s → wpt (m ≫= k) Q s.
Proof.
  intros Hm e tx He. specialize (Hm e tx He). unfold mbind, M_bind. destruct (m (mk_world s e tx)) as [x [s' e' tx']].
  destruct Hm as [Hk Hi]. by apply (Hk e' tx' Hi).
Qed.
Lemma wpt_get Q s : Q s s → wpt get Q s.
Proof. intros HQ e tx He. by split. Qed.
Lemma wpt_modify f Q s : Q tt (f s) → wpt (modify f) Q s.
Proof. intros HQ e tx He. by split. Qed.
Lemma wpt_call {A} (op : E → A * E) Q s : op_keeps pc_inv op → (∀ e, pc_inv e → Q (op e).1 s) → wpt (call op) Q s.
Proof. intros Hk HQ e tx He. specialize (Hk e He). specialize (HQ e He). unfold call. cbn [w_env]. by destruct (op e). Qed.
Lemma wpt_query {A} (op : E → A) Q s : (∀ e, pc_inv e → Q (op e) s) → wpt (query op) Q s.
Proof. intros HQ e tx He. split; [by apply HQ|done]. Qed.
Lemma wpt_sendto ip port f Q s : (∀ ok, Q ok s) → wpt (sendto ip port f) Q s.
Proof.
  intros HQ e tx He. pose proof (ek_sendto _ pc_kept ip port f e He) as Hk. unfold sendto. cbn [w_env].
  destruct (env_sendto ip port f e) as [ok e']. by split.
Qed.
Lemma wpt_whenM b (m : M E unit) Q s : (b = true → wpt m Q s) → (b = false → Q tt s) → wpt (whenM b m) Q s.
Proof. destruct b; cbn; [auto|]. intros _ HQ. by apply wpt_ret, HQ. Qed.
Lemma wpt_conseq {A} (m : M E A) (Q Q' : A → opcd_state_t → Prop) s :
  wpt m Q s → (∀ x s', Q x s' → Q' x s') → wpt m Q' s.
Proof.
  intros Hm HQ e tx He. specialize (Hm e tx He). destruct (m (mk_world s e tx)) as [x w].
  destruct Hm as [Hm He']. split; [by apply HQ|done].
Qed.
Lemma wpt_elim {A} (m : M E A) Q (w : world E) : wpt m Q (w_st w) → pc_inv (w_env w) →
  Q (m w).1 (w_st (m w).2) ∧ pc_inv (w_env (m w).2).
Proof. destruct w as [s e tx]. cbn [w_st w_env]. intros Hm He. specialize (Hm e tx He). by destruct (m (mk_world s e tx)). Qed.

(** An invariant of the state, in such environments. *)
Definition tkeeps (I : opcd_state_t → Prop) {A} (m : M E A) : Prop := ∀ s, I s → wpt m (λ _ s', I s') s.
Context (I : opcd_state_t → Prop).
Lemma tkeeps_ret {A} (x : A) : tkeeps I (mret x).
Proof. intros s Hs. by apply wpt_ret. Qed.
Lemma tkeeps_bind {A B} (m : M E A) (k : A → M E B) : tkeeps I m → (∀ x, tkeeps I (k x)) → tkeeps I (m ≫= k).
Proof. intros Hm Hk s Hs. apply wpt_bind. eapply wpt_conseq; [by apply Hm|]. intros x s' Hs'. by apply Hk. Qed.
Lemma tkeeps_get : tkeeps I get.
Proof. intros s Hs. by apply wpt_get. Qed.
Lemma tkeeps_call {A} (op : E → A * E) : op_keeps pc_inv op → tkeeps I (call op).
Proof. intros Hk s Hs. by apply wpt_call. Qed.
Lemma tkeeps_query {A} (op : E → A) : tkeeps I (query op).
Proof. intros s Hs. by apply wpt_query. Qed.
Lemma tkeeps_sendto ip port f : tkeeps I (sendto ip port f).
Proof. intros s Hs. by apply wpt_sendto. Qed.
Lemma tkeeps_modify f : (∀ s, I s → I (f s)) → tkeeps I (modify f).
Proof. intros Hf s Hs. by apply wpt_modify, Hf. Qed.
Lemma tkeeps_whenM b m : tkeeps I m → tkeeps I (whenM b m).
Proof. destruct b; [done|]. intros _. apply tkeeps_ret. Qed.
End Wpt.

(** Leaves: the operations of the environment keep the contract's invariant. *)
Ltac op_kept := solve [apply pc_kept].
Ltac tkeeps_step :=
  first
    [ solve [eauto 4 with frames]
    | lazymatch goal with
      | |- tkeeps _ (mbind _ _) => apply tkeeps_bind; [|intros ?]
      | |- tkeeps _ (mret _) => apply tkeeps_ret
      | |- tkeeps _ get => apply tkeeps_get
      | |- tkeeps _ (call _) => apply tkeeps_call; op_kept
      | |- tkeeps _ (query _) => apply tkeeps_query
      | |- tkeeps _ (sendto _ _ _) => apply tkeeps_sendto
      | |- tkeeps _ (whenM _ _) => apply tkeeps_whenM
      | |- tkeeps _ (modify _) => apply tkeeps_modify; intros ? ?; solve [done | repeat case_match; done]
      | |- tkeeps _ (match _ with _ => _ end) => progress case_match
      end ].
Ltac tkeeps := repeat tkeeps_step.
End Contract.
Export Contract.
