(* ===== verification/Stub.v ===== *)
(** * The stub platform: opcd/platform_stub.c

    The backend the daemon's tests are linked with: canned readbacks, a route table, link
    states and failures the tests inject, and counters of the calls made. Its statics are
    the record [stub]; each [stub_*] function is a function of it. What the process sees
    outside (a variable of its environment, a file that exists) is an input. *)
From S2P Require Import Prelude CText Codec ScanList Commands Store IpListText State Routes Startup PlatformRead PlatformRun.
From stdpp Require Import base list numbers option tactics strings.
From Stdlib Require Import ZArith Lia.
#[local] Open Scope Z_scope.
Import Commands ScanList IpListText Routes.
Import CText.CText (EINVAL, ENETUNREACH).
Import PlatformRead.PlatformRead (ENODEV, link_zero).

Module Stub.

Definition STUB_ROUTE_MAX : Z := 16.

(** ** The statics *)

Record stub_ipv4 := mk_ipv4 { v4_set : bool; v4_ip : Z; v4_mask : Z; v4_gw : Z }.
Record stub_route := mk_sroute { sr_dest : Z; sr_mask : Z; sr_gw : Z }.
Record stub := mk_stub {
  s_dev_ipv4 : list stub_ipv4;
  s_routes : list stub_route; s_route_n : Z; s_route_explicit : bool;
  s_link_set : list bool; s_link : list opcd_platform_link_t;
  s_apply_radio_fail : Z; s_apply_radio_fail_once : Z; s_apply_radio_calls : Z;
  s_apply_radio_last_w1_freq : Z; s_apply_radio_last_station : Z;
  s_apply_radio_watch_path : option string; s_apply_radio_marker_seen : Z;
  s_validate_radio_error : Z; s_validate_radio_calls : Z;
  s_apply_ip_calls : Z; s_apply_ip_last_ip : Z; s_apply_ip_last_essid : list Z; s_apply_ip_fail : Z;
  s_apply_ip_last_iface : Z; s_apply_ip_last_slot : Z;
  s_pr_refresh_calls : Z; s_pr_refresh_last_ip : Z; s_pr_refresh_last_mask : Z }.
#[global] Instance eta_stub : Eta stub := λ s,
  mk_stub (s_dev_ipv4 s) (s_routes s) (s_route_n s) (s_route_explicit s) (s_link_set s) (s_link s)
    (s_apply_radio_fail s) (s_apply_radio_fail_once s) (s_apply_radio_calls s) (s_apply_radio_last_w1_freq s)
    (s_apply_radio_last_station s) (s_apply_radio_watch_path s) (s_apply_radio_marker_seen s) (s_validate_radio_error s)
    (s_validate_radio_calls s) (s_apply_ip_calls s) (s_apply_ip_last_ip s) (s_apply_ip_last_essid s) (s_apply_ip_fail s)
    (s_apply_ip_last_iface s) (s_apply_ip_last_slot s) (s_pr_refresh_calls s) (s_pr_refresh_last_ip s) (s_pr_refresh_last_mask s).
Definition ipv4_unset : stub_ipv4 := mk_ipv4 false 0 0 0.
(** The initialisers. *)
Definition stub_zero : stub :=
  mk_stub (replicate 2 ipv4_unset) (replicate (Z.to_nat STUB_ROUTE_MAX) (mk_sroute 0 0 0)) 0 false
    (replicate 2 false) (replicate 2 link_zero) 0 0 0 0 0 None 0 0 0 0 0 [] 0 (-1) 0 0 0 0.

(** ** Lifecycle *)

Definition stub_init : Z := 0.
Definition stub_teardown (s : stub) : stub := s.

(** ** Identity *)

Definition stub_get_eth_mac : Z * list Z := (0, zeros 6).
Definition stub_set_dev_ipv4 (iface ip mask gw : Z) (s : stub) : stub :=
  if (iface <? 0) || (1 <? iface) then s
  else s <| s_dev_ipv4 := <[Z.to_nat iface := mk_ipv4 true ip mask gw]> (s_dev_ipv4 s) |>.
Definition stub_reset_dev_ipv4 (s : stub) : stub := s <| s_dev_ipv4 := replicate 2 ipv4_unset |>.
Definition stub_get_dev_ipv4 (s : stub) (iface : Z) : Z * (Z * Z * Z) :=
  let v := default ipv4_unset (s_dev_ipv4 s !! Z.to_nat iface) in
  if ((iface =? 0) || (iface =? 1)) && v4_set v then (0, (v4_ip v, v4_mask v, v4_gw v))
  else if iface =? 1 then (0, (3221226084, 4294967040, 0))
  else (0, (0, 0, 0)).

Definition stub_route_clear (s : stub) : stub := (s <| s_route_explicit := true |>) <| s_route_n := 0 |>.
Definition stub_route_reset (s : stub) : stub := (s <| s_route_explicit := false |>) <| s_route_n := 0 |>.
Definition stub_route_add (dest mask gw : Z) (s : stub) : stub :=
  let s := s <| s_route_explicit := true |> in
  if s_route_n s <? STUB_ROUTE_MAX
  then (s <| s_routes := <[Z.to_nat (s_route_n s) := mk_sroute dest mask gw]> (s_routes s) |>) <| s_route_n := s_route_n s + 1 |>
  else s.
(** The routes the loop visits, and one turn of it; the best route so far stands for its index. *)
Definition routes_in_use (s : stub) : list stub_route := take (Z.to_nat (s_route_n s)) (s_routes s).
Definition route_step (dst : Z) (best : option stub_route) (r : stub_route) : option stub_route :=
  if negb (Z.land dst (sr_mask r) =? sr_dest r) then best
  else match best with
       | None => Some r
       | Some b => if sr_mask b <? sr_mask r then Some r else best
       end.
(** The netmask, or the negative errno. *)
Definition stub_lookup_direct_route (s : stub) (dst : Z) : Z + Z :=
  if negb (s_route_explicit s) then inr 4294967295
  else match foldl (route_step dst) None (routes_in_use s) with
       | None => inl (- ENETUNREACH)
       | Some b => if negb (sr_gw b =? 0) then inl (- ENETUNREACH) else inr (sr_mask b)
       end.

Definition stub_get_wlan_count : Z := 1.
Definition stub_get_wlan_mac (idx : Z) : Z * option (list Z) :=
  if (idx <? 0) || (stub_get_wlan_count <=? idx) then (- ENODEV, None) else (0, Some (zeros 6)).
(** The string before its NUL. *)
Definition stub_get_essid (idx cap : Z) : Z * option (list Z) :=
  if (idx <? 0) || (stub_get_wlan_count <=? idx) then (- ENODEV, None)
  else if cap =? 0 then (- EINVAL, None) else (0, Some []).
Definition stub_copy_string (cap : Z) (src : list Z) : Z * option (list Z) :=
  if cap =? 0 then (- EINVAL, None) else (0, Some (take (Z.to_nat (cap - 1)) (cstr src))).
Definition stub_get_firmware_version (cap : Z) : Z * option (list Z) := stub_copy_string cap [].
Definition stub_refresh_firmware_version (elapsed_s : Z) (s : stub) : stub := s.
Definition stub_get_ntp_server : Z * Z := (0, 0).

(** ** Link *)

Definition link_idx_bad (idx : Z) : bool := (idx <? 0) || (1 <? idx).
Definition stub_set_link (idx : Z) (assoc : bool) (freq ch : Z) (s : stub) : stub :=
  if link_idx_bad idx then s
  else
    let l := mk_link freq ch 0 0 false (zeros 6) (if assoc then 40 else 0) (if assoc then -55 else 0) assoc assoc assoc in
    (s <| s_link := <[Z.to_nat idx := l]> (s_link s) |>) <| s_link_set := <[Z.to_nat idx := true]> (s_link_set s) |>.
Definition with_signal (rssi_valid : bool) (rssi : Z) (snr_valid : bool) (snr : Z) (l : opcd_platform_link_t) : opcd_platform_link_t :=
  mk_link (l_freq_mhz l) (l_channel l) (l_mode l) (l_bandwidth l) (l_bandwidth_valid l) (l_bssid l) snr rssi snr_valid rssi_valid (l_associated l).
Definition stub_set_link_signal (idx : Z) (rssi_valid : bool) (rssi : Z) (snr_valid : bool) (snr : Z) (s : stub) : stub :=
  if link_idx_bad idx then s else s <| s_link := alter (with_signal rssi_valid rssi snr_valid snr) (Z.to_nat idx) (s_link s) |>.
Definition with_rate (mode : Z) (bandwidth_valid : bool) (bandwidth : Z) (l : opcd_platform_link_t) : opcd_platform_link_t :=
  mk_link (l_freq_mhz l) (l_channel l) mode bandwidth bandwidth_valid (l_bssid l) (l_snr l) (l_rssi l) (l_snr_valid l) (l_rssi_valid l) (l_associated l).
Definition stub_set_link_rate (idx mode : Z) (bandwidth_valid : bool) (bandwidth : Z) (s : stub) : stub :=
  if link_idx_bad idx then s else s <| s_link := alter (with_rate mode bandwidth_valid bandwidth) (Z.to_nat idx) (s_link s) |>.
Definition stub_reset_link (s : stub) : stub := s <| s_link_set := [false; false] |>.
Definition stub_get_link (s : stub) (idx : Z) : Z * option opcd_platform_link_t :=
  if (0 <=? idx) && (idx <? 2) && default false (s_link_set s !! Z.to_nat idx) then (0, s_link s !! Z.to_nat idx)
  else if (idx <? 0) || (stub_get_wlan_count <=? idx) then (- ENODEV, None)
  else (0, Some link_zero).

(** ** Mutations *)

Definition stub_validate_radio_config (cfg : opc_set_radio_config_req_t) (s : stub) : Z * stub :=
  (s_validate_radio_error s, s <| s_validate_radio_calls := i32 (s_validate_radio_calls s + 1) |>).
(** [exists_now]: does [access(path, F_OK)] succeed; [ev]: OPCD_STUB_APPLY_RADIO_RC. *)
Definition radio_seen (exists_now : string → bool) (cfg : opc_set_radio_config_req_t) (s : stub) : stub :=
  let s := s <| s_apply_radio_calls := i32 (s_apply_radio_calls s + 1) |> in
  let s := match s_apply_radio_watch_path s with
           | Some p => if exists_now p then s <| s_apply_radio_marker_seen := i32 (s_apply_radio_marker_seen s + 1) |> else s
           | None => s
           end in
  let '(w1_freq, _) := opc_scan_derive_freq_ch (rc_scan_band (wlan1 cfg)) (rc_scan_chlist (wlan1 cfg)) in
  (s <| s_apply_radio_last_w1_freq := w1_freq |>) <| s_apply_radio_last_station := station_type cfg |>.
Definition stub_apply_radio_config (exists_now : string → bool) (ev : option (list Z)) (cfg : opc_set_radio_config_req_t) (s : stub)
    : Z * stub :=
  let s := radio_seen exists_now cfg s in
  if negb (s_apply_radio_fail_once s =? 0) then (-1, s <| s_apply_radio_fail_once := 0 |>)
  else if negb (s_apply_radio_fail s =? 0) then (-1, s)
  else match ev with
       | Some e => let rc := Startup.atoi (cstr e) in if negb (rc =? 0) then (rc, s) else (0, s)
       | None => (0, s)
       end.
Definition stub_apply_radio_set_fail (fail : Z) (s : stub) : stub := s <| s_apply_radio_fail := fail |>.
Definition stub_apply_radio_set_fail_once (fail : Z) (s : stub) : stub := s <| s_apply_radio_fail_once := fail |>.
Definition stub_apply_radio_calls (s : stub) : Z := s_apply_radio_calls s.
Definition stub_apply_radio_watch_marker (path : option string) (s : stub) : stub :=
  (s <| s_apply_radio_watch_path := path |>) <| s_apply_radio_marker_seen := 0 |>.
Definition stub_apply_radio_marker_seen (s : stub) : Z := s_apply_radio_marker_seen s.
Definition stub_apply_radio_reset_calls (s : stub) : stub :=
  ((s <| s_apply_radio_calls := 0 |>) <| s_apply_radio_last_w1_freq := 0 |>) <| s_apply_radio_last_station := 0 |>.
Definition stub_apply_radio_last_w1_freq (s : stub) : Z := s_apply_radio_last_w1_freq s.
Definition stub_apply_radio_last_station (s : stub) : Z := s_apply_radio_last_station s.
Definition stub_validate_radio_set_error (err : Z) (s : stub) : stub :=
  (s <| s_validate_radio_error := err |>) <| s_validate_radio_calls := 0 |>.
Definition stub_validate_radio_calls (s : stub) : Z := s_validate_radio_calls s.

(** The field of the slot is OPC_ESSID_FIELD_LEN bytes and need not end in a NUL. *)
Definition stub_apply_ip_change (slot : opc_ipcfg_entry_t) (iface slot_no : Z) (s : stub) : Z * stub :=
  let s := ((((s <| s_apply_ip_calls := u32 (s_apply_ip_calls s + 1) |>) <| s_apply_ip_last_slot := slot_no |>)
               <| s_apply_ip_last_ip := ip_address slot |>) <| s_apply_ip_last_iface := iface |>)
             <| s_apply_ip_last_essid := take (Z.to_nat OPC_ESSID_FIELD_LEN) (cstr (essid slot)) |> in
  (if negb (s_apply_ip_fail s =? 0) then -1 else 0, s).
Definition stub_apply_ip_calls (s : stub) : Z := s_apply_ip_calls s.
Definition stub_apply_ip_last_ip (s : stub) : Z := s_apply_ip_last_ip s.
Definition stub_apply_ip_last_iface (s : stub) : Z := s_apply_ip_last_iface s.
Definition stub_apply_ip_last_slot (s : stub) : Z := s_apply_ip_last_slot s.
Definition stub_apply_ip_last_essid (s : stub) : list Z := s_apply_ip_last_essid s.
Definition stub_apply_ip_reset (s : stub) : stub :=
  (((((s <| s_apply_ip_calls := 0 |>) <| s_apply_ip_last_ip := 0 |>) <| s_apply_ip_last_iface := -1 |>)
      <| s_apply_ip_last_slot := 0 |>) <| s_apply_ip_last_essid := [] |>) <| s_apply_ip_fail := 0 |>.
Definition stub_apply_ip_set_fail (fail : Z) (s : stub) : stub := s <| s_apply_ip_fail := fail |>.

Definition stub_peer_route_refresh (ip mask : Z) (s : stub) : Z * stub :=
  (0, ((s <| s_pr_refresh_calls := u32 (s_pr_refresh_calls s + 1) |>) <| s_pr_refresh_last_ip := ip |>) <| s_pr_refresh_last_mask := mask |>).
Definition stub_peer_route_refresh_calls (s : stub) : Z := s_pr_refresh_calls s.
Definition stub_peer_route_refresh_last_ip (s : stub) : Z := s_pr_refresh_last_ip s.
Definition stub_peer_route_refresh_last_mask (s : stub) : Z := s_pr_refresh_last_mask s.
Definition stub_peer_route_refresh_reset (s : stub) : stub :=
  ((s <| s_pr_refresh_calls := 0 |>) <| s_pr_refresh_last_ip := 0 |>) <| s_pr_refresh_last_mask := 0 |>.
Definition stub_prepare_reset : Z := 0.

(** ** Events and registration *)

Definition stub_event_fd : Z := -1.
(** No event is ever delivered: the callback's state comes back as it was. *)
Definition stub_drain_events {C} (cb : C → Z * C) (ctx : C) : Z * C := (0, ctx).
(** The registry: [None] is the call that aborts. *)
Definition opcd_platform_register (g_ops : bool) : option bool := if g_ops then None else Some true.
Definition opcd_platform (g_ops : bool) : bool := g_ops.

(** ** What the statics hold *)

(** The calls of the tests and of the daemon that change the statics. *)
Inductive stub_call :=
  | SetDevIpv4 (iface ip mask gw : Z) | ResetDevIpv4
  | RouteClear | RouteReset | RouteAdd (dest mask gw : Z)
  | SetLink (idx : Z) (assoc : bool) (freq ch : Z)
  | SetLinkSignal (idx : Z) (rssi_valid : bool) (rssi : Z) (snr_valid : bool) (snr : Z)
  | SetLinkRate (idx mode : Z) (bandwidth_valid : bool) (bandwidth : Z) | ResetLink
  | ValidateRadio (cfg : opc_set_radio_config_req_t) | SetValidateError (err : Z)
  | ApplyRadio (exists_now : string → bool) (ev : option (list Z)) (cfg : opc_set_radio_config_req_t)
  | SetRadioFail (fail : Z) | SetRadioFailOnce (fail : Z) | WatchMarker (path : option string) | ResetRadioCalls
  | ApplyIp (slot : opc_ipcfg_entry_t) (iface slot_no : Z) | ResetIp | SetIpFail (fail : Z)
  | PeerRoute (ip mask : Z) | ResetPeerRoute.
Definition stub_do (c : stub_call) (s : stub) : stub :=
  match c with
  | SetDevIpv4 iface ip mask gw => stub_set_dev_ipv4 iface ip mask gw s
  | ResetDevIpv4 => stub_reset_dev_ipv4 s
  | RouteClear => stub_route_clear s
  | RouteReset => stub_route_reset s
  | RouteAdd dest mask gw => stub_route_add dest mask gw s
  | SetLink idx assoc freq ch => stub_set_link idx assoc freq ch s
  | SetLinkSignal idx rv r sv sn => stub_set_link_signal idx rv r sv sn s
  | SetLinkRate idx mode bv bw => stub_set_link_rate idx mode bv bw s
  | ResetLink => stub_reset_link s
  | ValidateRadio cfg => (stub_validate_radio_config cfg s).2
  | SetValidateError err => stub_validate_radio_set_error err s
  | ApplyRadio ex ev cfg => (stub_apply_radio_config ex ev cfg s).2
  | SetRadioFail fail => stub_apply_radio_set_fail fail s
  | SetRadioFailOnce fail => stub_apply_radio_set_fail_once fail s
  | WatchMarker path => stub_apply_radio_watch_marker path s
  | ResetRadioCalls => stub_apply_radio_reset_calls s
  | ApplyIp slot iface n => (stub_apply_ip_change slot iface n s).2
  | ResetIp => stub_apply_ip_reset s
  | SetIpFail fail => stub_apply_ip_set_fail fail s
  | PeerRoute ip mask => (stub_peer_route_refresh ip mask s).2
  | ResetPeerRoute => stub_peer_route_refresh_reset s
  end.

(** The injected values are within their types, the arrays have their sizes, and the route
    counter stays in its array. *)
Definition ipv4_typed (v : stub_ipv4) : Prop := is_u32 (v4_ip v) ∧ is_u32 (v4_mask v) ∧ is_u32 (v4_gw v).
Definition injected_link (l : opcd_platform_link_t) : Prop :=
  is_u16 (l_freq_mhz l) ∧ is_u16 (l_channel l) ∧ len (l_bssid l) = 6 ∧ is_i8 (l_rssi l) ∧ is_i8 (l_snr l).
Record stub_ok (s : stub) : Prop := mk_stub_ok {
  so_ipv4 : length (s_dev_ipv4 s) = 2%nat ∧ Forall ipv4_typed (s_dev_ipv4 s);
  so_routes : length (s_routes s) = 16%nat ∧ Forall (λ r, is_u32 (sr_mask r)) (s_routes s) ∧ 0 <= s_route_n s <= STUB_ROUTE_MAX;
  so_link : length (s_link s) = 2%nat ∧ length (s_link_set s) = 2%nat ∧ Forall injected_link (s_link s) }.
(** The arguments of a call as their C types hold them. *)
Definition call_typed (c : stub_call) : Prop :=
  match c with
  | SetDevIpv4 _ ip mask gw => is_u32 ip ∧ is_u32 mask ∧ is_u32 gw
  | RouteAdd _ mask _ => is_u32 mask
  | SetLink _ _ freq ch => is_u16 freq ∧ is_u16 ch
  | SetLinkSignal _ _ rssi _ snr => is_i8 rssi ∧ is_i8 snr
  | _ => True
  end.
Lemma stub_zero_ok : stub_ok stub_zero.
Proof. constructor; (split; [done|]); try (split; [done|]); try done; by repeat constructor. Qed.
Lemma apply_radio_keeps ex ev cfg s :
  let s' := (stub_apply_radio_config ex ev cfg s).2 in
  (s_dev_ipv4 s', s_routes s', s_route_n s', s_route_explicit s', s_link s', s_link_set s', s_validate_radio_error s') =
  (s_dev_ipv4 s, s_routes s, s_route_n s, s_route_explicit s, s_link s, s_link_set s, s_validate_radio_error s).
Proof.
  unfold stub_apply_radio_config, radio_seen. destruct (opc_scan_derive_freq_ch _ _) as [f c]. cbv zeta.
  repeat case_match; done.
Qed.
Lemma stub_do_ok c s : call_typed c → stub_ok s → stub_ok (stub_do c s).
Proof.
  intros Hc [[I1 I2] (R1 & R2 & R3) (L1 & L2 & L3)]. destruct c; cbn [stub_do]; try (by constructor).
  - unfold stub_set_dev_ipv4. destruct (_ || _); [by constructor|]. constructor; [|done..]. cbn.
    split; [by rewrite length_insert|]. by apply Forall_insert.
  - constructor; [|done..]. cbn. split; [done|]. by repeat constructor.
  - unfold stub_route_add. cbv zeta. destruct (_ <? _) eqn:En; [|by constructor]. guards. constructor; [done| |done]. cbn in *.
    split; [by rewrite length_insert|]. split; [by apply Forall_insert|]. unfold STUB_ROUTE_MAX in *. lia.
  - unfold stub_set_link. destruct (link_idx_bad _); [by constructor|]. constructor; [done..|]. cbn. rewrite !length_insert.
    split; [done|]. split; [done|]. apply Forall_insert; [done|]. destruct Hc. by destruct assoc.
  - unfold stub_set_link_signal. destruct (link_idx_bad _); [by constructor|]. constructor; [done..|]. cbn. rewrite length_alter.
    split; [done|]. split; [done|]. destruct Hc. apply Forall_alter; [done|]. by intros l _ (? & ? & ? & _).
  - unfold stub_set_link_rate. destruct (link_idx_bad _); [by constructor|]. constructor; [done..|]. cbn. rewrite length_alter.
    split; [done|]. split; [done|]. apply Forall_alter; [done|]. by intros l _ (? & ? & ? & ? & ?).
  - pose proof (apply_radio_keeps exists_now ev cfg s) as Hk. cbv zeta in Hk. injection Hk as E1 E2 E3 E4 E5 E6 _.
    constructor; rewrite ?E1, ?E2, ?E3, ?E5, ?E6; by split.
Qed.

(** ** The injected routes and the board's lookup *)

(** A route of the table as the kernel would print it. *)
Definition sr_plen (r : stub_route) : Z := mask_bits (sr_mask r).
Definition kernel_route (r : stub_route) : route :=
  mk_route (str "eth0") (sr_dest r) (sr_plen r) (sr_gw r) (if sr_gw r =? 0 then 1 else 3) 0 0 0 [].
Definition stub_route_ok (r : stub_route) : Prop :=
  0 <= sr_plen r <= 32 ∧ sr_mask r = prefix_mask (sr_plen r) ∧ is_u32 (sr_dest r) ∧ is_u32 (sr_gw r) ∧
  sr_dest r mod 2 ^ (32 - sr_plen r) = 0.

Lemma kernel_route_ok r : stub_route_ok r → route_ok (kernel_route r).
Proof.
  intros (Hp & Hm & Hd & Hg & Ha). unfold route_ok, kernel_route. cbn [rt_iface rt_plen rt_net rt_gw rt_flags rt_refcnt rt_use rt_metric rt_rest].
  split_and!; try done; try (destruct (sr_gw r =? 0); lia).
  - repeat (apply Forall_cons_2; [done|]). constructor.
  - by left.
Qed.
Lemma kernel_route_direct r : stub_route_ok r → row_direct (row_of (kernel_route r)) = (sr_gw r =? 0).
Proof.
  intros Hr. apply eq_true_iff_eq. rewrite direct_row by (by apply kernel_route_ok). unfold direct, kernel_route. cbn [rt_gw rt_flags rt_iface].
  rewrite Z.eqb_eq. split; [by intros []|]. intros ->. done.
Qed.
Definition best_seen (b : option stub_route) : best := match b with None => mk_best (-1) 0 false 0 | Some r => best_found (kernel_route r) end.
Lemma prefix_mask_lt a b : 0 <= a <= 32 → 0 <= b <= 32 → (prefix_mask a <? prefix_mask b) = (a <? b).
Proof.
  intros Ha Hb. apply eq_true_iff_eq. rewrite !Z.ltb_lt. unfold prefix_mask.
  assert (2 ^ (32 - b) < 2 ^ (32 - a) ↔ 32 - b < 32 - a) by (symmetry; apply Z.pow_lt_mono_r_iff; lia). lia.
Qed.
Lemma kernel_route_covers dst r : is_u32 dst → stub_route_ok r → (Z.land dst (sr_mask r) =? sr_dest r) = bool_decide (covers dst (kernel_route r)).
Proof.
  intros Hd Hr. rewrite <- covers_row by (try done; by apply kernel_route_ok). destruct Hr as (_ & Hm & _).
  change (rt_plen (kernel_route r)) with (sr_plen r). rewrite <- Hm. change (rt_net (kernel_route r)) with (sr_dest r).
  change (rt_flags (kernel_route r)) with (if sr_gw r =? 0 then 1 else 3). by destruct (sr_gw r =? 0).
Qed.
Lemma kernel_route_better dst b r : is_u32 dst → stub_route_ok r →
  row_step dst b (row_of (kernel_route r)) =
  if negb (Z.land dst (sr_mask r) =? sr_dest r) then b
  else if (b_bits b <? sr_plen r) || (sr_plen r =? b_bits b) && (0 <? b_metric b) then best_found (kernel_route r) else b.
Proof.
  intros Hd Hr. rewrite row_step_route by (try done; by apply kernel_route_ok). rewrite kernel_route_covers by done.
  change (rt_plen (kernel_route r)) with (sr_plen r). change (rt_metric (kernel_route r)) with 0.
  case_bool_decide as Hc; cbn [negb]; [|by rewrite decide_False by tauto].
  destruct (_ || _) eqn:E; [rewrite decide_True; [done|]|rewrite decide_False; [done|]].
  - split; [done|]. apply orb_true_iff in E as [E|E]; guards; [by left|by right].
  - apply orb_false_iff in E as [E1 E2]. apply Z.ltb_ge in E1. intros [_ [Hlt|[Heq Hlt]]]; [lia|]. by rewrite Heq, Z.eqb_refl, (proj2 (Z.ltb_lt _ _) Hlt) in E2.
Qed.
Lemma route_step_row dst b r : is_u32 dst → stub_route_ok r → (∀ x, b = Some x → stub_route_ok x) →
  row_step dst (best_seen b) (row_of (kernel_route r)) = best_seen (route_step dst b r).
Proof.
  intros Hd Hr Hb. rewrite kernel_route_better by done. unfold route_step. destruct (negb _); [done|]. pose proof Hr as (Hp & Hm & _).
  destruct b as [x|]; cbn [best_seen].
  - pose proof (Hb x eq_refl) as (Hxp & Hxm & _). rewrite Hm, Hxm, prefix_mask_lt by done.
    change (b_bits (best_found (kernel_route x))) with (sr_plen x). change (b_metric (best_found (kernel_route x))) with 0.
    change (0 <? 0) with false. rewrite andb_false_r, orb_false_r. by destruct (_ <? _).
  - cbn [b_bits]. by rewrite (proj2 (Z.ltb_lt (-1) (sr_plen r))) by lia.
Qed.
Lemma routes_fold dst l : is_u32 dst → Forall stub_route_ok l →
  foldl (row_step dst) (mk_best (-1) 0 false 0) (map row_of (map kernel_route l)) = best_seen (foldl (route_step dst) None l) ∧
  (∀ x, foldl (route_step dst) None l = Some x → stub_route_ok x).
Proof.
  intros Hd. induction l as [|r l IH] using rev_ind; intros Hl; [done|].
  apply Forall_app in Hl as [Hl Hr]. apply Forall_cons_1 in Hr as [Hr _]. destruct (IH Hl) as [E Hx].
  rewrite !map_app, !foldl_app. cbn [map foldl]. rewrite E, route_step_row by done. split; [done|].
  intros x. unfold route_step. destruct (negb _); [apply Hx|]. destruct (foldl _ None l) as [b|]; [|by intros [= <-]].
  destruct (_ <? _); [by intros [= <-]|apply Hx].
Qed.
Lemma stub_table_lookup dst l : is_u32 dst → Forall stub_route_ok l →
  opcd_route_direct_lookup (Some (route_table (map kernel_route l))) dst =
  match foldl (route_step dst) None l with Some b => if sr_gw b =? 0 then Some (sr_mask b) else None | None => None end.
Proof.
  intros Hd Hl. rewrite lookup_table; [|done|apply Forall_map; eapply Forall_impl; [exact Hl|apply kernel_route_ok]].
  destruct (routes_fold dst l Hd Hl) as [-> Hx]. cbv zeta. destruct (foldl _ None l) as [x|]; cbn [best_seen]; [|done].
  pose proof (Hx x eq_refl) as Hr. pose proof Hr as (Hp & Hm & _). unfold best_found. cbn [b_bits b_direct b_mask].
  rewrite kernel_route_direct by done. cbn [kernel_route rt_plen]. rewrite (proj2 (Z.ltb_ge _ _)) by lia. rewrite <- Hm.
  by destruct (sr_gw x =? 0).
Qed.

(** The printed table is short and has no NUL: the board's buffer holds all of it. *)
Lemma kernel_line_plain r : stub_route_ok r → Forall (λ c, c ≠ 0) (print_route (kernel_route r)).
Proof.
  intros (Hp & Hm & Hd & Hg & _).
  assert (Hx : ∀ n v, 0 <= v → Forall (λ c, c ≠ 0) (hexn n v)).
  { intros n v Hv. destruct (hexn_facts n v Hv) as (Hh & _). eapply Forall_impl; [exact Hh|]. by intros c Hc ->. }
  assert (H0 : Forall (λ c, c ≠ 0) (dec 0)) by (vm_compute; by repeat constructor).
  destruct (ntohl_twice _ Hd) as [Hd1 _], (ntohl_twice _ Hg) as [Hg1 _], (ntohl_twice _ (prefix_mask_u32 _ Hp)) as [Hm1 _].
  unfold print_route, kernel_route. cbn [rt_iface rt_plen rt_net rt_gw rt_flags rt_refcnt rt_use rt_metric rt_rest].
  assert (Hf : 0 <= (if sr_gw r =? 0 then 1 else 3)) by (by destruct (_ =? 0)).
  repeat (apply Forall_app_2; [first [apply Hx; lia|done|repeat (apply Forall_cons_2; [done|]); constructor]|]; try (apply Forall_cons_2; [done|])).
  constructor.
Qed.
Lemma text_plain ls : Forall (Forall (λ c, c ≠ 0)) ls → Forall (λ c, c ≠ 0) (text ls).
Proof. induction 1 as [|l ls Hl _ IH]; [constructor|]. rewrite text_cons. apply Forall_app_2; [done|]. by apply Forall_cons_2. Qed.
Lemma text_len n ls : Forall (λ l, len l < n) ls → len (text ls) <= n * len ls.
Proof. induction 1 as [|l ls Hl _ IH]; [unfold len; cbn; lia|]. rewrite text_cons, len_app, !len_cons. lia. Qed.
Lemma kernel_table_fits l : Forall stub_route_ok l → len l <= STUB_ROUTE_MAX →
  cstr (take (Z.to_nat (PlatformRead.PlatformRead.ROUTE_TEXT - 1)) (route_table (map kernel_route l))) = route_table (map kernel_route l).
Proof.
  intros Hl Hn. assert (Hlen : len (route_table (map kernel_route l)) <= 256 * len (route_header :: map print_route (map kernel_route l))).
  { apply text_len. apply Forall_cons_2; [by vm_compute|]. apply Forall_map, Forall_map. eapply Forall_impl; [exact Hl|].
    intros r Hr. by apply print_route_line, kernel_route_ok. }
  rewrite len_cons in Hlen. unfold len in Hlen, Hn. rewrite !length_map in Hlen. unfold STUB_ROUTE_MAX in Hn. unfold PlatformRead.PlatformRead.ROUTE_TEXT.
  rewrite take_ge by lia. apply cstr_nul_free, text_plain. apply Forall_cons_2; [vm_compute; by repeat constructor|].
  apply Forall_map, Forall_map. eapply Forall_impl; [exact Hl|]. apply kernel_line_plain.
Qed.

(** The tests' routes and the board's agree: for every explicit table of routes with
    contiguous netmasks, the stub's lookup gives, return code and netmask, what the board's
    lookup gives on the text the kernel prints for that table. *)
Theorem stub_routes_like_board s dst :
  s_route_explicit s = true → 0 <= s_route_n s <= STUB_ROUTE_MAX → Forall stub_route_ok (routes_in_use s) → is_u32 dst →
  stub_lookup_direct_route s dst =
  PlatformRead.PlatformRead.nxp_lookup_direct_route (inr (route_table (map kernel_route (routes_in_use s)))) dst.
Proof.
  intros He Hn Hl Hd. unfold stub_lookup_direct_route, PlatformRead.PlatformRead.nxp_lookup_direct_route. rewrite He. cbn [negb].
  rewrite kernel_table_fits; [|done|unfold routes_in_use, len; rewrite length_take; lia]. rewrite stub_table_lookup by done.
  destruct (foldl _ None _) as [b|]; [|done]. by destruct (sr_gw b =? 0).
Qed.
End Stub.
