(* ===== verification/Platforms.v ===== *)
(** * The two platforms behind the operations table: the board and the stub

    [stub_env]: the daemon linked with opcd/platform_stub.c. Both this environment and the
    board of Board.v discharge the contract of Contract.v over any kernel whose files hold
    bytes, so what is proved against the contract holds of both builds. *)
From S2P Require Import Prelude CText Codec ScanList Commands Indications Messages Store StoreAsync IpListText FaultProbe State Indication Validate RadioConf Persist Handlers IpListLoad Daemon SimEnv Logic Routes PlatformRead PlatformRun PlatformApply Snapshot Board BoardInfo Contract Stub.
From stdpp Require Import base list numbers option tactics strings.
From Stdlib Require Import ZArith Lia.
#[local] Open Scope Z_scope.
Import Commands ScanList IpListText Validate Board.Board BoardInfo.BoardInfo Stub.Stub.

Module Platforms.

(** ** The daemon on the stub *)

(** What the stub sees of the process around it: the files that exist and the variable that
    injects a return code. *)
Record stub_io (B : Type) := mk_stub_io { si_exists : B → string → bool; si_apply_rc : B → option (list Z) }.
Arguments si_exists {B} _ _ _.
Arguments si_apply_rc {B} _ _.
Record stubbed (B : Type) := mk_stubbed { sb_base : B; sb_stub : stub; sb_inv : opcd_inventory_t }.
Arguments mk_stubbed {B} _ _ _.
Arguments sb_base {B} _.
Arguments sb_stub {B} _.
Arguments sb_inv {B} _.

Section StubEnv.
Context {B : Type} `{Env B} (io : stub_io B).

(** A call of the kernel, and one that changes the stub's statics. *)
Definition below {A} (op : B → A * B) (b : stubbed B) : A * stubbed B :=
  let '(x, e) := op (sb_base b) in (x, mk_stubbed e (sb_stub b) (sb_inv b)).
Definition mutate {A} (op : stub → A * stub) (b : stubbed B) : A * stubbed B :=
  let '(x, s) := op (sb_stub b) in (x, mk_stubbed (sb_base b) s (sb_inv b)).
Definition field_of (n : Z) (r : Z * option (list Z)) : list Z := in_field n (default [] r.2).

(** The capability check is a query of [Env]; the counter of its calls, which only the tests
    read, is not advanced. *)
Definition stub_env : Env (stubbed B) := {|
  env_mono := below env_mono;
  env_timestamp := below env_timestamp;
  env_sendto ip port f := below (env_sendto ip port f);
  env_readings p := below (env_readings p);
  env_write path data mode := below (env_write path data mode);
  env_read path cap := below (env_read path cap);
  env_unlink path := below (env_unlink path);
  env_stat path := below (env_stat path);
  env_rename a b := below (env_rename a b);
  env_open_user path := below (env_open_user path);
  lookup_direct_route dst b := (match stub_lookup_direct_route (sb_stub b) dst with inr mask => Some mask | inl _ => None end, b);
  get_dev_ipv4 iface b := (stub_get_dev_ipv4 (sb_stub b) iface, b);
  get_link idx b := (let '(rc, l) := stub_get_link (sb_stub b) idx in if rc =? 0 then l else None, b);
  get_eth_mac b := (stub_get_eth_mac.2, b);
  get_wlan_mac idx b := (default (zeros 6) (stub_get_wlan_mac idx).2, b);
  get_essid idx b := (field_of OPC_ESSID_FIELD_LEN (stub_get_essid idx OPC_ESSID_FIELD_LEN), b);
  get_firmware_version b := (field_of OPC_VERSION_FIELD_LEN (stub_get_firmware_version OPC_VERSION_FIELD_LEN), b);
  get_ntp_server b := (stub_get_ntp_server.2, b);
  validate_radio_config cfg b := capability_of (stub_validate_radio_config cfg (sb_stub b)).1;
  apply_radio_config cfg b := mutate (stub_apply_radio_config (si_exists io (sb_base b)) (si_apply_rc io (sb_base b)) cfg) b;
  apply_ip_change e iface n := mutate (stub_apply_ip_change e iface n);
  peer_route_refresh ip mask := mutate (stub_peer_route_refresh ip mask);
  opcd_inventory b := sb_inv b;
  opcd_devinfo_cfg_read iface := below (opcd_devinfo_cfg_read iface);
  opcd_snapshot_publish ack := below (opcd_snapshot_publish ack);
  refresh_firmware_version elapsed := mutate (λ s, (tt, stub_refresh_firmware_version elapsed s));
  prepare_reset b := (stub_prepare_reset, b);
  opcd_systemd_watchdog := below opcd_systemd_watchdog;
  opcd_system_stopping := below opcd_system_stopping;
  opcd_reset_cause_read := below opcd_reset_cause_read |}.
End StubEnv.

(** ** The contract, discharged *)

Section StubContract.
Context {B : Type} `{KernelContract B} (io : stub_io B).
#[local] Instance the_stub : Env (stubbed B) := stub_env io.

Definition stub_inv (b : stubbed B) : Prop := kc_inv (sb_base b) ∧ stub_ok (sb_stub b) ∧ inventory_ok (sb_inv b).
Lemma below_keeps {A} (op : B → A * B) : op_keeps kc_inv op → op_keeps stub_inv (below op).
Proof. intros Hop b (Hk & Hs & Hi). specialize (Hop _ Hk). unfold below. by destruct (op (sb_base b)). Qed.
Lemma mutate_keeps {A} (op : stub → A * stub) : (∀ s, stub_ok s → stub_ok (op s).2) → op_keeps stub_inv (mutate op).
Proof. intros Hop b (Hk & Hs & Hi). specialize (Hop _ Hs). unfold mutate. by destruct (op (sb_stub b)). Qed.
Lemma stub_kept : env_kept stub_inv.
Proof.
  constructor; intros; try (apply below_keeps; apply kc_kept); try (by intros b Hb).
  - intros b Hb. apply (mutate_keeps (stub_apply_radio_config (si_exists io (sb_base b)) (si_apply_rc io (sb_base b)) cfg)); [|done].
    intros s Hs. by apply (stub_do_ok (ApplyRadio (si_exists io (sb_base b)) (si_apply_rc io (sb_base b)) cfg)).
  - apply mutate_keeps. intros s Hs. by eapply (stub_do_ok (ApplyIp _ _ _)).
  - apply mutate_keeps. intros s Hs. by eapply (stub_do_ok (PeerRoute _ _)).
Qed.
Lemma link_zero_typed : link_typed PlatformRead.PlatformRead.link_zero.
Proof. by constructor. Qed.
#[global] Instance stub_contract : PlatformContract (stubbed B).
Proof.
  refine {| pc_inv := stub_inv; pc_kept := stub_kept |}.
  - intros path cap b data (Hk & _) Hr. apply (kc_read path cap (sb_base b)); [done|]. revert Hr.
    cbn [env_read the_stub stub_env]. unfold below. by destruct (env_read path cap (sb_base b)).
  - intros i b (_ & [[Hl Hv] _ _] & _). cbn [get_dev_ipv4 the_stub stub_env fst]. unfold stub_get_dev_ipv4. cbv zeta.
    destruct (_ && _) eqn:Ed; [|by destruct (i =? 1)]. destruct (s_dev_ipv4 (sb_stub b) !! Z.to_nat i) as [v|] eqn:Ev; cbn [default].
    + by eapply Forall_lookup_1 in Hv; [|exact Ev].
    + by apply andb_true_iff in Ed as [_ Ed].
  - intros i b l (_ & [_ _ (Hl & _ & Hv)] & _). cbn [get_link the_stub stub_env fst]. unfold stub_get_link.
    destruct (_ && _); [|destruct (_ || _); [done|intros [= <-]; apply link_zero_typed]].
    cbn [Z.eqb]. intros Hlk. eapply Forall_lookup_1 in Hv as (? & ? & ? & ? & ?); [|exact Hlk]. by constructor.
  - done.
  - intros i b _. cbn [get_wlan_mac the_stub stub_env fst]. unfold stub_get_wlan_mac. by destruct (_ || _).
  - intros i b _. cbn [get_essid the_stub stub_env fst]. unfold stub_get_essid. by destruct (_ || _).
  - done.
  - done.
  - by intros b (_ & _ & Hi).
Defined.
End StubContract.

Section BoardContract.
Context {B : Type} `{KernelContract B} (k : hw B).
#[local] Instance contract_board : Env (board B) := board_env k.

Definition board_inv (b : board B) : Prop := kc_inv (b_base b) ∧ inventory_ok (b_inv b).
Lemma base_keeps {A} (op : B → A * B) : op_keeps kc_inv op → op_keeps board_inv (base op).
Proof. intros Hop b (Hk & Hi). specialize (Hop _ Hk). unfold base. by destruct (op (b_base b)). Qed.
Lemma stepping_keeps {A} (op : (list PlatformApply.PlatformApply.step → Z) → PlatformApply.PlatformApply.P A) b :
  board_inv b → board_inv (stepping k op b).2.
Proof. intros Hb. unfold stepping. by destruct (op _ _). Qed.
Lemma board_kept : env_kept board_inv.
Proof.
  constructor; intros; try (apply base_keeps; apply kc_kept); try (by intros b Hb); intros b Hb; by apply stepping_keeps.
Qed.
#[global] Instance board_contract : PlatformContract (board B).
Proof.
  refine {| pc_inv := board_inv; pc_kept := board_kept |}.
  - intros path cap b data (Hk & _) Hr. apply (kc_read path cap (b_base b)); [done|]. revert Hr.
    cbn [env_read contract_board board_env]. unfold base. by destruct (env_read path cap (b_base b)).
  - intros i b _. cbn [get_dev_ipv4 contract_board board_env fst]. pose proof (dev_ipv4_u32 (now k b) i) as Hd.
    by destruct (PlatformRead.PlatformRead.nxp_get_dev_ipv4 _ _) as [rc [[ip m] gw]].
  - intros i b l _ Hl. change (link_now (now k b) i = Some l) in Hl. apply link_now_ok in Hl as [F C [L _] R S _ _ _ _ _].
    constructor; try done. unfold len. by rewrite L.
  - intros b _. apply eth_mac_len.
  - intros i b _. apply wlan_mac_len.
  - intros i b _. apply essid_field_len.
  - intros b _. apply fw_field_len.
  - intros b _. apply ntp_u32.
  - by intros b (_ & Hi).
Defined.
End BoardContract.

(** The kernel of SimEnv.v below them. *)
#[export] Instance sim_kernel : KernelContract Z.
Proof. refine {| kc_inv := λ _, True |}; [by constructor|done]. Defined.
Definition quiet_io : stub_io Z := mk_stub_io Z (λ _ _, false) (λ _, None).
Definition example_stub : stubbed Z := mk_stubbed 10 stub_zero sim_inventory.
Lemma example_platforms : board_inv example_board ∧ stub_inv example_stub.
Proof.
  assert (Hi : inventory_ok sim_inventory) by (vm_compute; repeat split; done).
  split; [by split|]. split; [done|]. split; [apply stub_zero_ok|done].
Qed.
End Platforms.
