(* ===== verification/TypedRun.v ===== *)
(** * Every value the daemon holds and reports fits its type

    On a platform that keeps the contract of Contract.v, the radio configurations, the device
    status and the station type stay within their C types from the start on, through any
    events; so in every state the daemon can reach, its two data answers (GetBasicInfo and
    GetDeviceInfo) are well formed and read back. *)
From S2P Require Import Prelude CText Codec ScanList Commands Indications Messages Store StoreAsync IpListText FaultProbe State Indication Validate RadioConf Persist Handlers IpListLoad Daemon SimEnv Logic Frames Reachable Session PlatformRead Board BoardInfo Contract Stub Platforms.
From stdpp Require Import base list numbers option tactics strings.
From Stdlib Require Import ZArith Lia.
#[local] Open Scope Z_scope.
Import Commands ScanList IpListText Validate BoardInfo.BoardInfo.
Import Store.Store StoreAsync.StoreAsync FaultProbe.FaultProbe.
Import Board.Board (example_hw, example_board, board_env).
Import Platforms.Platforms.

Module TypedRun.

(** ** The typed part of the state *)

Definition req_typed (r : opc_set_radio_config_req_t) : Prop :=
  is_u16 (station_type r) ∧ is_u16 (priority_ch r) ∧ cfg_ok (wlan1 r) ∧ cfg_ok (wlan2 r).
Record typed_part := mk_part { tp_boot : Z; tp_station : Z; tp_radio : opc_set_radio_config_req_t; tp_revert : opc_set_radio_config_req_t }.
Definition part_of (s : opcd_state_t) : typed_part :=
  mk_part (boot_status s) (default_station_type (conf s)) (radio s) (radio_revert_cfg s).
Definition part_typed (p : typed_part) : Prop :=
  is_u32 (tp_boot p) ∧ is_u16 (tp_station p) ∧ req_typed (tp_radio p) ∧ req_typed (tp_revert p).
Definition typed (s : opcd_state_t) : Prop := part_typed (part_of s).
Lemma typed_intro s : is_u32 (boot_status s) → is_u16 (default_station_type (conf s)) → req_typed (radio s) →
  req_typed (radio_revert_cfg s) → typed s.
Proof. intros Hb Hc Hr Hv. split; [exact Hb|]. split; [exact Hc|]. split; [exact Hr|exact Hv]. Qed.
Lemma typed_settings s : typed s → settings_ok s.
Proof.
  intros (Hb & Hc & (H1 & H2 & H3 & H4) & _). cbn in *. split_and!; try done.
  unfold effective_station_type. by destruct (negb _).
Qed.

Section Run.
Context {E : Type} `{PlatformContract E}.
Abbreviation keeps_typed m := (tkeeps (E := E) typed m).

Lemma typed_next_seq : keeps_typed next_seq.
Proof. unfold next_seq. tkeeps. Qed.
Lemma typed_send_indication_frame f : keeps_typed (send_indication_frame f).
Proof. unfold send_indication_frame. tkeeps. Qed.
#[local] Hint Resolve typed_next_seq typed_send_indication_frame : frames.
Lemma typed_init_complete status : keeps_typed (opcd_ind_init_complete status).
Proof. unfold opcd_ind_init_complete. tkeeps. Qed.
Lemma typed_emit_wlan_status status ch : keeps_typed (emit_wlan_status status ch).
Proof. unfold emit_wlan_status. tkeeps. Qed.
Lemma typed_emit_roaming snr rssi mac ch : keeps_typed (emit_roaming snr rssi mac ch).
Proof. unfold emit_roaming. tkeeps. Qed.
Lemma typed_emit_ap_disconnect m r mac : keeps_typed (emit_ap_disconnect m r mac).
Proof. unfold emit_ap_disconnect. tkeeps. Qed.
Lemma typed_emit_fault_detect c v : keeps_typed (emit_fault_detect c v).
Proof. unfold emit_fault_detect. tkeeps. Qed.
Lemma typed_set_coalesce i f : keeps_typed (set_coalesce i f).
Proof. unfold set_coalesce. tkeeps. Qed.
#[local] Hint Resolve typed_init_complete typed_emit_wlan_status typed_emit_roaming
  typed_emit_ap_disconnect typed_emit_fault_detect typed_set_coalesce : frames.
Lemma typed_radio_up : keeps_typed opcd_ind_radio_up.
Proof. unfold opcd_ind_radio_up. tkeeps. Qed.
#[local] Hint Resolve typed_radio_up : frames.
Lemma typed_wlan_status status ch : keeps_typed (opcd_ind_wlan_status status ch).
Proof. unfold opcd_ind_wlan_status, opcd_mono_now_s. tkeeps. Qed.
Lemma typed_roaming snr rssi mac ch : keeps_typed (opcd_ind_roaming snr rssi mac ch).
Proof. unfold opcd_ind_roaming. tkeeps. Qed.
Lemma typed_ap_disconnect m r mac : keeps_typed (opcd_ind_ap_disconnect m r mac).
Proof. unfold opcd_ind_ap_disconnect. tkeeps. Qed.
Lemma typed_fault_detect c v : keeps_typed (opcd_ind_fault_detect c v).
Proof. unfold opcd_ind_fault_detect. tkeeps. Qed.
Lemma typed_fault_clear c : keeps_typed (opcd_ind_fault_clear c).
Proof. unfold opcd_ind_fault_clear. tkeeps. Qed.
Lemma typed_reset_notice c : keeps_typed (opcd_ind_reset_notice c).
Proof. unfold opcd_ind_reset_notice. tkeeps. Qed.
Lemma typed_keep_alive ts : keeps_typed (opcd_ind_keep_alive ts).
Proof. unfold opcd_ind_keep_alive. tkeeps. Qed.
Lemma typed_coalesce_reset : keeps_typed opcd_ind_coalesce_reset.
Proof. unfold opcd_ind_coalesce_reset. tkeeps. Qed.
#[local] Hint Resolve typed_wlan_status typed_roaming typed_ap_disconnect typed_fault_detect typed_fault_clear
  typed_reset_notice typed_keep_alive typed_coalesce_reset : frames.
Lemma typed_fault_notify b c p r : keeps_typed (fault_notify b c p r).
Proof. unfold fault_notify. tkeeps. Qed.
#[local] Hint Resolve typed_fault_notify : frames.
Lemma typed_fault_probe_tick n : keeps_typed (fault_probe_tick n).
Proof. unfold fault_probe_tick. tkeeps. Qed.
Lemma typed_get_coalesce i : keeps_typed (get_coalesce i).
Proof. unfold get_coalesce. tkeeps. Qed.
Lemma typed_flush_one b m d : keeps_typed m → keeps_typed d → keeps_typed (flush_one b m d).
Proof. intros ??. unfold flush_one. tkeeps; done. Qed.
#[local] Hint Resolve typed_fault_probe_tick typed_get_coalesce typed_flush_one : frames.
Lemma typed_flush_faults i k n : keeps_typed (flush_faults i k n).
Proof. revert k. induction n as [|n IH]; intros k; simpl; tkeeps. Qed.
#[local] Hint Resolve typed_flush_faults : frames.
Lemma typed_flush_link i : keeps_typed (flush_link i).
Proof. unfold flush_link. tkeeps. Qed.
#[local] Hint Resolve typed_flush_link : frames.
Lemma typed_tick n : keeps_typed (opcd_ind_tick_elapsed n).
Proof. unfold opcd_ind_tick_elapsed, period_flush. tkeeps. Qed.
Lemma typed_platform_event evt : keeps_typed (on_platform_event evt).
Proof. unfold on_platform_event. tkeeps. Qed.
#[local] Hint Resolve typed_tick typed_platform_event : frames.

(** ** Persistence and the radio transaction *)

Lemma typed_session_touch : keeps_typed session_touch.
Proof. unfold session_touch, mono_now. tkeeps. Qed.
Lemma typed_with_store {A} (dflt : A) f : keeps_typed (with_store dflt f).
Proof. unfold with_store. tkeeps. Qed.
#[local] Hint Resolve typed_session_touch typed_with_store : frames.
Lemma typed_store_cancel r : keeps_typed (store_cancel r).
Proof. unfold store_cancel. tkeeps. Qed.
Lemma typed_iplist_write_user : keeps_typed iplist_write_user.
Proof. unfold iplist_write_user. tkeeps. Qed.
#[local] Hint Resolve typed_store_cancel typed_iplist_write_user : frames.
Lemma typed_iplist_mirror_user : keeps_typed iplist_mirror_user.
Proof. unfold iplist_mirror_user. tkeeps. Qed.
Lemma typed_password_note c o : keeps_typed (password_note_outcome c o).
Proof. unfold password_note_outcome. tkeeps. Qed.
Lemma typed_radio_txn_arm r : keeps_typed (radio_txn_arm r).
Proof. unfold radio_txn_arm. tkeeps. Qed.
Lemma typed_radio_txn_clear : keeps_typed radio_txn_clear.
Proof. unfold radio_txn_clear. tkeeps. Qed.
Lemma typed_radio_arm_revert b c v : req_typed b → keeps_typed (radio_arm_revert b c v).
Proof.
  intros Hb. apply tkeeps_modify. intros s (T1 & T2 & T3 & T4). destruct (negb v); apply typed_intro; assumption.
Qed.
Lemma typed_radio_revert_drain : keeps_typed opcd_radio_revert_drain.
Proof.
  unfold opcd_radio_revert_drain. tkeeps. apply tkeeps_modify. intros s (T1 & T2 & T3 & T4).
  case_match; apply typed_intro; assumption.
Qed.
Lemma typed_arm_ip_change : keeps_typed arm_ip_change_from_committed.
Proof. unfold arm_ip_change_from_committed. tkeeps. Qed.
#[local] Hint Resolve typed_iplist_mirror_user typed_password_note typed_radio_txn_arm typed_radio_txn_clear typed_radio_revert_drain
  typed_arm_ip_change : frames.
Lemma typed_on_done_password o : keeps_typed (on_done_password o).
Proof. unfold on_done_password. tkeeps. Qed.
Lemma typed_on_done_ip_list o : keeps_typed (on_done_ip_list o).
Proof. unfold on_done_ip_list. tkeeps. Qed.
(** A step whose argument is a configuration of the state. *)
Lemma typed_get_bind {A} (k : opcd_state_t → M E A) : (∀ s, typed s → keeps_typed (k s)) → keeps_typed (s ← get; k s).
Proof. intros Hk s Hs. apply wpt_bind, wpt_get. by apply Hk. Qed.
Lemma typed_on_done_radio g o : keeps_typed (on_done_radio g o).
Proof.
  unfold on_done_radio. apply typed_get_bind. intros st (_ & _ & _ & Hr).
  assert (Hv : ∀ c v, keeps_typed (radio_arm_revert (radio_revert_cfg st) c v)) by (intros; by apply typed_radio_arm_revert).
  tkeeps; apply Hv.
Qed.
#[local] Hint Resolve typed_on_done_password typed_on_done_ip_list typed_on_done_radio : frames.
Lemma typed_on_done d : keeps_typed (on_done d).
Proof. unfold on_done. tkeeps. Qed.
#[local] Hint Resolve typed_on_done : frames.
Lemma typed_on_done_all ds : keeps_typed (on_done_all ds).
Proof. induction ds; cbn [on_done_all]; tkeeps. Qed.
#[local] Hint Resolve typed_on_done_all : frames.
Lemma typed_on_ready : keeps_typed opcd_store_async_on_ready.
Proof. unfold opcd_store_async_on_ready. tkeeps. Qed.
Lemma typed_admit_attempt r path n : keeps_typed (admit_attempt r path n).
Proof. unfold admit_attempt. tkeeps. Qed.
#[local] Hint Resolve typed_on_ready typed_admit_attempt : frames.
Lemma typed_persist_admit r path n : keeps_typed (persist_admit r path n).
Proof. unfold persist_admit. tkeeps. Qed.
Lemma typed_persist_blob path data mode r na req ip port seq rv : keeps_typed (persist_blob path data mode r na req ip port seq rv).
Proof. unfold persist_blob. tkeeps. Qed.
#[local] Hint Resolve typed_persist_admit typed_persist_blob : frames.
Lemma typed_persist_password c ip port seq rv : keeps_typed (persist_password c ip port seq rv).
Proof. unfold persist_password. tkeeps. Qed.
Lemma typed_persist_radio ip port seq rv : keeps_typed (persist_radio ip port seq rv).
Proof. unfold persist_radio. tkeeps. Qed.
Lemma typed_persist_ip_list ip port seq rv na c : keeps_typed (persist_ip_list ip port seq rv na c).
Proof. unfold persist_ip_list. tkeeps. Qed.
#[local] Hint Resolve typed_persist_password typed_persist_radio typed_persist_ip_list : frames.

(** ** The handlers *)

Lemma typed_session_logout : keeps_typed opcd_session_logout.
Proof.
  unfold opcd_session_logout. tkeeps. apply tkeeps_modify. intros s (T1 & T2 & T3 & T4). by apply typed_intro.
Qed.
Lemma typed_check_login ip : keeps_typed (check_login_required ip).
Proof. unfold check_login_required. tkeeps. Qed.
#[local] Hint Resolve typed_session_logout typed_check_login : frames.
Lemma typed_login f i p c q : keeps_typed (handle_login f i p c q).
Proof.
  unfold handle_login. tkeeps. apply tkeeps_modify. intros s (T1 & T2 & T3 & T4). by apply typed_intro.
Qed.
Lemma typed_logout f i p c q : keeps_typed (handle_logout f i p c q).
Proof. unfold handle_logout. tkeeps. Qed.
Lemma typed_get_basic_info f i p c q : keeps_typed (handle_get_basic_info f i p c q).
Proof. unfold handle_get_basic_info, pack_basic_info_ack. tkeeps. Qed.
Lemma typed_devinfo_wlan_fill c i w a f ch : keeps_typed (devinfo_wlan_fill c i w a f ch).
Proof. unfold devinfo_wlan_fill, devinfo_wlan_cfg. tkeeps. Qed.
#[local] Hint Resolve typed_devinfo_wlan_fill : frames.
Lemma typed_device_info_read : keeps_typed device_info_read.
Proof. unfold device_info_read. tkeeps. Qed.
#[local] Hint Resolve typed_device_info_read : frames.
Lemma typed_device_info_fill : keeps_typed device_info_fill.
Proof. unfold device_info_fill. tkeeps. Qed.
#[local] Hint Resolve typed_device_info_fill : frames.
Lemma typed_get_device_info f i p c q : keeps_typed (handle_get_device_info f i p c q).
Proof. unfold handle_get_device_info. tkeeps. Qed.
Lemma typed_set_password f i p c q : keeps_typed (handle_set_password f i p c q).
Proof. unfold handle_set_password, set_password_store. tkeeps. Qed.
Lemma typed_set_ip_config_list f i p c q : keeps_typed (handle_set_ip_config_list f i p c q).
Proof. unfold handle_set_ip_config_list, set_ip_config_store. tkeeps. Qed.
Lemma typed_change_ip f i p c q : keeps_typed (handle_change_ip_address f i p c q).
Proof. unfold handle_change_ip_address, ipcfg_clashes_other_iface. tkeeps. Qed.
Lemma typed_set_indication f i p c q : keeps_typed (handle_set_indication_config f i p c q).
Proof. unfold handle_set_indication_config, indication_enable, assoc_now, indication_recipient_reachable, opcd_mono_now_s. tkeeps. Qed.
Lemma typed_reset f i p c q : keeps_typed (handle_reset f i p c q).
Proof. unfold handle_reset. tkeeps. Qed.

(** A request of the wire fits its types whatever the frame holds. *)
Lemma unpack_typed f req : opc_set_radio_config_req_unpack f = Some req → req_typed req.
Proof.
  unfold opc_set_radio_config_req_unpack, parse_expect. destruct (opc_frame_parse f) as [[hdr body]|]; [|done].
  destruct (negb _); [done|]. destruct (negb _); [done|]. destruct (Z.ltb_spec (len body) OPC_SET_RADIO_CONFIG_REQ_BODY_LEN) as [|Hl]; [done|].
  intros [= <-]. unfold OPC_SET_RADIO_CONFIG_REQ_BODY_LEN, len in Hl.
  assert (Hs : ∀ off, 0 <= off <= 20 → len (slice off OPC_SCAN_CHLIST_LEN body) = 8).
  { intros off Ho. unfold slice, len, OPC_SCAN_CHLIST_LEN. rewrite length_take, length_drop. lia. }
  split; [apply opc_be16_read_range|]. split; [apply opc_be16_read_range|].
  split; (split; [apply opc_be16_read_range|by apply Hs]).
Qed.
Lemma typed_set_radio_apply req rv i p q : req_typed req → keeps_typed (set_radio_apply req rv i p q).
Proof.
  intros Hreq. unfold set_radio_apply. apply typed_get_bind. intros st (_ & _ & Hr & _). cbn zeta.
  assert (Hv : ∀ c v, keeps_typed (radio_arm_revert (radio st) c v)) by (intros; by apply typed_radio_arm_revert).
  tkeeps; try apply Hv; apply tkeeps_modify; intros s (T1 & T2 & T3 & T4); by apply typed_intro.
Qed.
Lemma typed_set_radio_config f i p c q : keeps_typed (handle_set_radio_config f i p c q).
Proof.
  unfold handle_set_radio_config, set_radio_store. destruct (opc_set_radio_config_req_unpack f) as [req|] eqn:Eu; [|tkeeps].
  apply unpack_typed in Eu. assert (Ha : ∀ rv, keeps_typed (set_radio_apply req rv i p q)) by (intros; by apply typed_set_radio_apply).
  tkeeps.
Qed.
Lemma typed_handler id fn : lookup_handler id = Some fn → ∀ f i p c q, keeps_typed (fn f i p c q).
Proof.
  revert id fn. apply (lookup_handler_ind (λ _ fn, ∀ f i p c q, keeps_typed (fn f i p c q))); auto using typed_login, typed_logout, typed_get_basic_info, typed_get_device_info, typed_set_password,
    typed_set_ip_config_list, typed_change_ip, typed_set_radio_config, typed_set_indication, typed_reset.
Qed.
Lemma typed_dispatch f i p c : keeps_typed (opcd_dispatch f i p c).
Proof.
  unfold opcd_dispatch, mono_now. tkeeps. by eapply typed_handler.
Qed.
#[local] Hint Resolve typed_dispatch : frames.

(** ** The loop *)

Lemma typed_on_datagram dg : keeps_typed (on_datagram dg).
Proof. unfold on_datagram, opcd_reject_bad_length, opcd_post_ack. tkeeps. Qed.
#[local] Hint Resolve typed_on_datagram : frames.
Lemma typed_udp_batch n : ∀ q, keeps_typed (udp_batch n q).
Proof. induction n as [|n IH]; intros q; cbn [udp_batch]; tkeeps. Qed.
Lemma typed_roam_batch n : ∀ q, keeps_typed (roam_batch n q).
Proof. induction n as [|n IH]; intros q; cbn [roam_batch]; tkeeps. Qed.
Lemma typed_drain_events evts : keeps_typed (drain_events evts).
Proof. induction evts; cbn [drain_events]; tkeeps. Qed.
#[local] Hint Resolve typed_udp_batch typed_roam_batch typed_drain_events : frames.
Lemma typed_on_event ev : keeps_typed (on_event ev).
Proof. destruct ev; unfold on_event, on_signal, on_timer, mono_now; tkeeps. Qed.
#[local] Hint Resolve typed_on_event : frames.
Lemma typed_on_events evs : keeps_typed (on_events evs).
Proof. induction evs; cbn [on_events]; tkeeps. Qed.
#[local] Hint Resolve typed_on_events : frames.
Lemma typed_main_loop turns : keeps_typed (main_loop turns).
Proof. induction turns; cbn [main_loop]; unfold loop_turn, opcd_apply_pending_ip_change; tkeeps. Qed.

(** ** Start-up *)

Lemma typed_iplist_write path l skip : keeps_typed (iplist_write path l skip).
Proof. unfold iplist_write. tkeeps. Qed.
Lemma typed_retire legacy : keeps_typed (iplist_retire_legacy legacy).
Proof. unfold iplist_retire_legacy. tkeeps. Qed.
#[local] Hint Resolve typed_iplist_write typed_retire : frames.
Lemma typed_convert legacy : keeps_typed (iplist_convert_legacy legacy).
Proof. unfold iplist_convert_legacy. tkeeps. Qed.
Lemma typed_load_text : keeps_typed iplist_load_text.
Proof. unfold iplist_load_text. tkeeps. Qed.
#[local] Hint Resolve typed_convert typed_load_text : frames.
Lemma typed_load_own : keeps_typed iplist_load_own.
Proof. unfold iplist_load_own. tkeeps. Qed.
Lemma typed_reject user : keeps_typed (iplist_reject_user user).
Proof. unfold iplist_reject_user. tkeeps. Qed.
Lemma typed_unreplaced b : keeps_typed (iplist_user_unreplaced b).
Proof. unfold iplist_user_unreplaced. tkeeps. Qed.
Lemma typed_read_user path cap : keeps_typed (iplist_read_user path cap).
Proof. unfold iplist_read_user. tkeeps. Qed.
#[local] Hint Resolve typed_load_own typed_reject typed_unreplaced typed_read_user : frames.
Lemma typed_take lr b l : keeps_typed (iplist_take_user lr b l).
Proof. unfold iplist_take_user. tkeeps. Qed.
#[local] Hint Resolve typed_take : frames.
Lemma typed_iplist_load : keeps_typed opcd_iplist_load.
Proof. unfold opcd_iplist_load. tkeeps. Qed.
Lemma typed_load_password : keeps_typed load_password.
Proof. unfold load_password. tkeeps. Qed.
#[local] Hint Resolve typed_iplist_load typed_load_password : frames.

Lemma le16_u16 b off : bytes_ok b → is_u16 (le16_read b off).
Proof.
  intros Hb. unfold le16_read. pose proof (rd_range b off Hb). pose proof (rd_range b (off + 1) Hb). unfold is_u8, is_u16 in *. lia.
Qed.
Lemma normalize_cfg w : cfg_ok w →
  let '(_, l) := opc_scan_list_normalize_rows (rc_scan_band w) (rc_scan_chlist w) in
  cfg_ok (mk_radio_cfg (rc_mode w) (rc_bandwidth w) (rc_scan_band w) l).
Proof.
  intros [Hb Hl]. unfold opc_scan_list_normalize_rows. destruct (_ && _); [by split|]. cbv zeta. destruct (_ || _); [by split|].
  split; [done|]. cbn [rc_scan_chlist]. generalize dependent (rc_scan_chlist w). intros l Hl.
  assert (Hw : ∀ o bs l', (o = 0 ∨ o = 4) → len bs = 4 → len l' = 8 → len (write_at o bs l') = 8).
  { intros o bs l' Ho Hbs Hl'. by rewrite len_write_at by lia. }
  assert (Hsl : ∀ o, (o = 0 ∨ o = 4) → len (slice o 4 l) = 4).
  { intros o Ho. apply len_slice; lia. }
  destruct OPC_SCAN_ROW_A_FIRST; repeat (apply Hw; auto).
Qed.
Lemma migrate_typed c : req_typed c → req_typed (opcd_radio_conf_migrate_lists c).2.
Proof.
  intros (R1 & R2 & R3 & R4). unfold opcd_radio_conf_migrate_lists. pose proof (normalize_cfg _ R3) as N1. pose proof (normalize_cfg _ R4) as N2.
  destruct (opc_scan_list_normalize_rows (rc_scan_band (wlan1 c)) _) as [m1 l1].
  destruct (station_type c =? OPC_STATION_DUAL).
  - destruct (opc_scan_list_normalize_rows (rc_scan_band (wlan2 c)) _) as [m2 l2]. by split_and!.
  - by split_and!.
Qed.
Lemma legacy_cfg w : cfg_ok (legacy_radio_wlan_convert w).
Proof.
  unfold legacy_radio_wlan_convert. cbv zeta.
  match goal with |- cfg_ok (mk_radio_cfg _ _ ?b _) => assert (Hb : is_u16 b) by (repeat case_match; done); set (band := b) in * end. clearbody band.
  split; [done|]. cbn [rc_scan_chlist]. destruct (_ && _); [|done]. unfold opc_scan_list_set_channel.
  destruct (opc_scan_bit_for_channel _ _) as [[r b]|] eqn:Eb; [|done].
  destruct (opc_scan_band_known band) eqn:Ek; [|by unfold opc_scan_bit_for_channel in Eb; rewrite Ek, orb_true_r in Eb].
  apply opc_scan_bit_for_channel_iff in Eb as [Hg _]; [|done].
  apply row_set_bit_ok; [apply (bool_decide_unpack _); vm_compute; exact I|done].
Qed.
Lemma restore_typed b : bytes_ok b → req_typed (opcd_radio_conf_restore b).2.
Proof.
  intros Hb. unfold opcd_radio_conf_restore.
  assert (Hd : ∀ rc c, opcd_radio_conf_decode b = Some (rc, c) → req_typed c).
  { intros rc c. unfold opcd_radio_conf_decode. cbv zeta. destruct (Z.eqb_spec (len b) RADIO_SIZE) as [Hl|_].
    - intros [= _ <-]. unfold radio_of_bytes, wlan_of_bytes. unfold RADIO_SIZE in Hl.
      assert (Hs : ∀ off, 0 <= off <= 20 → len (slice off 8 b) = 8).
      { intros off Ho. apply len_slice; lia. }
      split_and!; try (apply le16_u16; exact Hb); (split; [by apply le16_u16|by apply Hs]).
    - destruct (_ =? _); [|done]. intros [= _ <-]. split_and!; try (apply le16_u16; exact Hb); apply legacy_cfg. }
  destruct (if 0 <? len b then _ else None) as [[rc c]|] eqn:Ed; [|done].
  assert (Hc : req_typed c) by (destruct (0 <? len b); [by eapply Hd|done]).
  apply migrate_typed in Hc. destruct (opcd_radio_conf_migrate_lists c) as [[ok moved] out]. cbn [snd] in Hc.
  destruct (negb ok); [done|]. destruct (rc =? 1); [done|]. by destruct moved.
Qed.
Lemma typed_radio_load : keeps_typed opcd_radio_conf_load.
Proof.
  unfold opcd_radio_conf_load. intros s Hs. apply wpt_bind, wpt_get. apply wpt_bind. apply wpt_call; [op_kept|].
  intros e He. assert (Hr : req_typed (opcd_radio_conf_restore (default [] (env_read (p_radio (paths s)) 64 e).1)).2).
  { apply restore_typed. destruct (env_read _ 64 e).1 as [data|] eqn:Er; [|constructor]. by apply pc_read in Er. }
  destruct (opcd_radio_conf_restore _) as [rr loaded]. cbn [snd] in Hr. revert s Hs.
  match goal with |- ∀ s, typed s → wpt ?m _ s => change (keeps_typed m) end. unfold marker_present.
  destruct rr; tkeeps; apply tkeeps_modify; intros s (T1 & T2 & T3 & T4); apply typed_intro; try done.
Qed.
Lemma typed_load : keeps_typed state_load_from_disk.
Proof. pose proof typed_radio_load. unfold state_load_from_disk. tkeeps. Qed.
Lemma typed_start c p fd writer turns : is_u16 (default_station_type c) →
  wpt (E := E) (state_load_from_disk;; publish fd writer;; main_loop turns) (λ _ s, typed s) (configured c p).
Proof.
  intros Hc. assert (H1 : typed (configured c p)) by (apply typed_intro; try done; by vm_compute).
  assert (Hp : keeps_typed (publish fd writer)) by (apply tkeeps_modify; intros s (T1 & T2 & T3 & T4); by apply typed_intro).
  revert H1. generalize (configured c p).
  match goal with |- ∀ s, _ → wpt ?m _ s => change (keeps_typed m) end.
  apply tkeeps_bind; [apply typed_load|intros _]. apply tkeeps_bind; [done|intros _]. apply typed_main_loop.
Qed.

(** ** The data answers *)

Lemma link_part mac link : len mac = 6 → (∀ l, link = Some l → link_typed l) →
  let '(r, _, f, c) := devinfo_wlan_link (devinfo_wlan_unassociated (radio_state_zero <| rs_mac := mac |>)) link in
  part_ok r ∧ is_u16 f.
Proof.
  intros Hm Hl. unfold devinfo_wlan_link.
  destruct link as [l|]; [|split; [|done]; split_and!; try exact Hm; done]. destruct (Hl l eq_refl) as [L1 L2 L3 L4 L5].
  destruct (l_associated l); [|split; [|done]; split_and!; try exact Hm; done].
  cbv zeta. destruct (l_snr_valid l), (l_rssi_valid l); (split; [|done]; split_and!; try exact Hm; try exact L3; try exact L4; try exact L5; done).
Qed.
Lemma fill_typed cfg iface r a f c (s : opcd_state_t) : cfg_ok cfg → part_ok r → is_u16 f →
  wpt (devinfo_wlan_fill cfg iface r a f c) (λ r' s', s' = s ∧ radio_state_ok r') s.
Proof.
  intros [Hb Hl] (P1 & P2 & P3 & P4 & P5) Hf. unfold devinfo_wlan_fill. apply wpt_bind, wpt_get. cbv zeta.
  set (r1 := (r <| rs_scan_band := _ |>) <| rs_scan_chlist := _ |>).
  assert (Hb' : is_u16 (opc_scan_band_or_unset (rc_scan_band cfg))) by (unfold opc_scan_band_or_unset; by destruct (_ =? 0)).
  pose proof (derive_u16 (rs_scan_band r1) (rs_scan_chlist r1)) as Hd. destruct (opc_scan_derive_freq_ch _ _) as [cf cc].
  destruct Hd as [Hd1 Hd2]. pose proof (select_u16 (device_info_freq_source (conf s)) a f c cf cc Hf Hd1 Hd2) as Hsel.
  destruct (select_devinfo_freq_ch _ _ _ _ _ _) as [freq ch]. destruct Hsel as [Hs1 Hs2].
  unfold devinfo_wlan_cfg. destruct (_ && _); [apply wpt_ret; split; [done|by split_and!]|].
  apply wpt_bind, wpt_call; [op_kept|]. intros e _. destruct (opcd_devinfo_cfg_read iface e).1 as [mode bw].
  apply wpt_ret. split; [done|by split_and!].
Qed.

(** The acknowledgment after the readbacks: complete but for the settings of the state. *)
Definition read_ok (ack : opc_get_device_info_ack_t) : Prop :=
  (∀ st w1 w2, settings_ok st → radio_state_ok w1 → radio_state_ok w2 → device_info_ok (with_settings st w1 w2 ack)) ∧
  part_ok (di_wlan1 ack) ∧ part_ok (di_wlan2 ack).
Lemma read_typed (s : opcd_state_t) :
  wpt device_info_read (λ '(ack, (_, f1, _), (_, f2, _)) s', s' = s ∧ read_ok ack ∧ is_u16 f1 ∧ is_u16 f2) s.
Proof.
  unfold device_info_read. apply wpt_bind, wpt_get. apply wpt_bind, wpt_query. intros e0 V0%pc_inventory.
  apply wpt_bind, wpt_call; [op_kept|]. intros e1 V1%pc_fw. apply wpt_bind, wpt_call; [op_kept|]. intros e2 V2%pc_ntp.
  apply wpt_bind, wpt_call; [op_kept|]. intros e3 V3%pc_eth_mac. apply wpt_bind, wpt_call; [op_kept|]. intros e4 V4%(pc_ipv4 (mgmt_ip_iface_idx s)).
  destruct (get_dev_ipv4 _ e4).1 as [rc [[ip mask] gw]]. destruct V4 as (V41 & V42 & V43).
  apply wpt_bind, wpt_call; [op_kept|]. intros e5 V5%(pc_wlan_mac 0). apply wpt_bind, wpt_call; [op_kept|]. intros e6 V6%(pc_essid 0).
  apply wpt_bind, wpt_call; [op_kept|]. intros e7 V7. pose proof (link_part _ (get_link 0 e7).1 V5 (λ l Hl, pc_link 0 e7 l V7 Hl)) as L1.
  destruct (devinfo_wlan_link _ (get_link 0 e7).1) as [[[w1 a1] f1] c1]. destruct L1 as [L1 F1].
  apply wpt_bind. apply (wpt_conseq _ (λ '(w2, _, f2, _) s', s' = s ∧ part_ok w2 ∧ is_u16 f2)).
  { destruct (_ =? _); [|apply wpt_ret; split; [done|by split_and!]].
    apply wpt_bind, wpt_call; [op_kept|]. intros e8 V8%(pc_wlan_mac 1). apply wpt_bind, wpt_call; [op_kept|]. intros e9 V9.
    pose proof (link_part _ (get_link 1 e9).1 V8 (λ l Hl, pc_link 1 e9 l V9 Hl)) as L2.
    destruct (devinfo_wlan_link _ (get_link 1 e9).1) as [[[w2 a2] f2] c2]. apply wpt_ret. by split. }
  intros [[[w2 a2] f2] c2] s' (-> & L2 & F2). apply wpt_ret. split; [done|]. split; [|by split]. split; [|by split].
  intros st x1 x2 (S1 & S2 & S3 & _) X1 X2. destruct V0 as (I1 & I2 & I3 & I4 & I5 & I6 & I7).
  unfold with_settings, device_info_ok. cbv zeta.
  assert (Hpr : is_u16 (if (effective_station_type st =? OPC_STATION_DUAL) && negb (priority_ch (radio st) =? 0) then priority_ch (radio st) else OPC_PRIORITY_CH_UNSET))
    by (destruct (_ && _); done).
  split_and!; done.
Qed.
Lemma info_typed (s : opcd_state_t) : typed s → wpt device_info_fill (λ ack _, device_info_ok ack) s.
Proof.
  intros Hs. unfold device_info_fill. apply wpt_bind. eapply wpt_conseq; [apply read_typed|].
  intros [[ack [[a1 f1] c1]] [[a2 f2] c2]] s' (-> & (Hok & P1 & P2) & F1 & F2).
  apply wpt_bind. eapply wpt_conseq; [by apply typed_session_touch|]. intros ? s1 Hs1. apply wpt_bind, wpt_get. cbv zeta.
  apply typed_settings in Hs1. pose proof Hs1 as (_ & _ & _ & C1 & C2).
  apply wpt_bind. eapply wpt_conseq; [apply (fill_typed _ _ _ _ _ _ s1 C1 P1 F1)|]. intros w1 s2 [-> R1].
  destruct (negb _).
  - apply wpt_ret. change (device_info_ok (with_settings s1 w1 devinfo_wlan_invalid ack)). apply Hok; [exact Hs1|exact R1|by vm_compute].
  - apply wpt_bind. eapply wpt_conseq; [apply (fill_typed _ _ _ _ _ _ s1 C2 P2 F2)|]. intros w2 s3 [-> R2].
    apply wpt_ret. change (device_info_ok (with_settings s1 w1 w2 ack)). by apply Hok.
Qed.
Lemma refused_ok err : is_u16 err →
  device_info_ok ((device_info_zero <| di_result := OPC_RESULT_NG |>) <| di_error_cause := err |>).
Proof. intros He. split; [by vm_compute|]. split; [exact He|]. by vm_compute. Qed.
(** The answer of the handler: the packed form of an acknowledgment within its types. *)
Lemma device_info_answer f i p c q (s : opcd_state_t) : typed s →
  wpt (handle_get_device_info f i p c q)
    (λ resp _, ∃ ack, device_info_ok ack ∧ resp = emit_ack (opc_get_device_info_ack_pack c q ack)) s.
Proof.
  intros Hs. unfold handle_get_device_info. apply wpt_bind.
  apply (wpt_conseq _ (λ '(err, ack) _, match err with Some e => is_u16 e ∧ ack = device_info_zero | None => device_info_ok ack end)).
  - destruct (opc_get_device_info_req_unpack f) as [[]|]; [|by apply wpt_ret].
    apply wpt_bind. apply (wpt_conseq _ (λ e s', typed s' ∧ from_option is_u16 True e)).
    { unfold check_login_required. apply wpt_bind, wpt_get. destruct (negb _); [by apply wpt_ret|]. destruct (negb _); [by apply wpt_ret|].
      apply wpt_bind. eapply wpt_conseq; [by apply typed_session_touch|]. intros ? s1 Hs1. by apply wpt_ret. }
    intros [err|] s1 [Hs1 He]; [by apply wpt_ret|]. apply wpt_bind, wpt_get. destruct (indication_enabled s1); [by apply wpt_ret|].
    apply wpt_bind. eapply wpt_conseq; [by apply info_typed|]. intros ack s2 Hack. by apply wpt_ret.
  - intros [err ack] s1 Hack. cbv zeta. apply wpt_bind, wpt_call; [op_kept|]. intros _ _. apply wpt_ret. eexists. split; [|reflexivity].
    destruct err as [err|]; [|by apply accepted_ok]. destruct Hack as [He ->]. by apply refused_ok.
Qed.
Lemma basic_info_answer f i p c q (s : opcd_state_t) : typed s → is_Some (opc_get_basic_info_req_unpack f) →
  wpt (handle_get_basic_info f i p c q)
    (λ resp _, ∃ info, msg_ok GetBasicInfoAck info ∧ resp = emit_ack (opc_get_basic_info_ack_pack c q info)) s.
Proof.
  intros Hs [u Hu]. unfold handle_get_basic_info. rewrite Hu. apply wpt_bind, wpt_get. apply wpt_bind.
  apply (wpt_conseq _ (λ _ s', typed s')).
  { apply wpt_whenM; [|done]. intros _. by apply typed_session_touch. }
  intros ? s1 (Hb & Hst & _)%typed_settings. apply wpt_bind. unfold pack_basic_info_ack. apply wpt_bind, wpt_get. apply wpt_bind, wpt_query.
  intros e (I1 & I2 & I3 & _)%pc_inventory. apply wpt_ret, wpt_ret. eexists. split; [|reflexivity]. by split_and!.
Qed.
(** The dispatch of a request of either kind. *)
Lemma dispatch_wpt f i p c hdr body fn (Q : list Z → opcd_state_t → Prop) (s : opcd_state_t) :
  opc_frame_parse f = Some (hdr, body) → command_type hdr = OPC_CMD_REQUEST → lookup_handler (req_indication_id hdr) = Some fn →
  typed s → (∀ s', typed s' → wpt (fn f i p c (sequence_number hdr)) Q s') →
  wpt (opcd_dispatch f i p c) (λ '(rc, resp) s', rc = 0 ∧ Q resp s') s.
Proof.
  intros Hp Ht Hf Hs HQ. unfold opcd_dispatch. rewrite Hp, Ht, Z.eqb_refl, Hf. cbn [negb]. apply wpt_bind, wpt_get. apply wpt_bind.
  apply (wpt_conseq _ (λ _ s', typed s')).
  { revert s Hs. intros s Hs. destruct (logged_in s); [|by apply wpt_ret]. unfold mono_now. apply wpt_bind, wpt_call; [op_kept|]. intros e _.
    apply wpt_whenM; [|done]. intros _. by apply typed_session_logout. }
  intros ? s1 Hs1. apply wpt_bind. eapply wpt_conseq; [by apply HQ|]. intros resp s2 Hr. by apply wpt_ret.
Qed.

(** C6: every data answer is well formed. On any platform that keeps the contract (the board
    and the stub do), from start-up through any events: whoever asks, and in whatever state
    the session is, GetDeviceInfo and GetBasicInfo are answered, every field of the answer is
    within its type, and the client's unpacker reads it back. *)
Theorem data_answers_well_formed c p fd writer turns (e : E) tx :
  is_u16 (default_station_type c) → pc_inv e →
  let w := ((state_load_from_disk;; publish fd writer;; main_loop turns) (mk_world (configured c p) e tx)).2 in
  ∀ seq ip port, is_u16 seq →
    (∃ frame ack resp w', opc_get_device_info_req_pack OPC_FRAME_MAX seq = Some frame ∧
       opcd_dispatch frame ip port OPC_FRAME_MAX w = ((0, resp), w') ∧
       opc_get_device_info_ack_unpack resp = Some (device_info_canon ack) ∧ device_info_ok ack) ∧
    (∃ frame info resp w', opc_get_basic_info_req_pack OPC_FRAME_MAX seq = Some frame ∧
       opcd_dispatch frame ip port OPC_FRAME_MAX w = ((0, resp), w') ∧
       opc_get_basic_info_ack_unpack resp = Some info ∧ msg_ok GetBasicInfoAck info).
Proof.
  intros Hc He w seq ip port Hseq.
  destruct (wpt_elim _ _ (mk_world (configured c p) e tx) (typed_start c p fd writer turns Hc) He) as [Hw He']. fold w in Hw, He'. split.
  - destruct (info_request seq Hseq) as (f & hdr & body & Hp & Hf & Ht & Hid & Hsq & _).
    pose proof (dispatch_wpt f ip port OPC_FRAME_MAX hdr body handle_get_device_info _ (w_st w) Hf Ht ltac:(by rewrite Hid) Hw
                  (λ s Hs, device_info_answer f ip port OPC_FRAME_MAX (sequence_number hdr) s Hs)) as Hd.
    destruct (wpt_elim _ _ w Hd He') as [Ha _]. destruct (opcd_dispatch f ip port OPC_FRAME_MAX w) as [[rc resp] w'] eqn:Ed. cbn [fst snd] in Ha.
    destruct Ha as (-> & ack & Hok & ->). destruct (info_ack_back seq ack Hseq Hok) as (r & Hr & Hu).
    rewrite Hsq, Hr in Ed. exists f, ack, r, w'. split; [exact Hp|]. split; [exact Ed|]. split; [exact Hu|exact Hok].
  - destruct (msg_roundtrips GetBasicInfoReq OPC_FRAME_MAX seq tt (Z.le_refl _) Hseq I) as (f & hdr & body & Hp & _ & Hf & Ht & Hid & Hsq & Hu).
    assert (Hu' : is_Some (opc_get_basic_info_req_unpack f)) by (eexists; exact Hu).
    pose proof (dispatch_wpt f ip port OPC_FRAME_MAX hdr body handle_get_basic_info _ (w_st w) Hf Ht ltac:(by rewrite Hid) Hw
                  (λ s Hs, basic_info_answer f ip port OPC_FRAME_MAX (sequence_number hdr) s Hs Hu')) as Hd.
    destruct (wpt_elim _ _ w Hd He') as [Ha _]. destruct (opcd_dispatch f ip port OPC_FRAME_MAX w) as [[rc resp] w'] eqn:Ed. cbn [fst snd] in Ha.
    destruct Ha as (-> & info & Hok & ->).
    destruct (msg_roundtrips GetBasicInfoAck OPC_FRAME_MAX seq info (Z.le_refl _) Hseq Hok) as (r & _ & _ & Hr & _ & _ & _ & _ & _ & Hb).
    cbn [msg_pack] in Hr. rewrite Hsq, Hr in Ed. exists f, info, r, w'. split; [exact Hp|]. split; [exact Ed|]. split; [exact Hb|exact Hok].
Qed.
End Run.

(** Both builds, after a turn in which a Login arrives. *)
Definition example_login : list Z := default [] (opc_login_req_pack OPC_FRAME_MAX 1 (mk_login_req (zeros 128) true)).
Definition example_turns : list (list event) := [[EvUdp [Rx _ (mk_datagram demo_client 5000 example_login)]]].
Definition device_info_reads_back (resp : list Z) : Prop :=
  ∃ ack, opc_get_device_info_ack_unpack resp = Some (device_info_canon ack) ∧ device_info_ok ack.
Lemma data_answers_well_formed_witness :
  (∃ resp, device_info_reads_back resp) ∧ board_inv example_board ∧ stub_inv example_stub ∧
  ∃ resp info, opc_get_basic_info_ack_unpack resp = Some info ∧ msg_ok GetBasicInfoAck info.
Proof.
  destruct example_platforms as [Hb Hs].
  split; [|split; [exact Hb|]; split; [exact Hs|]].
  - destruct (data_answers_well_formed (H := board_env example_hw) (H0 := board_contract example_hw)
                default_conf opcd_fault_probe_init 5 None example_turns example_board [] ltac:(done) Hb 3 demo_client 5000 ltac:(done))
      as [(f & ack & resp & w' & _ & _ & Hu & Hok) _].
    exists resp, ack. split; [exact Hu|exact Hok].
  - destruct (data_answers_well_formed (H := stub_env quiet_io)
                (H0 := stub_contract quiet_io)
                default_conf opcd_fault_probe_init 5 None example_turns example_stub [] ltac:(done) Hs 3 demo_client 5000 ltac:(done))
      as [_ (f & info & resp & w' & _ & _ & Hu & Hok)].
    exists resp, info. split; [exact Hu|exact Hok].
Defined.
End TypedRun.
