(* ===== verification/PlatformSetup.v ===== *)
(** * Set-up and release of the platform: the lifecycle half of opcd/platform_nxp.c

    [nxp_init] opens and configures the event socket, seeds the channel cache and reads the
    firmware version; [nxp_teardown] releases the socket. They run on the descriptor table
    of Startup.v and implement the platform that the set-up of main uses there
    ([plat_init], [plat_event_fd], [plat_teardown]); so do those of the stub. Whether a call succeeds
    and what the kernel replies are inputs. *)
From S2P Require Import Prelude CText Codec ScanList Commands Indications Store StoreAsync IpListText FaultProbe State Indication Validate RadioConf Persist Handlers IpListLoad Daemon Conf JsonText Topology Startup Nl80211 PlatformRead NlEvents Stub.
From stdpp Require Import base list numbers option tactics strings gmap sets.
From Stdlib Require Import ZArith Lia.
#[local] Open Scope Z_scope.
Import Startup.Startup Nl80211.Nl80211 NlEvents.NlEvents.

Module PlatformSetup.

(** ** The statics and the calls *)

Record nxp_statics := mk_nxp {
  g_nl_fd : Z; g_nl80211_family_id : Z; g_caches : nl_caches; g_fw : PlatformRead.PlatformRead.fw_state }.
#[global] Instance eta_nxp : Eta nxp_statics := λ s, mk_nxp (g_nl_fd s) (g_nl80211_family_id s) (g_caches s) (g_fw s).
Definition nxp_start : nxp_statics := mk_nxp (-1) 0 caches_init (PlatformRead.PlatformRead.mk_fw [] 0 0).

(** The results of the calls on the event socket; [nc_kernel]: the reply to a request. *)
Record nl_calls := mk_nl_calls {
  nc_socket : bool; nc_bind : bool; nc_rcvtimeo : bool; nc_kernel : list Z → option (list Z);
  nc_join : Z → bool; nc_getfl : bool; nc_setfl : bool }.
(** Those of the rest of the initialisation: the private sockets of the two channel queries,
    [if_nametoindex], the calls around them, and what the firmware query gives if its pipe
    and its child can be had. *)
Record init_calls := mk_init_calls {
  ic_event : nl_calls; ic_query : Z → bool * bool * bool; ic_index : string → Z; ic_around : nl_around;
  ic_pipe : bool; ic_version : option (list Z) }.

(** ** The event socket *)

Definition nl_event_socket_open (c : nl_calls) (s : nxp_statics) : K (Z * nxp_statics) :=
  fd ← kopen (nc_socket c);
  if fd <? 0 then mret (-1, s)
  else if negb (nc_bind c) then kclose fd;; mret (-1, s)
  else if negb (nc_rcvtimeo c) then kclose fd;; mret (-1, s)
  else match nl_resolve_family (nc_kernel c) with
       | Ok (Some (fam, grp)) =>
           if negb (nc_join c grp) then kclose fd;; mret (-1, s)
           else if negb (nc_getfl c) || negb (nc_setfl c) then kclose fd;; mret (-1, s)
           else mret (0, (s <| g_nl80211_family_id := fam |>) <| g_nl_fd := fd |>)
       | _ => kclose fd;; mret (-1, s)
       end.

(** A descriptor that is opened and closed again, and what is done while it is open. *)
Definition borrow {A} (ok : bool) (got : bool → A) : K A :=
  fd ← kopen ok;
  if fd <? 0 then mret (got false) else kclose fd;; mret (got true).
(** [nxp_query_iface] on its private socket, as far as [nxp_get_iface_freq] uses it. *)
Definition query_freq (family_id : Z) (c : init_calls) (ifindex : Z) : K (option (Z * Z)) :=
  let '(socket_ok, bind_ok, timeo_ok) := ic_query c ifindex in
  if (family_id =? 0) || (ifindex <=? 0) then mret None
  else borrow socket_ok (λ open,
         if open && bind_ok && timeo_ok
         then match nxp_get_iface_freq family_id (ic_around c) ifindex with Ok r => r | _ => None end
         else None).
Definition seed_idx (c : init_calls) (idx : Z) (name : string) (s : nxp_statics) : K nxp_statics :=
  let ifindex := ic_index c name in
  if ifindex =? 0 then mret s
  else r ← query_freq (g_nl80211_family_id s) c ifindex;
       mret (s <| g_caches := nl_seed_ch_cache_idx (λ _, r) idx ifindex (g_caches s) |>).
(** The pipe of the firmware query: both ends are closed on every path. *)
Definition fw_version (c : init_calls) : K (option (list Z)) :=
  if negb (ic_pipe c) then mret None
  else rd_end ← kopen true; wr_end ← kopen true; kclose wr_end;; kclose rd_end;; mret (ic_version c).

(** ** Lifecycle *)

Definition nxp_init (c : init_calls) (s : nxp_statics) : K (Z * nxp_statics) :=
  '(_, s) ← nl_event_socket_open (ic_event c) s;
  s ← seed_idx c 0 "mlan0" s;
  s ← seed_idx c 1 "mlan1" s;
  q ← fw_version c;
  mret (0, s <| g_fw := PlatformRead.PlatformRead.nxp_fw_version_init q |>).
Definition nxp_teardown (s : nxp_statics) : K nxp_statics :=
  if 0 <=? g_nl_fd s then kclose (g_nl_fd s);; mret (s <| g_nl_fd := -1 |>) else mret s.
Definition nxp_event_fd (s : nxp_statics) : Z := g_nl_fd s.
(** The registry; [None]: the call aborts. *)
Definition opcd_platform_register (g_ops : bool) : option bool := if g_ops then None else Some true.
Definition opcd_platform (g_ops : bool) : bool := g_ops.

(** Every step up to the non-blocking mode succeeded. *)
Definition events_live (c : nl_calls) : bool :=
  nc_socket c && nc_bind c && nc_rcvtimeo c &&
  match nl_resolve_family (nc_kernel c) with
  | Ok (Some (fam, grp)) => nc_join c grp && nc_getfl c && nc_setfl c
  | _ => false
  end.

(** ** Lemmas *)

(** The table as it was: what is opened and closed again leaves no trace. *)
Lemma open_close (k : kern) : k_watched k ⊆ k_fds k →
  let '(fd, k1) := kopen true k in 0 <= fd ∧ (kclose fd k1).2 = k.
Proof.
  intros Hw. unfold kopen, kclose, kmod. cbv zeta. destruct (fd_new_fresh (k_fds k)) as [Hf H0]. set (fd := fd_new (k_fds k)) in *.
  split; [done|]. destruct k as [fds w p u said dirs bad]. cbn [k_fds k_watched] in *.
  change (mk_kern (({[fd]} ∪ fds) ∖ {[fd]}) (w ∖ {[fd]}) p u said dirs (bad || negb (bool_decide (fd ∈ {[fd]} ∪ fds))) = mk_kern fds w p u said dirs bad).
  f_equal.
  - set_solver.
  - set_solver.
  - rewrite bool_decide_eq_true_2 by set_solver. by rewrite orb_false_r.
Qed.
Lemma close_after {A} (k : kern) (x : A) : k_watched k ⊆ k_fds k →
  let '(fd, k1) := kopen true k in (kclose fd;; mret x) k1 = (x, k).
Proof. intros Hw. pose proof (open_close k Hw) as Ho. destruct (kopen true k) as [fd k1]. destruct Ho as [_ Ho]. unfold mbind, K_bind. rewrite <- Ho. reflexivity. Qed.
Lemma borrow_same {A} ok (got : bool → A) (k : kern) : k_watched k ⊆ k_fds k → (borrow ok got k).2 = k.
Proof.
  intros Hw. unfold borrow, mbind at 1, K_bind at 1. destruct ok; [|done].
  pose proof (open_close k Hw) as Ho. pose proof (close_after k (got true) Hw) as Hc. destruct (kopen true k) as [fd k1]. destruct Ho as [H0 _].
  rewrite (proj2 (Z.ltb_ge fd 0)) by lia. by rewrite Hc.
Qed.
Lemma fw_version_same c (k : kern) : k_watched k ⊆ k_fds k → (fw_version c k).2 = k.
Proof.
  intros Hw. unfold fw_version. destruct (negb _); [done|]. unfold mbind at 1, K_bind at 1.
  pose proof (open_close k Hw) as Ho. destruct (kopen true k) as [a k1] eqn:E1. destruct Ho as [_ Ho].
  assert (Hw1 : k_watched k1 ⊆ k_fds k1) by (unfold kopen in E1; injection E1 as <- <-; cbn; set_solver).
  unfold mbind at 1, K_bind at 1. pose proof (open_close k1 Hw1) as Ho1. destruct (kopen true k1) as [b k2]. destruct Ho1 as [_ Ho1].
  unfold mbind, K_bind. destruct (kclose b k2) as [u k3]. cbn [snd] in Ho1. subst k3. destruct (kclose a k1) as [v k4]. exact Ho.
Qed.
Lemma seed_idx_run c idx name s (k : kern) : k_watched k ⊆ k_fds k →
  ∃ s', seed_idx c idx name s k = (s', k) ∧ g_nl_fd s' = g_nl_fd s ∧ g_nl80211_family_id s' = g_nl80211_family_id s.
Proof.
  intros Hw. unfold seed_idx. cbv zeta. destruct (_ =? 0); [by exists s|]. unfold mbind, K_bind.
  assert (Hq : ∃ r, query_freq (g_nl80211_family_id s) c (ic_index c name) k = (r, k)).
  { unfold query_freq. destruct (ic_query c _) as [[a b] t]. destruct (_ || _); [by eexists|].
    match goal with |- context [borrow ?o ?g k] => pose proof (borrow_same o g k Hw); destruct (borrow o g k) end. cbn in *. subst. by eexists. }
  destruct Hq as [r ->]. by eexists.
Qed.
Lemma event_socket_run c s (k : kern) : k_watched k ⊆ k_fds k →
  nl_event_socket_open c s k =
  match nl_resolve_family (nc_kernel c) with
  | Ok (Some (fam, _)) =>
      if events_live c
      then let '(fd, k1) := kopen true k in ((0, (s <| g_nl80211_family_id := fam |>) <| g_nl_fd := fd |>), k1)
      else ((-1, s), k)
  | _ => ((-1, s), k)
  end.
Proof.
  intros Hw. unfold nl_event_socket_open, events_live, mbind at 1, K_bind at 1. destruct (nc_socket c); cbn [andb].
  2: { cbn. by destruct (nl_resolve_family _) as [[[fam grp]|]| |]. }
  pose proof (open_close k Hw) as Ho. pose proof (close_after k (-1, s) Hw) as Hc. destruct (kopen true k) as [fd k1]. destruct Ho as [H0 _].
  rewrite (proj2 (Z.ltb_ge fd 0)) by lia. destruct (nc_bind c); cbn [negb andb].
  2: { rewrite Hc. by destruct (nl_resolve_family _) as [[[fam grp]|]| |]. }
  destruct (nc_rcvtimeo c); cbn [negb andb].
  2: { rewrite Hc. by destruct (nl_resolve_family _) as [[[fam grp]|]| |]. }
  destruct (nl_resolve_family _) as [[[fam grp]|]| |]; [|done..].
  destruct (nc_join c grp); cbn [negb andb]; [|done]. by destruct (nc_getfl c), (nc_setfl c).
Qed.

(** The descriptor tables agree; only the set-up of main tracks who holds what. *)
Definition same_table (a b : kern) : Prop :=
  (k_fds a, k_watched a, k_said a, k_dirs a, k_bad a) = (k_fds b, k_watched b, k_said b, k_dirs b, k_bad b).
Lemma init_run c s (k : kern) : k_watched k ⊆ k_fds k → g_nl_fd s = -1 → g_nl80211_family_id s = 0 →
  ∃ s1 k1 fd, nxp_init c s k = ((0, s1), k1) ∧ kopen (events_live (ic_event c)) k = (fd, k1) ∧ g_nl_fd s1 = fd ∧
    (events_live (ic_event c) = false → g_nl80211_family_id s1 = 0).
Proof.
  intros Hw Hn Hz. unfold nxp_init, mbind at 1, K_bind at 1. rewrite event_socket_run by done.
  assert (Hrest : ∀ s' k1, k_watched k1 ⊆ k_fds k1 → ∃ s1,
    ((s ← seed_idx c 0 "mlan0" s'; s ← seed_idx c 1 "mlan1" s; q ← fw_version c;
      mret (0, s <| g_fw := PlatformRead.PlatformRead.nxp_fw_version_init q |>)) : K (Z * nxp_statics)) k1 = ((0, s1), k1) ∧
    g_nl_fd s1 = g_nl_fd s' ∧ g_nl80211_family_id s1 = g_nl80211_family_id s').
  { intros s' k1 Hw1. unfold mbind, K_bind. destruct (seed_idx_run c 0 "mlan0" s' k1 Hw1) as (sa & -> & A1 & A2).
    destruct (seed_idx_run c 1 "mlan1" sa k1 Hw1) as (sb & -> & B1 & B2). pose proof (fw_version_same c k1 Hw1) as Hf.
    destruct (fw_version c k1) as [q k2]. cbn in Hf. subst k2. eexists. split; [reflexivity|]. cbn. by rewrite B1, B2. }
  assert (Hfail : events_live (ic_event c) = false → ∃ s1 k1 fd,
    ((s ← seed_idx c 0 "mlan0" s; s ← seed_idx c 1 "mlan1" s; q ← fw_version c;
      mret (0, s <| g_fw := PlatformRead.PlatformRead.nxp_fw_version_init q |>)) : K (Z * nxp_statics)) k = ((0, s1), k1) ∧
    kopen (events_live (ic_event c)) k = (fd, k1) ∧ g_nl_fd s1 = fd ∧ (events_live (ic_event c) = false → g_nl80211_family_id s1 = 0)).
  { intros Hl. destruct (Hrest s k Hw) as (s1 & E1 & F1 & F2). exists s1, k, (-1). rewrite E1, Hl, F1, F2. by split_and!. }
  destruct (nl_resolve_family (nc_kernel (ic_event c))) as [[[fam grp]|]| |] eqn:Er;
    try (apply Hfail; unfold events_live; rewrite Er; apply andb_false_r).
  destruct (events_live (ic_event c)) eqn:El; [|by apply Hfail].
  destruct (kopen true k) as [fd k1] eqn:Ek.
  assert (Hw1 : k_watched k1 ⊆ k_fds k1) by (unfold kopen in Ek; injection Ek as <- <-; cbn; set_solver).
  destruct (Hrest ((s <| g_nl80211_family_id := fam |>) <| g_nl_fd := fd |>) k1 Hw1) as (s1 & E1 & F1 & F2).
  exists s1, k1, fd. by rewrite E1, F1.
Qed.

(** C22: the platform behind the operations table is the one the set-up of main relies on.
    Whatever the calls return and the kernel replies, [nxp_init] succeeds, holds an event
    descriptor exactly when every step of opening and joining the event socket succeeded
    (otherwise everything opened on the way is closed again and no events are reported), and leaves the descriptor table
    as the platform of the start-up model does; [nxp_teardown] then closes that descriptor,
    restores the table to what it was before, and may be called again without effect. *)
Theorem platform_setup_refines c s (k : kern) :
  k_watched k ⊆ k_fds k → g_nl_fd s = -1 → g_nl80211_family_id s = 0 →
  let live := events_live (ic_event c) in
  let '((rc, s1), k1) := nxp_init c s k in
  let '(rc', k1') := plat_init 0 live k in
  rc = rc' ∧ nxp_event_fd s1 = k_platform k1' ∧ same_table k1 k1' ∧ (0 <= nxp_event_fd s1 ↔ live = true) ∧
  (live = false → g_nl80211_family_id s1 = 0 ∧ ∀ rx cb ch, nxp_drain_events (nxp_event_fd s1) 0 rx cb ch = Ok (0, [], ch)) ∧
  let '(s2, k2) := nxp_teardown s1 k1 in
  nxp_event_fd s2 = k_platform (plat_teardown k1').2 ∧ same_table k2 (plat_teardown k1').2 ∧ k2 = k ∧ nxp_teardown s2 k2 = (s2, k2).
Proof.
  intros Hw Hn Hz live. destruct (init_run c s k Hw Hn Hz) as (s1 & k1 & fd & -> & Ek & Hfd & Hfam). fold live in Ek, Hfam.
  unfold plat_init, mbind at 1 2, K_bind at 1 2, kmod at 1. rewrite Ek. cbn [mret K_ret].
  unfold nxp_event_fd. rewrite Hfd. split; [done|]. split; [done|]. split; [done|].
  unfold nxp_teardown. rewrite Hfd. destruct live.
  - pose proof (open_close k Hw) as Ho. rewrite Ek in Ho. destruct Ho as [H0 Ho].
    split; [by split|]. split; [done|]. rewrite (proj2 (Z.leb_le 0 fd)) by done. unfold mbind, K_bind. destruct (kclose fd k1) as [u k2] eqn:Ec.
    cbn [snd] in Ho. subst k2.
    assert (Ht : (plat_teardown ((k1 <| k_up := true |>) <| k_platform := fd |>)).2 = (k <| k_up := false |>) <| k_platform := -1 |>).
    { unfold plat_teardown, plat_event_fd, mbind, K_bind. change (k_platform ((k1 <| k_up := true |>) <| k_platform := fd |>)) with fd.
      rewrite (proj2 (Z.leb_le 0 fd)) by done. unfold kclose, kmod in Ec. injection Ec as _ Ec. rewrite <- Ec. by destruct k1. }
    rewrite Ht. cbn [mret K_ret]. by split_and!.
  - injection Ek as <- <-. split; [split; [lia|done]|]. split; [intros _; split; [by apply Hfam|done]|]. cbn. rewrite Hfd. by split_and!.
Qed.
(** The stub implements it too, without an event descriptor. *)
Lemma stub_setup_refines (k : kern) :
  let '(rc, k1) := plat_init Stub.Stub.stub_init false k in
  rc = 0 ∧ k_platform k1 = Stub.Stub.stub_event_fd ∧ same_table k1 k ∧ same_table (plat_teardown k1).2 k.
Proof. by cbn. Qed.

(** A live kernel: the reply names family 28 and the mlme group 7. *)
Definition example_reply : list Z :=
  le_u32 92 ++ le_u16 16 ++ zeros 10 ++ [1; 2; 0; 0] ++
  le_u16 12 ++ le_u16 2 ++ str "nl80211" ++ [0] ++
  le_u16 6 ++ le_u16 1 ++ le_u16 28 ++ [0; 0] ++
  le_u16 52 ++ le_u16 7 ++
  (le_u16 24 ++ le_u16 1 ++ (le_u16 11 ++ le_u16 1 ++ str "config" ++ [0; 0]) ++ (le_u16 8 ++ le_u16 2 ++ le_u32 5)) ++
  (le_u16 24 ++ le_u16 2 ++ (le_u16 9 ++ le_u16 1 ++ str "mlme" ++ [0; 0; 0; 0]) ++ (le_u16 8 ++ le_u16 2 ++ le_u32 7)).
Definition example_calls (setfl : bool) : init_calls :=
  mk_init_calls (mk_nl_calls true true true (λ _, Some example_reply) (λ g, g =? 7) true setfl)
    (λ _, (true, true, true)) (λ _, 0) (mk_around (λ _, None) (λ _, None) (PlatformRead.PlatformRead.mk_device (λ _, inl 2) None)) true None.
Definition example_kern : kern := mk_kern {[0; 1; 2]} ∅ (-1) false [] [] false.
Lemma platform_setup_refines_witness :
  events_live (ic_event (example_calls true)) = true ∧ events_live (ic_event (example_calls false)) = false ∧
  nxp_event_fd (nxp_init (example_calls true) nxp_start example_kern).1.2 = 3 ∧
  (let '((rc, s1), k1) := nxp_init (example_calls true) nxp_start example_kern in let '(s2, k2) := nxp_teardown s1 k1 in k2 = example_kern).
Proof.
  split; [vm_compute; reflexivity|]. split; [vm_compute; reflexivity|]. split; [vm_compute; reflexivity|].
  pose proof (platform_setup_refines (example_calls true) nxp_start example_kern ltac:(set_solver) eq_refl eq_refl) as H. cbv zeta in H.
  destruct (nxp_init _ _ _) as [[rc s1] k1]. destruct (plat_init _ _ _) as [rc' k1']. destruct H as (_ & _ & _ & _ & _ & H).
  destruct (nxp_teardown s1 k1) as [s2 k2]. apply H.
Defined.
End PlatformSetup.
