(* ===== verification/Children.v ===== *)
(** * Questions to a child process: opcd_system_stopping of opcd/reset_cause.c and the
      firmware query of opcd/platform_nxp.c

    Both run a program, read its output through a pipe and wait for it, against one
    deadline. An observation is what the calls of one turn of a loop give (the clock, the
    pipe, waitpid); the loops are functions of the list of observations. A child that is
    killed at the deadline is then waited for without a bound; what that blocking waitpid
    returns is a list of its own ([block_obs] of PlatformRun.v). [None] means that the
    function has not returned after what the lists hold. *)
From S2P Require Import Prelude CText IpListText PlatformRead PlatformRun.
From stdpp Require Import base list numbers option tactics strings.
From Stdlib Require Import ZArith Lia.
#[local] Open Scope Z_scope.
Import PlatformRun.PlatformRun.

Module Children.

(** ** Is the system stopping *)

Inductive poll_res := PollEintr | PollNone | PollReady.
(** [ReadGot []] is the end of file. *)
Inductive pipe_res := ReadEintr | ReadFail | ReadGot (bs : list Z).
Record read_obs := mk_read_obs { ro_now : Z; ro_poll : poll_res; ro_read : pipe_res }.
Record reap_obs := mk_reap_obs { re_wait : wait_obs; re_now : Z }.
Definition OUT_ROOM : Z := 63.

(** The read loop: the return code so far and what was read. *)
Fixpoint stop_read (deadline : Z) (obs : list read_obs) (out : list Z) : option (Z * list Z) :=
  match obs with
  | [] => None
  | o :: obs' =>
      if deadline <=? ro_now o then Some (-1, out)
      else match ro_poll o with
           | PollEintr => stop_read deadline obs' out
           | PollNone => Some (-1, out)
           | PollReady =>
               match ro_read o with
               | ReadEintr => stop_read deadline obs' out
               | ReadFail => Some (-1, out)
               | ReadGot bs =>
                   let k := take (Z.to_nat (OUT_ROOM - len out)) bs in
                   if len k =? 0 then Some (0, out)
                   else if OUT_ROOM <=? len (out ++ k) then Some (0, out ++ k)
                   else stop_read deadline obs' (out ++ k)
               end
           end
  end.
(** The reaping loop: the return code, the wait status and whether the child was killed. *)
Fixpoint stop_reap (deadline rc : Z) (obs : list reap_obs) (block : list block_obs) : option (Z * Z * bool) :=
  match obs with
  | [] => None
  | o :: obs' =>
      match re_wait o with
      | WDone status => Some (rc, status, false)
      | WFail _ => Some (-1, 0, false)
      | WRunning | WEintr =>
          if deadline <=? re_now o
          then if reap_block block then Some (-1, 0, true) else None
          else stop_reap deadline rc obs' block
      end
  end.
Definition stop_word (out : list Z) : bool :=
  let s := skip isspace (cstr out) in
  starts (str "stopping") s && (let c := rd s 8 in (c =? 0) || isspace c).
Record stop_end := mk_stop_end { se_rc : Z; se_killed : bool }.
(** [path]: is there a program to run; [start]: the clock when the deadline is set. *)
Definition opcd_system_stopping (path : bool) (timeout_ms : Z) (pipe_ok fork_ok : bool) (start : Z)
    (reads : list read_obs) (reaps : list reap_obs) (block : list block_obs) : option stop_end :=
  if negb path || (timeout_ms <? 0) then Some (mk_stop_end (-1) false)
  else if negb pipe_ok || negb fork_ok then Some (mk_stop_end (-1) false)
  else
    let deadline := u64 (start + timeout_ms) in
    '(rc, out) ← stop_read deadline reads [];
    '(rc', status, late) ← stop_reap deadline rc reaps block;
    let killed := (rc <? 0) || late in
    Some (if rc' <? 0 then mk_stop_end (-1) killed
          else if WIFEXITED status && (WEXITSTATUS status =? 127) then mk_stop_end (-1) killed
          else mk_stop_end (if stop_word out then 1 else 0) killed).

(** ** The firmware query *)

Record timespec := mk_ts { tv_sec : Z; tv_nsec : Z }.
Definition ts_at_or_past (a b : timespec) : bool :=
  if tv_sec b <? tv_sec a then true else if tv_sec a <? tv_sec b then false else tv_nsec b <=? tv_nsec a.
(** C division truncates toward zero. *)
Definition timespec_diff_ms (e s : timespec) : Z := (tv_sec e - tv_sec s) * 1000 + Z.quot (tv_nsec e - tv_nsec s) 1000000.

Inductive fw_read := FwGot (bs : list Z) | FwAgain | FwError.
Inductive fw_wait := FwStill | FwGone (status : Z) | FwLost.
Record fw_obs := mk_fw_obs { fo_now : timespec; fo_read : fw_read; fo_wait : fw_wait }.
Record fw_loop := mk_fw_loop { fl_buf : list Z; fl_eof : bool; fl_reaped : bool; fl_status : Z }.
Definition FW_BUF : Z := PlatformRead.PlatformRead.FW_CACHE_LEN.
(** One turn before the deadline: the pipe, then the child unless something was read. *)
Definition fw_pipe (o : fw_obs) (l : fw_loop) : bool * fw_loop :=
  if negb (fl_eof l) && (len (fl_buf l) + 1 <? FW_BUF) then
    match fo_read o with
    | FwGot bs => let k := take (Z.to_nat (FW_BUF - 1 - len (fl_buf l))) bs in
                  if 0 <? len k then (true, mk_fw_loop (fl_buf l ++ k) (fl_eof l) (fl_reaped l) (fl_status l))
                  else (false, mk_fw_loop (fl_buf l) true (fl_reaped l) (fl_status l))
    | FwError => (false, mk_fw_loop (fl_buf l) true (fl_reaped l) (fl_status l))
    | FwAgain => (false, l)
    end
  else (false, l).
Definition fw_child (o : fw_obs) (l : fw_loop) : fw_loop :=
  let eof := fl_eof l || (FW_BUF <=? len (fl_buf l) + 1) in
  if fl_reaped l then mk_fw_loop (fl_buf l) eof true (fl_status l)
  else match fo_wait o with
       | FwGone st => mk_fw_loop (fl_buf l) eof true st
       | FwLost => mk_fw_loop (fl_buf l) eof true 0
       | FwStill => mk_fw_loop (fl_buf l) eof false (fl_status l)
       end.
(** The loop: its end, and whether the child was killed at the deadline. *)
Fixpoint fw_wait_loop (deadline : timespec) (obs : list fw_obs) (block : list block_obs) (l : fw_loop) : option (bool * fw_loop) :=
  if fl_eof l && fl_reaped l then Some (false, l)
  else match obs with
       | [] => None
       | o :: obs' =>
           if ts_at_or_past (fo_now o) deadline then
             (* the blocking wait is one call here, whatever it returns *)
             if fl_reaped l then Some (true, l) else match block with [] => None | _ :: _ => Some (true, l) end
           else let '(again, l) := fw_pipe o l in
                if again then fw_wait_loop deadline obs' block l else fw_wait_loop deadline obs' block (fw_child o l)
       end.
(** [None]: still running; [Some None]: -1. *)
Definition nxp_query_fw_child (pipe_ok fork_ok : bool) (start : timespec) (obs : list fw_obs) (block : list block_obs) (cap : Z)
    : option (option (list Z)) :=
  if negb pipe_ok || negb fork_ok then Some None
  else '(killed, l) ← fw_wait_loop (mk_ts (tv_sec start + 2) (tv_nsec start)) obs block (mk_fw_loop [] false false 0);
       Some (PlatformRead.PlatformRead.nxp_query_fw_version (fl_buf l)
               (negb killed && WIFEXITED (fl_status l) && (WEXITSTATUS (fl_status l) =? 0)) cap).

(** ** What the loops promise *)

(** The bytes the pipe delivers in a turn of the read loop, and in several. *)
Definition turn_data (o : read_obs) : list Z :=
  match ro_poll o, ro_read o with PollReady, ReadGot bs => bs | _, _ => [] end.
Definition pipe_data (obs : list read_obs) : list Z := concat (map turn_data obs).
(** The answer is complete: the turns up to the end of file, or until the buffer is full,
    all before the deadline. *)
Definition read_complete (deadline : Z) (reads : list read_obs) (out : list Z) : Prop :=
  ∃ pre o post, reads = pre ++ o :: post ∧ Forall (λ x, ro_now x < deadline) (pre ++ [o]) ∧
    ro_poll o = PollReady ∧ out = take (Z.to_nat OUT_ROOM) (pipe_data (pre ++ [o])) ∧ (ro_read o = ReadGot [] ∨ len out = OUT_ROOM).
(** The child ended by itself, seen by a poll before the deadline passed. *)
Definition child_ended (deadline : Z) (reaps : list reap_obs) (status : Z) : Prop :=
  ∃ pre o post, reaps = pre ++ o :: post ∧ Forall (λ x, re_now x < deadline) pre ∧ re_wait o = WDone status.

Lemma pipe_data_cons o obs : pipe_data (o :: obs) = turn_data o ++ pipe_data obs.
Proof. done. Qed.
Lemma stop_read_ok deadline reads : ∀ seen out0 out,
  out0 = pipe_data seen → len out0 < OUT_ROOM → Forall (λ x, ro_now x < deadline) seen →
  stop_read deadline reads out0 = Some (0, out) → read_complete deadline (seen ++ reads) out.
Proof.
  induction reads as [|o reads IH]; intros seen out0 out H0 Hl Hs; cbn [stop_read]; [done|].
  destruct (Z.leb_spec deadline (ro_now o)) as [|Hn]; [done|].
  assert (Hdata : pipe_data (seen ++ [o]) = out0 ++ turn_data o).
  { unfold pipe_data. rewrite map_app, concat_app, H0. cbn. by rewrite app_nil_r. }
  assert (Hs' : Forall (λ x, ro_now x < deadline) (seen ++ [o])) by (apply Forall_app_2; [done|by repeat constructor]).
  assert (Hgo : ∀ out1, out1 = out0 ++ turn_data o → len out1 < OUT_ROOM → stop_read deadline reads out1 = Some (0, out) →
                read_complete deadline (seen ++ o :: reads) out).
  { intros out1 H1 Hl1 Hr. replace (seen ++ o :: reads) with ((seen ++ [o]) ++ reads) by (by rewrite <- app_assoc).
    eapply IH; [|exact Hl1|done|exact Hr]. by rewrite Hdata. }
  unfold turn_data in *. destruct (ro_poll o) eqn:Ep; [apply Hgo; [by rewrite app_nil_r|done]|done|].
  destruct (ro_read o) as [| |bs] eqn:Er; [apply Hgo; [by rewrite app_nil_r|done]|done|]. cbv zeta.
  assert (Htake : out0 ++ take (Z.to_nat (OUT_ROOM - len out0)) bs = take (Z.to_nat OUT_ROOM) (out0 ++ bs)).
  { rewrite take_app_ge by (unfold len, OUT_ROOM in *; lia). do 2 f_equal. unfold len, OUT_ROOM in *. lia. }
  destruct (Z.eqb_spec (len (take (Z.to_nat (OUT_ROOM - len out0)) bs)) 0) as [Hk|Hk].
  - intros [= <-]. assert (bs = []) as ->.
    { unfold len in *. rewrite length_take in Hk. destruct bs; [done|]. cbn [length] in Hk. unfold OUT_ROOM in *. lia. }
    exists seen, o, reads. split_and!; [done|done|done| |by left]. rewrite Hdata, app_nil_r, take_ge; [done|]. unfold len, OUT_ROOM in *. lia.
  - destruct (Z.leb_spec OUT_ROOM (len (out0 ++ take (Z.to_nat (OUT_ROOM - len out0)) bs))) as [Hf|Hf].
    + intros [= <-]. exists seen, o, reads. split_and!; [done|done|done|by rewrite Hdata|right].
      rewrite Htake in *. unfold len in *. rewrite length_take in *. unfold OUT_ROOM in *. lia.
    + apply Hgo; [|done]. rewrite Htake in *. apply take_ge. unfold len in Hf. rewrite length_take in Hf. unfold OUT_ROOM in *. lia.
Qed.
Lemma stop_read_ends deadline reads : ∀ out, Exists (λ x, deadline <= ro_now x) reads → is_Some (stop_read deadline reads out).
Proof.
  induction reads as [|o reads IH]; intros out He; [by inversion He|]. cbn [stop_read].
  destruct (Z.leb_spec deadline (ro_now o)) as [|Hn]; [by eexists|]. apply Exists_cons in He as [He|He]; [lia|]. cbv zeta.
  repeat case_match; try (by eexists); by apply IH.
Qed.
Lemma stop_reap_ends deadline rc reaps block : reap_block block = true →
  Exists (λ x, deadline <= re_now x) reaps → is_Some (stop_reap deadline rc reaps block).
Proof.
  intros Hb. induction reaps as [|o reaps IH]; intros He; [by inversion He|]. cbn [stop_reap]. rewrite Hb.
  destruct (re_wait o); try (by eexists); (destruct (Z.leb_spec deadline (re_now o)); [by eexists|]);
    apply Exists_cons in He as [He|He]; try lia; by apply IH.
Qed.
Lemma stop_reap_ok deadline rc reaps block : ∀ rc' status late, stop_reap deadline rc reaps block = Some (rc', status, late) → 0 <= rc' →
  rc' = rc ∧ late = false ∧ child_ended deadline reaps status.
Proof.
  assert (Hc : ∀ o reaps status, re_now o < deadline → child_ended deadline reaps status → child_ended deadline (o :: reaps) status).
  { intros o l status Ho (pre & x & post & -> & Hp & Hx). exists (o :: pre), x, post. split_and!; [done|by constructor|done]. }
  induction reaps as [|o reaps IH]; intros rc' status late; cbn [stop_reap]; [done|].
  destruct (re_wait o) as [|st| |e] eqn:Ew.
  - destruct (Z.leb_spec deadline (re_now o)); [destruct (reap_block block); [intros [= <- <- <-]; lia|done]|]. intros Hr H0. destruct (IH _ _ _ Hr H0) as (? & ? & ?). auto.
  - intros [= <- <- <-] _. split_and!; [done|done|]. exists [], o, reaps. by split_and!.
  - destruct (Z.leb_spec deadline (re_now o)); [destruct (reap_block block); [intros [= <- <- <-]; lia|done]|]. intros Hr H0. destruct (IH _ _ _ Hr H0) as (? & ? & ?). auto.
  - intros [= <- <- <-]. lia.
Qed.
(** The word "stopping", alone or followed by white space, after white space. *)
Definition says_stopping (out : list Z) : Prop :=
  ∃ ws rest, cstr out = ws ++ str "stopping" ++ rest ∧ Forall (λ c, isspace c = true) ws ∧
    (rest = [] ∨ ∃ c r, rest = c :: r ∧ isspace c = true).
Lemma stop_word_spec out : stop_word out = true ↔ says_stopping out.
Proof.
  unfold stop_word, says_stopping. cbv zeta. split.
  - intros [Hst Hc]%andb_true_iff. pose proof (span_app isspace (cstr out)) as Hs. pose proof (span_all isspace (cstr out)) as Hw.
    change (span isspace (cstr out)).2 with (skip isspace (cstr out)) in Hs. set (ws := (span isspace (cstr out)).1) in *. symmetry in Hs. apply starts_inv in Hst as [rest Hr].
    rewrite Hr in Hs, Hc. exists ws, rest. split_and!; [done|done|]. destruct rest as [|c r]; [by left|right]. exists c, r. split; [done|].
    change (rd (str "stopping" ++ c :: r) 8) with c in Hc. apply orb_true_iff in Hc as [Hc|Hc]; [|done]. guards. subst c.
    assert (Hz : 0 ∈ cstr out) by (rewrite Hs, !elem_of_app; right; right; apply elem_of_cons; by left).
    pose proof (IpListText.cstr_no_nul out) as Hn. rewrite Forall_forall in Hn. by destruct (Hn 0 Hz).
  - intros (ws & rest & -> & Hw & Hr). assert (skip isspace (ws ++ str "stopping" ++ rest) = str "stopping" ++ rest) as -> by (unfold skip; by rewrite span_run).
    rewrite starts_app. cbn [andb].
    destruct Hr as [->|(c & r & -> & Hc)]; [done|]. change (rd (str "stopping" ++ c :: r) 8) with c. by rewrite Hc, orb_true_r.
Qed.

(** The code of the read loop is 0 or -1. *)
Lemma stop_read_rc deadline reads : ∀ out0 rc out, stop_read deadline reads out0 = Some (rc, out) → rc = 0 ∨ rc = -1.
Proof.
  induction reads as [|o reads IH]; intros out0 rc out; cbn [stop_read]; [done|]. cbv zeta.
  repeat case_match; try (intros [= <- <-]; by auto); apply IH.
Qed.
(** The child answers: the pipe gives [out] and then its end, turn by turn before the
    deadline; and it ends with [status], seen before the deadline. *)
Definition turn_live (deadline : Z) (o : read_obs) : Prop :=
  ro_now o < deadline ∧ ro_poll o ≠ PollNone ∧ (ro_poll o = PollReady → ro_read o ≠ ReadFail ∧ ro_read o ≠ ReadGot []).
Definition child_answers (deadline : Z) (reads : list read_obs) (out : list Z) : Prop :=
  ∃ pre o post, reads = pre ++ o :: post ∧ Forall (turn_live deadline) pre ∧ ro_now o < deadline ∧
    ro_poll o = PollReady ∧ ro_read o = ReadGot [] ∧ out = pipe_data pre ∧ len out < OUT_ROOM.
Definition still_running (w : wait_obs) : bool := match w with WRunning | WEintr => true | _ => false end.
Definition exits (deadline : Z) (reaps : list reap_obs) (status : Z) : Prop :=
  ∃ pre o post, reaps = pre ++ o :: post ∧ Forall (λ x, still_running (re_wait x) = true ∧ re_now x < deadline) pre ∧ re_wait o = WDone status.
Lemma stop_read_answers deadline o post pre : ro_now o < deadline → ro_poll o = PollReady → ro_read o = ReadGot [] →
  Forall (turn_live deadline) pre → ∀ out0, len (out0 ++ pipe_data pre) < OUT_ROOM →
  stop_read deadline (pre ++ o :: post) out0 = Some (0, out0 ++ pipe_data pre).
Proof.
  intros Ho Hp Hr. induction 1 as [|x pre (Hx & Hxp & Hxr) _ IH]; intros out0 Hl; cbn [app stop_read].
  - rewrite (proj2 (Z.leb_gt _ _) Ho), Hp, Hr, take_nil. cbn. by rewrite app_nil_r.
  - rewrite (proj2 (Z.leb_gt _ _) Hx). rewrite pipe_data_cons in *. unfold turn_data in *. destruct (ro_poll x); [by apply IH|done|].
    destruct (Hxr eq_refl) as [Hf He]. destruct (ro_read x) as [| |bs]; [by apply IH|done|]. cbv zeta.
    assert (Hb : len bs <= OUT_ROOM - len out0) by (rewrite !len_app in Hl; pose proof (len_nonneg (pipe_data pre)); lia).
    rewrite take_ge by (unfold len in *; lia). assert (0 < len bs) by (destruct bs; [done|rewrite len_cons; pose proof (len_nonneg bs); lia]).
    rewrite app_assoc in *. rewrite (proj2 (Z.eqb_neq _ _)) by lia.
    rewrite (proj2 (Z.leb_gt _ _)) by (rewrite len_app in Hl; pose proof (len_nonneg (pipe_data pre)); lia). by apply IH.
Qed.
Lemma stop_reap_exits deadline rc reaps block status : exits deadline reaps status → stop_reap deadline rc reaps block = Some (rc, status, false).
Proof.
  intros (pre & o & post & -> & Hp & Ho). induction Hp as [|x pre [Hr Hx] _ IH]; cbn [app stop_reap]; [by rewrite Ho|].
  rewrite (proj2 (Z.leb_gt _ _) Hx). by destruct (re_wait x).
Qed.
(** A child left alone by the reaping loop was seen to end, or waitpid failed. *)
Lemma stop_reap_alone deadline rc reaps block rc' status : stop_reap deadline rc reaps block = Some (rc', status, false) →
  Exists (λ o, still_running (re_wait o) = false) reaps.
Proof.
  induction reaps as [|o reaps IH]; cbn [stop_reap]; [done|].
  destruct (re_wait o) eqn:Ew; try (intros _; left; by rewrite Ew); (destruct (deadline <=? re_now o); [by destruct (reap_block block)|]); intros Hr; right; by apply IH.
Qed.
Lemma stopping_started timeout_ms start reads reaps block : 0 <= timeout_ms →
  opcd_system_stopping true timeout_ms true true start reads reaps block =
  let deadline := u64 (start + timeout_ms) in
  '(rc, out) ← stop_read deadline reads [];
  '(rc', status, late) ← stop_reap deadline rc reaps block;
  Some (mk_stop_end (if (rc' <? 0) || WIFEXITED status && (WEXITSTATUS status =? 127) then -1 else if stop_word out then 1 else 0)
          ((rc <? 0) || late)).
Proof.
  intros Ht. unfold opcd_system_stopping. rewrite (proj2 (Z.ltb_ge timeout_ms 0)) by done. cbn [negb orb]. cbv zeta.
  destruct (stop_read _ _ _) as [[rc out]|]; [|done]. cbn [mbind option_bind]. destruct (stop_reap _ _ _ _) as [[[rc' st] late]|]; [|done].
  cbn [mbind option_bind]. f_equal. by destruct (rc' <? 0), (_ && _).
Qed.

Definition example_reads : list read_obs :=
  [mk_read_obs 100 PollEintr ReadFail; mk_read_obs 101 PollReady (ReadGot (str "stopp")); mk_read_obs 120 PollReady (ReadGot (str "ing" ++ [10]));
   mk_read_obs 121 PollReady (ReadGot [])].
Definition example_reaps : list reap_obs := [mk_reap_obs WRunning 122; mk_reap_obs (WDone 256) 127].

(** *** The firmware query *)

Definition fw_data (obs : list fw_obs) : list Z := concat (map (λ o, match fo_read o with FwGot bs => bs | _ => [] end) obs).
(** What the loop has so far: a beginning of the child's output that fits, and the status it
    was given if the child is gone. *)
Record fw_seen (obs : list fw_obs) (l : fw_loop) : Prop := mk_fw_seen {
  fs_buf : len (fl_buf l) < FW_BUF;
  fs_data : ∃ rest, fw_data obs = fl_buf l ++ rest ∧ (fl_eof l = false → len (fl_buf l) + 1 < FW_BUF → rest = []);
  fs_status : fl_reaped l = true → ∃ o, o ∈ obs ∧ (fo_wait o = FwLost ∨ fo_wait o = FwGone (fl_status l)) }.
Lemma fw_data_snoc obs o : fw_data (obs ++ [o]) = fw_data obs ++ match fo_read o with FwGot bs => bs | _ => [] end.
Proof. unfold fw_data. rewrite map_app, concat_app. cbn. by rewrite app_nil_r. Qed.
Lemma fw_seen_nil : fw_seen [] (mk_fw_loop [] false false 0).
Proof. constructor; [done| |done]. by exists []. Qed.
Lemma fw_pipe_seen obs o l : fw_seen obs l → fw_seen (obs ++ [o]) (fw_pipe o l).2.
Proof.
  intros [Hb (rest & Hd & Hr) Hs].
  assert (Hs' : fl_reaped l = true → ∃ x, x ∈ obs ++ [o] ∧ (fo_wait x = FwLost ∨ fo_wait x = FwGone (fl_status l))).
  { intros Hre. destruct (Hs Hre) as (x & Hx & ?). exists x. split; [apply elem_of_app; by left|done]. }
  unfold fw_pipe. destruct (negb (fl_eof l) && (len (fl_buf l) + 1 <? FW_BUF)) eqn:Eg.
  - apply andb_true_iff in Eg as [Ee El]. apply negb_true_iff in Ee. apply Z.ltb_lt in El. specialize (Hr Ee El). subst rest. rewrite app_nil_r in Hd.
    destruct (fo_read o) as [bs| |] eqn:Er; cbv zeta.
    + destruct (Z.ltb_spec 0 (len (take (Z.to_nat (FW_BUF - 1 - len (fl_buf l))) bs))) as [Hk|Hk]; constructor; cbn [snd fl_buf fl_eof fl_reaped fl_status]; try done.
      * rewrite len_app. unfold len at 2. rewrite length_take. unfold len in *. lia.
      * exists (drop (Z.to_nat (FW_BUF - 1 - len (fl_buf l))) bs). rewrite fw_data_snoc, Er, Hd, <- app_assoc, take_drop. split; [done|].
        intros _ Hl. rewrite len_app in Hl. apply drop_ge. unfold len in Hl, Hb, El |- *. rewrite length_take in Hl. lia.
      * exists bs. by rewrite fw_data_snoc, Er, Hd.
    + constructor; try done. exists []. by rewrite fw_data_snoc, Er, Hd.
    + constructor; cbn [snd fl_buf fl_eof fl_reaped fl_status]; try done. exists []. by rewrite fw_data_snoc, Er, Hd.
  - constructor; try done. eexists. split; [by rewrite fw_data_snoc, Hd, <- app_assoc|]. cbn [snd]. intros He Hl.
    by rewrite He, (proj2 (Z.ltb_lt _ _) Hl) in Eg.
Qed.
Lemma fw_child_seen obs o l : fw_seen obs l → o ∈ obs → fw_seen obs (fw_child o l).
Proof.
  intros [Hb (rest & Hd & Hr) Hs] Ho. unfold fw_child. cbv zeta.
  assert (Hr' : ∀ b, fl_eof l || b = false → len (fl_buf l) + 1 < FW_BUF → rest = []) by (intros b [? _]%orb_false_iff; by apply Hr).
  destruct (fl_reaped l) eqn:Ere; [|destruct (fo_wait o) eqn:Ew]; constructor; cbn [fl_buf fl_eof fl_reaped fl_status]; try done;
    try (exists rest; split; [done|apply Hr']); auto; intros _; exists o; split; auto.
Qed.
(** The turns the loop took. *)
Lemma fw_run_seen deadline obs block : ∀ before l killed l', fw_seen before l → fw_wait_loop deadline obs block l = Some (killed, l') →
  ∃ used rest, obs = used ++ rest ∧ fw_seen (before ++ used) l' ∧ Forall (λ o, ts_at_or_past (fo_now o) deadline = false) used ∧
    (killed = false → fl_eof l' = true ∧ fl_reaped l' = true).
Proof.
  assert (Hnone : ∀ before l obs, fw_seen before l → ∀ killed : bool, (killed = false → fl_eof l = true ∧ fl_reaped l = true) →
    ∃ used rest, obs = used ++ rest ∧ fw_seen (before ++ used) l ∧ Forall (λ o, ts_at_or_past (fo_now o) deadline = false) used ∧
      (killed = false → fl_eof l = true ∧ fl_reaped l = true)).
  { intros before l o Hl killed Hk. exists [], o. rewrite app_nil_r. by split_and!. }
  induction obs as [|o obs IH]; intros before l killed l' Hl; cbn [fw_wait_loop]; destruct (fl_eof l && fl_reaped l) eqn:Eb; try done;
    try (intros [= <- <-]; apply Hnone; [done|]; intros _; by apply andb_true_iff in Eb).
  destruct (ts_at_or_past (fo_now o) deadline) eqn:Et.
  { destruct (fl_reaped l); [intros [= <- <-]; by apply Hnone|]. destruct block; [done|intros [= <- <-]; by apply Hnone]. }
  assert (Hgo : ∀ l1, fw_seen (before ++ [o]) l1 → fw_wait_loop deadline obs block l1 = Some (killed, l') → ∃ used rest, o :: obs = used ++ rest ∧
    fw_seen (before ++ used) l' ∧ Forall (λ o, ts_at_or_past (fo_now o) deadline = false) used ∧ (killed = false → fl_eof l' = true ∧ fl_reaped l' = true)).
  { intros l1 H1 Hr. destruct (IH _ _ _ _ H1 Hr) as (used & rest & -> & Hs & Hf & Hk). exists (o :: used), rest.
    rewrite <- app_assoc in Hs. split_and!; [done|done|by constructor|done]. }
  pose proof (fw_pipe_seen before o l Hl) as Hp. destruct (fw_pipe o l) as [again l1]. cbn [snd] in Hp. destruct again; [by apply Hgo|].
  apply Hgo, fw_child_seen; [done|]. apply elem_of_app. right. by left.
Qed.
Lemma fw_run_ends deadline obs block : block ≠ [] → ∀ l, Exists (λ o, ts_at_or_past (fo_now o) deadline = true) obs → is_Some (fw_wait_loop deadline obs block l).
Proof.
  intros Hb. induction obs as [|o obs IH]; intros l He; [by inversion He|]. cbn [fw_wait_loop]. destruct (fl_eof l && fl_reaped l); [by eexists|].
  destruct (ts_at_or_past (fo_now o) deadline) eqn:Et; [destruct (fl_reaped l); [by eexists|by destruct block]|]. apply Exists_cons in He as [He|He]; [congruence|].
  destruct (fw_pipe o l) as [[] l1]; by apply IH.
Qed.
(** The firmware query returns once the clock has passed its deadline and, where the child had
    to be killed, the blocking waitpid has returned; a version it reports
    is a trimmed beginning of what the child wrote to the pipe before the deadline, the
    child being gone by then, with exit status 0 or with no status to be had. *)
Theorem fw_query_child_spec start obs block cap :
  let deadline := mk_ts (tv_sec start + 2) (tv_nsec start) in
  let r := nxp_query_fw_child true true start obs block cap in
  (Exists (λ o, ts_at_or_past (fo_now o) deadline = true) obs → block ≠ [] → is_Some r) ∧
  ∀ v, r = Some (Some v) → ∃ used rest buf tail,
    obs = used ++ rest ∧ Forall (λ o, ts_at_or_past (fo_now o) deadline = false) used ∧
    fw_data used = buf ++ tail ∧ len buf < FW_BUF ∧ (∃ o, o ∈ used ∧ (fo_wait o = FwLost ∨ ∃ st, fo_wait o = FwGone st ∧ WIFEXITED st && (WEXITSTATUS st =? 0) = true)) ∧
    PlatformRead.PlatformRead.nxp_query_fw_version buf true cap = Some v.
Proof.
  intros deadline r. unfold r, nxp_query_fw_child. cbn [negb orb]. fold deadline. split.
  - intros He Hb. destruct (fw_run_ends deadline obs block Hb (mk_fw_loop [] false false 0) He) as [[killed l] Hr]. rewrite Hr. by eexists.
  - intros v. destruct (fw_wait_loop deadline obs block _) as [[killed l]|] eqn:Er; [|done]. cbn [mbind option_bind]. intros [= Hv].
    destruct (fw_run_seen deadline obs block [] _ killed l fw_seen_nil Er) as (used & rest & Ho & [Hb (tl & Hd & _) Hs] & Hf & Hk).
    cbn [app] in Hd, Hs. destruct killed; [done|]. destruct (Hk eq_refl) as [_ Hre].
    cbn [negb andb] in Hv. destruct (WIFEXITED (fl_status l) && (WEXITSTATUS (fl_status l) =? 0)) eqn:Ex; [|done].
    exists used, rest, (fl_buf l), tl. split_and!; try done. destruct (Hs Hre) as (o & Hin & [Hw|Hw]); exists o; (split; [done|]); [by left|right; by eexists].
Qed.
(** A query whose child ended while one of the child's own children still holds the pipe: at the
    deadline the child's number, which has been waited for, is sent SIGKILL. *)
Lemma fw_deadline_kills_reaped : ∃ obs l, fw_wait_loop (mk_ts 2 0) obs [] (mk_fw_loop [] false false 0) = Some (true, l) ∧ fl_reaped l = true.
Proof. eexists [mk_fw_obs (mk_ts 1 0) FwAgain (FwGone 0); mk_fw_obs (mk_ts 2 0) FwAgain FwStill], _. by split; [vm_compute|]. Qed.
End Children.
