(* ===== verification/Log.v ===== *)
(** * The protocol log: opcd/opcd_log.h, opcd/opcd_log.c

    The switch that keeps the log silent until the daemon has opened it, the texts of its
    lines (addresses and names), and the look into an acknowledgment about to be sent. A
    line is its priority and its text; the formatting of [vsyslog] is the caller's. *)
From S2P Require Import Prelude CText Codec ScanList Commands Indications Messages Store StoreAsync IpListText FaultProbe State Indication Validate RadioConf Persist Handlers Daemon Logic Frames FieldDump PlatformRun.
From stdpp Require Import base list numbers option tactics strings.
From Stdlib Require Import ZArith Lia.
#[local] Open Scope Z_scope.
Import Commands IpListText.
Import PlatformRun.PlatformRun (WIFEXITED, WEXITSTATUS, WIFSIGNALED, WTERMSIG).

Module Log.

Record syslog := mk_syslog { g_log_ready : bool; sl_lines : list (Z * list Z) }.
Definition opcd_log_init (l : syslog) : syslog := mk_syslog true (sl_lines l).
Definition opcd_logf (priority : Z) (line : list Z) (l : syslog) : syslog :=
  if negb (g_log_ready l) then l else mk_syslog true (sl_lines l ++ [(priority, line)]).

(** [buf] of 16 bytes, [None]: a null pointer. *)
Definition opcd_ip4str (buf : bool) (ip : Z) : list Z :=
  if negb buf then str "?"
  else take 15 (dec (Z.land (Z.shiftr ip 24) 255) ++ str "." ++ dec (Z.land (Z.shiftr ip 16) 255) ++ str "." ++
                dec (Z.land (Z.shiftr ip 8) 255) ++ str "." ++ dec (Z.land ip 255)).

Definition opcd_req_name (req_id : Z) : string :=
  if req_id =? OPC_REQ_LOGIN then "Login"
  else if req_id =? OPC_REQ_LOGOUT then "Logout"
  else if req_id =? OPC_REQ_GET_BASIC_INFO then "GetBasicInfo"
  else if req_id =? OPC_REQ_GET_DEVICE_INFO then "GetDeviceInfo"
  else if req_id =? OPC_REQ_SET_PASSWORD then "SetPassword"
  else if req_id =? OPC_REQ_SET_IP_CONFIG_LIST then "SetIpConfigList"
  else if req_id =? OPC_REQ_CHANGE_IP_ADDRESS then "ChangeIpAddress"
  else if req_id =? OPC_REQ_SET_RADIO_CONFIG then "SetRadioConfig"
  else if req_id =? OPC_REQ_SET_INDICATION_CONFIG then "SetIndicationConfig"
  else if req_id =? OPC_REQ_RESET then "Reset"
  else "Unknown".
Definition opcd_ind_name (ind_id : Z) : string :=
  if ind_id =? OPC_IND_INIT_COMPLETE then "InitComplete"
  else if ind_id =? OPC_IND_WLAN_STATUS_CHANGE then "WlanStatusChange"
  else if ind_id =? OPC_IND_ROAMING then "Roaming"
  else if ind_id =? OPC_IND_AP_DISCONNECT then "ApDisconnect"
  else if ind_id =? OPC_IND_FAULT_DETECT then "FaultDetect"
  else if ind_id =? OPC_IND_RESET_NOTICE then "ResetNotice"
  else if ind_id =? OPC_IND_KEEP_ALIVE then "KeepAlive"
  else "Unknown".

(** The result and the error cause; [None]: the call returns 0. *)
Definition opcd_ack_result_peek (frame : list Z) : option (Z * Z) :=
  if len frame <? 68 then None
  else if negb (rd frame 1 =? OPC_CMD_ACK) then None
  else
    let id := u16 (Z.lor (Z.shiftl (rd frame 2) 8) (rd frame 3)) in
    if negb (len frame =? 68) && negb (id =? OPC_REQ_GET_DEVICE_INFO) then None
    else Some (u16 (Z.lor (Z.shiftl (rd frame 64) 8) (rd frame 65)), u16 (Z.lor (Z.shiftl (rd frame 66) 8) (rd frame 67))).

(** The line on standard error about a wait status of opc_wlan_apply.sh, if one is written. *)
Definition opc_wlan_apply_exit_reason (code : Z) : string :=
  if code =? 2 then "usage-or-multi-network-conf"
  else if code =? 3 then "ctrl-interface-missing"
  else if code =? 4 then "conf-json-driver-apply-failed"
  else if code =? 5 then "reconfigure-failed"
  else if code =? 6 then "transaction-cancelled-or-marker-absent"
  else "unknown".
Definition log_opc_wlan_apply_failure (wstatus : Z) : option (list Z) :=
  if WIFEXITED wstatus
  then Some (str "opcd: opc_wlan_apply: exit=" ++ dec (WEXITSTATUS wstatus) ++ str " reason=" ++ str (opc_wlan_apply_exit_reason (WEXITSTATUS wstatus)))
  else if WIFSIGNALED wstatus then Some (str "opcd: opc_wlan_apply: signal=" ++ dec (WTERMSIG wstatus) ++ str " reason=killed")
  else None.

(** ** Facts *)

(** The log is silent until it is opened, then keeps every line in order. *)
Lemma log_lines ps l :
  sl_lines (foldl (λ l '(p, line), opcd_logf p line l) l ps) = if g_log_ready l then sl_lines l ++ ps else sl_lines l.
Proof.
  revert l. induction ps as [|[p line] ps IH]; intros l; cbn [foldl]; [destruct (g_log_ready l); by rewrite ?app_nil_r|].
  rewrite IH. unfold opcd_logf. destruct (g_log_ready l) eqn:E; cbn [negb g_log_ready sl_lines]; [by rewrite <- app_assoc|by rewrite E].
Qed.
(** Every request the daemon handles has its own name. *)
Lemma handled_named {E} `{Env E} id (fn : handler (E := E)) : lookup_handler id = Some fn → opcd_req_name id ≠ "Unknown"%string.
Proof. revert id fn. by apply (Frames.Frames.lookup_handler_ind (λ id _, opcd_req_name id ≠ "Unknown"%string)). Qed.
Lemma req_name_inj a b : opcd_req_name a = opcd_req_name b → opcd_req_name a ≠ "Unknown"%string → a = b.
Proof.
  unfold opcd_req_name. repeat match goal with |- context [a =? ?k] => destruct (Z.eqb_spec a k) as [->|_] end; try done; intros Hn _; revert Hn;
    repeat match goal with |- context [if b =? ?k then _ else _] => destruct (Z.eqb_spec b k) as [->|_] end; done.
Qed.
(** A printed address reads back and fits the 16 bytes. *)
Lemma ip4str_reads_back ip : is_u32 ip → parse_ipv4 (opcd_ip4str true ip) = Some ip ∧ len (opcd_ip4str true ip) < 16.
Proof.
  intros Hip. assert (H24 : Z.land (Z.shiftr ip 24) 255 = Z.shiftr ip 24).
  { change 255 with (Z.ones 8). rewrite Z.land_ones by done. apply Z.mod_small. rewrite Z.shiftr_div_pow2 by done. unfold is_u32 in Hip.
    change (2 ^ 24) with 16777216. change (2 ^ 8) with 256. Z.to_euclidean_division_equations; lia. }
  assert (Hs : opcd_ip4str true ip = ipv4_str ip).
  { unfold opcd_ip4str. cbn [negb]. rewrite H24. fold (ipv4_str ip). apply take_ge. pose proof (ipv4_str_len ip Hip). unfold len in *. lia. }
  rewrite Hs. split; [by apply parse_ipv4_str|]. pose proof (ipv4_str_len ip Hip). lia.
Qed.

Lemma peek_frame frame ct id n body : parse_expect frame ct id n = Some body → 4 <= n →
  body = drop 64 frame ∧ rd frame 1 = ct ∧ opc_be16_read frame 2 = id ∧ len frame = 64 + len body ∧ n <= len body.
Proof.
  intros Hp Hn. destruct (FieldDump.expect_body _ _ _ _ _ Hp ltac:(lia)) as (Hb & Hl & Hm & hdr & Hf).
  split; [done|]. unfold parse_expect in Hp. rewrite Hf in Hp. destruct (negb (command_type hdr =? ct)) eqn:E1; [done|].
  destruct (negb (req_indication_id hdr =? id)) eqn:E2; [done|]. guards.
  unfold opc_frame_parse in Hf. cbv zeta in Hf. repeat (destruct (_ <? _) in Hf; [done|]). destruct (_ && _) in Hf; [done|].
  unfold opc_fixed_header_unpack in Hf. destruct (_ <? _) in Hf; [done|]. cbn [hdr_length] in Hf. destruct (negb _) in Hf; [done|].
  destruct (_ <=? _) in Hf; injection Hf as <- _; cbn [command_type req_indication_id] in *; done.
Qed.
(** The result the log prints for an acknowledgment is the one the client decodes.
    For every frame: a simple acknowledgment of any request and a GetDeviceInfo
    acknowledgment give the two fields their unpacker reads; the data acknowledgment of
    GetBasicInfo, requests and notifications give nothing. *)
Theorem ack_peek_agrees frame :
  (∀ id a, opc_simple_ack_unpack frame id = Some a → len frame = 68 → opcd_ack_result_peek frame = Some (result a, error_cause a)) ∧
  (∀ a, opc_get_device_info_ack_unpack frame = Some a → opcd_ack_result_peek frame = Some (di_result a, di_error_cause a)) ∧
  (∀ a, opc_get_basic_info_ack_unpack frame = Some a → opcd_ack_result_peek frame = None) ∧
  (rd frame 1 ≠ OPC_CMD_ACK → opcd_ack_result_peek frame = None).
Proof.
  unfold opcd_ack_result_peek. change (u16 (Z.lor (Z.shiftl (rd frame 2) 8) (rd frame 3))) with (opc_be16_read frame 2). cbv zeta.
  assert (Hfields : ∀ body, body = drop 64 frame →
    (u16 (Z.lor (Z.shiftl (rd frame 64) 8) (rd frame 65)), u16 (Z.lor (Z.shiftl (rd frame 66) 8) (rd frame 67))) =
    (opc_be16_read body 0, opc_be16_read body 2)).
  { intros body ->. unfold opc_be16_read. rewrite !(FieldDump.rd_drop frame 64) by lia. done. }
  split_and!.
  - intros id a. unfold opc_simple_ack_unpack. destruct (parse_expect _ _ _ _) as [body|] eqn:E; [|done]. intros [= <-] Hl.
    apply peek_frame in E as (Hb & H1 & _); [|done]. rewrite Hl, H1, Z.eqb_refl. cbn [negb andb Z.ltb Z.compare Pos.compare Pos.compare_cont Z.eqb Pos.eqb].
    by rewrite (Hfields body Hb).
  - intros a. unfold opc_get_device_info_ack_unpack. destruct (parse_expect _ _ _ _) as [body|] eqn:E; [|done]. intros [= <-].
    apply peek_frame in E as (Hb & H1 & H2 & H3 & H4); [|done]. unfold OPC_GET_DEVICE_INFO_ACK_BODY_LEN in H4.
    rewrite (proj2 (Z.ltb_ge _ _)) by lia. rewrite H1, H2, !Z.eqb_refl. cbn [negb andb]. rewrite andb_false_r. by rewrite (Hfields body Hb).
  - intros a. unfold opc_get_basic_info_ack_unpack. destruct (parse_expect _ _ _ _) as [body|] eqn:E; [|done]. intros _.
    apply peek_frame in E as (Hb & H1 & H2 & H3 & H4); [|done]. unfold OPC_GET_BASIC_INFO_ACK_BODY_LEN in H4.
    destruct (_ <? _); [done|]. rewrite H1, H2, Z.eqb_refl, (proj2 (Z.eqb_neq (len frame) 68)) by lia. done.
  - intros Hc. destruct (_ <? _); [done|]. by rewrite (proj2 (Z.eqb_neq _ _) Hc).
Qed.
End Log.
