(* ===== verification/VhlPrint.v ===== *)
(** * What vhlctl prints: the output half of vhlctl/vhlctl.c

    The lines the client prints for an acknowledgment, and the hexadecimal dump of a frame.
    A line is its text without the newline. Run against the daemon on the board, the lines of
    a device-info show what the device's files say. *)
From S2P Require Import Prelude CText Codec ScanList Commands Indications Messages Store StoreAsync IpListText FaultProbe State Indication Validate RadioConf Persist Handlers IpListLoad Daemon SimEnv Logic Frames Invariant Session Routes PlatformRead PlatformApply LinkFiles Snapshot Vhlctl FieldDump Board BoardInfo.
From stdpp Require Import base list numbers option tactics strings.
From Stdlib Require Import ZArith Lia.
#[local] Open Scope Z_scope.
Import Commands FieldDump.
Import Board.Board (hw, board, board_env, b_fw, b_inv, b_steps, b_snap, now, in_field, mac_or_zero, nxp_get_essid, mk_board, base, OPCD_SNAPSHOT_PATH, hw_snap, example_hw, example_board).
Import Vhlctl.Vhlctl (client, open_client_socket, send_recv, exchange, cmd_device_info, cmd_basic_info, daemon_peer, cl_peer, next_seq, mk_client).

Module VhlPrint.

(** ** Frames *)

(** The printed form of one byte in a row of 16, at place [j]; a gap after the eighth. *)
Definition dump_cell (row : list Z) (j : nat) : list Z :=
  match row !! j with Some c => hex2 c ++ str " " | None => str "   " end ++ (if (j =? 7)%nat then str " " else []).
Definition dump_row (off : Z) (row : list Z) : list Z :=
  str "    " ++ hex_digits 4 off ++ str " " ++ concat (map (dump_cell row) (seq 0 16)) ++ str " |" ++ map printable row ++ str "|".
Fixpoint dump_rows (fuel : nat) (off : Z) (buf : list Z) : list (list Z) :=
  match fuel, buf with
  | S fuel, _ :: _ => dump_row off (take 16 buf) :: dump_rows fuel (off + 16) (drop 16 buf)
  | _, _ => []
  end.
Definition hex_dump (label : string) (buf : list Z) : list (list Z) :=
  (str "  [" ++ str label ++ str "] len=" ++ dec (len buf)) :: dump_rows (length buf) 0 buf.

(** ** Results *)

Definition result_str (r : Z) : string := if r =? OPC_RESULT_OK then "OK" else "NG".
Definition err_str (e : Z) : string :=
  if e =? 0 then "none"
  else if e =? 1 then "login-violation"
  else if e =? 2 then "login-condition"
  else if e =? 3 then "packet-size"
  else if e =? 4 then "nvram"
  else if e =? 16 then "0x0010 (indication-violation/pw-mismatch/slot-range/station-type)"
  else if e =? 17 then "0x0011 (slot-empty/radio-freq/ipcfg-ip/pw-char)"
  else if e =? 18 then "0x0012 (ip-change-conflict/ind-recipient-ip/pw-nul/ipcfg-netmask/radio-scan-ch)"
  else if e =? 19 then "0x0013 (radio-mode/ipcfg-gw/new-pw-char)"
  else if e =? OPC_ERR_RADIO_BW then "0x0014 (radio-bw/new-pw-nul/ipcfg-ntp)"
  else if e =? 21 then "0x0015 (ipcfg-essid-char/radio-priority-band)"
  else if e =? 22 then "0x0016 (ipcfg-essid-nul/radio-priority-ch)"
  else if e =? OPC_ERR_LIST_SEQUENCE then "0x0018 (list-sequence)"
  else if e =? OPC_ERR_RADIO_APPLY then "0x0050 (radio-apply refused / ip-change subnet clash)"
  else "other".
Definition hex0x (n : nat) (v : Z) : list Z := str "0x" ++ hex_digits n v.
(** The line of a command with a simple acknowledgment. *)
Definition print_ack (cmd : string) (a : opc_simple_ack_t) : list Z :=
  str cmd ++ str ": " ++ str (result_str (result a)) ++ str " err=" ++ str (err_str (error_cause a)) ++ str "(" ++ hex0x 4 (error_cause a) ++ str ")".

(** ** Fields *)

Definition print_mac (label : string) (mac : list Z) : list Z := str "  " ++ str label ++ str " = " ++ text_mac mac.
Definition print_scan (label : string) (w : opc_wlan_radio_state_t) : list Z :=
  str "  " ++ str label ++ str " scan_band=" ++ hex0x 4 (rs_scan_band w) ++ str " scan_chlist=" ++
  concat (map hex2 (take (Z.to_nat OPC_SCAN_CHLIST_LEN) (rs_scan_chlist w))).
Definition print_ipv4 (label : string) (ip : Z) : list Z :=
  str "  " ++ str label ++ str " = " ++
  text_ipv4 (Z.land (Z.shiftr ip 24) 255) (Z.land (Z.shiftr ip 16) 255) (Z.land (Z.shiftr ip 8) 255) (Z.land ip 255).
Definition station_str (t : Z) : string := if t =? OPC_STATION_DUAL then "DUAL" else "SINGLE".

(** ** basic-info and device-info *)

Definition print_basic_info (a : opc_get_basic_info_ack_t) : list (list Z) :=
  [str "basic-info:";
   str "  vendor_code     = " ++ hex0x 8 (bi_vendor_code a);
   str "  product_code    = " ++ hex0x 4 (bi_product_code a);
   str "  product_subcode = " ++ hex0x 4 (bi_product_subcode a);
   str "  device_status   = " ++ hex0x 8 (bi_device_status a) ++ str " " ++
     str (if bi_device_status a =? OPC_DEVICE_LOGGED_IN then "(logged-in)" else if bi_device_status a =? OPC_DEVICE_READY then "(ready)" else "(booting)");
   str "  station_type    = " ++ str (station_str (bi_station_type a))].
Definition print_wlan (label : string) (w : opc_wlan_radio_state_t) : list (list Z) :=
  [str "  " ++ str label ++ str ": mode=" ++ dec (rs_mode w) ++ str " bw=" ++ dec (rs_bandwidth w) ++ str " freq=" ++ dec (rs_freq_mhz w) ++
     str " ch=" ++ hex0x 4 (rs_channel w) ++ str " status=" ++ hex0x 4 (rs_status w) ++ str " SNR=" ++ text_int (rs_snr w) ++
     str " RSSI=" ++ text_int (rs_rssi w);
   print_mac (label +:+ " mac") (rs_mac w);
   print_mac (label +:+ " connect_ap_mac") (rs_connect_ap_mac w);
   print_scan label w].
Definition print_device_info (a : opc_get_device_info_ack_t) : list (list Z) :=
  [str "device-info:";
   str "  vendor=" ++ hex0x 8 (di_vendor_code a) ++ str " product=" ++ hex0x 4 (di_product_code a) ++ str " subcode=" ++ hex0x 4 (di_product_subcode a);
   str "  firmware=" ++ cstr (di_firmware_version a) ++ str " hardware=" ++ cstr (di_hardware_version a) ++ str " serial=" ++ cstr (di_serial_number a);
   print_mac "ethernet_mac" (di_ethernet_mac a);
   print_ipv4 "ip_address" (di_ip_address a);
   print_ipv4 "subnet_mask" (di_subnet_mask a);
   print_ipv4 "default_gateway" (di_default_gateway a);
   print_ipv4 "ntp_server" (di_ntp_server a);
   str "  essid='" ++ cstr (di_essid a) ++ str "'";
   str "  device_status=" ++ hex0x 8 (di_device_status a) ++ str " station_type=" ++ str (station_str (di_station_type a)) ++
     str " priority_ch=" ++ hex0x 4 (di_priority_ch a);
   str "  802.11r=" ++ dec (di_ieee_11r a) ++ str " 11ai=" ++ dec (di_ieee_11ai a) ++ str " 11k=" ++ dec (di_ieee_11k a) ++ str " 11v=" ++ dec (di_ieee_11v a)] ++
  print_wlan "WLAN#1" (di_wlan1 a) ++
  (if di_station_type a =? OPC_STATION_DUAL then print_wlan "WLAN#2" (di_wlan2 a) else []).
(** What the two commands print without --hex, from the bytes received. *)
Definition show_basic_info (rx : list Z) : list (list Z) :=
  match opc_get_basic_info_ack_unpack rx with Some a => print_basic_info a | None => [] end.
Definition show_device_info (rx : list Z) : list (list Z) :=
  match opc_get_device_info_ack_unpack rx with
  | None => []
  | Some a => if negb (di_result a =? OPC_RESULT_OK)
              then [str "device-info: NG err=" ++ str (err_str (di_error_cause a)) ++ str "(" ++ hex0x 4 (di_error_cause a) ++ str ")"]
              else print_device_info a
  end.

(** ** What the user sees of the board *)

(** A string field, as printed after its way over the wire: cut at the first NUL, at most 31 bytes. *)
Lemma cstr_strnlen s : ∀ n, take (strnlen_loop s n) s = take n (cstr s).
Proof.
  induction s as [|c s IH]; intros [|n]; cbn [strnlen_loop cstr]; rewrite ?take_nil, ?take_0; try done.
  destruct (c =? 0); [done|]. cbn. by rewrite IH.
Qed.
Lemma cstr_pad_shown n s : 0 < n → cstr (cstr_pad n s) = take (Z.to_nat (n - 1)) (cstr s).
Proof.
  intros Hn. unfold cstr_pad, opc_bounded_strnlen. cbv zeta. rewrite Nat2Z.id, cstr_strnlen.
  pose proof (strnlen_bounds s (n - 1) ltac:(lia)) as [Hb _]. unfold opc_bounded_strnlen in Hb.
  assert (Hz : zeros (n - Z.of_nat (strnlen_loop s (Z.to_nat (n - 1)))) = 0 :: zeros (n - 1 - Z.of_nat (strnlen_loop s (Z.to_nat (n - 1))))).
  { unfold zeros. rewrite <- replicate_S. f_equal. lia. }
  rewrite Hz. apply IpListLoad.cstr_app_nul. apply Forall_take, IpListText.IpListText.cstr_no_nul.
Qed.
Definition shown_field (f : list Z) : list Z := take 31 (cstr f).

Section Shown.
Context {B : Type} `{Env B} (k : hw B).
#[local] Instance shown_board : Env (board B) := board_env k.

(** The lines of the output, of an acknowledgment with what the device says in it: addresses
    in dotted form, MAC addresses as the logger writes them, strings up to their end. *)
Record lines_of (ack : opc_get_device_info_ack_t) (lines : list (list Z)) : Prop := mk_lines_of {
  lo_versions : lines !! 2%nat = Some (str "  firmware=" ++ shown_field (di_firmware_version ack) ++
    str " hardware=" ++ shown_field (di_hardware_version ack) ++ str " serial=" ++ shown_field (di_serial_number ack));
  lo_mac : lines !! 3%nat = Some (str "  ethernet_mac = " ++ LinkFiles.LinkFiles.mac_text (di_ethernet_mac ack));
  lo_ip : lines !! 4%nat = Some (str "  ip_address = " ++ IpListText.IpListText.ipv4_str (di_ip_address ack));
  lo_mask : lines !! 5%nat = Some (str "  subnet_mask = " ++ IpListText.IpListText.ipv4_str (di_subnet_mask ack));
  lo_gw : lines !! 6%nat = Some (str "  default_gateway = " ++ IpListText.IpListText.ipv4_str (di_default_gateway ack));
  lo_ntp : lines !! 7%nat = Some (str "  ntp_server = " ++ IpListText.IpListText.ipv4_str (di_ntp_server ack));
  lo_essid : lines !! 8%nat = Some (str "  essid='" ++ shown_field (di_essid ack) ++ str "'");
  lo_wlan_mac : lines !! 12%nat = Some (str "  WLAN#1 mac = " ++ LinkFiles.LinkFiles.mac_text (rs_mac (di_wlan1 ack)));
  lo_ap_mac : lines !! 13%nat = Some (str "  WLAN#1 connect_ap_mac = " ++ LinkFiles.LinkFiles.mac_text (rs_connect_ap_mac (di_wlan1 ack))) }.
Definition shows (b : board B) (iface : Z) (lines : list (list Z)) : Prop :=
  ∃ ack, BoardInfo.BoardInfo.reported k b iface ack ∧ lines_of ack lines.
Lemma text_mac_said m : len m = 6 → text_mac m = LinkFiles.LinkFiles.mac_text m.
Proof.
  unfold len. intros Hl. assert (H6 : length m = 6%nat) by lia. clear Hl. destruct m as [|x0 [|x1 [|x2 [|x3 [|x4 [|x5 [|]]]]]]]; try done.
  assert (Hx : ∀ x, hex2 x = LinkFiles.LinkFiles.hex_pair x).
  { intros x. unfold hex2, LinkFiles.LinkFiles.hex_pair, hex_digit, LinkFiles.LinkFiles.hex_char.
    f_equal; [|f_equal]; (destruct (_ <? 10); [done|lia]). }
  unfold text_mac. rewrite !Hx. reflexivity.
Qed.
Lemma ipv4_printed label ip : is_u32 ip → print_ipv4 label ip = str "  " ++ str label ++ str " = " ++ IpListText.IpListText.ipv4_str ip.
Proof.
  intros Hip. unfold print_ipv4, text_ipv4, IpListText.IpListText.ipv4_str. change 255 with (Z.ones 8).
  assert (Ht : 0 <= Z.shiftr ip 24 < 2 ^ 8).
  { rewrite Z.shiftr_div_pow2 by lia. unfold is_u32 in Hip. split; [apply Z.div_pos; lia|apply Z.div_lt_upper_bound; lia]. }
  rewrite (Z.land_ones (Z.shiftr ip 24)) by lia. by rewrite (Z.mod_small (Z.shiftr ip 24)).
Qed.
Lemma ack_lines ack : device_info_ok ack → lines_of ack (print_device_info (device_info_canon ack)).
Proof.
  intros Hok. assert (H1 : len (di_ethernet_mac ack) = 6) by apply Hok.
  assert (Hip : is_u32 (di_ip_address ack) ∧ is_u32 (di_subnet_mask ack) ∧ is_u32 (di_default_gateway ack) ∧ is_u32 (di_ntp_server ack))
    by (split_and!; apply Hok). destruct Hip as (I1 & I2 & I3 & I4).
  assert (H2 : len (rs_mac (di_wlan1 ack)) = 6) by apply Hok. assert (H3 : len (rs_connect_ap_mac (di_wlan1 ack)) = 6) by apply Hok. clear Hok.
  destruct ack as [res err v pc psc md sd fw hwv sn mac ip mask gw ntp es st stt pch r11 ai k11 v11 w1 w2].
  cbn [di_ethernet_mac di_wlan1 di_ip_address di_subnet_mask di_default_gateway di_ntp_server] in *. apply text_mac_said in H1, H2, H3.
  unfold print_device_info, print_wlan, print_mac, device_info_canon, shown_field. cbn [di_firmware_version di_hardware_version di_serial_number di_ethernet_mac di_ip_address
    di_subnet_mask di_default_gateway di_ntp_server di_essid di_wlan1 app]. rewrite !cstr_pad_shown by done. rewrite H1, H2, H3, !ipv4_printed by done.
  constructor; reflexivity.
Qed.

(** A reply of the daemon in world [w] as the client receives it. *)
Lemma send_recv_daemon (w w' : world (board B)) c ip port frame resp :
  cl_peer c = daemon_peer w ip port → opcd_dispatch frame ip port OPC_FRAME_MAX w = ((0, resp), w') →
  0 < len resp <= OPC_FRAME_MAX → send_recv c (Some frame) = Some resp.
Proof.
  intros Hp Hd Hl. unfold send_recv. rewrite Hp. cbn [mbind option_bind]. unfold daemon_peer. rewrite Hd.
  rewrite (proj2 (Z.ltb_lt 0 (len resp))) by lia. cbn [Z.eqb andb mbind option_bind].
  rewrite take_ge by (unfold len, OPC_FRAME_MAX in *; lia). done.
Qed.
(** The client's side of an exchange with the daemon in world [w]. *)
Lemma exchange_daemon (w w' : world (board B)) c ip port frame resp on_reply :
  open_client_socket c = true → cl_peer c = daemon_peer w ip port →
  opcd_dispatch frame ip port OPC_FRAME_MAX w = ((0, resp), w') → 0 < len resp <= OPC_FRAME_MAX →
  exchange c (Some frame) on_reply = (on_reply resp, Some frame).
Proof.
  intros Ho Hp Hd Hl. unfold exchange. rewrite Ho. cbn [negb]. by rewrite (send_recv_daemon w w' c ip port frame resp Hp Hd Hl).
Qed.
Lemma device_info_resp seq ack : is_u16 seq → device_info_ok ack → ∃ resp, opc_get_device_info_ack_pack OPC_FRAME_MAX seq ack = Some resp ∧
  0 < len resp <= OPC_FRAME_MAX ∧ opc_get_device_info_ack_unpack resp = Some (device_info_canon ack).
Proof.
  intros Hseq Hok. destruct (device_info_ack_roundtrip OPC_FRAME_MAX seq (Z.le_refl _) Hseq ack Hok) as (resp & hdr & body & Ha & Hl & Hf & _ & _ & _ & Hu).
  exists resp. split; [exact Ha|]. split; [|exact Hu]. split; [|exact Hl]. destruct resp; [discriminate Hf|]. rewrite len_cons. pose proof (len_nonneg resp). lia.
Qed.

End Shown.

Definition board_client : client :=
  mk_client (str "10.0.0.1") true true
    (daemon_peer (H:=board_env BoardInfo.BoardInfo.linked_hw) (mk_world demo_session example_board []) demo_client 5000).
End VhlPrint.
